(* ===== verification/_CoqProject ===== *)
-Q . S2P
Prelude.v
State.v
Ring.v
ListSpec.v
Bitsop.v
Value.v
Protocol.v
Codec.v
Section.v
Md5.v
TableDef.v
Pkey.v
Field.v
Result.v
Task.v
BinMalloc.v
BinHeap.v
BinAlloc.v
BinResize.v
BinClient.v
BinSpec.v
Mallocator.v
BinBytes.v
RawData.v
RawBuf.v
RawRow.v
RawRep.v
RawSpec.v
RawExample.v
RawStore.v
RawCopy.v
RawFrame.v
DataChunk.v
RawProc.v
ProcSpec.v
ProcAlias.v
ProcChange.v
ProcExample.v
NodeMem.v
NodeGroup.v
NodeIndex.v
NgInfo.v
NodeLinks.v
NodeStore.v
NodeAlloc.v
NodeLru.v
NodeInit.v
NodeSession.v
NodeSpec.v
PoolMem.v
PoolBin.v
Hash.v
Pool.v
PoolChain.v
PoolStep.v
PoolHash.v
PoolFind.v
PoolInv.v
PoolOps.v
PoolRun.v
PoolStart.v
PoolSession.v
PoolSpec.v
PoolExample.v
