(* ===== verification/Prelude.v ===== *)
(** * DTC: a verification development

    DTC (the sources say TTC) is a caching proxy in front of a relational
    database.  A server process ([src/cache]) keeps rows in one segment of
    shared memory and answers requests that arrive as packets; the packet
    format, the table definitions and the field operations are shared with the
    clients ([src/common]).  The development models this core: the packet
    format from bytes to values, the table definitions that give it meaning, and
    the data structures of the segment from the allocator up to nodes, lists
    and hash buckets.

    ** Conventions

    Integers are [Z] with the wrap-around of their C type written out ([u8] ...
    [s64] below).  Undefined behaviour (an access outside an object, a null
    pointer, an endless loop) is [None]; error returns are values.  Stateful
    code is written in the state monad of [State], whose [runs m s Q] says that
    [m] completes in [s] with a result that satisfies [Q]: a theorem of this
    form excludes undefined behaviour.  Definitions keep the names of the code;
    a prefix is added where C++ overloads a name.

    ** The packet format ([src/common])

    - [Bitsop] ([bitsop.h], [bitsop.c]): bit arrays; the bit copy moves exactly
      its range, the table-driven count is the number of set bits.
    - [Value] ([value.h], [value.c]): byte slices with pointers into blocks,
      tagged values, case-insensitive comparison, typed append and consume.
    - [Protocol] ([protocol.h], [cache_error.h]): the constants of the wire.
    - [Codec] ([encode.cc], [decode.cc]): lengths and values; round trips, and
      decoding of arbitrary bytes inside the packet.
    - [Section] ([section.h], [section.cc] and their codec): tagged sections;
      round trip, decoding of arbitrary bytes in bounds, [SetTag].
    - [Md5] ([md5.c]): the digest equals a bit-level RFC 1321 specification for
      a message fed in any pieces.
    - [TableDef] ([tabledef.h], [tabledef.cc]): fields, their name index, key
      layout, and the packed definition a client receives and verifies.
    - [Field] ([field.h], [field.cc]): field sets, rows, update and select
      lists.

    ** Requests ([src/common])

    - [Result] ([result.h], [packet_result.cc]): the rows of an answer; exactly
      those in the limit window are encoded.  Sizes are the [int] of the code.
    - [Pkey] ([task_pkey.h], [task_pkey.cc]): integer keys packed at their
      column's width, with the range check.
    - [Task] ([task_base.h], [task_request.h], [task_server.cc]): what the row
      storage uses of a request: condition, update, key, answer.

    ** Shared memory ([src/cache])

    - [BinMalloc] ([bin_malloc.h], [bin_malloc.cc]): the allocator, all its
      operations but [CheckMem], which is compiled under BIN_MEM_CHECK only.  [BinHeap] holds its invariant and [Free], [BinAlloc]
      [Malloc], [BinResize] [ReAlloc]; [BinClient] states them against the list
      of blocks the clients hold ([owns]) and defines sessions ([live]);
      [BinSpec] has the theorems.
    - [Mallocator] ([mallocator.h]): the allocator's interface as a class, with
      the bytes of the blocks, and its laws; [BinBytes] proves that [CBinMalloc]
      satisfies them.
    - [RawData] ([raw_data.h], [raw_data.cc]): the rows of a node in one block,
      on any [Mallocator].  [RawBuf] has the bytes of a chunk, [RawRow] the
      cells of a row, [RawRep] the relation [stored] between an object with its
      chunk and a list of rows, [RawSpec] what each operation does to that list,
      [RawStore] the theorems on sessions, [RawCopy] the operations that work on
      two objects or re-encode a row, [RawFrame] what no operation assigns,
      [RawExample] states computed on [CBinMalloc].
    - [RawProc] ([raw_data_process.h], [raw_data_process.cc],
      [raw_data_process2.cc]): what a request does to the rows of a node, on
      [RawData], [Task], [Result] and [Pkey]; the pool that frees memory is the
      interface [CachePool], with its laws in [ProcChange]; the flush request
      ([cache_flush.h], [FlushRow] of [cache_flush.cc]) is the queue of the rows
      it was given.  The strings of a row just decoded lie in the chunk:
      [ProcAlias] has what an update list then does to the chunk in place.
      [ProcSpec] (count, delete, flush) and [ProcChange] (insert, update) have
      the theorems, [ProcExample] runs them on a node with two rows.
    - [Ring] ([src/common/list.h]) and [ListSpec]: doubly linked lists over the
      interface [Links]/[LinksLaws], which pointers, handles of node groups and
      node ids implement; sequences of operations refine lists.
    - [NodeMem]: the objects of the node store, and the interface
      [Allocator]/[AllocatorLaws] through which the store sees its memory.
      [NodeGroup] ([node_group.h], [node_group.cc], [node.h]), [NodeIndex]
      ([node_index.h], [node_index.cc], [node_list.h]) and [NgInfo]
      ([ng_info.h], [ng_info.cc], [ng_list.h]) are the operations; [NodeLinks],
      [NodeStore], [NodeAlloc], [NodeLru] and [NodeInit] the invariant and what
      each operation does to it; [NodeSession] the states that sequences of
      operations reach; [NodeSpec] the theorems, and the proof that [CBinMalloc]
      satisfies [AllocatorLaws], so that they hold of the composition.
    - [Hash] ([hash.h], [hash.cc], [src/common/new_hash.cc]): the bucket table
      and both hash functions.
    - [DataChunk] ([data_chunk.h]): what the pool reads of a node's chunk, and
      that it is what the row storage wrote.
    - [Pool] ([cache_pool.h], [cache_pool.cc]): the nodes by key.  [PoolMem]
      joins the two views of the memory, objects and chunks, in the interface
      [PoolMemory], which [PoolBin] proves of [CBinMalloc]; [PoolChain],
      [PoolStep], [PoolHash] and [PoolFind] relate the hash chains to lists of
      nodes, [PoolInv], [PoolOps] and [PoolRun] have the invariant and what the
      operations do to it, [PoolStart] the formatted pool, [PoolSession] the
      sequences of operations, [PoolSpec] the theorems on [CBinMalloc], and
      [PoolExample] a pool with one entry.  The invariant [pool] speaks of the
      state: chains read from buckets and links, rings read from the nodes,
      blocks held by the allocator.

    ** What the theorems show

    Of each codec: what is encoded is decoded again, and on arbitrary bytes the
    decoder terminates inside the packet.  Of each container: an invariant that
    every operation keeps, the result of every operation on every branch, and
    that no operation touches what belongs to others.  Of the allocator and the
    node store: the same for all sessions from an initialised segment, and that
    every call of a session completes.  Of the row storage: any session of calls
    refines a list of rows with a cursor, and rows come back as they went in, at
    the width of their columns.  Of the requests: which rows they select, change
    and count, that the node's data handle follows a chunk that moves, what
    reaches the flush queue, and what is left when memory runs out half way.  Of
    the pool: that its chains are a table from keys to nodes, also while it is
    being rehashed, each node on one LRU ring and with a chunk that carries its
    key; where a new node is put, and what a purge takes away.  Theorems with hypotheses have a
    closed instance, on states computed by the definitions themselves.

    ** Bounds and fuel

    Loops whose length the data gives run on it ([nat] from a length or count).
    [Malloc] and [ReAlloc] take fuel for the walk of one bin: one step is
    enough, because bins above the request's own hold only chunks that are big
    enough, and the theorems hold for any positive fuel.  The heap theorems
    cover segments up to [MAX_ALLOC_SIZE] (4 GB), the range of the chunk size
    field.  An answer is at most 128 MB: from there on the [int] sizes of
    [CResultPacket] overflow.  Sessions assume of the caller what its code does: a node enters one
    list at most, is released once, and writes stay inside the caller's blocks.
    The walk of a hash chain has as much fuel as the pool has entries; the
    notifier of purges may do anything but change the store or its memory
    ([quiet_notifier]); a node is allocated for a key only after the key was
    not found, and gets its data before the next search.

    ** Not modelled

    Error texts and log lines, statistics files, and the atomicity of the
    reference counters ([TAtomicS32]): the code modelled runs in one thread.
    Text of [long double] in the value codec is an interface ([FloatText]), the
    C library writes and reads it.  [BinMalloc] keeps the data area as 8-byte
    words; the head of the segment and the bins are records.  Sockets, pollers,
    threads, timers, configuration files, MySQL and the plugin, agent and tool
    programs are input and output around this core and are left out.

    Of the requests on rows the theorems are for callers that do not ask for
    the affected rows; the hour clock does not tick inside a request; results
    of [MALLOC] and [REALLOC] for scratch buffers are arguments.  The pointer
    of a decoded string is its offset in the chunk with the bytes that were
    there; writes through it are writes to the chunk, and the use of such a
    pointer after the chunk has changed is left undefined where an update could
    make one.  In [FlushRow] the copy of a row into a task is an argument, which
    may fail; of the task its row is kept.  [GetData], [ReplaceRows] and
    [PurgeData] are modelled without a theorem of their own.

    Of the pool, [TTCMemOpen] and [TTCMemAttach] (which map the segment), the
    empty-node list, time markers and eviction are left out.

    ** Plan

    The eviction of the pool ([TryPurgeSize], [PrePurgeNodes], time markers),
    the feature records and the empty-node filter, [ReplaceData] with the rows
    of a helper's answer, then the tree storage ([t_tree.cc], [tree_data.h]) and
    the request execution of [cache_process.cc]. *)

From Stdlib Require Export ZArith Lia.
From stdpp Require Export base tactics option list numbers sets.

#[global] Open Scope Z_scope.

(** ** Machine integers

    A w-bit C integer is a [Z]; the conversions below are the ones the C
    compiler inserts (two's complement, x86-64). *)

Definition uwrap (w x : Z) : Z := x mod 2 ^ w.
Definition swrap (w x : Z) : Z := (x + 2 ^ (w - 1)) mod 2 ^ w - 2 ^ (w - 1).

Declare Scope cint_scope.
Delimit Scope cint_scope with cint.
Abbreviation u8 := (uwrap 8).
Abbreviation u16 := (uwrap 16).
Abbreviation u32 := (uwrap 32).
Abbreviation u64 := (uwrap 64).
Abbreviation s8 := (swrap 8).
Abbreviation s32 := (swrap 32).
Abbreviation s64 := (swrap 64).
Notation "a '+u32' b" := (uwrap 32 (a + b)) (at level 50, left associativity) : cint_scope.
Notation "a '-u32' b" := (uwrap 32 (a - b)) (at level 50, left associativity) : cint_scope.
Notation "a '*u32' b" := (uwrap 32 (a * b)) (at level 40, left associativity) : cint_scope.

Definition is_byte (b : Z) : Prop := 0 <= b < 256.
Definition is_byteb (b : Z) : bool := (0 <=? b) && (b <? 256).
Definition bytes (l : list Z) : Prop := Forall is_byte l.

(** C truth value of a condition. *)
Definition b2z (b : bool) : Z := if b then 1 else 0.

(** ** Arrays indexed by C integers

    Reading or writing outside the array is undefined behaviour in C: it is
    [None] here, never a silent default. *)

Definition rd {A} (l : list A) (i : Z) : option A :=
  if i <? 0 then None else l !! Z.to_nat i.

Definition wr {A} (l : list A) (i : Z) (x : A) : option (list A) :=
  if (0 <=? i) && (i <? Z.of_nat (length l)) then Some (<[Z.to_nat i := x]> l) else None.

(** [memset(l + i, x, n)] / [memcpy(l + i, xs, length xs)]. *)
Fixpoint wr_many {A} (l : list A) (i : Z) (xs : list A) : option (list A) :=
  match xs with
  | [] => Some l
  | x :: xs' => l' ← wr l i x; wr_many l' (i + 1) xs'
  end.

(** ** Tactics *)

(** Case analysis on every integer comparison of the goal. *)
Ltac zcase1 :=
  match goal with
  | |- context [Z.ltb ?a ?b] => destruct (Z.ltb_spec a b)
  | |- context [Z.leb ?a ?b] => destruct (Z.leb_spec a b)
  | |- context [Z.eqb ?a ?b] => destruct (Z.eqb_spec a b)
  | |- context [Z.gtb ?a ?b] => rewrite (Z.gtb_ltb a b)
  | |- context [Z.geb ?a ?b] => rewrite (Z.geb_leb a b)
  end.
Ltac zcases := repeat (zcase1; simpl; try lia).

(** Decide the test of the outermost conditional, closing the cases that
    contradict the hypotheses. *)
Ltac zif :=
  match goal with
  | |- context [if ?c then _ else _] =>
      match c with
      | context [Z.ltb ?a ?b] => destruct (Z.ltb_spec a b); try lia
      | context [Z.leb ?a ?b] => destruct (Z.leb_spec a b); try lia
      | context [Z.eqb ?a ?b] => destruct (Z.eqb_spec a b); try lia
      end
  end; cbn [negb andb orb].
Ltac zifs := repeat zif.

Ltac zcase_in H :=
  match type of H with
  | context [Z.ltb ?a ?b] => destruct (Z.ltb_spec a b)
  | context [Z.leb ?a ?b] => destruct (Z.leb_spec a b)
  | context [Z.eqb ?a ?b] => destruct (Z.eqb_spec a b)
  | context [Z.gtb ?a ?b] => rewrite (Z.gtb_ltb a b) in H
  | context [Z.geb ?a ?b] => rewrite (Z.geb_leb a b) in H
  end.

(** Linear arithmetic with the wrap-around of known constants unfolded. *)
Ltac wrap_lia :=
  unfold uwrap, swrap, is_byte in *;
  repeat match goal with
    | |- context [2 ^ ?n] => let v := eval vm_compute in (2 ^ n) in change (2 ^ n) with v
    | H : context [2 ^ ?n] |- _ => let v := eval vm_compute in (2 ^ n) in change (2 ^ n) with v in H
    end;
  Z.div_mod_to_equations; lia.

(** Step through an option-monad computation known to succeed. *)
Ltac inv_bind H :=
  repeat match type of H with
    | (_ ≫= _) = Some _ => apply bind_Some in H; destruct H as (? & ? & H)
    end.

(** Equality of structured values up to linear arithmetic at the leaves. *)
Ltac feq := repeat first [reflexivity | lia | progress f_equal].

(** Reduce the binds of the option monad and nothing else. *)
Ltac osimpl :=
  cbn [mbind mret fmap option_bind option_ret option_fmap option_map from_option fst snd].

Create HintDb dtc discriminated.
Create Rewrite HintDb dtc.

(** ** Lemmas on machine integers *)

Lemma uwrap_range w x : 0 <= w -> 0 <= uwrap w x < 2 ^ w.
Proof. intros. unfold uwrap. apply Z.mod_pos_bound. lia. Qed.

Lemma uwrap_small w x : 0 <= x < 2 ^ w -> uwrap w x = x.
Proof. apply Z.mod_small. Qed.

Lemma swrap_range w x : 0 < w -> - 2 ^ (w - 1) <= swrap w x < 2 ^ (w - 1).
Proof.
  intros. unfold swrap.
  assert (2 ^ w = 2 * 2 ^ (w - 1)) by (rewrite <- Z.pow_succ_r by lia; f_equal; lia).
  pose proof (Z.mod_pos_bound (x + 2 ^ (w - 1)) (2 ^ w)). lia.
Qed.

Lemma swrap_small w x : 0 < w -> - 2 ^ (w - 1) <= x < 2 ^ (w - 1) -> swrap w x = x.
Proof.
  intros. unfold swrap.
  assert (2 ^ w = 2 * 2 ^ (w - 1)) by (rewrite <- Z.pow_succ_r by lia; f_equal; lia).
  rewrite Z.mod_small; lia.
Qed.

Lemma swrap_uwrap w x : 0 < w -> swrap w (uwrap w x) = swrap w x.
Proof. intros. unfold swrap, uwrap. by rewrite Zplus_mod_idemp_l. Qed.

Lemma uwrap_swrap w x : 0 < w -> uwrap w (swrap w x) = uwrap w x.
Proof.
  intros. unfold swrap, uwrap. rewrite Zminus_mod_idemp_l. f_equal. lia.
Qed.

Lemma uwrap_idem w x : uwrap w (uwrap w x) = uwrap w x.
Proof. apply Zmod_mod. Qed.

Lemma uwrap_land w x : 0 <= w -> uwrap w x = Z.land x (Z.ones w).
Proof. intros. unfold uwrap. by rewrite Z.land_ones. Qed.

Lemma uwrap_testbit w x i :
  0 <= w -> 0 <= i -> Z.testbit (uwrap w x) i = (i <? w) && Z.testbit x i.
Proof.
  intros. unfold uwrap. destruct (Z.ltb_spec i w).
  - by rewrite Z.mod_pow2_bits_low.
  - rewrite Z.mod_pow2_bits_high; [done|lia].
Qed.

Lemma u8_byte x : is_byte (u8 x).
Proof. pose proof (uwrap_range 8 x ltac:(lia)). unfold is_byte. lia. Qed.

Lemma is_byteb_spec b : is_byteb b = true <-> is_byte b.
Proof. unfold is_byteb, is_byte. rewrite andb_true_iff, Z.leb_le, Z.ltb_lt. lia. Qed.

(** ** Lemmas on arrays *)

Lemma rd_Some_lt {A} (l : list A) i x : rd l i = Some x -> 0 <= i < Z.of_nat (length l).
Proof.
  unfold rd. destruct (Z.ltb_spec i 0); [done|]. intros Hl.
  apply lookup_lt_Some in Hl. lia.
Qed.

Lemma rd_is_Some {A} (l : list A) i : 0 <= i < Z.of_nat (length l) -> is_Some (rd l i).
Proof.
  intros. unfold rd. destruct (Z.ltb_spec i 0); [lia|]. apply lookup_lt_is_Some. lia.
Qed.

Lemma rd_nat {A} (l : list A) (n : nat) : rd l (Z.of_nat n) = l !! n.
Proof. unfold rd. destruct (Z.ltb_spec (Z.of_nat n) 0); [lia|]. by rewrite Nat2Z.id. Qed.

Lemma rd_out {A} (l : list A) i : i < 0 \/ Z.of_nat (length l) <= i -> rd l i = None.
Proof.
  unfold rd. destruct (Z.ltb_spec i 0); [done|]. intros. apply lookup_ge_None. lia.
Qed.

Lemma rd_app_l {A} (l k : list A) i : i < Z.of_nat (length l) -> rd (l ++ k) i = rd l i.
Proof.
  intros. unfold rd. destruct (Z.ltb_spec i 0); [done|]. rewrite lookup_app_l; [done|lia].
Qed.

Lemma rd_app_r {A} (l k : list A) i :
  Z.of_nat (length l) <= i -> rd (l ++ k) i = rd k (i - Z.of_nat (length l)).
Proof.
  intros. unfold rd.
  destruct (Z.ltb_spec i 0); [lia|]. destruct (Z.ltb_spec (i - Z.of_nat (length l)) 0); [lia|].
  rewrite lookup_app_r by lia. f_equal. lia.
Qed.

Lemma wr_is_Some {A} (l : list A) i x :
  0 <= i < Z.of_nat (length l) -> wr l i x = Some (<[Z.to_nat i := x]> l).
Proof. intros. unfold wr. zcases. done. Qed.

Lemma wr_Some {A} (l : list A) i x l' :
  wr l i x = Some l' -> 0 <= i < Z.of_nat (length l) /\ l' = <[Z.to_nat i := x]> l.
Proof. unfold wr. zcases; try done. all: intros [= <-]; lia || (split; [lia|done]). Qed.

Lemma wr_length {A} (l : list A) i x l' : wr l i x = Some l' -> length l' = length l.
Proof. intros [_ ->]%wr_Some. apply length_insert. Qed.

Lemma rd_wr {A} (l : list A) i j x l' :
  wr l i x = Some l' -> rd l' j = if i =? j then Some x else rd l j.
Proof.
  intros [Hi ->]%wr_Some. unfold rd. destruct (Z.eqb_spec i j) as [->|Hne].
  - destruct (Z.ltb_spec j 0); [lia|]. apply list_lookup_insert_eq. lia.
  - destruct (Z.ltb_spec j 0); [done|]. apply list_lookup_insert_ne. lia.
Qed.

Lemma wr_many_length {A} (xs l l' : list A) i :
  wr_many l i xs = Some l' -> length l' = length l.
Proof.
  revert l i. induction xs as [|x xs IH]; intros l i H; simpl in H; [by simplify_eq|].
  inv_bind H. erewrite IH by eassumption. by eapply wr_length.
Qed.

(** Writing a block in range succeeds and replaces exactly that block. *)
Lemma wr_many_spec {A} (xs a b c : list A) :
  length b = length xs ->
  wr_many (a ++ b ++ c) (Z.of_nat (length a)) xs = Some (a ++ xs ++ c).
Proof.
  revert a b. induction xs as [|x xs IH]; intros a b Hl; simpl.
  - by destruct b.
  - destruct b as [|y b]; [done|]. simpl in Hl. rewrite wr_is_Some.
    2: { rewrite length_app. simpl. lia. }
    rewrite Nat2Z.id, insert_app_r_alt, Nat.sub_diag by lia. simpl.
    replace (a ++ x :: b ++ c) with ((a ++ [x]) ++ b ++ c) by by rewrite <- app_assoc.
    replace (Z.of_nat (length a) + 1) with (Z.of_nat (length (a ++ [x])))
      by (rewrite length_app; simpl; lia).
    rewrite IH by lia. by rewrite <- app_assoc.
Qed.

#[export] Hint Resolve u8_byte : dtc.
