(* ===== verification/State.v ===== *)
(** * State: computations on an explicit state

    The monad in which the stateful parts of the program are written.  A
    computation takes the state of its component and returns a value and the
    new state; [None] is undefined behaviour of the C code (an access outside
    an object, a null pointer).  [runs m s Q] says that [m] completes in [s]
    and that its value and the new state satisfy [Q]. *)

From S2P Require Import Prelude.

Definition ST (S A : Type) : Type := S -> option (A * S).
#[export] Instance ST_ret S : MRet (ST S) := λ A x s, Some (x, s).
#[export] Instance ST_bind S : MBind (ST S) := λ A B f m s, '(x, s) ← m s; f x s.

Definition get {S A} (f : S -> A) : ST S A := λ s, Some (f s, s).
Definition put {S} (f : S -> S) : ST S unit := λ s, Some (tt, f s).
Definition lift {S A} (x : option A) : ST S A := λ s, x ← x; Some (x, s).
Definition upd {S} (f : S -> option S) : ST S unit := λ s, s' ← f s; Some (tt, s').
Definition when_ {S} (b : bool) (m : ST S unit) : ST S unit := if b then m else mret tt.

(** [m] started in [s] completes and its result satisfies [Q]. *)
Definition runs {S A} (m : ST S A) (s : S) (Q : A -> S -> Prop) : Prop :=
  ∃ x s', m s = Some (x, s') ∧ Q x s'.

(** ** Rules *)

Section rules.
Context {S : Type}.

Lemma runs_ret {A} (x : A) s (Q : A -> S -> Prop) : Q x s -> runs (mret x : ST S A) s Q.
Proof. intros. by exists x, s. Qed.

Lemma step_bind {A B} (m : ST S A) (f : A -> ST S B) s x s' :
  m s = Some (x, s') -> (m ≫= f) s = f x s'.
Proof. intros H. unfold mbind, ST_bind. by rewrite H. Qed.

Lemma runs_bind {A B} (m : ST S A) (f : A -> ST S B) s Q (R : B -> S -> Prop) :
  runs m s Q -> (∀ x s', Q x s' -> runs (f x) s' R) -> runs (m ≫= f) s R.
Proof.
  intros (x & s' & Hm & HQ) Hf. destruct (Hf x s' HQ) as (y & s2 & Hy & HR).
  exists y, s2. split; [|done]. by rewrite (step_bind _ _ _ _ _ Hm).
Qed.

Lemma runs_eq {A} (m : ST S A) x s s' (Q : A -> S -> Prop) :
  m s = Some (x, s') -> Q x s' -> runs m s Q.
Proof. intros. by exists x, s'. Qed.

(** A step with a known result. *)
Lemma runs_step {A B} (m : ST S A) (f : A -> ST S B) s x s' (R : B -> S -> Prop) :
  m s = Some (x, s') -> runs (f x) s' R -> runs (m ≫= f) s R.
Proof.
  intros H (y & s2 & Hy & HR). exists y, s2. split; [|done]. by rewrite (step_bind _ _ _ _ _ H).
Qed.

Lemma runs_mono {A} (m : ST S A) s (Q R : A -> S -> Prop) :
  runs m s Q -> (∀ x s', Q x s' -> R x s') -> runs m s R.
Proof. intros (x & s' & H1 & H2) H. exists x, s'. auto. Qed.

Lemma runs_unit (m : ST S unit) s (Q : unit -> S -> Prop) : runs (m;; mret tt) s Q -> runs m s Q.
Proof.
  intros (x & s' & Hr & HQ). destruct (m s) as [[[] s2]|] eqn:Hm.
  - rewrite (step_bind _ _ _ _ _ Hm) in Hr. injection Hr as <- <-. by exists tt, s2.
  - unfold mbind, ST_bind in Hr. by rewrite Hm in Hr.
Qed.

Lemma bind_inv {A B} (m : ST S A) (f : A -> ST S B) s y s2 :
  (m ≫= f) s = Some (y, s2) -> ∃ x s', m s = Some (x, s') ∧ f x s' = Some (y, s2).
Proof. unfold mbind, ST_bind. destruct (m s) as [[x s']|]; [|done]. intros H. by exists x, s'. Qed.

Lemma runs_inv {A} (m : ST S A) s (Q : A -> S -> Prop) x s' :
  runs m s Q -> m s = Some (x, s') -> Q x s'.
Proof. intros (y & s2 & H1 & H2) H. by simplify_eq. Qed.

End rules.

(** Execute the first call of a sequence. *)
Tactic Notation "mstep" uconstr(H) := rewrite (step_bind _ _ _ _ _ H); cbv beta.
