(* ===== verification/Ring.v ===== *)
(** * Ring: doubly linked rings

    Models [src/common/list.h].  The same operations are written three times in
    the code: for pointers ([list.h]), for handles of the shared memory
    ([src/cache/ng_list.h]) and for node ids ([src/cache/node_list.h]).  They
    are defined once here over the interface [Links], which gives the two links
    of a cell; [LinksLaws] states what a representation of cells promises.
    [ring h L s] says that in [s] the list with head [h] holds the cells [L]
    in this order, in both directions; the lemmas give the effect of every
    operation on it and on the other rings. *)

From stdpp Require Import gmap.
From S2P Require Import Prelude State.

(** ** Code *)

(** The links of a cell; [None]: there is no such cell. *)
Class Links (K W : Type) := {
  l_prev : K -> W -> option K;
  l_next : K -> W -> option K;
  l_set_prev : K -> K -> W -> option W;
  l_set_next : K -> K -> W -> option W
}.

Section code.
Context {K W : Type} `{EqDecision K} `{Links K W}.

Definition Next (p : K) : ST W K := λ s, x ← l_next p s; Some (x, s).
Definition Prev (p : K) : ST W K := λ s, x ← l_prev p s; Some (x, s).
Definition set_next (p v : K) : ST W unit := upd (l_set_next p v).
Definition set_prev (p v : K) : ST W unit := upd (l_set_prev p v).

Definition INIT_LIST_HEAD (ptr : K) : ST W unit := set_next ptr ptr;; set_prev ptr ptr.

Definition __list_add (p prev next : K) : ST W unit :=
  set_prev next p;;
  set_next p next;;
  set_prev p prev;;
  set_next prev p.

Definition list_add (p head : K) : ST W unit :=
  n ← Next head; __list_add p head n.
Definition list_add_tail (p head : K) : ST W unit :=
  v ← Prev head; __list_add p v head.

Definition __list_del (prev next : K) : ST W unit :=
  set_prev next prev;;
  set_next prev next.

(** Take [entry] off its list; what happens to its own links differs. *)
Definition list_unlink (entry : K) : ST W unit :=
  v ← Prev entry; n ← Next entry; __list_del v n.

Definition list_del_init (entry : K) : ST W unit := list_unlink entry;; INIT_LIST_HEAD entry.
Definition list_move (list head : K) : ST W unit := list_unlink list;; list_add list head.
Definition list_move_tail (list head : K) : ST W unit := list_unlink list;; list_add_tail list head.
Definition list_empty (head : K) : ST W bool := n ← Next head; mret (bool_decide (n = head)).

Definition __list_splice (list head : K) : ST W unit :=
  first ← Next list;
  last ← Prev list;
  at_ ← Next head;
  set_prev first head;;
  set_next head first;;
  set_next last at_;;
  set_prev at_ last.
Definition list_splice (list head : K) : ST W unit :=
  e ← list_empty list;
  when_ (negb e) (__list_splice list head).
Definition list_splice_init (list head : K) : ST W unit :=
  e ← list_empty list;
  when_ (negb e) (__list_splice list head;; INIT_LIST_HEAD list).

(** [CListHead::FreeList]: empty a list, resetting every cell; [n] bounds the
    loop. *)
Fixpoint FreeList (n : nat) (head : K) : ST W unit :=
  e ← list_empty head;
  if e : bool then mret tt
  else match n with
  | O => lift None
  | S n' => c ← Next head; list_del_init c;; FreeList n' head
  end.
End code.

(** [struct list_head] cells in memory; a pointer is an address. *)
Record list_head := MkLH { lh_next : Z; lh_prev : Z }.

#[export] Instance list_head_links : Links Z (gmap Z list_head) := {|
  l_prev p m := lh_prev <$> m !! p;
  l_next p m := lh_next <$> m !! p;
  l_set_prev p v m := x ← m !! p; Some (<[p := MkLH (lh_next x) v]> m);
  l_set_next p v m := x ← m !! p; Some (<[p := MkLH v (lh_prev x)]> m)
|}.

(** [list_del] leaves null links behind. *)
Definition list_del (entry : Z) : ST (gmap Z list_head) unit :=
  list_unlink entry;; set_next entry 0;; set_prev entry 0.

(** ** What a representation of cells promises

    [l_cell c s]: [c] is a cell of [s]; [l_target c s]: a link may hold [c];
    [l_same s s']: the two states differ in links at most. *)

Class LinksLaws (K W : Type) `{Links K W} := {
  l_cell : K -> W -> Prop;
  l_target : K -> W -> Prop;
  l_same : W -> W -> Prop;
  l_same_po :: PreOrder l_same;
  l_cell_target c s : l_cell c s -> l_target c s;
  l_same_cell c s s' : l_same s s' -> l_cell c s -> l_cell c s';
  l_same_target c s s' : l_same s s' -> l_target c s -> l_target c s';
  l_set_prev_law a b s :
    l_cell a s -> l_target b s ->
    ∃ s', l_set_prev a b s = Some s' ∧ l_same s s' ∧
      l_prev a s' = Some b ∧ l_next a s' = l_next a s ∧
      ∀ c, c ≠ a -> l_prev c s' = l_prev c s ∧ l_next c s' = l_next c s;
  l_set_next_law a b s :
    l_cell a s -> l_target b s ->
    ∃ s', l_set_next a b s = Some s' ∧ l_same s s' ∧
      l_next a s' = Some b ∧ l_prev a s' = l_prev a s ∧
      ∀ c, c ≠ a -> l_prev c s' = l_prev c s ∧ l_next c s' = l_next c s
}.

#[export] Program Instance list_head_laws : LinksLaws Z (gmap Z list_head) := {|
  l_cell p m := is_Some (m !! p);
  l_target _ _ := True;
  l_same m m' := ∀ p, is_Some (m !! p) <-> is_Some (m' !! p)
|}.
Next Obligation. split; [done|]. intros m1 m2 m3 H1 H2 p. by rewrite H1. Qed.
Next Obligation. done. Qed.
Next Obligation. intros c s s' H. by rewrite (H c). Qed.
Next Obligation. done. Qed.
Next Obligation.
  intros a b s [x Hx] _. eexists. simpl. rewrite Hx. split_and!; [done|..].
  - intros p. destruct (decide (a = p)) as [->|]; [rewrite lookup_insert_eq, Hx|by rewrite lookup_insert_ne].
    split; by eexists.
  - by rewrite lookup_insert_eq.
  - by rewrite lookup_insert_eq.
  - intros c Hc. by rewrite lookup_insert_ne.
Qed.
Next Obligation.
  intros a b s [x Hx] _. eexists. simpl. rewrite Hx. split_and!; [done|..].
  - intros p. destruct (decide (a = p)) as [->|]; [rewrite lookup_insert_eq, Hx|by rewrite lookup_insert_ne].
    split; by eexists.
  - by rewrite lookup_insert_eq.
  - by rewrite lookup_insert_eq.
  - intros c Hc. by rewrite lookup_insert_ne.
Qed.

(** ** Rings *)

Section ring.
Context {K W : Type} `{EqDecision K} `{LinksLaws K W}.
Implicit Types (a b c h x : K) (s : W).

Definition linked a b s : Prop := l_next a s = Some b ∧ l_prev b s = Some a.

Fixpoint path (l : list K) s : Prop :=
  match l with
  | a :: (b :: _) as l' => linked a b s ∧ path l' s
  | _ => True
  end.

Definition ring h (L : list K) s : Prop :=
  NoDup (h :: L) ∧ Forall (λ c, l_cell c s) (h :: L) ∧ path (h :: L ++ [h]) s.

(** Outside [X] the links are as before. *)
Definition links_kept (X : list K) s s' : Prop :=
  l_same s s' ∧ ∀ c, c ∉ X -> l_prev c s' = l_prev c s ∧ l_next c s' = l_next c s.

#[export] Instance links_kept_refl X : Reflexive (links_kept X).
Proof. done. Qed.
#[export] Instance links_kept_trans X : Transitive (links_kept X).
Proof.
  intros s1 s2 s3 [H1 H2] [H3 H4]. split; [by etrans|]. intros c Hc.
  destruct (H2 c Hc) as [<- <-]. by apply H4.
Qed.
Lemma links_kept_weaken X Y s s' : X ⊆ Y -> links_kept X s s' -> links_kept Y s s'.
Proof. intros HX [? Hk]. split; [done|]. intros c Hc. apply Hk. set_solver. Qed.

Lemma path_cons a b l s : path (a :: b :: l) s <-> linked a b s ∧ path (b :: l) s.
Proof. done. Qed.
Lemma path_app u a v s : path (u ++ a :: v) s <-> path (u ++ [a]) s ∧ path (a :: v) s.
Proof.
  induction u as [|x u IH]; [simpl; tauto|]. destruct u as [|y u]; simpl in *; [tauto|].
  rewrite IH. tauto.
Qed.

(** A path survives when the forward links of all its cells but the last and
    the backward links of all but the first do. *)
Lemma path_kept u z s s' :
  path (u ++ [z]) s ->
  (∀ c, c ∈ u -> l_next c s' = l_next c s) -> (∀ c, c ∈ tail (u ++ [z]) -> l_prev c s' = l_prev c s) ->
  path (u ++ [z]) s'.
Proof.
  induction u as [|x u IH]; [done|]. intros Hp Hn Hv.
  destruct u as [|y u]; simpl in Hp, Hv |- *.
  - split; [|done]. destruct Hp as [[? ?] _]. split; [rewrite Hn|rewrite Hv]; by try left.
  - destruct Hp as [[H1 H2] Hp]. split.
    + split; [rewrite Hn by left; done|rewrite Hv by left; done].
    + apply IH; [done|intros; apply Hn; by right|intros; apply Hv; by right].
Qed.

Lemma ring_kept X h L s s' :
  ring h L s -> links_kept X s s' -> (∀ c, c ∈ X -> c ∉ h :: L) -> ring h L s'.
Proof.
  intros (Hnd & Hc & Hp) [Hs Hk] HX. split_and!; [done|..].
  - eapply Forall_impl; [exact Hc|]. intros. by eapply l_same_cell.
  - assert (∀ c, c ∈ h :: L -> c ∉ X) as HX' by (intros c Hin Hc'; by eapply HX).
    apply (path_kept (h :: L) h s s'); [done|..]; intros c Hin; apply Hk, HX'; [done|].
    simpl in Hin. apply elem_of_app in Hin as [?| ->%list_elem_of_singleton]; [by right|by left].
Qed.

(** A state change that leaves the ring's cells and their links alone. *)
Lemma ring_ext h L s s' :
  ring h L s ->
  (∀ c, c ∈ h :: L -> l_cell c s -> l_cell c s' ∧ l_prev c s' = l_prev c s ∧ l_next c s' = l_next c s) ->
  ring h L s'.
Proof.
  intros (Hnd & Hc & Hp) HX. rewrite Forall_forall in Hc. split_and!; [done|..].
  - apply Forall_forall. intros c Hin. apply (HX c); [done|by apply Hc].
  - apply (path_kept (h :: L) h s s'); [done|..]; intros c Hin.
    + apply (HX c); [done|by apply Hc].
    + assert (c ∈ h :: L) as Hin'.
      { simpl in Hin. apply elem_of_app in Hin as [?| ->%list_elem_of_singleton]; [by right|by left]. }
      apply (HX c); [done|by apply Hc].
Qed.

Lemma ring_perm h L s c : ring h L s -> c ∈ h :: L -> l_cell c s.
Proof. intros (_ & Hc & _). by rewrite Forall_forall in Hc; apply Hc. Qed.

(** A ring has no distinguished cell. *)
Lemma ring_rotate h u x v s : ring h (u ++ x :: v) s -> ring x (v ++ h :: u) s.
Proof.
  intros (Hnd & Hc & Hp).
  assert (x :: v ++ h :: u ≡ₚ h :: u ++ x :: v) as Hperm by solve_Permutation.
  split_and!; [by rewrite Hperm|by rewrite Hperm|].
  rewrite <-app_assoc in Hp. simpl in Hp.
  apply (path_app (h :: u) x (v ++ [h])) in Hp as [Hp1 Hp2].
  rewrite <-app_assoc. simpl. apply (path_app (x :: v) h (u ++ [x])). done.
Qed.

(** *** The links after the elementary operations *)

Lemma Next_run {A} a b s (k : K -> ST W A) R :
  l_next a s = Some b -> runs (k b) s R -> runs (Next a ≫= k) s R.
Proof. intros Ha. apply runs_step. unfold Next. by rewrite Ha. Qed.
Lemma Prev_run {A} a b s (k : K -> ST W A) R :
  l_prev a s = Some b -> runs (k b) s R -> runs (Prev a ≫= k) s R.
Proof. intros Ha. apply runs_step. unfold Prev. by rewrite Ha. Qed.

Definition ite_links (fp fn : K -> option K) (s s' : W) : Prop :=
  l_same s s' ∧ ∀ c, l_prev c s' = match fp c with Some x => Some x | None => l_prev c s end ∧
                     l_next c s' = match fn c with Some x => Some x | None => l_next c s end.

Lemma link_prev_run {A} a b s fp fn s0 (k : ST W A) R :
  ite_links fp fn s0 s -> l_cell a s0 -> l_target b s0 ->
  (∀ s', ite_links (λ c, if decide (c = a) then Some b else fp c) fn s0 s' -> runs k s' R) ->
  runs (set_prev a b;; k) s R.
Proof.
  intros [Hs Hl] Ha Hb Hk.
  destruct (l_set_prev_law a b s) as (s' & Hr & Hs' & H1 & H2 & H3);
    [by eapply l_same_cell|by eapply l_same_target|].
  eapply runs_step; [unfold set_prev, upd; by rewrite Hr|]. apply Hk. split; [by etrans|].
  intros c. destruct (Hl c) as [Hc1 Hc2]. destruct (decide (c = a)) as [->|Hne]; [by rewrite H2|].
  by destruct (H3 c Hne) as [-> ->].
Qed.

Lemma link_next_run {A} a b s fp fn s0 (k : ST W A) R :
  ite_links fp fn s0 s -> l_cell a s0 -> l_target b s0 ->
  (∀ s', ite_links fp (λ c, if decide (c = a) then Some b else fn c) s0 s' -> runs k s' R) ->
  runs (set_next a b;; k) s R.
Proof.
  intros [Hs Hl] Ha Hb Hk.
  destruct (l_set_next_law a b s) as (s' & Hr & Hs' & H1 & H2 & H3);
    [by eapply l_same_cell|by eapply l_same_target|].
  eapply runs_step; [unfold set_next, upd; by rewrite Hr|]. apply Hk. split; [by etrans|].
  intros c. destruct (Hl c) as [Hc1 Hc2]. destruct (decide (c = a)) as [->|Hne]; [by rewrite H2|].
  by destruct (H3 c Hne) as [-> ->].
Qed.

Lemma ite_links_start s : ite_links (λ _, None) (λ _, None) s s.
Proof. split; [done|]. by intros c. Qed.

Lemma __list_add_run p a b s :
  l_cell p s -> l_cell a s -> l_cell b s -> p ≠ a -> p ≠ b ->
  runs (__list_add p a b) s (λ _ s', links_kept [p; a; b] s s' ∧
    linked a p s' ∧ linked p b s' ∧
    (∀ c, c ≠ a -> c ≠ p -> l_next c s' = l_next c s) ∧
    (∀ c, c ≠ b -> c ≠ p -> l_prev c s' = l_prev c s)).
Proof.
  intros Hp Ha Hb Hpa Hpb. unfold __list_add.
  eapply link_prev_run; [apply ite_links_start|done|by apply l_cell_target|]. intros s1 H1.
  eapply link_next_run; [exact H1|done|by apply l_cell_target|]. intros s2 H2.
  eapply link_prev_run; [exact H2|done|by apply l_cell_target|]. intros s3 H3.
  apply runs_unit. eapply link_next_run; [exact H3|done|by apply l_cell_target|]. intros s4 [Hs H4].
  apply runs_ret. split_and!.
  - split; [done|]. intros c Hc. destruct (H4 c) as [-> ->]. rewrite !not_elem_of_cons in Hc.
    destruct Hc as (? & ? & ? & _). by rewrite !decide_False.
  - unfold linked. destruct (H4 a) as [_ ->], (H4 p) as [-> _]. by rewrite !decide_True.
  - unfold linked. destruct (H4 p) as [_ ->], (H4 b) as [-> _]. rewrite (decide_False (P := p = a)) by done.
    rewrite decide_True by done. split; [done|]. rewrite decide_False by done. by rewrite decide_True.
  - intros c ??. destruct (H4 c) as [_ ->]. by rewrite !decide_False.
  - intros c ??. destruct (H4 c) as [-> _]. by rewrite !decide_False.
Qed.

Lemma __list_del_run a b s :
  l_cell a s -> l_cell b s ->
  runs (__list_del a b) s (λ _ s', links_kept [a; b] s s' ∧ linked a b s' ∧
    (∀ c, c ≠ a -> l_next c s' = l_next c s) ∧ (∀ c, c ≠ b -> l_prev c s' = l_prev c s)).
Proof.
  intros Ha Hb. unfold __list_del.
  eapply link_prev_run; [apply ite_links_start|done|by apply l_cell_target|]. intros s1 H1.
  apply runs_unit. eapply link_next_run; [exact H1|done|by apply l_cell_target|]. intros s2 [Hs H2].
  apply runs_ret. split_and!.
  - split; [done|]. intros c Hc. destruct (H2 c) as [-> ->]. rewrite !not_elem_of_cons in Hc.
    destruct Hc as (? & ? & _). by rewrite !decide_False.
  - unfold linked. destruct (H2 a) as [_ ->], (H2 b) as [-> _]. by rewrite !decide_True.
  - intros c ?. destruct (H2 c) as [_ ->]. by rewrite !decide_False.
  - intros c ?. destruct (H2 c) as [-> _]. by rewrite !decide_False.
Qed.

(** *** Insertion behind the head, removal of the first cell *)

Lemma ring_first a w s : ring a w s -> ∃ b t, w ++ [a] = b :: t ∧ linked a b s ∧ b ∈ a :: w.
Proof.
  intros (_ & _ & Hp). destruct w as [|b w]; simpl in Hp.
  - exists a, []. split; [done|]. split; [apply Hp|by left].
  - exists b, (w ++ [a]). split; [done|]. split; [apply Hp|right; by left].
Qed.

(** The path behind the head keeps when only the head's forward and the first
    cell's backward link change. *)
Lemma path_behind a w b t s s' :
  NoDup (a :: w) -> w ++ [a] = b :: t -> path (w ++ [a]) s ->
  (∀ c, c ∈ a :: w -> c ≠ a -> l_next c s' = l_next c s) ->
  (∀ c, c ∈ a :: w -> c ≠ b -> l_prev c s' = l_prev c s) ->
  path (w ++ [a]) s'.
Proof.
  intros Hnd Hbt Hp Hn Hv. apply NoDup_cons in Hnd as [Ha Hnd].
  apply (path_kept w a s s' Hp).
  - intros c Hc. apply Hn; [by right|]. by intros ->.
  - intros c Hc. rewrite Hbt in Hc. simpl in Hc. destruct w as [|y w]; simpl in Hbt; simplify_eq.
    + by apply elem_of_nil in Hc.
    + apply NoDup_cons in Hnd as [Hb _]. apply elem_of_app in Hc as [Hc| ->%list_elem_of_singleton].
      * apply Hv; [right; by right|]. by intros ->.
      * apply Hv; [by left|]. intros ->. apply Ha. by left.
Qed.

Lemma list_add_ring x h L s :
  ring h L s -> l_cell x s -> x ∉ h :: L ->
  runs (list_add x h) s (λ _ s', ring h (x :: L) s' ∧ links_kept (x :: h :: L) s s').
Proof.
  intros Hr Hx Hxn. destruct (ring_first _ _ _ Hr) as (b & t & Hbt & [Hn Hv] & Hb).
  unfold list_add. eapply Next_run; [done|].
  eapply runs_mono; [apply __list_add_run|].
  { done. } { eapply ring_perm; [done|by left]. } { by eapply ring_perm. }
  { intros ->. apply Hxn. by left. } { by intros ->. }
  intros _ s' (Hk & Hax & Hxb & Hn' & Hv'). destruct Hr as (Hnd & Hc & Hp).
  split; [|eapply links_kept_weaken; [|exact Hk]; set_solver]. split_and!.
  - apply NoDup_cons in Hnd as [Hh Hnd]. apply not_elem_of_cons in Hxn as [Hxh HxL].
    apply NoDup_cons. split; [|by apply NoDup_cons]. apply not_elem_of_cons. done.
  - destruct Hk as [Hk _]. apply Forall_cons in Hc as [Hch HcL].
    repeat apply Forall_cons_2; [by eapply l_same_cell..|].
    eapply Forall_impl; [exact HcL|]. intros. by eapply l_same_cell.
  - simpl. split; [done|]. assert (path (L ++ [h]) s') as Hp'.
    { apply (path_behind h L b t s s'); [done|done| |..].
      - simpl in Hp. rewrite Hbt in Hp |- *. apply Hp.
      - intros c Hc' ?. apply Hn'; [done|]. by intros ->.
      - intros c Hc' ?. apply Hv'; [done|]. by intros ->. }
    rewrite Hbt in Hp' |- *. done.
Qed.

(** Taking the first cell off; its own links stay. *)
Lemma list_unlink_first x h L s :
  ring h (x :: L) s ->
  runs (list_unlink x) s (λ _ s', ring h L s' ∧ links_kept (h :: L) s s').
Proof.
  intros Hr. assert (Hr' := Hr). destruct Hr as (Hnd & Hc & Hp). simpl in Hp. destruct Hp as [[Hn Hv] Hp].
  assert (∃ b t, L ++ [h] = b :: t ∧ b ∈ h :: L) as (b & t & Hbt & Hb).
  { destruct L as [|b L]; [exists h, []|exists b, (L ++ [h])]; split; try done; [by left|right; by left]. }
  rewrite Hbt in Hp. destruct Hp as [[Hn2 Hv2] Hp].
  unfold list_unlink. eapply Prev_run; [done|]. eapply Next_run; [done|].
  rewrite NoDup_cons, not_elem_of_cons in Hnd. destruct Hnd as [[Hhx HhL] [HxL Hnd]%NoDup_cons].
  eapply runs_mono; [apply __list_del_run|].
  { eapply ring_perm; [done|by left]. }
  { eapply ring_perm; [done|]. apply elem_of_cons in Hb as [->|]; [by left|right; by right]. }
  intros _ s' (Hk & Hhb & Hn' & Hv').
  split; [|eapply links_kept_weaken; [|exact Hk]; set_solver]. split_and!.
  - by apply NoDup_cons.
  - destruct Hk as [Hk _]. apply Forall_cons in Hc as [Hch [_ HcL]%Forall_cons].
    apply Forall_cons_2; [by eapply l_same_cell|].
    eapply Forall_impl; [exact HcL|]. intros. by eapply l_same_cell.
  - assert (path (L ++ [h]) s') as Hp'.
    { apply (path_behind h L b t s s'); [by apply NoDup_cons|done|by rewrite Hbt|..].
      - intros c _ ?. by apply Hn'. - intros c _ ?. by apply Hv'. }
    simpl. rewrite Hbt in Hp' |- *. done.
Qed.

(** *** The operations *)

Lemma list_add_tail_ring x h L s :
  ring h L s -> l_cell x s -> x ∉ h :: L ->
  runs (list_add_tail x h) s (λ _ s', ring h (L ++ [x]) s' ∧ links_kept (x :: h :: L) s s').
Proof.
  intros Hr Hx Hxn. induction L as [|z L0 _] using rev_ind.
  - pose proof (list_add_ring x h [] s Hr Hx Hxn) as Hrun. destruct Hr as (_ & _ & [Hn Hv] & _).
    destruct Hrun as (y & s' & Hrun & HQ). unfold list_add, Next, mbind, ST_bind in Hrun.
    rewrite Hn in Hrun. unfold list_add_tail. eapply Prev_run; [done|]. by exists y, s'.
  - apply (ring_rotate h L0 z []) in Hr. simpl in Hr.
    pose proof (list_add_ring x z (h :: L0) s Hr Hx ltac:(set_solver)) as Hrun.
    destruct Hr as (_ & _ & [Hn Hv] & _). destruct Hrun as (y & s' & Hrun & Hq & Hk).
    unfold list_add, Next, mbind, ST_bind in Hrun. rewrite Hn in Hrun.
    unfold list_add_tail. eapply Prev_run; [done|]. exists y, s'. split; [exact Hrun|]. split.
    + apply (ring_rotate z [x] h L0) in Hq. by rewrite <-app_assoc.
    + eapply links_kept_weaken; [|exact Hk]. set_solver.
Qed.

Lemma list_unlink_ring x h u v s :
  ring h (u ++ x :: v) s ->
  runs (list_unlink x) s (λ _ s', ring h (u ++ v) s' ∧ links_kept (h :: u ++ v) s s').
Proof.
  intros Hr. induction u as [|a u _] using rev_ind; [by apply list_unlink_first|].
  rewrite <-app_assoc in Hr. simpl in Hr. apply ring_rotate in Hr.
  eapply runs_mono; [apply (list_unlink_first x a (v ++ h :: u)); exact Hr|].
  intros _ s' [Hq Hk]. rewrite <-app_assoc. simpl. split; [by apply ring_rotate|].
  eapply links_kept_weaken; [|exact Hk]. set_solver.
Qed.

Lemma INIT_LIST_HEAD_ring x s :
  l_cell x s -> runs (INIT_LIST_HEAD x) s (λ _ s', ring x [] s' ∧ links_kept [x] s s').
Proof.
  intros Hx. unfold INIT_LIST_HEAD.
  eapply link_next_run; [apply ite_links_start|done|by apply l_cell_target|]. intros s1 H1.
  apply runs_unit. eapply link_prev_run; [exact H1|done|by apply l_cell_target|]. intros s2 [Hs H2].
  apply runs_ret. split.
  - split_and!; [by repeat constructor; apply not_elem_of_nil| |].
    + repeat constructor. by eapply l_same_cell.
    + simpl. unfold linked. destruct (H2 x) as [-> ->]. by rewrite !decide_True.
  - split; [done|]. intros c Hc. destruct (H2 c) as [-> ->].
    rewrite not_elem_of_cons in Hc. destruct Hc. by rewrite !decide_False.
Qed.

(** The second half of [INIT_NG_LIST_HEAD] and [NODE_LIST_DEL]. *)
Lemma self_links_ring x s :
  l_cell x s -> runs (set_prev x x;; set_next x x) s (λ _ s', links_kept [x] s s' ∧ ring x [] s').
Proof.
  intros Hx. eapply link_prev_run; [apply ite_links_start|done|by apply l_cell_target|]. intros s1 H1.
  apply runs_unit. eapply link_next_run; [exact H1|done|by apply l_cell_target|]. intros s2 [Hs H2].
  apply runs_ret. split.
  - split; [done|]. intros c Hc. destruct (H2 c) as [-> ->].
    rewrite not_elem_of_cons in Hc. destruct Hc. by rewrite !decide_False.
  - split_and!; [by repeat constructor; apply not_elem_of_nil| |].
    + repeat constructor. by eapply l_same_cell.
    + simpl. unfold linked. destruct (H2 x) as [-> ->]. by rewrite !decide_True.
Qed.

(** A cell leaves its list and then gets new links from [m]. *)
Lemma list_unlink_then x h u v s (m : ST W unit) (Q : W -> Prop) :
  ring h (u ++ x :: v) s ->
  (∀ s1, l_cell x s1 -> runs m s1 (λ _ s2, links_kept [x] s1 s2 ∧ Q s2)) ->
  runs (list_unlink x;; m) s (λ _ s', ring h (u ++ v) s' ∧ links_kept (h :: u ++ x :: v) s s' ∧ Q s').
Proof.
  intros Hr Hm. pose proof (ring_perm _ _ _ x Hr ltac:(set_solver)) as Hx.
  assert (x ∉ h :: u ++ v) as Hxn.
  { destruct Hr as [Hnd _]. assert (h :: u ++ x :: v ≡ₚ x :: h :: u ++ v) as Hp by solve_Permutation.
    rewrite Hp in Hnd. by apply NoDup_cons in Hnd as [? _]. }
  eapply runs_bind; [by apply list_unlink_ring|]. intros _ s1 [H1 Hk1].
  eapply runs_mono; [apply Hm; by eapply l_same_cell; [apply Hk1|]|].
  intros _ s2 [Hk2 H2]. split_and!; [| |done].
  - eapply ring_kept; [exact H1|exact Hk2|]. by intros c ->%list_elem_of_singleton.
  - etrans; (eapply links_kept_weaken; [|done]); set_solver.
Qed.

Lemma list_del_init_ring x h u v s :
  ring h (u ++ x :: v) s ->
  runs (list_del_init x) s (λ _ s',
    ring h (u ++ v) s' ∧ ring x [] s' ∧ links_kept (h :: u ++ x :: v) s s').
Proof.
  intros Hr. eapply runs_mono; [eapply (list_unlink_then x h u v s _ (ring x [])); [done|]|naive_solver].
  intros s1 Hx. eapply runs_mono; [by apply INIT_LIST_HEAD_ring|naive_solver].
Qed.

(** Both links of a cell set to [t]: [list_del] and [NG_LIST_DEL]. *)
Lemma null_links x t s :
  l_cell x s -> l_target t s ->
  runs (set_next x t;; set_prev x t) s
    (λ _ s', links_kept [x] s s' ∧ (l_next x s' = Some t ∧ l_prev x s' = Some t)).
Proof.
  intros Hx Ht. eapply link_next_run; [apply ite_links_start|done..|]. intros s1 H1.
  apply runs_unit. eapply link_prev_run; [exact H1|done..|]. intros s2 [Hs H2].
  apply runs_ret. split; [split; [done|]|].
  - intros c Hc. destruct (H2 c) as [-> ->].
    rewrite not_elem_of_cons in Hc. destruct Hc. by rewrite !decide_False.
  - destruct (H2 x) as [-> ->]. by rewrite !decide_True.
Qed.

Lemma list_move_ring x h u v s :
  ring h (u ++ x :: v) s ->
  runs (list_move x h) s (λ _ s', ring h (x :: u ++ v) s' ∧ links_kept (h :: u ++ x :: v) s s').
Proof.
  intros Hr. unfold list_move. pose proof (ring_perm _ _ _ x Hr ltac:(set_solver)) as Hx.
  assert (x ∉ h :: u ++ v) as Hxn.
  { destruct Hr as [Hnd _]. assert (h :: u ++ x :: v ≡ₚ x :: h :: u ++ v) as Hp by solve_Permutation.
    rewrite Hp in Hnd. by apply NoDup_cons in Hnd as [? _]. }
  eapply runs_bind; [by apply list_unlink_ring|]. intros _ s1 [H1 Hk1].
  eapply runs_mono; [apply list_add_ring; [exact H1|by eapply l_same_cell; [apply Hk1|]|done]|].
  intros _ s2 [H2 Hk2]. split; [done|].
  etrans; (eapply links_kept_weaken; [|done]); set_solver.
Qed.

Lemma list_empty_run h L s :
  ring h L s -> list_empty h s = Some (bool_decide (L = []), s).
Proof.
  intros Hr. destruct (ring_first _ _ _ Hr) as (b & t & Hbt & [Hn _] & _).
  unfold list_empty. rewrite (step_bind _ _ s b s) by (unfold Next; by rewrite Hn).
  unfold mret, ST_ret. do 2 f_equal. apply bool_decide_ext.
  destruct Hr as (Hnd & _). destruct L as [|c L]; simpl in Hbt; simplify_eq; [done|].
  apply NoDup_cons in Hnd as [Hh _]. split; [|done]. intros ->. exfalso. apply Hh. by left.
Qed.

(** [FreeList] with as many turns as there are cells empties the list and
    leaves every cell in a ring of its own. *)
Lemma FreeList_ring n h L s :
  ring h L s -> (length L <= n)%nat ->
  runs (FreeList n h) s (λ _ s', ring h [] s' ∧ (∀ c, c ∈ L -> ring c [] s') ∧ links_kept (h :: L) s s').
Proof.
  revert L s. induction n as [|n IH]; intros L s Hr Hn; simpl.
  - destruct L as [|c L]; [|simpl in Hn; lia]. eapply runs_step; [by apply list_empty_run|].
    rewrite bool_decide_true by done. apply runs_ret. split_and!; [done| |done]. by intros c ?%elem_of_nil.
  - eapply runs_step; [by apply list_empty_run|]. destruct L as [|c L].
    { rewrite bool_decide_true by done. apply runs_ret. split_and!; [done| |done]. by intros c ?%elem_of_nil. }
    rewrite bool_decide_false by done.
    assert (Hr' := Hr). destruct Hr' as (Hnd & _ & [Hnx _] & _). eapply Next_run; [done|].
    eapply runs_bind; [by apply (list_del_init_ring c h [] L)|]. intros _ s1 (H1 & Hc & Hk1).
    eapply runs_mono; [apply IH; [exact H1|simpl in Hn |- *; lia]|]. simpl. intros _ s2 (H2 & HL & Hk2).
    split_and!; [done| |].
    + intros d [->|Hd]%elem_of_cons; [|by apply HL].
      eapply ring_kept; [exact Hc|exact Hk2|]. intros e He ->%list_elem_of_singleton.
      apply NoDup_cons in Hnd as [Hh [HcL _]%NoDup_cons]. set_solver.
    + etrans; [exact Hk1|]. eapply links_kept_weaken; [|exact Hk2]. set_solver.
Qed.

Lemma __list_splice_links l h f z b s :
  l_next l s = Some f -> l_prev l s = Some z -> l_next h s = Some b ->
  Forall (λ c, l_cell c s) [f; h; z; b] -> f ≠ b -> h ≠ z ->
  runs (__list_splice l h) s (λ _ s', links_kept [f; h; z; b] s s' ∧ linked h f s' ∧ linked z b s' ∧
    (∀ c, c ≠ h -> c ≠ z -> l_next c s' = l_next c s) ∧ (∀ c, c ≠ f -> c ≠ b -> l_prev c s' = l_prev c s)).
Proof.
  intros Hf Hz Hb Hcs Hfb Hhz. rewrite !Forall_cons in Hcs. destruct Hcs as (Hcf & Hch & Hcz & Hcb & _).
  unfold __list_splice. eapply Next_run; [done|]. eapply Prev_run; [done|]. eapply Next_run; [done|].
  eapply link_prev_run; [apply ite_links_start|done|by apply l_cell_target|]. intros s1 H1.
  eapply link_next_run; [exact H1|done|by apply l_cell_target|]. intros s2 H2.
  eapply link_next_run; [exact H2|done|by apply l_cell_target|]. intros s3 H3.
  apply runs_unit. eapply link_prev_run; [exact H3|done|by apply l_cell_target|]. intros s4 [Hs H4].
  apply runs_ret. unfold linked. split_and!.
  - split; [done|]. intros c Hc. destruct (H4 c) as [-> ->]. rewrite !not_elem_of_cons in Hc.
    destruct Hc as (? & ? & ? & ? & _). by rewrite !decide_False.
  - destruct (H4 h) as [_ ->]. rewrite decide_False by done. by rewrite decide_True.
  - destruct (H4 f) as [-> _]. rewrite decide_False by done. by rewrite decide_True.
  - destruct (H4 z) as [_ ->]. by rewrite decide_True.
  - destruct (H4 b) as [-> _]. by rewrite decide_True.
  - intros c ??. destruct (H4 c) as [_ ->]. by rewrite !decide_False.
  - intros c ??. destruct (H4 c) as [-> _]. by rewrite !decide_False.
Qed.

(** The cells of a list, without its head, stay a path. *)
Lemma path_inner f z M0 M1 s s' :
  f :: M1 = M0 ++ [z] -> NoDup (f :: M1) -> path (f :: M1) s ->
  (∀ c, c ∈ f :: M1 -> c ≠ z -> l_next c s' = l_next c s) ->
  (∀ c, c ∈ f :: M1 -> c ≠ f -> l_prev c s' = l_prev c s) -> path (f :: M1) s'.
Proof.
  intros HM Hnd Hp Hn Hv. rewrite HM in Hp |- *. apply (path_kept M0 z s s' Hp).
  - intros c Hc. apply Hn; [rewrite HM; set_solver|]. intros ->. rewrite HM in Hnd.
    apply NoDup_app in Hnd as (_ & Hd & _). apply (Hd z Hc). by left.
  - rewrite <-HM. simpl. intros c Hc. apply Hv; [by right|]. intros ->.
    apply NoDup_cons in Hnd as [? _]. done.
Qed.

(** [list_splice] puts the cells of one list in front of the other's. *)
Lemma list_splice_ring l M h L s :
  ring l M s -> ring h L s -> (∀ c, c ∈ l :: M -> c ∉ h :: L) ->
  runs (list_splice l h) s (λ _ s', ring h (M ++ L) s' ∧ links_kept (h :: M ++ L) s s').
Proof.
  intros Hl Hh Hd. unfold list_splice. eapply runs_step; [by apply list_empty_run|].
  destruct M as [|f M1]; [rewrite bool_decide_true by done; by apply runs_ret|].
  rewrite bool_decide_false by done. simpl.
  destruct (ring_first _ _ _ Hh) as (b & t & Hbt & [Hb _] & Hbin).
  assert (Hl' := Hl). destruct Hl as (Hnd1 & Hc1 & [Hf Hfv] & Hp1). apply NoDup_cons in Hnd1 as [HlM Hnd1].
  assert (∃ M0 z, f :: M1 = M0 ++ [z]) as (M0 & z & HM).
  { destruct (exists_last (l := f :: M1)) as (M0 & z & HM); [done|]. by exists M0, z. }
  assert (z ∈ f :: M1) as Hzin by (rewrite HM; set_solver).
  assert (path (f :: M1) s ∧ l_prev l s = Some z) as [Hp1' Hz].
  { change (path ((f :: M1) ++ [l]) s) in Hp1. rewrite HM, <-app_assoc in Hp1. simpl in Hp1.
    apply path_app in Hp1 as [Hp1 [[_ ?] _]]. by rewrite HM. }
  destruct Hh as (Hnd & Hc & Hp). pose proof (proj1 (Forall_forall _ _) Hc) as HcL.
  pose proof (proj1 (Forall_forall _ _) Hc1) as HcM.
  eapply runs_mono; [eapply (__list_splice_links l h f z b); [done..| | |]|].
  { repeat constructor; [apply HcM|apply HcL|apply HcM|apply HcL]; set_solver. }
  { intros ->. by apply (Hd b); [right; left|]. }
  { intros ->. apply (Hd z); [by right|by left]. }
  intros _ s' (Hk & Hhf & Hzb & Hn' & Hv').
  split; [|eapply links_kept_weaken; [|exact Hk]; set_solver]. split_and!.
  - assert (h :: (f :: M1) ++ L ≡ₚ (f :: M1) ++ h :: L) as -> by solve_Permutation.
    apply NoDup_app. split_and!; [done| |done]. intros c Hc' ?. apply (Hd c); [by right|done].
  - apply Forall_forall. intros c Hin. eapply l_same_cell; [apply Hk|].
    apply elem_of_cons in Hin as [->|[Hin|Hin]%(elem_of_app (f :: M1))];
      [apply HcL; by left|apply HcM; by right|apply HcL; by right].
  - change (path (h :: ((f :: M1) ++ L) ++ [h]) s'). rewrite <-app_assoc, HM, <-app_assoc. simpl.
    apply (path_app (h :: M0) z (L ++ [h])).
    change ((h :: M0) ++ [z]) with (h :: M0 ++ [z]). rewrite <-HM. split; [split; [done|]|].
    + apply (path_inner f z M0 M1 s s' HM Hnd1 Hp1'); intros c Hin ?.
      * apply Hn'; [|done]. intros ->. apply (Hd h); [by right|by left].
      * apply Hv'; [done|]. intros ->. by apply (Hd b); [right|].
    + rewrite Hbt. split; [done|]. rewrite <-Hbt. apply (path_behind h L b t s s' Hnd Hbt).
      * simpl in Hp. rewrite Hbt in Hp |- *. apply Hp.
      * intros c Hin ?. apply Hn'; [done|]. intros ->. by apply (Hd z); [right|].
      * intros c Hin ?. apply Hv'; [|done]. intros ->. by apply (Hd f); [right; left|].
Qed.

Lemma list_splice_init_ring l M h L s :
  ring l M s -> ring h L s -> (∀ c, c ∈ l :: M -> c ∉ h :: L) ->
  runs (list_splice_init l h) s (λ _ s', ring h (M ++ L) s' ∧ ring l [] s' ∧ links_kept (l :: h :: M ++ L) s s').
Proof.
  intros Hl Hh Hd. pose proof (list_splice_ring l M h L s Hl Hh Hd) as Hs.
  unfold list_splice_init. unfold list_splice in Hs. destruct Hs as (x & s' & Hr & H1 & H2).
  rewrite (step_bind _ _ _ _ _ (list_empty_run _ _ _ Hl)) in Hr.
  eapply runs_step; [by apply list_empty_run|]. destruct M as [|f M].
  - rewrite bool_decide_true in Hr |- * by done. simpl in Hr. injection Hr as <- <-. apply runs_ret.
    split_and!; [done|done|]. eapply links_kept_weaken; [|exact H2]. set_solver.
  - rewrite bool_decide_false in Hr |- * by done. simpl in Hr. cbn [negb when_].
    eapply runs_step; [destruct x; exact Hr|].
    assert (l ∉ h :: (f :: M) ++ L) as Hlin.
    { rewrite not_elem_of_cons, not_elem_of_app. destruct Hl as [[Hn _]%NoDup_cons _].
      assert (l ∉ h :: L) as [? ?]%not_elem_of_cons by (apply Hd; by left). done. }
    eapply runs_mono; [apply INIT_LIST_HEAD_ring|].
    { eapply l_same_cell; [apply H2|]. eapply ring_perm; [exact Hl|by left]. }
    intros [] s2 [H3 H4]. split_and!; [|done|].
    + eapply ring_kept; [exact H1|exact H4|]. by intros c ->%list_elem_of_singleton.
    + etrans; (eapply links_kept_weaken; [|done]); set_solver.
Qed.
End ring.
