(* ===== verification/ListSpec.v ===== *)
(** * ListSpec: the lists of list.h against lists

    A family of doubly linked lists ([src/common/list.h]) against the lists
    they stand for: the abstract state maps each head to the cells on its
    list. *)

From stdpp Require Import gmap.
From S2P Require Import Prelude State Ring.

Abbreviation heap := (gmap Z list_head).
Abbreviation family := (gmap Z (list Z)).

Inductive list_op :=
  | OInit (x : Z)
  | OAdd (x h : Z)
  | OAddTail (x h : Z)
  | ODel (x : Z)
  | ODelInit (x : Z)
  | OMove (x h : Z)
  | OMoveTail (x h : Z)
  | OSpliceInit (l h : Z).

Definition run_op (op : list_op) : ST heap unit :=
  match op with
  | OInit x => INIT_LIST_HEAD x
  | OAdd x h => list_add x h
  | OAddTail x h => list_add_tail x h
  | ODel x => list_del x
  | ODelInit x => list_del_init x
  | OMove x h => list_move x h
  | OMoveTail x h => list_move_tail x h
  | OSpliceInit l h => list_splice_init l h
  end.
Fixpoint run_ops (ops : list list_op) : ST heap unit :=
  match ops with [] => mret tt | op :: ops => run_op op;; run_ops ops end.

(** ** The abstract operations *)

(** [x] may be put on a list: it is on none, and not the head of a list with
    cells. *)
Definition off_list (x : Z) (st : family) : Prop :=
  (∀ h L, st !! h = Some L -> x ∉ L) ∧ (st !! x = None ∨ st !! x = Some []).

Inductive abs_op : list_op -> family -> family -> Prop :=
  | a_init x st : off_list x st -> abs_op (OInit x) st (<[x := []]> st)
  | a_add x h L st :
      off_list x st -> x ≠ h -> st !! h = Some L -> abs_op (OAdd x h) st (<[h := x :: L]> (delete x st))
  | a_add_tail x h L st :
      off_list x st -> x ≠ h -> st !! h = Some L -> abs_op (OAddTail x h) st (<[h := L ++ [x]]> (delete x st))
  | a_del x h u v st : st !! h = Some (u ++ x :: v) -> abs_op (ODel x) st (<[h := u ++ v]> st)
  | a_del_init x h u v st :
      st !! h = Some (u ++ x :: v) -> abs_op (ODelInit x) st (<[x := []]> (<[h := u ++ v]> st))
  | a_move x h u v h' L st :
      st !! h = Some (u ++ x :: v) -> <[h := u ++ v]> st !! h' = Some L ->
      abs_op (OMove x h') st (<[h' := x :: L]> (<[h := u ++ v]> st))
  | a_move_tail x h u v h' L st :
      st !! h = Some (u ++ x :: v) -> <[h := u ++ v]> st !! h' = Some L ->
      abs_op (OMoveTail x h') st (<[h' := L ++ [x]]> (<[h := u ++ v]> st))
  | a_splice_init l M h L st :
      l ≠ h -> st !! l = Some M -> st !! h = Some L ->
      abs_op (OSpliceInit l h) st (<[h := M ++ L]> (<[l := []]> st)).

Inductive abs_ops : list list_op -> family -> family -> Prop :=
  | a_nil st : abs_ops [] st st
  | a_cons op ops st1 st2 st3 : abs_op op st1 st2 -> abs_ops ops st2 st3 -> abs_ops (op :: ops) st1 st3.

(** ** Representation *)

(** Every list is a ring of cells in memory, and the rings are disjoint. *)
Record lists_rep (st : family) (m : heap) : Prop := {
  lr_ring h L : st !! h = Some L -> ring h L m;
  lr_apart h h' L L' c : st !! h = Some L -> st !! h' = Some L' -> c ∈ h :: L -> c ∈ h' :: L' -> h = h'
}.

(** The cells an operation works on that need not be on a list. *)
Definition op_cell (op : list_op) : Z :=
  match op with
  | OInit x | OAdd x _ | OAddTail x _ | ODel x | ODelInit x | OMove x _ | OMoveTail x _ => x
  | OSpliceInit l _ => l
  end.

Section rep.
Implicit Types (st : family) (m : heap) (x h c : Z) (L : list Z).

Lemma rep_del st m x : lists_rep st m -> lists_rep (delete x st) m.
Proof.
  intros [R1 R2]. split.
  - intros h L [_ Hh]%lookup_delete_Some. by apply R1.
  - intros h h' L L' c [_ Hh]%lookup_delete_Some [_ Hh']%lookup_delete_Some. by apply (R2 h h' L L').
Qed.

(** One list of the family changes; the cells touched are its own or on no
    list. *)
Lemma rep_put st m m' h L X :
  lists_rep st m -> links_kept X m m' -> ring h L m' ->
  (∀ c, c ∈ X -> ∀ h' L', st !! h' = Some L' -> h' ≠ h -> c ∉ h' :: L') ->
  (∀ c, c ∈ h :: L -> ∀ h' L', st !! h' = Some L' -> h' ≠ h -> c ∉ h' :: L') ->
  lists_rep (<[h := L]> st) m'.
Proof.
  intros [R1 R2] HX Hr HXo HLo. split.
  - intros h' L' [[-> ->]|[Hne Hh]]%lookup_insert_Some; [done|].
    eapply ring_kept; [by apply R1|exact HX|]. intros c Hc Hin. eapply HXo; [exact Hc|exact Hh| |exact Hin]. done.
  - intros h1 h2 L1 L2 c [[-> ->]|[Hn1 Hh1]]%lookup_insert_Some [[-> ->]|[Hn2 Hh2]]%lookup_insert_Some H1 H2; try done.
    + exfalso. by eapply (HLo c H1 h2 L2).
    + exfalso. by eapply (HLo c H2 h1 L1).
    + by eapply (R2 h1 h2 L1 L2).
Qed.

Lemma rep_other st m h L h' L' c :
  lists_rep st m -> st !! h = Some L -> c ∈ h :: L -> st !! h' = Some L' -> h' ≠ h -> c ∉ h' :: L'.
Proof. intros [R1 R2] Hh Hc Hh' Hne Hc'. apply Hne. by eapply (R2 h' h). Qed.

Lemma off_other st h L x : off_list x st -> delete x st !! h = Some L -> x ∉ h :: L.
Proof. intros [Ho _] [Hne Hh]%lookup_delete_Some. apply not_elem_of_cons. split; [done|]. by eapply Ho. Qed.
Lemma off_list_delete st x : off_list x st -> off_list x (delete x st).
Proof.
  intros [Ho _]. split; [|left; apply lookup_delete_eq]. intros h L [_ Hh]%lookup_delete_Some. by eapply Ho.
Qed.

(** A cell put on a list. *)
Lemma rep_put_cell st m m' x h L L' X :
  lists_rep (delete x st) m -> off_list x st -> delete x st !! h = Some L -> links_kept X m m' ->
  (∀ c, c ∈ X -> c ∈ x :: h :: L) -> (∀ c, c ∈ L' -> c ∈ x :: L) -> ring h L' m' ->
  lists_rep (<[h := L']> (delete x st)) m'.
Proof.
  intros HR Hx Hh HX HXin HL Hr. eapply rep_put; [exact HR|exact HX|done|..].
  - intros c Hc h2 L2 Hh2 Hne. apply HXin in Hc. apply elem_of_cons in Hc as [->|Hc]; [by eapply off_other|].
    by apply (rep_other (delete x st) m h L h2 L2 c HR Hh).
  - intros c Hc h2 L2 Hh2 Hne. assert (c ∈ x :: h :: L) as [->|Hc']%elem_of_cons by set_solver.
    + by eapply off_other.
    + by apply (rep_other (delete x st) m h L h2 L2 c HR Hh).
Qed.

(** A cell taken off a list. *)
Lemma rep_take st m m' x h u v X :
  lists_rep st m -> st !! h = Some (u ++ x :: v) -> links_kept X m m' -> (∀ c, c ∈ X -> c ∈ h :: u ++ x :: v) ->
  ring h (u ++ v) m' -> lists_rep (<[h := u ++ v]> st) m' ∧ off_list x (<[h := u ++ v]> st) ∧ x ≠ h.
Proof.
  intros HR Hh HX HXin Hr. pose proof (proj1 (lr_ring _ _ HR _ _ Hh)) as Hnd.
  apply NoDup_cons in Hnd as [Hhn Hnd].
  assert (NoDup (x :: u ++ v)) as [Hxn _]%NoDup_cons.
  { assert (x :: u ++ v ≡ₚ u ++ x :: v) as -> by solve_Permutation. done. }
  assert (x ≠ h) as Hxh by (intros ->; set_solver).
  split_and!; [| |done].
  - eapply rep_put; [exact HR|exact HX|done|..].
    + intros c Hc h2 L2 Hh2 Hne. eapply rep_other; [exact HR|exact Hh|by apply HXin|done..].
    + intros c Hc h2 L2 Hh2 Hne. eapply rep_other; [exact HR|exact Hh| |done..]. set_solver.
  - split.
    + intros h2 L2 [[<- <-]|[Hne Hh2]]%lookup_insert_Some; [done|]. intros Hin.
      apply (rep_other st m h (u ++ x :: v) h2 L2 x HR Hh); [set_solver|done|done|by right].
    + left. rewrite lookup_insert_ne by done. destruct (st !! x) as [Lx|] eqn:Hx; [|done]. exfalso.
      apply (rep_other st m h (u ++ x :: v) x Lx x HR Hh); [set_solver|done|done|by left].
Qed.

(** ** Each operation *)

(** [m'] represents [st'], and differs from [m] in [x] and in cells of the
    family [st] at most. *)
Definition step_ok st m x st' m' : Prop :=
  lists_rep st' m' ∧ ∃ X, links_kept X m m' ∧ ∀ c, c ∈ X -> c = x ∨ ∃ h L, st !! h = Some L ∧ c ∈ h :: L.

Lemma init_step st m x :
  lists_rep st m -> off_list x st -> is_Some (m !! x) ->
  runs (INIT_LIST_HEAD x) m (λ _ m', step_ok st m x (<[x := []]> st) m').
Proof.
  intros HR Hoff Hx. eapply runs_mono; [by apply INIT_LIST_HEAD_ring|]. intros _ m' [Hr HX].
  assert (∀ h L, delete x st !! h = Some L -> x ∉ h :: L) as Ho by (intros ??; by apply off_other).
  split; [|exists [x]; split; [done|]; intros c ->%list_elem_of_singleton; by left].
  rewrite <-(insert_delete_eq st).
  eapply rep_put; [by apply rep_del|exact HX|done|..]; intros c ->%list_elem_of_singleton h2 L2 Hh2 _; by apply Ho.
Qed.

Lemma add_step st m x h L :
  lists_rep st m -> off_list x st -> x ≠ h -> st !! h = Some L -> is_Some (m !! x) ->
  runs (list_add x h) m (λ _ m', step_ok st m x (<[h := x :: L]> (delete x st)) m') ∧
  runs (list_add_tail x h) m (λ _ m', step_ok st m x (<[h := L ++ [x]]> (delete x st)) m').
Proof.
  intros HR Hoff Hne Hh Hx. assert (delete x st !! h = Some L) as Hh' by by rewrite lookup_delete_ne.
  pose proof (lr_ring _ _ HR _ _ Hh) as Hring. pose proof (off_other _ _ _ _ Hoff Hh') as Hxn.
  assert (∀ c, c ∈ x :: h :: L -> c = x ∨ ∃ h L, st !! h = Some L ∧ c ∈ h :: L) as Hin.
  { intros c [->|Hc]%elem_of_cons; [by left|right; by exists h, L]. }
  split.
  - eapply runs_mono; [by apply (list_add_ring x h L m Hring Hx)|]. intros _ m' [Hr HX]. split; [|by eexists].
    eapply rep_put_cell; [by apply rep_del|done|exact Hh'|exact HX|done|done|done].
  - eapply runs_mono; [by apply (list_add_tail_ring x h L m Hring Hx)|]. intros _ m' [Hr HX]. split; [|by eexists].
    eapply rep_put_cell; [by apply rep_del|done|exact Hh'|exact HX|done|set_solver|done].
Qed.

Lemma in_family st h L x c : st !! h = Some L -> c ∈ h :: L -> c = x ∨ ∃ h L, st !! h = Some L ∧ c ∈ h :: L.
Proof. intros. right. by exists h, L. Qed.

Lemma del_step st m x h u v :
  lists_rep st m -> st !! h = Some (u ++ x :: v) ->
  runs (list_del x) m (λ _ m', step_ok st m x (<[h := u ++ v]> st) m').
Proof.
  intros HR Hh. pose proof (lr_ring _ _ HR _ _ Hh) as Hring. unfold list_del.
  eapply runs_mono; [eapply (list_unlink_then x h u v m _ (λ _, True) Hring)|].
  { intros s1 H1. eapply runs_mono; [by apply null_links|]. naive_solver. }
  intros _ m' (Hr & HX & _). split; [by eapply rep_take|]. eexists. split; [exact HX|]. intros c. by apply in_family.
Qed.

Lemma del_init_step st m x h u v :
  lists_rep st m -> st !! h = Some (u ++ x :: v) ->
  runs (list_del_init x) m (λ _ m', step_ok st m x (<[x := []]> (<[h := u ++ v]> st)) m').
Proof.
  intros HR Hh. pose proof (lr_ring _ _ HR _ _ Hh) as Hring.
  eapply runs_mono; [by apply (list_del_init_ring x h u v m)|]. intros _ m' (Hr & Hr2 & HX).
  split; [|eexists; split; [exact HX|]; intros c; by apply in_family].
  destruct (rep_take st m m' x h u v _ HR Hh HX ltac:(done) Hr) as (HR' & Hoff & Hne).
  set (st1 := <[h:=u ++ v]> st) in *. rewrite <-(insert_delete_eq st1).
  eapply (rep_put _ m' m' x [] []); [by apply rep_del|done|done| |].
  - by intros c ?%elem_of_nil.
  - intros c ->%list_elem_of_singleton h2 L2 Hh2 _. by eapply off_other.
Qed.

(** Taking a cell off its list, then [add] on the rest. *)
Lemma move_step st m x h u v h' L L' (add : ST heap unit) :
  lists_rep st m -> st !! h = Some (u ++ x :: v) -> <[h := u ++ v]> st !! h' = Some L ->
  (∀ st1 m1, lists_rep st1 m1 -> off_list x st1 -> x ≠ h' -> st1 !! h' = Some L -> is_Some (m1 !! x) ->
     runs add m1 (λ _ m', step_ok st1 m1 x (<[h' := L']> (delete x st1)) m')) ->
  runs (list_unlink x;; add) m (λ _ m', step_ok st m x (<[h' := L']> (<[h := u ++ v]> st)) m').
Proof.
  intros HR Hh Hh' Hadd. pose proof (lr_ring _ _ HR _ _ Hh) as Hring.
  assert (is_Some (m !! x)) as Hx by (apply (ring_perm _ _ m x Hring); set_solver).
  eapply runs_bind; [by apply (list_unlink_ring x h u v m)|]. intros _ m1 [Hr1 HX1].
  destruct (rep_take st m m1 x h u v _ HR Hh HX1) as (HR1 & Hoff & Hne); [set_solver|done|].
  set (st1 := <[h:=u ++ v]> st) in *.
  assert (st1 !! x = None) as Hst1x.
  { unfold st1. rewrite lookup_insert_ne by done. destruct (st !! x) as [Lx|] eqn:Hxs; [|done]. exfalso.
    apply (rep_other st m h (u ++ x :: v) x Lx x HR Hh); [set_solver|done|done|by left]. }
  assert (x ≠ h') as Hxh' by congruence.
  eapply runs_mono; [apply (Hadd st1 m1 HR1 Hoff Hxh' Hh'); by apply (proj1 HX1)|].
  intros _ m2 (HR2 & X & HX & HXin). rewrite (delete_id st1 x) in HR2 by done. split; [done|].
  exists ((h :: u ++ v) ++ X). split.
  { etrans; (eapply links_kept_weaken; [|done]); set_solver. }
  intros c [Hc|Hc]%elem_of_app; [eapply in_family; [exact Hh|set_solver]|].
  destruct (HXin c Hc) as [->|(h2 & L2 & Hh2 & Hc2)]; [by left|].
  apply lookup_insert_Some in Hh2 as [[<- <-]|[_ Hh2]]; (eapply in_family; [done|]); [set_solver|done].
Qed.

Lemma splice_step st m l M h L :
  lists_rep st m -> l ≠ h -> st !! l = Some M -> st !! h = Some L ->
  runs (list_splice_init l h) m (λ _ m', step_ok st m l (<[h := M ++ L]> (<[l := []]> st)) m').
Proof.
  intros HR Hne Hl Hh.
  assert (∀ c, c ∈ l :: M -> c ∉ h :: L) as Hd by (intros c Hc; by eapply (rep_other st m l M h L)).
  eapply runs_mono; [by apply (list_splice_init_ring l M h L m (lr_ring _ _ HR _ _ Hl) (lr_ring _ _ HR _ _ Hh))|].
  intros _ m' (Hr1 & Hr2 & HX).
  assert (∀ c, c ∈ l :: h :: M ++ L -> c ∈ l :: M ∨ c ∈ h :: L) as Hin by set_solver. split.
  - assert (lists_rep (<[l:=[]]> (delete h st)) m') as HR'.
    { eapply rep_put; [by apply rep_del|exact HX|done|..].
      - intros c Hc h2 L2 [Hn2 Hh2]%lookup_delete_Some Hne2. destruct (Hin c Hc) as [Hc'|Hc'].
        + by apply (rep_other st m l M h2 L2 c HR Hl). + by apply (rep_other st m h L h2 L2 c HR Hh).
      - intros c ->%list_elem_of_singleton h2 L2 [Hn2 Hh2]%lookup_delete_Some Hne2.
        apply (rep_other st m l M h2 L2 l HR Hl); [by left|done|done]. }
    assert (<[h:=M ++ L]> (<[l:=[]]> st) = <[h:=M ++ L]> (<[l:=[]]> (delete h st))) as ->.
    { rewrite <-(insert_delete_eq (<[l:=[]]> st)). by rewrite delete_insert_ne. }
    eapply (rep_put _ m' m' h _ []); [done|done|done|by intros c ?%elem_of_nil|].
    intros c Hc h2 L2 [[<- <-]|[Hn3 [Hn2 Hh2]%lookup_delete_Some]]%lookup_insert_Some Hne2.
    + intros ->%list_elem_of_singleton. destruct (lr_ring _ _ HR _ _ Hl) as [[Hn _]%NoDup_cons _].
      assert (l ∉ h :: L) by (apply Hd; by left). set_solver.
    + assert (c ∈ l :: M ∨ c ∈ h :: L) as [Hc'|Hc'] by set_solver.
      * by apply (rep_other st m l M h2 L2 c HR Hl).
      * by apply (rep_other st m h L h2 L2 c HR Hh).
  - eexists. split; [exact HX|]. intros c [Hc|Hc]%Hin.
    + eapply in_family; [exact Hl|done].
    + eapply in_family; [exact Hh|done].
Qed.

Lemma op_step st m op st' :
  lists_rep st m -> abs_op op st st' -> is_Some (m !! op_cell op) ->
  runs (run_op op) m (λ _ m', step_ok st m (op_cell op) st' m').
Proof.
  intros HR Hop Hx. destruct Hop; cbn [run_op op_cell] in *.
  - by apply init_step.
  - by apply add_step.
  - by apply add_step.
  - by apply del_step.
  - by apply del_init_step.
  - eapply move_step; [done..|]. intros. by apply add_step.
  - eapply move_step; [done..|]. intros. by apply add_step.
  - by apply splice_step.
Qed.
End rep.

(** ** The theorem *)

(** Cell [x] is not touched by [ops]. *)
Definition untouched (ops : list list_op) (st : family) (x : Z) : Prop :=
  (x ∉ (op_cell <$> ops)) ∧ ∀ h L, st !! h = Some L -> x ∉ h :: L.

Lemma same_cell (m m' : heap) X x : links_kept X m m' -> x ∉ X -> m' !! x = m !! x.
Proof.
  intros [_ Hk] Hx. destruct (Hk x Hx) as [H1 H2]. simpl in H1, H2.
  destruct (m !! x) as [[]|], (m' !! x) as [[]|]; simpl in *; congruence.
Qed.

(** An operation leaves only cells of the family, and its own, on lists. *)
Lemma abs_op_cells op st st' x :
  abs_op op st st' -> x ≠ op_cell op -> (∀ h L, st !! h = Some L -> x ∉ h :: L) ->
  ∀ h L, st' !! h = Some L -> x ∉ h :: L.
Proof.
  intros Hop Hx Hst. destruct Hop; simpl in Hx; intros h2 L2;
    repeat first [rewrite lookup_insert_Some | rewrite lookup_delete_Some];
    intros; repeat match goal with H : _ ∨ _ |- _ => destruct H | H : _ ∧ _ |- _ => destruct H end; subst;
    repeat match goal with H : st !! _ = Some _ |- _ => apply Hst in H end;
    try set_solver.
  all: repeat match goal with H : <[_ := _]> _ !! _ = Some _ |- _ =>
    apply lookup_insert_Some in H as [[<- <-]|[? H%Hst]] end; set_solver.
Qed.

(** [C38] The operations of [list.h] refine those on lists: started in memory that
    represents a family of lists, any sequence of [INIT_LIST_HEAD], [list_add],
    [list_add_tail], [list_del], [list_del_init], [list_move], [list_move_tail]
    and [list_splice_init] that the family allows completes, the memory then
    represents the resulting family, every other cell is as before, and
    [list_empty] tells for each head whether its list is empty. *)
Theorem list_ops_refine (ops : list list_op) (st st' : family) (m : heap) :
  lists_rep st m -> abs_ops ops st st' -> (∀ op, op ∈ ops -> is_Some (m !! op_cell op)) ->
  ∃ m', run_ops ops m = Some (tt, m') ∧ lists_rep st' m' ∧ (∀ x, untouched ops st x -> m' !! x = m !! x) ∧
    ∀ h L, st' !! h = Some L -> list_empty h m' = Some (bool_decide (L = []), m').
Proof.
  intros HR Hops. revert m HR. induction Hops as [st|op ops st1 st2 st3 Hop _ IH]; intros m HR Hx.
  - exists m. split_and!; [done..|]. intros h L Hh. by apply list_empty_run, HR.
  - destruct (op_step st1 m op st2 HR Hop) as ([] & m1 & Hr1 & HR1 & X & HX & HXin); [apply Hx; by left|].
    destruct (IH m1 HR1) as (m' & Hr & HR' & Hk & He).
    { intros op' Hop'. apply (proj1 HX). apply Hx. by right. }
    exists m'. split_and!; [|done| |done].
    + simpl. by rewrite (step_bind _ _ _ _ _ Hr1).
    + intros x [Hxo Hxs]. simpl in Hxo. apply not_elem_of_cons in Hxo as [Hxo Hxr].
      rewrite Hk by (split; [done|]; by eapply abs_op_cells).
      eapply same_cell; [exact HX|]. intros [->|(h & L & Hh & Hin)]%HXin; [done|]. by apply (Hxs h L).
Qed.

(** [off_list] of a concrete family. *)
Ltac off_tac :=
  match goal with |- off_list ?x ?st =>
    split; [apply (bool_decide_unpack (map_Forall (λ _ L, x ∉ L) st)); vm_compute; exact I|
            first [left; reflexivity|right; reflexivity]]
  end.

Lemma list_ops_refine_witness :
  ∃ m', run_ops [OInit 1; OAdd 2 1; OAddTail 3 1; OMoveTail 2 1; OInit 4; OSpliceInit 1 4]
          (list_to_map ((λ x, (x, MkLH 0 0)) <$> [1; 2; 3; 4; 5])) = Some (tt, m') ∧
        list_empty 1 m' = Some (true, m') ∧ ring 4 [3; 2] m' ∧ m' !! 5 = Some (MkLH 0 0).
Proof.
  set (m := list_to_map _).
  destruct (list_ops_refine [OInit 1; OAdd 2 1; OAddTail 3 1; OMoveTail 2 1; OInit 4; OSpliceInit 1 4] ∅
    (<[4 := [3; 2] ++ []]> (<[1 := []]> (<[4 := []]> (<[1 := [3] ++ [2]]> (<[1 := [] ++ [3]]>
       (<[1 := [2] ++ [3]]> (delete 3 (<[1 := [2]]> (delete 2 (<[1 := []]> ∅)))))))))) m) as (m' & H1 & H2 & H3 & H4).
  - split; intros *; by rewrite lookup_empty.
  - eapply a_cons; [apply a_init; off_tac|]. eapply a_cons; [apply (a_add 2 1 []); [off_tac|done|done]|].
    eapply a_cons; [apply (a_add_tail 3 1 [2]); [off_tac|done|done]|].
    eapply a_cons; [by apply (a_move_tail 2 1 [] [3] 1 [3])|]. eapply a_cons; [apply a_init; off_tac|].
    eapply a_cons; [by apply (a_splice_init 1 [3; 2] 4 [])|]. apply a_nil.
  - intros op Hop. repeat (apply elem_of_cons in Hop as [->|Hop]; [by eexists|]). by apply elem_of_nil in Hop.
  - exists m'. split_and!; [exact H1|by apply (H4 1 [])|by apply H2|].
    rewrite H3; [done|]. split; [set_solver|]. intros h L. by rewrite lookup_empty.
Defined.
