(* ===== verification/Bitsop.v ===== *)
(** * Bitsop: bit arrays in byte buffers

    Models [src/common/bitsop.h] and [src/common/bitsop.c]: the macros
    [SET_B]/[CLR_B]/[ISSET_B]/[COPY_B]/[COUNT_B] and the functions behind
    them.  A buffer is one memory [m] (a list of bytes) and an address is an
    offset in it, so that [__bit_copy] may be called with overlapping source
    and destination.  An access outside [m] is [None]. *)

From S2P Require Import Prelude.

Definition CHAR_BITS : Z := 8.

(** ** bitsop.c *)

Definition __bitcount : list Z := [
  0; 1; 1; 2; 1; 2; 2; 3; 1; 2; 2; 3; 2; 3; 3; 4;
  1; 2; 2; 3; 2; 3; 3; 4; 2; 3; 3; 4; 3; 4; 4; 5;
  1; 2; 2; 3; 2; 3; 3; 4; 2; 3; 3; 4; 3; 4; 4; 5;
  2; 3; 3; 4; 3; 4; 4; 5; 3; 4; 4; 5; 4; 5; 5; 6;
  1; 2; 2; 3; 2; 3; 3; 4; 2; 3; 3; 4; 3; 4; 4; 5;
  2; 3; 3; 4; 3; 4; 4; 5; 3; 4; 4; 5; 4; 5; 5; 6;
  2; 3; 3; 4; 3; 4; 4; 5; 3; 4; 4; 5; 4; 5; 5; 6;
  3; 4; 4; 5; 4; 5; 5; 6; 4; 5; 5; 6; 5; 6; 6; 7;
  1; 2; 2; 3; 2; 3; 3; 4; 2; 3; 3; 4; 3; 4; 4; 5;
  2; 3; 3; 4; 3; 4; 4; 5; 3; 4; 4; 5; 4; 5; 5; 6;
  2; 3; 3; 4; 3; 4; 4; 5; 3; 4; 4; 5; 4; 5; 5; 6;
  3; 4; 4; 5; 4; 5; 5; 6; 4; 5; 5; 6; 5; 6; 6; 7;
  2; 3; 3; 4; 3; 4; 4; 5; 3; 4; 4; 5; 4; 5; 5; 6;
  3; 4; 4; 5; 4; 5; 5; 6; 4; 5; 5; 6; 5; 6; 6; 7;
  3; 4; 4; 5; 4; 5; 5; 6; 4; 5; 5; 6; 5; 6; 6; 7;
  4; 5; 5; 6; 5; 6; 6; 7; 5; 6; 6; 7; 6; 7; 7; 8 ].

(** [for(c=0; sz>0; buf++, sz--) c += __bitcount[*(unsigned char * )buf];]
    The loop runs [sz] times when [sz > 0], hence the [nat] counter. *)
Fixpoint CountBits_loop (m : list Z) (buf : Z) (n : nat) (c : Z) : option Z :=
  match n with
  | O => Some c
  | S n' =>
      v ← rd m buf;
      k ← rd __bitcount v;
      CountBits_loop m (buf + 1) n' (c + k)
  end.

Definition CountBits (m : list Z) (buf sz : Z) : option Z :=
  CountBits_loop m buf (Z.to_nat sz) 0.

(** ** bitsop.h *)

Definition __set_b (m : list Z) (bit addr : Z) : option (list Z) :=
  let begin := addr + bit / CHAR_BITS in
  let shift := u8 (bit mod CHAR_BITS) in
  v ← rd m begin;
  wr m begin (u8 (Z.lor v (Z.shiftl 1 shift))).

Definition __isset_b (m : list Z) (bit addr : Z) : option Z :=
  let begin := addr + bit / CHAR_BITS in
  let shift := u8 (bit mod CHAR_BITS) in
  v ← rd m begin;
  Some (if Z.land v (Z.shiftl 1 shift) >? 0 then 1 else 0).

Definition __clr_b (m : list Z) (bit addr : Z) : option (list Z) :=
  let begin := addr + bit / CHAR_BITS in
  let shift := u8 (bit mod CHAR_BITS) in
  v ← rd m begin;
  wr m begin (u8 (Z.land v (Z.lnot (Z.shiftl 1 shift)))).

Definition __readbyte (m : list Z) (addr : Z) : option Z := rd m addr.
Definition __writebyte (val : Z) (m : list Z) (addr : Z) : option (list Z) := wr m addr val.

Fixpoint bit_copy_loop (m : list Z) (dest_bit dest src_bit src : Z) (n : nat)
  : option (list Z) :=
  match n with
  | O => Some m
  | S n' =>
      s ← __isset_b m src_bit src;
      m' ← (if s =? 0 then __clr_b m dest_bit dest else __set_b m dest_bit dest);
      bit_copy_loop m' (u32 (dest_bit + 1)) dest (u32 (src_bit + 1)) src n'
  end.

Definition __bit_copy (m : list Z) (dest_bit dest src_bit src count : Z)
  : option (list Z) :=
  bit_copy_loop m dest_bit dest src_bit src (Z.to_nat count).

(** ** Specification: the bit at an absolute bit position of the memory *)

Definition getbit (m : list Z) (P : Z) : option bool :=
  v ← rd m (P / 8); Some (Z.testbit v (P mod 8)).

Lemma getbit_is_Some m P : 0 <= P < 8 * Z.of_nat (length m) -> is_Some (getbit m P).
Proof.
  intros. unfold getbit. destruct (rd_is_Some m (P / 8)) as [v ->]; [|eauto].
  Z.div_mod_to_equations. lia.
Qed.

Lemma bitpos addr bit :
  (8 * addr + bit) / 8 = addr + bit / 8 /\ (8 * addr + bit) mod 8 = bit mod 8.
Proof. split; Z.div_mod_to_equations; lia. Qed.

Lemma shift_of_bit bit : u8 (bit mod CHAR_BITS) = bit mod 8.
Proof. unfold CHAR_BITS. pose proof (Z.mod_pos_bound bit 8). wrap_lia. Qed.

Lemma land_bit_pos v k : 0 <= k -> (Z.land v (Z.shiftl 1 k) >? 0) = Z.testbit v k.
Proof.
  intros. rewrite Z.shiftl_1_l, Z.gtb_ltb.
  assert (Z.land v (2 ^ k) = if Z.testbit v k then 2 ^ k else 0) as ->.
  { apply Z.bits_inj'. intros i Hi. rewrite Z.land_spec, Z.pow2_bits_eqb by lia.
    destruct (Z.eqb_spec k i) as [->|].
    - destruct (Z.testbit v i) eqn:E; [by rewrite Z.pow2_bits_true|by rewrite Z.bits_0].
    - rewrite andb_false_r. destruct (Z.testbit v k); [|by rewrite Z.bits_0].
      rewrite Z.pow2_bits_false; [done|lia]. }
  destruct (Z.testbit v k); [|done]. destruct (Z.ltb_spec 0 (2 ^ k)); [done|].
  pose proof (Z.pow_pos_nonneg 2 k). lia.
Qed.

Lemma isset_getbit m bit addr :
  __isset_b m bit addr = b2z <$> getbit m (8 * addr + bit).
Proof.
  unfold __isset_b, getbit. rewrite shift_of_bit.
  destruct (bitpos addr bit) as [-> ->]. unfold CHAR_BITS.
  destruct (rd m _); simpl; [|done]. f_equal.
  rewrite land_bit_pos; [done|]. apply Z.mod_pos_bound. lia.
Qed.

Lemma testbit_byte_high v k : is_byte v -> 8 <= k -> Z.testbit v k = false.
Proof.
  intros Hv Hk. destruct (Z.eq_dec v 0) as [->|]; [apply Z.bits_0|].
  unfold is_byte in Hv. apply Z.bits_above_log2; [lia|].
  assert (Z.log2 v < 8); [|lia]. apply Z.log2_lt_pow2; lia.
Qed.

(** The byte stored by [__set_b] / [__clr_b], as bits. *)
Lemma set_byte_bits v s i :
  0 <= s < 8 -> 0 <= i < 8 ->
  Z.testbit (u8 (Z.lor v (Z.shiftl 1 s))) i = (i =? s) || Z.testbit v i.
Proof.
  intros. rewrite uwrap_testbit, Z.lor_spec, Z.shiftl_1_l, Z.pow2_bits_eqb by lia.
  rewrite (Z.eqb_sym s i). destruct (Z.ltb_spec i 8); [|lia]. simpl.
  apply orb_comm.
Qed.

Lemma clr_byte_bits v s i :
  0 <= s < 8 -> 0 <= i < 8 ->
  Z.testbit (u8 (Z.land v (Z.lnot (Z.shiftl 1 s)))) i = negb (i =? s) && Z.testbit v i.
Proof.
  intros. rewrite uwrap_testbit, Z.land_spec, Z.lnot_spec, Z.shiftl_1_l, Z.pow2_bits_eqb by lia.
  rewrite (Z.eqb_sym s i). destruct (Z.ltb_spec i 8); [|lia]. simpl.
  apply andb_comm.
Qed.

(** Rewriting one byte so that exactly one of its bits changes. *)
Lemma wr_bit m P v v' b :
  0 <= P ->
  rd m (P / 8) = Some v ->
  (forall i, 0 <= i < 8 -> Z.testbit v' i = if i =? P mod 8 then b else Z.testbit v i) ->
  exists m', wr m (P / 8) v' = Some m' /\ length m' = length m /\
    forall Q, 0 <= Q -> getbit m' Q = if Q =? P then Some b else getbit m Q.
Proof.
  intros HP Hr Hbits. pose proof (rd_Some_lt _ _ _ Hr).
  exists (<[Z.to_nat (P / 8) := v']> m). rewrite wr_is_Some by lia. split_and!; [done|apply length_insert|].
  intros Q HQ. unfold getbit.
  rewrite (rd_wr m (P / 8) (Q / 8) v') by (by rewrite wr_is_Some by lia).
  pose proof (Z.mod_pos_bound Q 8 ltac:(lia)).
  pose proof (Z_div_mod_eq_full Q 8). pose proof (Z_div_mod_eq_full P 8).
  destruct (Z.eqb_spec (P / 8) (Q / 8)) as [E|E]; simpl.
  - rewrite <- E, Hr; simpl. rewrite Hbits by lia.
    destruct (Z.eqb_spec (Q mod 8) (P mod 8)), (Z.eqb_spec Q P); try done; exfalso; lia.
  - destruct (Z.eqb_spec Q P); [by subst|done].
Qed.

(** What setting or clearing one bit does to the whole memory. *)
Definition bit_updated (m m' : list Z) (P : Z) (b : bool) : Prop :=
  length m' = length m /\
  forall Q, 0 <= Q -> getbit m' Q = if Q =? P then Some b else getbit m Q.

Lemma set_b_spec m bit addr :
  0 <= 8 * addr + bit < 8 * Z.of_nat (length m) ->
  exists m', __set_b m bit addr = Some m' /\ bit_updated m m' (8 * addr + bit) true.
Proof.
  intros HP. unfold __set_b. rewrite shift_of_bit. unfold CHAR_BITS.
  destruct (bitpos addr bit) as [<- <-].
  destruct (rd_is_Some m ((8 * addr + bit) / 8)) as [v Hv]; [Z.div_mod_to_equations; lia|].
  rewrite Hv. simpl. eapply wr_bit; [lia|done|]. intros i Hi.
  rewrite set_byte_bits by (auto using Z.mod_pos_bound with lia). by destruct (_ =? _).
Qed.

Lemma clr_b_spec m bit addr :
  0 <= 8 * addr + bit < 8 * Z.of_nat (length m) ->
  exists m', __clr_b m bit addr = Some m' /\ bit_updated m m' (8 * addr + bit) false.
Proof.
  intros HP. unfold __clr_b. rewrite shift_of_bit. unfold CHAR_BITS.
  destruct (bitpos addr bit) as [<- <-].
  destruct (rd_is_Some m ((8 * addr + bit) / 8)) as [v Hv]; [Z.div_mod_to_equations; lia|].
  rewrite Hv. simpl. eapply wr_bit; [lia|done|]. intros i Hi.
  rewrite clr_byte_bits by (auto using Z.mod_pos_bound with lia). by destruct (_ =? _).
Qed.

(** ** Bit copy *)

(** [n] bits from absolute position [dP] on hold what [m] held from [sP] on;
    every other bit is as in [m]. *)
Definition bits_copied (m m' : list Z) (dP sP n : Z) : Prop :=
  forall Q, 0 <= Q ->
    getbit m' Q = if (dP <=? Q) && (Q <? dP + n) then getbit m (Q - dP + sP) else getbit m Q.

Lemma bit_copy_step m db d sb s :
  0 <= 8 * d + db < 8 * Z.of_nat (length m) ->
  0 <= 8 * s + sb < 8 * Z.of_nat (length m) ->
  exists b m1, getbit m (8 * s + sb) = Some b /\
    (k ← __isset_b m sb s; if k =? 0 then __clr_b m db d else __set_b m db d) = Some m1 /\
    bit_updated m m1 (8 * d + db) b.
Proof.
  intros Hd Hs. destruct (getbit_is_Some m _ Hs) as [b Hb].
  rewrite isset_getbit, Hb. simpl.
  destruct b; [destruct (set_b_spec m db d Hd) as (m1&?&?)|destruct (clr_b_spec m db d Hd) as (m1&?&?)];
    eauto 6.
Qed.

Lemma bit_copy_loop_spec n : forall m db d sb s,
  0 <= db -> 0 <= sb -> db + Z.of_nat n < 2 ^ 32 -> sb + Z.of_nat n < 2 ^ 32 ->
  0 <= 8 * d + db -> 8 * d + db + Z.of_nat n <= 8 * Z.of_nat (length m) ->
  0 <= 8 * s + sb -> 8 * s + sb + Z.of_nat n <= 8 * Z.of_nat (length m) ->
  8 * d + db <= 8 * s + sb \/ 8 * s + sb + Z.of_nat n <= 8 * d + db ->
  exists m', bit_copy_loop m db d sb s n = Some m' /\ length m' = length m /\
    bits_copied m m' (8 * d + db) (8 * s + sb) (Z.of_nat n).
Proof.
  induction n as [|n IH]; intros m db d sb s Hdb Hsb Hdw Hsw Hd0 Hd Hs0 Hs Hov; cbn [bit_copy_loop].
  { exists m. split_and!; [done..|]. intros Q _. zcases; done. }
  rewrite Nat2Z.inj_succ in *.
  destruct (bit_copy_step m db d sb s) as (b & m1 & Hb & Hstep & Hl1 & Hm1); [lia..|].
  apply bind_Some in Hstep as (k & Hk & Hstep). rewrite Hk; simpl. rewrite Hstep; simpl.
  rewrite !uwrap_small by lia.
  destruct (IH m1 (db + 1) d (sb + 1) s) as (m' & Hm' & Hl' & Hc); [lia..|].
  exists m'. split_and!; [done|lia|]. intros Q HQ. rewrite Hc by done.
  destruct (Z.eqb_spec Q (8 * d + db)) as [->|Hne].
  - zcases. rewrite Hm1, Z.eqb_refl by lia. rewrite <- Hb. f_equal. lia.
  - zcases; rewrite Hm1 by lia; zcases; (done || f_equal; lia).
Qed.

(** [C36] Copying a bit range: whenever both ranges lie inside the buffer, the
    32-bit bit counters do not wrap and the destination does not start inside
    the source range, [__bit_copy] succeeds, the destination range of the
    result holds exactly the source bits (an overlapping copy downwards
    included) and no other bit of the buffer changes. *)
Theorem bit_copy_correct m dest_bit dest src_bit src count :
  0 <= dest_bit -> 0 <= src_bit -> 0 <= count ->
  dest_bit + count < 2 ^ 32 -> src_bit + count < 2 ^ 32 ->
  0 <= 8 * dest + dest_bit -> 8 * dest + dest_bit + count <= 8 * Z.of_nat (length m) ->
  0 <= 8 * src + src_bit -> 8 * src + src_bit + count <= 8 * Z.of_nat (length m) ->
  8 * dest + dest_bit <= 8 * src + src_bit \/ 8 * src + src_bit + count <= 8 * dest + dest_bit ->
  exists m', __bit_copy m dest_bit dest src_bit src count = Some m' /\ length m' = length m /\
    bits_copied m m' (8 * dest + dest_bit) (8 * src + src_bit) count.
Proof.
  intros. destruct (bit_copy_loop_spec (Z.to_nat count) m dest_bit dest src_bit src)
    as (m' & ? & ? & ?); [lia..|].
  exists m'. rewrite Z2Nat.id in * by lia. done.
Qed.

Lemma bit_copy_correct_witness :
  exists m', __bit_copy [0; 172; 15; 255] 3 0 5 1 13 = Some m' /\ length m' = 4%nat /\
    bits_copied [0; 172; 15; 255] m' 3 13 13.
Proof.
  apply (bit_copy_correct [0; 172; 15; 255] 3 0 5 1 13); simpl; lia.
Defined.

(** ** Population count *)

(** Number of set bits among the [n] bits from absolute position [P] on. *)
Fixpoint popcount (m : list Z) (P : Z) (n : nat) : Z :=
  match n with
  | O => 0
  | S n' => b2z (default false (getbit m P)) + popcount m (P + 1) n'
  end.

Lemma popcount_app m P n k :
  popcount m P (n + k) = popcount m P n + popcount m (P + Z.of_nat n) k.
Proof.
  revert P. induction n as [|n IH]; intros P.
  { cbn [popcount Nat.add]. by replace (P + Z.of_nat 0) with P by lia. }
  cbn [popcount Nat.add]. rewrite IH.
  replace (P + 1 + Z.of_nat n) with (P + Z.of_nat (S n)) by lia. lia.
Qed.

(** Setting a clear bit raises the count of the ranges that contain it. *)
Lemma popcount_set m m' P : forall n a,
  0 <= a -> bit_updated m m' P true -> getbit m P = Some false ->
  popcount m' a n = popcount m a n + b2z ((a <=? P) && (P <? a + Z.of_nat n)).
Proof.
  induction n as [|n IH]; intros a Ha Hu HP; cbn [popcount].
  { zcases; done. }
  rewrite IH by (done || lia). destruct Hu as [_ Hu]. rewrite Hu by lia.
  destruct (Z.eqb_spec a P) as [->|].
  - rewrite HP. cbn [default from_option]. zcases; cbn [b2z id]; lia.
  - zcases; cbn [b2z]; lia.
Qed.

Lemma popcount_ext m m' n : forall a,
  (forall i, a <= i < a + Z.of_nat n -> getbit m i = getbit m' i) -> popcount m a n = popcount m' a n.
Proof.
  induction n as [|n IH]; intros a Hm; cbn [popcount]; [done|].
  rewrite (Hm a) by lia. f_equal. apply IH. intros. apply Hm. lia.
Qed.

Definition byte_popcount (v : Z) : Z :=
  b2z (Z.testbit v 0) + b2z (Z.testbit v 1) + b2z (Z.testbit v 2) + b2z (Z.testbit v 3) +
  b2z (Z.testbit v 4) + b2z (Z.testbit v 5) + b2z (Z.testbit v 6) + b2z (Z.testbit v 7).

Lemma bitcount_table v : is_byte v -> rd __bitcount v = Some (byte_popcount v).
Proof.
  assert (forallb (λ n : nat, bool_decide (rd __bitcount (Z.of_nat n) = Some (byte_popcount (Z.of_nat n))))
            (seq 0 256) = true) as Hall by by vm_compute.
  rewrite forallb_forall in Hall. intros Hv. unfold is_byte in Hv.
  specialize (Hall (Z.to_nat v)). rewrite bool_decide_eq_true, Z2Nat.id in Hall by lia.
  apply Hall, in_seq. lia.
Qed.

Lemma popcount_byte m a v :
  rd m a = Some v -> popcount m (8 * a) 8 = byte_popcount v.
Proof.
  intros Hr.
  assert (forall k, 0 <= k < 8 -> getbit m (8 * a + k) = Some (Z.testbit v k)) as Hb.
  { intros k Hk. unfold getbit.
    replace ((8 * a + k) / 8) with a by (Z.div_mod_to_equations; lia).
    replace ((8 * a + k) mod 8) with k by (Z.div_mod_to_equations; lia). by rewrite Hr. }
  cbn [popcount]. replace (getbit m (8 * a)) with (getbit m (8 * a + 0)) by (f_equal; lia).
  rewrite <- !(Z.add_assoc (8 * a)). rewrite !Hb by lia. unfold byte_popcount.
  cbn -[Z.testbit b2z]. rewrite Z.add_0_r, !Z.add_assoc. reflexivity.
Qed.

Lemma CountBits_loop_spec n : forall m buf c,
  bytes m -> 0 <= buf -> buf + Z.of_nat n <= Z.of_nat (length m) ->
  CountBits_loop m buf n c = Some (c + popcount m (8 * buf) (8 * n)).
Proof.
  induction n as [|n IH]; intros m buf c Hm Hb Hn; cbn [CountBits_loop].
  { simpl. f_equal. lia. }
  destruct (rd_is_Some m buf) as [v Hv]; [lia|]. rewrite Hv; osimpl.
  assert (is_byte v) as Hbv.
  { unfold rd in Hv. destruct (buf <? 0); [done|]. by eapply Forall_lookup_1 in Hv. }
  rewrite (bitcount_table v Hbv); osimpl. rewrite IH; [|done|lia|lia]. f_equal.
  replace (8 * S n)%nat with (8 + 8 * n)%nat by lia.
  rewrite (popcount_app m (8 * buf) 8), (popcount_byte m buf v Hv).
  replace (8 * buf + Z.of_nat 8) with (8 * (buf + 1)) by lia. lia.
Qed.

(** Population count: on [sz] bytes inside the buffer the table-driven
    [CountBits] returns the number of set bits of that range, and a
    non-positive size counts nothing. *)
Theorem CountBits_correct m buf sz :
  bytes m -> 0 <= buf -> buf + Z.max sz 0 <= Z.of_nat (length m) ->
  CountBits m buf sz = Some (popcount m (8 * buf) (8 * Z.to_nat sz)).
Proof.
  intros. unfold CountBits. rewrite CountBits_loop_spec; [by rewrite Z.add_0_l|done|lia|].
  destruct (Z.max_spec sz 0) as [[? E]|[? E]]; rewrite E in *; lia.
Qed.

Lemma CountBits_correct_witness :
  CountBits [255; 16; 7] 1 2 = Some (popcount [255; 16; 7] 8 16).
Proof.
  apply (CountBits_correct [255; 16; 7] 1 2); [|lia|simpl; lia].
  repeat constructor; unfold is_byte; lia.
Defined.
