(* ===== verification/Value.v ===== *)
(** * Value: byte slices, tagged values and string comparison

    Models [src/common/value.h] and [src/common/value.c].

    A [char *] is [option ptr]: [None] is NULL, [Some] a block of memory with
    an offset in it; reading outside the block is [None] (undefined
    behaviour).  [union CValue] is its x86-64 layout: an 8-byte word shared
    by [s64], [u64] and [flt], whose low half is also [str.len]/[bin.len],
    and the pointer member of the two [CBinary] views.  Bytes C leaves
    indeterminate are zero. *)

From S2P Require Import Prelude Bitsop.

(** ** Pointers *)

Record ptr := Ptr { p_blk : list Z; p_off : Z }.

#[export] Instance ptr_eq_dec : EqDecision ptr.
Proof. solve_decision. Defined.

Definition deref (p : option ptr) (n : Z) : option Z :=
  q ← p; rd (p_blk q) (p_off q + n).

Definition padd (p : option ptr) (n : Z) : option ptr :=
  (λ q, Ptr (p_blk q) (p_off q + n)) <$> p.

(** The memory from the pointer on. *)
Definition pmem (p : ptr) : list Z := drop (Z.to_nat (p_off p)) (p_blk p).

(** [strlen]: [None] when no NUL byte follows in the block. *)
Fixpoint strlen_list (l : list Z) : option Z :=
  match l with
  | [] => None
  | c :: l' => if c =? 0 then Some 0 else n ← strlen_list l'; Some (1 + n)
  end.

Definition strlen (p : option ptr) : option Z :=
  q ← p; if p_off q <? 0 then None else strlen_list (pmem q).

(** [memcpy] source side and [memcmp]. *)
Fixpoint read_n (p : option ptr) (n : nat) : option (list Z) :=
  match n with
  | O => Some []
  | S n' => c ← deref p 0; r ← read_n (padd p 1) n'; Some (c :: r)
  end.

Fixpoint memcmp (p q : option ptr) (n : nat) : option Z :=
  match n with
  | O => Some 0
  | S n' =>
      a ← deref p 0; b ← deref q 0;
      if a =? b then memcmp (padd p 1) (padd q 1) n' else Some (a - b)
  end.

(** ** struct CBinary *)

Record CBinary := MkBinary { bin_len : Z; bin_ptr : option ptr }.

#[export] Instance CBinary_eq_dec : EqDecision CBinary.
Proof. solve_decision. Defined.

Definition IsEmpty (b : CBinary) : Z := b2z (bin_len b <=? 0).
Definition UnsignedValue (b : CBinary) (n : Z) : option Z := deref (bin_ptr b) n.
Definition SignedValue (b : CBinary) (n : Z) : option Z := c ← deref (bin_ptr b) n; Some (s8 c).
Definition NextValue (b : CBinary) (n : Z) : CBinary :=
  MkBinary (bin_len b - n) (padd (bin_ptr b) n).
Definition UnsignedValueNext (b : CBinary) : option (Z * CBinary) :=
  c ← deref (bin_ptr b) 0; Some (c, NextValue b 1).
Definition SignedValueNext (b : CBinary) : option (Z * CBinary) :=
  c ← deref (bin_ptr b) 0; Some (s8 c, NextValue b 1).

Definition bin_not (b : CBinary) : bool := bin_len b <=? 0.
Definition bin_deref (b : CBinary) : option Z := deref (bin_ptr b) 0.
Definition bin_index (b : CBinary) (n : Z) : option Z := deref (bin_ptr b) n.
Definition bin_advance (b : CBinary) (n : Z) : CBinary :=
  MkBinary (bin_len b - n) (padd (bin_ptr b) n).
Definition bin_incr (b : CBinary) : CBinary := bin_advance b 1.
(** post-increment: the old value and the advanced object *)
Definition bin_postincr (b : CBinary) : CBinary * CBinary := (b, bin_advance b 1).
Definition bin_lt (b : CBinary) (n : Z) : bool := bin_len b <? n.
Definition bin_le (b : CBinary) (n : Z) : bool := bin_len b <=? n.
Definition bin_gt (b : CBinary) (n : Z) : bool := n <? bin_len b.
Definition bin_ge (b : CBinary) (n : Z) : bool := n <=? bin_len b.

Definition bin_Set (v : option ptr) : option CBinary :=
  match v with
  | None => Some (MkBinary 0 None)
  | Some _ => n ← strlen v; Some (MkBinary n v)
  end.
Definition bin_SetL (v : option ptr) (l : Z) : CBinary := MkBinary l v.
Definition bin_SetZ (v : option ptr) : option CBinary :=
  match v with
  | None => Some (MkBinary 0 None)
  | Some _ => n ← strlen v; Some (MkBinary (n + 1) v)
  end.

(** ** struct CArray: a CBinary with typed append and consume

    [*(TYPE* )(ptr + len) = val] stores the little-endian bytes of [val]. *)

Fixpoint le_bytes (n : nat) (v : Z) : list Z :=
  match n with
  | O => []
  | S n' => u8 v :: le_bytes n' (Z.shiftr v 8)
  end.

Fixpoint le_value (l : list Z) : Z :=
  match l with
  | [] => 0
  | b :: l' => b + 256 * le_value l'
  end.

Definition store (p : option ptr) (off : Z) (xs : list Z) : option (option ptr) :=
  q ← p;
  blk ← wr_many (p_blk q) (p_off q + off) xs;
  Some (Some (Ptr blk (p_off q))).

(** [Add] for the integer types: [n] is [sizeof(TYPE)]. *)
Definition arr_AddInt (n : nat) (a : CBinary) (val : Z) : option CBinary :=
  p ← store (bin_ptr a) (bin_len a) (le_bytes n val);
  Some (MkBinary (bin_len a + Z.of_nat n) p).

(** [Add(const char* val)]: length prefix counts the NUL, which is copied. *)
Definition arr_AddStr (a : CBinary) (val : option ptr) : option CBinary :=
  n ← strlen val;
  let slen := u32 n in
  p ← store (bin_ptr a) (bin_len a) (le_bytes 4 (slen + 1));
  xs ← read_n val (Z.to_nat (slen + 1));
  p' ← store p (bin_len a + 4) xs;
  Some (MkBinary (bin_len a + (4 + slen + 1)) p').

(** [Add(const char* val, int l)] *)
Definition arr_AddBin (a : CBinary) (val : option ptr) (l : Z) : option CBinary :=
  p ← store (bin_ptr a) (bin_len a) (le_bytes 4 l);
  xs ← read_n val (Z.to_nat l);
  p' ← store p (bin_len a + 4) xs;
  Some (MkBinary (bin_len a + (4 + l)) p').

(** [Get(TYPE& val)] for an unsigned type of [n] bytes (the signed types
    reinterpret the value): return code, value, advanced array. *)
Definition arr_GetInt (n : nat) (a : CBinary) (val : Z) : option (Z * Z * CBinary) :=
  if u32 (bin_len a) <? Z.of_nat n then Some (-1, val, a)
  else
    xs ← read_n (bin_ptr a) n;
    Some (0, le_value xs, bin_advance a (Z.of_nat n)).

(** [Get(CBinary& bin)]; [sizeof(uint32_t)+bin.len] is a [size_t]. *)
Definition arr_GetBin (a : CBinary) (bin : CBinary) : option (Z * CBinary * CBinary) :=
  if u32 (bin_len a) <? 4 then Some (-1, bin, a)
  else
    xs ← read_n (bin_ptr a) 4;
    let bin' := MkBinary (s32 (le_value xs)) (padd (bin_ptr a) 4) in
    if u32 (bin_len a) <? u64 (4 + bin_len bin') then Some (-2, bin', a)
    else Some (0, bin', bin_advance a (4 + bin_len bin')).

(** ** union CValue *)

Record CValue := MkValue { v_word : Z; v_ptr : option ptr }.

#[export] Instance CValue_eq_dec : EqDecision CValue.
Proof. solve_decision. Defined.

Definition CValue_zero : CValue := MkValue 0 None.
Definition v_u64 (v : CValue) : Z := v_word v.
Definition v_s64 (v : CValue) : Z := s64 (v_word v).
(** the bit pattern of the [double] member *)
Definition v_flt (v : CValue) : Z := v_word v.
Definition v_str (v : CValue) : CBinary := MkBinary (s32 (v_word v)) (v_ptr v).

(** Stores through one member leave the other bytes of the union alone. *)
Definition v_set_word (v : CValue) (w : Z) : CValue := MkValue (u64 w) (v_ptr v).
Definition v_set_len (v : CValue) (l : Z) : CValue :=
  MkValue (Z.shiftl (Z.shiftr (v_word v) 32) 32 + u32 l) (v_ptr v).
Definition v_set_str (v : CValue) (b : CBinary) : CValue :=
  let v' := v_set_len v (bin_len b) in MkValue (v_word v') (bin_ptr b).

Definition val_SetInt (v : CValue) (x : Z) : CValue := v_set_word v x.
Definition val_SetFlt (v : CValue) (bits : Z) : CValue := v_set_word v bits.
Definition val_SetL (v : CValue) (p : option ptr) (l : Z) : CValue := v_set_str v (bin_SetL p l).
Definition val_Set (v : CValue) (p : option ptr) : option CValue :=
  b ← bin_Set p; Some (v_set_str v b).
Definition val_SetZ (v : CValue) (p : option ptr) : option CValue :=
  b ← bin_SetZ p; Some (v_set_str v b).

Definition MakeInt (x : Z) : CValue := val_SetInt CValue_zero x.
Definition MakeFlt (bits : Z) : CValue := val_SetFlt CValue_zero bits.
Definition MakeL (p : option ptr) (l : Z) : CValue := val_SetL CValue_zero p l.
Definition MakeStr (p : option ptr) : option CValue := val_Set CValue_zero p.

(** ** value.c: case-insensitive comparison *)

Definition internal_tolower_table_ : list Z := [
  0; 1; 2; 3; 4; 5; 6; 7; 8; 9; 10; 11; 12; 13; 14; 15;
  16; 17; 18; 19; 20; 21; 22; 23; 24; 25; 26; 27; 28; 29; 30; 31;
  32; 33; 34; 35; 36; 37; 38; 39; 40; 41; 42; 43; 44; 45; 46; 47;
  48; 49; 50; 51; 52; 53; 54; 55; 56; 57; 58; 59; 60; 61; 62; 63;
  64; 97; 98; 99; 100; 101; 102; 103; 104; 105; 106; 107; 108; 109; 110; 111;
  112; 113; 114; 115; 116; 117; 118; 119; 120; 121; 122; 91; 92; 93; 94; 95;
  96; 97; 98; 99; 100; 101; 102; 103; 104; 105; 106; 107; 108; 109; 110; 111;
  112; 113; 114; 115; 116; 117; 118; 119; 120; 121; 122; 123; 124; 125; 126; 127;
  128; 129; 130; 131; 132; 133; 134; 135; 136; 137; 138; 139; 140; 141; 142; 143;
  144; 145; 146; 147; 148; 149; 150; 151; 152; 153; 154; 155; 156; 157; 158; 159;
  160; 161; 162; 163; 164; 165; 166; 167; 168; 169; 170; 171; 172; 173; 174; 175;
  176; 177; 178; 179; 180; 181; 182; 183; 184; 185; 186; 187; 188; 189; 190; 191;
  192; 193; 194; 195; 196; 197; 198; 199; 200; 201; 202; 203; 204; 205; 206; 207;
  208; 209; 210; 211; 212; 213; 214; 215; 216; 217; 218; 219; 220; 221; 222; 223;
  224; 225; 226; 227; 228; 229; 230; 231; 232; 233; 234; 235; 236; 237; 238; 239;
  240; 241; 242; 243; 244; 245; 246; 247; 248; 249; 250; 251; 252; 253; 254; 255 ].

Definition TOLOWER (c : Z) : option Z := rd internal_tolower_table_ c.

(** [INTERNAL_TO_LOWER(char c)] *)
Definition INTERNAL_TO_LOWER (c : Z) : option Z :=
  r ← rd internal_tolower_table_ (u8 c); Some (s8 r).

(** The [while] loop; [n] is [max l 0] and [result] the last difference. *)
Fixpoint mystrcmp_loop (p1 p2 : option ptr) (n : nat) (result : Z) : option Z :=
  match n with
  | O => Some result
  | S n' =>
      c1 ← deref p1 0; c2 ← deref p2 0;
      t1 ← TOLOWER c1; t2 ← TOLOWER c2;
      let result := t1 - t2 in
      if negb (result =? 0) then Some result
      else if c1 =? 0 then Some result
      else mystrcmp_loop (padd p1 1) (padd p2 1) n' result
  end.

Definition mystrcmp (s1 s2 : option ptr) (l : Z) : option Z :=
  if bool_decide (s1 = s2) then Some 0 else mystrcmp_loop s1 s2 (Z.to_nat l) 0.

Definition IsStringZ (a : CBinary) : option bool :=
  if 0 <? bin_len a then c ← deref (bin_ptr a) (bin_len a - 1); Some (c =? 0) else Some false.

(** [StringEqual(const CBinary&, const char* )] *)
Definition StringEqualC (a : CBinary) (b : option ptr) : option bool :=
  r ← mystrcmp (bin_ptr a) b (bin_len a); Some (r =? 0).
(** [StringEqual(const CBinary&, const CBinary&)] *)
Definition StringEqual (a b : CBinary) : option bool :=
  if bin_len a =? bin_len b
  then r ← mystrcmp (bin_ptr a) (bin_ptr b) (bin_len a); Some (r =? 0)
  else Some false.
(** [BinaryEqual(const CValue&, const CValue&)] *)
Definition BinaryEqual (a b : CValue) : option bool :=
  if bin_len (v_str a) =? bin_len (v_str b)
  then r ← memcmp (v_ptr a) (v_ptr b) (Z.to_nat (bin_len (v_str a))); Some (r =? 0)
  else Some false.

(** ** Field masks: [FD_SET]/[FD_CLR]/[FD_ISSET] on a byte array (little
    endian, so bit [id] of the word array is bit [id mod 8] of byte [id / 8]) *)

Definition FIELD_ISSET (id : Z) (mask : list Z) : option Z := __isset_b mask id 0.
Definition FIELD_SET (id : Z) (mask : list Z) : option (list Z) := __set_b mask id 0.
Definition FIELD_CLR (id : Z) (mask : list Z) : option (list Z) := __clr_b mask id 0.
Definition FIELD_ZERO (mask : list Z) : list Z := replicate (length mask) 0.

(** ** struct CBufferChain: a chain of result buffers *)

Record CBufferChain := MkChain { totalBytes : Z; usedBytes : Z; chain_data : list Z }.

Definition chain_Count (bc : list CBufferChain) : Z * Z :=
  foldl (λ nl c, (nl.1 + 1, nl.2 + usedBytes c)) (0, 0) bc.
Definition chain_Clean1 (c : CBufferChain) : CBufferChain :=
  MkChain (totalBytes c) 0 (chain_data c).
Definition ChainClean (bc : list CBufferChain) : list CBufferChain := chain_Clean1 <$> bc.
(** [Clean]: forgets the rest of the chain *)
Definition chain_Clean (bc : list CBufferChain) : list CBufferChain :=
  match bc with [] => [] | c :: _ => [chain_Clean1 c] end.

(** ** Lemmas: pointers and memory *)

Lemma deref_in blk off n :
  deref (Some (Ptr blk off)) n = rd blk (off + n).
Proof. done. Qed.

Lemma padd_padd p a b : padd (padd p a) b = padd p (a + b).
Proof. destruct p as [[blk off]|]; [|done]. unfold padd. simpl. do 2 f_equal. lia. Qed.

Lemma padd_0 p : padd p 0 = p.
Proof. destruct p as [[blk off]|]; [|done]. unfold padd. simpl. do 2 f_equal. lia. Qed.

Lemma deref_padd p a n : deref (padd p a) n = deref p (a + n).
Proof. destruct p as [[blk off]|]; [|done]. unfold deref, padd. simpl. f_equal. lia. Qed.

(** [holds p l]: the bytes [l] are stored from [p] on. *)
Definition holds (p : option ptr) (l : list Z) : Prop :=
  forall i x, l !! i = Some x -> deref p (Z.of_nat i) = Some x.

Lemma holds_nil p : holds p [].
Proof. intros i x. by rewrite lookup_nil. Qed.

Lemma holds_cons p b l : holds p (b :: l) <-> deref p 0 = Some b /\ holds (padd p 1) l.
Proof.
  split.
  - intros H. split; [by apply (H 0%nat)|]. intros i x Hi.
    rewrite deref_padd. specialize (H (S i) x Hi). rewrite Nat2Z.inj_succ in H.
    by rewrite Z.add_comm.
  - intros [H0 H] [|i] x Hi; simpl in Hi; [by simplify_eq|].
    specialize (H i x Hi). rewrite deref_padd in H. rewrite Nat2Z.inj_succ. rewrite <- H. f_equal. lia.
Qed.

Lemma holds_app p l k : holds p (l ++ k) <-> holds p l /\ holds (padd p (Z.of_nat (length l))) k.
Proof.
  revert p. induction l as [|b l IH]; intros p; simpl.
  - rewrite padd_0. split; [|tauto]. split; [apply holds_nil|done].
  - rewrite !holds_cons, IH, padd_padd. replace (1 + Z.of_nat (length l)) with (Z.of_nat (S (length l))) by lia.
    tauto.
Qed.

Lemma holds_block a l c :
  holds (Some (Ptr (a ++ l ++ c) (Z.of_nat (length a)))) l.
Proof.
  intros i x Hi. rewrite deref_in. rewrite rd_app_r by lia.
  replace (_ + _ - _) with (Z.of_nat i) by lia. pose proof (lookup_lt_Some _ _ _ Hi).
  rewrite rd_app_l by lia. by rewrite rd_nat.
Qed.

Lemma holds_whole l : holds (Some (Ptr l 0)) l.
Proof. pose proof (holds_block [] l []) as H. by rewrite app_nil_r in H. Qed.

Lemma read_n_holds p l : holds p l -> read_n p (length l) = Some l.
Proof.
  revert p. induction l as [|b l IH]; intros p H; [done|].
  apply holds_cons in H as [H0 H]. simpl. rewrite H0. simpl. by rewrite (IH _ H).
Qed.

Lemma read_n_length p n l : read_n p n = Some l -> length l = n.
Proof.
  revert p l. induction n as [|n IH]; intros p l Hl; simpl in Hl; [by simplify_eq|].
  inv_bind Hl. simplify_eq. simpl. eauto.
Qed.

Lemma memcmp_holds p q l k :
  holds p l -> holds q k -> length l = length k ->
  exists r, memcmp p q (length l) = Some r /\ (r = 0 <-> l = k).
Proof.
  revert p q k. induction l as [|b l IH]; intros p q [|c k] Hp Hq Hl; try done.
  { exists 0. done. }
  apply holds_cons in Hp as [Hb Hp]. apply holds_cons in Hq as [Hc Hq].
  simpl. rewrite Hb, Hc. simpl. destruct (Z.eqb_spec b c) as [->|Hne].
  - destruct (IH _ _ k Hp Hq) as (r & Hr & Hiff); [by simplify_eq/=|].
    exists r. split; [done|]. rewrite Hiff. split; congruence.
  - exists (b - c). split; [done|]. split; [lia|congruence].
Qed.

(** Copying a block into memory that has room for it. *)
Lemma store_spec p off xs blk0 :
  p = Some (Ptr blk0 off) ->
  forall o, 0 <= off + o -> off + o + Z.of_nat (length xs) <= Z.of_nat (length blk0) ->
  exists a b c, blk0 = a ++ b ++ c /\ Z.of_nat (length a) = off + o /\ length b = length xs /\
    store p o xs = Some (Some (Ptr (a ++ xs ++ c) off)).
Proof.
  intros -> o H0 H1.
  set (a := take (Z.to_nat (off + o)) blk0).
  set (b := take (length xs) (drop (Z.to_nat (off + o)) blk0)).
  set (c := drop (length xs) (drop (Z.to_nat (off + o)) blk0)).
  assert (blk0 = a ++ b ++ c) as E by (unfold a, b, c; by rewrite !take_drop).
  assert (Z.of_nat (length a) = off + o) as Ha by (unfold a; rewrite length_take; lia).
  assert (length b = length xs) as Hb by (unfold b; rewrite length_take, length_drop; lia).
  exists a, b, c. split_and!; [done..|]. unfold store. simpl.
  rewrite <- Ha. rewrite E at 1. by rewrite wr_many_spec.
Qed.

(** ** Lemmas: little-endian bytes *)

Lemma length_le_bytes n v : length (le_bytes n v) = n.
Proof. revert v. induction n; simpl; auto. Qed.

Lemma le_value_bytes n v : le_value (le_bytes n v) = v mod 2 ^ (8 * Z.of_nat n).
Proof.
  revert v. induction n as [|n IH]; intros v; simpl.
  { change (2 ^ 0) with 1. by rewrite Z.mod_1_r. }
  rewrite IH, Z.shiftr_div_pow2 by lia. unfold uwrap.
  replace (8 * Z.of_nat (S n)) with (8 + 8 * Z.of_nat n) by lia.
  rewrite Z.pow_add_r by lia. change (2 ^ 8) with 256.
  rewrite Z.rem_mul_r; [lia|lia|]. apply Z.pow_pos_nonneg; lia.
Qed.

Lemma le_bytes_bytes n v : bytes (le_bytes n v).
Proof. revert v. induction n; intros; constructor; auto using u8_byte. apply IHn. Qed.

(** ** Lemmas: the union *)

Lemma v_s64_SetInt v x : v_s64 (val_SetInt v x) = s64 x.
Proof. unfold v_s64, val_SetInt, v_set_word. simpl. by apply swrap_uwrap. Qed.

Lemma v_str_set_str v b :
  - 2 ^ 31 <= bin_len b < 2 ^ 31 -> v_str (v_set_str v b) = b.
Proof.
  intros H. destruct b as [l p]. unfold v_str, v_set_str, v_set_len. simpl in *. f_equal.
  rewrite Z.shiftl_mul_pow2 by lia.
  transitivity (s32 (u32 (Z.shiftr (v_word v) 32 * 2 ^ 32 + u32 l))).
  { by rewrite swrap_uwrap. }
  replace (u32 (Z.shiftr (v_word v) 32 * 2 ^ 32 + u32 l)) with (u32 l).
  - rewrite swrap_uwrap by lia. apply swrap_small; lia.
  - unfold uwrap. rewrite Z.add_comm, Z_mod_plus_full. by rewrite Zmod_mod.
Qed.

Lemma v_word_range v x : 0 <= v_word (val_SetInt v x) < 2 ^ 64.
Proof. apply uwrap_range. lia. Qed.

#[export] Hint Rewrite v_s64_SetInt padd_padd padd_0 deref_padd length_le_bytes le_value_bytes : dtc.

(** ** Case-insensitive comparison *)

Definition tolower (c : Z) : Z := if (65 <=? c) && (c <=? 90) then c + 32 else c.

Lemma TOLOWER_spec c : is_byte c -> TOLOWER c = Some (tolower c).
Proof.
  assert (forallb (λ n : nat, bool_decide (TOLOWER (Z.of_nat n) = Some (tolower (Z.of_nat n))))
            (seq 0 256) = true) as Hall by by vm_compute.
  rewrite forallb_forall in Hall. intros Hv. unfold is_byte in Hv.
  specialize (Hall (Z.to_nat c)). rewrite bool_decide_eq_true, Z2Nat.id in Hall by lia.
  apply Hall, in_seq. lia.
Qed.

(** At most [n] bytes of a string, cut before its NUL. *)
Fixpoint cstr (n : nat) (l : list Z) : list Z :=
  match n, l with
  | S n', c :: l' => if c =? 0 then [] else c :: cstr n' l'
  | _, _ => []
  end.

(** The bytes are enough for a comparison of at most [n] characters. *)
Definition readable (n : nat) (l : list Z) : Prop := (n <= length l)%nat \/ 0 ∈ l.

Lemma readable_cons n c l : readable (S n) (c :: l) -> c <> 0 -> readable n l.
Proof.
  intros [H|H] Hc; [left; simpl in H; lia|]. right.
  apply elem_of_cons in H as [H|H]; [congruence|done].
Qed.

Lemma readable_nonempty n l : readable (S n) l -> exists c l', l = c :: l'.
Proof.
  intros [H|H]; destruct l; try (simpl in H; lia); eauto. by apply elem_of_nil in H.
Qed.

Lemma tolower_0 c : is_byte c -> tolower c = 0 <-> c = 0.
Proof. unfold tolower, is_byte. zcases. Qed.

Lemma mystrcmp_loop_spec n : forall p1 p2 l1 l2,
  holds p1 l1 -> holds p2 l2 -> bytes l1 -> bytes l2 -> readable n l1 -> readable n l2 ->
  exists r, mystrcmp_loop p1 p2 n 0 = Some r /\
    (r = 0 <-> tolower <$> cstr n l1 = tolower <$> cstr n l2).
Proof.
  induction n as [|n IH]; intros p1 p2 l1 l2 H1 H2 B1 B2 R1 R2; cbn [mystrcmp_loop].
  { exists 0. done. }
  destruct (readable_nonempty _ _ R1) as (a & k1 & ->).
  destruct (readable_nonempty _ _ R2) as (b & k2 & ->).
  apply holds_cons in H1 as [Ha H1]. apply holds_cons in H2 as [Hb H2].
  apply Forall_cons_1 in B1 as [Ba B1]. apply Forall_cons_1 in B2 as [Bb B2].
  rewrite Ha, Hb; osimpl. rewrite !TOLOWER_spec by done; osimpl. cbn [cstr].
  pose proof (tolower_0 a Ba). pose proof (tolower_0 b Bb).
  destruct (Z.eqb_spec (tolower a - tolower b) 0) as [E|E]; cbn [negb].
  - rewrite E. destruct (Z.eqb_spec a 0), (Z.eqb_spec b 0); try lia.
    + exists 0. done.
    + destruct (IH (padd p1 1) (padd p2 1) k1 k2) as (r & Hr & Hiff); eauto using readable_cons.
      exists r. split; [done|]. rewrite Hiff. rewrite !fmap_cons.
      split; [intros ->; f_equal; lia|by intros [=]].
  - exists (tolower a - tolower b). split; [done|].
    destruct (Z.eqb_spec a 0), (Z.eqb_spec b 0); try lia; rewrite ?fmap_cons, ?fmap_nil;
      split; try lia; intros [=]; lia.
Qed.

Lemma mystrcmp_spec s1 s2 l l1 l2 :
  holds s1 l1 -> holds s2 l2 -> bytes l1 -> bytes l2 ->
  readable (Z.to_nat l) l1 -> readable (Z.to_nat l) l2 ->
  exists r, mystrcmp s1 s2 l = Some r /\
    (r = 0 <-> tolower <$> cstr (Z.to_nat l) l1 = tolower <$> cstr (Z.to_nat l) l2).
Proof.
  intros H1 H2 B1 B2 R1 R2. unfold mystrcmp. case_bool_decide as E.
  - subst s2. exists 0. split; [done|]. split; [|done]. intros _. f_equal.
    clear B1 B2. revert s1 l1 l2 H1 H2 R1 R2. induction (Z.to_nat l) as [|n IH]; [done|].
    intros s l1 l2 H1 H2 R1 R2.
    destruct (readable_nonempty _ _ R1) as (a & k1 & ->).
    destruct (readable_nonempty _ _ R2) as (b & k2 & ->).
    apply holds_cons in H1 as [Ha H1]. apply holds_cons in H2 as [Hb H2]. simplify_eq. simpl.
    destruct (Z.eqb_spec a 0); [done|]. f_equal. eauto using readable_cons.
  - by apply mystrcmp_loop_spec.
Qed.

(** Case-insensitive comparison: on two strings that are long enough or
    NUL-terminated, [mystrcmp] reads only inside them and returns 0 exactly
    when the first [l] characters, cut at a NUL, agree up to letter case. *)
Theorem mystrcmp_correct s1 s2 l l1 l2 :
  holds s1 l1 -> holds s2 l2 -> bytes l1 -> bytes l2 ->
  readable (Z.to_nat l) l1 -> readable (Z.to_nat l) l2 ->
  exists r, mystrcmp s1 s2 l = Some r /\
    (r = 0 <-> tolower <$> cstr (Z.to_nat l) l1 = tolower <$> cstr (Z.to_nat l) l2).
Proof. exact (mystrcmp_spec s1 s2 l l1 l2). Qed.

Lemma mystrcmp_correct_witness :
  exists r, mystrcmp (Some (Ptr [65; 98; 67; 0] 0)) (Some (Ptr [97; 66; 99; 0] 0)) 9 = Some r /\
    (r = 0 <-> tolower <$> cstr 9 [65; 98; 67; 0] = tolower <$> cstr 9 [97; 66; 99; 0]).
Proof.
  apply (mystrcmp_correct _ _ 9 [65; 98; 67; 0] [97; 66; 99; 0]).
  1,2: apply holds_whole.
  1,2: repeat constructor; unfold is_byte; lia.
  all: right; repeat constructor.
Defined.

(** ** CArray item streams *)

Inductive arr_item :=
  | ItemInt (n : nat) (v : Z)
  | ItemBin (l : list Z).

Definition item_bytes (it : arr_item) : list Z :=
  match it with
  | ItemInt n v => le_bytes n v
  | ItemBin l => le_bytes 4 (Z.of_nat (length l)) ++ l
  end.

Definition item_ok (it : arr_item) : Prop :=
  match it with
  | ItemInt n v => 0 <= v < 2 ^ (8 * Z.of_nat n)
  | ItemBin l => Z.of_nat (length l) < 2 ^ 31 - 4
  end.

(** Append an item to the array through the [Add] overload of its type. *)
Definition arr_Add (a : CBinary) (it : arr_item) : option CBinary :=
  match it with
  | ItemInt n v => arr_AddInt n a v
  | ItemBin l => arr_AddBin a (Some (Ptr l 0)) (Z.of_nat (length l))
  end.

Fixpoint arr_Adds (a : CBinary) (its : list arr_item) : option CBinary :=
  match its with
  | [] => Some a
  | it :: its' => a' ← arr_Add a it; arr_Adds a' its'
  end.

(** Consume one item of the same type through the [Get] overload. *)
Definition arr_Get (a : CBinary) (it : arr_item) : option (Z * arr_item * CBinary) :=
  match it with
  | ItemInt n _ => '(rv, v, a') ← arr_GetInt n a 0; Some (rv, ItemInt n v, a')
  | ItemBin _ =>
      '(rv, b, a') ← arr_GetBin a (MkBinary 0 None);
      l ← read_n (bin_ptr b) (Z.to_nat (bin_len b));
      Some (rv, ItemBin l, a')
  end.

(** Read items of the given types until one fails. *)
Fixpoint arr_Gets (a : CBinary) (its : list arr_item) : option (list arr_item * CBinary) :=
  match its with
  | [] => Some ([], a)
  | it :: its' =>
      '(rv, v, a') ← arr_Get a it;
      if rv =? 0 then '(vs, a'') ← arr_Gets a' its'; Some (v :: vs, a'') else Some ([], a')
  end.

Definition stream (its : list arr_item) : list Z := concat (item_bytes <$> its).

Lemma arr_Add_spec off done_ rest it :
  0 <= off -> (length (item_bytes it) <= length rest)%nat ->
  forall pre, Z.of_nat (length pre) = off ->
  arr_Add (MkBinary (Z.of_nat (length done_)) (Some (Ptr (pre ++ done_ ++ rest) off))) it =
  Some (MkBinary (Z.of_nat (length (done_ ++ item_bytes it)))
          (Some (Ptr (pre ++ (done_ ++ item_bytes it) ++ drop (length (item_bytes it)) rest) off))).
Proof.
  intros H0 Hr pre Hpre.
  assert (forall xs d r, (length xs <= length r)%nat ->
    store (Some (Ptr (pre ++ d ++ r) off)) (Z.of_nat (length d)) xs =
    Some (Some (Ptr (pre ++ (d ++ xs) ++ drop (length xs) r) off))) as Hst.
  { intros xs d r Hl. unfold store. simpl. rewrite <- (take_drop (length xs) r) at 1.
    rewrite app_assoc.
    replace (off + Z.of_nat (length d)) with (Z.of_nat (length (pre ++ d))) by (rewrite length_app; lia).
    rewrite wr_many_spec by (rewrite length_take; lia). simpl. by rewrite <- !app_assoc. }
  destruct it as [n v|l]; cbn [arr_Add arr_Get item_bytes item_ok] in *.
  - unfold arr_AddInt. cbn [bin_ptr bin_len]. rewrite Hst by done. osimpl.
    rewrite length_app, length_le_bytes. do 2 f_equal. lia.
  - unfold arr_AddBin. cbn [bin_ptr bin_len].
    rewrite length_app, length_le_bytes in Hr. rewrite Hst by (rewrite length_le_bytes; lia). osimpl.
    rewrite Nat2Z.id. rewrite (read_n_holds _ l) by apply holds_whole. osimpl.
    rewrite length_le_bytes.
    replace (Z.of_nat (length done_) + 4) with
      (Z.of_nat (length (done_ ++ le_bytes 4 (Z.of_nat (length l)))))
      by (rewrite length_app, length_le_bytes; lia).
    rewrite Hst by (rewrite length_drop; lia). osimpl.
    rewrite drop_drop, <- app_assoc. do 2 f_equal.
    + rewrite !length_app, length_le_bytes. lia.
    + by rewrite <- !app_assoc.
Qed.

Lemma arr_Adds_spec its : forall done_ rest off pre,
  0 <= off -> (length (stream its) <= length rest)%nat -> Z.of_nat (length pre) = off ->
  arr_Adds (MkBinary (Z.of_nat (length done_)) (Some (Ptr (pre ++ done_ ++ rest) off))) its =
  Some (MkBinary (Z.of_nat (length (done_ ++ stream its)))
          (Some (Ptr (pre ++ (done_ ++ stream its) ++ drop (length (stream its)) rest) off))).
Proof.
  induction its as [|it its IH]; intros d rest off pre H0 Hr Hpre; simpl.
  { by rewrite app_nil_r. }
  unfold stream in *. rewrite fmap_cons, concat_cons in *. rewrite length_app in Hr.
  rewrite arr_Add_spec by (done || lia). osimpl. rewrite IH by (done || rewrite ?length_drop; lia).
  rewrite !length_app, drop_drop, <- !app_assoc. do 3 f_equal; lia.
Qed.

Lemma arr_Get_spec p len it rest :
  holds p (item_bytes it ++ rest) -> item_ok it ->
  Z.of_nat (length (item_bytes it)) <= len < 2 ^ 31 ->
  arr_Get (MkBinary len p) it =
  Some (0, it, MkBinary (len - Z.of_nat (length (item_bytes it)))
                 (padd p (Z.of_nat (length (item_bytes it))))).
Proof.
  intros Hh Hok Hlen. apply holds_app in Hh as [Hh _].
  destruct it as [n v|l]; cbn [arr_Add arr_Get item_bytes item_ok] in *.
  - rewrite length_le_bytes in *. unfold arr_GetInt. cbn [bin_len bin_ptr].
    rewrite uwrap_small by lia. destruct (Z.ltb_spec len (Z.of_nat n)); [lia|].
    pose proof (read_n_holds _ _ Hh) as Hrd. rewrite length_le_bytes in Hrd. rewrite Hrd. osimpl.
    rewrite le_value_bytes, Z.mod_small by done. done.
  - rewrite length_app, length_le_bytes in Hlen. apply holds_app in Hh as [Hh Hl].
    rewrite length_le_bytes in Hl. pose proof (read_n_holds _ _ Hh) as Hrd. rewrite length_le_bytes in Hrd.
    unfold arr_GetBin. cbn [bin_len bin_ptr]. rewrite uwrap_small by lia.
    destruct (Z.ltb_spec len 4); [lia|]. rewrite Hrd. osimpl. rewrite le_value_bytes.
    change (8 * Z.of_nat 4) with 32. rewrite Z.mod_small by lia.
    rewrite swrap_small by lia. cbn [bin_len bin_ptr]. rewrite uwrap_small by lia.
    destruct (Z.ltb_spec len (4 + Z.of_nat (length l))); [lia|]. osimpl. cbn [bin_len bin_ptr].
    rewrite Nat2Z.id. change (Z.of_nat 4) with 4 in Hl. rewrite (read_n_holds _ _ Hl). osimpl.
    rewrite length_app, length_le_bytes. unfold bin_advance. cbn [bin_len bin_ptr].
    do 3 f_equal; [lia|]. f_equal. lia.
Qed.

Lemma arr_Gets_spec its : forall p len,
  holds p (stream its) -> Forall item_ok its ->
  Z.of_nat (length (stream its)) <= len < 2 ^ 31 ->
  arr_Gets (MkBinary len p) its =
  Some (its, MkBinary (len - Z.of_nat (length (stream its))) (padd p (Z.of_nat (length (stream its))))).
Proof.
  induction its as [|it its IH]; intros p len Hh Hok Hlen; simpl.
  { rewrite padd_0. do 2 f_equal. unfold stream; simpl. f_equal. lia. }
  apply Forall_cons_1 in Hok as [Hit Hok]. unfold stream in *. rewrite fmap_cons, concat_cons in *.
  rewrite length_app in *. rewrite (arr_Get_spec p len it _ Hh Hit) by lia. osimpl. rewrite Z.eqb_refl.
  apply holds_app in Hh as [_ Hh].
  rewrite IH; [|done|done|]; [|lia]. osimpl. rewrite padd_padd. do 3 f_equal; [lia|]. f_equal. lia.
Qed.

(** CArray round trip: a list of integers and byte strings appended to an
    empty array with enough room, and consumed again through the matching
    [Get] overloads, comes back unchanged, with every return code 0 and
    nothing left over. *)
Theorem carray_roundtrip its blk off :
  Forall item_ok its -> 0 <= off ->
  off + Z.of_nat (length (stream its)) <= Z.of_nat (length blk) ->
  Z.of_nat (length (stream its)) < 2 ^ 31 ->
  exists a, arr_Adds (MkBinary 0 (Some (Ptr blk off))) its = Some a /\
    bin_len a = Z.of_nat (length (stream its)) /\
    exists p, arr_Gets a its = Some (its, MkBinary 0 p).
Proof.
  intros Hok H0 Hfit Hbound.
  pose proof (arr_Adds_spec its [] (drop (Z.to_nat off) blk) off (take (Z.to_nat off) blk)) as Hadd.
  rewrite !app_nil_l, take_drop, length_take, length_drop in Hadd.
  change (Z.of_nat (length [])) with 0 in Hadd. rewrite Hadd by lia. eexists. split; [done|]. split; [done|]. eexists.
  rewrite arr_Gets_spec; [by rewrite Z.sub_diag|..|done|lia].
  pose proof (holds_block (take (Z.to_nat off) blk) (stream its)
                (drop (length (stream its)) (drop (Z.to_nat off) blk))) as Hh.
  rewrite length_take in Hh. by replace (Z.of_nat (_ `min` _)) with off in Hh by lia.
Qed.

Lemma carray_roundtrip_witness :
  let its := [ItemInt 4 305419896; ItemBin [1; 2; 0; 255]; ItemInt 1 7] in
  exists a, arr_Adds (MkBinary 0 (Some (Ptr (replicate 20 0) 2))) its = Some a /\
    bin_len a = Z.of_nat (length (stream its)) /\
    exists p, arr_Gets a its = Some (its, MkBinary 0 p).
Proof.
  intros its. apply (carray_roundtrip its (replicate 20 0) 2).
  - repeat constructor; simpl; lia.
  - lia.
  - vm_compute. discriminate.
  - vm_compute. reflexivity.
Defined.

(** Malformed length accepted: when the 32-bit length prefix of a byte
    string is -4..-1 as an [int], [CArray::Get(CBinary&)] does not reject it
    (the 64-bit sum [sizeof(uint32_t)+bin.len] wraps to a small number): it
    returns 0 with a negative length and consumes fewer than 4 bytes. *)
Theorem arr_GetBin_negative_length p len k rest bin :
  1 <= k <= 4 -> 4 <= len < 2 ^ 31 ->
  holds p (le_bytes 4 (2 ^ 32 - k) ++ rest) ->
  arr_GetBin (MkBinary len p) bin =
  Some (0, MkBinary (- k) (padd p 4), MkBinary (len - (4 - k)) (padd p (4 - k))).
Proof.
  intros Hk Hlen Hh. apply holds_app in Hh as [Hh _].
  pose proof (read_n_holds _ _ Hh) as Hrd. rewrite length_le_bytes in Hrd.
  unfold arr_GetBin. cbn [bin_len bin_ptr]. rewrite uwrap_small by lia.
  destruct (Z.ltb_spec len 4); [lia|]. rewrite Hrd. osimpl. rewrite le_value_bytes.
  change (8 * Z.of_nat 4) with 32. rewrite Z.mod_small by lia. cbn [bin_len bin_ptr].
  assert (s32 (2 ^ 32 - k) = - k) as -> by wrap_lia.
  rewrite uwrap_small by lia. destruct (Z.ltb_spec len (4 + - k)); [lia|].
  unfold bin_advance. cbn [bin_len bin_ptr]. do 3 f_equal; lia.
Qed.

Lemma arr_GetBin_negative_length_witness :
  arr_GetBin (MkBinary 6 (Some (Ptr [255; 255; 255; 255; 9; 9] 0))) (MkBinary 0 None) =
  Some (0, MkBinary (-1) (padd (Some (Ptr [255; 255; 255; 255; 9; 9] 0)) 4),
        MkBinary 3 (padd (Some (Ptr [255; 255; 255; 255; 9; 9] 0)) 3)).
Proof.
  apply (arr_GetBin_negative_length _ 6 1 [9; 9]); [lia|lia|].
  apply (holds_whole [255; 255; 255; 255; 9; 9]).
Defined.
