(* ===== verification/Protocol.v ===== *)
(** * Protocol: wire constants and error codes

    Models [src/common/protocol.h] and [src/common/cache_error.h].  The
    enumerators of [DField], [DRequest] and their nested classes keep their
    names behind the class name. *)

From S2P Require Import Prelude.

Definition MAXFIELDS_PER_TABLE : Z := 255.
Definition MAXPACKETSIZE : Z := Z.shiftl 64 20.

(** ** class DField *)

Definition DField_None : Z := 0.
Definition DField_Signed : Z := 1.
Definition DField_Unsigned : Z := 2.
Definition DField_Float : Z := 3.
Definition DField_String : Z := 4.
Definition DField_Binary : Z := 5.
Definition DField_TotalType : Z := 6.

Definition DField_Set : Z := 0.
Definition DField_Add : Z := 1.
Definition DField_SetBits : Z := 2.
Definition DField_OR : Z := 3.
Definition DField_TotalOperation : Z := 4.

Definition DField_EQ : Z := 0.
Definition DField_NE : Z := 1.
Definition DField_LT : Z := 2.
Definition DField_LE : Z := 3.
Definition DField_GT : Z := 4.
Definition DField_GE : Z := 5.
Definition DField_TotalComparison : Z := 6.

(** ** class DRequest *)

Inductive DRequest :=
  | DRequest_Nop | DRequest_ResultCode | DRequest_ResultSet | DRequest_SvrAdmin
  | DRequest_Get | DRequest_Purge | DRequest_Insert | DRequest_Update | DRequest_Delete
  | DRequest_Replace | DRequest_Flush | DRequest_Invalidate | DRequest_Monitor.

Definition DRequest_code (r : DRequest) : Z :=
  match r with
  | DRequest_Nop => 0 | DRequest_ResultCode => 1 | DRequest_ResultSet => 2
  | DRequest_SvrAdmin => 3 | DRequest_Get => 4 | DRequest_Purge => 5
  | DRequest_Insert => 6 | DRequest_Update => 7 | DRequest_Delete => 8
  | DRequest_Replace => 12 | DRequest_Flush => 13 | DRequest_Invalidate => 14
  | DRequest_Monitor => 15
  end.

Definition Flag_KeepAlive : Z := 1.
Definition Flag_NeedTableDefinition : Z := 2.
Definition Flag_NoCache : Z := 4.
Definition Flag_NoResult : Z := 8.
Definition Flag_NoNextServer : Z := 16.
Definition Flag_MultiKeyValue : Z := 32.
Definition Flag_AdminTable : Z := 64.

Definition Section_VersionInfo : Z := 0.
Definition Section_TableDefinition : Z := 1.
Definition Section_RequestInfo : Z := 2.
Definition Section_ResultInfo : Z := 3.
Definition Section_UpdateInfo : Z := 4.
Definition Section_ConditionInfo : Z := 5.
Definition Section_FieldSet : Z := 6.
Definition Section_ResultSet : Z := 7.
Definition Section_Total : Z := 8.

Inductive ServerAdminCmd :=
  | RegisterHB | LogoutHB | GetKeyList | GetUpdateKey | GetRawData | ReplaceRawData
  | AdjustLRU | VerifyHBT | GetHBTime | SET_READONLY | SET_READWRITE | QueryServerInfo
  | NodeHandleChange | Migrate | ReloadClusterNodeList | SetClusterNodeState
  | ChangeNodeAddress | GetClusterState | PurgeForHit | QUERY_MEM_INFO.

Definition ServerAdminCmd_code (c : ServerAdminCmd) : Z :=
  match c with
  | RegisterHB => 1 | LogoutHB => 2 | GetKeyList => 3 | GetUpdateKey => 4 | GetRawData => 5
  | ReplaceRawData => 6 | AdjustLRU => 7 | VerifyHBT => 8 | GetHBTime => 9
  | SET_READONLY => 10 | SET_READWRITE => 11 | QueryServerInfo => 12 | NodeHandleChange => 13
  | Migrate => 14 | ReloadClusterNodeList => 15 | SetClusterNodeState => 16
  | ChangeNodeAddress => 17 | GetClusterState => 18 | PurgeForHit => 19 | QUERY_MEM_INFO => 20
  end.

(** ** Packet header *)

Record CPacketHeader := MkHeader {
  ph_version : Z; ph_scts : Z; ph_flags : Z; ph_cmd : Z;
  ph_len : list Z  (** [uint32_t len[DRequest::Section::Total]] *)
}.

Record CServerInfo := MkServerInfo {
  si_version : Z; si_reserved : list Z; si_binlog_id : Z; si_binlog_off : Z;
  si_memsize : Z; si_datasize : Z
}.

(** ** cache_error.h *)

Inductive cache_error :=
  | EC_ERROR_BASE
  | EC_BAD_COMMAND
  | EC_MISSING_SECTION
  | EC_EXTRA_SECTION
  | EC_DUPLICATE_TAG
  | EC_DUPLICATE_FIELD
  | EC_BAD_SECTION_LENGTH
  | EC_BAD_VALUE_LENGTH
  | EC_BAD_STRING_VALUE
  | EC_BAD_FLOAT_VALUE
  | EC_BAD_FIELD_NUM
  | EC_EXTRA_SECTION_DATA
  | EC_BAD_VALUE_TYPE
  | EC_BAD_OPERATOR
  | EC_BAD_FIELD_ID
  | EC_BAD_FIELD_NAME
  | EC_BAD_FIELD_TYPE
  | EC_BAD_FIELD_SIZE
  | EC_TABLE_REDEFINED
  | EC_TABLE_MISMATCH
  | EC_VERSION_MISMATCH
  | EC_CHECKSUM_MISMATCH
  | EC_NO_MORE_DATA
  | EC_NEED_FULL_FIELDSET
  | EC_BAD_KEY_TYPE
  | EC_BAD_KEY_SIZE
  | EC_SERVER_BUSY
  | EC_BAD_SOCKET
  | EC_NOT_INITIALIZED
  | EC_BAD_HOST_STRING
  | EC_BAD_TABLE_NAME
  | EC_TASK_NEED_DELETE
  | EC_KEY_NEEDED
  | EC_SERVER_ERROR
  | EC_UPSTREAM_ERROR
  | EC_KEY_OVERFLOW
  | EC_BAD_MULTIKEY
  | EC_READONLY_FIELD
  | EC_BAD_ASYNC_CMD
  | EC_OUT_OF_KEY_RANGE
  | EC_REQUEST_ABORTED
  | EC_PARALLEL_MODE
  | EC_KEY_NOTEXIST
  | EC_SERVER_READONLY
  | EC_BAD_INVALID_FIELD
  | EC_DUPLICATE_KEY
  | EC_TOO_MANY_KEY_VALUE
  | EC_BAD_KEY_NAME
  | EC_BAD_RAW_DATA
  | EC_BAD_HOTBACKUP_JID
  | EC_FULL_SYNC_COMPLETE
  | EC_FULL_SYNC_STAGE
  | EC_INC_SYNC_STAGE
  | EC_ERR_SYNC_STAGE
  | EC_NOT_ALLOWED_INSERT
  | EC_COMPRESS_ERROR
  | EC_UNCOMPRESS_ERROR
  | EC_TASKPOOL
  | EC_STATE_ERROR
  | EC_DATA_NEEDED
  | EC_BAD_ACCESS_KEY
.

(** C numbers the enumerators consecutively from [EC_ERROR_BASE = 2000]. *)
Definition ec (e : cache_error) : Z :=
  match e with
  | EC_ERROR_BASE => 2000
  | EC_BAD_COMMAND => 2001
  | EC_MISSING_SECTION => 2002
  | EC_EXTRA_SECTION => 2003
  | EC_DUPLICATE_TAG => 2004
  | EC_DUPLICATE_FIELD => 2005
  | EC_BAD_SECTION_LENGTH => 2006
  | EC_BAD_VALUE_LENGTH => 2007
  | EC_BAD_STRING_VALUE => 2008
  | EC_BAD_FLOAT_VALUE => 2009
  | EC_BAD_FIELD_NUM => 2010
  | EC_EXTRA_SECTION_DATA => 2011
  | EC_BAD_VALUE_TYPE => 2012
  | EC_BAD_OPERATOR => 2013
  | EC_BAD_FIELD_ID => 2014
  | EC_BAD_FIELD_NAME => 2015
  | EC_BAD_FIELD_TYPE => 2016
  | EC_BAD_FIELD_SIZE => 2017
  | EC_TABLE_REDEFINED => 2018
  | EC_TABLE_MISMATCH => 2019
  | EC_VERSION_MISMATCH => 2020
  | EC_CHECKSUM_MISMATCH => 2021
  | EC_NO_MORE_DATA => 2022
  | EC_NEED_FULL_FIELDSET => 2023
  | EC_BAD_KEY_TYPE => 2024
  | EC_BAD_KEY_SIZE => 2025
  | EC_SERVER_BUSY => 2026
  | EC_BAD_SOCKET => 2027
  | EC_NOT_INITIALIZED => 2028
  | EC_BAD_HOST_STRING => 2029
  | EC_BAD_TABLE_NAME => 2030
  | EC_TASK_NEED_DELETE => 2031
  | EC_KEY_NEEDED => 2032
  | EC_SERVER_ERROR => 2033
  | EC_UPSTREAM_ERROR => 2034
  | EC_KEY_OVERFLOW => 2035
  | EC_BAD_MULTIKEY => 2036
  | EC_READONLY_FIELD => 2037
  | EC_BAD_ASYNC_CMD => 2038
  | EC_OUT_OF_KEY_RANGE => 2039
  | EC_REQUEST_ABORTED => 2040
  | EC_PARALLEL_MODE => 2041
  | EC_KEY_NOTEXIST => 2042
  | EC_SERVER_READONLY => 2043
  | EC_BAD_INVALID_FIELD => 2044
  | EC_DUPLICATE_KEY => 2045
  | EC_TOO_MANY_KEY_VALUE => 2046
  | EC_BAD_KEY_NAME => 2047
  | EC_BAD_RAW_DATA => 2048
  | EC_BAD_HOTBACKUP_JID => 2049
  | EC_FULL_SYNC_COMPLETE => 2050
  | EC_FULL_SYNC_STAGE => 2051
  | EC_INC_SYNC_STAGE => 2052
  | EC_ERR_SYNC_STAGE => 2053
  | EC_NOT_ALLOWED_INSERT => 2054
  | EC_COMPRESS_ERROR => 2055
  | EC_UNCOMPRESS_ERROR => 2056
  | EC_TASKPOOL => 2057
  | EC_STATE_ERROR => 2058
  | EC_DATA_NEEDED => 2059
  | EC_BAD_ACCESS_KEY => 2060
  end.
