(* ===== verification/Codec.v ===== *)
(** * Codec: length-prefixed values on the wire

    Models the value layer of [src/common/decode.cc], [src/common/encode.cc]
    and [src/common/decode.h].  A decoder takes and returns its reference
    parameters (the cursor [bin], the output), with the C return code; [None]
    is a read outside the packet memory.  An encoder [char *Encode...(char *p,
    ...)] is the list of bytes it stores from [p] on; the pointer it returns
    is [p] plus the length of that list. *)

From S2P Require Import Prelude Bitsop Value Protocol.

(** The C library's [%LA] conversions of a [double] (bit pattern) to text
    without its NUL and of text back to a [double]. *)
Class FloatText := {
  fmt_LA : Z -> list Z;
  scan_LA : list Z -> option Z
}.

Definition str_NAN : list Z := [78; 65; 78].
Definition str_INF : list Z := [73; 78; 70].
Definition str_mINF : list Z := [45; 73; 78; 70].
Definition flt_NAN : Z := 9221120237041090560.
Definition flt_INF : Z := 9218868437227405312.
Definition flt_mINF : Z := 18442240474082181120.

(** [CONVERT_NULL_TO_EMPTY_STRING] of decode.cc *)
Definition CONVERT_NULL_TO_EMPTY_STRING : bool := true.

(** ** Lengths *)

Definition DecodeLength (bin : CBinary) (len : Z) : option (Z * CBinary * Z) :=
  if bin_not bin then Some (- ec EC_BAD_SECTION_LENGTH, bin, len)
  else
    len ← bin_deref bin;
    let bin := bin_incr bin in
    if len <? 240 then Some (0, bin, len)
    else if len <=? 252 then
      if bin_not bin then Some (- ec EC_BAD_SECTION_LENGTH, bin, len)
      else
        b ← bin_deref bin;
        Some (0, bin_incr bin, u32 (Z.shiftl (Z.land len 15) 8 + b))
    else if len =? 253 then
      if bin_lt bin 2 then Some (- ec EC_BAD_SECTION_LENGTH, bin, len)
      else
        b0 ← bin_index bin 0; b1 ← bin_index bin 1;
        Some (0, bin_advance bin 2, u32 (Z.shiftl b0 8 + b1))
    else if len =? 254 then
      if bin_lt bin 3 then Some (- ec EC_BAD_SECTION_LENGTH, bin, len)
      else
        b0 ← bin_index bin 0; b1 ← bin_index bin 1; b2 ← bin_index bin 2;
        Some (0, bin_advance bin 3, u32 (Z.shiftl b0 16 + Z.shiftl b1 8 + b2))
    else
      if bin_lt bin 4 then Some (- ec EC_BAD_SECTION_LENGTH, bin, len)
      else
        b0 ← bin_index bin 0; b1 ← bin_index bin 1; b2 ← bin_index bin 2; b3 ← bin_index bin 3;
        let len := u32 (Z.shiftl b0 24 + Z.shiftl b1 16 + Z.shiftl b2 8 + b3) in
        let bin := bin_advance bin 4 in
        if MAXPACKETSIZE <? len then Some (- ec EC_BAD_VALUE_LENGTH, bin, len)
        else Some (0, bin, len).

Definition EncodeLength (len : Z) : list Z :=
  if len <? 240 then [u8 len]
  else if len <? Z.shiftl 13 8 then [u8 (240 + Z.shiftr len 8); u8 (Z.land len 255)]
  else if len <? Z.shiftl 1 16 then [253; u8 (Z.shiftr len 8); u8 (Z.land len 255)]
  else if len <? Z.shiftl 1 24 then
    [254; u8 (Z.shiftr len 16); u8 (Z.shiftr len 8); u8 (Z.land len 255)]
  else [255; u8 (Z.shiftr len 24); u8 (Z.shiftr len 16); u8 (Z.shiftr len 8); u8 (Z.land len 255)].

Definition EncodedBytesLength (n : Z) : Z :=
  if n <? 240 then 1
  else if n <? Z.shiftl 13 8 then 2
  else if n <? Z.shiftl 1 16 then 3
  else if n <? Z.shiftl 1 24 then 4
  else 5.

(** ** Data values *)

(** [EncodeDataType]: unsigned fields travel as signed. *)
Definition EncodeDataType (type : Z) : list Z :=
  [u8 (if type =? DField_Unsigned then DField_Signed else type)].

(** The fall-through [switch(len)]: [n = len-1] more bytes, big endian. *)
Fixpoint decode_int_tail (p : option ptr) (n : nat) (acc : Z) : option Z :=
  match n with
  | O => Some acc
  | S n' => b ← deref p 0; decode_int_tail (padd p 1) n' (s64 (Z.lor (Z.shiftl acc 8) b))
  end.

(** The NUL-terminated text at a pointer, for [strcmp] and [sscanf]. *)
Definition ctext (p : option ptr) : option (list Z) :=
  n ← strlen p; read_n p (Z.to_nat n).

Section codec.
Context `{FloatText}.

Definition DecodeDataValue (bin : CBinary) (val : CValue) (type : Z)
  : option (Z * CBinary * CValue) :=
  '(rv, bin, len) ← DecodeLength bin 0;
  if negb (rv =? 0) then Some (rv, bin, val)
  else if bin_len bin <? len then Some (- ec EC_BAD_SECTION_LENGTH, bin, val)
  else
    let ok val := Some (0, bin_advance bin len, val) in
    if type =? DField_None then ok val
    else if (type =? DField_Signed) || (type =? DField_Unsigned) then
      if (len =? 0) || (8 <? len) then Some (- ec EC_BAD_VALUE_LENGTH, bin, val)
      else
        b0 ← deref (bin_ptr bin) 0;
        s ← decode_int_tail (padd (bin_ptr bin) 1) (Z.to_nat (len - 1)) (s8 b0);
        ok (val_SetInt val s)
    else if type =? DField_Float then
      if len <? 3 then Some (- ec EC_BAD_VALUE_LENGTH, bin, val)
      else
        z ← bin_index bin (len - 1);
        if negb (z =? 0) then Some (- ec EC_BAD_FLOAT_VALUE, bin, val)
        else
          t ← ctext (bin_ptr bin);
          if bool_decide (t = str_NAN) then ok (val_SetFlt val flt_NAN)
          else if bool_decide (t = str_INF) then ok (val_SetFlt val flt_INF)
          else if bool_decide (t = str_mINF) then ok (val_SetFlt val flt_mINF)
          else match scan_LA t with
               | None => Some (- ec EC_BAD_FLOAT_VALUE, bin, val)
               | Some ldf => ok (val_SetFlt val ldf)
               end
    else if (type =? DField_String) || (type =? DField_Binary) then
      if len =? 0 then
        ok (if CONVERT_NULL_TO_EMPTY_STRING then val_SetL val (padd (bin_ptr bin) (-1)) 0
            else val_SetL val None 0)
      else
        z ← bin_index bin (len - 1);
        if negb (z =? 0) then Some (- ec EC_BAD_STRING_VALUE, bin, val)
        else ok (val_SetL val (bin_ptr bin) (len - 1))
    else ok val.

(** Number of bytes of a signed integer on the wire. *)
Definition int_width (s : Z) : Z :=
  if 0 <=? s then
    if s <? 0x80 then 1
    else if s <? 0x8000 then 2
    else if s <? 0x800000 then 3
    else if s <? 0x80000000 then 4
    else if s <? 0x8000000000 then 5
    else if s <? 0x800000000000 then 6
    else if s <? 0x80000000000000 then 7
    else 8
  else
    if -0x80 <=? s then 1
    else if -0x8000 <=? s then 2
    else if -0x800000 <=? s then 3
    else if -0x80000000 <=? s then 4
    else if -0x8000000000 <=? s then 5
    else if -0x800000000000 <=? s then 6
    else if -0x80000000000000 <=? s then 7
    else 8.

(** [for(i=0;i<n;i++) p[i] = t[n-1-i];] (little-endian host) *)
Definition int_bytes (s n : Z) : list Z := rev (le_bytes (Z.to_nat n) (u64 s)).

(** [sizeof(long double)*2+8] *)
Definition FLTBUF : Z := 40.

(** The text left in [buf]: [snprintf] that does not fit is replaced by NAN. *)
Definition float_text (bits : Z) : list Z :=
  if FLTBUF <=? Z.of_nat (length (fmt_LA bits)) then str_NAN else fmt_LA bits.

Definition EncodeDataValue (v : CValue) (type : Z) : option (list Z) :=
  if type =? DField_None then Some [0]
  else if (type =? DField_Signed) || (type =? DField_Unsigned) then
    let n := int_width (v_s64 v) in Some (u8 n :: int_bytes (v_s64 v) n)
  else if type =? DField_Float then
    let n := Z.of_nat (length (float_text (v_flt v))) + 1 in
    Some (u8 n :: float_text (v_flt v) ++ [0])
  else if (type =? DField_String) || (type =? DField_Binary) then
    match v_ptr v with
    | None => Some [0]
    | Some _ =>
        let len := bin_len (v_str v) in
        if len <? 0 then None
        else
          l ← read_n (v_ptr v) (Z.to_nat len);
          Some (EncodeLength (u32 (len + 1)) ++ l ++ [0])
    end
  else Some [].

Definition EncodedBytesDataValue (v : CValue) (type : Z) : Z :=
  if type =? DField_None then 1
  else if (type =? DField_Signed) || (type =? DField_Unsigned) then
    let s := v_s64 v in
    if 0 <=? s then
      if s <? 0x80 then 2
      else if s <? 0x8000 then 3
      else if s <? 0x800000 then 4
      else if s <? 0x80000000 then 5
      else if s <? 0x8000000000 then 6
      else if s <? 0x800000000000 then 7
      else if s <? 0x80000000000000 then 8
      else 9
    else
      if -0x80 <=? s then 2
      else if -0x8000 <=? s then 3
      else if -0x800000 <=? s then 4
      else if -0x80000000 <=? s then 5
      else if -0x8000000000 <=? s then 6
      else if -0x800000000000 <=? s then 7
      else if -0x80000000000000 <=? s then 8
      else 9
  else if type =? DField_Float then
    if FLTBUF <=? Z.of_nat (length (fmt_LA (v_flt v))) then 5
    else 2 + Z.of_nat (length (fmt_LA (v_flt v)))
  else if (type =? DField_String) || (type =? DField_Binary) then
    match v_ptr v with
    | None => 1
    | Some _ =>
        let len := bin_len (v_str v) in
        len + 1 + EncodedBytesLength (u32 (len + 1))
    end
  else 0.

End codec.

(** ** The length code *)

Lemma EncodeLength_size n : 0 <= n -> Z.of_nat (length (EncodeLength n)) = EncodedBytesLength n.
Proof.
  intros. unfold EncodeLength, EncodedBytesLength. repeat (case_match; try done).
Qed.

Lemma EncodeLength_bytes n : bytes (EncodeLength n).
Proof.
  unfold EncodeLength, bytes. repeat case_match; repeat constructor; try apply u8_byte; unfold is_byte; lia.
Qed.

Lemma u8_land_255 n : 0 <= n -> u8 (Z.land n 255) = n mod 256.
Proof.
  intros. change 255 with (Z.ones 8). rewrite Z.land_ones by lia.
  unfold uwrap. by rewrite Zmod_mod.
Qed.

Lemma u8_shiftr n k : 0 <= k -> u8 (Z.shiftr n k) = (n / 2 ^ k) mod 256.
Proof. intros. rewrite Z.shiftr_div_pow2 by lia. done. Qed.

Lemma land_15 n : 0 <= n -> Z.land n 15 = n mod 16.
Proof. intros. change 15 with (Z.ones 4). by rewrite Z.land_ones. Qed.

(** Use the [i]-th byte known to be stored at [p]. *)
Ltac use_byte Hh i :=
  let E := fresh "E" in
  pose proof (Hh i _ eq_refl) as E;
  let k := eval vm_compute in (Z.of_nat i) in change (Z.of_nat i) with k in E.

(** Decoding of the bytes [EncodeLength] wrote, in any packet. *)
Lemma DecodeLength_EncodeLength n p len l0 :
  0 <= n < 2 ^ 32 -> holds p (EncodeLength n) -> EncodedBytesLength n <= len ->
  DecodeLength (MkBinary len p) l0 =
  Some (if MAXPACKETSIZE <? n then - ec EC_BAD_VALUE_LENGTH else 0,
        bin_advance (MkBinary len p) (EncodedBytesLength n), n).
Proof.
  intros Hn Hh Hlen. unfold DecodeLength, EncodedBytesLength in *. change MAXPACKETSIZE with 67108864.
  unfold bin_not, bin_deref, bin_incr, bin_lt, bin_index, bin_advance. cbn [bin_len bin_ptr].
  rewrite ?padd_padd, ?deref_padd.
  change (1 + 0) with 1. change (1 + 1) with 2. change (1 + 2) with 3. change (1 + 3) with 4.
  unfold EncodeLength in Hh.
  change (Z.shiftl 13 8) with 3328 in *. change (Z.shiftl 1 16) with 65536 in *.
  change (Z.shiftl 1 24) with 16777216 in *.
  rewrite ?u8_land_255, ?u8_shiftr in Hh by lia.
  destruct (Z.leb_spec len 0).
  { repeat (zcase_in Hlen; try lia). }
  destruct (Z.ltb_spec n 240).
  { use_byte Hh 0%nat. rewrite E. osimpl. rewrite uwrap_small by lia. zifs. done. }
  destruct (Z.ltb_spec n 3328).
  { use_byte Hh 0%nat. use_byte Hh 1%nat. rewrite E. osimpl.
    assert (u8 (240 + Z.shiftr n 8) = 240 + n / 256) as ->.
    { rewrite Z.shiftr_div_pow2 by lia. change (2 ^ 8) with 256. wrap_lia. }
    assert (240 <= 240 + n / 256 <= 252) by (Z.div_mod_to_equations; lia).
    zifs. rewrite E0. osimpl. rewrite land_15, Z.shiftl_mul_pow2 by lia.
    change (2 ^ 8) with 256.
    replace (u32 _) with n by wrap_lia. feq. }
  destruct (Z.ltb_spec n 65536).
  { use_byte Hh 0%nat. use_byte Hh 1%nat. use_byte Hh 2%nat. rewrite E. osimpl.
    zifs. rewrite E0, E1. osimpl. rewrite Z.shiftl_mul_pow2 by lia.
    replace (u32 _) with n by wrap_lia. feq. }
  destruct (Z.ltb_spec n 16777216).
  { use_byte Hh 0%nat. use_byte Hh 1%nat. use_byte Hh 2%nat. use_byte Hh 3%nat.
    rewrite E. osimpl. zifs. rewrite E0, E1, E2. osimpl. rewrite !Z.shiftl_mul_pow2 by lia.
    replace (u32 _) with n by wrap_lia. feq. }
  use_byte Hh 0%nat. use_byte Hh 1%nat. use_byte Hh 2%nat. use_byte Hh 3%nat. use_byte Hh 4%nat.
  rewrite E. osimpl. do 4 zif. zif. rewrite E0, E1, E2, E3. osimpl. rewrite !Z.shiftl_mul_pow2 by lia.
  replace (u32 _) with n by wrap_lia.
  destruct (Z.ltb_spec 67108864 n); feq.
Qed.

(** ** Integers: big-endian, two's complement, minimal width *)

Lemma le_bytes_snoc n v : le_bytes (S n) v = le_bytes n v ++ [u8 (Z.shiftr v (8 * Z.of_nat n))].
Proof.
  revert v. induction n as [|n IH]; intros v.
  { simpl. by rewrite Z.shiftr_0_r. }
  change (le_bytes (S (S n)) v) with (u8 v :: le_bytes (S n) (Z.shiftr v 8)).
  rewrite IH. simpl. rewrite Z.shiftr_shiftr by lia. feq.
Qed.

Definition be_value (acc : Z) (l : list Z) : Z := foldl (λ a b, a * 256 + b) acc l.

Lemma be_value_rev_le n v acc :
  be_value acc (rev (le_bytes n v)) = acc * 2 ^ (8 * Z.of_nat n) + v mod 2 ^ (8 * Z.of_nat n).
Proof.
  revert v acc. induction n as [|n IH]; intros v acc.
  { simpl. change (2 ^ 0) with 1. rewrite Z.mod_1_r. unfold be_value; simpl. lia. }
  simpl. unfold be_value in *. rewrite foldl_app. simpl.
  rewrite IH, Z.shiftr_div_pow2 by lia. unfold uwrap.
  replace (8 * Z.of_nat (S n)) with (8 + 8 * Z.of_nat n) by lia. rewrite Z.pow_add_r by lia.
  change (2 ^ 8) with 256. rewrite Z.rem_mul_r; [lia|lia|]. apply Z.pow_pos_nonneg; lia.
Qed.

Lemma lor_byte a b : is_byte b -> Z.lor (Z.shiftl a 8) b = a * 256 + b.
Proof.
  intros Hb. change 256 with (2 ^ 8). rewrite <- Z.shiftl_mul_pow2 by lia.
  rewrite <- Z.add_lor_land. replace (Z.land (Z.shiftl a 8) b) with 0; [lia|].
  symmetry. apply Z.bits_inj'. intros i Hi. rewrite Z.land_spec, Z.bits_0.
  destruct (Z.ltb_spec i 8).
  - by rewrite Z.shiftl_spec_low.
  - rewrite (testbit_byte_high b) by (done || lia). apply andb_false_r.
Qed.

Lemma s64_mul_add x b : s64 (s64 x * 256 + b) = s64 (x * 256 + b).
Proof.
  rewrite <- (swrap_uwrap 64 (s64 x * 256 + b)), <- (swrap_uwrap 64 (x * 256 + b)) by lia. f_equal.
  unfold uwrap. rewrite Zplus_mod, Zmult_mod.
  change (s64 x mod 2 ^ 64) with (u64 (s64 x)). rewrite uwrap_swrap by lia.
  unfold uwrap. by rewrite <- Zmult_mod, <- Zplus_mod.
Qed.

Lemma decode_int_tail_spec l : forall p acc,
  holds p l -> bytes l ->
  exists r, decode_int_tail p (length l) acc = Some r /\ s64 r = s64 (be_value acc l).
Proof.
  induction l as [|b l IH]; intros p acc Hh Hb; cbn [decode_int_tail length].
  { exists acc. done. }
  apply holds_cons in Hh as [H0 Hh]. apply Forall_cons_1 in Hb as [Hb Hl].
  rewrite H0; osimpl. rewrite lor_byte by done.
  destruct (IH (padd p 1) (s64 (acc * 256 + b)) Hh Hl) as (r & Hr & E).
  exists r. split; [done|]. rewrite E. unfold be_value. simpl. clear.
  generalize (acc * 256 + b). intros x. induction l as [|c l IHl] using rev_ind; simpl.
  { by rewrite <- (swrap_uwrap 64 (s64 x)), uwrap_swrap, swrap_uwrap by lia. }
  rewrite !foldl_app. simpl. rewrite <- s64_mul_add, IHl. by rewrite s64_mul_add.
Qed.

Lemma int_width_range s :
  - 2 ^ 63 <= s < 2 ^ 63 ->
  1 <= int_width s <= 8 /\ - 2 ^ (8 * int_width s - 1) <= s < 2 ^ (8 * int_width s - 1).
Proof.
  intros Hs. unfold int_width.
  destruct (Z.leb_spec 0 s); zifs; split; try lia;
    match goal with |- context [2 ^ ?e] =>
      let v := eval vm_compute in (2 ^ e) in change (2 ^ e) with v end; lia.
Qed.

Lemma length_int_bytes s n : 0 <= n -> Z.of_nat (length (int_bytes s n)) = n.
Proof. intros. unfold int_bytes. rewrite length_rev, length_le_bytes. lia. Qed.

Lemma int_bytes_bytes s n : bytes (int_bytes s n).
Proof. unfold int_bytes, bytes. apply Forall_rev, le_bytes_bytes. Qed.

(** The decoder's [switch] reassembles the integer [int_bytes] wrote. *)
Lemma decode_int_bytes s p :
  - 2 ^ 63 <= s < 2 ^ 63 -> holds p (int_bytes s (int_width s)) ->
  exists b0 r, deref p 0 = Some b0 /\
    decode_int_tail (padd p 1) (Z.to_nat (int_width s - 1)) (s8 b0) = Some r /\ s64 r = s.
Proof.
  intros Hs Hh. destruct (int_width_range s Hs) as [Hw Hfit].
  remember (Z.to_nat (int_width s - 1)) as n eqn:En.
  assert (int_width s = Z.of_nat (S n)) as Ew by lia. rewrite Ew in *.
  unfold int_bytes in Hh. rewrite Nat2Z.id, le_bytes_snoc, rev_app_distr in Hh. simpl in Hh.
  apply holds_cons in Hh as [H0 Hh]. rewrite H0.
  destruct (decode_int_tail_spec (rev (le_bytes n (u64 s))) (padd p 1)
              (s8 (u8 (Z.shiftr (u64 s) (8 * Z.of_nat n)))) Hh) as (r & Hr & E).
  { apply Forall_rev, le_bytes_bytes. }
  rewrite length_rev, length_le_bytes in Hr. eexists _, r. split; [done|]. split; [done|].
  rewrite E, be_value_rev_le, swrap_uwrap by lia.
  set (K := 2 ^ (8 * Z.of_nat n)).
  assert (0 < K) by (apply Z.pow_pos_nonneg; lia).
  assert (2 ^ 64 = K * 2 ^ (64 - 8 * Z.of_nat n)) as E64
    by (unfold K; rewrite <- Z.pow_add_r by lia; f_equal; lia).
  assert (s8 (Z.shiftr (u64 s) (8 * Z.of_nat n)) = s / K) as ->.
  { rewrite Z.shiftr_div_pow2 by lia. fold K.
    assert (u64 s / K = s / K + 2 ^ (64 - 8 * Z.of_nat n) * (if s <? 0 then 1 else 0)) as ->.
    { unfold uwrap. destruct (Z.ltb_spec s 0).
      - replace (s mod 2 ^ 64) with (s + 2 ^ 64)
          by (rewrite <- (Z_mod_plus_full s 1), Z.mod_small; lia).
        rewrite E64, Z.mul_comm, Z.div_add by lia. lia.
      - rewrite Z.mod_small by lia. lia. }
    assert (exists q, 2 ^ (64 - 8 * Z.of_nat n) = 2 ^ 8 * q) as [q ->].
    { exists (2 ^ (64 - 8 * Z.of_nat n - 8)). rewrite <- Z.pow_add_r by lia. f_equal. lia. }
    assert (2 ^ (8 * Z.of_nat (S n) - 1) = 2 ^ 7 * K) as Ek
      by (unfold K; rewrite <- Z.pow_add_r by lia; f_equal; lia).
    rewrite Ek in Hfit. unfold swrap.
    replace (s / K + 2 ^ 8 * q * _ + 2 ^ (8 - 1))
      with (s / K + 2 ^ 7 + (q * (if s <? 0 then 1 else 0)) * 2 ^ 8) by (destruct (s <? 0); lia).
    rewrite Z_mod_plus_full. change (2 ^ (8 - 1)) with (2 ^ 7).
    assert (- 2 ^ 7 <= s / K < 2 ^ 7).
    { split; [apply Z.div_le_lower_bound|apply Z.div_lt_upper_bound]; lia. }
    rewrite Z.mod_small; lia. }
  assert (u64 s mod K = s mod K) as ->.
  { unfold uwrap. rewrite E64. apply Z.mod_mod_divide.
    by exists (2 ^ (64 - 8 * Z.of_nat n)); lia. }
  rewrite Z.mul_comm, <- Z_div_mod_eq_full. apply swrap_small; lia.
Qed.

(** ** Reading inside the packet *)

(** Every byte the cursor still counts is readable memory. *)
Definition readable_bin (b : CBinary) : Prop :=
  exists l, bytes l /\ holds (bin_ptr b) l /\ bin_len b <= Z.of_nat (length l).

Lemma readable_deref b i :
  readable_bin b -> 0 <= i < bin_len b -> exists c, deref (bin_ptr b) i = Some c /\ is_byte c.
Proof.
  intros (l & Hb & Hh & Hl) Hi.
  destruct (lookup_lt_is_Some_2 l (Z.to_nat i)) as [c Hc]; [lia|].
  exists c. split; [|by eapply Forall_lookup_1].
  rewrite <- (Z2Nat.id i) by lia. by apply Hh.
Qed.

Lemma readable_advance b k : readable_bin b -> 0 <= k -> readable_bin (bin_advance b k).
Proof.
  intros (l & Hb & Hh & Hl) Hk. exists (drop (Z.to_nat k) l). split; [by apply Forall_drop|].
  split.
  - simpl. destruct (decide (Z.to_nat k <= length l)%nat).
    + rewrite <- (take_drop (Z.to_nat k) l) in Hh. apply holds_app in Hh as [_ Hh].
      rewrite length_take in Hh. by replace (Z.of_nat (_ `min` _)) with k in Hh by lia.
    + rewrite drop_ge by lia. apply holds_nil.
  - simpl. rewrite length_drop. lia.
Qed.

Lemma readable_shorter b l : readable_bin b -> l <= bin_len b -> readable_bin (MkBinary l (bin_ptr b)).
Proof. intros (x & ? & ? & ?) ?. exists x. simpl. split_and!; [done..|lia]. Qed.

(** Rewrite with the byte at index [i] of a readable cursor. *)
Ltac read_byte Hr i :=
  let c := fresh "c" in let E := fresh "E" in let B := fresh "B" in
  destruct (readable_deref _ i Hr) as (c & E & B); [simpl; lia|]; rewrite E; osimpl; unfold is_byte in B.

(** What every decoder of this file promises on arbitrary packet bytes: it
    stays in the packet ([Some]) and moves the cursor forward inside it. *)
Definition forward (b b' : CBinary) : Prop :=
  exists k, b' = bin_advance b k /\ 0 <= k <= Z.max 0 (bin_len b).

Lemma forward_refl b : forward b b.
Proof. exists 0. unfold bin_advance. rewrite padd_0, Z.sub_0_r. destruct b; split; [done|lia]. Qed.

Lemma forward_step b k : 0 <= k <= bin_len b -> forward b (bin_advance b k).
Proof. intros. exists k. split; [done|lia]. Qed.

Lemma advance_advance b i j : bin_advance (bin_advance b i) j = bin_advance b (i + j).
Proof. unfold bin_advance. simpl. rewrite padd_padd. feq. Qed.

Lemma forward_trans a b c : forward a b -> forward b c -> forward a c.
Proof.
  intros (i & -> & Hi) (j & -> & Hj). exists (i + j). rewrite advance_advance. split; [done|].
  simpl in Hj. lia.
Qed.

Lemma forward_readable a b : readable_bin a -> forward a b -> readable_bin b.
Proof. intros Ha (k & -> & Hk). apply readable_advance; [done|lia]. Qed.

(** Close a branch of a decoder that leaves the cursor [k] bytes further. *)
Ltac decoded k :=
  do 3 eexists; split; [reflexivity|];
  split; [first [apply forward_refl | apply (forward_step _ k); lia]|];
  split; [intros; split; try lia; rewrite ?uwrap_small; (lia || done || (simpl; lia)) | auto].

Lemma DecodeLength_safe b l0 :
  readable_bin b ->
  exists rv b' n, DecodeLength b l0 = Some (rv, b', n) /\ forward b b' /\
    (rv = 0 -> 0 <= n <= MAXPACKETSIZE /\ bin_len b' < bin_len b) /\
    (rv = 0 \/ rv = - ec EC_BAD_SECTION_LENGTH \/ rv = - ec EC_BAD_VALUE_LENGTH).
Proof.
  intros Hr. unfold DecodeLength, bin_not, bin_deref, bin_index, bin_lt, bin_incr.
  change MAXPACKETSIZE with 67108864.
  destruct (Z.leb_spec (bin_len b) 0); [decoded 0|].
  read_byte Hr 0. rewrite !advance_advance. zif; [decoded 1|].
  pose proof (readable_advance b 1 Hr ltac:(lia)) as Hr1.
  assert (bin_len (bin_advance b 1) = bin_len b - 1) as L1 by done.
  zif.
  { zif; [decoded 1|]. read_byte Hr1 0. rewrite land_15, Z.shiftl_mul_pow2 by lia.
    pose proof (Z.mod_pos_bound c 16). decoded 2. }
  zif.
  { zif; [decoded 1|]. read_byte Hr1 0. read_byte Hr1 1. rewrite Z.shiftl_mul_pow2 by lia. decoded 3. }
  zif.
  { zif; [decoded 1|]. read_byte Hr1 0. read_byte Hr1 1. read_byte Hr1 2.
    rewrite !Z.shiftl_mul_pow2 by lia. decoded 4. }
  zif; [decoded 1|]. read_byte Hr1 0. read_byte Hr1 1. read_byte Hr1 2. read_byte Hr1 3.
  pose proof (uwrap_range 32 (Z.shiftl c0 24 + Z.shiftl c1 16 + Z.shiftl c2 8 + c3) ltac:(lia)).
  zif; decoded 5.
Qed.

Lemma holds_prefix q l : holds (Some q) l -> l <> [] -> 0 <= p_off q /\ exists r, pmem q = l ++ r.
Proof.
  intros Hh Hne. destruct l as [|b l]; [done|].
  assert (0 <= p_off q) as H0.
  { pose proof (Hh 0%nat b eq_refl) as E. unfold deref in E; simpl in E. apply rd_Some_lt in E. lia. }
  split; [done|]. exists (drop (length (b :: l)) (pmem q)).
  rewrite <- (take_drop (length (b :: l)) (pmem q)) at 1. f_equal.
  apply list_eq_same_length with (length (b :: l)); [done| |].
  - rewrite length_take. unfold pmem. rewrite length_drop.
    destruct (lookup_lt_is_Some_2 (b :: l) (length l)) as [c Hc]; [simpl; lia|].
    pose proof (Hh _ _ Hc) as E. unfold deref in E; simpl in E. apply rd_Some_lt in E. cbn [length]. lia.
  - intros i x y Hi Hx Hy. apply lookup_take_Some in Hx as [Hx _].
    pose proof (Hh _ _ Hy) as E. unfold deref, rd in E. simpl in E.
    destruct (Z.ltb_spec (p_off q + Z.of_nat i) 0); [done|].
    unfold pmem in Hx. rewrite lookup_drop in Hx. replace (Z.to_nat (p_off q) + i)%nat
      with (Z.to_nat (p_off q + Z.of_nat i)) in Hx by lia. congruence.
Qed.

Lemma strlen_list_cstr l r :
  0 ∈ l -> strlen_list (l ++ r) = Some (Z.of_nat (length (cstr (length l) l))).
Proof.
  induction l as [|c l IH]; intros H0; [by apply elem_of_nil in H0|]. simpl.
  destruct (Z.eqb_spec c 0); [done|].
  apply elem_of_cons in H0 as [H0|H0]; [congruence|]. rewrite IH by done. osimpl. f_equal. simpl. lia.
Qed.

Lemma cstr_prefix n l : exists r, l = cstr n l ++ r.
Proof.
  revert l. induction n as [|n IH]; intros [|c l]; simpl; eauto.
  destruct (c =? 0); eauto. destruct (IH l) as [r E]. exists r. simpl. congruence.
Qed.

(** The C string at a pointer whose readable bytes contain a NUL. *)
Lemma ctext_holds p l : holds p l -> 0 ∈ l -> ctext p = Some (cstr (length l) l).
Proof.
  intros Hh H0. assert (l <> []) as Hne by (intros ->; by apply elem_of_nil in H0).
  destruct p as [q|].
  2: { destruct l as [|b l]; [done|]. by specialize (Hh 0%nat b eq_refl). }
  destruct (holds_prefix q l Hh Hne) as (Hoff & r & Er).
  unfold ctext, strlen. osimpl. zif. rewrite Er, strlen_list_cstr by done. osimpl. rewrite Nat2Z.id.
  destruct (cstr_prefix (length l) l) as [r' E]. rewrite E in Hh. apply holds_app in Hh as [Hh _].
  by apply read_n_holds.
Qed.

Section safety.
Context `{FloatText}.

(** The guarantee of [DecodeDataValue] on arbitrary packet bytes. *)
Definition value_decoded (b : CBinary) (type : Z) (res : option (Z * CBinary * CValue)) : Prop :=
  exists rv b' v', res = Some (rv, b', v') /\ forward b b' /\
    (rv = 0 -> bin_len b' < bin_len b) /\
    (rv = 0 -> type = DField_String \/ type = DField_Binary ->
       0 <= bin_len (v_str v') < bin_len b /\ readable_bin (v_str v')).

Lemma value_decoded_intro b type rv b1 k v' :
  forward b b1 -> bin_len b1 < bin_len b -> 0 <= k <= bin_len b1 ->
  (type = DField_String \/ type = DField_Binary ->
     0 <= bin_len (v_str v') < bin_len b /\ readable_bin (v_str v')) ->
  value_decoded b type (Some (rv, bin_advance b1 k, v')).
Proof.
  intros Hf Hl Hk Hs. exists rv, (bin_advance b1 k), v'. split; [done|].
  split; [eapply forward_trans; [done|by apply forward_step]|].
  split; [simpl; lia|auto].
Qed.

Lemma value_decoded_error b type rv b1 v' :
  forward b b1 -> rv <> 0 -> value_decoded b type (Some (rv, b1, v')).
Proof. intros. exists rv, b1, v'. split_and!; done. Qed.

Lemma decode_int_tail_total p n : forall acc l,
  holds p l -> (n <= length l)%nat -> is_Some (decode_int_tail p n acc).
Proof.
  revert p. induction n as [|n IH]; intros p acc [|b l] Hh Hl; simpl in *; eauto; [lia|].
  apply holds_cons in Hh as [-> Hh]. simpl. eapply IH; [done|lia].
Qed.

Lemma set_str_readable b v p l :
  0 <= l < 2 ^ 31 -> readable_bin (MkBinary l p) -> l < bin_len b ->
  0 <= bin_len (v_str (val_SetL v p l)) < bin_len b /\ readable_bin (v_str (val_SetL v p l)).
Proof.
  intros Hl Hr Hb. unfold val_SetL, bin_SetL. rewrite v_str_set_str by (simpl; lia).
  simpl. split; [lia|done].
Qed.

Lemma readable_empty p : readable_bin (MkBinary 0 p).
Proof. exists []. split_and!; [constructor|apply holds_nil|done]. Qed.

Lemma DecodeDataValue_safe b v type :
  readable_bin b -> bin_len b < 2 ^ 31 -> value_decoded b type (DecodeDataValue b v type).
Proof.
  intros Hr Hb. unfold DecodeDataValue.
  destruct (DecodeLength_safe b 0 Hr) as (rv & b1 & n & -> & Hf & Hok & Hrv). osimpl.
  destruct (Z.eqb_spec rv 0) as [->|Hne]; cbn [negb].
  2: { by apply value_decoded_error. }
  destruct (Hok eq_refl) as [Hn Hlt]. pose proof (forward_readable _ _ Hr Hf) as Hr1.
  destruct (Z.ltb_spec (bin_len b1) n); [by apply value_decoded_error|].
  zif.
  { apply value_decoded_intro; [done..|lia|]. intros [?|?]; subst; done. }
  destruct ((type =? DField_Signed) || (type =? DField_Unsigned)) eqn:Eint.
  { zifs; try (by apply value_decoded_error). all: read_byte Hr1 0.
    all: destruct Hr1 as (l & _ & Hh & Hl).
    all: destruct l as [|x l]; [simpl in Hl; lia|]; apply holds_cons in Hh as [_ Hh].
    all: destruct (decode_int_tail_total (padd (bin_ptr b1) 1) (Z.to_nat (n - 1)) (s8 c) l)
      as [r ->]; [done|simpl in Hl; lia|]; osimpl.
    all: apply value_decoded_intro; [done..|lia|].
    all: intros [?|?]; subst; done. }
  destruct (Z.eqb_spec type DField_Float) as [->|Hnf].
  { zif; [by apply value_decoded_error|]. unfold bin_index.
    read_byte Hr1 (n - 1). destruct (Z.eqb_spec c 0) as [->|]; cbn [negb]; [|by apply value_decoded_error].
    destruct Hr1 as (l & _ & Hh & Hl). rewrite (ctext_holds _ l Hh).
    2: { apply list_elem_of_lookup_2 with (Z.to_nat (n - 1)).
         destruct (lookup_lt_is_Some_2 l (Z.to_nat (n - 1))) as [y Hy]; [lia|].
         pose proof (Hh _ _ Hy) as E'. rewrite Z2Nat.id in E' by lia. congruence. }
    osimpl. repeat case_bool_decide; try case_match;
      (by apply value_decoded_error) || (apply value_decoded_intro; [done..|lia|intros [?|?]; done]). }
  destruct ((type =? DField_String) || (type =? DField_Binary)) eqn:Estr.
  2: { apply value_decoded_intro; [done..|lia|]. intros [?|?]; subst; done. }
  zif.
  { apply value_decoded_intro; [done..|lia|]. intros _. unfold CONVERT_NULL_TO_EMPTY_STRING.
    apply set_str_readable; [lia|apply readable_empty|lia]. }
  unfold bin_index. read_byte Hr1 (n - 1). zif; [|by apply value_decoded_error].
  apply value_decoded_intro; [done..|lia|]. intros _.
  apply set_str_readable; [lia|apply readable_shorter; [done|lia]|lia].
Qed.

(** [C29] Robust value decoding: whatever bytes a packet of at most [INT_MAX]
    bytes contains and whatever the type is, [DecodeDataValue] reads only
    inside the packet, leaves the cursor inside it, consumes at least one
    byte on success, and a decoded string or binary value lies entirely
    inside the packet. *)
Theorem DecodeDataValue_in_bounds b v type :
  readable_bin b -> bin_len b < 2 ^ 31 ->
  exists rv k v', DecodeDataValue b v type = Some (rv, bin_advance b k, v') /\
    0 <= k <= Z.max 0 (bin_len b) /\
    (rv = 0 -> 0 < k) /\
    (rv = 0 -> type = DField_String \/ type = DField_Binary ->
       0 <= bin_len (v_str v') < bin_len b /\ readable_bin (v_str v')).
Proof.
  intros Hr Hb. destruct (DecodeDataValue_safe b v type Hr Hb)
    as (rv & b' & v' & -> & (k & -> & Hk) & Hlt & Hs).
  exists rv, k, v'. split_and!; [done|lia|lia| |done]. intros E. specialize (Hlt E). simpl in Hlt. lia.
Qed.

End safety.

(** ** Round trip *)

(** What the codec relies on of the [%LA] text of a [double]. *)
Definition is_nan (x : Z) : Prop := flt_INF < x mod 2 ^ 63.

Class FloatTextLaws `{FloatText} : Prop := {
  fmt_bytes x : bytes (fmt_LA x);
  fmt_nul x : 0 ∉ fmt_LA x;
  fmt_size x : 2 <= Z.of_nat (length (fmt_LA x)) < FLTBUF;
  fmt_scan x : 0 <= x < 2 ^ 64 -> ~ is_nan x ->
    (fmt_LA x = str_INF /\ x = flt_INF) \/ (fmt_LA x = str_mINF /\ x = flt_mINF) \/
    ((fmt_LA x ∉ [str_NAN; str_INF; str_mINF]) /\ scan_LA (fmt_LA x) = Some x)
}.

(** A value that may be sent as [type]: a readable string of a size the
    receiver accepts; a number that is a number. *)
Definition wire_ok (type : Z) (v : CValue) : Prop :=
  0 <= v_word v < 2 ^ 64 /\
  (type = DField_Float -> ~ is_nan (v_flt v)) /\
  (type = DField_String \/ type = DField_Binary -> v_ptr v <> None ->
     0 <= bin_len (v_str v) < MAXPACKETSIZE /\
     exists l, bytes l /\ holds (v_ptr v) l /\ Z.of_nat (length l) = bin_len (v_str v)).

(** The bytes of a string value; NULL stands for the empty string. *)
Definition str_bytes (v : CValue) (l : list Z) : Prop :=
  match v_ptr v with
  | None => l = []
  | Some _ => Z.of_nat (length l) = bin_len (v_str v) /\ holds (v_ptr v) l
  end.

(** The received value carries what was sent. *)
Definition same_content (type : Z) (v v' : CValue) : Prop :=
  ((type = DField_Signed \/ type = DField_Unsigned) -> v_s64 v' = v_s64 v) /\
  (type = DField_Float -> v_flt v' = v_flt v) /\
  ((type = DField_String \/ type = DField_Binary) ->
     exists l, str_bytes v l /\ str_bytes v' l).

Section roundtrip.
Context `{FloatTextLaws}.

Lemma float_text_fmt x : float_text x = fmt_LA x.
Proof. unfold float_text. pose proof (fmt_size x). zif; done. Qed.

Lemma EncodeDataValue_size v type e :
  EncodeDataValue v type = Some e -> Z.of_nat (length e) = EncodedBytesDataValue v type.
Proof.
  intros He. unfold EncodeDataValue, EncodedBytesDataValue in *.
  destruct (type =? DField_None); [by simplify_eq|].
  destruct ((type =? DField_Signed) || (type =? DField_Unsigned)).
  { simplify_eq. cbn [length]. rewrite Nat2Z.inj_succ, length_int_bytes.
    - unfold int_width. zifs; done.
    - unfold int_width. zifs; lia. }
  destruct (type =? DField_Float).
  { simplify_eq. cbn [length]. rewrite length_app, float_text_fmt. pose proof (fmt_size (v_flt v)).
    zif. simpl. lia. }
  destruct ((type =? DField_String) || (type =? DField_Binary)); [|by simplify_eq].
  destruct (v_ptr v) as [q|]; [|by simplify_eq].
  destruct (Z.ltb_spec (bin_len (v_str v)) 0); [done|]. inv_bind He. simplify_eq.
  match goal with E : read_n _ _ = Some _ |- _ => apply read_n_length in E as Hx end.
  rewrite !length_app, !Nat2Z.inj_add, EncodeLength_size, Hx by (apply uwrap_range; lia).
  cbn [length]. lia.
Qed.

(** Decoding after a length prefix that was accepted. *)
Lemma DecodeLength_body p len n body :
  0 <= n <= MAXPACKETSIZE -> holds p (EncodeLength n ++ body) -> n = Z.of_nat (length body) ->
  EncodedBytesLength n + n <= len ->
  DecodeLength (MkBinary len p) 0 = Some (0, bin_advance (MkBinary len p) (EncodedBytesLength n), n) /\
  holds (padd p (EncodedBytesLength n)) body.
Proof.
  intros Hn Hh Hbody Hlen. change MAXPACKETSIZE with 67108864 in *. apply holds_app in Hh as [Hh Hb].
  rewrite (DecodeLength_EncodeLength n); [|lia|done|lia]. change MAXPACKETSIZE with 67108864. zif.
  rewrite EncodeLength_size in Hb by lia. done.
Qed.

Lemma cstr_no_nul l r : 0 ∉ l -> cstr (length (l ++ 0 :: r)) (l ++ 0 :: r) = l.
Proof.
  induction l as [|c l IH]; simpl; intros Hn; [done|].
  apply not_elem_of_cons in Hn as [Hc Hn]. destruct (Z.eqb_spec c 0); [congruence|].
  by rewrite IH.
Qed.

(** The string payload [l ++ [0]] of a length-prefixed string. *)
Lemma string_payload_decode v0 type p len l :
  type = DField_String \/ type = DField_Binary ->
  Z.of_nat (length l) + 1 <= MAXPACKETSIZE ->
  holds p (EncodeLength (Z.of_nat (length l) + 1) ++ l ++ [0]) ->
  Z.of_nat (length (EncodeLength (Z.of_nat (length l) + 1) ++ l ++ [0])) <= len ->
  exists v', DecodeDataValue (MkBinary len p) v0 type =
    Some (0, bin_advance (MkBinary len p)
               (Z.of_nat (length (EncodeLength (Z.of_nat (length l) + 1) ++ l ++ [0]))), v') /\
    str_bytes v' l.
Proof.
  intros Ht Hmax Hh Hlen. change MAXPACKETSIZE with 67108864 in *.
  set (n := Z.of_nat (length l) + 1) in *.
  rewrite !length_app, !Nat2Z.inj_add, EncodeLength_size in Hlen |- * by lia. cbn [length] in Hlen |- *.
  destruct (DecodeLength_body p len n (l ++ [0])) as [Hd Hb];
    [change MAXPACKETSIZE with 67108864; lia|done|rewrite length_app; simpl; lia|lia|].
  unfold DecodeDataValue. rewrite Hd. osimpl. rewrite Z.eqb_refl. cbn [negb].
  replace (bin_len (bin_advance (MkBinary len p) (EncodedBytesLength n)))
    with (len - EncodedBytesLength n) by done.
  zif. apply holds_app in Hb as [Hl Hz]. apply holds_cons in Hz as [Hz _].
  rewrite deref_padd in Hz.
  assert ((type =? DField_None) = false) as -> by (destruct Ht; subst; done).
  assert ((type =? DField_Signed) || (type =? DField_Unsigned) = false) as -> by (destruct Ht; subst; done).
  assert ((type =? DField_Float) = false) as -> by (destruct Ht; subst; done).
  assert ((type =? DField_String) || (type =? DField_Binary) = true) as -> by (destruct Ht; subst; done).
  zif. unfold bin_index. cbn [bin_advance bin_ptr].
  replace (n - 1) with (Z.of_nat (length l)) by lia.
  replace (deref _ _) with (Some 0) by (rewrite <- Hz; f_equal; lia).
  osimpl. rewrite Z.eqb_refl. cbn [negb]. rewrite advance_advance.
  eexists. split; [repeat f_equal; lia|].
  unfold str_bytes, val_SetL, bin_SetL. rewrite v_str_set_str by (simpl; lia).
  cbn [v_ptr v_set_str bin_ptr bin_len]. destruct (padd p (EncodedBytesLength n)) as [q|] eqn:Ep.
  - done.
  - destruct l as [|b l]; [done|]. by specialize (Hl 0%nat b eq_refl).
Qed.

Lemma short_prefix n body : 0 <= n < 240 -> EncodeLength n ++ body = u8 n :: body.
Proof. intros. unfold EncodeLength. zif. done. Qed.

Lemma short_prefix_size n : 0 <= n < 240 -> EncodedBytesLength n = 1.
Proof. intros. unfold EncodedBytesLength. by zif. Qed.

Lemma DecodeLength_zero p len :
  holds p [0] -> Z.of_nat (length [0]) <= len ->
  DecodeLength (MkBinary len p) 0 = Some (0, bin_advance (MkBinary len p) 1, 0).
Proof. intros Hh Hl. by rewrite (DecodeLength_EncodeLength 0 p len 0 ltac:(lia) Hh Hl). Qed.

Lemma int_value_decode v v0 type p len :
  type = DField_Signed \/ type = DField_Unsigned ->
  let e := u8 (int_width (v_s64 v)) :: int_bytes (v_s64 v) (int_width (v_s64 v)) in
  holds p e -> Z.of_nat (length e) <= len ->
  exists v', DecodeDataValue (MkBinary len p) v0 type =
    Some (0, bin_advance (MkBinary len p) (Z.of_nat (length e)), v') /\ v_s64 v' = v_s64 v.
Proof.
  intros Ht e Hh Hlen.
  pose proof (swrap_range 64 (v_word v) ltac:(lia)) as Hs. fold (v_s64 v) in Hs.
  destruct (int_width_range (v_s64 v) ltac:(lia)) as [Hw _].
  set (n := int_width (v_s64 v)) in *.
  assert (Z.of_nat (length e) = 1 + n) as El.
  { unfold e. cbn [length]. rewrite Nat2Z.inj_succ, length_int_bytes; lia. }
  destruct (DecodeLength_body p len n (int_bytes (v_s64 v) n)) as [Hd Hb].
  { change MAXPACKETSIZE with 67108864. lia. }
  { by rewrite short_prefix by lia. }
  { rewrite length_int_bytes; lia. }
  { rewrite short_prefix_size; lia. }
  rewrite short_prefix_size in Hd, Hb by lia.
  destruct (decode_int_bytes (v_s64 v) (padd p 1)) as (b0 & r & H1 & H2 & H3); [lia|done|].
  unfold DecodeDataValue. rewrite Hd. osimpl. rewrite Z.eqb_refl. cbn [negb].
  assert ((type =? DField_None) = false) as -> by (destruct Ht; subst; done).
  assert ((type =? DField_Signed) || (type =? DField_Unsigned) = true) as -> by (destruct Ht; subst; done).
  cbn [bin_advance bin_len]. zifs.
  change (bin_ptr (bin_advance (MkBinary len p) 1)) with (padd p 1). rewrite H1. osimpl. fold n in H2. rewrite H2. osimpl.
  eexists. split; [|by rewrite v_s64_SetInt].
  rewrite advance_advance, El. done.
Qed.

Lemma float_value_decode v v0 p len :
  0 <= v_word v < 2 ^ 64 -> ~ is_nan (v_flt v) ->
  let e := u8 (Z.of_nat (length (float_text (v_flt v))) + 1) :: float_text (v_flt v) ++ [0] in
  holds p e -> Z.of_nat (length e) <= len ->
  exists v', DecodeDataValue (MkBinary len p) v0 DField_Float =
    Some (0, bin_advance (MkBinary len p) (Z.of_nat (length e)), v') /\ v_flt v' = v_flt v.
Proof.
  rewrite float_text_fmt. intros Hv Hnan e Hh Hlen.
  pose proof (fmt_size (v_flt v)) as Hsz. pose proof (fmt_nul (v_flt v)) as Hnul.
  pose proof (fmt_scan (v_flt v) Hv Hnan) as Hscan.
  set (t := fmt_LA (v_flt v)) in *. unfold FLTBUF in Hsz. set (n := Z.of_nat (length t) + 1) in *.
  assert (Z.of_nat (length e) = 1 + n) as El.
  { unfold e. cbn [length]. rewrite length_app. simpl. lia. }
  destruct (DecodeLength_body p len n (t ++ [0])) as [Hd Hb].
  { change MAXPACKETSIZE with 67108864. lia. }
  { by rewrite short_prefix by lia. }
  { rewrite length_app. simpl. lia. }
  { rewrite short_prefix_size; lia. }
  rewrite short_prefix_size in Hd, Hb by lia.
  assert (ctext (padd p 1) = Some t) as Ht.
  { rewrite (ctext_holds _ _ Hb) by (apply elem_of_app; right; by constructor). by rewrite cstr_no_nul. }
  apply holds_app in Hb as [_ Hz]. apply holds_cons in Hz as [Hz _]. rewrite deref_padd in Hz.
  unfold DecodeDataValue. rewrite Hd. osimpl. rewrite Z.eqb_refl. cbn [negb].
  cbn [bin_advance bin_len]. zif. change (DField_Float =? DField_None) with false.
  change ((DField_Float =? DField_Signed) || (DField_Float =? DField_Unsigned)) with false.
  change (DField_Float =? DField_Float) with true. destruct (Z.ltb_spec n 3); [lia|].
  cbn match. unfold bin_index.
  change (bin_ptr (bin_advance (MkBinary len p) 1)) with (padd p 1).
  replace (deref _ (n - 1)) with (Some 0) by (rewrite <- Hz; f_equal; lia). osimpl.
  rewrite Z.eqb_refl. cbn [negb]. rewrite Ht. osimpl.
  rewrite advance_advance, El.
  assert (forall x, 0 <= x < 2 ^ 64 -> v_flt (val_SetFlt v0 x) = x) as Hset
    by (intros; by apply uwrap_small).
  destruct Hscan as [[E Ex]|[[E Ex]|[Hne Hsc]]].
  - exists (val_SetFlt v0 flt_INF). rewrite E, Ex, Hset by (unfold flt_INF; lia).
    rewrite bool_decide_false by discriminate. by rewrite bool_decide_true.
  - exists (val_SetFlt v0 flt_mINF). rewrite E, Ex, Hset by (unfold flt_mINF; lia).
    do 2 (rewrite bool_decide_false by discriminate). by rewrite bool_decide_true.
  - rewrite !not_elem_of_cons in Hne. rewrite !bool_decide_false by tauto.
    rewrite Hsc. eexists. split; [done|]. by apply Hset.
Qed.

(** The value codec: every sendable value is encoded, and the receiver gets
    the same content back and a cursor right behind it. *)
Definition codec_ok (v : CValue) (type : Z) (e : list Z) : Prop :=
  forall p len v0, holds p e -> Z.of_nat (length e) <= len ->
    exists v', DecodeDataValue (MkBinary len p) v0 type =
      Some (0, bin_advance (MkBinary len p) (Z.of_nat (length e)), v') /\ same_content type v v'.

Lemma value_codec v type :
  DField_None <= type < DField_TotalType -> wire_ok type v ->
  exists e, EncodeDataValue v type = Some e /\ codec_ok v type e.
Proof.
  intros Hty (Hw & Hf & Hs). unfold DField_None, DField_TotalType in Hty.
  assert (type = 0 \/ (type = DField_Signed \/ type = DField_Unsigned) \/ type = DField_Float \/
          (type = DField_String \/ type = DField_Binary)) as [->|[Hi|[->|Hb]]]
    by (unfold DField_Signed, DField_Unsigned, DField_Float, DField_String, DField_Binary; lia).
  - exists [0]. split; [done|]. intros p len v0 Hh Hl. exists v0. split.
    + unfold DecodeDataValue. rewrite (DecodeLength_zero p len Hh Hl). osimpl. cbn [length] in Hl.
      destruct (Z.ltb_spec (bin_len (bin_advance (MkBinary len p) 1)) 0); [simpl in *; lia|].
      by rewrite !advance_advance.
    + split_and!; intros; try done; destruct_or?; done.
  - assert (EncodeDataValue v type = Some (u8 (int_width (v_s64 v)) :: int_bytes (v_s64 v) (int_width (v_s64 v))))
      as He by (destruct Hi as [-> | ->]; done).
    eexists. split; [done|]. intros p len v0 Hh Hl.
    destruct (int_value_decode v v0 type p len Hi Hh Hl) as (v' & Hd & E).
    exists v'. split; [done|]. split_and!; intros; destruct_or?; subst; done.
  - eexists. split; [done|]. intros p len v0 Hh Hl.
    destruct (float_value_decode v v0 p len Hw (Hf eq_refl) Hh Hl) as (v' & Hd & E).
    exists v'. split; [done|]. split_and!; [by intros []|done|by intros []].
  - destruct (v_ptr v) as [q|] eqn:Ep.
    + destruct (Hs Hb) as (Hlen & l & Hbl & Hh & Hl); [done|].
      assert (EncodeDataValue v type = Some (EncodeLength (Z.of_nat (length l) + 1) ++ l ++ [0])) as He.
      { assert (forall T, T = DField_String \/ T = DField_Binary ->
          EncodeDataValue v T = Some (EncodeLength (Z.of_nat (length l) + 1) ++ l ++ [0])) as Hall;
          [|by apply Hall].
        intros T HT. unfold EncodeDataValue. rewrite Ep, <- Hl.
        replace (Z.of_nat (length l) <? 0) with false by (symmetry; apply Z.ltb_ge; lia).
        rewrite Nat2Z.id, (read_n_holds _ _ Hh). osimpl.
        rewrite (uwrap_small 32) by (change MAXPACKETSIZE with 67108864 in Hlen; lia).
        destruct HT as [-> | ->]; done. }
      eexists. split; [done|]. intros p len v0 Hp Hle.
      destruct (string_payload_decode v0 type p len l Hb) as (v' & Hd & Hv'); [lia|done|done|].
      exists v'. split; [done|]. split_and!.
      * intros [?|?]; destruct Hb; subst; done.
      * intros ?; destruct Hb; subst; done.
      * intros _. exists l. split; [|done]. unfold str_bytes. rewrite Ep. done.
    + assert (EncodeDataValue v type = Some [0]) as He
        by (unfold EncodeDataValue; rewrite Ep; destruct Hb as [-> | ->]; done).
      exists [0]. split; [done|]. intros p len v0 Hh Hl.
      exists (val_SetL v0 (padd (padd p 1) (-1)) 0). split.
      * unfold DecodeDataValue. rewrite (DecodeLength_zero p len Hh Hl). osimpl. cbn [length] in Hl.
        destruct (Z.ltb_spec (bin_len (bin_advance (MkBinary len p) 1)) 0); [simpl in *; lia|].
        rewrite !advance_advance. by destruct Hb as [-> | ->].
      * split_and!; [intros [?|?]; destruct Hb; subst; done|intros ?; destruct Hb; subst; done|].
        intros _. exists []. unfold str_bytes. rewrite Ep. split; [done|].
        unfold val_SetL, bin_SetL. rewrite v_str_set_str by (simpl; lia). simpl. rewrite padd_padd.
        destruct (padd p (1 + -1)); [|done]. split; [done|apply holds_nil].
Qed.

(** [C28] Value round trip: every sendable value of every wire type is encoded
    into exactly the number of bytes [EncodedBytesDataValue] announces, and
    decoding these bytes in front of anything else returns 0, the same
    content, and a cursor right behind them (a NULL string comes back as the
    empty string). *)
Theorem value_roundtrip v type :
  DField_None <= type < DField_TotalType -> wire_ok type v ->
  exists e, EncodeDataValue v type = Some e /\
    Z.of_nat (length e) = EncodedBytesDataValue v type /\
    forall p rest v0, holds p (e ++ rest) ->
      exists v', DecodeDataValue (MkBinary (Z.of_nat (length (e ++ rest))) p) v0 type =
          Some (0, MkBinary (Z.of_nat (length rest)) (padd p (Z.of_nat (length e))), v') /\
        same_content type v v'.
Proof.
  intros Hty Hok. destruct (value_codec v type Hty Hok) as (e & He & Hc).
  exists e. split; [done|]. split; [by apply EncodeDataValue_size|].
  intros p rest v0 Hh. apply holds_app in Hh as [Hh _].
  destruct (Hc p (Z.of_nat (length (e ++ rest))) v0 Hh) as (v' & Hd & Hs);
    [rewrite length_app; lia|].
  exists v'. split; [|done]. rewrite Hd. unfold bin_advance. cbn [bin_len bin_ptr].
  rewrite length_app. feq.
Qed.

End roundtrip.

(** Length codec: [EncodeLength] writes [EncodedBytesLength] bytes for
    every 32-bit length, and [DecodeLength] reads the length back and leaves
    the cursor behind it; lengths above [MAXPACKETSIZE] are refused with
    [EC_BAD_VALUE_LENGTH]. *)
Theorem length_roundtrip n p len l0 :
  0 <= n < 2 ^ 32 -> holds p (EncodeLength n) -> EncodedBytesLength n <= len ->
  Z.of_nat (length (EncodeLength n)) = EncodedBytesLength n /\
  DecodeLength (MkBinary len p) l0 =
  Some (if MAXPACKETSIZE <? n then - ec EC_BAD_VALUE_LENGTH else 0,
        bin_advance (MkBinary len p) (EncodedBytesLength n), n).
Proof. intros. split; [apply EncodeLength_size; lia|by apply DecodeLength_EncodeLength]. Qed.

Lemma length_roundtrip_witness :
  Z.of_nat (length (EncodeLength 70000)) = 4 /\
  DecodeLength (MkBinary 6 (Some (Ptr [254; 1; 17; 112; 7; 7] 0))) 0 =
  Some (0, MkBinary 2 (Some (Ptr [254; 1; 17; 112; 7; 7] 4)), 70000).
Proof.
  apply (length_roundtrip 70000 (Some (Ptr [254; 1; 17; 112; 7; 7] 0)) 6 0); [lia| |vm_compute; discriminate].
  apply (holds_block [] [254; 1; 17; 112] [7; 7]).
Defined.

(** ** A concrete text conversion that satisfies the laws *)

Fixpoint nibbles (n : nat) (v : Z) : list Z :=
  match n with O => [] | S n' => 65 + v mod 16 :: nibbles n' (v / 16) end.
Fixpoint nibbles_value (l : list Z) : Z :=
  match l with [] => 0 | d :: l' => (d - 65) + 16 * nibbles_value l' end.

Definition hex_text : FloatText := {|
  fmt_LA x := if x =? flt_INF then str_INF else if x =? flt_mINF then str_mINF
              else [48; 88] ++ nibbles 16 x;
  scan_LA t := Some (nibbles_value (drop 2 t)) |}.

Lemma nibbles_roundtrip n v : nibbles_value (nibbles n v) = v mod 16 ^ Z.of_nat n.
Proof.
  revert v. induction n as [|n IH]; intros v; simpl; [by rewrite Z.mod_1_r|].
  rewrite IH, Nat2Z.inj_succ, Z.pow_succ_r, Z.rem_mul_r by lia. lia.
Qed.

Lemma hex_text_chars x : Forall (λ d, 45 <= d < 89) (@fmt_LA hex_text x).
Proof.
  assert (forall n v, Forall (λ d, 45 <= d < 89) (nibbles n v)) as Hn.
  { induction n; intros v; constructor; [pose proof (Z.mod_pos_bound v 16); lia|apply IHn]. }
  unfold fmt_LA, hex_text. repeat case_match; repeat (constructor; [lia|]); apply Hn || constructor.
Qed.

Lemma hex_text_laws : @FloatTextLaws hex_text.
Proof.
  split; intros x; pose proof (hex_text_chars x) as Hc.
  - eapply Forall_impl; [exact Hc|]. intros d Hd. simpl in Hd. unfold is_byte. lia.
  - intros H0. rewrite Forall_forall in Hc. specialize (Hc 0 H0). simpl in Hc. lia.
  - unfold FLTBUF. assert (length (@fmt_LA hex_text x) ∈ [3; 4; 18]%nat) as Hl
      by (unfold fmt_LA, hex_text; repeat case_match; repeat constructor).
    rewrite !elem_of_cons, elem_of_nil in Hl. lia.
  - intros Hx _. unfold fmt_LA, scan_LA, hex_text.
    destruct (Z.eqb_spec x flt_INF); [by left|]. destruct (Z.eqb_spec x flt_mINF); [by right; left|].
    right; right. split; [rewrite !not_elem_of_cons; split_and!; [done..|apply not_elem_of_nil]|].
    change (Some (nibbles_value (nibbles 16 x)) = Some x). f_equal.
    rewrite nibbles_roundtrip. apply Z.mod_small. done.
Qed.

Lemma value_roundtrip_witness :
  let v := MakeL (Some (Ptr [104; 105; 33] 0)) 3 in
  exists e, @EncodeDataValue hex_text v DField_String = Some e /\
    Z.of_nat (length e) = @EncodedBytesDataValue hex_text v DField_String /\
    forall p rest v0, holds p (e ++ rest) ->
      exists v', @DecodeDataValue hex_text (MkBinary (Z.of_nat (length (e ++ rest))) p) v0 DField_String =
          Some (0, MkBinary (Z.of_nat (length rest)) (padd p (Z.of_nat (length e))), v') /\
        same_content DField_String v v'.
Proof.
  intros v. apply (@value_roundtrip hex_text hex_text_laws v DField_String); [vm_compute; done|].
  split; [vm_compute; done|]. split; [done|]. intros _ _. split; [vm_compute; done|].
  exists [104; 105; 33]. split; [repeat constructor; unfold is_byte; lia|].
  split; [apply holds_whole|done].
Defined.

Lemma DecodeDataValue_in_bounds_witness :
  let b := MkBinary 3 (Some (Ptr [2; 255; 254] 0)) in
  exists rv k v', @DecodeDataValue hex_text b CValue_zero DField_Signed = Some (rv, bin_advance b k, v') /\
    0 <= k <= Z.max 0 (bin_len b) /\ (rv = 0 -> 0 < k) /\
    (rv = 0 -> DField_Signed = DField_String \/ DField_Signed = DField_Binary ->
       0 <= bin_len (v_str v') < bin_len b /\ readable_bin (v_str v')).
Proof.
  intros b. apply (@DecodeDataValue_in_bounds hex_text b CValue_zero DField_Signed); [|simpl; lia].
  exists [2; 255; 254]. split; [repeat constructor; unfold is_byte; lia|].
  split; [apply holds_whole|done].
Defined.
