(* ===== verification/Section.v ===== *)
(** * Section: tagged sections of a packet

    Models [src/common/section.h], [src/common/section.cc] and the section
    codec of [src/common/encode.cc] / [src/common/decode.cc]: a section is a
    set of numbered tags whose value types are fixed by a definition table. *)

From S2P Require Import Prelude Bitsop Value Protocol Codec.

Definition MAX_STATIC_SECTION : Z := 20.

(** ** struct CSectionDefinition *)

Record CSectionDefinition := MkSectionDef {
  sectionId : Z; maxTags : Z; tagType : list Z
}.

Definition def_TagType (d : CSectionDefinition) (i : Z) : option Z := rd (tagType d) (u8 i).
Definition def_MaxTags (d : CSectionDefinition) : Z := maxTags d.
Definition def_SectionId (d : CSectionDefinition) : Z := sectionId d.

(** The initialisers name the first tags; C zero-fills [tagType[256]]. *)
Definition tag_table (l : list Z) : list Z := l ++ replicate (256 - length l) DField_None.

Definition versionInfoDefinition : CSectionDefinition :=
  MkSectionDef Section_VersionInfo 19 (tag_table [
    DField_None; DField_String; DField_Binary; DField_Unsigned; DField_Binary;
    DField_String; DField_String; DField_String; DField_Unsigned; DField_Unsigned;
    DField_Unsigned; DField_Unsigned; DField_Binary; DField_Binary; DField_Unsigned;
    DField_Signed; DField_Signed; DField_Unsigned; DField_String ]).

Definition requestInfoDefinition : CSectionDefinition :=
  MkSectionDef Section_VersionInfo 8 (tag_table [
    DField_Binary; DField_Unsigned; DField_Unsigned; DField_Unsigned; DField_String;
    DField_Unsigned; DField_String; DField_Unsigned ]).

Definition resultInfoDefinition : CSectionDefinition :=
  MkSectionDef Section_ResultInfo 10 (tag_table [
    DField_Binary; DField_Signed; DField_String; DField_String; DField_Signed;
    DField_Unsigned; DField_Unsigned; DField_Binary; DField_Unsigned; DField_Unsigned ]).

(** ** class CSimpleSection *)

Record CSimpleSection := MkSection {
  definition : CSectionDefinition;
  numTags : Z;
  fieldMask : list Z;
  tagValue : list CValue
}.

Definition new_section (d : CSectionDefinition) : CSimpleSection :=
  MkSection d 0 (FIELD_ZERO [0; 0; 0]) (replicate (Z.to_nat MAX_STATIC_SECTION) CValue_zero).

(** [tagValue[i] = orig.tagValue[i]] for [i < orig.definition->MaxTags()] *)
Definition sec_Copy (s orig : CSimpleSection) : CSimpleSection :=
  let n := Z.to_nat (def_MaxTags (definition orig)) in
  MkSection (definition orig) (numTags orig) (fieldMask orig)
    (take n (tagValue orig) ++ drop n (tagValue s)).

Definition sec_Clean (s : CSimpleSection) : CSimpleSection :=
  let n := Z.to_nat (def_MaxTags (definition s)) in
  MkSection (definition s) 0 (FIELD_ZERO (fieldMask s))
    (replicate (n `min` length (tagValue s)) CValue_zero ++ drop n (tagValue s)).

Definition sec_MaxTags (s : CSimpleSection) : Z := def_MaxTags (definition s).
Definition NumTags (s : CSimpleSection) : Z := numTags s.
Definition SectionId (s : CSimpleSection) : Z := def_SectionId (definition s).
Definition TagType (s : CSimpleSection) (id : Z) : option Z := def_TagType (definition s) id.

Definition TagPresent (s : CSimpleSection) (id : Z) : option Z :=
  if MAX_STATIC_SECTION <=? id then Some 0 else FIELD_ISSET id (fieldMask s).

Definition SetTagMask (s : CSimpleSection) (id : Z) : option CSimpleSection :=
  mask ← FIELD_SET id (fieldMask s);
  Some (MkSection (definition s) (u8 (numTags s + 1)) mask (tagValue s)).

(** [SetTag(uint8_t id, const CValue &val)] *)
Definition SetTag (s : CSimpleSection) (id : Z) (val : CValue) : option CSimpleSection :=
  t ← TagType s id;
  if t =? DField_None then Some s
  else
    vs ← wr (tagValue s) id val;
    let s := MkSection (definition s) (numTags s) (fieldMask s) vs in
    b ← FIELD_ISSET id (fieldMask s);
    if b =? 0 then
      mask ← FIELD_SET id (fieldMask s);
      Some (MkSection (definition s) (u8 (numTags s + 1)) mask (tagValue s))
    else Some s.

(** [SetTag(uint8_t id, int64_t val)] and [uint64_t] *)
Definition SetTag64 (s : CSimpleSection) (id val : Z) : option CSimpleSection :=
  SetTag s id (MakeInt val).
(** [SetTag(uint8_t id, int32_t val)] *)
Definition SetTag_s32 (s : CSimpleSection) (id val : Z) : option CSimpleSection :=
  t ← TagType s id;
  if t =? DField_Signed then SetTag s id (MakeInt val)
  else if t =? DField_Unsigned then SetTag s id (MakeInt (if val <? 0 then 0 else val))
  else Some s.
(** [SetTag(uint8_t id, uint32_t val)] *)
Definition SetTag_u32 (s : CSimpleSection) (id val : Z) : option CSimpleSection :=
  t ← TagType s id;
  if t =? DField_Signed then SetTag s id (MakeInt val)
  else if t =? DField_Unsigned then SetTag s id (MakeInt val)
  else Some s.
(** [SetTag(uint8_t id, double val)] *)
Definition SetTag_flt (s : CSimpleSection) (id bits : Z) : option CSimpleSection :=
  t ← TagType s id;
  if t =? DField_Float then SetTag s id (MakeFlt bits) else Some s.
(** [SetTag(uint8_t id, const char *val, int len)] *)
Definition SetTag_bin (s : CSimpleSection) (id : Z) (val : option ptr) (len : Z)
  : option CSimpleSection :=
  t ← TagType s id;
  if (t =? DField_String) || (t =? DField_Binary) then SetTag s id (MakeL val len) else Some s.
(** [SetTag(uint8_t id, const char *val)] *)
Definition SetTag_str (s : CSimpleSection) (id : Z) (val : option ptr) : option CSimpleSection :=
  t ← TagType s id;
  if (t =? DField_String) || (t =? DField_Binary) then v ← MakeStr val; SetTag s id v else Some s.

(** [GetTag]: the inner option is a NULL result. *)
Definition GetTag (s : CSimpleSection) (id : Z) : option (option CValue) :=
  b ← TagPresent s id;
  if b =? 0 then Some None else v ← rd (tagValue s) id; Some (Some v).
Definition GetThisTag (s : CSimpleSection) (id : Z) : option CValue := rd (tagValue s) id.
Definition sec_Key (s : CSimpleSection) : option (option CValue) :=
  b ← TagPresent s 0;
  if b =? 0 then Some None else v ← rd (tagValue s) 0; Some (Some v).
Definition SetKey (s : CSimpleSection) (k : CValue) : option CSimpleSection := SetTag s 0 k.

(** ** CVersionInfo, CRequestInfo, CResultInfo: named tags *)

Definition tag_str (s : CSimpleSection) (id : Z) : option CBinary := v_str <$> rd (tagValue s) id.
Definition tag_u64 (s : CSimpleSection) (id : Z) : option Z := v_u64 <$> rd (tagValue s) id.
Definition tag_s64 (s : CSimpleSection) (id : Z) : option Z := v_s64 <$> rd (tagValue s) id.

Definition TableName (s : CSimpleSection) := tag_str s 1.
Definition SetTableName (s : CSimpleSection) (n : option ptr) := SetTag_str s 1 n.
Definition TableHash (s : CSimpleSection) := tag_str s 4.
Definition SetTableHash (s : CSimpleSection) (n : option ptr) := SetTag_bin s 4 n 16.
Definition DataTableHash (s : CSimpleSection) := tag_str s 2.
Definition SetDataTableHash (s : CSimpleSection) (n : option ptr) := SetTag_bin s 2 n 16.
Definition CTLibVer (s : CSimpleSection) := tag_str s 6.

(** Client major version: the digit of ["ctlib-v<d>..."], 3 when unknown. *)
Definition CTLibIntVer (s : CSimpleSection) : option Z :=
  b ← CTLibVer s;
  match bin_ptr b with
  | None => Some 3
  | Some _ =>
      c ← deref (bin_ptr b) 7;
      Some (if (49 <=? s8 c) && (s8 c <=? 57) then s8 c - 48 else 3)
  end.

Definition KeyType (s : CSimpleSection) : option Z := s32 <$> tag_u64 s 9.
Definition SetKeyType (s : CSimpleSection) (n : Z) := SetTag_s32 s 9 n.
Definition SerialNr (s : CSimpleSection) := tag_u64 s 3.
Definition SetSerialNr (s : CSimpleSection) (u : Z) := SetTag64 s 3 u.
Definition KeepAliveTimeout (s : CSimpleSection) : option Z := s32 <$> tag_u64 s 8.
Definition SetKeepAliveTimeout (s : CSimpleSection) (u : Z) := SetTag_u32 s 8 u.
Definition SetHotBackupID (s : CSimpleSection) (u : Z) := SetTag64 s 14 u.
Definition HotBackupID (s : CSimpleSection) := tag_u64 s 14.
Definition SetMasterHBTimestamp (s : CSimpleSection) (t : Z) := SetTag64 s 15 t.
Definition MasterHBTimestamp (s : CSimpleSection) := tag_s64 s 15.
Definition SetSlaveHBTimestamp (s : CSimpleSection) (t : Z) := SetTag64 s 16 t.
Definition SlaveHBTimestamp (s : CSimpleSection) := tag_s64 s 16.
Definition GetAgentClientId (s : CSimpleSection) := tag_u64 s 17.
Definition SetAgentClientId (s : CSimpleSection) (id : Z) := SetTag64 s 17 id.
Definition SetAccessKey (s : CSimpleSection) (token : option ptr) := SetTag_str s 18 token.
Definition AccessKey (s : CSimpleSection) := tag_str s 18.

(** Clients from 3.x on send microseconds, the server counts in
    milliseconds ([>> 10]); 2.x clients send milliseconds. *)
Definition ExpireTime (s : CSimpleSection) (version : Z) : option Z :=
  u ← tag_u64 s 1; Some (if 3 <=? version then Z.shiftr u 10 else u).
Definition SetTimeout (s : CSimpleSection) (n : Z) := SetTag64 s 1 (u64 (Z.shiftl n 10)).
Definition LimitStart (s : CSimpleSection) : option Z := u32 <$> tag_u64 s 2.
Definition LimitCount (s : CSimpleSection) : option Z := u32 <$> tag_u64 s 3.
Definition SetLimitStart (s : CSimpleSection) (n : Z) := SetTag64 s 2 n.
Definition SetLimitCount (s : CSimpleSection) (n : Z) := SetTag64 s 3 n.
Definition AdminCode (s : CSimpleSection) : option Z := u32 <$> tag_u64 s 7.
Definition SetAdminCode (s : CSimpleSection) (code : Z) := SetTag64 s 7 code.

(** [class CResultInfo]: a section and the strings it owns *)
Record CResultInfo := MkResultInfo {
  ri_sec : CSimpleSection;
  szErrMsg : option ptr;
  s_info : option ptr
}.

Definition new_ResultInfo : CResultInfo := MkResultInfo (new_section resultInfoDefinition) None None.

Definition ri_set (r : CResultInfo) (s : option CSimpleSection) : option CResultInfo :=
  s' ← s; Some (MkResultInfo s' (szErrMsg r) (s_info r)).

(** [STRDUP]: a fresh block with the text and its NUL. *)
Definition strdup (p : option ptr) : option (option ptr) :=
  t ← ctext p; Some (Some (Ptr (t ++ [0]) 0)).

Definition SetTag_cstr (r : CResultInfo) (id : Z) (val : option ptr) : option CResultInfo :=
  match val with
  | None => Some r
  | Some _ => n ← strlen val; ri_set r (SetTag_bin (ri_sec r) id val n)
  end.

Definition ri_SetError (r : CResultInfo) (err : Z) (from msg : option ptr) : option CResultInfo :=
  r ← ri_set r (SetTag_s32 (ri_sec r) 1 err);
  r ← SetTag_cstr r 2 from;
  SetTag_cstr r 3 msg.

Definition ri_SetErrorDup (r : CResultInfo) (err : Z) (from msg : option ptr) : option CResultInfo :=
  copy ← strdup msg;
  let r := MkResultInfo (ri_sec r) copy (s_info r) in
  r ← ri_set r (SetTag_s32 (ri_sec r) 1 err);
  r ← SetTag_cstr r 2 from;
  match msg with None => Some r | Some _ => SetTag_cstr r 3 copy end.

Definition ResultCode (r : CResultInfo) : option Z := s32 <$> tag_s64 (ri_sec r) 1.
Definition ErrorFrom (r : CResultInfo) : option (option ptr) := v_ptr <$> rd (tagValue (ri_sec r)) 2.
Definition ErrorMessage (r : CResultInfo) : option (option ptr) := v_ptr <$> rd (tagValue (ri_sec r)) 3.
Definition AffectedRows (r : CResultInfo) : option Z := tag_u64 (ri_sec r) 4.
Definition SetAffectedRows (r : CResultInfo) (nr : Z) := ri_set r (SetTag64 (ri_sec r) 4 nr).
Definition TotalRows (r : CResultInfo) : option Z := tag_u64 (ri_sec r) 5.
Definition SetTotalRows (r : CResultInfo) (nr : Z) := ri_set r (SetTag64 (ri_sec r) 5 nr).
Definition InsertID (r : CResultInfo) : option Z := tag_u64 (ri_sec r) 6.
Definition SetInsertID (r : CResultInfo) (nr : Z) := ri_set r (SetTag64 (ri_sec r) 6 nr).

(** [sizeof(CServerInfo)]: 1 + 3 + 4 + 4, padding, 8 + 8 *)
Definition sizeof_CServerInfo : Z := 32.
Definition ServerInfo (r : CResultInfo) : option (option ptr) :=
  b ← tag_str (ri_sec r) 7;
  Some (if bin_len b =? sizeof_CServerInfo then bin_ptr b else None).
Definition SetServerInfo (r : CResultInfo) (si : option ptr) : option CResultInfo :=
  l ← read_n si (Z.to_nat sizeof_CServerInfo);
  let copy := Some (Ptr l 0) in
  s ← SetTag_bin (ri_sec r) 7 copy sizeof_CServerInfo;
  Some (MkResultInfo s (szErrMsg r) copy).
Definition ri_Timestamp (r : CResultInfo) : option Z := u32 <$> tag_s64 (ri_sec r) 8.
Definition SetTimestamp (r : CResultInfo) (nr : Z) := ri_set r (SetTag_u32 (ri_sec r) 8 nr).
Definition SetHitFlag (r : CResultInfo) (nr : Z) := ri_set r (SetTag_u32 (ri_sec r) 9 nr).
Definition HitFlag (r : CResultInfo) : option Z := u32 <$> tag_s64 (ri_sec r) 9.

Definition ri_Clean (r : CResultInfo) : CResultInfo := MkResultInfo (sec_Clean (ri_sec r)) None None.

Definition ri_Copy (r orig : CResultInfo) : option CResultInfo :=
  let r := MkResultInfo (sec_Copy (ri_sec r) (ri_sec orig)) None (s_info r) in
  r ← match szErrMsg orig with
      | None => Some r
      | Some _ =>
          copy ← strdup (szErrMsg orig);
          SetTag_cstr (MkResultInfo (ri_sec r) copy (s_info r)) 3 copy
      end;
  let r := MkResultInfo (ri_sec r) (szErrMsg r) None in
  match s_info orig with None => Some r | Some _ => SetServerInfo r (s_info orig) end.

(** ** Section codec *)

Section codec.
Context `{FloatText}.

(** [const int t = i==0 ? kt : sct.TagType(i);] *)
Definition wire_type (s : CSimpleSection) (kt i : Z) : option Z :=
  if i =? 0 then Some kt else TagType s i.

(** [for(int i=0; i<=sct.MaxTags(); i++)], from [i] on, [n] iterations left *)
Fixpoint EncodedBytesSimpleSection_loop (s : CSimpleSection) (kt i : Z) (n : nat) : option Z :=
  match n with
  | O => Some 0
  | S n' =>
      g ← GetTag s i;
      rest ← EncodedBytesSimpleSection_loop s kt (i + 1) n';
      match g with
      | None => Some rest
      | Some v => t ← wire_type s kt i; Some (1 + EncodedBytesDataValue v t + rest)
      end
  end.
Definition EncodedBytesSimpleSection (s : CSimpleSection) (kt : Z) : option Z :=
  EncodedBytesSimpleSection_loop s kt 0 (S (Z.to_nat (sec_MaxTags s))).

Fixpoint EncodeSimpleSection_loop (s : CSimpleSection) (kt i : Z) (n : nat) : option (list Z) :=
  match n with
  | O => Some []
  | S n' =>
      g ← GetTag s i;
      e ← match g with
          | None => Some []
          | Some v => t ← wire_type s kt i; x ← EncodeDataValue v t; Some (u8 i :: x)
          end;
      rest ← EncodeSimpleSection_loop s kt (i + 1) n';
      Some (e ++ rest)
  end.
Definition EncodeSimpleSection (s : CSimpleSection) (kt : Z) : option (list Z) :=
  EncodeSimpleSection_loop s kt 0 (S (Z.to_nat (sec_MaxTags s))).

(** [DecodeDataValue(bin, *ss.GetThisTag(id), type)] then [SetTagMask]: the
    address [&tagValue[id]] may lie outside the array as long as nothing is
    stored through it, which is the case for type [None] and on errors. *)
Definition decode_tag (bin : CBinary) (ss : CSimpleSection) (id type : Z)
  : option (Z * CBinary * CSimpleSection) :=
  '(rv, bin, v) ← DecodeDataValue bin (default CValue_zero (rd (tagValue ss) id)) type;
  if negb (rv =? 0) then Some (rv, bin, ss)
  else if type =? DField_None then Some (0, bin, ss)
  else
    vs ← wr (tagValue ss) id v;
    ss ← SetTagMask (MkSection (definition ss) (numTags ss) (fieldMask ss) vs) id;
    Some (0, bin, ss).

(** [while(!!bin)]; the fuel is the number of remaining bytes. *)
Fixpoint DecodeSimpleSection_loop (fuel : nat) (bin : CBinary) (ss : CSimpleSection)
    (kt : Z) (mask : list Z) : option (Z * CBinary * CSimpleSection) :=
  if bin_not bin then Some (0, bin, ss)
  else match fuel with
  | O => None
  | S fuel' =>
      id ← bin_deref bin;
      let bin := bin_incr bin in
      dup ← FIELD_ISSET id mask;
      if negb (dup =? 0) then Some (- ec EC_DUPLICATE_TAG, bin, ss)
      else
        type ← wire_type ss kt id;
        '(rv, bin, ss) ← decode_tag bin ss id type;
        if negb (rv =? 0) then Some (rv, bin, ss)
        else
          mask ← (if type =? DField_None then Some mask else FIELD_SET id mask);
          DecodeSimpleSection_loop fuel' bin ss kt mask
  end.

Definition DecodeSimpleSection (bin : CBinary) (ss : CSimpleSection) (kt : Z)
  : option (Z * CBinary * CSimpleSection) :=
  DecodeSimpleSection_loop (Z.to_nat (bin_len bin)) bin ss kt (replicate 32 0).

(** [DecodeSimpleSection(char *p, int l, ...)] *)
Definition DecodeSimpleSection_buf (p : option ptr) (l : Z) (ss : CSimpleSection) (kt : Z)
  : option (Z * CSimpleSection) :=
  '(rv, _, ss) ← DecodeSimpleSection (MkBinary l p) ss kt; Some (rv, ss).

End codec.

(** ** Well-formed definitions and sections *)

(** Tag types are known types, and only tags below [maxTags] (at most
    [MAX_STATIC_SECTION]) have one. *)
Definition def_okb (d : CSectionDefinition) : bool :=
  (Z.of_nat (length (tagType d)) =? 256) && (0 <=? maxTags d) &&
  (maxTags d <=? MAX_STATIC_SECTION) &&
  forallb (λ i : nat, match tagType d !! i with
                      | Some t => (0 <=? t) && (t <? DField_TotalType) &&
                                  ((t =? DField_None) || (Z.of_nat i <? maxTags d))
                      | None => false end) (seq 0 256).

Lemma def_ok_spec d :
  def_okb d = true ->
  0 <= maxTags d <= 20 /\
  forall i, 0 <= i < 256 -> exists t, rd (tagType d) i = Some t /\
    DField_None <= t < DField_TotalType /\ (t <> DField_None -> i < maxTags d).
Proof.
  unfold def_okb. rewrite !andb_true_iff, Z.eqb_eq, Z.leb_le, Z.leb_le, forallb_forall.
  intros (((Hl & H0) & H20) & Hall). split; [unfold MAX_STATIC_SECTION in *; lia|].
  intros i Hi. specialize (Hall (Z.to_nat i) ltac:(apply in_seq; lia)). rewrite Z2Nat.id in Hall by lia.
  unfold rd. destruct (Z.ltb_spec i 0); [lia|].
  destruct (tagType d !! Z.to_nat i) as [t|]; [|done]. exists t. split; [done|].
  rewrite !andb_true_iff, orb_true_iff, Z.leb_le, !Z.ltb_lt, Z.eqb_eq in Hall. tauto.
Qed.

(** Shape every operation keeps. *)
Definition sec_shape (s : CSimpleSection) : Prop :=
  def_okb (definition s) = true /\ length (fieldMask s) = 3%nat /\
  Z.of_nat (length (tagValue s)) = MAX_STATIC_SECTION.

Lemma TagType_spec s id :
  sec_shape s -> 0 <= id < 256 -> exists t, TagType s id = Some t /\
    DField_None <= t < DField_TotalType /\ (t <> DField_None -> id < maxTags (definition s) <= 20).
Proof.
  intros (Hd & _) Hid. destruct (def_ok_spec _ Hd) as [Hm Hall].
  destruct (Hall id Hid) as (t & Ht & Hr & Hn). exists t.
  unfold TagType, def_TagType. rewrite uwrap_small by lia.
  split_and!; [done|lia|lia|]. intros E. specialize (Hn E). lia.
Qed.

Lemma FIELD_ISSET_getbit id mask : FIELD_ISSET id mask = b2z <$> getbit mask id.
Proof. unfold FIELD_ISSET. by rewrite isset_getbit. Qed.

Lemma FIELD_SET_spec id mask :
  0 <= id < 8 * Z.of_nat (length mask) ->
  exists mask', FIELD_SET id mask = Some mask' /\ bit_updated mask mask' id true.
Proof. intros. unfold FIELD_SET. apply (set_b_spec mask id 0). lia. Qed.

Lemma FIELD_ISSET_total id mask :
  0 <= id < 8 * Z.of_nat (length mask) ->
  exists b, getbit mask id = Some b /\ FIELD_ISSET id mask = Some (b2z b).
Proof.
  intros Hid. destruct (getbit_is_Some mask id Hid) as [b Hb]. exists b.
  rewrite FIELD_ISSET_getbit, Hb. done.
Qed.

Lemma SetTagMask_spec s id :
  sec_shape s -> 0 <= id < 20 ->
  exists s', SetTagMask s id = Some s' /\ sec_shape s' /\ definition s' = definition s /\
    tagValue s' = tagValue s /\ numTags s' = u8 (numTags s + 1) /\
    bit_updated (fieldMask s) (fieldMask s') id true.
Proof.
  intros (Hd & Hm & Hv) Hid. unfold SetTagMask.
  destruct (FIELD_SET_spec id (fieldMask s)) as (mask & -> & Hl & Hb); [lia|]. osimpl.
  eexists. split; [done|]. cbn [definition tagValue numTags fieldMask].
  split_and!; try done. split_and!; simpl; [done|lia|done].
Qed.

(** ** Decoding arbitrary bytes *)

Section safety.
Context `{FloatText}.

(** Result of one decoding step: nothing is stored outside the section. *)
Lemma decode_tag_safe bin ss id type :
  readable_bin bin -> bin_len bin < 2 ^ 31 -> sec_shape ss ->
  (type <> DField_None -> 0 <= id < 20) ->
  exists rv bin' ss', decode_tag bin ss id type = Some (rv, bin', ss') /\
    forward bin bin' /\ sec_shape ss' /\ definition ss' = definition ss.
Proof.
  intros Hr Hl Hs Hid. unfold decode_tag.
  destruct (DecodeDataValue_safe bin (default CValue_zero (rd (tagValue ss) id)) type Hr Hl)
    as (rv & bin' & v & -> & Hf & _). osimpl.
  destruct (Z.eqb_spec rv 0) as [->|]; cbn [negb]; [|by eauto 7].
  destruct (Z.eqb_spec type DField_None) as [|Hne]; [by eauto 7|].
  specialize (Hid Hne). destruct Hs as (Hd & Hm & Hv). unfold MAX_STATIC_SECTION in Hv.
  rewrite wr_is_Some by lia. osimpl.
  edestruct (SetTagMask_spec (MkSection (definition ss) (numTags ss) (fieldMask ss)
    (<[Z.to_nat id:=v]> (tagValue ss))) id) as (s' & -> & Hs' & Hdef & _); [|lia|].
  { split_and!; simpl; [done|done|]. by rewrite length_insert. }
  osimpl. eauto 7.
Qed.

Lemma DecodeSimpleSection_loop_safe fuel : forall bin ss kt mask,
  readable_bin bin -> bin_len bin < 2 ^ 31 -> bin_len bin <= Z.of_nat fuel -> sec_shape ss ->
  length mask = 32%nat ->
  exists rv bin' ss', DecodeSimpleSection_loop fuel bin ss kt mask = Some (rv, bin', ss') /\
    forward bin bin' /\ sec_shape ss' /\ definition ss' = definition ss /\
    (rv = 0 -> bin_len bin' <= 0).
Proof.
  induction fuel as [|fuel IH]; intros bin ss kt mask Hr Hl Hfuel Hs Hm;
    cbn [DecodeSimpleSection_loop]; unfold bin_not.
  { destruct (Z.leb_spec (bin_len bin) 0); [|lia].
    do 3 eexists. split_and!; eauto using forward_refl. }
  destruct (Z.leb_spec (bin_len bin) 0).
  { do 3 eexists. split_and!; eauto using forward_refl. }
  destruct (readable_deref bin 0 Hr) as (id & Eid & Bid); [lia|]. unfold is_byte in Bid.
  unfold bin_deref. rewrite Eid. osimpl. unfold bin_incr.
  assert (forward bin (bin_advance bin 1)) as Hf1 by (apply forward_step; lia).
  destruct (FIELD_ISSET_total id mask) as (dup & _ & ->); [lia|]. osimpl.
  destruct dup; cbn [b2z Z.eqb negb]; [by do 3 eexists; split_and!; eauto|].
  destruct (TagType_spec ss id Hs Bid) as (t & Ht & Htr & Htn).
  assert (exists type, wire_type ss kt id = Some type /\ (type <> DField_None -> 0 <= id < 20)) as
    (type & -> & Htype).
  { unfold wire_type. destruct (Z.eqb_spec id 0); [exists kt; split; [done|lia]|].
    exists t. split; [done|]. intros Hn. specialize (Htn Hn). lia. }
  osimpl. destruct (decode_tag_safe (bin_advance bin 1) ss id type)
    as (rv & bin' & ss' & -> & Hf & Hs' & Hdef); [by apply readable_advance|simpl; lia|done|done|].
  osimpl. pose proof (forward_trans _ _ _ Hf1 Hf) as Hf2.
  destruct (Z.eqb_spec rv 0) as [->|]; cbn [negb]; [|by do 3 eexists; split_and!; eauto].
  assert (exists mask', (if type =? DField_None then Some mask else FIELD_SET id mask) = Some mask' /\
            length mask' = 32%nat) as (mask' & -> & Hm').
  { destruct (type =? DField_None); [by eauto|].
    destruct (FIELD_SET_spec id mask) as (m' & -> & Hlm & _); [lia|]. exists m'. split; [done|lia]. }
  osimpl. pose proof Hf as (k & -> & Hk). simpl in Hk.
  destruct (IH (bin_advance (bin_advance bin 1) k) ss' kt mask')
    as (rv2 & bin2 & ss2 & -> & Hf3 & Hs2 & Hdef2 & Hz);
    [by eapply forward_readable|simpl; lia|simpl; lia|done|done|].
  do 3 eexists. split_and!; [done|by eapply forward_trans|done|congruence|done].
Qed.

(** [C23] Robust section decoding: for a well-formed tag table and any packet
    bytes, [DecodeSimpleSection] terminates, reads only inside the packet,
    stores only inside [tagValue[MAX_STATIC_SECTION]] (tag numbers up to 255
    on the wire included) and, when it returns 0, has consumed the whole
    section. *)
Theorem DecodeSimpleSection_in_bounds bin ss kt :
  readable_bin bin -> bin_len bin < 2 ^ 31 -> sec_shape ss ->
  exists rv k ss', DecodeSimpleSection bin ss kt = Some (rv, bin_advance bin k, ss') /\
    0 <= k <= Z.max 0 (bin_len bin) /\ sec_shape ss' /\ definition ss' = definition ss /\
    (rv = 0 -> bin_len bin <= k).
Proof.
  intros Hr Hl Hs. unfold DecodeSimpleSection.
  destruct (DecodeSimpleSection_loop_safe (Z.to_nat (bin_len bin)) bin ss kt (replicate 32 0))
    as (rv & bin' & ss' & -> & (k & -> & Hk) & Hs' & Hdef & Hz); [done|done|lia|done|done|].
  exists rv, k, ss'. split_and!; [done|lia|lia|done|done|]. intros E. specialize (Hz E). simpl in Hz. lia.
Qed.

End safety.

Lemma new_section_shape d : def_okb d = true -> sec_shape (new_section d).
Proof. intros. split_and!; [done|done|]. simpl. by vm_compute. Qed.

Lemma DecodeSimpleSection_in_bounds_witness :
  let bin := MkBinary 5 (Some (Ptr [200; 1; 65; 3; 9] 0)) in
  exists rv k ss', @DecodeSimpleSection hex_text bin (new_section requestInfoDefinition) DField_Signed
      = Some (rv, bin_advance bin k, ss') /\
    0 <= k <= Z.max 0 (bin_len bin) /\ sec_shape ss' /\ definition ss' = requestInfoDefinition /\
    (rv = 0 -> bin_len bin <= k).
Proof.
  intros bin. apply (@DecodeSimpleSection_in_bounds hex_text bin (new_section requestInfoDefinition)).
  - exists [200; 1; 65; 3; 9]. split; [repeat constructor; unfold is_byte; lia|].
    split; [apply holds_whole|done].
  - simpl; lia.
  - apply new_section_shape. by vm_compute.
Defined.

(** ** Round trip *)

Section roundtrip.
Context `{FloatTextLaws}.

(** Tag [i] of the section is set. *)
Definition present (s : CSimpleSection) (i : Z) : Prop := getbit (fieldMask s) i = Some true.

(** Every tag that is set has a type on the wire and a sendable value. *)
Definition sendable (s : CSimpleSection) (kt : Z) : Prop :=
  sec_shape s /\ DField_None <= kt < DField_TotalType /\
  forall i, 0 <= i < 20 -> present s i ->
    i <= maxTags (definition s) /\
    exists t v, wire_type s kt i = Some t /\ t <> DField_None /\
      rd (tagValue s) i = Some v /\ wire_ok t v.

(** The content of tag [i] of [s'] is that of [s]. *)
Definition same_tag (s s' : CSimpleSection) (kt i : Z) : Prop :=
  forall t v, wire_type s kt i = Some t -> rd (tagValue s) i = Some v ->
    exists v', rd (tagValue s') i = Some v' /\ same_content t v v'.

Lemma wire_type_range s kt i :
  sendable s kt -> 0 <= i < 256 -> exists t, wire_type s kt i = Some t /\ DField_None <= t < DField_TotalType.
Proof.
  intros (Hs & Hk & _) Hi. unfold wire_type. destruct (i =? 0); [by eauto|].
  destruct (TagType_spec s i Hs Hi) as (t & ? & ? & _). eauto.
Qed.

Lemma GetTag_cases s kt i :
  sendable s kt -> 0 <= i ->
  (GetTag s i = Some None /\ (i < 20 -> getbit (fieldMask s) i = Some false)) \/
  (i < 20 /\ present s i /\ exists t v, wire_type s kt i = Some t /\ t <> DField_None /\
     rd (tagValue s) i = Some v /\ wire_ok t v /\ GetTag s i = Some (Some v)).
Proof.
  intros Hs Hi. pose proof Hs as ((_ & Hm & _) & _ & Hall). unfold GetTag, TagPresent, MAX_STATIC_SECTION.
  destruct (Z.leb_spec 20 i); [left; split; [done|lia]|].
  destruct (FIELD_ISSET_total i (fieldMask s)) as (b & Hb & ->); [lia|]. osimpl. destruct b; simpl.
  - right. destruct (Hall i ltac:(lia) Hb) as (_ & t & v & Ht & Hn & Hv & Hok).
    split_and!; [lia|done|]. exists t, v. rewrite Hv. done.
  - left. done.
Qed.

Lemma EncodeSimpleSection_loop_size s kt n : forall i,
  sendable s kt -> 0 <= i ->
  exists e, EncodeSimpleSection_loop s kt i n = Some e /\
    EncodedBytesSimpleSection_loop s kt i n = Some (Z.of_nat (length e)).
Proof.
  induction n as [|n IH]; intros i Hs Hi; cbn [EncodeSimpleSection_loop EncodedBytesSimpleSection_loop].
  { by exists []. }
  destruct (IH (i + 1) Hs ltac:(lia)) as (e & -> & ->).
  destruct (GetTag_cases s kt i Hs Hi) as [[-> _]|(Hlt & _ & t & v & Ht & Hn & Hv & Hok & ->)]; osimpl.
  { by exists e. }
  rewrite Ht. osimpl. destruct (wire_type_range s kt i Hs ltac:(lia)) as (t' & Ht' & Hr).
  assert (t' = t) as -> by congruence.
  destruct (value_codec v t Hr Hok) as (x & Hx & _). rewrite Hx. osimpl.
  eexists. split; [done|]. f_equal. cbn [length app].
  rewrite <- (EncodeDataValue_size v t x Hx), length_app. lia.
Qed.

(** The decoder's state when exactly the tags below [i] have been read. *)
Definition decoded (s : CSimpleSection) (kt i : Z) (ss : CSimpleSection) (mask : list Z) : Prop :=
  sec_shape ss /\ definition ss = definition s /\ length mask = 32%nat /\
  (forall j, 0 <= j < 20 -> getbit (fieldMask ss) j = if j <? i then getbit (fieldMask s) j else Some false) /\
  (forall j, 0 <= j < 256 -> getbit mask j = if j <? 20 then getbit (fieldMask ss) j else Some false) /\
  (forall j, 0 <= j < i -> j < 20 -> present s j -> same_tag s ss kt j) /\
  numTags ss = popcount (fieldMask ss) 0 20.

Lemma popcount_bound m a n : 0 <= popcount m a n <= Z.of_nat n.
Proof.
  revert a. induction n as [|n IH]; intros a; cbn [popcount]; [lia|].
  specialize (IH (a + 1)). destruct (default false (getbit m a)); cbn [b2z]; lia.
Qed.

Lemma decoded_skip s kt i ss mask :
  decoded s kt i ss mask -> (i < 20 -> getbit (fieldMask s) i = Some false) -> 0 <= i ->
  decoded s kt (i + 1) ss mask.
Proof.
  intros (Hsh & Hd & Hm & Hb & Hmb & Hc & Hn) Hi Hpos. split_and!; try done.
  - intros j Hj. rewrite Hb by done. destruct (Z.eq_dec j i) as [->|].
    + rewrite Hi by lia. zcases; done.
    + zcases; done.
  - intros j Hj H20 Hp. apply Hc; [|done|done]. destruct (Z.eq_dec j i) as [->|]; [|lia].
    exfalso. unfold present in Hp. rewrite Hi in Hp by lia. done.
Qed.

(** One iteration of the decoder on the bytes of tag [i]. *)
Lemma decode_tag_step s kt i t v x ss mask p len :
  sendable s kt -> 0 <= i < 20 -> present s i ->
  wire_type s kt i = Some t -> t <> DField_None -> DField_None <= t < DField_TotalType ->
  rd (tagValue s) i = Some v -> codec_ok v t x ->
  decoded s kt i ss mask -> holds p x -> Z.of_nat (length x) <= len ->
  exists ss' mask',
    decode_tag (MkBinary len p) ss i t =
      Some (0, bin_advance (MkBinary len p) (Z.of_nat (length x)), ss') /\
    FIELD_SET i mask = Some mask' /\ decoded s kt (i + 1) ss' mask'.
Proof.
  intros Hs Hi Hp Ht Hn Hr Hv Hcodec (Hsh & Hd & Hm & Hb & Hmb & Hc & Hnt) Hh Hl.
  unfold decode_tag.
  destruct (Hcodec p len (default CValue_zero (rd (tagValue ss) i)) Hh Hl) as (v' & -> & Hsame). osimpl.
  rewrite Z.eqb_refl. cbn [negb]. destruct (Z.eqb_spec t DField_None); [done|].
  pose proof Hsh as (Hdok & Hml & Hvl). unfold MAX_STATIC_SECTION in Hvl.
  destruct (wr (tagValue ss) i v') as [vs|] eqn:Ewr; [|by rewrite wr_is_Some in Ewr by lia]. osimpl.
  destruct (SetTagMask_spec (MkSection (definition ss) (numTags ss) (fieldMask ss) vs) i)
    as (ss' & -> & Hsh' & Hdef & Htv & Hnum & Hup); [|lia|].
  { split_and!; simpl; [done|done|]. rewrite (wr_length _ _ _ _ Ewr). done. }
  osimpl. destruct (FIELD_SET_spec i mask) as (mask' & -> & Hup2); [lia|].
  exists ss', mask'. split; [done|]. split; [done|].
  cbn [definition tagValue numTags fieldMask] in *.
  pose proof Hup as [_ Hget]. pose proof Hup2 as [Hl2 Hget2].
  split_and!; [done|congruence|lia|..].
  - intros j Hj. rewrite Hget by lia. destruct (Z.eqb_spec j i) as [->|].
    + zcases. symmetry. done.
    + rewrite Hb by done. zcases; done.
  - intros j Hj. rewrite Hget2, Hget by lia. destruct (Z.eqb_spec j i) as [->|]; [zcases; done|].
    by apply Hmb.
  - intros j Hj H20 Hpj tj vj Htj Hvj. rewrite Htv, (rd_wr _ _ _ _ _ Ewr).
    destruct (Z.eqb_spec i j) as [<-|]; [|apply Hc; [lia|done..]].
    exists v'. split; [done|]. congruence.
  - rewrite Hnum, Hnt. assert (getbit (fieldMask ss) i = Some false) as Hf
      by (rewrite Hb by lia; zcases; done).
    rewrite (popcount_set (fieldMask ss) (fieldMask ss') i 20 0 ltac:(lia) Hup Hf).
    pose proof (popcount_bound (fieldMask ss) 0 20) as Hpc.
    generalize dependent (popcount (fieldMask ss) 0 20). intros c Hc2 Hpc.
    zcases. cbn [b2z]. apply uwrap_small. lia.
Qed.

Lemma section_loop_roundtrip s kt n : forall i e ss mask p fuel,
  sendable s kt -> 0 <= i ->
  EncodeSimpleSection_loop s kt i n = Some e -> holds p e -> (length e <= fuel)%nat ->
  decoded s kt i ss mask ->
  exists p' ss' mask', DecodeSimpleSection_loop fuel (MkBinary (Z.of_nat (length e)) p) ss kt mask =
    Some (0, MkBinary 0 p', ss') /\ decoded s kt (i + Z.of_nat n) ss' mask'.
Proof.
  induction n as [|n IH]; intros i e ss mask p fuel Hs Hi He Hh Hf Hdec.
  { simpl in He. simplify_eq. exists p, ss, mask. rewrite Z.add_0_r. split; [by destruct fuel|done]. }
  cbn [EncodeSimpleSection_loop] in He.
  replace (i + Z.of_nat (S n)) with (i + 1 + Z.of_nat n) by lia.
  destruct (GetTag_cases s kt i Hs Hi) as [[Hg Hskip]|(Hlt & Hp & t & v & Ht & Hn & Hv & Hok & Hg)];
    rewrite Hg in He; cbn [mbind option_bind] in He.
  { inv_bind He. simplify_eq. simpl in *. eapply IH; eauto using decoded_skip with lia. }
  rewrite Ht in He. cbn [mbind option_bind] in He.
  destruct (wire_type_range s kt i Hs ltac:(lia)) as (t' & Ht' & Hr).
  assert (t' = t) as -> by congruence.
  destruct (value_codec v t Hr Hok) as (x & Hx & Hcodec). rewrite Hx in He. cbn [mbind option_bind] in He.
  destruct (EncodeSimpleSection_loop s kt (i + 1) n) as [rest|] eqn:Erest; [|done].
  cbn [mbind option_bind] in He. simplify_eq. cbn [app length] in *. rewrite length_app in Hf.
  apply holds_cons in Hh as [Hhd Hh]. apply holds_app in Hh as [Hhx Hhr].
  destruct fuel as [|fuel]; [lia|]. cbn [DecodeSimpleSection_loop].
  unfold bin_not. cbn [bin_len]. zif. unfold bin_deref. cbn [bin_ptr]. rewrite Hhd. osimpl.
  rewrite uwrap_small by lia. pose proof Hdec as (Hsh & Hd & Hm & Hb & Hmb & _ & _).
  rewrite FIELD_ISSET_getbit, Hmb by lia. zif. rewrite Hb by lia. zif. osimpl. cbn [b2z Z.eqb negb].
  assert (wire_type ss kt i = Some t) as ->.
  { rewrite <- Ht. unfold wire_type, TagType. by rewrite Hd. }
  osimpl. unfold bin_incr, bin_advance at 1. cbn [bin_len bin_ptr].
  destruct (decode_tag_step s kt i t v x ss mask (padd p 1)
    (Z.of_nat (S (length (x ++ rest))) - 1)) as (ss' & mask' & -> & Hmask & Hdec');
    [done|lia|done..|rewrite length_app; lia|].
  osimpl. rewrite Z.eqb_refl. cbn [negb]. destruct (Z.eqb_spec t DField_None); [done|].
  rewrite Hmask. osimpl. unfold bin_advance. cbn [bin_len bin_ptr].
  replace (_ - _ - _) with (Z.of_nat (length rest)) by (rewrite length_app; lia).
  eapply IH; [done|lia|done|done|lia|done].
Qed.

Lemma decoded_init s kt : sec_shape s -> decoded s kt 0 (new_section (definition s)) (replicate 32 0).
Proof.
  intros Hs. split_and!; try done; try lia.
  - apply new_section_shape, Hs.
  - intros j Hj. zcases. assert (j = Z.of_nat (Z.to_nat j)) as -> by lia.
    generalize (Z.to_nat j) (ltac:(lia) : (Z.to_nat j < 20)%nat). clear. intros n Hn.
    do 20 (destruct n; [by vm_compute|]). lia.
  - intros j Hj. assert (getbit (replicate 32 0) j = Some false) as ->.
    { unfold getbit, rd. destruct (Z.ltb_spec (j / 8) 0); [Z.div_mod_to_equations; lia|].
      rewrite lookup_replicate_2 by (Z.div_mod_to_equations; lia). simpl. by rewrite Z.bits_0. }
    destruct (Z.ltb_spec j 20); [|done]. symmetry. unfold getbit, rd, new_section; cbn [fieldMask].
    destruct (Z.ltb_spec (j / 8) 0); [Z.div_mod_to_equations; lia|].
    change (FIELD_ZERO [0; 0; 0]) with (replicate 3 0).
    rewrite lookup_replicate_2 by (Z.div_mod_to_equations; lia). simpl. by rewrite Z.bits_0.
Qed.

(** After the last iteration every tag has been read. *)
Lemma decoded_complete s kt ss mask :
  sendable s kt -> decoded s kt (0 + Z.of_nat (S (Z.to_nat (sec_MaxTags s)))) ss mask ->
  (forall i, 0 <= i < 20 -> getbit (fieldMask ss) i = getbit (fieldMask s) i) /\
  (forall i, 0 <= i < 20 -> present s i -> same_tag s ss kt i) /\
  numTags ss = popcount (fieldMask ss) 0 20.
Proof.
  intros Hs (_ & _ & _ & Hb & _ & Hc & Hn).
  pose proof Hs as ((Hdok & Hml & _) & _ & Hall). pose proof (def_ok_spec _ Hdok) as [Hmax _].
  unfold sec_MaxTags, def_MaxTags in *. split_and!; [..|done].
  - intros i Hi. rewrite Hb by done. zif; [done|].
    destruct (getbit_is_Some (fieldMask s) i) as [[] E]; [lia| |by rewrite E].
    destruct (Hall i Hi E) as [? _]. lia.
  - intros i Hi Hp. destruct (Hall i Hi Hp) as [? _]. apply Hc; [lia|lia|done].
Qed.

Lemma section_codec s kt :
  sendable s kt ->
  exists e, EncodeSimpleSection s kt = Some e /\
    EncodedBytesSimpleSection s kt = Some (Z.of_nat (length e)) /\
    forall p, holds p e -> exists p' s',
      DecodeSimpleSection (MkBinary (Z.of_nat (length e)) p) (new_section (definition s)) kt =
        Some (0, MkBinary 0 p', s') /\
      (forall i, 0 <= i < 20 -> TagPresent s' i = TagPresent s i) /\
      (forall i, 0 <= i < 20 -> present s i -> same_tag s s' kt i) /\
      numTags s' = popcount (fieldMask s) 0 20.
Proof.
  intros Hs. destruct (EncodeSimpleSection_loop_size s kt (S (Z.to_nat (sec_MaxTags s))) 0 Hs)
    as (e & He & Hsz); [lia|].
  exists e. split_and!; [done|done|]. intros p Hp.
  destruct (section_loop_roundtrip s kt _ 0 e (new_section (definition s)) (replicate 32 0) p
    (Z.to_nat (Z.of_nat (length e))) Hs ltac:(lia) He Hp ltac:(lia)) as (p' & s' & mask' & Hdec & Hd).
  { apply decoded_init, Hs. }
  exists p', s'. split; [done|]. apply decoded_complete in Hd; [|done].
  destruct Hd as (Hb & Hc & Hn). split_and!; [|done|].
  - intros i Hi. unfold TagPresent, MAX_STATIC_SECTION. zif. rewrite !FIELD_ISSET_getbit, Hb by done. done.
  - rewrite Hn. apply popcount_ext. intros i Hi. apply Hb. lia.
Qed.

(** [C24] Round trip of sections: a section whose set tags hold values that fit
    the wire is encoded in exactly the announced number of bytes, and decoding
    those bytes into a fresh section succeeds, consumes them all, and restores
    the same set of tags, their number and the content of each. *)
Theorem section_roundtrip s kt :
  sendable s kt ->
  exists e, EncodeSimpleSection s kt = Some e /\
    EncodedBytesSimpleSection s kt = Some (Z.of_nat (length e)) /\
    forall p, holds p e -> exists p' s',
      DecodeSimpleSection (MkBinary (Z.of_nat (length e)) p) (new_section (definition s)) kt =
        Some (0, MkBinary 0 p', s') /\
      (forall i, 0 <= i < 20 -> TagPresent s' i = TagPresent s i) /\
      (forall i, 0 <= i < 20 -> present s i -> same_tag s s' kt i) /\
      numTags s' = popcount (fieldMask s) 0 20.
Proof. exact (section_codec s kt). Qed.

End roundtrip.

(** A request section with a timeout, limits and a text tag. *)
Definition sample_section : CSimpleSection :=
  MkSection requestInfoDefinition 4 [30; 0; 0]
    (<[4%nat:=MakeL (Some (Ptr [97; 98; 99] 0)) 3]> (<[3%nat:=MakeInt 700]> (<[2%nat:=MakeInt 5]>
      (<[1%nat:=MakeInt 5000000]> (replicate 20 CValue_zero))))).

Lemma section_roundtrip_witness :
  sendable sample_section DField_Signed /\
  exists e, @EncodeSimpleSection hex_text sample_section DField_Signed = Some e /\
    @EncodedBytesSimpleSection hex_text sample_section DField_Signed = Some (Z.of_nat (length e)) /\
    forall p, holds p e -> exists p' s',
      @DecodeSimpleSection hex_text (MkBinary (Z.of_nat (length e)) p)
          (new_section (definition sample_section)) DField_Signed =
        Some (0, MkBinary 0 p', s') /\
      (forall i, 0 <= i < 20 -> TagPresent s' i = TagPresent sample_section i) /\
      (forall i, 0 <= i < 20 -> present sample_section i -> same_tag sample_section s' DField_Signed i) /\
      numTags s' = popcount (fieldMask sample_section) 0 20.
Proof.
  assert (sendable sample_section DField_Signed) as Hs.
  { split; [by split_and!; vm_compute|]. split; [by vm_compute|]. intros i Hi Hp.
    assert (i = 1 \/ i = 2 \/ i = 3 \/ i = 4) as Hc.
    { assert (i = Z.of_nat (Z.to_nat i)) as E by lia. rewrite E in *. clear E.
      generalize dependent (Z.to_nat i). clear. intros n Hn Hp.
      do 20 (destruct n; [first [by vm_compute in Hp | lia]|]). lia. }
    destruct Hc as [-> | [-> | [-> | ->]]]; (split; [by vm_compute|]); do 2 eexists;
      (split; [by vm_compute|]); (split; [done|]); (split; [by vm_compute|]);
      (split; [by vm_compute|]); (split; [done|]); intros; destruct_or?; try done.
    split; [by vm_compute|]. exists [97; 98; 99].
    split; [repeat constructor; unfold is_byte; lia|]. split; [apply holds_whole|done]. }
  split; [exact Hs|]. exact (@section_roundtrip hex_text hex_text_laws sample_section DField_Signed Hs).
Defined.

(** ** Setting tags *)

(** [numTags] counts the tags that are set. *)
Definition sec_inv (s : CSimpleSection) : Prop :=
  sec_shape s /\ numTags s = popcount (fieldMask s) 0 20.

Lemma sec_inv_new d : def_okb d = true -> sec_inv (new_section d).
Proof. intros. split; [by apply new_section_shape|by vm_compute]. Qed.

Lemma GetTag_present s j b :
  0 <= j < 20 -> getbit (fieldMask s) j = Some b ->
  GetTag s j = if b then v ← rd (tagValue s) j; Some (Some v) else Some None.
Proof.
  intros Hj Hb. unfold GetTag, TagPresent, MAX_STATIC_SECTION. zif. rewrite FIELD_ISSET_getbit, Hb. by destruct b.
Qed.

(** The new section after [tagValue[id] = v] with the mask bit set. *)
Lemma SetTag_known s id v t :
  sec_inv s -> 0 <= id < 256 -> TagType s id = Some t -> t <> DField_None ->
  exists s', SetTag s id v = Some s' /\ sec_inv s' /\ definition s' = definition s /\ id < 20 /\
    wr (tagValue s) id v = Some (tagValue s') /\
    forall j, 0 <= j -> getbit (fieldMask s') j = if j =? id then Some true else getbit (fieldMask s) j.
Proof.
  intros (Hsh & Hnum) Hid Ht Hn. pose proof Hsh as (Hd & Hm & Hv). unfold MAX_STATIC_SECTION in Hv.
  destruct (TagType_spec s id Hsh Hid) as (t' & Ht' & _ & Hlt). assert (t' = t) as -> by congruence.
  specialize (Hlt Hn). unfold SetTag. rewrite Ht. osimpl. destruct (Z.eqb_spec t DField_None); [done|].
  destruct (wr (tagValue s) id v) as [vs|] eqn:Ewr; [|by rewrite wr_is_Some in Ewr by lia]. osimpl.
  cbn [fieldMask definition numTags tagValue].
  assert (sec_shape (MkSection (definition s) (numTags s) (fieldMask s) vs)) as Hsh'.
  { split_and!; simpl; [done|done|]. rewrite (wr_length _ _ _ _ Ewr). done. }
  destruct (FIELD_ISSET_total id (fieldMask s)) as (b & Hb & ->); [lia|]. osimpl. destruct b; cbn [b2z Z.eqb].
  - eexists. split; [done|]. split; [by split|]. split_and!; [done|lia|done|]. cbn [fieldMask].
    intros j Hj. destruct (Z.eqb_spec j id) as [->|]; done.
  - destruct (SetTagMask_spec _ id Hsh' ltac:(lia)) as (s' & Hst & Hs' & Hd' & Htv & Hn' & Hup).
    unfold SetTagMask in Hst. cbn [fieldMask definition numTags tagValue] in *. rewrite Hst.
    exists s'. split; [done|]. pose proof Hup as [_ Hget]. split; [split; [done|]|split_and!; [done|lia|congruence|done]].
    rewrite Hn', Hnum. pose proof (popcount_bound (fieldMask s) 0 20) as Hpc.
    rewrite (popcount_set _ _ id 20 0 ltac:(lia) Hup Hb).
    generalize dependent (popcount (fieldMask s) 0 20). intros c Hc2 Hpc.
    zcases. cbn [b2z]. apply uwrap_small. lia.
Qed.

(** [SetTag] keeps the section well formed and its tag count exact, for
    every tag number a caller can pass: a tag the definition does not know is
    ignored, a known one is stored and read back by [GetTag], and all other
    tags keep their value. *)
Theorem SetTag_correct s id v :
  sec_inv s -> 0 <= id < 256 ->
  exists s' t, SetTag s id v = Some s' /\ TagType s id = Some t /\ sec_inv s' /\
    (t = DField_None -> s' = s) /\
    (t <> DField_None -> GetTag s' id = Some (Some v)) /\
    (forall j, 0 <= j -> j <> id -> GetTag s' j = GetTag s j).
Proof.
  intros Hs Hid. destruct (TagType_spec s id (proj1 Hs) Hid) as (t & Ht & _).
  destruct (Z.eq_dec t DField_None) as [->|Hn].
  { exists s, DField_None. split_and!; try done. unfold SetTag. rewrite Ht. done. }
  destruct (SetTag_known s id v t Hs Hid Ht Hn) as (s' & Hset & Hinv & Hd & H20 & Hwr & Hget).
  exists s', t. split_and!; try done.
  - intros _. rewrite (GetTag_present s' id true) by (rewrite ?Hget, ?Z.eqb_refl; done || lia).
    by rewrite (rd_wr _ _ id _ _ Hwr), Z.eqb_refl.
  - intros j Hj Hne. unfold GetTag, TagPresent. rewrite !FIELD_ISSET_getbit, Hget by done.
    destruct (Z.eqb_spec j id); [done|]. rewrite (rd_wr _ _ j _ _ Hwr). by destruct (Z.eqb_spec id j).
Qed.

Lemma SetTag_correct_witness :
  let s := new_section resultInfoDefinition in
  exists s' t, SetTag s 4 (MakeInt 9) = Some s' /\ TagType s 4 = Some t /\ sec_inv s' /\
    (t = DField_None -> s' = s) /\
    (t <> DField_None -> GetTag s' 4 = Some (Some (MakeInt 9))) /\
    (forall j, 0 <= j -> j <> 4 -> GetTag s' j = GetTag s j).
Proof.
  intros s. apply (SetTag_correct s 4 (MakeInt 9)); [|lia]. apply sec_inv_new. by vm_compute.
Defined.
