(* ===== verification/Md5.v ===== *)
(** * Md5: the message digest of table definitions

    Models [src/common/md5.c] and [src/common/md5.h] (little-endian build,
    where [byteReverse] is empty) and shows that feeding a message in pieces
    to [MD5Init] / [MD5Update] / [MD5Final] computes the digest RFC 1321
    defines for the whole message. *)

From S2P Require Import Prelude Value.

(** ** The code *)

Definition md5_state : Type := Z * Z * Z * Z.

Record MD5Context := MkMD5 {
  md5_buf : md5_state; md5_bits0 : Z; md5_bits1 : Z; md5_in : list Z
}.

Definition lnot32 (x : Z) : Z := Z.lxor x 4294967295.

Definition F1 (x y z : Z) : Z := Z.lxor z (Z.land x (Z.lxor y z)).
Definition F2 (x y z : Z) : Z := F1 z x y.
Definition F3 (x y z : Z) : Z := Z.lxor (Z.lxor x y) z.
Definition F4 (x y z : Z) : Z := Z.lxor y (Z.lor x (lnot32 z)).

(** [MD5STEP(f, w, x, y, z, data, s)]: the new value of [w] *)
Definition MD5STEP (f : Z -> Z -> Z -> Z) (w x y z data s : Z) : Z :=
  let w := u32 (w + u32 (f x y z + data)) in
  let w := Z.lor (u32 (Z.shiftl w s)) (Z.shiftr w (32 - s)) in
  u32 (w + x).

(** The 64 steps in program order: function, index into [in], constant,
    shift.  The variables rotate [a,b,c,d -> d,a,b,c] from step to step. *)
Definition md5_steps : list ((Z -> Z -> Z -> Z) * Z * Z * Z) := [
  (F1, 0, 0xd76aa478, 7); (F1, 1, 0xe8c7b756, 12); (F1, 2, 0x242070db, 17); (F1, 3, 0xc1bdceee, 22);
  (F1, 4, 0xf57c0faf, 7); (F1, 5, 0x4787c62a, 12); (F1, 6, 0xa8304613, 17); (F1, 7, 0xfd469501, 22);
  (F1, 8, 0x698098d8, 7); (F1, 9, 0x8b44f7af, 12); (F1, 10, 0xffff5bb1, 17); (F1, 11, 0x895cd7be, 22);
  (F1, 12, 0x6b901122, 7); (F1, 13, 0xfd987193, 12); (F1, 14, 0xa679438e, 17); (F1, 15, 0x49b40821, 22);
  (F2, 1, 0xf61e2562, 5); (F2, 6, 0xc040b340, 9); (F2, 11, 0x265e5a51, 14); (F2, 0, 0xe9b6c7aa, 20);
  (F2, 5, 0xd62f105d, 5); (F2, 10, 0x02441453, 9); (F2, 15, 0xd8a1e681, 14); (F2, 4, 0xe7d3fbc8, 20);
  (F2, 9, 0x21e1cde6, 5); (F2, 14, 0xc33707d6, 9); (F2, 3, 0xf4d50d87, 14); (F2, 8, 0x455a14ed, 20);
  (F2, 13, 0xa9e3e905, 5); (F2, 2, 0xfcefa3f8, 9); (F2, 7, 0x676f02d9, 14); (F2, 12, 0x8d2a4c8a, 20);
  (F3, 5, 0xfffa3942, 4); (F3, 8, 0x8771f681, 11); (F3, 11, 0x6d9d6122, 16); (F3, 14, 0xfde5380c, 23);
  (F3, 1, 0xa4beea44, 4); (F3, 4, 0x4bdecfa9, 11); (F3, 7, 0xf6bb4b60, 16); (F3, 10, 0xbebfbc70, 23);
  (F3, 13, 0x289b7ec6, 4); (F3, 0, 0xeaa127fa, 11); (F3, 3, 0xd4ef3085, 16); (F3, 6, 0x04881d05, 23);
  (F3, 9, 0xd9d4d039, 4); (F3, 12, 0xe6db99e5, 11); (F3, 15, 0x1fa27cf8, 16); (F3, 2, 0xc4ac5665, 23);
  (F4, 0, 0xf4292244, 6); (F4, 7, 0x432aff97, 10); (F4, 14, 0xab9423a7, 15); (F4, 5, 0xfc93a039, 21);
  (F4, 12, 0x655b59c3, 6); (F4, 3, 0x8f0ccc92, 10); (F4, 10, 0xffeff47d, 15); (F4, 1, 0x85845dd1, 21);
  (F4, 8, 0x6fa87e4f, 6); (F4, 15, 0xfe2ce6e0, 10); (F4, 6, 0xa3014314, 15); (F4, 13, 0x4e0811a1, 21);
  (F4, 4, 0xf7537e82, 6); (F4, 11, 0xbd3af235, 10); (F4, 2, 0x2ad7d2bb, 15); (F4, 9, 0xeb86d391, 21)].

Fixpoint md5_rounds (steps : list ((Z -> Z -> Z -> Z) * Z * Z * Z)) (st : md5_state) (w : list Z)
  : option md5_state :=
  match steps with
  | [] => Some st
  | (f, k, c, s) :: steps' =>
      let '(a, b, cc, d) := st in
      m ← rd w k;
      md5_rounds steps' (d, MD5STEP f a b cc d (u32 (m + c)) s, b, cc) w
  end.

Definition MD5Transform (st : md5_state) (w : list Z) : option md5_state :=
  let '(b0, b1, b2, b3) := st in
  '(a, b, c, d) ← md5_rounds md5_steps st w;
  Some (u32 (b0 + a), u32 (b1 + b), u32 (b2 + c), u32 (b3 + d)).

(** [(uint32_t * )ctx->in] *)
Fixpoint le_words (n : nat) (l : list Z) : list Z :=
  match n with
  | O => []
  | S n' => le_value (take 4 l) :: le_words n' (drop 4 l)
  end.

Definition MD5Init (ctx : MD5Context) : MD5Context :=
  MkMD5 (0x67452301, 0xefcdab89, 0x98badcfe, 0x10325476) 0 0 (md5_in ctx).

(** The [n] bytes [memcpy] reads from a buffer. *)
Definition blk (buf : list Z) (n : Z) : option (list Z) :=
  if n <=? Z.of_nat (length buf) then Some (take (Z.to_nat n) buf) else None.

(** [while (len >= 64)] and the copy of the remaining bytes; the fuel is the
    number of bytes. *)
Fixpoint MD5Update_loop (fuel : nat) (ctx : MD5Context) (buf : list Z) (len : Z) : option MD5Context :=
  if 64 <=? len then
    match fuel with
    | O => None
    | S fuel' =>
        x ← blk buf 64;
        i ← wr_many (md5_in ctx) 0 x;
        st ← MD5Transform (md5_buf ctx) (le_words 16 i);
        MD5Update_loop fuel' (MkMD5 st (md5_bits0 ctx) (md5_bits1 ctx) i) (drop 64 buf) (len - 64)
    end
  else
    x ← blk buf len;
    i ← wr_many (md5_in ctx) 0 x;
    Some (MkMD5 (md5_buf ctx) (md5_bits0 ctx) (md5_bits1 ctx) i).

Definition MD5Update (ctx : MD5Context) (buf : list Z) (len : Z) : option MD5Context :=
  let t := md5_bits0 ctx in
  let b0 := u32 (t + u32 (Z.shiftl len 3)) in
  let b1 := if b0 <? t then u32 (md5_bits1 ctx + 1) else md5_bits1 ctx in
  let b1 := u32 (b1 + Z.shiftr len 29) in
  let t := Z.land (Z.shiftr t 3) 63 in
  if negb (t =? 0) then
    let r := 64 - t in
    if len <? r then
      x ← blk buf len;
      i ← wr_many (md5_in ctx) t x;
      Some (MkMD5 (md5_buf ctx) b0 b1 i)
    else
      x ← blk buf r;
      i ← wr_many (md5_in ctx) t x;
      st ← MD5Transform (md5_buf ctx) (le_words 16 i);
      MD5Update_loop (Z.to_nat len) (MkMD5 st b0 b1 i) (drop (Z.to_nat r) buf) (len - r)
  else MD5Update_loop (Z.to_nat len) (MkMD5 (md5_buf ctx) b0 b1 (md5_in ctx)) buf len.

Definition md5_digest (st : md5_state) : list Z :=
  let '(a, b, c, d) := st in le_bytes 4 a ++ le_bytes 4 b ++ le_bytes 4 c ++ le_bytes 4 d.

(** The digest and the context it leaves: [memset(ctx, 0, sizeof(ctx))]
    clears the size of a pointer, the first two words of [buf]. *)
Definition MD5Final (ctx : MD5Context) : option (list Z * MD5Context) :=
  let count := Z.land (Z.shiftr (md5_bits0 ctx) 3) 0x3F in
  i ← wr (md5_in ctx) count 0x80;
  let p := count + 1 in
  let count := 64 - 1 - count in
  '(st, i) ← (if count <? 8 then
                i ← wr_many i p (replicate (Z.to_nat count) 0);
                st ← MD5Transform (md5_buf ctx) (le_words 16 i);
                i ← wr_many i 0 (replicate 56 0);
                Some (st, i)
              else
                i ← wr_many i p (replicate (Z.to_nat (count - 8)) 0);
                Some (md5_buf ctx, i));
  i ← wr_many i 56 (le_bytes 4 (md5_bits0 ctx));
  i ← wr_many i 60 (le_bytes 4 (md5_bits1 ctx));
  st ← MD5Transform st (le_words 16 i);
  let '(_, _, c, d) := st in
  Some (md5_digest st, MkMD5 (0, 0, c, d) (md5_bits0 ctx) (md5_bits1 ctx) i).

(** Init, one Update per chunk, Final. *)
Fixpoint md5_feed (ctx : MD5Context) (chunks : list (list Z)) : option MD5Context :=
  match chunks with
  | [] => Some ctx
  | c :: cs => ctx ← MD5Update ctx c (Z.of_nat (length c)); md5_feed ctx cs
  end.

Definition md5_chunks (ctx : MD5Context) (chunks : list (list Z)) : option (list Z) :=
  ctx ← md5_feed (MD5Init ctx) chunks; '(h, _) ← MD5Final ctx; Some h.

(** ** RFC 1321 *)

Module Rfc1321.
Definition F (x y z : Z) : Z := Z.lor (Z.land x y) (Z.land (lnot32 x) z).
Definition G (x y z : Z) : Z := Z.lor (Z.land x z) (Z.land y (lnot32 z)).
Definition H (x y z : Z) : Z := Z.lxor (Z.lxor x y) z.
Definition I (x y z : Z) : Z := Z.lxor y (Z.lor x (lnot32 z)).
Definition rotl (x s : Z) : Z := u32 (x * 2 ^ s) + x / 2 ^ (32 - s).

(** [T[i] = floor(2^32 * |sin i|)] *)
Definition T : list Z := [
  3614090360; 3905402710; 606105819; 3250441966; 4118548399; 1200080426; 2821735955; 4249261313;
  1770035416; 2336552879; 4294925233; 2304563134; 1804603682; 4254626195; 2792965006; 1236535329;
  4129170786; 3225465664; 643717713; 3921069994; 3593408605; 38016083; 3634488961; 3889429448;
  568446438; 3275163606; 4107603335; 1163531501; 2850285829; 4243563512; 1735328473; 2368359562;
  4294588738; 2272392833; 1839030562; 4259657740; 2763975236; 1272893353; 4139469664; 3200236656;
  681279174; 3936430074; 3572445317; 76029189; 3654602809; 3873151461; 530742520; 3299628645;
  4096336452; 1126891415; 2878612391; 4237533241; 1700485571; 2399980690; 4293915773; 2240044497;
  1873313359; 4264355552; 2734768916; 1309151649; 4149444226; 3174756917; 718787259; 3951481745].

(** Step [i] of the four rounds: function, message index, shift. *)
Definition fn (i : Z) : Z -> Z -> Z -> Z :=
  if i <? 16 then F else if i <? 32 then G else if i <? 48 then H else I.
Definition k (i : Z) : Z :=
  if i <? 16 then i else if i <? 32 then (5 * i + 1) mod 16
  else if i <? 48 then (3 * i + 5) mod 16 else (7 * i) mod 16.
Definition s (i : Z) : Z :=
  nth (Z.to_nat (4 * (i / 16) + i mod 4)) [7; 12; 17; 22; 5; 9; 14; 20; 4; 11; 16; 23; 6; 10; 15; 21] 0.

Definition step (w : list Z) (st : md5_state) (it : nat * Z) : md5_state :=
  let i := Z.of_nat it.1 in
  let '(a, b, c, d) := st in
  (d, u32 (b + rotl (u32 (a + fn i b c d + nth (Z.to_nat (k i)) w 0 + it.2)) (s i)), b, c).

Definition block (st : md5_state) (bl : list Z) : md5_state :=
  let '(a, b, c, d) := foldl (step (le_words 16 bl)) st (imap pair T) in
  let '(a0, b0, c0, d0) := st in (u32 (a0 + a), u32 (b0 + b), u32 (c0 + c), u32 (d0 + d)).

Fixpoint blocks (n : nat) (st : md5_state) (l : list Z) : md5_state :=
  match n with
  | O => st
  | S n' => blocks n' (block st (take 64 l)) (drop 64 l)
  end.

(** A one bit, zeros up to 56 modulo 64, the bit count in 8 bytes. *)
Definition pad (msg : list Z) : list Z :=
  msg ++ 128 :: replicate (Z.to_nat ((55 - Z.of_nat (length msg)) mod 64)) 0 ++
  le_bytes 8 (8 * Z.of_nat (length msg)).

Definition init : md5_state := (0x67452301, 0xefcdab89, 0x98badcfe, 0x10325476).
Definition md5 (msg : list Z) : list Z :=
  md5_digest (blocks (length (pad msg) / 64) init (pad msg)).
End Rfc1321.

(** ** The compression function *)

Definition word (x : Z) : Prop := 0 <= x < 2 ^ 32.
Definition words_ok (st : md5_state) : Prop :=
  let '(a, b, c, d) := st in word a /\ word b /\ word c /\ word d.

Lemma u32_word x : word (u32 x).
Proof. apply uwrap_range. lia. Qed.

Lemma word_high x i : word x -> 32 <= i -> Z.testbit x i = false.
Proof.
  intros Hx Hi. unfold word in Hx. rewrite <- (Z.mod_small x (2 ^ 32)) by lia.
  apply Z.mod_pow2_bits_high. lia.
Qed.

Lemma lnot32_bit x i : 0 <= i -> Z.testbit (lnot32 x) i = xorb (Z.testbit x i) (i <? 32).
Proof.
  intros Hi. unfold lnot32. rewrite Z.lxor_spec. f_equal.
  change 4294967295 with (Z.ones 32). rewrite Z.testbit_ones_nonneg by lia. done.
Qed.

(** Bitwise identities of words: compare bit by bit. *)
Ltac word_bits :=
  apply Z.bits_inj'; intros i Hi;
  repeat rewrite ?Z.lxor_spec, ?Z.land_spec, ?Z.lor_spec, ?lnot32_bit by done;
  destruct (Z.ltb_spec i 32); [|rewrite ?(word_high _ i) by done];
  repeat match goal with |- context [Z.testbit ?x i] => destruct (Z.testbit x i) end; reflexivity.

(** The "somewhat optimised" selection functions are the RFC's. *)
Lemma F1_rfc x y z : word x -> word y -> word z -> F1 x y z = Rfc1321.F x y z.
Proof. intros. unfold F1, Rfc1321.F. word_bits. Qed.

Lemma F2_rfc x y z : word x -> word y -> word z -> F2 x y z = Rfc1321.G x y z.
Proof. intros. unfold F2, F1, Rfc1321.G. word_bits. Qed.

Lemma rotl_spec w s :
  word w -> 0 < s < 32 ->
  Z.lor (u32 (Z.shiftl w s)) (Z.shiftr w (32 - s)) = Rfc1321.rotl w s.
Proof.
  intros Hw Hs. unfold Rfc1321.rotl. rewrite <- Z.shiftl_mul_pow2, <- Z.shiftr_div_pow2 by lia.
  rewrite Z.add_nocarry_lxor, Z.lxor_lor; [done|..]; apply Z.bits_inj'; intros i Hi;
    rewrite Z.land_spec, Z.bits_0, uwrap_testbit, Z.shiftl_spec, Z.shiftr_spec by lia;
    destruct (Z.ltb_spec i s).
  1,3: rewrite (Z.testbit_neg_r w (i - s)), !andb_false_r by lia; done.
  all: rewrite (word_high w (i + (32 - s))), andb_false_r by (done || lia); done.
Qed.

(** One step of the code for step number [it.1] of the RFC. *)
Definition code_fn (i : Z) : Z -> Z -> Z -> Z :=
  if i <? 16 then F1 else if i <? 32 then F2 else if i <? 48 then F3 else F4.
Definition code_step (it : nat * Z) : (Z -> Z -> Z -> Z) * Z * Z * Z :=
  let i := Z.of_nat it.1 in (code_fn i, Rfc1321.k i, it.2, Rfc1321.s i).

Lemma md5_steps_table : md5_steps = map code_step (imap pair Rfc1321.T).
Proof. by vm_compute. Qed.

Lemma code_fn_rfc i x y z :
  word x -> word y -> word z -> code_fn i x y z = Rfc1321.fn i x y z.
Proof.
  intros. unfold code_fn, Rfc1321.fn. repeat case_match; [by apply F1_rfc|by apply F2_rfc|done|done].
Qed.

Definition step_in_range (it : nat * Z) : bool :=
  let i := Z.of_nat it.1 in
  (0 <=? Rfc1321.k i) && (Rfc1321.k i <? 16) && (0 <? Rfc1321.s i) && (Rfc1321.s i <? 32).

Lemma MD5STEP_rfc f a b c d m t s :
  word a -> 0 < s < 32 ->
  MD5STEP f a b c d (u32 (m + t)) s = u32 (b + Rfc1321.rotl (u32 (a + f b c d + m + t)) s).
Proof.
  intros Ha Hs. unfold MD5STEP.
  assert (u32 (a + u32 (f b c d + u32 (m + t))) = u32 (a + f b c d + m + t)) as ->.
  { unfold uwrap. rewrite Zplus_mod_idemp_r, Z.add_assoc, Zplus_mod_idemp_r. f_equal. lia. }
  rewrite rotl_spec by (apply u32_word || done). f_equal. lia.
Qed.

Lemma md5_rounds_rfc w : length w = 16%nat -> forall its st,
  forallb step_in_range its = true -> words_ok st ->
  md5_rounds (map code_step its) st w = Some (foldl (Rfc1321.step w) st its) /\
  words_ok (foldl (Rfc1321.step w) st its).
Proof.
  intros Hw. induction its as [|[i t] its IH]; intros [[[a b] c] d] Hr Hok; [done|].
  cbn [forallb] in Hr. apply andb_true_iff in Hr as [Hi Hr]. unfold step_in_range in Hi. cbn [fst] in Hi.
  rewrite !andb_true_iff, Z.leb_le, !Z.ltb_lt in Hi. destruct Hok as (Ha & Hb & Hc & Hd).
  cbn [map md5_rounds code_step fst snd foldl Rfc1321.step].
  destruct (rd w (Rfc1321.k (Z.of_nat i))) as [m|] eqn:Em.
  2: { destruct (rd_is_Some w (Rfc1321.k (Z.of_nat i))) as [? ?]; [lia|congruence]. }
  osimpl. rewrite MD5STEP_rfc, code_fn_rfc by (done || lia).
  assert (nth (Z.to_nat (Rfc1321.k (Z.of_nat i))) w 0 = m) as ->.
  { unfold rd in Em. destruct (Z.ltb_spec (Rfc1321.k (Z.of_nat i)) 0); [lia|].
    by apply nth_lookup_Some. }
  apply IH; [done|]. split_and!; [done|apply u32_word|done|done].
Qed.

Lemma length_le_words n l : length (le_words n l) = n.
Proof. revert l. induction n as [|n IH]; intros l; simpl; [done|]. by rewrite IH. Qed.

Lemma MD5Transform_rfc st bl :
  words_ok st ->
  MD5Transform st (le_words 16 bl) = Some (Rfc1321.block st bl) /\ words_ok (Rfc1321.block st bl).
Proof.
  intros Hok. unfold MD5Transform, Rfc1321.block. rewrite md5_steps_table.
  destruct (md5_rounds_rfc (le_words 16 bl) (length_le_words _ _) (imap pair Rfc1321.T) st)
    as [-> _]; [by vm_compute|done|].
  destruct (foldl _ st _) as [[[a b] c] d]. destruct st as [[[a0 b0] c0] d0]. osimpl.
  split; [done|]. split_and!; apply u32_word.
Qed.

(** ** Streaming *)

#[local] Opaque MD5Transform Rfc1321.block.

Lemma blocks_ok n : forall st l, words_ok st -> words_ok (Rfc1321.blocks n st l).
Proof.
  induction n as [|n IH]; intros st l Hok; [done|]. cbn [Rfc1321.blocks].
  apply IH, MD5Transform_rfc, Hok.
Qed.

Lemma blocks_prefix n : forall st a b,
  (64 * n <= length a)%nat -> Rfc1321.blocks n st (a ++ b) = Rfc1321.blocks n st a.
Proof.
  induction n as [|n IH]; intros st a b Hl; [done|]. cbn [Rfc1321.blocks].
  rewrite take_app_le, drop_app_le by lia. apply IH. rewrite length_drop. lia.
Qed.

Lemma blocks_snoc n : forall st a b,
  length a = (64 * n)%nat -> (64 <= length b)%nat ->
  Rfc1321.blocks (S n) st (a ++ b) = Rfc1321.block (Rfc1321.blocks n st a) (take 64 b).
Proof.
  induction n as [|n IH]; intros st a b Hl Hb.
  { destruct a; [done|simpl in Hl; lia]. }
  change (Rfc1321.blocks (S (S n)) st (a ++ b))
    with (Rfc1321.blocks (S n) (Rfc1321.block st (take 64 (a ++ b))) (drop 64 (a ++ b))).
  rewrite take_app_le, drop_app_le by lia. rewrite IH by (rewrite ?length_drop; lia). done.
Qed.

(** Writing [xs] at offset [t] of a 64-byte buffer whose first [t] bytes are
    [a]: the first bytes are [a ++ xs]. *)
Lemma wr_many_prefix (l a xs : list Z) :
  take (length a) l = a -> (length a + length xs <= length l)%nat ->
  wr_many l (Z.of_nat (length a)) xs = Some (a ++ xs ++ drop (length a + length xs) l).
Proof.
  intros Ha Hl. rewrite <- (take_drop (length a) l) at 1.
  rewrite <- (take_drop (length xs) (drop (length a) l)), Ha, drop_drop.
  apply wr_many_spec. rewrite length_take, length_drop. lia.
Qed.

Lemma wr_many_0 (l xs : list Z) :
  (length xs <= length l)%nat -> wr_many l 0 xs = Some (xs ++ drop (length xs) l).
Proof. intros. exact (wr_many_prefix l [] xs eq_refl H). Qed.

(** The context has absorbed [msg]: complete blocks in [buf], the rest in
    [in], the bit count in [bits]. *)
Definition absorbed (ctx : MD5Context) (msg : list Z) : Prop :=
  let n := length msg in
  md5_buf ctx = Rfc1321.blocks (n / 64) Rfc1321.init msg /\
  length (md5_in ctx) = 64%nat /\
  take (n mod 64) (md5_in ctx) = drop (64 * (n / 64)) msg /\
  md5_bits0 ctx = u32 (8 * Z.of_nat n) /\
  md5_bits1 ctx = u32 (8 * Z.of_nat n / 2 ^ 32).

Lemma init_ok : words_ok Rfc1321.init.
Proof. by vm_compute. Qed.

Lemma absorbed_init ctx : length (md5_in ctx) = 64%nat -> absorbed (MD5Init ctx) [].
Proof. intros Hl. split_and!; done. Qed.

(** The byte count modulo 64 as the code computes it. *)
Lemma md5_offset n : Z.land (Z.shiftr (u32 (8 * Z.of_nat n)) 3) 63 = Z.of_nat (n mod 64).
Proof.
  change 63 with (Z.ones 6). rewrite Z.land_ones, Z.shiftr_div_pow2, Nat2Z.inj_mod by lia.
  change (Z.of_nat 64) with 64. wrap_lia.
Qed.

Lemma md5_bits_add n len :
  0 <= n -> 0 <= len < 2 ^ 32 ->
  let t := u32 (8 * n) in
  let b0 := u32 (t + u32 (Z.shiftl len 3)) in
  b0 = u32 (8 * (n + len)) /\
  u32 ((if b0 <? t then u32 (u32 (8 * n / 2 ^ 32) + 1) else u32 (8 * n / 2 ^ 32)) + Z.shiftr len 29) =
    u32 (8 * (n + len) / 2 ^ 32).
Proof.
  intros Hn Hl t b0. unfold b0, t. rewrite Z.shiftl_mul_pow2, Z.shiftr_div_pow2 by lia.
  change (2 ^ 3) with 8. change (2 ^ 29) with 536870912. split; [wrap_lia|].
  unfold uwrap in *. change (2 ^ 32) with 4294967296 in *.
  destruct (Z.ltb_spec ((8 * n mod 4294967296 + (len * 8) mod 4294967296) mod 4294967296)
              (8 * n mod 4294967296)); Z.div_mod_to_equations; lia.
Qed.

(** The context once the leading partial block is complete: [a] absorbed in
    whole blocks, the counters already set for the whole message. *)
Definition between (ctx : MD5Context) (a msg : list Z) : Prop :=
  length a = (64 * (length a / 64))%nat /\
  md5_buf ctx = Rfc1321.blocks (length a / 64) Rfc1321.init a /\
  length (md5_in ctx) = 64%nat /\
  md5_bits0 ctx = u32 (8 * Z.of_nat (length msg)) /\
  md5_bits1 ctx = u32 (8 * Z.of_nat (length msg) / 2 ^ 32).

Lemma blk_ok buf n : 0 <= n <= Z.of_nat (length buf) -> blk buf n = Some (take (Z.to_nat n) buf).
Proof. intros. unfold blk. zif. done. Qed.

Lemma div64_add a k : (a = 64 * (a / 64) -> (a + k) / 64 = a / 64 + k / 64)%nat.
Proof. intros. rewrite H at 1. rewrite Nat.mul_comm, Nat.div_add_l by lia. done. Qed.

(** One full block: [memcpy] into [in] and transform. *)
Lemma between_block ctx a buf msg :
  between ctx a msg -> (64 <= length buf)%nat ->
  exists st, wr_many (md5_in ctx) 0 (take 64 buf) = Some (take 64 buf) /\
    MD5Transform (md5_buf ctx) (le_words 16 (take 64 buf)) = Some st /\
    between (MkMD5 st (md5_bits0 ctx) (md5_bits1 ctx) (take 64 buf)) (a ++ take 64 buf) msg.
Proof.
  intros (Ha & Hb & Hi & H0 & H1) Hl.
  assert (length (take 64 buf) = 64%nat) as H64 by (rewrite length_take; lia).
  exists (Rfc1321.block (md5_buf ctx) (take 64 buf)). split_and!.
  - rewrite wr_many_0 by lia. rewrite drop_ge, app_nil_r by lia. done.
  - destruct (MD5Transform_rfc (md5_buf ctx) (take 64 buf)) as [-> _]; [|done].
    rewrite Hb. apply blocks_ok, init_ok.
  - unfold between. cbn [md5_buf md5_bits0 md5_bits1 md5_in].
    rewrite length_app, H64, div64_add by done. change (64 / 64)%nat with 1%nat.
    split_and!; [lia| |done|done|done]. rewrite Nat.add_1_r.
    rewrite blocks_snoc by (done || lia). rewrite Hb, take_take. done.
Qed.

Lemma MD5Update_loop_spec fuel : forall ctx a buf msg,
  between ctx a msg -> msg = a ++ buf -> (length buf <= fuel)%nat ->
  exists ctx', MD5Update_loop fuel ctx buf (Z.of_nat (length buf)) = Some ctx' /\ absorbed ctx' msg.
Proof.
  induction fuel as [|fuel IH]; intros ctx a buf msg Hbt Hmsg Hf; cbn [MD5Update_loop];
    (destruct (Z.leb_spec 64 (Z.of_nat (length buf))); [try lia|]).
  2: { rewrite blk_ok by lia. change (Z.to_nat 64) with 64%nat. osimpl.
       destruct (between_block ctx a buf msg Hbt ltac:(lia)) as (st & Hw & HT & Hbt').
       rewrite Hw. osimpl. rewrite HT. osimpl.
       replace (Z.of_nat (length buf) - 64) with (Z.of_nat (length (drop 64 buf)))
         by (rewrite length_drop; lia).
       eapply IH; [done| |rewrite length_drop; lia]. by rewrite <- app_assoc, take_drop. }
  all: rewrite blk_ok by lia; osimpl; rewrite Nat2Z.id, take_ge by done.
  all: destruct Hbt as (Ha & Hb & Hi & H0 & H1).
  all: rewrite wr_many_0 by lia; osimpl.
  all: eexists; split; [done|]; unfold absorbed; cbn [md5_buf md5_bits0 md5_bits1 md5_in].
  all: assert (length msg / 64 = length a / 64)%nat as Hdiv
         by (rewrite Hmsg, length_app, div64_add by done; rewrite (Nat.div_small (length buf)); lia).
  all: assert (length msg mod 64 = length buf)%nat as Hmod
         by (rewrite Nat.Div0.mod_eq, Hdiv, Hmsg, length_app; lia).
  all: rewrite Hdiv, Hmod, <- Ha; split_and!; [..|done|done].
  all: try (rewrite Hmsg, blocks_prefix by lia; done).
  all: try (rewrite length_app, length_drop; lia).
  all: rewrite take_app_length, Hmsg, drop_app_length; done.
Qed.

Lemma MD5Update_spec ctx msg buf :
  absorbed ctx msg -> Z.of_nat (length buf) < 2 ^ 32 ->
  exists ctx', MD5Update ctx buf (Z.of_nat (length buf)) = Some ctx' /\ absorbed ctx' (msg ++ buf).
Proof.
  intros (Hb & Hi & Ht & H0 & H1) Hl. unfold MD5Update. rewrite H0, md5_offset, H1.
  destruct (md5_bits_add (Z.of_nat (length msg)) (Z.of_nat (length buf)) ltac:(lia) ltac:(lia)) as [E0 E1].
  cbv zeta in E0, E1. rewrite E1, E0.
  replace (Z.of_nat (length msg) + Z.of_nat (length buf)) with (Z.of_nat (length (msg ++ buf)))
    by (rewrite length_app; lia).
  set (n := length msg) in *. set (q := (n / 64)%nat) in *. set (r := (n mod 64)%nat) in *.
  assert (n = 64 * q + r)%nat as Hn by apply Nat.div_mod_eq.
  assert (r < 64)%nat as Hr by (apply Nat.mod_upper_bound; lia).
  assert (length (drop (64 * q) msg) = r) as Htl by (rewrite length_drop; lia).
  pose proof (take_drop (64 * q) msg) as Hsplit.
  assert (between (MkMD5 (md5_buf ctx) (u32 (8 * Z.of_nat (length (msg ++ buf))))
    (u32 (8 * Z.of_nat (length (msg ++ buf)) / 2 ^ 32)) (md5_in ctx)) (take (64 * q) msg) (msg ++ buf)) as Hbt.
  { assert (length (take (64 * q) msg) = 64 * q)%nat as Hq by (rewrite length_take; lia).
    assert (64 * q / 64 = q)%nat as Hdq by (rewrite Nat.mul_comm; apply Nat.div_mul; lia).
    unfold between. rewrite Hq, Hdq. split_and!; [done| |done|done|done].
    cbn [md5_buf]. rewrite Hb, <- Hsplit at 1. rewrite blocks_prefix by lia. done. }
  destruct (Z.eqb_spec (Z.of_nat r) 0) as [Hr0|Hr0]; cbn [negb].
  { rewrite Nat2Z.id. eapply MD5Update_loop_spec; [exact Hbt| |lia]. rewrite take_ge by lia. done. }
  assert (forall x : list Z, (r + length x <= 64)%nat ->
    wr_many (md5_in ctx) (Z.of_nat r) x =
      Some (drop (64 * q) msg ++ x ++ drop (r + length x) (md5_in ctx))) as Hw.
  { intros x Hx. rewrite <- Htl at 1. rewrite (wr_many_prefix _ (drop (64 * q) msg) x), Htl;
      [done|by rewrite Htl|rewrite Htl; lia]. }
  destruct (Z.ltb_spec (Z.of_nat (length buf)) (64 - Z.of_nat r)) as [Hs|Hs]; rewrite blk_ok by lia; osimpl.
  - rewrite Nat2Z.id, take_ge, Hw by lia. osimpl. eexists. split; [done|].
    assert ((n + length buf) / 64 = q /\ (n + length buf) mod 64 = r + length buf)%nat as [Hq2 Hr2].
    { split; symmetry; [apply (Nat.div_unique _ 64 q (r + length buf))
                       |apply (Nat.mod_unique _ 64 q (r + length buf))]; lia. }
    unfold absorbed. cbn [md5_buf md5_in md5_bits0 md5_bits1]. rewrite length_app. fold n. rewrite Hq2, Hr2.
    split_and!; [| | |done|done].
    + rewrite Hb. by rewrite blocks_prefix by lia.
    + rewrite !length_app, Htl, length_drop. lia.
    + rewrite app_assoc, take_app_le by (rewrite length_app; lia).
      rewrite take_ge by (rewrite length_app; lia). by rewrite drop_app_le by lia.
  - set (k := Z.to_nat (64 - Z.of_nat r)) in *.
    rewrite Hw by (rewrite length_take; lia). osimpl.
    rewrite (drop_ge (md5_in ctx)), app_nil_r by (rewrite length_take; lia).
    pose (x := drop (64 * q) msg ++ take k buf). fold x.
    assert (length x = 64)%nat as Hx by (unfold x; rewrite length_app, length_take; lia).
    destruct (MD5Transform_rfc (md5_buf ctx) x) as [HT _]; [rewrite Hb; apply blocks_ok, init_ok|].
    rewrite HT. osimpl.
    destruct (between_block _ _ x _ Hbt ltac:(lia)) as (st & _ & HT' & Hbt').
    rewrite (take_ge x) in HT', Hbt' by lia. cbn [md5_buf md5_bits0 md5_bits1] in HT', Hbt'.
    assert (st = Rfc1321.block (md5_buf ctx) x) as -> by congruence.
    replace (Z.of_nat (length buf) - (64 - Z.of_nat r)) with (Z.of_nat (length (drop k buf)))
      by (rewrite length_drop; lia).
    eapply MD5Update_loop_spec; [exact Hbt'| |rewrite length_drop; lia].
    unfold x. by rewrite <- !app_assoc, (take_drop k), app_assoc, take_drop.
Qed.

Lemma md5_feed_spec chunks : forall ctx msg,
  absorbed ctx msg -> Forall (λ c, Z.of_nat (length c) < 2 ^ 32) chunks ->
  exists ctx', md5_feed ctx chunks = Some ctx' /\ absorbed ctx' (msg ++ concat chunks).
Proof.
  induction chunks as [|c cs IH]; intros ctx msg Ha Hc.
  { exists ctx. by rewrite app_nil_r. }
  apply Forall_cons_1 in Hc as [Hc Hcs]. destruct (MD5Update_spec ctx msg c Ha Hc) as (ctx1 & He & Ha1).
  cbn [md5_feed concat]. rewrite He. osimpl. rewrite app_assoc. by apply IH.
Qed.

(** The two stores of the bit count. *)
Lemma md5_store_count i P b0 b1 :
  length i = 64%nat -> take 56 i = P ->
  exists i', wr_many i 56 (le_bytes 4 b0) = Some i' /\
    wr_many i' 60 (le_bytes 4 b1) = Some (P ++ le_bytes 4 b0 ++ le_bytes 4 b1).
Proof.
  intros Hi HP. assert (length P = 56%nat) as Hl by (subst P; rewrite length_take; lia).
  change 56 with (Z.of_nat 56). change 60 with (Z.of_nat 60). rewrite <- Hl.
  rewrite (wr_many_prefix i P) by (rewrite ?length_le_bytes, ?Hl; done || lia).
  rewrite length_le_bytes, Hl. eexists. split; [done|].
  assert (length (P ++ le_bytes 4 b0) = 60)%nat as Hl2 by (rewrite length_app, length_le_bytes; lia).
  rewrite app_assoc, <- Hl2.
  rewrite wr_many_prefix by (rewrite ?take_app_length, ?length_app, ?length_drop, ?length_le_bytes; done || lia).
  rewrite length_le_bytes, Hl2, drop_ge, app_nil_r, app_assoc; [done|].
  rewrite !length_app, length_drop, length_le_bytes. lia.
Qed.

Lemma le_bytes_add n m v : le_bytes (n + m) v = le_bytes n v ++ le_bytes m (Z.shiftr v (8 * Z.of_nat n)).
Proof.
  revert v. induction n as [|n IH]; intros v; [by rewrite Z.shiftr_0_r|].
  cbn [Nat.add le_bytes app]. rewrite IH. do 3 f_equal. rewrite Z.shiftr_shiftr by lia. f_equal. lia.
Qed.

Lemma le_bytes_uwrap n v : le_bytes n (uwrap (8 * Z.of_nat n) v) = le_bytes n v.
Proof.
  revert v. induction n as [|n IH]; intros v; [done|]. cbn [le_bytes]. f_equal.
  - unfold uwrap. apply Z.bits_inj'. intros i Hi. destruct (Z.ltb_spec i 8).
    + by rewrite !Z.mod_pow2_bits_low by lia.
    + by rewrite !(Z.mod_pow2_bits_high _ 8) by lia.
  - rewrite <- (IH (Z.shiftr v 8)), <- (IH (Z.shiftr (uwrap _ v) 8)). f_equal.
    apply Z.bits_inj'. intros i Hi. rewrite !uwrap_testbit, !Z.shiftr_spec, uwrap_testbit by lia.
    destruct (Z.ltb_spec i (8 * Z.of_nat n)); [|done]. cbn [andb].
    destruct (Z.ltb_spec (i + 8) (8 * Z.of_nat (S n))); [done|lia].
Qed.

Lemma md5_count_bytes v : le_bytes 8 v = le_bytes 4 (u32 v) ++ le_bytes 4 (u32 (v / 2 ^ 32)).
Proof.
  change 8%nat with (4 + 4)%nat. rewrite le_bytes_add, Z.shiftr_div_pow2 by lia.
  rewrite <- (le_bytes_uwrap 4 v), <- (le_bytes_uwrap 4 (v / 2 ^ (8 * Z.of_nat 4))). done.
Qed.

Lemma wr_wr_many {A} (l : list A) i x : wr l i x = wr_many l i [x].
Proof. simpl. by destruct (wr l i x). Qed.

(** Padding of the last partial block [t]: one or two more blocks. *)
Definition md5_last (t : list Z) (n : Z) : list Z :=
  t ++ 128 :: replicate (if (length t <? 56)%nat then 55 - length t else 119 - length t) 0 ++ le_bytes 8 n.

Lemma md5_pad_split a t :
  length a = (64 * (length a / 64))%nat -> (length t < 64)%nat ->
  Rfc1321.pad (a ++ t) = a ++ md5_last t (8 * Z.of_nat (length (a ++ t))).
Proof.
  intros Ha Ht. unfold Rfc1321.pad, md5_last. rewrite <- app_assoc. do 4 f_equal. f_equal.
  rewrite length_app. set (q := (length a / 64)%nat) in *.
  destruct (Nat.ltb_spec (length t) 56); Z.div_mod_to_equations; lia.
Qed.

Lemma blocks_one st a L q :
  length a = (64 * q)%nat -> length L = 64%nat ->
  Rfc1321.blocks (length (a ++ L) / 64) st (a ++ L) = Rfc1321.block (Rfc1321.blocks q st a) L.
Proof.
  intros Ha HL. rewrite length_app, Ha, HL.
  replace ((64 * q + 64) / 64)%nat with (S q) by (apply (Nat.div_unique _ 64 _ 0); lia).
  rewrite blocks_snoc by (done || lia). by rewrite take_ge by lia.
Qed.

Lemma MD5Final_spec ctx msg :
  absorbed ctx msg -> exists ctx', MD5Final ctx = Some (Rfc1321.md5 msg, ctx').
Proof.
  intros (Hb & Hi & Ht & H0 & H1).
  set (n := length msg) in *. set (q := (n / 64)%nat) in *. set (r := (n mod 64)%nat) in *.
  assert (n = 64 * q + r)%nat as Hn by apply Nat.div_mod_eq.
  assert (r < 64)%nat as Hr by (apply Nat.mod_upper_bound; lia).
  set (a := take (64 * q) msg). set (t := drop (64 * q) msg) in *.
  assert (msg = a ++ t) as Hmsg by (symmetry; apply take_drop).
  assert (length a = 64 * q)%nat as Ha by (unfold a; rewrite length_take; lia).
  assert (length t = r) as Hlt by (unfold t; rewrite length_drop; lia).
  assert (64 * q / 64 = q)%nat as Hdq by (rewrite Nat.mul_comm; apply Nat.div_mul; lia).
  assert (Rfc1321.blocks q Rfc1321.init msg = Rfc1321.blocks q Rfc1321.init a) as Hba
    by (rewrite Hmsg; apply blocks_prefix; lia). rewrite Hba in Hb. clear Hba.
  assert (words_ok (md5_buf ctx)) as Hok by (rewrite Hb; apply blocks_ok, init_ok).
  assert (Rfc1321.pad msg = a ++ md5_last t (8 * Z.of_nat n)) as Hpad.
  { unfold n. rewrite Hmsg at 1. rewrite (md5_pad_split a t), <- Hmsg by (rewrite ?Ha, ?Hdq; lia). done. }
  unfold MD5Final, Rfc1321.md5. rewrite H0, md5_offset. fold r. change 63 with (64 - 1).
  rewrite wr_wr_many, <- Hlt, (wr_many_prefix _ t) by (rewrite ?Hlt; done || simpl; lia). osimpl.
  change (length [128]) with 1%nat. rewrite Hlt.
  set (i1 := t ++ [128] ++ drop (r + 1) (md5_in ctx)).
  assert (length i1 = 64%nat) as Hi1 by (unfold i1; rewrite !length_app, length_drop; simpl; lia).
  assert (forall z, (r + 1 + z <= 64)%nat -> wr_many i1 (Z.of_nat r + 1) (replicate z 0) =
            Some ((t ++ [128]) ++ replicate z 0 ++ drop (r + 1 + z) (md5_in ctx))) as Hz.
  { intros z Hle. assert (length (t ++ [128%Z]) = r + 1)%nat as Hl by (rewrite length_app; simpl; lia).
    unfold i1. rewrite app_assoc. replace (Z.of_nat r + 1) with (Z.of_nat (length (t ++ [128]))) by lia.
    rewrite wr_many_prefix; rewrite ?Hl, ?length_replicate.
    - do 3 f_equal. rewrite drop_app_ge, drop_drop, Hl by lia. f_equal. lia.
    - rewrite <- Hl. apply take_app_length.
    - rewrite length_app, length_drop. lia. }
  destruct (Z.ltb_spec (64 - 1 - Z.of_nat r) 8) as [H8|H8].
  - (* two blocks *)
    rewrite Hz by lia. osimpl. rewrite drop_ge, app_nil_r by lia.
    set (L := (t ++ [128]) ++ replicate (Z.to_nat (64 - 1 - Z.of_nat r)) 0).
    assert (length L = 64%nat) as HL by (unfold L; rewrite !length_app, length_replicate; simpl; lia).
    destruct (MD5Transform_rfc _ L Hok) as [HT HokT]. rewrite HT. osimpl.
    rewrite wr_many_0 by (rewrite length_replicate; lia). osimpl. rewrite length_replicate.
    destruct (md5_store_count (replicate 56 0 ++ drop 56 L) (replicate 56 0)
      (u32 (8 * Z.of_nat n)) (md5_bits1 ctx)) as (i2 & Hs1 & Hs2).
    { rewrite length_app, length_replicate, length_drop. lia. }
    { by rewrite take_app_le by (by rewrite length_replicate). }
    rewrite Hs1. osimpl. rewrite Hs2. osimpl. rewrite H1, <- md5_count_bytes.
    destruct (MD5Transform_rfc _ (replicate 56 0 ++ le_bytes 8 (8 * Z.of_nat n)) HokT) as [HT2 _].
    rewrite HT2. osimpl. rewrite Hpad.
    assert (md5_last t (8 * Z.of_nat n) = L ++ replicate 56 0 ++ le_bytes 8 (8 * Z.of_nat n)) as ->.
    { unfold md5_last, L. rewrite <- !app_assoc. f_equal. cbn [app]. f_equal.
      rewrite app_assoc, <- replicate_add. f_equal. destruct (Nat.ltb_spec (length t) 56); f_equal; lia. }
    rewrite app_assoc, (blocks_one _ (a ++ L) _ (S q)).
    2: { rewrite length_app. lia. }
    2: { rewrite length_app, length_replicate, length_le_bytes. lia. }
    rewrite blocks_snoc, take_ge by lia. rewrite <- Hb.
    destruct (Rfc1321.block _ (replicate 56 0 ++ _)) as [[[? ?] ?] ?]. by eexists.
  - rewrite Hz by lia. osimpl.
    set (P := (t ++ [128]) ++ replicate (Z.to_nat (64 - 1 - Z.of_nat r - 8)) 0).
    assert (length P = 56%nat) as HP by (unfold P; rewrite !length_app, length_replicate; simpl; lia).
    rewrite app_assoc. fold P.
    destruct (md5_store_count (P ++ drop (r + 1 + Z.to_nat (64 - 1 - Z.of_nat r - 8)) (md5_in ctx)) P
      (u32 (8 * Z.of_nat n)) (md5_bits1 ctx)) as (i2 & Hs1 & Hs2).
    { rewrite length_app, length_drop. lia. }
    { rewrite take_app_le by lia. by rewrite take_ge by lia. }
    rewrite Hs1. osimpl. rewrite Hs2. osimpl. rewrite H1, <- md5_count_bytes.
    destruct (MD5Transform_rfc _ (P ++ le_bytes 8 (8 * Z.of_nat n)) Hok) as [HT2 _].
    rewrite HT2. osimpl. rewrite Hpad.
    assert (md5_last t (8 * Z.of_nat n) = P ++ le_bytes 8 (8 * Z.of_nat n)) as ->.
    { unfold md5_last, P. rewrite <- !app_assoc. f_equal. cbn [app]. f_equal. f_equal.
      destruct (Nat.ltb_spec (length t) 56); f_equal; lia. }
    rewrite (blocks_one _ a _ q) by (rewrite ?length_app, ?length_le_bytes; lia). rewrite <- Hb.
    destruct (Rfc1321.block _ (P ++ _)) as [[[? ?] ?] ?]. by eexists.
Qed.

(** [C27] The digest is RFC 1321's, however the message is cut: a context of
    any previous content, initialised, fed the chunks one [MD5Update] each and
    finished, yields the MD5 of their concatenation (with the 64-bit count
    carried across the two 32-bit halves). *)
Theorem md5_correct ctx chunks :
  length (md5_in ctx) = 64%nat -> Forall (λ c, Z.of_nat (length c) < 2 ^ 32) chunks ->
  md5_chunks ctx chunks = Some (Rfc1321.md5 (concat chunks)).
Proof.
  intros Hi Hc. unfold md5_chunks.
  destruct (md5_feed_spec chunks _ [] (absorbed_init ctx Hi) Hc) as (ctx' & -> & Ha). osimpl.
  destruct (MD5Final_spec _ _ Ha) as (ctx2 & ->). done.
Qed.

#[local] Transparent MD5Transform Rfc1321.block.

(** "abc" in two pieces; the digest is the one RFC 1321 lists. *)
Lemma md5_correct_witness :
  md5_chunks (MkMD5 (1, 2, 3, 4) 5 6 (replicate 64 7)) [[97; 98]; [99]] =
    Some (Rfc1321.md5 [97; 98; 99]) /\
  Rfc1321.md5 [97; 98; 99] =
    [0x90; 0x01; 0x50; 0x98; 0x3c; 0xd2; 0x4f; 0xb0; 0xd6; 0x96; 0x3f; 0x7d; 0x28; 0xe1; 0x7f; 0x72].
Proof.
  split; [|by vm_compute].
  apply (md5_correct (MkMD5 (1, 2, 3, 4) 5 6 (replicate 64 7)) [[97; 98]; [99]]); [done|].
  repeat constructor.
Defined.
