(* ===== verification/TableDef.v ===== *)
(** * TableDef: table definitions and their exchange

    Models [src/common/tabledef.h] and [src/common/tabledef.cc]: the field
    list with its name hash chains, key layout, defaults, and the packed
    definition ([BuildInfoCache]) a client receives and verifies ([Unpack]). *)

From S2P Require Import Prelude Bitsop Value Protocol Codec Section Md5.

Definition HASHSTOP : Z := 0xFFFF.

(** [enum] of struct CFieldDefinition *)
Definition FF_READONLY : Z := 1.
Definition FF_VOLATILE : Z := 2.
Definition FF_DISCARD : Z := 4.
Definition FF_DESC : Z := 0x10.
Definition FF_TIMESTAMP : Z := 0x20.

(** ** State

    [fieldName] is the text [STRDUP] copied, without its NUL ([None]: NULL).
    [set_m v o] is the object [o] after the assignment [m = v]. *)

Record CFieldDefinition := MkField {
  fieldName : option (list Z);
  fieldSize : Z;
  fieldType : Z;
  nameLen : Z;
  offset : Z;
  flags : Z;
  boffset : Z;
  bsize : Z;
  next : Z
}.

Definition set_fieldName (v : option (list Z)) (o : CFieldDefinition) : CFieldDefinition :=
  MkField
    v (fieldSize o) (fieldType o) (nameLen o) (offset o) (flags o) (boffset o) (bsize o) (next
    o).
Definition set_fieldSize (v : Z) (o : CFieldDefinition) : CFieldDefinition :=
  MkField
    (fieldName o) v (fieldType o) (nameLen o) (offset o) (flags o) (boffset o) (bsize o) (next
    o).
Definition set_fieldType (v : Z) (o : CFieldDefinition) : CFieldDefinition :=
  MkField
    (fieldName o) (fieldSize o) v (nameLen o) (offset o) (flags o) (boffset o) (bsize o) (next
    o).
Definition set_nameLen (v : Z) (o : CFieldDefinition) : CFieldDefinition :=
  MkField
    (fieldName o) (fieldSize o) (fieldType o) v (offset o) (flags o) (boffset o) (bsize o) (next
    o).
Definition set_offset (v : Z) (o : CFieldDefinition) : CFieldDefinition :=
  MkField
    (fieldName o) (fieldSize o) (fieldType o) (nameLen o) v (flags o) (boffset o) (bsize o)
    (next o).
Definition set_flags (v : Z) (o : CFieldDefinition) : CFieldDefinition :=
  MkField
    (fieldName o) (fieldSize o) (fieldType o) (nameLen o) (offset o) v (boffset o) (bsize o)
    (next o).
Definition set_boffset (v : Z) (o : CFieldDefinition) : CFieldDefinition :=
  MkField
    (fieldName o) (fieldSize o) (fieldType o) (nameLen o) (offset o) (flags o) v (bsize o) (next
    o).
Definition set_bsize (v : Z) (o : CFieldDefinition) : CFieldDefinition :=
  MkField
    (fieldName o) (fieldSize o) (fieldType o) (nameLen o) (offset o) (flags o) (boffset o) v
    (next o).
Definition set_next (v : Z) (o : CFieldDefinition) : CFieldDefinition :=
  MkField
    (fieldName o) (fieldSize o) (fieldType o) (nameLen o) (offset o) (flags o) (boffset o)
    (bsize o) v.

Record CTableDefinition := MkTable {
  fieldList : list CFieldDefinition;
  nameHash : list Z;
  attr : CSimpleSection;
  maxFields : Z;
  usedFields : Z;
  numFields : Z;
  keyFields : Z;
  tableName : CBinary;
  tableHash : list Z;
  count : Z;
  defaultValue : option (list CValue);
  packedTableDefinition : CBinary;
  packedFullFieldSet : CBinary;
  packedFieldSet : CBinary;
  uniqFields : list Z;
  rowSize : Z;
  maxKeySize : Z;
  hasAutoInc : Z;
  hasLastacc : Z;
  hasLastmod : Z;
  hasLastcmod : Z;
  hasCompress : Z;
  keyFormat : Z;
  hasDiscard : Z;
  indexFields : Z;
  uniqFieldCnt : Z;
  keysAsUniqField : Z
}.

Definition set_fieldList (v : list CFieldDefinition) (o : CTableDefinition) : CTableDefinition :=
  MkTable
    v (nameHash o) (attr o) (maxFields o) (usedFields o) (numFields o) (keyFields o) (tableName
    o) (tableHash o) (count o) (defaultValue o) (packedTableDefinition o) (packedFullFieldSet o)
    (packedFieldSet o) (uniqFields o) (rowSize o) (maxKeySize o) (hasAutoInc o) (hasLastacc o)
    (hasLastmod o) (hasLastcmod o) (hasCompress o) (keyFormat o) (hasDiscard o) (indexFields o)
    (uniqFieldCnt o) (keysAsUniqField o).
Definition set_nameHash (v : list Z) (o : CTableDefinition) : CTableDefinition :=
  MkTable
    (fieldList o) v (attr o) (maxFields o) (usedFields o) (numFields o) (keyFields o) (tableName
    o) (tableHash o) (count o) (defaultValue o) (packedTableDefinition o) (packedFullFieldSet o)
    (packedFieldSet o) (uniqFields o) (rowSize o) (maxKeySize o) (hasAutoInc o) (hasLastacc o)
    (hasLastmod o) (hasLastcmod o) (hasCompress o) (keyFormat o) (hasDiscard o) (indexFields o)
    (uniqFieldCnt o) (keysAsUniqField o).
Definition set_attr (v : CSimpleSection) (o : CTableDefinition) : CTableDefinition :=
  MkTable
    (fieldList o) (nameHash o) v (maxFields o) (usedFields o) (numFields o) (keyFields o)
    (tableName o) (tableHash o) (count o) (defaultValue o) (packedTableDefinition o)
    (packedFullFieldSet o) (packedFieldSet o) (uniqFields o) (rowSize o) (maxKeySize o)
    (hasAutoInc o) (hasLastacc o) (hasLastmod o) (hasLastcmod o) (hasCompress o) (keyFormat o)
    (hasDiscard o) (indexFields o) (uniqFieldCnt o) (keysAsUniqField o).
Definition set_maxFields (v : Z) (o : CTableDefinition) : CTableDefinition :=
  MkTable
    (fieldList o) (nameHash o) (attr o) v (usedFields o) (numFields o) (keyFields o) (tableName
    o) (tableHash o) (count o) (defaultValue o) (packedTableDefinition o) (packedFullFieldSet o)
    (packedFieldSet o) (uniqFields o) (rowSize o) (maxKeySize o) (hasAutoInc o) (hasLastacc o)
    (hasLastmod o) (hasLastcmod o) (hasCompress o) (keyFormat o) (hasDiscard o) (indexFields o)
    (uniqFieldCnt o) (keysAsUniqField o).
Definition set_usedFields (v : Z) (o : CTableDefinition) : CTableDefinition :=
  MkTable
    (fieldList o) (nameHash o) (attr o) (maxFields o) v (numFields o) (keyFields o) (tableName
    o) (tableHash o) (count o) (defaultValue o) (packedTableDefinition o) (packedFullFieldSet o)
    (packedFieldSet o) (uniqFields o) (rowSize o) (maxKeySize o) (hasAutoInc o) (hasLastacc o)
    (hasLastmod o) (hasLastcmod o) (hasCompress o) (keyFormat o) (hasDiscard o) (indexFields o)
    (uniqFieldCnt o) (keysAsUniqField o).
Definition set_numFields (v : Z) (o : CTableDefinition) : CTableDefinition :=
  MkTable
    (fieldList o) (nameHash o) (attr o) (maxFields o) (usedFields o) v (keyFields o) (tableName
    o) (tableHash o) (count o) (defaultValue o) (packedTableDefinition o) (packedFullFieldSet o)
    (packedFieldSet o) (uniqFields o) (rowSize o) (maxKeySize o) (hasAutoInc o) (hasLastacc o)
    (hasLastmod o) (hasLastcmod o) (hasCompress o) (keyFormat o) (hasDiscard o) (indexFields o)
    (uniqFieldCnt o) (keysAsUniqField o).
Definition set_keyFields (v : Z) (o : CTableDefinition) : CTableDefinition :=
  MkTable
    (fieldList o) (nameHash o) (attr o) (maxFields o) (usedFields o) (numFields o) v (tableName
    o) (tableHash o) (count o) (defaultValue o) (packedTableDefinition o) (packedFullFieldSet o)
    (packedFieldSet o) (uniqFields o) (rowSize o) (maxKeySize o) (hasAutoInc o) (hasLastacc o)
    (hasLastmod o) (hasLastcmod o) (hasCompress o) (keyFormat o) (hasDiscard o) (indexFields o)
    (uniqFieldCnt o) (keysAsUniqField o).
Definition set_tableName (v : CBinary) (o : CTableDefinition) : CTableDefinition :=
  MkTable
    (fieldList o) (nameHash o) (attr o) (maxFields o) (usedFields o) (numFields o) (keyFields o)
    v (tableHash o) (count o) (defaultValue o) (packedTableDefinition o) (packedFullFieldSet o)
    (packedFieldSet o) (uniqFields o) (rowSize o) (maxKeySize o) (hasAutoInc o) (hasLastacc o)
    (hasLastmod o) (hasLastcmod o) (hasCompress o) (keyFormat o) (hasDiscard o) (indexFields o)
    (uniqFieldCnt o) (keysAsUniqField o).
Definition set_tableHash (v : list Z) (o : CTableDefinition) : CTableDefinition :=
  MkTable
    (fieldList o) (nameHash o) (attr o) (maxFields o) (usedFields o) (numFields o) (keyFields o)
    (tableName o) v (count o) (defaultValue o) (packedTableDefinition o) (packedFullFieldSet o)
    (packedFieldSet o) (uniqFields o) (rowSize o) (maxKeySize o) (hasAutoInc o) (hasLastacc o)
    (hasLastmod o) (hasLastcmod o) (hasCompress o) (keyFormat o) (hasDiscard o) (indexFields o)
    (uniqFieldCnt o) (keysAsUniqField o).
Definition set_count (v : Z) (o : CTableDefinition) : CTableDefinition :=
  MkTable
    (fieldList o) (nameHash o) (attr o) (maxFields o) (usedFields o) (numFields o) (keyFields o)
    (tableName o) (tableHash o) v (defaultValue o) (packedTableDefinition o) (packedFullFieldSet
    o) (packedFieldSet o) (uniqFields o) (rowSize o) (maxKeySize o) (hasAutoInc o) (hasLastacc
    o) (hasLastmod o) (hasLastcmod o) (hasCompress o) (keyFormat o) (hasDiscard o) (indexFields
    o) (uniqFieldCnt o) (keysAsUniqField o).
Definition set_defaultValue (v : option (list CValue)) (o : CTableDefinition) : CTableDefinition :=
  MkTable
    (fieldList o) (nameHash o) (attr o) (maxFields o) (usedFields o) (numFields o) (keyFields o)
    (tableName o) (tableHash o) (count o) v (packedTableDefinition o) (packedFullFieldSet o)
    (packedFieldSet o) (uniqFields o) (rowSize o) (maxKeySize o) (hasAutoInc o) (hasLastacc o)
    (hasLastmod o) (hasLastcmod o) (hasCompress o) (keyFormat o) (hasDiscard o) (indexFields o)
    (uniqFieldCnt o) (keysAsUniqField o).
Definition set_packedTableDefinition (v : CBinary) (o : CTableDefinition) : CTableDefinition :=
  MkTable
    (fieldList o) (nameHash o) (attr o) (maxFields o) (usedFields o) (numFields o) (keyFields o)
    (tableName o) (tableHash o) (count o) (defaultValue o) v (packedFullFieldSet o)
    (packedFieldSet o) (uniqFields o) (rowSize o) (maxKeySize o) (hasAutoInc o) (hasLastacc o)
    (hasLastmod o) (hasLastcmod o) (hasCompress o) (keyFormat o) (hasDiscard o) (indexFields o)
    (uniqFieldCnt o) (keysAsUniqField o).
Definition set_packedFullFieldSet (v : CBinary) (o : CTableDefinition) : CTableDefinition :=
  MkTable
    (fieldList o) (nameHash o) (attr o) (maxFields o) (usedFields o) (numFields o) (keyFields o)
    (tableName o) (tableHash o) (count o) (defaultValue o) (packedTableDefinition o) v
    (packedFieldSet o) (uniqFields o) (rowSize o) (maxKeySize o) (hasAutoInc o) (hasLastacc o)
    (hasLastmod o) (hasLastcmod o) (hasCompress o) (keyFormat o) (hasDiscard o) (indexFields o)
    (uniqFieldCnt o) (keysAsUniqField o).
Definition set_packedFieldSet (v : CBinary) (o : CTableDefinition) : CTableDefinition :=
  MkTable
    (fieldList o) (nameHash o) (attr o) (maxFields o) (usedFields o) (numFields o) (keyFields o)
    (tableName o) (tableHash o) (count o) (defaultValue o) (packedTableDefinition o)
    (packedFullFieldSet o) v (uniqFields o) (rowSize o) (maxKeySize o) (hasAutoInc o)
    (hasLastacc o) (hasLastmod o) (hasLastcmod o) (hasCompress o) (keyFormat o) (hasDiscard o)
    (indexFields o) (uniqFieldCnt o) (keysAsUniqField o).
Definition set_uniqFields (v : list Z) (o : CTableDefinition) : CTableDefinition :=
  MkTable
    (fieldList o) (nameHash o) (attr o) (maxFields o) (usedFields o) (numFields o) (keyFields o)
    (tableName o) (tableHash o) (count o) (defaultValue o) (packedTableDefinition o)
    (packedFullFieldSet o) (packedFieldSet o) v (rowSize o) (maxKeySize o) (hasAutoInc o)
    (hasLastacc o) (hasLastmod o) (hasLastcmod o) (hasCompress o) (keyFormat o) (hasDiscard o)
    (indexFields o) (uniqFieldCnt o) (keysAsUniqField o).
Definition set_rowSize (v : Z) (o : CTableDefinition) : CTableDefinition :=
  MkTable
    (fieldList o) (nameHash o) (attr o) (maxFields o) (usedFields o) (numFields o) (keyFields o)
    (tableName o) (tableHash o) (count o) (defaultValue o) (packedTableDefinition o)
    (packedFullFieldSet o) (packedFieldSet o) (uniqFields o) v (maxKeySize o) (hasAutoInc o)
    (hasLastacc o) (hasLastmod o) (hasLastcmod o) (hasCompress o) (keyFormat o) (hasDiscard o)
    (indexFields o) (uniqFieldCnt o) (keysAsUniqField o).
Definition set_maxKeySize (v : Z) (o : CTableDefinition) : CTableDefinition :=
  MkTable
    (fieldList o) (nameHash o) (attr o) (maxFields o) (usedFields o) (numFields o) (keyFields o)
    (tableName o) (tableHash o) (count o) (defaultValue o) (packedTableDefinition o)
    (packedFullFieldSet o) (packedFieldSet o) (uniqFields o) (rowSize o) v (hasAutoInc o)
    (hasLastacc o) (hasLastmod o) (hasLastcmod o) (hasCompress o) (keyFormat o) (hasDiscard o)
    (indexFields o) (uniqFieldCnt o) (keysAsUniqField o).
Definition set_hasAutoInc (v : Z) (o : CTableDefinition) : CTableDefinition :=
  MkTable
    (fieldList o) (nameHash o) (attr o) (maxFields o) (usedFields o) (numFields o) (keyFields o)
    (tableName o) (tableHash o) (count o) (defaultValue o) (packedTableDefinition o)
    (packedFullFieldSet o) (packedFieldSet o) (uniqFields o) (rowSize o) (maxKeySize o) v
    (hasLastacc o) (hasLastmod o) (hasLastcmod o) (hasCompress o) (keyFormat o) (hasDiscard o)
    (indexFields o) (uniqFieldCnt o) (keysAsUniqField o).
Definition set_hasLastacc (v : Z) (o : CTableDefinition) : CTableDefinition :=
  MkTable
    (fieldList o) (nameHash o) (attr o) (maxFields o) (usedFields o) (numFields o) (keyFields o)
    (tableName o) (tableHash o) (count o) (defaultValue o) (packedTableDefinition o)
    (packedFullFieldSet o) (packedFieldSet o) (uniqFields o) (rowSize o) (maxKeySize o)
    (hasAutoInc o) v (hasLastmod o) (hasLastcmod o) (hasCompress o) (keyFormat o) (hasDiscard o)
    (indexFields o) (uniqFieldCnt o) (keysAsUniqField o).
Definition set_hasLastmod (v : Z) (o : CTableDefinition) : CTableDefinition :=
  MkTable
    (fieldList o) (nameHash o) (attr o) (maxFields o) (usedFields o) (numFields o) (keyFields o)
    (tableName o) (tableHash o) (count o) (defaultValue o) (packedTableDefinition o)
    (packedFullFieldSet o) (packedFieldSet o) (uniqFields o) (rowSize o) (maxKeySize o)
    (hasAutoInc o) (hasLastacc o) v (hasLastcmod o) (hasCompress o) (keyFormat o) (hasDiscard o)
    (indexFields o) (uniqFieldCnt o) (keysAsUniqField o).
Definition set_hasLastcmod (v : Z) (o : CTableDefinition) : CTableDefinition :=
  MkTable
    (fieldList o) (nameHash o) (attr o) (maxFields o) (usedFields o) (numFields o) (keyFields o)
    (tableName o) (tableHash o) (count o) (defaultValue o) (packedTableDefinition o)
    (packedFullFieldSet o) (packedFieldSet o) (uniqFields o) (rowSize o) (maxKeySize o)
    (hasAutoInc o) (hasLastacc o) (hasLastmod o) v (hasCompress o) (keyFormat o) (hasDiscard o)
    (indexFields o) (uniqFieldCnt o) (keysAsUniqField o).
Definition set_hasCompress (v : Z) (o : CTableDefinition) : CTableDefinition :=
  MkTable
    (fieldList o) (nameHash o) (attr o) (maxFields o) (usedFields o) (numFields o) (keyFields o)
    (tableName o) (tableHash o) (count o) (defaultValue o) (packedTableDefinition o)
    (packedFullFieldSet o) (packedFieldSet o) (uniqFields o) (rowSize o) (maxKeySize o)
    (hasAutoInc o) (hasLastacc o) (hasLastmod o) (hasLastcmod o) v (keyFormat o) (hasDiscard o)
    (indexFields o) (uniqFieldCnt o) (keysAsUniqField o).
Definition set_keyFormat (v : Z) (o : CTableDefinition) : CTableDefinition :=
  MkTable
    (fieldList o) (nameHash o) (attr o) (maxFields o) (usedFields o) (numFields o) (keyFields o)
    (tableName o) (tableHash o) (count o) (defaultValue o) (packedTableDefinition o)
    (packedFullFieldSet o) (packedFieldSet o) (uniqFields o) (rowSize o) (maxKeySize o)
    (hasAutoInc o) (hasLastacc o) (hasLastmod o) (hasLastcmod o) (hasCompress o) v (hasDiscard
    o) (indexFields o) (uniqFieldCnt o) (keysAsUniqField o).
Definition set_hasDiscard (v : Z) (o : CTableDefinition) : CTableDefinition :=
  MkTable
    (fieldList o) (nameHash o) (attr o) (maxFields o) (usedFields o) (numFields o) (keyFields o)
    (tableName o) (tableHash o) (count o) (defaultValue o) (packedTableDefinition o)
    (packedFullFieldSet o) (packedFieldSet o) (uniqFields o) (rowSize o) (maxKeySize o)
    (hasAutoInc o) (hasLastacc o) (hasLastmod o) (hasLastcmod o) (hasCompress o) (keyFormat o) v
    (indexFields o) (uniqFieldCnt o) (keysAsUniqField o).
Definition set_indexFields (v : Z) (o : CTableDefinition) : CTableDefinition :=
  MkTable
    (fieldList o) (nameHash o) (attr o) (maxFields o) (usedFields o) (numFields o) (keyFields o)
    (tableName o) (tableHash o) (count o) (defaultValue o) (packedTableDefinition o)
    (packedFullFieldSet o) (packedFieldSet o) (uniqFields o) (rowSize o) (maxKeySize o)
    (hasAutoInc o) (hasLastacc o) (hasLastmod o) (hasLastcmod o) (hasCompress o) (keyFormat o)
    (hasDiscard o) v (uniqFieldCnt o) (keysAsUniqField o).
Definition set_uniqFieldCnt (v : Z) (o : CTableDefinition) : CTableDefinition :=
  MkTable
    (fieldList o) (nameHash o) (attr o) (maxFields o) (usedFields o) (numFields o) (keyFields o)
    (tableName o) (tableHash o) (count o) (defaultValue o) (packedTableDefinition o)
    (packedFullFieldSet o) (packedFieldSet o) (uniqFields o) (rowSize o) (maxKeySize o)
    (hasAutoInc o) (hasLastacc o) (hasLastmod o) (hasLastcmod o) (hasCompress o) (keyFormat o)
    (hasDiscard o) (indexFields o) v (keysAsUniqField o).
Definition set_keysAsUniqField (v : Z) (o : CTableDefinition) : CTableDefinition :=
  MkTable
    (fieldList o) (nameHash o) (attr o) (maxFields o) (usedFields o) (numFields o) (keyFields o)
    (tableName o) (tableHash o) (count o) (defaultValue o) (packedTableDefinition o)
    (packedFullFieldSet o) (packedFieldSet o) (uniqFields o) (rowSize o) (maxKeySize o)
    (hasAutoInc o) (hasLastacc o) (hasLastmod o) (hasLastcmod o) (hasCompress o) (keyFormat o)
    (hasDiscard o) (indexFields o) (uniqFieldCnt o) v.

(** What [calloc] leaves. *)
Definition no_field : CFieldDefinition := MkField None 0 0 0 0 0 0 0 0.

(** ** CTableAttribute *)

Definition tableAttributeDefinition : CSectionDefinition :=
  MkSectionDef Section_TableDefinition 4 (tag_table [
    DField_None; DField_Unsigned; DField_Unsigned; DField_Unsigned ]).

Definition SingleRow : Z := 1.
Definition AdminTable : Z := 2.

(** [GetTag(id) ? f(GetTag(id)->u64) : d] *)
Definition attr_tag {A} (s : CSimpleSection) (id : Z) (f : Z -> A) (d : A) : option A :=
  g ← GetTag s id; Some (match g with Some v => f (v_u64 v) | None => d end).

Definition attr_IsSingleRow (s : CSimpleSection) : option Z :=
  attr_tag s 1 (λ u, s32 (Z.land u SingleRow)) 0.
Definition attr_SetSingleRow (s : CSimpleSection) : option CSimpleSection :=
  u ← attr_tag s 1 (λ u, Z.lor u SingleRow) SingleRow; SetTag64 s 1 u.
Definition attr_IsAdminTab (s : CSimpleSection) : option Z :=
  attr_tag s 1 (λ u, s32 (Z.land u AdminTable)) 0.
Definition attr_SetAdminTab (s : CSimpleSection) : option CSimpleSection :=
  u ← attr_tag s 1 (λ u, Z.lor u AdminTable) AdminTable; SetTag64 s 1 u.
Definition KeyFieldCount (s : CSimpleSection) : option Z := attr_tag s 3 u32 0.
Definition SetKeyFieldCount (s : CSimpleSection) (n : Z) : option CSimpleSection := SetTag_u32 s 3 (u32 n).
Definition attr_CompressFieldId (s : CSimpleSection) : option Z :=
  attr_tag s 1 (λ u, Z.land (Z.shiftr u 56) 0xFF) (-1).
Definition attr_SetCompressFlag (s : CSimpleSection) (n : Z) : option CSimpleSection :=
  let tmp := Z.shiftl (Z.land (u64 n) 0xFF) 56 in
  u ← attr_tag s 1 (λ u, Z.land u tmp) tmp; SetTag64 s 1 u.

(** ** Construction *)

(** [junk]: the memory the object is built in; members the constructor does
    not initialise keep its content. *)
Definition new_table (m : Z) (junk : CTableDefinition) : CTableDefinition :=
  let o := set_nameHash (replicate 256 HASHSTOP) (set_attr (new_section tableAttributeDefinition)
    (set_maxFields m (set_usedFields 0 (set_numFields 0 (set_keyFields 0
    (set_tableName (v_str (val_SetL (MkValue 0 None) None 0)) (set_count 0 junk))))))) in
  if 0 <? m then
    set_fieldList (replicate (Z.to_nat m) no_field)
    (set_defaultValue (Some (replicate (Z.to_nat m) CValue_zero))
    (set_uniqFields (replicate (Z.to_nat m) 0)
    (set_packedTableDefinition (MkBinary 0 None) (set_packedFullFieldSet (MkBinary 0 None)
    (set_packedFieldSet (MkBinary 0 None) (set_uniqFieldCnt 0 (set_keysAsUniqField 0
    (set_hasAutoInc (-1) (set_hasLastacc (-1) (set_hasLastmod (-1) (set_hasLastcmod (-1)
    (set_hasCompress (-1) (set_keyFormat 0 (set_rowSize 0 (set_hasDiscard 0
    (set_indexFields 0 o))))))))))))))))
  else set_fieldList [] (set_defaultValue None o).

Definition INC (o : CTableDefinition) : Z * CTableDefinition :=
  match defaultValue o with
  | None => (s32 (count o + 1), set_count (s32 (count o + 1)) o)
  | Some _ => (2, o)
  end.
Definition DEC (o : CTableDefinition) : Z * CTableDefinition :=
  match defaultValue o with
  | None => (s32 (count o - 1), set_count (s32 (count o - 1)) o)
  | Some _ => (1, o)
  end.

(** ** Fields by id *)

Definition fld {A} (g : CFieldDefinition -> A) (o : CTableDefinition) (id : Z) : option A :=
  g <$> rd (fieldList o) id.

Definition FieldName := fld fieldName.
Definition FieldType := fld fieldType.
Definition FieldSize := fld fieldSize.
Definition FieldFlags := fld flags.
Definition FieldBSize := fld bsize.
Definition FieldBOffset := fld boffset.
Definition FieldOffset := fld offset.
Definition tbl_KeyName (o : CTableDefinition) := FieldName o 0.
Definition tbl_KeyType (o : CTableDefinition) := FieldType o 0.
Definition tbl_KeySize (o : CTableDefinition) := FieldSize o 0.
Definition IsReadOnly (o : CTableDefinition) (n : Z) := fld (λ f, Z.land (flags f) FF_READONLY) o n.
Definition IsVolatile (o : CTableDefinition) (n : Z) := fld (λ f, Z.land (flags f) FF_VOLATILE) o n.
Definition IsDiscard (o : CTableDefinition) (n : Z) := fld (λ f, Z.land (flags f) FF_DISCARD) o n.
Definition IsDescOrder (o : CTableDefinition) (n : Z) := fld (λ f, Z.land (flags f) FF_DESC) o n.
Definition IsTimestamp (o : CTableDefinition) (n : Z) := fld (λ f, Z.land (flags f) FF_TIMESTAMP) o n.
Definition tbl_IsSingleRow (o : CTableDefinition) := attr_IsSingleRow (attr o).
Definition tbl_IsAdminTable (o : CTableDefinition) := attr_IsAdminTab (attr o).
Definition tbl_CompressFieldId (o : CTableDefinition) := attr_CompressFieldId (attr o).
Definition RowSize (o : CTableDefinition) : Z := Z.quot (rowSize o + 7) 8.
Definition BRowSize (o : CTableDefinition) : Z := rowSize o.
Definition SetRowSize (size : Z) (o : CTableDefinition) := set_rowSize size o.

(** [for (i = KeyFields(); i <= NumFields(); ++i)] *)
Fixpoint MaxFieldSize_loop (o : CTableDefinition) (i max : Z) (n : nat) : option Z :=
  match n with
  | O => Some max
  | S n' => s ← FieldSize o i; MaxFieldSize_loop o (i + 1) (if max <? s then s else max) n'
  end.
Definition MaxFieldSize (o : CTableDefinition) : option Z :=
  MaxFieldSize_loop o (keyFields o) 0 (Z.to_nat (numFields o + 1 - keyFields o)).

Definition IsSameTable_hash (o r : CTableDefinition) : bool := bool_decide (tableHash o = tableHash r).
Definition IsSameTable_bin (o : CTableDefinition) (n : CBinary) : option bool := StringEqual (tableName o) n.
Definition IsSameTable_str (o : CTableDefinition) (n : option ptr) : option bool := StringEqualC (tableName o) n.
Definition HashEqual (o : CTableDefinition) (n : CBinary) : option bool :=
  if bin_len n =? 16 then r ← memcmp (Some (Ptr (tableHash o) 0)) (bin_ptr n) 16; Some (r =? 0)
  else Some false.

(** ** Marks *)

Definition upd_field (id : Z) (g : CFieldDefinition -> CFieldDefinition) (o : CTableDefinition)
  : option CTableDefinition :=
  f ← rd (fieldList o) id; l ← wr (fieldList o) id (g f); Some (set_fieldList l o).
Definition or_flag (m : Z) (f : CFieldDefinition) := set_flags (u8 (Z.lor (flags f) m)) f.

Definition MarkAsReadOnly (n : Z) := upd_field n (or_flag FF_READONLY).
Definition MarkAsVolatile (n : Z) := upd_field n (or_flag FF_VOLATILE).
Definition MarkAsDiscard (n : Z) (o : CTableDefinition) : option CTableDefinition :=
  o ← upd_field n (or_flag FF_DISCARD) o; Some (set_hasDiscard 1 o).
Definition MarkOrderDesc (n : Z) := upd_field n (or_flag FF_DESC).
Definition MarkOrderAsc (n : Z) := upd_field n (λ f, set_flags (u8 (Z.land (flags f) (Z.lnot FF_DESC))) f).
Definition MarkUniqField (n : Z) (o : CTableDefinition) : option CTableDefinition :=
  l ← wr (uniqFields o) (uniqFieldCnt o) (u8 n);
  Some (set_uniqFieldCnt (u8 (uniqFieldCnt o + 1)) (set_uniqFields l o)).
Definition KeyAsUniqField (o : CTableDefinition) : bool := keysAsUniqField o =? 1.
Definition SetIndexFields (n : Z) (o : CTableDefinition) := set_indexFields (s8 n) o.

Definition id_ok (n : Z) (o : CTableDefinition) : bool := (0 <=? n) && (n <=? numFields o).
Definition SetAutoIncrement (n : Z) (o : CTableDefinition) : CTableDefinition :=
  if id_ok n o then set_hasAutoInc n o else o.
(** The guard covers the first statement of the body only. *)
Definition SetLastacc (n : Z) (o : CTableDefinition) : option CTableDefinition :=
  upd_field n (or_flag FF_TIMESTAMP) (if id_ok n o then set_hasLastacc n o else o).
Definition SetLastmod (n : Z) (o : CTableDefinition) : option CTableDefinition :=
  upd_field n (or_flag FF_TIMESTAMP) (if id_ok n o then set_hasLastmod n o else o).
Definition SetLastcmod (n : Z) (o : CTableDefinition) : option CTableDefinition :=
  upd_field n (or_flag FF_TIMESTAMP) (if id_ok n o then set_hasLastcmod n o else o).
Definition tbl_upd_attr (o : CTableDefinition) (s : option CSimpleSection) : option CTableDefinition :=
  s ← s; Some (set_attr s o).
Definition tbl_SetCompressFlag (n : Z) (o : CTableDefinition) : option CTableDefinition :=
  if id_ok n o then tbl_upd_attr o (attr_SetCompressFlag (attr o) n) else Some o.
Definition tbl_SetSingleRow (o : CTableDefinition) := tbl_upd_attr o (attr_SetSingleRow (attr o)).
Definition tbl_SetAdminTable (o : CTableDefinition) := tbl_upd_attr o (attr_SetAdminTab (attr o)).

(** ** Adding and finding fields *)

Definition set_default (id : Z) (f : CValue -> CValue) (o : CTableDefinition) : option CTableDefinition :=
  match defaultValue o with
  | None => Some o
  | Some l => v ← rd l id; l ← wr l id (f v); Some (set_defaultValue (Some l) o)
  end.

(** [h = h*11 + (name[i]<<4) + (name[i]>>4)], the low byte *)
Definition name_hash (name : list Z) : Z :=
  Z.land (foldl (λ h c, u32 (h * 11 + Z.shiftl (s8 c) 4 + Z.shiftr (s8 c) 4)) 0 name) 0xFF.

(** The type switch: an error code, or the object with its default set. *)
Definition check_type (o : CTableDefinition) (id type size : Z) : option (Z * CTableDefinition) :=
  if (type =? DField_Signed) || (type =? DField_Unsigned) then
    if 8 <? size then Some (- ec EC_BAD_FIELD_SIZE, o)
    else o ← set_default id (λ v, val_SetInt v 0) o; Some (0, o)
  else if type =? DField_Float then
    if negb (size =? 8) && negb (size =? 4) then Some (- ec EC_BAD_FIELD_SIZE, o)
    else o ← set_default id (λ v, val_SetFlt v 0) o; Some (0, o)
  else if (type =? DField_String) || (type =? DField_Binary) then
    if MAXPACKETSIZE <? size then Some (- ec EC_BAD_FIELD_SIZE, o)
    else o ← set_default id (λ v, val_SetL v None 0) o; Some (0, o)
  else Some (- ec EC_BAD_FIELD_TYPE, o).

(** The field record and the list head once every check has passed;
    [layout] is the bit layout the longer overload stores. *)
Definition link_field (o : CTableDefinition) (id : Z) (name : list Z) (type size : Z)
    (layout : CFieldDefinition -> CFieldDefinition) : option CTableDefinition :=
  let h := name_hash name in
  head ← rd (nameHash o) h;
  f ← rd (fieldList o) id;
  let f := set_next head (set_flags (if id =? 0 then FF_READONLY else 0)
    (set_nameLen (u8 (Z.of_nat (length name))) (layout (set_fieldSize size (set_fieldType type
    (set_fieldName (Some name) f)))))) in
  fl ← wr (fieldList o) id f;
  nh ← wr (nameHash o) h (u16 id);
  let o := set_nameHash nh (set_fieldList fl o) in
  let o := if numFields o <? id then set_numFields id o else o in
  Some (if negb (id =? 0) then set_usedFields (usedFields o + 1) o else o).

Definition AddField_gen (layout : CFieldDefinition -> CFieldDefinition) (o : CTableDefinition)
    (id : Z) (name : option ptr) (type size : Z) : option (Z * CTableDefinition) :=
  if (id <? 0) || (MAXFIELDS_PER_TABLE <? id) || (maxFields o <=? id) then Some (- ec EC_BAD_FIELD_ID, o)
  else
    f ← rd (fieldList o) id;
    if bool_decide (is_Some (fieldName f)) then Some (- ec EC_BAD_FIELD_ID, o)
    else if size <=? 0 then Some (- ec EC_BAD_FIELD_SIZE, o)
    else
      '(rv, o) ← check_type o id type size;
      if negb (rv =? 0) then Some (rv, o)
      else
        t ← ctext name;
        let n := Z.of_nat (length t) in
        if (n =? 0) || (255 <? n) then Some (- ec EC_BAD_FIELD_NAME, o)
        else o ← link_field o id t type size layout; Some (0, o).

Definition AddField := AddField_gen (λ f, f).
Definition AddField_bits (o : CTableDefinition) (id : Z) (name : option ptr) (type size bs bo : Z) :=
  AddField_gen (λ f, set_boffset bo (set_bsize bs f)) o id name type size.
Definition tbl_SetKey (o : CTableDefinition) (name : option ptr) (type size : Z) := AddField o 0 name type size.

(** [for (id = nameHash[h]; id != HASHSTOP; id = fieldList[id].next)] *)
Fixpoint FieldId_loop (fuel : nat) (o : CTableDefinition) (id : Z) (name : option ptr) (len : Z) : option Z :=
  if id =? HASHSTOP then Some (-1)
  else match fuel with
  | O => None
  | S fuel' =>
      f ← rd (fieldList o) id;
      if negb (nameLen f =? len) then FieldId_loop fuel' o (next f) name len
      else
        t ← fieldName f;
        r ← memcmp (Some (Ptr (t ++ [0]) 0)) name (Z.to_nat len);
        if r =? 0 then Some id else FieldId_loop fuel' o (next f) name len
  end.

(** The fuel is the number of fields: a chain visits each at most once. *)
Definition FieldId (o : CTableDefinition) (name : option ptr) (len : Z) : option Z :=
  len ← (if len =? 0 then strlen name else Some len);
  nm ← read_n name (Z.to_nat len);
  id ← rd (nameHash o) (name_hash nm);
  FieldId_loop (length (fieldList o)) o id name len.

(** ** Defaults, table name *)

Definition SetDefaultValue (id : Z) (dval : CValue) (o : CTableDefinition) : option CTableDefinition :=
  match defaultValue o with
  | None => Some o
  | Some l =>
      if (id <=? 0) || (255 <? id) || (maxFields o <=? id) then Some o
      else l ← wr l id dval; Some (set_defaultValue (Some l) o)
  end.

Definition GetDefaultRow (o : CTableDefinition) (row : list CValue) : option (list CValue) :=
  match defaultValue o with
  | Some l =>
      if Z.of_nat (length l) <? 1 + numFields o then None
      else wr_many row 1 (take (Z.to_nat (numFields o)) (drop 1 l))
  | None => wr_many row 1 (replicate (Z.to_nat (numFields o)) CValue_zero)
  end.

Definition tbl_SetTableName (name : option ptr) (o : CTableDefinition) : option CTableDefinition :=
  p ← strdup name; b ← bin_Set p; Some (set_tableName b o).

(** [PackedKey]: the key starts with its length when it has no fixed format.
    [n] is [KeyFormat()]; GNU [?:] yields it when it is not 0. *)
Definition PackedKey (o : CTableDefinition) (pk : option ptr) : option CBinary :=
  l ← (if negb (keyFormat o =? 0) then Some (keyFormat o) else b ← deref pk 0; Some (b + 1));
  Some (MkBinary l pk).

(** ** Key layout *)

(** The loop over the key fields: object, [maxSize], [nvar]. *)
Fixpoint SetKeyFields_loop (o : CTableDefinition) (i maxSize nvar : Z) (n : nat)
  : option (CTableDefinition * Z * Z) :=
  match n with
  | O => Some (o, maxSize, nvar)
  | S n' =>
      o ← MarkAsReadOnly i o;
      o ← upd_field i (set_offset (u8 maxSize)) o;
      t ← FieldType o i;
      s ← FieldSize o i;
      let fixed := (t =? DField_Signed) || (t =? DField_Unsigned) || (t =? DField_Float) in
      let maxSize := if fixed then maxSize + s else 1 + s in
      let nvar := if fixed then nvar else nvar + 1 in
      let o := if negb (keysAsUniqField o =? 0) &&
                  negb (bool_decide (i ∈ take (Z.to_nat (uniqFieldCnt o)) (uniqFields o)))
               then set_keysAsUniqField 0 o else o in
      SetKeyFields_loop o (i + 1) maxSize nvar n'
  end.

Definition SetKeyFields (n : Z) (o : CTableDefinition) : option (Z * CTableDefinition) :=
  let n := if n <? 0 then 1 else n in
  if n <=? 0 then Some (0, o)
  else if 32 <? n then Some (-1, o)
  else
    let n := if numFields o + 1 <? n then numFields o + 1 else n in
    let o := set_keyFields n o in
    a ← SetKeyFieldCount (attr o) n;
    let o := set_keysAsUniqField 2 (set_attr a o) in
    '(o, maxSize, nvar) ← SetKeyFields_loop o 0 0 0 (Z.to_nat n);
    let o := if (uniqFieldCnt o =? n) && (0 <? keysAsUniqField o) then set_keysAsUniqField 1 o else o in
    if nvar =? 0 then
      if 256 <=? maxKeySize o then Some (-1, o)
      else Some (0, set_maxKeySize (u16 maxSize) (set_keyFormat (u8 maxSize) o))
    else
      if 256 + 1 <=? maxKeySize o then Some (-1, o)
      else if negb (keyFields o =? 1) then Some (-1, o)
      else Some (0, set_maxKeySize (u16 (maxSize + b2z (1 <? nvar))) (set_keyFormat 0 o)).

(** ** The packed definition *)

Section packing.
Context `{FloatText}.

(** The bytes stored from the start of an [n]-byte block: a store past its
    end is undefined. *)
Definition in_block (n : Z) (l : list Z) : option (list Z) :=
  if Z.of_nat (length l) <=? n then Some l else None.

(** [for(int i=a; i<=numFields; i++)] over the fields that have a name. *)
Fixpoint named_fields (o : CTableDefinition) (i : Z) (n : nat) : option (list (Z * CFieldDefinition)) :=
  match n with
  | O => Some []
  | S n' =>
      f ← rd (fieldList o) i;
      r ← named_fields o (i + 1) n';
      Some (if bool_decide (is_Some (fieldName f)) then (i, f) :: r else r)
  end.

Definition packed_field (x : Z * CFieldDefinition) : option (list Z) :=
  let '(i, f) := x in
  t ← fieldName f;
  nm ← read_n (Some (Ptr (t ++ [0]) 0)) (Z.to_nat (nameLen f));
  Some ([u8 i; u8 (fieldType f)] ++ EncodeLength (u32 (fieldSize f)) ++ [u8 (nameLen f)] ++ nm).

Fixpoint packed_fields (l : list (Z * CFieldDefinition)) : option (list Z) :=
  match l with
  | [] => Some []
  | x :: r => a ← packed_field x; b ← packed_fields r; Some (a ++ b)
  end.

(** The MD5 of a buffer: Init, Update, Final on a context with any content. *)
Definition md5_of (junk : MD5Context) (l : list Z) : option (list Z) := md5_chunks junk [l].

Definition BuildInfoCache (junk : MD5Context) (o : CTableDefinition) : option (Z * CTableDefinition) :=
  if numFields o <=? 0 then Some (0, o)
  else
    fs ← named_fields o 1 (Z.to_nat (numFields o));
    let ids := map (λ x : Z * CFieldDefinition, u8 x.1) fs in
    let len := 3 + Z.of_nat (length ids) in
    full ← in_block (1 + usedFields o + 2) ([u8 (len - 1 - 1); 0; 0] ++ ids);
    let o := set_packedFullFieldSet (MkBinary len (Some (Ptr full 0))) o in
    let len := 1 + Z.of_nat (length ids) in
    part ← in_block (1 + usedFields o) (u8 (len - 1) :: ids);
    let o := set_packedFieldSet (MkBinary len (Some (Ptr part 0))) o in
    f0 ← named_fields o 0 (S (Z.to_nat (numFields o)));
    let nf := Z.of_nat (length f0) in
    asz ← EncodedBytesSimpleSection (attr o) DField_None;
    let n := 16 + 1 + 1 + 1 + bin_len (tableName o) +
      foldr (λ x acc, 1 + 1 + 5 + 1 + nameLen x.2 + acc) 0 f0 + asz in
    tn ← read_n (bin_ptr (tableName o)) (Z.to_nat (bin_len (tableName o)));
    fields ← packed_fields f0;
    a ← EncodeSimpleSection (attr o) DField_None;
    body ← in_block (n - 16)
      ([1; u8 (bin_len (tableName o))] ++ tn ++ [u8 nf] ++ fields ++ a);
    h ← md5_of junk body;
    let def := MkBinary (16 + Z.of_nat (length body)) (Some (Ptr (h ++ body) 0)) in
    Some (0, set_tableHash h (set_packedTableDefinition def o)).

(** [for(int i=0; i<nf; i++)] of [Unpack] *)
Fixpoint Unpack_fields (n : nat) (b : CBinary) (o : CTableDefinition)
  : option (Z * CBinary * CTableDefinition) :=
  match n with
  | O => Some (0, b, o)
  | S n' =>
      if bin_lt b 5 then Some (- ec EC_BAD_SECTION_LENGTH, b, o)
      else
        id ← bin_deref b; let b := bin_incr b in
        type ← bin_deref b; let b := bin_incr b in
        '(rv, b, size) ← DecodeLength b 0;
        if negb (rv =? 0) then Some (rv, b, o)
        else if bin_lt b 2 then Some (- ec EC_BAD_SECTION_LENGTH, b, o)
        else
          n ← bin_deref b; let b := bin_incr b in
          if (n =? 0) || bin_lt b n then Some (- ec EC_BAD_SECTION_LENGTH, b, o)
          else
            nm ← read_n (bin_ptr b) (Z.to_nat n);
            let b := bin_advance b n in
            '(rv, o) ← AddField o id (Some (Ptr (nm ++ [0]) 0)) type (s32 size);
            if negb (rv =? 0) then Some (rv, b, o) else Unpack_fields n' b o
  end.

Definition Unpack (junk : MD5Context) (o : CTableDefinition) (p : option ptr) (len : Z)
  : option (Z * CTableDefinition) :=
  if negb (numFields o =? 0) || negb (maxFields o =? 0) then Some (- ec EC_TABLE_REDEFINED, o)
  else
    let b := MkBinary len p in
    if bin_lt b 24 then Some (- ec EC_BAD_SECTION_LENGTH, o)
    else
      body ← read_n (padd p 16) (Z.to_nat (len - 16));
      h ← md5_of junk body;
      r ← memcmp (Some (Ptr h 0)) p 16;
      if negb (r =? 0) then Some (- ec EC_VERSION_MISMATCH, o)
      else
        hp ← read_n p 16;
        let o := set_tableHash hp o in
        let b := bin_advance b 16 in
        n ← bin_deref b; let b := bin_incr b in
        if negb (n =? 1) then Some (- ec EC_VERSION_MISMATCH, o)
        else
          n ← bin_deref b; let b := bin_incr b in
          if (n =? 0) || bin_lt b (n + 1) then Some (- ec EC_BAD_SECTION_LENGTH, o)
          else
            tn ← read_n (bin_ptr b) (Z.to_nat n);
            let o := set_tableName (MkBinary n (Some (Ptr (tn ++ [0]) 0))) o in
            let b := bin_advance b n in
            nf ← bin_deref b; let b := bin_incr b in
            if nf =? 0 then Some (- ec EC_BAD_SECTION_LENGTH, o)
            else
              let o := set_fieldList (replicate (Z.to_nat nf) no_field) (set_maxFields nf o) in
              '(rv, b, o) ← Unpack_fields (Z.to_nat nf) b o;
              if negb (rv =? 0) then Some (rv, o)
              else
                '(rv, _, a) ← DecodeSimpleSection b (attr o) DField_None;
                Some (rv, set_attr a o).

End packing.

(** ** The name index *)

(** The list of ids a hash chain visits. *)
Inductive chain (fl : list CFieldDefinition) : Z -> list Z -> Prop :=
  | chain_stop : chain fl HASHSTOP []
  | chain_field id f ids :
      id <> HASHSTOP -> rd fl id = Some f -> chain fl (next f) ids -> chain fl id (id :: ids).

(** Field [id] is called [t]. *)
Definition named (fl : list CFieldDefinition) (id : Z) (t : list Z) : Prop :=
  exists f, rd fl id = Some f /\ fieldName f = Some t.

(** Names are non-empty C strings of at most 255 bytes; bucket [h] chains
    exactly the fields whose name hashes to [h], each once. *)
Definition tbl_ok (o : CTableDefinition) : Prop :=
  length (nameHash o) = 256%nat /\
  Z.of_nat (length (fieldList o)) = maxFields o /\
  (forall l, defaultValue o = Some l -> length l = length (fieldList o)) /\
  (forall id f t, rd (fieldList o) id = Some f -> fieldName f = Some t ->
     nameLen f = Z.of_nat (length t) /\ 0 < nameLen f <= 255 /\ id <= MAXFIELDS_PER_TABLE) /\
  (forall h, 0 <= h < 256 -> exists head ids, rd (nameHash o) h = Some head /\
     chain (fieldList o) head ids /\ NoDup ids /\
     forall id, id ∈ ids <-> exists t, named (fieldList o) id t /\ name_hash t = h).

Lemma name_hash_range t : 0 <= name_hash t < 256.
Proof.
  unfold name_hash. change 0xFF with (Z.ones 8). rewrite Z.land_ones by lia. apply Z.mod_pos_bound. lia.
Qed.

(** A table without fields. *)
Lemma tbl_ok_blank o :
  nameHash o = replicate 256 HASHSTOP -> Z.of_nat (length (fieldList o)) = maxFields o ->
  (forall l, defaultValue o = Some l -> length l = length (fieldList o)) ->
  (forall id f, rd (fieldList o) id = Some f -> fieldName f = None) -> tbl_ok o.
Proof.
  intros Hnh Hl Hd Hfl. split_and!; [by rewrite Hnh|done|done| |].
  - intros id f t Hf Ht. rewrite (Hfl _ _ Hf) in Ht. done.
  - intros h Hh. exists HASHSTOP, []. rewrite Hnh. split_and!; [|constructor|constructor|].
    + unfold rd. zif. apply lookup_replicate. split; [done|lia].
    + intros id. split; [by intros ?%elem_of_nil|]. intros (t & (f & Hf & Hn) & _).
      rewrite (Hfl _ _ Hf) in Hn. done.
Qed.

Lemma blank_fields n id f : rd (replicate n no_field) id = Some f -> fieldName f = None.
Proof. unfold rd. destruct (id <? 0); [done|]. by intros [-> _]%lookup_replicate. Qed.

Lemma new_table_ok m junk : 0 <= m -> tbl_ok (new_table m junk).
Proof.
  intros Hm. unfold new_table. destruct (Z.ltb_spec 0 m); apply tbl_ok_blank; cbn; try done; try lia.
  - rewrite length_replicate. lia.
  - intros l [= <-]. by rewrite !length_replicate.
  - apply blank_fields.
  - intros id f. unfold rd. by destruct (id <? 0).
Qed.

(** Ids of a chain are field numbers, so a chain is no longer than the list. *)
Lemma chain_ids fl head ids : chain fl head ids -> Forall (λ id, 0 <= id < Z.of_nat (length fl)) ids.
Proof.
  induction 1 as [|id f ids Hne Hf Hc IH]; constructor; [|done]. by apply rd_Some_lt in Hf.
Qed.

Lemma chain_short fl head ids :
  chain fl head ids -> NoDup ids -> (length ids <= length fl)%nat.
Proof.
  intros Hc Hnd. apply chain_ids in Hc.
  assert (length ids <= length (seqZ 0 (Z.of_nat (length fl))))%nat as Hle.
  { apply submseteq_length, NoDup_submseteq; [done|]. intros x Hx.
    apply elem_of_seqZ. rewrite Forall_forall in Hc. specialize (Hc x Hx). lia. }
  by rewrite length_seqZ, Nat2Z.id in Hle.
Qed.

Lemma chain_insert fl fl' head ids id0 :
  chain fl head ids -> id0 ∉ ids -> (forall j, j <> id0 -> rd fl' j = rd fl j) -> chain fl' head ids.
Proof.
  induction 1 as [|id f ids Hne Hf Hc IH]; intros Hni Hsame; [constructor|].
  apply not_elem_of_cons in Hni as [Hn Hni]. econstructor; [done| |by apply IH].
  rewrite Hsame by done. done.
Qed.

(** The search of a chain for a name. *)
Lemma FieldId_loop_spec o name nm ids : forall fuel head,
  tbl_ok o -> chain (fieldList o) head ids -> (length ids <= fuel)%nat ->
  (forall id, id ∈ ids -> exists t, named (fieldList o) id t) ->
  holds name nm ->
  exists r, FieldId_loop fuel o head name (Z.of_nat (length nm)) = Some r /\
    ((r = -1 /\ forall id, id ∈ ids -> ~ named (fieldList o) id nm) \/
     (r ∈ ids /\ named (fieldList o) r nm)).
Proof.
  induction ids as [|id ids IH]; intros fuel head Hok Hc Hf Hall Hnm; inversion Hc as [|? f ? Hne Hrd Hc2]; subst.
  { exists (-1). split; [by destruct fuel|]. left. split; [done|]. by intros ? ?%elem_of_nil. }
  destruct fuel as [|fuel]; [simpl in Hf; lia|]. cbn [FieldId_loop].
  destruct (Z.eqb_spec id HASHSTOP); [done|]. rewrite Hrd. osimpl.
  destruct (Hall id ltac:(by left)) as (t & f' & Hrd' & Ht). assert (f' = f) as -> by congruence.
  pose proof Hok as (_ & _ & _ & Hlen & _). destruct (Hlen id f t Hrd Ht) as (Hnl & _).
  destruct (IH fuel (next f) Hok Hc2 ltac:(simpl in Hf; lia) ltac:(intros; apply Hall; by right) Hnm)
    as (r & Hr & Hcase).
  assert (t <> nm -> exists r, FieldId_loop fuel o (next f) name (Z.of_nat (length nm)) = Some r /\
    ((r = -1 /\ forall id', id' ∈ id :: ids -> ~ named (fieldList o) id' nm) \/
     (r ∈ id :: ids /\ named (fieldList o) r nm))) as Hskip.
  { intros Hneq. exists r. split; [done|]. destruct Hcase as [[-> Hno]|[Hin Hn]]; [left|right; by split; [right|]].
    split; [done|]. intros id' [->|Hin]%elem_of_cons; [|by apply Hno].
    intros (f2 & Hf2 & Hn2). congruence. }
  rewrite Hnl. destruct (Z.eqb_spec (Z.of_nat (length t)) (Z.of_nat (length nm))) as [Hl|Hl]; cbn [negb].
  2: { apply Hskip. intros ->. done. }
  rewrite Ht. osimpl. rewrite Nat2Z.id.
  assert (holds (Some (Ptr (t ++ [0]) 0)) t) as Hht by (pose proof (holds_whole (t ++ [0])) as Hw; by apply holds_app in Hw as [? _]).
  destruct (memcmp_holds _ name t nm Hht Hnm ltac:(lia)) as (c & Hcmp & Hiff).
  replace (length t) with (length nm) in Hcmp by lia. rewrite Hcmp. osimpl.
  destruct (Z.eqb_spec c 0) as [Hc0|Hc0].
  - exists id. split; [done|]. right. split; [by left|]. exists f. split; [done|]. rewrite Ht. f_equal. tauto.
  - apply Hskip. tauto.
Qed.

(** [C33] Name lookup: in every table built by the constructor and [AddField],
    [FieldId] terminates, stays inside the hash table and field list, and
    returns a field of exactly that name, or -1 when no field has it; the name
    is given with its length or as a C string. *)
Theorem FieldId_correct o name nm len :
  tbl_ok o -> holds name nm ->
  (len <> 0 /\ len = Z.of_nat (length nm) \/ len = 0 /\ strlen name = Some (Z.of_nat (length nm))) ->
  exists r, FieldId o name len = Some r /\
    ((r = -1 /\ forall id, ~ named (fieldList o) id nm) \/ named (fieldList o) r nm).
Proof.
  intros Hok Hnm Hlen. unfold FieldId.
  assert ((if len =? 0 then strlen name else Some len) = Some (Z.of_nat (length nm))) as ->.
  { destruct Hlen as [[? ->]|[-> ->]]; [by zif|done]. }
  osimpl. rewrite Nat2Z.id, (read_n_holds _ _ Hnm). osimpl.
  pose proof Hok as (_ & _ & _ & _ & Hch).
  destruct (Hch _ (name_hash_range nm)) as (head & ids & -> & Hc & Hnd & Hids). osimpl.
  destruct (FieldId_loop_spec o name nm ids (length (fieldList o)) head Hok Hc) as (r & -> & Hr); [..|done|].
  { by eapply chain_short. }
  { intros id Hin. apply Hids in Hin as (t & ? & _). by exists t. }
  exists r. split; [done|]. destruct Hr as [[-> Hno]|[_ Hn]]; [left|by right]. split; [done|].
  intros id Hn. eapply (Hno id); [|done]. apply Hids. by exists nm.
Qed.

(** A bit layout leaves the rest of the field record alone. *)
Definition layout_only (g : CFieldDefinition -> CFieldDefinition) : Prop :=
  forall f, fieldName (g f) = fieldName f /\ fieldSize (g f) = fieldSize f /\ fieldType (g f) = fieldType f.

Lemma link_field_spec o id t type size g f :
  layout_only g -> tbl_ok o -> rd (fieldList o) id = Some f -> fieldName f = None ->
  id <= MAXFIELDS_PER_TABLE -> 0 < Z.of_nat (length t) <= 255 ->
  exists o' f', link_field o id t type size g = Some o' /\ tbl_ok o' /\
    (forall j, rd (fieldList o') j = if j =? id then Some f' else rd (fieldList o) j) /\
    fieldName f' = Some t /\ fieldType f' = type /\ fieldSize f' = size /\
    numFields o' = Z.max (numFields o) id /\ attr o' = attr o /\ tableName o' = tableName o /\
    tableHash o' = tableHash o /\ maxFields o' = maxFields o /\ defaultValue o' = defaultValue o.
Proof.
  intros Hg Hok Hf Hnone H255 Hlen. pose proof Hok as (Hnh & Hfl & Hdef & Hnames & Hch).
  change MAXFIELDS_PER_TABLE with 255 in *.
  pose proof (name_hash_range t) as Hh. pose proof (rd_Some_lt _ _ _ Hf) as Hid.
  destruct (Hch _ Hh) as (head & ids & Hhead & Hc & Hnd & Hids).
  unfold link_field. rewrite Hhead. osimpl. rewrite Hf. osimpl.
  set (f' := set_next head _).
  assert (fieldName f' = Some t /\ fieldType f' = type /\ fieldSize f' = size /\ next f' = head /\
          nameLen f' = Z.of_nat (length t)) as (Ht' & Hty & Hsz & Hnx & Hnl).
  { unfold f'. cbn. destruct (Hg (set_fieldSize size (set_fieldType type (set_fieldName (Some t) f))))
      as (-> & -> & ->). split_and!; try done. apply uwrap_small. lia. }
  destruct (wr (fieldList o) id f') as [fl|] eqn:Efl; [|by rewrite wr_is_Some in Efl by lia]. osimpl.
  destruct (wr (nameHash o) (name_hash t) (u16 id)) as [nh|] eqn:Enh; [|rewrite wr_is_Some in Enh by lia; done].
  osimpl. rewrite (uwrap_small 16 id) in Enh by lia.
  assert (forall j, rd fl j = if j =? id then Some f' else rd (fieldList o) j) as Hrd.
  { intros j. rewrite (rd_wr _ _ j _ _ Efl), Z.eqb_sym. done. }
  eexists _, f'. split; [reflexivity|].
  assert (tbl_ok (set_nameHash nh (set_fieldList fl o))) as Hok'.
  { split_and!; cbn.
    - by rewrite (wr_length _ _ _ _ Enh).
    - by rewrite (wr_length _ _ _ _ Efl).
    - intros l Hl. by rewrite (wr_length _ _ _ _ Efl), (Hdef l Hl).
    - intros j g0 t0. rewrite Hrd. destruct (Z.eqb_spec j id) as [->|]; [|apply Hnames].
      intros [= <-] Ht0. assert (t0 = t) as -> by congruence. change MAXFIELDS_PER_TABLE with 255. lia.
    - intros h Hh'. rewrite (rd_wr _ _ h _ _ Enh).
      assert (forall j t0, named fl j t0 <-> (if j =? id then t0 = t else named (fieldList o) j t0)) as Hnamed.
      { intros j t0. unfold named. rewrite Hrd. destruct (Z.eqb_spec j id); [|done].
        split; [intros (? & [= <-] & ?); congruence|intros ->; by exists f']. }
      destruct (Hch h Hh') as (head2 & ids2 & Hhead2 & Hc2 & Hnd2 & Hids2).
      assert (id ∉ ids2) as Hni.
      { intros (t0 & (f0 & Hf0 & Hn0) & _)%Hids2. congruence. }
      assert (chain fl head2 ids2) as Hc2'.
      { eapply chain_insert; [done..|]. intros j Hj. rewrite Hrd. by destruct (Z.eqb_spec j id). }
      destruct (Z.eqb_spec (name_hash t) h) as [<-|Hne].
      + assert (head2 = head) as -> by congruence. exists id, (id :: ids2).
        split_and!; [done| |by constructor|].
        * econstructor; [unfold HASHSTOP; lia|by rewrite Hrd, Z.eqb_refl|by rewrite Hnx].
        * intros j. rewrite elem_of_cons, Hids2. setoid_rewrite Hnamed.
          destruct (Z.eqb_spec j id) as [->|]; [|by split; [intros [|?]|right]].
          split; [by exists t|by left].
      + exists head2, ids2. split_and!; [done..|]. intros j. rewrite Hids2. setoid_rewrite Hnamed.
        destruct (Z.eqb_spec j id) as [->|]; [|done]. split.
        * intros (t0 & (f0 & Hf0 & Hn0) & _). congruence.
        * intros (t0 & -> & ?). done. }
  change (numFields (set_nameHash nh (set_fieldList fl o))) with (numFields o).
  destruct (Z.ltb_spec (numFields o) id), (Z.eqb_spec id 0); cbn [negb];
    (split; [exact Hok'|]); split_and!; try done; cbn -[Z.max]; lia.
Qed.

(** Sizes a field of a type may have. *)
Definition type_size_ok (type size : Z) : Prop :=
  0 < size /\
  ((type = DField_Signed \/ type = DField_Unsigned) /\ size <= 8 \/
   type = DField_Float /\ (size = 8 \/ size = 4) \/
   (type = DField_String \/ type = DField_Binary) /\ size <= MAXPACKETSIZE).

(** Only default values differ. *)
Definition default_update (o o' : CTableDefinition) : Prop :=
  o' = set_defaultValue (defaultValue o') o /\ (defaultValue o = None -> defaultValue o' = None) /\
  forall l', defaultValue o' = Some l' -> exists l, defaultValue o = Some l /\ length l' = length l.

Lemma default_update_refl o : default_update o o.
Proof. split_and!; [by destruct o|done|eauto]. Qed.

Lemma default_update_ok o o' : default_update o o' -> tbl_ok o -> tbl_ok o'.
Proof.
  intros (-> & _ & Hl) (? & ? & Hd & ? & ?). split_and!; try done.
  cbn. intros l' Hl'. destruct (Hl l' Hl') as (l & El & ->). by apply Hd.
Qed.

Lemma set_default_spec id g o :
  tbl_ok o -> 0 <= id < Z.of_nat (length (fieldList o)) ->
  exists o', set_default id g o = Some o' /\ default_update o o'.
Proof.
  intros (_ & _ & Hd & _) Hid. unfold set_default.
  destruct (defaultValue o) as [l|] eqn:E; [|by exists o; split; [|apply default_update_refl]].
  specialize (Hd l eq_refl). destruct (rd_is_Some l id) as [v Hv]; [lia|]. rewrite Hv. osimpl.
  destruct (wr l id (g v)) as [l'|] eqn:Ew; [|by rewrite wr_is_Some in Ew by lia]. osimpl.
  eexists. split; [done|]. split_and!; cbn; [done|congruence|].
  intros ? [= <-]. exists l. by rewrite (wr_length _ _ _ _ Ew).
Qed.

(** The default value of a field of a type, in a slot that held [v] *)
Definition default_of (type : Z) (v : CValue) : CValue :=
  if type =? DField_Float then val_SetFlt v 0
  else if (type =? DField_String) || (type =? DField_Binary) then val_SetL v None 0 else val_SetInt v 0.

Lemma check_type_spec o id type size :
  tbl_ok o -> 0 <= id < Z.of_nat (length (fieldList o)) -> 0 < size ->
  exists rv o', check_type o id type size = Some (rv, o') /\ default_update o o' /\
    (rv = 0 <-> type_size_ok type size) /\
    (rv = 0 /\ set_default id (default_of type) o = Some o' \/ rv <> 0 /\ o' = o).
Proof.
  intros Hok Hid Hs. unfold check_type, type_size_ok, default_of, DField_Signed, DField_Unsigned, DField_Float,
    DField_String, DField_Binary, MAXPACKETSIZE.
  assert (forall (c : bool) e g (P : Prop), (c = false <-> P) -> 0 < e ->
    exists rv o', (if c then Some (- e, o) else o' ← set_default id g o; Some (0, o')) = Some (rv, o') /\
      default_update o o' /\ (rv = 0 <-> P) /\ (rv = 0 /\ set_default id g o = Some o' \/ rv <> 0 /\ o' = o)) as Hif.
  { intros c e g P HP He. destruct (set_default_spec id g o Hok Hid) as (o' & -> & Hu). osimpl. destruct c.
    - exists (- e), o. split_and!; [done|apply default_update_refl| |right; split; [lia|done]].
      split; [lia|]. intros Hp. by apply HP in Hp.
    - exists 0, o'. split_and!; [done|done| |by left]. split; [|done]. intros _. by apply HP. }
  destruct ((type =? 1) || (type =? 2)) eqn:E1.
  { rewrite (proj2 (Z.eqb_neq type 3)), (proj2 (Z.eqb_neq type 4)), (proj2 (Z.eqb_neq type 5)) by lia. apply Hif; [|done]. zcases; lia. }
  destruct (Z.eqb_spec type 3).
  { apply Hif; [|done]. zcases; lia. }
  destruct ((type =? 4) || (type =? 5)) eqn:E2.
  { apply Hif; [|done]. zcases; lia. }
  exists (- ec EC_BAD_FIELD_TYPE), o. split_and!; [done|apply default_update_refl| |by right]. cbn. lia.
Qed.

(** What a refused [AddField] leaves: the object as it was, or, when only the
    name is wrong, with the default value of the id reset. *)
Definition refused (o : CTableDefinition) (id type size rv : Z) (o' : CTableDefinition) : Prop :=
  o' = o \/ rv = - ec EC_BAD_FIELD_NAME /\ type_size_ok type size /\ set_default id (default_of type) o = Some o'.

(** A rejected [AddField]: the code returned and the untouched object. *)
Ltac failed code obj Hno :=
  exists (- ec code), obj; split; [done|]; split; [done|];
  split; [apply Hno; [|done]|split_and!; first [done | intros; cbn in *; lia | by intros; left]].

Lemma AddField_gen_spec g o id name t type size :
  layout_only g -> tbl_ok o -> ctext name = Some t ->
  exists rv o', AddField_gen g o id name type size = Some (rv, o') /\ tbl_ok o' /\
    (rv = 0 <-> 0 <= id <= MAXFIELDS_PER_TABLE /\ id < maxFields o /\
       (forall t', ~ named (fieldList o) id t') /\ type_size_ok type size /\
       0 < Z.of_nat (length t) <= 255) /\
    (rv = 0 -> exists f', fieldName f' = Some t /\ fieldType f' = type /\ fieldSize f' = size /\
       forall j, rd (fieldList o') j = if j =? id then Some f' else rd (fieldList o) j) /\
    (rv = 0 -> numFields o' = Z.max (numFields o) id /\ tableName o' = tableName o /\
       (defaultValue o = None -> defaultValue o' = None)) /\
    (rv <> 0 -> refused o id type size rv o') /\
    attr o' = attr o /\ maxFields o' = maxFields o /\ tableHash o' = tableHash o.
Proof.
  intros Hg Hok Hname. pose proof Hok as (Hnh & Hfl & Hd & Hnames & Hch). unfold AddField_gen.
  assert (forall P e, ~ P -> 0 < e -> (- e = 0 <-> P)) as Hno by (intros; split; [lia|tauto]).
  assert (0 < ec EC_BAD_FIELD_ID /\ 0 < ec EC_BAD_FIELD_SIZE /\ 0 < ec EC_BAD_FIELD_NAME) as (He1 & He2 & He3) by done.
  change MAXFIELDS_PER_TABLE with 255.
  destruct ((id <? 0) || (255 <? id) || (maxFields o <=? id)) eqn:Eid.
  { failed EC_BAD_FIELD_ID o Hno. lia. }
  assert (0 <= id <= 255 /\ id < maxFields o) as [Hid Hmax] by lia. clear Eid.
  destruct (rd_is_Some (fieldList o) id) as [f Hf]; [lia|]. rewrite Hf. osimpl.
  destruct (bool_decide_reflect (is_Some (fieldName f))) as [[t0 Ht0]|Hnone].
  { failed EC_BAD_FIELD_ID o Hno. intros (_ & _ & Hn & _). apply (Hn t0). by exists f. }
  apply eq_None_not_Some in Hnone.
  destruct (Z.leb_spec size 0).
  { failed EC_BAD_FIELD_SIZE o Hno. intros (_ & _ & _ & [? _] & _). lia. }
  destruct (check_type_spec o id type size Hok ltac:(lia) ltac:(lia)) as (rv & o1 & -> & Hu & Hrv & Hdef). osimpl.
  pose proof (default_update_ok _ _ Hu Hok) as Hok1. destruct Hu as (Ho1 & HdN & _).
  assert (fieldList o1 = fieldList o /\ nameHash o1 = nameHash o /\ attr o1 = attr o /\
    maxFields o1 = maxFields o /\ tableHash o1 = tableHash o /\ numFields o1 = numFields o /\
    tableName o1 = tableName o) as (Efl & Enh & Eat & Emf & Eth & Enf & Etn) by (rewrite Ho1; done).
  destruct (Z.eqb_spec rv 0) as [->|Hne]; cbn [negb].
  2: { exists rv, o1. split; [done|]. split; [done|].
       split; [split; [done|intros (_ & _ & _ & Ht & _); tauto]|split_and!; try done]. intros _. left. by destruct Hdef as [[? _]|[_ ?]]. }
  destruct Hdef as [[_ Hdef]|[? _]]; [|done].
  rewrite Hname. osimpl.
  destruct ((Z.of_nat (length t) =? 0) || (255 <? Z.of_nat (length t))) eqn:El.
  { exists (- ec EC_BAD_FIELD_NAME), o1. split; [done|]. split; [done|]. split; [apply Hno; [lia|done]|].
    split_and!; try done. intros _. right. tauto. }
  rewrite <- Efl in Hf.
  destruct (link_field_spec o1 id t type size g f Hg Hok1 Hf Hnone
      ltac:(unfold MAXFIELDS_PER_TABLE; lia) ltac:(lia)) as (o' & f' & -> & Hok' & Hrd & Hn & Hty & Hsz & Hnum & Ha & Htn & Hth & Hmf & Hdv). osimpl.
  exists 0, o'. split; [done|]. split; [done|]. split; [|split; [|split; [|split_and!; congruence]]].
  - split; [|done]. intros _. split; [lia|]. split; [lia|]. split; [|split; [tauto|lia]].
    intros t' (f0 & Hf0 & Hn0). congruence.
  - intros _. exists f'. split_and!; try done. by rewrite Efl in Hrd.
  - intros _. split_and!; [lia|congruence|]. intros HN. rewrite Hdv. auto.
Qed.

Lemma layout_id : layout_only (λ f, f).
Proof. done. Qed.

(** [C34] [AddField] keeps the name index consistent and accepts exactly the
    fields it should: an id that is free, at most 255 and inside the table, a
    known type with a size that fits it, and a name of 1 to 255 bytes.  When it
    succeeds the field can be found by its name and no other field changed.
    When it refuses, the object is as it was, except that a field refused for
    its name alone has already had the default value of its id reset. *)
Theorem AddField_correct o id name t type size :
  tbl_ok o -> ctext name = Some t ->
  exists rv o', AddField o id name type size = Some (rv, o') /\ tbl_ok o' /\
    (rv = 0 <-> 0 <= id <= MAXFIELDS_PER_TABLE /\ id < maxFields o /\
       (forall t', ~ named (fieldList o) id t') /\ type_size_ok type size /\
       0 < Z.of_nat (length t) <= 255) /\
    (rv = 0 -> named (fieldList o') id t /\ FieldType o' id = Some type /\ FieldSize o' id = Some size /\
       forall j, j <> id -> rd (fieldList o') j = rd (fieldList o) j) /\
    (rv <> 0 -> refused o id type size rv o').
Proof.
  intros Hok Hname.
  destruct (AddField_gen_spec _ o id name t type size layout_id Hok Hname)
    as (rv & o' & He & Hok' & Hrv & Hgood & _ & Hbad & _).
  exists rv, o'. do 3 (split; [done|]). split; [|done]. intros H0.
  destruct (Hgood H0) as (f' & Hn & Ht & Hs & Hrd).
  unfold FieldType, FieldSize, fld. rewrite !Hrd, Z.eqb_refl. cbn. split_and!; [|congruence..|].
  - exists f'. by rewrite Hrd, Z.eqb_refl.
  - intros j Hj. rewrite Hrd. by destruct (Z.eqb_spec j id).
Qed.

(** A blank object to construct tables in. *)
Definition blank_table : CTableDefinition :=
  MkTable [] [] (new_section tableAttributeDefinition) 0 0 0 0 (MkBinary 0 None) (replicate 16 0) 0 None
    (MkBinary 0 None) (MkBinary 0 None) (MkBinary 0 None) [] 0 0 0 0 0 0 0 0 0 0 0 0.

Definition cstring (l : list Z) : option ptr := Some (Ptr (l ++ [0]) 0).

Lemma cstring_holds l : holds (cstring l) l.
Proof. eapply (proj1 (holds_app _ l [0])), holds_whole. Qed.

Lemma AddField_correct_witness :
  let o := new_table 4 blank_table in
  exists rv o', AddField o 1 (cstring [97; 103; 101]) DField_Unsigned 4 = Some (rv, o') /\ tbl_ok o' /\
    (rv = 0 <-> 0 <= 1 <= MAXFIELDS_PER_TABLE /\ 1 < maxFields o /\
       (forall t', ~ named (fieldList o) 1 t') /\ type_size_ok DField_Unsigned 4 /\
       0 < Z.of_nat (length [97; 103; 101]) <= 255) /\
    (rv = 0 -> named (fieldList o') 1 [97; 103; 101] /\ FieldType o' 1 = Some DField_Unsigned /\
       FieldSize o' 1 = Some 4 /\ forall j, j <> 1 -> rd (fieldList o') j = rd (fieldList o) j) /\
    (rv <> 0 -> refused o 1 DField_Unsigned 4 rv o').
Proof.
  intros o. apply (AddField_correct o 1 (cstring [97; 103; 101]) [97; 103; 101] DField_Unsigned 4).
  - by apply new_table_ok.
  - by vm_compute.
Defined.

Lemma FieldId_correct_witness :
  let o := new_table 4 blank_table in
  exists r, FieldId o (cstring [97; 103; 101]) 0 = Some r /\
    ((r = -1 /\ forall id, ~ named (fieldList o) id [97; 103; 101]) \/ named (fieldList o) r [97; 103; 101]).
Proof.
  intros o. apply (FieldId_correct o (cstring [97; 103; 101]) [97; 103; 101] 0).
  - by apply new_table_ok.
  - apply cstring_holds.
  - right. by vm_compute.
Defined.

(** Lookup in a table with the fields "k" and "age". *)
Example FieldId_example :
  (o ← (o ← AddField (new_table 4 blank_table) 0 (cstring [107]) DField_Unsigned 4;
        o ← AddField o.2 1 (cstring [97; 103; 101]) DField_Signed 8; Some o.2);
   Some (FieldId o (cstring [97; 103; 101]) 0, FieldId o (cstring [107]) 1, FieldId o (cstring [120]) 0)) =
  Some (Some 1, Some 0, Some (-1)).
Proof. by vm_compute. Qed.

(** ** Unpacking arbitrary bytes *)

Lemma readable_read_n b n :
  readable_bin b -> 0 <= n <= bin_len b ->
  exists l, read_n (bin_ptr b) (Z.to_nat n) = Some l /\ holds (bin_ptr b) l /\ bytes l /\ Z.of_nat (length l) = n.
Proof.
  intros (l & Hb & Hh & Hl) Hn. exists (take (Z.to_nat n) l).
  assert (length (take (Z.to_nat n) l) = Z.to_nat n) as Hlen by (rewrite length_take; lia).
  assert (holds (bin_ptr b) (take (Z.to_nat n) l)) as Ht.
  { rewrite <- (take_drop (Z.to_nat n) l) in Hh. by apply holds_app in Hh as [? _]. }
  split_and!; [|done|by apply Forall_take|lia].
  pose proof (read_n_holds _ _ Ht) as Hx. by rewrite Hlen in Hx.
Qed.

Lemma md5_of_spec junk l :
  length (md5_in junk) = 64%nat -> Z.of_nat (length l) < 2 ^ 32 ->
  md5_of junk l = Some (Rfc1321.md5 l).
Proof.
  intros Hj Hl. unfold md5_of, md5_chunks.
  destruct (md5_feed_spec [l] _ [] (absorbed_init junk Hj)) as (ctx & -> & Ha).
  { by repeat constructor. }
  osimpl. destruct (MD5Final_spec _ _ Ha) as (ctx' & ->). osimpl. simpl. by rewrite app_nil_r.
Qed.

Lemma length_md5 l : length (Rfc1321.md5 l) = 16%nat.
Proof.
  unfold Rfc1321.md5. destruct (Rfc1321.blocks _ _ _) as [[[a b] c] d]. unfold md5_digest.
  by rewrite !length_app, !length_le_bytes.
Qed.

Lemma cstring_ctext l : exists t, ctext (cstring l) = Some t.
Proof.
  eexists. apply (ctext_holds _ (l ++ [0])); [apply holds_whole|]. apply elem_of_app. right. by left.
Qed.

Section unpack_safety.
Context `{FloatText}.

(** What decoding keeps of the object: its invariant and its attributes. *)
Definition unpack_inv (a : CSimpleSection) (o : CTableDefinition) : Prop := tbl_ok o /\ attr o = a.

(** The decoder stops here, [H] says how far it is. *)
Ltac stop H := do 3 eexists; split; [reflexivity|]; split; [by apply H|assumption].

Lemma Unpack_fields_safe a n : forall b o,
  readable_bin b -> bin_len b < 2 ^ 31 -> unpack_inv a o ->
  exists rv b' o', Unpack_fields n b o = Some (rv, b', o') /\ forward b b' /\ unpack_inv a o'.
Proof.
  induction n as [|n IH]; intros b o Hr Hl Ho; cbn [Unpack_fields].
  { stop forward_refl. }
  unfold bin_lt. destruct (Z.ltb_spec (bin_len b) 5).
  { stop forward_refl. }
  unfold bin_deref, bin_incr. read_byte Hr 0.
  pose proof (readable_advance b 1 Hr ltac:(lia)) as Hr1. read_byte Hr1 0.
  pose proof (readable_advance _ 1 Hr1 ltac:(lia)) as Hr2. rewrite advance_advance in Hr2 |- *.
  change (1 + 1) with 2 in *.
  destruct (DecodeLength_safe (bin_advance b 2) 0 Hr2) as (rv & b1 & size & -> & Hf1 & Hsz & _). osimpl.
  assert (forward b b1) as Hfb by (eapply forward_trans; [apply (forward_step b 2); lia|done]).
  destruct (Z.eqb_spec rv 0) as [->|]; cbn [negb].
  2: { stop Hfb. }
  pose proof (forward_readable _ _ Hr Hfb) as Hr3.
  assert (bin_len b1 < 2 ^ 31) as Hl1 by (pose proof Hfb as (k & -> & Hk); simpl in *; lia).
  destruct (Z.ltb_spec (bin_len b1) 2).
  { stop Hfb. }
  read_byte Hr3 0. pose proof (readable_advance b1 1 Hr3 ltac:(lia)) as Hr4.
  assert (forward b (bin_advance b1 1)) as Hfb1 by (eapply forward_trans; [done|apply forward_step; lia]).
  destruct (Z.eqb_spec c1 0); cbn [orb]; [stop Hfb1|].
  destruct (Z.ltb_spec (bin_len (bin_advance b1 1)) c1); [stop Hfb1|].
  destruct (readable_read_n _ c1 Hr4 ltac:(lia)) as (nm & Hrn & Hhn & Hbn & Hln). rewrite Hrn. osimpl.
  destruct (cstring_ctext nm) as [t Ht].
  destruct (AddField_gen_spec _ o c (cstring nm) t c0 (s32 size) layout_id (proj1 Ho) Ht)
    as (rv & o' & He & Hok' & _ & _ & _ & _ & Hattr & _).
  unfold AddField, cstring in *. rewrite He. osimpl.
  assert (unpack_inv a o') as Ho' by (split; [done|by rewrite Hattr; apply Ho]).
  assert (forward b (bin_advance (bin_advance b1 1) c1)) as Hfb2
    by (eapply forward_trans; [done|apply forward_step; lia]).
  destruct (Z.eqb_spec rv 0); cbn [negb].
  2: { stop Hfb2. }
  destruct (IH (bin_advance (bin_advance b1 1) c1) o') as (rv2 & b2 & o2 & -> & Hf2 & Ho2);
    [exact (forward_readable _ _ Hr Hfb2)|pose proof Hfb2 as (k & -> & Hk); simpl in *; lia|exact Ho'|].
  stop (forward_trans _ _ _ Hfb2 Hf2).
Qed.

(** [C26] Robust unpacking: on any packet bytes, [Unpack] into a fresh client
    object reads only inside the packet, never stores outside the field list
    it allocates, hash index or section, and leaves a consistent table whether
    it accepts or rejects the definition. *)
Theorem Unpack_in_bounds ctx junk p len :
  length (md5_in ctx) = 64%nat -> readable_bin (MkBinary len p) -> len < 2 ^ 31 ->
  exists rv o', Unpack ctx (new_table 0 junk) p len = Some (rv, o') /\ tbl_ok o' /\ sec_shape (attr o').
Proof.
  intros Hc Hr Hl. unfold Unpack.
  change (numFields (new_table 0 junk)) with 0. change (maxFields (new_table 0 junk)) with 0.
  cbn [Z.eqb negb orb]. unfold bin_lt. cbn [bin_len].
  pose proof (new_table_ok 0 junk ltac:(lia)) as Hok0.
  assert (sec_shape (new_section tableAttributeDefinition)) as Hsec by (apply new_section_shape; by vm_compute).
  destruct (Z.ltb_spec len 24); [do 2 eexists; split; [reflexivity|by split]|].
  pose proof (readable_advance _ 16 Hr ltac:(lia)) as Hr16.
  destruct (readable_read_n _ (len - 16) Hr16 ltac:(simpl; lia)) as (body & Hbody & _ & _ & Hbl).
  cbn [bin_ptr bin_advance] in Hbody. rewrite Hbody. osimpl. rewrite md5_of_spec by (done || lia). osimpl.
  destruct (readable_read_n _ 16 Hr ltac:(simpl; lia)) as (hp & Hhp & Hholds & _ & Hhl).
  destruct (memcmp_holds (Some (Ptr (Rfc1321.md5 body) 0)) p (Rfc1321.md5 body) hp) as (r & Hcmp & _);
    [apply holds_whole|done|rewrite length_md5; lia|].
  rewrite length_md5 in Hcmp. rewrite Hcmp. osimpl. clear Hcmp.
  destruct (Z.eqb_spec r 0); cbn [negb]; [|do 2 eexists; split; [reflexivity|by split]].
  cbn [bin_ptr] in Hhp. change (Z.to_nat 16) with 16%nat in Hhp. rewrite Hhp. osimpl.
  unfold bin_deref, bin_incr. read_byte Hr16 0.
  pose proof (readable_advance _ 1 Hr16 ltac:(lia)) as Hr17.
  destruct (Z.eqb_spec c 1); cbn [negb]; [|do 2 eexists; split; [reflexivity|by split]].
  read_byte Hr17 0. pose proof (readable_advance _ 1 Hr17 ltac:(lia)) as Hr18.
  set (b18 := bin_advance (bin_advance (bin_advance (MkBinary len p) 16) 1) 1) in *.
  assert (bin_len b18 = len - 18) as L18 by (subst b18; cbn [bin_len bin_advance]; lia). clearbody b18.
  destruct ((c0 =? 0) || (bin_len b18 <? c0 + 1)) eqn:Ec;
    [do 2 eexists; split; [reflexivity|by split]|].
  apply orb_false_iff in Ec as [Ec1 Ec2]. apply Z.eqb_neq in Ec1. apply Z.ltb_ge in Ec2.
  destruct (readable_read_n _ c0 Hr18 ltac:(lia)) as (tn & -> & _). osimpl.
  pose proof (readable_advance _ c0 Hr18 ltac:(lia)) as Hr19.
  read_byte Hr19 0. pose proof (readable_advance _ 1 Hr19 ltac:(lia)) as Hr20.
  destruct (Z.eqb_spec c1 0); [do 2 eexists; split; [reflexivity|by split]|].
  edestruct (Unpack_fields_safe (new_section tableAttributeDefinition) (Z.to_nat c1)) as
    (rv & b' & o' & -> & Hf & Hok' & Ha); [exact Hr20|cbn [bin_len bin_advance] in *; lia| |].
  { split; [|done]. apply tbl_ok_blank; cbn; [done|rewrite length_replicate; lia|done|apply blank_fields]. }
  osimpl. destruct (Z.eqb_spec rv 0); cbn [negb]; [|do 2 eexists; split; [reflexivity|by rewrite Ha]].
  assert (bin_len b' < 2 ^ 31) as Hlb by (pose proof Hf as (k & -> & Hk); cbn [bin_len bin_advance] in *; lia).
  unfold DecodeSimpleSection.
  destruct (DecodeSimpleSection_loop_safe (Z.to_nat (bin_len b')) b' (attr o') DField_None (replicate 32 0))
    as (rv2 & b2 & a2 & -> & _ & Hs2 & _); [by eapply forward_readable|done|lia|by rewrite Ha|done|].
  osimpl. do 2 eexists. split; [reflexivity|]. done.
Qed.

End unpack_safety.

(** Fourteen field bytes that do not match their digest. *)
Lemma Unpack_in_bounds_witness :
  let l := replicate 24 65 in
  exists rv o', @Unpack hex_text (MkMD5 (0, 0, 0, 0) 0 0 (replicate 64 0)) (new_table 0 blank_table)
      (Some (Ptr l 0)) 24 = Some (rv, o') /\ tbl_ok o' /\ sec_shape (attr o').
Proof.
  intros l. apply (@Unpack_in_bounds hex_text (MkMD5 (0, 0, 0, 0) 0 0 (replicate 64 0)) blank_table
    (Some (Ptr l 0)) 24); [done| |lia].
  exists l. split; [|split; [apply holds_whole|done]].
  apply Forall_forall. intros x Hx. apply elem_of_replicate in Hx as [-> _]. unfold is_byte. lia.
Defined.

(** ** Pack and unpack *)

(** A field that can travel: [i] fits the receiver's list of [mf] fields. *)
Definition field_ok (mf : Z) (x : Z * CFieldDefinition) : Prop :=
  0 <= x.1 <= MAXFIELDS_PER_TABLE /\ x.1 < mf /\ type_size_ok (fieldType x.2) (fieldSize x.2) /\
  exists t, fieldName x.2 = Some t /\ nameLen x.2 = Z.of_nat (length t) /\ 0 < nameLen x.2 <= 255 /\ 0 ∉ t.

(** The same field as the receiver sees it. *)
Definition same_field (f g : CFieldDefinition) : Prop :=
  fieldName g = fieldName f /\ fieldType g = fieldType f /\ fieldSize g = fieldSize f.

Lemma type_size_range type size :
  type_size_ok type size -> 0 < type < 6 /\ 0 < size <= MAXPACKETSIZE.
Proof.
  unfold type_size_ok, DField_Signed, DField_Unsigned, DField_Float, DField_String, DField_Binary.
  change MAXPACKETSIZE with 67108864. lia.
Qed.

Lemma packed_field_ok mf x :
  field_ok mf x -> exists t, fieldName x.2 = Some t /\ nameLen x.2 = Z.of_nat (length t) /\ (0 ∉ t) /\
    packed_field x = Some ([x.1; fieldType x.2] ++ EncodeLength (fieldSize x.2) ++
      [Z.of_nat (length t)] ++ t).
Proof.
  destruct x as [i f]. intros (Hi & _ & Hts & t & Ht & Hnl & Hlen & Hn0). cbn [fst snd] in *.
  destruct (type_size_range _ _ Hts) as [Hty Hsz].
  change MAXFIELDS_PER_TABLE with 255 in *. change MAXPACKETSIZE with 67108864 in *. exists t. split_and!; try done.
  unfold packed_field. rewrite Ht. osimpl. rewrite Hnl, Nat2Z.id.
  rewrite (read_n_holds (Some (Ptr (t ++ [0]) 0)) t (cstring_holds t)). osimpl.
  rewrite !uwrap_small by lia. done.
Qed.

Lemma ctext_cstring t : 0 ∉ t -> ctext (cstring t) = Some t.
Proof.
  intros Hn. rewrite (ctext_holds _ (t ++ [0])); [|apply holds_whole|apply elem_of_app; right; by left].
  f_equal. by apply cstr_no_nul.
Qed.

Lemma packed_field_size mf x e :
  field_ok mf x -> packed_field x = Some e -> 5 <= Z.of_nat (length e) <= 8 + nameLen x.2.
Proof.
  intros Hok He. destruct (packed_field_ok mf x Hok) as (t & Ht & Hnl & _ & Hp).
  assert (e = [x.1; fieldType x.2] ++ EncodeLength (fieldSize x.2) ++ [Z.of_nat (length t)] ++ t) as -> by congruence.
  destruct Hok as (_ & _ & Hts & ? & _ & _ & Hl & _).
  destruct (type_size_range _ _ Hts) as [_ Hsz].
  rewrite !length_app, !Nat2Z.inj_add, EncodeLength_size by lia. cbn [length].
  unfold EncodedBytesLength. zifs; lia.
Qed.

(** One turn of the receiver's loop on the bytes of one field. *)
Lemma Unpack_step mf n x e p len c :
  field_ok mf x -> packed_field x = Some e -> holds p e -> Z.of_nat (length e) <= len ->
  exists t, fieldName x.2 = Some t /\ (0 ∉ t) /\
  Unpack_fields (S n) (MkBinary len p) c =
    ('(rv, c) ← AddField c x.1 (cstring t) (fieldType x.2) (fieldSize x.2);
     let b := bin_advance (MkBinary len p) (Z.of_nat (length e)) in
     if negb (rv =? 0) then Some (rv, b, c) else Unpack_fields n b c).
Proof.
  intros Hok He Hh Hlen. destruct (packed_field_ok mf x Hok) as (t & Ht & Hnl & Hn0 & Hp).
  pose proof (packed_field_size mf x e Hok He) as He5.
  destruct Hok as (Hi & _ & Hts & ? & _ & _ & Hl & _). destruct (type_size_range _ _ Hts) as [Hty Hsz].
  exists t. split; [done|]. split; [done|].
  assert (e = [x.1; fieldType x.2] ++ EncodeLength (fieldSize x.2) ++ [Z.of_nat (length t)] ++ t) as E by congruence.
  set (k := EncodedBytesLength (fieldSize x.2)).
  assert (Z.of_nat (length e) = 2 + k + 1 + Z.of_nat (length t)) as Hel.
  { rewrite E, !length_app, !Nat2Z.inj_add, EncodeLength_size by lia. cbn [length]. lia. }
  rewrite E in Hh. cbn [app] in Hh. apply holds_cons in Hh as [H0 Hh]. apply holds_cons in Hh as [H1 Hh].
  apply holds_app in Hh as [H2 Hh]. rewrite EncodeLength_size in Hh by lia. fold k in Hh.
  apply holds_cons in Hh as [H3 Hh]. rewrite !padd_padd in *.
  replace (1 + (1 + k)) with (2 + k) in H3 by lia.
  replace (1 + (1 + (k + 1))) with (2 + (k + 1)) in Hh by lia.
  assert (0 < k) by (unfold k, EncodedBytesLength; zifs; lia).
  cbn [Unpack_fields]. unfold bin_lt, bin_deref, bin_incr, bin_advance. cbn [bin_len bin_ptr]. zif.
  rewrite H0. osimpl. rewrite H1. osimpl. rewrite padd_padd.
  rewrite (DecodeLength_EncodeLength (fieldSize x.2)); [|change MAXPACKETSIZE with 67108864 in *; lia|done|lia].
  change (1 + 1) with 2. fold k. unfold bin_advance. cbn [bin_len bin_ptr]. osimpl.
  destruct (Z.ltb_spec MAXPACKETSIZE (fieldSize x.2)); [lia|]. cbn [Z.eqb negb bin_len bin_ptr]. zif.
  rewrite !padd_padd, H3. osimpl.
  destruct ((Z.of_nat (length t) =? 0) || (len - 1 - 1 - k - 1 <? Z.of_nat (length t))) eqn:Eb; [lia|].
  rewrite !padd_padd, Nat2Z.id, (read_n_holds _ t Hh). osimpl.
  replace (len - 1 - 1 - k - 1 - Z.of_nat (length t)) with (len - Z.of_nat (length e)) by lia.
  replace (2 + (k + 1) + Z.of_nat (length t)) with (Z.of_nat (length e)) by lia.
  rewrite swrap_small by (change MAXPACKETSIZE with 67108864 in *; lia). done.
Qed.

(** The receiver after the fields [l]: they are there, nothing else moved. *)
Definition received (l : list (Z * CFieldDefinition)) (c c' : CTableDefinition) : Prop :=
  tbl_ok c' /\ defaultValue c' = None /\ attr c' = attr c /\ tableName c' = tableName c /\
  tableHash c' = tableHash c /\ maxFields c' = maxFields c /\
  (forall x, x ∈ l -> exists g, rd (fieldList c') x.1 = Some g /\ same_field x.2 g) /\
  (forall j, j ∉ map fst l -> rd (fieldList c') j = rd (fieldList c) j) /\
  (forall x, x ∈ l -> x.1 <= numFields c') /\ numFields c <= numFields c' /\
  (forall m, numFields c <= m -> (forall x, x ∈ l -> x.1 <= m) -> numFields c' <= m).

Lemma received_nil c : tbl_ok c -> defaultValue c = None -> received [] c c.
Proof.
  intros Hok Hd. unfold received. split; [exact Hok|]. split_and!; try done.
  all: intros x Hx; by apply elem_of_nil in Hx.
Qed.

Lemma received_cons i f l c c1 c' :
  i ∉ map fst l ->
  (exists g, fieldName g = fieldName f /\ fieldType g = fieldType f /\ fieldSize g = fieldSize f /\
     forall j, rd (fieldList c1) j = if j =? i then Some g else rd (fieldList c) j) ->
  attr c1 = attr c -> tableName c1 = tableName c -> tableHash c1 = tableHash c ->
  maxFields c1 = maxFields c -> numFields c1 = Z.max (numFields c) i ->
  received l c1 c' -> received ((i, f) :: l) c c'.
Proof.
  intros Hni (g & Hn & Ht & Hs & Hrd) Ha Htn Hth Hm Hnum
    (Hok & Hd & Ha' & Htn' & Hth' & Hm' & Hin & Hout & Hle & Hge & Hmax).
  unfold received. split; [exact Hok|]. split_and!; try congruence; try lia.
  - intros x [->|Hx]%elem_of_cons; [|by apply Hin]. cbn [fst snd].
    exists g. rewrite Hout by done. rewrite Hrd, Z.eqb_refl. done.
  - intros j Hj. cbn [map fst] in Hj. apply not_elem_of_cons in Hj as [Hji Hj].
    rewrite Hout by done. rewrite Hrd. by destruct (Z.eqb_spec j i).
  - intros x [->|Hx]%elem_of_cons; [cbn [fst]; lia|by apply Hle].
  - intros m Hcm Hall. apply Hmax.
    + specialize (Hall (i, f) ltac:(by left)). cbn [fst] in Hall. lia.
    + intros x Hx. apply Hall. by right.
Qed.

Lemma Unpack_fields_roundtrip l : forall e p len c,
  Forall (field_ok (maxFields c)) l -> NoDup (map fst l) ->
  (forall x t, x ∈ l -> ~ named (fieldList c) x.1 t) ->
  packed_fields l = Some e -> holds p e -> Z.of_nat (length e) <= len ->
  tbl_ok c -> defaultValue c = None ->
  exists c', Unpack_fields (length l) (MkBinary len p) c =
    Some (0, bin_advance (MkBinary len p) (Z.of_nat (length e)), c') /\ received l c c'.
Proof.
  induction l as [|[i f] l IH]; intros e p len c Hall Hnd Hfresh He Hh Hlen Hok Hd.
  { simpl in He. simplify_eq. exists c. split; [|by apply received_nil].
    cbn [length Unpack_fields Z.of_nat]. unfold bin_advance. cbn [bin_len bin_ptr]. by rewrite padd_0, Z.sub_0_r. }
  apply Forall_cons_1 in Hall as [Hf Hall]. cbn [map fst] in Hnd. apply NoDup_cons in Hnd as [Hni Hnd].
  cbn [packed_fields] in He. destruct (packed_field (i, f)) as [a|] eqn:Ea; [|done].
  destruct (packed_fields l) as [r|] eqn:Er; [|done]. cbn [mbind option_bind] in He.
  injection He as <-. apply holds_app in Hh as [Ha Hr]. rewrite length_app in Hlen |- *.
  destruct (Unpack_step _ (length l) (i, f) a p len c Hf Ea Ha ltac:(lia)) as (t & Ht & Hn0 & Hstep).
  cbn [length]. rewrite Hstep. cbn [fst snd] in *.
  destruct (AddField_gen_spec _ c i (cstring t) t (fieldType f) (fieldSize f) layout_id Hok
    (ctext_cstring t Hn0)) as (rv & c1 & Hadd & Hok1 & Hrv & Hgood & Hmore & _ & Hat & Hmf & Hth).
  unfold AddField. rewrite Hadd. osimpl.
  assert (rv = 0) as ->.
  { apply Hrv. destruct Hf as (Hi & Him & Hts & t' & Ht' & Hnl & Hl & _). cbn [fst snd] in *.
    assert (t' = t) as -> by congruence. split; [done|]. split; [done|].
    split; [|split; [done|lia]]. intros t0. exact (Hfresh (i, f) t0 ltac:(by left)). }
  cbn [Z.eqb negb]. destruct (Hgood eq_refl) as (g & Hgn & Hgt & Hgs & Hrd).
  destruct (Hmore eq_refl) as (Hnum & Htn & HdN).
  destruct (IH r (padd p (Z.of_nat (length a))) (len - Z.of_nat (length a)) c1) as (c' & Hc' & Hrec).
  - by rewrite Hmf.
  - done.
  - intros x t0 Hx (f0 & Hf0 & Hn). rewrite Hrd in Hf0. destruct (Z.eqb_spec x.1 i) as [E|].
    + apply Hni. rewrite <- E. apply list_elem_of_In, in_map, list_elem_of_In, Hx.
    + eapply (Hfresh x t0); [by right|by exists f0].
  - done.
  - done.
  - lia.
  - done.
  - auto.
  - exists c'. split.
    + unfold bin_advance in *. cbn [bin_len bin_ptr] in *. rewrite Hc', padd_padd. feq.
    + eapply received_cons; eauto. exists g. split_and!; congruence || done.
Qed.

(** A run of fields that all have a name. *)
Lemma named_fields_all mf o n : forall a,
  (forall i, a <= i < a + Z.of_nat n -> exists f, rd (fieldList o) i = Some f /\ field_ok mf (i, f)) ->
  exists l, named_fields o a n = Some l /\ map fst l = seqZ a (Z.of_nat n) /\ Forall (field_ok mf) l /\
    Forall (λ x, rd (fieldList o) x.1 = Some x.2) l.
Proof.
  induction n as [|n IH]; intros a Hall; cbn [named_fields].
  { by exists []. }
  destruct (Hall a ltac:(lia)) as (f & Hf & Hok).
  destruct (IH (a + 1)) as (l & Hl & Hids & Hoks & Hrds); [intros; apply Hall; lia|].
  exists ((a, f) :: l). rewrite Hf. osimpl. rewrite Hl. osimpl.
  pose proof Hok as (_ & _ & _ & t & Ht & _). cbn [snd] in Ht.
  rewrite bool_decide_eq_true_2 by (rewrite Ht; by eexists).
  split; [done|]. split; [|by split; constructor]. cbn [map fst]. rewrite Hids.
  rewrite (seqZ_cons a) by lia. do 2 f_equal; lia.
Qed.

Lemma packed_fields_all mf l :
  Forall (field_ok mf) l -> exists e, packed_fields l = Some e /\
    5 * Z.of_nat (length l) <= Z.of_nat (length e) /\
    Z.of_nat (length e) <= foldr (λ x acc, 1 + 1 + 5 + 1 + nameLen x.2 + acc) 0 l <= 263 * Z.of_nat (length l).
Proof.
  induction 1 as [|x l Hx Hl (e & He & Hlo & Hhi)]; [exists []; simpl; split; [done|lia]|].
  destruct (packed_field_ok mf x Hx) as (t & _ & _ & _ & Hp).
  pose proof (packed_field_size mf x _ Hx Hp) as Hsz. destruct Hx as (_ & _ & _ & ? & _ & _ & Hln & _).
  cbn [packed_fields foldr]. rewrite Hp, He. osimpl. eexists. split; [done|].
  rewrite length_app. cbn [length]. lia.
Qed.

Lemma in_block_ok n l : Z.of_nat (length l) <= n -> in_block n l = Some l.
Proof. intros. unfold in_block. by zif. Qed.

(** Attribute sections are short: their tags are integers. *)
Definition int_tags (d : CSectionDefinition) : bool :=
  forallb (λ i : nat, match tagType d !! i with Some t => t <=? 2 | None => false end) (seq 0 256).

Section attr_size.
Context `{FloatTextLaws}.

Lemma int_section_size s n : forall i k,
  sendable s DField_None -> int_tags (definition s) = true -> 0 <= i -> i + Z.of_nat n <= 256 ->
  EncodedBytesSimpleSection_loop s DField_None i n = Some k -> 0 <= k <= 10 * Z.of_nat n.
Proof.
  induction n as [|n IH]; intros i k Hs Hit Hi Hn He; cbn [EncodedBytesSimpleSection_loop] in He.
  { simplify_eq. lia. }
  destruct (GetTag_cases s DField_None i Hs Hi) as [[Hg _]|(Hlt & _ & t & v & Ht & _ & _ & _ & Hg)];
    rewrite Hg in He; cbn [mbind option_bind] in He;
    destruct (EncodedBytesSimpleSection_loop s DField_None (i + 1) n) as [k'|] eqn:Er; try done;
    cbn [mbind option_bind] in He; specialize (IH (i + 1) k' Hs Hit ltac:(lia) ltac:(lia) Er).
  { injection He as <-. lia. }
  rewrite Ht in He. cbn [mbind option_bind] in He. injection He as <-.
  assert (t = 0 \/ t = 1 \/ t = 2) as Hc.
  { destruct (wire_type_range s DField_None i Hs ltac:(lia)) as (t' & Ht' & Hr).
    assert (t' = t) as -> by congruence. unfold DField_None, DField_TotalType in Hr.
    assert (t <= 2); [|lia]. unfold wire_type in Ht. destruct (i =? 0); [by simplify_eq|].
    unfold TagType, def_TagType, rd in Ht. rewrite uwrap_small in Ht by lia.
    destruct (Z.ltb_spec i 0); [done|]. unfold int_tags in Hit. rewrite forallb_forall in Hit.
    specialize (Hit (Z.to_nat i) ltac:(apply in_seq; lia)). rewrite Ht in Hit. lia. }
  assert (1 <= EncodedBytesDataValue v t <= 9); [|lia].
  destruct Hc as [-> | [-> | ->]]; [by vm_compute|..]; unfold EncodedBytesDataValue;
    cbn [Z.eqb orb DField_None DField_Signed DField_Unsigned Pos.eqb]; zifs; lia.
Qed.
End attr_size.

Section roundtrip.
Context `{FloatTextLaws}.

(** A server table whose fields are numbered without gaps, ready to pack. *)
Definition packable (o : CTableDefinition) : Prop :=
  1 <= numFields o <= 254 /\ usedFields o = numFields o /\
  (forall i, 0 <= i <= numFields o -> exists f, rd (fieldList o) i = Some f /\ field_ok (numFields o + 1) (i, f)) /\
  (exists tn, holds (bin_ptr (tableName o)) tn /\ bin_len (tableName o) = Z.of_nat (length tn) /\
     1 <= Z.of_nat (length tn) <= 255) /\
  definition (attr o) = tableAttributeDefinition /\ sendable (attr o) DField_None.

(** The bytes after the digest: version, name, number of fields, fields,
    attributes. *)
Definition packed_body (o : CTableDefinition) (tn fields a : list Z) : list Z :=
  [1; Z.of_nat (length tn)] ++ tn ++ [numFields o + 1] ++ fields ++ a.

Lemma BuildInfoCache_spec ctx o :
  length (md5_in ctx) = 64%nat -> packable o ->
  exists o' l tn fields a, BuildInfoCache ctx o = Some (0, o') /\
    map fst l = seqZ 0 (numFields o + 1) /\ Forall (field_ok (numFields o + 1)) l /\
    Forall (λ x, rd (fieldList o) x.1 = Some x.2) l /\ packed_fields l = Some fields /\
    EncodeSimpleSection (attr o) DField_None = Some a /\
    holds (bin_ptr (tableName o)) tn /\ bin_len (tableName o) = Z.of_nat (length tn) /\
    1 <= Z.of_nat (length tn) <= 255 /\ 10 <= Z.of_nat (length fields) /\
    Z.of_nat (length (packed_body o tn fields a)) < 2 ^ 31 /\
    tableHash o' = Rfc1321.md5 (packed_body o tn fields a) /\
    packedTableDefinition o' =
      MkBinary (16 + Z.of_nat (length (packed_body o tn fields a)))
        (Some (Ptr (tableHash o' ++ packed_body o tn fields a) 0)).
Proof.
  intros Hctx (Hn & Hu & Hall & (tn & Htn & Htl & Htr) & Hd & Hs).
  unfold BuildInfoCache. destruct (Z.leb_spec (numFields o) 0); [lia|].
  destruct (named_fields_all (numFields o + 1) o (Z.to_nat (numFields o)) 1) as (l1 & Hl1 & Hi1 & _).
  { intros i Hi. apply Hall. lia. }
  assert (length l1 = Z.to_nat (numFields o)) as Hlen1.
  { rewrite <- (length_map fst), Hi1, length_seqZ. lia. }
  rewrite Hl1. osimpl. rewrite length_map, Hlen1, Z2Nat.id, Hu by lia.
  rewrite in_block_ok by (cbn [length app]; rewrite length_map, Hlen1; lia). osimpl.
  rewrite in_block_ok
    by (cbn [length usedFields set_packedFullFieldSet]; rewrite length_map, Hlen1, Hu; lia). osimpl.
  set (o1 := set_packedFieldSet _ _).
  change (numFields o1) with (numFields o). change (attr o1) with (attr o).
  change (tableName o1) with (tableName o).
  destruct (named_fields_all (numFields o + 1) o1 (S (Z.to_nat (numFields o))) 0) as (l & Hl & Hi0 & Hok & Hrd).
  { intros i Hi. apply Hall. lia. }
  replace (Z.of_nat (S (Z.to_nat (numFields o)))) with (numFields o + 1) in Hi0 by lia.
  assert (Z.of_nat (length l) = numFields o + 1) as Hlen.
  { rewrite <- (length_map fst), Hi0, length_seqZ. lia. }
  rewrite Hl. osimpl. rewrite Hlen.
  destruct (packed_fields_all _ l Hok) as (fields & Hf & Hfl & Hfs).
  destruct (section_codec (attr o) DField_None Hs) as (a & Ha & Has & _).
  assert (0 <= Z.of_nat (length a) <= 50) as Hasz.
  { pose proof Has as H50. unfold EncodedBytesSimpleSection, sec_MaxTags, def_MaxTags in H50.
    rewrite Hd in H50. change (S (Z.to_nat (maxTags tableAttributeDefinition))) with 5%nat in H50.
    apply int_section_size in H50; [lia|done|rewrite Hd; by vm_compute|lia|lia]. }
  rewrite Has. osimpl.
  rewrite Htl, Nat2Z.id, (read_n_holds _ _ Htn). osimpl. rewrite Hf. osimpl. rewrite Ha. osimpl.
  rewrite !uwrap_small by lia.
  change ([1; Z.of_nat (length tn)] ++ tn ++ [numFields o + 1] ++ fields ++ a) with (packed_body o tn fields a).
  assert (Z.of_nat (length (packed_body o tn fields a)) =
    3 + Z.of_nat (length tn) + Z.of_nat (length fields) + Z.of_nat (length a)) as Hbody.
  { unfold packed_body. rewrite !length_app. cbn [length]. lia. }
  rewrite in_block_ok by (rewrite Hbody; lia). osimpl.
  rewrite md5_of_spec by (done || lia). osimpl.
  eexists _, l, tn, fields, a. split; [reflexivity|]. cbn [tableHash packedTableDefinition set_tableHash].
  rewrite Hbody. split_and!; try done; lia.
Qed.

(** The client side on those bytes. *)
Lemma Unpack_packed ctx junk o p body l tn fields a :
  length (md5_in ctx) = 64%nat -> packable o ->
  map fst l = seqZ 0 (numFields o + 1) -> Forall (field_ok (numFields o + 1)) l ->
  packed_fields l = Some fields -> EncodeSimpleSection (attr o) DField_None = Some a ->
  1 <= Z.of_nat (length tn) <= 255 -> 10 <= Z.of_nat (length fields) ->
  body = packed_body o tn fields a -> Z.of_nat (length body) < 2 ^ 31 ->
  holds p (Rfc1321.md5 body ++ body) ->
  exists c0 c a', Unpack ctx (new_table 0 junk) p (16 + Z.of_nat (length body)) = Some (0, set_attr a' c) /\
    received l c0 c /\ numFields c0 = 0 /\ tableHash c0 = Rfc1321.md5 body /\
    tableName c0 = MkBinary (Z.of_nat (length tn)) (cstring tn) /\
    (forall i, 0 <= i < 20 -> TagPresent a' i = TagPresent (attr o) i) /\
    (forall i, 0 <= i < 20 -> present (attr o) i -> same_tag (attr o) a' DField_None i).
Proof.
  intros Hctx (Hn & _ & _ & _ & Hd & Hs) Hids Hoks Hf Ha Htn Hfl Ebody Hlb Hh. unfold Unpack.
  change (numFields (new_table 0 junk)) with 0. change (maxFields (new_table 0 junk)) with 0.
  cbn [Z.eqb negb orb]. unfold bin_lt. cbn [bin_len].
  assert (Z.of_nat (length body) = 3 + Z.of_nat (length tn) + Z.of_nat (length fields) + Z.of_nat (length a)) as Hbl.
  { rewrite Ebody. unfold packed_body. rewrite !length_app. cbn [length]. lia. }
  zif. apply holds_app in Hh as [Hhash Hbody]. rewrite length_md5 in Hbody. change (Z.of_nat 16) with 16 in Hbody.
  replace (16 + Z.of_nat (length body) - 16) with (Z.of_nat (length body)) by lia.
  rewrite Nat2Z.id, (read_n_holds _ _ Hbody). osimpl. rewrite md5_of_spec by (done || lia). osimpl.
  destruct (memcmp_holds (Some (Ptr (Rfc1321.md5 body) 0)) p _ _ (holds_whole _) Hhash eq_refl) as (r & Hc & Hr).
  rewrite length_md5 in Hc. rewrite Hc. osimpl. assert (r = 0) as -> by tauto. cbn [Z.eqb negb]. clear Hc Hr.
  pose proof (read_n_holds _ _ Hhash) as Hrd. rewrite length_md5 in Hrd. rewrite Hrd. osimpl. clear Hrd.
  rewrite Ebody in Hbody. unfold packed_body in Hbody. cbn [app] in Hbody.
  apply holds_cons in Hbody as [B0 Hbody]. apply holds_cons in Hbody as [B1 Hbody].
  apply holds_app in Hbody as [B2 Hbody]. apply holds_cons in Hbody as [B3 Hbody].
  apply holds_app in Hbody as [B4 B5].
  unfold bin_deref, bin_incr, bin_advance. cbn [bin_len bin_ptr].
  rewrite B0. osimpl. cbn [Z.eqb Pos.eqb negb]. rewrite B1. osimpl.
  destruct ((Z.of_nat (length tn) =? 0) || _) eqn:Eb; [lia|]. clear Eb.
  rewrite Nat2Z.id, (read_n_holds _ _ B2). osimpl. rewrite B3. osimpl. zif.
  set (c0 := set_fieldList _ _).
  set (len0 := 16 + Z.of_nat (length body) - 16 - 1 - 1 - Z.of_nat (length tn) - 1).
  assert (tbl_ok c0) as Hok0.
  { apply tbl_ok_blank; cbn; [done|rewrite length_replicate; lia|done|apply blank_fields]. }
  replace (Z.to_nat (numFields o + 1)) with (length l).
  2: { rewrite <- (length_map fst), Hids, length_seqZ. done. }
  destruct (Unpack_fields_roundtrip l fields (padd (padd (padd (padd (padd p 16) 1) 1) (Z.of_nat (length tn))) 1)
    len0 c0) as (c & Hc & Hrec); try done.
  - rewrite Hids. apply NoDup_seqZ.
  - intros x t _ (f & Hf0 & Ht). rewrite (blank_fields _ _ _ Hf0) in Ht. done.
  - lia.
  - rewrite Hc. osimpl. cbn [Z.eqb negb]. pose proof Hrec as (_ & _ & Hca & _). rewrite Hca.
    change (attr c0) with (new_section tableAttributeDefinition).
    destruct (section_codec (attr o) DField_None Hs) as (a0 & Ha0 & _ & Hdec).
    assert (a0 = a) as -> by congruence. destruct (Hdec _ B5) as (p' & a' & Hsec & Hpres & Hsame & _).
    rewrite Hd in Hsec. unfold bin_advance. cbn [bin_len bin_ptr].
    replace (len0 - Z.of_nat (length fields)) with (Z.of_nat (length a)) by lia.
    rewrite Hsec. osimpl. exists c0, c, a'. split; [done|]. split; [exact Hrec|]. split_and!; done.
Qed.

(** [C25] Definitions travel: a server table with fields 0..n (n from 1 to
    254), each with a name and a legal type and size, packs without writing
    outside its buffers, and a client that unpacks the bytes (the digest
    matches) ends with the same fields, table name, hash and attributes. *)
Theorem pack_unpack_roundtrip ctx ctx2 junk o :
  length (md5_in ctx) = 64%nat -> length (md5_in ctx2) = 64%nat -> packable o ->
  exists o' n q c, BuildInfoCache ctx o = Some (0, o') /\ packedTableDefinition o' = MkBinary n q /\
    Unpack ctx2 (new_table 0 junk) q n = Some (0, c) /\
    numFields c = numFields o /\ tableHash c = tableHash o' /\
    (forall i, 0 <= i <= numFields o -> exists f g, rd (fieldList o) i = Some f /\
       rd (fieldList c) i = Some g /\ same_field f g) /\
    (exists tn, holds (bin_ptr (tableName o)) tn /\ bin_len (tableName o) = Z.of_nat (length tn) /\
       tableName c = MkBinary (Z.of_nat (length tn)) (cstring tn)) /\
    (forall i, 0 <= i < 20 -> TagPresent (attr c) i = TagPresent (attr o) i) /\
    (forall i, 0 <= i < 20 -> present (attr o) i -> same_tag (attr o) (attr c) DField_None i).
Proof.
  intros Hc1 Hc2 Hp.
  destruct (BuildInfoCache_spec ctx o Hc1 Hp) as (o' & l & tn & fields & a & Hb & Hids & Hoks & Hrds & Hf &
    Ha & Htn & Htl & Htr & Hfl & Hlb & Hhash & Hpack).
  rewrite Hhash in Hpack.
  destruct (Unpack_packed ctx2 junk o _ _ l tn fields a Hc2 Hp Hids Hoks Hf Ha Htr Hfl eq_refl Hlb
    (holds_whole _)) as (c0 & c & a' & Hu & Hrec & Hn0 & Hh0 & Ht0 & Hpres & Hsame).
  destruct Hrec as (_ & _ & _ & Htn' & Hth' & _ & Hin & _ & Hle & _ & Hmax).
  assert (forall i, 0 <= i <= numFields o -> exists f, (i, f) ∈ l /\ rd (fieldList o) i = Some f) as Hmem.
  { intros i Hi. assert (i ∈ map fst l) as Hi' by (rewrite Hids; apply elem_of_seqZ; lia).
    apply list_elem_of_In, in_map_iff in Hi' as ([j f] & <- & Hx). apply list_elem_of_In in Hx.
    exists f. split; [done|]. rewrite Forall_forall in Hrds. exact (Hrds _ Hx). }
  eexists o', _, _, (set_attr a' c). split; [done|]. split; [done|]. split; [done|].
  split; [|split; [|split; [|split; [|by split]]]].
  - cbn. destruct Hp as (Hn & _). apply Z.le_antisymm.
    + apply Hmax; [lia|]. intros x Hx. rewrite Forall_forall in Hoks. destruct (Hoks x Hx) as (_ & ? & _). lia.
    + destruct (Hmem (numFields o) ltac:(lia)) as (f & Hx & _). exact (Hle _ Hx).
  - cbn. congruence.
  - intros i Hi. destruct (Hmem i Hi) as (f & Hx & Hr). destruct (Hin _ Hx) as (g & Hg & Hs).
    by exists f, g.
  - exists tn. split_and!; [done|done|]. cbn. congruence.
Qed.

End roundtrip.

(** Table "t" with key "k" (unsigned, 4 bytes) and "age" (string, 10 bytes). *)
Definition sample_table : CTableDefinition :=
  default blank_table
    (o ← AddField (new_table 2 blank_table) 0 (cstring [107]) DField_Unsigned 4;
     o ← AddField o.2 1 (cstring [97; 103; 101]) DField_String 10;
     tbl_SetTableName (cstring [116]) o.2).

Lemma sample_packable : packable sample_table.
Proof.
  assert (forall i, 0 <= i <= 1 -> i = 0 \/ i = 1) as Hi by (intros; lia).
  split; [by vm_compute|]. split; [by vm_compute|]. split; [|split; [|split; [by vm_compute|]]].
  - intros i Hle. change (numFields sample_table) with 1 in Hle.
    destruct (Hi i Hle) as [-> | ->]; eexists; (split; [vm_compute; reflexivity|]);
      (split; [split; vm_compute; discriminate|]); (split; [vm_compute; reflexivity|]);
      (split; [cbn; unfold type_size_ok, DField_String, DField_Unsigned;
               change MAXPACKETSIZE with 67108864; lia|]);
      eexists; (split; [reflexivity|]); (split; [reflexivity|]); (split; [cbn; lia|]);
      cbn; rewrite ?not_elem_of_cons; split_and?; try done; apply not_elem_of_nil.
  - exists [116]. split; [|by vm_compute]. change (bin_ptr (tableName sample_table)) with (cstring [116]).
    apply cstring_holds.
  - split; [by apply new_section_shape; vm_compute|]. split; [by vm_compute|].
    intros i Hr Hp. exfalso. unfold present in Hp. change (fieldMask (attr sample_table)) with (replicate 3 0) in Hp.
    unfold getbit, rd in Hp. destruct (Z.ltb_spec (i / 8) 0); [done|].
    rewrite lookup_replicate_2 in Hp by (Z.div_mod_to_equations; lia). simpl in Hp. by rewrite Z.bits_0 in Hp.
Qed.

Lemma pack_unpack_roundtrip_witness :
  let ctx := MkMD5 (0, 0, 0, 0) 0 0 (replicate 64 0) in
  exists o' n q c, @BuildInfoCache hex_text ctx sample_table = Some (0, o') /\
    packedTableDefinition o' = MkBinary n q /\
    @Unpack hex_text ctx (new_table 0 blank_table) q n = Some (0, c) /\
    numFields c = numFields sample_table /\ tableHash c = tableHash o' /\
    (forall i, 0 <= i <= numFields sample_table -> exists f g, rd (fieldList sample_table) i = Some f /\
       rd (fieldList c) i = Some g /\ same_field f g) /\
    (exists tn, holds (bin_ptr (tableName sample_table)) tn /\
       bin_len (tableName sample_table) = Z.of_nat (length tn) /\
       tableName c = MkBinary (Z.of_nat (length tn)) (cstring tn)) /\
    (forall i, 0 <= i < 20 -> TagPresent (attr c) i = TagPresent (attr sample_table) i) /\
    (forall i, 0 <= i < 20 -> present (attr sample_table) i ->
       same_tag (attr sample_table) (attr c) DField_None i).
Proof.
  intros ctx. exact (@pack_unpack_roundtrip hex_text hex_text_laws ctx ctx blank_table sample_table
    eq_refl eq_refl sample_packable).
Defined.

(** ** Key layout *)

Definition fixed_type (t : Z) : bool :=
  (t =? DField_Signed) || (t =? DField_Unsigned) || (t =? DField_Float).

(** Bytes of the first [n] fields. *)
Fixpoint key_bytes (fl : list CFieldDefinition) (n : nat) : Z :=
  match n with
  | O => 0
  | S n' => key_bytes fl n' + default 0 (fieldSize <$> rd fl (Z.of_nat n'))
  end.

Lemma upd_field_spec id g o f :
  rd (fieldList o) id = Some f ->
  exists fl, upd_field id g o = Some (set_fieldList fl o) /\
    forall j, rd fl j = if j =? id then Some (g f) else rd (fieldList o) j.
Proof.
  intros Hf. unfold upd_field. rewrite Hf. osimpl.
  destruct (wr (fieldList o) id (g f)) as [fl|] eqn:E.
  2: { pose proof (rd_Some_lt _ _ _ Hf). by rewrite wr_is_Some in E by lia. }
  exists fl. split; [done|]. intros j. rewrite (rd_wr _ _ j _ _ E), Z.eqb_sym. done.
Qed.

(** The field list after the loop ran over the fields below [i]: marked, at
    their offsets, otherwise as in [fl]. *)
Definition laid_out (fl fl' : list CFieldDefinition) (i : Z) : Prop :=
  forall j f, rd fl j = Some f -> exists f', rd fl' j = Some f' /\
    fieldType f' = fieldType f /\ fieldSize f' = fieldSize f /\
    (j < i -> Z.land (flags f') FF_READONLY = 1 /\ offset f' = u8 (key_bytes fl (Z.to_nat j))) /\
    (i <= j -> f' = f).

Lemma or_readonly f : Z.land (flags (or_flag FF_READONLY f)) FF_READONLY = 1.
Proof.
  cbn. unfold FF_READONLY. apply Z.bits_inj'. intros n Hn.
  rewrite Z.land_spec, uwrap_testbit, Z.lor_spec by lia. destruct (Z.eq_dec n 0) as [->|].
  - by rewrite orb_true_r.
  - assert (Z.testbit 1 n = false) as -> by (destruct n as [|[]|]; done). by rewrite andb_false_r.
Qed.

Lemma SetKeyFields_loop_spec fl n : forall o i,
  0 <= i -> laid_out fl (fieldList o) i ->
  (forall j, i <= j < i + Z.of_nat n -> exists f, rd fl j = Some f /\ fixed_type (fieldType f) = true) ->
  exists fl' k, SetKeyFields_loop o i (key_bytes fl (Z.to_nat i)) 0 n =
      Some (set_keysAsUniqField k (set_fieldList fl' o), key_bytes fl (Z.to_nat i + n), 0) /\
    laid_out fl fl' (i + Z.of_nat n).
Proof.
  induction n as [|n IH]; intros o i Hi Hlay Hall; cbn [SetKeyFields_loop].
  { exists (fieldList o), (keysAsUniqField o). rewrite Nat.add_0_r, Z.add_0_r. split; [|done]. by destruct o. }
  destruct (Hall i ltac:(lia)) as (f & Hf & Hfix).
  destruct (Hlay i f Hf) as (f' & Hf' & Hty & Hsz & _ & Hsame). assert (f' = f) as -> by (apply Hsame; lia).
  destruct (upd_field_spec i (or_flag FF_READONLY) o f Hf') as (fl1 & H1 & Hr1).
  unfold MarkAsReadOnly. rewrite H1. osimpl.
  destruct (upd_field_spec i (set_offset (u8 (key_bytes fl (Z.to_nat i)))) (set_fieldList fl1 o)
    (or_flag FF_READONLY f)) as (fl2 & H2 & Hr2); [by cbn; rewrite Hr1, Z.eqb_refl|].
  rewrite H2. osimpl. unfold FieldType, FieldSize, fld. cbn [fieldList set_fieldList].
  rewrite Hr2, Z.eqb_refl. cbn [fmap option_fmap option_map mbind option_bind].
  change (fieldType (set_offset _ _)) with (fieldType f). change (fieldSize (set_offset _ _)) with (fieldSize f).
  fold (fixed_type (fieldType f)). rewrite Hfix.
  assert (key_bytes fl (Z.to_nat i) + fieldSize f = key_bytes fl (Z.to_nat (i + 1))) as ->.
  { replace (Z.to_nat (i + 1)) with (S (Z.to_nat i)) by lia. cbn [key_bytes].
    rewrite Z2Nat.id, Hf by lia. done. }
  set (o2 := if negb (keysAsUniqField _ =? 0) && _ then _ else _).
  assert (exists k2, o2 = set_keysAsUniqField k2 (set_fieldList fl2 o)) as [k2 ->].
  { unfold o2. case_match; eexists; [reflexivity|].
    instantiate (1 := keysAsUniqField o). by destruct o. }
  destruct (IH (set_keysAsUniqField k2 (set_fieldList fl2 o)) (i + 1)) as (fl' & k & -> & Hl'); [lia| | |].
  - cbn. intros j g Hg. destruct (Hlay j g Hg) as (g' & Hg' & Hty' & Hsz' & Hlow & Hhigh).
    rewrite Hr2. cbn. rewrite Hr1. destruct (Z.eqb_spec j i) as [->|Hne].
    + assert (g = f) as -> by congruence. eexists. split; [done|]. split; [done|]. split; [done|].
      split; [|lia]. intros _. split; [apply or_readonly|done].
    + exists g'. split; [done|]. split; [done|]. split; [done|].
      split; intros; [apply Hlow|apply Hhigh]; lia.
  - intros j Hj. apply Hall. lia.
  - exists fl', k. split; [|by replace (i + Z.of_nat (S n)) with (i + 1 + Z.of_nat n) by lia].
    replace (Z.to_nat i + S n)%nat with (Z.to_nat (i + 1) + n)%nat by lia. by destruct o.
Qed.

(** Fixed-size keys: [SetKeyFields] marks the key fields read-only, puts
    each behind the ones before it and records the total size.  The recorded
    format is that size modulo 256: 256 bytes of keys (32 8-byte fields) get
    format 0, the mark of a variable-size key. *)
Theorem SetKeyFields_fixed n o :
  0 < n <= 32 -> n <= numFields o + 1 -> 0 <= maxKeySize o < 256 ->
  sec_inv (attr o) -> definition (attr o) = tableAttributeDefinition ->
  (forall i, 0 <= i < n -> exists f, rd (fieldList o) i = Some f /\
     fixed_type (fieldType f) = true /\ 0 < fieldSize f <= 8) ->
  exists o', SetKeyFields n o = Some (0, o') /\ keyFields o' = n /\ KeyFieldCount (attr o') = Some n /\
    maxKeySize o' = key_bytes (fieldList o) (Z.to_nat n) /\
    keyFormat o' = u8 (key_bytes (fieldList o) (Z.to_nat n)) /\
    forall i, 0 <= i < n -> IsReadOnly o' i = Some 1 /\
      FieldOffset o' i = Some (u8 (key_bytes (fieldList o) (Z.to_nat i))).
Proof.
  intros Hn Hnf Hmk Hinv Hdef Hall. unfold SetKeyFields. zifs.
  assert (TagType (attr o) 3 = Some DField_Unsigned) as Ht by (unfold TagType; rewrite Hdef; done).
  destruct (SetTag_known (attr o) 3 (MakeInt (u32 n)) DField_Unsigned Hinv ltac:(lia) Ht ltac:(done))
    as (a & Ha & _ & _ & _ & Hwr & Hbit).
  change (attr (set_keyFields n o)) with (attr o).
  assert (SetKeyFieldCount (attr o) n = Some a) as ->.
  { unfold SetKeyFieldCount, SetTag_u32. rewrite Ht. osimpl. exact Ha. }
  osimpl. set (o1 := set_keysAsUniqField 2 _).
  destruct (SetKeyFields_loop_spec (fieldList o) (Z.to_nat n) o1 0 ltac:(lia)) as (fl' & k & Hloop & Hlay).
  { intros j f Hf. exists f. change (fieldList o1) with (fieldList o).
    split; [done|]. split; [done|]. split; [done|]. split; [|done]. apply rd_Some_lt in Hf. lia. }
  { intros j Hj. destruct (Hall j ltac:(lia)) as (f & ? & ? & _). by exists f. }
  change (key_bytes (fieldList o) (Z.to_nat 0)) with 0 in Hloop. rewrite Hloop. osimpl. cbn [Z.eqb Nat.add].
  set (o2 := if (_ =? n) && _ then _ else _).
  assert (maxKeySize o2 = maxKeySize o /\ keyFields o2 = n /\ attr o2 = a /\ fieldList o2 = fl') as
    (E1 & E2 & E3 & E4) by (unfold o2; case_match; done).
  rewrite E1. destruct (Z.leb_spec 256 (maxKeySize o)); [lia|].
  assert (forall m : nat, Z.of_nat m <= n -> 0 <= key_bytes (fieldList o) m <= 8 * Z.of_nat m) as Hkb.
  { induction m as [|m IHm]; intros Hm; cbn [key_bytes]; [lia|].
    destruct (Hall (Z.of_nat m) ltac:(lia)) as (f & -> & _ & ?). cbn. lia. }
  eexists. split; [reflexivity|]. cbn [keyFields attr maxKeySize keyFormat set_maxKeySize set_keyFormat].
  split; [done|]. rewrite E3. split; [|split; [|split; [done|]]].
  - unfold KeyFieldCount, attr_tag. rewrite (GetTag_present a 3 true) by (rewrite ?Hbit; done || lia).
    rewrite (rd_wr _ _ 3 _ _ Hwr). cbn. f_equal. wrap_lia.
  - specialize (Hkb (Z.to_nat n) ltac:(lia)). apply uwrap_small. lia.
  - intros i Hi. destruct (Hall i Hi) as (f & Hf & _).
    destruct (Hlay i f Hf) as (f' & Hf' & _ & _ & Hlow & _). destruct (Hlow ltac:(lia)) as [Hro Hoff].
    unfold IsReadOnly, FieldOffset, fld. cbn [fieldList set_maxKeySize set_keyFormat]. rewrite E4, Hf'. cbn.
    split; congruence.
Qed.

(** 32 keys of 8 bytes: accepted, recorded as variable-size. *)
Definition wide_key_table : CTableDefinition :=
  set_numFields 31 (set_fieldList (replicate 32 (MkField (Some [107]) 8 DField_Unsigned 1 0 0 0 0 HASHSTOP))
    (new_table 32 blank_table)).

Lemma SetKeyFields_fixed_witness :
  exists o', SetKeyFields 32 wide_key_table = Some (0, o') /\ keyFields o' = 32 /\
    KeyFieldCount (attr o') = Some 32 /\
    maxKeySize o' = key_bytes (fieldList wide_key_table) (Z.to_nat 32) /\
    keyFormat o' = u8 (key_bytes (fieldList wide_key_table) (Z.to_nat 32)) /\
    forall i, 0 <= i < 32 -> IsReadOnly o' i = Some 1 /\
      FieldOffset o' i = Some (u8 (key_bytes (fieldList wide_key_table) (Z.to_nat i))).
Proof.
  apply (SetKeyFields_fixed 32 wide_key_table); [lia|by vm_compute|by vm_compute| |done|].
  - by apply (sec_inv_new tableAttributeDefinition); vm_compute.
  - intros i Hi. exists (MkField (Some [107]) 8 DField_Unsigned 1 0 0 0 0 HASHSTOP).
    split; [|split; [done|cbn; lia]]. unfold rd. destruct (Z.ltb_spec i 0); [lia|].
    apply lookup_replicate. split; [done|lia].
Defined.
