(* ===== verification/Pkey.v ===== *)
(** * Pkey: packed keys

    Models [CTaskPackedKey] ([src/common/task_pkey.h],
    [src/common/task_pkey.cc]): the bytes under which the rows of a key are
    hashed and stored, and the way back to the key's values. *)

From stdpp Require Import list.
From S2P Require Import Prelude State Bitsop Value Protocol Codec TableDef.

#[local] Open Scope cint_scope.

(** ** The code *)

Definition intoff : list Z := [
  0x0000000000000080; 0x0000000000008000; 0x0000000000800000; 0x0000000080000000;
  0x0000008000000000; 0x0000800000000000; 0x0080000000000000; 0x0000000000000000;
  0; 0; 0; 0; 0; 0; 0; 0 ].
Definition intmask : list Z := [
  0xFFFFFFFFFFFFFF00; 0xFFFFFFFFFFFF0000; 0xFFFFFFFFFF000000; 0xFFFFFFFF00000000;
  0xFFFFFF0000000000; 0xFFFF000000000000; 0xFF00000000000000; 0x0000000000000000 ].

Definition PackedKeySize (p : option ptr) (keyformat : Z) : option Z :=
  if negb (keyformat =? 0) then Some keyformat else c ← deref p 0; Some (1 + c).

(** [StoreValue] at offset [p] of the buffer: -1 when the value does not fit. *)
Definition StoreValue (buf : list Z) (p val type size : Z) : option (Z * list Z) :=
  o ← rd intoff (type * 8 + size - 9);
  m ← rd intmask (size - 1);
  if negb (Z.land (u64 (val + o)) m =? 0) then Some (-1, buf)
  else buf ← wr_many buf p (le_bytes (Z.to_nat size) val); Some (0, buf).

(** One integer of the key: sign extension, then the bytes over it. *)
Definition unpack_int (ptrKey : option ptr) (type size : Z) : option Z :=
  top ← deref ptrKey (size - 1);
  let fill := if type =? DField_Unsigned then 0 else if negb (Z.land top 0x80 =? 0) then -1 else 0 in
  l ← read_n ptrKey (Z.to_nat size);
  if 8 <? size then None else Some (le_value (l ++ drop (Z.to_nat size) (le_bytes 8 fill))).
Fixpoint UnpackKey_loop (tdef : CTableDefinition) (ptrKey : option ptr) (i : Z) (val : list CValue) (n : nat) : option (list CValue) :=
  match n with
  | O => Some val
  | S n' =>
      size ← FieldSize tdef i; type ← FieldType tdef i;
      x ← unpack_int ptrKey type size;
      v ← rd val i; val ← wr val i (v_set_word v x);
      UnpackKey_loop tdef (padd ptrKey size) (i + 1) val n'
  end.
Definition UnpackKey (tdef : CTableDefinition) (ptrKey : option ptr) (val : list CValue) : option (list CValue) :=
  if keyFormat tdef =? 0 then
    len ← deref ptrKey 0;
    v ← rd val 0; wr val 0 (v_set_str v (MkBinary len (padd ptrKey 1)))
  else UnpackKey_loop tdef ptrKey 0 val (Z.to_nat (keyFields tdef)).

Fixpoint pack_lower (buf : list Z) (p : option ptr) (i : Z) (n : nat) : option (list Z) :=
  match n with
  | O => Some buf
  | S n' =>
      c ← deref p i; c ← TOLOWER (u8 c);
      buf ← wr buf (i + 1) c; pack_lower buf p (i + 1) n'
  end.
Fixpoint pack_ints (tdef : CTableDefinition) (vals : list CValue) (buf : list Z) (i : Z) (n : nat) : option (Z * list Z) :=
  match n with
  | O => Some (0, buf)
  | S n' =>
      off ← FieldOffset tdef i; v ← rd vals i; type ← FieldType tdef i; size ← FieldSize tdef i;
      '(c, buf) ← StoreValue buf off (v_u64 v) type size;
      if c <? 0 then Some (-6, buf) else pack_ints tdef vals buf (i + 1) n'
  end.

Definition BuildPackedKey (tdef : CTableDefinition) (pstKeyValues : list CValue) (uiBufSize : Z) (packKey : list Z) : option (Z * list Z) :=
  v ← rd pstKeyValues 0;
  if keyFormat tdef =? 0 then
    size ← FieldSize tdef 0;
    let len := bin_len (v_str v) in
    if size <? len then Some (-1, packKey)
    else if s32 uiBufSize <? len + 1 then Some (-2, packKey)
    else
      type ← FieldType tdef 0;
      packKey ← wr packKey 0 (u8 len);
      if type =? DField_String then
        packKey ← pack_lower packKey (bin_ptr (v_str v)) 0 (Z.to_nat len); Some (0, packKey)
      else if len <? 0 then None
      else
        l ← read_n (bin_ptr (v_str v)) (Z.to_nat len);
        packKey ← wr_many packKey 1 l; Some (0, packKey)
  else if keyFields tdef =? 1 then
    if uiBufSize <? u32 (keyFormat tdef) then Some (-3, packKey)
    else
      type ← FieldType tdef 0; size ← FieldSize tdef 0;
      '(c, packKey) ← StoreValue packKey 0 (v_u64 v) type size;
      Some (if c <? 0 then -4 else 0, packKey)
  else
    if s32 uiBufSize <? keyFormat tdef then Some (-5, packKey)
    else pack_ints tdef pstKeyValues packKey 0 (Z.to_nat (keyFields tdef)).

Fixpoint barrier_loop (p : option ptr) (i h : Z) (n : nat) : option Z :=
  match n with
  | O => Some h
  | S n' => c ← deref p i; barrier_loop p (i + 1) (u64 (h * 11111 + Z.shiftl c 4 + Z.shiftr c 4)) n'
  end.
Definition CalculateBarrierKey (tdef : CTableDefinition) (pkey : option ptr) : option Z :=
  if keyFormat tdef =? 0 then len ← deref pkey 0; barrier_loop (padd pkey 1) 0 0 (Z.to_nat len)
  else barrier_loop pkey 0 0 (Z.to_nat (keyFormat tdef)).

(** ** One integer *)

(** The value of the 64-bit word [w] can be stored in [size] bytes. *)
Definition fits (type size w : Z) : bool :=
  if type =? DField_Unsigned then w <? 2 ^ (8 * size)
  else (- 2 ^ (8 * size - 1) <=? s64 w) && (s64 w <? 2 ^ (8 * size - 1)).
Definition key_int (type size : Z) : Prop :=
  (type = DField_Signed ∨ type = DField_Unsigned) ∧ 1 <= size <= 8.

Ltac key_sizes :=
  match goal with H : 1 <= ?s <= 8 |- _ =>
    assert (s = 1 ∨ s = 2 ∨ s = 3 ∨ s = 4 ∨ s = 5 ∨ s = 6 ∨ s = 7 ∨ s = 8)
      as [->|[->|[->|[->|[->|[->|[->| ->]]]]]]] by lia; clear H
  end.

Lemma mask_zero x k : 0 <= k <= 64 -> 0 <= x < 2 ^ 64 -> Z.land x (2 ^ 64 - 2 ^ k) = 0 <-> x < 2 ^ k.
Proof.
  intros Hk Hx. assert (2 ^ 64 - 2 ^ k = Z.shiftl (Z.ones (64 - k)) k) as ->.
  { rewrite Z.shiftl_mul_pow2, Z.ones_equiv by lia. rewrite <- (Z.sub_add k 64) at 1. rewrite Z.pow_add_r by lia. lia. }
  assert (Z.land x (Z.shiftl (Z.ones (64 - k)) k) = Z.shiftl (Z.shiftr x k) k) as ->.
  { apply Z.bits_inj'. intros i Hi. rewrite Z.land_spec. destruct (Z.ltb_spec i k).
    - rewrite !Z.shiftl_spec_low by lia. apply andb_false_r.
    - rewrite !Z.shiftl_spec, Z.shiftr_spec by lia. replace (i - k + k) with i by lia.
      destruct (Z.ltb_spec (i - k) (64 - k)).
      + rewrite Z.ones_spec_low by lia. apply andb_true_r.
      + rewrite Z.ones_spec_high by lia. rewrite andb_false_r. symmetry. apply Z.bits_above_log2; [lia|].
        destruct (Z.eq_dec x 0) as [->|]; [simpl; lia|]. apply Z.log2_lt_pow2; [lia|].
        assert (2 ^ 64 <= 2 ^ i) by (apply Z.pow_le_mono_r; lia). lia. }
  rewrite Z.shiftl_eq_0_iff by lia. rewrite Z.shiftr_div_pow2 by lia.
  assert (0 < 2 ^ k) by (apply Z.pow_pos_nonneg; lia). rewrite Z.div_small_iff by lia. lia.
Qed.

Lemma fits_mask type size w : key_int type size -> 0 <= w < 2 ^ 64 ->
  ∃ o m, rd intoff (type * 8 + size - 9) = Some o ∧ rd intmask (size - 1) = Some m ∧
    (Z.land (u64 (w + o)) m =? 0) = fits type size w.
Proof.
  intros [Ht Hs] Hw. exists (if type =? DField_Unsigned then 0 else if size =? 8 then 0 else 2 ^ (8 * size - 1)), (2 ^ 64 - 2 ^ (8 * size)).
  split; [destruct Ht as [-> | ->]; key_sizes; reflexivity|]. split; [key_sizes; reflexivity|].
  match goal with |- (?l =? 0) = ?r => assert (l = 0 <-> r = true) as Hiff; [|destruct (Z.eqb_spec l 0), r; intuition congruence] end.
  rewrite mask_zero by (try apply uwrap_range; lia).
  destruct Ht as [-> | ->]; unfold fits, DField_Signed, DField_Unsigned; cbn [Z.eqb Pos.eqb];
    [rewrite andb_true_iff, Z.leb_le, Z.ltb_lt|rewrite Z.ltb_lt].
  - unfold uwrap, swrap. key_sizes; cbn [Z.eqb Pos.eqb];
      match goal with |- context [2 ^ (8 * ?n)] => let e := eval compute in (2 ^ (8 * n)) in let f := eval compute in (2 ^ (8 * n - 1)) in
        change (2 ^ (8 * n)) with e; change (2 ^ (8 * n - 1)) with f end;
      change (2 ^ 64) with 18446744073709551616 in *; change (2 ^ (64 - 1)) with 9223372036854775808 in *; Z.div_mod_to_equations; lia.
  - rewrite Z.add_0_r, uwrap_small by lia. done.
Qed.

Lemma StoreValue_spec a b c w type size :
  key_int type size -> 0 <= w < 2 ^ 64 -> Z.of_nat (length b) = size ->
  StoreValue (a ++ b ++ c) (Z.of_nat (length a)) w type size =
    Some (if fits type size w then (0, a ++ le_bytes (Z.to_nat size) w ++ c) else (-1, a ++ b ++ c)).
Proof.
  intros Hk Hw Hb. unfold StoreValue. destruct (fits_mask type size w Hk Hw) as (o & m & -> & -> & E). simpl. rewrite E.
  destruct (fits type size w); simpl; [|done].
  rewrite wr_many_spec; [done|]. rewrite length_le_bytes. lia.
Qed.

Lemma le_value_app l k : le_value (l ++ k) = le_value l + 2 ^ (8 * Z.of_nat (length l)) * le_value k.
Proof.
  induction l as [|b l IH]; [simpl; lia|]. cbn [app le_value length]. rewrite IH, Nat2Z.inj_succ.
  replace (8 * Z.succ (Z.of_nat (length l))) with (8 + 8 * Z.of_nat (length l)) by lia. rewrite Z.pow_add_r by lia.
  change (2 ^ 8) with 256. ring.
Qed.

Lemma top_bit t : is_byte t -> (Z.land t 0x80 =? 0) = (t <? 128).
Proof.
  intros [H1 H2]. assert (forallb (λ n, Bool.eqb (Z.land (Z.of_nat n) 0x80 =? 0) (Z.of_nat n <? 128)) (seq 0 256) = true) as Hall
    by (vm_compute; reflexivity).
  rewrite forallb_forall in Hall. specialize (Hall (Z.to_nat t)). rewrite Z2Nat.id in Hall by lia.
  apply eqb_prop, Hall. apply in_seq. lia.
Qed.

Lemma unpack_int_spec p type size w :
  key_int type size -> 0 <= w < 2 ^ 64 -> fits type size w = true -> holds p (le_bytes (Z.to_nat size) w) ->
  unpack_int p type size = Some w.
Proof.
  intros [Ht Hs] Hw Hf Hp. unfold unpack_int.
  assert (le_bytes (Z.to_nat size) w !! Z.to_nat (size - 1) = Some (u8 (Z.shiftr w (8 * (size - 1))))) as Htop.
  { replace (Z.to_nat size) with (S (Z.to_nat (size - 1))) by lia. rewrite le_bytes_snoc, lookup_app_r by (rewrite length_le_bytes; lia).
    rewrite length_le_bytes, Nat.sub_diag. simpl. by rewrite Z2Nat.id by lia. }
  apply Hp in Htop. rewrite Z2Nat.id in Htop by lia. rewrite Htop. osimpl.
  pose proof (read_n_holds _ _ Hp) as Hr. rewrite length_le_bytes in Hr. rewrite Hr. osimpl.
  destruct (Z.ltb_spec 8 size); [lia|]. f_equal. rewrite le_value_app, le_value_bytes, length_le_bytes, Z2Nat.id by lia.
  rewrite top_bit by apply u8_byte. unfold uwrap. rewrite Z.shiftr_div_pow2 by lia.
  destruct Ht as [-> | ->]; unfold fits, DField_Signed, DField_Unsigned in *; cbn [Z.eqb Pos.eqb negb] in *.
  - apply andb_true_iff in Hf as [H1 H2]. rewrite Z.leb_le in H1. rewrite Z.ltb_lt in H2. unfold swrap in *.
    key_sizes;
      match goal with |- context [?t <? 128] => destruct (Z.ltb_spec t 128) end; cbn [negb];
      match goal with |- context [le_value ?l] => let e := eval vm_compute in (le_value l) in change (le_value l) with e end;
      repeat match goal with H : context [2 ^ ?n] |- _ => let e := eval compute in (2 ^ n) in change (2 ^ n) with e in H end;
      repeat match goal with |- context [2 ^ ?n] => let e := eval compute in (2 ^ n) in change (2 ^ n) with e end;
      Z.div_mod_to_equations; lia.
  - rewrite Z.ltb_lt in Hf. rewrite Z.mod_small by lia.
    assert (le_value (drop (Z.to_nat size) (le_bytes 8 0)) = 0) as ->; [|lia].
    key_sizes; reflexivity.
Qed.

(** ** Keys *)

(** A column of the key: its type, its size and its value. *)
Definition kcol : Type := Z * Z * Z.
Definition k_bytes (x : kcol) : list Z := le_bytes (Z.to_nat x.1.2) x.2.
Definition packed (ks : list kcol) : list Z := concat (k_bytes <$> ks).
Definition k_ok (x : kcol) : Prop := key_int x.1.1 x.1.2 ∧ 0 <= x.2 < 2 ^ 64.
Definition k_fits (x : kcol) : bool := fits x.1.1 x.1.2 x.2.

(** The key columns of a table from column [i] on, placed behind one another. *)
Fixpoint key_layout (d : CTableDefinition) (off i : Z) (ks : list kcol) : Prop :=
  match ks with
  | [] => True
  | x :: ks' => FieldType d i = Some x.1.1 ∧ FieldSize d i = Some x.1.2 ∧ FieldOffset d i = Some off ∧
                key_layout d (off + x.1.2) (i + 1) ks'
  end.

Lemma k_bytes_length x : k_ok x -> Z.of_nat (length (k_bytes x)) = x.1.2.
Proof. intros [[_ ?] _]. unfold k_bytes. rewrite length_le_bytes. lia. Qed.

Lemma take_drop_z {X} (l : list X) (n : nat) : (n <= length l)%nat -> ∃ a b, l = a ++ b ∧ length a = n.
Proof. intros H. exists (take n l), (drop n l). rewrite take_drop, length_take. split; [done|lia]. Qed.

Lemma pack_ints_spec d vals ks a b i :
  Forall k_ok ks -> key_layout d (Z.of_nat (length a)) i ks -> (length (packed ks) <= length b)%nat ->
  (∀ j x, ks !! j = Some x -> ∃ v, rd vals (i + Z.of_nat j) = Some v ∧ v_word v = x.2) ->
  ∃ c buf, pack_ints d vals (a ++ b) i (length ks) = Some (c, buf) ∧ length buf = length (a ++ b) ∧
    if forallb k_fits ks then c = 0 ∧ ∃ z, buf = a ++ packed ks ++ z else c = -6.
Proof.
  revert a b i. induction ks as [|x ks IH]; intros a b i Hok Hlay Hlen Hv; cbn [pack_ints length forallb].
  { exists 0, (a ++ b). split_and!; [done|done|done|by exists b]. }
  apply Forall_cons in Hok as [Hx Hok]. destruct Hlay as (Ht & Hs & Ho & Hlay).
  destruct (Hv 0%nat x eq_refl) as (v & Hrd & Hw). rewrite Z.add_0_r in Hrd. rewrite Ho, Hrd, Ht, Hs. osimpl.
  unfold packed in Hlen. rewrite fmap_cons in Hlen. cbn [concat] in Hlen. rewrite length_app in Hlen.
  destruct (take_drop_z b (length (k_bytes x))) as (b1 & b2 & -> & Hb1); [lia|]. rewrite length_app in Hlen.
  pose proof (k_bytes_length x Hx) as Hxl. unfold v_u64. rewrite Hw.
  rewrite StoreValue_spec by (apply Hx || lia). fold (k_fits x). osimpl. destruct (k_fits x); cbn [andb].
  2: { exists (-6), (a ++ b1 ++ b2). by split_and!. }
  cbn [Z.ltb Z.compare]. fold (k_bytes x). rewrite app_assoc.
  destruct (IH (a ++ k_bytes x) b2 (i + 1) Hok) as (c & buf & Hp & Hl & Hc).
  - rewrite length_app, Nat2Z.inj_add, Hxl. exact Hlay.
  - unfold packed. lia.
  - intros j y Hj. replace (i + 1 + Z.of_nat j) with (i + Z.of_nat (S j)) by lia. by apply Hv.
  - exists c, buf. split; [done|]. split; [rewrite Hl, !length_app; lia|]. destruct (forallb k_fits ks); [|done].
    destruct Hc as [-> [z ->]]. split; [done|]. exists z. unfold packed. rewrite fmap_cons. cbn [concat]. by rewrite <- !app_assoc.
Qed.

Lemma UnpackKey_spec d ks p i off val :
  Forall k_ok ks -> key_layout d off i ks -> forallb k_fits ks = true -> holds p (packed ks) -> 0 <= i ->
  i + Z.of_nat (length ks) <= Z.of_nat (length val) ->
  ∃ val', UnpackKey_loop d p i val (length ks) = Some val' ∧ length val' = length val ∧
    (∀ j, j < i -> rd val' j = rd val j) ∧
    ∀ j x, ks !! j = Some x -> v_word <$> rd val' (i + Z.of_nat j) = Some x.2.
Proof.
  revert p i off val. induction ks as [|x ks IH]; intros p i off val Hok Hlay Hfit Hp Hi Hl; cbn [UnpackKey_loop length].
  { exists val. by split_and!. }
  apply Forall_cons in Hok as [Hx Hok]. destruct Hlay as (Ht & Hs & _ & Hlay). cbn [forallb] in Hfit.
  apply andb_true_iff in Hfit as [Hf Hfit]. unfold packed in Hp. rewrite fmap_cons in Hp. cbn [concat] in Hp.
  apply holds_app in Hp as [Hp1 Hp2]. rewrite (k_bytes_length x Hx) in Hp2. rewrite Hs, Ht. osimpl.
  rewrite (unpack_int_spec p _ _ x.2) by (apply Hx || done). osimpl. cbn [length] in Hl.
  destruct (rd_is_Some val i) as [v Hv]; [lia|]. rewrite Hv. osimpl. set (v' := v_set_word v x.2).
  rewrite wr_is_Some by lia. osimpl. set (val1 := <[Z.to_nat i := v']> val).
  assert (wr val i v' = Some val1) as Hwr by (apply wr_is_Some; lia).
  destruct (IH (padd p x.1.2) (i + 1) (off + x.1.2) val1 Hok Hlay Hfit Hp2) as (val' & Hrun & Hlen & Hlow & Hj); [lia| |].
  { unfold val1. rewrite length_insert. lia. }
  exists val'. split; [exact Hrun|]. split; [rewrite Hlen; apply length_insert|]. split.
  - intros j Hji. rewrite Hlow, (rd_wr _ _ _ _ _ Hwr) by lia. destruct (Z.eqb_spec i j); [lia|done].
  - intros [|j] y Hy; cbn in Hy.
    + simplify_eq. rewrite Z.add_0_r, Hlow, (rd_wr _ _ _ _ _ Hwr), Z.eqb_refl by lia. cbn. f_equal. apply uwrap_small. apply Hx.
    + replace (i + Z.of_nat (S j)) with (i + 1 + Z.of_nat j) by lia. by apply Hj.
Qed.

(** [C21] Integer keys: packing a key succeeds exactly when every value fits its
    column, and unpacking the bytes gives the values back, sign included; a
    value too wide for its column is refused ([-4] for a single column, [-6]
    for several) and never cut. *)
Theorem packed_key_roundtrip (d : CTableDefinition) (ks : list kcol) (vals : list CValue) (buf : list Z) :
  keyFormat d ≠ 0 -> 0 <= keyFormat d <= Z.of_nat (length buf) -> Z.of_nat (length buf) < 2 ^ 31 ->
  keyFields d = Z.of_nat (length ks) -> ks ≠ [] -> Forall k_ok ks -> key_layout d 0 0 ks ->
  (length (packed ks) <= length buf)%nat ->
  (∀ j x, ks !! j = Some x -> ∃ v, rd vals (Z.of_nat j) = Some v ∧ v_word v = x.2) ->
  ∃ c buf', BuildPackedKey d vals (Z.of_nat (length buf)) buf = Some (c, buf') ∧ length buf' = length buf ∧
    (c = 0 <-> forallb k_fits ks = true) ∧ (c = 0 ∨ c = -4 ∨ c = -6) ∧
    (c = 0 -> ∀ old, (length ks <= length old)%nat ->
       ∃ vals', UnpackKey d (Some (Ptr buf' 0)) old = Some vals' ∧
         ∀ j x, ks !! j = Some x -> v_word <$> rd vals' (Z.of_nat j) = Some x.2).
Proof.
  intros Hkf Hfmt Hbuf Hn Hne Hok Hlay Hlen Hv.
  assert (∃ c buf', BuildPackedKey d vals (Z.of_nat (length buf)) buf = Some (c, buf') ∧ length buf' = length buf ∧
    (c = 0 ∨ c = -4 ∨ c = -6) ∧ if forallb k_fits ks then c = 0 ∧ ∃ z, buf' = packed ks ++ z else c ≠ 0) as (c & buf' & Hb & Hl & Hcc & Hc).
  { unfold BuildPackedKey. destruct ks as [|x ks]; [done|]. destruct (Hv 0%nat x eq_refl) as (v & Hrd & Hw).
    change (Z.of_nat 0) with 0 in Hrd. rewrite Hrd. osimpl. destruct (Z.eqb_spec (keyFormat d) 0); [done|]. rewrite Hn.
    destruct ks as [|y ks].
    - cbn [length]. change (Z.of_nat 1 =? 1) with true. cbn [negb]. rewrite uwrap_small by lia.
      destruct (Z.ltb_spec (Z.of_nat (length buf)) (keyFormat d)); [lia|].
      destruct Hlay as (Ht & Hs & _ & _). apply Forall_cons in Hok as [Hx _]. pose proof (k_bytes_length x Hx) as Hxl.
      rewrite Ht, Hs. osimpl. unfold packed in Hlen. cbn in Hlen. rewrite app_nil_r in Hlen.
      destruct (take_drop_z buf (length (k_bytes x))) as (b1 & b2 & -> & Hb1); [lia|].
      pose proof (StoreValue_spec [] b1 b2 x.2 x.1.1 x.1.2) as Hst. cbn [app length] in Hst. change (Z.of_nat 0) with 0 in Hst. unfold v_u64. rewrite Hw.
      rewrite Hst by (apply Hx || lia). fold (k_fits x). cbn [forallb].
      destruct (k_fits x); cbn; eexists _, _; (split; [done|]).
      + rewrite !length_app, length_le_bytes. destruct Hx as [[_ ?] _]. split; [lia|]. split; [by left|]. split; [done|]. exists b2.
        unfold packed. cbn. by rewrite app_nil_r.
      + split; [done|]. split; [by right; left|]. done.
    - destruct (Z.eqb_spec (Z.of_nat (length (x :: y :: ks))) 1) as [E|_]; [cbn [length] in E; lia|].
      rewrite swrap_small by lia. destruct (Z.ltb_spec (Z.of_nat (length buf)) (keyFormat d)); [lia|]. rewrite Nat2Z.id.
      destruct (pack_ints_spec d vals (x :: y :: ks) [] buf 0 Hok Hlay Hlen Hv) as (c & buf' & Hp & Hl & Hc).
      exists c, buf'. split; [exact Hp|]. split; [exact Hl|]. destruct (forallb k_fits (x :: y :: ks)).
      + destruct Hc as [-> Hz]. split; [by left|]. split; [done|exact Hz].
      + subst c. split; [by right; right|done]. }
  exists c, buf'. split; [done|]. split; [done|]. split; [destruct (forallb k_fits ks); [|done]; split; [done|]; by intros _; destruct Hc|].
  split; [done|]. intros -> old Hold. destruct (forallb k_fits ks) eqn:Hfit; [|done]. destruct Hc as [_ [z ->]].
  destruct (UnpackKey_spec d ks (Some (Ptr (packed ks ++ z) 0)) 0 0 old Hok Hlay Hfit) as (vals' & Hu & _ & _ & Hj); [|lia|lia|].
  { apply (proj1 (holds_app _ _ z)), holds_whole. }
  exists vals'. split; [|exact Hj]. unfold UnpackKey. destruct (Z.eqb_spec (keyFormat d) 0); [done|]. by rewrite Hn, Nat2Z.id.
Qed.

(** Two columns, -5 in 2 bytes and 300 in 2 unsigned bytes *)
Definition key_table : CTableDefinition :=
  set_keyFormat 4 (set_keyFields 2 (set_fieldList [MkField (Some [97]) 2 DField_Signed 1 0 0 0 0 HASHSTOP;
    MkField (Some [98]) 2 DField_Unsigned 1 2 0 0 0 HASHSTOP] (new_table 2 blank_table))).

Lemma packed_key_roundtrip_witness :
  ∃ c buf', BuildPackedKey key_table [MakeInt (-5); MakeInt 300] 4 [0; 0; 0; 0] = Some (c, buf') ∧ c = 0 ∧
    ∃ vals', UnpackKey key_table (Some (Ptr buf' 0)) [CValue_zero; CValue_zero] = Some vals' ∧
      v_word <$> rd vals' 0 = Some (u64 (-5)) ∧ v_word <$> rd vals' 1 = Some 300.
Proof.
  destruct (packed_key_roundtrip key_table [(DField_Signed, 2, u64 (-5)); (DField_Unsigned, 2, 300)]
    [MakeInt (-5); MakeInt 300] [0; 0; 0; 0]) as (c & buf' & Hb & _ & Hc & _ & Hu).
  - done.
  - by vm_compute.
  - by vm_compute.
  - done.
  - done.
  - repeat (apply Forall_cons; split; [split; cbn [fst snd]; [split; [first [by left|by right]|lia]|by vm_compute]|]). done.
  - by vm_compute.
  - vm_compute. lia.
  - intros j x Hj. destruct j as [|[|j]]; cbn in Hj; simplify_eq; eexists; done.
  - assert (c = 0) as -> by (apply Hc; vm_compute; reflexivity). exists 0, buf'. split; [exact Hb|]. split; [done|].
    destruct (Hu eq_refl [CValue_zero; CValue_zero]) as (vals' & Hv & Hw); [cbn; lia|].
    exists vals'. split; [exact Hv|]. split; [exact (Hw 0%nat _ eq_refl)|exact (Hw 1%nat _ eq_refl)].
Defined.
