(* ===== verification/Field.v ===== *)
(** * Field: field sets, rows and field operations

    Models [src/common/field.h] and [src/common/field.cc]: the sets of
    requested fields, a row of values, and the lists of (field, operation,
    value) that update a row or select it.

    Signed addition wraps (the code relies on it to detect overflow).
    [double] is IEEE binary64: bit patterns converted to the Standard
    Library's executable [spec_float] and back; NaNs are canonical. *)

From Stdlib Require Import SpecFloat.
From S2P Require Import Prelude Bitsop Value Protocol Codec Section Md5 TableDef.

(** ** double *)

Definition dbl_dec (x : Z) : spec_float :=
  let s := Z.testbit x 63 in
  let e := (x / 2 ^ 52) mod 2 ^ 11 in
  let m := x mod 2 ^ 52 in
  if e =? 0 then (if m =? 0 then S754_zero s else S754_finite s (Z.to_pos m) (-1074))
  else if e =? 2047 then (if m =? 0 then S754_infinity s else S754_nan)
  else S754_finite s (Z.to_pos (m + 2 ^ 52)) (e - 1075).

Definition dbl_enc (f : spec_float) : Z :=
  let sgn (s : bool) := if s then 2 ^ 63 else 0 in
  match f with
  | S754_zero s => sgn s
  | S754_infinity s => sgn s + 2047 * 2 ^ 52
  | S754_nan => 2047 * 2 ^ 52 + 2 ^ 51
  | S754_finite s m e =>
      if Zpos m <? 2 ^ 52 then sgn s + Zpos m
      else sgn s + (e + 1075) * 2 ^ 52 + (Zpos m - 2 ^ 52)
  end.

Definition dbl_add (x y : Z) : Z := dbl_enc (SFadd 53 1024 (dbl_dec x) (dbl_dec y)).
Definition dbl_of_Z (z : Z) : Z := dbl_enc (binary_normalize 53 1024 z 0 false).

Example dbl_examples :
  dbl_of_Z 1 = 0x3ff0000000000000 /\ dbl_of_Z (-3) = 0xc008000000000000 /\
  dbl_add (dbl_of_Z 1) (dbl_of_Z 2) = dbl_of_Z 3 /\
  dbl_of_Z (2 ^ 53 + 1) = dbl_of_Z (2 ^ 53) /\
  dbl_add 0x3fb999999999999a 0x3fc999999999999a = 0x3fd3333333333334.
Proof. by vm_compute. Qed.

(** ** class CFieldSet

    [fs_blk] is the allocated block; [fieldId] points behind its first two
    bytes, the capacity [fieldId[-2]] and the number of ids [fieldId[-1]]. *)

Record CFieldSet := MkFieldSet { fs_blk : list Z; fs_mask : list Z }.

Definition fs_at (s : CFieldSet) (i : Z) : option Z := rd (fs_blk s) (i + 2).
Definition fs_put (s : CFieldSet) (i v : Z) : option CFieldSet :=
  b ← wr (fs_blk s) (i + 2) (u8 v); Some (MkFieldSet b (fs_mask s)).

Definition fs_MaxFields (s : CFieldSet) : option Z := fs_at s (-2).
Definition fs_NumFields (s : CFieldSet) : option Z := fs_at s (-1).
Definition fs_FieldId (s : CFieldSet) (n : Z) : option Z :=
  k ← fs_NumFields s; if (0 <=? n) && (n <? k) then fs_at s n else Some 0.

(** [BuildFieldMask]: ids from position [i] on *)
Fixpoint fs_BuildFieldMask_loop (s : CFieldSet) (i : Z) (n : nat) (mask : list Z) : option (list Z) :=
  match n with
  | O => Some mask
  | S n' => id ← fs_at s i; mask ← FIELD_SET id mask; fs_BuildFieldMask_loop s (i + 1) n' mask
  end.
Definition fs_BuildFieldMask (s : CFieldSet) (mask : list Z) : option (list Z) :=
  k ← fs_NumFields s; fs_BuildFieldMask_loop s 0 (Z.to_nat k) mask.

(** [CFieldSet(int n)] *)
Definition new_FieldSet (n : Z) : option CFieldSet :=
  let n := if 255 <? n then 255 else n in
  if n <? 0 then None
  else Some (MkFieldSet (u8 n :: 0 :: replicate (Z.to_nat n) 0) (replicate 32 0)).

(** Copy of [n] ids into [fieldId]: the source has [n] bytes, the block room. *)
Definition fs_fill (s : CFieldSet) (idtab : list Z) (n : Z) : option CFieldSet :=
  x ← blk idtab n; b ← wr_many (fs_blk s) 2 x; Some (MkFieldSet b (fs_mask s)).

(** [CFieldSet(const uint8_t*, int)]: the mask starts as [junk]. *)
Definition new_FieldSet_ids (junk : list Z) (idtab : list Z) (n : Z) : option CFieldSet :=
  let n := if 255 <? n then 255 else n in
  if n <? 0 then None
  else
    s ← fs_fill (MkFieldSet (u8 n :: u8 n :: replicate (Z.to_nat n) 0) junk) idtab n;
    m ← fs_BuildFieldMask s (fs_mask s); Some (MkFieldSet (fs_blk s) m).

(** [CFieldSet(const uint8_t*, int, int)] *)
Definition new_FieldSet_total (idtab : list Z) (n total : Z) : option CFieldSet :=
  let n := if 255 <? n then 255 else n in
  let total := if 255 <? total then 255 else total in
  if (n <? 0) || (total <? 0) then None
  else
    s ← fs_fill (MkFieldSet (u8 total :: u8 n :: replicate (Z.to_nat total) 0) (replicate 32 0)) idtab n;
    m ← fs_BuildFieldMask s (fs_mask s); Some (MkFieldSet (fs_blk s) m).

(** The copy constructor *)
Definition fs_Clone (s : CFieldSet) : option CFieldSet :=
  n ← fs_MaxFields s; x ← blk (fs_blk s) (n + 2); Some (MkFieldSet x (fs_mask s)).

Definition fs_Clean (s : CFieldSet) : option CFieldSet :=
  s ← fs_put s (-1) 0; Some (MkFieldSet (fs_blk s) (replicate 32 0)).

(** [Set]: "clean before set" *)
Definition fs_Set (s : CFieldSet) (idtab : list Z) (n : Z) : option CFieldSet :=
  let n := if 255 <? n then 255 else n in
  if n <? 0 then None
  else
    s ← fs_put s (-1) n; s ← fs_fill s idtab n;
    m ← fs_BuildFieldMask s (fs_mask s); Some (MkFieldSet (fs_blk s) m).

(** [REALLOC] keeps the common prefix of the block. *)
Definition fs_Realloc (s : CFieldSet) (total : Z) : option CFieldSet :=
  if total + 2 <? 0 then None
  else
    let n := Z.to_nat (total + 2) in
    b ← wr (take n (fs_blk s) ++ replicate (n - length (fs_blk s)) 0) 0 (u8 total);
    Some (MkFieldSet b (fs_mask s)).

Definition fs_AddField (s : CFieldSet) (id : Z) : option CFieldSet :=
  n ← fs_NumFields s;
  max ← fs_MaxFields s;
  if max <=? n then Some s
  else
    s ← fs_put s n id;
    s ← fs_put s (-1) (n + 1);
    m ← FIELD_SET id (fs_mask s);
    Some (MkFieldSet (fs_blk s) m).

Definition fs_FieldPresent (s : CFieldSet) (id : Z) : option Z :=
  if (0 <=? id) && (id <? 255) then FIELD_ISSET id (fs_mask s) else Some 0.

(** ** class CRowValue: a table and its values, [value[NumFields()+1]] *)

Record CRowValue := MkRow { row_def : CTableDefinition; row_value : list CValue }.

Definition new_RowValue (t : CTableDefinition) : CRowValue :=
  MkRow t (replicate (Z.to_nat (numFields t + 1)) CValue_zero).
Definition row_Clean (r : CRowValue) : CRowValue := new_RowValue (row_def r).
Definition row_DefaultValue (r : CRowValue) : option CRowValue :=
  v ← GetDefaultRow (row_def r) (row_value r); Some (MkRow (row_def r) v).
Definition row_at (r : CRowValue) (n : Z) : option CValue := rd (row_value r) n.
Definition row_put (r : CRowValue) (n : Z) (v : CValue) : option CRowValue :=
  l ← wr (row_value r) n v; Some (MkRow (row_def r) l).
(** [FieldValue(int id)]: the inner option is NULL. *)
Definition row_FieldValue (r : CRowValue) (id : Z) : option (option CValue) :=
  if (0 <=? id) && (id <=? numFields (row_def r)) then v ← row_at r id; Some (Some v) else Some None.
Definition row_FieldValue_name (r : CRowValue) (name : option ptr) : option (option CValue) :=
  id ← FieldId (row_def r) name 0; row_FieldValue r id.
Definition CopyValue (r : CRowValue) (v : list CValue) (id n : Z) : option CRowValue :=
  if Z.of_nat (length v) <? n then None
  else l ← wr_many (row_value r) id (take (Z.to_nat n) v); Some (MkRow (row_def r) l).

(** [value[id].u64 = now] *)
Definition row_stamp (r : CRowValue) (id : Z) (cond : bool) (now : Z) : option CRowValue :=
  if (0 <? id) && cond then v ← row_at r id; row_put r id (v_set_word v now) else Some r.
Definition UpdateTimestamp (r : CRowValue) (now updateall : Z) : option CRowValue :=
  let d := row_def r in
  r ← row_stamp r (hasLastacc d) true now;
  r ← row_stamp r (hasLastmod d) true now;
  row_stamp r (hasLastcmod d) (negb (updateall =? 0)) now.

(** [CRowValue::Compare]: 0 equal, -1 different, -2 a float field, -3 a field
    of no type. *)
Fixpoint row_Compare (r rv : CRowValue) (fieldIDList : list Z) : option Z :=
  match fieldIDList with
  | [] => Some 0
  | id :: l =>
      t ← FieldType (row_def r) id;
      let rest := row_Compare r rv l in
      if (t =? DField_Signed) || (t =? DField_Unsigned) then
        a ← row_at r id; b ← row_FieldValue rv id; b ← b;
        if negb (v_u64 a =? v_u64 b) then Some (-1) else rest
      else if t =? DField_Float then Some (-2)
      else if t =? DField_String then
        a ← row_at r id; b ← row_FieldValue rv id; b ← b;
        e ← StringEqual (v_str a) (v_str b); if negb e then Some (-1) else rest
      else if t =? DField_Binary then
        a ← row_at r id; b ← row_FieldValue rv id; b ← b;
        e ← BinaryEqual a b; if negb e then Some (-1) else rest
      else Some (-3)
  end.

(** ** class CFieldValue *)

Record SFieldValue := MkSField { sf_id : Z; sf_oper : Z; sf_type : Z; sf_val : CValue }.

(** [fv_arr] is the allocated array of [maxFields] elements. *)
Record CFieldValue := MkFieldValue {
  fv_arr : list SFieldValue; fv_numFields : Z; fv_typeMask : Z * Z
}.
Definition fv_maxFields (f : CFieldValue) : Z := Z.of_nat (length (fv_arr f)).

Definition no_sfield : SFieldValue := MkSField 0 0 0 CValue_zero.
Definition new_FieldValue (total : Z) : CFieldValue :=
  MkFieldValue (replicate (Z.to_nat total) no_sfield) 0 (0, 0).
(** [CFieldValue(const CFieldValue &fv, int sparse)] *)
Definition fv_Clone (f : CFieldValue) (sparse : Z) : CFieldValue :=
  MkFieldValue (take (Z.to_nat (fv_numFields f)) (fv_arr f) ++ replicate (Z.to_nat sparse) no_sfield)
    (fv_numFields f) (fv_typeMask f).
Definition fv_Clean (f : CFieldValue) : CFieldValue := MkFieldValue (fv_arr f) 0 (0, 0).
Definition fv_Realloc (f : CFieldValue) (total : Z) : CFieldValue :=
  let n := Z.to_nat total in
  MkFieldValue (take n (fv_arr f) ++ replicate (n - length (fv_arr f)) no_sfield)
    (fv_numFields f) (fv_typeMask f).

Definition fv_get {A} (g : SFieldValue -> A) (d : A) (f : CFieldValue) (n : Z) : option A :=
  if (0 <=? n) && (n <? fv_numFields f) then g <$> rd (fv_arr f) n else Some d.
Definition fv_FieldId := fv_get sf_id 0.
Definition fv_FieldType := fv_get sf_type DField_None.
Definition fv_FieldOperation := fv_get sf_oper 0.
Definition fv_FieldValue := fv_get (λ s, Some (sf_val s)) None.

Definition AddValue (f : CFieldValue) (id op t : Z) (val : CValue) : option CFieldValue :=
  if fv_numFields f =? fv_maxFields f then Some f
  else
    a ← wr (fv_arr f) (fv_numFields f) (MkSField (u8 id) (u8 op) (u8 t) val);
    Some (MkFieldValue a (fv_numFields f + 1) (fv_typeMask f)).
Definition NextFieldValue (f : CFieldValue) : option (option CValue) :=
  if fv_numFields f =? fv_maxFields f then Some None
  else s ← rd (fv_arr f) (fv_numFields f); Some (Some (sf_val s)).
Definition AddValueNoVal (f : CFieldValue) (id op t : Z) : option CFieldValue :=
  if fv_numFields f =? fv_maxFields f then Some f
  else
    s ← rd (fv_arr f) (fv_numFields f);
    a ← wr (fv_arr f) (fv_numFields f) (MkSField (u8 id) (u8 op) (u8 t) (sf_val s));
    Some (MkFieldValue a (fv_numFields f + 1) (fv_typeMask f)).

Definition UpdateTypeMask (f : CFieldValue) (flag : Z) : CFieldValue :=
  let '(a, b) := fv_typeMask f in
  MkFieldValue (fv_arr f) (fv_numFields f) (u8 (Z.lor a flag), u8 (Z.lor b (Z.lnot flag))).
Definition HasTypeRO (f : CFieldValue) : Z := Z.land (fv_typeMask f).1 FF_READONLY.
Definition HasTypeRW (f : CFieldValue) : Z := Z.land (fv_typeMask f).2 FF_READONLY.
Definition HasTypeVolatile (f : CFieldValue) : Z := Z.land (fv_typeMask f).1 FF_VOLATILE.
Definition HasTypeCommit (f : CFieldValue) : Z := Z.land (fv_typeMask f).2 FF_VOLATILE.
Definition HasTypeTimestamp (f : CFieldValue) : Z := Z.land (fv_typeMask f).1 FF_TIMESTAMP.

Fixpoint fv_BuildFieldMask_loop (l : list SFieldValue) (mask : list Z) : option (list Z) :=
  match l with
  | [] => Some mask
  | s :: l' => mask ← FIELD_SET (sf_id s) mask; fv_BuildFieldMask_loop l' mask
  end.
Definition fv_BuildFieldMask (f : CFieldValue) (mask : list Z) : option (list Z) :=
  fv_BuildFieldMask_loop (take (Z.to_nat (fv_numFields f)) (fv_arr f)) mask.

(** ** CFieldValue::Update *)

(** [switch(size*2+type)]: bounds of the integers a column stores. *)
Definition trunc_bounds (k : Z) : option (Z * Z) :=
  if k =? 3 then Some (-0x80, 0x7F)
  else if k =? 4 then Some (0, 0xFF)
  else if k =? 5 then Some (-0x8000, 0x7FFF)
  else if k =? 6 then Some (0, 0xFFFF)
  else if k =? 7 then Some (-0x800000, 0x7FFFFF)
  else if k =? 8 then Some (0, 0xFFFFFF)
  else if k =? 9 then Some (-0x80000000, 0x7FFFFFFF)
  else if k =? 10 then Some (0, 0xFFFFFFFF)
  else if k =? 11 then Some (-0x8000000000, 0x7FFFFFFFFF)
  else if k =? 12 then Some (0, 0xFFFFFFFFFF)
  else if k =? 13 then Some (-0x800000000000, 0x7FFFFFFFFFFF)
  else if k =? 14 then Some (0, 0xFFFFFFFFFFFF)
  else if k =? 15 then Some (-0x80000000000000, 0x7FFFFFFFFFFFFF)
  else if k =? 16 then Some (0, 0xFFFFFFFFFFFFFF)
  else None.

Definition TruncateIntValue (v1 : CValue) (type size : Z) : CValue :=
  match trunc_bounds (size * 2 + type) with
  | None => v1
  | Some (lo, hi) =>
      if v_s64 v1 <? lo then v_set_word v1 lo else if hi <? v_s64 v1 then v_set_word v1 hi else v1
  end.

(** [v1.s64 += v2.s64] with the overflow tests *)
Definition add_s64 (a b : Z) : Z :=
  let r := s64 (a + b) in
  if 0 <? a then (if (0 <? b) && (r <? 0) then 0x7FFFFFFFFFFFFFFF else r)
  else (if (b <? 0) && (0 <? r) then -0x8000000000000000 else r).

(** SetBits on an integer; [u] is [v2.u64]: offset, size and value packed *)
Definition setbits_int (v1 u : Z) : Z :=
  let off := u32 (Z.shiftr u 32) in
  let size := Z.shiftr off 24 in
  let off := Z.land off 0xFFFFFF in
  let value := Z.land u 0xFFFFFFFF in
  if (8 * 8 <=? off) || (size =? 0) then v1
  else
    let size := if 32 <? size then 32 else size in
    let size := if u32 (8 * 8 - off) <? size then 8 * 8 - off else size in
    let mask := u64 (Z.shiftl (u64 (Z.shiftl 1 size - 1)) off) in
    let v1 := Z.land v1 (u64 (Z.lnot mask)) in
    Z.lor v1 (Z.land (u64 (Z.shiftl value off)) mask).

(** [for(size+=off; off < size; off++, value>>=1)], [n] bits left *)
Fixpoint setbits_loop (p : option ptr) (off value : Z) (n : nat) : option (option ptr) :=
  match n with
  | O => Some p
  | S n' =>
      q ← p;
      m ← (if Z.land value 1 =? 0 then __clr_b (p_blk q) off (p_off q) else __set_b (p_blk q) off (p_off q));
      setbits_loop (Some (Ptr m (p_off q))) (off + 1) (Z.shiftr value 1) n'
  end.

(** SetBits on a byte string; [off] and [size] are signed ints here. *)
Definition setbits_bin (v1 : CValue) (u : Z) : option CValue :=
  let len := bin_len (v_str v1) in
  let off := s32 (Z.shiftr u 32) in
  let size := Z.shiftr off 24 in
  let off := Z.land off 0xFFFFFF in
  let value := Z.land u 0xFFFFFFFF in
  if (8 * len <=? off) || (size =? 0) then Some v1
  else
    let size := if 32 <? size then 32 else size in
    let size := if 8 * len - off <? size then 8 * len - off else size in
    p ← setbits_loop (v_ptr v1) off value (Z.to_nat size);
    Some (MkValue (v_word v1) p).

(** [v1.str = v2.str] cut to the field size *)
Definition set_str_cut (v1 v2 : CValue) (size : Z) : CValue :=
  let v1 := v_set_str v1 (v_str v2) in
  if size <? bin_len (v_str v1) then v_set_len v1 size else v1.

Definition is_int (t : Z) : bool := (t =? DField_Signed) || (t =? DField_Unsigned).
Definition is_bin (t : Z) : bool := (t =? DField_String) || (t =? DField_Binary).

(** One case of [switch(TP(FieldType(id), type, oper))]: column type and size,
    old value, operand.  Unsupported combinations leave the value alone. *)
Definition update_value (ft size : Z) (v1 : CValue) (type oper : Z) (v2 : CValue) : option CValue :=
  if oper =? DField_Set then
    if (is_int ft && (type =? DField_Signed)) || ((ft =? DField_Unsigned) && (type =? DField_Unsigned))
    then Some (TruncateIntValue (v_set_word v1 (v_s64 v2)) ft size)
    else if (ft =? DField_Float) && (type =? DField_Signed) then Some (val_SetFlt v1 (dbl_of_Z (v_s64 v2)))
    else if (ft =? DField_Float) && (type =? DField_Unsigned) then Some (val_SetFlt v1 (dbl_of_Z (v_u64 v2)))
    else if (ft =? DField_Float) && (type =? DField_Float) then Some (val_SetFlt v1 (v_flt v2))
    else if ((ft =? DField_String) && (type =? DField_String)) || ((ft =? DField_Binary) && is_bin type)
    then Some (set_str_cut v1 v2 size)
    else Some v1
  else if oper =? DField_Add then
    if is_int ft && (type =? DField_Signed)
    then Some (TruncateIntValue (v_set_word v1 (add_s64 (v_s64 v1) (v_s64 v2))) ft size)
    else if (ft =? DField_Float) && (type =? DField_Signed)
    then Some (val_SetFlt v1 (dbl_add (v_flt v1) (dbl_of_Z (v_s64 v2))))
    else if (ft =? DField_Float) && (type =? DField_Unsigned)
    then Some (val_SetFlt v1 (dbl_add (v_flt v1) (dbl_of_Z (v_u64 v2))))
    else if (ft =? DField_Float) && (type =? DField_Float)
    then Some (val_SetFlt v1 (dbl_add (v_flt v1) (v_flt v2)))
    else Some v1
  else if oper =? DField_OR then
    if is_int ft && (type =? DField_Signed)
    then Some (TruncateIntValue (v_set_word v1 (Z.lor (v_s64 v1) (v_s64 v2))) ft size)
    else Some v1
  else if oper =? DField_SetBits then
    if is_int ft && is_int type then Some (v_set_word v1 (setbits_int (v_u64 v1) (v_u64 v2)))
    else if is_bin ft && is_int type then setbits_bin v1 (v_u64 v2)
    else Some v1
  else Some v1.

Definition update_one (r : CRowValue) (s : SFieldValue) : option CRowValue :=
  v1 ← row_at r (sf_id s);
  ft ← FieldType (row_def r) (sf_id s);
  size ← FieldSize (row_def r) (sf_id s);
  v ← update_value ft size v1 (sf_type s) (sf_oper s) (sf_val s);
  row_put r (sf_id s) v.

Fixpoint Update_loop (l : list SFieldValue) (r : CRowValue) : option CRowValue :=
  match l with
  | [] => Some r
  | s :: l' => r ← update_one r s; Update_loop l' r
  end.

(** The elements [0 .. NumFields()-1]; reading past the array is undefined. *)
Definition fv_list (f : CFieldValue) : option (list SFieldValue) :=
  if fv_maxFields f <? fv_numFields f then None
  else Some (take (Z.to_nat (fv_numFields f)) (fv_arr f)).

Definition Update (f : CFieldValue) (r : CRowValue) : option (Z * CRowValue) :=
  l ← fv_list f; r ← Update_loop l r; Some (0, r).

(** ** CFieldValue::Compare *)

(** One case of the switch: does the row's value satisfy the condition? *)
Definition compare_value (ft : Z) (v1 : CValue) (type oper : Z) (v2 : CValue) : option bool :=
  if is_int ft && (type =? DField_Signed) then
    let a := v_s64 v1 in let b := v_s64 v2 in
    if oper =? DField_EQ then Some (a =? b)
    else if oper =? DField_NE then Some (negb (a =? b))
    else if oper =? DField_LT then Some (a <? b)
    else if oper =? DField_LE then Some (a <=? b)
    else if oper =? DField_GT then Some (b <? a)
    else if oper =? DField_GE then Some (b <=? a)
    else Some false
  else if (ft =? DField_String) && (type =? DField_String) then
    if oper =? DField_EQ then StringEqual (v_str v1) (v_str v2)
    else if oper =? DField_NE then e ← StringEqual (v_str v1) (v_str v2); Some (negb e)
    else Some false
  else if is_bin ft && is_bin type then
    if oper =? DField_EQ then BinaryEqual v1 v2
    else if oper =? DField_NE then e ← BinaryEqual v1 v2; Some (negb e)
    else Some false
  else Some false.

Fixpoint Compare_loop (l : list SFieldValue) (r : CRowValue) (iCmpFirstNRows : Z) : option Z :=
  match l with
  | [] => Some 1
  | s :: l' =>
      if (sf_id s <? keyFields (row_def r)) || (iCmpFirstNRows - 1 <? sf_id s)
      then Compare_loop l' r iCmpFirstNRows
      else
        v1 ← row_at r (sf_id s);
        ft ← FieldType (row_def r) (sf_id s);
        b ← compare_value ft v1 (sf_type s) (sf_oper s) (sf_val s);
        if b : bool then Compare_loop l' r iCmpFirstNRows else Some 0
  end.

Definition Compare (f : CFieldValue) (r : CRowValue) (iCmpFirstNRows : Z) : option Z :=
  l ← fv_list f; Compare_loop l r iCmpFirstNRows.

(** ** Integer columns *)

(** The integers a column of type [ft] and [size] bytes holds; 8-byte columns
    of either type hold any [int64_t]. *)
Definition int_lo (ft size : Z) : Z :=
  if size =? 8 then - 2 ^ 63 else if ft =? DField_Signed then - 2 ^ (8 * size - 1) else 0.
Definition int_hi (ft size : Z) : Z :=
  if size =? 8 then 2 ^ 63 - 1 else if ft =? DField_Signed then 2 ^ (8 * size - 1) - 1 else 2 ^ (8 * size) - 1.
Definition clamp (ft size x : Z) : Z := Z.max (int_lo ft size) (Z.min (int_hi ft size) x).

Lemma is_int_cases ft : is_int ft = true -> ft = DField_Signed \/ ft = DField_Unsigned.
Proof. unfold is_int. rewrite orb_true_iff, !Z.eqb_eq. done. Qed.

Lemma v_s64_range v : - 2 ^ 63 <= v_s64 v < 2 ^ 63.
Proof. apply (swrap_range 64). lia. Qed.

Lemma v_s64_word v x : - 2 ^ 63 <= x < 2 ^ 63 -> v_s64 (v_set_word v x) = x.
Proof. intros. unfold v_s64, v_set_word. cbn [v_word]. rewrite swrap_uwrap by lia. by apply swrap_small. Qed.

Lemma Truncate_clamp v ft size :
  is_int ft = true -> 1 <= size <= 8 ->
  v_s64 (TruncateIntValue v ft size) = clamp ft size (v_s64 v).
Proof.
  intros Hft Hs. pose proof (v_s64_range v) as Hr.
  assert (forall lo hi, - 2 ^ 63 <= lo -> lo <= hi -> hi < 2 ^ 63 ->
    v_s64 (if v_s64 v <? lo then v_set_word v lo else if hi <? v_s64 v then v_set_word v hi else v) =
      Z.max lo (Z.min hi (v_s64 v))) as Hc.
  { intros lo hi H1 H2 H3. destruct (Z.ltb_spec (v_s64 v) lo); [rewrite v_s64_word; lia|].
    destruct (Z.ltb_spec hi (v_s64 v)); [rewrite v_s64_word; lia|]. lia. }
  assert (size = 1 \/ size = 2 \/ size = 3 \/ size = 4 \/ size = 5 \/ size = 6 \/ size = 7 \/ size = 8)
    as Hsz by lia. unfold TruncateIntValue, clamp.
  destruct (is_int_cases ft Hft) as [-> | ->];
    destruct Hsz as [->|[->|[->|[->|[->|[->|[->| ->]]]]]]];
    (match goal with |- context [trunc_bounds ?k] =>
       let b := eval vm_compute in (trunc_bounds k) in change (trunc_bounds k) with b end);
    cbv iota beta; first [by rewrite Hc by (vm_compute; congruence) | cbn; lia].
Qed.

Lemma clamp_range ft size x : is_int ft = true -> 1 <= size <= 8 -> int_lo ft size <= clamp ft size x <= int_hi ft size.
Proof.
  intros Hft Hs. unfold clamp. assert (int_lo ft size <= int_hi ft size); [|lia].
  unfold int_lo, int_hi. destruct (size =? 8); [lia|].
  assert (0 < 2 ^ (8 * size - 1)) by (apply Z.pow_pos_nonneg; lia).
  assert (0 < 2 ^ (8 * size)) by (apply Z.pow_pos_nonneg; lia). destruct (ft =? DField_Signed); lia.
Qed.

Lemma clamp_s64 ft size x : is_int ft = true -> 1 <= size <= 8 ->
  clamp ft size (Z.max (- 2 ^ 63) (Z.min (2 ^ 63 - 1) x)) = clamp ft size x.
Proof.
  intros Hft Hs. unfold clamp.
  assert (- 2 ^ 63 <= int_lo ft size /\ int_hi ft size <= 2 ^ 63 - 1) as [? ?]; [|lia].
  assert (size = 1 \/ size = 2 \/ size = 3 \/ size = 4 \/ size = 5 \/ size = 6 \/ size = 7 \/ size = 8)
    as Hsz by lia.
  destruct (is_int_cases ft Hft) as [-> | ->];
    destruct Hsz as [->|[->|[->|[->|[->|[->|[->| ->]]]]]]]; vm_compute; split; congruence.
Qed.

(** The overflow tests saturate, except that [INT64_MIN + INT64_MIN] is 0. *)
Lemma add_s64_spec a b :
  - 2 ^ 63 <= a < 2 ^ 63 -> - 2 ^ 63 <= b < 2 ^ 63 ->
  add_s64 a b = if (a =? - 2 ^ 63) && (b =? - 2 ^ 63) then 0
                else Z.max (- 2 ^ 63) (Z.min (2 ^ 63 - 1) (a + b)).
Proof.
  intros Ha Hb. unfold add_s64, swrap.
  change (2 ^ 63) with 9223372036854775808 in *. change (2 ^ (64 - 1)) with 9223372036854775808.
  change (2 ^ 64) with 18446744073709551616.
  set (r := (a + b + 9223372036854775808) mod 18446744073709551616 - 9223372036854775808).
  assert (- 9223372036854775808 <= r < 9223372036854775808) as Hrr by (unfold r; Z.div_mod_to_equations; lia).
  assert (r = a + b \/ (r = a + b - 18446744073709551616 /\ 9223372036854775808 <= a + b) \/
          (r = a + b + 18446744073709551616 /\ a + b < - 9223372036854775808)) as Hr
    by (unfold r; Z.div_mod_to_equations; lia).
  clearbody r.
  destruct (Z.ltb_spec 0 a), (Z.ltb_spec 0 b), (Z.ltb_spec r 0), (Z.ltb_spec b 0), (Z.ltb_spec 0 r),
    (Z.eqb_spec a (- (9223372036854775808))), (Z.eqb_spec b (- (9223372036854775808))); cbn [andb]; lia.
Qed.

(** What Set, Add and OR mean before the column's range is applied. *)
Definition int_result (oper a b : Z) : Z :=
  if oper =? DField_Set then b
  else if oper =? DField_Add then (if (a =? - 2 ^ 63) && (b =? - 2 ^ 63) then 0 else a + b)
  else Z.lor a b.

(** A signed 64-bit integer: all bits from 63 on agree. *)
Lemma s64_bits x : - 2 ^ 63 <= x < 2 ^ 63 <-> forall i, 63 <= i -> Z.testbit x i = Z.testbit x 63.
Proof.
  split.
  - intros Hx i Hi. destruct (Z.ltb_spec x 0).
    + assert (forall j, 63 <= j -> Z.testbit x j = true) as Hb; [|by rewrite !Hb by lia].
      intros j Hj. replace x with (Z.lnot (Z.lnot x)) by apply Z.lnot_involutive.
      rewrite Z.lnot_spec by lia. unfold Z.lnot.
      rewrite <- (Z.mod_small (Z.pred (- x)) (2 ^ 63)) by lia. by rewrite Z.mod_pow2_bits_high by lia.
    + assert (forall j, 63 <= j -> Z.testbit x j = false) as Hb; [|by rewrite !Hb by lia].
      intros j Hj. rewrite <- (Z.mod_small x (2 ^ 63)) by lia. by rewrite Z.mod_pow2_bits_high by lia.
  - intros Hb. assert (x / 2 ^ 63 = 0 \/ x / 2 ^ 63 = -1) as Hq.
    { destruct (Z.testbit x 63) eqn:E; [right|left]; apply Z.bits_inj'; intros i Hi;
        rewrite Z.div_pow2_bits by lia; rewrite Hb by lia; [by rewrite Z.bits_m1|by rewrite Z.bits_0]. }
    Z.div_mod_to_equations. lia.
Qed.

Lemma lor_s64_range a b :
  - 2 ^ 63 <= a < 2 ^ 63 -> - 2 ^ 63 <= b < 2 ^ 63 -> - 2 ^ 63 <= Z.lor a b < 2 ^ 63.
Proof.
  rewrite !s64_bits. intros Ha Hb i Hi. rewrite !Z.lor_spec, (Ha i), (Hb i) by done. done.
Qed.

(** [C31] Integer updates saturate: Set, Add and OR with a signed operand store
    the exact result cut to the range of the column (1 to 8 bytes, signed or
    unsigned), and touch nothing but the integer.  The one exception is the sum
    of two [INT64_MIN], which the overflow test misses: it becomes 0. *)
Theorem int_update_clamps ft size v1 v2 oper :
  is_int ft = true -> 1 <= size <= 8 -> oper = DField_Set \/ oper = DField_Add \/ oper = DField_OR ->
  exists v, update_value ft size v1 DField_Signed oper v2 = Some v /\ v_ptr v = v_ptr v1 /\
    v_s64 v = clamp ft size (int_result oper (v_s64 v1) (v_s64 v2)).
Proof.
  intros Hft Hs Ho. pose proof (v_s64_range v1) as H1. pose proof (v_s64_range v2) as H2.
  assert (forall x, v_ptr (TruncateIntValue (v_set_word v1 x) ft size) = v_ptr v1) as Hp.
  { intros x. unfold TruncateIntValue. destruct (trunc_bounds _) as [[lo hi]|]; [|done]. by zcases. }
  unfold update_value. rewrite Hft. cbn [andb].
  destruct Ho as [-> | [-> | ->]]; cbn -[add_s64 TruncateIntValue clamp v_s64 Z.lor];
    (eexists; split; [reflexivity|]); (split; [apply Hp|]); rewrite Truncate_clamp by done.
  - by rewrite v_s64_word.
  - rewrite add_s64_spec by done. unfold int_result. cbn [Z.eqb DField_Add DField_Set Pos.eqb].
    destruct ((v_s64 v1 =? - 2 ^ 63) && (v_s64 v2 =? - 2 ^ 63)); [by rewrite v_s64_word|].
    rewrite v_s64_word by lia. by apply clamp_s64.
  - rewrite v_s64_word; [done|]. by apply lor_s64_range.
Qed.

(** 1-byte signed column: 100 + 100 is stored as 127. *)
Lemma int_update_clamps_witness :
  exists v, update_value DField_Signed 1 (MakeInt 100) DField_Signed DField_Add (MakeInt 100) = Some v /\
    v_ptr v = None /\
    v_s64 v = clamp DField_Signed 1 (int_result DField_Add (v_s64 (MakeInt 100)) (v_s64 (MakeInt 100))).
Proof.
  apply (int_update_clamps DField_Signed 1 (MakeInt 100) (MakeInt 100) DField_Add); [done|lia|].
  right. by left.
Defined.

(** ** Rows keep their columns in range *)

Definition column_ok (d : CTableDefinition) (id : Z) (v : CValue) : Prop :=
  forall ft size, FieldType d id = Some ft -> FieldSize d id = Some size ->
    is_int ft = true -> 1 <= size <= 8 -> int_lo ft size <= v_s64 v <= int_hi ft size.

(** One value per field, integers within the range of their column. *)
Definition row_ok (r : CRowValue) : Prop :=
  Z.of_nat (length (row_value r)) = numFields (row_def r) + 1 /\
  numFields (row_def r) < Z.of_nat (length (fieldList (row_def r))) /\
  forall id v, row_at r id = Some v -> column_ok (row_def r) id v.

Definition not_setbits (s : SFieldValue) : Prop := sf_oper s <> DField_SetBits.

Lemma update_value_range ft size v1 type oper v2 :
  oper <> DField_SetBits ->
  exists v, update_value ft size v1 type oper v2 = Some v /\
    (is_int ft = true -> 1 <= size <= 8 -> int_lo ft size <= v_s64 v1 <= int_hi ft size ->
     int_lo ft size <= v_s64 v <= int_hi ft size).
Proof.
  intros Hns. unfold update_value. destruct (Z.eqb_spec oper DField_SetBits); [done|].
  assert (forall x, is_int ft = true -> 1 <= size <= 8 ->
    int_lo ft size <= v_s64 (TruncateIntValue (v_set_word v1 x) ft size) <= int_hi ft size) as Htr.
  { intros x Hft Hs. rewrite Truncate_clamp by done. by apply clamp_range. }
  assert (is_int ft = true -> (ft =? DField_Float) = false /\ (ft =? DField_String) = false /\
          (ft =? DField_Binary) = false) as Hnot.
  { intros [-> | ->]%is_int_cases; done. }
  repeat case_match; eexists; (split; [reflexivity|]); intros Hft Hs Hv; auto;
    destruct (Hnot Hft) as (E1 & E2 & E3); rewrite ?E1, ?E2, ?E3 in *; discriminate.
Qed.

Lemma update_one_ok r s :
  row_ok r -> not_setbits s -> 0 <= sf_id s <= numFields (row_def r) ->
  exists r', update_one r s = Some r' /\ row_ok r' /\ row_def r' = row_def r.
Proof.
  intros (Hl & Hd & Hall) Hns Hid. unfold update_one, row_at, FieldType, FieldSize, fld.
  destruct (rd_is_Some (row_value r) (sf_id s)) as [v1 Hv]; [lia|]. rewrite Hv. osimpl.
  destruct (rd_is_Some (fieldList (row_def r)) (sf_id s)) as [f Hf]; [lia|]. rewrite Hf. osimpl.
  destruct (update_value_range (fieldType f) (fieldSize f) v1 (sf_type s) (sf_oper s) (sf_val s) Hns)
    as (v & -> & Hrange). osimpl. unfold row_put.
  destruct (wr (row_value r) (sf_id s) v) as [l|] eqn:E; [|by rewrite wr_is_Some in E by lia]. osimpl.
  eexists. split; [reflexivity|]. split; [|done]. split; [|split; [done|]].
  - cbn. rewrite (wr_length _ _ _ _ E). done.
  - intros id v' Hv'. unfold row_at in Hv'. cbn [row_value row_def] in *. rewrite (rd_wr _ _ id _ _ E) in Hv'.
    destruct (Z.eqb_spec (sf_id s) id) as [<-|]; [|by apply Hall].
    injection Hv' as <-. intros ft size Hft Hsz Hi Hs. unfold FieldType, FieldSize, fld in *.
    rewrite Hf in *. cbn in Hft, Hsz. simplify_eq. apply Hrange; [done|done|].
    apply (Hall _ _ Hv); [by unfold FieldType, fld; rewrite Hf|by unfold FieldSize, fld; rewrite Hf|done|done].
Qed.

(** [C30] Updates keep rows well typed: an update list without SetBits whose
    field ids exist in the table always completes with code 0, and every
    integer column of the new row is within the range of its type and size. *)
Theorem Update_keeps_range f l r :
  row_ok r -> fv_list f = Some l ->
  Forall (λ s, not_setbits s /\ 0 <= sf_id s <= numFields (row_def r)) l ->
  exists r', Update f r = Some (0, r') /\ row_ok r' /\ row_def r' = row_def r.
Proof.
  intros Hr Hl Hall. unfold Update. rewrite Hl. osimpl. clear Hl f. revert r Hr Hall.
  induction l as [|s l IH]; intros r Hr Hall; cbn [Update_loop]; [by eexists|].
  apply Forall_cons_1 in Hall as [[Hns Hid] Hall].
  destruct (update_one_ok r s Hr Hns Hid) as (r1 & -> & Hr1 & Hd). osimpl.
  rewrite <- Hd in Hall. destruct (IH r1 Hr1 Hall) as (r' & He & Hr' & Hd'). exists r'.
  split; [done|]. split; [done|]. congruence.
Qed.

(** A table of a 4-byte unsigned key and a 1-byte signed counter. *)
Definition counter_table : CTableDefinition :=
  default blank_table
    (o ← AddField (new_table 2 blank_table) 0 (cstring [107]) DField_Unsigned 4;
     o ← AddField o.2 1 (cstring [110]) DField_Signed 1; Some o.2).

Definition counter_update : CFieldValue :=
  MkFieldValue [MkSField 1 DField_Add DField_Signed (MakeInt 300); MkSField 1 DField_Add DField_Signed (MakeInt (-7))]
    2 (0, 0).

Lemma Update_keeps_range_witness :
  row_ok (new_RowValue counter_table) /\
  exists r', Update counter_update (new_RowValue counter_table) = Some (0, r') /\ row_ok r' /\
    row_def r' = row_def (new_RowValue counter_table).
Proof.
  assert (row_ok (new_RowValue counter_table)) as Hr.
  { split; [by vm_compute|]. split; [by vm_compute|]. intros id v Hv ft size Hft Hsz Hi Hs.
    assert (v = CValue_zero) as ->.
    { unfold row_at, rd in Hv. destruct (id <? 0); [done|]. by apply lookup_replicate in Hv as [-> _]. }
    change (v_s64 CValue_zero) with 0. unfold int_lo, int_hi.
    assert (0 < 2 ^ (8 * size - 1)) by (apply Z.pow_pos_nonneg; lia).
    assert (0 < 2 ^ (8 * size)) by (apply Z.pow_pos_nonneg; lia). repeat case_match; lia. }
  split; [exact Hr|].
  apply (Update_keeps_range counter_update (fv_arr counter_update) (new_RowValue counter_table) Hr);
    [reflexivity|].
  assert (0 <= 1 <= numFields (row_def (new_RowValue counter_table))) by by vm_compute.
  repeat constructor; done.
Defined.

(** ** SetBits on integers *)

(** SetBits on an integer column replaces exactly the bits
    [off .. off+size-1] (size cut to 32 and to the word) by the low bits of the
    operand's value and keeps all others; [off] and [size] are the packed
    24-bit offset and 8-bit size of the operand. *)
Theorem setbits_int_bits w off size value i :
  0 <= w < 2 ^ 64 -> 0 <= off < 2 ^ 24 -> 0 <= size < 2 ^ 8 -> 0 <= value < 2 ^ 32 -> 0 <= i < 64 ->
  Z.testbit (setbits_int w (size * 2 ^ 56 + off * 2 ^ 32 + value)) i =
    if (off <=? i) && (i <? off + Z.min size 32) then Z.testbit value (i - off) else Z.testbit w i.
Proof.
  intros Hw Hoff Hsize Hval Hi. unfold setbits_int.
  assert (0 <= off < 16777216 /\ 0 <= size < 256 /\ 0 <= value < 4294967296) as (Ho & Hz & Hv)
    by (repeat split; lia).
  set (u := size * 2 ^ 56 + off * 2 ^ 32 + value).
  assert (u = (size * 16777216 + off) * 4294967296 + value) as Hu by (unfold u; lia). clearbody u.
  assert (u32 (Z.shiftr u 32) = size * 16777216 + off) as ->.
  { rewrite Z.shiftr_div_pow2 by lia. change (2 ^ 32) with 4294967296.
    rewrite <- (Z.div_unique_pos u 4294967296 (size * 16777216 + off) value) by lia.
    apply uwrap_small. lia. }
  assert (Z.shiftr (size * 16777216 + off) 24 = size) as ->.
  { rewrite Z.shiftr_div_pow2 by lia. symmetry. apply (Z.div_unique_pos _ _ _ off); lia. }
  assert (Z.land (size * 16777216 + off) 0xFFFFFF = off) as ->.
  { change 0xFFFFFF with (Z.ones 24). rewrite Z.land_ones by lia. symmetry.
    apply (Z.mod_unique_pos _ _ size off); lia. }
  assert (Z.land u 0xFFFFFFFF = value) as ->.
  { change 0xFFFFFFFF with (Z.ones 32). rewrite Z.land_ones by lia. symmetry.
    apply (Z.mod_unique_pos _ _ (size * 16777216 + off) value); lia. }
  change (8 * 8) with 64.
  destruct ((64 <=? off) || (size =? 0)) eqn:E.
  { destruct (Z.leb_spec off i), (Z.ltb_spec i (off + Z.min size 32)); cbn [andb]; try done; lia. }
  rewrite (uwrap_small 32 (64 - off)) by lia.
  set (s1 := if 32 <? size then 32 else size). set (s := if 64 - off <? s1 then 64 - off else s1).
  assert (s = Z.min (Z.min size 32) (64 - off)) as Hs.
  { unfold s, s1. destruct (Z.ltb_spec 32 size);
      [destruct (Z.ltb_spec (64 - off) 32)|destruct (Z.ltb_spec (64 - off) size)]; lia. }
  clearbody s. clear s1.
  assert (forall j, 0 <= j < 64 -> Z.testbit (u64 (Z.shiftl (u64 (Z.shiftl 1 s - 1)) off)) j =
            (off <=? j) && (j <? off + s)) as Hmask.
  { intros j Hj. rewrite uwrap_testbit, Z.shiftl_spec by lia.
    change (Z.shiftl 1 s - 1) with (Z.pred (Z.shiftl 1 s)). fold (Z.ones s).
    destruct (Z.ltb_spec j 64); [|lia]. cbn [andb].
    destruct (Z.leb_spec off j); cbn [andb]; [|by rewrite Z.testbit_neg_r by lia].
    rewrite uwrap_testbit, Z.testbit_ones_nonneg by lia.
    destruct (Z.ltb_spec (j - off) 64), (Z.ltb_spec (j - off) s), (Z.ltb_spec j (off + s)); cbn; lia || done. }
  rewrite Z.lor_spec, !Z.land_spec, Hmask by lia.
  rewrite !uwrap_testbit, Z.lnot_spec, Hmask, Z.shiftl_spec by lia.
  destruct (Z.ltb_spec i 64); [|lia]. cbn [andb].
  destruct (Z.leb_spec off i), (Z.ltb_spec i (off + s)), (Z.ltb_spec i (off + Z.min size 32)); cbn [andb negb];
    rewrite ?andb_true_r, ?andb_false_r, ?orb_false_r, ?orb_false_l; done || lia.
Qed.

Lemma setbits_int_bits_witness :
  Z.testbit (setbits_int 0xFF (3 * 2 ^ 56 + 4 * 2 ^ 32 + 5)) 5 =
    if (4 <=? 5) && (5 <? 4 + Z.min 3 32) then Z.testbit 5 (5 - 4) else Z.testbit 0xFF 5.
Proof. apply (setbits_int_bits 0xFF 4 3 5 5); lia. Defined.

(** ** Conditions *)

(** The bytes of a string value that can be compared. *)
Definition text_of (v : CValue) (l : list Z) : Prop :=
  bytes l /\ holds (v_ptr v) l /\ bin_len (v_str v) = Z.of_nat (length l).

(** Strings match when they have the same length and agree, up to letter case,
    to the first NUL. *)
Definition text_eq (l k : list Z) : Prop :=
  length l = length k /\ tolower <$> cstr (length l) l = tolower <$> cstr (length k) k.

(** What a condition [column oper operand] means. *)
Definition cond_holds (ft : Z) (v1 : CValue) (type oper : Z) (v2 : CValue) : Prop :=
  (is_int ft = true /\ type = DField_Signed /\
     ((oper = DField_EQ /\ v_s64 v1 = v_s64 v2) \/ (oper = DField_NE /\ v_s64 v1 <> v_s64 v2) \/
      (oper = DField_LT /\ v_s64 v1 < v_s64 v2) \/ (oper = DField_LE /\ v_s64 v1 <= v_s64 v2) \/
      (oper = DField_GT /\ v_s64 v1 > v_s64 v2) \/ (oper = DField_GE /\ v_s64 v1 >= v_s64 v2))) \/
  (is_bin ft = true /\ is_bin type = true /\
     exists l k, text_of v1 l /\ text_of v2 k /\
       let eq := if (ft =? DField_String) && (type =? DField_String) then text_eq l k else l = k in
       (oper = DField_EQ /\ eq) \/ (oper = DField_NE /\ ~ eq)).

(** String columns and operands have readable text. *)
Definition cond_readable (ft : Z) (v1 : CValue) (type : Z) (v2 : CValue) : Prop :=
  is_bin ft = true -> is_bin type = true -> (exists l, text_of v1 l) /\ (exists k, text_of v2 k).

Lemma text_of_unique v l k : text_of v l -> text_of v k -> l = k.
Proof.
  intros (_ & Hl & El) (_ & Hk & Ek). assert (length l = length k) as E by lia.
  apply read_n_holds in Hl, Hk. congruence.
Qed.

Lemma StringEqual_text v1 v2 l k :
  text_of v1 l -> text_of v2 k ->
  exists b, StringEqual (v_str v1) (v_str v2) = Some b /\ (b = true <-> text_eq l k).
Proof.
  intros (B1 & H1 & L1) (B2 & H2 & L2). unfold StringEqual, text_eq. rewrite L1, L2.
  destruct (Z.eqb_spec (Z.of_nat (length l)) (Z.of_nat (length k))) as [E|E].
  - change (bin_ptr (v_str v1)) with (v_ptr v1). change (bin_ptr (v_str v2)) with (v_ptr v2).
    destruct (mystrcmp_spec (v_ptr v1) (v_ptr v2) (Z.of_nat (length l)) l k H1 H2 B1 B2) as (r & -> & Hr);
      [left; lia..|]. osimpl. exists (r =? 0). split; [done|]. rewrite Z.eqb_eq, Hr, Nat2Z.id.
    replace (length k) with (length l) by lia. tauto.
  - exists false. split; [done|]. split; [done|]. intros [? _]. lia.
Qed.

Lemma BinaryEqual_text v1 v2 l k :
  text_of v1 l -> text_of v2 k ->
  exists b, BinaryEqual v1 v2 = Some b /\ (b = true <-> l = k).
Proof.
  intros (_ & H1 & L1) (_ & H2 & L2). unfold BinaryEqual. rewrite L1, L2.
  destruct (Z.eqb_spec (Z.of_nat (length l)) (Z.of_nat (length k))) as [E|E].
  - destruct (memcmp_holds (v_ptr v1) (v_ptr v2) l k H1 H2) as (r & Hr & Hiff); [lia|].
    rewrite Nat2Z.id, Hr. osimpl. exists (r =? 0). split; [done|]. by rewrite Z.eqb_eq.
  - exists false. split; [done|]. split; [done|]. intros ->. done.
Qed.

Lemma compare_value_spec ft v1 type oper v2 :
  cond_readable ft v1 type v2 ->
  exists b, compare_value ft v1 type oper v2 = Some b /\ (b = true <-> cond_holds ft v1 type oper v2).
Proof.
  intros Hr. unfold compare_value, cond_holds.
  destruct (is_int ft) eqn:Ei; cbn [andb].
  { assert (is_bin ft = false /\ (ft =? DField_String) = false) as [-> ->]
      by (by destruct (is_int_cases ft Ei) as [-> | ->]).
    destruct (Z.eqb_spec type DField_Signed) as [->|Hne]; cbn [andb].
    2: { exists false. split; [done|]. split; [done|]. intros [(_ & ? & _)|(? & _)]; done. }
    destruct (Z.eqb_spec oper DField_EQ) as [->|]; [|destruct (Z.eqb_spec oper DField_NE) as [->|];
      [|destruct (Z.eqb_spec oper DField_LT) as [->|]; [|destruct (Z.eqb_spec oper DField_LE) as [->|];
      [|destruct (Z.eqb_spec oper DField_GT) as [->|]; [|destruct (Z.eqb_spec oper DField_GE) as [->|]]]]]];
      eexists; (split; [reflexivity|]);
      rewrite ?negb_true_iff, ?Z.eqb_eq, ?Z.eqb_neq, ?Z.ltb_lt, ?Z.leb_le;
      unfold DField_EQ, DField_NE, DField_LT, DField_LE, DField_GT, DField_GE in *;
      (split; [intros; first [done|left; split; [done|split; [done|lia]]]|]);
      intros [(_ & _ & ?)|(? & _)]; (lia || done). }
  destruct (is_bin ft && is_bin type) eqn:Eb.
  2: { destruct ((ft =? DField_String) && (type =? DField_String)) eqn:Es.
       { apply andb_true_iff in Es as [->%Z.eqb_eq ->%Z.eqb_eq]. done. }
       exists false. split; [done|]. split; [done|]. intros [(? & _)|(E1 & E2 & _)]; [done|].
       by rewrite E1, E2 in Eb. }
  apply andb_true_iff in Eb as [Eb1 Eb2]. destruct (Hr Eb1 Eb2) as [(l & Hl) (k & Hk)].
  set (c := (ft =? DField_String) && (type =? DField_String)).
  assert (exists e, (if c then StringEqual (v_str v1) (v_str v2) else BinaryEqual v1 v2) = Some e /\
            (e = true <-> if c then text_eq l k else l = k)) as (e & He & Hiff).
  { destruct c; [by apply StringEqual_text|by apply BinaryEqual_text]. }
  assert (forall P, (exists l0 k0, text_of v1 l0 /\ text_of v2 k0 /\ P l0 k0) <-> P l k) as Hex.
  { intros P. split; [|by exists l, k]. intros (l0 & k0 & H1 & H2 & HP).
    by rewrite (text_of_unique v1 l l0), (text_of_unique v2 k k0). }
  assert (exists b, (if oper =? DField_EQ then Some e else if oper =? DField_NE then Some (negb e) else Some false) = Some b /\
    (b = true <-> (oper = DField_EQ /\ (if c then text_eq l k else l = k)) \/
                  (oper = DField_NE /\ ~ (if c then text_eq l k else l = k)))) as (b & Hb & Hbiff).
  { destruct (Z.eqb_spec oper DField_EQ) as [->|]; [|destruct (Z.eqb_spec oper DField_NE) as [->|]].
    - exists e. split; [done|]. rewrite Hiff. split; [by left|]. by intros [[_ ?]|[? _]].
    - exists (negb e). split; [done|]. rewrite negb_true_iff, <- Hiff. destruct e; intuition congruence.
    - exists false. split; [done|]. split; [done|]. intros [[? _]|[? _]]; done. }
  exists b. split.
  - destruct c; rewrite He; osimpl; exact Hb.
  - rewrite Hbiff. split.
    + intros Hor. right. split; [done|]. split; [done|]. by exists l, k.
    + intros [(? & _)|(_ & _ & Hx)]; [done|]. 
      destruct Hx as (l0 & k0 & H1 & H2 & HP).
      rewrite (text_of_unique v1 l l0), (text_of_unique v2 k k0); done.
Qed.

(** The conditions [Compare] looks at: fields behind the key, up to the limit. *)
Definition relevant (r : CRowValue) (lim : Z) (s : SFieldValue) : Prop :=
  keyFields (row_def r) <= sf_id s < lim.

Definition cond_of (r : CRowValue) (s : SFieldValue) : Prop :=
  exists v1 ft, row_at r (sf_id s) = Some v1 /\ FieldType (row_def r) (sf_id s) = Some ft /\
    cond_holds ft v1 (sf_type s) (sf_oper s) (sf_val s).

Definition cond_defined (r : CRowValue) (s : SFieldValue) : Prop :=
  exists v1 ft, row_at r (sf_id s) = Some v1 /\ FieldType (row_def r) (sf_id s) = Some ft /\
    cond_readable ft v1 (sf_type s) (sf_val s).

(** [C32] Row selection: [Compare] returns 1 when the row satisfies every
    relevant condition and 0 otherwise; integers compare as signed numbers,
    strings without regard to case, anything involving binary data byte by
    byte, and an unsupported combination of types and operator is never
    satisfied. *)
Theorem Compare_correct f l r lim :
  fv_list f = Some l -> (forall s, s ∈ l -> relevant r lim s -> cond_defined r s) ->
  exists c, Compare f r lim = Some c /\ (c = 0 \/ c = 1) /\
    (c = 1 <-> forall s, s ∈ l -> relevant r lim s -> cond_of r s).
Proof.
  intros Hl Hall. unfold Compare. rewrite Hl. osimpl. clear Hl f.
  induction l as [|s l IH]; cbn [Compare_loop].
  { exists 1. split; [done|]. split; [by right|]. split; [|done]. intros _ s Hs. by apply elem_of_nil in Hs. }
  destruct IH as (c & Hc & Hc01 & Hiff); [intros; apply Hall; [by right|done]|].
  destruct ((sf_id s <? keyFields (row_def r)) || (lim - 1 <? sf_id s)) eqn:Erel.
  { exists c. split; [done|]. split; [done|]. rewrite Hiff. split; [|intros H s' ? ?; apply H; [by right|done]].
    intros H s' [->|Hin]%elem_of_cons Hrel; [|by apply H]. unfold relevant in Hrel. lia. }
  assert (relevant r lim s) as Hrel by (unfold relevant; lia).
  destruct (Hall s ltac:(by left) Hrel) as (v1 & ft & Hv & Hft & Hread). rewrite Hv. osimpl. rewrite Hft. osimpl.
  destruct (compare_value_spec ft v1 (sf_type s) (sf_oper s) (sf_val s) Hread) as (b & -> & Hb). osimpl.
  destruct b.
  - exists c. split; [done|]. split; [done|]. rewrite Hiff. split.
    + intros H s' [->|Hin]%elem_of_cons Hrel'; [|by apply H]. exists v1, ft. split_and!; [done|done|by apply Hb].
    + intros H s' Hin Hrel'. apply H; [by right|done].
  - exists 0. split; [done|]. split; [by left|]. split; [done|]. intros H.
    destruct (H s ltac:(by left) Hrel) as (v1' & ft' & Hv' & Hft' & Hcond).
    assert (v1' = v1) as -> by congruence. assert (ft' = ft) as -> by congruence.
    by apply Hb in Hcond.
Qed.

(** Row (k = 5, n = 9): "n > 3" and "n <> 9" is not satisfied. *)
Lemma Compare_correct_witness :
  let r := MkRow counter_table [MakeInt 5; MakeInt 9] in
  let l := [MkSField 1 DField_GT DField_Signed (MakeInt 3); MkSField 1 DField_NE DField_Signed (MakeInt 9)] in
  exists c, Compare (MkFieldValue l 2 (0, 0)) r 256 = Some c /\ (c = 0 \/ c = 1) /\
    (c = 1 <-> forall s, s ∈ l -> relevant r 256 s -> cond_of r s).
Proof.
  intros r l. apply (Compare_correct (MkFieldValue l 2 (0, 0)) l r 256); [reflexivity|].
  intros s Hs _. exists (MakeInt 9), DField_Signed.
  apply elem_of_cons in Hs as [->|Hs]; [|apply list_elem_of_singleton in Hs as ->];
    (split; [reflexivity|]); (split; [vm_compute; reflexivity|]); intros Hb; discriminate Hb.
Defined.

(** ** Field sets *)

Definition fs_list (s : CFieldSet) : list Z :=
  match fs_blk s with _ :: num :: ids => take (Z.to_nat num) ids | _ => [] end.

(** The block has the size its first byte says; the mask has exactly the bits
    of the ids in the list. *)
Definition fs_ok (s : CFieldSet) : Prop :=
  exists max num ids, fs_blk s = max :: num :: ids /\ 0 <= num <= max /\ max <= 255 /\
    Z.of_nat (length ids) = max /\ length (fs_mask s) = 32%nat /\
    forall i, 0 <= i < 256 -> getbit (fs_mask s) i = Some (bool_decide (i ∈ take (Z.to_nat num) ids)).

Lemma getbit_zero n i : 0 <= i < 8 * Z.of_nat n -> getbit (replicate n 0) i = Some false.
Proof.
  intros Hi. unfold getbit, rd. destruct (Z.ltb_spec (i / 8) 0); [Z.div_mod_to_equations; lia|].
  rewrite lookup_replicate_2 by (Z.div_mod_to_equations; lia). simpl. by rewrite Z.bits_0.
Qed.

Lemma new_FieldSet_ok n s : new_FieldSet n = Some s -> fs_ok s /\ fs_list s = [].
Proof.
  unfold new_FieldSet. set (m := if 255 <? n then 255 else n).
  assert (m <= 255) as Hm by (unfold m; zcases). clearbody m.
  destruct (Z.ltb_spec m 0); [done|]. intros [= <-]. split; [|done].
  exists m, 0, (replicate (Z.to_nat m) 0). cbn [fs_blk fs_mask]. rewrite uwrap_small by lia.
  rewrite length_replicate. split; [done|]. split; [lia|]. split; [lia|]. split; [lia|]. split; [done|].
  intros i Hi. etransitivity; [exact (getbit_zero 32 i ltac:(lia))|done].
Qed.

Lemma rd_cons2 {A} (a b : A) l i : 0 <= i -> rd (a :: b :: l) (i + 2) = rd l i.
Proof. intros. unfold rd. zifs. by replace (Z.to_nat (i + 2)) with (S (S (Z.to_nat i))) by lia. Qed.

Lemma wr_cons2 {A} (a b x : A) l i :
  0 <= i -> wr (a :: b :: l) (i + 2) x = (λ l', a :: b :: l') <$> wr l i x.
Proof.
  intros. unfold wr. cbn [length].
  replace (Z.to_nat (i + 2)) with (S (S (Z.to_nat i))) by lia.
  destruct (Z.leb_spec 0 (i + 2)), (Z.leb_spec 0 i); try lia. cbn [andb].
  destruct (Z.ltb_spec (i + 2) (Z.of_nat (S (S (length l))))), (Z.ltb_spec i (Z.of_nat (length l)));
    try lia; done.
Qed.

(** Field sets: [AddField] never writes outside the block; while there is
    room it appends the id, when the set is full it changes nothing, and
    [FieldPresent] then answers exactly for the ids in the set, except that
    id 255 is never reported. *)
Theorem FieldSet_AddField_correct s id :
  fs_ok s -> 0 <= id < 256 ->
  exists s' max num, fs_AddField s id = Some s' /\ fs_ok s' /\
    fs_MaxFields s = Some max /\ fs_NumFields s = Some num /\
    fs_list s' = (if num <? max then fs_list s ++ [id] else fs_list s) /\
    (forall i, 0 <= i < 255 -> fs_FieldPresent s' i = Some (b2z (bool_decide (i ∈ fs_list s')))) /\
    fs_FieldPresent s' 255 = Some 0.
Proof.
  intros (max & num & ids & Hb & Hn & Hm & Hl & Hml & Hmask) Hid.
  assert (forall s0, fs_ok s0 -> forall i, 0 <= i < 255 ->
            fs_FieldPresent s0 i = Some (b2z (bool_decide (i ∈ fs_list s0)))) as Hpres.
  { intros s0 (mx & nm & l0 & Hb0 & _ & _ & _ & Hm0 & Hmask0) i Hi. unfold fs_FieldPresent.
    destruct (Z.leb_spec 0 i), (Z.ltb_spec i 255); try lia. cbn [andb].
    rewrite FIELD_ISSET_getbit, Hmask0 by lia. cbn. unfold fs_list. by rewrite Hb0. }
  assert (fs_MaxFields s = Some max /\ fs_NumFields s = Some num) as [Emax Enum].
  { unfold fs_MaxFields, fs_NumFields, fs_at. by rewrite Hb. }
  unfold fs_AddField. rewrite Enum, Emax. osimpl. destruct (Z.leb_spec max num).
  { exists s, max, num. destruct (Z.ltb_spec num max); [lia|].
    assert (fs_ok s) as Hok by (exists max, num, ids; done).
    split; [done|]. split; [done|]. split; [done|]. split; [done|]. split; [done|].
    split; [by apply Hpres|done]. }
  unfold fs_put. rewrite Hb, wr_cons2 by lia. rewrite (uwrap_small 8 id) by lia.
  rewrite (wr_is_Some ids num id) by lia. osimpl. cbn [fs_blk fs_mask].
  change (-1 + 2) with 1. rewrite wr_is_Some by (cbn [length]; lia). osimpl.
  change (Z.to_nat 1) with 1%nat. cbn [fs_blk fs_mask]. rewrite (uwrap_small 8 (num + 1)) by lia.
  destruct (FIELD_SET_spec id (fs_mask s)) as (mask & -> & Hlen & Hget); [lia|]. osimpl.
  set (ids' := <[Z.to_nat num:=id]> ids).
  assert (take (Z.to_nat (num + 1)) ids' = take (Z.to_nat num) ids ++ [id]) as Htake.
  { replace (Z.to_nat (num + 1)) with (S (Z.to_nat num)) by lia. unfold ids'.
    rewrite (take_S_r _ _ id) by (apply list_lookup_insert_eq; lia).
    by rewrite take_insert_ge by lia. }
  eexists _, max, num. split; [reflexivity|]. set (s' := MkFieldSet _ mask).
  assert (fs_list s' = take (Z.to_nat num) ids ++ [id]) as El by exact Htake.
  assert (fs_ok s') as Hok.
  { exists max, (num + 1), ids'. cbn [fs_blk fs_mask s'].
    split; [done|]. split; [lia|]. split; [lia|]. split; [unfold ids'; by rewrite length_insert|].
    split; [lia|]. intros i Hi. rewrite Hget, Htake by lia. destruct (Z.eqb_spec i id) as [->|Hne].
    - symmetry. f_equal. apply bool_decide_eq_true. apply elem_of_app. right. by left.
    - rewrite Hmask by lia. f_equal. apply bool_decide_ext. rewrite elem_of_app, list_elem_of_singleton. tauto. }
  split; [done|]. split; [done|]. split; [done|]. destruct (Z.ltb_spec num max); [|lia].
  split; [rewrite El; unfold fs_list; by rewrite Hb|]. split; [by apply Hpres|done].
Qed.

Lemma FieldSet_AddField_correct_witness :
  let s := MkFieldSet (3 :: 0 :: replicate 3 0) (replicate 32 0) in
  exists s' max num, fs_AddField s 255 = Some s' /\ fs_ok s' /\
    fs_MaxFields s = Some max /\ fs_NumFields s = Some num /\
    fs_list s' = (if num <? max then fs_list s ++ [255] else fs_list s) /\
    (forall i, 0 <= i < 255 -> fs_FieldPresent s' i = Some (b2z (bool_decide (i ∈ fs_list s')))) /\
    fs_FieldPresent s' 255 = Some 0.
Proof.
  intros s. apply (FieldSet_AddField_correct s 255); [|lia]. by apply (new_FieldSet_ok 3).
Defined.
