(* ===== verification/Result.v ===== *)
(** * Result: result packets

    Models [CResultWriter] and [CResultPacket] ([src/common/result.h],
    [src/common/packet_result.cc]): the writer counts the rows of an answer
    and encodes those inside the window [limitStart, limitNext) of the
    request.

    The buffer of the packet is the list of its used bytes; the five bytes in
    front, filled when the packet is sent, are not part of the list.  Writing
    behind the [totalBytes] of the buffer is undefined ([fits]).  The sizes are
    [int]: sums and products are wrapped to 32 bits, and a size given to
    [REALLOC] is converted to 64 bits.  Whether [REALLOC] of a size succeeds is
    an argument. *)

From stdpp Require Import list.
From S2P Require Import Prelude State Bitsop Value Protocol Codec TableDef Field.

#[local] Open Scope cint_scope.

(** ** State *)

Record CResultPacket := MkPacket {
  fieldSet : option CFieldSet;
  limitStart : Z;
  limitNext : Z;
  totalRows : Z;
  numRows : Z;
  bc_data : list Z;
  bc_totalBytes : Z;
  rowDataBegin : Z
}.

Definition sizeof_CBufferChain : Z := 16.
Definition usedBytes (p : CResultPacket) : Z := 5 + Z.of_nat (length (bc_data p)).

Definition set_rows (total num : Z) (p : CResultPacket) : CResultPacket :=
  MkPacket (fieldSet p) (limitStart p) (limitNext p) total num (bc_data p) (bc_totalBytes p) (rowDataBegin p).
Definition set_data (l : list Z) (total : Z) (p : CResultPacket) : CResultPacket :=
  MkPacket (fieldSet p) (limitStart p) (limitNext p) (totalRows p) (numRows p) l total (rowDataBegin p).

(** [fieldSet]: a set without fields counts as none. *)
Definition field_set (fs : option CFieldSet) : option (option CFieldSet) :=
  match fs with
  | None => Some None
  | Some s => nf ← fs_NumFields s; Some (if nf =? 0 then None else Some s)
  end.
Definition num_fields (fs : option CFieldSet) : option Z :=
  match fs with None => Some 0 | Some s => fs_NumFields s end.
Fixpoint field_ids (s : CFieldSet) (i : Z) (n : nat) : option (list Z) :=
  match n with
  | O => Some []
  | S n' => id ← fs_FieldId s i; l ← field_ids s (i + 1) n'; Some (id :: l)
  end.
Definition set_ids (fs : option CFieldSet) : option (list Z) :=
  match fs with
  | None => Some []
  | Some s => nf ← fs_NumFields s; field_ids s 0 (Z.to_nat nf)
  end.

(** The bytes behind the first five: the number of fields and their ids. *)
Definition packet_head (fs : option CFieldSet) : option (list Z) :=
  nf ← num_fields fs; ids ← set_ids fs; Some (u8 nf :: ids).

(** ** Operations *)

Definition writer_Set (fs : option CFieldSet) (st cnt : Z) (p : CResultPacket) : option CResultPacket :=
  let st := if cnt =? 0 then 0 else st in
  f ← field_set fs;
  Some (MkPacket f st (st +u32 cnt) (totalRows p) (numRows p) (bc_data p) (bc_totalBytes p) (rowDataBegin p)).

(** [CResultPacket::CResultPacket], when [MALLOC(1024)] succeeds *)
Definition new_ResultPacket (fs : option CFieldSet) (st cnt : Z) : option CResultPacket :=
  let st := if cnt =? 0 then 0 else st in
  f ← field_set fs;
  h ← packet_head fs;
  Some (MkPacket f st (st +u32 cnt) 0 0 h (1024 - sizeof_CBufferChain) (5 + Z.of_nat (length h))).

Definition packet_Set (fs : option CFieldSet) (st ct : Z) (p : CResultPacket) : option (Z * CResultPacket) :=
  p ← writer_Set fs st ct p;
  h ← packet_head fs;
  Some (0, MkPacket (fieldSet p) (limitStart p) (limitNext p) (totalRows p) (numRows p) h (bc_totalBytes p)
             (5 + Z.of_nat (length h))).

Definition IsFull (p : CResultPacket) : bool := (0 <? limitNext p) && (limitNext p <=? totalRows p).
Definition InRange (p : CResultPacket) (total begin : Z) : bool :=
  if limitNext p =? 0 then true
  else if (total <=? limitStart p) || (limitNext p <=? begin) then false else true.
Definition AddTotalRows (n : Z) (p : CResultPacket) : CResultPacket := set_rows (totalRows p +u32 n) (numRows p) p.

(** [CResultWriter::SetRows] *)
Definition SetRows (rows : Z) (p : CResultPacket) : Z * CResultPacket :=
  if (match fieldSet p with None => true | Some _ => false end) || ((numRows p =? 0) && (rows <=? limitStart p)) then
    (0, set_rows rows
          (if limitNext p =? 0 then rows
           else if rows <=? limitStart p then 0
           else if rows <=? limitNext p then rows -u32 limitStart p
           else limitNext p -u32 limitStart p) p)
  else if negb (IsFull p) then (-1, p)
  else (0, set_rows rows (numRows p) p).

(** [Expand]: the capacity after it, if there is memory *)
Definition Expand (mem : Z -> bool) (used total addsize : Z) : option Z :=
  let expectsize := s32 (used + addsize) in
  if expectsize <=? total then Some total
  else
    let expectsize := s32 (Z.lor (s32 (expectsize + sizeof_CBufferChain)) 7 + 1) in
    let sparsesize := if s32 (addsize * 16) <? expectsize then s32 (addsize * 16) else expectsize in
    let sparsesize := s32 (sparsesize + expectsize) in
    if mem (u64 sparsesize) then Some (s32 (sparsesize - sizeof_CBufferChain))
    else if mem (u64 expectsize) then Some (s32 (expectsize - sizeof_CBufferChain))
    else None.

(** Bytes can be written behind the used ones: they end inside the buffer. *)
Definition fits (used total : Z) (l : list Z) : bool := used + Z.of_nat (length l) <=? total.

Section packet.
Context `{FloatText}.

Definition row_field (r : CRowValue) (id : Z) : option (CValue * Z) :=
  v ← row_FieldValue r id; v ← v; t ← FieldType (row_def r) id; Some (v, t).
Definition field_bytes (r : CRowValue) (id : Z) : option Z :=
  '(v, t) ← row_field r id; Some (EncodedBytesDataValue v t).
Definition encode_one (r : CRowValue) (id : Z) : option (list Z) :=
  '(v, t) ← row_field r id; EncodeDataValue v t.
Fixpoint encoded_len (r : CRowValue) (ids : list Z) (len : Z) : option Z :=
  match ids with [] => Some len | id :: l => n ← field_bytes r id; encoded_len r l (s32 (len + n)) end.
Fixpoint encode_row (r : CRowValue) (ids : list Z) : option (list Z) :=
  match ids with [] => Some [] | id :: l => e ← encode_one r id; k ← encode_row r l; Some (e ++ k) end.

Definition AppendRow (mem : Z -> bool) (r : CRowValue) (p : CResultPacket) : option (Z * CResultPacket) :=
  let p := set_rows (totalRows p +u32 1) (numRows p) p in
  if (0 <? limitNext p) && ((totalRows p <=? limitStart p) || (limitNext p <? totalRows p)) then Some (0, p)
  else
    match fieldSet p with
    | None => Some (0, set_rows (totalRows p) (totalRows p -u32 limitStart p) p)
    | Some _ =>
        ids ← set_ids (fieldSet p);
        len ← encoded_len r ids 0;
        match Expand mem (usedBytes p) (bc_totalBytes p) len with
        | None => Some (- 12, p)
        | Some total =>
            e ← encode_row r ids;
            if negb (fits (usedBytes p) total e) then None
            else Some (1, set_rows (totalRows p) (totalRows p -u32 limitStart p) (set_data (bc_data p ++ e) total p))
        end
    end.

(** [MergeNoLimit]; [rp.rowDataBegin] is unsigned. *)
Definition MergeNoLimit (mem : Z -> bool) (rp p : CResultPacket) : option (Z * CResultPacket) :=
  let rows := drop (Z.to_nat (rowDataBegin rp - 5)) (bc_data rp) in
  let expectedsize := s32 (usedBytes p + u32 (usedBytes rp - rowDataBegin rp)) in
  let total :=
    if bc_totalBytes p <? expectedsize
    then if mem (u64 (sizeof_CBufferChain + expectedsize + 1024)) then Some (s32 (expectedsize + 1024)) else None
    else Some (bc_totalBytes p) in
  match total with
  | None => Some (- 12, p)
  | Some t =>
      if negb (fits (usedBytes p) t rows) then None
      else Some (0, set_rows (totalRows p +u32 totalRows rp) (numRows p +u32 numRows rp) (set_data (bc_data p ++ rows) t p))
  end.
End packet.

(** ** The window *)

Section window.
Context `{FloatTextLaws}.

Lemma encoded_len_ok r ids e n :
  encode_row r ids = Some e -> 0 <= n -> n + Z.of_nat (length e) < 2 ^ 31 ->
  encoded_len r ids n = Some (n + Z.of_nat (length e)).
Proof.
  revert e n. induction ids as [|id ids IH]; intros e n He Hn Hlt; simpl in *.
  { simplify_eq. simpl. f_equal. lia. }
  unfold encode_one in He. unfold field_bytes. destruct (row_field r id) as [[v t]|]; [|done]. simpl in *.
  destruct (EncodeDataValue v t) as [e1|] eqn:E1; [|done]. simpl in He.
  destruct (encode_row r ids) as [k|] eqn:E2; [|done]. simplify_eq/=.
  rewrite length_app in Hlt. rewrite <- (EncodeDataValue_size _ _ _ E1), swrap_small, (IH _ _ eq_refl), length_app by lia. f_equal. lia.
Qed.

Fixpoint append_rows (mem : Z -> bool) (rows : list CRowValue) (p : CResultPacket) : option (list Z * CResultPacket) :=
  match rows with
  | [] => Some ([], p)
  | r :: l => '(c, p) ← AppendRow mem r p; '(cs, p) ← append_rows mem l p; Some (c :: cs, p)
  end.

(** The rows a request with [LIMIT st, ct] gets; no limit when [ct] is 0. *)
Definition in_window (st ct i : Z) : bool := (ct =? 0) || ((st <=? i) && (i <? st + ct)).
Definition window {X} (st ct : Z) (l : list X) : list X :=
  if ct =? 0 then l else take (Z.to_nat ct) (drop (Z.to_nat st) l).

Lemma window_snoc {X} st ct (l : list X) x : 0 <= st -> 0 <= ct ->
  window st ct (l ++ [x]) = window st ct l ++ (if in_window st ct (Z.of_nat (length l)) then [x] else []).
Proof.
  intros Hst Hct. unfold window, in_window. destruct (Z.eqb_spec ct 0) as [|Hc]; [done|]. simpl.
  destruct (Z.leb_spec st (Z.of_nat (length l))) as [H1|H1]; simpl.
  - rewrite drop_app_le by lia. destruct (Z.ltb_spec (Z.of_nat (length l)) (st + ct)).
    + rewrite !take_ge; [done| |]; rewrite ?length_app, length_drop; simpl; lia.
    + rewrite app_nil_r, take_app_le; [done|]. rewrite length_drop. lia.
  - rewrite !drop_ge by (rewrite ?length_app; simpl; lia). by rewrite app_nil_r.
Qed.
Lemma window_length {X} st ct (l : list X) : 0 <= st -> 0 <= ct -> (length (window st ct l) <= length l)%nat.
Proof. intros. unfold window. destruct (ct =? 0); [lia|]. rewrite length_take, length_drop. lia. Qed.

Lemma window_nil {X} st ct : window st ct (@nil X) = [].
Proof. unfold window. destruct (ct =? 0); [done|]. by rewrite drop_nil, take_nil. Qed.

(** The bytes of the rows in the window *)
Definition window_size (enc : CRowValue -> list Z) st ct (l : list CRowValue) : Z := Z.of_nat (length (concat (enc <$> window st ct l))).

Lemma window_size_snoc enc st ct l r : 0 <= st -> 0 <= ct ->
  window_size enc st ct (l ++ [r]) =
  window_size enc st ct l + (if in_window st ct (Z.of_nat (length l)) then Z.of_nat (length (enc r)) else 0).
Proof.
  intros Hst Hct. unfold window_size. rewrite (window_snoc st ct l r Hst Hct), fmap_app, concat_app, length_app.
  destruct (in_window _ _ _); simpl; rewrite ?app_nil_r; lia.
Qed.
Lemma window_size_mono enc st ct l l' : 0 <= st -> 0 <= ct -> window_size enc st ct l <= window_size enc st ct (l ++ l').
Proof.
  intros Hst Hct. induction l' as [|r l' IH] using rev_ind; [by rewrite app_nil_r|]. rewrite app_assoc, window_size_snoc by done.
  destruct (in_window _ _ _); lia.
Qed.

(** ** The buffer *)

Lemma lor_7 x : Z.lor x 7 = x + 7 - x mod 8.
Proof.
  pose proof (Z.land_ones x 3 ltac:(lia)) as Hl. change (Z.ones 3) with 7 in Hl. change (2 ^ 3) with 8 in Hl.
  pose proof (Z.add_lor_land x 7). lia.
Qed.

(** As long as the packet stays below 128 MB, no size overflows. *)
Definition MAX_BUFFER : Z := 2 ^ 27 - 32.

Lemma Expand_fits mem used total add :
  0 <= used -> 0 <= add -> used + add <= MAX_BUFFER -> total < 2 ^ 31 ->
  match Expand mem used total add with
  | Some t => used + add <= t < 2 ^ 31
  | None => ∃ n, mem n = false
  end.
Proof.
  unfold MAX_BUFFER. intros Hu Ha Hs Ht. unfold Expand, sizeof_CBufferChain.
  rewrite (swrap_small 32 (used + add)) by lia. destruct (Z.leb_spec (used + add) total); [lia|].
  rewrite (swrap_small 32 (used + add + 16)), lor_7 by lia.
  pose proof (Z.mod_pos_bound (used + add + 16) 8 ltac:(lia)) as Hm. set (e := used + add + 16 + 7 - _ mod _ + 1).
  rewrite (swrap_small 32 e), (swrap_small 32 (add * 16)) by (unfold e; lia).
  set (sp := if add * 16 <? e then add * 16 else e). assert (0 <= sp <= e) as Hsp by (unfold sp; destruct (Z.ltb_spec (add * 16) e); unfold e in *; lia).
  rewrite (swrap_small 32 (sp + e)) by (unfold e in *; lia).
  destruct (mem (u64 (sp + e))) eqn:E1; [rewrite swrap_small by (unfold e in *; lia); unfold e in *; lia|].
  destruct (mem (u64 e)) eqn:E2; [rewrite swrap_small by (unfold e in *; lia); unfold e in *; lia|]. by eexists.
Qed.

(** The rows that went into the packet: those [AppendRow] returned 1 for. *)
Definition answered (cs : list Z) (l : list CRowValue) : list CRowValue := (filter (λ x, x.2 = 1) (zip l cs)).*1.

Lemma answered_snoc cs l c r : length cs = length l -> answered (cs ++ [c]) (l ++ [r]) = answered cs l ++ (if c =? 1 then [r] else []).
Proof.
  intros Hl. unfold answered. rewrite zip_with_app, filter_app, fmap_app by done. f_equal. simpl. rewrite filter_cons.
  destruct (Z.eqb_spec c 1); [by rewrite decide_True|by rewrite decide_False].
Qed.

(** The packet after the rows [l] were offered, with the results [cs]. *)
Record holds_window (f : CFieldSet) (head : list Z) (st ct : Z) (enc : CRowValue -> list Z) (l : list CRowValue)
    (cs : list Z) (p : CResultPacket) : Prop := {
  hw_set : fieldSet p = Some f;
  hw_start : limitStart p = (if ct =? 0 then 0 else st);
  hw_next : limitNext p = (if ct =? 0 then 0 else st + ct);
  hw_total : totalRows p = Z.of_nat (length l);
  hw_length : length cs = length l;
  hw_data : bc_data p = head ++ concat (enc <$> answered cs l);
  hw_size : Z.of_nat (length (concat (enc <$> answered cs l))) <= window_size enc st ct l;
  hw_room : bc_totalBytes p < 2 ^ 31;
  hw_all : -12 ∉ cs -> answered cs l = window st ct l ∧ numRows p = Z.of_nat (length (window st ct l))
}.

(** What [AppendRow] may return for row [i] *)
Definition row_code st ct (mem : Z -> bool) (i c : Z) : Prop :=
  if in_window st ct i then c = 1 ∨ c = -12 ∧ ∃ n, mem n = false else c = 0.

Lemma AppendRow_window f ids head st ct enc l cs p mem r :
  holds_window f head st ct enc l cs p -> set_ids (Some f) = Some ids ->
  0 <= st -> 0 <= ct -> st + ct < 2 ^ 32 -> Z.of_nat (length l) + 1 < 2 ^ 32 -> encode_row r ids = Some (enc r) ->
  5 + Z.of_nat (length head) + window_size enc st ct (l ++ [r]) <= MAX_BUFFER ->
  ∃ c p', AppendRow mem r p = Some (c, p') ∧ row_code st ct mem (Z.of_nat (length l)) c ∧
    holds_window f head st ct enc (l ++ [r]) (cs ++ [c]) p'.
Proof.
  intros [H1 H2 H3 H4 H5 H6 H7 H8 H9] Hids Hst Hct Hw Hl He Hmax. unfold AppendRow.
  cbn [totalRows limitNext limitStart fieldSet set_rows]. rewrite H1, H2, H3, H4, (uwrap_small 32 (_ + 1)) by lia.
  assert (((0 <? (if ct =? 0 then 0 else st + ct)) && ((Z.of_nat (length l) + 1 <=? (if ct =? 0 then 0 else st)) ||
            ((if ct =? 0 then 0 else st + ct) <? Z.of_nat (length l) + 1))) = negb (in_window st ct (Z.of_nat (length l)))) as ->.
  { unfold in_window. destruct (Z.eqb_spec ct 0); [done|]. simpl. lia. }
  pose proof (window_size_snoc enc st ct l r Hst Hct) as Hws. pose proof (window_snoc st ct l r Hst Hct) as Hsn.
  pose proof (window_length st ct (l ++ [r]) Hst Hct) as Hwl. unfold row_code.
  destruct (in_window st ct (Z.of_nat (length l))) eqn:Ein; cbn [negb].
  2: { exists 0. eexists. split; [done|]. split; [done|]. pose proof (answered_snoc cs l 0 r H5) as Ha. simpl in Ha. rewrite app_nil_r in Ha, Hsn.
       split; cbn; rewrite ?Ha, ?Hsn, ?length_app; try done; [simpl; lia|simpl; lia|lia|].
       intros [Hc _]%not_elem_of_app. by apply H9. }
  rewrite Hids. osimpl. rewrite (encoded_len_ok _ _ _ _ He) by (unfold MAX_BUFFER, window_size in *; lia). osimpl. rewrite Z.add_0_l.
  assert (usedBytes (set_rows (Z.of_nat (length l) + 1) (numRows p) p) = 5 + Z.of_nat (length (bc_data p))) as Hu by done.
  assert (5 + Z.of_nat (length (bc_data p)) + Z.of_nat (length (enc r)) <= MAX_BUFFER) as Hfit by (rewrite H6, length_app; lia).
  pose proof (Expand_fits mem (5 + Z.of_nat (length (bc_data p))) (bc_totalBytes p) (Z.of_nat (length (enc r))) ltac:(lia) ltac:(lia) Hfit H8) as Hex.
  rewrite Hu. cbn [bc_totalBytes set_rows]. destruct (Expand mem _ _ _) as [t|].
  2: { exists (-12). eexists. split; [done|]. split; [by right|]. pose proof (answered_snoc cs l (-12) r H5) as Ha. simpl in Ha. rewrite app_nil_r in Ha.
       split; cbn; rewrite ?Ha, ?length_app; try done; [simpl; lia|simpl; lia|lia|].
       intros [_ []]%not_elem_of_app. by left. }
  rewrite He. osimpl. unfold fits. rewrite (proj2 (Z.leb_le _ _)) by lia. cbn [negb].
  exists 1. eexists. split; [done|]. split; [by left|]. pose proof (answered_snoc cs l 1 r H5) as Ha. simpl in Ha.
  split; cbn; rewrite ?Ha; try done.
  - rewrite length_app. simpl. lia.
  - rewrite !length_app. simpl. lia.
  - by rewrite H6, fmap_app, concat_app, <- app_assoc; simpl; rewrite app_nil_r.
  - rewrite fmap_app, concat_app, length_app, Hws. simpl. rewrite app_nil_r. lia.
  - lia.
  - intros [Hc _]%not_elem_of_app. destruct (H9 Hc) as [E _]. rewrite Hsn, E. split; [done|].
    assert (Z.of_nat (length l) + 1 - (if ct =? 0 then 0 else st) = Z.of_nat (length (window st ct l ++ [r]))) as ->.
    { unfold in_window, window in *. rewrite length_app. destruct (Z.eqb_spec ct 0); simpl in *; [lia|].
      rewrite length_take, length_drop. lia. }
    apply uwrap_small. rewrite <- Hsn. rewrite length_app in Hwl. simpl in Hwl. lia.
Qed.

Lemma append_rows_window f ids head st ct enc mem l l' cs p :
  holds_window f head st ct enc l cs p -> set_ids (Some f) = Some ids ->
  0 <= st -> 0 <= ct -> st + ct < 2 ^ 32 -> Z.of_nat (length (l ++ l')) < 2 ^ 32 ->
  (∀ r, r ∈ l' -> encode_row r ids = Some (enc r)) ->
  5 + Z.of_nat (length head) + window_size enc st ct (l ++ l') <= MAX_BUFFER ->
  ∃ cs' p', append_rows mem l' p = Some (cs', p') ∧ holds_window f head st ct enc (l ++ l') (cs ++ cs') p' ∧
    ∀ i c, cs' !! i = Some c -> row_code st ct mem (Z.of_nat (length l + i)) c.
Proof.
  intros Hp Hids Hst Hct Hw. revert l cs p Hp. induction l' as [|r l' IH]; intros l cs p Hp Hlen Henc Hmax.
  { exists [], p. rewrite !app_nil_r in *. by split_and!. }
  rewrite length_app in Hlen. simpl in Hlen.
  assert (l ++ r :: l' = (l ++ [r]) ++ l') as El by by rewrite <- app_assoc. rewrite El in Hmax |- *.
  pose proof (window_size_mono enc st ct (l ++ [r]) l' Hst Hct) as Hm.
  destruct (AppendRow_window f ids head st ct enc l cs p mem r Hp Hids Hst Hct Hw) as (c & p1 & Hr & Hc & Hp1);
    [lia|apply Henc; by left|unfold window_size in *; lia|].
  destruct (IH (l ++ [r]) (cs ++ [c]) p1 Hp1) as (cs' & p' & Ha & Hp' & Hcs); [rewrite !length_app; simpl; lia|intros r' Hr'; apply Henc; by right|done|].
  exists (c :: cs'), p'. simpl. rewrite Hr. simpl. rewrite Ha. simpl. split; [done|]. rewrite <- (app_assoc cs) in Hp'. split; [exact Hp'|].
  intros [|i] c' Hi; simpl in Hi; [simplify_eq; by rewrite Nat.add_0_r|]. specialize (Hcs i c' Hi).
  rewrite length_app in Hcs. simpl in Hcs. by replace (length l + S i)%nat with (length l + 1 + i)%nat by lia.
Qed.

(** [C20] The answer to a request with a limit, below 128 MB: every row that is
    offered is counted, and exactly those inside the window are encoded into
    the packet, in order, none beyond the buffer.  When the buffer cannot grow
    the row is left out with -ENOMEM and the packet stays as it is; without
    such a failure the packet holds the window and counts its rows. *)
Theorem result_window (f : CFieldSet) (st ct : Z) (mem : Z -> bool) (enc : CRowValue -> list Z) (rows : list CRowValue)
    (ids : list Z) (p : CResultPacket) :
  new_ResultPacket (Some f) st ct = Some p -> fieldSet p = Some f -> set_ids (Some f) = Some ids ->
  0 <= st -> 0 <= ct -> st + ct < 2 ^ 32 -> Z.of_nat (length rows) < 2 ^ 32 ->
  (∀ r, r ∈ rows -> encode_row r ids = Some (enc r)) ->
  usedBytes p + window_size enc st ct rows <= MAX_BUFFER ->
  ∃ cs p', append_rows mem rows p = Some (cs, p') ∧ length cs = length rows ∧
    (∀ i c, cs !! i = Some c -> row_code st ct mem (Z.of_nat i) c) ∧
    totalRows p' = Z.of_nat (length rows) ∧ bc_data p' = bc_data p ++ concat (enc <$> answered cs rows) ∧
    (-12 ∉ cs -> answered cs rows = window st ct rows ∧ numRows p' = Z.of_nat (length (window st ct rows))).
Proof.
  intros Hnew Hf Hids Hst Hct Hw Hlen Henc Hmax.
  assert (holds_window f (bc_data p) st ct enc [] [] p) as Hp.
  { unfold new_ResultPacket in Hnew. destruct (field_set (Some f)) as [fs|]; [|done].
    destruct (packet_head (Some f)) as [h|]; [|done]. simplify_eq/=.
    split; cbn; rewrite ?window_nil; try done; [|by rewrite app_nil_r|by unfold window_size; rewrite window_nil].
    destruct (Z.eqb_spec ct 0) as [->|]; [done|]. by rewrite uwrap_small by lia. }
  destruct (append_rows_window f ids (bc_data p) st ct enc mem [] rows [] p Hp Hids Hst Hct Hw Hlen Henc Hmax)
    as (cs & p' & Ha & [? ? ? ? ? ? ? ? ?] & Hcs).
  exists cs, p'. by split_and!.
Qed.
End window.

Definition ex_fields : CFieldSet := MkFieldSet [1; 1; 1] [].
Definition ex_answer (n : Z) : CRowValue := MkRow counter_table [MakeInt 5; MakeInt n].
Definition ex_enc (r : CRowValue) : list Z := default [] (@encode_row hex_text r [1]).

(** With memory: the row in the window is answered. *)
Lemma result_window_witness :
  ∃ p p', new_ResultPacket (Some ex_fields) 1 1 = Some p ∧
    @append_rows hex_text (λ _, true) [ex_answer 7; ex_answer 8; ex_answer 9] p = Some ([0; 1; 0], p') ∧
    totalRows p' = 3 ∧ numRows p' = 1 ∧ bc_data p' = [1; 1; 1; 8].
Proof.
  eexists. destruct (@result_window hex_text hex_text_laws ex_fields 1 1 (λ _, true) ex_enc [ex_answer 7; ex_answer 8; ex_answer 9] [1]
             (MkPacket (Some ex_fields) 1 2 0 0 [1; 1] 1008 7)) as (cs & p' & Ha & Hl & Hc & Ht & Hd & Hn);
    [vm_compute; reflexivity|done|vm_compute; reflexivity|lia|lia|lia|simpl; lia| |vm_compute; discriminate|].
  { intros r Hr. repeat (apply elem_of_cons in Hr as [->|Hr]; [vm_compute; reflexivity|]). by apply elem_of_nil in Hr. }
  assert (cs = [0; 1; 0]) as ->.
  { destruct cs as [|c0 [|c1 [|c2 [|? ?]]]]; try discriminate Hl.
    pose proof (Hc 0%nat c0 eq_refl) as E0. pose proof (Hc 1%nat c1 eq_refl) as E1. pose proof (Hc 2%nat c2 eq_refl) as E2.
    cbn in E0, E1, E2. destruct E1 as [-> |[_ [? ?]]]; [|discriminate]. by rewrite E0, E2. }
  destruct Hn as [_ Hn]; [set_solver|]. exists p'. split; [vm_compute; reflexivity|]. split; [exact Ha|]. split; [exact Ht|]. split; [exact Hn|].
  rewrite Hd. vm_compute. reflexivity.
Defined.
