(* ===== verification/Task.v ===== *)
(** * Task: a request and its rows

    The part of [CTask] and [CTaskRequest] ([src/common/task_base.h],
    [src/common/task_request.h], [src/common/task_server.cc]) that the row
    storage uses: the condition and the update of the request, its key, and
    the packet its answer is written to.  Decoding requests, error reports,
    timers and queues are not part of it. *)

From stdpp Require Import list.
From S2P Require Import Prelude State Bitsop Value Protocol Codec Section TableDef Field Result.

#[local] Open Scope cint_scope.

Definition PFLAG_ALLROWS : Z := 2.

Record CTaskRequest := MkTask {
  t_tableDef : CTableDefinition;
  t_processFlags : Z;
  t_requestCode : Z;
  t_requestFlags : Z;
  t_timestamp : Z;
  t_key : option CValue;
  t_multiKey : option (list CValue);
  t_batchKey : bool;
  t_packedKey : option ptr;
  t_conditionInfo : option CFieldValue;
  t_updateInfo : option CFieldValue;
  t_fieldList : option CFieldSet;
  t_requestInfo : CSimpleSection;
  t_resultInfo : CResultInfo;
  t_resultWriter : option CResultPacket;
  t_resultWriterReseted : Z;
  t_blacklist_size : Z
}.

Definition set_t_resultInfo (v : CResultInfo) (t : CTaskRequest) : CTaskRequest :=
  MkTask (t_tableDef t) (t_processFlags t) (t_requestCode t) (t_requestFlags t) (t_timestamp t) (t_key t)
    (t_multiKey t) (t_batchKey t) (t_packedKey t) (t_conditionInfo t) (t_updateInfo t) (t_fieldList t)
    (t_requestInfo t) v (t_resultWriter t) (t_resultWriterReseted t) (t_blacklist_size t).
Definition set_t_writer (w : option CResultPacket) (reset : Z) (t : CTaskRequest) : CTaskRequest :=
  MkTask (t_tableDef t) (t_processFlags t) (t_requestCode t) (t_requestFlags t) (t_timestamp t) (t_key t)
    (t_multiKey t) (t_batchKey t) (t_packedKey t) (t_conditionInfo t) (t_updateInfo t) (t_fieldList t)
    (t_requestInfo t) (t_resultInfo t) w reset (t_blacklist_size t).
Definition PushBlackListSize (size : Z) (t : CTaskRequest) : CTaskRequest :=
  MkTask (t_tableDef t) (t_processFlags t) (t_requestCode t) (t_requestFlags t) (t_timestamp t) (t_key t)
    (t_multiKey t) (t_batchKey t) (t_packedKey t) (t_conditionInfo t) (t_updateInfo t) (t_fieldList t)
    (t_requestInfo t) (t_resultInfo t) (t_resultWriter t) (t_resultWriterReseted t) (u32 size).

Definition AllRows (t : CTaskRequest) : bool := negb (Z.land (t_processFlags t) PFLAG_ALLROWS =? 0).
Definition CountOnly (t : CTaskRequest) : bool := match t_fieldList t with None => true | Some _ => false end.
Definition FlagNoCache (t : CTaskRequest) : bool := negb (Z.land (t_requestFlags t) Flag_NoCache =? 0).
Definition IsBatchRequest (t : CTaskRequest) : bool := t_batchKey t.

(** [CompareRow]: does the row satisfy the condition of the request? *)
Definition CompareRow (t : CTaskRequest) (row : CRowValue) : option Z :=
  if AllRows t then Some 1 else f ← t_conditionInfo t; Compare f row 256.

(** [CTaskRequest::UpdateRow]: the time stamps, then the update list *)
Definition UpdateStamps (t : CTaskRequest) (row : CRowValue) : option CRowValue :=
  let commit := match t_updateInfo t with Some u => negb (HasTypeCommit u =? 0) | None => false end in
  UpdateTimestamp row (t_timestamp t)
    (if negb (t_requestCode t =? DRequest_code DRequest_Update) || commit then 1 else 0).
Definition UpdateRow (t : CTaskRequest) (row : CRowValue) : option CRowValue :=
  row ← UpdateStamps t row;
  match t_updateInfo t with
  | None => Some row
  | Some u => '(_, row) ← Update u row; Some row
  end.

Definition UpdateKey (t : CTaskRequest) (r : CRowValue) : option CRowValue :=
  match t_multiKey t with
  | Some m => CopyValue r m 0 (keyFields (t_tableDef t))
  | None => k ← t_key t; row_put r 0 k
  end.

Definition SetAffectedRows (nr : Z) (t : CTaskRequest) : option CTaskRequest :=
  r ← Section.SetAffectedRows (t_resultInfo t) nr; Some (set_t_resultInfo r t).

(** [CTask::PrepareResult]; [mem] is whether [new CResultPacket] gets memory. *)
Definition PrepareResult (mem : bool) (st ct : Z) (t : CTaskRequest) : option (Z * CTaskRequest) :=
  match t_resultWriter t with
  | Some w =>
      if negb (t_resultWriterReseted t =? 0) then Some (0, t)
      else '(_, w) ← packet_Set (t_fieldList t) st ct w; Some (0, set_t_writer (Some w) 1 t)
  | None =>
      if negb mem then Some (- 12, t)
      else w ← new_ResultPacket (t_fieldList t) st ct; Some (0, set_t_writer (Some w) 1 t)
  end.
Definition PrepareResult_limits (mem : bool) (t : CTaskRequest) : option (Z * CTaskRequest) :=
  st ← LimitStart (t_requestInfo t); ct ← LimitCount (t_requestInfo t); PrepareResult mem st ct t.

Definition on_writer {X} (f : CResultPacket -> X * CResultPacket) (t : CTaskRequest) : option (X * CTaskRequest) :=
  w ← t_resultWriter t;
  let '(x, w) := f w in Some (x, set_t_writer (Some w) (t_resultWriterReseted t) t).

Definition task_SetTotalRows (mem : bool) (nr : Z) (t : CTaskRequest) : option (Z * CTaskRequest) :=
  match t_resultWriter t with
  | Some _ => on_writer (SetRows nr) t
  | None =>
      '(c, t) ← PrepareResult_limits mem t;
      if c =? 0 then on_writer (SetRows nr) t else Some (0, t)
  end.
Definition task_AddTotalRows (n : Z) (t : CTaskRequest) : option (unit * CTaskRequest) :=
  on_writer (λ w, (tt, AddTotalRows n w)) t.
Definition task_InRange (nr begin : Z) (t : CTaskRequest) : option bool :=
  w ← t_resultWriter t; Some (InRange w nr begin).
Definition ResultFull (t : CTaskRequest) : bool :=
  match t_resultWriter t with Some w => IsFull w | None => false end.
Definition task_AppendRow `{FloatText} (mem : Z -> bool) (r : CRowValue) (t : CTaskRequest) : option (Z * CTaskRequest) :=
  w ← t_resultWriter t;
  '(c, w) ← AppendRow mem r w; Some (c, set_t_writer (Some w) (t_resultWriterReseted t) t).

(** ** The count of affected rows *)

(** The result section of a request is well formed. *)
Definition result_ok (t : CTaskRequest) : Prop :=
  sec_inv (ri_sec (t_resultInfo t)) ∧ definition (ri_sec (t_resultInfo t)) = resultInfoDefinition.

Lemma AffectedRows_total t : result_ok t -> is_Some (AffectedRows (t_resultInfo t)).
Proof.
  intros [[(_ & _ & Hl) _] _]. unfold AffectedRows, tag_u64. apply fmap_is_Some. unfold MAX_STATIC_SECTION in Hl.
  change 4 with (Z.of_nat 4). rewrite rd_nat. apply lookup_lt_is_Some. lia.
Qed.

Lemma SetAffectedRows_total t n : result_ok t -> 0 <= n < 2 ^ 64 ->
  ∃ r, Task.SetAffectedRows n t = Some (set_t_resultInfo r t) ∧ result_ok (set_t_resultInfo r t) ∧ AffectedRows r = Some n.
Proof.
  intros [Hi Hd] Hn. unfold Task.SetAffectedRows, Section.SetAffectedRows, SetTag64, ri_set.
  destruct (SetTag_known (ri_sec (t_resultInfo t)) 4 (MakeInt n) DField_Signed) as (s' & Hs & Hi' & Hd' & _ & Hw & _).
  - done.
  - lia.
  - unfold Section.TagType. rewrite Hd. by vm_compute.
  - done.
  - rewrite Hs. osimpl. eexists. split; [done|]. split; [by split; [|by rewrite <- Hd]|].
    unfold AffectedRows, tag_u64. cbn [ri_sec]. rewrite (rd_wr _ _ 4 _ _ Hw), Z.eqb_refl. cbn.
    f_equal. unfold v_u64, MakeInt. cbn. rewrite ?uwrap_idem by lia. by apply uwrap_small.
Qed.
