(* ===== verification/BinMalloc.v ===== *)
(** * BinMalloc: the allocator of the shared-memory cache

    Models [src/cache/bin_malloc.h], [src/cache/bin_malloc.cc] and the size
    and handle types of [src/cache/mallocator.h]: a boundary-tag allocator
    with 128 bins of doubly linked free chunks.

    A pointer into the segment is its offset from [m_pBaseAddr], which is also
    its handle.  The memory behind [m_hBottom] is kept in 8-byte words: every
    chunk starts 8-aligned, its first word holds [m_tPreSize] (low half) and
    [m_tSize] (high half), the next two are the links of a free chunk or the
    first bytes of the user's data.  The head and the bins at the start of the
    segment are records of their own; a chunk access below [m_hBottom] or past
    the segment is undefined ([None]).  Error texts ([m_szErr]) are not kept. *)

From stdpp Require Import gmap.
From S2P Require Import Prelude State.

(** ** Constants *)

Definition INVALID_HANDLE : Z := 0.
Definition MALLOC_ALIGN_MASK : Z := 7.
Definition MAX_ALLOC_SIZE : Z := 4294967288.
Definition MINSIZE : Z := 24.
Definition NBINS : Z := 128.
Definition NFASTBINS : Z := 64.
Definition MIN_LARGE_SIZE : Z := 512.
Definition TTC_VER_MIN : Z := 4.
Definition TTC_RESERVE_SIZE : Z := 4096.
Definition MAXSTATCOUNT : Z := 10000 * 3600 * 12.
Definition MALLOC_FLAG_FAST : Z := 1.
Definition PREV_INUSE : Z := 1.
Definition SIZE_BITS : Z := 7.
(** [sizeof(CMemHead)], [sizeof(CBin)] *)
Definition sizeof_CMemHead : Z := 1024.
Definition sizeof_CBin : Z := 16.
Definition TTC_SIGN : list Z :=
  [0; 0x4D635474; 1; 0xFFFFFFFF; 0xFFFFFFFF; 0xFFFFFFFF; 4; 0; 16; 0xFFFFFFFF; 0; 0; 0xFFFFFFFF; 0xFFFFFFFF].

(** ** State

    [set_m v o] is the object [o] after the assignment [m = v]. *)

Record CMemHead := MkHead {
  m_auiSign : list Z;
  m_ushVer : Z;
  m_ushHeadSize : Z;
  m_tSize : Z;
  m_tUserAllocSize : Z;
  m_tUserAllocChunkCnt : Z;
  m_uiFlags : Z;
  m_hBottom : Z;
  m_hReserveZone : Z;
  m_hTop : Z;
  m_tLastFreeChunkSize : Z;
  m_ushBinCnt : Z;
  m_ushFastBinCnt : Z;
  m_auiBinBitMap : list Z;
  m_shmIntegrity : Z
}.

Definition set_m_auiSign (v : list Z) (o : CMemHead) : CMemHead :=
  MkHead
    v (m_ushVer o) (m_ushHeadSize o) (m_tSize o) (m_tUserAllocSize o) (m_tUserAllocChunkCnt o)
    (m_uiFlags o) (m_hBottom o) (m_hReserveZone o) (m_hTop o) (m_tLastFreeChunkSize o)
    (m_ushBinCnt o) (m_ushFastBinCnt o) (m_auiBinBitMap o) (m_shmIntegrity o).
Definition set_m_ushVer (v : Z) (o : CMemHead) : CMemHead :=
  MkHead
    (m_auiSign o) v (m_ushHeadSize o) (m_tSize o) (m_tUserAllocSize o) (m_tUserAllocChunkCnt o)
    (m_uiFlags o) (m_hBottom o) (m_hReserveZone o) (m_hTop o) (m_tLastFreeChunkSize o)
    (m_ushBinCnt o) (m_ushFastBinCnt o) (m_auiBinBitMap o) (m_shmIntegrity o).
Definition set_m_ushHeadSize (v : Z) (o : CMemHead) : CMemHead :=
  MkHead
    (m_auiSign o) (m_ushVer o) v (m_tSize o) (m_tUserAllocSize o) (m_tUserAllocChunkCnt o)
    (m_uiFlags o) (m_hBottom o) (m_hReserveZone o) (m_hTop o) (m_tLastFreeChunkSize o)
    (m_ushBinCnt o) (m_ushFastBinCnt o) (m_auiBinBitMap o) (m_shmIntegrity o).
Definition set_m_tSize (v : Z) (o : CMemHead) : CMemHead :=
  MkHead
    (m_auiSign o) (m_ushVer o) (m_ushHeadSize o) v (m_tUserAllocSize o) (m_tUserAllocChunkCnt o)
    (m_uiFlags o) (m_hBottom o) (m_hReserveZone o) (m_hTop o) (m_tLastFreeChunkSize o)
    (m_ushBinCnt o) (m_ushFastBinCnt o) (m_auiBinBitMap o) (m_shmIntegrity o).
Definition set_m_tUserAllocSize (v : Z) (o : CMemHead) : CMemHead :=
  MkHead
    (m_auiSign o) (m_ushVer o) (m_ushHeadSize o) (m_tSize o) v (m_tUserAllocChunkCnt o)
    (m_uiFlags o) (m_hBottom o) (m_hReserveZone o) (m_hTop o) (m_tLastFreeChunkSize o)
    (m_ushBinCnt o) (m_ushFastBinCnt o) (m_auiBinBitMap o) (m_shmIntegrity o).
Definition set_m_tUserAllocChunkCnt (v : Z) (o : CMemHead) : CMemHead :=
  MkHead
    (m_auiSign o) (m_ushVer o) (m_ushHeadSize o) (m_tSize o) (m_tUserAllocSize o) v (m_uiFlags
    o) (m_hBottom o) (m_hReserveZone o) (m_hTop o) (m_tLastFreeChunkSize o) (m_ushBinCnt o)
    (m_ushFastBinCnt o) (m_auiBinBitMap o) (m_shmIntegrity o).
Definition set_m_uiFlags (v : Z) (o : CMemHead) : CMemHead :=
  MkHead
    (m_auiSign o) (m_ushVer o) (m_ushHeadSize o) (m_tSize o) (m_tUserAllocSize o)
    (m_tUserAllocChunkCnt o) v (m_hBottom o) (m_hReserveZone o) (m_hTop o) (m_tLastFreeChunkSize
    o) (m_ushBinCnt o) (m_ushFastBinCnt o) (m_auiBinBitMap o) (m_shmIntegrity o).
Definition set_m_hBottom (v : Z) (o : CMemHead) : CMemHead :=
  MkHead
    (m_auiSign o) (m_ushVer o) (m_ushHeadSize o) (m_tSize o) (m_tUserAllocSize o)
    (m_tUserAllocChunkCnt o) (m_uiFlags o) v (m_hReserveZone o) (m_hTop o) (m_tLastFreeChunkSize
    o) (m_ushBinCnt o) (m_ushFastBinCnt o) (m_auiBinBitMap o) (m_shmIntegrity o).
Definition set_m_hReserveZone (v : Z) (o : CMemHead) : CMemHead :=
  MkHead
    (m_auiSign o) (m_ushVer o) (m_ushHeadSize o) (m_tSize o) (m_tUserAllocSize o)
    (m_tUserAllocChunkCnt o) (m_uiFlags o) (m_hBottom o) v (m_hTop o) (m_tLastFreeChunkSize o)
    (m_ushBinCnt o) (m_ushFastBinCnt o) (m_auiBinBitMap o) (m_shmIntegrity o).
Definition set_m_hTop (v : Z) (o : CMemHead) : CMemHead :=
  MkHead
    (m_auiSign o) (m_ushVer o) (m_ushHeadSize o) (m_tSize o) (m_tUserAllocSize o)
    (m_tUserAllocChunkCnt o) (m_uiFlags o) (m_hBottom o) (m_hReserveZone o) v
    (m_tLastFreeChunkSize o) (m_ushBinCnt o) (m_ushFastBinCnt o) (m_auiBinBitMap o)
    (m_shmIntegrity o).
Definition set_m_tLastFreeChunkSize (v : Z) (o : CMemHead) : CMemHead :=
  MkHead
    (m_auiSign o) (m_ushVer o) (m_ushHeadSize o) (m_tSize o) (m_tUserAllocSize o)
    (m_tUserAllocChunkCnt o) (m_uiFlags o) (m_hBottom o) (m_hReserveZone o) (m_hTop o) v
    (m_ushBinCnt o) (m_ushFastBinCnt o) (m_auiBinBitMap o) (m_shmIntegrity o).
Definition set_m_ushBinCnt (v : Z) (o : CMemHead) : CMemHead :=
  MkHead
    (m_auiSign o) (m_ushVer o) (m_ushHeadSize o) (m_tSize o) (m_tUserAllocSize o)
    (m_tUserAllocChunkCnt o) (m_uiFlags o) (m_hBottom o) (m_hReserveZone o) (m_hTop o)
    (m_tLastFreeChunkSize o) v (m_ushFastBinCnt o) (m_auiBinBitMap o) (m_shmIntegrity o).
Definition set_m_ushFastBinCnt (v : Z) (o : CMemHead) : CMemHead :=
  MkHead
    (m_auiSign o) (m_ushVer o) (m_ushHeadSize o) (m_tSize o) (m_tUserAllocSize o)
    (m_tUserAllocChunkCnt o) (m_uiFlags o) (m_hBottom o) (m_hReserveZone o) (m_hTop o)
    (m_tLastFreeChunkSize o) (m_ushBinCnt o) v (m_auiBinBitMap o) (m_shmIntegrity o).
Definition set_m_auiBinBitMap (v : list Z) (o : CMemHead) : CMemHead :=
  MkHead
    (m_auiSign o) (m_ushVer o) (m_ushHeadSize o) (m_tSize o) (m_tUserAllocSize o)
    (m_tUserAllocChunkCnt o) (m_uiFlags o) (m_hBottom o) (m_hReserveZone o) (m_hTop o)
    (m_tLastFreeChunkSize o) (m_ushBinCnt o) (m_ushFastBinCnt o) v (m_shmIntegrity o).
Definition set_m_shmIntegrity (v : Z) (o : CMemHead) : CMemHead :=
  MkHead
    (m_auiSign o) (m_ushVer o) (m_ushHeadSize o) (m_tSize o) (m_tUserAllocSize o)
    (m_tUserAllocChunkCnt o) (m_uiFlags o) (m_hBottom o) (m_hReserveZone o) (m_hTop o)
    (m_tLastFreeChunkSize o) (m_ushBinCnt o) (m_ushFastBinCnt o) (m_auiBinBitMap o) v.

Record CBin := MkBin { bin_hPreChunk : Z; bin_hNextChunk : Z }.

Record CBinMalloc := MkBM {
  m_pstHead : CMemHead;
  m_ptBin : list CBin;
  m_ptFastBin : list CBin;
  m_ptUnsortedBin : CBin;
  mem : gmap Z Z;
  statChunkTotal : Z;
  statDataSize : Z;
  statMemoryTop : Z;
  statTmpDataSizeRecently : Z;
  statTmpDataAllocCountRecently : Z;
  statAverageDataSizeRecently : Z;
  minChunkSize : Z
}.

Definition set_m_pstHead (v : CMemHead) (o : CBinMalloc) : CBinMalloc :=
  MkBM
    v (m_ptBin o) (m_ptFastBin o) (m_ptUnsortedBin o) (mem o) (statChunkTotal o) (statDataSize
    o) (statMemoryTop o) (statTmpDataSizeRecently o) (statTmpDataAllocCountRecently o)
    (statAverageDataSizeRecently o) (minChunkSize o).
Definition set_m_ptBin (v : list CBin) (o : CBinMalloc) : CBinMalloc :=
  MkBM
    (m_pstHead o) v (m_ptFastBin o) (m_ptUnsortedBin o) (mem o) (statChunkTotal o) (statDataSize
    o) (statMemoryTop o) (statTmpDataSizeRecently o) (statTmpDataAllocCountRecently o)
    (statAverageDataSizeRecently o) (minChunkSize o).
Definition set_m_ptFastBin (v : list CBin) (o : CBinMalloc) : CBinMalloc :=
  MkBM
    (m_pstHead o) (m_ptBin o) v (m_ptUnsortedBin o) (mem o) (statChunkTotal o) (statDataSize o)
    (statMemoryTop o) (statTmpDataSizeRecently o) (statTmpDataAllocCountRecently o)
    (statAverageDataSizeRecently o) (minChunkSize o).
Definition set_m_ptUnsortedBin (v : CBin) (o : CBinMalloc) : CBinMalloc :=
  MkBM
    (m_pstHead o) (m_ptBin o) (m_ptFastBin o) v (mem o) (statChunkTotal o) (statDataSize o)
    (statMemoryTop o) (statTmpDataSizeRecently o) (statTmpDataAllocCountRecently o)
    (statAverageDataSizeRecently o) (minChunkSize o).
Definition set_mem (v : gmap Z Z) (o : CBinMalloc) : CBinMalloc :=
  MkBM
    (m_pstHead o) (m_ptBin o) (m_ptFastBin o) (m_ptUnsortedBin o) v (statChunkTotal o)
    (statDataSize o) (statMemoryTop o) (statTmpDataSizeRecently o)
    (statTmpDataAllocCountRecently o) (statAverageDataSizeRecently o) (minChunkSize o).
Definition set_statChunkTotal (v : Z) (o : CBinMalloc) : CBinMalloc :=
  MkBM
    (m_pstHead o) (m_ptBin o) (m_ptFastBin o) (m_ptUnsortedBin o) (mem o) v (statDataSize o)
    (statMemoryTop o) (statTmpDataSizeRecently o) (statTmpDataAllocCountRecently o)
    (statAverageDataSizeRecently o) (minChunkSize o).
Definition set_statDataSize (v : Z) (o : CBinMalloc) : CBinMalloc :=
  MkBM
    (m_pstHead o) (m_ptBin o) (m_ptFastBin o) (m_ptUnsortedBin o) (mem o) (statChunkTotal o) v
    (statMemoryTop o) (statTmpDataSizeRecently o) (statTmpDataAllocCountRecently o)
    (statAverageDataSizeRecently o) (minChunkSize o).
Definition set_statMemoryTop (v : Z) (o : CBinMalloc) : CBinMalloc :=
  MkBM
    (m_pstHead o) (m_ptBin o) (m_ptFastBin o) (m_ptUnsortedBin o) (mem o) (statChunkTotal o)
    (statDataSize o) v (statTmpDataSizeRecently o) (statTmpDataAllocCountRecently o)
    (statAverageDataSizeRecently o) (minChunkSize o).
Definition set_statTmpDataSizeRecently (v : Z) (o : CBinMalloc) : CBinMalloc :=
  MkBM
    (m_pstHead o) (m_ptBin o) (m_ptFastBin o) (m_ptUnsortedBin o) (mem o) (statChunkTotal o)
    (statDataSize o) (statMemoryTop o) v (statTmpDataAllocCountRecently o)
    (statAverageDataSizeRecently o) (minChunkSize o).
Definition set_statTmpDataAllocCountRecently (v : Z) (o : CBinMalloc) : CBinMalloc :=
  MkBM
    (m_pstHead o) (m_ptBin o) (m_ptFastBin o) (m_ptUnsortedBin o) (mem o) (statChunkTotal o)
    (statDataSize o) (statMemoryTop o) (statTmpDataSizeRecently o) v
    (statAverageDataSizeRecently o) (minChunkSize o).
Definition set_statAverageDataSizeRecently (v : Z) (o : CBinMalloc) : CBinMalloc :=
  MkBM
    (m_pstHead o) (m_ptBin o) (m_ptFastBin o) (m_ptUnsortedBin o) (mem o) (statChunkTotal o)
    (statDataSize o) (statMemoryTop o) (statTmpDataSizeRecently o)
    (statTmpDataAllocCountRecently o) v (minChunkSize o).
Definition set_minChunkSize (v : Z) (o : CBinMalloc) : CBinMalloc :=
  MkBM
    (m_pstHead o) (m_ptBin o) (m_ptFastBin o) (m_ptUnsortedBin o) (mem o) (statChunkTotal o)
    (statDataSize o) (statMemoryTop o) (statTmpDataSizeRecently o)
    (statTmpDataAllocCountRecently o) (statAverageDataSizeRecently o) v.

(** Computations on the allocator object; [None] is undefined behaviour. *)
Definition M : Type -> Type := ST CBinMalloc.
Definition gets {A} (f : CMemHead -> A) : M A := λ s, Some (f (m_pstHead s), s).
Definition put_head (f : CMemHead -> CMemHead) : M unit :=
  put (λ s, set_m_pstHead (f (m_pstHead s)) s).

(** ** Memory *)

Definition word_at (m : gmap Z Z) (a : Z) : Z := default 0 (m !! a).
Definition in_segment (h : CMemHead) (a : Z) : bool :=
  (a mod 8 =? 0) && (m_hBottom h <=? a) && (a + 8 <=? m_tSize h).

Definition ld (a : Z) : M Z :=
  λ s, if in_segment (m_pstHead s) a then Some (word_at (mem s) a, s) else None.
Definition st (a v : Z) : M unit :=
  λ s, if in_segment (m_pstHead s) a then Some (tt, set_mem (<[a := v]> (mem s)) s) else None.

(** The members of a [CMallocChunk] at [p]. *)
Definition w_pre (w : Z) : Z := w mod 2 ^ 32.
Definition w_size (w : Z) : Z := w / 2 ^ 32.
Definition mk_word (pre size : Z) : Z := size * 2 ^ 32 + pre.
Definition m_tPreSize (p : Z) : M Z := w ← ld p; mret (w_pre w).
Definition m_tChunkSize (p : Z) : M Z := w ← ld p; mret (w_size w).
Definition set_tPreSize (p v : Z) : M unit := w ← ld p; st p (mk_word (u32 v) (w_size w)).
Definition set_tSize (p v : Z) : M unit := w ← ld p; st p (mk_word (w_pre w) (u32 v)).
Definition m_hPreChunk (p : Z) : M Z := ld (p + 8).
Definition m_hNextChunk (p : Z) : M Z := ld (p + 16).
Definition set_hPreChunk (p v : Z) : M unit := st (p + 8) v.
Definition set_hNextChunk (p v : Z) : M unit := st (p + 16) v.

(** ** Macros *)

Definition chunk2mem (h : Z) : Z := h + 8.
Definition mem2chunk (h : Z) : Z := h - 8.
Definition chunksize2memsize (size : Z) : Z := u32 (size - 4).
Definition REAL_SIZE (sz : Z) : Z := Z.land sz (Z.lnot SIZE_BITS).
Definition CHUNK_SIZE (p : Z) : M Z := s ← m_tChunkSize p; mret (REAL_SIZE s).
Definition prev_inuse (p : Z) : M bool := s ← m_tChunkSize p; mret (negb (Z.land s PREV_INUSE =? 0)).
Definition inuse_bit_at_offset (p off : Z) : M bool := prev_inuse (p + off).
Definition set_inuse_bit_at_offset (p off : Z) : M unit :=
  s ← m_tChunkSize (p + off); set_tSize (p + off) (Z.lor s PREV_INUSE).
Definition clear_inuse_bit_at_offset (p off : Z) : M unit :=
  s ← m_tChunkSize (p + off); set_tSize (p + off) (Z.land s (Z.lnot PREV_INUSE)).
Definition set_size_at_offset (p off size : Z) : M unit :=
  s ← m_tChunkSize (p + off); set_tSize (p + off) (Z.lor (REAL_SIZE size) (Z.land s SIZE_BITS)).
Definition set_presize_at_offset (p off size : Z) : M unit := set_tPreSize (p + off) (REAL_SIZE size).

Definition REQUEST_OUT_OF_RANGE (req : Z) : bool := u32 (-2 * MINSIZE) <=? req.
Definition request2size (req : Z) : Z :=
  if req + 8 + MALLOC_ALIGN_MASK <? MINSIZE then MINSIZE
  else u32 (Z.land (req + 8 + MALLOC_ALIGN_MASK) (Z.lnot MALLOC_ALIGN_MASK)).
Definition misaligned_chunk (h : Z) : bool := negb (Z.land h MALLOC_ALIGN_MASK =? 0).
Definition in_smallbin_range (sz : Z) : bool := sz <? MIN_LARGE_SIZE.
Definition smallbin_index (sz : Z) : Z := Z.shiftr sz 3.
Definition largebin_index (sz : Z) : Z :=
  if Z.shiftr sz 6 <=? 32 then 56 + Z.shiftr sz 6
  else if Z.shiftr sz 9 <=? 20 then 91 + Z.shiftr sz 9
  else if Z.shiftr sz 12 <=? 10 then 110 + Z.shiftr sz 12
  else if Z.shiftr sz 15 <=? 4 then 119 + Z.shiftr sz 15
  else if Z.shiftr sz 18 <=? 2 then 124 + Z.shiftr sz 18
  else 126.
Definition bin_index (sz : Z) : Z :=
  if in_smallbin_range sz then smallbin_index sz else largebin_index sz.
Definition CAN_COMBILE (size add : Z) : bool := size + add <=? MAX_ALLOC_SIZE.
Definition AT_TOP (p sz : Z) : M bool := t ← gets m_hTop; mret (p + sz =? t).
Definition Ptr2Handle (p : Z) : M Z :=
  n ← gets m_tSize; mret (if (p <? 0) || (n <=? p) then INVALID_HANDLE else p).

(** ** Bins *)

Inductive bin_ref := Bin (i : Z) | FastBin (i : Z) | UnsortedBin.

Definition get_bin (b : bin_ref) : M CBin :=
  λ s, match b with
       | Bin i => x ← rd (m_ptBin s) i; Some (x, s)
       | FastBin i => x ← rd (m_ptFastBin s) i; Some (x, s)
       | UnsortedBin => Some (m_ptUnsortedBin s, s)
       end.
Definition set_bin (b : bin_ref) (x : CBin) : M unit :=
  λ s, match b with
       | Bin i => l ← wr (m_ptBin s) i x; Some (tt, set_m_ptBin l s)
       | FastBin i => l ← wr (m_ptFastBin s) i x; Some (tt, set_m_ptFastBin l s)
       | UnsortedBin => Some (tt, set_m_ptUnsortedBin x s)
       end.
Definition set_bin_next (b : bin_ref) (v : Z) : M unit := x ← get_bin b; set_bin b (MkBin (bin_hPreChunk x) v).
Definition set_bin_pre (b : bin_ref) (v : Z) : M unit := x ← get_bin b; set_bin b (MkBin v (bin_hNextChunk x)).
Definition bin_next (b : bin_ref) : M Z := x ← get_bin b; mret (bin_hNextChunk x).
Definition bin_pre (b : bin_ref) : M Z := x ← get_bin b; mret (bin_hPreChunk x).

Definition EmptyBin (i : Z) : M bool := h ← bin_next (Bin i); mret (h =? INVALID_HANDLE).
Definition upd_bitmap (i : Z) (f : Z -> Z) : M unit :=
  bm ← gets m_auiBinBitMap;
  w ← lift (rd bm (i / 32)); bm ← lift (wr bm (i / 32) (u32 (f w)));
  put_head (set_m_auiBinBitMap bm).
Definition SetBinBitMap (i : Z) : M unit := upd_bitmap i (λ w, Z.lor w (Z.shiftl 1 (i mod 32))).
Definition ClearBinBitMap (i : Z) : M unit := upd_bitmap i (λ w, Z.land w (Z.lnot (Z.shiftl 1 (i mod 32)))).

(** Take a chunk off a bin and keep the bitmap in step. *)
Definition UnlinkBin (b : bin_ref) (hHandle : Z) : M Z :=
  if hHandle =? INVALID_HANDLE then mret (-1)
  else
    bn ← bin_next b; bp ← bin_pre b;
    if (bn =? INVALID_HANDLE) || (bp =? INVALID_HANDLE) then mret (-2)
    else
      pre ← m_hPreChunk hHandle;
      nxt ← m_hNextChunk hHandle;
      (if pre =? INVALID_HANDLE then set_bin_next b nxt else set_hNextChunk pre nxt);;
      nxt ← m_hNextChunk hHandle;
      pre ← m_hPreChunk hHandle;
      (if nxt =? INVALID_HANDLE then set_bin_pre b pre else set_hPreChunk nxt pre);;
      mret 0.

Definition unlink_clear (i hHandle : Z) : M unit :=
  UnlinkBin (Bin i) hHandle;;
  e ← EmptyBin i;
  when_ e (ClearBinBitMap i).

Definition LinkBin (b : bin_ref) (hHandle : Z) : M Z :=
  if hHandle =? INVALID_HANDLE then mret (-1)
  else
    bn ← bin_next b; bp ← bin_pre b;
    set_hNextChunk hHandle bn;;
    set_hPreChunk hHandle INVALID_HANDLE;;
    if negb (bn =? INVALID_HANDLE) then
      set_hPreChunk bn hHandle;;
      if bp =? INVALID_HANDLE then mret (-2)
      else set_bin_next b hHandle;; mret 0
    else if negb (bp =? INVALID_HANDLE) then mret (-3)
    else set_bin_pre b hHandle;; set_bin_next b hHandle;; mret 0.

(** [while(hPre != INVALID_HANDLE)]: the first chunk from the tail that is not
    smaller; [n] bounds the walk. *)
Fixpoint LinkSortedBin_search (n : nat) (hPre tSize : Z) : M Z :=
  if hPre =? INVALID_HANDLE then mret INVALID_HANDLE
  else match n with
  | O => lift None
  | S n' =>
      s ← m_tChunkSize hPre;
      if tSize <=? s then mret hPre
      else p ← m_hPreChunk hPre; LinkSortedBin_search n' p tSize
  end.

Definition LinkSortedBin (fuel : nat) (b : bin_ref) (hHandle tSize : Z) : M Z :=
  if hHandle =? INVALID_HANDLE then mret (-1)
  else
    set_hNextChunk hHandle INVALID_HANDLE;;
    set_hPreChunk hHandle INVALID_HANDLE;;
    bn ← bin_next b; bp ← bin_pre b;
    if bn =? INVALID_HANDLE then
      set_bin_next b hHandle;; set_bin_pre b hHandle;; mret 0
    else
      hPre ← LinkSortedBin_search fuel bp (Z.lor (REAL_SIZE tSize) PREV_INUSE);
      if hPre =? INVALID_HANDLE then
        if bp =? INVALID_HANDLE then mret (-1) else LinkBin b hHandle;; mret 0
      else
        nxt ← m_hNextChunk hPre;
        set_hPreChunk hHandle hPre;;
        set_hNextChunk hHandle nxt;;
        set_hNextChunk hPre hHandle;;
        (if negb (nxt =? INVALID_HANDLE) then h ← Ptr2Handle hHandle; set_hPreChunk nxt h
         else set_bin_pre b hHandle);;
        mret 0.

(** Head of a bin, marked in use and unlinked; 0 is NULL. *)
Definition BinMalloc (b : bin_ref) : M Z :=
  h ← bin_next b;
  if h =? INVALID_HANDLE then mret 0
  else
    s ← m_tChunkSize h;
    set_inuse_bit_at_offset h (REAL_SIZE s);;
    UnlinkBin b h;;
    mret h.
Definition FastMalloc (tSize : Z) : M Z := BinMalloc (FastBin (smallbin_index tSize)).
Definition SmallBinMalloc (tSize : Z) : M Z :=
  let i := smallbin_index tSize in
  p ← BinMalloc (Bin i);
  e ← EmptyBin i;
  when_ e (ClearBinBitMap i);;
  mret p.

(** ** Setting up a segment *)

Definition InitSign : M unit := put_head (set_m_auiSign TTC_SIGN).

Definition RESERVE_ZONE : Z :=
  Z.land (sizeof_CMemHead + sizeof_CBin * (NBINS + NFASTBINS + 1) + MALLOC_ALIGN_MASK)
         (Z.lnot MALLOC_ALIGN_MASK).
Definition BOTTOM : Z :=
  Z.land (RESERVE_ZONE + TTC_RESERVE_SIZE + MALLOC_ALIGN_MASK) (Z.lnot MALLOC_ALIGN_MASK).

(** [memset(m_pstHead, 0, sizeof(CMemHead))] *)
Definition zero_head : CMemHead :=
  MkHead (replicate 14 0) 0 0 0 0 0 0 0 0 0 0 0 0 (replicate 4 0) 0.
Definition empty_bin : CBin := MkBin INVALID_HANDLE INVALID_HANDLE.

(** The object before a segment is attached: no head, no bins; the statistics
    counters are those the statistics manager holds. *)
Definition CBinMalloc_new (chunk_total data_size memory_top avg_recent : Z) (m : gmap Z Z) : CBinMalloc :=
  MkBM zero_head [] [] empty_bin m chunk_total data_size memory_top 0 0 avg_recent MINSIZE.

Definition init_head (tSize : Z) : M unit :=
  put_head (λ _, zero_head);;
  InitSign;;
  put_head (set_m_ushVer TTC_VER_MIN);;
  put_head (set_m_ushHeadSize sizeof_CMemHead);;
  put_head (set_m_tSize tSize);;
  put_head (set_m_tUserAllocChunkCnt 0);;
  put_head (set_m_hReserveZone RESERVE_ZONE);;
  put_head (set_m_hBottom BOTTOM);;
  put_head (set_m_hTop BOTTOM);;
  put_head (set_m_tUserAllocSize BOTTOM);;
  put (set_statMemoryTop BOTTOM);;
  put_head (set_m_tLastFreeChunkSize
              (if BOTTOM + MINSIZE <? tSize then tSize - BOTTOM - MINSIZE else 0));;
  put_head (set_m_ushBinCnt NBINS);;
  put_head (set_m_ushFastBinCnt NFASTBINS);;
  put_head (set_m_auiBinBitMap (replicate 4 0)).

Definition init_bins : M unit :=
  put (set_m_ptBin (replicate 128 empty_bin));;
  put (set_m_ptFastBin (replicate 64 empty_bin));;
  put (set_m_ptUnsortedBin empty_bin).

(** [statChunkTotal = ...; statDataSize = ...]: 64-bit signed counters. *)
Definition init_stat : M unit :=
  c ← gets m_tUserAllocChunkCnt; put (set_statChunkTotal (s64 c));;
  n ← gets m_tUserAllocSize; put (set_statDataSize (s64 n)).

Definition Init (tSize : Z) : M Z :=
  if tSize <? sizeof_CMemHead + sizeof_CBin * (NBINS + NFASTBINS + 1) + TTC_RESERVE_SIZE + MINSIZE
  then mret (-1)
  else
    init_head tSize;;
    init_bins;;
    top ← gets m_hTop;
    set_tPreSize top 0;;
    set_tSize top PREV_INUSE;;
    init_stat;;
    mret 0.

Definition DetectVersion : M Z :=
  sign ← gets m_auiSign;
  s0 ← lift (rd sign 0); s1 ← lift (rd sign 1);
  if negb (s0 =? 0) || negb (s1 =? 0x4D635474) then mret 1
  else
    v ← gets m_ushVer;
    mret (if v =? 2 then 2 else if v =? 3 then 3 else if v =? 4 then 4 else 0).

Definition ShareMemoryIntegrity : M Z := v ← gets m_shmIntegrity; mret (s32 v).
Definition SetShareMemoryIntegrity (flags : Z) : M unit :=
  put_head (set_m_shmIntegrity (if flags =? 0 then 0 else 1)).

(** The segment a process attaches to holds head, bins and memory already. *)
Definition Attach (tSize : Z) : M Z :=
  if tSize <? sizeof_CMemHead + sizeof_CBin * (NBINS + NFASTBINS + 1) + MINSIZE then mret (-1)
  else
    v ← DetectVersion;
    if negb (v =? TTC_VER_MIN) then mret (-2)
    else
      n ← gets m_tSize; top ← gets m_hTop;
      if negb (n =? tSize) then mret (-3)
      else if n <=? top then mret (-4)
      else init_stat;; mret 0.

Definition GetReserveZone : M Z := gets m_hReserveZone.
Definition UserAllocSize : M Z := gets m_tUserAllocSize.
Definition TotalSize : M Z := gets m_tSize.

(** ** Statistics *)

Definition AddAllocSizeToStat (size : Z) : M unit :=
  c ← get statTmpDataAllocCountRecently;
  if MAXSTATCOUNT <? c then
    put (set_statTmpDataSizeRecently 0);;
    put (set_statTmpDataAllocCountRecently 0);;
    put (set_statAverageDataSizeRecently MINSIZE)
  else
    n ← get statTmpDataSizeRecently;
    put (set_statTmpDataSizeRecently (u64 (n + size)));;
    put (set_statTmpDataAllocCountRecently (u64 (c + 1)));;
    n ← get statTmpDataSizeRecently; c ← get statTmpDataAllocCountRecently;
    if c =? 0 then lift None
    else put (set_statAverageDataSizeRecently (s64 (n / c))).

(** 1 selects the average size of the chunks in use. *)
Definition GetMinChunkSize : M Z :=
  mn ← get minChunkSize;
  if mn =? 1 then
    c ← get statChunkTotal; n ← get statDataSize;
    mret (if c <=? 0 then MINSIZE else u32 (Z.quot n c))
  else mret mn.
Definition SetMinChunkSize (size : Z) : M unit :=
  put (set_minChunkSize (if size =? 1 then 1 else if size <? MINSIZE then MINSIZE else size)).

(** ** Consistency checks *)

Definition bad_pre_chunk (p : Z) : M bool :=
  ps ← m_tPreSize p;
  h ← Ptr2Handle (p - ps); bottom ← gets m_hBottom;
  if h <? bottom then mret true
  else psz ← CHUNK_SIZE (p - ps); mret (negb (psz =? ps)).
Definition CheckInuseChunk (p : Z) : M Z :=
  sz ← CHUNK_SIZE p;
  b ← inuse_bit_at_offset p sz;
  if negb b then mret (-1)
  else
    pin ← prev_inuse p;
    bad ← (if (pin : bool) then mret false else bad_pre_chunk p);
    if (bad : bool) then mret (-2)
    else
      sz ← CHUNK_SIZE p;
      top ← AT_TOP (p + sz) 0;
      if negb top then
        ns ← CHUNK_SIZE (p + sz);
        mret (if ns <? MINSIZE then -3 else 0)
      else mret 0.

Definition ChunkSize (hHandle : Z) : M Z :=
  top ← gets m_hTop; bottom ← gets m_hBottom;
  if (top <=? hHandle) || (hHandle <=? bottom) then mret 0
  else
    let p := mem2chunk hHandle in
    r ← CheckInuseChunk p;
    if negb (r =? 0) then mret 0
    else sz ← CHUNK_SIZE p; mret (chunksize2memsize sz).

(** The last chunk of a bin's list; [n] bounds the walk. *)
Fixpoint bin_last (n : nat) (h : Z) : M Z :=
  match n with
  | O => lift None
  | S n' =>
      nxt ← m_hNextChunk h;
      if negb (nxt =? INVALID_HANDLE) then bin_last n' nxt else mret h
  end.
Definition bin_ok (fuel : nat) (b : bin_ref) : M bool :=
  h ← bin_next b;
  l ← (if h =? INVALID_HANDLE then mret h else bin_last fuel h);
  p ← bin_pre b;
  mret (p =? l).
Fixpoint bins_ok (fuel : nat) (bs : list bin_ref) : M bool :=
  match bs with
  | [] => mret true
  | b :: bs' => ok ← bin_ok fuel b; if (ok : bool) then bins_ok fuel bs' else mret false
  end.
Definition CheckBin (fuel : nat) : M Z :=
  a ← bins_ok fuel (Bin <$> (Z.of_nat <$> seq 0 128));
  if negb a then mret (-1)
  else
    b ← bins_ok fuel (FastBin <$> (Z.of_nat <$> seq 0 64));
    if negb b then mret (-2)
    else c ← bin_ok fuel UnsortedBin; mret (if (c : bool) then 0 else -3).

(** ** Freeing *)

(** Unlink the free chunk [p] of size [sz] from the bin of its size. *)
Definition unlink_free (p sz : Z) : M unit := h ← Ptr2Handle p; unlink_clear (bin_index sz) h.

(** Merge with the free chunk before; gives the start and size of the result. *)
Definition merge_prev (p tSize : Z) : M (Z * Z) :=
  pin ← prev_inuse p;
  ps ← m_tPreSize p;
  if negb pin && CAN_COMBILE tSize ps then
    let tSize := u32 (tSize + ps) in
    let p := p - ps in
    unlink_free p ps;;
    set_size_at_offset p 0 tSize;;
    set_presize_at_offset p tSize tSize;;
    mret (p, tSize)
  else mret (p, tSize).

(** Merge with the free chunk behind; [None] is the return of -4. *)
Definition merge_next (p tSize : Z) : M (option Z) :=
  top ← gets m_hTop;
  if negb (p + tSize =? top) then
    let q := p + tSize in
    ns ← CHUNK_SIZE q;
    if ns <? MINSIZE then mret None
    else
      b ← inuse_bit_at_offset q ns;
      if negb b && CAN_COMBILE tSize ns then
        let tSize := u32 (tSize + ns) in
        unlink_free q ns;;
        set_size_at_offset p 0 tSize;;
        set_presize_at_offset p tSize tSize;;
        mret (Some tSize)
      else mret (Some tSize)
  else mret (Some tSize).

(** Write the header of the free chunk and give it to the top or to its bin. *)
Definition free_merged (p tSize : Z) : M Z :=
  set_size_at_offset p 0 tSize;;
  set_presize_at_offset p tSize tSize;;
  set_inuse_bit_at_offset p tSize;;
  last ← gets m_tLastFreeChunkSize;
  when_ (last <? tSize) (put_head (set_m_tLastFreeChunkSize tSize));;
  top ← gets m_hTop;
  if p + tSize =? top then
    put_head (set_m_hTop (top - tSize));;
    put (set_statMemoryTop (top - tSize));;
    set_tSize p PREV_INUSE;;
    n ← gets m_tSize; top ← gets m_hTop; last ← gets m_tLastFreeChunkSize;
    when_ ((top + MINSIZE <? n) && (last <? n - top - MINSIZE))
      (put_head (set_m_tLastFreeChunkSize (n - top - MINSIZE)));;
    mret 0
  else
    clear_inuse_bit_at_offset p tSize;;
    h ← Ptr2Handle p;
    LinkBin (Bin (bin_index tSize)) h;;
    SetBinBitMap (bin_index tSize);;
    mret 0.

(** Return code and the size given back in [tMemSize]. *)
Definition InterFree (hHandle : Z) : M (Z * Z) :=
  n ← gets m_tSize;
  if hHandle =? INVALID_HANDLE then mret (0, 0)
  else if n <=? hHandle then mret (-1, 0)
  else
    let p := mem2chunk hHandle in
    tSize ← CHUNK_SIZE p;
    h ← Ptr2Handle p;
    if n <=? h + tSize then mret (-2, tSize)
    else
      b ← inuse_bit_at_offset p tSize;
      if negb b then mret (-3, tSize)
      else if misaligned_chunk h then mret (INVALID_HANDLE, tSize)
      else
        r ← CheckInuseChunk p;
        if negb (r =? 0) then mret (INVALID_HANDLE, tSize)
        else
          '(p, sz) ← merge_prev p tSize;
          o ← merge_next p sz;
          match o with
          | None => mret (-4, tSize)
          | Some sz => r ← free_merged p sz; mret (r, tSize)
          end.

Definition Free (hHandle : Z) : M Z :=
  '(iRet, tSize) ← InterFree hHandle;
  when_ (iRet =? 0)
    (n ← gets m_tUserAllocSize; put_head (set_m_tUserAllocSize (u64 (n - tSize)));;
     c ← gets m_tUserAllocChunkCnt; put_head (set_m_tUserAllocChunkCnt (u64 (c - 1)));;
     t ← get statChunkTotal; put (set_statChunkTotal (s64 (t - 1)));;
     n ← gets m_tUserAllocSize; put (set_statDataSize (s64 n)));;
  mret iRet.

(** One fast chunk is taken off its bin, merged and put into the unsorted bin. *)
Definition FreeFast_step (i : Z) : M unit :=
  p ← bin_next (FastBin i);
  UnlinkBin (FastBin i) p;;
  tSize ← CHUNK_SIZE p;
  pin ← prev_inuse p;
  ps ← m_tPreSize p;
  '(p, tSize) ← ((if negb pin && CAN_COMBILE tSize ps then
                    let tSize := u32 (tSize + ps) in
                    let p := p - ps in
                    unlink_free p ps;;
                    set_inuse_bit_at_offset p tSize;;
                    mret (p, tSize)
                  else mret (p, tSize)) : M (Z * Z));
  top ← AT_TOP p tSize;
  tSize ← ((if negb top then
              let q := p + tSize in
              ns ← CHUNK_SIZE q;
              b ← inuse_bit_at_offset q ns;
              if negb b && CAN_COMBILE tSize ns then
                unlink_free q ns;;
                set_inuse_bit_at_offset p (u32 (tSize + ns));;
                mret (u32 (tSize + ns))
              else mret tSize
            else mret tSize) : M Z);
  last ← gets m_tLastFreeChunkSize;
  when_ (last <? REAL_SIZE tSize) (put_head (set_m_tLastFreeChunkSize (REAL_SIZE tSize)));;
  s ← m_tChunkSize p;
  set_tSize p (Z.lor (REAL_SIZE tSize) (Z.land s SIZE_BITS));;
  top ← AT_TOP p tSize;
  (if (top : bool) then
     t ← gets m_hTop;
     put_head (set_m_hTop (t - tSize));;
     put (set_statMemoryTop (t - tSize))
   else h ← Ptr2Handle p; LinkBin UnsortedBin h;; mret tt);;
  set_tPreSize (p + REAL_SIZE tSize) (REAL_SIZE tSize).

Fixpoint FreeFast_bin (n : nat) (i : Z) : M unit :=
  h ← bin_next (FastBin i);
  if h =? INVALID_HANDLE then mret tt
  else match n with
  | O => lift None
  | S n' => FreeFast_step i;; FreeFast_bin n' i
  end.
Fixpoint FreeFast_loop (fuel : nat) (bs : list Z) : M unit :=
  match bs with
  | [] => mret tt
  | i :: bs' => FreeFast_bin fuel i;; FreeFast_loop fuel bs'
  end.
Definition FreeFast (fuel : nat) : M Z :=
  f ← gets m_uiFlags;
  if Z.land f MALLOC_FLAG_FAST =? 0 then mret 0
  else
    FreeFast_loop fuel (Z.of_nat <$> seq 0 64);;
    f ← gets m_uiFlags;
    put_head (set_m_uiFlags (Z.land f (Z.lnot MALLOC_FLAG_FAST)));;
    mret 0.
Definition LastFreeSize (fuel : nat) : M Z :=
  FreeFast fuel;; n ← gets m_tLastFreeChunkSize; mret (chunksize2memsize (u32 n)).

(** What freeing would make available in one piece. *)
Definition AskForDestroySize (hHandle : Z) : M Z :=
  n ← gets m_tSize;
  if (hHandle =? INVALID_HANDLE) || (n <=? hHandle) then mret 0
  else
    let p := mem2chunk hHandle in
    sz ← CHUNK_SIZE p;
    h ← Ptr2Handle p;
    if n <? h + sz then mret 0
    else
      b ← inuse_bit_at_offset p sz;
      if negb b then mret 0
      else if misaligned_chunk h then mret 0
      else
        r ← CheckInuseChunk p;
        if negb (r =? 0) then mret 0
        else
          pin ← prev_inuse p;
          ps ← m_tPreSize p;
          let '(h, sz) := if negb pin && CAN_COMBILE sz ps then (h - ps, u32 (sz + ps)) else (h, sz) in
          top ← gets m_hTop;
          o ← ((if negb (h + sz =? top) then
                  let q := h + sz in
                  ns ← CHUNK_SIZE q;
                  if ns <? MINSIZE then mret None
                  else
                    b ← inuse_bit_at_offset q ns;
                    mret (Some (if negb b && CAN_COMBILE sz ns then u32 (sz + ns) else sz))
                else mret (Some sz)) : M (option Z));
          match o with
          | None => mret 0
          | Some sz =>
              let f := u32 (n - top - MINSIZE + sz) in
              mret (chunksize2memsize (if h + sz =? top then (if sz <? f then f else sz) else sz))
          end.

(** ** Allocating *)

(** A pointer to the user's bytes of a chunk cut from the top; 0 is NULL. *)
Definition TopAlloc (tSize : Z) : M Z :=
  top ← gets m_hTop; n ← gets m_tSize;
  if n <=? top + tSize + MINSIZE then mret 0
  else
    s ← m_tChunkSize top;
    set_tSize top (Z.lor (Z.land s SIZE_BITS) (REAL_SIZE tSize));;
    set_tPreSize (top + tSize) (REAL_SIZE tSize);;
    set_tSize (top + tSize) PREV_INUSE;;
    put_head (set_m_hTop (top + tSize));;
    put (set_statMemoryTop (top + tSize));;
    mret (chunk2mem top).

(** Mark the unlinked free chunk [p] in use, giving back what it has beyond
    [tSize] when that is a chunk worth having. The two copies of this code in
    [InterMalloc] are one definition. *)
Definition split_chunk (p tSize tRemainSize : Z) : M unit :=
  mn ← GetMinChunkSize;
  if tRemainSize <? mn then sz ← CHUNK_SIZE p; set_inuse_bit_at_offset p sz
  else
    s ← m_tChunkSize p;
    set_tSize p (Z.lor tSize (Z.land s SIZE_BITS));;
    let q := p + tSize in
    set_tSize q tRemainSize;;
    set_tPreSize q tSize;;
    set_inuse_bit_at_offset q 0;;
    set_tPreSize (p + tSize + tRemainSize) tRemainSize;;
    set_inuse_bit_at_offset q tRemainSize;;
    h ← Ptr2Handle q;
    InterFree (chunk2mem h);;
    mret tt.

(** First chunk of the list that is big enough, among the first [n]. *)
Fixpoint first_fit (n : nat) (v tSize : Z) : M Z :=
  match n with
  | O => mret INVALID_HANDLE
  | S n' =>
      if v =? INVALID_HANDLE then mret INVALID_HANDLE
      else
        sz ← CHUNK_SIZE v;
        if tSize <=? sz then mret v else nxt ← m_hNextChunk v; first_fit n' nxt tSize
  end.

(** [m_auiBinBitMap[i]]: behind the four words lie [m_shmIntegrity] and the
    zeroed reserved bytes, which the scan's bound of 16 lets it read. *)
Definition bitmap_word (h : CMemHead) (i : Z) : Z :=
  if i <? 4 then default 0 (rd (m_auiBinBitMap h) i)
  else if i =? 4 then m_shmIntegrity h
  else 0.
Fixpoint skip_words (n : nat) (h : CMemHead) (uiBitMapIdx uiBinIdx : Z) : Z :=
  match n with
  | O => uiBinIdx
  | S n' =>
      if (uiBitMapIdx <? 16) && (bitmap_word h uiBitMapIdx =? 0)
      then skip_words n' h (uiBitMapIdx + 1) (uiBinIdx + 32)
      else uiBinIdx
  end.
Fixpoint skip_bins (n : nat) (bs : list CBin) (i : Z) : option Z :=
  match n with
  | O => Some i
  | S n' =>
      if i <? NBINS then
        x ← rd bs i;
        if bin_hNextChunk x =? INVALID_HANDLE then skip_bins n' bs (i + 1) else Some i
      else Some i
  end.
Definition next_bin (uiBinIdx : Z) : M Z :=
  h ← get m_pstHead; bs ← get m_ptBin;
  let i := uiBinIdx + 1 in
  let w := i / 32 in
  let i := if bitmap_word h w =? 0 then skip_words 16 h (w + 1) ((w + 1) * 32) else i in
  lift (skip_bins 128 bs i).

(** [do ... while(CHUNK_SIZE(pstChunk) < tSize)] from the tail of a bin. *)
Fixpoint last_fit (n : nat) (hPre tSize : Z) : M Z :=
  match n with
  | O => lift None
  | S n' =>
      p ← m_hPreChunk hPre;
      sz ← CHUNK_SIZE hPre;
      if sz <? tSize then last_fit n' p tSize else mret hPre
  end.

Definition take_chunk (i p tSize : Z) : M Z :=
  sz ← CHUNK_SIZE p;
  h ← Ptr2Handle p;
  unlink_clear i h;;
  split_chunk p tSize (u32 (sz - tSize));;
  Ptr2Handle (chunk2mem p).

Definition search_next_bin (fuel : nat) (uiBinIdx tSize : Z) : M Z :=
  i ← next_bin uiBinIdx;
  if NBINS <=? i then p ← TopAlloc tSize; Ptr2Handle p
  else
    hPre ← bin_pre (Bin i);
    p ← last_fit fuel hPre tSize;
    take_chunk i p tSize.

Definition alloc_chunk (fuel : nat) (tSize : Z) : M Z :=
  let uiBinIdx := bin_index tSize in
  if in_smallbin_range tSize then
    p ← SmallBinMalloc tSize;
    if p =? 0 then search_next_bin fuel uiBinIdx tSize else Ptr2Handle (chunk2mem p)
  else
    v ← bin_next (Bin uiBinIdx);
    v ← first_fit 99 v tSize;
    if v =? INVALID_HANDLE then search_next_bin fuel uiBinIdx tSize
    else take_chunk uiBinIdx v tSize.

Definition InterMalloc (fuel : nat) (req : Z) : M Z :=
  if REQUEST_OUT_OF_RANGE req then mret INVALID_HANDLE
  else alloc_chunk fuel (request2size req).

Definition Malloc (fuel : nat) (tSize : Z) : M Z :=
  put_head (set_m_tLastFreeChunkSize 0);;
  hHandle ← InterMalloc fuel tSize;
  when_ (negb (hHandle =? INVALID_HANDLE))
    (sz ← CHUNK_SIZE (mem2chunk hHandle);
     n ← gets m_tUserAllocSize; put_head (set_m_tUserAllocSize (u64 (n + sz)));;
     c ← gets m_tUserAllocChunkCnt; put_head (set_m_tUserAllocChunkCnt (u64 (c + 1)));;
     t ← get statChunkTotal; put (set_statChunkTotal (s64 (t + 1)));;
     n ← gets m_tUserAllocSize; put (set_statDataSize (s64 n));;
     AddAllocSizeToStat tSize);;
  mret hHandle.

(** [memset(p, 0, n)], [p] 8-aligned: [k] whole words, then the low bytes of one. *)
Fixpoint zero_words (k : nat) (a : Z) : M unit :=
  match k with O => mret tt | S k' => st a 0;; zero_words k' (a + 8) end.
Definition memset0 (a n : Z) : M unit :=
  zero_words (Z.to_nat (n / 8)) a;;
  when_ (negb (n mod 8 =? 0))
    (let e := a + n / 8 * 8 in
     w ← ld e; st e (Z.shiftl (Z.shiftr w (8 * (n mod 8))) (8 * (n mod 8)))).
Definition Calloc (fuel : nat) (tSize : Z) : M Z :=
  hHandle ← Malloc fuel tSize;
  when_ (negb (hHandle =? INVALID_HANDLE)) (memset0 hHandle tSize);;
  mret hHandle.

(** ** Resizing *)

(** [memmove(chunk2mem(dst), chunk2mem(src), size - 4)], upwards: the words
    behind the header and the low half of the next header. *)
Fixpoint copy_words (k : nat) (dst src : Z) : M unit :=
  match k with
  | O => mret tt
  | S k' => w ← ld src; st dst w;; copy_words k' (dst + 8) (src + 8)
  end.
Definition copy_user (dst src size : Z) : M unit :=
  copy_words (Z.to_nat (size / 8 - 1)) (dst + 8) (src + 8);;
  w ← m_tPreSize (src + size);
  set_tPreSize (dst + size) w.

(** The guards: the chunk's size when the handle may be resized. *)
Definition realloc_check (hHandle : Z) : M (option Z) :=
  top ← gets m_hTop; bottom ← gets m_hBottom;
  if (top <=? hHandle) || (hHandle <=? bottom) then mret None
  else
    let p := mem2chunk hHandle in
    tOldSize ← CHUNK_SIZE p;
    h ← Ptr2Handle p;
    if top <? h + tOldSize then mret None
    else if misaligned_chunk h then mret None
    else if tOldSize <? MINSIZE then mret None
    else r ← CheckInuseChunk p; mret (if r =? 0 then Some tOldSize else None).

(** Cut the remainder of a grown or shrunk chunk into legal chunks and free them. *)
Fixpoint free_remainder (n : nat) (q tRemainderSize : Z) : M unit :=
  match n with
  | O => lift None
  | S n' =>
      let tThis := if MAX_ALLOC_SIZE <? tRemainderSize then
                     if MINSIZE <=? tRemainderSize - MAX_ALLOC_SIZE then REAL_SIZE MAX_ALLOC_SIZE
                     else u32 (REAL_SIZE (tRemainderSize - MINSIZE))
                   else u32 tRemainderSize in
      set_tSize q (Z.lor (REAL_SIZE tThis) PREV_INUSE);;
      let nx := q + REAL_SIZE tThis in
      set_tPreSize nx (REAL_SIZE tThis);;
      s ← m_tChunkSize nx; set_tSize nx (Z.lor s PREV_INUSE);;
      set_inuse_bit_at_offset q tThis;;
      h ← Ptr2Handle (chunk2mem q);
      InterFree h;;
      let rest := tRemainderSize - tThis in
      if 0 <? rest then free_remainder n' (q + REAL_SIZE tThis) rest else mret tt
  end.

(** From the assertion on: the chunk [p] of size [tNewSize] becomes [tSize]. *)
Definition realloc_finish (p tNewSize tSize : Z) (iPreInUse : bool) (tPreSize : Z) : M Z :=
  if tNewSize <? tSize then lift None
  else
    mn ← GetMinChunkSize;
    let rem := tNewSize - tSize in
    (if mn <=? rem then free_remainder 3 (p + tSize) rem
     else let nx := p + REAL_SIZE tNewSize in
          s ← m_tChunkSize nx; set_tSize nx (Z.lor s PREV_INUSE));;
    set_tSize p (u32 (REAL_SIZE (if mn <=? rem then tSize else tNewSize)));;
    when_ iPreInUse (s ← m_tChunkSize p; set_tSize p (Z.lor s PREV_INUSE));;
    set_tPreSize p tPreSize;;
    Ptr2Handle (chunk2mem p).

(** Growing into the top. *)
Definition realloc_top (p tOldSize tSize : Z) : M Z :=
  top ← gets m_hTop;
  s ← m_tChunkSize p;
  set_tSize p (Z.lor (REAL_SIZE tSize) (Z.land s SIZE_BITS));;
  let nx := top + (tSize - tOldSize) in
  set_tPreSize nx (REAL_SIZE tSize);;
  set_tSize nx PREV_INUSE;;
  put_head (set_m_hTop nx);;
  put (set_statMemoryTop nx);;
  Ptr2Handle (chunk2mem p).

(** Growing by allocating, copying and freeing. *)
Definition realloc_move (fuel : nat) (p tOldSize tUserReqSize : Z) : M Z :=
  hNew ← InterMalloc fuel tUserReqSize;
  if hNew =? INVALID_HANDLE then mret INVALID_HANDLE
  else
    hNew ← Ptr2Handle (mem2chunk hNew);
    copy_user hNew p tOldSize;;
    InterFree (chunk2mem p);;
    mret (chunk2mem hNew).

(** The free chunk behind can be joined: its size. *)
Definition grow_next (p tOldSize tSize : Z) : M (option Z) :=
  top ← AT_TOP p tOldSize;
  if (top : bool) then mret None
  else
    ns ← CHUNK_SIZE (p + tOldSize);
    b ← inuse_bit_at_offset (p + tOldSize) ns;
    mret (if negb b && (tSize <=? tOldSize + ns) then Some ns else None).

Definition realloc_grow (fuel : nat) (p tOldSize tSize req : Z) : M Z :=
  iPreInUse ← prev_inuse p;
  tPreSize ← m_tPreSize p;
  at_top ← AT_TOP p tOldSize;
  top ← gets m_hTop; n ← gets m_tSize;
  if at_top && (top + (tSize - tOldSize) + MINSIZE <? n) then realloc_top p tOldSize tSize
  else
    o ← grow_next p tOldSize tSize;
    match o with
    | Some ns =>
        h ← Ptr2Handle (p + tOldSize);
        UnlinkBin (Bin (bin_index ns)) h;;
        realloc_finish p (tOldSize + ns) tSize iPreInUse tPreSize
    | None =>
        if negb iPreInUse && (tSize <=? u32 (tOldSize + tPreSize)) then
          let hNew := p - tPreSize in
          pin ← prev_inuse hNew;
          pps ← m_tPreSize hNew;
          UnlinkBin (Bin (bin_index tPreSize)) hNew;;
          copy_user hNew p tOldSize;;
          realloc_finish hNew (tOldSize + tPreSize) tSize pin pps
        else realloc_move fuel p tOldSize req
    end.

(** The new handle and the old size given back in [tOldMemSize]. *)
Definition InterReAlloc (fuel : nat) (hHandle req : Z) : M (Z * Z) :=
  if hHandle =? INVALID_HANDLE then h ← InterMalloc fuel req; mret (h, 0)
  else if req =? 0 then '(_, sz) ← InterFree hHandle; mret (INVALID_HANDLE, sz)
  else if REQUEST_OUT_OF_RANGE req then mret (INVALID_HANDLE, 0)
  else
    let tSize := request2size req in
    o ← realloc_check hHandle;
    match o with
    | None => mret (INVALID_HANDLE, 0)
    | Some tOldSize =>
        let p := mem2chunk hHandle in
        h ← (if tSize <=? tOldSize
             then pin ← prev_inuse p; ps ← m_tPreSize p; realloc_finish p tOldSize tSize pin ps
             else realloc_grow fuel p tOldSize tSize req);
        mret (h, tOldSize)
    end.

Definition ReAlloc (fuel : nat) (hHandle tSize : Z) : M Z :=
  put_head (set_m_tLastFreeChunkSize 0);;
  '(hNew, tOldSize) ← InterReAlloc fuel hHandle tSize;
  (if negb (hNew =? INVALID_HANDLE) then
     sz ← CHUNK_SIZE (mem2chunk hNew);
     n ← gets m_tUserAllocSize; put_head (set_m_tUserAllocSize (u64 (u64 (n + sz) - tOldSize)));;
     when_ (hHandle =? INVALID_HANDLE)
       (c ← gets m_tUserAllocChunkCnt; put_head (set_m_tUserAllocChunkCnt (u64 (c + 1)));;
        t ← get statChunkTotal; put (set_statChunkTotal (s64 (t + 1))));;
     AddAllocSizeToStat tSize;;
     n ← gets m_tUserAllocSize; put (set_statDataSize (s64 n))
   else
     when_ (tSize =? 0)
       (n ← gets m_tUserAllocSize; put_head (set_m_tUserAllocSize (u64 (n - tOldSize)));;
        c ← gets m_tUserAllocChunkCnt; put_head (set_m_tUserAllocChunkCnt (u64 (c - 1)));;
        t ← get statChunkTotal; put (set_statChunkTotal (s64 (t - 1)));;
        n ← gets m_tUserAllocSize; put (set_statDataSize (s64 n))));;
  mret hNew.
