(* ===== verification/BinHeap.v ===== *)
(** * BinHeap: correctness of the shared-memory allocator

    The heap invariant of [BinMalloc] and the theorems about it.  A state is
    described by the list of chunks that tile the memory from [m_hBottom] to
    [m_hTop] (address, size, in use or free) and by the contents of the 128
    bins; [heap] says that headers, links, bins and bitmap agree with that
    description.  [X] is the free chunk that is on no bin at the moment, while
    an operation is at work.  Segments up to [MAX_ALLOC_SIZE] (4 GB) are
    covered: there merged chunks always fit their size field. *)

From stdpp Require Import gmap.
From S2P Require Import Prelude State BinMalloc.

(** Membership in explicit lists. *)
Ltac cases_in H :=
  repeat match type of H with
    | _ ∈ _ :: _ => apply elem_of_cons in H as [H|H]
    | _ ∈ [] => by apply elem_of_nil in H
    end.
Lemma in_sides {A} (l m r : list A) x : x ∈ l ++ r -> x ∈ l ++ m ++ r.
Proof. rewrite !elem_of_app. tauto. Qed.
Ltac in_list := repeat eexists; repeat first [by left | right].

Ltac mlia := pose proof (eq_refl : MINSIZE = 24); lia.

(** ** Words *)

Lemma word_at_insert m a w x : word_at (<[a := w]> m) x = if a =? x then w else word_at m x.
Proof.
  unfold word_at. destruct (Z.eqb_spec a x) as [->|].
  - by rewrite lookup_insert_eq.
  - by rewrite lookup_insert_ne.
Qed.
Lemma word_at_insert_ne m a w x : a ≠ x -> word_at (<[a := w]> m) x = word_at m x.
Proof. intros. rewrite word_at_insert. zcases; done. Qed.
Lemma word_at_insert_eq m a w : word_at (<[a := w]> m) a = w.
Proof. rewrite word_at_insert. zcases; done. Qed.

Lemma w_pre_mk p n : 0 <= p < 2 ^ 32 -> w_pre (mk_word p n) = p.
Proof. intros. unfold w_pre, mk_word. rewrite Z.add_comm, Z.mod_add by lia. by apply Z.mod_small. Qed.
Lemma w_size_mk p n : 0 <= p < 2 ^ 32 -> w_size (mk_word p n) = n.
Proof. intros. unfold w_size, mk_word. rewrite Z.add_comm, Z.div_add by lia. rewrite Z.div_small; lia. Qed.

Lemma REAL_SIZE_div x : REAL_SIZE x = 8 * (x / 8).
Proof.
  unfold REAL_SIZE, SIZE_BITS. rewrite <- Z.ldiff_land.
  change 7 with (Z.ones 3). rewrite Z.ldiff_ones_r by lia.
  rewrite Z.shiftl_mul_pow2, Z.shiftr_div_pow2 by lia. change (2 ^ 3) with 8. lia.
Qed.
Lemma REAL_SIZE_mult z u : z mod 8 = 0 -> REAL_SIZE (z + b2z u) = z.
Proof. intros. rewrite REAL_SIZE_div. destruct u; unfold b2z; Z.div_mod_to_equations; lia. Qed.
Lemma REAL_SIZE_id z : z mod 8 = 0 -> REAL_SIZE z = z.
Proof. intros. rewrite REAL_SIZE_div. Z.div_mod_to_equations; lia. Qed.
Lemma land_bits z u : z mod 8 = 0 -> Z.land (z + b2z u) SIZE_BITS = b2z u.
Proof.
  intros. unfold SIZE_BITS. change 7 with (Z.ones 3). rewrite Z.land_ones by lia.
  change (2 ^ 3) with 8. destruct u; unfold b2z; Z.div_mod_to_equations; lia.
Qed.
Lemma land_prev z u : z mod 8 = 0 -> Z.land (z + b2z u) PREV_INUSE = b2z u.
Proof.
  intros. unfold PREV_INUSE. change 1 with (Z.ones 1) at 1. rewrite Z.land_ones by lia.
  change (2 ^ 1) with 2. destruct u; unfold b2z; Z.div_mod_to_equations; lia.
Qed.
Lemma lor_b2z z u : z mod 8 = 0 -> Z.lor z (b2z u) = z + b2z u.
Proof.
  intros Hz. assert (Z.land z (b2z u) = 0) as H0.
  { replace (b2z u) with (Z.land 7 (b2z u)) by (by destruct u).
    rewrite Z.land_assoc. change 7 with (Z.ones 3). rewrite Z.land_ones by lia.
    change (2 ^ 3) with 8. by rewrite Hz. }
  by rewrite <- Z.lxor_lor, Z.add_nocarry_lxor.
Qed.

Lemma lor_prev z u : z mod 8 = 0 -> Z.lor (z + b2z u) PREV_INUSE = z + b2z true.
Proof.
  intros. rewrite <- (lor_b2z z u), <- Z.lor_assoc, <- (lor_b2z z true) by done. f_equal. by destruct u.
Qed.

(** ** Chunks *)

Abbreviation chunk := (Z * Z * bool)%type.

Fixpoint contig (a : Z) (cs : list chunk) (top : Z) : Prop :=
  match cs with
  | [] => a = top
  | (c, z, _) :: r => c = a ∧ MINSIZE <= z ∧ z mod 8 = 0 ∧ contig (a + z) r top
  end.

(** Size and use of the last chunk of a list, of the first chunk. *)
Definition lsz (pz : Z) (l : list chunk) : Z := from_option (λ x, x.1.2) pz (last l).
Definition lus (pu : bool) (l : list chunk) : bool := from_option (λ x, x.2) pu (last l).
Definition nsz (r : list chunk) : Z := from_option (λ x, x.1.2) 0 (head r).

Definition hdr_word (pre : Z) (pu : bool) (z : Z) : Z := mk_word pre (z + b2z pu).

(** ** The invariant, with one header exempt

    [K] is the address of a chunk in use whose own header is being rewritten
    and says nothing for the moment; 0 when there is none. *)

Section heap.
Context {K : Z}.

(** The header at [c].  Its [m_tPreSize] counts only while the chunk before is
    free: [ReAlloc] leaves old contents there otherwise. *)
Definition hdr_is (m : gmap Z Z) (c pz : Z) (pu : bool) (z : Z) : Prop :=
  c ≠ K -> ∃ q, word_at m c = hdr_word q pu z ∧ 0 <= q < 2 ^ 32 ∧ (pu = false -> q = pz).

(** The headers of [cs], of [cs] and the chunk or top behind it. *)
Fixpoint hdr_pre (m : gmap Z Z) (pz : Z) (pu : bool) (cs : list chunk) : Prop :=
  match cs with
  | [] => True
  | (c, z, u) :: r => hdr_is m c pz pu z ∧ hdr_pre m z u r
  end.
Fixpoint hdr_ok (m : gmap Z Z) (pz : Z) (pu : bool) (cs : list chunk) (top : Z) : Prop :=
  match cs with
  | [] => hdr_is m top pz pu 0
  | (c, z, u) :: r => hdr_is m c pz pu z ∧ hdr_ok m z u r top
  end.
Definition hdr_rest (m : gmap Z Z) (r : list chunk) (top : Z) : Prop :=
  match r with [] => True | (_, z, u) :: r' => hdr_ok m z u r' top end.

(** No two free chunks side by side, none below the top. *)
Fixpoint coal (pu : bool) (cs : list chunk) : Prop :=
  match cs with
  | [] => pu = true
  | (_, _, u) :: r => (pu = true ∨ u = true) ∧ coal u r
  end.

(** The same for the first chunks of a list. *)
Fixpoint coalp (pu : bool) (cs : list chunk) : Prop :=
  match cs with
  | [] => True
  | (_, _, u) :: r => (pu = true ∨ u = true) ∧ coalp u r
  end.

(** ** Bins *)

(** The links of the chunks [L] of a bin, behind [p] and before [n]. *)
Fixpoint dseg (m : gmap Z Z) (p : Z) (L : list Z) (n : Z) : Prop :=
  match L with
  | [] => True
  | x :: L' => word_at m (x + 8) = p ∧ word_at m (x + 16) = hd n L' ∧ dseg m x L' n
  end.
Definition lst (p : Z) (L : list Z) : Z := default p (last L).
Definition dll (s : CBinMalloc) (i : Z) (L : list Z) : Prop :=
  rd (m_ptBin s) i = Some (MkBin (lst 0 L) (hd 0 L)) ∧ dseg (mem s) 0 L 0.

Definition bit_set (bm : list Z) (i : Z) : Prop :=
  ∃ w, rd bm (i / 32) = Some w ∧ Z.testbit w (i mod 32) = true.

Definition upd (B : Z -> list Z) (i : Z) (L : list Z) : Z -> list Z :=
  λ j, if i =? j then L else B j.

(** ** The invariant *)

Record heap (s : CBinMalloc) (cs : list chunk) (B : Z -> list Z) (X : option Z) : Prop := {
  hp_bottom : 0 < m_hBottom (m_pstHead s) ∧ m_hBottom (m_pstHead s) mod 8 = 0;
  hp_contig : contig (m_hBottom (m_pstHead s)) cs (m_hTop (m_pstHead s));
  hp_top : m_hTop (m_pstHead s) + MINSIZE <= m_tSize (m_pstHead s) <= MAX_ALLOC_SIZE;
  hp_hdr : hdr_ok (mem s) 0 true cs (m_hTop (m_pstHead s));
  hp_nbins : length (m_ptBin s) = 128%nat;
  hp_bins : ∀ i, 0 <= i < NBINS -> dll s i (B i);
  hp_nmap : length (m_auiBinBitMap (m_pstHead s)) = 4%nat;
  hp_map : ∀ i, 0 <= i < NBINS -> B i ≠ [] -> bit_set (m_auiBinBitMap (m_pstHead s)) i;
  hp_free : ∀ i a, 0 <= i < NBINS ->
    a ∈ B i <-> X ≠ Some a ∧ ∃ z, (a, z, false) ∈ cs ∧ bin_index z = i;
  hp_nodup : ∀ i, 0 <= i < NBINS -> NoDup (B i)
}.

(** What no step of an operation changes. *)
Definition cfg (s : CBinMalloc) :=
  (set_m_hTop 0 (set_m_auiBinBitMap [] (set_m_tLastFreeChunkSize 0 (m_pstHead s))),
   (m_ptFastBin s, m_ptUnsortedBin s, statChunkTotal s, statDataSize s),
   (statTmpDataSizeRecently s, statTmpDataAllocCountRecently s, statAverageDataSizeRecently s,
    minChunkSize s)).

(** The client's bytes of the chunk of size [z] at [c] are unchanged: the words
    inside, and the low half of the header behind, which belongs to a chunk in
    use. *)
Definition user_kept (m m' : gmap Z Z) (c z : Z) : Prop :=
  (∀ a, c < a < c + z -> word_at m' a = word_at m a) ∧
  w_pre (word_at m' (c + z)) = w_pre (word_at m (c + z)).

(** The client's bytes of the chunks in use are unchanged. *)
Definition keep (cs : list chunk) (s s' : CBinMalloc) : Prop :=
  ∀ c z, (c, z, true) ∈ cs -> user_kept (mem s) (mem s') c z.

Definition used (cs : list chunk) : list (Z * Z) :=
  omap (λ x : chunk, if x.2 then Some x.1 else None) cs.

(** ** The allocator as its clients see it

    The blocks handed out, in address order, each with its chunk's address and
    size; the user's bytes start 8 bytes into the chunk. *)

Definition sum_sizes (bs : list (Z * Z)) : Z := foldr (λ b, Z.add b.2) 0 bs.

Record acct (s : CBinMalloc) (bs : list (Z * Z)) : Prop := {
  ac_size : m_tUserAllocSize (m_pstHead s) = m_hBottom (m_pstHead s) + sum_sizes bs;
  ac_cnt : m_tUserAllocChunkCnt (m_pstHead s) = Z.of_nat (length bs);
  ac_total : statChunkTotal s = Z.of_nat (length bs);
  ac_data : statDataSize s = m_tUserAllocSize (m_pstHead s);
  ac_recent : 0 <= statTmpDataAllocCountRecently s;
  ac_min : minChunkSize s = 1 ∨ MINSIZE <= minChunkSize s < 2 ^ 32
}.

(** No byte of the blocks [bs] has changed. *)
Definition unchanged (bs : list (Z * Z)) (s s' : CBinMalloc) : Prop :=
  ∀ c z, (c, z) ∈ bs -> user_kept (mem s) (mem s') c z.

(** ** What is kept *)

(** The first [n] bytes of the chunk at [p], header included, and the four that
    a client has behind its last word, are now at [c]. *)
Definition copied (m m' : gmap Z Z) (p c n : Z) : Prop :=
  (∀ j, 0 < j -> 8 * j < n -> word_at m' (c + 8 * j) = word_at m (p + 8 * j)) ∧
  w_pre (word_at m' (c + n)) = w_pre (word_at m (p + n)).

Lemma copied_trans m1 m2 m3 a b c n : copied m1 m2 a b n -> copied m2 m3 b c n -> copied m1 m3 a c n.
Proof.
  intros [H1 H1'] [H2 H2']. split; [|by rewrite H2', H1']. intros j ??. by rewrite H2, H1.
Qed.
Lemma copied_prefix m m' p c n k : copied m m' p c n -> k mod 8 = 0 -> 0 < k <= n -> copied m m' p c k.
Proof.
  intros [H H'] H8 Hk. split; [intros; apply H; lia|]. destruct (decide (k = n)) as [->|]; [done|]. f_equal.
  replace k with (8 * (k / 8)) by (Z.div_mod_to_equations; lia). apply H; Z.div_mod_to_equations; lia.
Qed.
Lemma user_kept_copied m m' c z n : user_kept m m' c z -> 0 < n <= z -> copied m m' c c n.
Proof.
  intros [H H'] Hn. split; [intros; apply H; lia|]. destruct (decide (n = z)) as [->|]; [done|].
  f_equal. apply H. lia.
Qed.
Lemma keep_copied cs s s' c z n : keep cs s s' -> (c, z, true) ∈ cs -> 0 < n <= z -> copied (mem s) (mem s') c c n.
Proof. intros H Hin. by apply user_kept_copied, H. Qed.
Lemma user_kept_trans m1 m2 m3 c z : user_kept m1 m2 c z -> user_kept m2 m3 c z -> user_kept m1 m3 c z.
Proof. intros [H1 H1'] [H2 H2']. split; [|congruence]. intros a Ha. rewrite H2, H1; done. Qed.
(** Nothing changed in the chunk or right behind it. *)
Lemma user_kept_same m m' c z : (∀ a, c < a <= c + z -> word_at m' a = word_at m a) -> 0 < z -> user_kept m m' c z.
Proof. intros H Hz. split; [intros; apply H; lia|]. by rewrite H by lia. Qed.

Lemma keep_trans cs s1 s2 s3 : keep cs s1 s2 -> keep cs s2 s3 -> keep cs s1 s3.
Proof. intros H1 H2 c z Hin. eapply user_kept_trans; eauto. Qed.
Lemma keep_sub cs cs' s s' : keep cs s s' -> (∀ c z, (c, z, true) ∈ cs' -> (c, z, true) ∈ cs) -> keep cs' s s'.
Proof. intros H Hs c z Hin. by apply H, Hs. Qed.
Lemma keep_refl cs s : keep cs s s.
Proof. done. Qed.
Lemma keep_mem cs s s' : mem s' = mem s -> keep cs s s'.
Proof. intros Hm c z _. by rewrite Hm. Qed.
Lemma keep_mid l x r s s' : keep (l ++ x :: r) s s' -> keep (l ++ r) s s'.
Proof. intros H. eapply keep_sub; [done|]. intros c z. rewrite !elem_of_app, elem_of_cons. tauto. Qed.

(** ** Lists of chunks *)

Lemma contig_app a l r top :
  contig a (l ++ r) top <-> ∃ b, contig a l b ∧ contig b r top.
Proof.
  revert a. induction l as [|[[c z] u] l IH]; intros a; simpl.
  - split; [intros; by exists a|by intros (b & -> & ?)].
  - rewrite IH. split.
    + intros (? & ? & ? & b & ? & ?). by exists b.
    + intros (b & (? & ? & ? & ?) & ?). eauto 10.
Qed.

Lemma contig_le a cs top : contig a cs top -> a <= top.
Proof.
  revert a. induction cs as [|[[c z] u] cs IH]; intros a; simpl; [lia|].
  intros (_ & ? & _ & ?%IH). mlia.
Qed.

Lemma contig_in a cs top c z u :
  contig a cs top -> (c, z, u) ∈ cs ->
  a <= c ∧ c + z <= top ∧ MINSIZE <= z ∧ z mod 8 = 0 ∧ (a mod 8 = 0 -> c mod 8 = 0).
Proof.
  revert a. induction cs as [|[[d y] v] cs IH]; intros a; simpl; [by intros ? ?%elem_of_nil|].
  intros (-> & ? & Hy & Hc) [[= -> -> ->]|Hin]%elem_of_cons.
  - pose proof (contig_le _ _ _ Hc). lia.
  - destruct (IH _ Hc Hin) as (? & ? & ? & ? & H8). split_and!; try done; [mlia|].
    intros. apply H8. Z.div_mod_to_equations; lia.
Qed.

Lemma contig_disj a cs top c z u d y v :
  contig a cs top -> (c, z, u) ∈ cs -> (d, y, v) ∈ cs ->
  (c = d ∧ z = y ∧ u = v) ∨ c + z <= d ∨ d + y <= c.
Proof.
  revert a. induction cs as [|[[e x] w] cs IH]; intros a; simpl; [by intros ? ?%elem_of_nil|].
  intros (-> & ? & ? & Hc) [[= -> -> ->]|H1]%elem_of_cons [[= -> -> ->]|H2]%elem_of_cons.
  - by left.
  - apply (contig_in _ _ _ _ _ _ Hc) in H2. lia.
  - apply (contig_in _ _ _ _ _ _ Hc) in H1. lia.
  - by eapply IH.
Qed.

Lemma contig_unique a cs top c z u y v :
  contig a cs top -> (c, z, u) ∈ cs -> (c, y, v) ∈ cs -> z = y ∧ u = v.
Proof.
  intros Hc H1 H2. pose proof (contig_in _ _ _ _ _ _ Hc H1). pose proof (contig_in _ _ _ _ _ _ Hc H2).
  destruct (contig_disj _ _ _ _ _ _ _ _ _ Hc H1 H2) as [(_ & ? & ?)|[?|?]]; [done|mlia..].
Qed.

Lemma contig_mid a l c z u r top :
  contig a (l ++ (c, z, u) :: r) top ->
  contig a l c ∧ MINSIZE <= z ∧ z mod 8 = 0 ∧ contig (c + z) r top.
Proof. intros (b & Hl & -> & ? & ? & ?)%contig_app. done. Qed.

Lemma contig_mid_2 a l c z u r top :
  contig a l c -> MINSIZE <= z -> z mod 8 = 0 -> contig (c + z) r top ->
  contig a (l ++ (c, z, u) :: r) top.
Proof. intros. apply contig_app. exists c. simpl. done. Qed.

Lemma lsz_snoc pz l c z u : lsz pz (l ++ [(c, z, u)]) = z.
Proof. unfold lsz. by rewrite last_snoc. Qed.
Lemma lus_snoc pu l c z u : lus pu (l ++ [(c, z, u)]) = u.
Proof. unfold lus. by rewrite last_snoc. Qed.
Lemma lsz_cons pz c z u l : lsz pz ((c, z, u) :: l) = lsz z l.
Proof. unfold lsz. rewrite last_cons. by destruct (last l). Qed.
Lemma lus_cons pu c z u l : lus pu ((c, z, u) :: l) = lus u l.
Proof. unfold lus. rewrite last_cons. by destruct (last l). Qed.

Lemma hdr_ok_app m pz pu l r top :
  hdr_ok m pz pu (l ++ r) top <-> hdr_pre m pz pu l ∧ hdr_ok m (lsz pz l) (lus pu l) r top.
Proof.
  revert pz pu. induction l as [|[[c z] u] l IH]; intros pz pu; cbn [app hdr_ok hdr_pre].
  - unfold lsz, lus. simpl. tauto.
  - rewrite IH, lsz_cons, lus_cons. tauto.
Qed.

Lemma hdr_ok_head m pz pu r b top :
  contig b r top ->
  hdr_ok m pz pu r top <-> hdr_is m b pz pu (nsz r) ∧ hdr_rest m r top.
Proof.
  destruct r as [|[[c z] u] r]; simpl.
  - intros ->. unfold nsz. simpl. tauto.
  - intros (-> & _). done.
Qed.

Lemma hdr_split m l c z u r a top :
  contig a (l ++ (c, z, u) :: r) top ->
  hdr_ok m 0 true (l ++ (c, z, u) :: r) top <->
  hdr_pre m 0 true l ∧ hdr_is m c (lsz 0 l) (lus true l) z ∧
  hdr_is m (c + z) z u (nsz r) ∧ hdr_rest m r top.
Proof.
  intros (_ & _ & _ & Hr)%contig_mid. rewrite hdr_ok_app. cbn [hdr_ok].
  rewrite (hdr_ok_head _ _ _ _ _ _ Hr). tauto.
Qed.

(** ** Writes elsewhere *)

Lemma hdr_is_same m m' c pz pu z :
  word_at m' c = word_at m c -> hdr_is m' c pz pu z <-> hdr_is m c pz pu z.
Proof. unfold hdr_is. by intros ->. Qed.
Lemma hdr_is_insert m x w c pz pu z : x ≠ c -> hdr_is (<[x := w]> m) c pz pu z <-> hdr_is m c pz pu z.
Proof. intros. apply hdr_is_same. by apply word_at_insert_ne. Qed.
Lemma hdr_is_exact m c pz pu z : word_at m c = hdr_word pz pu z -> 0 <= pz < 2 ^ 32 -> hdr_is m c pz pu z.
Proof. intros ?? _. by exists pz. Qed.

Lemma hdr_pre_insert m x w pz pu l a b :
  contig a l b -> b <= x -> hdr_pre (<[x := w]> m) pz pu l <-> hdr_pre m pz pu l.
Proof.
  revert a pz pu. induction l as [|[[c z] u] l IH]; intros a pz pu; simpl; [done|].
  intros (-> & ? & _ & Hc) Hx. rewrite (IH _ _ _ Hc Hx).
  pose proof (contig_le _ _ _ Hc). rewrite hdr_is_insert; [done|mlia].
Qed.

Lemma hdr_ok_insert m x w pz pu cs a top :
  contig a cs top -> x ≠ top -> (∀ z u, (x, z, u) ∉ cs) ->
  hdr_ok (<[x := w]> m) pz pu cs top <-> hdr_ok m pz pu cs top.
Proof.
  revert a pz pu. induction cs as [|[[c z] u] cs IH]; intros a pz pu; simpl.
  - intros _ ? _. by rewrite hdr_is_insert by done.
  - intros (-> & ? & _ & Hc) Hx Hn. rewrite (IH _ _ _ Hc Hx).
    + rewrite hdr_is_insert; [done|]. intros ->. apply (Hn z u). by left.
    + intros z' u' ?. apply (Hn z' u'). by right.
Qed.

Lemma hdr_ok_insert_inner m x w pz pu cs a top c z u :
  contig a cs top -> (c, z, u) ∈ cs -> c < x < c + z ->
  hdr_ok (<[x := w]> m) pz pu cs top <-> hdr_ok m pz pu cs top.
Proof.
  intros Hc Hin Hx. pose proof (contig_in _ _ _ _ _ _ Hc Hin).
  eapply hdr_ok_insert; [done|lia|]. intros y v Hy.
  pose proof (contig_in _ _ _ _ _ _ Hc Hy).
  destruct (contig_disj _ _ _ _ _ _ _ _ _ Hc Hin Hy); mlia.
Qed.

Lemma hdr_rest_insert m x w r b top :
  contig b r top -> x <= b -> hdr_rest (<[x := w]> m) r top <-> hdr_rest m r top.
Proof.
  destruct r as [|[[c z] u] r]; simpl; [done|]. intros (-> & ? & _ & Hc) Hx.
  pose proof (contig_le _ _ _ Hc). eapply hdr_ok_insert; [done|mlia|].
  intros y v Hy. apply (contig_in _ _ _ _ _ _ Hc) in Hy. mlia.
Qed.

Lemma hdr_pre_frame m m' pz pu l :
  (∀ c z u, (c, z, u) ∈ l -> word_at m' c = word_at m c) -> hdr_pre m pz pu l -> hdr_pre m' pz pu l.
Proof.
  revert pz pu. induction l as [|[[c z] u] l IH]; intros pz pu Hs; simpl; [done|].
  rewrite (hdr_is_same m m' c) by (apply (Hs c z u); by left). intros [? ?]. split; [done|]. apply IH; [|done].
  intros c' z' u' ?. apply (Hs c' z' u'). by right.
Qed.

Lemma hdr_ok_frame m m' pz pu cs top :
  (∀ x z u, (x, z, u) ∈ cs -> word_at m' x = word_at m x) -> word_at m' top = word_at m top ->
  hdr_ok m pz pu cs top -> hdr_ok m' pz pu cs top.
Proof.
  intros Hcs Ht. revert pz pu. induction cs as [|[[c z] u] cs IH]; intros pz pu; simpl.
  - by rewrite (hdr_is_same m m').
  - rewrite (hdr_is_same m m' c) by (apply (Hcs c z u); by left). intros [? ?]. split; [done|]. apply IH; [|done].
    intros x z' u' ?. apply (Hcs x z' u'). by right.
Qed.

Lemma hdr_rest_frame m m' r b top :
  contig b r top -> (∀ a, b < a -> word_at m' a = word_at m a) -> hdr_rest m r top -> hdr_rest m' r top.
Proof.
  destruct r as [|[[c z] u] r]; simpl; [done|]. intros (-> & ? & _ & Hc) Hs.
  pose proof (contig_le _ _ _ Hc). apply hdr_ok_frame; [|apply Hs; mlia].
  intros x y v Hx. pose proof (contig_in _ _ _ _ _ _ Hc Hx). apply Hs. mlia.
Qed.

Lemma dseg_insert m x w p L n :
  (∀ y, y ∈ L -> x ≠ y + 8 ∧ x ≠ y + 16) -> dseg (<[x := w]> m) p L n <-> dseg m p L n.
Proof.
  revert p. induction L as [|y L IH]; intros p HL; simpl; [done|].
  rewrite IH by (intros; apply HL; by right). destruct (HL y) as [? ?]; [by left|].
  by rewrite !word_at_insert_ne by done.
Qed.

Lemma lst_cons p x L : lst p (x :: L) = lst x L.
Proof. unfold lst. rewrite last_cons. by destruct (last L). Qed.
Lemma lst_app p L1 L2 : lst p (L1 ++ L2) = lst (lst p L1) L2.
Proof.
  revert p. induction L1 as [|x L1 IH]; intros p; [done|]. cbn [app]. by rewrite !lst_cons.
Qed.
Lemma lst_in p L : L ≠ [] -> lst p L ∈ L.
Proof.
  intros HL. unfold lst. destruct (last L) eqn:E; simpl.
  - by apply last_Some_elem_of in E.
  - by apply last_None in E.
Qed.
Lemma hd_app (n : Z) L1 L2 : hd n (L1 ++ L2) = hd (hd n L2) L1.
Proof. by destruct L1. Qed.

Lemma dseg_app m p L1 L2 n :
  dseg m p (L1 ++ L2) n <-> dseg m p L1 (hd n L2) ∧ dseg m (lst p L1) L2 n.
Proof.
  revert p. induction L1 as [|x L1 IH]; intros p; cbn [app dseg]; [tauto|].
  rewrite IH, lst_cons, hd_app. tauto.
Qed.

(** ** Reading and writing headers *)

Definition seg (s : CBinMalloc) (a : Z) : Prop :=
  a mod 8 = 0 ∧ m_hBottom (m_pstHead s) <= a ∧ a + 8 <= m_tSize (m_pstHead s).

Lemma ld_ok s a : seg s a -> ld a s = Some (word_at (mem s) a, s).
Proof. intros (? & ? & ?). unfold ld, in_segment. zcases. done. Qed.
Lemma st_ok s a v : seg s a -> st a v s = Some (tt, set_mem (<[a := v]> (mem s)) s).
Proof. intros (? & ? & ?). unfold st, in_segment. zcases. done. Qed.

Definition hdr_at (s : CBinMalloc) (c pz : Z) (pu : bool) (z : Z) : Prop :=
  seg s c ∧ word_at (mem s) c = hdr_word pz pu z ∧ 0 <= pz < 2 ^ 32 ∧ z mod 8 = 0 ∧ 0 <= z < 2 ^ 32 - 8.

Section header.
Context (s : CBinMalloc) (c pz : Z) (pu : bool) (z : Z) (H : hdr_at s c pz pu z).

Lemma ld_hdr : ld c s = Some (hdr_word pz pu z, s).
Proof. destruct H as (? & <- & _). by apply ld_ok. Qed.
Lemma m_tPreSize_hdr : m_tPreSize c s = Some (pz, s).
Proof.
  unfold m_tPreSize. rewrite (step_bind _ _ _ _ _ ld_hdr). destruct H as (_ & _ & ? & _).
  unfold hdr_word. by rewrite w_pre_mk.
Qed.
Lemma m_tChunkSize_hdr : m_tChunkSize c s = Some (z + b2z pu, s).
Proof.
  unfold m_tChunkSize. rewrite (step_bind _ _ _ _ _ ld_hdr). destruct H as (_ & _ & ? & _).
  unfold hdr_word. by rewrite w_size_mk.
Qed.
Lemma CHUNK_SIZE_hdr : CHUNK_SIZE c s = Some (z, s).
Proof.
  unfold CHUNK_SIZE. rewrite (step_bind _ _ _ _ _ m_tChunkSize_hdr).
  destruct H as (_ & _ & _ & ? & _). by rewrite REAL_SIZE_mult.
Qed.
Lemma prev_inuse_hdr : prev_inuse c s = Some (pu, s).
Proof.
  unfold prev_inuse. rewrite (step_bind _ _ _ _ _ m_tChunkSize_hdr).
  destruct H as (_ & _ & _ & ? & _). rewrite land_prev by done. by destruct pu.
Qed.

Lemma set_tPreSize_hdr v :
  0 <= v < 2 ^ 32 -> set_tPreSize c v s = Some (tt, set_mem (<[c := hdr_word v pu z]> (mem s)) s).
Proof.
  intros. unfold set_tPreSize. rewrite (step_bind _ _ _ _ _ ld_hdr). destruct H as (? & _ & ? & _).
  rewrite st_ok by done. unfold hdr_word. by rewrite w_size_mk, uwrap_small.
Qed.
Lemma set_tSize_word v :
  0 <= v < 2 ^ 32 -> set_tSize c v s = Some (tt, set_mem (<[c := mk_word pz v]> (mem s)) s).
Proof.
  intros. unfold set_tSize. rewrite (step_bind _ _ _ _ _ ld_hdr). destruct H as (? & _ & ? & _).
  rewrite st_ok by done. unfold hdr_word. by rewrite w_pre_mk, uwrap_small.
Qed.
Lemma set_tSize_hdr v b :
  v mod 8 = 0 -> 0 <= v < 2 ^ 32 - 8 ->
  set_tSize c (v + b2z b) s = Some (tt, set_mem (<[c := hdr_word pz b v]> (mem s)) s).
Proof. intros. apply set_tSize_word. destruct b; simpl; lia. Qed.

End header.

Lemma set_inuse_hdr s c off pz pu z :
  hdr_at s (c + off) pz pu z ->
  set_inuse_bit_at_offset c off s = Some (tt, set_mem (<[c + off := hdr_word pz true z]> (mem s)) s).
Proof.
  intros H. unfold set_inuse_bit_at_offset. rewrite (step_bind _ _ _ _ _ (m_tChunkSize_hdr _ _ _ _ _ H)).
  pose proof H as (_ & _ & _ & Hz & Hr).
  rewrite <- (set_tSize_hdr _ _ _ _ _ H z true) by done. by rewrite lor_prev.
Qed.

Lemma clear_inuse_hdr s c off pz pu z :
  hdr_at s (c + off) pz pu z ->
  clear_inuse_bit_at_offset c off s = Some (tt, set_mem (<[c + off := hdr_word pz false z]> (mem s)) s).
Proof.
  intros H. unfold clear_inuse_bit_at_offset. rewrite (step_bind _ _ _ _ _ (m_tChunkSize_hdr _ _ _ _ _ H)).
  pose proof H as (_ & _ & _ & Hz & Hr).
  rewrite <- (set_tSize_hdr _ _ _ _ _ H z false) by done. f_equal.
  rewrite <- Z.ldiff_land. unfold PREV_INUSE. change 1 with (Z.ones 1). rewrite Z.ldiff_ones_r by lia.
  rewrite Z.shiftl_mul_pow2, Z.shiftr_div_pow2 by lia. change (2 ^ 1) with 2.
  destruct pu; unfold b2z; Z.div_mod_to_equations; lia.
Qed.

Lemma set_size_hdr s c off pz pu z v :
  hdr_at s (c + off) pz pu z -> v mod 8 = 0 -> 0 <= v < 2 ^ 32 - 8 ->
  set_size_at_offset c off v s = Some (tt, set_mem (<[c + off := hdr_word pz pu v]> (mem s)) s).
Proof.
  intros H Hv ?. unfold set_size_at_offset. rewrite (step_bind _ _ _ _ _ (m_tChunkSize_hdr _ _ _ _ _ H)).
  pose proof H as (_ & _ & _ & Hz & Hr).
  rewrite land_bits, REAL_SIZE_id, lor_b2z by done. by apply (set_tSize_hdr _ _ _ _ _ H).
Qed.

Lemma set_presize_hdr s c off pz pu z v :
  hdr_at s (c + off) pz pu z -> v mod 8 = 0 -> 0 <= v < 2 ^ 32 ->
  set_presize_at_offset c off v s = Some (tt, set_mem (<[c + off := hdr_word v pu z]> (mem s)) s).
Proof.
  intros H Hv ?. unfold set_presize_at_offset. rewrite REAL_SIZE_id by done.
  by eapply set_tPreSize_hdr.
Qed.

(** ** Headers of a heap *)

Lemma heap_in s cs B X c z u :
  heap s cs B X -> (c, z, u) ∈ cs ->
  m_hBottom (m_pstHead s) <= c ∧ c + z <= m_hTop (m_pstHead s) ∧ MINSIZE <= z ∧ z mod 8 = 0 ∧
  c mod 8 = 0 ∧ z < 2 ^ 32 - 32 ∧ 0 < c < 2 ^ 32 - 32 ∧ c + z + MINSIZE <= m_tSize (m_pstHead s).
Proof.
  intros H Hin. destruct (contig_in _ _ _ _ _ _ (hp_contig _ _ _ _ H) Hin) as (? & ? & ? & ? & H8).
  destruct (hp_bottom _ _ _ _ H) as [? Hb]. specialize (H8 Hb). pose proof (hp_top _ _ _ _ H).
  unfold MAX_ALLOC_SIZE in *. split_and!; try done; mlia.
Qed.

Lemma heap_mid_in s l c z u r B X :
  heap s (l ++ (c, z, u) :: r) B X ->
  m_hBottom (m_pstHead s) <= c ∧ c + z <= m_hTop (m_pstHead s) ∧ MINSIZE <= z ∧ z mod 8 = 0 ∧
  c mod 8 = 0 ∧ z < 2 ^ 32 - 32 ∧ 0 < c < 2 ^ 32 - 32 ∧ c + z + MINSIZE <= m_tSize (m_pstHead s).
Proof. intros H. eapply heap_in; [done|]. apply elem_of_app. right. by left. Qed.

Lemma lsz_range s l r B X : heap s (l ++ r) B X -> 0 <= lsz 0 l < 2 ^ 32 - 32 ∧ lsz 0 l mod 8 = 0.
Proof.
  intros H. destruct l as [|[[c z] u] l _] using rev_ind; [done|].
  rewrite lsz_snoc. rewrite <- app_assoc in H. apply heap_mid_in in H. split; [mlia|tauto].
Qed.
Lemma nsz_range s l r B X : heap s (l ++ r) B X -> 0 <= nsz r < 2 ^ 32 - 32 ∧ nsz r mod 8 = 0.
Proof.
  intros H. destruct r as [|[[c z] u] r]; [done|]. apply heap_mid_in in H.
  change (nsz ((c, z, u) :: r)) with z. split; [mlia|tauto].
Qed.

Lemma heap_hdr s l c z u r B X :
  heap s (l ++ (c, z, u) :: r) B X -> K < c ->
  (∃ q, hdr_at s c q (lus true l) z ∧ (lus true l = false -> q = lsz 0 l)) ∧
  (∃ q, hdr_at s (c + z) q u (nsz r) ∧ (u = false -> q = z)).
Proof.
  intros H HK. pose proof (heap_mid_in _ _ _ _ _ _ _ _ H) as Hr.
  pose proof (proj1 (hdr_split _ _ _ _ _ _ _ _ (hp_contig _ _ _ _ H)) (hp_hdr _ _ _ _ H))
    as (_ & Hh1 & Hh2 & _).
  destruct Hh1 as (q & ? & ? & ?); [lia|]. destruct Hh2 as (q' & ? & ? & ?); [mlia|].
  pose proof (lsz_range _ _ _ _ _ H).
  assert (0 <= nsz r < 2 ^ 32 - 32 ∧ nsz r mod 8 = 0).
  { replace (l ++ (c, z, u) :: r) with ((l ++ [(c, z, u)]) ++ r) in H by (by rewrite <- app_assoc).
    by eapply nsz_range. }
  unfold hdr_at, seg. split; [exists q|exists q']; split_and!; try tauto; try mlia.
  destruct Hr as (_ & _ & _ & Hz & Hc & _). Z.div_mod_to_equations; lia.
Qed.

(** ** Header updates *)

(** [x] is not inside a chunk, except for the free chunk in flight. *)
Definition quiet (cs : list chunk) (X : option Z) (x : Z) : Prop :=
  ∀ y z u, (y, z, u) ∈ cs -> u = true ∨ X ≠ Some y -> ¬ (y < x < y + z).

Lemma quiet_hdr a cs top X c z u x :
  contig a cs top -> (c, z, u) ∈ cs -> x = c ∨ x = c + z -> quiet cs X x.
Proof.
  intros Hc Hin Hx y z' u' Hy _ ?. pose proof (contig_in _ _ _ _ _ _ Hc Hin).
  pose proof (contig_in _ _ _ _ _ _ Hc Hy).
  destruct (contig_disj _ _ _ _ _ _ _ _ _ Hc Hin Hy) as [(-> & -> & _)|[?|?]]; mlia.
Qed.

Lemma quiet_flight a cs top c z x :
  contig a cs top -> (c, z, false) ∈ cs -> c <= x <= c + z -> quiet cs (Some c) x.
Proof.
  intros Hc Hin Hx y z' u' Hy Hu ?. pose proof (contig_in _ _ _ _ _ _ Hc Hin).
  pose proof (contig_in _ _ _ _ _ _ Hc Hy).
  destruct (contig_disj _ _ _ _ _ _ _ _ _ Hc Hin Hy) as [(-> & -> & <-)|[?|?]]; [|mlia..].
  by destruct Hu as [?|[]].
Qed.

Lemma dseg_frame m m' p L n :
  (∀ y, y ∈ L -> word_at m' (y + 8) = word_at m (y + 8) ∧ word_at m' (y + 16) = word_at m (y + 16)) ->
  dseg m p L n -> dseg m' p L n.
Proof.
  revert p. induction L as [|y L IH]; intros p HL; simpl; [done|].
  destruct (HL y) as [-> ->]; [by left|]. intros (? & ? & ?). split_and!; try done.
  apply IH; [intros; apply HL; by right|done].
Qed.

Lemma heap_bin_in s cs B X i a :
  heap s cs B X -> 0 <= i < NBINS -> a ∈ B i -> X ≠ Some a ∧ ∃ z, (a, z, false) ∈ cs ∧ bin_index z = i.
Proof. intros H Hi. by apply (hp_free _ _ _ _ H). Qed.

Lemma contig_apart a l mid r top x z u y w v :
  contig a (l ++ mid ++ r) top -> (x, z, u) ∈ l ++ r -> (y, w, v) ∈ mid -> x ≠ y.
Proof.
  intros (b & Hl & (b' & Hm & Hr)%contig_app)%contig_app Hx Hy ->.
  pose proof (contig_in _ _ _ _ _ _ Hm Hy).
  apply elem_of_app in Hx as [Hx|Hx].
  - pose proof (contig_in _ _ _ _ _ _ Hl Hx). mlia.
  - pose proof (contig_in _ _ _ _ _ _ Hr Hx). mlia.
Qed.

(** Replacing a stretch of chunks whose free ones are all in flight. *)
Lemma free_swap a0 l mid mid' r top X X' :
  contig a0 (l ++ mid ++ r) top -> contig a0 (l ++ mid' ++ r) top ->
  (∀ x, X = Some x -> ∃ z u, (x, z, u) ∈ mid) -> (∀ x, X' = Some x -> ∃ z u, (x, z, u) ∈ mid') ->
  (∀ x z, (x, z, false) ∈ mid -> X = Some x) -> (∀ x z, (x, z, false) ∈ mid' -> X' = Some x) ->
  ∀ a z, (X' ≠ Some a ∧ (a, z, false) ∈ l ++ mid' ++ r) <->
         (X ≠ Some a ∧ (a, z, false) ∈ l ++ mid ++ r).
Proof.
  intros Hc Hc' HX HX' Hm Hm' a z.
  assert ((a, z, false) ∈ l ++ r -> X ≠ Some a ∧ X' ≠ Some a) as Ho.
  { intros Hin. split; intros Heq.
    - destruct (HX _ Heq) as (? & ? & ?). by eapply (contig_apart _ _ _ _ _ _ _ _ _ _ _ Hc Hin).
    - destruct (HX' _ Heq) as (? & ? & ?). by eapply (contig_apart _ _ _ _ _ _ _ _ _ _ _ Hc' Hin). }
  rewrite !elem_of_app in *. split; intros (HXa & Hin).
  - destruct Hin as [Hin|[Hin|Hin]]; [|by apply Hm' in Hin|]; split; tauto.
  - destruct Hin as [Hin|[Hin|Hin]]; [|by apply Hm in Hin|]; split; tauto.
Qed.

(** Memory may change outside the chunks on the bins as long as the headers
    are right. *)
Lemma heap_change s m' cs cs' B X X' :
  heap s cs B X ->
  (∀ a y z, word_at m' a ≠ word_at (mem s) a -> (y, z, false) ∈ cs -> X ≠ Some y -> ¬ (y < a < y + z)) ->
  contig (m_hBottom (m_pstHead s)) cs' (m_hTop (m_pstHead s)) ->
  hdr_ok m' 0 true cs' (m_hTop (m_pstHead s)) ->
  (∀ a z, (X' ≠ Some a ∧ (a, z, false) ∈ cs') <-> (X ≠ Some a ∧ (a, z, false) ∈ cs)) ->
  heap (set_mem m' s) cs' B X'.
Proof.
  intros H Hq Hc Hh Hf. constructor; simpl; try apply H; try done.
  - intros i Hi. destruct (hp_bins _ _ _ _ H i Hi) as [Hb Hd]. split; [done|]. simpl.
    eapply dseg_frame; [|done]. intros y Hy.
    destruct (heap_bin_in _ _ _ _ _ _ H Hi Hy) as (HX & z & Hin & _).
    assert (∀ a, y < a < y + z -> word_at m' a = word_at (mem s) a) as Hsame.
    { intros a Ha. destruct (decide (word_at m' a = word_at (mem s) a)) as [|Hne]; [done|].
      exfalso. by eapply Hq. }
    pose proof (heap_in _ _ _ _ _ _ _ H Hin). split; apply Hsame; mlia.
  - intros i a Hi. rewrite (hp_free _ _ _ _ H i a Hi).
    split; intros (? & z & ? & ?).
    + destruct (proj2 (Hf a z)); [done|]. eauto.
    + destruct (proj1 (Hf a z)); [done|]. eauto.
Qed.

(** Headers behind the chunks of [l] and [r] keep their low half when memory
    changes from [b] to [e] only. *)
Lemma tails_kept m m' a l b e r top c z u :
  contig a l b -> contig e r top -> b <= e ->
  (∀ x, word_at m' x ≠ word_at m x -> b <= x <= e) -> w_pre (word_at m' b) = w_pre (word_at m b) ->
  (c, z, u) ∈ l ++ r -> w_pre (word_at m' (c + z)) = w_pre (word_at m (c + z)).
Proof.
  intros Hl Hr Hbe Hch Hb Hin. destruct (decide (word_at m' (c + z) = word_at m (c + z))) as [->|Hne]; [done|].
  apply Hch in Hne. apply elem_of_app in Hin as [Hin|Hin].
  - pose proof (contig_in _ _ _ _ _ _ Hl Hin). by replace (c + z) with b by lia.
  - pose proof (contig_in _ _ _ _ _ _ Hr Hin). mlia.
Qed.

(** At quiet places the words of the clients survive, too; [ck] are the chunks
    whose next header keeps its low half. *)
Lemma heap_write s m' cs cs' B X X' ck :
  heap s cs B X ->
  (∀ c z, (c, z, true) ∈ ck -> (c, z, true) ∈ cs ∧ w_pre (word_at m' (c + z)) = w_pre (word_at (mem s) (c + z))) ->
  (∀ a, word_at m' a ≠ word_at (mem s) a -> quiet cs X a) ->
  contig (m_hBottom (m_pstHead s)) cs' (m_hTop (m_pstHead s)) ->
  hdr_ok m' 0 true cs' (m_hTop (m_pstHead s)) ->
  (∀ a z, (X' ≠ Some a ∧ (a, z, false) ∈ cs') <-> (X ≠ Some a ∧ (a, z, false) ∈ cs)) ->
  heap (set_mem m' s) cs' B X' ∧ keep ck s (set_mem m' s).
Proof.
  intros H Hk Hq Hc Hh Hf. split.
  - eapply heap_change; try done. intros a y z Hne Hin HX. eapply (Hq a Hne); eauto.
  - intros c z [Hin Hw]%Hk. split; [|done]. intros a ?. simpl. destruct (decide (word_at m' a = word_at (mem s) a)) as [|Hne]; [done|].
    exfalso. eapply (Hq a Hne); eauto.
Qed.

(** Joining the chunks [c] and [d]; the header behind them keeps [d]'s mark. *)
Lemma heap_merge {A} s l c z u d y v r B X (k : M A) R :
  heap s (l ++ (c, z, u) :: (d, y, v) :: r) B X -> K < c ->
  u || v = true ->
  X = (if u then if v then None else Some d else Some c) ->
  (∀ m', heap (set_mem m' s) (l ++ (c, z + y, v) :: r) B (if v then None else Some c) ->
         keep (l ++ r) s (set_mem m' s) -> runs k (set_mem m' s) R) ->
  runs (set_size_at_offset c 0 (z + y);; set_presize_at_offset c (z + y) (z + y);; k) s R.
Proof.
  intros H HK Huv HX Hk.
  pose proof (hp_contig _ _ _ _ H) as Hc. pose proof (contig_mid _ _ _ _ _ _ _ Hc) as (Hcl & ? & ? & Hcd).
  simpl in Hcd. destruct Hcd as (-> & ? & ? & Hcr).
  destruct (heap_hdr _ _ _ _ _ _ _ _ H HK) as [(q1 & Hh1 & Hq1) _].
  assert (Hd : heap s ((l ++ [(c, z, u)]) ++ (c + z, y, v) :: r) B X) by (by rewrite <- app_assoc).
  destruct (heap_hdr _ _ _ _ _ _ _ _ Hd) as [_ (q3 & Hh3 & _)]; [mlia|].
  pose proof (heap_mid_in _ _ _ _ _ _ _ _ Hd) as Hrg. pose proof (heap_mid_in _ _ _ _ _ _ _ _ H) as Hrg'.
  assert ((z + y) mod 8 = 0) by (Z.div_mod_to_equations; lia).
  assert (0 <= z + y < 2 ^ 32 - 32).
  { pose proof (hp_top _ _ _ _ H). unfold MAX_ALLOC_SIZE in *. mlia. }
  rewrite <- (Z.add_0_r c) in Hh1.
  eapply runs_step; [apply (set_size_hdr _ _ _ _ _ _ _ Hh1); [done|lia]|].
  rewrite Z.add_0_r in *.
  set (m1 := <[c := _]> (mem s)).
  assert (Hh3' : hdr_at (set_mem m1 s) (c + (z + y)) q3 v (nsz r)).
  { rewrite Z.add_assoc. destruct Hh3 as (? & ? & ?). split_and!; try tauto; try done.
    simpl. unfold m1. rewrite word_at_insert_ne by mlia. done. }
  eapply runs_step; [apply (set_presize_hdr _ _ _ _ _ _ _ Hh3'); [done|lia]|].
  set (m2 := <[c + (z + y) := hdr_word (z + y) v (nsz r)]> m1).
  change (runs k (set_mem m2 s) R).
  enough (heap (set_mem m2 s) (l ++ (c, z + y, v) :: r) B (if v then None else Some c) ∧
          keep (l ++ r) s (set_mem m2 s)) as [? ?] by auto.
  pose proof (proj1 (hdr_split _ _ _ _ _ _ _ _ Hc) (hp_hdr _ _ _ _ H)) as (Hp1 & _ & _ & Hp2).
  simpl in Hp2. apply (hdr_ok_head _ _ _ _ _ _ Hcr) in Hp2 as [_ Hp2].
  assert (∀ a, word_at m2 a ≠ word_at (mem s) a -> a = c ∨ a = c + (z + y)) as Hat.
  { intros a Ha. destruct (decide (a = c)), (decide (a = c + (z + y))); try tauto. exfalso. apply Ha.
    unfold m2, m1. by rewrite !word_at_insert_ne by done. }
  eapply heap_write; [exact H| | | | |].
  - intros d w Hin. split; [by apply (in_sides l [_; _])|].
    eapply (tails_kept (mem s) m2 _ l c (c + z + y) r); [exact Hcl|exact Hcr|mlia| | |exact Hin].
    + intros x [-> | ->]%Hat; mlia.
    + unfold m2, m1. rewrite word_at_insert_ne, word_at_insert_eq by mlia. destruct Hh1 as (_ & -> & ? & _).
      unfold hdr_word. by rewrite !w_pre_mk.
  - intros a [-> | ->]%Hat.
    + eapply quiet_hdr; [done|apply elem_of_app; right; left|by left].
    + eapply quiet_hdr; [done|apply elem_of_app; right; right; left|right; lia].
  - apply contig_mid_2; [done|mlia|done|]. by rewrite Z.add_assoc.
  - rewrite hdr_split by (apply contig_mid_2; [done|mlia|done|by rewrite Z.add_assoc]).
    rewrite <- Z.add_assoc in Hcr.
    split_and!.
    + unfold m2, m1. rewrite !(hdr_pre_insert _ _ _ _ _ _ _ _ Hcl) by mlia. done.
    + intros _. exists q1. unfold m2, m1. rewrite word_at_insert_ne by mlia. rewrite word_at_insert_eq. by destruct Hh1 as (_ & _ & ? & _).
    + apply hdr_is_exact; [|lia]. unfold m2. by rewrite word_at_insert_eq.
    + unfold m2, m1. rewrite !(hdr_rest_insert _ _ _ _ _ _ Hcr) by mlia. done.
  - apply (free_swap (m_hBottom (m_pstHead s)) l [(c, z, u); (c + z, y, v)] [(c, z + y, v)] r (m_hTop (m_pstHead s))).
    + done.
    + rewrite <- Z.add_assoc in Hcr. by apply contig_mid_2; [done|mlia|done|].
    + intros x Hx. destruct u, v; simplify_eq; in_list.
    + intros x Hx. destruct v; simplify_eq; in_list.
    + intros x w Hin. cases_in Hin; by destruct u, v; simplify_eq.
    + intros x w Hin. cases_in Hin; by destruct v; simplify_eq.
Qed.

(** Marking the chunk [c] in use or free in the header behind it. *)
Lemma heap_retag s l c z u v r B q :
  heap s (l ++ (c, z, u) :: r) B (if u then None else Some c) ->
  0 <= q < 2 ^ 32 -> (v = false -> q = z) -> w_pre (word_at (mem s) (c + z)) = q ->
  let s' := set_mem (<[c + z := hdr_word q v (nsz r)]> (mem s)) s in
  heap s' (l ++ (c, z, v) :: r) B (if v then None else Some c) ∧ keep (l ++ (c, z, u) :: r) s s'.
Proof.
  intros H Hq Hqz Hpre. pose proof (hp_contig _ _ _ _ H) as Hc.
  pose proof (contig_mid _ _ _ _ _ _ _ Hc) as (Hcl & ? & ? & Hcr).
  pose proof (contig_mid_2 _ _ _ _ v _ _ Hcl ltac:(done) ltac:(done) Hcr) as Hc'.
  pose proof (proj1 (hdr_split _ _ _ _ _ _ _ _ Hc) (hp_hdr _ _ _ _ H)) as (Hp1 & Hw & _ & Hp2).
  eapply heap_write; [done| | |done| |].
  - intros d w Hin. split; [done|]. simpl. rewrite word_at_insert. destruct (Z.eqb_spec (c + z) (d + w)) as [<-|]; [|done].
    rewrite Hpre. by apply w_pre_mk.
  - intros a Ha. assert (a = c + z) as ->.
    { destruct (decide (a = c + z)); [done|]. exfalso. apply Ha. by rewrite word_at_insert_ne. }
    eapply quiet_hdr; [done|apply elem_of_app; right; by left|by right].
  - rewrite hdr_split by done. split_and!.
    + by rewrite (hdr_pre_insert _ _ _ _ _ _ _ _ Hcl) by mlia.
    + by rewrite hdr_is_insert by mlia.
    + intros _. exists q. by rewrite word_at_insert_eq.
    + by rewrite (hdr_rest_insert _ _ _ _ _ _ Hcr) by lia.
  - apply (free_swap (m_hBottom (m_pstHead s)) l [(c, z, u)] [(c, z, v)] r (m_hTop (m_pstHead s))); try done.
    + intros x Hx. destruct u; simplify_eq; in_list.
    + intros x Hx. destruct v; simplify_eq; in_list.
    + intros x w Hin. cases_in Hin; by destruct u; simplify_eq.
    + intros x w Hin. cases_in Hin; by destruct v; simplify_eq.
Qed.

Lemma heap_set_inuse {A} s l c z u r B (k : M A) R :
  heap s (l ++ (c, z, u) :: r) B (if u then None else Some c) -> K < c ->
  (∀ m', heap (set_mem m' s) (l ++ (c, z, true) :: r) B None ->
         keep (l ++ (c, z, u) :: r) s (set_mem m' s) ->
         w_pre (word_at m' (c + z)) = w_pre (word_at (mem s) (c + z)) -> runs k (set_mem m' s) R) ->
  runs (set_inuse_bit_at_offset c z;; k) s R.
Proof.
  intros H HK Hk. destruct (heap_hdr _ _ _ _ _ _ _ _ H HK) as [_ (q & Hh & _)].
  eapply runs_step; [by eapply set_inuse_hdr|]. destruct Hh as (_ & Hw & Hq & _).
  assert (w_pre (word_at (mem s) (c + z)) = q) as Hpre by (rewrite Hw; by apply w_pre_mk).
  destruct (heap_retag _ _ _ _ _ true _ _ q H Hq) as [? ?]; [done..|]. apply Hk; [done..|].
  rewrite word_at_insert_eq, Hpre. by apply w_pre_mk.
Qed.

Lemma heap_clear_inuse {A} s l c z r B (k : M A) R :
  heap s (l ++ (c, z, true) :: r) B None -> K < c -> w_pre (word_at (mem s) (c + z)) = z ->
  (∀ m', heap (set_mem m' s) (l ++ (c, z, false) :: r) B (Some c) ->
         keep (l ++ (c, z, true) :: r) s (set_mem m' s) -> runs k (set_mem m' s) R) ->
  runs (clear_inuse_bit_at_offset c z;; k) s R.
Proof.
  intros H HK Hz Hk. destruct (heap_hdr _ _ _ _ _ _ _ _ H HK) as [_ (q & Hh & _)].
  eapply runs_step; [by eapply clear_inuse_hdr|]. destruct Hh as (_ & Hw & Hq & _).
  pose proof Hz as Hpre. rewrite Hw in Hz. unfold hdr_word in Hz. rewrite w_pre_mk in Hz by done. subst q.
  destruct (heap_retag _ _ _ _ true false _ _ z H Hq); [done..|]. by apply Hk.
Qed.

(** ** Linked lists of chunks *)

Definition sep (L : list Z) : Prop :=
  ∀ x y, x ∈ L -> y ∈ L -> x = y ∨ x + 24 <= y ∨ y + 24 <= x.

(** Memory after [p]'s next and [n]'s previous are set, 0 standing for the bin. *)
Definition relink (m : gmap Z Z) (p n : Z) : gmap Z Z :=
  let m1 := if p =? 0 then m else <[p + 16 := n]> m in
  if n =? 0 then m1 else <[n + 8 := p]> m1.

Lemma relink_at m p n y :
  0 < y -> (∀ x, x = p ∨ x = n -> x = 0 ∨ x = y ∨ x + 24 <= y ∨ y + 24 <= x) ->
  (p = n -> p = 0) ->
  word_at (relink m p n) (y + 8) = (if y =? n then p else word_at m (y + 8)) ∧
  word_at (relink m p n) (y + 16) = (if y =? p then n else word_at m (y + 16)).
Proof.
  intros Hy Hx Hpn. pose proof (Hx p ltac:(by left)). pose proof (Hx n ltac:(by right)).
  unfold relink. split; zcases; subst; rewrite ?word_at_insert; zcases; done.
Qed.

Lemma relink_other m p n x :
  (p ≠ 0 -> x ≠ p + 16) -> (n ≠ 0 -> x ≠ n + 8) -> word_at (relink m p n) x = word_at m x.
Proof. intros. unfold relink. zcases; rewrite ?word_at_insert_ne by lia; done. Qed.

Lemma dseg_set_last m m' p L n n' :
  NoDup L ->
  (∀ y, y ∈ L -> word_at m' (y + 8) = word_at m (y + 8) ∧
                 word_at m' (y + 16) = (if y =? lst p L then n' else word_at m (y + 16))) ->
  dseg m p L n -> dseg m' p L n'.
Proof.
  revert p. induction L as [|x L IH]; intros p; [done|]. cbn [dseg].
  intros [Hx Hnd]%NoDup_cons Hy (H8 & H16 & Hd).
  destruct (Hy x) as [-> ->]; [by left|]. split_and!; [done| |].
  - rewrite lst_cons. destruct L as [|x' L]; simpl.
    + by rewrite Z.eqb_refl.
    + destruct (Z.eqb_spec x (lst x (x' :: L))) as [Heq|]; [|done].
      exfalso. apply Hx. rewrite Heq. by apply lst_in.
  - apply IH; [done| |done]. intros y Hin. rewrite <- (lst_cons p x L). apply Hy. by right.
Qed.

Lemma dseg_set_first m m' p p' L n :
  NoDup L ->
  (∀ y, y ∈ L -> word_at m' (y + 8) = (if y =? hd 0 L then p' else word_at m (y + 8)) ∧
                 word_at m' (y + 16) = word_at m (y + 16)) ->
  dseg m p L n -> dseg m' p' L n.
Proof.
  destruct L as [|x L]; [done|]. cbn [dseg hd]. intros [Hx Hnd]%NoDup_cons Hy (H8 & H16 & Hd).
  destruct (Hy x) as [-> ->]; [by left|]. rewrite Z.eqb_refl. split_and!; [done..|].
  eapply dseg_frame; [|done]. intros y Hin. destruct (Hy y) as [Hy8 Hy16]; [by right|].
  destruct (Z.eqb_spec y x) as [->|]; [done|]. done.
Qed.

Lemma lst_0_in L : lst 0 L = 0 ∨ lst 0 L ∈ L.
Proof. destruct L; [by left|right]. by apply lst_in. Qed.
Lemma hd_0_in L : hd 0 L = 0 ∨ hd 0 L ∈ L.
Proof. destruct L; [by left|right]. by left. Qed.

Lemma relink_list m L1 L2 y :
  sep (L1 ++ L2) -> NoDup (L1 ++ L2) -> Forall (Z.lt 0) (L1 ++ L2) -> y ∈ L1 ++ L2 ->
  word_at (relink m (lst 0 L1) (hd 0 L2)) (y + 8) = (if y =? hd 0 L2 then lst 0 L1 else word_at m (y + 8)) ∧
  word_at (relink m (lst 0 L1) (hd 0 L2)) (y + 16) = (if y =? lst 0 L1 then hd 0 L2 else word_at m (y + 16)).
Proof.
  intros Hs Hn Hp Hy. rewrite Forall_forall in Hp. apply relink_at; [by apply Hp| |].
  - intros x Hx. assert (x = 0 ∨ x ∈ L1 ++ L2) as [?|Hin]; [|by left|right; by apply Hs].
    rewrite elem_of_app. pose proof (lst_0_in L1). pose proof (hd_0_in L2). destruct Hx as [-> | ->]; tauto.
  - intros Heq. apply NoDup_app in Hn as (_ & Hd & _).
    destruct (lst_0_in L1) as [?|H1]; [done|]. destruct (hd_0_in L2) as [?|H2]; [by rewrite Heq|].
    exfalso. apply (Hd _ H1). by rewrite Heq.
Qed.

Lemma dseg_unlink m L1 a L2 :
  sep (L1 ++ L2) -> NoDup (L1 ++ L2) -> Forall (Z.lt 0) (L1 ++ L2) ->
  dseg m 0 (L1 ++ a :: L2) 0 -> dseg (relink m (lst 0 L1) (hd 0 L2)) 0 (L1 ++ L2) 0.
Proof.
  intros Hs Hn Hp. rewrite !dseg_app. cbn [dseg hd]. intros (H1 & Ha1 & Ha2 & H2).
  pose proof Hn as (Hn1 & Hd & Hn2)%NoDup_app. split.
  - eapply dseg_set_last; [done| |done]. intros y Hy.
    destruct (relink_list m L1 L2 y) as [-> ->]; try done; [set_solver|].
    destruct (Z.eqb_spec y (hd 0 L2)) as [->|]; [|done].
    destruct (hd_0_in L2) as [H0|Hin]; [|by apply Hd in Hin].
    rewrite Forall_forall in Hp. specialize (Hp (hd 0 L2) ltac:(set_solver)). lia.
  - eapply dseg_set_first; [done| |done]. intros y Hy.
    destruct (relink_list m L1 L2 y) as [-> ->]; try done; [set_solver|].
    destruct (Z.eqb_spec y (lst 0 L1)) as [->|]; [|done].
    destruct (lst_0_in L1) as [H0|Hin]; [|by apply (Hd _ Hin) in Hy].
    rewrite Forall_forall in Hp. specialize (Hp (lst 0 L1) ltac:(set_solver)). lia.
Qed.

Lemma dseg_link m a L :
  sep (a :: L) -> NoDup (a :: L) -> Forall (Z.lt 0) (a :: L) -> dseg m 0 L 0 ->
  let m1 := <[a + 8 := 0]> (<[a + 16 := hd 0 L]> m) in
  dseg (if hd 0 L =? 0 then m1 else <[hd 0 L + 8 := a]> m1) 0 (a :: L) 0.
Proof.
  intros Hs [Ha Hn]%NoDup_cons [Hpa Hp]%Forall_cons Hd m1. rewrite Forall_forall in Hp.
  assert (∀ y, y ∈ L -> 0 < y ∧ (y + 24 <= a ∨ a + 24 <= y)) as Hy.
  { intros y Hy. destruct (Hs y a) as [->|?]; [by right|by left|done|]. split; [by apply Hp|lia]. }
  destruct L as [|x L].
  - simpl. unfold m1. rewrite word_at_insert_eq, word_at_insert_ne, word_at_insert_eq by lia. done.
  - cbn [hd]. pose proof (Hy x ltac:(by left)). destruct (Z.eqb_spec x 0); [lia|].
    set (m2 := <[x + 8 := a]> m1).
    change (word_at m2 (a + 8) = 0 ∧ word_at m2 (a + 16) = x ∧ dseg m2 a (x :: L) 0).
    unfold m2. split; [|split].
    + rewrite word_at_insert_ne by lia. unfold m1. by rewrite word_at_insert_eq.
    + rewrite word_at_insert_ne by lia. unfold m1. by rewrite word_at_insert_ne, word_at_insert_eq by lia.
    + apply (dseg_set_first m _ 0 a (x :: L) 0); [done| |done]. intros y Hin. cbn [hd].
      pose proof (Hy y Hin). apply NoDup_cons in Hn as [Hx _].
      assert (y = x ∨ y + 24 <= x ∨ x + 24 <= y) as Hyx by (apply Hs; [by right|right; by left]).
      unfold m1. rewrite !word_at_insert. split; zcases; done.
Qed.

(** ** Chunks entering and leaving the bins *)

Lemma cfg_sizes s s' :
  cfg s' = cfg s -> m_hBottom (m_pstHead s') = m_hBottom (m_pstHead s) ∧
                    m_tSize (m_pstHead s') = m_tSize (m_pstHead s).
Proof.
  intros H. assert ((cfg s').1.1 = (cfg s).1.1) as H1 by (by rewrite H). simpl in H1.
  split; [exact (f_equal m_hBottom H1)|exact (f_equal m_tSize H1)].
Qed.

(** Only bin [i], its bitmap bit and links of free chunks have changed. *)
Lemma heap_links s s' cs B i Li X X' :
  heap s cs B X -> 0 <= i < NBINS ->
  cfg s' = cfg s -> m_hTop (m_pstHead s') = m_hTop (m_pstHead s) ->
  (∀ x, word_at (mem s') x ≠ word_at (mem s) x ->
     ∃ y z, (y, z, false) ∈ cs ∧ (x = y + 8 ∨ x = y + 16) ∧ (X = Some y ∨ bin_index z = i)) ->
  length (m_ptBin s') = 128%nat ->
  (∀ j, j ≠ i -> rd (m_ptBin s') j = rd (m_ptBin s) j) ->
  dll s' i Li -> NoDup Li ->
  length (m_auiBinBitMap (m_pstHead s')) = 4%nat ->
  (Li ≠ [] -> bit_set (m_auiBinBitMap (m_pstHead s')) i) ->
  (∀ j, 0 <= j -> j ≠ i -> bit_set (m_auiBinBitMap (m_pstHead s)) j -> bit_set (m_auiBinBitMap (m_pstHead s')) j) ->
  (∀ a, a ∈ Li <-> X' ≠ Some a ∧ ∃ z, (a, z, false) ∈ cs ∧ bin_index z = i) ->
  (∀ a z, (a, z, false) ∈ cs -> bin_index z ≠ i -> X = Some a <-> X' = Some a) ->
  heap s' cs (upd B i Li) X' ∧ keep cs s s' ∧ ∀ c z u, (c, z, u) ∈ cs -> word_at (mem s') c = word_at (mem s) c.
Proof.
  intros H Hi Hcfg Htop Hw Hlen Hbl Hdll Hnd Hbm Hbi Hbj Hin Hout.
  destruct (cfg_sizes _ _ Hcfg) as [Hbot Hsz].
  pose proof (hp_contig _ _ _ _ H) as Hc.
  assert (∀ y z u x, (y, z, u) ∈ cs -> y = x ∨ y + z = x ∨ (u = true ∧ y < x < y + z) ->
            word_at (mem s') x = word_at (mem s) x) as Hsame.
  { intros y z u x Hy Hx. destruct (decide (word_at (mem s') x = word_at (mem s) x)) as [|Hne]; [done|].
    destruct (Hw x Hne) as (y' & z' & Hy' & Hx' & _). exfalso.
    pose proof (contig_in _ _ _ _ _ _ Hc Hy). pose proof (contig_in _ _ _ _ _ _ Hc Hy').
    destruct (contig_disj _ _ _ _ _ _ _ _ _ Hc Hy Hy') as [(-> & -> & ->)|[?|?]]; [|mlia..].
    destruct Hx as [?|[?|[? ?]]]; [mlia..|done]. }
  split; [|split; [by intros c z Hcz; split; [intros a ?|f_equal]; eapply Hsame; eauto|eauto]].
  constructor; rewrite ?Hbot, ?Hsz, ?Htop; try apply H; try done.
  - eapply hdr_ok_frame; [| |apply H].
    + intros x z u Hx. eapply Hsame; eauto.
    + destruct cs as [|[[c z] u] cs' _] using rev_ind.
      * destruct (decide (word_at (mem s') (m_hTop (m_pstHead s)) = word_at (mem s) (m_hTop (m_pstHead s)))) as [|Hne]; [done|].
        by destruct (Hw _ Hne) as (? & ? & ?%elem_of_nil & _).
      * eapply (Hsame c z u); [apply elem_of_app; right; by left|]. right; left.
        by destruct (contig_mid _ _ _ _ _ _ _ Hc) as (_ & _ & _ & ?).
  - intros j Hj. unfold upd. destruct (Z.eqb_spec i j) as [<-|Hne]; [done|].
    destruct (hp_bins _ _ _ _ H j Hj) as [Hb Hd]. split; [by rewrite Hbl by done|].
    eapply dseg_frame; [|done]. intros y Hy.
    destruct (heap_bin_in _ _ _ _ _ _ H Hj Hy) as (HX & z & Hyz & Hbz).
    assert (∀ x, x = y + 8 ∨ x = y + 16 -> word_at (mem s') x = word_at (mem s) x) as Hx; [|by split; apply Hx; auto].
    intros x Hx. destruct (decide (word_at (mem s') x = word_at (mem s) x)) as [|Hne']; [done|].
    destruct (Hw x Hne') as (y' & z' & Hy' & Hx' & Hor). exfalso.
    pose proof (contig_in _ _ _ _ _ _ Hc Hyz). pose proof (contig_in _ _ _ _ _ _ Hc Hy').
    destruct (contig_disj _ _ _ _ _ _ _ _ _ Hc Hyz Hy') as [(-> & -> & _)|[?|?]]; [|mlia..].
    destruct Hor as [?|?]; [done|]. by subst.
  - intros j Hj. unfold upd. destruct (Z.eqb_spec i j) as [<-|Hne]; [done|].
    intros HB. apply Hbj; [lia|done|]. by apply H.
  - intros j a Hj. unfold upd. destruct (Z.eqb_spec i j) as [<-|Hne]; [done|].
    rewrite (hp_free _ _ _ _ H j a Hj). split; intros (HX & z & Hz & Hb).
    + split; [|eauto]. intros HX'. apply HX. apply (Hout a z); [done|congruence|done].
    + split; [|eauto]. intros HX'. apply HX. apply (Hout a z); [done|congruence|done].
  - intros j Hj. unfold upd. destruct (Z.eqb_spec i j) as [<-|Hne]; [done|]. by apply H.
Qed.

Lemma bin_index_range z : 0 <= z < 2 ^ 32 -> 0 <= bin_index z < NBINS - 1.
Proof.
  intros. unfold bin_index, in_smallbin_range, smallbin_index, largebin_index, MIN_LARGE_SIZE, NBINS.
  rewrite !Z.shiftr_div_pow2 by lia. change (2 ^ 3) with 8. change (2 ^ 6) with 64. change (2 ^ 9) with 512.
  change (2 ^ 12) with 4096. change (2 ^ 15) with 32768. change (2 ^ 18) with 262144.
  zifs; Z.div_mod_to_equations; lia.
Qed.

Lemma rd_insert {A} (l : list A) i j x :
  0 <= i < Z.of_nat (length l) -> rd (<[Z.to_nat i := x]> l) j = if i =? j then Some x else rd l j.
Proof. intros. apply rd_wr. by apply wr_is_Some. Qed.

Lemma bin_get s i x : rd (m_ptBin s) i = Some x -> get_bin (Bin i) s = Some (x, s).
Proof. intros H. simpl. by rewrite H. Qed.
Lemma bin_next_ok s i x : rd (m_ptBin s) i = Some x -> bin_next (Bin i) s = Some (bin_hNextChunk x, s).
Proof. intros H. unfold bin_next. by rewrite (step_bind _ _ _ _ _ (bin_get _ _ _ H)). Qed.
Lemma bin_pre_ok s i x : rd (m_ptBin s) i = Some x -> bin_pre (Bin i) s = Some (bin_hPreChunk x, s).
Proof. intros H. unfold bin_pre. by rewrite (step_bind _ _ _ _ _ (bin_get _ _ _ H)). Qed.
Lemma set_bin_next_ok s i x v :
  rd (m_ptBin s) i = Some x ->
  set_bin_next (Bin i) v s =
    Some (tt, set_m_ptBin (<[Z.to_nat i := MkBin (bin_hPreChunk x) v]> (m_ptBin s)) s).
Proof.
  intros H. unfold set_bin_next. rewrite (step_bind _ _ _ _ _ (bin_get _ _ _ H)). simpl.
  rewrite wr_is_Some; [done|by eapply rd_Some_lt].
Qed.
Lemma set_bin_pre_ok s i x v :
  rd (m_ptBin s) i = Some x ->
  set_bin_pre (Bin i) v s =
    Some (tt, set_m_ptBin (<[Z.to_nat i := MkBin v (bin_hNextChunk x)]> (m_ptBin s)) s).
Proof.
  intros H. unfold set_bin_pre. rewrite (step_bind _ _ _ _ _ (bin_get _ _ _ H)). simpl.
  rewrite wr_is_Some; [done|by eapply rd_Some_lt].
Qed.

Lemma free_seg s cs B X a z k :
  heap s cs B X -> (a, z, false) ∈ cs -> k = 0 ∨ k = 8 ∨ k = 16 -> seg s (a + k).
Proof.
  intros H Hin Hk. pose proof (heap_in _ _ _ _ _ _ _ H Hin) as (? & ? & ? & ? & ? & _).
  pose proof (hp_top _ _ _ _ H). split_and!; [Z.div_mod_to_equations; lia|mlia..].
Qed.

Lemma bin_sep s cs B X i x j y :
  heap s cs B X -> 0 <= i < NBINS -> 0 <= j < NBINS -> x ∈ B i -> y ∈ B j ->
  x = y ∨ x + 24 <= y ∨ y + 24 <= x.
Proof.
  intros H Hi Hj Hx Hy.
  destruct (heap_bin_in _ _ _ _ _ _ H Hi Hx) as (_ & z & Hz & _).
  destruct (heap_bin_in _ _ _ _ _ _ H Hj Hy) as (_ & w & Hw & _).
  pose proof (heap_in _ _ _ _ _ _ _ H Hz). pose proof (heap_in _ _ _ _ _ _ _ H Hw).
  destruct (contig_disj _ _ _ _ _ _ _ _ _ (hp_contig _ _ _ _ H) Hz Hw) as [(-> & _)|[?|?]]; [by left|mlia..].
Qed.

Lemma bin_pos s cs B X i : heap s cs B X -> 0 <= i < NBINS -> Forall (Z.lt 0) (B i).
Proof.
  intros H Hi. apply Forall_forall. intros x Hx.
  destruct (heap_bin_in _ _ _ _ _ _ H Hi Hx) as (_ & z & Hz & _).
  pose proof (heap_in _ _ _ _ _ _ _ H Hz). lia.
Qed.

Lemma bin_dseg_at m p L1 a L2 n :
  dseg m p (L1 ++ a :: L2) n -> word_at m (a + 8) = lst p L1 ∧ word_at m (a + 16) = hd n L2.
Proof. rewrite dseg_app. cbn [dseg]. tauto. Qed.

(** The members of a bin: positive, apart, inside the segment. *)
Lemma bin_members s cs B X i :
  heap s cs B X -> 0 <= i < NBINS ->
  sep (B i) ∧ NoDup (B i) ∧ Forall (Z.lt 0) (B i) ∧
  (∀ y k, y ∈ B i -> k = 0 ∨ k = 8 ∨ k = 16 -> seg s (y + k)).
Proof.
  intros H Hi. split_and!.
  - intros x y Hx Hy. by eapply bin_sep.
  - by eapply hp_nodup.
  - by eapply bin_pos.
  - intros y k Hy Hk. destruct (heap_bin_in _ _ _ _ _ _ H Hi Hy) as (_ & z & Hz & _). by eapply free_seg.
Qed.

Lemma set_next_run s i x p n :
  rd (m_ptBin s) i = Some x -> (p ≠ 0 -> seg s (p + 16)) ->
  (if p =? INVALID_HANDLE then set_bin_next (Bin i) n else set_hNextChunk p n) s =
  Some (tt, set_mem (if p =? 0 then mem s else <[p + 16 := n]> (mem s))
              (set_m_ptBin (if p =? 0 then <[Z.to_nat i := MkBin (bin_hPreChunk x) n]> (m_ptBin s)
                            else m_ptBin s) s)).
Proof.
  intros Hx Hp. unfold INVALID_HANDLE. destruct (Z.eqb_spec p 0).
  - rewrite (set_bin_next_ok _ _ _ _ Hx). by destruct s.
  - unfold set_hNextChunk. rewrite st_ok by auto. by destruct s.
Qed.
Lemma set_pre_run s i x p n :
  rd (m_ptBin s) i = Some x -> (n ≠ 0 -> seg s (n + 8)) ->
  (if n =? INVALID_HANDLE then set_bin_pre (Bin i) p else set_hPreChunk n p) s =
  Some (tt, set_mem (if n =? 0 then mem s else <[n + 8 := p]> (mem s))
              (set_m_ptBin (if n =? 0 then <[Z.to_nat i := MkBin p (bin_hNextChunk x)]> (m_ptBin s)
                            else m_ptBin s) s)).
Proof.
  intros Hx Hp. unfold INVALID_HANDLE. destruct (Z.eqb_spec n 0).
  - rewrite (set_bin_pre_ok _ _ _ _ Hx). by destruct s.
  - unfold set_hPreChunk. rewrite st_ok by auto. by destruct s.
Qed.

Lemma hd_0_iff L : Forall (Z.lt 0) L -> hd 0 L = 0 <-> L = [].
Proof. intros H. destruct L as [|x L]; [done|]. apply Forall_cons in H as [? _]. simpl. split; [lia|done]. Qed.
Lemma lst_0_iff L : Forall (Z.lt 0) L -> lst 0 L = 0 <-> L = [].
Proof.
  intros H. destruct L as [|x L]; [done|]. rewrite Forall_forall in H.
  pose proof (H _ (lst_in 0 (x :: L) ltac:(done))). split; [lia|done].
Qed.

(** The bin records after [a] is taken out of the list [L1 ++ a :: L2] of bin [i]. *)
Definition unlink_bins (bl : list CBin) (i a : Z) (L1 L2 : list Z) : list CBin :=
  let p := lst 0 L1 in let n := hd 0 L2 in let L := L1 ++ a :: L2 in
  let bl1 := if p =? 0 then <[Z.to_nat i := MkBin (lst 0 L) n]> bl else bl in
  if n =? 0 then <[Z.to_nat i := MkBin p (if p =? 0 then n else hd 0 L)]> bl1 else bl1.

Lemma UnlinkBin_exec s i a L1 L2 :
  0 <= i < NBINS -> length (m_ptBin s) = 128%nat ->
  rd (m_ptBin s) i = Some (MkBin (lst 0 (L1 ++ a :: L2)) (hd 0 (L1 ++ a :: L2))) ->
  dseg (mem s) 0 (L1 ++ a :: L2) 0 ->
  sep (L1 ++ a :: L2) -> NoDup (L1 ++ a :: L2) -> Forall (Z.lt 0) (L1 ++ a :: L2) ->
  (∀ y k, y ∈ L1 ++ a :: L2 -> k = 0 ∨ k = 8 ∨ k = 16 -> seg s (y + k)) ->
  UnlinkBin (Bin i) a s =
    Some (0, set_mem (relink (mem s) (lst 0 L1) (hd 0 L2)) (set_m_ptBin (unlink_bins (m_ptBin s) i a L1 L2) s)).
Proof.
  intros Hi Hlen Hrd Hd Hsep Hnd Hpos Hseg.
  destruct (bin_dseg_at _ _ _ _ _ _ Hd) as [Ha8 Ha16].
  pose proof Hpos as [Hp1 [Hpa Hp2]%Forall_cons]%Forall_app.
  assert (a ∈ L1 ++ a :: L2) as Hain by (apply elem_of_app; right; by left).
  assert (hd 0 (L1 ++ a :: L2) ≠ 0 ∧ lst 0 (L1 ++ a :: L2) ≠ 0) as [Hhd Hls].
  { rewrite hd_0_iff, lst_0_iff by done. by destruct L1. }
  assert (∀ y, y = lst 0 L1 ∨ y = hd 0 L2 -> y = 0 ∨ y ∈ L1 ++ L2) as Hmem.
  { intros y Hy. rewrite elem_of_app. pose proof (lst_0_in L1). pose proof (hd_0_in L2).
    destruct Hy as [-> | ->]; tauto. }
  assert (∀ y, y ∈ L1 ++ L2 -> y ∈ L1 ++ a :: L2) as Hsub.
  { intros y. rewrite !elem_of_app, elem_of_cons. tauto. }
  assert (a ∉ L1 ++ L2) as Hna.
  { apply NoDup_app in Hnd as (_ & Hd1 & [Hd2 _]%NoDup_cons). intros [Hx|?]%elem_of_app; [|done].
    apply (Hd1 a Hx). by left. }
  assert (∀ y, y ∈ L1 ++ L2 -> y + 24 <= a ∨ a + 24 <= y) as Hap.
  { intros y Hy. destruct (Hsep y a (Hsub _ Hy) Hain) as [->|?]; done. }
  set (p := lst 0 L1) in *. set (n := hd 0 L2) in *.
  assert (∀ y k, y = p ∨ y = n -> y ≠ 0 -> k = 0 ∨ k = 8 ∨ k = 16 -> seg s (y + k)) as Hsg.
  { intros y k Hy Hy0 Hk. apply Hseg; [|done]. apply Hsub. destruct (Hmem y Hy); done. }
  - unfold UnlinkBin. change INVALID_HANDLE with 0. destruct (Z.eqb_spec a 0); [lia|].
    mstep (bin_next_ok _ _ _ Hrd). mstep (bin_pre_ok _ _ _ Hrd).
    cbn [bin_hNextChunk bin_hPreChunk].
    destruct (Z.eqb_spec (hd 0 (L1 ++ a :: L2)) 0); [done|].
    destruct (Z.eqb_spec (lst 0 (L1 ++ a :: L2)) 0); [done|]. cbn [orb].
    unfold m_hPreChunk, m_hNextChunk.
    mstep (ld_ok _ _ (Hseg _ 8 Hain ltac:(auto))). rewrite Ha8.
    mstep (ld_ok _ _ (Hseg _ 16 Hain ltac:(auto))). rewrite Ha16. fold p n.
    mstep (set_next_run _ _ _ p n Hrd ltac:(intros; apply Hsg; auto)).
    set (m1 := if p =? 0 then mem s else _). set (bl1 := if p =? 0 then _ else m_ptBin s).
    set (s1 := set_mem m1 (set_m_ptBin bl1 s)).
    assert (∀ k, k = 8 ∨ k = 16 -> word_at m1 (a + k) = word_at (mem s) (a + k)) as Hm1.
    { intros k Hk. unfold m1. destruct (Z.eqb_spec p 0); [done|]. rewrite word_at_insert_ne; [done|].
      destruct (Hmem p ltac:(by left)) as [?|Hp]; [done|]. pose proof (Hap p Hp). lia. }
    set (x1 := MkBin (lst 0 (L1 ++ a :: L2)) (if p =? 0 then n else hd 0 (L1 ++ a :: L2))).
    assert (rd bl1 i = Some x1) as Hrd1.
    { unfold bl1, x1. destruct (p =? 0); [|done].
      rewrite rd_insert by (rewrite Hlen; unfold NBINS in Hi; lia). by rewrite Z.eqb_refl. }
    mstep (ld_ok s1 (a + 16) (Hseg _ 16 Hain ltac:(auto))).
    change (mem s1) with m1. rewrite Hm1, Ha16 by auto.
    mstep (ld_ok s1 (a + 8) (Hseg _ 8 Hain ltac:(auto))).
    change (mem s1) with m1. rewrite Hm1, Ha8 by auto. fold p n.
    mstep (set_pre_run s1 i x1 p n Hrd1 ltac:(intros; apply Hsg; auto)).
    reflexivity.
Qed.

Lemma unlink_bins_spec bl i a L1 L2 :
  0 <= i < NBINS -> length bl = 128%nat -> Forall (Z.lt 0) L1 -> Forall (Z.lt 0) L2 ->
  rd bl i = Some (MkBin (lst 0 (L1 ++ a :: L2)) (hd 0 (L1 ++ a :: L2))) ->
  let bl' := unlink_bins bl i a L1 L2 in
  length bl' = 128%nat ∧ (∀ j, j ≠ i -> rd bl' j = rd bl j) ∧
  rd bl' i = Some (MkBin (lst 0 (L1 ++ L2)) (hd 0 (L1 ++ L2))).
Proof.
  intros Hi Hlen Hp1 Hp2 Hrd. unfold unlink_bins. set (p := lst 0 L1). set (n := hd 0 L2). cbv zeta.
  split_and!.
    + destruct (n =? 0), (p =? 0); by rewrite ?length_insert.
    + intros j Hj. assert (∀ (l : list CBin) x, length l = 128%nat -> rd (<[Z.to_nat i := x]> l) j = rd l j) as Hj'.
      { intros l x Hl. rewrite rd_insert by (rewrite Hl; unfold NBINS in Hi; lia). zcases; done. }
      destruct (n =? 0), (p =? 0); rewrite ?Hj'; rewrite ?length_insert; done.
    + assert (lst 0 (L1 ++ L2) = if n =? 0 then p else lst 0 (L1 ++ a :: L2)) as ->.
      { destruct (Z.eqb_spec n 0) as [Hn0|Hn0].
        - apply hd_0_iff in Hn0 as ->; [|done]. by rewrite app_nil_r.
        - rewrite !lst_app, lst_cons. destruct L2; [done|]. by rewrite !lst_cons. }
      assert (hd 0 (L1 ++ L2) = if p =? 0 then n else hd 0 (L1 ++ a :: L2)) as ->.
      { destruct (Z.eqb_spec p 0) as [Hp0|Hp0].
        - by apply lst_0_iff in Hp0 as ->.
        - rewrite !hd_app. by destruct L1. }
      unfold NBINS in Hi.
      destruct (n =? 0), (p =? 0); rewrite ?rd_insert by (rewrite ?length_insert; lia);
        rewrite ?Z.eqb_refl; try done; by rewrite Hrd.
Qed.

Lemma UnlinkBin_run s cs B i a L1 L2 :
  heap s cs B None -> 0 <= i < NBINS -> B i = L1 ++ a :: L2 ->
  let bl := unlink_bins (m_ptBin s) i a L1 L2 in
  UnlinkBin (Bin i) a s =
    Some (0, set_mem (relink (mem s) (lst 0 L1) (hd 0 L2)) (set_m_ptBin bl s)) ∧
  length bl = 128%nat ∧ (∀ j, j ≠ i -> rd bl j = rd (m_ptBin s) j) ∧
  rd bl i = Some (MkBin (lst 0 (L1 ++ L2)) (hd 0 (L1 ++ L2))).
Proof.
  intros H Hi HB bl. destruct (bin_members _ _ _ _ _ H Hi) as (Hsep & Hnd & Hpos & Hseg).
  destruct (hp_bins _ _ _ _ H i Hi) as [Hrd Hd]. rewrite HB in Hrd, Hd, Hsep, Hnd, Hpos, Hseg.
  pose proof (hp_nbins _ _ _ _ H) as Hlen. split; [by apply UnlinkBin_exec|].
  apply Forall_app in Hpos as [? [_ ?]%Forall_cons]. by apply unlink_bins_spec.
Qed.

(** ** The bitmap *)

Lemma upd_bitmap_run s i f :
  length (m_auiBinBitMap (m_pstHead s)) = 4%nat -> 0 <= i < NBINS ->
  ∃ w, rd (m_auiBinBitMap (m_pstHead s)) (i / 32) = Some w ∧
       upd_bitmap i f s =
       Some (tt, set_m_pstHead (set_m_auiBinBitMap
          (<[Z.to_nat (i / 32) := u32 (f w)]> (m_auiBinBitMap (m_pstHead s))) (m_pstHead s)) s).
Proof.
  intros Hl Hi. unfold NBINS in Hi.
  assert (0 <= i / 32 < Z.of_nat (length (m_auiBinBitMap (m_pstHead s)))) as Hr.
  { rewrite Hl. Z.div_mod_to_equations; lia. }
  destruct (rd_is_Some _ _ Hr) as [w Hw]. exists w. split; [done|].
  unfold upd_bitmap, gets, lift, mbind, ST_bind. simpl. rewrite Hw. simpl.
  by rewrite wr_is_Some.
Qed.

Lemma bit_set_upd bm i j v :
  length bm = 4%nat -> 0 <= i < NBINS -> 0 <= j -> bit_set bm j ->
  (i / 32 = j / 32 -> ∀ w, rd bm (j / 32) = Some w -> Z.testbit w (j mod 32) = true ->
     Z.testbit v (j mod 32) = true) ->
  bit_set (<[Z.to_nat (i / 32) := v]> bm) j.
Proof.
  intros Hl Hi Hj (w & Hw & Hb) Hv. unfold NBINS in Hi. unfold bit_set.
  rewrite rd_insert by (rewrite Hl; Z.div_mod_to_equations; lia).
  destruct (Z.eqb_spec (i / 32) (j / 32)); [|by exists w]. eauto.
Qed.

Lemma testbit_one k n : 0 <= n -> Z.testbit (Z.shiftl 1 k) n = (k =? n).
Proof.
  intros. rewrite Z.shiftl_spec by done. destruct (Z.eqb_spec k n) as [->|].
  - by rewrite Z.sub_diag.
  - destruct (Z.ltb_spec (n - k) 0).
    + by apply Z.testbit_neg_r.
    + apply (Z.bits_above_log2 1 (n - k)); simpl; lia.
Qed.

Lemma ClearBinBitMap_run s i :
  length (m_auiBinBitMap (m_pstHead s)) = 4%nat -> 0 <= i < NBINS ->
  ∃ bm, ClearBinBitMap i s = Some (tt, set_m_pstHead (set_m_auiBinBitMap bm (m_pstHead s)) s) ∧
        length bm = 4%nat ∧
        ∀ j, 0 <= j -> j ≠ i -> bit_set (m_auiBinBitMap (m_pstHead s)) j -> bit_set bm j.
Proof.
  intros Hl Hi. destruct (upd_bitmap_run s i (λ w, Z.land w (Z.lnot (Z.shiftl 1 (i mod 32)))) Hl Hi) as (w & Hw & Hr).
  eexists. split; [exact Hr|]. split; [by rewrite length_insert|].
  intros j Hj Hne Hb. apply bit_set_upd; [done..|]. intros Hij w' Hw' Hb'.
  pose proof (Z.mod_pos_bound j 32 ltac:(lia)).
  rewrite Hij in Hw. rewrite Hw in Hw'. simplify_eq.
  rewrite uwrap_testbit, Z.land_spec, Z.lnot_spec, testbit_one, Hb' by lia.
  zcases; Z.div_mod_to_equations; lia.
Qed.

Lemma SetBinBitMap_run s i :
  length (m_auiBinBitMap (m_pstHead s)) = 4%nat -> 0 <= i < NBINS ->
  ∃ bm, SetBinBitMap i s = Some (tt, set_m_pstHead (set_m_auiBinBitMap bm (m_pstHead s)) s) ∧
        length bm = 4%nat ∧ bit_set bm i ∧
        ∀ j, 0 <= j -> bit_set (m_auiBinBitMap (m_pstHead s)) j -> bit_set bm j.
Proof.
  intros Hl Hi. destruct (upd_bitmap_run s i (λ w, Z.lor w (Z.shiftl 1 (i mod 32))) Hl Hi) as (w & Hw & Hr).
  pose proof (Z.mod_pos_bound i 32 ltac:(lia)).
  eexists. split; [exact Hr|]. split; [by rewrite length_insert|]. split.
  - eexists. rewrite rd_insert by (rewrite Hl; unfold NBINS in Hi; Z.div_mod_to_equations; lia).
    rewrite Z.eqb_refl. split; [done|].
    rewrite uwrap_testbit, Z.lor_spec, testbit_one, Z.eqb_refl by lia.
    rewrite orb_true_r, andb_true_r. apply Z.ltb_lt. lia.
  - intros j Hj Hb. apply bit_set_upd; [done..|]. intros Hij w' Hw' Hb'.
    pose proof (Z.mod_pos_bound j 32 ltac:(lia)).
    rewrite Hij in Hw. rewrite Hw in Hw'. simplify_eq.
    rewrite uwrap_testbit, Z.lor_spec, Hb', andb_true_r by lia. apply Z.ltb_lt. lia.
Qed.

Lemma Ptr2Handle_ok s p : 0 <= p < m_tSize (m_pstHead s) -> Ptr2Handle p s = Some (p, s).
Proof. intros. unfold Ptr2Handle, gets, mbind, ST_bind. simpl. zcases. done. Qed.

(** ** Free chunks leave and enter their bin *)

Lemma heap_UnlinkBin s cs B a z :
  heap s cs B None -> (a, z, false) ∈ cs ->
  ∃ s' B', UnlinkBin (Bin (bin_index z)) a s = Some (0, s') ∧ heap s' cs B' (Some a) ∧ keep cs s s' ∧
           m_pstHead s' = m_pstHead s ∧ cfg s' = cfg s ∧
           ∀ c z u, (c, z, u) ∈ cs -> word_at (mem s') c = word_at (mem s) c.
Proof.
  intros H Hin. pose proof (heap_in _ _ _ _ _ _ _ H Hin) as Hr.
  pose proof (bin_index_range z ltac:(mlia)) as Hi.
  set (i := bin_index z) in *. assert (0 <= i < NBINS) as Hi' by lia.
  assert (a ∈ B i) as HaB by (apply (hp_free _ _ _ _ H i a Hi'); eauto).
  apply list_elem_of_split in HaB as (L1 & L2 & HB).
  destruct (UnlinkBin_run _ _ _ _ _ _ _ H Hi' HB) as (Hrun & Hbl & Hblj & Hbli).
  destruct (bin_members _ _ _ _ _ H Hi') as (Hsep & Hnd & Hpos & _). rewrite HB in Hsep, Hnd, Hpos.
  assert (∀ y, y ∈ L1 ++ L2 -> y ∈ L1 ++ a :: L2) as Hsub.
  { intros y. rewrite !elem_of_app, elem_of_cons. tauto. }
  destruct (hp_bins _ _ _ _ H i Hi') as [_ Hd]. rewrite HB in Hd.
  assert (NoDup (L1 ++ L2) ∧ a ∉ L1 ++ L2) as [Hnd' Hna].
  { rewrite <- Permutation_middle in Hnd. by apply NoDup_cons in Hnd as [? ?]. }
  eexists _, (upd B i (L1 ++ L2)). split; [exact Hrun|]. set (s' := set_mem _ _).
  enough (heap s' cs (upd B i (L1 ++ L2)) (Some a) ∧ keep cs s s' ∧
          ∀ c z u, (c, z, u) ∈ cs -> word_at (mem s') c = word_at (mem s) c) by tauto.
  eapply heap_links; try done; try apply H.
  - intros x Hx. simpl in Hx.
    assert (∀ y, y ∈ L1 ++ L2 -> ∃ w, (y, w, false) ∈ cs ∧ bin_index w = i) as Hy.
    { intros y Hy%Hsub. rewrite <- HB in Hy. by apply (heap_bin_in _ _ _ _ _ _ H Hi') in Hy as (_ & ?). }
    destruct (decide (lst 0 L1 ≠ 0 ∧ x = lst 0 L1 + 16)) as [[Hp ->]|Hp].
    { destruct (lst_0_in L1) as [?|Hl]; [done|]. destruct (Hy (lst 0 L1)) as (w & ? & ?); [apply elem_of_app; by left|]. eauto 10. }
    destruct (decide (hd 0 L2 ≠ 0 ∧ x = hd 0 L2 + 8)) as [[Hn ->]|Hn].
    { destruct (hd_0_in L2) as [?|Hl]; [done|]. destruct (Hy (hd 0 L2)) as (w & ? & ?); [apply elem_of_app; by right|]. eauto 10. }
    exfalso. apply Hx, relink_other; tauto.
  - split; [done|]. apply (dseg_unlink _ _ a); try done.
    + intros x y Hx Hy. apply Hsep; auto.
    + rewrite Forall_forall in *. auto.
  - intros Hne. apply (hp_map _ _ _ _ H); [done|]. rewrite HB. by destruct L1.
  - intros y. pose proof (hp_free _ _ _ _ H i y Hi') as Hf. rewrite HB in Hf. split.
    + intros Hy. split; [intros [= ->]; done|]. by apply Hf, Hsub.
    + intros [Hya Hy]. assert (y ∈ L1 ++ a :: L2) as Hy1 by (apply Hf; done).
      rewrite elem_of_app. apply elem_of_app in Hy1 as [?|[->|?]%elem_of_cons]; [by left|done|by right].
  - intros y w Hw Hne. split; [done|]. intros [= <-]. exfalso. apply Hne.
    by destruct (contig_unique _ _ _ _ _ _ _ _ (hp_contig _ _ _ _ H) Hw Hin) as [-> _].
Qed.

Lemma heap_clear_empty s cs B X i :
  heap s cs B X -> 0 <= i < NBINS -> B i = [] ->
  ∃ s', ClearBinBitMap i s = Some (tt, s') ∧ heap s' cs B X ∧ keep cs s s' ∧ cfg s' = cfg s ∧
        m_hTop (m_pstHead s') = m_hTop (m_pstHead s) ∧ m_ptBin s' = m_ptBin s.
Proof.
  intros H Hi HB. destruct (ClearBinBitMap_run s i (hp_nmap _ _ _ _ H) Hi) as (bm & Hrun & Hl & Hj).
  eexists. split; [exact Hrun|]. split_and!; try done.
  constructor; simpl; try apply H; try done.
  intros j Hj0 HBj. apply Hj; [lia| |by apply H]. intros ->. done.
Qed.

Lemma heap_unlink s cs B a z :
  heap s cs B None -> (a, z, false) ∈ cs ->
  ∃ s' B', unlink_clear (bin_index z) a s = Some (tt, s') ∧ heap s' cs B' (Some a) ∧ keep cs s s' ∧
           cfg s' = cfg s ∧ m_hTop (m_pstHead s') = m_hTop (m_pstHead s).
Proof.
  intros H Hin. pose proof (heap_in _ _ _ _ _ _ _ H Hin) as Hr.
  pose proof (bin_index_range z ltac:(mlia)) as Hi.
  set (i := bin_index z) in *. assert (0 <= i < NBINS) as Hi' by lia.
  destruct (heap_UnlinkBin _ _ _ _ _ H Hin) as (s1 & B1 & Hrun & H1 & Hk1 & Hh1 & Hc1 & _). fold i in Hrun.
  unfold unlink_clear. rewrite (step_bind _ _ _ _ _ Hrun). unfold EmptyBin.
  destruct (hp_bins _ _ _ _ H1 i Hi') as [Hrd _].
  rewrite (step_bind (bin_next (Bin i) ≫= _) _ _ _ _ (step_bind _ _ _ _ _ (bin_next_ok _ _ _ Hrd))).
  cbn [bin_hNextChunk]. change INVALID_HANDLE with 0. pose proof (bin_pos _ _ _ _ _ H1 Hi') as Hpos.
  destruct (Z.eqb_spec (hd 0 (B1 i)) 0) as [H0|H0]; simpl.
  - apply hd_0_iff in H0; [|done].
    destruct (heap_clear_empty _ _ _ _ _ H1 Hi' H0) as (s2 & -> & H2 & Hk2 & Hc2 & Ht2 & _).
    exists s2, B1. split_and!; [done..| | |by rewrite Ht2, Hh1]; [|congruence].
    by eapply keep_trans.
  - exists s1, B1. by rewrite Hh1.
Qed.

Lemma heap_unlink_free {A} s cs B a z (k : M A) R :
  heap s cs B None -> (a, z, false) ∈ cs ->
  (∀ s' B', heap s' cs B' (Some a) -> keep cs s s' -> cfg s' = cfg s ->
            m_hTop (m_pstHead s') = m_hTop (m_pstHead s) -> runs k s' R) ->
  runs (unlink_free a z;; k) s R.
Proof.
  intros H Hin Hk. pose proof (heap_in _ _ _ _ _ _ _ H Hin).
  destruct (heap_unlink _ _ _ _ _ H Hin) as (s' & B' & Hrun & ? & ? & ? & ?).
  eapply runs_step; [|by eapply Hk]. unfold unlink_free.
  rewrite (step_bind _ _ _ _ _ (Ptr2Handle_ok s a ltac:(mlia))). exact Hrun.
Qed.

Lemma LinkBin_run s i a L :
  length (m_ptBin s) = 128%nat -> 0 <= i < NBINS -> 0 < a ->
  rd (m_ptBin s) i = Some (MkBin (lst 0 L) (hd 0 L)) -> Forall (Z.lt 0) L ->
  (∀ k, k = 0 ∨ k = 8 ∨ k = 16 -> seg s (a + k)) -> (∀ y, y ∈ L -> seg s (y + 8)) ->
  let m1 := <[a + 8 := 0]> (<[a + 16 := hd 0 L]> (mem s)) in
  ∃ bl, LinkBin (Bin i) a s =
          Some (0, set_mem (if hd 0 L =? 0 then m1 else <[hd 0 L + 8 := a]> m1) (set_m_ptBin bl s)) ∧
        length bl = 128%nat ∧ (∀ j, j ≠ i -> rd bl j = rd (m_ptBin s) j) ∧
        rd bl i = Some (MkBin (lst 0 (a :: L)) a).
Proof.
  intros Hlen Hi Ha Hrd Hpos Hsega Hseg m1. unfold NBINS in Hi.
  assert (∀ (l : list CBin) x j, length l = 128%nat ->
            rd (<[Z.to_nat i := x]> l) j = if i =? j then Some x else rd l j) as Hins.
  { intros. apply rd_insert. lia. }
  unfold LinkBin. change INVALID_HANDLE with 0. destruct (Z.eqb_spec a 0); [lia|].
  mstep (bin_next_ok _ _ _ Hrd). mstep (bin_pre_ok _ _ _ Hrd). cbn [bin_hNextChunk bin_hPreChunk].
  unfold set_hNextChunk, set_hPreChunk.
  mstep (st_ok s (a + 16) (hd 0 L) (Hsega 16 ltac:(auto))).
  set (s1 := set_mem _ s).
  mstep (st_ok s1 (a + 8) 0 (Hsega 8 ltac:(auto))).
  set (s2 := set_mem _ s1). change (mem s1) with (<[a + 16 := hd 0 L]> (mem s)) in s2. fold m1 in s2.
  assert (Hrd2 : rd (m_ptBin s2) i = Some (MkBin (lst 0 L) (hd 0 L))) by done.
  destruct (Z.eqb_spec (hd 0 L) 0) as [H0|H0]; cbn [negb].
  - apply hd_0_iff in H0 as ->; [|done].
    change (lst 0 []) with 0. cbn [Z.eqb negb].
    mstep (set_bin_pre_ok s2 i _ a Hrd2). cbn [bin_hNextChunk hd].
    set (s3 := set_m_ptBin _ s2).
    assert (Hrd3 : rd (m_ptBin s3) i = Some (MkBin a 0)).
    { simpl. rewrite Hins, Z.eqb_refl by done. done. }
    mstep (set_bin_next_ok s3 i _ a Hrd3). cbn [bin_hPreChunk].
    exists (<[Z.to_nat i := MkBin a a]> (<[Z.to_nat i := MkBin a 0]> (m_ptBin s))). split; [reflexivity|].
    rewrite !length_insert. split_and!; [done| |].
    + intros j Hj. rewrite !Hins by (rewrite ?length_insert; done). zcases; done.
    + rewrite Hins, Z.eqb_refl by (by rewrite length_insert). done.
  - assert (hd 0 L ∈ L) as HhL by (destruct (hd_0_in L); done).
    mstep (st_ok s2 (hd 0 L + 8) a (Hseg _ HhL)). set (s3 := set_mem _ s2).
    destruct (Z.eqb_spec (lst 0 L) 0) as [Hl0|Hl0].
    { apply lst_0_iff in Hl0; [|done]. by subst. }
    assert (Hrd3 : rd (m_ptBin s3) i = Some (MkBin (lst 0 L) (hd 0 L))) by done.
    mstep (set_bin_next_ok s3 i _ a Hrd3). cbn [bin_hPreChunk].
    exists (<[Z.to_nat i := MkBin (lst 0 L) a]> (m_ptBin s)). split; [reflexivity|].
    rewrite length_insert. split_and!; [done| |].
    + intros j Hj. rewrite Hins by done. zcases; done.
    + rewrite Hins, Z.eqb_refl by done. destruct L; [done|by rewrite !lst_cons].
Qed.

(** Putting the chunk in flight at the head of the bin of its size. *)
Lemma heap_link {A} s cs B a z (k : M A) R :
  heap s cs B (Some a) -> (a, z, false) ∈ cs ->
  (∀ s' B', heap s' cs B' None -> keep cs s s' -> cfg s' = cfg s ->
            m_hTop (m_pstHead s') = m_hTop (m_pstHead s) -> runs k s' R) ->
  runs (LinkBin (Bin (bin_index z)) a;; SetBinBitMap (bin_index z);; k) s R.
Proof.
  intros H Hin Hk. pose proof (heap_in _ _ _ _ _ _ _ H Hin) as Hr.
  pose proof (bin_index_range z ltac:(mlia)) as Hi.
  set (i := bin_index z) in *. assert (0 <= i < NBINS) as Hi' by lia.
  destruct (bin_members _ _ _ _ _ H Hi') as (Hsep & Hnd & Hpos & Hseg).
  destruct (hp_bins _ _ _ _ H i Hi') as [Hrd Hd]. pose proof (hp_nbins _ _ _ _ H) as Hlen.
  set (L := B i) in *.
  assert (∀ y, y ∈ L -> y + 24 <= a ∨ a + 24 <= y) as Hap.
  { intros y Hy. destruct (heap_bin_in _ _ _ _ _ _ H Hi' Hy) as (HX & w & Hw & _).
    pose proof (heap_in _ _ _ _ _ _ _ H Hw).
    destruct (contig_disj _ _ _ _ _ _ _ _ _ (hp_contig _ _ _ _ H) Hw Hin) as [(-> & _)|[?|?]]; [done|mlia..]. }
  assert (∀ k0, k0 = 0 ∨ k0 = 8 ∨ k0 = 16 -> seg s (a + k0)) as Hsega by (intros; by eapply free_seg).
  set (m1 := <[a + 8 := 0]> (<[a + 16 := hd 0 L]> (mem s))).
  set (m2 := if hd 0 L =? 0 then m1 else <[hd 0 L + 8 := a]> m1).
  assert (∃ bl, LinkBin (Bin i) a s = Some (0, set_mem m2 (set_m_ptBin bl s)) ∧ length bl = 128%nat ∧
            (∀ j, j ≠ i -> rd bl j = rd (m_ptBin s) j) ∧ rd bl i = Some (MkBin (lst 0 (a :: L)) a))
    as (bl & Hrun & Hbl & Hblj & Hbli).
  { apply LinkBin_run; try done; [lia|]. intros y Hy. apply Hseg; [done|auto]. }
  set (s1 := set_mem m2 _) in Hrun.
  destruct (SetBinBitMap_run s1 i (hp_nmap _ _ _ _ H) Hi') as (bm & Hbm & Hbml & Hbmi & Hbmj).
  eapply runs_step; [exact Hrun|]. eapply runs_step; [exact Hbm|].
  set (s2 := set_m_pstHead _ s1).
  enough (heap s2 cs (upd B i (a :: L)) None ∧ keep cs s s2 ∧
          ∀ c z u, (c, z, u) ∈ cs -> word_at (mem s2) c = word_at (mem s) c) as (? & ? & _) by by eapply Hk.
  assert (∀ x y, x ∈ a :: L -> y ∈ a :: L -> x = y ∨ x + 24 <= y ∨ y + 24 <= x) as Hsep'.
  { intros x y [->|Hx]%elem_of_cons [->|Hy]%elem_of_cons; [by left|pose proof (Hap _ Hy); lia|pose proof (Hap _ Hx); lia|].
    by apply Hsep. }
  assert (NoDup (a :: L)) as Hnd'.
  { apply NoDup_cons. split; [|done]. intros Hx. pose proof (Hap _ Hx). lia. }
  eapply heap_links; try done.
  - intros x Hx. simpl in Hx.
    destruct (decide (x = a + 8 ∨ x = a + 16)) as [Hxa|Hxa]; [exists a, z; auto|].
    destruct (decide (hd 0 L ≠ 0 ∧ x = hd 0 L + 8)) as [[H0 ->]|Hn].
    { destruct (hd_0_in L) as [?|Hl]; [done|].
      destruct (heap_bin_in _ _ _ _ _ _ H Hi' Hl) as (_ & w & ? & ?). eauto 10. }
    exfalso. apply Hx. unfold m2, m1.
    destruct (Z.eqb_spec (hd 0 L) 0); rewrite !word_at_insert_ne by tauto || lia; done.
  - split; [done|]. apply dseg_link; try done. constructor; [lia|done].
  - intros j Hj _. apply Hbmj, Hj.
  - intros y. rewrite elem_of_cons. unfold L. rewrite (hp_free _ _ _ _ H i y Hi'). split.
    + intros [->|[_ ?]]; [|done]. split; [done|]. eauto.
    + intros (_ & w & Hw & Hbw). destruct (decide (y = a)) as [|Hne]; [by left|right].
      split; [congruence|eauto].
  - intros y w Hw Hne. split; [|done]. intros [= ->]. exfalso. apply Hne.
    by destruct (contig_unique _ _ _ _ _ _ _ _ (hp_contig _ _ _ _ H) Hw Hin) as [-> _].
Qed.

(** ** Freeing *)

Lemma gets_ok {A} (f : CMemHead -> A) s : gets f s = Some (f (m_pstHead s), s).
Proof. done. Qed.
Lemma put_head_ok f s : put_head f s = Some (tt, set_m_pstHead (f (m_pstHead s)) s).
Proof. done. Qed.
Lemma AT_TOP_ok p z s : AT_TOP p z s = Some (p + z =? m_hTop (m_pstHead s), s).
Proof. done. Qed.

Lemma heap_top_iff s l p z u r B X :
  heap s (l ++ (p, z, u) :: r) B X -> p + z = m_hTop (m_pstHead s) <-> r = [].
Proof.
  intros H. destruct (contig_mid _ _ _ _ _ _ _ (hp_contig _ _ _ _ H)) as (_ & _ & _ & Hr).
  destruct r as [|[[c y] v] r]; simpl in Hr; [done|]. destruct Hr as (-> & ? & _ & Hr%contig_le).
  split; [mlia|done].
Qed.

Lemma CheckInuseChunk_run s l p z r B X :
  heap s (l ++ (p, z, true) :: r) B X -> K < p -> K = 0 ∨ lus true l = true ->
  CheckInuseChunk p s = Some (0, s).
Proof.
  intros H HK HK0. destruct (heap_hdr _ _ _ _ _ _ _ _ H HK) as [(qp & Hp & Hqp) (qn & Hn & _)].
  unfold CheckInuseChunk. mstep (CHUNK_SIZE_hdr _ _ _ _ _ Hp).
  unfold inuse_bit_at_offset. mstep (prev_inuse_hdr _ _ _ _ _ Hn). cbn [negb].
  mstep (prev_inuse_hdr _ _ _ _ _ Hp).
  assert ((if lus true l then mret false else bad_pre_chunk p) s = Some (false, s)) as Hpre.
  { destruct l as [|[[q y] v] l _] using rev_ind; [done|]. rewrite lus_snoc in *. rewrite lsz_snoc in *.
    destruct v; [done|]. destruct HK0 as [HK0|]; [|done]. rewrite <- app_assoc in H. rewrite Hqp in Hp by done.
    pose proof (heap_mid_in _ _ _ _ _ _ _ _ H).
    destruct (heap_hdr _ _ _ _ _ _ _ _ H) as [(qq & Hq & _) _]; [lia|].
    destruct (contig_mid _ _ _ _ _ _ _ (hp_contig _ _ _ _ H)) as (_ & _ & _ & (-> & _)).
    unfold bad_pre_chunk. mstep (m_tPreSize_hdr _ _ _ _ _ Hp). replace (q + y - y) with q by lia.
    mstep (Ptr2Handle_ok s q ltac:(mlia)). mstep (gets_ok m_hBottom s). zif.
    mstep (CHUNK_SIZE_hdr _ _ _ _ _ Hq). by rewrite Z.eqb_refl. }
  mstep Hpre. mstep (CHUNK_SIZE_hdr _ _ _ _ _ Hp). mstep (AT_TOP_ok (p + z) 0 s).
  rewrite Z.add_0_r. pose proof (heap_top_iff _ _ _ _ _ _ _ _ H) as Ht.
  destruct (Z.eqb_spec (p + z) (m_hTop (m_pstHead s))) as [|Hne]; [done|]. cbn [negb].
  mstep (CHUNK_SIZE_hdr _ _ _ _ _ Hn).
  destruct r as [|[[c y] v] r]; [by destruct Hne; apply Ht|]. change (nsz ((c, y, v) :: r)) with y.
  destruct (contig_mid _ _ _ _ _ _ _ (hp_contig _ _ _ _ H)) as (_ & _ & _ & (_ & ? & _)).
  zif. done.
Qed.

Lemma CAN_COMBILE_ok s l c z u d y v r B X :
  heap s (l ++ (c, z, u) :: (d, y, v) :: r) B X ->
  d = c + z ∧ CAN_COMBILE y z = true ∧ CAN_COMBILE z y = true ∧ u32 (z + y) = z + y.
Proof.
  intros H. pose proof (heap_mid_in _ _ _ _ _ _ _ _ H). pose proof (hp_top _ _ _ _ H).
  destruct (contig_mid _ _ _ _ _ _ _ (hp_contig _ _ _ _ H)) as (_ & _ & _ & (-> & ? & _ & Hle%contig_le)).
  unfold CAN_COMBILE, MAX_ALLOC_SIZE in *. split_and!; [done|apply Z.leb_le; mlia..|].
  apply uwrap_small. mlia.
Qed.

Lemma merge_prev_run s l p z r B :
  heap s (l ++ (p, z, true) :: r) B None -> K < p -> K = 0 ∨ lus true l = true ->
  runs (merge_prev p z) s (λ '(q, y) s', ∃ l' B',
    heap s' (l' ++ (q, y, true) :: r) B' None ∧ keep (l ++ r) s s' ∧ cfg s' = cfg s ∧
    ((lus true l = true ∧ l' = l ∧ q = p ∧ y = z) ∨ K = 0 ∧ ∃ w, l = l' ++ [(q, w, false)] ∧ y = w + z)).
Proof.
  intros H HK HK0. destruct (heap_hdr _ _ _ _ _ _ _ _ H HK) as [(qp & Hp & Hqp) _]. unfold merge_prev.
  eapply runs_step; [apply (prev_inuse_hdr _ _ _ _ _ Hp)|].
  eapply runs_step; [apply (m_tPreSize_hdr _ _ _ _ _ Hp)|].
  destruct l as [|[[q w] v] l _] using rev_ind.
  { apply runs_ret. exists [], B. split_and!; [done|apply keep_refl|done|by left]. }
  rewrite lus_snoc, lsz_snoc in *. destruct v; cbn [negb andb].
  { apply runs_ret. exists (l ++ [(q, w, true)]), B. split_and!; [done|apply keep_refl|done|by left]. }
  destruct HK0 as [HK0|]; [|done]. rewrite Hqp in * by done.
  assert (H' : heap s (l ++ (q, w, false) :: (p, z, true) :: r) B None) by (by rewrite <- app_assoc in H).
  destruct (CAN_COMBILE_ok _ _ _ _ _ _ _ _ _ _ _ H') as (-> & -> & _ & Hu).
  replace (q + w - w) with q by lia. rewrite (Z.add_comm z w), Hu.
  eapply (heap_unlink_free s _ B q w); [exact H'|apply elem_of_app; right; by left|].
  intros s1 B1 H1 Hk1 Hc1 Ht1. pose proof (heap_mid_in _ _ _ _ _ _ _ _ H1).
  eapply (heap_merge s1 l q w false (q + w) z true); [done|lia|done|done|].
  intros m' H2 Hk2. apply runs_ret. exists l, B1. split_and!; [done| |done|right; split; [done|by exists w]].
  eapply keep_sub; [eapply keep_trans; [|exact Hk2]|].
  - eapply keep_sub; [exact Hk1|]. intros c y. by apply (in_sides l [_; _]).
  - intros c y. rewrite !elem_of_app. intros [[?|Hx]|?]; [tauto|cases_in Hx; simplify_eq|tauto].
Qed.

Lemma coal_tail pu c z u r : coal pu ((c, z, u) :: r) -> coal u r.
Proof. by intros [_ ?]. Qed.

Lemma merge_next_run s l p z r B :
  heap s (l ++ (p, z, true) :: r) B None -> K < p -> coal true r ->
  runs (merge_next p z) s (λ o s', ∃ y u r' B',
    o = Some y ∧ heap s' (l ++ (p, y, u) :: r') B' (if u then None else Some p) ∧
    keep (l ++ r) s s' ∧ cfg s' = cfg s ∧ (r' = [] ∧ u = true ∨ coal false r') ∧
    used r' = used r ∧ (∀ c w, (c, w, true) ∈ r -> (c, w, true) ∈ r')).
Proof.
  intros H HK Hco. destruct (heap_hdr _ _ _ _ _ _ _ _ H HK) as [_ (qn & Hn & _)]. unfold merge_next.
  eapply runs_step; [apply gets_ok|]. pose proof (heap_top_iff _ _ _ _ _ _ _ _ H) as Ht.
  destruct r as [|[[c y] v] r].
  { rewrite (proj2 Ht eq_refl), Z.eqb_refl. apply runs_ret. exists z, true, [], B.
    split_and!; try done. by left. }
  destruct (Z.eqb_spec (p + z) (m_hTop (m_pstHead s))) as [He|_]; [by apply Ht in He|]. cbn [negb].
  change (nsz ((c, y, v) :: r)) with y in Hn.
  destruct (CAN_COMBILE_ok _ _ _ _ _ _ _ _ _ _ _ H) as (-> & _ & Hcc & Hu).
  eapply runs_step; [apply (CHUNK_SIZE_hdr _ _ _ _ _ Hn)|].
  assert (heap s ((l ++ [(p, z, true)]) ++ (p + z, y, v) :: r) B None) as H' by (by rewrite <- app_assoc).
  pose proof (heap_mid_in _ _ _ _ _ _ _ _ H') as Hr. zif.
  destruct (heap_hdr _ _ _ _ _ _ _ _ H') as [_ (qn2 & Hn2 & _)]; [pose proof (heap_mid_in _ _ _ _ _ _ _ _ H); mlia|].
  eapply runs_step; [apply (prev_inuse_hdr _ _ _ _ _ Hn2)|]. rewrite Hcc, Hu.
  destruct v; cbn [negb andb].
  { apply runs_ret. exists z, true, ((p + z, y, true) :: r), B.
    split_and!; try done. right. split; [by right|by apply coal_tail in Hco]. }
  destruct Hco as [_ Hco].
  eapply (heap_unlink_free s _ B (p + z) y); [exact H|apply elem_of_app; right; right; by left|].
  intros s1 B1 H1 Hk1 Hc1 Ht1. eapply (heap_merge s1 l p z true (p + z) y false); [done..|].
  intros m' H2 Hk2. apply runs_ret. exists (z + y), false, r, B1. split_and!; try done.
  - eapply keep_sub; [eapply keep_trans; [|exact Hk2]|].
    + eapply keep_sub; [exact Hk1|]. intros d w. by apply (in_sides l [_; _]).
    + intros d w. rewrite !elem_of_app. intros [?|Hx]; [tauto|cases_in Hx; simplify_eq; tauto].
  - by right.
  - intros d w Hd. by apply elem_of_cons in Hd as [?|?].
Qed.

Lemma heap_same_mem s m' cs B X :
  heap s cs B X -> (∀ a, word_at m' a = word_at (mem s) a) ->
  heap (set_mem m' s) cs B X ∧ keep cs s (set_mem m' s).
Proof.
  intros H Hs. eapply heap_write; try done.
  - intros c z Hin. by rewrite Hs.
  - intros a Ha. by destruct Ha.
  - apply H.
  - eapply hdr_ok_frame; [| |apply H]; auto.
Qed.

(** Rewriting the size of a chunk with what it holds, and setting the size that
    its successor records. *)
Lemma heap_rewrite {A} s l p y u r B X (k : M A) R :
  heap s (l ++ (p, y, u) :: r) B X -> K < p ->
  (∀ m', heap (set_mem m' s) (l ++ (p, y, u) :: r) B X ->
         keep (l ++ r) s (set_mem m' s) -> w_pre (word_at m' (p + y)) = y ->
         runs k (set_mem m' s) R) ->
  runs (set_size_at_offset p 0 y;; set_presize_at_offset p y y;; k) s R.
Proof.
  intros H HK Hk. pose proof (heap_mid_in _ _ _ _ _ _ _ _ H) as Hr.
  pose proof (hp_contig _ _ _ _ H) as Hc. pose proof (contig_mid _ _ _ _ _ _ _ Hc) as (Hcl & _ & _ & Hcr).
  destruct (heap_hdr _ _ _ _ _ _ _ _ H HK) as [(q & Hp & Hq) (q' & Hn & _)].
  rewrite <- (Z.add_0_r p) in Hp.
  eapply runs_step; [apply (set_size_hdr _ _ _ _ _ _ y Hp); [tauto|mlia]|].
  rewrite Z.add_0_r in *. set (m1 := <[p := _]> (mem s)).
  assert (Hn' : hdr_at (set_mem m1 s) (p + y) q' u (nsz r)).
  { destruct Hn as (? & Hw & ?). split_and!; try tauto; [done..|]. simpl. unfold m1.
    by rewrite word_at_insert_ne by mlia. }
  eapply runs_step; [apply (set_presize_hdr _ _ _ _ _ _ y Hn'); [tauto|mlia]|].
  set (m2 := <[p + y := hdr_word y u (nsz r)]> m1). change (runs k (set_mem m2 s) R).
  enough (heap (set_mem m2 s) (l ++ (p, y, u) :: r) B X ∧
          keep (l ++ r) s (set_mem m2 s)) as [? ?].
  { apply Hk; [done..|]. unfold m2. rewrite word_at_insert_eq. apply w_pre_mk. mlia. }
  pose proof (proj1 (hdr_split _ _ _ _ _ _ _ _ Hc) (hp_hdr _ _ _ _ H)) as (Hp1 & _ & _ & Hp2).
  assert (∀ a, word_at m2 a ≠ word_at (mem s) a -> a = p ∨ a = p + y) as Hat.
  { intros a Ha. destruct (decide (a = p ∨ a = p + y)) as [Hor|Hor]; [done|].
    destruct Ha. unfold m2, m1. by rewrite !word_at_insert_ne by tauto || lia. }
  eapply heap_write; [exact H| | |done| |done].
  - intros d w Hin. split; [by apply (in_sides l [_])|].
    eapply (tails_kept (mem s) m2 _ l p (p + y) r); [exact Hcl|exact Hcr|mlia| | |exact Hin].
    + intros x [-> | ->]%Hat; mlia.
    + unfold m2, m1. rewrite word_at_insert_ne, word_at_insert_eq by mlia. destruct Hp as (_ & -> & ? & _).
      unfold hdr_word. by rewrite !w_pre_mk.
  - intros a Ha%Hat. eapply quiet_hdr; [done|apply elem_of_app; right; by left|done].
  - rewrite (hdr_split _ _ _ _ _ _ _ _ Hc). unfold m2, m1. split_and!.
    + by rewrite !(hdr_pre_insert _ _ _ _ _ _ _ _ Hcl) by mlia.
    + intros _. exists q. rewrite word_at_insert_ne, word_at_insert_eq by mlia. split; [done|]. by destruct Hp as (_ & _ & ? & _).
    + apply hdr_is_exact; [|mlia]. by rewrite word_at_insert_eq.
    + by rewrite !(hdr_rest_insert _ _ _ _ _ _ Hcr) by mlia.
Qed.

(** Only the head's record of the largest free piece changes. *)
Lemma heap_last s cs B X v :
  heap s cs B X -> heap (set_m_pstHead (set_m_tLastFreeChunkSize v (m_pstHead s)) s) cs B X.
Proof. intros H. constructor; simpl; try apply H. Qed.

Lemma runs_when_last {A} s cs B X (b : bool) v (k : M A) R :
  heap s cs B X ->
  (∀ s', heap s' cs B X -> mem s' = mem s -> cfg s' = cfg s ->
         m_hTop (m_pstHead s') = m_hTop (m_pstHead s) -> runs k s' R) ->
  runs (when_ b (put_head (set_m_tLastFreeChunkSize v));; k) s R.
Proof.
  intros H Hk. destruct b.
  - eapply runs_step; [apply put_head_ok|]. apply Hk; try done. by apply heap_last.
  - eapply runs_step; [done|]. apply Hk; done.
Qed.

(** Changing the last chunks, all in use, and the top behind them. *)
Lemma heap_tail s s' l e e' B :
  heap s (l ++ e) B None ->
  (∀ x, x ∈ e ++ e' -> x.2 = true) ->
  cfg s' = cfg s -> m_ptBin s' = m_ptBin s ->
  m_auiBinBitMap (m_pstHead s') = m_auiBinBitMap (m_pstHead s) ->
  (∀ x z u a, (x, z, u) ∈ l -> x <= a < x + z -> word_at (mem s') a = word_at (mem s) a) ->
  contig (m_hBottom (m_pstHead s)) (l ++ e') (m_hTop (m_pstHead s')) ->
  m_hTop (m_pstHead s') + MINSIZE <= m_tSize (m_pstHead s) ->
  hdr_ok (mem s') (lsz 0 l) (lus true l) e' (m_hTop (m_pstHead s')) ->
  heap s' (l ++ e') B None.
Proof.
  intros H He Hcfg Hbin Hmap Hsame Hc' Htop Hh.
  assert (∀ a z, (a, z, false) ∈ l ++ e <-> (a, z, false) ∈ l) as Hle.
  { intros a z. rewrite elem_of_app. split; [|by left]. intros [?|Hin]; [done|].
    by specialize (He _ (proj2 (elem_of_app _ _ _) (or_introl Hin))). }
  assert (∀ a z, (a, z, false) ∈ l ++ e' <-> (a, z, false) ∈ l) as Hle'.
  { intros a z. rewrite elem_of_app. split; [|by left]. intros [?|Hin]; [done|].
    by specialize (He _ (proj2 (elem_of_app _ _ _) (or_intror Hin))). }
  destruct (cfg_sizes _ _ Hcfg) as [Hb Hs]. pose proof (hp_hdr _ _ _ _ H) as Hh0.
  apply hdr_ok_app in Hh0 as [Hp _].
  constructor; rewrite ?Hb, ?Hs, ?Hbin, ?Hmap; try apply H; try done.
  - pose proof (hp_top _ _ _ _ H). lia.
  - apply hdr_ok_app. split; [|done]. eapply hdr_pre_frame; [|exact Hp].
    pose proof (hp_contig _ _ _ _ H) as Hc. apply contig_app in Hc as (b & Hc & _).
    intros c z u Hin. pose proof (contig_in _ _ _ _ _ _ Hc Hin). eapply Hsame; [done|mlia].
  - intros i Hi. destruct (hp_bins _ _ _ _ H i Hi) as [Hbi Hd]. split; [by rewrite Hbin|].
    eapply dseg_frame; [|done]. intros x Hx.
    destruct (heap_bin_in _ _ _ _ _ _ H Hi Hx) as (_ & z & Hz & _). pose proof (heap_in _ _ _ _ _ _ _ H Hz).
    apply Hle in Hz. split; eapply Hsame; eauto; mlia.
  - intros i a Hi. rewrite (hp_free _ _ _ _ H i a Hi).
    split; intros (? & z & Hz & ?); (split; [done|]); exists z; (split; [|done]).
    + apply Hle', Hle, Hz.
    + apply Hle, Hle', Hz.
Qed.

(** The last chunk, in use, goes back to the top. *)
Lemma heap_lower_top {A} s l p y B (k : M A) R :
  heap s (l ++ [(p, y, true)]) B None -> K < p -> lus true l = true ->
  (∀ s', heap s' l B None -> keep l s s' -> cfg s' = cfg s -> m_hTop (m_pstHead s') = p -> runs k s' R) ->
  runs (put_head (set_m_hTop p);; put (set_statMemoryTop p);; set_tSize p PREV_INUSE;; k) s R.
Proof.
  intros H HK Hl Hk. pose proof (heap_mid_in _ _ _ _ _ _ _ _ H) as Hr.
  destruct (heap_hdr _ _ _ _ _ _ _ _ H HK) as [(q & Hp & _) _].
  pose proof (hp_contig _ _ _ _ H) as Hc. destruct (contig_mid _ _ _ _ _ _ _ Hc) as (Hcl & _ & _ & Ht).
  simpl in Ht. eapply runs_step; [apply put_head_ok|]. set (s1 := set_m_pstHead _ s).
  eapply (runs_step _ _ _ tt (set_statMemoryTop p s1)); [done|].
  set (s2 := set_statMemoryTop p s1).
  assert (Hp2 : hdr_at s2 p q (lus true l) y) by (destruct Hp; done).
  eapply runs_step; [apply (set_tSize_hdr _ _ _ _ _ Hp2 0 true); done|].
  set (m' := <[p := _]> _). change (mem s2) with (mem s) in m'. set (s3 := set_mem m' s2).
  enough (heap s3 l B None ∧ keep l s s3) as [? ?] by by apply Hk.
  pose proof (proj1 (hdr_split _ _ _ _ _ _ _ _ Hc) (hp_hdr _ _ _ _ H)) as (Hp1 & _).
  assert (∀ x z u a, (x, z, u) ∈ l -> x <= a < x + z -> word_at m' a = word_at (mem s) a) as Hsame.
  { intros x z u a Hx Ha. pose proof (contig_in _ _ _ _ _ _ Hcl Hx). unfold m'. by rewrite word_at_insert_ne by lia. }
  split.
  2: { intros c z Hin. split; [intros a ?; simpl; eapply Hsame; eauto; lia|]. simpl. unfold m'.
       rewrite word_at_insert. destruct (Z.eqb_spec p (c + z)) as [<-|]; [|done].
       destruct Hp as (_ & -> & ? & _). unfold hdr_word. by rewrite !w_pre_mk. }
  rewrite <- (app_nil_r l). eapply heap_tail; [exact H|..]; try done.
  - intros x Hx. simpl in Hx. cases_in Hx; by subst.
  - by rewrite app_nil_r.
  - simpl. mlia.
  - simpl. intros _. exists q. unfold m'. rewrite word_at_insert_eq. rewrite Hl. by destruct Hp as (_ & _ & ? & _).
Qed.

Lemma used_app l r : used (l ++ r) = used l ++ used r.
Proof. apply omap_app. Qed.

Lemma coal_app pu l r : coal pu (l ++ r) <-> coalp pu l ∧ coal (lus pu l) r.
Proof.
  revert pu. induction l as [|[[c z] u] l IH]; intros pu; cbn [app coal coalp].
  - unfold lus. simpl. tauto.
  - rewrite IH, lus_cons. tauto.
Qed.
Lemma coalp_app pu l r : coalp pu (l ++ r) <-> coalp pu l ∧ coalp (lus pu l) r.
Proof.
  revert pu. induction l as [|[[c z] u] l IH]; intros pu; cbn [app coalp].
  - unfold lus. simpl. tauto.
  - rewrite IH, lus_cons. tauto.
Qed.

Lemma free_merged_run s l p y u r B :
  heap s (l ++ (p, y, u) :: r) B (if u then None else Some p) -> K < p -> lus true l = true ->
  (r = [] ∧ u = true ∨ coal false r) ->
  runs (free_merged p y) s (λ x s', ∃ B', x = 0 ∧
    heap s' (match r with [] => l | _ => l ++ (p, y, false) :: r end) B' None ∧ keep (l ++ r) s s' ∧ cfg s' = cfg s).
Proof.
  intros H HK Hl Hr. unfold free_merged.
  eapply heap_rewrite; [exact H|done|]. intros m1 H1 Hk1 Hw1.
  eapply heap_set_inuse; [exact H1|done|]. intros m2 H2 Hk2 Hw2. simpl in Hw2. rewrite Hw1 in Hw2.
  set (s2 := set_mem m2 _) in *. assert (cfg s2 = cfg s) as Hc by done.
  assert (keep (l ++ r) s s2) as Hk.
  { eapply keep_trans; [exact Hk1|eapply keep_mid; exact Hk2]. }
  eapply runs_step; [apply gets_ok|].
  eapply runs_when_last; [exact H2|]. intros s3 H3 Hm3 Hc3 Ht3.
  pose proof (keep_mem (l ++ r) _ _ Hm3) as Hk3. change m2 with (mem s2) in Hw2. rewrite <- Hm3 in Hw2.
  eapply runs_step; [apply gets_ok|]. pose proof (heap_top_iff _ _ _ _ _ _ _ _ H3) as Ht.
  assert (keep (l ++ r) s s3) as Hk' by (by eapply keep_trans).
  destruct (Z.eqb_spec (p + y) (m_hTop (m_pstHead s3))) as [He|Hne].
  - pose proof (proj1 Ht He) as ->. rewrite <- He. replace (p + y - y) with p by lia.
    eapply heap_lower_top; [exact H3|done|done|]. intros s4 H4 Hk4 Hc4 Ht4.
    do 3 (eapply runs_step; [apply gets_ok|]).
    eapply runs_when_last; [exact H4|]. intros s5 H5 Hm5 Hc5 Ht5.
    pose proof (keep_mem l _ _ Hm5) as Hk5. apply runs_ret. exists B. split_and!; [done..| |congruence].
    rewrite app_nil_r in *. eapply keep_trans; [exact Hk'|]. by eapply keep_trans.
  - destruct r as [|x r]; [by destruct Hne; apply Ht|].
    eapply heap_clear_inuse; [exact H3|done|done|]. intros m4 H4 Hk4.
    pose proof (heap_mid_in _ _ _ _ _ _ _ _ H4) as Hrg.
    eapply runs_step; [apply Ptr2Handle_ok; mlia|].
    eapply heap_link; [exact H4|apply elem_of_app; right; by left|]. intros s5 B5 H5 Hk5 Hc5 Ht5.
    apply runs_ret. exists B5. split_and!; [done..| |by rewrite Hc5, <- Hc, <- Hc3].
    eapply keep_trans; [exact Hk'|]. eapply keep_trans; eapply keep_mid; [exact Hk4|exact Hk5].
Qed.

(** Freeing a chunk in use: the result of every test of [InterFree], the
    merges, and the heap that comes out. *)
Lemma InterFree_run s l p z r B :
  heap s (l ++ (p, z, true) :: r) B None -> coal true (l ++ (p, z, true) :: r) ->
  K < p -> K = 0 ∨ lus true l = true ->
  runs (InterFree (chunk2mem p)) s (λ x s', x = (0, z) ∧ ∃ cs' B',
    heap s' cs' B' None ∧ (lus true l = true -> ∃ r', cs' = l ++ r') ∧ coal true cs' ∧ used cs' = used (l ++ r) ∧
    (∀ c w, (c, w, true) ∈ l ++ r -> (c, w, true) ∈ cs') ∧ keep (l ++ r) s s' ∧ cfg s' = cfg s).
Proof.
  intros H Hco HK HK0. pose proof (heap_mid_in _ _ _ _ _ _ _ _ H) as Hr.
  destruct (heap_hdr _ _ _ _ _ _ _ _ H HK) as [(qp & Hp & _) (qn & Hn & _)].
  apply coal_app in Hco as [Hcl [_ Hcr]]. pose proof (eq_refl : MINSIZE = 24) as HM.
  unfold InterFree, mem2chunk, chunk2mem. replace (p + 8 - 8) with p by lia.
  change INVALID_HANDLE with 0. eapply runs_step; [apply gets_ok|]. do 2 zif. clear H0.
  eapply runs_step; [apply (CHUNK_SIZE_hdr _ _ _ _ _ Hp)|].
  eapply runs_step; [apply Ptr2Handle_ok; mlia|]. zif. clear H0.
  eapply runs_step; [apply (prev_inuse_hdr _ _ _ _ _ Hn)|]. cbn [negb].
  replace (misaligned_chunk p) with false.
  2: { unfold misaligned_chunk, MALLOC_ALIGN_MASK. change 7 with (Z.ones 3). rewrite Z.land_ones by lia.
       change (2 ^ 3) with 8. destruct Hr as (_ & _ & _ & _ & -> & _). done. }
  eapply runs_step; [by eapply CheckInuseChunk_run|]. rewrite Z.eqb_refl. cbn [negb].
  eapply runs_bind; [by eapply merge_prev_run|].
  intros [q y] s1 (l' & B1 & H1 & Hk1 & Hc1 & Hl'). cbv beta.
  assert (coalp true l' ∧ lus true l' = true ∧ used l' = used l ∧
          K < q ∧ (lus true l = true -> l' = l) ∧
          ∀ c w, (c, w, true) ∈ l -> (c, w, true) ∈ l') as (Hcl' & Hll' & Hul & HKq & Hlus & Hsub).
  { destruct Hl' as [(? & -> & -> & _)|(HK1 & w & -> & _)]; [done|].
    pose proof (heap_mid_in _ _ _ _ _ _ _ _ H1).
    apply coalp_app in Hcl as [? [[Hc|?] _]]; [|done]. split_and!; [done..| |lia|by rewrite lus_snoc|].
    - rewrite used_app. simpl. by rewrite app_nil_r.
    - intros c v [?|Hx]%elem_of_app; [done|]. cases_in Hx. simplify_eq. }
  eapply runs_bind; [by eapply merge_next_run|].
  intros o s2 (y' & u & r' & B2 & -> & H2 & Hk2 & Hc2 & Hr' & Hur & Hsub').
  eapply runs_bind; [by eapply free_merged_run|].
  intros x s3 (B3 & -> & H3 & Hk3 & Hc3). apply runs_ret. split; [done|].
  assert (keep (l ++ r) s s3) as Hk.
  { eapply keep_trans; [exact Hk1|]. eapply keep_trans.
    - eapply keep_sub; [exact Hk2|]. intros c w. rewrite !elem_of_app. intros [?|?]; auto.
    - eapply keep_sub; [exact Hk3|]. intros c w. rewrite !elem_of_app. intros [?|?]; auto. }
  eexists _, B3. split; [exact H3|]. split_and!; [|  |rewrite used_app, <- Hul, <- Hur| |done|congruence].
  - intros <-%Hlus. destruct r' as [|x r']; [exists []; by rewrite app_nil_r|by eexists].
  - destruct r' as [|x r']; [rewrite <- (app_nil_r l'); by apply coal_app|].
    apply coal_app. rewrite Hll'. destruct Hr' as [[? _]|Hr']; [done|]. split; [done|]. split; [by left|done].
  - destruct r' as [|x r']; [by rewrite app_nil_r|]. by rewrite used_app.
  - intros c w [Hx%Hsub|Hx%Hsub']%elem_of_app; destruct r' as [|x r']; try done.
    + apply elem_of_app. by left.
    + by apply elem_of_nil in Hx.
    + apply elem_of_app. right. by right.
Qed.

Lemma used_cons c z u cs : used ((c, z, u) :: cs) = if u then (c, z) :: used cs else used cs.
Proof. by destruct u. Qed.

Lemma elem_of_used cs c z : (c, z) ∈ used cs <-> (c, z, true) ∈ cs.
Proof.
  unfold used. rewrite list_elem_of_omap. split.
  - intros ([[c' z'] [|]] & ? & ?); simplify_eq/=. done.
  - intros ?. by exists (c, z, true).
Qed.

Lemma keep_unchanged cs s s' : keep cs s s' <-> unchanged (used cs) s s'.
Proof. split; intros H c z Hin; apply H; by apply elem_of_used. Qed.

Lemma sum_sizes_app l r : sum_sizes (l ++ r) = sum_sizes l + sum_sizes r.
Proof. induction l as [|[c z] l IH]; simpl; [done|]. rewrite IH. lia. Qed.

Lemma used_bounds a cs top :
  contig a cs top -> MINSIZE * Z.of_nat (length (used cs)) <= sum_sizes (used cs) <= top - a.
Proof.
  revert a. induction cs as [|[[c z] u] cs IH]; intros a; [simpl; lia|].
  intros (-> & ? & _ & Hc%IH).
  rewrite used_cons. destruct u; simpl; mlia.
Qed.

Lemma cfg_acct s s' bs : cfg s' = cfg s -> acct s bs -> acct s' bs.
Proof.
  intros H [H1 H2 H3 H4 H5 H6].
  pose proof (f_equal (λ x, m_tUserAllocSize x.1.1) H) as E1.
  pose proof (f_equal (λ x, m_tUserAllocChunkCnt x.1.1) H) as E2.
  pose proof (f_equal (λ x, m_hBottom x.1.1) H) as E3.
  pose proof (f_equal (λ x, x.1.2.1.2) H) as E4. pose proof (f_equal (λ x, x.1.2.2) H) as E5.
  pose proof (f_equal (λ x, x.2.1.1.2) H) as E6. pose proof (f_equal (λ x, x.2.2) H) as E7.
  unfold cfg in *. simpl in *. constructor; rewrite ?E1, ?E2, ?E3, ?E4, ?E5, ?E6, ?E7; assumption.
Qed.

(** The accounting fields of the head and the counters after a change of them. *)
Lemma heap_account s cs B X n c t d :
  heap s cs B X ->
  heap (set_statDataSize d (set_statChunkTotal t
         (set_m_pstHead (set_m_tUserAllocChunkCnt c (set_m_tUserAllocSize n (m_pstHead s))) s))) cs B X.
Proof. intros H. constructor; simpl; apply H. Qed.

Lemma s64_small x : 0 <= x < 2 ^ 32 -> s64 x = x.
Proof. intros. apply swrap_small; lia. Qed.
Lemma u64_small x : 0 <= x < 2 ^ 34 -> u64 x = x.
Proof. intros. apply uwrap_small. lia. Qed.

Lemma contig_bounds s cs B X bs :
  heap s cs B X -> used cs = bs ->
  MINSIZE * Z.of_nat (length bs) <= sum_sizes bs ∧
  m_hBottom (m_pstHead s) + sum_sizes bs <= 2 ^ 32 - 32 ∧ 0 < m_hBottom (m_pstHead s).
Proof.
  intros H <-. pose proof (used_bounds _ _ _ (hp_contig _ _ _ _ H)). pose proof (hp_top _ _ _ _ H).
  pose proof (hp_bottom _ _ _ _ H). unfold MAX_ALLOC_SIZE in *. mlia.
Qed.

Lemma used_split cs L1 p z L2 :
  used cs = L1 ++ (p, z) :: L2 ->
  ∃ l r, cs = l ++ (p, z, true) :: r ∧ used l = L1 ∧ used r = L2.
Proof.
  revert L1. induction cs as [|[[c y] u] cs IH]; intros L1.
  { intros H. by destruct L1. }
  rewrite used_cons. destruct u; intros H.
  - destruct L1 as [|b L1]; simplify_eq/=; [by exists [], cs|].
    destruct (IH L1) as (l & r & -> & <- & <-); [done|]. by exists ((c, y, true) :: l), r.
  - destruct (IH L1 H) as (l & r & -> & <- & <-). by exists ((c, y, false) :: l), r.
Qed.

End heap.

(** The state of an allocator whose client holds the blocks [bs]. *)
Definition holds (s : CBinMalloc) (bs : list (Z * Z)) : Prop :=
  ∃ cs B, heap (K:=0) s cs B None ∧ coal true cs ∧ used cs = bs ∧ acct s bs.

Lemma Free_run s L1 p z L2 :
  holds s (L1 ++ (p, z) :: L2) ->
  runs (Free (chunk2mem p)) s (λ x s', x = 0 ∧ holds s' (L1 ++ L2) ∧ unchanged (L1 ++ L2) s s').
Proof.
  intros (cs & B & H & Hco & Hu & Ha).
  destruct (used_split _ _ _ _ _ Hu) as (l & r & -> & Hl & Hr).
  pose proof (contig_bounds _ _ _ _ _ H Hu) as (Hb1 & Hb2 & Hb3).
  pose proof (heap_mid_in _ _ _ _ _ _ _ _ H) as Hrg.
  unfold Free. eapply runs_bind; [eapply InterFree_run; [done|done|lia|by left]|].
  intros [x sz] s1 ([= -> ->] & cs' & B1 & H1 & _ & Hco1 & Hu1 & _ & Hk1 & Hc1). cbn [Z.eqb when_].
  assert (used (l ++ r) = L1 ++ L2) as Hlr by (by rewrite used_app, Hl, Hr).
  pose proof (contig_bounds _ _ _ _ _ H1 (eq_trans Hu1 Hlr)) as (Hb4 & _ & _).
  pose proof (contig_in _ _ _ p z true (hp_contig _ _ _ _ H) ltac:(apply elem_of_app; right; by left)).
  destruct (cfg_acct _ _ _ Hc1 Ha) as [Ha1 Ha2 Ha3 Ha4 Ha5 Ha6].
  destruct (cfg_sizes _ _ Hc1) as [Hbot _]. rewrite Hbot in Ha1.
  rewrite sum_sizes_app, !length_app in *. cbn [sum_sizes foldr length snd] in *.
  fold (sum_sizes L2) in *.
  set (n := u64 (m_tUserAllocSize (m_pstHead s1) - z)).
  pose proof (heap_account s1 cs' B1 None n (u64 (m_tUserAllocChunkCnt (m_pstHead s1) - 1))
                (s64 (statChunkTotal s1 - 1)) (s64 n) H1) as H2.
  set (s2 := set_statDataSize _ _) in H2.
  eapply (runs_step _ _ _ tt s2); [reflexivity|].
  rewrite Hlr in *. apply runs_ret. split; [done|]. split.
  - exists cs', B1. split; [exact H2|]. split_and!; [done..|].
    assert (n = m_hBottom (m_pstHead s) + (sum_sizes L1 + sum_sizes L2)) as Hn.
    { unfold n. rewrite Ha1, u64_small; mlia. }
    constructor; simpl; rewrite ?sum_sizes_app, ?length_app; fold n.
    + by rewrite Hbot.
    + rewrite Ha2, u64_small; mlia.
    + rewrite Ha3, s64_small; mlia.
    + rewrite s64_small; mlia.
    + done.
    + done.
  - rewrite <- Hlr. apply keep_unchanged. exact Hk1.
Qed.
