(* ===== verification/BinAlloc.v ===== *)
(** * BinAlloc: allocating keeps the heap

    On top of [BinHeap]'s invariant: the search of the bins by [InterMalloc]
    of [src/cache/bin_malloc.cc], the split of the chunk it finds, and the cut
    from the top when there is none. *)

From stdpp Require Import gmap.
From S2P Require Import Prelude State BinMalloc BinHeap.

(** No header is exempt here. *)
Abbreviation heap := (BinHeap.heap (K:=0)).
Abbreviation hdr_is := (BinHeap.hdr_is (K:=0)).
Abbreviation hdr_pre := (BinHeap.hdr_pre (K:=0)).

Lemma heap_hdr0 s l c z u r B X :
  heap s (l ++ (c, z, u) :: r) B X ->
  (∃ q, hdr_at s c q (lus true l) z ∧ (lus true l = false -> q = lsz 0 l)) ∧
  (∃ q, hdr_at s (c + z) q u (nsz r) ∧ (u = false -> q = z)).
Proof. intros H. pose proof (heap_mid_in _ _ _ _ _ _ _ _ H). eapply heap_hdr; [done|lia]. Qed.

(** ** Sizes *)

Ltac shifts :=
  rewrite !Z.shiftr_div_pow2 by lia;
  change (2 ^ 3) with 8; change (2 ^ 6) with 64; change (2 ^ 9) with 512;
  change (2 ^ 12) with 4096; change (2 ^ 15) with 32768; change (2 ^ 18) with 262144.

Lemma bin_index_large a : 512 <= a -> bin_index a = largebin_index a.
Proof. intros. unfold bin_index, in_smallbin_range, MIN_LARGE_SIZE. zif; done. Qed.
Lemma bin_index_small a : a < 512 -> bin_index a = a / 8.
Proof.
  intros. unfold bin_index, in_smallbin_range, MIN_LARGE_SIZE, smallbin_index. shifts. zif; done.
Qed.

Lemma largebin_mono a b : 0 <= a <= b -> largebin_index a <= largebin_index b.
Proof.
  intros H. unfold largebin_index. shifts.
  pose proof (Z.div_le_mono a b 64 ltac:(lia) ltac:(lia)).
  pose proof (Z.div_le_mono a b 512 ltac:(lia) ltac:(lia)).
  pose proof (Z.div_le_mono a b 4096 ltac:(lia) ltac:(lia)).
  pose proof (Z.div_le_mono a b 32768 ltac:(lia) ltac:(lia)).
  pose proof (Z.div_le_mono a b 262144 ltac:(lia) ltac:(lia)).
  zifs; Z.div_mod_to_equations; lia.
Qed.

Lemma largebin_low a : 512 <= a -> 64 <= largebin_index a.
Proof. intros. change 64 with (largebin_index 512). by apply largebin_mono. Qed.

Lemma bin_index_mono a b : 0 <= a <= b -> bin_index a <= bin_index b.
Proof.
  intros H. destruct (decide (b < 512)).
  - rewrite !bin_index_small by lia. Z.div_mod_to_equations; lia.
  - rewrite (bin_index_large b) by lia. destruct (decide (a < 512)).
    + rewrite bin_index_small by lia. pose proof (largebin_low b ltac:(lia)).
      Z.div_mod_to_equations; lia.
    + rewrite bin_index_large by lia. by apply largebin_mono.
Qed.

(** A bin above the one of [b] holds only bigger chunks. *)
Lemma bin_index_lt a b : 0 <= a -> 0 <= b -> bin_index a < bin_index b -> a < b.
Proof. intros ?? H. destruct (Z.lt_ge_cases a b) as [|Hge]; [done|]. pose proof (bin_index_mono b a). lia. Qed.

(** A small bin holds chunks of one size. *)
Lemma bin_index_small_inj a b :
  a < 512 -> a mod 8 = 0 -> b mod 8 = 0 -> 0 <= a -> 0 <= b -> bin_index a = bin_index b -> a = b.
Proof.
  intros Ha Ha8 Hb8 ?? H. rewrite (bin_index_small a) in H by done.
  destruct (decide (b < 512)).
  - rewrite bin_index_small in H by done. Z.div_mod_to_equations; lia.
  - rewrite bin_index_large in H by lia. pose proof (largebin_low b ltac:(lia)).
    Z.div_mod_to_equations; lia.
Qed.

Lemma request2size_spec req :
  0 <= req -> REQUEST_OUT_OF_RANGE req = false ->
  let t := request2size req in
  req + 8 <= t < 2 ^ 32 - 8 ∧ MINSIZE <= t ∧ t mod 8 = 0 ∧ (t = MINSIZE ∨ t < req + 16).
Proof.
  unfold REQUEST_OUT_OF_RANGE, request2size, MALLOC_ALIGN_MASK, MINSIZE.
  change (u32 (-2 * 24)) with (2 ^ 32 - 48). intros Hr Ho. apply Z.leb_gt in Ho.
  pose proof (REAL_SIZE_div (req + 8 + 7)) as HR. unfold REAL_SIZE, SIZE_BITS in HR.
  rewrite HR. zif; rewrite ?uwrap_small; Z.div_mod_to_equations; lia.
Qed.

(** The value of [GetMinChunkSize], a function of the configuration. *)
Definition min_size (s : CBinMalloc) : Z :=
  if minChunkSize s =? 1 then
    if statChunkTotal s <=? 0 then MINSIZE else u32 (Z.quot (statDataSize s) (statChunkTotal s))
  else minChunkSize s.

Lemma GetMinChunkSize_run s : GetMinChunkSize s = Some (min_size s, s).
Proof. unfold GetMinChunkSize, min_size, mbind, ST_bind, get. simpl. by destruct (minChunkSize s =? 1). Qed.

Lemma min_size_cfg s s' : cfg s' = cfg s -> min_size s' = min_size s.
Proof.
  intros H. unfold min_size.
  pose proof (f_equal (λ x, x.2.2) H) as E1. pose proof (f_equal (λ x, x.1.2.1.2) H) as E2.
  pose proof (f_equal (λ x, x.1.2.2) H) as E3. unfold cfg in *. simpl in *. by rewrite E1, E2, E3.
Qed.

Lemma min_size_ok s bs :
  acct s bs -> 0 < m_hBottom (m_pstHead s) ->
  m_hBottom (m_pstHead s) + sum_sizes bs <= 2 ^ 32 - 32 ->
  MINSIZE * Z.of_nat (length bs) <= sum_sizes bs -> MINSIZE <= min_size s.
Proof.
  intros [H1 H2 H3 H4 H5 H6] Hb Hs Hn. unfold min_size.
  destruct (Z.eqb_spec (minChunkSize s) 1) as [He|]; [|lia].
  destruct (Z.leb_spec (statChunkTotal s) 0) as [|Hc]; [lia|].
  rewrite H3, H4, H1 in *. rewrite Z.quot_div_nonneg by mlia.
  assert (0 < m_hBottom (m_pstHead s) + sum_sizes bs) as HS by mlia.
  assert (MINSIZE * Z.of_nat (length bs) <= m_hBottom (m_pstHead s) + sum_sizes bs) as HN by mlia.
  revert Hc Hs HS HN. generalize (Z.of_nat (length bs)), (m_hBottom (m_pstHead s) + sum_sizes bs).
  intros N S HN1 Hs HS HN.
  assert (MINSIZE <= S / N) by (apply Z.div_le_lower_bound; mlia).
  assert (S / N <= S) by (apply Z.div_le_upper_bound; [lia|nia]).
  rewrite uwrap_small; mlia.
Qed.

(** ** Writing headers over old contents *)

Lemma set_tPreSize_raw s c v :
  seg s c -> 0 <= v < 2 ^ 32 ->
  set_tPreSize c v s = Some (tt, set_mem (<[c := mk_word v (w_size (word_at (mem s) c))]> (mem s)) s).
Proof. intros Hs Hv. unfold set_tPreSize. mstep (ld_ok s c Hs). rewrite st_ok by done. by rewrite uwrap_small. Qed.
Lemma set_tSize_raw s c v :
  seg s c -> 0 <= v < 2 ^ 32 ->
  set_tSize c v s = Some (tt, set_mem (<[c := mk_word (w_pre (word_at (mem s) c)) v]> (mem s)) s).
Proof. intros Hs Hv. unfold set_tSize. mstep (ld_ok s c Hs). rewrite st_ok by done. by rewrite uwrap_small. Qed.

(** Cutting a chunk of [t] bytes from the top. *)
Lemma TopAlloc_run s cs B t :
  heap s cs B None -> coal true cs -> MINSIZE <= t < 2 ^ 32 - 8 -> t mod 8 = 0 ->
  runs (TopAlloc t) s (λ p s',
    (p = 0 ∧ s' = s ∧ m_tSize (m_pstHead s) <= m_hTop (m_pstHead s) + t + MINSIZE) ∨
    (p = chunk2mem (m_hTop (m_pstHead s)) ∧ heap s' (cs ++ [(m_hTop (m_pstHead s), t, true)]) B None ∧
     keep cs s s' ∧ cfg s' = cfg s)).
Proof.
  intros H Hco Ht Ht8. unfold TopAlloc. do 2 (eapply runs_step; [apply gets_ok|]).
  set (top := m_hTop (m_pstHead s)). set (n := m_tSize (m_pstHead s)).
  pose proof (hp_top _ _ _ _ H) as Htop. fold top n in Htop.
  pose proof (hp_contig _ _ _ _ H) as Hc. fold top in Hc.
  destruct (hp_bottom _ _ _ _ H) as [Hb1 Hb2]. pose proof (contig_le _ _ _ Hc) as Hle. fold top in Hle.
  destruct (Z.leb_spec n (top + t + MINSIZE)) as [Hfull|Hroom].
  { apply runs_ret. by left. }
  assert (top mod 8 = 0) as Htop8.
  { destruct cs as [|[[c z] u] cs' _] using rev_ind; [by simpl in Hc; rewrite <- Hc|].
    destruct (heap_mid_in _ _ _ _ _ _ _ _ H) as (_ & _ & _ & ? & ? & _).
    destruct (contig_mid _ _ _ _ _ _ _ Hc) as (_ & _ & _ & He). simpl in He. rewrite <- He.
    Z.div_mod_to_equations; lia. }
  assert (lus true cs = true) as Hlus.
  { rewrite <- (app_nil_r cs) in Hco. by apply coal_app in Hco as [_ ?]. }
  rewrite <- (app_nil_r cs) in H. pose proof (lsz_range _ _ _ _ _ H) as [Hl1 _]. rewrite app_nil_r in H.
  pose proof (hp_hdr _ _ _ _ H) as Hh. fold top in Hh.
  assert (hdr_pre (mem s) 0 true cs ∧ hdr_is (mem s) top (lsz 0 cs) true 0) as [Hpre Htw].
  { rewrite <- (app_nil_r cs) in Hh at 1. apply hdr_ok_app in Hh as [? Hh]. simpl in Hh. by rewrite Hlus in Hh. }
  destruct Htw as (q & Hw & Hq & _); [lia|].
  assert (Hat : hdr_at s top q true 0).
  { assert (seg s top) by (unfold seg; fold n; split_and!; done || mlia). split_and!; done || mlia. }
  assert (seg s (top + t)) as Hsg.
  { unfold seg; fold n. split_and!; [Z.div_mod_to_equations; lia|mlia..]. }
  eapply runs_step; [apply (m_tChunkSize_hdr _ _ _ _ _ Hat)|].
  rewrite land_bits, REAL_SIZE_id, Z.lor_comm, lor_b2z by done.
  eapply runs_step; [apply (set_tSize_hdr _ _ _ _ _ Hat t true); [done|mlia]|].
  set (m1 := <[top := _]> (mem s)). set (s1 := set_mem m1 s).
  eapply runs_step; [apply (set_tPreSize_raw s1 (top + t) t); [done|mlia]|].
  set (m2 := <[top + t := _]> (mem s1)). set (s2 := set_mem m2 s1).
  eapply runs_step; [apply (set_tSize_raw s2 (top + t) PREV_INUSE); [done|done]|].
  set (m3 := <[top + t := _]> (mem s2)). set (s3 := set_mem m3 s2).
  eapply runs_step; [apply put_head_ok|].
  set (s4 := set_m_pstHead _ s3).
  eapply (runs_step _ _ _ tt (set_statMemoryTop (top + t) s4)); [done|].
  apply runs_ret. right. split; [done|]. set (s5 := set_statMemoryTop _ s4).
  assert (∀ a, a < top -> word_at m3 a = word_at (mem s) a) as Hsame.
  { intros a Ha. unfold m3. rewrite word_at_insert_ne by mlia. simpl. unfold m2.
    rewrite word_at_insert_ne by mlia. simpl. unfold m1. by rewrite word_at_insert_ne by lia. }
  assert (∀ x z u a, (x, z, u) ∈ cs -> x <= a < x + z -> word_at m3 a = word_at (mem s) a) as Hsame'.
  { intros x z u a Hx Ha. apply Hsame. pose proof (contig_in _ _ _ _ _ _ Hc Hx). lia. }
  assert (word_at m3 top = hdr_word q true t) as Htop3.
  { unfold m3, s2, m2, s1, m1. simpl. rewrite !word_at_insert_ne by mlia. apply word_at_insert_eq. }
  assert (keep cs s s5) as Hkeep.
  { intros c z Hin. split; [intros a ?; simpl; eapply Hsame'; eauto; lia|]. simpl.
    pose proof (contig_in _ _ _ _ _ _ Hc Hin). destruct (decide (c + z = top)) as [->|]; [|by rewrite Hsame by lia].
    rewrite Htop3, Hw. unfold hdr_word. by rewrite !w_pre_mk. }
  split_and!; [|done|done].
  rewrite <- (app_nil_r cs) in H. eapply heap_tail; [exact H|..]; try done.
  - intros x Hx. simpl in Hx. cases_in Hx; by subst.
  - apply contig_mid_2; [done|lia|done|done].
  - simpl. fold n. lia.
  - simpl. split.
    + intros _. exists q. by rewrite Hlus.
    + apply hdr_is_exact; [|mlia]. unfold m3. rewrite word_at_insert_eq. simpl. unfold m2.
      rewrite word_at_insert_eq. by rewrite w_pre_mk by mlia.
Qed.

(** ** Splitting *)

Lemma coal_weaken u cs : coal u cs -> coal true cs.
Proof. destruct cs as [|[[c z] v] cs]; simpl; [by destruct u|]. intros [_ ?]. auto. Qed.

(** The header writes of a split: [p] keeps [t] bytes, both parts are in use. *)
Lemma split_headers {A} s l p z r B t (k : M A) R :
  heap s (l ++ (p, z, false) :: r) B (Some p) -> MINSIZE <= t -> MINSIZE <= z - t -> t mod 8 = 0 ->
  (∀ s', heap s' ((l ++ [(p, t, true)]) ++ (p + t, z - t, true) :: r) B None ->
         keep (l ++ (p, z, false) :: r) s s' -> cfg s' = cfg s -> runs k s' R) ->
  runs (sz ← m_tChunkSize p;
        set_tSize p (Z.lor t (Z.land sz SIZE_BITS));;
        set_tSize (p + t) (z - t);;
        set_tPreSize (p + t) t;;
        set_inuse_bit_at_offset (p + t) 0;;
        set_tPreSize (p + t + (z - t)) (z - t);;
        set_inuse_bit_at_offset (p + t) (z - t);; k) s R.
Proof.
  intros H Ht Hrem Ht8 Hk. pose proof (hp_contig _ _ _ _ H) as Hc.
  pose proof (contig_mid _ _ _ _ _ _ _ Hc) as (Hcl & Hz & Hz8 & Hcr).
  destruct (heap_hdr0 _ _ _ _ _ _ _ _ H) as [(q & Hp & Hqp) (qn & Hn & Hqn)].
  rewrite Hqn in Hn by done. pose proof (heap_mid_in _ _ _ _ _ _ _ _ H) as Hr.
  pose proof (proj1 (hdr_split _ _ _ _ _ _ _ _ Hc) (hp_hdr _ _ _ _ H)) as (Hp1 & _ & _ & Hp2).
  assert ((z - t) mod 8 = 0) as Hr8 by (Z.div_mod_to_equations; lia).
  assert (seg s (p + t)) as Hsq.
  { unfold seg. split_and!; [Z.div_mod_to_equations; lia|mlia..]. }
  eapply runs_step; [apply (m_tChunkSize_hdr _ _ _ _ _ Hp)|].
  rewrite land_bits, lor_b2z by done.
  eapply runs_step; [apply (set_tSize_hdr _ _ _ _ _ Hp t); [done|mlia]|].
  set (m1 := <[p := _]> (mem s)). set (s1 := set_mem m1 s).
  eapply runs_step; [apply (set_tSize_raw s1 (p + t)); [done|mlia]|].
  set (m2 := <[p + t := _]> (mem s1)). set (s2 := set_mem m2 s1).
  eapply runs_step; [apply (set_tPreSize_raw s2 (p + t)); [done|mlia]|].
  set (m3 := <[p + t := _]> (mem s2)). set (s3 := set_mem m3 s2).
  assert (word_at m3 (p + t) = hdr_word t false (z - t)) as Hq3.
  { unfold m3. rewrite word_at_insert_eq. simpl. unfold m2. rewrite word_at_insert_eq.
    unfold hdr_word. f_equal. simpl.
    rewrite w_size_mk by (unfold w_pre; apply Z.mod_pos_bound; lia). lia. }
  assert (hdr_at s3 (p + t + 0) t false (z - t)) as Hq.
  { rewrite Z.add_0_r. split; [done|]. split_and!; done || mlia. }
  eapply runs_step; [apply (set_inuse_hdr _ _ _ _ _ _ Hq)|]. rewrite Z.add_0_r.
  set (m4 := <[p + t := _]> (mem s3)). set (s4 := set_mem m4 s3).
  assert (hdr_at s4 (p + t + (z - t)) z false (nsz r)) as Hn4.
  { replace (p + t + (z - t)) with (p + z) by lia. destruct Hn as (? & Hw & ?). split; [done|].
    split_and!; try tauto. rewrite <- Hw. unfold s4, m4, s3, m3, s2, m2, s1, m1. simpl.
    by rewrite !word_at_insert_ne by mlia. }
  eapply runs_step; [apply (set_tPreSize_hdr _ _ _ _ _ Hn4); mlia|].
  set (m5 := <[p + t + (z - t) := _]> (mem s4)). set (s5 := set_mem m5 s4).
  assert (hdr_at s5 (p + t + (z - t)) (z - t) false (nsz r)) as Hn5.
  { destruct Hn4 as (? & Hw & ?). split; [done|]. split_and!; try tauto; try mlia.
    unfold s5, m5. simpl. by rewrite word_at_insert_eq. }
  eapply runs_step; [apply (set_inuse_hdr _ _ _ _ _ _ Hn5)|].
  set (m6 := <[p + t + (z - t) := _]> (mem s5)).
  change (set_mem m6 s5) with (set_mem m6 s).
  assert (∀ a, a ≠ p -> a ≠ p + t -> a ≠ p + z -> word_at m6 a = word_at (mem s) a) as Hsame.
  { intros a ???. unfold m6, s5, m5, s4, m4, s3, m3, s2, m2, s1, m1. simpl.
    by rewrite !word_at_insert_ne by lia. }
  assert (hdr_is m6 p (lsz 0 l) (lus true l) t) as Hwp.
  { intros _. exists q. split; [|by destruct Hp as (_ & _ & ? & _)]. unfold m6, s5, m5, s4, m4, s3, m3, s2, m2, s1, m1. simpl. rewrite !word_at_insert_ne by mlia.
    by rewrite word_at_insert_eq. }
  assert (hdr_is m6 (p + t) t true (z - t)) as Hwq.
  { apply hdr_is_exact; [|mlia]. unfold m6, s5, m5, s4, m4. simpl. rewrite !word_at_insert_ne by mlia. by rewrite word_at_insert_eq. }
  assert (hdr_is m6 (p + t + (z - t)) (z - t) true (nsz r)) as Hwn.
  { apply hdr_is_exact; [|mlia]. unfold m6. by rewrite word_at_insert_eq. }
  assert (contig (m_hBottom (m_pstHead s)) (l ++ (p, t, true) :: (p + t, z - t, true) :: r) (m_hTop (m_pstHead s))) as Hc'.
  { apply contig_mid_2; [done|done|done|]. simpl. split_and!; [done..|].
    by replace (p + t + (z - t)) with (p + z) by lia. }
  enough (heap (set_mem m6 s) (l ++ (p, t, true) :: (p + t, z - t, true) :: r) B None ∧
          keep (l ++ (p, z, false) :: r) s (set_mem m6 s)) as [Hh Hkp].
  { apply Hk; [by rewrite <- app_assoc|done|done]. }
  assert (∀ a, word_at m6 a ≠ word_at (mem s) a -> p <= a <= p + z) as Hat.
  { intros a Ha. destruct (decide (a = p)) as [->|]; [mlia|]. destruct (decide (a = p + t)) as [->|]; [mlia|].
    destruct (decide (a = p + z)) as [->|]; [mlia|]. by destruct Ha; apply Hsame. }
  assert (w_pre (word_at m6 p) = w_pre (word_at (mem s) p)) as Hpre.
  { unfold m6, s5, m5, s4, m4, s3, m3, s2, m2, s1, m1. simpl. rewrite !word_at_insert_ne by mlia.
    rewrite word_at_insert_eq. destruct Hp as (_ & -> & ? & _). unfold hdr_word. by rewrite !w_pre_mk. }
  eapply heap_write; [exact H| | |exact Hc'| |].
  - intros d w Hin. split; [done|]. eapply (tails_kept _ _ _ _ _ _ _ _ d w true Hcl Hcr); [mlia|exact Hat|exact Hpre|].
    apply elem_of_app in Hin as [?|Hin]; [apply elem_of_app; by left|]. apply elem_of_app. right.
    apply elem_of_cons in Hin as [?|?]; [simplify_eq|done].
  - intros a Ha%Hat. eapply quiet_flight; [exact Hc|apply elem_of_app; right; by left|done].
  - rewrite (hdr_split _ _ _ _ _ _ _ _ Hc'). split; [|split; [done|split; [done|]]].
    + eapply (hdr_pre_frame (mem s)); [|done]. intros c y u Hc0. pose proof (contig_in _ _ _ _ _ _ Hcl Hc0).
      apply Hsame; mlia.
    + cbn [hdr_rest].
      assert (Hcr' : contig (p + t + (z - t)) r (m_hTop (m_pstHead s))) by (by replace (p + t + (z - t)) with (p + z) by lia).
      apply (hdr_ok_head _ _ _ _ _ _ Hcr'). split; [done|].
      eapply (hdr_rest_frame (mem s)); [exact Hcr| |done]. intros a Ha. apply Hsame; mlia.
  - apply (free_swap (m_hBottom (m_pstHead s)) l [(p, z, false)] [(p, t, true); (p + t, z - t, true)] r (m_hTop (m_pstHead s))); try done.
    + intros x [= <-]. in_list.
    + intros x w Hin. cases_in Hin. by simplify_eq.
    + intros x w Hin. cases_in Hin; by simplify_eq.
Qed.

Lemma split_chunk_run s l p z r B t :
  heap s (l ++ (p, z, false) :: r) B (Some p) -> coal true (l ++ (p, z, false) :: r) ->
  MINSIZE <= min_size s -> MINSIZE <= t <= z -> t mod 8 = 0 ->
  runs (split_chunk p t (u32 (z - t))) s (λ _ s', ∃ cs' B' y,
    heap s' cs' B' None ∧ coal true cs' ∧ used cs' = used l ++ (p, y) :: used r ∧ t <= y ∧
    keep (l ++ r) s s' ∧ cfg s' = cfg s).
Proof.
  intros H Hco Hge Ht Ht8. pose proof (heap_mid_in _ _ _ _ _ _ _ _ H) as Hr.
  destruct (heap_hdr0 _ _ _ _ _ _ _ _ H) as [(qp & Hp & _) (qn & Hn & _)].
  apply coal_app in Hco as [Hcl [Hor Hcr]].
  rewrite uwrap_small by mlia. unfold split_chunk. eapply runs_step; [apply GetMinChunkSize_run|].
  destruct (Z.ltb_spec (z - t) (min_size s)).
  - eapply runs_step; [apply (CHUNK_SIZE_hdr _ _ _ _ _ Hp)|].
    assert (∀ s2, runs (mret () : M unit) s2 (λ (_ : unit) s', s' = s2)) as Hret by (intros; by apply runs_ret).
    eapply runs_mono with (Q := λ _ s', ∃ m', s' = set_mem m' s ∧ heap s' (l ++ (p, z, true) :: r) B None ∧
                                          keep (l ++ (p, z, false) :: r) s s').
    { eapply runs_eq; [by eapply set_inuse_hdr|].
      eexists. split; [done|]. destruct Hn as (_ & Hw & ? & _).
      apply (heap_retag _ _ _ _ false true _ _ _ H); [done|done|]. rewrite Hw. by apply w_pre_mk. }
    intros _ s' (m' & -> & H2 & Hk). eexists _, B, z. split; [exact H2|]. split_and!; [|by rewrite used_app|lia|by eapply keep_mid|done].
    apply coal_app. split; [done|]. split; [by right|]. by eapply coal_weaken.
  - eapply split_headers; [exact H|lia|lia|done|]. intros s1 H1 Hk1 Hc1.
    pose proof (heap_mid_in _ _ _ _ _ _ _ _ H1) as Hr1.
    eapply runs_step; [apply Ptr2Handle_ok; mlia|].
    eapply runs_bind.
    { eapply InterFree_run; [exact H1| |mlia|by left]. apply coal_app. rewrite lus_snoc. split.
      - apply coalp_app. split; [done|]. simpl. auto.
      - split; [by left|]. by eapply coal_weaken. }
    intros [x sz] s2 (_ & cs' & B' & H2 & _ & Hco2 & Hu2 & _ & Hk2 & Hc2). apply runs_ret.
    exists cs', B', t. split; [exact H2|]. split_and!; [done| |lia| |congruence].
    + rewrite Hu2, !used_app. simpl. by rewrite <- app_assoc.
    + eapply keep_trans; [by eapply keep_mid|]. eapply keep_sub; [exact Hk2|].
      intros c w. rewrite !elem_of_app. tauto.
Qed.

(** Taking a free chunk off its bin and handing it out. *)
Lemma take_chunk_run s cs B l p z r t :
  heap s cs B None -> cs = l ++ (p, z, false) :: r -> coal true cs ->
  MINSIZE <= min_size s -> MINSIZE <= t <= z -> t mod 8 = 0 ->
  runs (take_chunk (bin_index z) p t) s (λ h s', h = chunk2mem p ∧ ∃ cs' B' y,
    heap s' cs' B' None ∧ coal true cs' ∧ used cs' = used l ++ (p, y) :: used r ∧ t <= y ∧
    keep (l ++ r) s s' ∧ cfg s' = cfg s).
Proof.
  intros H Hcs Hco Hmn Ht Ht8.
  assert ((p, z, false) ∈ cs) as Hin by (rewrite Hcs; apply elem_of_app; right; by left).
  pose proof (heap_in _ _ _ _ _ _ _ H Hin) as Hr. subst cs.
  destruct (heap_hdr0 _ _ _ _ _ _ _ _ H) as [(qp & Hp & _) _]. unfold take_chunk.
  eapply runs_step; [apply (CHUNK_SIZE_hdr _ _ _ _ _ Hp)|].
  eapply runs_step; [apply Ptr2Handle_ok; mlia|].
  destruct (heap_unlink _ _ _ _ _ H Hin) as (s1 & B1 & Hrun & H1 & Hk1 & Hc1 & Ht1).
  eapply runs_step; [exact Hrun|].
  pose proof (min_size_cfg _ _ Hc1) as Hm1.
  eapply runs_bind; [eapply split_chunk_run; [exact H1|done|by rewrite Hm1|done|done]|].
  intros [] s2 (cs' & B' & y & H2 & Hco2 & Hu2 & Hy & Hk2 & Hc2).
  destruct (cfg_sizes _ _ Hc1) as [_ Hs1]. destruct (cfg_sizes _ _ Hc2) as [_ Hs2].
  eapply runs_eq; [apply Ptr2Handle_ok; unfold chunk2mem; rewrite Hs2, Hs1; mlia|].
  split; [done|]. exists cs', B', y. split; [exact H2|]. split_and!; try done; [|congruence].
  eapply keep_trans; [by eapply keep_mid|done].
Qed.

(** ** The small bins *)

(** Unlinking changes the links in memory and, whatever the rest of the memory
    holds, the same bins and bitmap. *)
Lemma unlink_clear_exec s cs B i a L1 L2 :
  heap s cs B None -> 0 <= i < NBINS -> B i = L1 ++ a :: L2 ->
  ∃ h, ∀ m, dseg m 0 (L1 ++ a :: L2) 0 ->
    UnlinkBin (Bin i) a (set_mem m s) =
      Some (0, set_mem (relink m (lst 0 L1) (hd 0 L2)) (set_m_ptBin (unlink_bins (m_ptBin s) i a L1 L2) s)) ∧
    unlink_clear i a (set_mem m s) =
      Some (tt, set_mem (relink m (lst 0 L1) (hd 0 L2))
                  (set_m_pstHead h (set_m_ptBin (unlink_bins (m_ptBin s) i a L1 L2) s))).
Proof.
  intros H Hi HB. destruct (bin_members _ _ _ _ _ H Hi) as (Hsep & Hnd & Hpos & Hseg).
  destruct (hp_bins _ _ _ _ H i Hi) as [Hrd _]. rewrite HB in Hrd, Hsep, Hnd, Hpos, Hseg.
  pose proof (hp_nbins _ _ _ _ H) as Hlen.
  pose proof Hpos as [Hp1 [_ Hp2]%Forall_cons]%Forall_app.
  destruct (unlink_bins_spec _ _ _ _ _ Hi Hlen Hp1 Hp2 Hrd) as (_ & _ & Hrd').
  set (bl := unlink_bins _ _ _ _ _) in *.
  assert (∀ m, dseg m 0 (L1 ++ a :: L2) 0 -> UnlinkBin (Bin i) a (set_mem m s) =
            Some (0, set_mem (relink m (lst 0 L1) (hd 0 L2)) (set_m_ptBin bl s))) as HU.
  { intros m Hm. by apply (UnlinkBin_exec (set_mem m s)). }
  destruct (upd_bitmap_run s i (λ w, Z.land w (Z.lnot (Z.shiftl 1 (i mod 32)))) (hp_nmap _ _ _ _ H) Hi)
    as (w & Hw & _).
  destruct (Z.eqb_spec (hd 0 (L1 ++ L2)) 0) as [H0|H0].
  - exists (set_m_auiBinBitMap (<[Z.to_nat (i / 32) := u32 (Z.land w (Z.lnot (Z.shiftl 1 (i mod 32))))]>
              (m_auiBinBitMap (m_pstHead s))) (m_pstHead s)).
    intros m Hm. split; [by apply HU|]. unfold unlink_clear. mstep (HU m Hm). set (s1 := set_mem _ _).
    unfold EmptyBin.
    rewrite (step_bind (bin_next (Bin i) ≫= _) _ _ _ _ (step_bind _ _ _ _ _ (bin_next_ok s1 i _ Hrd'))).
    cbn [bin_hNextChunk]. change INVALID_HANDLE with 0. rewrite H0. simpl.
    destruct (upd_bitmap_run s1 i (λ w, Z.land w (Z.lnot (Z.shiftl 1 (i mod 32)))) (hp_nmap _ _ _ _ H) Hi)
      as (w' & Hw' & Hrun). simpl in Hw'. rewrite Hw in Hw'. simplify_eq. exact Hrun.
  - exists (m_pstHead s). intros m Hm. split; [by apply HU|]. unfold unlink_clear. mstep (HU m Hm).
    set (s1 := set_mem _ _). unfold EmptyBin.
    rewrite (step_bind (bin_next (Bin i) ≫= _) _ _ _ _ (step_bind _ _ _ _ _ (bin_next_ok s1 i _ Hrd'))).
    cbn [bin_hNextChunk]. change INVALID_HANDLE with 0. destruct (Z.eqb_spec (hd 0 (L1 ++ L2)) 0); [done|].
    simpl. by destruct s.
Qed.

(** Marking the chunk in use before it is unlinked gives the same heap. *)
Lemma heap_unlink_retag s l p z r B L2 :
  heap s (l ++ (p, z, false) :: r) B None -> B (bin_index z) = p :: L2 ->
  let s0 := set_mem (<[p + z := hdr_word z true (nsz r)]> (mem s)) s in
  ∃ s1 s2 B', UnlinkBin (Bin (bin_index z)) p s0 = Some (0, s1) ∧
              unlink_clear (bin_index z) p s0 = Some (tt, s2) ∧
              heap s2 (l ++ (p, z, true) :: r) B' None ∧ keep (l ++ r) s s2 ∧ cfg s2 = cfg s.
Proof.
  intros H HB s0. assert ((p, z, false) ∈ l ++ (p, z, false) :: r) as Hin by (apply elem_of_app; right; by left).
  pose proof (heap_mid_in _ _ _ _ _ _ _ _ H) as Hr.
  pose proof (bin_index_range z ltac:(mlia)) as Hi. set (i := bin_index z) in *.
  assert (0 <= i < NBINS) as Hi' by lia.
  destruct (unlink_clear_exec _ _ _ i p [] L2 H Hi' HB) as (h & Hex). cbn [app] in Hex.
  change (lst 0 []) with 0 in Hex. set (n := hd 0 L2) in *. set (bl := unlink_bins _ _ _ _ _) in *.
  destruct (hp_bins _ _ _ _ H i Hi') as [_ Hd]. rewrite HB in Hd.
  destruct (Hex (mem s) Hd) as [_ Hclr]. replace (set_mem (mem s) s) with s in Hclr by (by destruct s).
  destruct (heap_unlink _ _ _ _ _ H Hin) as (s' & B' & Hrun & H1 & Hk1 & Hc1 & Ht1).
  fold i in Hrun. rewrite Hclr in Hrun. injection Hrun as Hs'. 
  assert (∀ y, y ∈ p :: L2 -> y + 8 ≠ p + z ∧ y + 16 ≠ p + z) as Hne.
  { intros y Hy. rewrite <- HB in Hy. destruct (heap_bin_in _ _ _ _ _ _ H Hi' Hy) as (_ & w & Hw & _).
    pose proof (heap_in _ _ _ _ _ _ _ H Hw).
    destruct (contig_disj _ _ _ _ _ _ _ _ _ (hp_contig _ _ _ _ H) Hin Hw) as [(-> & -> & _)|[?|?]]; mlia. }
  assert (dseg (mem s0) 0 (p :: L2) 0) as Hd0.
  { eapply dseg_frame; [|exact Hd]. intros y Hy. destruct (Hne y Hy). simpl. by rewrite !word_at_insert_ne by lia. }
  destruct (Hex (mem s0) Hd0) as [HU HC]. change (set_mem (mem s0) s) with s0 in HU, HC.
  eexists _, _, B'. split; [exact HU|]. split; [exact HC|].
  destruct (heap_hdr0 _ _ _ _ _ _ _ _ H1) as [_ (qn & (_ & Hwn & Hqn & _) & Hqz)]. rewrite Hqz in Hwn by done.
  destruct (heap_retag s' l p z false true r B' z H1) as [H2 Hk2]; [mlia|done|rewrite Hwn; apply w_pre_mk; mlia|].
  set (s2 := set_mem (relink (mem s0) 0 n) _).
  assert (∀ x, word_at (mem s2) x = word_at (<[p + z := hdr_word z true (nsz r)]> (mem s')) x) as Heq.
  { intros x. unfold s2. rewrite <- Hs'. simpl. unfold relink. simpl.
    assert (n = 0 ∨ n + 8 ≠ p + z) as [->|Hn8].
    { destruct (hd_0_in L2) as [?|Hn]; [by left|right]. apply Hne. by right. }
    - simpl. done.
    - destruct (Z.eqb_spec n 0); [done|]. rewrite !word_at_insert. zcases; lia || done. }
  assert (s2 = set_mem (mem s2) (set_mem (<[p + z := hdr_word z true (nsz r)]> (mem s')) s')) as Hs2.
  { unfold s2. rewrite <- Hs'. by destruct s. }
  destruct (heap_same_mem _ (mem s2) _ _ _ H2 Heq) as [H3 Hk3]. rewrite <- Hs2 in H3, Hk3.
  split_and!; [exact H3| |].
  - eapply keep_trans; [eapply keep_mid; exact Hk1|]. eapply keep_trans; [eapply keep_mid; exact Hk2|].
    eapply keep_mid. exact Hk3.
  - rewrite Hs2. exact Hc1.
Qed.

Lemma SmallBinMalloc_run s cs B t :
  heap s cs B None -> coal true cs -> in_smallbin_range t = true -> MINSIZE <= t -> t mod 8 = 0 ->
  runs (SmallBinMalloc t) s (λ p s',
    (p = 0 ∧ heap s' cs B None ∧ keep cs s s' ∧ cfg s' = cfg s ∧ B (bin_index t) = [] ∧
     m_hTop (m_pstHead s') = m_hTop (m_pstHead s)) ∨
    (∃ l r cs' B', cs = l ++ (p, t, false) :: r ∧ cs' = l ++ (p, t, true) :: r ∧ p ≠ 0 ∧
       p < m_tSize (m_pstHead s) - 8 ∧
       heap s' cs' B' None ∧ coal true cs' ∧ keep (l ++ r) s s' ∧ cfg s' = cfg s)).
Proof.
  intros H Hco Hs Ht Ht8. unfold in_smallbin_range, MIN_LARGE_SIZE in Hs. apply Z.ltb_lt in Hs.
  assert (smallbin_index t = bin_index t) as Hbi.
  { unfold smallbin_index. rewrite bin_index_small by done. by shifts. }
  unfold SmallBinMalloc. rewrite Hbi.
  pose proof (bin_index_range t ltac:(mlia)) as Hi. set (i := bin_index t) in *.
  assert (0 <= i < NBINS) as Hi' by lia. destruct (hp_bins _ _ _ _ H i Hi') as [Hrd _].
  destruct (B i) as [|a L2] eqn:HB.
  - assert (BinMalloc (Bin i) s = Some (0, s)) as HBM by (unfold BinMalloc; by mstep (bin_next_ok _ _ _ Hrd)).
    assert (EmptyBin i s = Some (true, s)) as HE by (unfold EmptyBin; by mstep (bin_next_ok _ _ _ Hrd)).
    eapply runs_step; [exact HBM|]. eapply runs_step; [exact HE|]. cbn [when_].
    destruct (heap_clear_empty s cs B None i H Hi' HB) as (s1 & Hrun & H1 & Hk1 & Hc1 & Ht1 & _).
    eapply runs_step; [exact Hrun|]. apply runs_ret. left. by split_and!.
  - assert (a ∈ B i) as Ha by (rewrite HB; by left).
    destruct (heap_bin_in _ _ _ _ _ _ H Hi' Ha) as (_ & z & Hz & Hbz).
    pose proof (heap_in _ _ _ _ _ _ _ H Hz) as Hr.
    assert (t = z) as <- by (symmetry in Hbz; apply bin_index_small_inj; mlia || tauto).
    apply list_elem_of_split in Hz as (l & r & ->).
    destruct (heap_hdr0 _ _ _ _ _ _ _ _ H) as [(qp & Hp & _) (qn & Hn & Hqn)].
    rewrite Hqn in Hn by done.
    destruct (heap_unlink_retag s l a t r B L2 H HB) as (s1 & s2 & B' & HU & HC & H2 & Hk2 & Hc2).
    fold i in HU, HC. set (s0 := set_mem _ s) in HU, HC.
    assert (BinMalloc (Bin i) s = Some (a, s1)) as HBM.
    { unfold BinMalloc. mstep (bin_next_ok _ _ _ Hrd). cbn [bin_hNextChunk hd]. change INVALID_HANDLE with 0.
      destruct (Z.eqb_spec a 0); [lia|]. mstep (m_tChunkSize_hdr _ _ _ _ _ Hp).
      rewrite REAL_SIZE_mult by done. mstep (set_inuse_hdr _ _ _ _ _ _ Hn). by mstep HU. }
    eapply runs_step; [exact HBM|].
    assert ((EmptyBin i ≫= λ e, when_ e (ClearBinBitMap i)) s1 = Some (tt, s2)) as HE.
    { unfold unlink_clear in HC. by rewrite (step_bind _ _ _ _ _ HU) in HC. }
    destruct (EmptyBin i s1) as [[e s1']|] eqn:He; unfold mbind, ST_bind in HE; rewrite He in HE; [|done].
    simpl in HE. eapply runs_step; [exact He|]. eapply runs_step; [exact HE|].
    apply runs_ret. right. exists l, r, (l ++ (a, t, true) :: r), B'. split_and!; try done; [lia|mlia|].
    apply coal_app in Hco as [? [? Hr']]. apply coal_app. split; [done|]. split; [by right|].
    by eapply coal_weaken.
Qed.

(** ** The search for a bin *)

Lemma bitmap_word_zero s cs B X w j :
  heap s cs B X -> 0 <= w < 4 -> bitmap_word (m_pstHead s) w = 0 -> w * 32 <= j < w * 32 + 32 -> B j = [].
Proof.
  intros H Hw Hz Hj. destruct (B j) as [|x L] eqn:HB; [done|exfalso].
  destruct (hp_map _ _ _ _ H j) as (v & Hv & Hb); [unfold NBINS; lia|by rewrite HB|].
  unfold bitmap_word in Hz. destruct (Z.ltb_spec w 4); [|lia].
  replace (j / 32) with w in Hv by (Z.div_mod_to_equations; lia).
  rewrite Hv in Hz. simpl in Hz. subst v. by rewrite Z.bits_0 in Hb.
Qed.

Lemma skip_words_spec s cs B X n w :
  heap s cs B X -> 0 <= w ->
  ∃ w', skip_words n (m_pstHead s) w (w * 32) = w' * 32 ∧ w <= w' ∧
        ∀ j, w * 32 <= j < w' * 32 -> j < NBINS -> B j = [].
Proof.
  intros H. revert w. induction n as [|n IH]; intros w Hw; cbn [skip_words].
  - exists w. split_and!; [done|lia|lia].
  - destruct (Z.ltb_spec w 16); cbn [andb]; [|exists w; split_and!; done || lia].
    destruct (Z.eqb_spec (bitmap_word (m_pstHead s) w) 0) as [Hz|]; [|exists w; split_and!; done || lia].
    replace (w * 32 + 32) with ((w + 1) * 32) by lia.
    destruct (IH (w + 1)) as (w' & -> & ? & Hj); [lia|]. exists w'. split_and!; [done|lia|].
    intros j Hjj HN. destruct (decide (j < (w + 1) * 32)); [|apply Hj; lia].
    eapply bitmap_word_zero; [done| |exact Hz|lia]. unfold NBINS in HN. lia.
Qed.

Lemma skip_bins_spec s cs B X n i :
  heap s cs B X -> 0 <= i -> NBINS - i <= Z.of_nat n ->
  ∃ j, skip_bins n (m_ptBin s) i = Some j ∧ i <= j ∧
       (∀ k, i <= k < j -> k < NBINS -> B k = []) ∧ (j < NBINS -> B j ≠ []).
Proof.
  intros H. revert i. induction n as [|n IH]; intros i Hi Hn; cbn [skip_bins].
  - exists i. split_and!; [done|lia|lia|lia].
  - destruct (Z.ltb_spec i NBINS); [|exists i; split_and!; done || lia].
    destruct (hp_bins _ _ _ _ H i) as [-> _]; [lia|]. osimpl. cbn [bin_hNextChunk].
    change INVALID_HANDLE with 0. pose proof (bin_pos _ _ _ _ _ H (conj Hi H0)) as Hpos.
    destruct (Z.eqb_spec (hd 0 (B i)) 0) as [He|He].
    + destruct (IH (i + 1)) as (j & -> & ? & Hk & ?); [lia..|]. exists j. split_and!; [done|lia| |done].
      intros k Hkk ?. destruct (decide (k = i)) as [->|]; [by apply hd_0_iff|apply Hk; lia].
    + exists i. split_and!; [done|lia|lia|]. intros _ HB. by rewrite HB in He.
Qed.

Lemma next_bin_spec s cs B X i :
  heap s cs B X -> 0 <= i < NBINS - 1 ->
  ∃ j, next_bin i s = Some (j, s) ∧ i < j ∧
       (∀ k, i < k < j -> k < NBINS -> B k = []) ∧ (j < NBINS -> B j ≠ []).
Proof.
  intros H Hi. set (w := (i + 1) / 32).
  set (i1 := if bitmap_word (m_pstHead s) w =? 0
             then skip_words 16 (m_pstHead s) (w + 1) ((w + 1) * 32) else i + 1).
  assert (next_bin i s = option_bind _ _ (λ x, Some (x, s)) (skip_bins 128 (m_ptBin s) i1)) as -> by reflexivity.
  assert (0 <= w < 4) by (unfold w, NBINS in *; Z.div_mod_to_equations; lia).
  assert (i + 1 <= i1 ∧ ∀ k, i < k < i1 -> k < NBINS -> B k = []) as [Hi1 Hk1].
  { unfold i1. destruct (Z.eqb_spec (bitmap_word (m_pstHead s) w) 0) as [Hz|]; [|split; lia].
    destruct (skip_words_spec s cs B X 16 (w + 1) H ltac:(lia)) as (w' & -> & ? & Hj).
    split; [unfold w in *; Z.div_mod_to_equations; lia|]. intros k Hk HN.
    destruct (decide (k < (w + 1) * 32)).
    - eapply bitmap_word_zero; [exact H|done|exact Hz|]. unfold w in *. Z.div_mod_to_equations; lia.
    - apply Hj; lia. }
  destruct (skip_bins_spec s cs B X 128 i1 H) as (j & Hsk & Hj & Hk & HB); [lia|unfold NBINS in *; lia|].
  rewrite Hsk. exists j. split_and!; [done|lia| |done].
  intros k Hkk HN. destruct (decide (k < i1)); [apply Hk1; lia|apply Hk; lia].
Qed.

Lemma first_fit_run s cs B X i n L1 L2 t :
  heap s cs B X -> 0 <= i < NBINS -> B i = L1 ++ L2 ->
  runs (first_fit n (hd 0 L2) t) s (λ v s', s' = s ∧
    ((v = 0 ∧ ∀ y, y ∈ take n L2 -> ∃ z, (y, z, false) ∈ cs ∧ z < t) ∨
     (v ≠ 0 ∧ ∃ z, (v, z, false) ∈ cs ∧ bin_index z = i ∧ t <= z))).
Proof.
  intros H Hi. revert L1 L2. induction n as [|n IH]; intros L1 L2 HB; cbn [first_fit].
  { apply runs_ret. split; [done|]. left. split; [done|]. by intros y ?%elem_of_nil. }
  change INVALID_HANDLE with 0. destruct L2 as [|x L2]; cbn [hd Z.eqb take].
  { apply runs_ret. split; [done|]. left. split; [done|]. by intros y ?%elem_of_nil. }
  assert (x ∈ B i) as Hx by (rewrite HB; apply elem_of_app; right; by left).
  destruct (heap_bin_in _ _ _ _ _ _ H Hi Hx) as (_ & z & Hz & Hbz).
  pose proof (heap_in _ _ _ _ _ _ _ H Hz) as Hr. destruct (Z.eqb_spec x 0); [lia|].
  pose proof Hz as Hz'. apply list_elem_of_split in Hz' as (l & r & Hcs). rewrite Hcs in H at 1.
  destruct (heap_hdr0 _ _ _ _ _ _ _ _ H) as [(qp & Hp & _) _]. rewrite <- Hcs in H.
  eapply runs_step; [apply (CHUNK_SIZE_hdr _ _ _ _ _ Hp)|].
  destruct (Z.leb_spec t z).
  { apply runs_ret. split; [done|]. right. eauto. }
  destruct (hp_bins _ _ _ _ H i Hi) as [_ Hd]. rewrite HB in Hd.
  destruct (bin_dseg_at _ _ _ _ _ _ Hd) as [_ H16].
  eapply runs_step; [apply ld_ok; eapply (free_seg _ _ _ _ x z 16); eauto|]. rewrite H16.
  eapply runs_mono; [apply (IH (L1 ++ [x]) L2); by rewrite <- app_assoc|].
  intros v s' (-> & [[-> Hall]|?]); (split; [done|]); [left|by right].
  split; [done|]. intros y [->|Hy]%elem_of_cons; [by exists z|by apply Hall].
Qed.

(** What an allocation does to the chunks: nothing was big enough, or the
    chunk [p] of at least [t] bytes is added to those in use. *)
Definition alloc_post (cs : list chunk) (B : Z -> list Z) (t : Z) (s : CBinMalloc) (h : Z) (s' : CBinMalloc) : Prop :=
  cfg s' = cfg s ∧ unchanged (used cs) s s' ∧ ∃ cs' B', heap s' cs' B' None ∧ coal true cs' ∧
  ((h = 0 ∧ cs' = cs ∧ m_tSize (m_pstHead s) <= m_hTop (m_pstHead s) + t + MINSIZE ∧
    ∀ a z, (a, z, false) ∈ cs ->
      z < t ∨ (512 <= t ∧ bin_index z = bin_index t ∧ a ∉ take 99 (B (bin_index t)))) ∨
   (∃ p y L1 L2, h = chunk2mem p ∧ p ≠ 0 ∧ used cs = L1 ++ L2 ∧ used cs' = L1 ++ (p, y) :: L2 ∧ t <= y)).

Lemma search_next_bin_run s cs B n t :
  heap s cs B None -> coal true cs -> MINSIZE <= min_size s ->
  MINSIZE <= t < 2 ^ 32 - 8 -> t mod 8 = 0 ->
  (∀ a z, (a, z, false) ∈ cs -> bin_index z = bin_index t ->
     z < t ∨ (512 <= t ∧ a ∉ take 99 (B (bin_index t)))) ->
  runs (search_next_bin (S n) (bin_index t) t) s (alloc_post cs B t s).
Proof.
  intros H Hco Hmn Ht Ht8 Hsame. pose proof (bin_index_range t ltac:(mlia)) as Hi.
  destruct (next_bin_spec s cs B None (bin_index t) H Hi) as (j & Hnb & Hj & Hemp & Hne).
  unfold search_next_bin. eapply runs_step; [exact Hnb|].
  destruct (Z.leb_spec NBINS j) as [HN|HN].
  - eapply runs_bind; [by eapply TopAlloc_run|].
    intros p s' [(-> & -> & Hfull)|(-> & H2 & Hk & Hc)].
    + eapply runs_eq; [apply Ptr2Handle_ok; pose proof (hp_top _ _ _ _ H);
        pose proof (hp_bottom _ _ _ _ H); pose proof (contig_le _ _ _ (hp_contig _ _ _ _ H)); mlia|].
      split; [done|]. split; [done|]. exists cs, B. split; [done|]. split; [done|]. left.
      split_and!; try done. intros a z Hz.
      pose proof (heap_in _ _ _ _ _ _ _ H Hz) as Hr. pose proof (bin_index_range z ltac:(mlia)).
      destruct (decide (bin_index z = bin_index t)) as [He|He].
      { destruct (Hsame a z Hz He) as [?|[? ?]]; [by left|by right]. }
      left. apply bin_index_lt; [mlia|mlia|].
      destruct (Z.lt_ge_cases (bin_index z) (bin_index t)) as [|Hge]; [done|exfalso].
      assert (a ∈ B (bin_index z)) as Ha by (apply (hp_free _ _ _ _ H); [lia|eauto]).
      rewrite Hemp in Ha by lia. by apply elem_of_nil in Ha.
    + pose proof (heap_mid_in _ _ _ _ _ _ _ _ H2) as Hr.
      eapply runs_eq; [apply Ptr2Handle_ok; unfold chunk2mem; mlia|].
      split; [done|]. split; [by apply keep_unchanged|]. eexists _, B. split; [exact H2|]. split.
      { rewrite <- (app_nil_r cs) in Hco. apply coal_app in Hco as [? ?]. apply coal_app. split; [done|]. by split; [right|]. }
      right. eexists _, t, (used cs), []. split; [done|].
      split_and!; [lia|by rewrite app_nil_r|by rewrite used_app|lia].
  - destruct (hp_bins _ _ _ _ H j) as [Hrd _]; [lia|].
    eapply runs_step; [by apply (bin_pre_ok _ _ _ Hrd)|]. cbn [bin_hPreChunk].
    pose proof (lst_in 0 (B j) (Hne HN)) as Ha. set (a := lst 0 (B j)) in *.
    assert (0 <= j < NBINS) as Hj' by lia.
    destruct (heap_bin_in _ _ _ _ _ _ H Hj' Ha) as (_ & z & Hz & <-).
    pose proof (heap_in _ _ _ _ _ _ _ H Hz) as Hr.
    assert (t < z) as Htz by (apply bin_index_lt; mlia).
    pose proof Hz as Hz'. apply list_elem_of_split in Hz' as (l & r & Hcs). pose proof H as H'. rewrite Hcs in H'.
    destruct (heap_hdr0 _ _ _ _ _ _ _ _ H') as [(qp & Hp & _) _].
    eapply runs_step.
    { cbn [last_fit]. mstep (ld_ok s (a + 8) (free_seg _ _ _ _ a z 8 H Hz ltac:(auto))).
      mstep (CHUNK_SIZE_hdr _ _ _ _ _ Hp). destruct (Z.ltb_spec z t); [lia|]. reflexivity. }
    eapply runs_mono; [eapply (take_chunk_run s cs B l a z r t); try done; lia|].
    intros h s' (-> & cs' & B' & y & H2 & Hco2 & Hu2 & Hy & Hk & Hc). rewrite Hcs.
    split; [done|]. split; [rewrite used_app; change (used ((a, z, false) :: r)) with (used r); rewrite <- used_app; by apply keep_unchanged|].
    exists cs', B'. split; [done|]. split; [done|]. right. exists a, y, (used l), (used r).
    split_and!; [done|lia|by rewrite used_app|done|lia].
Qed.

Lemma used_free l p z r : used (l ++ (p, z, false) :: r) = used (l ++ r).
Proof. rewrite !used_app. by rewrite used_cons. Qed.

Lemma alloc_chunk_run s cs B n t :
  heap s cs B None -> coal true cs -> MINSIZE <= min_size s ->
  MINSIZE <= t < 2 ^ 32 - 8 -> t mod 8 = 0 ->
  runs (alloc_chunk (S n) t) s (alloc_post cs B t s).
Proof.
  intros H Hco Hmn Ht Ht8. unfold alloc_chunk.
  pose proof (bin_index_range t ltac:(mlia)) as Hi. assert (0 <= bin_index t < NBINS) as Hi' by lia.
  destruct (in_smallbin_range t) eqn:Hs.
  - eapply runs_bind; [eapply SmallBinMalloc_run; done || lia|].
    intros p s1 [(-> & H1 & Hk1 & Hc1 & HB & Ht1)|(l & r & cs' & B' & -> & -> & Hp0 & Hpt & H2 & Hco2 & Hk2 & Hc2)].
    + cbn [Z.eqb]. eapply runs_mono.
      { eapply search_next_bin_run; [exact H1|done|by rewrite (min_size_cfg _ _ Hc1)|done|done|].
        intros a z Hz He. exfalso. pose proof (heap_in _ _ _ _ _ _ _ H Hz).
        assert (a ∈ B (bin_index t)) as Ha by (apply (hp_free _ _ _ _ H); [done|eauto]).
        rewrite HB in Ha. by apply elem_of_nil in Ha. }
      intros h s' (Hc & Hu & cs' & B' & H' & Hco' & Hor).
      destruct (cfg_sizes _ _ Hc1) as [_ Hsz]. rewrite Ht1, Hsz in Hor.
      split; [congruence|]. split; [|by exists cs', B'].
      apply keep_unchanged. eapply keep_trans; [exact Hk1|by apply keep_unchanged].
    + destruct (Z.eqb_spec p 0); [done|]. pose proof (heap_mid_in _ _ _ _ _ _ _ _ H) as Hr.
      destruct (cfg_sizes _ _ Hc2) as [_ Hsz].
      eapply runs_eq; [apply Ptr2Handle_ok; rewrite Hsz; unfold chunk2mem; mlia|].
      split; [done|]. split; [rewrite used_free; by apply keep_unchanged|].
      eexists _, B'. split; [exact H2|]. split; [done|]. right. exists p, t, (used l), (used r).
      split_and!; [done|done|by rewrite used_app|by rewrite used_app|lia].
  - destruct (hp_bins _ _ _ _ H _ Hi') as [Hrd _].
    eapply runs_step; [apply (bin_next_ok _ _ _ Hrd)|]. cbn [bin_hNextChunk].
    eapply runs_bind; [apply (first_fit_run s cs B None (bin_index t) 99 [] (B (bin_index t)) t H Hi'); done|].
    intros v s' (-> & [[-> Hall]|(Hv & z & Hz & Hbz & Htz)]).
    + change INVALID_HANDLE with 0. cbn [Z.eqb]. apply search_next_bin_run; try done.
      intros a z Hz He. destruct (Z.lt_ge_cases z t) as [|Hge]; [by left|right].
      split; [unfold in_smallbin_range, MIN_LARGE_SIZE in Hs; apply Z.ltb_ge in Hs; lia|].
      intros Ha. destruct (Hall a Ha) as (z' & Hz' & ?).
      destruct (contig_unique _ _ _ _ _ _ _ _ (hp_contig _ _ _ _ H) Hz Hz') as [-> _]. lia.
    + change INVALID_HANDLE with 0. destruct (Z.eqb_spec v 0); [done|].
      pose proof Hz as Hz'. apply list_elem_of_split in Hz' as (l & r & Hcs). rewrite <- Hbz.
      eapply runs_mono; [eapply (take_chunk_run s cs B l v z r t); try done; lia|].
      intros h s' (-> & cs' & B' & y & H2 & Hco2 & Hu2 & Hy & Hk & Hc). rewrite Hcs.
      split; [done|]. split; [rewrite used_free; by apply keep_unchanged|].
      exists cs', B'. split; [done|]. split; [done|]. right. exists v, y, (used l), (used r).
      split_and!; [done|done|by rewrite used_app|done|lia].
Qed.

Lemma InterMalloc_run s cs B n req :
  heap s cs B None -> coal true cs -> MINSIZE <= min_size s -> 0 <= req ->
  runs (InterMalloc (S n) req) s (λ h s',
    if REQUEST_OUT_OF_RANGE req then h = 0 ∧ s' = s else alloc_post cs B (request2size req) s h s').
Proof.
  intros H Hco Hmn Hr. unfold InterMalloc. destruct (REQUEST_OUT_OF_RANGE req) eqn:Ho.
  - by apply runs_ret.
  - destruct (request2size_spec req Hr Ho) as (? & ? & ? & _). apply alloc_chunk_run; done || lia.
Qed.
