(* ===== verification/BinResize.v ===== *)
(** * BinResize: resizing blocks keeps the heap

    [InterReAlloc] of [src/cache/bin_malloc.cc]: shrinking in place, growing
    into the top, into the free chunk behind or the one before, and moving.
    While the block's own header is out of date the heap invariant holds with
    that header exempt ([K] of [BinHeap]); the last writes restore it. *)

From stdpp Require Import gmap.
From S2P Require Import Prelude State BinMalloc BinHeap BinAlloc.

(** ** Exempting a header *)

Lemma hdr_ok_exempt K m pz pu cs a top :
  0 < a -> contig a cs top -> hdr_ok (K:=0) m pz pu cs top -> hdr_ok (K:=K) m pz pu cs top.
Proof.
  revert a pz pu. induction cs as [|[[c z] u] cs IH]; intros a pz pu Ha; simpl.
  - intros -> Hh _. apply Hh. lia.
  - intros (-> & ? & _ & Hc) [Hh Hr]. split; [intros _; apply Hh; lia|]. eapply IH; [|done..]. mlia.
Qed.

Lemma hdr_ok_close p m pz pu cs a top :
  contig a cs top -> p < a -> hdr_ok (K:=p) m pz pu cs top -> hdr_ok (K:=0) m pz pu cs top.
Proof.
  revert a pz pu. induction cs as [|[[c z] u] cs IH]; intros a pz pu; simpl.
  - intros -> Ha Hh _. apply Hh. lia.
  - intros (-> & ? & _ & Hc) Ha [Hh Hr]. split; [intros _; apply Hh; lia|]. eapply IH; [done| |done]. mlia.
Qed.

Lemma hdr_pre_close p m pz pu l a :
  contig a l p -> BinHeap.hdr_pre (K:=p) m pz pu l -> BinHeap.hdr_pre (K:=0) m pz pu l.
Proof.
  revert a pz pu. induction l as [|[[c z] u] l IH]; intros a pz pu; simpl; [done|].
  intros (-> & ? & _ & Hc) [Hh Hr]. pose proof (contig_le _ _ _ Hc).
  split; [intros _; apply Hh; mlia|]. by eapply IH.
Qed.

Lemma heap_exempt K s cs B X : heap s cs B X -> BinHeap.heap (K:=K) s cs B X.
Proof.
  intros H. constructor; try apply H. eapply hdr_ok_exempt; [|apply H..].
  by destruct (hp_bottom _ _ _ _ H).
Qed.

(** Writing the exempt header ends the exemption. *)
Lemma heap_close s m' l p n r B q :
  BinHeap.heap (K:=p) s (l ++ (p, n, true) :: r) B None ->
  (∀ a, a ≠ p -> word_at m' a = word_at (mem s) a) ->
  word_at m' p = hdr_word q (lus true l) n -> 0 <= q < 2 ^ 32 -> (lus true l = false -> q = lsz 0 l) ->
  heap (set_mem m' s) (l ++ (p, n, true) :: r) B None.
Proof.
  intros H Hs Hw Hq Hql. pose proof (hp_contig _ _ _ _ H) as Hc.
  pose proof (contig_mid _ _ _ _ _ _ _ Hc) as (Hcl & ? & ? & Hcr).
  pose proof (proj1 (hdr_split _ _ _ _ _ _ _ _ Hc) (hp_hdr _ _ _ _ H)) as (Hp1 & _ & Hn & Hp2).
  assert (hdr_ok (K:=p) m' 0 true (l ++ (p, n, true) :: r) (m_hTop (m_pstHead s))) as Hok.
  { rewrite (hdr_split _ _ _ _ _ _ _ _ Hc). split_and!.
    - eapply (hdr_pre_frame (mem s)); [|done]. intros c z u Hin.
      pose proof (contig_in _ _ _ _ _ _ Hcl Hin). apply Hs. mlia.
    - intros He. by destruct He.
    - eapply hdr_is_same; [|exact Hn]. apply Hs. mlia.
    - eapply (hdr_rest_frame (mem s)); [exact Hcr| |done]. intros a Ha. apply Hs. mlia. }
  assert (BinHeap.heap (K:=p) (set_mem m' s) (l ++ (p, n, true) :: r) B None) as H'.
  { eapply heap_change; try done. intros a y z Ha Hin _ ?. assert (a = p) as ->.
    { destruct (decide (a = p)); [done|]. by destruct Ha; apply Hs. }
    destruct (contig_disj _ _ _ _ _ _ y z false Hc ltac:(apply elem_of_app; right; by left) Hin)
      as [(? & ? & ?)|[?|?]]; mlia. }
  constructor; try apply H'. simpl.
  pose proof (proj1 (hdr_split _ _ _ _ _ _ _ _ Hc) Hok) as (Hp1' & _ & Hn' & Hp2').
  rewrite (hdr_split _ _ _ _ _ _ _ _ Hc). split_and!.
  - by eapply hdr_pre_close.
  - intros _. by exists q.
  - intros _. apply Hn'. mlia.
  - destruct r as [|[[c z] u] r]; [done|]. destruct Hcr as (-> & ? & _ & Hcr). cbn [hdr_rest] in *.
    eapply hdr_ok_close; [done| |done]. mlia.
Qed.

Lemma close_header_run s l p n r B pre :
  BinHeap.heap (K:=p) s (l ++ (p, n, true) :: r) B None ->
  0 <= pre < 2 ^ 32 -> (lus true l = false -> pre = lsz 0 l) ->
  runs (set_tSize p (u32 (REAL_SIZE n));;
        when_ (lus true l) (sz ← m_tChunkSize p; set_tSize p (Z.lor sz PREV_INUSE));;
        set_tPreSize p pre;; Ptr2Handle (chunk2mem p)) s
       (λ h s', h = chunk2mem p ∧ heap s' (l ++ (p, n, true) :: r) B None ∧
                (∀ a, a ≠ p -> word_at (mem s') a = word_at (mem s) a) ∧ w_pre (word_at (mem s') p) = pre ∧
                cfg s' = cfg s).
Proof.
  intros H Hpre Hl. pose proof (heap_mid_in _ _ _ _ _ _ _ _ H) as Hr.
  assert (seg s p) as Hs by (split_and!; [tauto|mlia..]).
  rewrite REAL_SIZE_id, uwrap_small by (tauto || mlia).
  set (x := w_pre (word_at (mem s) p)).
  assert (0 <= x < 2 ^ 32) as Hx by (apply Z.mod_pos_bound; lia).
  eapply runs_step; [apply (set_tSize_raw s p n Hs); mlia|]. fold x.
  set (s1 := set_mem _ s).
  assert (∃ m, when_ (lus true l) (sz ← m_tChunkSize p; set_tSize p (Z.lor sz PREV_INUSE)) s1 = Some (tt, set_mem m s) ∧
               word_at m p = mk_word x (n + b2z (lus true l)) ∧ (∀ a, a ≠ p -> word_at m a = word_at (mem s) a))
    as (m & Hm & Hmp & Hma).
  { destruct (lus true l); simpl.
    - unfold m_tChunkSize. rewrite (step_bind (ld p ≫= _) _ _ _ _ (step_bind _ _ _ _ _ (ld_ok s1 p Hs))).
      change (mem s1) with (<[p := mk_word x n]> (mem s)). rewrite word_at_insert_eq, w_size_mk by done.
      change PREV_INUSE with (b2z true). rewrite (lor_b2z n true) by tauto.
      rewrite (set_tSize_raw s1 p (n + b2z true) Hs) by (simpl; mlia). eexists. split; [reflexivity|].
      rewrite word_at_insert_eq. change (mem s1) with (<[p := mk_word x n]> (mem s)).
      rewrite word_at_insert_eq, w_pre_mk by done. split; [done|].
      intros a Ha. by rewrite !word_at_insert_ne by done.
    - exists (mem s1). split; [done|]. change (mem s1) with (<[p := mk_word x n]> (mem s)).
      rewrite word_at_insert_eq, Z.add_0_r. split; [done|]. intros a Ha. by rewrite word_at_insert_ne by done. }
  eapply runs_step; [exact Hm|]. set (s2 := set_mem m s).
  eapply runs_step; [apply (set_tPreSize_raw s2 p pre Hs Hpre)|]. change (mem s2) with m.
  rewrite Hmp, w_size_mk by done. set (m' := <[p := _]> m). change (set_mem m' s2) with (set_mem m' s).
  eapply runs_eq; [apply Ptr2Handle_ok; unfold chunk2mem; simpl; mlia|].
  assert (∀ a, a ≠ p -> word_at m' a = word_at (mem s) a) as Hout.
  { intros a Ha. unfold m'. rewrite word_at_insert_ne by done. by apply Hma. }
  assert (word_at m' p = hdr_word pre (lus true l) n) as Hwp by (unfold m'; by rewrite word_at_insert_eq).
  split_and!; [done| |done|simpl; rewrite Hwp; by apply w_pre_mk|done]. eapply heap_close; [exact H|done|exact Hwp|exact Hpre|done].
Qed.

(** Rewriting the header of [p] with the low half it had. *)
Lemma close_keep cs s s1 s2 p :
  keep cs s s1 -> (∀ a, a ≠ p -> word_at (mem s2) a = word_at (mem s1) a) ->
  w_pre (word_at (mem s2) p) = w_pre (word_at (mem s) p) ->
  (∀ c z, (c, z, true) ∈ cs -> ¬ (c < p < c + z)) -> keep cs s s2.
Proof.
  intros Hk Hs Hp Hn c z Hin. destruct (Hk c z Hin) as [Hw Ht]. pose proof (Hn c z Hin). split.
  - intros a Ha. rewrite Hs by (intros ->; done). by apply Hw.
  - destruct (decide (c + z = p)) as [->|]; [done|]. by rewrite Hs.
Qed.

(** ** The chunk to be resized

    [p] has [n] bytes up to the chunk list [r], for whose first header it is
    still to be marked in use; its own header is out of date. *)
Definition grown (s : CBinMalloc) (l : list chunk) (p n : Z) (r : list chunk) (B : Z -> list Z) : Prop :=
  ∃ q u, word_at (mem s) (p + n) = hdr_word q u (nsz r) ∧ 0 <= q < 2 ^ 32 ∧
    BinHeap.heap (K:=p) (set_mem (<[p + n := hdr_word q true (nsz r)]> (mem s)) s)
      (l ++ (p, n, true) :: r) B None.

Lemma grown_at s l p n r B q u :
  word_at (mem s) (p + n) = hdr_word q u (nsz r) -> 0 <= q < 2 ^ 32 ->
  BinHeap.heap (K:=p) (set_mem (<[p + n := hdr_word q true (nsz r)]> (mem s)) s) (l ++ (p, n, true) :: r) B None ->
  hdr_at s (p + n) q u (nsz r).
Proof.
  intros Hw Hq H. pose proof (heap_mid_in _ _ _ _ _ _ _ _ H) as Hr. simpl in Hr.
  assert (0 <= nsz r < 2 ^ 32 - 32 ∧ nsz r mod 8 = 0).
  { replace (l ++ (p, n, true) :: r) with ((l ++ [(p, n, true)]) ++ r) in H by (by rewrite <- app_assoc).
    by eapply nsz_range. }
  unfold hdr_at, seg. split_and!; try tauto; try mlia.
  destruct Hr as (_ & _ & _ & Hz & Hc & _). Z.div_mod_to_equations; lia.
Qed.

(** Cutting [p] at [t]: the two headers behind it. *)
Lemma grown_split s l p n r B t x :
  grown s l p n r B -> MINSIZE <= t -> MINSIZE <= n - t -> t mod 8 = 0 -> 0 <= x < 2 ^ 32 ->
  let m := <[p + n := hdr_word (n - t) true (nsz r)]> (<[p + t := hdr_word x true (n - t)]> (mem s)) in
  BinHeap.heap (K:=p) (set_mem m s) ((l ++ [(p, t, true)]) ++ (p + t, n - t, true) :: r) B None.
Proof.
  intros (q & u & Hw & Hq & H) Ht Hrem Ht8 Hx m.
  pose proof (heap_mid_in _ _ _ _ _ _ _ _ H) as Hr. simpl in Hr.
  pose proof (hp_contig _ _ _ _ H) as Hc. simpl in Hc.
  pose proof (contig_mid _ _ _ _ _ _ _ Hc) as (Hcl & Hn & Hn8 & Hcr).
  pose proof (proj1 (hdr_split _ _ _ _ _ _ _ _ Hc) (hp_hdr _ _ _ _ H)) as (Hp1 & _ & _ & Hp2).
  simpl in Hp1, Hp2. set (m0 := <[p + n := _]> (mem s)) in *.
  assert ((n - t) mod 8 = 0) as Hr8 by (Z.div_mod_to_equations; lia).
  assert (∀ a, a ≠ p + t -> a ≠ p + n -> word_at m a = word_at m0 a) as Hsame.
  { intros a ??. unfold m, m0. by rewrite !word_at_insert_ne by lia. }
  assert (contig (p + t + (n - t)) r (m_hTop (m_pstHead s))) as Hcr' by (by replace (p + t + (n - t)) with (p + n) by lia).
  assert (contig (m_hBottom (m_pstHead s)) (l ++ (p, t, true) :: (p + t, n - t, true) :: r) (m_hTop (m_pstHead s))) as Hc'.
  { apply contig_mid_2; [done|done|done|]. simpl. by split_and!. }
  rewrite <- app_assoc. cbn [app]. change (set_mem m s) with (set_mem m (set_mem m0 s)).
  eapply heap_change; [exact H| |exact Hc'| |].
  - intros a y z Ha Hin _ ?. simpl in Ha.
    destruct (contig_disj _ _ _ p n true _ _ _ Hc ltac:(apply elem_of_app; right; by left) Hin) as [(? & ? & ?)|Hd]; [done|].
    destruct (decide (a = p + t)); [mlia|]. destruct (decide (a = p + n)); [|by destruct Ha; apply Hsame].
    pose proof (contig_in _ _ _ _ _ _ Hc Hin). mlia.
  - rewrite (hdr_split _ _ _ _ _ _ _ _ Hc'). split_and!.
    + eapply (hdr_pre_frame m0); [|done]. intros c y v Hin. pose proof (contig_in _ _ _ _ _ _ Hcl Hin).
      apply Hsame; mlia.
    + intros He. by destruct He.
    + intros _. exists x. unfold m. by rewrite word_at_insert_ne, word_at_insert_eq by mlia.
    + cbn [hdr_rest]. apply (hdr_ok_head _ _ _ _ _ _ Hcr'). split.
      * replace (p + t + (n - t)) with (p + n) by lia. apply hdr_is_exact; [|mlia].
        unfold m. by rewrite word_at_insert_eq.
      * eapply (hdr_rest_frame m0); [exact Hcr| |done]. intros a Ha. apply Hsame; mlia.
  - intros a z. split; intros [_ Hin]; (split; [done|]).
    + apply elem_of_app in Hin as [?|[?|[?|?]%elem_of_cons]%elem_of_cons]; apply elem_of_app;
        [by left|done..|right; by right].
    + apply elem_of_app in Hin as [?|[?|?]%elem_of_cons]; apply elem_of_app; [by left|done|right; by do 2 right].
Qed.

(** Freeing what lies behind the first [t] bytes. *)
Lemma free_remainder_run k s l p n r B t :
  grown s l p n r B -> coalp true l -> coal true r ->
  MINSIZE <= t -> MINSIZE <= n - t -> t mod 8 = 0 ->
  runs (free_remainder (S k) (p + t) (n - t)) s (λ _ s', ∃ r' B',
    BinHeap.heap (K:=p) s' (l ++ (p, t, true) :: r') B' None ∧ coal true (l ++ (p, t, true) :: r') ∧
    used r' = used r ∧ keep (l ++ (p, t, true) :: r) s s' ∧ cfg s' = cfg s).
Proof.
  intros Hg Hcl Hcr Ht Hrem Ht8. pose proof Hg as (q & u & Hw & Hq & H).
  pose proof (grown_at _ _ _ _ _ _ _ _ Hw Hq H) as Hat.
  pose proof (heap_mid_in _ _ _ _ _ _ _ _ H) as Hr. simpl in Hr.
  assert ((n - t) mod 8 = 0) as Hr8 by (destruct Hr as (_ & _ & _ & ? & _); Z.div_mod_to_equations; lia).
  assert (seg s (p + t)) as Hsq.
  { destruct Hr as (? & ? & ? & ? & ? & ?). split_and!; [Z.div_mod_to_equations; lia|mlia..]. }
  assert (nsz r mod 8 = 0 ∧ 0 <= nsz r < 2 ^ 32 - 8) as [Hn8 Hnr] by (destruct Hat as (_ & _ & _ & ? & ?); done).
  cbn [free_remainder]. replace (MAX_ALLOC_SIZE <? n - t) with false by (unfold MAX_ALLOC_SIZE; symmetry; apply Z.ltb_ge; mlia).
  rewrite (uwrap_small 32 (n - t)), REAL_SIZE_id by (done || mlia).
  change PREV_INUSE with (b2z true). rewrite lor_b2z by done.
  eapply runs_step; [apply (set_tSize_raw s (p + t)); [done|simpl; mlia]|].
  set (x := w_pre (word_at (mem s) (p + t))). set (m1 := <[p + t := _]> (mem s)). set (s1 := set_mem m1 s).
  replace (p + t + (n - t)) with (p + n) by lia.
  assert (hdr_at s1 (p + n) q u (nsz r)) as Hat1.
  { destruct Hat as (? & Hw' & ?). split_and!; try tauto. rewrite <- Hw'. simpl. unfold m1.
    by rewrite word_at_insert_ne by mlia. }
  eapply runs_step; [apply (set_tPreSize_hdr _ _ _ _ _ Hat1); mlia|].
  set (m2 := <[p + n := _]> (mem s1)). set (s2 := set_mem m2 s1).
  assert (hdr_at s2 (p + n) (n - t) u (nsz r)) as Hat2.
  { destruct Hat1 as (? & _ & ?). split_and!; try tauto; [|mlia..]. simpl. unfold m2. by rewrite word_at_insert_eq. }
  eapply runs_step; [apply (m_tChunkSize_hdr _ _ _ _ _ Hat2)|]. change (b2z true) with PREV_INUSE at 1.
  rewrite lor_prev by done.
  eapply runs_step; [by apply (set_tSize_hdr _ _ _ _ _ Hat2)|].
  set (m3 := <[p + n := _]> (mem s2)). set (s3 := set_mem m3 s2).
  assert (hdr_at s3 (p + t + (n - t)) (n - t) true (nsz r)) as Hat3.
  { replace (p + t + (n - t)) with (p + n) by lia. destruct Hat2 as (? & _ & ?).
    split_and!; try tauto; [|mlia..]. simpl. unfold m3. by rewrite word_at_insert_eq. }
  eapply runs_step; [apply (set_inuse_hdr _ _ _ _ _ _ Hat3)|].
  replace (p + t + (n - t)) with (p + n) by lia.
  set (m4 := <[p + n := _]> (mem s3)). set (s4 := set_mem m4 s3). change s4 with (set_mem m4 s).
  eapply runs_step; [apply Ptr2Handle_ok; unfold chunk2mem; simpl; mlia|].
  pose proof (grown_split _ _ _ _ _ _ t x Hg Ht Hrem Ht8 ltac:(apply Z.mod_pos_bound; lia)) as H1.
  set (m := <[p + n := _]> _) in H1.
  assert (∀ a, word_at m4 a = word_at m a) as Hm4.
  { intros a. unfold m4, m, s3, m3, s2, m2, s1, m1. simpl. rewrite !word_at_insert. zcases; done. }
  destruct (heap_same_mem _ m4 _ _ _ H1 Hm4) as [H2 _]. change (set_mem m4 (set_mem m s)) with (set_mem m4 s) in H2.
  eapply runs_bind.
  { eapply InterFree_run; [exact H2| |mlia|right; by rewrite lus_snoc].
    apply coal_app. rewrite lus_snoc. split; [apply coalp_app; split; [done|]; simpl; auto|]. split; [by left|done]. }
  intros [e0 z0] s5 (_ & cs' & B' & H3 & Hcs & Hco3 & Hu3 & _ & Hk3 & Hc3).
  replace (n - t - (n - t)) with 0 by lia. cbn [Z.ltb Z.compare]. apply runs_ret.
  destruct Hcs as [r' ->]; [by rewrite lus_snoc|]. rewrite <- app_assoc in H3, Hco3. rewrite !used_app in Hu3.
  exists r', B'. split_and!; [done|done|by apply app_inv_head in Hu3| |done].
  assert (keep (l ++ (p, t, true) :: r) s (set_mem m4 s)) as Hk.
  { intros c w Hin. pose proof (hp_contig _ _ _ _ H1) as Hc1. simpl in Hc1.
    rewrite <- app_assoc in Hc1.
    assert ((c, w, true) ∈ l ++ [(p, t, true)] ++ (p + t, n - t, true) :: r) as Hin'.
    { apply elem_of_app in Hin as [?|[->|?]%elem_of_cons]; apply elem_of_app; [by left|right; by left|right; by do 2 right]. }
    pose proof (contig_disj _ _ _ c w true (p + t) (n - t) true Hc1 Hin' ltac:(apply elem_of_app; right; right; by left)).
    pose proof (contig_in _ _ _ _ _ _ Hc1 Hin').
    assert (c ≠ p + t) as Hne.
    { destruct (contig_mid _ _ _ _ _ _ _ (hp_contig _ _ _ _ H)) as (Hl & _ & _ & Hrr). simpl in Hl, Hrr.
      apply elem_of_app in Hin as [Hx|[?|Hx]%elem_of_cons];
        [pose proof (contig_in _ _ _ _ _ _ Hl Hx); mlia|simplify_eq; mlia|pose proof (contig_in _ _ _ _ _ _ Hrr Hx); mlia]. }
    simpl. split; [intros a Ha|]; rewrite Hm4; unfold m.
    - rewrite !word_at_insert_ne; [done|mlia|mlia].
    - destruct (decide (c + w = p + t)) as [->|].
      + rewrite word_at_insert_ne, word_at_insert_eq by mlia. unfold hdr_word. apply w_pre_mk, Z.mod_pos_bound. lia.
      + rewrite !word_at_insert_ne; [done|mlia|mlia]. }
  eapply keep_trans; [exact Hk|]. eapply keep_sub; [exact Hk3|]. intros c w. rewrite <- app_assoc. done.
Qed.

(** The grown or shrunk chunk becomes a chunk in use of at least [t] bytes,
    the rest is free again. *)
Lemma realloc_finish_run s l p n r B t pre :
  grown s l p n r B -> coalp true l -> coal true r -> MINSIZE <= min_size s ->
  MINSIZE <= t <= n -> t mod 8 = 0 -> w_pre (word_at (mem s) p) = pre -> (lus true l = false -> pre = lsz 0 l) ->
  runs (realloc_finish p n t (lus true l) pre) s (λ h s', h = chunk2mem p ∧ ∃ cs' B' y,
    heap s' cs' B' None ∧ coal true cs' ∧ used cs' = used l ++ (p, y) :: used r ∧ t <= y <= n ∧
    keep (l ++ (p, t, true) :: r) s s' ∧ cfg s' = cfg s).
Proof.
  intros Hg Hcl Hcr Hmn Ht Ht8 Hpw Hl.
  assert (0 <= pre < 2 ^ 32) as Hpre by (rewrite <- Hpw; apply Z.mod_pos_bound; lia). unfold realloc_finish.
  destruct (Z.ltb_spec n t) as [Hlt|_]; [lia|]. eapply runs_step; [apply GetMinChunkSize_run|].
  destruct (Z.leb_spec (min_size s) (n - t)) as [Hrem|Hrem].
  - eapply runs_bind; [eapply free_remainder_run; [exact Hg|done|done|lia|lia|done]|].
    intros _ s1 (r' & B1 & H1 & Hco1 & Hu1 & Hk1 & Hc1).
    eapply runs_mono; [eapply close_header_run; [exact H1|done|done]|].
    intros h s2 (-> & H2 & Hs2 & Hp2 & Hc2). split; [done|]. exists (l ++ (p, t, true) :: r'), B1, t.
    split_and!; [done|done|by rewrite used_app, used_cons, Hu1|lia|lia| |congruence].
    pose proof (hp_contig _ _ _ _ H1) as Hc.
    eapply (close_keep _ s s1 s2 p); [exact Hk1|exact Hs2|congruence|]. intros c z Hin.
    assert ((c, z, true) ∈ l ++ (p, t, true) :: r') as Hin'.
    { apply elem_of_used. rewrite used_app, used_cons, Hu1. apply elem_of_used in Hin.
      by rewrite used_app, used_cons in Hin. }
    destruct (contig_disj _ _ _ c z true p t true Hc Hin' ltac:(apply elem_of_app; right; by left)); mlia.
  - destruct Hg as (q & u & Hw & Hq & H). pose proof (grown_at _ _ _ _ _ _ _ _ Hw Hq H) as Hat.
    pose proof (heap_mid_in _ _ _ _ _ _ _ _ H) as Hr. simpl in Hr.
    rewrite (REAL_SIZE_id n) by tauto.
    assert (nsz r mod 8 = 0 ∧ 0 <= nsz r < 2 ^ 32 - 8) as [Hn8 Hnr] by (destruct Hat as (_ & _ & _ & ? & ?); done).
    eapply runs_bind with (Q := λ _ s', s' = set_mem (<[p + n := hdr_word q true (nsz r)]> (mem s)) s).
    { eapply runs_step; [apply (m_tChunkSize_hdr _ _ _ _ _ Hat)|]. rewrite lor_prev by done.
      by eapply runs_eq; [by apply (set_tSize_hdr _ _ _ _ _ Hat)|]. }
    intros _ s1 ->. assert (u32 n = u32 (REAL_SIZE n)) as -> by (by rewrite REAL_SIZE_id by tauto).
    eapply runs_mono; [eapply close_header_run; [exact H|done|done]|].
    intros h s2 (-> & H2 & Hs2 & Hp2 & Hc2). split; [done|]. exists (l ++ (p, n, true) :: r), B, n.
    split_and!; [done|by apply coal_app; split; [|split; [right|]]|by rewrite used_app, used_cons|lia|lia| |done].
    pose proof (hp_contig _ _ _ _ H) as Hc. simpl in Hc.
    assert (w_pre (word_at (<[p + n := hdr_word q true (nsz r)]> (mem s)) (p + n)) = w_pre (word_at (mem s) (p + n))) as Hpn.
    { rewrite word_at_insert_eq, Hw. unfold hdr_word. by rewrite !w_pre_mk. }
    assert (∀ c z, (c, z, true) ∈ l ++ (p, t, true) :: r -> ∃ w v, (c, w, v) ∈ l ++ (p, n, true) :: r ∧ z <= w) as Hw'.
    { intros c z [?|[[= -> ->]|?]%elem_of_cons]%elem_of_app.
      - exists z, true. split; [apply elem_of_app; by left|lia].
      - exists n, true. split; [apply elem_of_app; right; by left|lia].
      - exists z, true. split; [apply elem_of_app; right; by right|lia]. }
    eapply (close_keep _ s (set_mem (<[p + n := hdr_word q true (nsz r)]> (mem s)) s) s2 p); [|exact Hs2|congruence|].
    + intros c z (w & v & Hin & Hzw)%Hw'. pose proof (contig_in _ _ _ _ _ _ Hc Hin).
      assert (¬ c < p + n < c + w) as Hpn'.
      { intros ?. destruct (contig_disj _ _ _ _ _ _ p n true Hc Hin ltac:(apply elem_of_app; right; by left)); mlia. }
      split; [intros a Ha|]; simpl.
      * by rewrite word_at_insert_ne by lia.
      * destruct (decide (c + z = p + n)) as [->|]; [done|]. by rewrite word_at_insert_ne by lia.
    + intros c z (w & v & Hin & Hzw)%Hw' ?. pose proof (contig_in _ _ _ _ _ _ Hc Hin).
      destruct (contig_disj _ _ _ _ _ _ p n true Hc Hin ltac:(apply elem_of_app; right; by left)); mlia.
Qed.

(** A chunk as it is can be finished: shrinking in place. *)
Lemma heap_grown s l p z r B :
  heap s (l ++ (p, z, true) :: r) B None -> grown s l p z r B.
Proof.
  intros H. destruct (heap_hdr0 _ _ _ _ _ _ _ _ H) as [_ (q & Hn & _)]. pose proof Hn as (_ & Hw & Hq & _).
  exists q, true. split_and!; [done|lia|lia|]. apply heap_exempt. eapply heap_same_mem; [exact H|].
  intros a. rewrite word_at_insert. destruct (Z.eqb_spec (p + z) a) as [<-|]; done.
Qed.

(** Two neighbours become one chunk: the free one is off its bin, and anything
    may have been written between the first header and the end. *)
Lemma grown_merge s m' l c a u d b v r B X :
  heap s (l ++ (c, a, u) :: (d, b, v) :: r) B X ->
  X = Some (if u then d else c) -> v = negb u ->
  (∀ x, word_at m' x ≠ word_at (mem s) x -> c < x < c + a + b) ->
  grown (set_mem m' s) l c (a + b) r B.
Proof.
  intros H HX -> Hs. pose proof (hp_contig _ _ _ _ H) as Hc.
  pose proof (contig_mid _ _ _ _ _ _ _ Hc) as (Hcl & ? & ? & Hcd). simpl in Hcd.
  destruct Hcd as (-> & ? & ? & Hcr).
  assert (heap s ((l ++ [(c, a, u)]) ++ (c + a, b, negb u) :: r) B X) as Hm by (by rewrite <- app_assoc).
  destruct (heap_hdr0 _ _ _ _ _ _ _ _ Hm) as [_ (q & (_ & Hw & Hq & _) & _)].
  replace (c + a + b) with (c + (a + b)) in * by lia.
  assert (∀ x, x <= c ∨ c + (a + b) <= x -> word_at m' x = word_at (mem s) x) as Hsame.
  { intros x Hx. destruct (decide (word_at m' x = word_at (mem s) x)) as [|Hne]; [done|]. pose proof (Hs x Hne). lia. }
  pose proof (contig_mid_2 _ _ _ (a + b) true _ _ Hcl ltac:(mlia) ltac:(Z.div_mod_to_equations; lia) Hcr) as Hc'.
  exists q, (negb u). simpl. split_and!; [rewrite Hsame by lia; done|lia|lia|].
  set (m := <[_ := _]> m'). change (set_mem m (set_mem m' s)) with (set_mem m s).
  pose proof (contig_le _ _ _ Hcl).
  assert (∀ x, x <= c ∨ c + (a + b) < x -> word_at m x = word_at (mem s) x) as Hsame'.
  { intros x Hx. unfold m. rewrite word_at_insert_ne by mlia. apply Hsame. lia. }
  pose proof (hp_hdr _ _ _ _ (heap_exempt c _ _ _ _ H)) as Hh.
  apply (hdr_split _ _ _ _ _ _ _ _ Hc) in Hh as (Hp1 & _ & _ & Hp2). cbn [hdr_rest] in Hp2.
  apply (hdr_ok_head _ _ _ _ _ _ Hcr) in Hp2 as [_ Hp2].
  eapply heap_change; [exact (heap_exempt c _ _ _ _ H)| |exact Hc'| |].
  - intros x y z Hx Hin HXy ?.
    assert (c < x <= c + (a + b)) by (destruct (decide (c < x <= c + (a + b))); [done|destruct Hx; apply Hsame'; lia]).
    pose proof (contig_in _ _ _ _ _ _ Hc Hin).
    destruct (contig_disj _ _ _ c a u _ _ _ Hc ltac:(apply elem_of_app; right; by left) Hin) as [(<- & <- & ->)|?]; [done|].
    destruct (contig_disj _ _ _ (c + a) b (negb u) _ _ _ Hc ltac:(apply elem_of_app; right; right; by left) Hin)
      as [(<- & <- & Hu)|?]; [|mlia]. by destruct u.
  - rewrite (hdr_split _ _ _ _ _ _ _ _ Hc'). split_and!.
    + eapply (hdr_pre_frame (mem s)); [|done]. intros x y w Hin. pose proof (contig_in _ _ _ _ _ _ Hcl Hin).
      apply Hsame'; mlia.
    + intros He. by destruct He.
    + intros _. exists q. unfold m. by rewrite word_at_insert_eq.
    + eapply (hdr_rest_frame (mem s)); [exact Hcr| |done]. intros x Hx. apply Hsame'. lia.
  - apply (free_swap (m_hBottom (m_pstHead s)) l [(c, a, u); (c + a, b, negb u)] [(c, a + b, true)] r (m_hTop (m_pstHead s))); try done.
    + intros x Hx. destruct u; simplify_eq; in_list.
    + intros x w Hin. cases_in Hin; by destruct u; simplify_eq.
    + intros x w Hin. cases_in Hin. simplify_eq.
Qed.

(** ** Copying the user's bytes *)

Lemma copy_words_run k dst src s :
  (∀ j, 0 <= j < Z.of_nat k -> seg s (src + 8 * j) ∧ seg s (dst + 8 * j)) ->
  dst <= src ∨ src + 8 * Z.of_nat k <= dst ->
  ∃ m, copy_words k dst src s = Some (tt, set_mem m s) ∧
       (∀ x, word_at m x ≠ word_at (mem s) x -> dst <= x < dst + 8 * Z.of_nat k) ∧
       (∀ j, 0 <= j < Z.of_nat k -> word_at m (dst + 8 * j) = word_at (mem s) (src + 8 * j)).
Proof.
  revert dst src s. induction k as [|k IH]; intros dst src s Hseg Hd; cbn [copy_words].
  { exists (mem s). split_and!; [by destruct s|done|lia]. }
  destruct (Hseg 0 ltac:(lia)) as [Hs0 Hd0]. rewrite !Z.add_0_r in Hs0, Hd0.
  mstep (ld_ok s src Hs0). mstep (st_ok s dst (word_at (mem s) src) Hd0).
  set (s1 := set_mem _ s).
  destruct (IH (dst + 8) (src + 8) s1) as (m & Hm & Hout & Hin).
  { intros j Hj. destruct (Hseg (j + 1) ltac:(lia)) as [? ?].
    replace (src + 8 + 8 * j) with (src + 8 * (j + 1)) by lia. by replace (dst + 8 + 8 * j) with (dst + 8 * (j + 1)) by lia. }
  { lia. }
  exists m. split; [exact Hm|]. split.
  - intros x Hx. destruct (decide (x = dst)) as [->|]; [lia|].
    assert (dst + 8 <= x < dst + 8 + 8 * Z.of_nat k); [|lia]. apply Hout. simpl. by rewrite word_at_insert_ne by done.
  - intros j Hj. destruct (decide (j = 0)) as [->|].
    + rewrite !Z.add_0_r. destruct (decide (word_at m dst = word_at (mem s1) dst)) as [->|Hne].
      * simpl. by rewrite word_at_insert_eq.
      * apply Hout in Hne. lia.
    + replace (dst + 8 * j) with (dst + 8 + 8 * (j - 1)) by lia. rewrite Hin by lia. simpl.
      replace (src + 8 + 8 * (j - 1)) with (src + 8 * j) by lia. by rewrite word_at_insert_ne by lia.
Qed.

Lemma copy_user_run s dst src size :
  seg s src -> seg s dst -> seg s (src + size) -> seg s (dst + size) ->
  8 <= size -> dst <= src ∨ src + size <= dst ->
  ∃ m, copy_user dst src size s = Some (tt, set_mem m s) ∧
       (∀ x, word_at m x ≠ word_at (mem s) x -> dst < x <= dst + size) ∧
       copied (mem s) m src dst size.
Proof.
  intros Hs Hd Hse Hde Hsz Hor. unfold copy_user.
  assert (size mod 8 = 0) as H8 by (destruct Hs as (? & _), Hse as (? & _); Z.div_mod_to_equations; lia).
  assert (size = 8 * (size / 8)) as Hs8 by (Z.div_mod_to_equations; lia).
  assert (Z.of_nat (Z.to_nat (size / 8 - 1)) = size / 8 - 1) as Hk by lia.
  destruct (copy_words_run (Z.to_nat (size / 8 - 1)) (dst + 8) (src + 8) s) as (m & Hm & Hout & Hin).
  { rewrite Hk. intros j Hj. destruct Hs as (? & ? & ?), Hse as (? & ? & ?), Hd as (? & ? & ?), Hde as (? & ? & ?).
    split; (split_and!; [Z.div_mod_to_equations; lia|lia|lia]). }
  { lia. }
  rewrite Hk in Hout, Hin. mstep Hm. set (s1 := set_mem m s).
  assert (seg s1 (src + size) ∧ seg s1 (dst + size)) as [? ?] by done.
  unfold m_tPreSize. rewrite (step_bind (ld _ ≫= _) _ _ _ _ (step_bind _ _ _ _ _ (ld_ok s1 (src + size) ltac:(done)))).
  rewrite set_tPreSize_raw; [|done|apply Z.mod_pos_bound; lia].
  eexists. split; [reflexivity|]. simpl. split.
  - intros x Hx. destruct (decide (x = dst + size)) as [->|]; [lia|].
    rewrite word_at_insert_ne in Hx by lia. apply Hout in Hx. lia.
  - split.
    + intros j Hj0 Hj. assert (j < size / 8) by (Z.div_mod_to_equations; lia). rewrite word_at_insert_ne by lia.
      replace (dst + 8 * j) with (dst + 8 + 8 * (j - 1)) by lia. rewrite Hin by lia. f_equal. lia.
    + rewrite word_at_insert_eq, w_pre_mk by (apply Z.mod_pos_bound; lia). f_equal.
      destruct (decide (word_at m (src + size) = word_at (mem s) (src + size))) as [|Hne]; [done|].
      apply Hout in Hne. lia.
Qed.

(** ** The ways to grow *)

(** What resizing the block [p] of [z] bytes does to the chunks [l], [r] around
    it: nothing fits and all is as before, or the block [c] of at least [t]
    bytes takes its place and holds its first words. *)
Definition resized (l : list chunk) (p z : Z) (r : list chunk) (t : Z) (s : CBinMalloc) (h : Z) (s' : CBinMalloc) : Prop :=
  cfg s' = cfg s ∧ keep (l ++ r) s s' ∧ ∃ cs' B', heap s' cs' B' None ∧ coal true cs' ∧
  ((h = 0 ∧ used cs' = used (l ++ (p, z, true) :: r) ∧ keep (l ++ (p, z, true) :: r) s s') ∨
   (∃ c y L1 L2, h = chunk2mem c ∧ c ≠ 0 ∧ used (l ++ r) = L1 ++ L2 ∧ used cs' = L1 ++ (c, y) :: L2 ∧ t <= y ∧
      copied (mem s) (mem s') p c (Z.min z t))).

(** A block that stays at [p]. *)
Lemma resized_in_place l p z r t s s' cs' B' y :
  heap s' cs' B' None -> coal true cs' -> p ≠ 0 -> used cs' = used l ++ (p, y) :: used r -> t <= y ->
  MINSIZE <= z -> MINSIZE <= t -> keep (l ++ r) s s' -> user_kept (mem s) (mem s') p (Z.min z t) ->
  cfg s' = cfg s -> resized l p z r t s (chunk2mem p) s'.
Proof.
  intros H Hco Hp0 Hu Hy Hz Ht Hk Hkp Hc. split; [done|]. split; [done|]. exists cs', B'. do 2 (split; [done|]). right.
  exists p, y, (used l), (used r). split_and!; [done|done|by rewrite used_app|done|done|].
  apply (user_kept_copied _ _ _ (Z.min z t)); [done|mlia].
Qed.

Lemma realloc_top_run s l p z B t :
  heap s (l ++ [(p, z, true)]) B None -> coalp true l -> z < t < 2 ^ 32 - 8 -> t mod 8 = 0 ->
  m_hTop (m_pstHead s) + (t - z) + MINSIZE < m_tSize (m_pstHead s) ->
  runs (realloc_top p z t) s (resized l p z [] t s).
Proof.
  intros H Hcl Ht Ht8 Hroom. pose proof (heap_mid_in _ _ _ _ _ _ _ _ H) as Hr.
  pose proof (hp_contig _ _ _ _ H) as Hc. destruct (contig_mid _ _ _ _ _ _ _ Hc) as (Hcl' & _ & _ & He). simpl in He.
  destruct (heap_hdr0 _ _ _ _ _ _ _ _ H) as [(q & Hp & Hql) _]. unfold realloc_top.
  eapply runs_step; [apply gets_ok|]. eapply runs_step; [apply (m_tChunkSize_hdr _ _ _ _ _ Hp)|].
  rewrite land_bits, REAL_SIZE_id, lor_b2z by (done || tauto).
  eapply runs_step; [apply (set_tSize_hdr _ _ _ _ _ Hp t); [done|mlia]|].
  set (m1 := <[p := _]> (mem s)). set (s1 := set_mem m1 s).
  rewrite <- He in *. replace (p + z + (t - z)) with (p + t) in * by lia.
  assert (seg s (p + t)) as Hsg.
  { destruct Hr as (? & ? & ? & ? & ? & ? & ? & ?). split_and!; [Z.div_mod_to_equations; lia|mlia..]. }
  eapply runs_step; [apply (set_tPreSize_raw s1 (p + t) t Hsg); mlia|].
  set (m2 := <[p + t := _]> (mem s1)). set (s2 := set_mem m2 s1).
  eapply runs_step; [apply (set_tSize_raw s2 (p + t) PREV_INUSE Hsg); done|].
  set (m3 := <[p + t := _]> (mem s2)). set (s3 := set_mem m3 s2).
  eapply runs_step; [apply put_head_ok|]. set (s4 := set_m_pstHead _ s3).
  eapply (runs_step _ _ _ tt (set_statMemoryTop (p + t) s4)); [done|]. set (s5 := set_statMemoryTop _ s4).
  eapply runs_eq; [apply Ptr2Handle_ok; unfold chunk2mem; simpl; mlia|].
  assert (∀ a, a ≠ p -> a ≠ p + t -> word_at m3 a = word_at (mem s) a) as Hsame.
  { intros a ??. unfold m3, s2, m2, s1, m1. simpl. by rewrite !word_at_insert_ne by lia. }
  eapply (resized_in_place _ _ _ _ _ _ _ (l ++ [(p, t, true)]) B t); try done.
  - eapply heap_tail; [exact H|..]; try done.
    + intros x Hx. simpl in Hx. cases_in Hx; by subst.
    + intros x w u a Hin Ha. pose proof (contig_in _ _ _ _ _ _ Hcl' Hin). apply Hsame; mlia.
    + apply contig_mid_2; [done|mlia|done|done].
    + simpl. lia.
    + simpl. split.
      * intros _. exists q. unfold m3, s2, m2, s1, m1. simpl. rewrite !word_at_insert_ne by mlia.
        rewrite word_at_insert_eq. by destruct Hp as (_ & _ & ? & _).
      * apply hdr_is_exact; [|mlia]. unfold m3. rewrite word_at_insert_eq. simpl. unfold m2.
        rewrite word_at_insert_eq. by rewrite w_pre_mk by mlia.
  - apply coal_app. split; [done|]. split; [by right|done].
  - lia.
  - by rewrite used_app.
  - mlia.
  - mlia.
  - rewrite app_nil_r. intros c w Hin. pose proof (contig_in _ _ _ _ _ _ Hcl' Hin). simpl.
    split; [intros a Ha; apply Hsame; mlia|]. destruct (decide (c + w = p)) as [->|]; [|by rewrite Hsame by mlia].
    unfold m3, s2, m2, s1, m1. simpl. rewrite !word_at_insert_ne, word_at_insert_eq by mlia.
    destruct Hp as (_ & -> & ? & _). unfold hdr_word. by rewrite !w_pre_mk.
  - rewrite Z.min_l by lia. apply user_kept_same; [|mlia]. intros a Ha. simpl. apply Hsame; lia.
Qed.

(** Anything may be written inside the chunks in use. *)
Lemma heap_user s m' cs B :
  heap s cs B None ->
  (∀ x, word_at m' x ≠ word_at (mem s) x -> ∃ c z, (c, z, true) ∈ cs ∧ c < x < c + z) ->
  heap (set_mem m' s) cs B None.
Proof.
  intros H Hs. pose proof (hp_contig _ _ _ _ H) as Hc.
  eapply heap_change; [exact H| |exact Hc| |done].
  - intros x y z Hx Hin _ ?. destruct (Hs x Hx) as (c & w & Hin' & ?).
    destruct (contig_disj _ _ _ _ _ _ _ _ _ Hc Hin Hin') as [(_ & _ & ?)|[?|?]]; [done|lia..].
  - assert (∀ x, (∃ z u, (x, z, u) ∈ cs) ∨ x = m_hTop (m_pstHead s) -> word_at m' x = word_at (mem s) x) as Hhd.
    { intros x Hx. destruct (decide (word_at m' x = word_at (mem s) x)) as [|Hne]; [done|exfalso].
      destruct (Hs x Hne) as (c & w & Hin' & ?). pose proof (contig_in _ _ _ _ _ _ Hc Hin').
      destruct Hx as [(z & u & Hin)|Hx]; [|lia]. pose proof (contig_in _ _ _ _ _ _ Hc Hin).
      destruct (contig_disj _ _ _ _ _ _ _ _ _ Hc Hin Hin'); mlia. }
    eapply hdr_ok_frame; [|apply Hhd; by right|apply H]. intros x z u Hin. apply Hhd. eauto.
Qed.

Lemma app_cons_app {A} (l r l1 l2 : list A) x :
  l ++ x :: r = l1 ++ l2 ->
  (∃ k, l1 = l ++ x :: k ∧ r = k ++ l2) ∨ (∃ k, l = l1 ++ k ∧ l2 = k ++ x :: r).
Proof.
  intros H. apply app_eq_app in H as (k & [(-> & ->)|(-> & H)]); [right; by exists k|].
  destruct k as [|y k]; simplify_eq/=; [right|left; by exists k].
  exists []. by rewrite !app_nil_r.
Qed.

(** Two blocks in use at different places of the list do not overlap. *)
Lemma used_apart s cs B L1 c y L2 p z :
  heap s cs B None -> used cs = L1 ++ (c, y) :: L2 -> (p, z) ∈ L1 ++ L2 ->
  p + z <= c ∨ c + y <= p.
Proof.
  intros H Hu Hin. destruct (used_split _ _ _ _ _ Hu) as (l & r & -> & <- & <-).
  destruct (contig_mid _ _ _ _ _ _ _ (hp_contig _ _ _ _ H)) as (Hcl & _ & _ & Hcr).
  apply elem_of_app in Hin as [Hin|Hin]; apply elem_of_used in Hin.
  - pose proof (contig_in _ _ _ _ _ _ Hcl Hin). lia.
  - pose proof (contig_in _ _ _ _ _ _ Hcr Hin). lia.
Qed.

Lemma realloc_move_run s l p z r B n req :
  heap s (l ++ (p, z, true) :: r) B None -> coal true (l ++ (p, z, true) :: r) ->
  MINSIZE <= min_size s -> 0 <= req -> REQUEST_OUT_OF_RANGE req = false -> z < request2size req ->
  runs (realloc_move (S n) p z req) s (resized l p z r (request2size req) s).
Proof.
  intros H Hco Hmn Hr0 Hreq Hz. pose proof (heap_mid_in _ _ _ _ _ _ _ _ H) as Hr.
  set (t := request2size req) in *. unfold realloc_move.
  eapply runs_bind; [by apply InterMalloc_run|]. rewrite Hreq. fold t.
  intros h s1 (Hc1 & Hk1 & cs1 & B1 & H1 & Hco1 & [(-> & -> & _)|(c & y & L1 & L2 & -> & Hc0 & HL & Hu1 & Hy)]).
  { change INVALID_HANDLE with 0. cbn [Z.eqb]. apply runs_ret. split; [done|].
    apply keep_unchanged in Hk1. split; [by eapply keep_mid|]. eexists _, B1. do 2 (split; [done|]). by left. }
  pose proof (hp_contig _ _ _ _ H1) as Hct1. destruct (cfg_sizes _ _ Hc1) as [Hb Hsz].
  assert ((c, y, true) ∈ cs1) as Hcin by (apply elem_of_used; rewrite Hu1; apply elem_of_app; right; by left).
  pose proof (heap_in _ _ _ _ _ _ _ H1 Hcin) as Hcr.
  assert ((p, z) ∈ L1 ++ L2) as HpL by (rewrite <- HL; apply elem_of_used, elem_of_app; right; by left).
  pose proof (used_apart _ _ _ _ _ _ _ _ _ H1 Hu1 HpL) as Hap.
  unfold chunk2mem, mem2chunk, INVALID_HANDLE. destruct (Z.eqb_spec (c + 8) 0); [lia|].
  replace (c + 8 - 8) with c by lia. eapply runs_step; [apply Ptr2Handle_ok; mlia|].
  assert (∀ x, x mod 8 = 0 -> m_hBottom (m_pstHead s1) <= x -> x + MINSIZE <= m_tSize (m_pstHead s1) -> seg s1 x) as Hsg.
  { intros x ???. split_and!; [done|done|mlia]. }
  assert (p mod 8 = 0 ∧ z mod 8 = 0 ∧ c mod 8 = 0) as (Hp8 & Hz8 & Hc8) by tauto.
  destruct (copy_user_run s1 c p z) as (m & Hm & Hout & Hin); [apply Hsg; Z.div_mod_to_equations; mlia..|mlia|mlia|].
  eapply runs_step; [exact Hm|]. set (s2 := set_mem m s1).
  assert (heap s2 cs1 B1 None) as H2.
  { apply heap_user; [done|]. intros x Hx%Hout. exists c, y. split; [done|mlia]. }
  assert (∃ l2 r2, cs1 = l2 ++ (p, z, true) :: r2 ∧ ∃ M1 M2, used l2 ++ used r2 = M1 ++ (c, y) :: M2 ∧ M1 ++ M2 = used l ++ used r)
    as (l2 & r2 & -> & M1 & M2 & HM & HMu).
  { rewrite used_app, used_cons in HL. apply app_cons_app in HL as [(k & -> & Hk)|(k & Hk & ->)].
    - rewrite <- app_assoc in Hu1. destruct (used_split _ _ _ _ _ Hu1) as (l2 & r2 & -> & Hl2 & Hr2).
      exists l2, r2. split; [done|]. exists (used l ++ k), L2. by rewrite Hl2, Hr2, Hk, <- !app_assoc.
    - rewrite app_comm_cons, app_assoc in Hu1. destruct (used_split _ _ _ _ _ Hu1) as (l2 & r2 & -> & Hl2 & Hr2).
      exists l2, r2. split; [done|]. exists L1, (k ++ used r). by rewrite Hl2, Hr2, Hk, <- !app_assoc. }
  eapply runs_bind; [eapply InterFree_run; [exact H2|done|mlia|by left]|].
  intros [e ez] s3 (_ & cs3 & B3 & H3 & _ & Hco3 & Hu3 & _ & Hk3 & Hc3). apply runs_ret.
  rewrite used_app, HM in Hu3.
  assert (∀ d w, (d, w) ∈ used l ++ used r -> (d, w, true) ∈ l2 ++ r2) as Hsub.
  { intros d w Hd. apply elem_of_used. rewrite used_app, HM. rewrite <- HMu in Hd.
    apply elem_of_app in Hd as [?|?]; apply elem_of_app; [by left|right; by right]. }
  split; [by rewrite Hc3|]. split.
  - intros d w Hd. assert ((d, w) ∈ used l ++ used r) as Hd' by (by rewrite <- used_app; apply elem_of_used).
    eapply user_kept_trans; [|by apply Hk3, Hsub]. eapply user_kept_trans; [apply Hk1, elem_of_used|].
    2: { assert ((d, w) ∈ L1 ++ L2) as HdL.
      { rewrite <- HL. rewrite used_app, used_cons. apply elem_of_app in Hd' as [?|?]; apply elem_of_app; [by left|right; by right]. }
      pose proof (used_apart _ _ _ _ _ _ _ _ _ H1 Hu1 HdL). apply user_kept_same.
      - intros a Ha. simpl. destruct (decide (word_at m a = word_at (mem s1) a)) as [|Hne]; [done|].
        pose proof (Hout a Hne). mlia.
      - apply elem_of_used in Hd. rewrite used_app in Hd.
        assert ((d, w, true) ∈ l ++ (p, z, true) :: r) as Hd2.
        { apply elem_of_used. rewrite used_app, used_cons. apply elem_of_app in Hd as [?|?]; apply elem_of_app; [by left|right; by right]. }
        pose proof (heap_in _ _ _ _ _ _ _ H Hd2). mlia. }
    apply elem_of_app in Hd as [?|?]; apply elem_of_app; [by left|right; by right].
  - exists cs3, B3. do 2 (split; [done|]). right. exists c, y, M1, M2.
    split_and!; [done|lia|by rewrite used_app|done|done|]. rewrite Z.min_l by lia.
    assert ((c, y, true) ∈ l2 ++ r2) as Hc2 by (apply elem_of_used; rewrite used_app, HM; apply elem_of_app; right; by left).
    eapply copied_trans; [|eapply (keep_copied _ _ _ _ _ _ Hk3 Hc2); mlia].
    eapply copied_trans; [|exact Hin]. apply (user_kept_copied _ _ _ z); [|mlia].
    apply Hk1, elem_of_used, elem_of_app. right. by left.
Qed.

Lemma finish_next_run s l p z d ns r B t pre :
  heap s (l ++ (p, z, true) :: (d, ns, false) :: r) B None ->
  coal true (l ++ (p, z, true) :: (d, ns, false) :: r) -> MINSIZE <= min_size s ->
  MINSIZE <= t <= z + ns -> t mod 8 = 0 -> w_pre (word_at (mem s) p) = pre -> (lus true l = false -> pre = lsz 0 l) ->
  runs (h ← Ptr2Handle (p + z); UnlinkBin (Bin (bin_index ns)) h;;
        realloc_finish p (z + ns) t (lus true l) pre) s
       (resized l p z ((d, ns, false) :: r) t s).
Proof.
  intros H Hco Hmn Ht Ht8 Hpre Hl. destruct (CAN_COMBILE_ok _ _ _ _ _ _ _ _ _ _ _ H) as (-> & _).
  assert ((p + z, ns, false) ∈ l ++ (p, z, true) :: (p + z, ns, false) :: r) as Hin.
  { apply elem_of_app. right. right. by left. }
  pose proof (heap_in _ _ _ _ _ _ _ H Hin) as Hr. pose proof (heap_mid_in _ _ _ _ _ _ _ _ H) as Hr'.
  apply coal_app in Hco as [Hcl [_ [_ Hco]]]. apply coal_weaken in Hco.
  eapply runs_step; [apply Ptr2Handle_ok; mlia|].
  destruct (heap_UnlinkBin _ _ _ _ _ H Hin) as (s1 & B1 & Hrun & H1 & Hk1 & Hh1 & Hc1 & Hhd).
  eapply runs_step; [exact Hrun|].
  assert (grown s1 l p (z + ns) r B1) as Hg.
  { replace s1 with (set_mem (mem s1) s1) by (by destruct s1). by eapply grown_merge. }
  eapply runs_mono.
  { eapply realloc_finish_run; [exact Hg|done|done|by rewrite (min_size_cfg _ _ Hc1)|done|done| |done].
    rewrite (Hhd p z true); [done|apply elem_of_app; right; by left]. }
  intros h s2 (-> & cs' & B' & y & H2 & Hco2 & Hu2 & Hy & Hk2 & Hc2).
  split; [congruence|]. split.
  { eapply keep_trans; [by eapply keep_mid|]. eapply keep_sub; [exact Hk2|]. intros c w.
    rewrite !elem_of_app, !elem_of_cons. intros [?|[?|?]]; [by left|done|tauto]. }
  assert (copied (mem s) (mem s1) p p (Z.min z t)) as Hcp1.
  { eapply keep_copied; [exact Hk1|apply elem_of_app; right; by left|mlia]. }
  exists cs', B'. do 2 (split; [done|]). right. exists p, y, (used l), (used r).
  split_and!; [done|lia|by rewrite used_app|done|lia|]. eapply copied_trans; [exact Hcp1|].
  eapply keep_copied; [exact Hk2|apply elem_of_app; right; by left|mlia].
Qed.

Lemma finish_prev_run s l h w p z r B t :
  heap s (l ++ (h, w, false) :: (p, z, true) :: r) B None ->
  coal true (l ++ (h, w, false) :: (p, z, true) :: r) -> MINSIZE <= min_size s ->
  MINSIZE <= t <= z + w -> t mod 8 = 0 ->
  runs (pin ← prev_inuse h; pps ← m_tPreSize h;
        UnlinkBin (Bin (bin_index w)) h;; copy_user h p z;;
        realloc_finish h (z + w) t pin pps) s
       (resized (l ++ [(h, w, false)]) p z r t s).
Proof.
  intros H Hco Hmn Ht Ht8. destruct (CAN_COMBILE_ok _ _ _ _ _ _ _ _ _ _ _ H) as (-> & _).
  assert ((h, w, false) ∈ l ++ (h, w, false) :: (h + w, z, true) :: r) as Hin by (apply elem_of_app; right; by left).
  assert ((h + w, z, true) ∈ l ++ (h, w, false) :: (h + w, z, true) :: r) as Hpin.
  { apply elem_of_app. right. right. by left. }
  pose proof (heap_in _ _ _ _ _ _ _ H Hin) as Hr. pose proof (heap_in _ _ _ _ _ _ _ H Hpin) as Hr'.
  apply coal_app in Hco as [Hcl [_ [_ Hco]]].
  destruct (heap_hdr0 _ _ _ _ _ _ _ _ H) as [(q & Hh & Hq) _].
  eapply runs_step; [apply (prev_inuse_hdr _ _ _ _ _ Hh)|].
  eapply runs_step; [apply (m_tPreSize_hdr _ _ _ _ _ Hh)|].
  destruct (heap_UnlinkBin _ _ _ _ _ H Hin) as (s1 & B1 & Hrun & H1 & Hk1 & Hh1 & Hc1 & Hhd).
  eapply runs_step; [exact Hrun|]. destruct (cfg_sizes _ _ Hc1) as [Hb Hsz].
  assert (h mod 8 = 0 ∧ w mod 8 = 0 ∧ z mod 8 = 0) as (Hh8 & Hw8 & Hz8) by tauto.
  assert (∀ x, x mod 8 = 0 -> m_hBottom (m_pstHead s1) <= x -> x + MINSIZE <= m_tSize (m_pstHead s1) -> seg s1 x) as Hsg.
  { intros x ???. split_and!; [done|done|mlia]. }
  destruct (copy_user_run s1 h (h + w) z) as (m & Hm & Hout & Hcp); [apply Hsg; Z.div_mod_to_equations; mlia..|mlia|mlia|].
  eapply runs_step; [exact Hm|]. set (s2 := set_mem m s1).
  assert (grown s2 l h (z + w) r B1) as Hg.
  { rewrite (Z.add_comm z w). eapply grown_merge; [exact H1|done|done|]. intros x Hx%Hout. mlia. }
  assert (0 <= q < 2 ^ 32) as Hq2 by (destruct Hh as (_ & _ & ? & _); done).
  eapply runs_mono.
  { eapply realloc_finish_run; [exact Hg|done|done|by rewrite (min_size_cfg s1 s2), (min_size_cfg _ _ Hc1)|done|done| |done].
    simpl. replace (word_at m h) with (word_at (mem s) h).
    - destruct Hh as (_ & -> & _). by apply w_pre_mk.
    - rewrite <- (Hhd h w false Hin). destruct (decide (word_at m h = word_at (mem s1) h)) as [|Hne]; [done|].
      apply Hout in Hne. lia. }
  intros h' s3 (-> & cs' & B' & y & H3 & Hco3 & Hu3 & Hy & Hk3 & Hc3).
  assert (∀ d v, (d, v, true) ∈ l ++ r ->
            (d, v, true) ∈ l ++ (h, t, true) :: r ∧ user_kept (mem s) m d v) as Hk.
  { intros d v Hd. split; [apply elem_of_app in Hd as [?|?]; apply elem_of_app; [by left|right; by right]|].
    assert ((d, v, true) ∈ l ++ (h, w, false) :: (h + w, z, true) :: r) as Hd'.
    { apply elem_of_app in Hd as [?|?]; apply elem_of_app; [by left|right; by do 2 right]. }
    eapply user_kept_trans; [by apply Hk1|]. pose proof (heap_in _ _ _ _ _ _ _ H Hd') as Hrd.
    apply user_kept_same; [|mlia]. intros a Ha.
    destruct (decide (word_at m a = word_at (mem s1) a)) as [|Hne]; [done|].
    apply Hout in Hne. exfalso. pose proof (hp_contig _ _ _ _ H) as Hc.
    destruct (contig_disj _ _ _ _ _ _ _ _ _ Hc Hin Hd') as [(_ & _ & ?)|?]; [done|].
    assert (d = h + w -> False).
    { intros ->. destruct (contig_mid _ _ _ _ _ _ _ Hc) as (Hcl1 & _ & _ & (_ & _ & _ & Hcr1)).
      apply elem_of_app in Hd as [Hd|Hd]; [pose proof (contig_in _ _ _ _ _ _ Hcl1 Hd)|pose proof (contig_in _ _ _ _ _ _ Hcr1 Hd)]; mlia. }
    destruct (contig_disj _ _ _ _ _ _ _ _ _ Hc Hpin Hd') as [(? & _)|?]; mlia. }
  split; [rewrite Hc3; exact Hc1|]. split.
  { intros d v Hd. rewrite <- app_assoc in Hd. assert ((d, v, true) ∈ l ++ r) as Hd'.
    { apply elem_of_app in Hd as [?|[?|?]%elem_of_cons]; apply elem_of_app; [by left|done|by right]. }
    destruct (Hk d v Hd') as [Hdt Hkd]. eapply user_kept_trans; [exact Hkd|by apply Hk3]. }
  exists cs', B'. do 2 (split; [done|]). right. exists h, y, (used l), (used r).
  split_and!; [done|lia|rewrite !used_app; simpl; by rewrite app_nil_r|done|lia|].
  assert (Z.min z t mod 8 = 0) as Hm8 by (destruct (Z.min_spec z t) as [[_ ->]|[_ ->]]; done).
  eapply copied_trans; [|eapply (keep_copied _ _ _ h t); [exact Hk3|apply elem_of_app; right; by left|mlia]].
  eapply (copied_prefix _ _ _ _ z); [|done|mlia]. eapply copied_trans; [|exact Hcp].
  eapply (keep_copied _ _ _ _ z z); [exact Hk1|exact Hpin|mlia].
Qed.

(** The test for the free chunk behind. *)
Lemma grow_next_run s l p z r B t :
  heap s (l ++ (p, z, true) :: r) B None ->
  grow_next p z t s = Some (match r with
                            | (_, ns, false) :: _ => if t <=? z + ns then Some ns else None
                            | _ => None
                            end, s).
Proof.
  intros H. unfold grow_next. mstep (AT_TOP_ok p z s). pose proof (heap_top_iff _ _ _ _ _ _ _ _ H) as Ht.
  destruct r as [|[[d ns] v] r].
  { by rewrite (proj2 Ht eq_refl), Z.eqb_refl. }
  destruct (Z.eqb_spec (p + z) (m_hTop (m_pstHead s))) as [He|_]; [by apply Ht in He|].
  destruct (heap_hdr0 _ _ _ _ _ _ _ _ H) as [_ (q & Hn & _)]. change (nsz ((d, ns, v) :: r)) with ns in Hn.
  destruct (CAN_COMBILE_ok _ _ _ _ _ _ _ _ _ _ _ H) as (-> & _).
  assert (heap s ((l ++ [(p, z, true)]) ++ (p + z, ns, v) :: r) B None) as H' by (by rewrite <- app_assoc).
  destruct (heap_hdr0 _ _ _ _ _ _ _ _ H') as [_ (q' & Hn' & _)].
  mstep (CHUNK_SIZE_hdr _ _ _ _ _ Hn). unfold inuse_bit_at_offset. mstep (prev_inuse_hdr _ _ _ _ _ Hn').
  by destruct v.
Qed.

Lemma realloc_grow_run s l p z r B n req :
  heap s (l ++ (p, z, true) :: r) B None -> coal true (l ++ (p, z, true) :: r) ->
  MINSIZE <= min_size s -> 0 <= req -> REQUEST_OUT_OF_RANGE req = false -> z < request2size req ->
  runs (realloc_grow (S n) p z (request2size req) req) s (resized l p z r (request2size req) s).
Proof.
  intros H Hco Hmn Hr0 Hreq Hz. destruct (request2size_spec req Hr0 Hreq) as (Ht1 & Ht2 & Ht8 & _).
  pose proof (heap_mid_in _ _ _ _ _ _ _ _ H) as Hr. unfold realloc_grow.
  pose proof (realloc_move_run _ _ _ _ _ _ n _ H Hco Hmn Hr0 Hreq Hz) as Hmove.
  set (t := request2size req) in *. destruct (heap_hdr0 _ _ _ _ _ _ _ _ H) as [(q & Hp & Hql) _].
  pose proof Hp as (_ & _ & Hq & _).
  eapply runs_step; [apply (prev_inuse_hdr _ _ _ _ _ Hp)|].
  eapply runs_step; [apply (m_tPreSize_hdr _ _ _ _ _ Hp)|].
  eapply runs_step; [apply AT_TOP_ok|]. do 2 (eapply runs_step; [apply gets_ok|]).
  pose proof Hco as [Hcl _]%coal_app. pose proof (heap_top_iff _ _ _ _ _ _ _ _ H) as Htop.
  destruct (_ && _) eqn:Hc1.
  { apply andb_prop in Hc1 as [He%Z.eqb_eq Hroom%Z.ltb_lt]. apply Htop in He as ->.
    eapply realloc_top_run; done || lia. }
  eapply runs_step; [by apply (grow_next_run _ _ _ _ _ _ t H)|].
  assert (runs (if negb (lus true l) && (t <=? u32 (z + q)) then
            pin ← prev_inuse (p - q); pps ← m_tPreSize (p - q);
            UnlinkBin (Bin (bin_index q)) (p - q);; copy_user (p - q) p z;;
            realloc_finish (p - q) (z + q) t pin pps
          else realloc_move (S n) p z req) s (resized l p z r t s)) as Hprev.
  { destruct l as [|[[h w] v] l _] using rev_ind; [done|]. rewrite lus_snoc, lsz_snoc in *.
    destruct v; [done|]. rewrite Hql in * by done. cbn [negb andb].
    assert (heap s (l ++ (h, w, false) :: (p, z, true) :: r) B None) as H' by (by rewrite <- app_assoc in H).
    destruct (CAN_COMBILE_ok _ _ _ _ _ _ _ _ _ _ _ H') as (-> & _ & _ & Hu).
    rewrite (Z.add_comm z w), Hu, (Z.add_comm w z). replace (h + w - w) with h by lia.
    destruct (Z.leb_spec t (z + w)); [|done]. rewrite <- app_assoc in Hco.
    by eapply finish_prev_run. }
  destruct r as [|[[d ns] [|]] r]; [exact Hprev..|].
  destruct (Z.leb_spec t (z + ns)); [|exact Hprev]. eapply finish_next_run; try done.
  destruct Hp as (_ & -> & ? & _). by apply w_pre_mk.
Qed.

Lemma realloc_check_run s l p z r B :
  heap s (l ++ (p, z, true) :: r) B None -> realloc_check (chunk2mem p) s = Some (Some z, s).
Proof.
  intros H. pose proof (heap_mid_in _ _ _ _ _ _ _ _ H) as Hr.
  destruct (heap_hdr0 _ _ _ _ _ _ _ _ H) as [(q & Hp & _) _].
  unfold realloc_check, mem2chunk, chunk2mem. mstep (gets_ok m_hTop s). mstep (gets_ok m_hBottom s).
  replace (p + 8 - 8) with p by lia.
  destruct (Z.leb_spec (m_hTop (m_pstHead s)) (p + 8)); [mlia|].
  destruct (Z.leb_spec (p + 8) (m_hBottom (m_pstHead s))); [mlia|]. cbn [orb].
  mstep (CHUNK_SIZE_hdr _ _ _ _ _ Hp). mstep (Ptr2Handle_ok s p ltac:(mlia)).
  destruct (Z.ltb_spec (m_hTop (m_pstHead s)) (p + z)); [mlia|].
  replace (misaligned_chunk p) with false.
  2: { unfold misaligned_chunk, MALLOC_ALIGN_MASK. change 7 with (Z.ones 3). rewrite Z.land_ones by lia.
       change (2 ^ 3) with 8. destruct Hr as (_ & _ & _ & _ & -> & _). done. }
  destruct (Z.ltb_spec z MINSIZE); [mlia|].
  assert (CheckInuseChunk p s = Some (0, s)) as Hck by (eapply CheckInuseChunk_run; [exact H|lia|by left]).
  by mstep Hck.
Qed.

Lemma InterReAlloc_run s l p z r B n req :
  heap s (l ++ (p, z, true) :: r) B None -> coal true (l ++ (p, z, true) :: r) ->
  MINSIZE <= min_size s -> 0 < req ->
  runs (InterReAlloc (S n) (chunk2mem p) req) s (λ '(h, old) s',
    if REQUEST_OUT_OF_RANGE req then h = 0 ∧ s' = s
    else old = z ∧ resized l p z r (request2size req) s h s').
Proof.
  intros H Hco Hmn Hr0. pose proof (heap_mid_in _ _ _ _ _ _ _ _ H) as Hr.
  unfold InterReAlloc. change INVALID_HANDLE with 0.
  destruct (Z.eqb_spec (chunk2mem p) 0); [unfold chunk2mem in *; lia|]. destruct (Z.eqb_spec req 0); [lia|].
  destruct (REQUEST_OUT_OF_RANGE req) eqn:Ho; [by apply runs_ret|].
  destruct (request2size_spec req ltac:(lia) Ho) as (Ht1 & Ht2 & Ht8 & _).
  eapply runs_step; [by eapply realloc_check_run|]. unfold mem2chunk, chunk2mem. replace (p + 8 - 8) with p by lia.
  eapply runs_bind with (Q := λ h s', resized l p z r (request2size req) s h s').
  2: { intros h s' Hres. by apply runs_ret. }
  destruct (Z.leb_spec (request2size req) z); [|eapply realloc_grow_run; done || lia].
  destruct (heap_hdr0 _ _ _ _ _ _ _ _ H) as [(q & Hp & Hql) _]. pose proof Hp as (_ & _ & Hq & _).
  eapply runs_step; [apply (prev_inuse_hdr _ _ _ _ _ Hp)|].
  eapply runs_step; [apply (m_tPreSize_hdr _ _ _ _ _ Hp)|].
  apply coal_app in Hco as [Hcl [_ Hcr]]. apply coal_weaken in Hcr.
  assert (w_pre (word_at (mem s) p) = q) as Hpw by (destruct Hp as (_ & -> & ? & _); by apply w_pre_mk).
  eapply runs_mono; [eapply realloc_finish_run; [by eapply heap_grown|done..]|].
  intros h s' (-> & cs' & B' & y & H2 & Hco2 & Hu2 & Hy & Hk2 & Hc2).
  eapply resized_in_place; try done; [lia..|mlia|mlia|by eapply keep_mid|].
  rewrite Z.min_r by lia. apply Hk2. apply elem_of_app. right. by left.
Qed.
