(* ===== verification/BinClient.v ===== *)
(** * BinClient: the allocator as its clients see it

    The operations of [CBinMalloc] ([src/cache/bin_malloc.cc]) stated against
    the list of blocks a client holds: [Init] makes an allocator with none,
    [Malloc], [Calloc] and [ReAlloc] add or replace one, [Free] takes one away,
    and no operation touches the bytes of the others.  The theorems need no
    assumption on the segment but that its size is at most 4 GB. *)

From stdpp Require Import gmap.
From S2P Require Import Prelude State BinMalloc BinHeap BinAlloc BinResize.

(** ** Accounting *)

Lemma heap_same s s' cs B X :
  heap s cs B X -> mem s' = mem s -> m_ptBin s' = m_ptBin s ->
  m_hBottom (m_pstHead s') = m_hBottom (m_pstHead s) -> m_hTop (m_pstHead s') = m_hTop (m_pstHead s) ->
  m_tSize (m_pstHead s') = m_tSize (m_pstHead s) ->
  m_auiBinBitMap (m_pstHead s') = m_auiBinBitMap (m_pstHead s) -> heap s' cs B X.
Proof.
  intros H Hm Hb E1 E2 E3 E4. constructor; rewrite ?Hm, ?Hb, ?E1, ?E2, ?E3, ?E4; try apply H.
  intros i Hi. unfold dll. rewrite Hb, Hm. by apply H.
Qed.

(** The running averages are all that changes. *)
Definition averaged (s s' : CBinMalloc) : Prop :=
  0 <= statTmpDataAllocCountRecently s' ∧
  mem s' = mem s ∧ m_ptBin s' = m_ptBin s ∧ m_pstHead s' = m_pstHead s ∧
  statChunkTotal s' = statChunkTotal s ∧ statDataSize s' = statDataSize s ∧ minChunkSize s' = minChunkSize s.

Lemma AddAllocSizeToStat_run n s :
  0 <= statTmpDataAllocCountRecently s -> runs (AddAllocSizeToStat n) s (λ _, averaged s).
Proof.
  intros Hc. unfold AddAllocSizeToStat.
  eapply (runs_step _ _ _ (statTmpDataAllocCountRecently s) s); [done|].
  destruct (Z.ltb_spec MAXSTATCOUNT (statTmpDataAllocCountRecently s)) as [|Hle].
  - by eapply runs_eq.
  - eapply (runs_step _ _ _ (statTmpDataSizeRecently s) s); [done|].
    do 4 (eapply (runs_step _ _ _ _ _); [reflexivity|]). simpl.
    assert (u64 (statTmpDataAllocCountRecently s + 1) = statTmpDataAllocCountRecently s + 1) as ->.
    { apply uwrap_small. unfold MAXSTATCOUNT in Hle. lia. }
    destruct (Z.eqb_spec (statTmpDataAllocCountRecently s + 1) 0); [lia|].
    eapply runs_eq; [reflexivity|]. split_and!; [simpl; lia|done..].
Qed.

Lemma holds_min_size s cs B bs :
  heap s cs B None -> used cs = bs -> acct s bs -> MINSIZE <= min_size s.
Proof.
  intros H Hu Ha. destruct (contig_bounds _ _ _ _ _ H Hu) as (? & ? & ?). by eapply min_size_ok.
Qed.

(** What the accounts of an operation say once it has replaced the blocks [bs]
    by [bs'] in the chunk list. *)
Lemma acct_make s s' cs B bs :
  heap s' cs B None -> used cs = bs ->
  m_tUserAllocSize (m_pstHead s') = u64 (m_hBottom (m_pstHead s') + sum_sizes bs) ->
  m_tUserAllocChunkCnt (m_pstHead s') = u64 (Z.of_nat (length bs)) ->
  statChunkTotal s' = s64 (Z.of_nat (length bs)) ->
  statDataSize s' = s64 (m_tUserAllocSize (m_pstHead s')) ->
  0 <= statTmpDataAllocCountRecently s' -> minChunkSize s' = minChunkSize s ->
  (minChunkSize s = 1 ∨ MINSIZE <= minChunkSize s < 2 ^ 32) -> acct s' bs.
Proof.
  intros H Hu E1 E2 E3 E4 ? E6 ?. destruct (contig_bounds _ _ _ _ _ H Hu) as (Hb1 & Hb2 & Hb3).
  rewrite u64_small in E1 by mlia. rewrite u64_small in E2 by mlia. rewrite s64_small in E3 by mlia.
  rewrite E1, s64_small in E4 by mlia. constructor; rewrite ?E6; done || congruence.
Qed.

Lemma sum_sizes_mid L1 L2 p y : sum_sizes (L1 ++ (p, y) :: L2) = sum_sizes (L1 ++ L2) + y.
Proof. rewrite !sum_sizes_app. simpl. fold (sum_sizes L2). lia. Qed.
Lemma length_mid (L1 L2 : list (Z * Z)) b : Z.of_nat (length (L1 ++ b :: L2)) = Z.of_nat (length (L1 ++ L2)) + 1.
Proof. rewrite !length_app. simpl. lia. Qed.

Lemma uwrap_add_l w a b : 0 <= w -> uwrap w (uwrap w a + b) = uwrap w (a + b).
Proof. intros. unfold uwrap. by rewrite Zplus_mod_idemp_l. Qed.

(** ** Operations *)

Lemma Malloc_run s bs n req :
  holds s bs -> 0 <= req ->
  runs (Malloc (S n) req) s (λ h s',
    unchanged bs s s' ∧
    ((h = 0 ∧ holds s' bs ∧
      (REQUEST_OUT_OF_RANGE req = true ∨
       m_tSize (m_pstHead s) <= m_hTop (m_pstHead s) + request2size req + MINSIZE)) ∨
     (∃ p z L1 L2, h = chunk2mem p ∧ p ≠ 0 ∧ bs = L1 ++ L2 ∧ req + 8 <= z ∧ holds s' (L1 ++ (p, z) :: L2)))).
Proof.
  intros (cs & B & H & Hco & Hu & Ha) Hr. unfold Malloc.
  eapply runs_step; [apply put_head_ok|]. set (s1 := set_m_pstHead _ s).
  assert (heap s1 cs B None) as H1 by (by apply heap_last).
  assert (acct s1 bs) as Ha1 by (destruct Ha; by constructor).
  pose proof (holds_min_size _ _ _ _ H1 Hu Ha1) as Hmn.
  eapply runs_bind; [by apply InterMalloc_run|].
  intros h s2 Hpost. destruct (REQUEST_OUT_OF_RANGE req) eqn:Ho.
  { destruct Hpost as [-> ->]. eapply runs_step; [done|]. apply runs_ret. split; [done|]. left.
    split; [done|]. split; [by exists cs, B|by left]. }
  destruct (request2size_spec req Hr Ho) as (Hreq & _ & _ & _).
  destruct Hpost as (Hc2 & Hk2 & cs' & B' & H2 & Hco2 & [(-> & -> & Hfull & _)|(p & y & L1 & L2 & -> & Hp0 & Hcs & Hu2 & Hy)]).
  { eapply runs_step; [done|]. apply runs_ret. rewrite <- Hu. split; [done|]. left. split; [done|].
    split; [|by right]. exists cs, B'. split_and!; try done. rewrite Hu. by eapply cfg_acct. }
  destruct (used_split _ _ _ _ _ Hu2) as (l & r & -> & Hl & Hrr).
  pose proof (heap_mid_in _ _ _ _ _ _ _ _ H2) as Hrg. destruct (heap_hdr0 _ _ _ _ _ _ _ _ H2) as [(qp & Hp & _) _].
  destruct (cfg_acct _ _ _ Hc2 Ha1) as [E1 E2 E3 E4 E5 E6]. rewrite <- Hu, Hcs in *.
  unfold chunk2mem, INVALID_HANDLE. destruct (Z.eqb_spec (p + 8) 0); [lia|]. cbn [negb when_].
  unfold mem2chunk. replace (p + 8 - 8) with p by lia.
  set (nn := u64 (m_tUserAllocSize (m_pstHead s2) + y)).
  set (s3 := set_statDataSize (s64 nn) (set_statChunkTotal (s64 (statChunkTotal s2 + 1))
         (set_m_pstHead (set_m_tUserAllocChunkCnt (u64 (m_tUserAllocChunkCnt (m_pstHead s2) + 1))
            (set_m_tUserAllocSize nn (m_pstHead s2))) s2))).
  eapply runs_bind.
  { eapply runs_step; [apply (CHUNK_SIZE_hdr _ _ _ _ _ Hp)|].
    do 8 (eapply (runs_step _ _ _ _ _); [reflexivity|]). exact (AddAllocSizeToStat_run req s3 E5). }
  intros [] s4 (Hr4 & Hm4 & Hb4 & Hh4 & Ht4 & Hd4 & Hn4). apply runs_ret.
  assert (heap s4 (l ++ (p, y, true) :: r) B' None) as H4.
  { eapply heap_same; [exact H2|done|done|by rewrite Hh4..]. }
  split.
  - intros c z Hin. rewrite Hm4. by apply Hk2.
  - right. exists p, y, L1, L2. split_and!; [done|done|done|lia|]. exists (l ++ (p, y, true) :: r), B'.
    split_and!; [exact H4|done|done|].
    eapply (acct_make s2); [exact H4|done|..]; rewrite ?Hh4, ?Ht4, ?Hd4; simpl; try done.
    + rewrite sum_sizes_mid. unfold nn. rewrite E1. f_equal. lia.
    + rewrite length_mid, E2. done.
    + rewrite length_mid, E3. done.
Qed.

(** [ReAlloc] of a held block to a size that is not 0. *)
Lemma ReAlloc_run s L1 p z L2 n req :
  holds s (L1 ++ (p, z) :: L2) -> 0 < req ->
  runs (ReAlloc (S n) (chunk2mem p) req) s (λ h s',
    unchanged (L1 ++ L2) s s' ∧
    ((h = 0 ∧ holds s' (L1 ++ (p, z) :: L2) ∧ unchanged (L1 ++ (p, z) :: L2) s s') ∨
     (∃ c y M1 M2, h = chunk2mem c ∧ c ≠ 0 ∧ M1 ++ M2 = L1 ++ L2 ∧ REQUEST_OUT_OF_RANGE req = false ∧ request2size req <= y ∧
        holds s' (M1 ++ (c, y) :: M2) ∧
        copied (mem s) (mem s') p c (Z.min z (request2size req))))).
Proof.
  intros (cs & B & H & Hco & Hu & Ha) Hr.
  destruct (used_split _ _ _ _ _ Hu) as (l & r & -> & Hl & Hrr). unfold ReAlloc.
  eapply runs_step; [apply put_head_ok|]. set (s1 := set_m_pstHead _ s).
  assert (heap s1 (l ++ (p, z, true) :: r) B None) as H1 by (by apply heap_last).
  assert (acct s1 (L1 ++ (p, z) :: L2)) as Ha1 by (destruct Ha; by constructor).
  pose proof (holds_min_size _ _ _ _ H1 Hu Ha1) as Hmn.
  pose proof (heap_mid_in _ _ _ _ _ _ _ _ H1) as Hrp.
  destruct (contig_bounds _ _ _ _ _ H1 Hu) as (Hb1 & Hb2 & Hb3).
  unfold MINSIZE in Hb1. pose proof (length_mid L1 L2 (p, z)). unfold INVALID_HANDLE.
  eapply runs_bind; [by eapply InterReAlloc_run|].
  intros [h old] s2 Hpost. destruct (REQUEST_OUT_OF_RANGE req) eqn:Ho.
  { destruct Hpost as [-> ->]. cbn [Z.eqb negb when_]. destruct (Z.eqb_spec req 0); [lia|].
    eapply runs_step; [done|]. apply runs_ret. split; [done|]. left. split; [done|]. split; [|done].
    by exists (l ++ (p, z, true) :: r), B. }
  destruct (request2size_spec req ltac:(lia) Ho) as (Hreq & _ & _ & _). set (t := request2size req) in *.
  destruct Hpost as (-> & Hc2 & Hk2 & cs' & B' & H2 & Hco2 & Hor).
  apply keep_unchanged in Hk2. rewrite used_app, Hl, Hrr in Hk2.
  destruct Hor as [(-> & Hu2 & Hk)|(c & y & M1 & M2 & -> & Hc0 & HM & Hu2 & Hy & Hcp)].
  { cbn [Z.eqb negb when_]. destruct (Z.eqb_spec req 0); [lia|].
    eapply runs_step; [done|]. apply runs_ret. split; [done|]. left. split; [done|].
    apply keep_unchanged in Hk. rewrite Hu in *. split; [|done]. exists cs', B'. split_and!; try done.
    by eapply cfg_acct. }
  destruct (used_split _ _ _ _ _ Hu2) as (l' & r' & -> & Hl' & Hrr').
  pose proof (heap_mid_in _ _ _ _ _ _ _ _ H2) as Hrg. destruct (heap_hdr0 _ _ _ _ _ _ _ _ H2) as [(qp & Hp & _) _].
  destruct (cfg_acct _ _ _ Hc2 Ha1) as [E1 E2 E3 E4 E5 E6]. rewrite used_app, Hl, Hrr in HM.
  unfold chunk2mem, mem2chunk. destruct (Z.eqb_spec (c + 8) 0); [lia|]. cbn [negb].
  replace (c + 8 - 8) with c by lia.
  set (nn := u64 (u64 (m_tUserAllocSize (m_pstHead s2) + y) - z)).
  set (s3 := set_m_pstHead (set_m_tUserAllocSize nn (m_pstHead s2)) s2).
  eapply runs_bind with (Q := λ _ s5, ∃ s4,
    s5 = set_statDataSize (s64 (m_tUserAllocSize (m_pstHead s4))) s4 ∧ averaged s3 s4).
  { eapply runs_step; [apply (CHUNK_SIZE_hdr _ _ _ _ _ Hp)|].
    do 2 (eapply (runs_step _ _ _ _ _); [reflexivity|]).
    destruct (Z.eqb_spec (p + 8) 0); [lia|]. eapply (runs_step _ _ _ _ _); [reflexivity|].
    eapply runs_bind; [exact (AddAllocSizeToStat_run req s3 E5)|].
    intros [] s4 Hs4. eapply runs_step; [apply gets_ok|]. eapply runs_eq; [reflexivity|]. by exists s4. }
  intros [] s5 (s4 & -> & Hr4 & Hm4 & Hb4 & Hh4 & Ht4 & Hd4 & Hn4). apply runs_ret.
  set (s5 := set_statDataSize _ s4).
  assert (heap s5 (l' ++ (c, y, true) :: r') B' None) as H5.
  { eapply heap_same; [exact H2|done|done|simpl; by rewrite Hh4..]. }
  split.
  - intros d w Hin. simpl. rewrite Hm4. by apply Hk2.
  - right. exists c, y, M1, M2. split_and!; [done|done|done|done|lia| |].
    + exists (l' ++ (c, y, true) :: r'), B'. split_and!; [exact H5|done|done|].
      eapply (acct_make s2); [exact H5|done|..]; simpl; rewrite ?Hh4, ?Ht4; simpl; try done.
      * unfold nn. rewrite E1, !sum_sizes_mid, HM, <- Z.add_opp_r, uwrap_add_l by lia. f_equal. lia.
      * by rewrite E2, !length_mid, HM, u64_small by (rewrite <- HM; lia).
      * by rewrite E3, !length_mid, HM, s64_small by (rewrite <- HM; lia).
    + simpl. rewrite Hm4. exact Hcp.
Qed.

(** ** Setting up *)

Lemma BOTTOM_value : BOTTOM = 8208.
Proof. reflexivity. Qed.

Lemma rd_replicate {A} n (x : A) i : 0 <= i < Z.of_nat n -> rd (replicate n x) i = Some x.
Proof.
  intros. unfold rd. destruct (Z.ltb_spec i 0); [lia|]. apply lookup_replicate. split; [done|lia].
Qed.

Lemma seg_set_mem m s a : seg s a -> seg (set_mem m s) a.
Proof. done. Qed.

Lemma init_head_run n s :
  init_head n s = Some (tt, set_statMemoryTop BOTTOM (set_m_pstHead
    (MkHead TTC_SIGN TTC_VER_MIN sizeof_CMemHead n BOTTOM 0 0 BOTTOM RESERVE_ZONE BOTTOM
       (if BOTTOM + MINSIZE <? n then n - BOTTOM - MINSIZE else 0) NBINS NFASTBINS (replicate 4 0) 0) s)).
Proof. reflexivity. Qed.

Lemma Init_run s n :
  BOTTOM + MINSIZE <= n <= MAX_ALLOC_SIZE -> 0 <= statTmpDataAllocCountRecently s ->
  (minChunkSize s = 1 ∨ MINSIZE <= minChunkSize s < 2 ^ 32) ->
  runs (Init n) s (λ x s', x = 0 ∧ holds s' [] ∧ m_tSize (m_pstHead s') = n ∧ m_hBottom (m_pstHead s') = BOTTOM).
Proof.
  intros Hn Hc Hm. unfold Init. rewrite BOTTOM_value in *. unfold MINSIZE in *.
  destruct (Z.ltb_spec n (sizeof_CMemHead + sizeof_CBin * (NBINS + NFASTBINS + 1) + TTC_RESERVE_SIZE + 24)) as [Hlt|_].
  { unfold sizeof_CMemHead, sizeof_CBin, NBINS, NFASTBINS, TTC_RESERVE_SIZE in Hlt. lia. }
  eapply runs_step; [apply init_head_run|]. set (s1 := set_statMemoryTop _ _).
  eapply (runs_step init_bins); [reflexivity|]. set (s2 := set_m_ptUnsortedBin _ _).
  eapply runs_step; [apply gets_ok|]. change (m_hTop (m_pstHead s2)) with 8208.
  assert (seg s2 8208) as Hs by (split_and!; [done|done|change (m_tSize (m_pstHead s2)) with n; lia]).
  eapply runs_step; [apply (set_tPreSize_raw s2 8208 0 Hs); lia|]. set (s3 := set_mem _ s2).
  assert (seg s3 8208) as Hs3 by (by apply seg_set_mem).
  eapply runs_step; [apply (set_tSize_raw s3 8208 PREV_INUSE Hs3); unfold PREV_INUSE; lia|]. set (s4 := set_mem _ s3).
  eapply (runs_step init_stat); [reflexivity|]. set (s5 := set_statDataSize _ _). apply runs_ret.
  assert (word_at (mem s5) 8208 = hdr_word 0 true 0) as Hw.
  { change (mem s5) with (mem s4). unfold s4. simpl. rewrite word_at_insert_eq. unfold s3. simpl.
    rewrite word_at_insert_eq. by rewrite w_pre_mk. }
  split_and!; [done| |done|done]. exists [], (λ _, []). split_and!; [|done..|].
  - constructor; try done.
    + intros _. by exists 0.
    + intros i Hi. split; [|done]. change (m_ptBin s5) with (replicate 128 empty_bin). by apply rd_replicate.
    + intros i a Hi. split; [by intros ?%elem_of_nil|]. by intros (_ & z & ?%elem_of_nil & _).
    + intros. constructor.
  - constructor; done.
Qed.

(** ** Facts about the blocks of a client *)

Lemma holds_in s bs p z :
  holds s bs -> (p, z) ∈ bs ->
  m_hBottom (m_pstHead s) <= p ∧ p + z <= m_hTop (m_pstHead s) ∧ MINSIZE <= z ∧ z mod 8 = 0 ∧ p mod 8 = 0 ∧
  z < 2 ^ 32 - 32 ∧ 0 < p < 2 ^ 32 - 32 ∧ p + z + MINSIZE <= m_tSize (m_pstHead s).
Proof. intros (cs & B & H & _ & <- & _) Hin. apply elem_of_used in Hin. by eapply heap_in. Qed.

Lemma holds_apart s L1 c y L2 p z :
  holds s (L1 ++ (c, y) :: L2) -> (p, z) ∈ L1 ++ L2 -> p + z <= c ∨ c + y <= p.
Proof. intros (cs & B & H & _ & Hu & _) Hin. by eapply used_apart. Qed.

(** Writes inside the blocks are the client's affair. *)
Lemma holds_write s bs m' :
  holds s bs ->
  (∀ x, word_at m' x ≠ word_at (mem s) x -> ∃ p z, (p, z) ∈ bs ∧ p < x < p + z) ->
  holds (set_mem m' s) bs.
Proof.
  intros (cs & B & H & Hco & Hu & Ha) Hs. exists cs, B. split_and!; [|done|done|by destruct Ha].
  eapply heap_user; [done|]. intros x Hx. destruct (Hs x Hx) as (p & z & Hin & ?). exists p, z.
  split; [|done]. apply elem_of_used. by rewrite Hu.
Qed.

(** ** Calloc *)

(** The byte at [a]. *)
Definition byte_at (m : gmap Z Z) (a : Z) : Z := Z.shiftr (word_at m (a / 8 * 8)) (8 * (a mod 8)) mod 256.

Lemma zero_words_run k a s :
  (∀ j, 0 <= j < Z.of_nat k -> seg s (a + 8 * j)) ->
  ∃ m, zero_words k a s = Some (tt, set_mem m s) ∧
       (∀ x, word_at m x ≠ word_at (mem s) x -> a <= x < a + 8 * Z.of_nat k) ∧
       (∀ j, 0 <= j < Z.of_nat k -> word_at m (a + 8 * j) = 0).
Proof.
  revert a s. induction k as [|k IH]; intros a s Hseg; cbn [zero_words].
  { exists (mem s). split_and!; [by destruct s|done|lia]. }
  pose proof (Hseg 0 ltac:(lia)) as H0. rewrite Z.add_0_r in H0. mstep (st_ok s a 0 H0).
  set (s1 := set_mem _ s). destruct (IH (a + 8) s1) as (m & Hm & Hout & Hin).
  { intros j Hj. pose proof (Hseg (j + 1) ltac:(lia)). by replace (a + 8 + 8 * j) with (a + 8 * (j + 1)) by lia. }
  exists m. split; [exact Hm|]. split.
  - intros x Hx. destruct (decide (x = a)) as [->|]; [lia|].
    assert (a + 8 <= x < a + 8 + 8 * Z.of_nat k); [|lia]. apply Hout. simpl. by rewrite word_at_insert_ne by done.
  - intros j Hj. destruct (decide (j = 0)) as [->|].
    + rewrite Z.add_0_r. destruct (decide (word_at m a = word_at (mem s1) a)) as [->|Hne].
      * simpl. by rewrite word_at_insert_eq.
      * apply Hout in Hne. lia.
    + replace (a + 8 * j) with (a + 8 + 8 * (j - 1)) by lia. apply Hin. lia.
Qed.

Lemma low_byte_zero w k j :
  0 <= j < k -> Z.shiftr (Z.shiftl (Z.shiftr w (8 * k)) (8 * k)) (8 * j) mod 256 = 0.
Proof.
  intros. rewrite Z.shiftr_shiftl_l by lia. rewrite Z.shiftl_mul_pow2 by lia.
  replace (8 * k - 8 * j) with (8 + 8 * (k - j - 1)) by lia. rewrite Z.pow_add_r by lia.
  change (2 ^ 8) with 256. rewrite Z.mul_assoc, (Z.mul_comm _ 256), <- Z.mul_assoc, Z.mul_comm.
  apply Z.mod_mul. lia.
Qed.

Lemma memset0_run s a n :
  0 <= n -> a mod 8 = 0 -> m_hBottom (m_pstHead s) <= a -> a + n + 8 <= m_tSize (m_pstHead s) ->
  ∃ m, memset0 a n s = Some (tt, set_mem m s) ∧
       (∀ x, word_at m x ≠ word_at (mem s) x -> a <= x < a + n) ∧
       (∀ k, 0 <= k < n -> byte_at m (a + k) = 0).
Proof.
  intros Hn Ha Hb Ht. unfold memset0.
  assert (Z.of_nat (Z.to_nat (n / 8)) = n / 8) as Hk by (Z.div_mod_to_equations; lia).
  destruct (zero_words_run (Z.to_nat (n / 8)) a s) as (m & Hm & Hout & Hin).
  { rewrite Hk. intros j Hj. split_and!; Z.div_mod_to_equations; lia. }
  rewrite Hk in Hout, Hin. mstep Hm. set (s1 := set_mem m s). set (e := a + n / 8 * 8).
  assert (∀ k, 0 <= k -> (a + k) / 8 * 8 = a + 8 * (k / 8) ∧ (a + k) mod 8 = k mod 8) as Hak
    by (intros; Z.div_mod_to_equations; lia).
  destruct (Z.eqb_spec (n mod 8) 0) as [H0|H0]; cbn [negb when_].
  - exists m. split_and!; [done| |].
    + intros x Hx%Hout. Z.div_mod_to_equations; lia.
    + intros k Hkk. unfold byte_at. destruct (Hak k) as [-> ->]; [lia|].
      rewrite Hin by (Z.div_mod_to_equations; lia). by rewrite Z.shiftr_0_l.
  - assert (seg s1 e) as He by (unfold e; split_and!; simpl; Z.div_mod_to_equations; lia).
    mstep (ld_ok s1 e He). rewrite (st_ok s1 e _ He). eexists. split; [reflexivity|]. simpl. split.
    + intros x Hx. rewrite word_at_insert in Hx. destruct (Z.eqb_spec e x) as [Hex|_].
      * unfold e in Hex. Z.div_mod_to_equations; lia.
      * apply Hout in Hx. Z.div_mod_to_equations; lia.
    + intros k Hkk. unfold byte_at. destruct (Hak k) as [-> ->]; [lia|]. rewrite word_at_insert.
      destruct (Z.eqb_spec e (a + 8 * (k / 8))) as [Hek|Hek].
      * apply low_byte_zero. unfold e in Hek. Z.div_mod_to_equations; lia.
      * rewrite Hin; [by rewrite Z.shiftr_0_l|]. unfold e in Hek. Z.div_mod_to_equations; lia.
Qed.

Lemma Calloc_run s bs n req :
  holds s bs -> 0 <= req ->
  runs (Calloc (S n) req) s (λ h s',
    unchanged bs s s' ∧
    ((h = 0 ∧ holds s' bs) ∨
     (∃ p z L1 L2, h = chunk2mem p ∧ p ≠ 0 ∧ bs = L1 ++ L2 ∧ req + 8 <= z ∧ holds s' (L1 ++ (p, z) :: L2) ∧
        ∀ k, 0 <= k < req -> byte_at (mem s') (h + k) = 0))).
Proof.
  intros Hs Hr. unfold Calloc. eapply runs_bind; [by apply Malloc_run|].
  intros h s1 (Hu1 & [(-> & H1 & _)|(p & z & L1 & L2 & -> & Hp0 & -> & Hz & H1)]).
  { eapply runs_step; [done|]. apply runs_ret. split; [done|by left]. }
  assert ((p, z) ∈ L1 ++ (p, z) :: L2) as Hin by (apply elem_of_app; right; by left).
  pose proof (holds_in _ _ _ _ H1 Hin) as Hb. unfold chunk2mem, INVALID_HANDLE.
  destruct (Z.eqb_spec (p + 8) 0); [lia|]. cbn [negb when_].
  assert (p mod 8 = 0 ∧ z mod 8 = 0) as [Hp8 Hz8] by tauto.
  destruct (memset0_run s1 (p + 8) req) as (m & Hm & Hout & Hzero);
    [done|Z.div_mod_to_equations; lia|mlia|mlia|].
  eapply runs_step; [exact Hm|]. apply runs_ret.
  assert (∀ x, word_at m x ≠ word_at (mem s1) x -> p < x < p + z) as Hx by (intros x Hx%Hout; lia).
  split.
  - intros c w Hc. eapply user_kept_trans; [by apply Hu1|].
    assert ((c, w) ∈ L1 ++ (p, z) :: L2) as Hc'.
    { apply elem_of_app in Hc as [?|?]; apply elem_of_app; [by left|right; by right]. }
    pose proof (holds_in _ _ _ _ H1 Hc'). pose proof (holds_apart _ _ _ _ _ _ _ H1 Hc).
    apply user_kept_same; [|mlia]. intros a Ha. simpl.
    destruct (decide (word_at m a = word_at (mem s1) a)) as [|Hne]; [done|]. apply Hx in Hne. lia.
  - right. exists p, z, L1, L2. split_and!; try done. eapply holds_write; [done|]. intros x Hne. exists p, z. auto.
Qed.

Lemma Init_small_run s n :
  0 <= n < BOTTOM + MINSIZE -> Init n s = Some (-1, s).
Proof.
  intros Hn. unfold Init. rewrite BOTTOM_value in Hn. unfold MINSIZE in *.
  destruct (Z.ltb_spec n (sizeof_CMemHead + sizeof_CBin * (NBINS + NFASTBINS + 1) + TTC_RESERVE_SIZE + 24)) as [|Hge];
    [done|].
  unfold sizeof_CMemHead, sizeof_CBin, NBINS, NFASTBINS, TTC_RESERVE_SIZE in Hge. lia.
Qed.

Lemma holds_min s bs v :
  holds s bs -> v = 1 ∨ MINSIZE <= v < 2 ^ 32 -> holds (set_minChunkSize v s) bs.
Proof.
  intros (cs & B & H & Hco & Hu & []) Hv. exists cs, B. split_and!; [|done|done|by constructor].
  by eapply heap_same.
Qed.

(** ** Sessions

    [live s u]: a state a client can reach that frees and resizes only what it
    holds and writes only inside it.  [u] lists the blocks it holds, each with
    the handle it got and the size it asked for. *)

Inductive live : CBinMalloc -> list (Z * Z) -> Prop :=
  | live_init ct ds mt ar m n s :
      BOTTOM + MINSIZE <= n <= MAX_ALLOC_SIZE ->
      Init n (CBinMalloc_new ct ds mt ar m) = Some (0, s) -> live s []
  | live_malloc s u fuel req h s' :
      live s u -> 0 <= req -> Malloc (S fuel) req s = Some (h, s') ->
      live s' (if h =? INVALID_HANDLE then u else (h, req) :: u)
  | live_calloc s u fuel req h s' :
      live s u -> 0 <= req -> Calloc (S fuel) req s = Some (h, s') ->
      live s' (if h =? INVALID_HANDLE then u else (h, req) :: u)
  | live_realloc s u1 u2 fuel h r req h' s' :
      live s (u1 ++ (h, r) :: u2) -> 0 < req -> ReAlloc (S fuel) h req s = Some (h', s') ->
      live s' (u1 ++ (if h' =? INVALID_HANDLE then (h, r) else (h', req)) :: u2)
  | live_free s u1 u2 h r x s' :
      live s (u1 ++ (h, r) :: u2) -> Free h s = Some (x, s') -> live s' (u1 ++ u2)
  | live_write s u h r a v s' :
      live s u -> (h, r) ∈ u -> h <= a < h + r -> st a v s = Some (tt, s') -> live s' u
  | live_min s u v s' :
      live s u -> 0 <= v < 2 ^ 32 -> SetMinChunkSize v s = Some (tt, s') -> live s' u.

(** The client's list against the allocator's. *)
Definition block_of (hr pz : Z * Z) : Prop := hr.1 = chunk2mem pz.1 ∧ 0 <= hr.2 ∧ hr.2 + 8 <= pz.2.
Definition owns (s : CBinMalloc) (u : list (Z * Z)) : Prop :=
  ∃ bs bs', holds s bs ∧ bs' ≡ₚ bs ∧ Forall2 block_of u bs'.

Lemma owns_split s u1 h r u2 :
  owns s (u1 ++ (h, r) :: u2) ->
  ∃ p z L1 L2 b1 b2, holds s (L1 ++ (p, z) :: L2) ∧ h = chunk2mem p ∧ 0 <= r ∧ r + 8 <= z ∧
    b1 ++ b2 ≡ₚ L1 ++ L2 ∧ Forall2 block_of u1 b1 ∧ Forall2 block_of u2 b2.
Proof.
  intros (bs & bs' & Hs & Hp & Hf). apply Forall2_app_inv_l in Hf as (b1 & b2' & H1 & H2 & ->).
  apply Forall2_cons_inv_l in H2 as ([p z] & b2 & (Hh & Hr & Hz) & H2 & ->).
  assert ((p, z) ∈ bs) as Hin by (rewrite <- Hp; apply elem_of_app; right; by left).
  apply list_elem_of_split in Hin as (L1 & L2 & ->). apply Permutation_app_inv in Hp.
  by exists p, z, L1, L2, b1, b2.
Qed.

Lemma owns_join s u1 h r u2 p z L1 L2 b1 b2 :
  holds s (L1 ++ (p, z) :: L2) -> h = chunk2mem p -> 0 <= r -> r + 8 <= z ->
  b1 ++ b2 ≡ₚ L1 ++ L2 -> Forall2 block_of u1 b1 -> Forall2 block_of u2 b2 ->
  owns s (u1 ++ (h, r) :: u2).
Proof.
  intros Hs Hh Hr Hz Hp H1 H2. exists (L1 ++ (p, z) :: L2), (b1 ++ (p, z) :: b2). split; [done|].
  split; [by apply Permutation_elt|]. apply Forall2_app; [done|]. by constructor.
Qed.

Lemma chunk2mem_ne p : 0 < p -> (chunk2mem p =? INVALID_HANDLE) = false.
Proof. intros. unfold chunk2mem, INVALID_HANDLE. apply Z.eqb_neq. lia. Qed.

Lemma owns_new s u h req bs p z L1 L2 :
  h = chunk2mem p -> bs = L1 ++ L2 -> 0 <= req -> req + 8 <= z -> holds s (L1 ++ (p, z) :: L2) ->
  (∃ bs', bs' ≡ₚ bs ∧ Forall2 block_of u bs') -> owns s (if h =? INVALID_HANDLE then u else (h, req) :: u).
Proof.
  intros -> -> Hr Hz Hs (bs' & Hp & Hf).
  destruct (holds_in s (L1 ++ (p, z) :: L2) p z Hs) as (_ & _ & _ & _ & _ & _ & ? & _); [apply elem_of_app; right; by left|].
  rewrite chunk2mem_ne by lia. by eapply (owns_join s [] _ _ u p z L1 L2 [] bs').
Qed.

Lemma live_owns s u : live s u -> owns s u.
Proof.
  induction 1 as [ct ds mt ar m n s Hn Hi|s u fuel req h s' _ (bs & bs' & Hs & Hp & Hf) Hr Hm
    |s u fuel req h s' _ (bs & bs' & Hs & Hp & Hf) Hr Hm|s u1 u2 fuel h r req h' s' _ IH Hr Hm
    |s u1 u2 h r x s' _ IH Hm|s u h r a v s' _ IH Hin Ha Hm|s u v s' _ (bs & bs' & Hs & Hp & Hf) Hv Hm].
  - assert (runs (Init n) (CBinMalloc_new ct ds mt ar m) (λ _ s', holds s' [])) as HI.
    { eapply runs_mono; [apply Init_run; [done|done|by right]|]. by intros x s' (_ & ? & _). }
    pose proof (runs_inv _ _ _ _ _ HI Hi). by exists [], [].
  - destruct (runs_inv _ _ _ _ _ (Malloc_run _ _ fuel _ Hs Hr) Hm)
      as (_ & [(-> & Hs' & _)|(p & z & L1 & L2 & Hh & _ & Hbs & Hz & Hs')]).
    + by exists bs, bs'.
    + by eapply owns_new; eauto.
  - destruct (runs_inv _ _ _ _ _ (Calloc_run _ _ fuel _ Hs Hr) Hm)
      as (_ & [(-> & Hs')|(p & z & L1 & L2 & Hh & _ & Hbs & Hz & Hs' & _)]).
    + by exists bs, bs'.
    + by eapply owns_new; eauto.
  - destruct (owns_split _ _ _ _ _ IH) as (p & z & L1 & L2 & b1 & b2 & Hs & -> & Hr0 & Hz & Hp & H1 & H2).
    destruct (runs_inv _ _ _ _ _ (ReAlloc_run _ _ _ _ _ fuel _ Hs Hr) Hm)
      as (_ & [(-> & Hs' & _)|(c & y & M1 & M2 & -> & Hc & HM & Ho & Hy & Hs' & _)]).
    + by eapply owns_join.
    + destruct (holds_in _ _ c y Hs') as (_ & _ & _ & _ & _ & _ & ? & _); [apply elem_of_app; right; by left|].
      destruct (request2size_spec req ltac:(lia) Ho) as (? & _).
      rewrite chunk2mem_ne by lia. eapply (owns_join _ _ _ _ _ _ _ _ _ b1 b2); [exact Hs'|done|lia|lia|by rewrite HM|done|done].
  - destruct (owns_split _ _ _ _ _ IH) as (p & z & L1 & L2 & b1 & b2 & Hs & -> & Hr0 & Hz & Hp & H1 & H2).
    destruct (runs_inv _ _ _ _ _ (Free_run _ _ _ _ _ Hs) Hm) as (_ & Hs' & _).
    exists (L1 ++ L2), (b1 ++ b2). split_and!; [done|done|by apply Forall2_app].
  - apply list_elem_of_split in Hin as (u1 & u2 & ->).
    destruct (owns_split _ _ _ _ _ IH) as (p & z & L1 & L2 & b1 & b2 & Hs & -> & Hr0 & Hz & Hp & H1 & H2).
    unfold st in Hm. destruct (in_segment _ _); simplify_eq. eapply owns_join; [|done..].
    apply holds_write; [done|]. intros x Hx. exists p, z. split; [apply elem_of_app; right; by left|].
    rewrite word_at_insert in Hx. unfold chunk2mem in *. destruct (Z.eqb_spec a x); [lia|done].
  - unfold SetMinChunkSize, put in Hm. simplify_eq. exists bs, bs'. split; [|done].
    apply holds_min; [done|]. destruct (v =? 1); [by left|right]. destruct (Z.ltb_spec v MINSIZE); mlia.
Qed.

(** ** Theorems *)

(** The bytes of the blocks [u] are the same in [s'] as in [s]. *)
Definition same_bytes (u : list (Z * Z)) (s s' : CBinMalloc) : Prop :=
  ∀ h r k, (h, r) ∈ u -> 0 <= k < r -> byte_at (mem s') (h + k) = byte_at (mem s) (h + k).

Lemma byte_at_word m m' a b k :
  a mod 8 = 0 -> b mod 8 = 0 -> 0 <= k -> word_at m' (b + 8 * (k / 8)) = word_at m (a + 8 * (k / 8)) ->
  byte_at m' (b + k) = byte_at m (a + k).
Proof.
  intros ??? H. unfold byte_at. replace ((b + k) / 8 * 8) with (b + 8 * (k / 8)) by (Z.div_mod_to_equations; lia).
  replace ((a + k) / 8 * 8) with (a + 8 * (k / 8)) by (Z.div_mod_to_equations; lia).
  rewrite H. do 2 f_equal. Z.div_mod_to_equations; lia.
Qed.

Lemma unchanged_bytes s s' bs bs0 bs' u :
  holds s bs0 -> (∀ b, b ∈ bs -> b ∈ bs0) -> bs' ≡ₚ bs -> Forall2 block_of u bs' -> unchanged bs s s' -> same_bytes u s s'.
Proof.
  intros Hs Hsub Hp Hf Hu h r k Hin Hk. apply list_elem_of_lookup in Hin as [i Hi].
  destruct (Forall2_lookup_l _ _ _ _ _ Hf Hi) as ([p z] & Hpz & Hh & Hr & Hz). simpl in Hh, Hr, Hz.
  apply list_elem_of_lookup_2 in Hpz. rewrite Hp in Hpz.
  pose proof (holds_in _ _ _ _ Hs (Hsub _ Hpz)) as Hb. assert (p mod 8 = 0) as Hp8 by tauto.
  subst h. unfold chunk2mem. apply byte_at_word; [Z.div_mod_to_equations; lia..|lia|].
  eapply Hu; [exact Hpz|]. Z.div_mod_to_equations; lia.
Qed.

Lemma owns_complete s u fuel req :
  owns s u -> 0 <= req ->
  (∃ h s', Malloc (S fuel) req s = Some (h, s')) ∧ (∃ h s', Calloc (S fuel) req s = Some (h, s')).
Proof.
  intros (bs & bs' & Hs & _) Hr. split.
  - destruct (Malloc_run _ _ fuel _ Hs Hr) as (h & s' & ? & _). by exists h, s'.
  - destruct (Calloc_run _ _ fuel _ Hs Hr) as (h & s' & ? & _). by exists h, s'.
Qed.

Lemma owns_complete_held s u h r fuel req :
  owns s u -> (h, r) ∈ u -> 0 < req ->
  (∃ s', Free h s = Some (0, s')) ∧ (∃ h' s', ReAlloc (S fuel) h req s = Some (h', s')).
Proof.
  intros Ho Hin Hr. apply list_elem_of_split in Hin as (u1 & u2 & ->).
  destruct (owns_split _ _ _ _ _ Ho) as (p & z & L1 & L2 & b1 & b2 & Hs & -> & _). split.
  - destruct (Free_run _ _ _ _ _ Hs) as (x & s' & ? & -> & _). by exists s'.
  - destruct (ReAlloc_run _ _ _ _ _ fuel _ Hs Hr) as (h' & s' & ? & _). by exists h', s'.
Qed.

Lemma owns_blocks s u1 h r u2 :
  owns s (u1 ++ (h, r) :: u2) ->
  h mod 8 = 0 ∧ m_hBottom (m_pstHead s) + 8 <= h ∧ h + r <= m_hTop (m_pstHead s) ∧
  m_hTop (m_pstHead s) + MINSIZE <= m_tSize (m_pstHead s) ∧
  ∀ h' r', (h', r') ∈ u1 ++ u2 -> h + r <= h' ∨ h' + r' <= h.
Proof.
  intros (p & z & L1 & L2 & b1 & b2 & Hs & -> & Hr & Hz & Hp & H1 & H2)%owns_split.
  assert ((p, z) ∈ L1 ++ (p, z) :: L2) as Hin by (apply elem_of_app; right; by left).
  pose proof (holds_in _ _ _ _ Hs Hin) as Hb. assert (p mod 8 = 0) as Hp8 by tauto.
  destruct Hs as (cs & B & H & Hs'). pose proof (hp_top _ _ _ _ H).
  unfold chunk2mem. split_and!; [Z.div_mod_to_equations; lia|lia|lia|lia|].
  intros h' r' Hin'. apply list_elem_of_lookup in Hin' as [i Hi].
  destruct (Forall2_lookup_l _ _ _ _ _ (Forall2_app H1 H2) Hi) as ([c y] & Hcy & Hh & Hr' & Hy).
  simpl in Hh, Hr', Hy. apply list_elem_of_lookup_2 in Hcy. rewrite Hp in Hcy. subst h'. unfold chunk2mem.
  pose proof (holds_apart s L1 p z L2 c y (ex_intro _ cs (ex_intro _ B (conj H Hs'))) Hcy). lia.
Qed.

(** *** The allocator as other components see it *)

Lemma Calloc_owns s u fuel req :
  owns s u -> 0 <= req ->
  ∃ h s', Calloc (S fuel) req s = Some (h, s') ∧ owns s' (if h =? INVALID_HANDLE then u else (h, req) :: u).
Proof.
  intros (bs & bs' & Hs & Hp & Hf) Hr.
  destruct (Calloc_run _ _ fuel _ Hs Hr) as (h & s' & Hm & _ & Hor). exists h, s'. split; [done|].
  destruct Hor as [(-> & Hs')|(p & z & L1 & L2 & Hh & _ & Hbs & Hz & Hs' & _)]; [by exists bs, bs'|].
  eapply (owns_new s' u h req bs p z L1 L2); try done. by exists bs'.
Qed.
Lemma Free_owns s u h r : owns s ((h, r) :: u) -> ∃ s', Free h s = Some (0, s') ∧ owns s' u.
Proof.
  intros (p & z & L1 & L2 & b1 & b2 & Hs & -> & _ & _ & Hp & H1 & H2)%(owns_split s []).
  destruct (Free_run _ _ _ _ _ Hs) as (x & s' & Hf & -> & Hs' & _). exists s'. split; [done|].
  apply Forall2_nil_inv_l in H1 as ->. by exists (L1 ++ L2), b2.
Qed.
Lemma owns_perm s u u' : u ≡ₚ u' -> owns s u -> owns s u'.
Proof.
  intros Hu (bs & bs' & Hs & Hp & Hf). destruct (Permutation_Forall2 Hu Hf) as (bs2 & Hp2 & Hf2).
  exists bs, bs2. split_and!; [done| |done]. by rewrite <-Hp2.
Qed.
Lemma owns_block s u h r : owns s ((h, r) :: u) ->
  0 < h ∧ h mod 8 = 0 ∧ h + r <= 2 ^ 32 ∧ ∀ h' r', (h', r') ∈ u -> h + r <= h' ∨ h' + r' <= h.
Proof.
  intros Ho. destruct (owns_blocks s [] h r u Ho) as (H1 & H2 & H3 & H4 & H5).
  destruct (owns_split s [] h r u Ho) as (p & z & L1 & L2 & b1 & b2 & Hs & -> & _).
  assert ((p, z) ∈ L1 ++ (p, z) :: L2) as Hin by (apply elem_of_app; right; by left).
  pose proof (holds_in _ _ _ _ Hs Hin) as Hb. destruct Hs as (cs & B & H & Hs'). pose proof (hp_top _ _ _ _ H).
  unfold chunk2mem, MAX_ALLOC_SIZE in *. split_and!; [lia|done|change MINSIZE with 24 in *; lia|done].
Qed.
