(* ===== verification/BinSpec.v ===== *)
(** * BinSpec: what the allocator promises

    The theorems about [CBinMalloc] ([src/cache/bin_malloc.cc]).  [owns s u]
    says that the allocator [s] is consistent and that [u] lists the blocks in
    the hands of its clients, each with its handle and the size asked for;
    [live s u] that a session of calls and writes inside the blocks leads to
    [s].  The proofs are in [BinHeap] (headers, bins, [Free]), [BinAlloc]
    ([Malloc]), [BinResize] ([ReAlloc]) and [BinClient] (accounting, sessions). *)

From stdpp Require Import gmap.
From S2P Require Import Prelude State BinMalloc BinHeap BinAlloc BinResize BinClient.

(** ** A session for the witnesses *)

Definition after {A} (m : M A) (s : CBinMalloc) : CBinMalloc := from_option snd s (m s).

Definition ex_new : CBinMalloc := CBinMalloc_new 0 0 0 0 ∅.
Definition ex0 : CBinMalloc := after (Init 16384) ex_new.
Definition ex1 : CBinMalloc := after (Malloc 1 100) ex0.
Definition ex2 : CBinMalloc := after (Malloc 1 40) ex1.

Lemma ex0_live : live ex0 [].
Proof. apply (live_init 0 0 0 0 ∅ 16384); [by vm_compute|by vm_compute]. Qed.
Lemma ex1_live : live ex1 [(8216, 100)].
Proof. apply (live_malloc ex0 [] 0 100 8216 ex1 ex0_live); [done|by vm_compute]. Qed.
Lemma ex2_live : live ex2 [(8328, 40); (8216, 100)].
Proof. apply (live_malloc ex1 [(8216, 100)] 0 40 8328 ex2 ex1_live); [done|by vm_compute]. Qed.

(** ** Sessions *)

(** [C4] In every state of a session the blocks are 8-aligned, lie between the
    bottom and the top of the heap, the top stays inside the segment, and no
    two blocks overlap. *)
Theorem live_blocks (s : CBinMalloc) (u1 : list (Z * Z)) (h r : Z) (u2 : list (Z * Z)) :
  live s (u1 ++ (h, r) :: u2) ->
  h mod 8 = 0 ∧ m_hBottom (m_pstHead s) + 8 <= h ∧ h + r <= m_hTop (m_pstHead s) ∧
  m_hTop (m_pstHead s) + MINSIZE <= m_tSize (m_pstHead s) ∧
  ∀ h' r', (h', r') ∈ u1 ++ u2 -> h + r <= h' ∨ h' + r' <= h.
Proof. intros H. by apply owns_blocks, live_owns. Qed.

Lemma live_blocks_witness : 8328 + 40 <= 8216 ∨ 8216 + 100 <= 8328.
Proof.
  apply (live_blocks ex2 [] 8328 40 [(8216, 100)] ex2_live). by left.
Defined.

(** [C5] No call of a session gets stuck: allocating always completes, freeing
    a held block completes and returns 0, resizing a held block completes.
    Searches of the bins and merges end, no access leaves the segment. *)
Theorem live_complete (s : CBinMalloc) (u : list (Z * Z)) (fuel : nat) (req : Z) :
  live s u -> 0 < req ->
  (∃ h s', Malloc (S fuel) req s = Some (h, s')) ∧
  (∃ h s', Calloc (S fuel) req s = Some (h, s')) ∧
  ∀ h r, (h, r) ∈ u ->
    (∃ s', Free h s = Some (0, s')) ∧ (∃ h' s', ReAlloc (S fuel) h req s = Some (h', s')).
Proof.
  intros H%live_owns Hr. destruct (owns_complete s u fuel req H) as [? ?]; [lia|].
  split_and!; [done..|]. intros h r Hin. by eapply owns_complete_held.
Qed.

Lemma live_complete_witness : ∃ s', Free 8216 ex2 = Some (0, s').
Proof.
  destruct (live_complete ex2 _ 0 1 ex2_live eq_refl) as (_ & _ & Hf).
  destruct (Hf 8216 100) as [H _]; [right; by left|exact H].
Defined.

(** ** Operations *)

(** [C35] [Init] on a segment that holds the head, the bins, the reserved zone
    and a minimal chunk (and has at most 4 GB) returns 0 and leaves a
    consistent allocator without blocks; on a smaller one it returns -1 and
    changes nothing. *)
Theorem Init_correct (ct ds mt ar : Z) (m : gmap Z Z) (n : Z) :
  0 <= n <= MAX_ALLOC_SIZE ->
  let s := CBinMalloc_new ct ds mt ar m in
  if n <? BOTTOM + MINSIZE then Init n s = Some (-1, s)
  else ∃ s', Init n s = Some (0, s') ∧ owns s' [] ∧
             m_tSize (m_pstHead s') = n ∧ m_hBottom (m_pstHead s') = BOTTOM.
Proof.
  intros Hn s. destruct (Z.ltb_spec n (BOTTOM + MINSIZE)).
  - apply Init_small_run. lia.
  - destruct (Init_run s n) as (x & s' & Hi & -> & Hs & ? & ?); [lia|done|by right|].
    exists s'. split; [done|]. split; [by exists [], []|done].
Qed.

Lemma Init_correct_witness : Init 8231 ex_new = Some (-1, ex_new) ∧ ∃ s', Init 8232 ex_new = Some (0, s') ∧ owns s' [].
Proof.
  split.
  - apply (Init_correct 0 0 0 0 ∅ 8231). done.
  - destruct (Init_correct 0 0 0 0 ∅ 8232) as (s' & Hi & Ho & _); [done|].
    exact (ex_intro _ s' (conj Hi Ho)).
Defined.

(** [C1] [Malloc] leaves the bytes of all blocks as they are.  Either it returns
    a new block of at least the size asked for, or the handle 0 and the blocks
    stay; that happens only when the size is out of range or the space between
    top and end of the segment is too small for it. *)
Theorem Malloc_correct (s : CBinMalloc) (u : list (Z * Z)) (fuel : nat) (req h : Z) (s' : CBinMalloc) :
  owns s u -> 0 <= req -> Malloc (S fuel) req s = Some (h, s') ->
  same_bytes u s s' ∧
  if h =? INVALID_HANDLE
  then owns s' u ∧ (REQUEST_OUT_OF_RANGE req = true ∨
                    m_tSize (m_pstHead s) <= m_hTop (m_pstHead s) + request2size req + MINSIZE)
  else owns s' ((h, req) :: u).
Proof.
  intros (bs & bs' & Hs & Hp & Hf) Hr Hm.
  destruct (runs_inv _ _ _ _ _ (Malloc_run _ _ fuel _ Hs Hr) Hm) as (Hu & Hor).
  split; [by eapply unchanged_bytes|].
  destruct Hor as [(-> & Hs' & Hfull)|(p & z & L1 & L2 & Hh & _ & Hbs & Hz & Hs')].
  - split; [by exists bs, bs'|done].
  - pose proof (owns_new s' u h req bs p z L1 L2 Hh Hbs Hr Hz Hs' ltac:(by exists bs')) as Ho.
    destruct (holds_in s' _ p z Hs') as (_ & _ & _ & _ & _ & _ & ? & _); [apply elem_of_app; right; by left|].
    rewrite Hh, chunk2mem_ne in * by lia. done.
Qed.

Lemma Malloc_correct_witness : same_bytes [(8216, 100)] ex1 ex2 ∧ owns ex2 [(8328, 40); (8216, 100)].
Proof.
  apply (Malloc_correct ex1 [(8216, 100)] 0 40 8328 ex2); [apply live_owns, ex1_live|done|by vm_compute].
Defined.

(** [Calloc] is [Malloc] with the bytes of the new block set to zero. *)
Theorem Calloc_correct (s : CBinMalloc) (u : list (Z * Z)) (fuel : nat) (req h : Z) (s' : CBinMalloc) :
  owns s u -> 0 <= req -> Calloc (S fuel) req s = Some (h, s') ->
  same_bytes u s s' ∧
  if h =? INVALID_HANDLE then owns s' u
  else owns s' ((h, req) :: u) ∧ ∀ k, 0 <= k < req -> byte_at (mem s') (h + k) = 0.
Proof.
  intros (bs & bs' & Hs & Hp & Hf) Hr Hm.
  destruct (runs_inv _ _ _ _ _ (Calloc_run _ _ fuel _ Hs Hr) Hm) as (Hu & Hor).
  split; [by eapply unchanged_bytes|].
  destruct Hor as [(-> & Hs')|(p & z & L1 & L2 & Hh & _ & Hbs & Hz & Hs' & Hzero)]; [by exists bs, bs'|].
  pose proof (owns_new s' u h req bs p z L1 L2 Hh Hbs Hr Hz Hs' ltac:(by exists bs')) as Ho.
  destruct (holds_in s' _ p z Hs') as (_ & _ & _ & _ & _ & _ & ? & _); [apply elem_of_app; right; by left|].
  rewrite Hh, chunk2mem_ne in * by lia. done.
Qed.

Lemma Calloc_correct_witness : byte_at (mem (after (Calloc 1 40) ex1)) (8328 + 39) = 0.
Proof.
  destruct (Calloc_correct ex1 [(8216, 100)] 0 40 8328 (after (Calloc 1 40) ex1)) as [_ [_ H]];
    [apply live_owns, ex1_live|done|by vm_compute|apply (H 39); lia].
Defined.

(** [C2] [Free] of a held block returns 0, takes exactly this block away and
    leaves the bytes of the others as they are. *)
Theorem Free_correct (s : CBinMalloc) (u1 : list (Z * Z)) (h r : Z) (u2 : list (Z * Z)) :
  owns s (u1 ++ (h, r) :: u2) ->
  ∃ s', Free h s = Some (0, s') ∧ owns s' (u1 ++ u2) ∧ same_bytes (u1 ++ u2) s s'.
Proof.
  intros (p & z & L1 & L2 & b1 & b2 & Hs & -> & _ & _ & Hp & H1 & H2)%owns_split.
  destruct (Free_run _ _ _ _ _ Hs) as (x & s' & Hf & -> & Hs' & Hu). exists s'. split; [done|]. split.
  - exists (L1 ++ L2), (b1 ++ b2). split_and!; [done|done|by apply Forall2_app].
  - eapply (unchanged_bytes s s' (L1 ++ L2)); [exact Hs| |exact Hp|by apply Forall2_app|done].
    intros b. rewrite !elem_of_app, elem_of_cons. tauto.
Qed.

Lemma Free_correct_witness : ∃ s', Free 8216 ex2 = Some (0, s') ∧ owns s' [(8328, 40)].
Proof.
  destruct (Free_correct ex2 [(8328, 40)] 8216 100 []) as (s' & Hf & Ho & _); [apply live_owns, ex2_live|].
  exact (ex_intro _ s' (conj Hf Ho)).
Defined.

(** [C3] [ReAlloc] of a held block to a size [req] > 0 leaves the bytes of the
    other blocks as they are.  Either it returns the handle 0 and the block
    stays with its bytes, or a block of at least [req] bytes in its place that
    starts with the old bytes, as many as both sizes allow. *)
Theorem ReAlloc_correct (s : CBinMalloc) (u1 : list (Z * Z)) (h r : Z) (u2 : list (Z * Z))
    (fuel : nat) (req h' : Z) (s' : CBinMalloc) :
  owns s (u1 ++ (h, r) :: u2) -> 0 < req -> ReAlloc (S fuel) h req s = Some (h', s') ->
  same_bytes (u1 ++ u2) s s' ∧
  if h' =? INVALID_HANDLE
  then owns s' (u1 ++ (h, r) :: u2) ∧ same_bytes [(h, r)] s s'
  else owns s' (u1 ++ (h', req) :: u2) ∧
       ∀ k, 0 <= k < Z.min r req -> byte_at (mem s') (h' + k) = byte_at (mem s) (h + k).
Proof.
  intros (p & z & L1 & L2 & b1 & b2 & Hs & -> & Hr & Hz & Hp & H1 & H2)%owns_split Hreq Hm.
  destruct (runs_inv _ _ _ _ _ (ReAlloc_run _ _ _ _ _ fuel _ Hs Hreq) Hm) as (Hu & Hor). split.
  { eapply (unchanged_bytes s s' (L1 ++ L2)); [exact Hs| |exact Hp|by apply Forall2_app|done].
    intros b. rewrite !elem_of_app, elem_of_cons. tauto. }
  destruct Hor as [(-> & Hs' & Hu')|(c & y & M1 & M2 & -> & Hc & HM & Ho & Hy & Hs' & [Hcp _])].
  - split; [by eapply owns_join|].
    eapply (unchanged_bytes s s' [(p, z)] _ [(p, z)]); [exact Hs| |done|by repeat constructor|].
    + intros b ->%list_elem_of_singleton. apply elem_of_app. right. by left.
    + intros d w [= -> ->]%list_elem_of_singleton. apply Hu', elem_of_app. right. by left.
  - assert ((c, y) ∈ M1 ++ (c, y) :: M2 ∧ (p, z) ∈ L1 ++ (p, z) :: L2) as [Hcin Hpin].
    { split; apply elem_of_app; right; by left. }
    pose proof (holds_in _ _ _ _ Hs' Hcin) as Hcb. pose proof (holds_in _ _ _ _ Hs Hpin) as Hpb.
    destruct (request2size_spec req ltac:(lia) Ho) as (Hrs & _).
    rewrite chunk2mem_ne by lia. split.
    { eapply (owns_join _ _ _ _ _ _ _ _ _ b1 b2); [exact Hs'|done|lia|lia|by rewrite HM|done|done]. }
    assert (c mod 8 = 0 ∧ p mod 8 = 0) as [? ?] by tauto. intros k Hk. unfold chunk2mem.
    apply byte_at_word; [Z.div_mod_to_equations; lia..|lia|].
    replace (c + 8 + 8 * (k / 8)) with (c + 8 * (k / 8 + 1)) by lia.
    replace (p + 8 + 8 * (k / 8)) with (p + 8 * (k / 8 + 1)) by lia. apply Hcp; Z.div_mod_to_equations; lia.
Qed.

Lemma ReAlloc_correct_witness :
  ∃ h', h' ≠ 0 ∧ ReAlloc 1 8216 500 ex2 = Some (h', after (ReAlloc 1 8216 500) ex2) ∧
        owns (after (ReAlloc 1 8216 500) ex2) [(8328, 40); (h', 500)].
Proof.
  exists 8376. split; [done|]. split; [by vm_compute|].
  destruct (ReAlloc_correct ex2 [(8328, 40)] 8216 100 [] 0 500 8376 (after (ReAlloc 1 8216 500) ex2)) as [_ [H _]];
    [apply live_owns, ex2_live|done|by vm_compute|exact H].
Defined.

(** ** Sizes *)

(** For a size in range, [request2size] gives a multiple of 8 that holds the
    header and the bytes asked for, is no smaller than the least chunk, wastes
    less than 16 bytes unless it is the least chunk, and does not wrap around. *)
Theorem request2size_bounds (req : Z) :
  0 <= req -> REQUEST_OUT_OF_RANGE req = false ->
  req + 8 <= request2size req < 2 ^ 32 - 8 ∧ MINSIZE <= request2size req ∧ request2size req mod 8 = 0 ∧
  (request2size req = MINSIZE ∨ request2size req < req + 16).
Proof. intros Hr Ho. by apply request2size_spec. Qed.

Lemma request2size_bounds_witness : 4294967247 + 8 <= request2size 4294967247 < 2 ^ 32 - 8.
Proof. apply (request2size_bounds 4294967247); [done|by vm_compute]. Defined.
