(* ===== verification/Mallocator.v ===== *)
(** * Mallocator: the memory interface of the row store

    Models [src/cache/mallocator.h], the abstract class [CMallocator] through
    which [CRawData] gets its memory.  [Mallocator] has the operations, as
    computations on the allocator's state, and the byte loads and stores that
    [Pointer<T>()] gives the client; an address is the handle of the block plus
    an offset, and handle 0 is [INVALID_HANDLE].  [MallocatorLaws] is the
    contract of the header's comments: the blocks a client holds, each with its
    handle and its bytes, [ChunkSize] of them, and what each operation does to
    them.  The contract is proved for [CBinMalloc] in [BinBytes]. *)

From stdpp Require Import list.
From S2P Require Import Prelude State.

Class Mallocator (A : Type) := {
  mal_Malloc : Z -> ST A Z;
  mal_ReAlloc : Z -> Z -> ST A Z;
  mal_Free : Z -> ST A Z;
  mal_ChunkSize : Z -> ST A Z;
  mal_load : Z -> ST A Z;
  mal_store : Z -> Z -> ST A unit
}.

(** A block in use: its handle and its bytes. *)
Definition block : Type := Z * list Z.

Class MallocatorLaws (A : Type) {M : Mallocator A} := {
  mal_holds : A -> list block -> Prop;
  mal_perm a u v : u ≡ₚ v -> mal_holds a u -> mal_holds a v;
  mal_block a h bs u : mal_holds a ((h, bs) :: u) ->
    0 < h ∧ bytes bs ∧ 0 < Z.of_nat (length bs) < 2 ^ 32;
  mal_Malloc_law a u n : mal_holds a u -> 0 <= n < 2 ^ 32 ->
    runs (mal_Malloc n) a (λ h a',
      (h = 0 ∧ mal_holds a' u) ∨
      (∃ bs, n <= Z.of_nat (length bs) ∧ mal_holds a' ((h, bs) :: u)));
  mal_ReAlloc_law a h bs u n : mal_holds a ((h, bs) :: u) -> 0 < n < 2 ^ 32 ->
    runs (mal_ReAlloc h n) a (λ h' a',
      (h' = 0 ∧ mal_holds a' ((h, bs) :: u)) ∨
      (∃ bs', n <= Z.of_nat (length bs') ∧
         take (Nat.min (length bs) (Z.to_nat n)) bs' = take (Nat.min (length bs) (Z.to_nat n)) bs ∧
         mal_holds a' ((h', bs') :: u)));
  mal_Free_law a h bs u : mal_holds a ((h, bs) :: u) ->
    runs (mal_Free h) a (λ r a', r = 0 ∧ mal_holds a' u);
  mal_ChunkSize_law a h bs u : mal_holds a ((h, bs) :: u) ->
    mal_ChunkSize h a = Some (Z.of_nat (length bs), a);
  mal_load_law a h bs u k v : mal_holds a ((h, bs) :: u) -> rd bs k = Some v ->
    mal_load (h + k) a = Some (v, a);
  mal_store_law a h bs u k v bs' : mal_holds a ((h, bs) :: u) -> is_byte v -> wr bs k v = Some bs' ->
    runs (mal_store (h + k) v) a (λ _ a', mal_holds a' ((h, bs') :: u))
}.

(** An allocator that does not move a block when the size asked for is at least
    four bytes below its size. *)
Class MallocatorInPlace (A : Type) `{MallocatorLaws A} : Prop :=
  mal_in_place a h bs u n h' a' : mal_holds a ((h, bs) :: u) -> 0 < n -> n + 4 <= Z.of_nat (length bs) ->
    mal_ReAlloc h n a = Some (h', a') -> h' = 0 ∨ h' = h.

(** ** Runs of bytes *)

Section bytes.
Context {A : Type} {MA : Mallocator A}.

(** [memcpy] and [memmove] read all bytes first. *)
Fixpoint peeks (a : Z) (n : nat) : ST A (list Z) :=
  match n with
  | O => mret []
  | S n' => b ← mal_load a; l ← peeks (a + 1) n'; mret (b :: l)
  end.
Fixpoint pokes (a : Z) (l : list Z) : ST A unit :=
  match l with
  | [] => mret tt
  | b :: l' => mal_store a b;; pokes (a + 1) l'
  end.
End bytes.

(** ** Rules for a held block

    The block's bytes are split at the place of the access. *)

Section rules.
Context {A : Type} `{MallocatorLaws A}.

Lemma peeks_at a h x y z u k n :
  mal_holds a ((h, x ++ y ++ z) :: u) -> k = Z.of_nat (length x) -> n = length y ->
  peeks (h + k) n a = Some (y, a).
Proof.
  intros Hh -> ->. revert x Hh. induction y as [|b y IH]; intros x Hh; simpl; [done|].
  mstep (mal_load_law a h _ u (Z.of_nat (length x)) b Hh
           ltac:(rewrite rd_nat, lookup_app_r, Nat.sub_diag by done; done)).
  specialize (IH (x ++ [b])). rewrite <- app_assoc, length_app in IH.
  replace (h + Z.of_nat (length x) + 1) with (h + Z.of_nat (length x + length [b])) by (simpl; lia).
  by mstep (IH Hh).
Qed.

Lemma pokes_at a h x y z u k l :
  mal_holds a ((h, x ++ y ++ z) :: u) -> k = Z.of_nat (length x) -> length y = length l -> bytes l ->
  runs (pokes (h + k) l) a (λ _ a', mal_holds a' ((h, x ++ l ++ z) :: u)).
Proof.
  intros Hh -> Hl Hb. revert x y Hl Hb a Hh. induction l as [|b l IH]; intros x y Hl Hb a Hh; simpl.
  { destruct y; [|done]. by apply runs_ret. }
  destruct y as [|c y]; [done|]. injection Hl as Hl. apply Forall_cons in Hb as [Hb1 Hb].
  eapply runs_bind.
  { eapply (mal_store_law a h _ u (Z.of_nat (length x)) b (x ++ b :: y ++ z) Hh Hb1).
    rewrite wr_is_Some by (rewrite length_app; simpl; lia).
    by rewrite Nat2Z.id, insert_app_r_alt, Nat.sub_diag by lia. }
  intros [] a1 H1. simpl in H1. specialize (IH (x ++ [b]) y Hl Hb a1).
  rewrite <- !app_assoc, length_app in IH. simpl in IH.
  replace (h + Z.of_nat (length x) + 1) with (h + Z.of_nat (length x + 1)) by lia. by apply IH.
Qed.
End rules.
