(* ===== verification/BinBytes.v ===== *)
(** * BinBytes: the shared-memory allocator as a [Mallocator]

    [CBinMalloc] ([src/cache/bin_malloc.h]) implements [CMallocator]: the byte
    accesses a client makes through [Pointer<T>()] on the allocator's words,
    and the proof that [Malloc], [ReAlloc], [Free] and [ChunkSize] keep the
    interface's contract, down to the four bytes of the last word of a chunk
    that lie in the next chunk's header. *)

From stdpp Require Import gmap.
From S2P Require Import Prelude State BinMalloc BinHeap BinAlloc BinResize BinClient BinSpec Mallocator.

(** ** Bytes of a word *)

Definition byte_of (w k : Z) : Z := Z.shiftr w (8 * k) mod 256.
Definition set_byte (w k v : Z) : Z := Z.lor (Z.ldiff w (Z.shiftl 255 (8 * k))) (Z.shiftl v (8 * k)).

Definition bin_load (a : Z) : M Z := w ← ld (a / 8 * 8); mret (byte_of w (a mod 8)).
Definition bin_store (a v : Z) : M unit :=
  w ← ld (a / 8 * 8); st (a / 8 * 8) (set_byte w (a mod 8) v).

#[export] Instance CBinMalloc_Mallocator : Mallocator CBinMalloc := {
  mal_Malloc := Malloc 1;
  mal_ReAlloc := ReAlloc 1;
  mal_Free := Free;
  mal_ChunkSize := ChunkSize;
  mal_load := bin_load;
  mal_store := bin_store
}.

Lemma mod_256_testbit x i : 0 <= i -> Z.testbit (x mod 256) i = (i <? 8) && Z.testbit x i.
Proof. intros. change 256 with (2 ^ 8). by apply (uwrap_testbit 8). Qed.

Lemma testbit_255 i : 0 <= i -> Z.testbit 255 i = (i <? 8).
Proof. intros. change 255 with (Z.ones 8). rewrite Z.testbit_ones by lia. zcases; lia || done. Qed.

Lemma testbit_byte v i : is_byte v -> 8 <= i -> Z.testbit v i = false.
Proof.
  intros Hv Hi. destruct (Z.eq_dec v 0) as [->|]; [apply Z.testbit_0_l|]. apply Z.bits_above_log2; [destruct Hv; lia|].
  assert (Z.log2 v < 8); [|lia]. apply Z.log2_lt_pow2; destruct Hv; simpl; lia.
Qed.

Lemma set_byte_testbit w k v i :
  is_byte v -> 0 <= k -> 0 <= i ->
  Z.testbit (set_byte w k v) i =
    if (8 * k <=? i) && (i <? 8 * k + 8) then Z.testbit v (i - 8 * k) else Z.testbit w i.
Proof.
  intros Hv Hk Hi. unfold set_byte. rewrite Z.lor_spec, Z.ldiff_spec, !Z.shiftl_spec by done.
  destruct (Z.leb_spec (8 * k) i) as [H1|H1]; simpl.
  - rewrite testbit_255 by lia. destruct (Z.ltb_spec i (8 * k + 8)); destruct (Z.ltb_spec (i - 8 * k) 8); try lia; simpl.
    + by rewrite andb_false_r.
    + rewrite (testbit_byte v) by (done || lia). by rewrite andb_true_r, orb_false_r.
  - rewrite !(Z.testbit_neg_r _ (i - 8 * k)) by lia. simpl. by rewrite andb_true_r, orb_false_r.
Qed.

Lemma byte_of_set_byte w k v j :
  is_byte v -> 0 <= k -> 0 <= j -> byte_of (set_byte w k v) j = if j =? k then v else byte_of w j.
Proof.
  intros Hv Hk Hj. apply Z.bits_inj'. intros i Hi. unfold byte_of.
  destruct (Z.eqb_spec j k) as [->|].
  - rewrite mod_256_testbit, Z.shiftr_spec, set_byte_testbit by (done || lia).
    destruct (Z.ltb_spec i 8); simpl.
    + zcases; try lia. simpl. f_equal. lia.
    + symmetry. by apply testbit_byte.
  - rewrite !mod_256_testbit, !Z.shiftr_spec, set_byte_testbit by (done || lia).
    destruct (Z.ltb_spec i 8); [|done]. zcases; simpl; try done; lia.
Qed.

Lemma w_size_set_byte w k v : is_byte v -> 0 <= k < 4 -> w_size (set_byte w k v) = w_size w.
Proof.
  intros Hv Hk. unfold w_size. rewrite <- !Z.shiftr_div_pow2 by lia. apply Z.bits_inj'. intros i Hi.
  rewrite !Z.shiftr_spec, set_byte_testbit by (done || lia). zcases; simpl; done || lia.
Qed.

Lemma w_pre_byte w w' k : w_pre w' = w_pre w -> 0 <= k < 4 -> byte_of w' k = byte_of w k.
Proof.
  intros Hw Hk. unfold byte_of. apply Z.bits_inj'. intros i Hi.
  rewrite !mod_256_testbit by done. destruct (Z.ltb_spec i 8); [|done]. simpl.
  rewrite !Z.shiftr_spec by done. unfold w_pre in Hw.
  rewrite <- (Z.mod_pow2_bits_low w 32), <- (Z.mod_pow2_bits_low w' 32) by lia. by rewrite Hw.
Qed.

(** ** Writing a byte of a chunk in use *)

Lemma heap_suffix s l p z r B m' :
  heap s (l ++ (p, z, true) :: r) B None ->
  (∀ x, word_at m' x ≠ word_at (mem s) x -> p < x <= p + z) ->
  w_size (word_at m' (p + z)) = w_size (word_at (mem s) (p + z)) ->
  heap (set_mem m' s) (l ++ (p, z, true) :: r) B None.
Proof.
  intros H Hs Hw. pose proof (hp_contig _ _ _ _ H) as Hc.
  destruct (contig_mid _ _ _ _ _ _ _ Hc) as (Hcl & ? & ? & Hcr). simpl in Hcr.
  assert (∀ x, x <= p ∨ p + z < x -> word_at m' x = word_at (mem s) x) as Hsame.
  { intros x Hx. destruct (decide (word_at m' x = word_at (mem s) x)) as [|Hne]; [done|]. apply Hs in Hne. lia. }
  eapply heap_change; [exact H| |exact Hc| |done].
  - intros x y w Hne%Hs Hin _ ?.
    assert ((p, z, true) ∈ l ++ (p, z, true) :: r) as Hp by (apply elem_of_app; right; by left).
    destruct (contig_disj _ _ _ _ _ _ _ _ _ Hc Hin Hp) as [(_ & _ & ?)|?]; [done|].
    assert (x = p + z) as -> by lia. assert (y < p + z < y + w) by lia. lia.
  - pose proof (hp_hdr _ _ _ _ H) as Hh.
    apply (hdr_split _ _ _ _ _ _ _ _ Hc) in Hh as (Hd1 & Hd2 & Hd3 & Hd4).
    apply (hdr_split _ _ _ _ _ _ _ _ Hc). split_and!.
    + eapply hdr_pre_frame; [|exact Hd1]. intros x y w Hin. pose proof (contig_in _ _ _ _ _ _ Hcl Hin). apply Hsame. mlia.
    + by rewrite (hdr_is_same (mem s) m' p) by (apply Hsame; lia).
    + intros Hk. destruct (Hd3 Hk) as (q & Hq & Hq2 & _). exists (w_pre (word_at m' (p + z))).
      rewrite Hq in Hw. unfold hdr_word in Hw. rewrite w_size_mk in Hw by done.
      split_and!; [|apply Z.mod_pos_bound; lia|apply Z.mod_pos_bound; lia|done].
      unfold hdr_word, mk_word. rewrite <- Hw. unfold w_pre, w_size. Z.div_mod_to_equations; lia.
    + eapply hdr_rest_frame; [exact Hcr| |exact Hd4]. intros x ?. apply Hsame. lia.
Qed.

Lemma holds_tail s L1 p z L2 m' :
  holds s (L1 ++ (p, z) :: L2) ->
  (∀ x, word_at m' x ≠ word_at (mem s) x -> p < x <= p + z) ->
  w_size (word_at m' (p + z)) = w_size (word_at (mem s) (p + z)) ->
  holds (set_mem m' s) (L1 ++ (p, z) :: L2).
Proof.
  intros (cs & B & H & Hco & Hu & Ha) Hs Hw. destruct (used_split _ _ _ _ _ Hu) as (l & r & -> & _).
  exists (l ++ (p, z, true) :: r), B. split_and!; [by apply heap_suffix|done|done|by destruct Ha].
Qed.

(** ** The blocks of a client, with their bytes *)

Definition bytes_at (m : gmap Z Z) (h : Z) (bs : list Z) : Prop :=
  ∀ k v, rd bs k = Some v -> byte_at m (h + k) = v.
Definition bin_block (s : CBinMalloc) (b : block) (pz : Z * Z) : Prop :=
  b.1 = chunk2mem pz.1 ∧ Z.of_nat (length b.2) = pz.2 - 4 ∧ bytes_at (mem s) b.1 b.2.
Definition bin_holds (s : CBinMalloc) (u : list block) : Prop :=
  ∃ bs bs', holds s bs ∧ bs' ≡ₚ bs ∧ Forall2 (bin_block s) u bs'.

Lemma byte_at_of m a k : a mod 8 = 0 -> 0 <= k -> byte_at m (a + k) = byte_of (word_at m (a + 8 * (k / 8))) (k mod 8).
Proof.
  intros. unfold byte_at, byte_of. replace ((a + k) / 8 * 8) with (a + 8 * (k / 8)) by (Z.div_mod_to_equations; lia).
  by replace ((a + k) mod 8) with (k mod 8) by (Z.div_mod_to_equations; lia).
Qed.

Lemma copied_bytes m m' p c n k :
  copied m m' p c n -> p mod 8 = 0 -> c mod 8 = 0 -> n mod 8 = 0 -> 0 <= k < n - 4 ->
  byte_at m' (chunk2mem c + k) = byte_at m (chunk2mem p + k).
Proof.
  intros [Hw Ht] Hp Hc Hn Hk. unfold chunk2mem. rewrite !byte_at_of by (Z.div_mod_to_equations; lia).
  replace (c + 8 + 8 * (k / 8)) with (c + 8 * (k / 8 + 1)) by lia.
  replace (p + 8 + 8 * (k / 8)) with (p + 8 * (k / 8 + 1)) by lia.
  destruct (decide (8 * (k / 8 + 1) < n)) as [|Hge]; [rewrite Hw by (Z.div_mod_to_equations; lia); done|].
  assert (8 * (k / 8 + 1) = n) as -> by (Z.div_mod_to_equations; lia).
  apply w_pre_byte; [done|]. Z.div_mod_to_equations; lia.
Qed.

Definition contents (m : gmap Z Z) (h n : Z) : list Z := (λ k, byte_at m (h + k)) <$> seqZ 0 n.

Lemma contents_at m h n : bytes_at m h (contents m h n).
Proof.
  intros k v Hk. pose proof (rd_Some_lt _ _ _ Hk). unfold rd in Hk.
  destruct (Z.ltb_spec k 0); [lia|]. unfold contents in Hk. rewrite list_lookup_fmap in Hk.
  apply fmap_Some in Hk as (j & Hj & ->). apply lookup_seqZ in Hj as [-> _]. f_equal. lia.
Qed.
Lemma length_contents m h n : 0 <= n -> Z.of_nat (length (contents m h n)) = n.
Proof. intros. unfold contents. rewrite length_fmap, length_seqZ. lia. Qed.

Lemma bytes_at_bytes m h bs : bytes_at m h bs -> bytes bs.
Proof.
  intros H. apply Forall_lookup. intros i x Hx. rewrite <- (H (Z.of_nat i) x) by by rewrite rd_nat.
  unfold byte_at. unfold is_byte. apply Z.mod_pos_bound. lia.
Qed.

Lemma bin_block_keep s s' u b2 L :
  (∀ b, b ∈ L -> ∃ L', holds s L' ∧ b ∈ L') -> b2 ≡ₚ L -> unchanged L s s' ->
  Forall2 (bin_block s) u b2 -> Forall2 (bin_block s') u b2.
Proof.
  intros Hh Hp Hk Hf. apply Forall2_same_length_lookup in Hf as [Hl Hf].
  apply Forall2_same_length_lookup. split; [done|]. intros i [h bs] [p z] Hi Hj.
  destruct (Hf i _ _ Hi Hj) as (Hh' & Hz & Hb). simpl in *. split_and!; [done|done|]. intros k v Hkv. simpl in *.
  assert ((p, z) ∈ L) as Hin by (rewrite <- Hp; by eapply list_elem_of_lookup_2).
  destruct (Hh _ Hin) as (L' & HL & HinL). pose proof (holds_in _ _ _ _ HL HinL) as Hr.
  assert (p mod 8 = 0 ∧ z mod 8 = 0) as [Hp8 Hz8] by tauto.
  rewrite <- (Hb k v Hkv), Hh'. apply rd_Some_lt in Hkv. apply (copied_bytes _ _ _ _ z); try done; [|lia].
  apply (user_kept_copied _ _ _ z); [by apply Hk|mlia].
Qed.

Lemma bin_holds_split s h bs u :
  bin_holds s ((h, bs) :: u) <->
  ∃ p z L1 L2 b2, holds s (L1 ++ (p, z) :: L2) ∧ h = chunk2mem p ∧ Z.of_nat (length bs) = z - 4 ∧
    bytes_at (mem s) h bs ∧ b2 ≡ₚ L1 ++ L2 ∧ Forall2 (bin_block s) u b2.
Proof.
  split.
  - intros (L & b & Hs & Hp & ([p z] & b2 & (Hh & Hl & Hb) & H2 & ->)%Forall2_cons_inv_l).
    assert ((p, z) ∈ L) as Hin by (rewrite <- Hp; by left).
    apply list_elem_of_split in Hin as (L1 & L2 & ->). rewrite <- Permutation_middle in Hp.
    apply (Permutation_cons_inv) in Hp. by exists p, z, L1, L2, b2.
  - intros (p & z & L1 & L2 & b2 & Hs & Hh & Hl & Hb & Hp & H2). exists (L1 ++ (p, z) :: L2), ((p, z) :: b2).
    split_and!; [done| |by constructor]. by rewrite Hp, Permutation_middle.
Qed.

Lemma bin_holds_block s h bs u :
  bin_holds s ((h, bs) :: u) -> 0 < h ∧ bytes bs ∧ 0 < Z.of_nat (length bs) < 2 ^ 32.
Proof.
  intros (p & z & L1 & L2 & b2 & Hs & -> & Hl & Hb & _)%bin_holds_split.
  pose proof (holds_in _ _ p z Hs ltac:(apply elem_of_app; right; by left)). unfold chunk2mem.
  split_and!; [mlia|by eapply bytes_at_bytes|mlia..].
Qed.

Lemma mid_in {A} (L1 L2 : list A) x : x ∈ L1 ++ x :: L2.
Proof. apply elem_of_app. right. by left. Qed.

(** The others keep their bytes. *)
Lemma bin_rest s s' u b2 L1 pz L2 :
  holds s (L1 ++ pz :: L2) -> b2 ≡ₚ L1 ++ L2 -> unchanged (L1 ++ L2) s s' ->
  Forall2 (bin_block s) u b2 -> Forall2 (bin_block s') u b2.
Proof.
  intros Hs Hp Hk. apply (bin_block_keep s s' u b2 (L1 ++ L2)); [|done|done]. intros b Hb.
  exists (L1 ++ pz :: L2). split; [done|]. apply elem_of_app in Hb as [?|?]; apply elem_of_app; [by left|right; by right].
Qed.

Lemma bin_Malloc_law s u n :
  bin_holds s u -> 0 <= n < 2 ^ 32 ->
  runs (Malloc 1 n) s (λ h s',
    (h = 0 ∧ bin_holds s' u) ∨ (∃ bs, n <= Z.of_nat (length bs) ∧ bin_holds s' ((h, bs) :: u))).
Proof.
  intros (L & b2 & Hs & Hp & Hf) [Hn _]. eapply runs_mono; [by apply (Malloc_run s L 0)|].
  intros h s' (Hk & Hor).
  assert (Forall2 (bin_block s') u b2) as Hf'.
  { eapply (bin_block_keep s s' u b2 L); [|done..]. intros b Hb. by exists L. }
  destruct Hor as [(-> & Hs' & _)|(p & z & L1 & L2 & -> & _ & -> & Hz & Hs')].
  - left. split; [done|]. by exists L, b2.
  - right. pose proof (holds_in _ _ p z Hs' (mid_in _ _ _)) as Hr.
    pose proof (length_contents (mem s') (chunk2mem p) (z - 4) ltac:(mlia)) as Hl.
    exists (contents (mem s') (chunk2mem p) (z - 4)). split; [lia|]. apply bin_holds_split.
    exists p, z, L1, L2, b2. split_and!; try done. apply contents_at.
Qed.

Lemma bin_ReAlloc_law s h bs u n :
  bin_holds s ((h, bs) :: u) -> 0 < n < 2 ^ 32 ->
  runs (ReAlloc 1 h n) s (λ h' s',
    (h' = 0 ∧ bin_holds s' ((h, bs) :: u)) ∨
    (∃ bs', n <= Z.of_nat (length bs') ∧
       take (Nat.min (length bs) (Z.to_nat n)) bs' = take (Nat.min (length bs) (Z.to_nat n)) bs ∧
       bin_holds s' ((h', bs') :: u))).
Proof.
  intros (p & z & L1 & L2 & b2 & Hs & -> & Hl & Hb & Hp & Hf)%bin_holds_split [Hn _].
  pose proof (holds_in _ _ p z Hs (mid_in _ _ _)) as Hpr.
  assert (p mod 8 = 0 ∧ z mod 8 = 0) as [Hp8 Hz8] by tauto.
  eapply runs_mono; [by apply (ReAlloc_run s L1 p z L2 0)|].
  intros h' s' (Hk & [(-> & Hs' & Hkp)|(c & y & M1 & M2 & -> & Hc & HM & Ho & Hy & Hs' & Hcp)]).
  - left. split; [done|]. apply bin_holds_split. exists p, z, L1, L2, b2. split_and!; try done.
    + intros k v Hkv. rewrite <- (Hb k v Hkv). apply rd_Some_lt in Hkv.
      apply (copied_bytes _ _ _ _ z); try done; [|lia]. apply (user_kept_copied _ _ _ z); [|mlia].
      apply Hkp, mid_in.
    + by apply (bin_rest s s' u b2 L1 (p, z) L2).
  - right. destruct (request2size_spec n ltac:(lia) Ho) as (Ht1 & Ht2 & Ht8 & _).
    pose proof (holds_in _ _ c y Hs' (mid_in _ _ _)) as Hcr. assert (c mod 8 = 0) as Hc8 by tauto.
    pose proof (length_contents (mem s') (chunk2mem c) (y - 4) ltac:(mlia)) as Hlc.
    exists (contents (mem s') (chunk2mem c) (y - 4)). split; [lia|]. split.
    + apply list_eq. intros i. destruct (decide (i < Nat.min (length bs) (Z.to_nat n))%nat) as [Hi|];
        [|by rewrite !lookup_take_ge by lia].
      rewrite !lookup_take_lt by done.
      destruct (lookup_lt_is_Some_2 bs i ltac:(lia)) as [v Hv]. rewrite Hv.
      destruct (lookup_lt_is_Some_2 (contents (mem s') (chunk2mem c) (y - 4)) i ltac:(lia)) as [w Hw]. rewrite Hw. f_equal.
      rewrite <- (contents_at _ _ _ (Z.of_nat i) w) by (rewrite rd_nat; exact Hw).
      rewrite <- (Hb (Z.of_nat i) v) by by rewrite rd_nat.
      apply (copied_bytes _ _ _ _ (Z.min z (request2size n))); try done; [|lia].
      destruct (Z.min_spec z (request2size n)) as [[_ ->]|[_ ->]]; done.
    + apply bin_holds_split. exists c, y, M1, M2, b2. rewrite HM. split_and!; try done; [apply contents_at|].
      by apply (bin_rest s s' u b2 L1 (p, z) L2).
Qed.

Lemma bin_Free_law s h bs u :
  bin_holds s ((h, bs) :: u) -> runs (Free h) s (λ r s', r = 0 ∧ bin_holds s' u).
Proof.
  intros (p & z & L1 & L2 & b2 & Hs & -> & Hl & Hb & Hp & Hf)%bin_holds_split.
  eapply runs_mono; [by apply (Free_run s L1 p z L2)|]. intros r s' (-> & Hs' & Hk). split; [done|].
  exists (L1 ++ L2), b2. split_and!; [done|done|]. by apply (bin_rest s s' u b2 L1 (p, z) L2).
Qed.

Lemma bin_ChunkSize_law s h bs u :
  bin_holds s ((h, bs) :: u) -> ChunkSize h s = Some (Z.of_nat (length bs), s).
Proof.
  intros (p & z & L1 & L2 & b2 & Hs & -> & Hl & _)%bin_holds_split.
  pose proof (holds_in _ _ p z Hs (mid_in _ _ _)) as Hr.
  destruct Hs as (cs & B & H & _ & Hu & _). destruct (used_split _ _ _ _ _ Hu) as (l & r & -> & _).
  destruct (heap_hdr0 _ _ _ _ _ _ _ _ H) as [(q & Hp & _) _].
  unfold ChunkSize. mstep (gets_ok m_hTop s). mstep (gets_ok m_hBottom s). unfold chunk2mem, mem2chunk.
  destruct (Z.leb_spec (m_hTop (m_pstHead s)) (p + 8)); [mlia|].
  destruct (Z.leb_spec (p + 8) (m_hBottom (m_pstHead s))); [mlia|]. cbn [orb].
  replace (p + 8 - 8) with p by lia.
  assert (CheckInuseChunk p s = Some (0, s)) as Hck by (eapply CheckInuseChunk_run; [exact H|lia|by left]).
  mstep Hck. cbn [Z.eqb negb]. mstep (CHUNK_SIZE_hdr _ _ _ _ _ Hp).
  unfold chunksize2memsize. rewrite uwrap_small by mlia. by rewrite Hl.
Qed.

(** The word of byte [k] of a block. *)
Lemma bin_word s p z L1 L2 k :
  holds s (L1 ++ (p, z) :: L2) -> 0 <= k < z - 4 ->
  let a := (chunk2mem p + k) / 8 * 8 in
  seg s a ∧ p < a <= p + z ∧ (a = p + z -> (chunk2mem p + k) mod 8 < 4).
Proof.
  intros Hs Hk a. pose proof (holds_in _ _ p z Hs (mid_in _ _ _)) as Hr.
  assert (p mod 8 = 0 ∧ z mod 8 = 0) as [Hp8 Hz8] by tauto.
  unfold a, chunk2mem, seg. split_and!; Z.div_mod_to_equations; mlia.
Qed.

Lemma bin_load_law s h bs u k v :
  bin_holds s ((h, bs) :: u) -> rd bs k = Some v -> bin_load (h + k) s = Some (v, s).
Proof.
  intros (p & z & L1 & L2 & b2 & Hs & -> & Hl & Hb & _)%bin_holds_split Hk.
  pose proof (rd_Some_lt _ _ _ Hk). destruct (bin_word _ _ _ _ _ k Hs ltac:(lia)) as (Hseg & _).
  unfold bin_load. mstep (ld_ok s _ Hseg). rewrite <- (Hb k v Hk). done.
Qed.

Lemma byte_at_insert m a v b :
  is_byte v ->
  byte_at (<[a / 8 * 8 := set_byte (word_at m (a / 8 * 8)) (a mod 8) v]> m) b = if b =? a then v else byte_at m b.
Proof.
  intros Hv. unfold byte_at. rewrite word_at_insert.
  destruct (Z.eqb_spec (a / 8 * 8) (b / 8 * 8)) as [He|He].
  - fold (byte_of (set_byte (word_at m (a / 8 * 8)) (a mod 8) v) (b mod 8)).
    rewrite byte_of_set_byte by (done || (Z.div_mod_to_equations; lia)).
    destruct (Z.eqb_spec (b mod 8) (a mod 8)) as [Hm|Hm], (Z.eqb_spec b a) as [|Hab];
      try done; [exfalso; apply Hab; Z.div_mod_to_equations; lia|by subst|].
    unfold byte_of. by rewrite He.
  - destruct (Z.eqb_spec b a) as [->|]; [done|]. done.
Qed.

Lemma bin_store_law s h bs u k v bs' :
  bin_holds s ((h, bs) :: u) -> is_byte v -> wr bs k v = Some bs' ->
  runs (bin_store (h + k) v) s (λ _ s', bin_holds s' ((h, bs') :: u)).
Proof.
  intros (p & z & L1 & L2 & b2 & Hs & -> & Hl & Hb & Hp & Hf)%bin_holds_split Hv Hw.
  pose proof (wr_Some _ _ _ _ Hw) as [Hk _]. pose proof (wr_length _ _ _ _ Hw) as Hl'.
  destruct (bin_word _ _ _ _ _ k Hs ltac:(lia)) as (Hseg & Ha & Hlow). set (a := chunk2mem p + k) in *.
  unfold bin_store. eapply runs_step; [apply (ld_ok s _ Hseg)|].
  eapply runs_eq; [apply (st_ok s _ _ Hseg)|]. set (m := <[_ := _]> (mem s)).
  assert (∀ x, x ≠ a / 8 * 8 -> word_at m x = word_at (mem s) x) as Hsame.
  { intros x Hx. unfold m. by rewrite word_at_insert_ne. }
  apply bin_holds_split. exists p, z, L1, L2, b2. split_and!; try done; [|lia| |].
  - apply holds_tail; [done| |].
    + intros x Hx. destruct (decide (x = a / 8 * 8)) as [->|]; [done|]. by rewrite Hsame in Hx.
    + destruct (decide (p + z = a / 8 * 8)) as [He|]; [|by rewrite Hsame].
      unfold m. rewrite He, word_at_insert_eq. apply w_size_set_byte; [done|]. symmetry in He. apply Hlow in He.
      pose proof (Z.mod_pos_bound a 8). lia.
  - intros j w Hj. simpl. unfold m. rewrite (byte_at_insert (mem s) a v) by done.
    rewrite (rd_wr _ _ _ _ _ Hw) in Hj. unfold a.
    destruct (Z.eqb_spec (chunk2mem p + j) (chunk2mem p + k)), (Z.eqb_spec k j); try lia; [congruence|by apply Hb].
  - eapply (bin_rest s _ u b2 L1 (p, z) L2); try done. intros c w Hcw.
    assert ((c, w) ∈ L1 ++ (p, z) :: L2) as Hcw'.
    { apply elem_of_app in Hcw as [?|?]; apply elem_of_app; [by left|right; by right]. }
    pose proof (holds_in _ _ _ _ Hs Hcw') as Hr. pose proof (holds_apart _ _ _ _ _ _ _ Hs Hcw) as Hd.
    simpl. split; [intros x Hx; apply Hsame; lia|]. destruct (decide (c + w = a / 8 * 8)) as [He|]; [|by rewrite Hsame].
    destruct Hr as (_ & _ & ? & _). mlia.
Qed.

Lemma bin_holds_perm s u v : u ≡ₚ v -> bin_holds s u -> bin_holds s v.
Proof.
  intros Huv (L & b & Hs & Hp & Hf). destruct (Permutation_Forall2 Huv Hf) as (b' & Hp' & Hf').
  exists L, b'. split_and!; [done|by rewrite <- Hp'|done].
Qed.

#[export] Instance CBinMalloc_MallocatorLaws : MallocatorLaws CBinMalloc := {
  mal_holds := bin_holds;
  mal_perm := bin_holds_perm;
  mal_block := bin_holds_block;
  mal_Malloc_law := bin_Malloc_law;
  mal_ReAlloc_law := bin_ReAlloc_law;
  mal_Free_law := bin_Free_law;
  mal_ChunkSize_law := bin_ChunkSize_law;
  mal_load_law := bin_load_law;
  mal_store_law := bin_store_law
}.

(** ** Resizing in place *)

Lemma Ptr2Handle_val x s h s' : Ptr2Handle x s = Some (h, s') -> h = 0 ∨ h = x.
Proof.
  unfold Ptr2Handle. intros (n & s1 & _ & H)%bind_inv. injection H as <- _. destruct (_ || _); [by left|by right].
Qed.

Lemma realloc_finish_val p old t pin ps s h s' :
  realloc_finish p old t pin ps s = Some (h, s') -> h = 0 ∨ h = chunk2mem p.
Proof.
  unfold realloc_finish. destruct (old <? t); [done|].
  intros (mn & s1 & _ & (u1 & s2 & _ & (u2 & s3 & _ & (u3 & s4 & _ & (u4 & s5 & _ & H)%bind_inv)%bind_inv)%bind_inv)%bind_inv)%bind_inv.
  by apply Ptr2Handle_val in H.
Qed.

#[export] Instance CBinMalloc_in_place : MallocatorInPlace CBinMalloc.
Proof.
  intros s h bs u n h' s' (p & z & L1 & L2 & b2 & Hs & -> & Hl & _)%bin_holds_split Hn Hlen H.
  pose proof (holds_in _ _ p z Hs (mid_in _ _ _)) as Hpr. assert (z mod 8 = 0 ∧ MINSIZE <= z) as [Hz8 Hzm] by tauto.
  unfold mal_ReAlloc in H. simpl in H. unfold ReAlloc in H.
  apply bind_inv in H as ([] & s1 & H1 & H). injection H1 as <-. set (s1 := set_m_pstHead _ s) in *.
  apply bind_inv in H as ([hNew old] & s2 & H2 & H).
  apply bind_inv in H as ([] & s3 & _ & H). injection H as <- _.
  unfold InterReAlloc in H2. change INVALID_HANDLE with 0 in H2.
  destruct (Z.eqb_spec (chunk2mem p) 0) as [E|_]; [unfold chunk2mem in E; mlia|].
  destruct (Z.eqb_spec n 0); [lia|]. destruct (REQUEST_OUT_OF_RANGE n) eqn:Ho; [injection H2 as <- _; by left|].
  destruct (request2size_spec n ltac:(lia) Ho) as (Ht1 & Ht2 & Ht8 & Ht).
  apply bind_inv in H2 as (o & s4 & Hc & H2). destruct o as [o|]; [|injection H2 as <- _; by left].
  destruct Hs as (cs & B & Hheap & _ & Hu & _). destruct (used_split _ _ _ _ _ Hu) as (l & r & -> & _ & _).
  assert (heap s1 (l ++ (p, z, true) :: r) B None) as Hh1 by (by apply heap_last).
  rewrite (realloc_check_run _ _ _ _ _ _ Hh1) in Hc. injection Hc as <- <-.
  apply bind_inv in H2 as (h2 & s5 & H2 & H3). injection H3 as <- _ _.
  destruct (Z.leb_spec (request2size n) z) as [_|Hlt]; [|exfalso; destruct Ht as [Ht|Ht]; [lia|Z.div_mod_to_equations; lia]].
  apply bind_inv in H2 as (pin & s6 & _ & H2). apply bind_inv in H2 as (ps & s7 & _ & H2).
  apply realloc_finish_val in H2. unfold mem2chunk, chunk2mem in *. replace (p + 8 - 8 + 8) with (p + 8) in H2 by lia. done.
Qed.

(** ** All bytes of a block *)

(** [C22] A block in use has [ChunkSize] bytes: all of them can be overwritten,
    also the last four, which lie in the header of the chunk behind, are read
    back as written, and the heap and the bytes of the other blocks stay. *)
Theorem chunk_bytes (s : CBinMalloc) (h : Z) (bs l : list Z) (u : list block) :
  bin_holds s ((h, bs) :: u) -> bytes l -> length l = length bs ->
  ChunkSize h s = Some (Z.of_nat (length bs), s) ∧
  runs (pokes h l) s (λ _ s', peeks h (length l) s' = Some (l, s') ∧ bin_holds s' ((h, l) :: u)).
Proof.
  intros Hs Hl Hn. split; [by eapply bin_ChunkSize_law|].
  rewrite <- (app_nil_r bs) in Hs. replace h with (h + 0) at 1 by lia. eapply runs_mono.
  { by apply (pokes_at (H:=CBinMalloc_MallocatorLaws) s h [] bs [] u 0 l Hs). }
  intros ? s' H'. simpl in H'. split; [|by rewrite app_nil_r in H'].
  replace h with (h + 0) at 1 by lia. by apply (peeks_at (H:=CBinMalloc_MallocatorLaws) s' h [] l [] u 0 (length l)).
Qed.

Lemma ex0_holds : bin_holds ex0 [].
Proof.
  exists [], []. split; [|split; [done|constructor]].
  destruct (Init_run ex_new 16384) as (x & s' & Hi & _ & Hs & _); [by vm_compute|done|by right|].
  unfold ex0, after. by rewrite Hi.
Qed.

Definition ex_chunk : CBinMalloc := after (Malloc 1 20) ex0.
Lemma held_after s n h k :
  bin_holds s [] -> 0 <= n < 2 ^ 32 -> fst <$> Malloc 1 n s = Some h -> h ≠ 0 ->
  fst <$> ChunkSize h (after (Malloc 1 n) s) = Some k ->
  ∃ bs, bin_holds (after (Malloc 1 n) s) [(h, bs)] ∧ Z.of_nat (length bs) = k.
Proof.
  intros Hs Hn E Hh. destruct (bin_Malloc_law s [] n Hs Hn) as (h' & s' & Hm & Hor). unfold after.
  rewrite Hm in *. simpl in E. injection E as ->. cbn [from_option snd]. intros E2.
  destruct Hor as [[? _]|(bs & _ & Hb)]; [done|]. exists bs. split; [done|].
  rewrite (bin_ChunkSize_law _ _ _ _ Hb) in E2. simpl in E2. by injection E2.
Qed.
Lemma ex_chunk_holds : ∃ bs, bin_holds ex_chunk [(8216, bs)] ∧ Z.of_nat (length bs) = 28.
Proof. refine (held_after ex0 20 8216 28 ex0_holds _ _ _ _); [lia|vm_compute; reflexivity|done|vm_compute; reflexivity]. Qed.

Lemma chunk_bytes_witness : runs (pokes 8216 (replicate 28 255)) ex_chunk (λ _ s',
  peeks 8216 28 s' = Some (replicate 28 255, s') ∧ bin_holds s' [(8216, replicate 28 255)]).
Proof.
  destruct ex_chunk_holds as (bs & Hb & Hl).
  apply (chunk_bytes ex_chunk 8216 bs (replicate 28 255) [] Hb); [by apply Forall_replicate|rewrite length_replicate; lia].
Defined.
