(* ===== verification/RawData.v ===== *)
(** * RawData: the rows of a cache node

    Models [src/cache/raw_data.h] and [src/cache/raw_data.cc]: [CRawData], a
    cursor over the rows stored in one chunk of a [CMallocator].

    A chunk holds the data type (1 byte), the data size and the row count (4
    bytes each), the number of selects (1), three time stamps in hours (2
    each), the packed key and the rows; a row is its flag byte and the columns
    behind the key column.  The object keeps copies of the header's numbers
    and the offsets of the current and the next row.

    A computation runs on the object and its allocator.  An address is the
    chunk's handle plus an offset ([Handle2Ptr] adds a constant); a null
    content pointer is 0.  A decoded string is the chunk's memory with the
    string's offset in it; what is written through that pointer later is a
    write to the chunk at this offset ([RawProc.update_at]).  The reference
    object of [CopyRow] and [CopyAll] is an argument with its memory; the
    results of [MALLOC] for scratch buffers and of the relative hour clock are
    arguments.  Error texts are not kept. *)

From Stdlib Require Import SpecFloat.
From stdpp Require Import list.
From S2P Require Import Prelude State Bitsop Value Protocol TableDef Field Mallocator.

#[local] Open Scope cint_scope.

(** ** Constants *)

Definition EC_NO_MEM : Z := 2041.
Definition ENOMEM : Z := 12.
Definition PRE_DECODE_ROW : Z := 1.
Definition BTYE_MAX_VALUE : Z := 255.

(** [enum CDataType], [enum TOperType] *)
Definition DATA_TYPE_RAW : Z := 0.
Definition DATA_TYPE_TREE_ROOT : Z := 1.
Definition DATA_TYPE_TREE_NODE : Z := 2.
Definition OPER_DIRTY : Z := 0x02.
Definition OPER_SELECT : Z := 0x30.
Definition OPER_INSERT_OLD : Z := 0x31.
Definition OPER_UPDATE : Z := 0x32.
Definition OPER_DELETE_NA : Z := 0x33.
Definition OPER_FLUSH : Z := 0x34.
Definition OPER_INSERT : Z := 0x36.

(** ** float *)

Definition flt_dec (x : Z) : spec_float :=
  let s := Z.testbit x 31 in
  let e := (x / 2 ^ 23) mod 2 ^ 8 in
  let m := x mod 2 ^ 23 in
  if e =? 0 then (if m =? 0 then S754_zero s else S754_finite s (Z.to_pos m) (-149))
  else if e =? 255 then (if m =? 0 then S754_infinity s else S754_nan)
  else S754_finite s (Z.to_pos (m + 2 ^ 23)) (e - 150).

Definition flt_enc (f : spec_float) : Z :=
  let sgn (s : bool) := if s then 2 ^ 31 else 0 in
  match f with
  | S754_zero s => sgn s
  | S754_infinity s => sgn s + 255 * 2 ^ 23
  | S754_nan => 255 * 2 ^ 23 + 2 ^ 22
  | S754_finite s m e =>
      if Zpos m <? 2 ^ 23 then sgn s + Zpos m
      else sgn s + (e + 150) * 2 ^ 23 + (Zpos m - 2 ^ 23)
  end.

(** Conversion to a format with [prec] bits of precision. *)
Definition flt_round (prec emax : Z) (f : spec_float) : spec_float :=
  match f with
  | S754_finite s m e => binary_normalize prec emax (cond_Zopp s (Zpos m)) e s
  | _ => f
  end.
Definition flt_of_dbl (x : Z) : Z := flt_enc (flt_round 24 128 (dbl_dec x)).
Definition dbl_of_flt (x : Z) : Z := dbl_enc (flt_round 53 1024 (flt_dec x)).

(** ** State

    [set_m v o] is the object [o] after the assignment [m = v]. *)

Record CRawData := MkRawData {
  m_pchContent : Z;
  m_uiDataSize : Z;
  m_uiRowCnt : Z;
  m_uchKeyIdx : Z;
  m_iKeySize : Z;
  m_iLAId : Z;
  m_iLCmodId : Z;
  m_uiKeyStart : Z;
  m_uiDataStart : Z;
  m_uiRowOffset : Z;
  m_uiOffset : Z;
  m_uiLAOffset : Z;
  m_uiGetCountOffset : Z;
  m_uiTimeStampOffSet : Z;
  m_uchGetCount : Z;
  m_LastAccessHour : Z;
  m_LastUpdateHour : Z;
  m_CreateHour : Z;
  m_uiNeedSize : Z;
  _handle : Z;
  _size : Z;
  _autodestroy : Z
}.

Definition set_m_pchContent (v : Z) (o : CRawData) : CRawData :=
  MkRawData
    v (m_uiDataSize o) (m_uiRowCnt o) (m_uchKeyIdx o) (m_iKeySize o) (m_iLAId o)
    (m_iLCmodId o) (m_uiKeyStart o) (m_uiDataStart o) (m_uiRowOffset o) (m_uiOffset o)
    (m_uiLAOffset o) (m_uiGetCountOffset o) (m_uiTimeStampOffSet o) (m_uchGetCount o)
    (m_LastAccessHour o) (m_LastUpdateHour o) (m_CreateHour o) (m_uiNeedSize o) (_handle
    o) (_size o) (_autodestroy o).
Definition set_m_uiDataSize (v : Z) (o : CRawData) : CRawData :=
  MkRawData
    (m_pchContent o) v (m_uiRowCnt o) (m_uchKeyIdx o) (m_iKeySize o) (m_iLAId o)
    (m_iLCmodId o) (m_uiKeyStart o) (m_uiDataStart o) (m_uiRowOffset o) (m_uiOffset o)
    (m_uiLAOffset o) (m_uiGetCountOffset o) (m_uiTimeStampOffSet o) (m_uchGetCount o)
    (m_LastAccessHour o) (m_LastUpdateHour o) (m_CreateHour o) (m_uiNeedSize o) (_handle
    o) (_size o) (_autodestroy o).
Definition set_m_uiRowCnt (v : Z) (o : CRawData) : CRawData :=
  MkRawData
    (m_pchContent o) (m_uiDataSize o) v (m_uchKeyIdx o) (m_iKeySize o) (m_iLAId o)
    (m_iLCmodId o) (m_uiKeyStart o) (m_uiDataStart o) (m_uiRowOffset o) (m_uiOffset o)
    (m_uiLAOffset o) (m_uiGetCountOffset o) (m_uiTimeStampOffSet o) (m_uchGetCount o)
    (m_LastAccessHour o) (m_LastUpdateHour o) (m_CreateHour o) (m_uiNeedSize o) (_handle
    o) (_size o) (_autodestroy o).
Definition set_m_uchKeyIdx (v : Z) (o : CRawData) : CRawData :=
  MkRawData
    (m_pchContent o) (m_uiDataSize o) (m_uiRowCnt o) v (m_iKeySize o) (m_iLAId o)
    (m_iLCmodId o) (m_uiKeyStart o) (m_uiDataStart o) (m_uiRowOffset o) (m_uiOffset o)
    (m_uiLAOffset o) (m_uiGetCountOffset o) (m_uiTimeStampOffSet o) (m_uchGetCount o)
    (m_LastAccessHour o) (m_LastUpdateHour o) (m_CreateHour o) (m_uiNeedSize o) (_handle
    o) (_size o) (_autodestroy o).
Definition set_m_iKeySize (v : Z) (o : CRawData) : CRawData :=
  MkRawData
    (m_pchContent o) (m_uiDataSize o) (m_uiRowCnt o) (m_uchKeyIdx o) v (m_iLAId o)
    (m_iLCmodId o) (m_uiKeyStart o) (m_uiDataStart o) (m_uiRowOffset o) (m_uiOffset o)
    (m_uiLAOffset o) (m_uiGetCountOffset o) (m_uiTimeStampOffSet o) (m_uchGetCount o)
    (m_LastAccessHour o) (m_LastUpdateHour o) (m_CreateHour o) (m_uiNeedSize o) (_handle
    o) (_size o) (_autodestroy o).
Definition set_m_iLAId (v : Z) (o : CRawData) : CRawData :=
  MkRawData
    (m_pchContent o) (m_uiDataSize o) (m_uiRowCnt o) (m_uchKeyIdx o) (m_iKeySize o) v
    (m_iLCmodId o) (m_uiKeyStart o) (m_uiDataStart o) (m_uiRowOffset o) (m_uiOffset o)
    (m_uiLAOffset o) (m_uiGetCountOffset o) (m_uiTimeStampOffSet o) (m_uchGetCount o)
    (m_LastAccessHour o) (m_LastUpdateHour o) (m_CreateHour o) (m_uiNeedSize o) (_handle
    o) (_size o) (_autodestroy o).
Definition set_m_iLCmodId (v : Z) (o : CRawData) : CRawData :=
  MkRawData
    (m_pchContent o) (m_uiDataSize o) (m_uiRowCnt o) (m_uchKeyIdx o) (m_iKeySize o)
    (m_iLAId o) v (m_uiKeyStart o) (m_uiDataStart o) (m_uiRowOffset o) (m_uiOffset o)
    (m_uiLAOffset o) (m_uiGetCountOffset o) (m_uiTimeStampOffSet o) (m_uchGetCount o)
    (m_LastAccessHour o) (m_LastUpdateHour o) (m_CreateHour o) (m_uiNeedSize o) (_handle
    o) (_size o) (_autodestroy o).
Definition set_m_uiKeyStart (v : Z) (o : CRawData) : CRawData :=
  MkRawData
    (m_pchContent o) (m_uiDataSize o) (m_uiRowCnt o) (m_uchKeyIdx o) (m_iKeySize o)
    (m_iLAId o) (m_iLCmodId o) v (m_uiDataStart o) (m_uiRowOffset o) (m_uiOffset o)
    (m_uiLAOffset o) (m_uiGetCountOffset o) (m_uiTimeStampOffSet o) (m_uchGetCount o)
    (m_LastAccessHour o) (m_LastUpdateHour o) (m_CreateHour o) (m_uiNeedSize o) (_handle
    o) (_size o) (_autodestroy o).
Definition set_m_uiDataStart (v : Z) (o : CRawData) : CRawData :=
  MkRawData
    (m_pchContent o) (m_uiDataSize o) (m_uiRowCnt o) (m_uchKeyIdx o) (m_iKeySize o)
    (m_iLAId o) (m_iLCmodId o) (m_uiKeyStart o) v (m_uiRowOffset o) (m_uiOffset o)
    (m_uiLAOffset o) (m_uiGetCountOffset o) (m_uiTimeStampOffSet o) (m_uchGetCount o)
    (m_LastAccessHour o) (m_LastUpdateHour o) (m_CreateHour o) (m_uiNeedSize o) (_handle
    o) (_size o) (_autodestroy o).
Definition set_m_uiRowOffset (v : Z) (o : CRawData) : CRawData :=
  MkRawData
    (m_pchContent o) (m_uiDataSize o) (m_uiRowCnt o) (m_uchKeyIdx o) (m_iKeySize o)
    (m_iLAId o) (m_iLCmodId o) (m_uiKeyStart o) (m_uiDataStart o) v (m_uiOffset o)
    (m_uiLAOffset o) (m_uiGetCountOffset o) (m_uiTimeStampOffSet o) (m_uchGetCount o)
    (m_LastAccessHour o) (m_LastUpdateHour o) (m_CreateHour o) (m_uiNeedSize o) (_handle
    o) (_size o) (_autodestroy o).
Definition set_m_uiOffset (v : Z) (o : CRawData) : CRawData :=
  MkRawData
    (m_pchContent o) (m_uiDataSize o) (m_uiRowCnt o) (m_uchKeyIdx o) (m_iKeySize o)
    (m_iLAId o) (m_iLCmodId o) (m_uiKeyStart o) (m_uiDataStart o) (m_uiRowOffset o) v
    (m_uiLAOffset o) (m_uiGetCountOffset o) (m_uiTimeStampOffSet o) (m_uchGetCount o)
    (m_LastAccessHour o) (m_LastUpdateHour o) (m_CreateHour o) (m_uiNeedSize o) (_handle
    o) (_size o) (_autodestroy o).
Definition set_m_uiLAOffset (v : Z) (o : CRawData) : CRawData :=
  MkRawData
    (m_pchContent o) (m_uiDataSize o) (m_uiRowCnt o) (m_uchKeyIdx o) (m_iKeySize o)
    (m_iLAId o) (m_iLCmodId o) (m_uiKeyStart o) (m_uiDataStart o) (m_uiRowOffset o)
    (m_uiOffset o) v (m_uiGetCountOffset o) (m_uiTimeStampOffSet o) (m_uchGetCount o)
    (m_LastAccessHour o) (m_LastUpdateHour o) (m_CreateHour o) (m_uiNeedSize o) (_handle
    o) (_size o) (_autodestroy o).
Definition set_m_uiGetCountOffset (v : Z) (o : CRawData) : CRawData :=
  MkRawData
    (m_pchContent o) (m_uiDataSize o) (m_uiRowCnt o) (m_uchKeyIdx o) (m_iKeySize o)
    (m_iLAId o) (m_iLCmodId o) (m_uiKeyStart o) (m_uiDataStart o) (m_uiRowOffset o)
    (m_uiOffset o) (m_uiLAOffset o) v (m_uiTimeStampOffSet o) (m_uchGetCount o)
    (m_LastAccessHour o) (m_LastUpdateHour o) (m_CreateHour o) (m_uiNeedSize o) (_handle
    o) (_size o) (_autodestroy o).
Definition set_m_uiTimeStampOffSet (v : Z) (o : CRawData) : CRawData :=
  MkRawData
    (m_pchContent o) (m_uiDataSize o) (m_uiRowCnt o) (m_uchKeyIdx o) (m_iKeySize o)
    (m_iLAId o) (m_iLCmodId o) (m_uiKeyStart o) (m_uiDataStart o) (m_uiRowOffset o)
    (m_uiOffset o) (m_uiLAOffset o) (m_uiGetCountOffset o) v (m_uchGetCount o)
    (m_LastAccessHour o) (m_LastUpdateHour o) (m_CreateHour o) (m_uiNeedSize o) (_handle
    o) (_size o) (_autodestroy o).
Definition set_m_uchGetCount (v : Z) (o : CRawData) : CRawData :=
  MkRawData
    (m_pchContent o) (m_uiDataSize o) (m_uiRowCnt o) (m_uchKeyIdx o) (m_iKeySize o)
    (m_iLAId o) (m_iLCmodId o) (m_uiKeyStart o) (m_uiDataStart o) (m_uiRowOffset o)
    (m_uiOffset o) (m_uiLAOffset o) (m_uiGetCountOffset o) (m_uiTimeStampOffSet o) v
    (m_LastAccessHour o) (m_LastUpdateHour o) (m_CreateHour o) (m_uiNeedSize o) (_handle
    o) (_size o) (_autodestroy o).
Definition set_m_LastAccessHour (v : Z) (o : CRawData) : CRawData :=
  MkRawData
    (m_pchContent o) (m_uiDataSize o) (m_uiRowCnt o) (m_uchKeyIdx o) (m_iKeySize o)
    (m_iLAId o) (m_iLCmodId o) (m_uiKeyStart o) (m_uiDataStart o) (m_uiRowOffset o)
    (m_uiOffset o) (m_uiLAOffset o) (m_uiGetCountOffset o) (m_uiTimeStampOffSet o)
    (m_uchGetCount o) v (m_LastUpdateHour o) (m_CreateHour o) (m_uiNeedSize o) (_handle
    o) (_size o) (_autodestroy o).
Definition set_m_LastUpdateHour (v : Z) (o : CRawData) : CRawData :=
  MkRawData
    (m_pchContent o) (m_uiDataSize o) (m_uiRowCnt o) (m_uchKeyIdx o) (m_iKeySize o)
    (m_iLAId o) (m_iLCmodId o) (m_uiKeyStart o) (m_uiDataStart o) (m_uiRowOffset o)
    (m_uiOffset o) (m_uiLAOffset o) (m_uiGetCountOffset o) (m_uiTimeStampOffSet o)
    (m_uchGetCount o) (m_LastAccessHour o) v (m_CreateHour o) (m_uiNeedSize o) (_handle
    o) (_size o) (_autodestroy o).
Definition set_m_CreateHour (v : Z) (o : CRawData) : CRawData :=
  MkRawData
    (m_pchContent o) (m_uiDataSize o) (m_uiRowCnt o) (m_uchKeyIdx o) (m_iKeySize o)
    (m_iLAId o) (m_iLCmodId o) (m_uiKeyStart o) (m_uiDataStart o) (m_uiRowOffset o)
    (m_uiOffset o) (m_uiLAOffset o) (m_uiGetCountOffset o) (m_uiTimeStampOffSet o)
    (m_uchGetCount o) (m_LastAccessHour o) (m_LastUpdateHour o) v (m_uiNeedSize o)
    (_handle o) (_size o) (_autodestroy o).
Definition set_m_uiNeedSize (v : Z) (o : CRawData) : CRawData :=
  MkRawData
    (m_pchContent o) (m_uiDataSize o) (m_uiRowCnt o) (m_uchKeyIdx o) (m_iKeySize o)
    (m_iLAId o) (m_iLCmodId o) (m_uiKeyStart o) (m_uiDataStart o) (m_uiRowOffset o)
    (m_uiOffset o) (m_uiLAOffset o) (m_uiGetCountOffset o) (m_uiTimeStampOffSet o)
    (m_uchGetCount o) (m_LastAccessHour o) (m_LastUpdateHour o) (m_CreateHour o) v
    (_handle o) (_size o) (_autodestroy o).
Definition set__handle (v : Z) (o : CRawData) : CRawData :=
  MkRawData
    (m_pchContent o) (m_uiDataSize o) (m_uiRowCnt o) (m_uchKeyIdx o) (m_iKeySize o)
    (m_iLAId o) (m_iLCmodId o) (m_uiKeyStart o) (m_uiDataStart o) (m_uiRowOffset o)
    (m_uiOffset o) (m_uiLAOffset o) (m_uiGetCountOffset o) (m_uiTimeStampOffSet o)
    (m_uchGetCount o) (m_LastAccessHour o) (m_LastUpdateHour o) (m_CreateHour o)
    (m_uiNeedSize o) v (_size o) (_autodestroy o).
Definition set__size (v : Z) (o : CRawData) : CRawData :=
  MkRawData
    (m_pchContent o) (m_uiDataSize o) (m_uiRowCnt o) (m_uchKeyIdx o) (m_iKeySize o)
    (m_iLAId o) (m_iLCmodId o) (m_uiKeyStart o) (m_uiDataStart o) (m_uiRowOffset o)
    (m_uiOffset o) (m_uiLAOffset o) (m_uiGetCountOffset o) (m_uiTimeStampOffSet o)
    (m_uchGetCount o) (m_LastAccessHour o) (m_LastUpdateHour o) (m_CreateHour o)
    (m_uiNeedSize o) (_handle o) v (_autodestroy o).
Definition set__autodestroy (v : Z) (o : CRawData) : CRawData :=
  MkRawData
    (m_pchContent o) (m_uiDataSize o) (m_uiRowCnt o) (m_uchKeyIdx o) (m_iKeySize o)
    (m_iLAId o) (m_iLCmodId o) (m_uiKeyStart o) (m_uiDataStart o) (m_uiRowOffset o)
    (m_uiOffset o) (m_uiLAOffset o) (m_uiGetCountOffset o) (m_uiTimeStampOffSet o)
    (m_uchGetCount o) (m_LastAccessHour o) (m_LastUpdateHour o) (m_CreateHour o)
    (m_uiNeedSize o) (_handle o) (_size o) v.

(** [CRawData::CRawData]; [m_iLCmodId] is not initialised. *)
Definition new_RawData (iAutoDestroy lcmodid : Z) : CRawData :=
  MkRawData 0 0 0 (u8 (-1)) 0 (-1) lcmodid 0 0 0 0 0 0 0 0 0 0 0 0 0 0 iAutoDestroy.

Section raw.
Context {A : Type} `{Mallocator A}.

Definition RM : Type -> Type := ST (CRawData * A).
Definition rget {X} (f : CRawData -> X) : RM X := get (f ∘ fst).
Definition rput (f : CRawData -> CRawData) : RM unit := put (λ s, (f s.1, s.2)).
Definition on_mal {X} (m : ST A X) : RM X := λ s, '(x, a) ← m s.2; Some (x, (s.1, a)).

(** [*(t * )(m_pchContent + off)], [n] being [sizeof(t)]. *)
Definition content_read (off : Z) (n : nat) : RM (list Z) := p ← rget m_pchContent; on_mal (peeks (p + off) n).
Definition content_write (off : Z) (l : list Z) : RM unit := p ← rget m_pchContent; on_mal (pokes (p + off) l).

(** [memmove] inside the chunk *)
Definition content_move (dst src n : Z) : RM unit :=
  l ← content_read src (Z.to_nat n); content_write dst l.

(** ** The access macros

    [None] and [false] are the jump to [ERROR_RET]. *)

Definition GET_VALUE_AT_OFFSET (n : nat) (off : Z) : RM (option Z) :=
  size ← rget _size;
  if size <? off + Z.of_nat n then mret None
  else l ← content_read off n; mret (Some (le_value l)).
Definition GET_VALUE (n : nat) : RM (option Z) :=
  off ← rget m_uiOffset;
  v ← GET_VALUE_AT_OFFSET n off;
  match v with
  | None => mret None
  | Some x => rput (set_m_uiOffset (off +u32 Z.of_nat n));; mret (Some x)
  end.
Definition SET_VALUE_AT_OFFSET (x : Z) (n : nat) (off : Z) : RM bool :=
  size ← rget _size;
  if size <? off + Z.of_nat n then mret false
  else content_write off (le_bytes n x);; mret true.
Definition SET_VALUE (x : Z) (n : nat) : RM bool :=
  off ← rget m_uiOffset;
  ok ← SET_VALUE_AT_OFFSET x n off;
  if ok : bool then rput (set_m_uiOffset (off +u32 Z.of_nat n));; mret true else mret false.
Definition SET_BIN_VALUE (p : option ptr) (len : Z) : RM bool :=
  off ← rget m_uiOffset; size ← rget _size;
  if size <? u64 (off + 4 + len) then mret false
  else
    content_write off (le_bytes 4 len);;
    let off := off +u32 4 in
    (if len =? 0 then mret tt
     else if len <? 0 then lift None
     else l ← lift (read_n p (Z.to_nat len)); content_write off l);;
    rput (set_m_uiOffset (off +u32 len));;
    mret true.
(** [w] is the width of the sum: 32 for an [int], 64 for a [size_t]. *)
Definition SKIP_SIZE (w s : Z) : RM bool :=
  off ← rget m_uiOffset; size ← rget _size;
  if size <? uwrap w (off + s) then mret false
  else rput (set_m_uiOffset (off +u32 s));; mret true.

(** ** Header *)

Definition Key : RM (option Z) :=
  p ← rget m_pchContent; k ← rget m_uiKeyStart; mret (if p =? 0 then None else Some (p + k)).
Definition KeySize : RM Z :=
  k ← rget m_iKeySize;
  if 0 <? k then mret k
  else p ← Key; p ← lift p; c ← on_mal (mal_load p); mret (1 + c).
Definition Rewind : RM unit :=
  d ← rget m_uiDataStart; rput (λ o, set_m_uiRowOffset d (set_m_uiOffset d o)).

(** Both fall through to [ERROR_RET] after the store. *)
Definition SetDataSize : RM Z :=
  x ← rget m_uiDataSize; _ ← SET_VALUE_AT_OFFSET x 4 1; mret (-100).
Definition SetRowCount : RM Z :=
  x ← rget m_uiRowCnt; _ ← SET_VALUE_AT_OFFSET x 4 5; mret (-100).

Definition write_hour (i hour : Z) : RM unit :=
  t ← rget m_uiTimeStampOffSet; content_write (t + i * 2) (le_bytes 2 hour).
Definition read_hour (i : Z) : RM Z :=
  t ← rget m_uiTimeStampOffSet; l ← content_read (t + i * 2) 2; mret (le_value l).

Definition InitTimpStamp (now : Z) : RM unit :=
  p ← rget m_pchContent; off ← rget m_uiOffset; size ← rget _size;
  if (p =? 0) || (size <? off + 6) then mret tt
  else
    let dwCurHour := u16 now in
    rput (λ o, set_m_CreateHour dwCurHour (set_m_LastUpdateHour dwCurHour (set_m_LastAccessHour dwCurHour o)));;
    write_hour 0 dwCurHour;; write_hour 1 dwCurHour;; write_hour 2 dwCurHour.
Definition AttachTimeStamp : RM unit :=
  p ← rget m_pchContent; t ← rget m_uiTimeStampOffSet; size ← rget _size;
  if (p =? 0) || (size <? t + 6) then mret tt
  else
    h ← read_hour 0; rput (set_m_LastAccessHour h);;
    h ← read_hour 1; rput (set_m_LastUpdateHour h);;
    h ← read_hour 2; rput (set_m_CreateHour h).
Definition UpdateLastAccessTimeByHour (now : Z) : RM unit :=
  p ← rget m_pchContent; t ← rget m_uiTimeStampOffSet; size ← rget _size;
  if (p =? 0) || (size <? t + 2) then mret tt
  else rput (set_m_LastAccessHour (u16 now));; write_hour 0 (u16 now).
Definition UpdateLastUpdateTimeByHour (now : Z) : RM unit :=
  p ← rget m_pchContent; t ← rget m_uiTimeStampOffSet; size ← rget _size;
  if (p =? 0) || (size <? t + 4) then mret tt
  else rput (set_m_LastUpdateHour (u16 now));; write_hour 1 (u16 now).
Definition GetCreateTimeByHour : RM Z := rget m_CreateHour.
Definition GetLastAccessTimeByHour : RM Z := rget m_LastAccessHour.
Definition GetLastUpdateTimeByHour : RM Z := rget m_LastUpdateHour.
Definition GetSelectOpCount : RM Z := rget m_uchGetCount.
Definition IncSelectCount : RM unit :=
  n ← rget m_uchGetCount; off ← rget m_uiGetCountOffset; size ← rget _size;
  if (BTYE_MAX_VALUE <=? n) || (size <? off + 1) then mret tt
  else rput (set_m_uchGetCount (u8 (n + 1)));; content_write off (le_bytes 1 (n + 1)).
Definition UpdateLastacc (now : Z) : RM unit :=
  off ← rget m_uiLAOffset;
  if 0 <? off then content_write off (le_bytes 4 now) else mret tt.

(** ** Making, attaching and releasing the chunk *)

(** A new chunk in place of the old one. *)
Definition take_handle (hTmp : Z) : RM unit :=
  rput (set__handle hTmp);;
  n ← on_mal (mal_ChunkSize hTmp); rput (set__size n);;
  rput (set_m_pchContent hTmp).

Definition Init (uchKeyIdx iKeySize : Z) (pchKey : option ptr) (uiDataSize laId now : Z) : RM Z :=
  ks ← lift (if iKeySize =? 0 then c ← deref pchKey 0; Some (1 + c) else Some iKeySize);
  let head := 2 + 4 * 2 + 2 * 3 + ks in
  let uiDataSize := uiDataSize +u32 head in
  rput (set__size 0 ∘ set__handle 0);;
  h ← on_mal (mal_Malloc uiDataSize);
  rput (set__handle h);;
  if h =? 0 then rput (set_m_uiNeedSize uiDataSize);; mret EC_NO_MEM
  else
    n ← on_mal (mal_ChunkSize h); rput (set__size n);;
    rput (set_m_iLAId laId ∘ set_m_iKeySize iKeySize ∘ set_m_uchKeyIdx (u8 uchKeyIdx) ∘
          set_m_uiRowCnt 0 ∘ set_m_uiDataSize (u32 head));;
    rput (set_m_uiLAOffset 0 ∘ set_m_uiOffset 0 ∘ set_m_pchContent h);;
    ok ← SET_VALUE DATA_TYPE_RAW 1;
    if negb ok then mret (-100) else
    ok ← SET_VALUE (u32 head) 4;
    if negb ok then mret (-100) else
    ok ← SET_VALUE 0 4;
    if negb ok then mret (-100) else
    off ← rget m_uiOffset;
    rput (set_m_uchGetCount 1 ∘ set_m_uiGetCountOffset off);;
    ok ← SET_VALUE 1 1;
    if negb ok then mret (-100) else
    off ← rget m_uiOffset; rput (set_m_uiTimeStampOffSet off);;
    InitTimpStamp now;;
    ok ← SKIP_SIZE 64 6;
    if negb ok then mret (-100) else
    off ← rget m_uiOffset; rput (set_m_uiKeyStart off);;
    (if ks <? 0 then lift None else k ← lift (read_n pchKey (Z.to_nat ks)); content_write off k);;
    let off := off +u32 ks in
    rput (set_m_uiRowOffset off ∘ set_m_uiDataStart off ∘ set_m_uiOffset off);;
    mret 0.

Definition Attach (hHandle uchKeyIdx iKeySize laid lcmodid : Z) : RM Z :=
  n ← on_mal (mal_ChunkSize hHandle); rput (set__size n);;
  if n =? 0 then mret (-1)
  else
    rput (set_m_uiLAOffset 0 ∘ set_m_uiOffset 0 ∘ set_m_pchContent hHandle ∘ set__handle hHandle);;
    t ← GET_VALUE 1;
    match t with None => mret (-100) | Some t =>
    if negb (t =? DATA_TYPE_RAW) then mret (-2) else
    v ← GET_VALUE 4;
    match v with None => mret (-100) | Some v =>
    rput (set_m_uiDataSize v);;
    r ← GET_VALUE 4;
    match r with None => mret (-100) | Some r =>
    rput (set_m_uiRowCnt r);;
    off ← rget m_uiOffset; rput (set_m_uiGetCountOffset off);;
    c ← GET_VALUE 1;
    match c with None => mret (-100) | Some c =>
    rput (set_m_uchGetCount c);;
    off ← rget m_uiOffset; rput (set_m_uiTimeStampOffSet off);;
    AttachTimeStamp;;
    ok ← SKIP_SIZE 64 6;
    if negb ok then mret (-100)
    else if n <? v then mret (-3)
    else
      off ← rget m_uiOffset;
      rput (set_m_iLCmodId lcmodid ∘ set_m_iLAId laid ∘ set_m_iKeySize iKeySize ∘
            set_m_uiKeyStart off ∘ set_m_uchKeyIdx (u8 uchKeyIdx));;
      ks ← (if iKeySize =? 0 then l ← content_read off 1; mret (1 + le_value l) else mret iKeySize);
      ok ← SKIP_SIZE 32 ks;
      if negb ok then mret (-100)
      else
        off ← rget m_uiOffset;
        rput (set_m_uiRowOffset off ∘ set_m_uiDataStart off);;
        mret 0
    end end end end.

Definition Destroy : RM Z :=
  h ← rget _handle;
  if h =? 0 then rput (set__size 0);; mret 0
  else r ← on_mal (mal_Free h); rput (set__size 0 ∘ set__handle 0);; mret r.

(** The destructor *)
Definition delete_RawData : RM unit :=
  d ← rget _autodestroy;
  (if d =? 0 then mret tt else Destroy;; mret tt);;
  rput (set__size 0 ∘ set__handle 0).

Definition CheckSize (hHandle size : Z) : RM Z :=
  n ← on_mal (mal_ChunkSize hHandle); rput (set__size n);;
  if n =? 0 then mret (-1)
  else
    rput (set_m_uiLAOffset 0 ∘ set_m_uiOffset 0 ∘ set_m_pchContent hHandle ∘ set__handle hHandle);;
    t ← GET_VALUE 1;
    match t with None => mret (-1) | Some t =>
    if negb (t =? DATA_TYPE_RAW) then mret (-2) else
    v ← GET_VALUE 4;
    match v with None => mret (-1) | Some v =>
    rput (set_m_uiDataSize v);;
    mret (if v =? u32 size then 0 else -1)
    end end.

Definition StripMem : RM Z :=
  h ← rget _handle; n ← rget m_uiDataSize;
  hTmp ← on_mal (mal_ReAlloc h n);
  if hTmp =? 0 then rput (set_m_uiNeedSize n);; mret EC_NO_MEM
  else take_handle hTmp;; mret 0.

Definition ExpandChunk (tExpSize : Z) : RM Z :=
  h ← rget _handle;
  if h =? 0 then mret (-1)
  else
    n ← rget m_uiDataSize; size ← rget _size;
    let need := n +u32 tExpSize in
    if size <? need then
      hTmp ← on_mal (mal_ReAlloc h need);
      if hTmp =? 0 then rput (set_m_uiNeedSize need);; mret EC_NO_MEM
      else take_handle hTmp;; mret 0
    else mret 0.

Definition ReAllocChunk (tSize : Z) : RM Z :=
  h ← rget _handle; size ← rget _size;
  if size <? tSize then
    hTmp ← on_mal (mal_ReAlloc h tSize);
    if hTmp =? 0 then rput (set_m_uiNeedSize tSize);; mret EC_NO_MEM
    else take_handle hTmp;; mret 0
  else mret 0.

(** ** Columns

    The loops run over the columns [j] to [NumFields()]; [n] is their number. *)

Definition row_set (stRow : CRowValue) (j : Z) (f : CValue -> CValue) : option CRowValue :=
  v ← row_FieldValue stRow j; v ← v; row_put stRow j (f v).
Definition row_get (stRow : CRowValue) (j : Z) : option CValue := v ← row_FieldValue stRow j; v.
Definition wide (d : CTableDefinition) (j : Z) : option bool := sz ← FieldSize d j; Some (4 <? sz).
Definition numeric (t : Z) : bool := (t =? DField_Signed) || (t =? DField_Unsigned) || (t =? DField_Float).
Definition num_size (w : bool) : nat := if w then 8%nat else 4%nat.

Fixpoint CalcRowSize_loop (stRow : CRowValue) (j : Z) (n : nat) (tSize : Z) : option Z :=
  match n with
  | O => Some tSize
  | S n' =>
      let d := row_def stRow in
      k ← IsDiscard d j;
      if negb (k =? 0) then CalcRowSize_loop stRow (j + 1) n' tSize
      else
        t ← FieldType d j;
        if numeric t then
          w ← wide d j; CalcRowSize_loop stRow (j + 1) n' (tSize +u32 Z.of_nat (num_size w))
        else
          v ← row_get stRow j;
          CalcRowSize_loop stRow (j + 1) n' ((tSize +u32 4) +u32 bin_len (v_str v))
  end.
Definition columns (stRow : CRowValue) (keyIdx : Z) : nat := Z.to_nat (numFields (row_def stRow) - keyIdx).
Definition CalcRowSize (stRow : CRowValue) (keyIdx : Z) : option Z :=
  CalcRowSize_loop stRow (keyIdx + 1) (columns stRow keyIdx) 1.

(** One column of [DecodeRow]: whether it was read, and the row.  The string
    of a column points into the chunk: its memory and the offset. *)
Definition decode_field (stRow : CRowValue) (j : Z) : RM (bool * CRowValue) :=
  let d := row_def stRow in
  t ← lift (FieldType d j); w ← lift (wide d j);
  if numeric t then
    x ← GET_VALUE (num_size w);
    match x with
    | None => mret (false, stRow)
    | Some x =>
        let x := if w : bool then x else if t =? DField_Signed then s32 x else if t =? DField_Unsigned then x else dbl_of_flt x in
        r ← lift (row_set stRow j (λ v, v_set_word v x)); mret (true, r)
    end
  else
    len ← GET_VALUE 4;
    match len with
    | None => mret (false, stRow)
    | Some len =>
        size ← rget _size; off ← rget m_uiOffset;
        chunk ← content_read 0 (Z.to_nat size);
        r ← lift (row_set stRow j (λ v, v_set_str v (MkBinary (s32 len) (Some (Ptr chunk off)))));
        ok ← SKIP_SIZE 32 (s32 len); mret (ok, r)
    end.

Fixpoint decode_fields (stRow : CRowValue) (j : Z) (n : nat) : RM (bool * CRowValue) :=
  match n with
  | O => mret (true, stRow)
  | S n' =>
      k ← lift (IsDiscard (row_def stRow) j);
      if negb (k =? 0) then decode_fields stRow (j + 1) n'
      else
        la ← rget m_iLAId;
        off ← rget m_uiOffset;
        when_ (j =? la) (rput (set_m_uiLAOffset off));;
        r ← decode_field stRow j;
        if r.1 : bool then decode_fields r.2 (j + 1) n' else mret r
  end.

(** The return code, [uchRowFlags] and [stRow]. *)
Definition DecodeRow (stRow : CRowValue) (uchRowFlags iDecodeFlag : Z) : RM (Z * Z * CRowValue) :=
  h ← rget _handle; p ← rget m_pchContent;
  if (h =? 0) || (p =? 0) then mret (-1, uchRowFlags, stRow)
  else
    uiOldOffset ← rget m_uiOffset; uiOldRowOffset ← rget m_uiRowOffset;
    let restore := when_ (negb (Z.land iDecodeFlag PRE_DECODE_ROW =? 0))
                     (rput (set_m_uiRowOffset uiOldRowOffset ∘ set_m_uiOffset uiOldOffset)) in
    rput (set_m_uiRowOffset uiOldOffset ∘ set_m_uiLAOffset 0);;
    f ← GET_VALUE 1;
    match f with
    | None => restore;; mret (-100, uchRowFlags, stRow)
    | Some f =>
        k ← rget m_uchKeyIdx;
        r ← decode_fields stRow (k + 1) (columns stRow k);
        restore;; mret (if r.1 : bool then 0 else -100, f, r.2)
    end.

(** Stepping over a column *)
Definition skip_field (d : CTableDefinition) (j : Z) : RM bool :=
  t ← lift (FieldType d j);
  if numeric t then
    w ← lift (wide d j); SKIP_SIZE 64 (Z.of_nat (num_size w))
  else
    len ← GET_VALUE 4;
    match len with None => mret false | Some len => SKIP_SIZE 32 (s32 len) end.

Fixpoint skip_fields (d : CTableDefinition) (j : Z) (n : nat) : RM bool :=
  match n with
  | O => mret true
  | S n' =>
      k ← lift (IsDiscard d j);
      if negb (k =? 0) then skip_fields d (j + 1) n'
      else ok ← skip_field d j; if ok : bool then skip_fields d (j + 1) n' else mret false
  end.

Fixpoint lastcmod_fields (d : CTableDefinition) (j : Z) (n : nat) (lastcmod : Z) : RM (bool * Z) :=
  match n with
  | O => mret (true, lastcmod)
  | S n' =>
      k ← lift (IsDiscard d j);
      if negb (k =? 0) then lastcmod_fields d (j + 1) n' lastcmod
      else
        c ← rget m_iLCmodId; off ← rget m_uiOffset;
        lastcmod ← (if j =? c then l ← content_read off 4; mret (le_value l) else mret lastcmod);
        ok ← skip_field d j;
        if ok : bool then lastcmod_fields d (j + 1) n' lastcmod else mret (false, lastcmod)
  end.

Definition GetLastcmod (stRow : CRowValue) : RM (Z * Z) :=
  h ← rget _handle; p ← rget m_pchContent;
  if (h =? 0) || (p =? 0) then mret (-1, 0)
  else
    off ← rget m_uiOffset; rput (set_m_uiRowOffset off);;
    ok ← SKIP_SIZE 64 1;
    if negb ok then mret (-100, 0)
    else
      k ← rget m_uchKeyIdx;
      r ← lastcmod_fields (row_def stRow) (k + 1) (columns stRow k) 0;
      mret (if r.1 : bool then 0 else -100, r.2).

Definition SkipRow (stRow : CRowValue) : RM Z :=
  h ← rget _handle; p ← rget m_pchContent;
  if (h =? 0) || (p =? 0) then mret (-1)
  else
    off ← rget m_uiRowOffset; rput (set_m_uiOffset off);;
    n ← rget m_uiDataSize;
    if n <=? off then mret (-2)
    else
      ok ← SKIP_SIZE 64 1;
      if negb ok then mret (-100)
      else
        k ← rget m_uchKeyIdx;
        ok ← skip_fields (row_def stRow) (k + 1) (columns stRow k);
        mret (if ok : bool then 0 else -100).

(** ** Writing rows *)

Definition encode_field (stRow : CRowValue) (j : Z) : RM bool :=
  let d := row_def stRow in
  v ← lift (row_get stRow j);
  t ← lift (FieldType d j);
  if (t =? DField_Signed) || (t =? DField_Unsigned) then
    w ← lift (wide d j); SET_VALUE (v_word v) (num_size w)
  else if t =? DField_Float then
    w ← lift (wide d j); SET_VALUE (if w : bool then v_flt v else flt_of_dbl (v_flt v)) (num_size w)
  else SET_BIN_VALUE (bin_ptr (v_str v)) (bin_len (v_str v)).

Fixpoint encode_fields (stRow : CRowValue) (j : Z) (n : nat) : RM bool :=
  match n with
  | O => mret true
  | S n' =>
      k ← lift (IsDiscard (row_def stRow) j);
      if negb (k =? 0) then encode_fields stRow (j + 1) n'
      else ok ← encode_field stRow j; if ok : bool then encode_fields stRow (j + 1) n' else mret false
  end.

(** The second half of [EncodeRow]: the row is written at [m_uiOffset] and the
    header updated. *)
Definition write_row (stRow : CRowValue) (uchOp k tSize : Z) : RM Z :=
  ok ← SET_VALUE uchOp 1;
  if negb ok then mret (-100)
  else
    ok ← encode_fields stRow (k + 1) (columns stRow k);
    if negb ok then mret (-100)
    else
      n ← rget m_uiDataSize; rput (set_m_uiDataSize (n +u32 tSize));; SetDataSize;;
      r ← rget m_uiRowCnt; rput (set_m_uiRowCnt (r +u32 1));; SetRowCount;;
      mret 0.

Definition EncodeRow (stRow : CRowValue) (uchOp : Z) (expendBuf : bool) : RM Z :=
  k ← rget m_uchKeyIdx;
  tSize ← lift (CalcRowSize stRow k);
  iRet ← (if expendBuf then ExpandChunk tSize else mret 0);
  if negb (iRet =? 0) then mret iRet else write_row stRow uchOp k tSize.

(** The rows written behind [uiOldSize] become the first ones; [buf] is
    whether [MALLOC] gave the scratch buffer. *)
Definition rotate_rows (uiOldSize : Z) (byFirst buf : bool) : RM Z :=
  n ← rget m_uiDataSize; start ← rget m_uiDataStart;
  let uiNewRowSize := n -u32 uiOldSize in
  if byFirst && (0 <? uiNewRowSize) && (0 <? uiOldSize -u32 start) then
    if negb buf then mret (- ENOMEM)
    else
      pBuf ← content_read uiOldSize (Z.to_nat uiNewRowSize);
      content_move (start + uiNewRowSize) start (uiOldSize -u32 start);;
      content_write start pBuf;;
      mret 0
  else mret 0.

Definition InsertRowFlag (stRow : CRowValue) (byFirst : bool) (uchOp : Z) (buf : bool) : RM Z :=
  uiOldSize ← rget m_uiDataSize;
  rput (set_m_uiOffset uiOldSize);;
  iRet ← EncodeRow stRow uchOp true;
  if negb (iRet =? 0) then mret iRet else rotate_rows uiOldSize byFirst buf.

Definition InsertRow (stRow : CRowValue) (byFirst isDirty buf : bool) : RM Z :=
  InsertRowFlag stRow byFirst (if isDirty then OPER_INSERT else OPER_SELECT) buf.

Fixpoint rows_size (rows : list CRowValue) (keyIdx tSize : Z) : option Z :=
  match rows with
  | [] => Some tSize
  | r :: l => n ← CalcRowSize r keyIdx; rows_size l keyIdx (tSize +u32 n)
  end.
Fixpoint encode_rows (rows : list CRowValue) (uchOp : Z) : RM Z :=
  match rows with
  | [] => mret 0
  | r :: l => iRet ← EncodeRow r uchOp true; if negb (iRet =? 0) then mret iRet else encode_rows l uchOp
  end.
Definition InsertNRows (rows : list CRowValue) (byFirst isDirty buf : bool) : RM Z :=
  k ← rget m_uchKeyIdx;
  tSize ← lift (rows_size rows k 0);
  iRet ← ExpandChunk tSize;
  if negb (iRet =? 0) then mret iRet
  else
    uiOldSize ← rget m_uiDataSize;
    rput (set_m_uiOffset uiOldSize);;
    iRet ← encode_rows rows (if isDirty then OPER_INSERT else OPER_SELECT);
    if negb (iRet =? 0) then mret iRet else rotate_rows uiOldSize byFirst buf.

(** ** Changing the current row *)

(** The end of a replacement: [EncodeRow] counted the new row as one more. *)
Definition drop_cur (uiCurRowSize : Z) : RM Z :=
  r ← rget m_uiRowCnt; rput (set_m_uiRowCnt (r -u32 1));;
  n ← rget m_uiDataSize; rput (set_m_uiDataSize (n -u32 uiCurRowSize));;
  SetDataSize;; SetRowCount;; mret 0.

Definition replace_longer (stRow : CRowValue) (uchRowFlag uiNewRowSize uiCurRowSize uiNextRowsOffset uiNextRowsSize uiOldOffset : Z) : RM Z :=
  h ← rget _handle; n ← rget m_uiDataSize; rowoff ← rget m_uiRowOffset;
  let need := (n +u32 uiNewRowSize) -u32 uiCurRowSize in
  let diff := uiNewRowSize -u32 uiCurRowSize in
  hTmp ← on_mal (mal_ReAlloc h need);
  if hTmp =? 0 then
    rput (set_m_uiOffset uiOldOffset ∘ set_m_uiNeedSize need);; mret EC_NO_MEM
  else
    take_handle hTmp;;
    when_ (0 <? uiNextRowsSize) (content_move (uiNextRowsOffset + diff) uiNextRowsOffset uiNextRowsSize);;
    rput (set_m_uiOffset rowoff);;
    iRet ← EncodeRow stRow uchRowFlag false;
    if negb (iRet =? 0) then
      when_ (0 <? uiNextRowsSize) (content_move uiNextRowsOffset (uiNextRowsOffset + diff) uiNextRowsSize);;
      rput (set_m_uiOffset uiOldOffset);; mret (-1)
    else drop_cur uiCurRowSize.

Definition replace_shorter (stRow : CRowValue) (uchRowFlag uiNewRowSize uiCurRowSize uiNextRowsOffset uiNextRowsSize uiOldOffset : Z) (buf : bool) : RM Z :=
  if negb buf then mret (- ENOMEM)
  else
    rowoff ← rget m_uiRowOffset;
    pTmpBuf ← content_read rowoff (Z.to_nat uiCurRowSize);
    rput (set_m_uiOffset rowoff);;
    iRet ← EncodeRow stRow uchRowFlag false;
    if negb (iRet =? 0) then
      content_write rowoff pTmpBuf;;
      rput (set_m_uiOffset uiOldOffset);; mret (-1)
    else
      off ← rget m_uiOffset;
      when_ ((0 <? uiNextRowsSize) && negb (off =? uiNextRowsOffset))
        (content_move off uiNextRowsOffset uiNextRowsSize);;
      h ← rget _handle; n ← rget m_uiDataSize;
      hTmp ← on_mal (mal_ReAlloc h ((n +u32 uiNewRowSize) -u32 uiCurRowSize));
      when_ (negb (hTmp =? 0)) (take_handle hTmp);;
      drop_cur uiCurRowSize.

Definition ReplaceCurRow (stRow : CRowValue) (isDirty buf : bool) : RM Z :=
  uiOldOffset ← rget m_uiOffset;
  iRet ← SkipRow stRow;
  if negb (iRet =? 0) then rput (set_m_uiOffset uiOldOffset);; mret iRet
  else
    rowoff ← rget m_uiRowOffset;
    f ← GET_VALUE_AT_OFFSET 1 rowoff;
    match f with
    | None => rput (set_m_uiOffset uiOldOffset);; mret iRet
    | Some f =>
        let uchRowFlag := if isDirty then OPER_UPDATE else f in
        k ← rget m_uchKeyIdx;
        uiNewRowSize ← lift (CalcRowSize stRow k);
        off ← rget m_uiOffset; n ← rget m_uiDataSize;
        let uiCurRowSize := off -u32 rowoff in
        let uiNextRowsSize := n -u32 off in
        if uiCurRowSize <? uiNewRowSize
        then replace_longer stRow uchRowFlag uiNewRowSize uiCurRowSize off uiNextRowsSize uiOldOffset
        else replace_shorter stRow uchRowFlag uiNewRowSize uiCurRowSize off uiNextRowsSize uiOldOffset buf
    end.

Definition DeleteCurRow (stRow : CRowValue) : RM Z :=
  uiOldOffset ← rget m_uiOffset;
  iRet ← SkipRow stRow;
  if negb (iRet =? 0) then rput (set_m_uiOffset uiOldOffset);; mret iRet
  else
    off ← rget m_uiOffset; rowoff ← rget m_uiRowOffset; n ← rget m_uiDataSize;
    content_move rowoff off (n -u32 off);;
    rput (set_m_uiDataSize (n -u32 (off -u32 rowoff)));;
    r ← rget m_uiRowCnt; rput (set_m_uiRowCnt (r -u32 1));;
    SetDataSize;; SetRowCount;;
    rput (set_m_uiOffset rowoff);;
    mret iRet.

Definition DeleteAllRows : RM Z :=
  start ← rget m_uiDataStart;
  rput (set_m_uiOffset start ∘ set_m_uiRowCnt 0 ∘ set_m_uiRowOffset start ∘ set_m_uiDataSize start);;
  SetDataSize;; SetRowCount;;
  rput (set_m_uiNeedSize 0);; mret 0.

Definition SetCurRowFlag (uchFlag : Z) : RM Z :=
  off ← rget m_uiRowOffset; n ← rget m_uiDataSize;
  if n <=? off then mret (-1) else content_write off (le_bytes 1 uchFlag);; mret 0.

(** ** Copies from a reference object with the memory [mem] behind its
    [m_pchContent] *)

Definition CopyRow (ref : CRawData) (mem : option ptr) : RM Z :=
  let uiSize := m_uiOffset ref -u32 m_uiRowOffset ref in
  iRet ← ExpandChunk uiSize;
  if negb (iRet =? 0) then mret iRet
  else
    l ← lift (read_n (padd mem (m_uiRowOffset ref)) (Z.to_nat uiSize));
    off ← rget m_uiOffset;
    content_write off l;;
    rput (set_m_uiOffset (off +u32 uiSize));;
    n ← rget m_uiDataSize; rput (set_m_uiDataSize (n +u32 uiSize));;
    r ← rget m_uiRowCnt; rput (set_m_uiRowCnt (r +u32 1));;
    SetDataSize;; SetRowCount;;
    mret 0.

Definition CopyAll (ref : CRawData) (mem : option ptr) : RM Z :=
  let uiSize := m_uiDataSize ref in
  iRet ← ReAllocChunk uiSize;
  if negb (iRet =? 0) then mret iRet
  else
    l ← lift (read_n mem (Z.to_nat uiSize));
    content_write 0 l;;
    h ← rget _handle;
    Attach h (m_uchKeyIdx ref) (m_iKeySize ref) (-1) (-1).

Definition AppendNRecords (uiNRows : Z) (pchData : option ptr) (uiLen : Z) : RM Z :=
  iRet ← ExpandChunk uiLen;
  if negb (iRet =? 0) then mret iRet
  else
    l ← lift (read_n pchData (Z.to_nat uiLen));
    n ← rget m_uiDataSize;
    content_write n l;;
    rput (set_m_uiDataSize (n +u32 uiLen));;
    r ← rget m_uiRowCnt; rput (set_m_uiRowCnt (r +u32 uiNRows));;
    mret 0.

End raw.
