(* ===== verification/RawBuf.v ===== *)
(** * RawBuf: reading and writing a row chunk

    Rules for the access macros of [src/cache/raw_data.cc] on the chunk a
    [CRawData] has attached, over any allocator that keeps the contract of
    [Mallocator]: the chunk's bytes are split where the access happens. *)

From stdpp Require Import list.
From S2P Require Import Prelude State Bitsop Value Protocol TableDef Field Mallocator RawData.

#[local] Open Scope cint_scope.

Abbreviation Zlen l := (Z.of_nat (length l)).

Section buf.
Context {A : Type} `{MallocatorLaws A}.
Implicit Types (s : CRawData * A) (u : list block) (x y z l : list Z).

(** The object has the chunk with the bytes [bs] attached; [u] are the
    allocator's other blocks. *)
Record buf s u (bs : list Z) : Prop := {
  buf_content : m_pchContent s.1 = _handle s.1;
  buf_size : _size s.1 = Zlen bs;
  buf_holds : mal_holds s.2 ((_handle s.1, bs) :: u)
}.

Lemma buf_block s u bs : buf s u bs -> 0 < _handle s.1 ∧ bytes bs ∧ Zlen bs < 2 ^ 32.
Proof. intros Hb. destruct (mal_block _ _ _ _ (buf_holds _ _ _ Hb)) as (? & ? & ? & ?). done. Qed.

(** An object that has the same chunk. *)
Lemma buf_obj o o' a u bs :
  buf (o, a) u bs -> m_pchContent o' = m_pchContent o -> _handle o' = _handle o -> _size o' = _size o ->
  buf (o', a) u bs.
Proof. intros [H1 H2 H3] E1 E2 E3. simpl in *. split; simpl; congruence. Qed.

Lemma rget_ok {X} (f : CRawData -> X) s : rget f s = Some (f s.1, s).
Proof. done. Qed.
Lemma rput_ok f s : rput f s = Some (tt, (f s.1, s.2)).
Proof. done. Qed.

Lemma content_read_at s u x y z off n :
  buf s u (x ++ y ++ z) -> off = Zlen x -> n = length y -> content_read off n s = Some (y, s).
Proof.
  intros Hb Ho Hn. unfold content_read. mstep (rget_ok m_pchContent s). unfold on_mal.
  rewrite (buf_content _ _ _ Hb), (peeks_at s.2 _ x y z u off n (buf_holds _ _ _ Hb) Ho Hn). by destruct s.
Qed.

Lemma content_write_at s u x y z off l :
  buf s u (x ++ y ++ z) -> off = Zlen x -> length y = length l -> bytes l ->
  runs (content_write off l) s (λ _ s', s'.1 = s.1 ∧ buf s' u (x ++ l ++ z)).
Proof.
  intros Hb Ho Hl Hbl. unfold content_write. eapply runs_step; [apply rget_ok|].
  rewrite (buf_content _ _ _ Hb).
  destruct (pokes_at s.2 _ x y z u off l (buf_holds _ _ _ Hb) Ho Hl Hbl) as ([] & a' & Hr & Ha).
  exists tt, (s.1, a'). unfold on_mal. rewrite Hr. split; [done|]. split; [done|].
  destruct Hb as [H1 H2 H3]. split; [done| |done]. simpl. rewrite H2, !length_app. lia.
Qed.

Lemma content_move_at s u x y z x' y' z' dst src n :
  buf s u (x ++ y ++ z) -> x ++ y ++ z = x' ++ y' ++ z' -> src = Zlen x -> dst = Zlen x' ->
  n = Zlen y -> length y' = length y ->
  runs (content_move dst src n) s (λ _ s', s'.1 = s.1 ∧ buf s' u (x' ++ y ++ z')).
Proof.
  intros Hb He Hs Hd Hn Hl. unfold content_move. eapply runs_step; [apply (content_read_at _ _ _ _ _ _ _ Hb Hs); lia|].
  pose proof (buf_block _ _ _ Hb) as (_ & Hby & _). unfold bytes in Hby. rewrite !Forall_app in Hby.
  rewrite He in Hb.
  eapply content_write_at; [exact Hb|done|done|tauto].
Qed.

Lemma GET_VALUE_AT_at s u x y z n off :
  buf s u (x ++ y ++ z) -> off = Zlen x -> n = length y ->
  GET_VALUE_AT_OFFSET n off s = Some (Some (le_value y), s).
Proof.
  intros Hb -> ->. unfold GET_VALUE_AT_OFFSET. mstep (rget_ok _size s). rewrite (buf_size _ _ _ Hb).
  destruct (Z.ltb_spec (Zlen (x ++ y ++ z)) (Zlen x + Zlen y)) as [Hlt|]; [rewrite !length_app in Hlt; lia|].
  mstep (content_read_at s u x y z _ _ Hb eq_refl eq_refl). done.
Qed.

Lemma GET_VALUE_at s u x y z n :
  buf s u (x ++ y ++ z) -> m_uiOffset s.1 = Zlen x -> n = length y ->
  GET_VALUE n s = Some (Some (le_value y), (set_m_uiOffset (Zlen (x ++ y)) s.1, s.2)).
Proof.
  intros Hb Ho Hn. pose proof (buf_block _ _ _ Hb) as (_ & _ & Hlen). rewrite !length_app in Hlen.
  unfold GET_VALUE. mstep (rget_ok m_uiOffset s). mstep (GET_VALUE_AT_at s u x y z n _ Hb Ho Hn).
  rewrite Ho, Hn, uwrap_small by lia.
  by replace (Zlen x + Zlen y) with (Zlen (x ++ y)) by (rewrite length_app; lia).
Qed.

Lemma SET_VALUE_AT_at s u x y z v n off :
  buf s u (x ++ y ++ z) -> off = Zlen x -> length y = n ->
  runs (SET_VALUE_AT_OFFSET v n off) s (λ ok s', ok = true ∧ s'.1 = s.1 ∧ buf s' u (x ++ le_bytes n v ++ z)).
Proof.
  intros Hb Ho Hn. unfold SET_VALUE_AT_OFFSET. eapply runs_step; [apply rget_ok|].
  rewrite (buf_size _ _ _ Hb), !length_app.
  destruct (Z.ltb_spec (Z.of_nat (length x + (length y + length z))) (off + Z.of_nat n)); [lia|].
  eapply runs_bind; [eapply content_write_at; [done..| |]; [by rewrite length_le_bytes|apply le_bytes_bytes]|].
  intros [] s' [H1 H2]. by apply runs_ret.
Qed.

Lemma SET_VALUE_at s u x y z v n :
  buf s u (x ++ y ++ z) -> m_uiOffset s.1 = Zlen x -> length y = n ->
  runs (SET_VALUE v n) s (λ ok s', ok = true ∧ s'.1 = set_m_uiOffset (Zlen (x ++ y)) s.1 ∧
    buf s' u (x ++ le_bytes n v ++ z)).
Proof.
  intros Hb Ho Hn. pose proof (buf_block _ _ _ Hb) as (_ & _ & Hlen). rewrite !length_app in Hlen.
  unfold SET_VALUE. eapply runs_step; [apply rget_ok|]. eapply runs_bind; [by eapply SET_VALUE_AT_at|].
  intros ok [o a] (-> & E & H2). simpl in E. subst o. eapply runs_step; [apply rput_ok|]. apply runs_ret. split; [done|].
  rewrite Ho, uwrap_small by lia. simpl. split.
  - f_equal. rewrite length_app. lia.
  - eapply buf_obj; [exact H2|done..].
Qed.

Lemma SKIP_SIZE_at s u x y z w n :
  buf s u (x ++ y ++ z) -> m_uiOffset s.1 = Zlen x -> n = Zlen y -> 32 <= w ->
  SKIP_SIZE w n s = Some (true, (set_m_uiOffset (Zlen (x ++ y)) s.1, s.2)).
Proof.
  intros Hb Ho -> Hw. pose proof (buf_block _ _ _ Hb) as (_ & _ & Hlen). rewrite !length_app in Hlen.
  assert (2 ^ 32 <= 2 ^ w) by (apply Z.pow_le_mono_r; lia).
  unfold SKIP_SIZE. mstep (rget_ok m_uiOffset s). mstep (rget_ok _size s).
  rewrite (buf_size _ _ _ Hb), Ho, !uwrap_small by lia.
  destruct (Z.ltb_spec (Zlen (x ++ y ++ z)) (Zlen x + Zlen y)) as [Hlt|]; [rewrite !length_app in Hlt; lia|].
  by replace (Zlen x + Zlen y) with (Zlen (x ++ y)) by (rewrite length_app; lia).
Qed.

Lemma SET_BIN_VALUE_at s u x y z p l :
  buf s u (x ++ y ++ z) -> m_uiOffset s.1 = Zlen x -> length y = (4 + length l)%nat ->
  read_n p (length l) = Some l -> bytes l ->
  runs (SET_BIN_VALUE p (Zlen l)) s (λ ok s', ok = true ∧ s'.1 = set_m_uiOffset (Zlen (x ++ y)) s.1 ∧
    buf s' u (x ++ (le_bytes 4 (Zlen l) ++ l) ++ z)).
Proof.
  intros Hb Ho Hl Hr Hbl. pose proof (buf_block _ _ _ Hb) as (_ & _ & Hlen). rewrite !length_app in Hlen.
  unfold SET_BIN_VALUE. eapply runs_step; [apply rget_ok|]. eapply runs_step; [apply rget_ok|].
  rewrite Ho, (buf_size _ _ _ Hb), (uwrap_small 64), (uwrap_small 32 (Zlen x + 4)), (uwrap_small 32), !length_app by lia.
  destruct (Z.ltb_spec (Z.of_nat (length x + (length y + length z))) (Zlen x + 4 + Zlen l)); [lia|].
  assert (∃ y1 y2, y = y1 ++ y2 ∧ length y1 = 4%nat ∧ length y2 = length l) as (y1 & y2 & -> & Hy1 & Hy2).
  { exists (take 4 y), (drop 4 y). rewrite take_drop, length_take, length_drop. split_and!; [done|lia|lia]. }
  rewrite <- app_assoc in Hb.
  eapply runs_bind; [by apply (content_write_at _ _ _ _ _ _ _ Hb eq_refl); [|apply le_bytes_bytes]|].
  intros [] [o a] [E H2]. simpl in E. subst o.
  eapply runs_bind with (Q := λ _ s', s'.1 = s.1 ∧ buf s' u (x ++ le_bytes 4 (Zlen l) ++ l ++ z)).
  - destruct (Z.eqb_spec (Zlen l) 0) as [E0|].
    { destruct l; [|done]. destruct y2; [|done]. by apply runs_ret. }
    destruct (Z.ltb_spec (Zlen l) 0); [lia|]. rewrite Nat2Z.id, Hr. eapply runs_step; [done|].
    rewrite app_assoc in H2.
    eapply runs_mono; [eapply content_write_at; [exact H2| |done|done]|].
    + rewrite length_app, length_le_bytes. lia.
    + intros [] s' [? ?]. split; [done|]. by rewrite <- app_assoc in *.
  - intros [] [o a'] [E H3]. simpl in E. subst o. eapply runs_step; [apply rput_ok|]. apply runs_ret.
    split; [done|]. simpl. split.
    + f_equal. rewrite !length_app, Hy1, Hy2. lia.
    + eapply buf_obj; [exact H3|done..].
Qed.
End buf.
