(* ===== verification/RawRow.v ===== *)
(** * RawRow: the columns of a stored row

    What the column loops of [src/cache/raw_data.cc] do with the bytes of a
    row.  A stored row is its flag byte and one cell per column that is kept;
    [CalcRowSize], [EncodeRow], [DecodeRow] and [SkipRow] agree on the cells. *)

From stdpp Require Import list.
From S2P Require Import Prelude State Bitsop Value Protocol TableDef Field Mallocator RawData RawBuf.

#[local] Open Scope cint_scope.

(** ** Cells *)

(** The columns from [j] on that rows keep. *)
Fixpoint colids (d : CTableDefinition) (j : Z) (n : nat) : option (list Z) :=
  match n with
  | O => Some []
  | S n' => k ← IsDiscard d j; l ← colids d (j + 1) n'; Some (if k =? 0 then j :: l else l)
  end.
Definition stored_columns (d : CTableDefinition) (keyIdx : Z) : option (list Z) :=
  colids d (keyIdx + 1) (Z.to_nat (numFields d - keyIdx)).

(** The bytes [EncodeRow] writes for a column. *)
Definition cell_bytes (stRow : CRowValue) (j : Z) : option (list Z) :=
  v ← row_get stRow j; t ← FieldType (row_def stRow) j; w ← wide (row_def stRow) j;
  if numeric t then
    Some (le_bytes (num_size w)
            (if (t =? DField_Float) && negb w then flt_of_dbl (v_flt v) else v_word v))
  else
    if bin_len (v_str v) <? 0 then None
    else l ← read_n (bin_ptr (v_str v)) (Z.to_nat (bin_len (v_str v)));
         if forallb is_byteb l then Some (le_bytes 4 (Zlen l) ++ l) else None.

Definition is_cell (d : CTableDefinition) (j : Z) (c : list Z) : Prop :=
  ∃ t w, FieldType d j = Some t ∧ wide d j = Some w ∧ bytes c ∧
    if numeric t then length c = num_size w
    else ∃ l, c = le_bytes 4 (Zlen l) ++ l ∧ Zlen l < 2 ^ 31.

(** The value [DecodeRow] makes of a cell. *)
Definition cell_value (d : CTableDefinition) (j : Z) (c : list Z) (v : CValue) : Prop :=
  ∃ t w, FieldType d j = Some t ∧ wide d j = Some w ∧
    if numeric t then
      v_word v = u64 (if w then le_value c else if t =? DField_Signed then s32 (le_value c)
                      else if t =? DField_Unsigned then le_value c else dbl_of_flt (le_value c))
    else ∃ l, c = le_bytes 4 (Zlen l) ++ l ∧ bin_len (v_str v) = Zlen l ∧ holds (bin_ptr (v_str v)) l.

(** A decoded string points to its bytes in the chunk, behind the length at
    [off]. *)
Definition cell_ptr (d : CTableDefinition) (j off : Z) (v : CValue) : Prop :=
  ∀ t, FieldType d j = Some t -> numeric t = false -> ∃ bs, v_ptr v = Some (Ptr bs (off + 4)).

Lemma bytes_forallb l : forallb is_byteb l = true <-> bytes l.
Proof.
  unfold bytes. rewrite Forall_forall, forallb_forall. split; intros Hl x Hx.
  - apply is_byteb_spec, Hl. by apply list_elem_of_In.
  - apply is_byteb_spec, Hl. by apply list_elem_of_In.
Qed.

Lemma le_value_range l : bytes l -> 0 <= le_value l < 2 ^ (8 * Zlen l).
Proof.
  induction 1 as [|b l [Hb1 Hb2] _ IH]; simpl; [done|].
  replace (8 * Z.of_nat (S (length l))) with (8 + 8 * Zlen l) by lia. rewrite Z.pow_add_r by lia.
  change (2 ^ 8) with 256. nia.
Qed.

Lemma le_value_len n : 0 <= n < 2 ^ 31 -> s32 (le_value (le_bytes 4 n)) = n.
Proof.
  intros. rewrite le_value_bytes. change (8 * Z.of_nat 4) with 32. rewrite Z.mod_small by lia.
  apply swrap_small; simpl; lia.
Qed.

Lemma v_str_len_range v : - 2 ^ 31 <= bin_len (v_str v) < 2 ^ 31.
Proof. exact (swrap_range 32 (v_word v) ltac:(lia)). Qed.

(** The two kinds of columns. *)
Lemma cell_bytes_inv stRow j c :
  cell_bytes stRow j = Some c ->
  ∃ v t w, row_get stRow j = Some v ∧ FieldType (row_def stRow) j = Some t ∧ wide (row_def stRow) j = Some w ∧
    if numeric t then
      c = le_bytes (num_size w) (if (t =? DField_Float) && negb w then flt_of_dbl (v_flt v) else v_word v)
    else ∃ l, bin_len (v_str v) = Zlen l ∧ read_n (bin_ptr (v_str v)) (length l) = Some l ∧ bytes l ∧
         c = le_bytes 4 (Zlen l) ++ l ∧ Zlen l < 2 ^ 31.
Proof.
  unfold cell_bytes. intros Hc. apply bind_Some in Hc as (v & Hv & Hc).
  apply bind_Some in Hc as (t & Ht & Hc). apply bind_Some in Hc as (w & Hw & Hc).
  exists v, t, w. do 3 (split; [done|]). destruct (numeric t); [by simplify_eq|].
  destruct (Z.ltb_spec (bin_len (v_str v)) 0); [done|]. apply bind_Some in Hc as (l & Hl & Hc).
  destruct (forallb is_byteb l) eqn:Hb; [|done]. simplify_eq. pose proof (read_n_length _ _ _ Hl) as Hlen.
  pose proof (v_str_len_range v). exists l. rewrite <- bytes_forallb, Hlen.
  split_and!; done || lia.
Qed.

Lemma cell_bytes_is_cell stRow j c : cell_bytes stRow j = Some c -> is_cell (row_def stRow) j c.
Proof.
  intros (v & t & w & _ & Ht & Hw & Hc)%cell_bytes_inv. exists t, w. do 2 (split; [done|]).
  destruct (numeric t).
  - subst c. split; [apply le_bytes_bytes|apply length_le_bytes].
  - destruct Hc as (l & _ & _ & Hb & -> & Hl). split; [|by exists l].
    apply Forall_app. split; [apply le_bytes_bytes|done].
Qed.

Lemma row_set_spec stRow j f v :
  row_get stRow j = Some v ->
  ∃ r, row_set stRow j f = Some r ∧ row_def r = row_def stRow ∧ length (row_value r) = length (row_value stRow) ∧
    ∀ i, row_get r i = if i =? j then Some (f v) else row_get stRow i.
Proof.
  unfold row_get, row_set. intros Hg. apply bind_Some in Hg as (ov & Hf & ->). rewrite Hf. simpl.
  unfold row_FieldValue in Hf. destruct (_ && _) eqn:Hr; [|done]. apply bind_Some in Hf as (v' & Hv & [= ->]).
  unfold row_put. unfold row_at in Hv. pose proof (rd_Some_lt _ _ _ Hv). rewrite wr_is_Some by done. simpl.
  eexists. split; [reflexivity|]. split; [done|]. split; [simpl; by rewrite length_insert|]. intros i.
  assert (wr (row_value stRow) j (f v) = Some (<[Z.to_nat j:=f v]> (row_value stRow))) as Hw by by apply wr_is_Some.
  unfold row_FieldValue, row_at. simpl. rewrite (rd_wr _ _ i _ _ Hw), (Z.eqb_sym j i).
  destruct (Z.eqb_spec i j) as [->|]; [by rewrite Hr|]. done.
Qed.

Section cells.
Context {A : Type} `{MallocatorLaws A}.
Implicit Types (s : CRawData * A) (u : list block) (x y z l c : list Z).

(** ** Reading a cell *)

Lemma skip_field_at s u d j x c z :
  is_cell d j c -> buf s u (x ++ c ++ z) -> m_uiOffset s.1 = Zlen x ->
  skip_field d j s = Some (true, (set_m_uiOffset (Zlen (x ++ c)) s.1, s.2)).
Proof.
  intros (t & w & Ht & Hw & Hb & Hc) Hbuf Ho. unfold skip_field. rewrite Ht, Hw.
  mstep (eq_refl : lift (Some t) s = Some (t, s)). destruct (numeric t).
  - mstep (eq_refl : lift (Some w) s = Some (w, s)). eapply SKIP_SIZE_at; [done..|by rewrite Hc|lia].
  - destruct Hc as (l & -> & Hl). rewrite <- app_assoc in Hbuf.
    mstep (GET_VALUE_at s u x _ _ 4 Hbuf Ho eq_refl). rewrite le_value_len by lia.
    rewrite app_assoc in Hbuf.
    rewrite (SKIP_SIZE_at (set_m_uiOffset _ s.1, s.2) u (x ++ le_bytes 4 (Zlen l)) l z 32); [|by destruct Hbuf|done..].
    simpl. by rewrite <- app_assoc.
Qed.

Lemma decode_field_at s u stRow j x c z v0 :
  is_cell (row_def stRow) j c -> row_get stRow j = Some v0 ->
  buf s u (x ++ c ++ z) -> m_uiOffset s.1 = Zlen x ->
  ∃ r v, decode_field stRow j s = Some ((true, r), (set_m_uiOffset (Zlen (x ++ c)) s.1, s.2)) ∧
    row_def r = row_def stRow ∧ cell_value (row_def stRow) j c v ∧
    (∀ i, row_get r i = if i =? j then Some v else row_get stRow i) ∧ cell_ptr (row_def stRow) j (Zlen x) v.
Proof.
  intros (t & w & Ht & Hw & Hb & Hc) Hv Hbuf Ho. unfold decode_field, cell_value. rewrite Ht, Hw.
  mstep (eq_refl : lift (Some t) s = Some (t, s)). mstep (eq_refl : lift (Some w) s = Some (w, s)).
  destruct (numeric t) eqn:Hnum.
  - mstep (GET_VALUE_at s u x _ _ _ Hbuf Ho (eq_sym Hc)). set (f := λ v, v_set_word v _).
    destruct (row_set_spec stRow j f v0 Hv) as (r & Hr & Hd & _ & Hi). rewrite Hr. exists r, (f v0).
    split_and!; [done|done| |done|]; [exists t, w; by rewrite Hnum|]. intros t' Ht' Hn'. congruence.
  - destruct Hc as (l & -> & Hl). rewrite <- app_assoc in Hbuf.
    mstep (GET_VALUE_at s u x _ _ 4 Hbuf Ho eq_refl). rewrite le_value_len by lia.
    set (s1 := (set_m_uiOffset _ s.1, s.2)).
    assert (buf s1 u ([] ++ (x ++ le_bytes 4 (Zlen l) ++ l ++ z) ++ [])) as H1.
    { rewrite app_nil_r. simpl. by destruct Hbuf. }
    mstep (rget_ok _size s1). mstep (rget_ok m_uiOffset s1).
    mstep (content_read_at s1 u _ _ _ 0 (Z.to_nat (_size s1.1)) H1 eq_refl
             ltac:(rewrite (buf_size _ _ _ H1), app_nil_l, app_nil_r; lia)).
    rewrite app_assoc in Hbuf |- *. set (p := Ptr _ _). set (f := λ v, v_set_str v _).
    destruct (row_set_spec stRow j f v0 Hv) as (r & Hr & Hd & _ & Hi). rewrite Hr.
    mstep (eq_refl : lift (Some r) s1 = Some (r, s1)).
    rewrite (step_bind _ _ _ _ _ (SKIP_SIZE_at s1 u (x ++ le_bytes 4 (Zlen l)) l z 32 (Zlen l)
               ltac:(by destruct Hbuf) eq_refl eq_refl ltac:(lia))).
    exists r, (f v0). split_and!; [by rewrite <- app_assoc|done| |done|].
    2: { intros t' _ _. eexists. unfold f, p, s1, v_set_str. cbn. do 2 f_equal. rewrite length_app. cbn. lia. }
    exists t, w. rewrite Hnum.
    do 2 (split; [done|]). exists l. split; [done|]. unfold f. rewrite v_str_set_str by (simpl; lia). simpl.
    split; [done|]. unfold p. simpl. apply (holds_block (x ++ le_bytes 4 (Zlen l)) l z).
Qed.

(** ** Writing a cell *)

Lemma encode_field_at s u stRow j x y c z :
  cell_bytes stRow j = Some c -> buf s u (x ++ y ++ z) -> m_uiOffset s.1 = Zlen x -> length y = length c ->
  runs (encode_field stRow j) s (λ ok s', ok = true ∧ s'.1 = set_m_uiOffset (Zlen (x ++ c)) s.1 ∧
    buf s' u (x ++ c ++ z)).
Proof.
  intros (v & t & w & Hv & Ht & Hw & Hc)%cell_bytes_inv Hbuf Ho Hy. unfold encode_field. rewrite Hv, Ht, Hw.
  do 2 (eapply runs_step; [reflexivity|]).
  assert (Zlen (x ++ c) = Zlen (x ++ y)) as -> by (rewrite !length_app; lia).
  destruct (numeric t) eqn:Hn.
  - subst c. rewrite length_le_bytes in Hy. unfold numeric in Hn.
    destruct (_ || (t =? DField_Unsigned)) eqn:Hi; simpl.
    + eapply runs_step; [reflexivity|]. assert ((t =? DField_Float) = false) as ->.
      { apply orb_prop in Hi as [->%Z.eqb_eq| ->%Z.eqb_eq]; done. }
      by eapply SET_VALUE_at.
    + simpl in Hn. rewrite Hn. eapply runs_step; [reflexivity|].
      destruct w; by eapply SET_VALUE_at.
  - destruct Hc as (l & Hl & Hr & Hb & -> & _). unfold numeric in Hn. apply orb_false_elim in Hn as [-> ->].
    rewrite Hl. eapply SET_BIN_VALUE_at; [done|done| |done|done]. by rewrite Hy, length_app.
Qed.
End cells.

(** ** Runs of columns *)

Lemma set_off_id o : set_m_uiOffset (m_uiOffset o) o = o.
Proof. by destruct o. Qed.
Lemma set_la_id o : set_m_uiLAOffset (m_uiLAOffset o) o = o.
Proof. by destruct o. Qed.

Lemma colids_ge d j n ids i : colids d j n = Some ids -> i ∈ ids -> j <= i < j + Z.of_nat n.
Proof.
  revert j ids. induction n as [|n IH]; intros j ids H Hi; cbn [colids] in H; [simplify_eq; by apply elem_of_nil in Hi|].
  apply bind_Some in H as (k & _ & H). apply bind_Some in H as (l & Hl & [= <-]).
  destruct (k =? 0); [apply elem_of_cons in Hi as [->|Hi]; [lia|]|]; apply (IH _ _ Hl) in Hi; lia.
Qed.

Lemma colids_step d j n ids :
  colids d j (S n) = Some ids ->
  ∃ k l, IsDiscard d j = Some k ∧ colids d (j + 1) n = Some l ∧ ids = if k =? 0 then j :: l else l.
Proof.
  intros H. cbn [colids] in H. apply bind_Some in H as (k & Hk & H). apply bind_Some in H as (l & Hl & [= <-]).
  by exists k, l.
Qed.

Lemma CalcRowSize_loop_at stRow j n ids cells t :
  colids (row_def stRow) j n = Some ids -> mapM (cell_bytes stRow) ids = Some cells -> 0 <= t < 2 ^ 32 ->
  CalcRowSize_loop stRow j n t = Some (t +u32 Zlen (concat cells)).
Proof.
  revert j ids cells t. induction n as [|n IH]; intros j ids cells t Hi Hm Ht.
  { cbn [colids] in Hi. simplify_eq. apply mapM_Some, Forall2_nil_inv_l in Hm as ->. cbn [CalcRowSize_loop].
    rewrite uwrap_small; simpl; [f_equal|]; lia. }
  apply colids_step in Hi as (k & l & Hk & Hl & ->). cbn [CalcRowSize_loop]. rewrite Hk. osimpl.
  destruct (k =? 0); [|by eapply IH]. cbn [negb].
  apply mapM_Some in Hm. inversion Hm as [|? c ? cs Hc Hm']; subst. apply mapM_Some in Hm'.
  destruct (cell_bytes_inv _ _ _ Hc) as (v & ty & w & Hv & -> & -> & Hcell). osimpl.
  rewrite concat_cons, length_app. destruct (numeric ty).
  - osimpl. rewrite (IH _ _ cs) by (done || apply uwrap_range; lia). f_equal. rewrite Hcell, length_le_bytes.
    unfold uwrap. rewrite Zplus_mod_idemp_l. f_equal. lia.
  - rewrite Hv. osimpl. destruct Hcell as (b & -> & _ & _ & -> & _).
    rewrite (IH _ _ cs) by (done || apply uwrap_range; lia). f_equal. rewrite length_app, length_le_bytes.
    unfold uwrap. rewrite Zplus_mod_idemp_l, <- Z.add_assoc, Zplus_mod_idemp_l. f_equal. lia.
Qed.

Lemma CalcRowSize_at stRow k ids cells :
  stored_columns (row_def stRow) k = Some ids -> mapM (cell_bytes stRow) ids = Some cells ->
  CalcRowSize stRow k = Some (1 +u32 Zlen (concat cells)).
Proof. intros Hi Hm. unfold CalcRowSize. by eapply CalcRowSize_loop_at. Qed.

Lemma mapM_is_cell stRow ids cells :
  mapM (cell_bytes stRow) ids = Some cells -> Forall2 (is_cell (row_def stRow)) ids cells.
Proof. intros H%mapM_Some. eapply Forall2_impl; [done|]. intros j c. apply cell_bytes_is_cell. Qed.

(** Where [DecodeRow] leaves [m_uiLAOffset]. *)
Fixpoint la_offset (ids : list Z) (cells : list (list Z)) (la off old : Z) : Z :=
  match ids, cells with
  | i :: ids', c :: cells' => if i =? la then off else la_offset ids' cells' la (off + Zlen c) old
  | _, _ => old
  end.
Lemma la_offset_not ids cells la off old : la ∉ ids -> la_offset ids cells la off old = old.
Proof.
  revert cells off. induction ids as [|i ids IH]; intros [|c cells] off Hn; try done. simpl.
  apply not_elem_of_cons in Hn as [? ?]. destruct (Z.eqb_spec i la); [done|]. by apply IH.
Qed.

Section columns.
Context {A : Type} `{MallocatorLaws A}.
Implicit Types (s : CRawData * A) (u : list block) (x y z : list Z) (cells : list (list Z)).

Lemma skip_fields_at s u d j n ids x cells z :
  colids d j n = Some ids -> Forall2 (is_cell d) ids cells ->
  buf s u (x ++ concat cells ++ z) -> m_uiOffset s.1 = Zlen x ->
  skip_fields d j n s = Some (true, (set_m_uiOffset (Zlen (x ++ concat cells)) s.1, s.2)).
Proof.
  revert j ids x cells s. induction n as [|n IH]; intros j ids x cells s Hi Hc Hb Ho.
  { cbn [colids] in Hi. simplify_eq. apply Forall2_nil_inv_l in Hc as ->. simpl. rewrite app_nil_r, <- Ho, set_off_id.
    by destruct s. }
  apply colids_step in Hi as (k & l & Hk & Hl & ->). cbn [skip_fields]. rewrite Hk.
  mstep (eq_refl : lift (Some k) s = Some (k, s)). destruct (k =? 0); [|by eapply IH]. cbn [negb].
  apply Forall2_cons_inv_l in Hc as (c & cs & Hc & Hcs & ->). rewrite concat_cons, <- app_assoc in Hb.
  mstep (skip_field_at s u d j x c _ Hc Hb Ho). rewrite app_assoc in Hb.
  rewrite (IH (j + 1) l (x ++ c) cs); [|done|done|by destruct Hb|done]. simpl. by rewrite <- app_assoc.
Qed.

Lemma encode_fields_at s u stRow j n ids x y cells z :
  colids (row_def stRow) j n = Some ids -> mapM (cell_bytes stRow) ids = Some cells ->
  buf s u (x ++ y ++ z) -> m_uiOffset s.1 = Zlen x -> length y = length (concat cells) ->
  runs (encode_fields stRow j n) s (λ ok s', ok = true ∧
    s'.1 = set_m_uiOffset (Zlen (x ++ concat cells)) s.1 ∧ buf s' u (x ++ concat cells ++ z)).
Proof.
  revert j ids x y cells s. induction n as [|n IH]; intros j ids x y cells s Hi Hm Hb Ho Hy.
  { cbn [colids] in Hi. simplify_eq. apply mapM_Some, Forall2_nil_inv_l in Hm as ->. destruct y; [|done].
    apply runs_ret. split_and!; [done| |done]. simpl. by rewrite app_nil_r, <- Ho, set_off_id. }
  apply colids_step in Hi as (k & l & Hk & Hl & ->). cbn [encode_fields]. rewrite Hk.
  eapply runs_step; [reflexivity|]. destruct (k =? 0); [|by eapply IH]. cbn [negb].
  apply mapM_Some in Hm. inversion Hm as [|? c ? cs Hc Hm']; subst. apply mapM_Some in Hm'.
  rewrite concat_cons, length_app in Hy. rewrite concat_cons.
  assert (∃ y1 y2, y = y1 ++ y2 ∧ length y1 = length c ∧ length y2 = length (concat cs)) as (y1 & y2 & -> & Hy1 & Hy2).
  { exists (take (length c) y), (drop (length c) y). rewrite take_drop, length_take, length_drop. split_and!; [done|lia|lia]. }
  rewrite <- app_assoc in Hb. eapply runs_bind; [by eapply encode_field_at|].
  intros ok [o a] (-> & E & H1). simpl in E. subst o. rewrite app_assoc in H1.
  eapply runs_mono; [eapply (IH (j + 1) l (x ++ c) y2 cs); done|].
  intros ok s' (-> & E & H2). split; [done|]. rewrite <- !app_assoc in *. by rewrite E.
Qed.

Lemma decode_fields_at s u stRow j n ids x cells z :
  colids (row_def stRow) j n = Some ids -> Forall2 (is_cell (row_def stRow)) ids cells ->
  (∀ i, i ∈ ids -> is_Some (row_get stRow i)) ->
  buf s u (x ++ concat cells ++ z) -> m_uiOffset s.1 = Zlen x ->
  ∃ r, decode_fields stRow j n s =
      Some ((true, r), (set_m_uiOffset (Zlen (x ++ concat cells))
                          (set_m_uiLAOffset (la_offset ids cells (m_iLAId s.1) (Zlen x) (m_uiLAOffset s.1)) s.1), s.2)) ∧
    row_def r = row_def stRow ∧
    (∀ i c, (i, c) ∈ zip ids cells -> ∃ v, row_get r i = Some v ∧ cell_value (row_def stRow) i c v) ∧
    (∀ i, i ∉ ids -> row_get r i = row_get stRow i) ∧
    (∀ p i v, ids !! p = Some i -> row_get r i = Some v ->
       cell_ptr (row_def stRow) i (Zlen x + Zlen (concat (take p cells))) v).
Proof.
  revert j ids x cells s stRow. induction n as [|n IH]; intros j ids x cells s stRow Hi Hc Hg Hb Ho.
  { cbn [colids] in Hi. simplify_eq. apply Forall2_nil_inv_l in Hc as ->. exists stRow. simpl.
    rewrite app_nil_r, <- Ho, set_la_id, set_off_id. split_and!; [by destruct s|done| |done|done]. by intros i c ?%elem_of_nil. }
  apply colids_step in Hi as (k & l & Hk & Hl & ->). cbn [decode_fields]. rewrite Hk.
  mstep (eq_refl : lift (Some k) s = Some (k, s)). destruct (k =? 0); [|by eapply IH]. cbn [negb].
  apply Forall2_cons_inv_l in Hc as (c & cs & Hc & Hcs & ->). rewrite concat_cons, <- app_assoc in Hb.
  mstep (rget_ok m_iLAId s). mstep (rget_ok m_uiOffset s).
  set (s1 := (if j =? m_iLAId s.1 then set_m_uiLAOffset (m_uiOffset s.1) s.1 else s.1, s.2)).
  assert (when_ (j =? m_iLAId s.1) (rput (set_m_uiLAOffset (m_uiOffset s.1))) s = Some (tt, s1)) as Hw.
  { unfold when_, s1. destruct (j =? _); [done|]. by destruct s. }
  mstep Hw. assert (buf s1 u (x ++ c ++ concat cs ++ z) ∧ m_uiOffset s1.1 = Zlen x) as [Hb1 Ho1].
  { unfold s1. destruct (j =? _); simpl; [|by destruct s, Hb]. by destruct Hb. }
  destruct (Hg j ltac:(by left)) as [v0 Hv0].
  destruct (decode_field_at s1 u stRow j x c _ v0 Hc Hv0 Hb1 Ho1) as (r1 & v & Hrun & Hd & Hval & Hget & Hptr).
  mstep Hrun. cbn [fst snd]. rewrite app_assoc in Hb1.
  assert (j ∉ l) as Hjl by (intros Hin; pose proof (colids_ge _ _ _ _ _ Hl Hin); lia).
  destruct (IH (j + 1) l (x ++ c) cs (set_m_uiOffset (Zlen (x ++ c)) s1.1, s1.2) r1) as (r & Hr & Hdr & Hin & Hout & Hptrs).
  - by rewrite Hd.
  - by rewrite Hd.
  - intros i Hi. rewrite Hget. destruct (i =? j); [done|]. apply Hg. by right.
  - by destruct Hb1.
  - done.
  - rewrite Hd in *. exists r. split_and!; [|done| | |].
    + rewrite Hr. rewrite concat_cons, app_assoc. do 3 f_equal. unfold s1. cbn [fst snd la_offset].
      destruct (Z.eqb_spec j (m_iLAId s.1)) as [He|He].
      * rewrite la_offset_not by (simpl; by rewrite <- He). rewrite <- Ho. by destruct (s.1).
      * by replace (Zlen (x ++ c)) with (Zlen x + Zlen c) by (rewrite length_app; lia).
    + intros i ci [[= -> ->]|Hz]%elem_of_cons; [|by apply Hin].
      exists v. split; [|done]. rewrite Hout by done. by rewrite Hget, Z.eqb_refl.
    + intros i [? ?]%not_elem_of_cons. rewrite Hout, Hget by done. destruct (Z.eqb_spec i j); [done|]. done.
    + intros [|p] i v' Hp Hv'.
      * injection Hp as <-. rewrite Hout, Hget, Z.eqb_refl in Hv' by done. injection Hv' as <-. simpl. rewrite Z.add_0_r.
        unfold s1 in Hptr. exact Hptr.
      * simpl. rewrite length_app. specialize (Hptrs p i v' Hp Hv'). rewrite length_app in Hptrs.
        intros t Ht Hn. destruct (Hptrs t Ht Hn) as [bs ->]. exists bs. do 2 f_equal. lia.
Qed.
End columns.
