(* ===== verification/RawRep.v ===== *)
(** * RawRep: the chunk of a node as a list of rows

    The abstraction of a [CRawData] ([src/cache/raw_data.cc]): its chunk holds
    a header that agrees with the object, the key and the rows, each a flag and
    its cells; behind them is unused space.  The parts of the operations that
    grow the chunk, write a row and update the header are stated on it. *)

From stdpp Require Import list.
From S2P Require Import Prelude State Bitsop Value Protocol TableDef Field Mallocator RawData RawBuf RawRow.

#[local] Open Scope cint_scope.

(** ** The format *)

Record srow := SRow { sr_flag : Z; sr_cells : list (list Z) }.
Definition row_bytes (r : srow) : list Z := sr_flag r :: concat (sr_cells r).
Definition rows_bytes (rs : list srow) : list Z := concat (row_bytes <$> rs).
Definition row_ok (d : CTableDefinition) (ids : list Z) (r : srow) : Prop :=
  is_byte (sr_flag r) ∧ Forall2 (is_cell d) ids (sr_cells r).

(** The offset behind the rows [rs]. *)
Definition pos (key : list Z) (rs : list srow) : Z := 16 + Zlen key + Zlen (rows_bytes rs).

(** Select count and time stamps *)
Definition meta_bytes (o : CRawData) : list Z :=
  le_bytes 1 (m_uchGetCount o) ++ le_bytes 2 (m_LastAccessHour o) ++ le_bytes 2 (m_LastUpdateHour o) ++
  le_bytes 2 (m_CreateHour o).
Definition head_bytes (sz cnt : Z) (meta key : list Z) : list Z :=
  [DATA_TYPE_RAW] ++ le_bytes 4 sz ++ le_bytes 4 cnt ++ meta ++ key.

#[global] Arguments head_bytes : simpl never.
#[global] Arguments row_bytes : simpl never.

(** A packed key: of fixed size, or with its length in front. *)
Definition key_ok (iKeySize : Z) (key : list Z) : Prop :=
  bytes key ∧ if iKeySize =? 0 then ∃ k, key = Zlen k :: k else iKeySize = Zlen key.

Lemma rows_bytes_app rs rs' : rows_bytes (rs ++ rs') = rows_bytes rs ++ rows_bytes rs'.
Proof. unfold rows_bytes. by rewrite fmap_app, concat_app. Qed.
Lemma rows_bytes_cons r rs : rows_bytes (r :: rs) = row_bytes r ++ rows_bytes rs.
Proof. done. Qed.
Lemma pos_app key rs rs' : pos key (rs ++ rs') = pos key rs + Zlen (rows_bytes rs').
Proof. unfold pos. rewrite rows_bytes_app, length_app. lia. Qed.
Lemma pos_snoc key rs r : pos key (rs ++ [r]) = pos key rs + Zlen (row_bytes r).
Proof. rewrite pos_app. unfold rows_bytes. simpl. by rewrite app_nil_r. Qed.

Lemma rows_le rows : Zlen rows <= Zlen (rows_bytes rows).
Proof. induction rows as [|r rows IH]; [done|]. rewrite rows_bytes_cons, length_app. simpl. lia. Qed.

Lemma length_meta o : length (meta_bytes o) = 7%nat.
Proof. done. Qed.
Lemma length_head sz cnt meta key : length meta = 7%nat -> Zlen (head_bytes sz cnt meta key) = 16 + Zlen key.
Proof. intros Hm. unfold head_bytes. rewrite !length_app, !length_le_bytes, Hm. simpl. lia. Qed.

Lemma le_bytes_value l : bytes l -> le_bytes (length l) (le_value l) = l.
Proof.
  induction 1 as [|b l Hb _ IH]; simpl; [done|].
  assert (uwrap 8 (b + 256 * le_value l) = b) as ->.
  { unfold uwrap. change (2 ^ 8) with 256. rewrite Z.mul_comm, Z.mod_add by lia. by apply Z.mod_small. }
  rewrite Z.shiftr_div_pow2 by lia. change (2 ^ 8) with 256.
  rewrite Z.mul_comm, Z.div_add by lia. rewrite Z.div_small by done. by rewrite Z.add_0_l, IH.
Qed.

Lemma row_bytes_bytes d ids r : row_ok d ids r -> bytes (row_bytes r).
Proof.
  intros [Hf Hc]. apply Forall_cons. split; [done|]. apply Forall_concat.
  induction Hc as [|i c ids cs (t & w & _ & _ & Hb & _) _ IH]; [done|]. by constructor.
Qed.

(** ** The state *)

Section rep.
Context {A : Type} `{MallocatorLaws A} (d : CTableDefinition) (ids : list Z).
Implicit Types (s : CRawData * A) (u : list block) (x y z key meta : list Z) (rows : list srow).

Record stored s u key rows : Prop := {
  sd_cols : stored_columns d (m_uchKeyIdx s.1) = Some ids;
  sd_rows : Forall (row_ok d ids) rows;
  sd_buf : ∃ slack, buf s u (head_bytes (pos key rows) (Zlen rows) (meta_bytes s.1) key ++ rows_bytes rows ++ slack);
  sd_size : m_uiDataSize s.1 = pos key rows;
  sd_cnt : m_uiRowCnt s.1 = Zlen rows;
  sd_start : m_uiDataStart s.1 = pos key [];
  sd_keystart : m_uiKeyStart s.1 = 16;
  sd_getcount : m_uiGetCountOffset s.1 = 9;
  sd_stamps : m_uiTimeStampOffSet s.1 = 10;
  sd_key : key_ok (m_iKeySize s.1) key
}.

Lemma stored_bounds s u key rows : stored s u key rows -> 16 <= pos key rows < 2 ^ 32 ∧ Zlen rows < pos key rows.
Proof.
  intros Hs. destruct (sd_buf _ _ _ _ Hs) as [slack Hb]. apply buf_block in Hb as (_ & _ & Hl).
  rewrite !length_app, !Nat2Z.inj_add, length_head in Hl by done. unfold pos. pose proof (rows_le rows). lia.
Qed.

(** ** The header *)

Lemma SetDataSize_at s u sz cnt meta key z :
  buf s u (head_bytes sz cnt meta key ++ z) ->
  runs SetDataSize s (λ _ s', s'.1 = s.1 ∧ buf s' u (head_bytes (m_uiDataSize s.1) cnt meta key ++ z)).
Proof.
  intros Hb. unfold SetDataSize. eapply runs_step; [apply rget_ok|]. unfold head_bytes in Hb. rewrite <- !app_assoc in Hb.
  eapply runs_bind; [by apply (SET_VALUE_AT_at _ _ _ _ _ (m_uiDataSize s.1) 4 1 Hb)|].
  intros ok s' (-> & E & H1). apply runs_ret. split; [done|]. unfold head_bytes. by rewrite <- !app_assoc.
Qed.

Lemma SetRowCount_at s u sz cnt meta key z :
  buf s u (head_bytes sz cnt meta key ++ z) ->
  runs SetRowCount s (λ _ s', s'.1 = s.1 ∧ buf s' u (head_bytes sz (m_uiRowCnt s.1) meta key ++ z)).
Proof.
  intros Hb. unfold SetRowCount. eapply runs_step; [apply rget_ok|]. unfold head_bytes in Hb.
  rewrite <- !app_assoc, app_assoc in Hb.
  eapply runs_bind; [by apply (SET_VALUE_AT_at _ _ _ _ _ (m_uiRowCnt s.1) 4 5 Hb)|].
  intros ok s' (-> & E & H1). apply runs_ret. split; [done|]. unfold head_bytes. by rewrite <- !app_assoc in *.
Qed.

(** Both, as the operations call them. *)
Lemma set_header_at {X} s u sz cnt meta key z (k : RM X) Q :
  buf s u (head_bytes sz cnt meta key ++ z) ->
  (∀ s', s'.1 = s.1 -> buf s' u (head_bytes (m_uiDataSize s.1) (m_uiRowCnt s.1) meta key ++ z) -> runs k s' Q) ->
  runs (SetDataSize;; SetRowCount;; k) s Q.
Proof.
  intros Hb Hk. eapply runs_bind; [by eapply SetDataSize_at|]. intros _ s1 [E1 H1].
  eapply runs_bind; [by eapply SetRowCount_at|]. intros _ s2 [E2 H2]. rewrite E1 in H2. apply Hk; [congruence|done].
Qed.

(** ** The chunk *)

(** The object after it got the chunk [h] of [n] bytes. *)
Definition moved (o : CRawData) (h n : Z) : CRawData := set_m_pchContent h (set__size n (set__handle h o)).

Lemma moved_same s u bs : buf s u bs -> s.1 = moved s.1 (_handle s.1) (_size s.1).
Proof. intros [E _ _]. unfold moved. destruct (s.1). simpl in *. by subst. Qed.

Lemma take_handle_at s u h bs :
  mal_holds s.2 ((h, bs) :: u) ->
  runs (take_handle h) s (λ _ s', s'.1 = moved s.1 h (Zlen bs) ∧ buf s' u bs).
Proof.
  intros Hh. unfold take_handle. eapply runs_step; [apply rput_ok|].
  eapply runs_step; [unfold on_mal; simpl; by rewrite (mal_ChunkSize_law _ _ _ _ Hh)|].
  eapply runs_step; [apply rput_ok|]. eapply runs_eq; [apply rput_ok|]. done.
Qed.

(** A chunk of [n] bytes in place of the old one, or none; [used] is the part
    the caller relies on. *)
Lemma realloc_at s u used slack n :
  buf s u (used ++ slack) -> 0 < n < 2 ^ 32 ->
  runs (on_mal (mal_ReAlloc (_handle s.1) n)) s (λ h s', s'.1 = s.1 ∧
    ((h = 0 ∧ mal_holds s'.2 ((_handle s.1, used ++ slack) :: u)) ∨
     (h ≠ 0 ∧ ∃ bs, mal_holds s'.2 ((h, bs) :: u) ∧ n <= Zlen bs ∧
        (Zlen used <= n -> ∃ slack', bs = used ++ slack')))).
Proof.
  intros Hb Hn. destruct (mal_ReAlloc_law _ _ _ _ n (buf_holds _ _ _ Hb) Hn) as (h & a & Hr & Hor).
  exists h, (s.1, a). split; [unfold on_mal; by rewrite Hr|]. split; [done|]. simpl.
  destruct Hor as [[-> Ha]|(bs & Hl & Ht & Ha)]; [by left|right].
  destruct (mal_block _ _ _ _ Ha) as (? & _). split; [lia|]. exists bs. do 2 (split; [done|]). intros Hu.
  exists (drop (length used) bs). rewrite <- (take_drop (length used) bs) at 1. f_equal.
  apply (f_equal (take (length used))) in Ht. rewrite !take_take, length_app in Ht.
  rewrite Nat.min_l in Ht by lia. by rewrite Ht, take_app_length.
Qed.

Lemma buf_set_obj s u bs o : buf s u bs -> m_pchContent o = m_pchContent s.1 -> _handle o = _handle s.1 ->
  _size o = _size s.1 -> buf (o, s.2) u bs.
Proof. destruct s. apply buf_obj. Qed.

Lemma ExpandChunk_at s u used slack n :
  buf s u (used ++ slack) -> m_uiDataSize s.1 = Zlen used -> 0 < Zlen used -> 0 <= n -> Zlen used + n < 2 ^ 32 ->
  runs (ExpandChunk n) s (λ c s',
    (c = EC_NO_MEM ∧ Zlen slack < n ∧ s'.1 = set_m_uiNeedSize (Zlen used + n) s.1 ∧ buf s' u (used ++ slack)) ∨
    (c = 0 ∧ ∃ h sz slack', s'.1 = moved s.1 h sz ∧ buf s' u (used ++ slack') ∧ n <= Zlen slack' ∧
       (n <= Zlen slack -> slack' = slack))).
Proof.
  intros Hb Hd Hu Hn Hlt. pose proof (buf_block _ _ _ Hb) as (Hh & _ & _). unfold ExpandChunk.
  eapply runs_step; [apply rget_ok|]. destruct (Z.eqb_spec (_handle s.1) 0); [lia|].
  do 2 (eapply runs_step; [apply rget_ok|]). rewrite Hd, (buf_size _ _ _ Hb), uwrap_small by lia.
  destruct (Z.ltb_spec (Zlen (used ++ slack)) (Zlen used + n)) as [|Hge].
  2: { apply runs_ret. right. split; [done|]. exists (_handle s.1), (_size s.1), slack.
       split; [by eapply moved_same|]. split; [done|]. rewrite length_app in Hge. split; [lia|done]. }
  assert (Zlen slack < n) as Hsl by (rewrite length_app in *; lia).
  eapply runs_bind; [apply realloc_at; [done|lia]|].
  intros h s1 (E & [[-> Ha]|(Hh0 & bs & Ha & Hl & Hbs)]).
  - simpl. eapply runs_step; [apply rput_ok|]. apply runs_ret. left. rewrite E. split_and!; [done|done|done|].
    destruct Hb as [H1 H2 H3]. split; simpl; try done.
  - destruct (Z.eqb_spec h 0); [done|]. eapply runs_bind; [by apply take_handle_at|].
    intros _ s2 [E2 Hb2]. apply runs_ret. right. split; [done|]. destruct (Hbs ltac:(lia)) as [slack' ->].
    exists h, (Zlen (used ++ slack')), slack'. rewrite E2, E. rewrite length_app in Hl. split_and!; [done|done|lia|lia].
Qed.

(** ** Writing a row *)

Definition encoded (o : CRawData) (off n : Z) : CRawData :=
  set_m_uiRowCnt (m_uiRowCnt o + 1) (set_m_uiDataSize (m_uiDataSize o + n) (set_m_uiOffset off o)).

Lemma split_length (y a b : list Z) :
  length y = length (a ++ b) -> ∃ y1 y2, y = y1 ++ y2 ∧ length y1 = length a ∧ length y2 = length b.
Proof.
  rewrite length_app. intros Hy. exists (take (length a) y), (drop (length a) y).
  rewrite take_drop, length_take, length_drop. split_and!; [done|lia|lia].
Qed.

Lemma write_row_at s u sz cnt meta key x y z stRow op cells row :
  buf s u (head_bytes sz cnt meta key ++ x ++ y ++ z) ->
  m_uiOffset s.1 = Zlen (head_bytes sz cnt meta key ++ x) ->
  row_def stRow = d -> stored_columns d (m_uchKeyIdx s.1) = Some ids -> mapM (cell_bytes stRow) ids = Some cells ->
  is_byte op -> row = row_bytes (SRow op cells) ->
  length y = length row -> 0 <= m_uiDataSize s.1 -> m_uiDataSize s.1 + Zlen row < 2 ^ 32 ->
  0 <= m_uiRowCnt s.1 < 2 ^ 32 - 1 ->
  runs (write_row stRow op (m_uchKeyIdx s.1) (Zlen row)) s (λ c s', c = 0 ∧
    s'.1 = encoded s.1 (m_uiOffset s.1 + Zlen row) (Zlen row) ∧
    buf s' u (head_bytes (m_uiDataSize s.1 + Zlen row) (m_uiRowCnt s.1 + 1) meta key ++ x ++ row ++ z)).
Proof.
  intros Hb Ho Hd Hi Hm Hop Hrow Hy Hs1 Hs2 Hc. unfold write_row.
  assert (Zlen row = 1 + Zlen (concat cells)) as Hlr by (rewrite Hrow; unfold row_bytes; simpl; lia).
  destruct (split_length y [op] (concat cells) ltac:(simpl; lia)) as (y1 & y2 & -> & Hy1 & Hy2).
  rewrite app_assoc, <- (app_assoc y1) in Hb.
  eapply runs_bind; [by apply (SET_VALUE_at s u _ y1 _ op 1 Hb)|].
  intros ok [o a] (-> & E & H1). cbn [fst snd] in E; subst o. cbn [negb].
  assert (le_bytes 1 op = [op]) as Hl1 by (simpl; f_equal; by apply uwrap_small).
  rewrite Hl1, app_assoc in H1.
  eapply runs_bind.
  { unfold columns. rewrite Hd.
    eapply (encode_fields_at _ u stRow _ _ ids _ y2 cells z); [by rewrite Hd|done|exact H1| |done].
    simpl. rewrite !length_app. simpl in *. lia. }
  intros ok [o a2] (-> & E & H2). cbn [fst snd] in E; subst o. cbn [negb].
  eapply runs_step; [apply rget_ok|]. eapply runs_step; [apply rput_ok|].
  rewrite uwrap_small by (simpl; lia).
  assert (Zlen (((head_bytes sz cnt meta key ++ x) ++ [op]) ++ concat cells) = m_uiOffset s.1 + Zlen row) as Hoff.
  { rewrite Ho, !length_app. simpl. lia. }
  rewrite Hoff in H2. rewrite <- !app_assoc in H2.
  eapply runs_bind.
  { eapply SetDataSize_at. eapply buf_obj; [exact H2|done..]. }
  intros _ [o a3] [E H3]. cbn [fst snd] in E, H3; subst o.
  eapply runs_step; [apply rget_ok|]. eapply runs_step; [apply rput_ok|].
  rewrite uwrap_small by (simpl; lia).
  eapply runs_bind.
  { eapply SetRowCount_at. eapply buf_obj; [exact H3|done..]. }
  intros _ [o a4] [E H4]. cbn [fst snd] in E, H4; subst o. apply runs_ret. split; [done|].
  split; [by rewrite <- Hoff|]. replace (x ++ row ++ z) with (x ++ [op] ++ concat cells ++ z) by (by rewrite Hrow).
  exact H4.
Qed.

(** A row at the end of the data. *)
Lemma EncodeRow_append s u sz cnt meta key x slack stRow op cells row :
  let used := head_bytes sz cnt meta key ++ x in
  buf s u (used ++ slack) -> m_uiOffset s.1 = Zlen used -> m_uiDataSize s.1 = Zlen used ->
  row_def stRow = d -> stored_columns d (m_uchKeyIdx s.1) = Some ids -> mapM (cell_bytes stRow) ids = Some cells ->
  is_byte op -> row = row_bytes (SRow op cells) ->
  Zlen used + Zlen row < 2 ^ 32 -> 0 <= m_uiRowCnt s.1 < 2 ^ 32 - 1 ->
  runs (EncodeRow stRow op true) s (λ c s',
    (c = EC_NO_MEM ∧ Zlen slack < Zlen row ∧ s'.1 = set_m_uiNeedSize (Zlen used + Zlen row) s.1 ∧
       buf s' u (used ++ slack)) ∨
    (c = 0 ∧ ∃ h n slack', s'.1 = encoded (moved s.1 h n) (Zlen used + Zlen row) (Zlen row) ∧
       buf s' u (head_bytes (Zlen used + Zlen row) (m_uiRowCnt s.1 + 1) meta key ++ x ++ row ++ slack') ∧
       (Zlen row <= Zlen slack -> Zlen slack' = Zlen slack - Zlen row))).
Proof.
  intros used Hb Ho Hs Hd Hi Hm Hop Hrow Hlt Hc. unfold EncodeRow. eapply runs_step; [apply rget_ok|].
  rewrite <- Hd in Hi. rewrite (CalcRowSize_at stRow _ ids cells Hi Hm). rewrite Hd in Hi.
  eapply runs_step; [reflexivity|].
  assert (Zlen row = 1 + Zlen (concat cells)) as Hr by (rewrite Hrow; unfold row_bytes; simpl; lia).
  assert (0 < Zlen used) as Hu by (unfold used, head_bytes; rewrite !length_app; simpl; lia).
  rewrite uwrap_small, <- Hr by lia.
  eapply runs_bind; [apply (ExpandChunk_at s u used slack (Zlen row)); done || lia|].
  intros c [o a] [(-> & Hsl & E & H1)|(-> & h & n & slack' & E & H1 & Hn & Hsl)]; cbn [fst snd] in E; subst o.
  { apply runs_ret. left. done. }
  cbn [Z.eqb negb]. unfold used in H1. rewrite <- app_assoc in H1.
  assert (∃ y z, slack' = y ++ z ∧ length y = length row) as (y & z & -> & Hy).
  { exists (take (length row) slack'), (drop (length row) slack'). rewrite take_drop, length_take. split; [done|lia]. }
  eapply runs_mono.
  { apply (write_row_at (moved s.1 h n, a) u sz cnt meta key x y z stRow op cells row); done || (simpl; lia). }
  intros c s' (-> & E & H2). right. split; [done|]. exists h, n, z. simpl in E, H2. rewrite E. split; [by rewrite Ho|].
  rewrite Hs in H2. split; [done|]. intros Hle%Hsl. rewrite <- Hle, length_app. lia.
Qed.
End rep.
