(* ===== verification/RawSpec.v ===== *)
(** * RawSpec: [CRawData] implements a list of rows

    The operations of [src/cache/raw_data.cc] against the rows of the chunk:
    making and attaching one, inserting, reading, replacing and deleting rows,
    for any allocator that keeps the contract of [Mallocator].  An operation
    either reports why it could not be done and the rows stay, or the rows
    change as the operation says. *)

From stdpp Require Import list.
From S2P Require Import Prelude State Bitsop Value Protocol TableDef Field Mallocator RawData RawBuf RawRow RawRep.

#[local] Open Scope cint_scope.

Section ops.
Context {A : Type} `{MallocatorLaws A} (d : CTableDefinition) (ids : list Z).
Implicit Types (s : CRawData * A) (u : list block) (x y z key : list Z) (rows : list srow) (r : srow).

Abbreviation stored := (stored d ids).

(** A row value and the row [EncodeRow] makes of it. *)
Definition encodes (stRow : CRowValue) (cells : list (list Z)) : Prop :=
  row_def stRow = d ∧ mapM (cell_bytes stRow) ids = Some cells.

Lemma encodes_ok stRow cells op : encodes stRow cells -> is_byte op -> row_ok d ids (SRow op cells).
Proof. intros [<- Hm] Hop. split; [done|]. by apply mapM_is_cell. Qed.

Lemma Zlen_row r : 1 <= Zlen (row_bytes r).
Proof. unfold row_bytes. simpl. lia. Qed.
Lemma rows_bytes_zero rows : Zlen (rows_bytes rows) = 0 <-> rows = [].
Proof.
  split; [|by intros ->]. destruct rows as [|r rows]; [done|]. rewrite rows_bytes_cons, length_app.
  pose proof (Zlen_row r). lia.
Qed.

(** ** Inserting *)

Lemma EncodeRow_stored s u key rows stRow cells op :
  stored s u key rows -> m_uiOffset s.1 = pos key rows -> encodes stRow cells -> is_byte op ->
  let r := SRow op cells in pos key rows + Zlen (row_bytes r) < 2 ^ 32 ->
  runs (EncodeRow stRow op true) s (λ c s',
    (c = EC_NO_MEM ∧ _size s.1 < pos key (rows ++ [r]) ∧ stored s' u key rows ∧ m_uiNeedSize s'.1 = pos key (rows ++ [r]) ∧ _handle s'.1 = _handle s.1) ∨
    (c = 0 ∧ stored s' u key (rows ++ [r]) ∧ m_uiOffset s'.1 = pos key (rows ++ [r]) ∧
       (pos key (rows ++ [r]) <= _size s.1 -> _size s'.1 = _size s.1))).
Proof.
  intros Hs Ho [Hd Hm] Hop r Hlt. pose proof (stored_bounds _ _ _ _ _ _ Hs) as [_ Hc].
  destruct Hs as [Hi Hok [slack Hb] Hsz Hcnt Hst Hks Hgc Hts Hk]. rewrite app_assoc in Hb.
  assert (Zlen (head_bytes (pos key rows) (Zlen rows) (meta_bytes s.1) key ++ rows_bytes rows) = pos key rows) as Hu.
  { rewrite length_app, Nat2Z.inj_add, length_head by done. unfold pos. lia. }
  pose proof (Zlen_row r) as Hr1.
  assert (_size s.1 = pos key rows + Zlen slack) as Hsize by (rewrite (buf_size _ _ _ Hb), length_app; lia).
  rewrite !pos_snoc.
  eapply runs_mono.
  { apply (EncodeRow_append d ids s u (pos key rows) (Zlen rows) (meta_bytes s.1) key (rows_bytes rows) slack
             stRow op cells (row_bytes r)); rewrite ?Hu; done || lia. }
  rewrite Hu. intros c s' [(-> & Hsl & E & H1)|(-> & h & n & slack' & E & H1 & Hsl)].
  - left. split; [done|]. split; [lia|]. rewrite E. split; [|done]. constructor; rewrite ?E; try done. exists slack.
    by rewrite <- app_assoc in H1.
  - right. split; [done|]. split; [|split; [by rewrite E|]].
    2: { intros Hle. pose proof (buf_size _ _ _ H1) as Hsz'. rewrite !length_app, !Nat2Z.inj_add, length_head in Hsz' by done.
         unfold pos in *. lia. }
    constructor; rewrite ?E; try done.
    + apply Forall_app. split; [done|]. constructor; [|done]. by apply (encodes_ok stRow).
    + exists slack'. rewrite Hcnt in H1. rewrite pos_snoc, rows_bytes_app, <- app_assoc, length_app. simpl.
      rewrite app_nil_r, Nat2Z.inj_add. exact H1.
    + simpl. by rewrite Hsz, pos_snoc.
    + simpl. rewrite Hcnt, length_app. simpl. lia.
Qed.

Lemma pos_perm key rows rows' : rows ≡ₚ rows' -> pos key rows = pos key rows'.
Proof. intros Hp. unfold pos, rows_bytes. do 2 f_equal. apply Permutation_length. by rewrite Hp. Qed.

(** The rows [new] behind [rows] change places with them. *)
Lemma rotate_stored s u key rows new byFirst buf :
  stored s u key (rows ++ new) ->
  runs (rotate_rows (pos key rows) byFirst buf) s (λ c s', s'.1 = s.1 ∧
    ((c = 0 ∧ stored s' u key (if byFirst then new ++ rows else rows ++ new)) ∨
     (c = - ENOMEM ∧ byFirst = true ∧ buf = false ∧ rows ≠ [] ∧ new ≠ [] ∧ s' = s))).
Proof.
  intros Hs. pose proof (stored_bounds _ _ _ _ _ _ Hs) as [Hb _]. pose proof Hs as [Hi Hok [slack Hbuf] Hsz Hcnt Hst Hks Hgc Hts Hk].
  unfold rotate_rows. do 2 (eapply runs_step; [apply rget_ok|]). rewrite Hsz, Hst.
  rewrite pos_app in *. assert (16 + Zlen key <= pos key rows) as Hge by (unfold pos; lia).
  assert (pos key [] = 16 + Zlen key) as Hp0 by (unfold pos; simpl; lia).
  assert (pos key rows - pos key [] = Zlen (rows_bytes rows)) as Hold by (unfold pos; simpl; lia).
  rewrite !(uwrap_small 32) by lia. replace (pos key rows + Zlen (rows_bytes new) - pos key rows) with (Zlen (rows_bytes new)) by lia.
  rewrite Hold. destruct byFirst; cbn [andb].
  2: { apply runs_ret. split; [done|]. by left. }
  destruct (Z.ltb_spec 0 (Zlen (rows_bytes new))) as [Hn|Hn]; cbn [andb].
  2: { assert (new = []) as -> by (apply rows_bytes_zero; lia). apply runs_ret. split; [done|]. left. by rewrite app_nil_r in Hs. }
  destruct (Z.ltb_spec 0 (Zlen (rows_bytes rows))) as [Ho|Ho].
  2: { assert (rows = []) as -> by (apply rows_bytes_zero; lia). apply runs_ret. split; [done|]. left. by rewrite app_nil_r. }
  assert (rows ≠ [] ∧ new ≠ []) as [Hne1 Hne2] by (split; intros ->; simpl in *; lia).
  destruct buf; cbn [negb]; [|by apply runs_ret; split; [|right]].
  set (hd := head_bytes _ _ _ _) in Hbuf. assert (Zlen hd = pos key []) as Hhd by (rewrite Hp0; by apply length_head).
  rewrite rows_bytes_app, <- app_assoc in Hbuf.
  eapply runs_step.
  { apply (content_read_at s u (hd ++ rows_bytes rows) (rows_bytes new) slack); [by rewrite <- app_assoc| |lia].
    rewrite length_app, Nat2Z.inj_add. lia. }
  destruct (split_length (rows_bytes rows ++ rows_bytes new) (rows_bytes new) (rows_bytes rows)) as (P & Q & HPQ & HP & HQ).
  { rewrite !length_app. lia. }
  eapply runs_bind.
  { apply (content_move_at s u hd (rows_bytes rows) (rows_bytes new ++ slack) (hd ++ P) Q slack); try done.
    - by rewrite (app_assoc (rows_bytes rows)), HPQ, <- !app_assoc.
    - rewrite length_app, Nat2Z.inj_add. lia. }
  intros _ s1 [E1 H1]. rewrite <- app_assoc in H1.
  pose proof (buf_block _ _ _ Hbuf) as (_ & Hby & _).
  eapply runs_bind.
  { apply (content_write_at s1 u hd P _ (pos key []) (rows_bytes new) H1); [done|done|].
    unfold bytes in *. rewrite !Forall_app in Hby. tauto. }
  intros _ s2 [E2 H2]. apply runs_ret. split; [congruence|]. left. split; [done|].
  assert (pos key (new ++ rows) = pos key (rows ++ new)) as Hpp by (apply pos_perm, Permutation_app_comm).
  constructor; rewrite ?E2, ?E1, ?Hpp; try done.
  - apply Forall_app. apply Forall_app in Hok. tauto.
  - exists slack. rewrite rows_bytes_app, <- app_assoc. unfold hd in H2. rewrite <- pos_app in H2.
    rewrite length_app, Nat.add_comm, <- length_app. done.
  - by rewrite pos_app.
  - rewrite Hcnt, !length_app. lia.
Qed.

Lemma set_off_stored s u key rows off : stored s u key rows -> stored (set_m_uiOffset off s.1, s.2) u key rows.
Proof. intros [? ? [slack [? ? ?]] ? ? ? ? ? ? ?]. by constructor; try done; exists slack. Qed.

(** What [InsertRowFlag] promises; the row stays behind the others when the
    scratch buffer for moving it to the front cannot be had. *)
Definition inserted s u key rows new (byFirst buf : bool) (c : Z) s' : Prop :=
  (c = EC_NO_MEM ∧ stored s' u key rows ∧ m_uiNeedSize s'.1 = pos key (rows ++ new) ∧ _size s.1 < pos key (rows ++ new) ∧
     _handle s'.1 = _handle s.1) ∨
  (c = 0 ∧ stored s' u key (if byFirst then new ++ rows else rows ++ new)) ∨
  (c = - ENOMEM ∧ byFirst = true ∧ buf = false ∧ rows ≠ [] ∧ new ≠ [] ∧ stored s' u key (rows ++ new)).

Lemma InsertRowFlag_stored s u key rows stRow cells byFirst op buf :
  stored s u key rows -> encodes stRow cells -> is_byte op -> pos key (rows ++ [SRow op cells]) < 2 ^ 32 ->
  runs (InsertRowFlag stRow byFirst op buf) s (inserted s u key rows [SRow op cells] byFirst buf).
Proof.
  intros Hs He Hop Hlt. unfold InsertRowFlag. eapply runs_step; [apply rget_ok|]. eapply runs_step; [apply rput_ok|].
  rewrite (sd_size _ _ _ _ _ _ Hs).
  eapply runs_bind.
  { apply (EncodeRow_stored (set_m_uiOffset (pos key rows) s.1, s.2) u key rows); try done; [by apply set_off_stored|].
    by rewrite pos_snoc in Hlt. }
  intros c s1 [(-> & Hsz & H1 & Hn & Hh)|(-> & H1 & _)].
  - apply runs_ret. left. done.
  - cbn [Z.eqb negb]. eapply runs_mono; [by apply rotate_stored|].
    intros c s2 (_ & [(-> & H2)|(-> & -> & -> & ? & ? & ->)]); right; [by left|by right].
Qed.

Lemma rows_size_at rowvals cellss k op t :
  stored_columns d k = Some ids -> Forall2 encodes rowvals cellss -> 0 <= t < 2 ^ 32 ->
  rows_size rowvals k t = Some (t +u32 Zlen (rows_bytes (SRow op <$> cellss))).
Proof.
  intros Hk. revert cellss t. induction rowvals as [|v rowvals IH]; intros cellss t Hf Ht.
  { apply Forall2_nil_inv_l in Hf as ->. cbn. rewrite uwrap_small; [f_equal|]; lia. }
  apply Forall2_cons_inv_l in Hf as (c & cs & [Hd Hm] & Hf & ->). cbn [rows_size].
  rewrite (CalcRowSize_at v k ids c) by (by rewrite ?Hd). osimpl.
  rewrite (IH cs) by (done || apply uwrap_range; lia). f_equal. rewrite fmap_cons, rows_bytes_cons, length_app.
  assert (Zlen (row_bytes (SRow op c)) = 1 + Zlen (concat c)) by (unfold row_bytes; simpl; lia).
  unfold uwrap. rewrite Zplus_mod_idemp_r, Zplus_mod_idemp_l. f_equal. lia.
Qed.

(** The chunk of [stored], split behind its rows. *)
Lemma stored_used s u key rows :
  stored s u key rows -> ∃ slack,
    buf s u ((head_bytes (pos key rows) (Zlen rows) (meta_bytes s.1) key ++ rows_bytes rows) ++ slack) ∧
    Zlen (head_bytes (pos key rows) (Zlen rows) (meta_bytes s.1) key ++ rows_bytes rows) = pos key rows ∧
    _size s.1 = pos key rows + Zlen slack.
Proof.
  intros Hs. destruct (sd_buf _ _ _ _ _ _ Hs) as [slack Hb]. rewrite app_assoc in Hb. exists slack.
  assert (Zlen (head_bytes (pos key rows) (Zlen rows) (meta_bytes s.1) key ++ rows_bytes rows) = pos key rows) as Hu.
  { rewrite length_app, Nat2Z.inj_add, length_head by done. unfold pos. lia. }
  split_and!; [done|done|]. rewrite (buf_size _ _ _ Hb), length_app. lia.
Qed.

(** Another chunk with the same header and rows. *)
Lemma stored_moved s s' u key rows h n slack :
  stored s u key rows -> s'.1 = moved s.1 h n ->
  buf s' u ((head_bytes (pos key rows) (Zlen rows) (meta_bytes s.1) key ++ rows_bytes rows) ++ slack) ->
  stored s' u key rows.
Proof.
  intros [] E Hb. constructor; rewrite ?E; try done. exists slack. by rewrite <- app_assoc in Hb.
Qed.

Lemma need_stored s s' u key rows n slack :
  stored s u key rows -> s'.1 = set_m_uiNeedSize n s.1 ->
  buf s' u ((head_bytes (pos key rows) (Zlen rows) (meta_bytes s.1) key ++ rows_bytes rows) ++ slack) ->
  stored s' u key rows.
Proof.
  intros [] E Hb. constructor; rewrite ?E; try done. exists slack. by rewrite <- app_assoc in Hb.
Qed.

Lemma ExpandChunk_stored s u key rows n :
  stored s u key rows -> 0 <= n -> pos key rows + n < 2 ^ 32 ->
  runs (ExpandChunk n) s (λ c s', stored s' u key rows ∧
    ((c = EC_NO_MEM ∧ m_uiNeedSize s'.1 = pos key rows + n ∧ _size s.1 < pos key rows + n ∧ _handle s'.1 = _handle s.1) ∨
     (c = 0 ∧ pos key rows + n <= _size s'.1 ∧ ∃ h sz, s'.1 = moved s.1 h sz))).
Proof.
  intros Hs Hn Hlt. destruct (stored_used _ _ _ _ Hs) as (slack & Hb & Hu & Hsz).
  pose proof (stored_bounds _ _ _ _ _ _ Hs) as [Hpos _]. pose proof (sd_size _ _ _ _ _ _ Hs) as Hd.
  eapply runs_mono; [apply (ExpandChunk_at _ _ _ _ n Hb); rewrite ?Hu; done || lia|]. rewrite Hu.
  intros c s' [(-> & Hsl & E & H1)|(-> & h & sz & slack' & E & H1 & Hn' & _)].
  - split; [by eapply need_stored|]. left. rewrite E. simpl. split_and!; [done|done|lia|done].
  - split; [by eapply stored_moved|]. right. split_and!; [done| |by exists h, sz].
    rewrite (buf_size _ _ _ H1), length_app. lia.
Qed.

Lemma encode_rows_stored s u key rows rowvals cellss op :
  stored s u key rows -> m_uiOffset s.1 = pos key rows -> Forall2 encodes rowvals cellss -> is_byte op ->
  pos key (rows ++ (SRow op <$> cellss)) <= _size s.1 -> _size s.1 < 2 ^ 32 ->
  runs (encode_rows rowvals op) s (λ c s', c = 0 ∧ stored s' u key (rows ++ (SRow op <$> cellss))).
Proof.
  intros Hs Ho Hf Hop Hsz Hlt. revert rows s cellss Hs Ho Hf Hsz Hlt.
  induction rowvals as [|v rowvals IH]; intros rows s cellss Hs Ho Hf Hsz Hlt.
  { apply Forall2_nil_inv_l in Hf as ->. apply runs_ret. by rewrite app_nil_r. }
  apply Forall2_cons_inv_l in Hf as (c & cs & He & Hf & ->). cbn [encode_rows]. rewrite fmap_cons, cons_middle, app_assoc in *.
  rewrite pos_app in Hsz.
  eapply runs_bind; [apply (EncodeRow_stored s u key rows v c op Hs Ho He Hop); rewrite <- pos_snoc; lia|].
  intros c0 s1 [(-> & Hs1 & _)|(-> & H1 & Ho1 & Hsz1)]; [lia|]. cbn [Z.eqb negb].
  apply IH; try done; rewrite Hsz1 by lia; [rewrite pos_app|]; lia.
Qed.

Lemma InsertNRows_stored s u key rows rowvals cellss byFirst (isDirty buf : bool) :
  stored s u key rows -> Forall2 encodes rowvals cellss ->
  let new := SRow (if isDirty then OPER_INSERT else OPER_SELECT) <$> cellss in
  pos key (rows ++ new) < 2 ^ 32 ->
  runs (InsertNRows rowvals byFirst isDirty buf) s (inserted s u key rows new byFirst buf).
Proof.
  intros Hs Hf new Hlt. set (op := if isDirty then OPER_INSERT else OPER_SELECT) in *.
  assert (is_byte op) as Hop by (by destruct isDirty). pose proof (stored_bounds _ _ _ _ _ _ Hs) as [Hpos _].
  unfold InsertNRows. eapply runs_step; [apply rget_ok|].
  rewrite (rows_size_at rowvals cellss _ op) by (done || apply Hs). fold new. eapply runs_step; [reflexivity|].
  rewrite pos_app in Hlt. rewrite uwrap_small by lia. rewrite Z.add_0_l.
  eapply runs_bind; [apply (ExpandChunk_stored s u key rows _ Hs); lia|].
  intros c s1 (H1 & [(-> & Hnd & Hlt' & Hh)|(-> & Hroom & h & sz & E)]).
  { apply runs_ret. left. rewrite pos_app. done. }
  cbn [Z.eqb negb]. eapply runs_step; [apply rget_ok|]. eapply runs_step; [apply rput_ok|].
  rewrite (sd_size _ _ _ _ _ _ H1). destruct (sd_buf _ _ _ _ _ _ H1) as [sl Hb1].
  eapply runs_bind.
  { apply (encode_rows_stored _ u key rows rowvals cellss op); try done; [by apply set_off_stored|by rewrite pos_app|].
    simpl. rewrite (buf_size _ _ _ Hb1). by apply buf_block in Hb1 as (_ & _ & ?). }
  intros c s2 (-> & H2). cbn [Z.eqb negb]. fold new in H2. eapply runs_mono; [by apply rotate_stored|].
  intros c s3 (_ & [(-> & H3)|(-> & -> & -> & ? & ? & ->)]); right; [by left|by right].
Qed.

(** ** The current row *)

Lemma stored_at s u key pre r post :
  stored s u key (pre ++ r :: post) ->
  let hd := head_bytes (pos key (pre ++ r :: post)) (Zlen (pre ++ r :: post)) (meta_bytes s.1) key in
  ∃ slack, buf s u ((hd ++ rows_bytes pre) ++ row_bytes r ++ rows_bytes post ++ slack) ∧
    Zlen (hd ++ rows_bytes pre) = pos key pre ∧ row_ok d ids r ∧
    _handle s.1 ≠ 0 ∧ m_pchContent s.1 ≠ 0 ∧ pos key pre + Zlen (row_bytes r) <= pos key (pre ++ r :: post) < 2 ^ 32.
Proof.
  intros Hs hd. pose proof (stored_bounds _ _ _ _ _ _ Hs) as [Hpos _]. destruct Hs as [_ Hok [slack Hb] _ _ _ _ _ _ _].
  fold hd in Hb. exists slack. rewrite rows_bytes_app, rows_bytes_cons, <- !app_assoc in Hb.
  pose proof (buf_block _ _ _ Hb) as (Hh & _). pose proof (buf_content _ _ _ Hb) as Hc.
  split_and!; [by rewrite <- app_assoc| | |lia|lia| |lia].
  - rewrite length_app, Nat2Z.inj_add. unfold hd. rewrite length_head by done. unfold pos. lia.
  - rewrite Forall_app, Forall_cons in Hok. tauto.
  - rewrite pos_app, rows_bytes_cons, length_app. lia.
Qed.

Lemma not_init_false s : _handle s.1 ≠ 0 -> m_pchContent s.1 ≠ 0 -> (_handle s.1 =? 0) || (m_pchContent s.1 =? 0) = false.
Proof. intros. by apply orb_false_intro; apply Z.eqb_neq. Qed.

Lemma SkipRow_stored s u key pre r post stRow :
  stored s u key (pre ++ r :: post) -> m_uiRowOffset s.1 = pos key pre -> row_def stRow = d ->
  SkipRow stRow s = Some (0, (set_m_uiOffset (pos key (pre ++ [r])) s.1, s.2)).
Proof.
  intros Hs Ho Hd. destruct (stored_at _ _ _ _ _ _ Hs) as (slack & Hb & Hx & [_ Hc] & Hh & Hp & Hlt).
  set (x := _ ++ rows_bytes pre) in *. unfold SkipRow. mstep (rget_ok _handle s). mstep (rget_ok m_pchContent s).
  rewrite not_init_false by done. mstep (rget_ok m_uiRowOffset s). mstep (rput_ok (set_m_uiOffset (m_uiRowOffset s.1)) s).
  set (s1 := (set_m_uiOffset (m_uiRowOffset s.1) s.1, s.2)).
  mstep (rget_ok m_uiDataSize s1). simpl. rewrite (sd_size _ _ _ _ _ _ Hs), Ho.
  pose proof (Zlen_row r). destruct (Z.leb_spec (pos key (pre ++ r :: post)) (pos key pre)); [lia|].
  assert (buf s1 u (x ++ [sr_flag r] ++ concat (sr_cells r) ++ rows_bytes post ++ slack)) as Hb1 by (by destruct Hb).
  mstep (SKIP_SIZE_at s1 u x [sr_flag r] _ 64 1 Hb1 ltac:(cbn; trans (pos key pre); [exact Ho|by rewrite <- Hx]) eq_refl ltac:(lia)). cbn [negb].
  set (s2 := (set_m_uiOffset _ s1.1, s1.2)). mstep (rget_ok m_uchKeyIdx s2). rewrite app_assoc in Hb1.
  unfold columns. rewrite Hd.
  rewrite (step_bind _ _ _ _ _ (skip_fields_at s2 u d _ _ ids (x ++ [sr_flag r]) _ _ (sd_cols _ _ _ _ _ _ Hs) Hc
             ltac:(by destruct Hb1) eq_refl)).
  rewrite <- app_assoc. change ([sr_flag r] ++ concat (sr_cells r)) with (row_bytes r).
  rewrite length_app, Nat2Z.inj_add, Hx, <- pos_snoc. done.
Qed.

Lemma DecodeRow_stored s u key pre r post stRow f flag :
  stored s u key (pre ++ r :: post) -> m_uiOffset s.1 = pos key pre -> row_def stRow = d ->
  (∀ i, i ∈ ids -> is_Some (row_get stRow i)) ->
  ∃ row s', DecodeRow stRow f flag s = Some (0, sr_flag r, row, s') ∧
    row_def row = d ∧
    (∀ i c, (i, c) ∈ zip ids (sr_cells r) -> ∃ v, row_get row i = Some v ∧ cell_value d i c v) ∧
    (∀ i, i ∉ ids -> row_get row i = row_get stRow i) ∧
    stored s' u key (pre ++ r :: post) ∧
    (_handle s'.1 = _handle s.1 ∧ _size s'.1 = _size s.1) ∧
    m_uiLAOffset s'.1 = la_offset ids (sr_cells r) (m_iLAId s.1) (pos key pre + 1) 0 ∧
    (if Z.land flag PRE_DECODE_ROW =? 0
     then m_uiRowOffset s'.1 = pos key pre ∧ m_uiOffset s'.1 = pos key (pre ++ [r])
     else m_uiRowOffset s'.1 = m_uiRowOffset s.1 ∧ m_uiOffset s'.1 = m_uiOffset s.1) ∧
    (∀ p i v, ids !! p = Some i -> row_get row i = Some v ->
       cell_ptr d i (pos key pre + 1 + Zlen (concat (take p (sr_cells r)))) v).
Proof.
  intros Hs Ho Hd Hg. destruct (stored_at _ _ _ _ _ _ Hs) as (slack & Hb & Hx & [_ Hc] & Hh & Hp & Hlt).
  set (x := _ ++ rows_bytes pre) in *. unfold DecodeRow. mstep (rget_ok _handle s). mstep (rget_ok m_pchContent s).
  rewrite not_init_false by done. mstep (rget_ok m_uiOffset s). mstep (rget_ok m_uiRowOffset s).
  mstep (rput_ok (set_m_uiRowOffset (m_uiOffset s.1) ∘ set_m_uiLAOffset 0) s).
  set (s1 := (_, s.2)).
  assert (buf s1 u (x ++ [sr_flag r] ++ concat (sr_cells r) ++ rows_bytes post ++ slack)) as Hb1 by (by destruct Hb).
  mstep (GET_VALUE_at s1 u x [sr_flag r] _ 1 Hb1 ltac:(cbn; trans (pos key pre); [exact Ho|by rewrite <- Hx]) eq_refl).
  set (s2 := (set_m_uiOffset _ s1.1, s1.2)). mstep (rget_ok m_uchKeyIdx s2). rewrite app_assoc in Hb1.
  destruct (decode_fields_at s2 u stRow (m_uchKeyIdx s2.1 + 1) (columns stRow (m_uchKeyIdx s2.1)) ids (x ++ [sr_flag r])
              (sr_cells r) (rows_bytes post ++ slack)) as (row & Hrun & Hdr & Hin & Hout & Hptr).
  - unfold columns. rewrite Hd. apply (sd_cols _ _ _ _ _ _ Hs).
  - by rewrite Hd.
  - done.
  - by destruct Hb1.
  - done.
  - mstep Hrun. rewrite Hd in *. assert (le_value [sr_flag r] = sr_flag r) as -> by (simpl; lia).
    set (s3 := (set_m_uiOffset _ _, s2.2)).
    assert (stored s3 u key (pre ++ r :: post)) as Hs3.
    { destruct Hs as [? ? [sl [? ? ?]] ? ? ? ? ? ? ?]. by constructor; try done; exists sl. }
    assert (m_uiOffset s3.1 = pos key (pre ++ [r])) as Ho3.
    { unfold s3. cbn [fst m_uiOffset set_m_uiOffset]. rewrite <- app_assoc.
      change ([sr_flag r] ++ concat (sr_cells r)) with (row_bytes r).
      by rewrite length_app, Nat2Z.inj_add, Hx, <- pos_snoc. }
    assert (m_uiLAOffset s3.1 = la_offset ids (sr_cells r) (m_iLAId s.1) (pos key pre + 1) 0) as Hla.
    { unfold s3. cbn [fst m_uiLAOffset set_m_uiLAOffset set_m_uiOffset]. rewrite length_app, Nat2Z.inj_add, Hx. done. }
    rewrite length_app, Nat2Z.inj_add, Hx in Hptr. change (Zlen [sr_flag r]) with 1 in Hptr.
    unfold when_. destruct (Z.land flag PRE_DECODE_ROW =? 0); simpl.
    + exists row, s3. split_and!; try done.
    + eexists row, _. split_and!; [reflexivity|done..| |done|done|done|done|done|done].
      destruct Hs3 as [? ? [sl [? ? ?]] ? ? ? ? ? ? ?]. by constructor; try done; exists sl.
Qed.

Lemma stored_head s s' u key rows rows' meta slack :
  stored s u key rows -> m_uchKeyIdx s'.1 = m_uchKeyIdx s.1 -> Forall (row_ok d ids) rows' ->
  buf s' u (head_bytes (m_uiDataSize s'.1) (m_uiRowCnt s'.1) meta key ++ rows_bytes rows' ++ slack) ->
  m_uiDataSize s'.1 = pos key rows' -> m_uiRowCnt s'.1 = Zlen rows' -> meta = meta_bytes s'.1 ->
  m_uiDataStart s'.1 = m_uiDataStart s.1 -> m_uiKeyStart s'.1 = m_uiKeyStart s.1 ->
  m_uiGetCountOffset s'.1 = m_uiGetCountOffset s.1 -> m_uiTimeStampOffSet s'.1 = m_uiTimeStampOffSet s.1 ->
  m_iKeySize s'.1 = m_iKeySize s.1 -> stored s' u key rows'.
Proof.
  intros Hs Hki Hok Hb E1 E2 -> E3 E4 E5 E6 E7. destruct Hs.
  constructor; rewrite ?Hki, ?E3, ?E4, ?E5, ?E6, ?E7; try done. exists slack. by rewrite <- E1, <- E2.
Qed.

Lemma DeleteCurRow_stored s u key pre r post stRow :
  stored s u key (pre ++ r :: post) -> m_uiRowOffset s.1 = pos key pre -> row_def stRow = d ->
  runs (DeleteCurRow stRow) s (λ c s', c = 0 ∧ stored s' u key (pre ++ post) ∧
    m_uiOffset s'.1 = pos key pre ∧ m_uiRowOffset s'.1 = pos key pre ∧ _handle s'.1 = _handle s.1 ∧ _size s'.1 = _size s.1).
Proof.
  intros Hs Ho Hd. destruct (stored_at _ _ _ _ _ _ Hs) as (slack & Hb & Hx & _ & Hh & Hp & Hlt).
  set (hd := head_bytes _ _ _ _) in *. unfold DeleteCurRow. eapply runs_step; [apply rget_ok|].
  eapply runs_step; [by eapply SkipRow_stored|]. cbn [Z.eqb negb].
  do 3 (eapply runs_step; [apply rget_ok|]). simpl. rewrite Ho, (sd_size _ _ _ _ _ _ Hs).
  assert (pos key (pre ++ [r]) = pos key pre + Zlen (row_bytes r)) as Hpr by apply pos_snoc.
  assert (pos key (pre ++ r :: post) = pos key (pre ++ [r]) + Zlen (rows_bytes post)) as Hpp by (by rewrite <- pos_app, <- app_assoc).
  assert (0 <= pos key pre) by (unfold pos; lia).
  rewrite (uwrap_small 32 (pos key (pre ++ r :: post) - pos key (pre ++ [r]))) by lia.
  replace (pos key (pre ++ r :: post) - pos key (pre ++ [r])) with (Zlen (rows_bytes post)) by lia.
  destruct (split_length (row_bytes r ++ rows_bytes post) (rows_bytes post) (row_bytes r)) as (P & Q & HPQ & HP & HQ).
  { rewrite !length_app. lia. }
  eapply runs_bind.
  { apply (content_move_at (set_m_uiOffset (pos key (pre ++ [r])) s.1, s.2) u ((hd ++ rows_bytes pre) ++ row_bytes r) (rows_bytes post) slack
             (hd ++ rows_bytes pre) P (Q ++ slack)); try done.
    - rewrite <- app_assoc. by destruct Hb.
    - by rewrite <- app_assoc, (app_assoc (row_bytes r)), HPQ, <- !app_assoc.
    - rewrite length_app. lia. }
  intros _ [o a] [E H1]. cbn [fst snd] in E; subst o. eapply runs_step; [apply rput_ok|]. eapply runs_step; [apply rget_ok|].
  eapply runs_step; [apply rput_ok|]. simpl. rewrite (sd_cnt _ _ _ _ _ _ Hs).
  pose proof (stored_bounds _ _ _ _ _ _ Hs) as [Hpos Hrows].
  assert (Zlen (pre ++ r :: post) = Zlen (pre ++ post) + 1) as Hcnt by (rewrite !length_app; simpl; lia).
  rewrite (uwrap_small 32 (pos key (pre ++ [r]) - pos key pre)) by lia.
  replace (pos key (pre ++ r :: post) - (pos key (pre ++ [r]) - pos key pre)) with (pos key (pre ++ post)) by (rewrite (pos_app _ pre post); lia).
  assert (0 <= pos key (pre ++ post) < 2 ^ 32) as Hpn by (rewrite pos_app; lia).
  rewrite !(uwrap_small 32) by lia.
  replace (Zlen (pre ++ r :: post) - 1) with (Zlen (pre ++ post)) by lia.
  eapply (set_header_at _ u _ _ _ key (rows_bytes (pre ++ post) ++ Q ++ slack)).
  { rewrite rows_bytes_app, <- app_assoc. rewrite <- (app_assoc hd) in H1. eapply buf_obj; [exact H1|done..]. }
  intros [o a'] E H2. cbn [fst snd] in E; subst o. eapply runs_step; [apply rput_ok|]. apply runs_ret. split; [done|].
  split; [|split_and!; [done|exact Ho|done|done]].
  eapply (stored_head s _ u key _ (pre ++ post) (meta_bytes s.1) (Q ++ slack)); [exact Hs|done| | |done..].
  - pose proof (sd_rows _ _ _ _ _ _ Hs) as Hok. rewrite !Forall_app, Forall_cons in *. tauto.
  - eapply buf_obj; [exact H2|done..].
Qed.

(** ** Replacing the current row *)

Lemma drop_cur_at s u sz cnt key z n :
  buf s u (head_bytes sz cnt (meta_bytes s.1) key ++ z) -> 0 <= n <= m_uiDataSize s.1 -> m_uiDataSize s.1 < 2 ^ 32 ->
  0 < m_uiRowCnt s.1 < 2 ^ 32 ->
  runs (drop_cur n) s (λ c s', c = 0 ∧
    s'.1 = set_m_uiDataSize (m_uiDataSize s.1 - n) (set_m_uiRowCnt (m_uiRowCnt s.1 - 1) s.1) ∧
    buf s' u (head_bytes (m_uiDataSize s.1 - n) (m_uiRowCnt s.1 - 1) (meta_bytes s.1) key ++ z)).
Proof.
  intros Hb Hn Hd Hc. unfold drop_cur. eapply runs_step; [apply rget_ok|]. eapply runs_step; [apply rput_ok|].
  eapply runs_step; [apply rget_ok|]. eapply runs_step; [apply rput_ok|]. cbn [fst snd].
  rewrite !uwrap_small by (simpl; lia).
  eapply (set_header_at _ u sz cnt (meta_bytes s.1) key z); [by destruct Hb|].
  intros s' E H1. apply runs_ret. split; [done|]. by rewrite E.
Qed.

(** [r'] written over [y], the place made for it, and the old row, of [n]
    bytes, taken off the header. *)
Lemma write_cur s u key pre r post stRow op cells y z :
  let rows := pre ++ r :: post in let r' := SRow op cells in let hd := head_bytes (pos key rows) (Zlen rows) (meta_bytes s.1) key in
  buf s u (hd ++ rows_bytes pre ++ y ++ z) -> m_uiOffset s.1 = pos key pre -> encodes stRow cells -> is_byte op ->
  stored_columns d (m_uchKeyIdx s.1) = Some ids -> length y = length (row_bytes r') ->
  m_uiDataSize s.1 = pos key rows -> m_uiRowCnt s.1 = Zlen rows -> pos key rows + Zlen (row_bytes r') < 2 ^ 32 ->
  runs (EncodeRow stRow op false) s (λ c s', c = 0 ∧
    s'.1 = encoded s.1 (pos key (pre ++ [r'])) (Zlen (row_bytes r')) ∧
    buf s' u (head_bytes (pos key rows + Zlen (row_bytes r')) (Zlen rows + 1) (meta_bytes s.1) key ++
              rows_bytes pre ++ row_bytes r' ++ z)).
Proof.
  intros rows r' hd Hb Ho [Hd Hm] Hop Hi Hy Hsz Hcnt Hlt. unfold EncodeRow. eapply runs_step; [apply rget_ok|].
  assert (Zlen (row_bytes r') = 1 + Zlen (concat cells)) as Hr by (unfold row_bytes; simpl; lia).
  assert (0 <= pos key rows ∧ Zlen rows < pos key rows) as [? ?] by (unfold pos; pose proof (rows_le rows); lia).
  rewrite <- Hd in Hi. rewrite (CalcRowSize_at stRow _ ids cells Hi Hm). rewrite Hd in Hi.
  do 2 (eapply runs_step; [reflexivity|]). cbn [Z.eqb negb]. rewrite uwrap_small, <- Hr by lia.
  eapply runs_mono.
  { apply (write_row_at d ids s u _ _ _ key _ y z stRow op cells (row_bytes r') Hb); try done; try lia.
    fold hd. rewrite Ho, length_app, Nat2Z.inj_add. unfold hd. rewrite length_head by done. unfold pos. lia. }
  intros c s' (-> & E & H2). split; [done|]. rewrite Ho, <- pos_snoc in E. rewrite Hsz, Hcnt in H2. done.
Qed.

Definition replaced s u key pre r post r' (buf : bool) (c : Z) s' : Prop :=
  let rows := pre ++ r :: post in
  (c = EC_NO_MEM ∧ stored s' u key rows ∧ Zlen (row_bytes r) < Zlen (row_bytes r') ∧
     m_uiNeedSize s'.1 = pos key (pre ++ r' :: post) ∧ m_uiRowOffset s'.1 = m_uiRowOffset s.1 ∧ m_uiOffset s'.1 = m_uiOffset s.1 ∧ _handle s'.1 = _handle s.1) ∨
  (c = - ENOMEM ∧ stored s' u key rows ∧ buf = false ∧ Zlen (row_bytes r') <= Zlen (row_bytes r) ∧
     m_uiRowOffset s'.1 = m_uiRowOffset s.1) ∨
  (c = 0 ∧ stored s' u key (pre ++ r' :: post) ∧
     m_uiRowOffset s'.1 = pos key pre ∧ m_uiOffset s'.1 = pos key (pre ++ [r'])).

Lemma pos_mid key pre r r' post :
  pos key (pre ++ r' :: post) = pos key (pre ++ r :: post) + Zlen (row_bytes r') - Zlen (row_bytes r).
Proof. rewrite !pos_app, !rows_bytes_cons, !length_app. lia. Qed.

Lemma replace_longer_stored s u key pre r post stRow cells op old :
  stored s u key (pre ++ r :: post) -> m_uiRowOffset s.1 = pos key pre -> m_uiOffset s.1 = pos key (pre ++ [r]) ->
  encodes stRow cells -> is_byte op -> let r' := SRow op cells in
  Zlen (row_bytes r) < Zlen (row_bytes r') -> pos key (pre ++ r :: post) + Zlen (row_bytes r') < 2 ^ 32 ->
  runs (replace_longer stRow op (Zlen (row_bytes r')) (Zlen (row_bytes r)) (pos key (pre ++ [r])) (Zlen (rows_bytes post)) old) s
    (replaced (set_m_uiOffset old s.1, s.2) u key pre r post r' true).
Proof.
  intros Hs Hro Ho He Hop r' Hlong Hlt. set (rows := pre ++ r :: post) in *.
  destruct (stored_used _ _ _ _ Hs) as (slack & Hb & Hu & Hsize). pose proof (stored_bounds _ _ _ _ _ _ Hs) as [Hpos _].
  set (hd := head_bytes _ _ _ _) in *. pose proof (pos_mid key pre r r' post) as Hp'. fold rows in Hp'.
  unfold replace_longer. do 3 (eapply runs_step; [apply rget_ok|]). rewrite (sd_size _ _ _ _ _ _ Hs), Hro.
  pose proof (Zlen_row r).
  rewrite (uwrap_small 32 (pos key rows + _)), (uwrap_small 32 (Zlen (row_bytes r') - _)), (uwrap_small 32 (_ + _ - _)) by lia.
  eapply runs_bind; [apply (realloc_at s u _ slack (pos key rows + Zlen (row_bytes r') - Zlen (row_bytes r)) Hb); lia|].
  intros h s1 (E & [[-> Ha]|(Hh0 & bs & Ha & Hl & Hbs)]).
  { simpl. eapply runs_step; [apply rput_ok|]. apply runs_ret. left. rewrite E. split; [done|]. split.
    - apply (stored_head s _ u key rows rows (meta_bytes s.1) slack); try done; [apply Hs| |apply Hs..].
      simpl. rewrite (sd_size _ _ _ _ _ _ Hs), (sd_cnt _ _ _ _ _ _ Hs), app_assoc.
      destruct Hb as [H1 H2 H3]. by split.
    - simpl. split_and!; done || lia. }
  destruct (Z.eqb_spec h 0); [done|]. destruct (Hbs ltac:(rewrite Hu; lia)) as [slack' ->].
  eapply runs_bind; [by apply take_handle_at|]. intros _ s2 [E2 Hb2]. rewrite E in E2.
  unfold rows in Hb2. rewrite rows_bytes_app, rows_bytes_cons, <- !app_assoc in Hb2.
  assert (∃ Y W Z, row_bytes r ++ rows_bytes post ++ slack' = Y ++ W ++ Z ∧ length Y = length (row_bytes r') ∧
            length W = length (rows_bytes post)) as (Y & W & Z & HYZ & HY & HW).
  { set (l := _ ++ _ ++ slack'). set (k := length (row_bytes r')).
    assert (Zlen l = Zlen (row_bytes r) + Zlen (rows_bytes post) + Zlen slack') as Hll by (unfold l; rewrite !length_app; lia).
    rewrite length_app, Nat2Z.inj_add, Hu in Hl.
    exists (take k l), (take (length (rows_bytes post)) (drop k l)), (drop (length (rows_bytes post)) (drop k l)).
    rewrite !take_drop. rewrite !length_take, length_drop. split_and!; [done|lia|lia]. }
  assert (Zlen (hd ++ rows_bytes pre) = pos key pre) as Hx.
  { rewrite length_app, Nat2Z.inj_add. unfold hd. rewrite length_head by done. unfold pos. lia. }
  eapply runs_bind with (Q := λ _ s3, s3.1 = s2.1 ∧ buf s3 u (hd ++ rows_bytes pre ++ Y ++ rows_bytes post ++ Z)).
  { destruct (Z.ltb_spec 0 (Zlen (rows_bytes post))) as [Hpo|Hpo].
    - cbn [when_]. eapply runs_mono.
      { apply (content_move_at s2 u (hd ++ rows_bytes pre ++ row_bytes r) (rows_bytes post) slack' (hd ++ rows_bytes pre ++ Y) W Z).
        - by rewrite <- !app_assoc.
        - rewrite <- !app_assoc. by rewrite HYZ.
        - rewrite app_assoc, length_app, Nat2Z.inj_add, Hx, pos_snoc. lia.
        - rewrite app_assoc, length_app, Nat2Z.inj_add, Hx, pos_snoc. lia.
        - done.
        - done. }
      intros _ s3 [? ?]. rewrite <- !app_assoc in *. done.
    - apply runs_ret. split; [done|]. destruct (rows_bytes post); [|simpl in *; lia]. destruct W; [|done].
      simpl in *. by rewrite <- HYZ. }
  intros _ s3 [E3 Hb3]. eapply runs_step; [apply rput_ok|].
  assert (s3.1 = moved s.1 h (Zlen ((hd ++ rows_bytes rows) ++ slack'))) as Es3 by congruence.
  eapply runs_bind.
  { apply (write_cur (set_m_uiOffset (pos key pre) s3.1, s3.2) u key pre r post stRow op cells Y (rows_bytes post ++ Z)); try done.
    - fold rows. replace (meta_bytes _) with (meta_bytes s.1) by (cbn [fst]; by rewrite Es3). fold hd. by destruct Hb3.
    - cbn [fst]. rewrite Es3. apply (sd_cols _ _ _ _ _ _ Hs).
    - cbn [fst]. rewrite Es3. apply (sd_size _ _ _ _ _ _ Hs).
    - cbn [fst]. rewrite Es3. apply (sd_cnt _ _ _ _ _ _ Hs). }
  intros c s4 (-> & E4 & Hb4). cbn [Z.eqb negb]. cbn [fst] in E4, Hb4. rewrite Es3 in E4, Hb4. fold rows r' in E4, Hb4.
  pose proof (sd_size _ _ _ _ _ _ Hs) as Hsz. pose proof (sd_cnt _ _ _ _ _ _ Hs) as Hcnt.
  pose proof (stored_bounds _ _ _ _ _ _ Hs) as [_ Hrc].
  assert (m_uiDataSize s4.1 = pos key rows + Zlen (row_bytes r')) as Hd4 by (rewrite E4; simpl; lia).
  assert (m_uiRowCnt s4.1 = Zlen rows + 1) as Hc4 by (rewrite E4; simpl; lia).
  eapply runs_mono.
  { eapply (drop_cur_at s4 u _ _ key _ (Zlen (row_bytes r))); [|lia|lia|lia].
    replace (meta_bytes s4.1) with (meta_bytes s.1) by (by rewrite E4). exact Hb4. }
  intros c s5 (-> & E5 & Hb5). right. right. split; [done|].
  replace (meta_bytes s4.1) with (meta_bytes s.1) in Hb5 by (by rewrite E4).
  assert (Zlen (pre ++ r' :: post) = Zlen rows) as Hrows' by (unfold rows; rewrite !length_app; simpl; lia).
  split; [|rewrite E5, E4; simpl; by rewrite Hro].
  apply (stored_head s _ u key rows _ (meta_bytes s.1) Z Hs); rewrite ?E5; cbn [m_uiDataSize m_uiRowCnt set_m_uiDataSize set_m_uiRowCnt];
    rewrite ?E4; try done; [| |rewrite <- E4; lia|rewrite <- E4; lia].
  - pose proof (sd_rows _ _ _ _ _ _ Hs) as Hok. unfold rows in Hok. rewrite !Forall_app, !Forall_cons in *.
    split; [tauto|]. split; [by apply (encodes_ok stRow)|tauto].
  - rewrite <- E4, rows_bytes_app, rows_bytes_cons, <- !app_assoc. exact Hb5.
Qed.

Lemma replace_shorter_stored s u key pre r post stRow cells op old buf :
  stored s u key (pre ++ r :: post) -> m_uiRowOffset s.1 = pos key pre -> m_uiOffset s.1 = pos key (pre ++ [r]) ->
  encodes stRow cells -> is_byte op -> let r' := SRow op cells in
  Zlen (row_bytes r') <= Zlen (row_bytes r) -> pos key (pre ++ r :: post) + Zlen (row_bytes r') < 2 ^ 32 ->
  runs (replace_shorter stRow op (Zlen (row_bytes r')) (Zlen (row_bytes r)) (pos key (pre ++ [r])) (Zlen (rows_bytes post)) old buf) s
    (replaced (set_m_uiOffset old s.1, s.2) u key pre r post r' buf).
Proof.
  intros Hs Hro Ho He Hop r' Hshort Hlt. unfold replace_shorter.
  destruct buf; cbn [negb]. 2: { apply runs_ret. right. left. done. }
  set (rows := pre ++ r :: post) in *. pose proof (stored_bounds _ _ _ _ _ _ Hs) as [Hpos Hrc].
  pose proof (sd_size _ _ _ _ _ _ Hs) as Hsz. pose proof (sd_cnt _ _ _ _ _ _ Hs) as Hcnt.
  destruct (sd_buf _ _ _ _ _ _ Hs) as [slack Hb]. set (hd := head_bytes _ _ _ _) in *.
  pose proof (pos_mid key pre r r' post) as Hp'. fold rows in Hp'.
  assert (∀ sz cnt, Zlen (head_bytes sz cnt (meta_bytes s.1) key ++ rows_bytes pre) = pos key pre) as Hx.
  { intros. rewrite length_app, Nat2Z.inj_add, length_head by done. unfold pos. lia. }
  assert (pos key rows = pos key (pre ++ [r]) + Zlen (rows_bytes post)) as Hpp by (unfold rows; by rewrite <- pos_app, <- app_assoc).
  unfold rows in Hb. rewrite rows_bytes_app, rows_bytes_cons, <- !app_assoc in Hb.
  eapply runs_step; [apply rget_ok|]. rewrite Hro.
  eapply runs_step; [apply (content_read_at s u (hd ++ rows_bytes pre) (row_bytes r) (rows_bytes post ++ slack));
                       [by rewrite <- app_assoc|unfold hd; by rewrite Hx|lia]|].
  eapply runs_step; [apply rput_ok|].
  assert (∃ y w, row_bytes r = y ++ w ∧ length y = length (row_bytes r')) as (y & w & Hyw & Hy).
  { exists (take (length (row_bytes r')) (row_bytes r)), (drop (length (row_bytes r')) (row_bytes r)).
    rewrite take_drop, length_take. split; [done|lia]. }
  eapply runs_bind.
  { apply (write_cur (set_m_uiOffset (pos key pre) s.1, s.2) u key pre r post stRow op cells y (w ++ rows_bytes post ++ slack)); try done.
    - fold rows hd. rewrite Hyw, <- app_assoc in Hb. by destruct Hb.
    - apply Hs. }
  intros c s1 (-> & E1 & H1). cbn [Z.eqb negb]. cbn [fst] in E1, H1. fold rows r' in E1, H1.
  change (meta_bytes _) with (meta_bytes s.1) in H1. set (hd' := head_bytes _ _ _ _) in H1.
  eapply runs_step; [apply rget_ok|].
  assert (m_uiOffset s1.1 = pos key (pre ++ [r'])) as Ho1 by (by rewrite E1). rewrite Ho1.
  assert (∃ z, runs (when_ ((0 <? Zlen (rows_bytes post)) && negb (pos key (pre ++ [r']) =? pos key (pre ++ [r])))
            (content_move (pos key (pre ++ [r'])) (pos key (pre ++ [r])) (Zlen (rows_bytes post)))) s1
            (λ _ s2, s2.1 = s1.1 ∧ RawBuf.buf s2 u ((hd' ++ rows_bytes pre ++ row_bytes r' ++ rows_bytes post) ++ z))) as (z & Hmove).
  { rewrite (Z.eqb_sym (pos _ _)), !pos_snoc. destruct (Z.ltb_spec 0 (Zlen (rows_bytes post))) as [Hpo|Hpo]; cbn [andb].
    2: { destruct (rows_bytes post) eqn:Hep; [|simpl in Hpo; lia]. exists (w ++ slack). apply runs_ret. split; [done|].
         rewrite app_nil_r, <- !app_assoc in *. done. }
    destruct (Z.eqb_spec (pos key pre + Zlen (row_bytes r)) (pos key pre + Zlen (row_bytes r'))) as [Heq|Hne]; cbn [negb when_].
    - exists slack. apply runs_ret. split; [done|]. assert (w = []) as ->.
      { apply (f_equal length) in Hyw. rewrite length_app in Hyw. destruct w; [done|simpl in *; lia]. }
      rewrite <- !app_assoc. done.
    - destruct (split_length (w ++ rows_bytes post) (rows_bytes post) w) as (P & Q & HPQ & HP & HQ).
      { rewrite !length_app. lia. }
      exists (Q ++ slack). eapply runs_mono.
      { apply (content_move_at s1 u (hd' ++ rows_bytes pre ++ row_bytes r' ++ w) (rows_bytes post) slack
                 (hd' ++ rows_bytes pre ++ row_bytes r') P (Q ++ slack)).
        - rewrite <- !app_assoc. done.
        - rewrite <- !app_assoc. do 3 f_equal. by rewrite (app_assoc w), HPQ, <- app_assoc.
        - rewrite !app_assoc, <- app_assoc, length_app, Nat2Z.inj_add. unfold hd'. rewrite Hx.
          apply (f_equal length) in Hyw. rewrite length_app in *. lia.
        - rewrite app_assoc, length_app, Nat2Z.inj_add. unfold hd'. by rewrite Hx.
        - done.
        - done. }
      intros _ s2 [? ?]. rewrite <- !app_assoc in *. done. }
  eapply runs_bind; [exact Hmove|]. intros _ s2 [E2 H2]. rewrite E1 in E2.
  do 2 (eapply runs_step; [apply rget_ok|]).
  assert (m_uiDataSize s2.1 = pos key rows + Zlen (row_bytes r')) as Hd2 by (rewrite E2; simpl; lia).
  pose proof (Zlen_row r). pose proof (Zlen_row r').
  assert (Zlen (row_bytes r) <= pos key rows) as Hrr by (unfold rows; rewrite pos_app, rows_bytes_cons, length_app; unfold pos; lia).
  assert ((m_uiDataSize s2.1 +u32 Zlen (row_bytes r')) -u32 Zlen (row_bytes r) =
          pos key rows + Zlen (row_bytes r') + Zlen (row_bytes r') - Zlen (row_bytes r)) as Hneed.
  { rewrite Hd2. unfold uwrap. rewrite Zminus_mod_idemp_l. apply Z.mod_small.
    lia. }
  rewrite Hneed.
  assert (Zlen (hd' ++ rows_bytes pre ++ row_bytes r' ++ rows_bytes post) = pos key (pre ++ r' :: post)) as Hused.
  { rewrite app_assoc, length_app, Nat2Z.inj_add. unfold hd'. rewrite Hx, pos_app, rows_bytes_cons. done. }
  eapply runs_bind; [apply (realloc_at s2 u _ z (pos key rows + Zlen (row_bytes r') + Zlen (row_bytes r') - Zlen (row_bytes r)) H2); lia|].
  intros h s3 (E3 & Hor).
  eapply runs_bind with (Q := λ _ s4, (∃ h n, s4.1 = moved s2.1 h n) ∧
    ∃ z', RawBuf.buf s4 u (hd' ++ rows_bytes pre ++ row_bytes r' ++ rows_bytes post ++ z')).
  { destruct Hor as [[-> Ha]|(Hh0 & bs & Ha & Hl & Hbs)]; cbn [Z.eqb negb when_].
    - apply runs_ret. split.
      + exists (_handle s3.1), (_size s3.1). rewrite E3. eapply moved_same. exact H2.
      + exists z. rewrite <- !app_assoc in *. destruct H2 as [Hc2 Hn2 _]. split; rewrite E3; done.
    - destruct (Z.eqb_spec h 0); [done|]. cbn [negb when_]. destruct (Hbs ltac:(lia)) as [z' ->].
      eapply runs_mono; [by apply take_handle_at|]. intros _ s4 [E4 H4]. split.
      + eexists _, _. rewrite E4, E3. done.
      + exists z'. by rewrite <- !app_assoc in *. }
  intros _ s4 [(h4 & n4 & E4) (z' & H4)].
  assert (meta_bytes s4.1 = meta_bytes s.1) as Hmeta by (by rewrite E4, E2).
  assert (m_uiDataSize s4.1 = pos key rows + Zlen (row_bytes r')) as Hd4 by (rewrite E4; exact Hd2).
  assert (m_uiRowCnt s4.1 = Zlen rows + 1) as Hc4 by (rewrite E4, E2; simpl; lia).
  eapply runs_mono.
  { eapply (drop_cur_at s4 u _ _ key _ (Zlen (row_bytes r))); [rewrite Hmeta; exact H4|lia..]. }
  intros c s5 (-> & E5 & Hb5). right. right. split; [done|]. rewrite Hmeta in Hb5.
  assert (Zlen (pre ++ r' :: post) = Zlen rows) as Hrows' by (unfold rows; rewrite !length_app; simpl; lia).
  split; [|rewrite E5, E4, E2; simpl; by rewrite Hro].
  apply (stored_head s _ u key rows _ (meta_bytes s.1) z' Hs); rewrite ?E5; cbn [m_uiDataSize m_uiRowCnt set_m_uiDataSize set_m_uiRowCnt];
    rewrite ?E4, ?E2; try done.
  - pose proof (sd_rows _ _ _ _ _ _ Hs) as Hok. unfold rows in Hok. rewrite !Forall_app, !Forall_cons in *.
    split; [tauto|]. split; [by apply (encodes_ok stRow)|tauto].
  - rewrite <- E2, <- E4, rows_bytes_app, rows_bytes_cons, <- !app_assoc. exact Hb5.
  - rewrite <- E2, <- E4. lia.
  - rewrite <- E2, <- E4. lia.
Qed.

Lemma ReplaceCurRow_stored s u key pre r post stRow cells (isDirty buf : bool) :
  stored s u key (pre ++ r :: post) -> m_uiRowOffset s.1 = pos key pre -> encodes stRow cells ->
  let r' := SRow (if isDirty then OPER_UPDATE else sr_flag r) cells in
  pos key (pre ++ r :: post) + Zlen (row_bytes r') < 2 ^ 32 ->
  runs (ReplaceCurRow stRow isDirty buf) s (replaced s u key pre r post r' buf).
Proof.
  intros Hs Hro He r' Hlt. destruct (stored_at _ _ _ _ _ _ Hs) as (slack & Hb & Hx & [Hf _] & _ & _ & Hle).
  set (x := _ ++ rows_bytes pre) in Hb, Hx. assert (is_byte (sr_flag r')) as Hop by (unfold r'; by destruct isDirty).
  unfold ReplaceCurRow. eapply runs_step; [apply rget_ok|]. eapply runs_step; [eapply SkipRow_stored; [done..|apply He]|].
  cbn [Z.eqb negb]. set (s1 := (_, s.2)).
  assert (stored s1 u key (pre ++ r :: post)) as Hs1 by (by apply set_off_stored).
  eapply runs_step; [apply rget_ok|].
  eapply runs_step.
  { apply (GET_VALUE_AT_at s1 u x [sr_flag r] (concat (sr_cells r) ++ rows_bytes post ++ slack) 1); [by destruct Hb| |done].
    by rewrite Hx. }
  assert (le_value [sr_flag r] = sr_flag r) as -> by (simpl; lia).
  eapply runs_step; [apply rget_ok|]. pose proof He as [Hd Hm].
  rewrite (CalcRowSize_at stRow _ ids cells) by (rewrite ?Hd; done || apply Hs1). eapply runs_step; [reflexivity|].
  do 2 (eapply runs_step; [apply rget_ok|]). rewrite (sd_size _ _ _ _ _ _ Hs1). cbn [fst s1 m_uiRowOffset m_uiOffset set_m_uiOffset].
  rewrite Hro. pose proof (pos_snoc key pre r) as Hsn. pose proof (Zlen_row r). assert (0 <= pos key pre) by (unfold pos; lia).
  assert (pos key (pre ++ r :: post) = pos key (pre ++ [r]) + Zlen (rows_bytes post)) as Hpp by (by rewrite <- pos_app, <- app_assoc).
  assert (1 + Zlen (concat cells) = Zlen (row_bytes r')) as -> by (unfold row_bytes; simpl; lia).
  rewrite !(uwrap_small 32) by lia.
  replace (pos key (pre ++ [r]) - pos key pre) with (Zlen (row_bytes r)) by lia.
  replace (pos key (pre ++ r :: post) - pos key (pre ++ [r])) with (Zlen (rows_bytes post)) by lia.
  replace (if isDirty then OPER_UPDATE else sr_flag r) with (sr_flag r') by done.
  destruct (Z.ltb_spec (Zlen (row_bytes r)) (Zlen (row_bytes r'))).
  - eapply runs_mono; [by eapply (replace_longer_stored s1 u key pre r post stRow cells (sr_flag r'))|].
    intros c s2 [?|[(_ & _ & ? & _)|?]]; [left|done|right; by right]. done.
  - eapply runs_mono; [by eapply (replace_shorter_stored s1 u key pre r post stRow cells (sr_flag r'))|].
    intros c s2 Hr. exact Hr.
Qed.

(** ** Small changes *)

Lemma SetCurRowFlag_stored s u key pre r post f :
  stored s u key (pre ++ r :: post) -> m_uiRowOffset s.1 = pos key pre -> is_byte f ->
  runs (SetCurRowFlag f) s (λ c s', c = 0 ∧ s'.1 = s.1 ∧ stored s' u key (pre ++ SRow f (sr_cells r) :: post)).
Proof.
  intros Hs Ho Hf. destruct (stored_at _ _ _ _ _ _ Hs) as (slack & Hb & Hx & [_ Hc] & Hh & Hp & Hlt).
  set (hd := head_bytes _ _ _ _) in *. pose proof (Zlen_row r).
  unfold SetCurRowFlag. do 2 (eapply runs_step; [apply rget_ok|]). rewrite (sd_size _ _ _ _ _ _ Hs), Ho.
  destruct (Z.leb_spec (pos key (pre ++ r :: post)) (pos key pre)); [lia|].
  assert (le_bytes 1 f = [f]) as Hl1 by (simpl; f_equal; by apply uwrap_small). rewrite Hl1.
  eapply runs_bind.
  { apply (content_write_at s u (hd ++ rows_bytes pre) [sr_flag r] (concat (sr_cells r) ++ rows_bytes post ++ slack) _ [f]); try done.
    by constructor. }
  intros _ s' [E Hb']. apply runs_ret. do 2 (split; [done|]).
  assert (∀ g, pos key (pre ++ SRow g (sr_cells r) :: post) = pos key (pre ++ r :: post)) as Hpos.
  { intros. rewrite !pos_app, !rows_bytes_cons, !length_app. unfold row_bytes. simpl. lia. }
  assert (Zlen (pre ++ SRow f (sr_cells r) :: post) = Zlen (pre ++ r :: post)) as Hcnt by (rewrite !length_app; simpl; lia).
  apply (stored_head s _ u key _ _ (meta_bytes s.1) slack Hs); rewrite ?E, ?Hpos, ?Hcnt; try done; [| |apply Hs..].
  - pose proof (sd_rows _ _ _ _ _ _ Hs) as Hok. rewrite !Forall_app, !Forall_cons in *. destruct Hok as (? & _ & ?). done.
  - rewrite (sd_size _ _ _ _ _ _ Hs), (sd_cnt _ _ _ _ _ _ Hs), rows_bytes_app, rows_bytes_cons, <- !app_assoc in *. exact Hb'.
Qed.

Lemma DeleteAllRows_stored s u key rows :
  stored s u key rows ->
  runs DeleteAllRows s (λ c s', c = 0 ∧ stored s' u key [] ∧ m_uiOffset s'.1 = pos key [] ∧ m_uiRowOffset s'.1 = pos key []).
Proof.
  intros Hs. unfold DeleteAllRows. eapply runs_step; [apply rget_ok|]. rewrite (sd_start _ _ _ _ _ _ Hs).
  eapply runs_step; [apply rput_ok|]. destruct (sd_buf _ _ _ _ _ _ Hs) as [slack Hb].
  eapply (set_header_at _ u _ _ _ key (rows_bytes rows ++ slack)); [by destruct Hb|].
  intros [o a] E H1. cbn [fst snd] in E; subst o. eapply runs_step; [apply rput_ok|]. apply runs_ret. split; [done|].
  split; [|done]. apply (stored_head s _ u key rows [] (meta_bytes s.1) (rows_bytes rows ++ slack) Hs); try done.
  by destruct H1.
Qed.

Lemma StripMem_stored s u key rows :
  stored s u key rows ->
  runs StripMem s (λ c s', stored s' u key rows ∧ (c = EC_NO_MEM ∨ c = 0) ∧
    m_uiOffset s'.1 = m_uiOffset s.1 ∧ m_uiRowOffset s'.1 = m_uiRowOffset s.1).
Proof.
  intros Hs. destruct (stored_used _ _ _ _ Hs) as (slack & Hb & Hu & Hsz).
  pose proof (stored_bounds _ _ _ _ _ _ Hs) as [Hpos _]. pose proof (sd_size _ _ _ _ _ _ Hs) as Hd.
  unfold StripMem. do 2 (eapply runs_step; [apply rget_ok|]). rewrite Hd.
  eapply runs_bind; [apply (realloc_at s u _ slack (pos key rows) Hb); lia|].
  intros h s1 (E & [[-> Ha]|(Hh0 & bs & Ha & _ & Hbs)]).
  - cbn [Z.eqb]. eapply runs_step; [apply rput_ok|]. apply runs_ret. rewrite E. split; [|by split; [left|]].
    eapply (need_stored s _ u key rows _ slack Hs); [reflexivity|]. destruct Hb as [H1 H2 H3]. by split.
  - destruct (Z.eqb_spec h 0); [done|]. destruct (Hbs ltac:(lia)) as [slack' ->].
    eapply runs_bind; [by apply take_handle_at|]. intros _ s2 [E2 H2]. apply runs_ret. rewrite E in E2.
    split; [by eapply stored_moved|]. rewrite E2. split; [by right|done].
Qed.

Lemma Destroy_stored s u key rows :
  stored s u key rows -> runs Destroy s (λ c s', c = 0 ∧ mal_holds s'.2 u ∧ _handle s'.1 = 0).
Proof.
  intros Hs. destruct (sd_buf _ _ _ _ _ _ Hs) as [slack Hb]. pose proof (buf_block _ _ _ Hb) as (Hh & _).
  unfold Destroy. eapply runs_step; [apply rget_ok|]. destruct (Z.eqb_spec (_handle s.1) 0); [lia|].
  destruct (mal_Free_law _ _ _ _ (buf_holds _ _ _ Hb)) as (c & a & Hf & -> & Ha).
  eapply runs_step; [unfold on_mal; by rewrite Hf|]. eapply runs_step; [apply rput_ok|]. by apply runs_ret.
Qed.

(** ** Attaching a chunk *)

Lemma take_split (l : list Z) n : Z.of_nat n <= Zlen l -> ∃ y z, l = y ++ z ∧ length y = n.
Proof. intros. exists (take n l), (drop n l). rewrite take_drop, length_take. split; [done|lia]. Qed.

Lemma key_head k key :
  key_ok k key -> k ≠ 0 -> k = Zlen key.
Proof. intros [_ Hk] Hne. destruct (Z.eqb_spec k 0); done. Qed.

Lemma buf_same s s' u bs bs' :
  buf s u bs -> bs = bs' -> s'.2 = s.2 -> m_pchContent s'.1 = m_pchContent s.1 -> _handle s'.1 = _handle s.1 ->
  _size s'.1 = _size s.1 -> buf s' u bs'.
Proof. intros [H1 H2 H3] <- E1 E2 E3 E4. split; rewrite ?E1, ?E2, ?E3, ?E4; done. Qed.

(** Compute the object of the state a computation starts in. *)
Ltac norm_state :=
  lazymatch goal with
  | |- runs ?m ?st ?Q =>
    let st' := eval cbv beta iota zeta delta [
      fst snd Basics.compose m_pchContent m_uiDataSize m_uiRowCnt m_uchKeyIdx m_iKeySize m_iLAId m_iLCmodId
      m_uiKeyStart m_uiDataStart m_uiRowOffset m_uiOffset m_uiLAOffset m_uiGetCountOffset
      m_uiTimeStampOffSet m_uchGetCount m_LastAccessHour m_LastUpdateHour m_CreateHour m_uiNeedSize
      _handle _size _autodestroy set_m_pchContent set_m_uiDataSize set_m_uiRowCnt set_m_uchKeyIdx
      set_m_iKeySize set_m_iLAId set_m_iLCmodId set_m_uiKeyStart set_m_uiDataStart set_m_uiRowOffset
      set_m_uiOffset set_m_uiLAOffset set_m_uiGetCountOffset set_m_uiTimeStampOffSet set_m_uchGetCount
      set_m_LastAccessHour set_m_LastUpdateHour set_m_CreateHour set_m_uiNeedSize set__handle set__size
      set__autodestroy] in st in
    change (runs m st' Q)
  end.

(** The header of a chunk, field by field. *)
Definition fields (sz cnt : Z) (m1 m2 m3 m4 key z : list Z) : list Z :=
  [DATA_TYPE_RAW] ++ le_bytes 4 sz ++ le_bytes 4 cnt ++ m1 ++ m2 ++ m3 ++ m4 ++ key ++ z.

Lemma AttachTimeStamp_at s u x m2 m3 m4 z :
  buf s u (x ++ m2 ++ m3 ++ m4 ++ z) -> m_uiTimeStampOffSet s.1 = Zlen x ->
  length m2 = 2%nat -> length m3 = 2%nat -> length m4 = 2%nat -> 0 < m_pchContent s.1 ->
  AttachTimeStamp s = Some (tt, (set_m_CreateHour (le_value m4) (set_m_LastUpdateHour (le_value m3)
                                   (set_m_LastAccessHour (le_value m2) s.1)), s.2)).
Proof.
  intros Hb Ht H2 H3 H4 Hp. unfold AttachTimeStamp. mstep (rget_ok m_pchContent s). mstep (rget_ok m_uiTimeStampOffSet s).
  mstep (rget_ok _size s). rewrite (buf_size _ _ _ Hb), Ht. destruct (Z.eqb_spec (m_pchContent s.1) 0); [lia|].
  destruct (Z.ltb_spec (Zlen (x ++ m2 ++ m3 ++ m4 ++ z)) (Zlen x + 6)) as [Hlt|]; [rewrite !length_app in Hlt; lia|]. cbn [orb].
  assert (∀ s' i y w, s'.2 = s.2 -> m_pchContent s'.1 = m_pchContent s.1 -> _handle s'.1 = _handle s.1 -> _size s'.1 = _size s.1 ->
            m_uiTimeStampOffSet s'.1 = Zlen x -> m2 ++ m3 ++ m4 ++ z = y ++ w -> Zlen y = i * 2 -> (2 <= length w)%nat ->
            read_hour i s' = Some (le_value (take 2 w), s')) as Hread.
  { intros s' i y w E1 E2 E3 E4 E5 Hyw Hy Hw. unfold read_hour. mstep (rget_ok m_uiTimeStampOffSet s'). rewrite E5.
    rewrite (step_bind _ _ _ _ _ (content_read_at s' u (x ++ y) (take 2 w) (drop 2 w) (Zlen x + i * 2) 2
      ltac:(rewrite <- app_assoc, take_drop, <- Hyw; by eapply buf_same)
      ltac:(rewrite length_app; lia) ltac:(rewrite length_take; lia))). done. }
  rewrite (step_bind _ _ _ _ _ (Hread s 0 [] (m2 ++ m3 ++ m4 ++ z) eq_refl eq_refl eq_refl eq_refl Ht eq_refl eq_refl
             ltac:(rewrite length_app; lia))).
  rewrite take_app_length' by done. mstep (rput_ok (set_m_LastAccessHour (le_value m2)) s).
  set (s1 := (_, s.2)).
  rewrite (step_bind _ _ _ _ _ (Hread s1 1 m2 (m3 ++ m4 ++ z) eq_refl eq_refl eq_refl eq_refl Ht eq_refl
             ltac:(lia) ltac:(rewrite length_app; lia))).
  rewrite take_app_length' by done. mstep (rput_ok (set_m_LastUpdateHour (le_value m3)) s1).
  set (s2 := (_, s1.2)).
  rewrite (step_bind _ _ _ _ _ (Hread s2 2 (m2 ++ m3) (m4 ++ z) eq_refl eq_refl eq_refl eq_refl Ht
             ltac:(by rewrite <- app_assoc) ltac:(rewrite length_app; lia) ltac:(rewrite length_app; lia))).
  by rewrite take_app_length' by done.
Qed.

Lemma Attach_stored o a u h key rows meta slack iKeySize kidx laid lcmodid :
  mal_holds a ((h, head_bytes (pos key rows) (Zlen rows) meta key ++ rows_bytes rows ++ slack) :: u) ->
  length meta = 7%nat -> key_ok iKeySize key -> Forall (row_ok d ids) rows ->
  stored_columns d (u8 kidx) = Some ids ->
  runs (Attach h kidx iKeySize laid lcmodid) (o, a) (λ c s', c = 0 ∧ stored s' u key rows ∧ _handle s'.1 = h ∧
    m_uiOffset s'.1 = pos key [] ∧ m_uiRowOffset s'.1 = pos key [] ∧ m_uiLAOffset s'.1 = 0 ∧
    m_iLAId s'.1 = laid ∧ m_iLCmodId s'.1 = lcmodid ∧ meta_bytes s'.1 = meta).
Proof.
  intros Ha Hm Hk Hok Hcol. destruct (mal_block _ _ _ _ Ha) as (Hh & Hby & Hl). set (bs := head_bytes _ _ _ _ ++ _) in *.
  assert (pos key rows <= Zlen bs) as Hfit.
  { unfold bs. rewrite !length_app, !Nat2Z.inj_add, length_head by done. unfold pos. lia. }
  assert (16 <= pos key rows ∧ Zlen rows < pos key rows) as [Hp16 Hrc] by (unfold pos; pose proof (rows_le rows); lia).
  assert (∃ m1 m2 m3 m4, meta = m1 ++ m2 ++ m3 ++ m4 ∧ length m1 = 1%nat ∧ length m2 = 2%nat ∧ length m3 = 2%nat ∧
            length m4 = 2%nat) as (m1 & m2 & m3 & m4 & -> & H1 & H2 & H3 & H4).
  { destruct meta as [|? [|? [|? [|? [|? [|? [|? [|]]]]]]]]; try done. by exists [z], [z0; z1], [z2; z3], [z4; z5]. }
  set (rest := rows_bytes rows ++ slack) in *.
  assert (bs = fields (pos key rows) (Zlen rows) m1 m2 m3 m4 key rest) as Hbs.
  { unfold bs, head_bytes, fields. by rewrite <- !app_assoc. }
  unfold fields in Hbs. set (szb := le_bytes 4 (pos key rows)) in *. set (cntb := le_bytes 4 (Zlen rows)) in *.
  assert (length szb = 4%nat ∧ length cntb = 4%nat) as [Hszb Hcntb] by done.
  assert (le_value szb = pos key rows) as Hsz.
  { unfold szb. rewrite le_value_bytes. apply Z.mod_small. change (2 ^ (8 * Z.of_nat 4)) with (2 ^ 32). lia. }
  assert (le_value cntb = Zlen rows) as Hcnt.
  { unfold cntb. rewrite le_value_bytes. apply Z.mod_small. change (2 ^ (8 * Z.of_nat 4)) with (2 ^ 32). lia. }
  assert (∀ o', m_pchContent o' = h -> _handle o' = h -> _size o' = Zlen bs -> buf (o', a) u bs) as Hbuf.
  { intros o' E1 E2 E3. split; simpl; [by rewrite E1, E2|done|by rewrite E2]. }
  destruct o. unfold Attach. eapply runs_step; [unfold on_mal; simpl; by rewrite (mal_ChunkSize_law _ _ _ _ Ha)|].
  eapply runs_step; [apply rput_ok|]. destruct (Z.eqb_spec (Zlen bs) 0); [lia|].
  eapply runs_step; [apply rput_ok|]. norm_state.
  eapply runs_step; [apply (GET_VALUE_at _ u [] [DATA_TYPE_RAW] (szb ++ cntb ++ m1 ++ m2 ++ m3 ++ m4 ++ key ++ rest) 1);
                       [rewrite app_nil_l, <- Hbs; by apply Hbuf|reflexivity..]|]. norm_state.
  cbn [le_value Z.eqb negb Z.add Z.mul DATA_TYPE_RAW].
  eapply runs_step; [apply (GET_VALUE_at _ u [DATA_TYPE_RAW] szb (cntb ++ m1 ++ m2 ++ m3 ++ m4 ++ key ++ rest) 4);
                       [rewrite <- Hbs; by apply Hbuf|reflexivity..]|]. norm_state.
  eapply runs_step; [apply rput_ok|]. norm_state.
  eapply runs_step; [apply (GET_VALUE_at _ u ([DATA_TYPE_RAW] ++ szb) cntb (m1 ++ m2 ++ m3 ++ m4 ++ key ++ rest) 4);
                       [rewrite <- !app_assoc, <- Hbs; by apply Hbuf|reflexivity..]|]. norm_state.
  eapply runs_step; [apply rput_ok|]. eapply runs_step; [apply rget_ok|]. eapply runs_step; [apply rput_ok|]. norm_state.
  eapply runs_step; [apply (GET_VALUE_at _ u (([DATA_TYPE_RAW] ++ szb) ++ cntb) m1 (m2 ++ m3 ++ m4 ++ key ++ rest) 1);
                       [rewrite <- !app_assoc, <- Hbs; by apply Hbuf|reflexivity|by rewrite H1]|]. norm_state.
  eapply runs_step; [apply rput_ok|]. eapply runs_step; [apply rget_ok|]. eapply runs_step; [apply rput_ok|]. norm_state.
  eapply runs_step; [apply (AttachTimeStamp_at _ u ((([DATA_TYPE_RAW] ++ szb) ++ cntb) ++ m1) m2 m3 m4 (key ++ rest));
                       [rewrite <- !app_assoc, <- Hbs; by apply Hbuf|reflexivity|done..]|]. norm_state.
  eapply runs_step; [apply (SKIP_SIZE_at _ u ((([DATA_TYPE_RAW] ++ szb) ++ cntb) ++ m1) (m2 ++ m3 ++ m4) (key ++ rest) 64 6);
                       [rewrite <- !app_assoc, <- Hbs; by apply Hbuf|reflexivity|rewrite !length_app; lia|lia]|]. norm_state.
  cbn [negb]. rewrite Hsz. destruct (Z.ltb_spec (Zlen bs) (pos key rows)); [lia|].
  set (X := ((([DATA_TYPE_RAW] ++ szb) ++ cntb) ++ m1) ++ m2 ++ m3 ++ m4).
  assert (Zlen X = 16) as HX by (unfold X; rewrite !length_app, Hszb, Hcntb; simpl; lia).
  eapply runs_step; [apply rget_ok|]. eapply runs_step; [apply rput_ok|]. norm_state. rewrite HX.
  assert (X ++ key ++ rest = bs) as HbX by (unfold X; rewrite <- !app_assoc; by rewrite <- Hbs).
  match goal with |- runs _ ?st _ => set (s7 := st) end.
  assert (buf s7 u (X ++ key ++ rest)) as Hb7 by (rewrite HbX; by apply Hbuf).
  eapply runs_step.
  { instantiate (1 := s7). instantiate (1 := Zlen key). destruct Hk as [_ Hk]. destruct (Z.eqb_spec iKeySize 0).
    - destruct Hk as [k ->]. rewrite (step_bind _ _ _ [Zlen k] s7); [by replace (Zlen (Zlen k :: k)) with (1 + le_value [Zlen k]) by (simpl; lia)|].
      apply (content_read_at s7 u X [Zlen k] (k ++ rest) 16 1); [exact Hb7|by rewrite HX|done].
    - by rewrite Hk. }
  eapply runs_step; [apply (SKIP_SIZE_at s7 u X key rest 32); [exact Hb7|by rewrite HX|done|lia]|]. cbn [negb]. unfold s7. norm_state.
  assert (Zlen (X ++ key) = pos key []) as Ho8.
  { rewrite length_app, Nat2Z.inj_add, HX. unfold pos. simpl. lia. }
  rewrite Ho8, Hcnt. eapply runs_step; [apply rget_ok|]. eapply runs_step; [apply rput_ok|]. norm_state. apply runs_ret. split; [done|].
  assert (le_bytes 1 (le_value m1) ++ le_bytes 2 (le_value m2) ++ le_bytes 2 (le_value m3) ++ le_bytes 2 (le_value m4) =
          m1 ++ m2 ++ m3 ++ m4) as Hmeta.
  { assert (bytes m1 ∧ bytes m2 ∧ bytes m3 ∧ bytes m4) as (B1 & B2 & B3 & B4).
    { unfold bytes in *. rewrite Hbs, !Forall_app in Hby. tauto. }
    apply le_bytes_value in B1, B2, B3, B4. rewrite H1 in B1. rewrite H2 in B2. rewrite H3 in B3. rewrite H4 in B4.
    by rewrite B1, B2, B3, B4. }
  split; [|by split_and!].
  constructor; try done; [|by cbn; rewrite H1]. exists slack.
  change (meta_bytes _) with (le_bytes 1 (le_value m1) ++ le_bytes 2 (le_value m2) ++ le_bytes 2 (le_value m3) ++ le_bytes 2 (le_value m4)).
  rewrite Hmeta. by apply Hbuf.
Qed.

(** ** A new chunk *)

Lemma write_hour_at s u x y z i v :
  buf s u (x ++ y ++ z) -> m_uiTimeStampOffSet s.1 + i * 2 = Zlen x -> length y = 2%nat ->
  runs (write_hour i v) s (λ _ s', s'.1 = s.1 ∧ buf s' u (x ++ le_bytes 2 v ++ z)).
Proof.
  intros Hb Ho Hy. unfold write_hour. eapply runs_step; [apply rget_ok|].
  eapply content_write_at; [exact Hb|done|by rewrite Hy|apply le_bytes_bytes].
Qed.

Lemma InitTimpStamp_at s u x y1 y2 y3 z now :
  buf s u (x ++ y1 ++ y2 ++ y3 ++ z) -> m_uiOffset s.1 = Zlen x -> m_uiTimeStampOffSet s.1 = Zlen x ->
  length y1 = 2%nat -> length y2 = 2%nat -> length y3 = 2%nat -> 0 < m_pchContent s.1 ->
  let t := u16 now in
  runs (InitTimpStamp now) s (λ _ s',
    s'.1 = set_m_CreateHour t (set_m_LastUpdateHour t (set_m_LastAccessHour t s.1)) ∧
    buf s' u (x ++ le_bytes 2 t ++ le_bytes 2 t ++ le_bytes 2 t ++ z)).
Proof.
  intros Hb Ho Ht H1 H2 H3 Hp t. unfold InitTimpStamp. do 3 (eapply runs_step; [apply rget_ok|]).
  rewrite (buf_size _ _ _ Hb), Ho. destruct (Z.eqb_spec (m_pchContent s.1) 0); [lia|].
  destruct (Z.ltb_spec (Zlen (x ++ y1 ++ y2 ++ y3 ++ z)) (Zlen x + 6)) as [Hlt|]; [rewrite !length_app in Hlt; lia|]. cbn [orb].
  eapply runs_step; [apply rput_ok|]. fold t.
  eapply runs_bind.
  { apply (write_hour_at _ u x y1 (y2 ++ y3 ++ z) 0 t); [by destruct Hb|simpl; lia|done]. }
  intros _ [o a] [E Hb1]. cbn [fst snd] in E; subst o. rewrite app_assoc in Hb1.
  eapply runs_bind.
  { apply (write_hour_at _ u (x ++ le_bytes 2 t) y2 (y3 ++ z) 1 t Hb1); [simpl; rewrite length_app; simpl; lia|done]. }
  intros _ [o a'] [E Hb2]. cbn [fst snd] in E; subst o. rewrite app_assoc in Hb2.
  eapply runs_mono.
  { apply (write_hour_at _ u ((x ++ le_bytes 2 t) ++ le_bytes 2 t) y3 z 2 t Hb2); [simpl; rewrite !length_app; simpl; lia|done]. }
  intros _ s' [E Hb3]. split; [done|]. by rewrite <- !app_assoc in Hb3.
Qed.

Lemma Init_stored o a u key iKeySize kidx pchKey size laid now :
  mal_holds a u -> key_ok iKeySize key -> read_n pchKey (length key) = Some key ->
  0 <= size -> 16 + Zlen key + size < 2 ^ 32 -> stored_columns d (u8 kidx) = Some ids ->
  runs (Init kidx iKeySize pchKey size laid now) (o, a) (λ c s',
    (c = EC_NO_MEM ∧ mal_holds s'.2 u ∧ _handle s'.1 = 0 ∧ m_uiNeedSize s'.1 = 16 + Zlen key + size) ∨
    (c = 0 ∧ stored s' u key [] ∧ m_uiOffset s'.1 = pos key [] ∧ m_uiRowOffset s'.1 = pos key [] ∧
     16 + Zlen key + size <= _size s'.1 ∧ m_uchGetCount s'.1 = 1 ∧ m_iLAId s'.1 = laid)).
Proof.
  intros Ha Hk Hread Hsize Hlt Hcol. unfold Init.
  destruct o as [oc od orc oki oks ola olc okst ods oro oo olao ogo oto ogc oh1 oh2 oh3 on ohd osz oad].
  eapply (runs_step _ _ _ (Zlen key)).
  { unfold lift. destruct Hk as [_ Hk]. destruct (Z.eqb_spec iKeySize 0); [|by rewrite Hk].
    destruct Hk as [k ->]. simpl in Hread. apply bind_Some in Hread as (c & -> & Hr). simpl.
    apply bind_Some in Hr as (l & _ & [= -> _]). do 3 f_equal. lia. }
  replace (2 + 4 * 2 + 2 * 3 + Zlen key) with (16 + Zlen key) by lia.
  rewrite (uwrap_small 32 (size + _)), (uwrap_small 32 (16 + Zlen key)) by lia.
  eapply runs_step; [apply rput_ok|]. norm_state.
  destruct (mal_Malloc_law a u (size + (16 + Zlen key)) Ha ltac:(lia)) as (h & a1 & Hm & Hor).
  eapply runs_step; [unfold on_mal; cbn [snd]; by rewrite Hm|]. cbn [fst]. eapply runs_step; [apply rput_ok|]. norm_state.
  destruct Hor as [[-> Ha1]|(bs & Hl & Ha1)].
  { cbn [Z.eqb]. eapply runs_step; [apply rput_ok|]. apply runs_ret. left. split_and!; try done. simpl. lia. }
  destruct (mal_block _ _ _ _ Ha1) as (Hh & Hby & Hbl). destruct (Z.eqb_spec h 0); [lia|].
  eapply runs_step; [unfold on_mal; cbn [snd]; by rewrite (mal_ChunkSize_law _ _ _ _ Ha1)|].
  eapply runs_step; [apply rput_ok|]. eapply runs_step; [apply rput_ok|]. eapply runs_step; [apply rput_ok|]. norm_state.
  destruct (take_split bs 1) as (b0 & r0 & -> & H0); [lia|]. rewrite length_app in Hl.
  destruct (take_split r0 4) as (b1 & r1 & -> & H1); [lia|]. rewrite length_app in Hl.
  destruct (take_split r1 4) as (b2 & r2 & -> & H2); [lia|]. rewrite length_app in Hl.
  destruct (take_split r2 1) as (b3 & r3 & -> & H3); [lia|]. rewrite length_app in Hl.
  destruct (take_split r3 2) as (b4 & r4 & -> & H4); [lia|]. rewrite length_app in Hl.
  destruct (take_split r4 2) as (b5 & r5 & -> & H5); [lia|]. rewrite length_app in Hl.
  destruct (take_split r5 2) as (b6 & r6 & -> & H6); [lia|]. rewrite length_app in Hl.
  destruct (take_split r6 (length key)) as (bk & slack & -> & H7); [lia|]. rewrite length_app in Hl.
  set (sz := Zlen (b0 ++ _)) in *.
  assert (∀ o bs', m_pchContent o = h -> _handle o = h -> _size o = sz ->
            bs' = b0 ++ b1 ++ b2 ++ b3 ++ b4 ++ b5 ++ b6 ++ bk ++ slack -> buf (o, a1) u bs') as Hbuf.
  { intros o bs' E1 E2 E3 ->. split; simpl; [by rewrite E1, E2|done|by rewrite E2]. }
  eapply runs_bind; [by apply (SET_VALUE_at _ u [] b0 (b1 ++ b2 ++ b3 ++ b4 ++ b5 ++ b6 ++ bk ++ slack) DATA_TYPE_RAW 1); [apply Hbuf|..]|].
  clear Hbuf. intros ok [o a2] (-> & E & Hb). cbn [fst snd] in E; subst o. cbn [negb]. rewrite !app_nil_l in Hb.
  eapply runs_bind; [apply (SET_VALUE_at _ u _ _ _ (16 + Zlen key) 4 Hb); [simpl; lia|done]|].
  clear Hb. intros ok [o a3] (-> & E & Hb). cbn [fst snd] in E; subst o. cbn [negb]. rewrite app_assoc in Hb.
  eapply runs_bind; [apply (SET_VALUE_at _ u _ _ _ 0 4 Hb); [simpl; lia|done]|].
  clear Hb. intros ok [o a4] (-> & E & Hb). cbn [fst snd] in E; subst o. cbn [negb]. rewrite app_assoc in Hb.
  set (x := (le_bytes 1 DATA_TYPE_RAW ++ le_bytes 4 (16 + Zlen key)) ++ le_bytes 4 0) in Hb.
  assert (∀ l, length l = 4%nat -> Zlen ((le_bytes 1 DATA_TYPE_RAW ++ le_bytes 4 (16 + Zlen key)) ++ l) = 9) as Hx.
  { intros l Hl4. rewrite !length_app. simpl. lia. }
  eapply runs_step; [apply rget_ok|]. eapply runs_step; [apply rput_ok|]. norm_state. rewrite (Hx b2 H2).
  eapply runs_bind; [apply (SET_VALUE_at _ u x b3 (b4 ++ b5 ++ b6 ++ bk ++ slack) 1 1); [eapply buf_obj; [exact Hb|done..]|exact (eq_sym (Hx (le_bytes 4 0) eq_refl))|done]|].
  clear Hb. intros ok [o a5] (-> & E & Hb). cbn [fst snd] in E; subst o. cbn [negb].
  assert (∀ l, length l = 1%nat -> Zlen (x ++ l) = 10) as Hx1.
  { intros l Hl1. rewrite length_app, Nat2Z.inj_add. unfold x. rewrite Hx by done. lia. }
  eapply runs_step; [apply rget_ok|]. eapply runs_step; [apply rput_ok|]. norm_state. rewrite (Hx1 b3 H3). rewrite app_assoc in Hb.
  eapply runs_bind.
  { apply (InitTimpStamp_at _ u (x ++ le_bytes 1 1) b4 b5 b6 (bk ++ slack) now); [eapply buf_obj; [exact Hb|done..]|exact (eq_sym (Hx1 (le_bytes 1 1) eq_refl))..|done|done|done|done]. }
  clear Hb. intros _ [o a6] (E & Hb). cbn [fst snd] in E; subst o. set (t := u16 now) in *.
  eapply runs_step.
  { apply (SKIP_SIZE_at _ u (x ++ le_bytes 1 1) (le_bytes 2 t ++ le_bytes 2 t ++ le_bytes 2 t) (bk ++ slack) 64 6); [|exact (eq_sym (Hx1 (le_bytes 1 1) eq_refl))|done|lia].
    by rewrite <- !app_assoc in *. }
  cbn [negb]. eapply runs_step; [apply rget_ok|]. eapply runs_step; [apply rput_ok|]. norm_state.
  set (y := (x ++ le_bytes 1 1) ++ le_bytes 2 t ++ le_bytes 2 t ++ le_bytes 2 t).
  assert (Zlen y = 16) as Hy by (unfold y; rewrite length_app, Nat2Z.inj_add, Hx1 by done; done). rewrite Hy.
  destruct (Z.ltb_spec (Zlen key) 0); [lia|].
  eapply runs_bind with (Q := λ _ s', s'.1 = MkRawData h (16 + Zlen key) 0 (u8 kidx) iKeySize laid olc 16 ods oro 16 0
    9 10 1 t t t on h sz oad ∧ buf s' u (y ++ key ++ slack)).
  { rewrite Nat2Z.id, Hread. eapply runs_step; [reflexivity|]. eapply runs_mono.
    { eapply (content_write_at _ u y bk slack 16 key); [|by rewrite Hy|done|apply Hk].
      eapply buf_obj; [unfold y; rewrite <- !app_assoc in *; exact Hb|done..]. }
    intros _ s' [E' Hb']. split; [exact E'|done]. }
  clear Hb. intros _ [o a7] [E Hb]. cbn [fst snd] in E; subst o. rewrite (uwrap_small 32 (16 + _)) by lia.
  eapply runs_step; [apply rput_ok|]. norm_state. apply runs_ret. right. split; [done|].
  assert (pos key [] = 16 + Zlen key) as Hpos by (unfold pos; simpl; lia).
  rewrite Hpos. split; [|split_and!; try done; change (16 + Zlen key + size <= sz); unfold sz; rewrite !length_app; lia].
  constructor; try done. exists slack. rewrite Hpos. change (rows_bytes []) with (@nil Z). rewrite app_nil_l.
  eapply (buf_same _ _ u (y ++ key ++ slack)); [exact Hb| |done..].
  unfold y, x, head_bytes, meta_bytes. rewrite <- !app_assoc. done.
Qed.

(** ** Time stamps, counters and copies *)

(** The part of the header between the row count and the key. *)
Lemma stored_meta s s' u key rows slack :
  stored s u key rows ->
  buf s' u (head_bytes (pos key rows) (Zlen rows) (meta_bytes s'.1) key ++ rows_bytes rows ++ slack) ->
  m_uchKeyIdx s'.1 = m_uchKeyIdx s.1 -> m_uiDataSize s'.1 = m_uiDataSize s.1 -> m_uiRowCnt s'.1 = m_uiRowCnt s.1 ->
  m_uiDataStart s'.1 = m_uiDataStart s.1 -> m_uiKeyStart s'.1 = m_uiKeyStart s.1 ->
  m_uiGetCountOffset s'.1 = m_uiGetCountOffset s.1 -> m_uiTimeStampOffSet s'.1 = m_uiTimeStampOffSet s.1 ->
  m_iKeySize s'.1 = m_iKeySize s.1 -> stored s' u key rows.
Proof.
  intros Hs Hb E0 E1 E2 E3 E4 E5 E6 E7. eapply (stored_head s s' u key rows rows _ slack); try done; [apply Hs| | |].
  - by rewrite E1, E2, (sd_size _ _ _ _ _ _ Hs), (sd_cnt _ _ _ _ _ _ Hs).
  - by rewrite E1, (sd_size _ _ _ _ _ _ Hs).
  - by rewrite E2, (sd_cnt _ _ _ _ _ _ Hs).
Qed.

Lemma update_hour_stored s u key rows now i (set_hour : Z -> CRawData -> CRawData) :
  stored s u key rows ->
  (i = 0 ∧ set_hour = set_m_LastAccessHour) ∨ (i = 1 ∧ set_hour = set_m_LastUpdateHour) ->
  runs (p ← rget m_pchContent; t ← rget m_uiTimeStampOffSet; size ← rget _size;
        if (p =? 0) || (size <? t + (i + 1) * 2) then mret tt
        else rput (set_hour (u16 now));; write_hour i (u16 now)) s
    (λ _ s', s'.1 = set_hour (u16 now) s.1 ∧ stored s' u key rows).
Proof.
  intros Hs Hi. destruct (sd_buf _ _ _ _ _ _ Hs) as [slack Hb]. pose proof (buf_block _ _ _ Hb) as (Hh & _).
  pose proof (stored_bounds _ _ _ _ _ _ Hs) as [Hpos _]. pose proof (buf_size _ _ _ Hb) as Hsz.
  rewrite !length_app, !Nat2Z.inj_add, length_head in Hsz by done.
  do 3 (eapply runs_step; [apply rget_ok|]). rewrite (sd_stamps _ _ _ _ _ _ Hs), (buf_content _ _ _ Hb).
  destruct (Z.eqb_spec (_handle s.1) 0); [lia|].
  destruct (Z.ltb_spec (_size s.1) (10 + (i + 1) * 2)); [unfold pos in Hpos; lia|]. cbn [orb].
  eapply runs_step; [apply rput_ok|]. unfold head_bytes, meta_bytes in Hb. rewrite <- !app_assoc in Hb.
  destruct Hi as [[-> ->]|[-> ->]].
  - rewrite (app_assoc _ (le_bytes 4 _)), (app_assoc _ (le_bytes 4 (Zlen rows))), (app_assoc _ (le_bytes 1 _)) in Hb.
    eapply runs_mono.
    { apply (write_hour_at (set_m_LastAccessHour (u16 now) s.1, s.2) u _ _ _ 0 (u16 now) ltac:(destruct Hb; by split));
        [cbn [fst]; pose proof (sd_stamps _ _ _ _ _ _ Hs); simpl in *; lia|done]. }
    intros _ s' [E Hb']. split; [exact E|].
    apply (stored_meta s s' u key rows slack Hs); rewrite ?E; try done; rewrite <- !app_assoc in *; exact Hb'.
  - rewrite (app_assoc _ (le_bytes 4 _)), (app_assoc _ (le_bytes 4 (Zlen rows))), (app_assoc _ (le_bytes 1 _)), (app_assoc _ (le_bytes 2 _)) in Hb.
    eapply runs_mono.
    { apply (write_hour_at (set_m_LastUpdateHour (u16 now) s.1, s.2) u _ _ _ 1 (u16 now) ltac:(destruct Hb; by split));
        [cbn [fst]; pose proof (sd_stamps _ _ _ _ _ _ Hs); simpl in *; lia|done]. }
    intros _ s' [E Hb']. split; [exact E|].
    apply (stored_meta s s' u key rows slack Hs); rewrite ?E; try done; rewrite <- !app_assoc in *; exact Hb'.
Qed.

Lemma UpdateLastAccessTimeByHour_stored s u key rows now :
  stored s u key rows ->
  runs (UpdateLastAccessTimeByHour now) s (λ _ s', s'.1 = set_m_LastAccessHour (u16 now) s.1 ∧ stored s' u key rows).
Proof. intros Hs. by apply (update_hour_stored s u key rows now 0); [|left]. Qed.
Lemma UpdateLastUpdateTimeByHour_stored s u key rows now :
  stored s u key rows ->
  runs (UpdateLastUpdateTimeByHour now) s (λ _ s', s'.1 = set_m_LastUpdateHour (u16 now) s.1 ∧ stored s' u key rows).
Proof. intros Hs. by apply (update_hour_stored s u key rows now 1); [|right]. Qed.

(** The select count stops at 255. *)
Lemma IncSelectCount_stored s u key rows :
  stored s u key rows -> 0 <= m_uchGetCount s.1 <= 255 ->
  runs IncSelectCount s (λ _ s', s'.1 = set_m_uchGetCount (Z.min 255 (m_uchGetCount s.1 + 1)) s.1 ∧ stored s' u key rows).
Proof.
  intros Hs Hc. destruct (sd_buf _ _ _ _ _ _ Hs) as [slack Hb]. unfold IncSelectCount, BTYE_MAX_VALUE.
  do 3 (eapply runs_step; [apply rget_ok|]). rewrite (sd_getcount _ _ _ _ _ _ Hs).
  destruct (Z.leb_spec 255 (m_uchGetCount s.1)).
  { apply runs_ret. replace (Z.min 255 (m_uchGetCount s.1 + 1)) with (m_uchGetCount s.1) by lia.
    split; [|done]. by destruct (s.1). }
  pose proof (stored_bounds _ _ _ _ _ _ Hs) as [Hpos _]. pose proof (buf_size _ _ _ Hb) as Hsz.
  rewrite !length_app, !Nat2Z.inj_add, length_head in Hsz by done.
  destruct (Z.ltb_spec (_size s.1) (9 + 1)); [unfold pos in Hpos; lia|]. cbn [orb].
  eapply runs_step; [apply rput_ok|]. rewrite uwrap_small, Z.min_r by lia.
  unfold head_bytes, meta_bytes in Hb. rewrite <- !app_assoc in Hb.
  rewrite (app_assoc _ (le_bytes 4 _)), (app_assoc _ (le_bytes 4 (Zlen rows))) in Hb.
  eapply runs_mono.
  { apply (content_write_at (set_m_uchGetCount (m_uchGetCount s.1 + 1) s.1, s.2) u _ _ _ 9 _ ltac:(destruct Hb; by split));
      [done|done|apply le_bytes_bytes]. }
  intros _ s' [E Hb']. split; [exact E|].
  apply (stored_meta s s' u key rows slack Hs); rewrite ?E; try done; rewrite <- !app_assoc in *; exact Hb'.
Qed.

(** The access time in the row just decoded. *)
Lemma UpdateLastacc_stored s u key pre f cs1 c cs2 post now la ids1 ids2 :
  stored s u key (pre ++ SRow f (cs1 ++ c :: cs2) :: post) -> ids = ids1 ++ la :: ids2 -> length ids1 = length cs1 ->
  (∀ t, FieldType d la = Some t -> numeric t = true) ->
  m_uiLAOffset s.1 = pos key pre + 1 + Zlen (concat cs1) ->
  runs (UpdateLastacc now) s (λ _ s', s'.1 = s.1 ∧
    stored s' u key (pre ++ SRow f (cs1 ++ (le_bytes 4 now ++ drop 4 c) :: cs2) :: post)).
Proof.
  intros Hs Hids Hlen Hnum Hla. set (r := SRow f (cs1 ++ c :: cs2)) in *.
  destruct (stored_at _ _ _ _ _ _ Hs) as (slack & Hb & Hx & [Hf Hc] & _ & _ & Hlt). set (hd := head_bytes _ _ _ _) in *.
  simpl in Hc. rewrite Hids in Hc. apply Forall2_app_inv in Hc as [Hc1 Hc2]; [|done].
  apply Forall2_cons in Hc2 as [(t & w & Ht & Hw & Hcb & Hcl) Hc2]. rewrite (Hnum _ Ht) in Hcl.
  assert (4 <= length c)%nat as Hc4 by (rewrite Hcl; destruct w; simpl; lia).
  unfold UpdateLastacc. eapply runs_step; [apply rget_ok|]. rewrite Hla. assert (0 <= pos key pre) by (unfold pos; lia).
  destruct (Z.ltb_spec 0 (pos key pre + 1 + Zlen (concat cs1))); [|lia].
  assert (row_bytes r = (f :: concat cs1) ++ take 4 c ++ drop 4 c ++ concat cs2) as Hr.
  { unfold row_bytes, r. simpl. rewrite concat_app. simpl. by rewrite (app_assoc (take 4 c)), take_drop. }
  set (c' := le_bytes 4 now ++ drop 4 c). set (r2 := SRow f (cs1 ++ c' :: cs2)).
  assert (row_bytes r2 = (f :: concat cs1) ++ le_bytes 4 now ++ drop 4 c ++ concat cs2) as Hr2.
  { unfold row_bytes, r2, c'. simpl. rewrite concat_app. done. }
  assert (length c' = length c) as Hlc by (unfold c'; rewrite length_app, length_drop; simpl; lia).
  assert (Zlen (row_bytes r2) = Zlen (row_bytes r)) as Hlr.
  { rewrite Hr, Hr2, !length_app, length_take, length_drop, length_le_bytes, Nat.min_l by lia. lia. }
  rewrite Hr in Hb. rewrite <- !app_assoc in Hb. rewrite (app_assoc hd), (app_assoc (hd ++ _)) in Hb.
  eapply runs_mono.
  { apply (content_write_at s u _ (take 4 c) _ _ (le_bytes 4 now) Hb); [|by rewrite length_take, Nat.min_l|apply le_bytes_bytes].
    rewrite length_app, Nat2Z.inj_add, Hx. simpl. lia. }
  intros _ s' [E Hb']. split; [done|]. pose proof (pos_mid key pre r r2 post) as Hp.
  assert (pos key (pre ++ r2 :: post) = pos key (pre ++ r :: post)) as Hpe by lia.
  assert (Zlen (pre ++ r2 :: post) = Zlen (pre ++ r :: post)) as Hce by (rewrite !length_app; simpl; lia).
  apply (stored_head s _ u key _ _ (meta_bytes s.1) slack Hs); rewrite ?E, ?Hpe, ?Hce; try done; [| |apply Hs..].
  - pose proof (sd_rows _ _ _ _ _ _ Hs) as Hok. rewrite !Forall_app, !Forall_cons in *. destruct Hok as (? & _ & ?).
    split; [done|]. split; [|done]. split; [done|]. rewrite Hids. apply Forall2_app; [done|]. constructor; [|done].
    exists t, w. rewrite (Hnum _ Ht), Hlc. split_and!; try done. apply Forall_app. split; [apply le_bytes_bytes|].
    by apply Forall_drop.
  - rewrite (sd_size _ _ _ _ _ _ Hs), (sd_cnt _ _ _ _ _ _ Hs), rows_bytes_app, rows_bytes_cons, Hr2.
    rewrite <- !app_assoc in *. exact Hb'.
Qed.
End ops.
