(* ===== verification/RawExample.v ===== *)
(** * RawExample: a node with rows on the shared-memory allocator

    The concrete states on which the theorems about row storage are tried: a
    table with a key, a 4-byte number and a string, and an object whose chunk
    is allocated by [CBinMalloc] in a segment of 16384 bytes. *)

From stdpp Require Import list gmap.
From S2P Require Import Prelude State Bitsop Value Protocol Section TableDef Field BinMalloc BinHeap BinAlloc BinClient BinSpec Mallocator BinBytes RawData RawBuf RawRow RawRep RawSpec.

Definition ex_add (o : CTableDefinition) (id : Z) (n : list Z) (t sz : Z) : CTableDefinition :=
  from_option snd o (AddField o id (cstring n) t sz).
Definition ex_tab : CTableDefinition :=
  set_keyFormat 4 (set_keyFields 1
    (ex_add (ex_add (ex_add (new_table 3 blank_table) 0 [107] DField_Unsigned 4) 1 [110] DField_Signed 4) 2 [116] DField_String 100)).
Definition ex_ids : list Z := [1; 2].
Definition ex_row (n : Z) (txt : list Z) : CRowValue :=
  MkRow ex_tab [MkValue 7 None; MkValue n None; MkValue (Z.of_nat (length txt)) (Some (Ptr txt 0))].
Definition ex_key : list Z := [7; 0; 0; 0].
Definition ex_cells (n : Z) (txt : list Z) : list (list Z) := [le_bytes 4 n; le_bytes 4 (Z.of_nat (length txt)) ++ txt].

Definition ex_state {X} (m : RM X) (s : CRawData * CBinMalloc) : CRawData * CBinMalloc := from_option snd s (m s).
Definition ex_detached : CRawData * CBinMalloc := (new_RawData 1 0, ex0).
Definition ex_empty : CRawData * CBinMalloc := ex_state (RawData.Init 0 4 (Some (Ptr ex_key 0)) 0 (-1) 1000) ex_detached.
Definition ex_five : CRawData * CBinMalloc := ex_state (InsertRow (ex_row 5 [97; 98]) false false true) ex_empty.
Definition ex_two : CRawData * CBinMalloc := ex_state (InsertRow (ex_row 9 [120]) false true true) ex_five.

Lemma ex_row_encodes n txt :
  mapM (cell_bytes (ex_row n txt)) ex_ids = Some (ex_cells n txt) -> encodes ex_tab ex_ids (ex_row n txt) (ex_cells n txt).
Proof. by split. Qed.

Lemma ex_empty_stored : stored ex_tab ex_ids ex_empty [] ex_key [].
Proof.
  destruct (Init_stored ex_tab ex_ids (new_RawData 1 0) ex0 [] ex_key 4 0 (Some (Ptr ex_key 0)) 0 (-1) 1000)
    as (c & s' & Hrun & Hor); [exact ex0_holds|by split; [repeat constructor|]|done|done|done|done|].
  unfold ex_empty, ex_state, ex_detached. rewrite Hrun. destruct Hor as [(-> & _)|(_ & H & _)]; [|exact H].
  exfalso. assert (fst <$> RawData.Init 0 4 (Some (Ptr ex_key 0)) 0 (-1) 1000 (new_RawData 1 0, ex0) = Some 0) as E by (vm_compute; reflexivity).
  rewrite Hrun in E. done.
Qed.

Lemma ex_insert s rows n txt (isDirty : bool) :
  stored ex_tab ex_ids s [] ex_key rows ->
  mapM (cell_bytes (ex_row n txt)) ex_ids = Some (ex_cells n txt) ->
  let r := SRow (if isDirty then OPER_INSERT else OPER_SELECT) (ex_cells n txt) in
  pos ex_key (rows ++ [r]) < 2 ^ 32 ->
  fst <$> InsertRow (ex_row n txt) false isDirty true s = Some 0 ->
  stored ex_tab ex_ids (ex_state (InsertRow (ex_row n txt) false isDirty true) s) [] ex_key (rows ++ [r]).
Proof.
  intros Hs Hm r Hlt Hc. unfold ex_state.
  assert (encodes ex_tab ex_ids (ex_row n txt) (ex_cells n txt)) as He by exact (ex_row_encodes _ _ Hm).
  assert (is_byte (if isDirty then OPER_INSERT else OPER_SELECT)) as Hf by (clear; destruct isDirty; split; done).
  destruct (InsertRowFlag_stored ex_tab ex_ids s [] ex_key rows (ex_row n txt) (ex_cells n txt) false
              (if isDirty then OPER_INSERT else OPER_SELECT) true Hs He Hf Hlt) as (c & s' & Hrun & Hor).
  unfold InsertRow in *. rewrite Hrun in *. cbn [fst fmap option_fmap option_map] in Hc. injection Hc as ->.
  destruct Hor as [(Hc & _)|[(_ & H)|(Hc & _)]]; [discriminate Hc|exact H|discriminate Hc].
Qed.

Definition ex_rows1 : list srow := [SRow OPER_SELECT (ex_cells 5 [97; 98])].
Definition ex_rows2 : list srow := ex_rows1 ++ [SRow OPER_INSERT (ex_cells 9 [120])].

Lemma ex_five_stored : stored ex_tab ex_ids ex_five [] ex_key ex_rows1.
Proof.
  refine (ex_insert ex_empty [] 5 [97; 98] false ex_empty_stored _ _ _); vm_compute; reflexivity.
Qed.
Lemma ex_two_stored : stored ex_tab ex_ids ex_two [] ex_key ex_rows2.
Proof.
  refine (ex_insert ex_five ex_rows1 9 [120] true ex_five_stored _ _ _); vm_compute; reflexivity.
Qed.
