(* ===== verification/RawStore.v ===== *)
(** * RawStore: a cursor over a list of rows

    The specification of [CRawData] ([src/cache/raw_data.cc]): the rows of a
    node, the current row and the next one to read, and what each operation
    makes of them, errors included.  A session of operations on the object
    and its allocator does what the specification says, and a value read back
    is the value stored, at the width of its column. *)

From stdpp Require Import list.
From S2P Require Import Prelude State Bitsop Value Protocol TableDef Field Mallocator RawData RawBuf RawRow RawRep RawSpec BinBytes RawExample.

#[local] Open Scope cint_scope.

(** ** Values *)

(** What a column of type [t] keeps of the value [v] in a value [v']: the
    number at the column's width, or the bytes of the string. *)
Definition kept_value (t : Z) (w : bool) (v v' : CValue) : Prop :=
  if numeric t then
    v_word v' = u64 (if w then v_word v
                     else if t =? DField_Signed then s32 (v_word v)
                     else if t =? DField_Unsigned then u32 (v_word v)
                     else dbl_of_flt (u32 (flt_of_dbl (v_flt v))))
  else
    bin_len (v_str v') = bin_len (v_str v) ∧
    ∃ l, Zlen l = bin_len (v_str v) ∧
      read_n (bin_ptr (v_str v)) (length l) = Some l ∧ read_n (bin_ptr (v_str v')) (length l) = Some l.

Lemma le_bytes_inj4 l k : le_bytes 4 (Zlen l) ++ l = le_bytes 4 (Zlen k) ++ k -> l = k.
Proof. intros E. by apply app_inj_1 in E as [_ ?]. Qed.

Lemma cell_kept stRow j c v v' :
  cell_bytes stRow j = Some c -> row_get stRow j = Some v -> cell_value (row_def stRow) j c v' ->
  ∃ t w, FieldType (row_def stRow) j = Some t ∧ wide (row_def stRow) j = Some w ∧ kept_value t w v v'.
Proof.
  intros (v0 & t & w & Hv & Ht & Hw & Hc)%cell_bytes_inv Hv2 (t' & w' & Ht' & Hw' & Hval). simplify_eq.
  exists t, w. do 2 (split; [done|]). unfold kept_value, numeric in *.
  destruct (Z.eqb_spec t DField_Signed) as [->|H1]; simpl in Hc, Hval |- *.
  { subst c. rewrite Hval, !le_value_bytes. destruct w; simpl num_size; [apply uwrap_idem|].
    f_equal. by apply (swrap_uwrap 32). }
  destruct (Z.eqb_spec t DField_Unsigned) as [->|H2]; simpl in Hc, Hval |- *.
  { subst c. rewrite Hval, !le_value_bytes. destruct w; [by apply uwrap_idem|done]. }
  destruct (Z.eqb_spec t DField_Float) as [->|H3]; simpl in Hc, Hval |- *.
  { subst c. rewrite Hval, !le_value_bytes. destruct w; simpl; [by apply uwrap_idem|done]. }
  destruct Hc as (l & Hl & Hr & Hb & -> & Hlt). destruct Hval as (k & E & Hk & Hh). apply le_bytes_inj4 in E as <-.
  split; [congruence|]. exists l. split_and!; [done|done|by apply read_n_holds].
Qed.

(** ** The specification *)

Record view := View { v_rows : list srow; v_cur : option nat; v_nxt : option nat }.

Inductive row_op :=
  | OInsert (stRow : CRowValue) (byFirst isDirty buf : bool)
  | OInsertN (rows : list CRowValue) (byFirst isDirty buf : bool)
  | ODecode (stRow : CRowValue) (flag : Z)
  | OReplace (stRow : CRowValue) (isDirty buf : bool)
  | ODelete (stRow : CRowValue)
  | OFlag (f : Z)
  | OClear
  | OStrip
  | ORewind
  | OAccessed (now : Z)
  | OUpdated (now : Z).

(** What the caller sees: the return code, and the row read. *)
Inductive row_out :=
  | Ret (c : Z)
  | Read (c f : Z) (row : CRowValue).

Definition ins_flag (isDirty : bool) : Z := if isDirty then OPER_INSERT else OPER_SELECT.
Definition front {X} (byFirst : bool) (new rows : list X) : list X := if byFirst then new ++ rows else rows ++ new.

Section spec.
Context (d : CTableDefinition) (ids : list Z) (key : list Z).

(** A row [row] with the contents of the cells. *)
Definition reads (old : CRowValue) (cells : list (list Z)) (row : CRowValue) : Prop :=
  row_def row = d ∧
  (∀ i c, (i, c) ∈ zip ids cells -> ∃ v, row_get row i = Some v ∧ cell_value d i c v) ∧
  (∀ i, i ∉ ids -> row_get row i = row_get old i).

(** When an operation may be called: the row values can be stored and fit the
    32-bit sizes, the cursor is at a row. *)
Definition op_pre (st : view) (o : row_op) : Prop :=
  let rows := v_rows st in
  match o with
  | OInsert v _ isDirty _ => ∃ cells, encodes d ids v cells ∧ pos key (rows ++ [SRow (ins_flag isDirty) cells]) < 2 ^ 32
  | OInsertN vs _ isDirty _ => ∃ cellss, Forall2 (encodes d ids) vs cellss ∧
      pos key (rows ++ (SRow (ins_flag isDirty) <$> cellss)) < 2 ^ 32
  | ODecode v _ => row_def v = d ∧ (∀ i, i ∈ ids -> is_Some (row_get v i)) ∧ ∃ i, v_nxt st = Some i ∧ (i < length rows)%nat
  | OReplace v _ _ => ∃ i cells, v_cur st = Some i ∧ (i < length rows)%nat ∧ encodes d ids v cells ∧
      pos key rows + 1 + Zlen (concat cells) < 2 ^ 32
  | ODelete v => row_def v = d ∧ ∃ i, v_cur st = Some i ∧ (i < length rows)%nat
  | OFlag f => is_byte f ∧ ∃ i, v_cur st = Some i ∧ (i < length rows)%nat
  | _ => True
  end.

Inductive row_step : view -> row_op -> row_out -> view -> Prop :=
  | step_insert rows cur nxt v byFirst isDirty buf cells :
      encodes d ids v cells ->
      row_step (View rows cur nxt) (OInsert v byFirst isDirty buf) (Ret 0)
        (View (front byFirst [SRow (ins_flag isDirty) cells] rows) None None)
  | step_insert_memory rows cur nxt v byFirst isDirty buf :
      row_step (View rows cur nxt) (OInsert v byFirst isDirty buf) (Ret EC_NO_MEM) (View rows None None)
  | step_insert_buffer rows cur nxt v isDirty cells :
      encodes d ids v cells ->
      row_step (View rows cur nxt) (OInsert v true isDirty false) (Ret (- ENOMEM))
        (View (rows ++ [SRow (ins_flag isDirty) cells]) None None)
  | step_insert_n rows cur nxt vs byFirst isDirty buf cellss :
      Forall2 (encodes d ids) vs cellss ->
      row_step (View rows cur nxt) (OInsertN vs byFirst isDirty buf) (Ret 0)
        (View (front byFirst (SRow (ins_flag isDirty) <$> cellss) rows) None None)
  | step_insert_n_memory rows cur nxt vs byFirst isDirty buf :
      row_step (View rows cur nxt) (OInsertN vs byFirst isDirty buf) (Ret EC_NO_MEM) (View rows None None)
  | step_insert_n_buffer rows cur nxt vs isDirty cellss :
      Forall2 (encodes d ids) vs cellss ->
      row_step (View rows cur nxt) (OInsertN vs true isDirty false) (Ret (- ENOMEM))
        (View (rows ++ (SRow (ins_flag isDirty) <$> cellss)) None None)
  | step_decode rows cur i v flag r row :
      rows !! i = Some r -> reads v (sr_cells r) row ->
      row_step (View rows cur (Some i)) (ODecode v flag) (Read 0 (sr_flag r) row)
        (if Z.land flag PRE_DECODE_ROW =? 0 then View rows (Some i) (Some (S i)) else View rows cur (Some i))
  | step_replace rows i nxt v (isDirty buf : bool) r cells :
      rows !! i = Some r -> encodes d ids v cells ->
      row_step (View rows (Some i) nxt) (OReplace v isDirty buf) (Ret 0)
        (View (<[i := SRow (if isDirty then OPER_UPDATE else sr_flag r) cells]> rows) (Some i) (Some (S i)))
  | step_replace_memory rows i nxt v isDirty buf :
      row_step (View rows (Some i) nxt) (OReplace v isDirty buf) (Ret EC_NO_MEM) (View rows (Some i) nxt)
  | step_replace_buffer rows i nxt v isDirty :
      row_step (View rows (Some i) nxt) (OReplace v isDirty false) (Ret (- ENOMEM)) (View rows (Some i) None)
  | step_delete rows i nxt v :
      row_step (View rows (Some i) nxt) (ODelete v) (Ret 0) (View (delete i rows) (Some i) (Some i))
  | step_flag rows i nxt f r :
      rows !! i = Some r ->
      row_step (View rows (Some i) nxt) (OFlag f) (Ret 0) (View (<[i := SRow f (sr_cells r)]> rows) (Some i) nxt)
  | step_clear rows cur nxt :
      row_step (View rows cur nxt) OClear (Ret 0) (View [] (Some 0%nat) (Some 0%nat))
  | step_strip st c :
      c = 0 ∨ c = EC_NO_MEM -> row_step st OStrip (Ret c) st
  | step_rewind rows cur nxt :
      row_step (View rows cur nxt) ORewind (Ret 0) (View rows (Some 0%nat) (Some 0%nat))
  | step_accessed st now : row_step st (OAccessed now) (Ret 0) st
  | step_updated st now : row_step st (OUpdated now) (Ret 0) st.

Inductive row_steps : view -> list row_op -> list row_out -> view -> Prop :=
  | steps_nil st : row_steps st [] [] st
  | steps_cons st o out st1 os outs st2 :
      row_step st o out st1 -> row_steps st1 os outs st2 -> row_steps st (o :: os) (out :: outs) st2.

(** Every operation is called when it may be, however the earlier ones end. *)
Inductive safe : view -> list row_op -> Prop :=
  | safe_nil st : safe st []
  | safe_cons st o os : op_pre st o -> (∀ out st1, row_step st o out st1 -> safe st1 os) -> safe st (o :: os).
End spec.

(** ** The code *)

Section code.
Context {A : Type} `{Mallocator A}.

Definition ret_code (m : RM (A:=A) Z) : RM row_out := c ← m; mret (Ret c).
Definition do_op (o : row_op) : RM (A:=A) row_out :=
  match o with
  | OInsert v byFirst isDirty buf => ret_code (InsertRow v byFirst isDirty buf)
  | OInsertN vs byFirst isDirty buf => ret_code (InsertNRows vs byFirst isDirty buf)
  | ODecode v flag => x ← DecodeRow v 0 flag; mret (Read x.1.1 x.1.2 x.2)
  | OReplace v isDirty buf => ret_code (ReplaceCurRow v isDirty buf)
  | ODelete v => ret_code (DeleteCurRow v)
  | OFlag f => ret_code (SetCurRowFlag f)
  | OClear => ret_code DeleteAllRows
  | OStrip => ret_code StripMem
  | ORewind => Rewind;; mret (Ret 0)
  | OAccessed now => UpdateLastAccessTimeByHour now;; mret (Ret 0)
  | OUpdated now => UpdateLastUpdateTimeByHour now;; mret (Ret 0)
  end.

Fixpoint do_ops (os : list row_op) : RM (A:=A) (list row_out) :=
  match os with
  | [] => mret []
  | o :: os => out ← do_op o; outs ← do_ops os; mret (out :: outs)
  end.
End code.

(** ** The code does what the specification says *)

Section refine.
Context {A : Type} `{MallocatorLaws A} (d : CTableDefinition) (ids : list Z).
Implicit Types (s : CRawData * A) (u : list block) (key : list Z) (rows : list srow).

Definition at_row key rows (off : Z) (o : option nat) : Prop :=
  match o with Some i => (i <= length rows)%nat ∧ off = pos key (take i rows) | None => True end.

(** The object and its chunk hold the rows and stand at the cursor. *)
Record shows s u key (st : view) : Prop := {
  sh_stored : stored d ids s u key (v_rows st);
  sh_cur : at_row key (v_rows st) (m_uiRowOffset s.1) (v_cur st);
  sh_nxt : at_row key (v_rows st) (m_uiOffset s.1) (v_nxt st)
}.

(** A row of the list, with those before and behind it. *)
Lemma row_split rows i : (i < length rows)%nat -> ∃ r post, rows = take i rows ++ r :: post ∧ rows !! i = Some r.
Proof.
  intros [r Hr]%lookup_lt_is_Some. exists r, (drop (S i) rows). split; [|done]. symmetry. by apply take_drop_middle.
Qed.

Lemma insert_split rows i r r' post : rows = take i rows ++ r :: post -> (i < length rows)%nat ->
  <[i := r']> rows = take i rows ++ r' :: post.
Proof.
  intros E Hi. rewrite E at 1. assert (length (take i rows) = i) as Hl by (rewrite length_take; lia).
  by rewrite <- Hl at 1; rewrite <- (Nat.add_0_r (length _)), insert_app_r.
Qed.
Lemma delete_split rows i r post : rows = take i rows ++ r :: post -> (i < length rows)%nat ->
  delete i rows = take i rows ++ post.
Proof.
  intros E Hi. rewrite E at 1. assert (length (take i rows) = i) as Hl by (rewrite length_take; lia).
  rewrite <- Hl at 1. by rewrite delete_middle.
Qed.
Lemma at_here key rows i rest off : (i <= length rows)%nat -> off = pos key (take i rows) -> at_row key (take i rows ++ rest) off (Some i).
Proof.
  intros Hi ->. split; [rewrite length_app, length_take; lia|]. f_equal. rewrite take_app_le, take_take by (rewrite length_take; lia).
  f_equal. lia.
Qed.
Lemma at_next key rows i r rest off : (i <= length rows)%nat -> off = pos key (take i rows ++ [r]) ->
  at_row key (take i rows ++ r :: rest) off (Some (S i)).
Proof.
  intros Hi ->. assert (length (take i rows) = i) as Hl by (rewrite length_take; lia).
  split; [rewrite length_app, Hl; simpl; lia|]. f_equal. rewrite (cons_middle r (take i rows) rest), app_assoc.
  rewrite take_app_length' by (rewrite length_app, Hl; simpl; lia). done.
Qed.
Lemma at_first key rows off : off = pos key [] -> at_row key rows off (Some 0%nat).
Proof. intros ->. split; [lia|done]. Qed.

Definition row_size (r : srow) : Z := Zlen (row_bytes r).
Lemma pos_sizes key rows rows' : row_size <$> rows = row_size <$> rows' -> pos key rows = pos key rows'.
Proof.
  revert rows'. induction rows as [|r rows IH]; intros [|r' rows'] E; try done. rewrite !fmap_cons in E.
  pose proof (f_equal (hd 0) E) as E1. pose proof (f_equal tl E) as E2. cbn [hd tl] in E1, E2.
  specialize (IH _ E2). unfold row_size, pos in *. rewrite !rows_bytes_cons, !length_app. lia.
Qed.
Lemma at_row_sizes key rows rows' off o : row_size <$> rows = row_size <$> rows' -> at_row key rows off o -> at_row key rows' off o.
Proof.
  intros E. destruct o as [i|]; [|done]. intros [Hi ->]. split.
  - by rewrite <- (length_fmap row_size), <- E, length_fmap.
  - apply pos_sizes. by rewrite !fmap_take, E.
Qed.

Lemma stored_rows_irrel s o u key rows :
  stored d ids s u key rows -> m_pchContent o = m_pchContent s.1 -> _handle o = _handle s.1 -> _size o = _size s.1 ->
  m_uchKeyIdx o = m_uchKeyIdx s.1 -> m_uiDataSize o = m_uiDataSize s.1 -> m_uiRowCnt o = m_uiRowCnt s.1 ->
  m_uiDataStart o = m_uiDataStart s.1 -> m_uiKeyStart o = m_uiKeyStart s.1 ->
  m_uiGetCountOffset o = m_uiGetCountOffset s.1 -> m_uiTimeStampOffSet o = m_uiTimeStampOffSet s.1 ->
  m_iKeySize o = m_iKeySize s.1 -> meta_bytes o = meta_bytes s.1 -> stored d ids (o, s.2) u key rows.
Proof.
  intros Hs E1 E2 E3 E4 E5 E6 E7 E8 E9 E10 E11 E12. destruct Hs as [? ? [slack Hb] ? ? ? ? ? ? ?].
  constructor; cbn [fst]; rewrite ?E4, ?E5, ?E6, ?E7, ?E8, ?E9, ?E10, ?E11; try done.
  exists slack. rewrite E12. by apply (buf_set_obj s).
Qed.

Lemma ret_code_run (m : RM Z) s (Q : row_out -> CRawData * A -> Prop) :
  runs m s (λ c s', Q (Ret c) s') -> runs (ret_code m) s Q.
Proof. intros Hm. eapply runs_bind; [exact Hm|]. intros c s' Hq. by apply runs_ret. Qed.

(** One operation *)
Lemma do_op_run s u key st o :
  shows s u key st -> op_pre d ids key st o ->
  runs (do_op o) s (λ out s', ∃ st', row_step d ids st o out st' ∧ shows s' u key st').
Proof.
  destruct st as [rows cur nxt]. intros [Hs Hcur Hnxt] Hp. cbn [v_rows v_cur v_nxt] in *.
  destruct o as [v byFirst isDirty buf|vs byFirst isDirty buf|v flag|v isDirty buf|v|f| | | |now|now]; cbn [op_pre v_rows v_cur v_nxt] in Hp.
  - destruct Hp as (cells & He & Hlt). apply ret_code_run. eapply runs_mono.
    { apply (InsertRowFlag_stored d ids s u key rows v cells byFirst (ins_flag isDirty) buf Hs He); [by destruct isDirty|done]. }
    intros c s' [(-> & H1 & _)|[(-> & H1)|(-> & -> & -> & _ & _ & H1)]]; eexists; (split; [by econstructor|by split]).
  - destruct Hp as (cellss & He & Hlt). apply ret_code_run. eapply runs_mono.
    { by apply (InsertNRows_stored d ids s u key rows vs cellss byFirst isDirty buf Hs He). }
    intros c s' [(-> & H1 & _)|[(-> & H1)|(-> & -> & -> & _ & _ & H1)]]; eexists; (split; [by econstructor|by split]).
  - destruct Hp as (Hd & Hv & i & -> & Hi). destruct Hnxt as [_ Hnxt]. destruct (row_split rows i Hi) as (r & post & E & Hr).
    rewrite E in Hs. destruct (DecodeRow_stored d ids s u key _ r post v 0 flag Hs Hnxt Hd Hv)
      as (row & s' & Hrun & Hrd & Hcells & Hrest & Hs' & _ & _ & Hoff & _).
    eapply runs_step; [exact Hrun|]. apply runs_ret. cbn [fst snd]. eexists. split; [by apply (step_decode d ids rows cur i v flag r row)|].
    destruct (Z.land flag PRE_DECODE_ROW =? 0); destruct Hoff as [Ho1 Ho2].
    + split; cbn [v_rows v_cur v_nxt]; rewrite E; [done| |]; [apply at_here|apply at_next]; done || lia.
    + split; cbn [v_rows v_cur v_nxt]; [by rewrite E| |]; rewrite ?Ho1, ?Ho2; [done|]. split; [lia|done].
  - destruct Hp as (i & cells & -> & Hi & He & Hlt). destruct Hcur as [_ Hcur]. destruct (row_split rows i Hi) as (r & post & E & Hr).
    rewrite E in Hs. apply ret_code_run. eapply runs_mono.
    { apply (ReplaceCurRow_stored d ids s u key _ r post v cells isDirty buf Hs Hcur He). rewrite <- E.
      unfold row_bytes. simpl. lia. }
    intros c s' [(-> & H1 & _ & _ & Ho1 & Ho2 & _)|[(-> & H1 & -> & _ & Ho1)|(-> & H1 & Ho1 & Ho2)]]; eexists.
    + split; [by econstructor|]. split; cbn [v_rows v_cur v_nxt]; [by rewrite E| |by rewrite Ho2].
      rewrite Ho1, Hcur. split; [lia|done].
    + split; [by econstructor|]. split; cbn [v_rows v_cur v_nxt]; [by rewrite E| |done].
      rewrite Ho1, Hcur. split; [lia|done].
    + split; [by econstructor|]. split; cbn [v_rows v_cur v_nxt]; rewrite (insert_split _ _ _ _ _ E Hi); [done| |].
      * apply at_here; [lia|done].
      * apply at_next; [lia|done].
  - destruct Hp as (Hd & i & -> & Hi). destruct Hcur as [_ Hcur]. destruct (row_split rows i Hi) as (r & post & E & Hr).
    rewrite E in Hs. apply ret_code_run. eapply runs_mono; [by apply (DeleteCurRow_stored d ids s u key _ r post v Hs)|].
    intros c s' (-> & H1 & Ho1 & Ho2 & _). eexists. split; [by econstructor|].
    split; cbn [v_rows v_cur v_nxt]; rewrite (delete_split _ _ _ _ E Hi); [done| |]; apply at_here; done || lia.
  - destruct Hp as (Hf & i & -> & Hi). pose proof Hcur as [_ Hc]. destruct (row_split rows i Hi) as (r & post & E & Hr).
    rewrite E in Hs. apply ret_code_run. eapply runs_mono; [by apply (SetCurRowFlag_stored d ids s u key _ r post f Hs)|].
    intros c s' (-> & Eo & H1). eexists. split; [by econstructor|].
    split; cbn [v_rows v_cur v_nxt]; rewrite ?Eo; [by rewrite (insert_split _ _ _ _ _ E Hi)| |].
    + rewrite (insert_split _ _ _ _ _ E Hi). apply at_here; [lia|done].
    + eapply at_row_sizes; [|exact Hnxt]. rewrite list_fmap_insert. symmetry. apply list_insert_id.
      by rewrite list_lookup_fmap, Hr.
  - apply ret_code_run. eapply runs_mono; [by apply (DeleteAllRows_stored d ids s u key rows)|].
    intros c s' (-> & H1 & Ho1 & Ho2). eexists. split; [by econstructor|]. by split; [|apply at_first..].
  - apply ret_code_run. eapply runs_mono; [by apply (StripMem_stored d ids s u key rows)|].
    intros c s' (H1 & Hc & Ho1 & Ho2). eexists. split; [constructor; tauto|]. by split; cbn [v_rows v_cur v_nxt]; rewrite ?Ho1, ?Ho2.
  - unfold do_op. eapply runs_step; [done|]. apply runs_ret. eexists. split; [by econstructor|].
    pose proof (sd_start _ _ _ _ _ _ Hs) as Hst. split; [by apply (stored_rows_irrel s)|by apply at_first..].
  - eapply runs_bind; [by apply (UpdateLastAccessTimeByHour_stored d ids s u key rows now)|].
    intros _ s' [E H1]. apply runs_ret. eexists. split; [by econstructor|]. by split; cbn [v_rows v_cur v_nxt]; rewrite ?E.
  - eapply runs_bind; [by apply (UpdateLastUpdateTimeByHour_stored d ids s u key rows now)|].
    intros _ s' [E H1]. apply runs_ret. eexists. split; [by econstructor|]. by split; cbn [v_rows v_cur v_nxt]; rewrite ?E.
Qed.

End refine.

(** ** Sessions *)

Section sessions.
Context {A : Type} `{MallocatorLaws A} (d : CTableDefinition) (ids : list Z).

(** [C13] A session of operations on a node's rows, each called when it may
    be, completes; the return codes and the rows read are those the list of
    rows and the cursor allow, and the object and its chunk stand for the rows
    and the cursor that are left. *)
Theorem row_session (s : CRawData * A) (u : list block) (key : list Z) (st : view) (os : list row_op) :
  shows d ids s u key st -> safe d ids key st os ->
  runs (do_ops os) s (λ outs s', ∃ st', row_steps d ids st os outs st' ∧ shows d ids s' u key st').
Proof.
  revert s st. induction os as [|o os IH]; intros s st Hs Hsafe.
  { apply runs_ret. exists st. by split; [constructor|]. }
  inversion Hsafe as [|? ? ? Hp Hnext]; subst. eapply runs_bind; [by apply do_op_run|].
  intros out s1 (st1 & Hst & Hs1). eapply runs_bind; [by apply (IH s1 st1 Hs1), (Hnext out)|].
  intros outs s2 (st2 & Hst2 & Hs2). apply runs_ret. exists st2. split; [by econstructor|done].
Qed.

(** [C15] Inserting a row, and the room it needs: the row is added in front or
    behind, or it stays behind because the buffer for moving it was refused
    ([-ENOMEM]), or [EC_NO_MEM] is returned, the rows are unchanged,
    the chunk was too small and the size asked for is exactly the need. *)
Theorem InsertRow_correct (s : CRawData * A) (u : list block) (key : list Z) (rows : list srow)
    (stRow : CRowValue) (cells : list (list Z)) (byFirst isDirty buf : bool) :
  stored d ids s u key rows -> encodes d ids stRow cells ->
  let r := SRow (ins_flag isDirty) cells in pos key (rows ++ [r]) < 2 ^ 32 ->
  runs (InsertRow stRow byFirst isDirty buf) s (λ c s',
    (c = 0 ∧ stored d ids s' u key (front byFirst [r] rows)) ∨
    (c = - ENOMEM ∧ byFirst = true ∧ buf = false ∧ rows ≠ [] ∧ stored d ids s' u key (rows ++ [r])) ∨
    (c = EC_NO_MEM ∧ stored d ids s' u key rows ∧ _size s.1 < pos key (rows ++ [r]) ∧
       m_uiNeedSize s'.1 = pos key (rows ++ [r]))).
Proof.
  intros Hs He r Hlt. eapply runs_mono.
  { by apply (InsertRowFlag_stored d ids s u key rows stRow cells byFirst (ins_flag isDirty) buf Hs He); [destruct isDirty|]. }
  unfold inserted, front. intros c s'. tauto.
Qed.

(** [C14] A row inserted in front is the first row of any object that is
    attached to the chunk later, in whatever state it was: reading it succeeds
    and gives the flag written and, in every column that rows keep, the value
    stored at the width of the column. *)
Theorem insert_attach_read (s s1 : CRawData * A) (u : list block) (key : list Z) (rows : list srow)
    (stRow : CRowValue) (cells : list (list Z)) (isDirty : bool)
    (o : CRawData) (kidx laid lcmodid : Z) (old : CRowValue) :
  stored d ids s u key rows -> encodes d ids stRow cells ->
  pos key (rows ++ [SRow (ins_flag isDirty) cells]) < 2 ^ 32 ->
  InsertRow stRow true isDirty true s = Some (0, s1) ->
  stored_columns d (u8 kidx) = Some ids -> row_def old = d -> (∀ i, i ∈ ids -> is_Some (row_get old i)) ->
  ∃ s2 row s3,
    Attach (_handle s1.1) kidx (m_iKeySize s1.1) laid lcmodid (o, s1.2) = Some (0, s2) ∧
    DecodeRow old 0 0 s2 = Some (0, ins_flag isDirty, row, s3) ∧
    stored d ids s3 u key (SRow (ins_flag isDirty) cells :: rows) ∧
    ∀ i, i ∈ ids -> ∃ v v' t w, row_get stRow i = Some v ∧ row_get row i = Some v' ∧
      FieldType d i = Some t ∧ wide d i = Some w ∧ kept_value t w v v'.
Proof.
  intros Hs He Hlt Hi Hk Hd Hold. set (r := SRow _ _) in *. pose proof He as [Hdef Hm].
  destruct (runs_inv _ _ _ _ _ (InsertRow_correct s u key rows stRow cells true isDirty true Hs He Hlt) Hi)
    as [[_ H1]|[(? & _)|(? & _)]]; [|done..]. simpl in H1.
  destruct (sd_buf _ _ _ _ _ _ H1) as [slack Hb].
  destruct (Attach_stored d ids o s1.2 u (_handle s1.1) key (r :: rows) (meta_bytes s1.1) slack (m_iKeySize s1.1) kidx laid lcmodid)
    as (c & s2 & Ha & -> & H2 & _ & Ho & _).
  { by apply buf_holds in Hb. } { done. } { by apply H1. } { by apply H1. } { done. }
  destruct (DecodeRow_stored d ids s2 u key [] r rows old 0 0 H2 Ho Hd Hold) as (row & s3 & Hrun & _ & Hcells & _ & H3 & _).
  exists s2, row, s3. split_and!; [done|done|done|]. intros i Hin.
  apply mapM_Some in Hm. apply list_elem_of_lookup in Hin as [j Hj].
  destruct (Forall2_lookup_l _ _ _ _ _ Hm Hj) as (c & Hc & Hcell).
  destruct (Hcells i c) as (v' & Hv' & Hval).
  { apply list_elem_of_lookup. exists j. apply lookup_zip_with_Some. by exists i, c. }
  destruct (cell_bytes_inv _ _ _ Hcell) as (v & _ & _ & Hv & _). rewrite <- Hdef in Hval.
  destruct (cell_kept stRow i c v v' Hcell Hv Hval) as (t & w & ? & ? & ?).
  exists v, v', t, w. by rewrite <- Hdef.
Qed.
End sessions.

(** ** On the shared-memory allocator *)

Definition ex_os : list row_op := [ORewind; ODecode (ex_row 0 []) 0; OReplace (ex_row 6 [99; 100; 101]) true true; ODecode (ex_row 0 []) 0; ODelete (ex_row 0 [])].

Lemma ex_two_shows : shows ex_tab ex_ids ex_two [] ex_key (View ex_rows2 None None).
Proof. split; [exact ex_two_stored|done|done]. Qed.
Lemma ex_row_values n txt i : i ∈ ex_ids -> is_Some (row_get (ex_row n txt) i).
Proof. intros Hi. repeat (apply elem_of_cons in Hi as [->|Hi]; [by eexists|]). by apply elem_of_nil in Hi. Qed.

Lemma ex_safe : safe ex_tab ex_ids ex_key (View ex_rows2 None None) ex_os.
Proof.
  constructor; [done|]. intros ? ? Hst. inversion Hst; subst.
  constructor. { split; [done|]. split; [apply ex_row_values|]. exists 0%nat. split; [done|simpl; lia]. }
  clear Hst. intros ? ? Hst. inversion Hst; subst. constructor.
  { exists 0%nat, (ex_cells 6 [99; 100; 101]). split_and!; [done|simpl; lia|by split|done]. }
  clear Hst. intros ? ? Hst. inversion Hst; subst.
  - constructor. { split; [done|]. split; [apply ex_row_values|]. exists 1%nat. split; [done|simpl; lia]. }
    clear Hst. intros ? ? Hst. inversion Hst; subst. constructor.
    { split; [done|]. exists 1%nat. split; [done|simpl; lia]. }
    intros. constructor.
  - constructor. { split; [done|]. split; [apply ex_row_values|]. exists 1%nat. split; [done|simpl; lia]. }
    clear Hst. intros ? ? Hst. inversion Hst; subst. constructor.
    { split; [done|]. exists 1%nat. split; [done|simpl; lia]. }
    intros. constructor.
Qed.

Lemma row_session_witness :
  runs (do_ops ex_os) ex_two (λ outs s', ∃ st', row_steps ex_tab ex_ids (View ex_rows2 None None) ex_os outs st' ∧
    shows ex_tab ex_ids s' [] ex_key st').
Proof. apply (row_session ex_tab ex_ids ex_two [] ex_key _ ex_os ex_two_shows ex_safe). Defined.

Lemma InsertRow_correct_witness :
  runs (InsertRow (ex_row 8 []) true true true) ex_two (λ c s',
    (c = 0 ∧ stored ex_tab ex_ids s' [] ex_key (SRow OPER_INSERT (ex_cells 8 []) :: ex_rows2)) ∨ c ≠ 0).
Proof.
  eapply runs_mono.
  { apply (InsertRow_correct ex_tab ex_ids ex_two [] ex_key ex_rows2 (ex_row 8 []) (ex_cells 8 []) true true true ex_two_stored);
      [by split|by vm_compute]. }
  intros c s' [[-> H]|[(-> & _)|(-> & _)]]; [left; by split|by right|by right].
Defined.

Lemma insert_attach_read_witness :
  ∃ s2 row s3, Attach 8216 0 4 (-1) (-1) (new_RawData 0 0, (ex_state (InsertRow (ex_row (-3) []) true true true) ex_two).2) = Some (0, s2) ∧
    DecodeRow (ex_row 0 []) 0 0 s2 = Some (0, OPER_INSERT, row, s3) ∧ v_s64 <$> row_get row 1 = Some (-3).
Proof.
  set (s1 := ex_state _ _).
  destruct (insert_attach_read ex_tab ex_ids ex_two s1 [] ex_key ex_rows2 (ex_row (-3) []) (ex_cells (-3) []) true
              (new_RawData 0 0) 0 (-1) (-1) (ex_row 0 []) ex_two_stored) as (s2 & row & s3 & Ha & Hd & _ & Hv).
  - by split.
  - by vm_compute.
  - vm_compute; reflexivity.
  - by vm_compute.
  - done.
  - apply ex_row_values.
  - exists s2, row, s3. split; [exact Ha|]. split; [exact Hd|].
    destruct (Hv 1 ltac:(by left)) as (v & v' & t & w & E1 & E2 & Ht & Hw & Hk). rewrite E2.
    assert (t = DField_Signed) as -> by (vm_compute in Ht; by injection Ht as <-). assert (w = false) as -> by (vm_compute in Hw; by injection Hw as <-).
    vm_compute in E1. injection E1 as <-. unfold kept_value in Hk. simpl. unfold v_s64. by rewrite Hk.
Defined.
