(* ===== verification/RawCopy.v ===== *)
(** * RawCopy: copies of rows, blocks kept in place

    [CopyRow] of [src/cache/raw_data.cc] against the rows, and
    what the requests on a node need to know of a new row value and of
    [StripMem] on an allocator that shrinks in place. *)

From stdpp Require Import list.
From S2P Require Import Prelude State Bitsop Value Protocol TableDef Field Mallocator RawData RawBuf RawRow RawRep RawSpec.

#[local] Open Scope cint_scope.

(** ** A new row value *)

Lemma colids_range d j n ids i : colids d j n = Some ids -> i ∈ ids -> j <= i < j + Z.of_nat n.
Proof.
  revert j ids. induction n as [|n IH]; intros j ids H Hi; simpl in H.
  { simplify_eq. by apply elem_of_nil in Hi. }
  destruct (IsDiscard d j) as [k|]; [|done]. simpl in H. destruct (colids d (j + 1) n) as [l|] eqn:E; [|done].
  simpl in H. simplify_eq. destruct (k =? 0).
  - apply elem_of_cons in Hi as [->|Hi]; [lia|]. specialize (IH _ _ E Hi). lia.
  - specialize (IH _ _ E Hi). lia.
Qed.

Lemma new_row_get d kidx ids i :
  0 <= kidx -> stored_columns d kidx = Some ids -> i ∈ ids -> is_Some (row_get (new_RowValue d) i).
Proof.
  intros Hk Hc Hi. apply (colids_range _ _ _ _ _ Hc) in Hi. unfold row_get, row_FieldValue. cbn [row_def new_RowValue].
  destruct (Z.leb_spec 0 i); [|lia]. destruct (Z.leb_spec i (numFields d)); [|lia]. cbn [andb]. unfold row_at.
  rewrite <- (Z2Nat.id i) by lia. rewrite rd_nat. unfold new_RowValue. cbn [row_value].
  rewrite (lookup_replicate_2 _ _ (Z.to_nat i)) by lia. by eexists.
Qed.

(** ** Writing a row that was read *)

(** [float] columns are kept as [float] and read as [double]; the others come
    back as they were. *)
Definition exact_column (d : CTableDefinition) (i : Z) : Prop :=
  ∀ w, FieldType d i = Some DField_Float -> wide d i = Some w -> w = true.

Lemma le_bytes_wrap n x y : uwrap (8 * Z.of_nat n) x = uwrap (8 * Z.of_nat n) y -> le_bytes n x = le_bytes n y.
Proof.
  intros E. pose proof (le_bytes_value _ (le_bytes_bytes n x)) as Hx. pose proof (le_bytes_value _ (le_bytes_bytes n y)) as Hy.
  rewrite length_le_bytes, le_value_bytes in Hx, Hy. unfold uwrap in E. by rewrite <- Hx, E, Hy.
Qed.
Lemma uwrap_32_64 x : uwrap 32 (u64 x) = uwrap 32 x.
Proof. unfold uwrap. apply Z.mod_mod_divide. by exists (2 ^ 32). Qed.

Lemma cell_reencode d row i c v :
  row_def row = d -> is_cell d i c -> cell_value d i c v -> row_get row i = Some v -> exact_column d i ->
  cell_bytes row i = Some c.
Proof.
  intros Hd (t & w & Ht & Hw & Hb & Hc) (t' & w' & Ht' & Hw' & Hv) Hg Hex. simplify_eq. unfold cell_bytes.
  rewrite Hg. osimpl. rewrite Ht. osimpl. rewrite Hw. osimpl. destruct (numeric t) eqn:Hn.
  - f_equal. assert ((t =? DField_Float) && negb w = false) as ->.
    { destruct (Z.eqb_spec t DField_Float) as [->|]; [|done]. by rewrite (Hex w Ht Hw). }
    rewrite <- (le_bytes_value c Hb), Hc. apply le_bytes_wrap. rewrite Hv. destruct w; cbn [num_size].
    + apply uwrap_idem.
    + change (8 * Z.of_nat 4) with 32. rewrite uwrap_32_64. unfold numeric in Hn. destruct (t =? DField_Signed); [by apply uwrap_swrap|].
      destruct (t =? DField_Unsigned); [done|]. destruct (Z.eqb_spec t DField_Float) as [->|]; [|done].
      by specialize (Hex false Ht Hw).
  - destruct Hv as (l & -> & Hl & Hh), Hc as (l' & E & Hlt). apply app_inj_1 in E as [_ <-]; [|done].
    apply Forall_app in Hb as [_ Hb]. destruct (Z.ltb_spec (bin_len (v_str v)) 0); [lia|].
    rewrite Hl, Nat2Z.id, (read_n_holds _ _ Hh). osimpl. by rewrite (proj2 (bytes_forallb l) Hb).
Qed.

Lemma reads_encodes d ids row cells :
  row_def row = d -> Forall2 (is_cell d) ids cells ->
  (∀ i c, (i, c) ∈ zip ids cells -> ∃ v, row_get row i = Some v ∧ cell_value d i c v) ->
  Forall (exact_column d) ids -> mapM (cell_bytes row) ids = Some cells.
Proof.
  intros Hd Hc Hr Hex. apply mapM_Some. revert Hr Hex. induction Hc as [|i c ids cells Hic Hc IH]; intros Hr Hex; [constructor|].
  apply Forall_cons in Hex as [Hi Hex]. constructor.
  - destruct (Hr i c ltac:(by left)) as (v & Hg & Hv). by apply (cell_reencode d row i c v).
  - apply IH; [|done]. intros i' c' Hin. apply Hr. by right.
Qed.

Section copy.
Context {A : Type} `{MallocatorLaws A} (d : CTableDefinition) (ids : list Z).
Implicit Types (s : CRawData * A) (u : list block) (x y z key : list Z) (rows : list srow) (r : srow).

Abbreviation stored := (stored d ids).

(** The bytes of the rows alone, of the row at the cursor *)
Lemma stored_content s u key rows :
  stored s u key rows -> ∃ slack bs, bs = head_bytes (pos key rows) (Zlen rows) (meta_bytes s.1) key ++ rows_bytes rows ++ slack ∧
    buf s u bs ∧ _size s.1 = Zlen bs ∧ content_read 0 (Z.to_nat (_size s.1)) s = Some (bs, s).
Proof.
  intros Hs. destruct (sd_buf _ _ _ _ _ _ Hs) as [slack Hb]. eexists slack, _. split; [done|]. split; [exact Hb|].
  pose proof (buf_size _ _ _ Hb) as Hsz. split; [done|]. rewrite Hsz, Nat2Z.id.
  apply (content_read_at s u [] _ []); [by rewrite app_nil_r|done|done].
Qed.

Lemma CopyRow_stored s u key rows r ref mem :
  stored s u key rows -> m_uiOffset s.1 = pos key rows -> row_ok d ids r ->
  m_uiOffset ref -u32 m_uiRowOffset ref = Zlen (row_bytes r) ->
  read_n (padd mem (m_uiRowOffset ref)) (length (row_bytes r)) = Some (row_bytes r) ->
  pos key (rows ++ [r]) < 2 ^ 32 ->
  runs (CopyRow ref mem) s (λ c s',
    (c = EC_NO_MEM ∧ stored s' u key rows ∧ m_uiOffset s'.1 = pos key rows) ∨
    (c = 0 ∧ stored s' u key (rows ++ [r]) ∧ m_uiOffset s'.1 = pos key (rows ++ [r]))).
Proof.
  intros Hs Ho Hr Hsize Hread Hlt. destruct (stored_used _ _ _ _ _ _ Hs) as (slack & Hb & Hu & _).
  pose proof (stored_bounds _ _ _ _ _ _ Hs) as [Hpos Hcnt]. pose proof (Zlen_row r) as Hr1. rewrite pos_snoc in *.
  pose proof (sd_size _ _ _ _ _ _ Hs) as Hsz. pose proof (sd_cnt _ _ _ _ _ _ Hs) as Hc.
  unfold CopyRow. rewrite Hsize. assert (bytes (row_bytes r)) as Hbr by (by eapply row_bytes_bytes).
  remember (row_bytes r) as b eqn:Hbe.
  eapply runs_bind; [apply (ExpandChunk_at _ _ _ _ (Zlen b) Hb); rewrite ?Hu; done || lia|]. rewrite Hu.
  intros c s1 [(-> & _ & E & H1)|(-> & h & sz & slack' & E & H1 & Hn & _)].
  { apply runs_ret. left. split; [done|]. split; [by eapply need_stored|]. by rewrite E. }
  cbn [Z.eqb negb]. rewrite Nat2Z.id, Hread. eapply runs_step; [done|]. eapply runs_step; [apply rget_ok|].
  assert (m_uiOffset s1.1 = pos key rows) as -> by (by rewrite E).
  destruct (take_split slack' (length b) Hn) as (y & z & -> & Hy). rewrite <- Hu in *.
  eapply runs_bind.
  { eapply (content_write_at s1 u _ y z _ b H1); done. }
  intros _ s2 [E2 H2]. rewrite E in E2. rewrite Hu in *.
  do 2 (eapply runs_step; [apply rput_ok || apply rget_ok|]). do 3 (eapply runs_step; [apply rput_ok || apply rget_ok|]).
  cbn [fst]. rewrite E2. simpl. rewrite Hsz, Hc, !uwrap_small by lia.
  rewrite <- !app_assoc in H2.
  eapply (set_header_at _ u _ _ (meta_bytes s.1) key); [eapply buf_set_obj; [exact H2|by rewrite E2..]|].
  intros s3 E3 H3. apply runs_ret. right. split; [done|]. cbn [fst] in E3. rewrite E3. split; [|done].
  apply (stored_head d ids s _ u key rows _ (meta_bytes s.1) z Hs); rewrite ?E3; try done.
  - apply Forall_app. split; [apply Hs|by constructor].
  - rewrite rows_bytes_app, <- app_assoc. change (rows_bytes [r]) with (row_bytes r ++ []). rewrite app_nil_r, <- Hbe. exact H3.
  - simpl. by rewrite pos_snoc, <- Hbe.
  - simpl. rewrite length_app. simpl. lia.
Qed.

(** ** Room behind the rows *)

(** A row has its flag and at least the four bytes of one cell. *)
Lemma row_size_min r : row_ok d ids r -> ids ≠ [] -> 5 <= Zlen (row_bytes r).
Proof.
  intros [_ Hc] Hne. unfold row_bytes. inversion Hc as [|i c l cs Hic _ E1 E2]; subst; [done|].
  destruct Hic as (t & w & _ & _ & _ & Hl). cbn [concat]. assert (4 <= length c)%nat as H4.
  { destruct (numeric t); [rewrite Hl; by destruct w; cbn; lia|]. destruct Hl as (l' & -> & _). rewrite length_app. cbn. lia. }
  cbn [length]. rewrite length_app. lia.
Qed.

(** With some room behind the rows the chunk is made smaller where it is. *)
Lemma StripMem_in_place `{!MallocatorInPlace A} s u key rows :
  stored s u key rows -> pos key rows + 4 <= _size s.1 ->
  runs StripMem s (λ _ s', stored s' u key rows ∧ _handle s'.1 = _handle s.1).
Proof.
  intros Hs Hroom. destruct (stored_used _ _ _ _ _ _ Hs) as (slack & Hb & Hu & Hsz).
  pose proof (stored_bounds _ _ _ _ _ _ Hs) as [Hpos _]. pose proof (sd_size _ _ _ _ _ _ Hs) as Hd.
  unfold StripMem. do 2 (eapply runs_step; [apply rget_ok|]). rewrite Hd.
  destruct (realloc_at s u _ slack (pos key rows) Hb) as (h & s1 & Hm & E & Hor); [lia|].
  eapply runs_step; [exact Hm|]. unfold on_mal in Hm. apply bind_Some in Hm as ([h' a'] & Hm & [= -> <-]).
  assert (h = 0 ∨ h = _handle s.1) as Hh.
  { apply (mal_in_place _ _ _ u (pos key rows) _ _ (buf_holds _ _ _ Hb)) in Hm; [done|lia|]. rewrite <- (buf_size _ _ _ Hb). lia. }
  destruct Hor as [[-> Ha]|(Hh0 & bs & Ha & _ & Hbs)].
  - cbn [Z.eqb]. eapply runs_step; [apply rput_ok|]. apply runs_ret. split; [|done].
    eapply (need_stored _ _ s _ u key rows _ slack Hs); [reflexivity|]. destruct Hb as [H1 H2 H3]. by split.
  - destruct Hh as [?| ->]; [done|]. destruct (Z.eqb_spec (_handle s.1) 0); [done|]. destruct (Hbs ltac:(lia)) as [slack' ->].
    eapply runs_bind; [by apply take_handle_at|]. intros _ s2 [E2 H2]. apply runs_ret.
    split; [by eapply stored_moved|]. by rewrite E2.
Qed.
End copy.
