(* ===== verification/RawFrame.v ===== *)
(** * RawFrame: what the operations of [CRawData] leave alone

    [_autodestroy], set by the constructor of [CRawData]
    ([src/cache/raw_data.h]), decides whether the destructor frees the chunk;
    no operation between assigns it.  [keeps] is closed under the constructs
    the operations are written with; the operations a private row goes through
    are in the hint database [keeps]. *)

From stdpp Require Import list.
From S2P Require Import Prelude State Bitsop Value Protocol TableDef Field Mallocator RawData.

Create HintDb keeps.

Section frame.
Context {A : Type} `{Mallocator A}.

Definition keeps {X} (m : RM (A:=A) X) : Prop :=
  ∀ s x s', m s = Some (x, s') -> _autodestroy s'.1 = _autodestroy s.1.

Lemma keeps_ret {X} (x : X) : keeps (mret x).
Proof. by intros s y s' [= <- <-]. Qed.
Lemma keeps_rget {X} (f : CRawData -> X) : keeps (rget f).
Proof. by intros s y s' [= <- <-]. Qed.
Lemma keeps_lift {X} (o : option X) : keeps (lift o).
Proof. intros s y s' Hs. unfold lift in Hs. by apply bind_Some in Hs as (x & _ & [= <- <-]). Qed.
Lemma keeps_on_mal {X} (m : ST A X) : keeps (on_mal m).
Proof. intros s y s' Hs. unfold on_mal in Hs. by apply bind_Some in Hs as ([x a] & _ & [= <- <-]). Qed.
Lemma keeps_rput f : (∀ o, _autodestroy (f o) = _autodestroy o) -> keeps (rput f).
Proof. intros Hf s y s' [= <- <-]. apply Hf. Qed.
Lemma keeps_bind {X Y} (m : RM X) (f : X -> RM Y) : keeps m -> (∀ x, keeps (f x)) -> keeps (m ≫= f).
Proof. intros Hm Hf s y s' (x & s1 & H1 & H2)%bind_inv. etrans; [by eapply Hf|by eapply Hm]. Qed.
Lemma runs_keeps {X} (m : RM X) s (Q : X -> CRawData * A -> Prop) :
  keeps m -> runs m s Q -> runs m s (λ x s', _autodestroy s'.1 = _autodestroy s.1 ∧ Q x s').
Proof. intros Hm (x & s' & Hr & HQ). exists x, s'. split; [done|]. split; [by eapply Hm|done]. Qed.
Lemma keeps_when b (m : RM unit) : keeps m -> keeps (when_ b m).
Proof. intros Hm. destruct b; [done|apply keeps_ret]. Qed.
End frame.

#[export] Hint Resolve keeps_ret keeps_rget keeps_lift keeps_on_mal keeps_bind keeps_when : keeps.
#[export] Hint Extern 1 (keeps (rput _)) => apply keeps_rput; intros; reflexivity : keeps.

(** Go through a body. *)
Ltac keeps_step :=
  first
    [ solve [auto 2 with keeps nocore]
    | apply keeps_when
    | apply keeps_bind; [|intros ?]
    | match goal with |- keeps (match ?x with _ => _ end) => destruct x end ].
Ltac keeps_body := repeat keeps_step.

Section ops.
Context {A : Type} `{Mallocator A}.

Lemma keeps_content_read off n : keeps (content_read (A:=A) off n).
Proof. unfold content_read. keeps_body. Qed.
Lemma keeps_content_write off l : keeps (content_write (A:=A) off l).
Proof. unfold content_write. keeps_body. Qed.
#[local] Hint Resolve keeps_content_read keeps_content_write : keeps.
Lemma keeps_content_move dst src n : keeps (content_move (A:=A) dst src n).
Proof. unfold content_move. keeps_body. Qed.
Lemma keeps_get_at n off : keeps (GET_VALUE_AT_OFFSET (A:=A) n off).
Proof. unfold GET_VALUE_AT_OFFSET. keeps_body. Qed.
#[local] Hint Resolve keeps_content_move keeps_get_at : keeps.
Lemma keeps_get n : keeps (GET_VALUE (A:=A) n).
Proof. unfold GET_VALUE. keeps_body. Qed.
Lemma keeps_set_at x n off : keeps (SET_VALUE_AT_OFFSET (A:=A) x n off).
Proof. unfold SET_VALUE_AT_OFFSET. keeps_body. Qed.
#[local] Hint Resolve keeps_get keeps_set_at : keeps.
Lemma keeps_set x n : keeps (SET_VALUE (A:=A) x n).
Proof. unfold SET_VALUE. keeps_body. Qed.
Lemma keeps_set_bin p n : keeps (SET_BIN_VALUE (A:=A) p n).
Proof. unfold SET_BIN_VALUE. keeps_body. Qed.
Lemma keeps_skip w n : keeps (SKIP_SIZE (A:=A) w n).
Proof. unfold SKIP_SIZE. keeps_body. Qed.
Lemma keeps_size : keeps (SetDataSize (A:=A)).
Proof. unfold SetDataSize. keeps_body. Qed.
Lemma keeps_count : keeps (SetRowCount (A:=A)).
Proof. unfold SetRowCount. keeps_body. Qed.
Lemma keeps_hour i hour : keeps (write_hour (A:=A) i hour).
Proof. unfold write_hour. keeps_body. Qed.
Lemma keeps_take h : keeps (take_handle (A:=A) h).
Proof. unfold take_handle. keeps_body. Qed.
#[local] Hint Resolve keeps_set keeps_set_bin keeps_skip keeps_size keeps_count keeps_hour keeps_take : keeps.
Lemma keeps_stamp now : keeps (InitTimpStamp (A:=A) now).
Proof. unfold InitTimpStamp. keeps_body. Qed.
Lemma keeps_expand n : keeps (ExpandChunk (A:=A) n).
Proof. unfold ExpandChunk. keeps_body. Qed.
#[local] Hint Resolve keeps_stamp keeps_expand : keeps.

Lemma Init_keeps k ks p n la now : keeps (RawData.Init (A:=A) k ks p n la now).
Proof. unfold RawData.Init. keeps_body. Qed.
Lemma Rewind_keeps : keeps (Rewind (A:=A)).
Proof. unfold Rewind. keeps_body. Qed.

Lemma keeps_encode_field row j : keeps (encode_field (A:=A) row j).
Proof. unfold encode_field. keeps_body. Qed.
Lemma keeps_encode_fields row j n : keeps (encode_fields (A:=A) row j n).
Proof.
  revert j. induction n as [|n IH]; intros j; cbn [encode_fields]; keeps_body.
Qed.
Lemma keeps_decode_field row j : keeps (decode_field (A:=A) row j).
Proof. unfold decode_field. keeps_body. Qed.
Lemma keeps_decode_fields row j n : keeps (decode_fields (A:=A) row j n).
Proof.
  revert row j. induction n as [|n IH]; intros row j; cbn [decode_fields]; keeps_body.
Qed.
#[local] Hint Resolve keeps_encode_fields keeps_decode_fields : keeps.
Lemma InsertRow_keeps row byFirst isDirty buf : keeps (InsertRow (A:=A) row byFirst isDirty buf).
Proof. unfold InsertRow, InsertRowFlag, EncodeRow, write_row, rotate_rows. keeps_body. Qed.
Lemma DecodeRow_keeps row f flag : keeps (DecodeRow (A:=A) row f flag).
Proof. unfold DecodeRow. keeps_body. Qed.
End ops.

#[export] Hint Resolve Init_keeps Rewind_keeps InsertRow_keeps DecodeRow_keeps : keeps.
