(* ===== verification/DataChunk.v ===== *)
(** * DataChunk: what the cache reads of a node's data

    Models [CDataChunk] ([src/cache/data_chunk.h]): the view of a data chunk
    that does not depend on how its rows are stored, by which the pool finds a
    node's key, counts its rows and frees it.  A chunk is a block of the
    [Mallocator]; [this] is its address, 0 the null pointer.  The layouts are
    the packed structures [CRawFormat] ([raw_data.h]) and [CRootData]
    ([tree_data.h]).  This build leaves [HAS_TREE_DATA] undefined, so
    [Destroy] and [AskForDestroySize] know raw chunks only. *)

From stdpp Require Import list.
From S2P Require Import Prelude State Value TableDef Mallocator BinBytes RawData RawBuf RawRow RawRep RawExample.

Definition sizeof_CRawFormat : Z := 16.
Definition sizeof_CRootData : Z := 13.

(** [CMallocator::AskForDestroySize] *)
Class DestroySize (A : Type) := mal_AskForDestroySize : Z -> ST A Z.

Section chunk.
Context {A : Type} `{Mallocator A}.

(** An unsigned integer of [n] bytes *)
Definition load_uint (a : Z) (n : nat) : ST A Z := l ← peeks a n; mret (le_value l).

Definition m_uchDataType (this : Z) : ST A Z := mal_load this.
Definition is_raw (this : Z) : ST A bool := t ← m_uchDataType this; mret (t =? DATA_TYPE_RAW).

Definition HeadSize (this : Z) : ST A Z :=
  r ← is_raw this; mret (if r : bool then sizeof_CRawFormat else sizeof_CRootData).
Definition BaseSize (this : Z) : ST A Z := HeadSize this.

Definition chunk_Key (this : Z) : ST A Z :=
  t ← m_uchDataType this;
  mret (if t =? DATA_TYPE_RAW then this + sizeof_CRawFormat
        else if t =? DATA_TYPE_TREE_ROOT then this + sizeof_CRootData else 0).

(** [m_achKey] in the branches that take everything else for a tree root *)
Definition key_addr (this : Z) : ST A Z := n ← HeadSize this; mret (this + n).

(** [SetKey(type key)] for an integer of [n] bytes *)
Definition SetKey_int (this : Z) (n : nat) (key : Z) : ST A unit := a ← key_addr this; pokes a (le_bytes n key).
(** [SetKey(const char*, int)]: [l] are [iLen] bytes at [pchKey] *)
Definition SetKey_len (this : Z) (l : list Z) (iLen : Z) : ST A unit :=
  a ← key_addr this; mal_store a (u8 iLen);; pokes (a + 1) l.
(** [SetKey(const char* )]: copies [*pchKey] bytes from [pchKey] on *)
Definition SetKey_packed (this : Z) (pchKey : list Z) : ST A unit :=
  a ← key_addr this;
  n ← lift (rd pchKey 0);
  if Z.of_nat (length pchKey) <? n then lift None else pokes a (take (Z.to_nat n) pchKey).

Definition StrKeySize (this : Z) : ST A Z := a ← key_addr this; mal_load a.
Definition BinKeySize (this : Z) : ST A Z := StrKeySize this.
Definition chunk_DataSize (this iKeySize : Z) : ST A Z :=
  iKeyLen ← (if negb (iKeySize =? 0) then mret iKeySize else n ← StrKeySize this; mret (1 + n));
  n ← HeadSize this;
  mret (u32 (n + iKeyLen)).

(** A member of [CRawFormat] at [off]; 0 for a tree *)
Definition raw_member (this off : Z) (n : nat) : ST A Z :=
  r ← is_raw this; if r : bool then load_uint (this + off) n else mret 0.
Definition NodeSize (this : Z) : ST A Z := raw_member this 1 4.
Definition LastAccessTime (this : Z) : ST A Z := raw_member this 10 2.
Definition LastUpdateTime (this : Z) : ST A Z := raw_member this 12 2.
Definition CreateTime (this : Z) : ST A Z := raw_member this 14 2.

Definition chunk_TotalRows (this : Z) : ST A Z :=
  r ← is_raw this; load_uint (this + (if r : bool then 5 else 1)) 4.

(** [Ptr2Handle(this)] is [this]: the chunk is in the segment. *)
Definition chunk_Destroy (this : Z) : ST A Z :=
  r ← is_raw this; if r : bool then mal_Free this else mret (-1).
Definition chunk_AskForDestroySize `{DestroySize A} (this : Z) : ST A Z :=
  r ← is_raw this; if r : bool then mal_AskForDestroySize this else mret 0.
End chunk.

(** ** Raw chunks *)

Abbreviation Zlen l := (Z.of_nat (length l)).

(** A chunk with [cnt] rows under [key] *)
Definition raw_chunk (key : list Z) (cnt : Z) (bs : list Z) : Prop :=
  ∃ sz meta z, length meta = 7%nat ∧ bs = head_bytes sz cnt meta key ++ z.

Section rules.
Context {A : Type} `{MallocatorLaws A} (a : A) (u : list block) (h : Z).

Lemma load_uint_at x y z off n :
  mal_holds a ((h, x ++ y ++ z) :: u) -> off = Zlen x -> n = length y ->
  load_uint (h + off) n a = Some (le_value y, a).
Proof. intros Hh Ho Hn. unfold load_uint. by mstep (peeks_at a h x y z u off n Hh Ho Hn). Qed.

Section raw.
Context (sz cnt : Z) (meta key z : list Z) (Hm : length meta = 7%nat).
Context (Hh : mal_holds a ((h, head_bytes sz cnt meta key ++ z) :: u)).

Lemma is_raw_run : is_raw h a = Some (true, a).
Proof using All.
  unfold is_raw, m_uchDataType.
  pose proof (mal_load_law a h _ u 0 DATA_TYPE_RAW Hh eq_refl) as Hl. rewrite Z.add_0_r in Hl. by mstep Hl.
Qed.
Lemma chunk_Key_run : chunk_Key h a = Some (h + 16, a).
Proof using All.
  unfold chunk_Key, m_uchDataType.
  pose proof (mal_load_law a h _ u 0 DATA_TYPE_RAW Hh eq_refl) as Hl. rewrite Z.add_0_r in Hl. by mstep Hl.
Qed.

Lemma raw_load off n x y r :
  head_bytes sz cnt meta key ++ z = x ++ y ++ r -> off = Zlen x -> n = length y -> load_uint (h + off) n a = Some (le_value y, a).
Proof using All. intros E Ho Hn. eapply (load_uint_at x y r); [|done..]. by rewrite <- E. Qed.

Lemma NodeSize_run : NodeSize h a = Some (u32 sz, a).
Proof using All.
  unfold NodeSize, raw_member. mstep is_raw_run.
  rewrite (raw_load 1 4 [DATA_TYPE_RAW] (le_bytes 4 sz) (le_bytes 4 cnt ++ meta ++ key ++ z)); [by rewrite le_value_bytes| |done..].
  unfold head_bytes. by rewrite <- !app_assoc.
Qed.
Lemma chunk_TotalRows_run : chunk_TotalRows h a = Some (u32 cnt, a).
Proof using All.
  unfold chunk_TotalRows. mstep is_raw_run.
  rewrite (raw_load 5 4 ([DATA_TYPE_RAW] ++ le_bytes 4 sz) (le_bytes 4 cnt) (meta ++ key ++ z)); [by rewrite le_value_bytes| |done..].
  unfold head_bytes. by rewrite <- !app_assoc.
Qed.
Lemma CreateTime_run m1 m2 : meta = m1 ++ m2 -> length m2 = 2%nat -> CreateTime h a = Some (le_value m2, a).
Proof using All.
  intros E H2. pose proof Hm as Hl. rewrite E, length_app, H2 in Hl. unfold CreateTime, raw_member. mstep is_raw_run.
  apply (raw_load 14 2 ([DATA_TYPE_RAW] ++ le_bytes 4 sz ++ le_bytes 4 cnt ++ m1) m2 (key ++ z)); [|rewrite !length_app; simpl; lia|done].
  unfold head_bytes. rewrite E. by rewrite <- !app_assoc.
Qed.
Lemma key_bytes_run : peeks (h + 16) (length key) a = Some (key, a).
Proof using All.
  apply (peeks_at a h ([DATA_TYPE_RAW] ++ le_bytes 4 sz ++ le_bytes 4 cnt ++ meta) key z u); [|rewrite !length_app, Hm; done|done].
  pose proof Hh as Hh'. unfold head_bytes in Hh'. rewrite <- !app_assoc in *. exact Hh'.
Qed.
Lemma chunk_Destroy_run : runs (chunk_Destroy h) a (λ r a', r = 0 ∧ mal_holds a' u).
Proof using All.
  unfold chunk_Destroy. eapply runs_step; [apply is_raw_run|]. eapply mal_Free_law. apply Hh.
Qed.
End raw.
End rules.

(** ** A chunk that [CRawData] wrote *)

(** It is a raw chunk, as the pool wants it. *)
Lemma stored_chunk {A : Type} `{MallocatorLaws A} d ids (s : CRawData * A) u key rows :
  stored d ids s u key rows ->
  ∃ bs, mal_holds s.2 ((_handle s.1, bs) :: u) ∧ raw_chunk key (Zlen rows) bs ∧ 0 <= Zlen rows < 2 ^ 32.
Proof.
  intros Hs. pose proof (stored_bounds _ _ _ _ _ _ Hs) as [Hp Hr]. destruct (sd_buf _ _ _ _ _ _ Hs) as [slack Hb].
  eexists. split; [exact (buf_holds _ _ _ Hb)|]. split; [|lia]. eexists _, (meta_bytes s.1), _. split; [apply length_meta|].
  done.
Qed.

(** [C40] The pool sees in a chunk what the row storage stored there: the key,
    the number of rows, the size of the data and the hour of creation; and
    destroying the chunk gives its block back and no other. *)
Theorem chunk_of_rows {A : Type} `{MallocatorLaws A} d ids (s : CRawData * A) u key rows :
  stored d ids s u key rows ->
  let h := _handle s.1 in let a := s.2 in
  chunk_Key h a = Some (h + 16, a) ∧ peeks (h + 16) (length key) a = Some (key, a) ∧
  chunk_TotalRows h a = Some (Zlen rows, a) ∧ NodeSize h a = Some (m_uiDataSize s.1, a) ∧
  CreateTime h a = Some (u16 (m_CreateHour s.1), a) ∧
  runs (chunk_Destroy h) a (λ r a', r = 0 ∧ mal_holds a' u).
Proof.
  intros Hs h a. pose proof (stored_bounds _ _ _ _ _ _ Hs) as [Hp Hr]. destruct (sd_buf _ _ _ _ _ _ Hs) as [slack Hb].
  pose proof (buf_holds _ _ _ Hb) as Hh. pose proof (length_meta s.1) as Hm. split_and!.
  - by eapply chunk_Key_run.
  - by eapply key_bytes_run.
  - rewrite (chunk_TotalRows_run a u h _ _ _ _ _ Hm Hh). by rewrite uwrap_small by lia.
  - rewrite (NodeSize_run a u h _ _ _ _ _ Hm Hh), (sd_size _ _ _ _ _ _ Hs). by rewrite uwrap_small by lia.
  - rewrite (CreateTime_run a u h _ _ _ _ _ Hm Hh
      (le_bytes 1 (m_uchGetCount s.1) ++ le_bytes 2 (m_LastAccessHour s.1) ++ le_bytes 2 (m_LastUpdateHour s.1))
      (le_bytes 2 (m_CreateHour s.1))); [by rewrite le_value_bytes| |done].
    unfold meta_bytes. by rewrite <- !app_assoc.
  - by eapply chunk_Destroy_run.
Qed.

Lemma chunk_of_rows_witness :
  let h := _handle ex_two.1 in let a := ex_two.2 in
  chunk_Key h a = Some (h + 16, a) ∧ peeks (h + 16) (length ex_key) a = Some (ex_key, a) ∧ chunk_TotalRows h a = Some (2, a).
Proof.
  destruct (chunk_of_rows ex_tab ex_ids ex_two [] ex_key ex_rows2 ex_two_stored) as (H1 & H2 & H3 & _).
  split; [exact H1|]. split; [exact H2|]. exact H3.
Defined.
