(* ===== verification/RawProc.v ===== *)
(** * RawProc: requests on the rows of a node

    Models [CRawDataProcess] ([src/cache/raw_data_process.h],
    [src/cache/raw_data_process.cc], [src/cache/raw_data_process2.cc]): what a
    request does to the rows of one cache node.

    The state is the process's [CRawData] on the shared-memory allocator, the
    rows handed back to the caller ([pstAffectedRows], may be null) on the
    system allocator, the node's data handle, the row counters of the request
    and the request itself.  The pool's [TryPurgeSize] and [PurgeNode] are an
    interface; the hour clock ([now]) does not tick inside a request; MALLOC
    results for scratch buffers are arguments ([buf]); statistics and error
    texts are not kept.

    The strings [DecodeRow] gives a row point into the chunk, and a [SetBits]
    on such a string writes the chunk.  A row that is about to change
    ([decoded]) therefore carries the columns whose string still lies in the
    chunk; a write to one of them is a write to the chunk at the string's
    offset, and a row that has such columns is not defined as the source of a
    [ReplaceCurRow], which moves the bytes under it. *)

From stdpp Require Import list.
From S2P Require Import Prelude State Bitsop Value Protocol Codec Section TableDef Field Result Task Pkey Mallocator RawData.

#[local] Open Scope cint_scope.

(** [CCachePool] as the process sees it, for the node of the request *)
Class CachePool (A : Type) := {
  TryPurgeSize : Z -> ST A Z;
  PurgeNode : ST A Z
}.

(** A flush request ([src/cache/cache_flush.h]): the tasks not completed yet
    and the rows of the tasks pushed to the helper's queue *)
Record CFlushRequest := MkFlush { numReq : Z; flushQueue : list CRowValue }.

Record CRawDataProcess (A B : Type) := MkProc {
  m_stRawData : CRawData;
  p_mem : A;
  p_affected : option CRawData;
  p_sys : B;
  p_vd : Z;
  m_llRowsInc : Z;
  m_llDirtyRowsInc : Z;
  p_task : CTaskRequest
}.
Arguments MkProc {A B}.
Arguments m_stRawData {A B}.
Arguments p_mem {A B}.
Arguments p_affected {A B}.
Arguments p_sys {A B}.
Arguments p_vd {A B}.
Arguments m_llRowsInc {A B}.
Arguments m_llDirtyRowsInc {A B}.
Arguments p_task {A B}.

Section proc.
Context {A B : Type} `{Mallocator A} `{Mallocator B} `{CachePool A} `{FloatText}.
Implicit Types (s : CRawDataProcess A B).

Definition PM : Type -> Type := ST (CRawDataProcess A B).

Definition set_raw (x : CRawData * A) s : CRawDataProcess A B :=
  MkProc x.1 x.2 (p_affected s) (p_sys s) (p_vd s) (m_llRowsInc s) (m_llDirtyRowsInc s) (p_task s).
Definition set_aff (o : option CRawData) (b : B) s : CRawDataProcess A B :=
  MkProc (m_stRawData s) (p_mem s) o b (p_vd s) (m_llRowsInc s) (m_llDirtyRowsInc s) (p_task s).
Definition set_vd (v : Z) s : CRawDataProcess A B :=
  MkProc (m_stRawData s) (p_mem s) (p_affected s) (p_sys s) v (m_llRowsInc s) (m_llDirtyRowsInc s) (p_task s).
Definition set_inc (r d : Z) s : CRawDataProcess A B :=
  MkProc (m_stRawData s) (p_mem s) (p_affected s) (p_sys s) (p_vd s) r d (p_task s).
Definition set_task (t : CTaskRequest) s : CRawDataProcess A B :=
  MkProc (m_stRawData s) (p_mem s) (p_affected s) (p_sys s) (p_vd s) (m_llRowsInc s) (m_llDirtyRowsInc s) t.

(** A call on [m_stRawData], on the affected rows, on the pool *)
Definition on_raw {X} (m : RM (A:=A) X) : PM X := λ s,
  '(x, r) ← m (m_stRawData s, p_mem s); Some (x, set_raw r s).
Definition on_aff {X} (m : RM (A:=B) X) : PM X := λ s,
  o ← p_affected s; '(x, r) ← m (o, p_sys s); Some (x, set_aff (Some r.1) r.2 s).
Definition on_pool {X} (m : ST A X) : PM X := λ s,
  '(x, a) ← m (p_mem s); Some (x, set_raw (m_stRawData s, a) s).
Definition on_task {X} (f : CTaskRequest -> option (X * CTaskRequest)) : PM X := λ s,
  '(x, t) ← f (p_task s); Some (x, set_task t s).
Definition has_aff : PM bool := get (λ s, match p_affected s with Some _ => true | None => false end).

(** [m_llRowsInc += r; m_llDirtyRowsInc += d] *)
Definition count (r d : Z) : PM unit := put (λ s, set_inc (m_llRowsInc s + r) (m_llDirtyRowsInc s + d) s).
Definition no_count : PM unit := put (set_inc 0 0).
Definition dirty (f : Z) : bool := negb (Z.land f OPER_DIRTY =? 0).

(** A pointer into the content; [Key()] *)
Definition content_ptr {T} `{Mallocator T} : RM (A:=T) (option ptr) :=
  size ← rget _size; l ← content_read 0 (Z.to_nat size); mret (Some (Ptr l 0)).
Definition key_ptr {T} `{Mallocator T} : RM (A:=T) (option ptr) :=
  k ← Key;
  match k with
  | None => mret None
  | Some _ => p ← content_ptr; k ← rget m_uiKeyStart; mret (padd p k)
  end.

(** [pstNode->VDHandle() = m_stRawData.GetHandle()] *)
Definition save_handle : PM unit := h ← on_raw (rget _handle); put (set_vd h).
(** The same, if [iRet != EC_NO_MEM] *)
Definition save_handle_if (iRet : Z) : PM unit := if iRet =? EC_NO_MEM then mret tt else save_handle.

(** ** Attaching and making a node's data *)

Section table.
Context (m_pstTab : CTableDefinition) (now : Z).

Definition tab_keyIdx : Z := keyFields m_pstTab - 1.
Definition touch : PM unit := on_raw (UpdateLastAccessTimeByHour now);; on_raw (UpdateLastUpdateTimeByHour now).

Definition attach_raw (laid : Z) : PM Z :=
  vd ← get p_vd; on_raw (Attach vd tab_keyIdx (keyFormat m_pstTab) laid (-1)).

Definition AttachData : PM Z :=
  iRet ← attach_raw (-1);
  if negb (iRet =? 0) then mret (-1)
  else
    a ← has_aff;
    if negb a then mret 0
    else
      k ← on_raw key_ptr;
      iRet ← on_aff (Init tab_keyIdx (keyFormat m_pstTab) k 0 (-1) now);
      mret (if iRet =? 0 then 0 else -2).

(** [AttachData(pstNode, NULL)] *)
Definition AttachData_null : PM Z :=
  iRet ← attach_raw (-1); mret (if iRet =? 0 then 0 else -1).

Definition InitData (ptrKey : option ptr) : PM Z :=
  iRet ← on_raw (Init tab_keyIdx (keyFormat m_pstTab) ptrKey 0 (-1) now);
  if negb (iRet =? 0) then mret (-1)
  else
    save_handle;;
    a ← has_aff;
    if negb a then mret 0
    else
      iRet ← on_aff (Init tab_keyIdx (keyFormat m_pstTab) ptrKey 0 (-1) now);
      mret (if iRet =? 0 then 0 else -2).

Definition DestroyData : PM Z :=
  iRet ← attach_raw (-1);
  if negb (iRet =? 0) then mret (-1)
  else
    n ← on_raw (rget m_uiRowCnt); count (- n) 0;;
    on_raw Destroy;;
    put (set_vd 0);;
    mret 0.

(** ** Reading *)

Definition total_rows : PM nat := n ← on_raw (rget m_uiRowCnt); mret (Z.to_nat n).
Definition decode (row : CRowValue) : PM (Z * Z * CRowValue) := on_raw (DecodeRow row 0 0).

Fixpoint dirty_loop (row : CRowValue) (n : nat) (dirty_rows : Z) : PM Z :=
  match n with
  | O => mret dirty_rows
  | S n' =>
      x ← decode row;
      if negb (x.1.1 =? 0) then mret (-4)
      else dirty_loop x.2 n' (if dirty x.1.2 then dirty_rows + 1 else dirty_rows)
  end.
Definition DirtyRowsInNode : PM Z :=
  iRet ← AttachData_null;
  if negb (iRet =? 0) then mret iRet
  else
    n ← total_rows; t ← get p_task;
    dirty_loop (new_RowValue (t_tableDef t)) n 0.

(** [mem]: whether [REALLOC] of a size and [new CResultPacket] succeed *)
Fixpoint get_loop (mem : Z -> bool) (laid : Z) (total : Z) (row : CRowValue) (n : nat) : PM Z :=
  match n with
  | O => mret 0
  | S n' =>
      t ← get p_task;
      row ← lift (UpdateKey t row);
      x ← decode row;
      if negb (x.1.1 =? 0) then mret (-2)
      else
        t ← get p_task;
        c ← lift (CompareRow t x.2);
        if c =? 0 then get_loop mem laid total x.2 n'
        else
          r ← on_task (task_AppendRow mem x.2);
          when_ ((0 <? r) && (0 <? laid)) (on_raw (UpdateLastacc (t_timestamp t)));;
          t ← get p_task;
          if AllRows t && ResultFull t
          then on_task (task_SetTotalRows (mem 0) total);; mret 0
          else get_loop mem laid total x.2 n'
  end.
Definition GetData (mem : Z -> bool) : PM Z :=
  no_count;;
  t ← get p_task;
  let laid := if FlagNoCache t then -1 else hasLastacc (t_tableDef t) in
  iRet ← attach_raw laid;
  if negb (iRet =? 0) then mret (-1)
  else
    total ← on_raw (rget m_uiRowCnt);
    on_task (PrepareResult_limits (mem 0));;
    t ← get p_task;
    range ← (if AllRows t
             then if CountOnly t then mret true else r ← lift (task_InRange total 0 t); mret (negb r)
             else mret false);
    iRet ← (if range : bool then
              if IsBatchRequest t
              then when_ (0 <? s32 total) (on_task (task_AddTotalRows total));; mret 0
              else on_task (task_SetTotalRows (mem 0) total);; mret 0
            else
              row ← (let r := new_RowValue (t_tableDef t) in
                     if negb (hasDiscard (t_tableDef t) =? 0) then lift (row_DefaultValue r) else mret r);
              get_loop mem laid total row (Z.to_nat total));
    if negb (iRet =? 0) then mret iRet
    else on_raw (UpdateLastAccessTimeByHour now);; on_raw IncSelectCount;; mret 0.

(** [GetAllRows(pstNode, pstRows)]: the affected rows are [pstRows]. *)
Definition GetAllRows : PM Z :=
  no_count;;
  iRet ← AttachData;
  if negb (iRet =? 0) then mret (-1)
  else
    ref ← get m_stRawData; p ← on_raw content_ptr;
    iRet ← on_aff (CopyAll ref p);
    mret (if iRet =? 0 then 0 else -2).

(** ** Deleting *)

Definition copy_affected : PM unit :=
  a ← has_aff;
  if negb a then mret tt
  else ref ← get m_stRawData; p ← on_raw content_ptr; on_aff (CopyRow ref p);; mret tt.

(** The error code, or the number of rows deleted. *)
Fixpoint delete_loop (row : CRowValue) (n : nat) (iAffectRows : Z) : PM (Z + Z) :=
  match n with
  | O => mret (inr iAffectRows)
  | S n' =>
      x ← decode row;
      if negb (x.1.1 =? 0) then mret (inl (-4))
      else
        t ← get p_task;
        c ← lift (CompareRow t x.2);
        if c =? 0 then delete_loop x.2 n' iAffectRows
        else
          copy_affected;;
          iRet ← on_raw (DeleteCurRow x.2);
          save_handle_if iRet;;
          if negb (iRet =? 0) then mret (inl (-5))
          else
            count (-1) (if dirty x.1.2 then -1 else 0);;
            delete_loop x.2 n' (iAffectRows + 1)
  end.

Definition DeleteData : PM Z :=
  no_count;;
  iRet ← AttachData;
  if negb (iRet =? 0) then mret iRet
  else
    n ← total_rows; t ← get p_task;
    r ← delete_loop (new_RowValue (t_tableDef t)) n 0;
    match r with
    | inl e => mret e
    | inr iAffectRows =>
        (if 0 <? iAffectRows then
           t ← get p_task;
           a ← lift (AffectedRows (t_resultInfo t));
           let stamp := match t_conditionInfo t with Some c => negb (HasTypeTimestamp c =? 0) | None => false end in
           when_ ((a =? 0) || stamp) (on_task (λ t, t ← Task.SetAffectedRows iAffectRows t; Some (tt, t)));;
           on_raw StripMem;; mret tt
         else mret tt);;
        m ← on_raw (rget m_uiRowCnt);
        when_ (0 <? m) touch;;
        mret 0
    end.

(** ** Rows whose strings lie in the chunk *)

(** A row and its columns whose string lies in the chunk *)
Definition decoded : Type := CRowValue * list Z.
Definition lies_in_chunk (x : decoded) (i : Z) : bool := existsb (Z.eqb i) x.2.

(** The string columns [DecodeRow] reads *)
Fixpoint string_columns (d : CTableDefinition) (j : Z) (n : nat) : option (list Z) :=
  match n with
  | O => Some []
  | S n' =>
      k ← IsDiscard d j;
      if negb (k =? 0) then string_columns d (j + 1) n'
      else
        t ← FieldType d j; l ← string_columns d (j + 1) n';
        Some (if numeric t then l else j :: l)
  end.

(** Does the element of an update list replace the string of a column of type
    [ft], or write bits of it? *)
Definition sets_string (ft : Z) (s : SFieldValue) : bool :=
  (sf_oper s =? DField_Set) &&
  (((ft =? DField_String) && (sf_type s =? DField_String)) || ((ft =? DField_Binary) && is_bin (sf_type s))).
Definition sets_bits (ft : Z) (s : SFieldValue) : bool :=
  (sf_oper s =? DField_SetBits) && is_bin ft && is_int (sf_type s).

(** The bytes of a string that lies in the chunk, as they are now *)
Definition write_string (b : CBinary) : RM (A:=A) unit :=
  match bin_ptr b with
  | None => mret tt
  | Some p => l ← lift (read_n (bin_ptr b) (Z.to_nat (bin_len b))); content_write (p_off p) l
  end.

(** One element of the update list *)
Definition update_at (x : decoded) (s : SFieldValue) : RM (A:=A) decoded :=
  row ← lift (update_one x.1 s);
  ft ← lift (FieldType (row_def x.1) (sf_id s));
  if negb (lies_in_chunk x (sf_id s)) then mret (row, x.2)
  else if sets_string ft s then mret (row, filter (λ i, negb (i =? sf_id s)) x.2)
  else if sets_bits ft s then
    v ← lift (row_at row (sf_id s)); write_string (v_str v);; mret (row, x.2)
  else mret (row, x.2).
Fixpoint update_list (l : list SFieldValue) (x : decoded) : RM (A:=A) decoded :=
  match l with
  | [] => mret x
  | s :: l' => x ← update_at x s; update_list l' x
  end.

(** [stTask.UpdateRow(stRow)] on the row [DecodeRow] just read *)
Definition update_current (t : CTaskRequest) (row : CRowValue) : PM decoded :=
  k ← on_raw (rget m_uchKeyIdx);
  al ← lift (string_columns (row_def row) (k + 1) (columns row k));
  row ← lift (UpdateStamps t row);
  match t_updateInfo t with
  | None => mret (row, al)
  | Some u => l ← lift (fv_list u); on_raw (update_list l (row, al))
  end.

(** ** Adding and changing rows

    [buf] is whether MALLOC gives [CRawData] its scratch buffers, [junk] the
    uninitialised field of a new object. *)

Section change.
Context (buf : bool) (junk : Z).

(** An operation that is repeated once when there was no memory and the pool
    could make room. *)
Definition retry (m : RM (A:=A) Z) : PM Z :=
  iRet ← on_raw m;
  if iRet =? EC_NO_MEM then
    need ← on_raw (rget m_uiNeedSize);
    r ← on_pool (TryPurgeSize need);
    if r =? 0 then on_raw m else mret iRet
  else mret iRet.

Definition black_list : PM unit :=
  need ← on_raw (rget m_uiNeedSize); on_task (λ t, Some (tt, PushBlackListSize need t)).

(** [pstAffectedRows->InsertRow(stRow, false, isDirty)] if there are any *)
Definition affect_insert (stRow : CRowValue) (isDirty : bool) : PM Z :=
  a ← has_aff; if negb a then mret 0 else on_aff (InsertRow stRow false isDirty buf).

Definition set_affected_rows (n : Z) : PM unit :=
  on_task (λ t, t ← Task.SetAffectedRows n t; Some (tt, t)).

Definition uniq_fields (d : CTableDefinition) : list Z := take (Z.to_nat (uniqFieldCnt d)) (uniqFields d).
(** [KeyAsUniqField()] *)
Definition key_is_uniq (d : CTableDefinition) : bool := keysAsUniqField d =? 1.

(** The row of an insert or replace request *)
Definition new_row (t : CTaskRequest) : option CRowValue :=
  r ← row_DefaultValue (new_RowValue (t_tableDef t)); UpdateRow t r.

(** Is there a row with the same unique fields? *)
Fixpoint unique_loop (stRow stOldRow : CRowValue) (n : nat) : PM Z :=
  match n with
  | O => mret 0
  | S n' =>
      x ← decode stOldRow;
      if negb (x.1.1 =? 0) then mret (-1)
      else
        t ← get p_task;
        c ← lift (row_Compare stRow x.2 (uniq_fields (t_tableDef t)));
        if c =? 0 then mret (-1062) else unique_loop stRow x.2 n'
  end.

Definition AppendData (insertOrder isDirty setrows : bool) : PM Z :=
  t ← get p_task;
  stRow ← lift (new_row t);
  no_count;;
  stRow ← (if keyFields m_pstTab <=? hasAutoInc m_pstTab then
             id ← lift (InsertID (t_resultInfo t));
             if id =? 0 then mret stRow else lift (row_set stRow (hasAutoInc m_pstTab) (λ v, v_set_word v id))
           else mret stRow);
  iRet ← AttachData;
  if negb (iRet =? 0) then mret iRet
  else
    n ← total_rows;
    dup ← (if (0 <? n)%nat then
             if (isDirty || setrows) && key_is_uniq (t_tableDef t) then mret (-1062)
             else if setrows && negb (keysAsUniqField (t_tableDef t) =? 0)
             then unique_loop stRow (new_RowValue (t_tableDef t)) n
             else mret 0
           else mret 0);
    if negb (dup =? 0) then mret dup
    else
      r ← affect_insert stRow isDirty;
      if negb (r =? 0) then mret (-1)
      else
        iRet ← retry (InsertRow stRow insertOrder isDirty buf);
        save_handle_if iRet;;
        if negb (iRet =? 0) then black_list;; mret (-2)
        else
          t ← get p_task;
          a ← lift (AffectedRows (t_resultInfo t));
          when_ ((a =? 0) || setrows) (set_affected_rows 1);;
          count 1 (if isDirty then 1 else 0);;
          touch;;
          mret 0.

(** [encode_to_private_area]: the row moves to an object of its own on the
    system allocator, and its strings with it; the code, the row and the
    object *)
Definition on_sys {X} (o : CRawData) (m : RM (A:=B) X) : PM (X * CRawData) := λ s,
  '(x, r) ← m (o, p_sys s); Some ((x, r.1), set_aff (p_affected s) r.2 s).
Definition encode_to_private_area (value : decoded) (value_flag : Z) : PM (Z * decoded * CRawData) :=
  let raw := new_RawData 1 junk in
  k ← on_raw key_ptr;
  size ← lift (CalcRowSize value.1 tab_keyIdx);
  x ← on_sys raw (Init tab_keyIdx (keyFormat m_pstTab) k size (-1) now);
  if negb (x.1 =? 0) then mret (-1, value, x.2)
  else
    x ← on_sys x.2 (InsertRow value.1 false false buf);
    if negb (x.1 =? 0) then mret (-2, value, x.2)
    else
      x ← on_sys x.2 (Rewind;; DecodeRow value.1 value_flag 0);
      mret (if x.1.1.1 =? 0 then (0, (x.1.2, [])) else (-3, (x.1.2, value.2)), x.2).

(** [m_stRawData.ReplaceCurRow], tried again after a purge; the strings of the
    row must not lie in the chunk that moves. *)
Definition replace_current (value : decoded) (async : bool) : PM Z :=
  match value.2 with
  | [] => retry (ReplaceCurRow value.1 async buf)
  | _ => lift None
  end.

Fixpoint update_loop (async : bool) (row : CRowValue) (n : nat) (affected : Z) : PM (Z + Z) :=
  match n with
  | O => mret (inr affected)
  | S n' =>
      x ← decode row;
      if negb (x.1.1 =? 0) then mret (inl (-1))
      else
        t ← get p_task;
        c ← lift (CompareRow t x.2);
        if c =? 0 then update_loop async x.2 n' affected
        else
          row ← update_current t x.2;
          r ← affect_insert row.1 async;
          if negb (r =? 0) then mret (inl (-2))
          else
            e ← encode_to_private_area row x.1.2;
            if negb (e.1.1 =? 0) then on_sys e.2 delete_RawData;; mret (inl (-3))
            else
              iRet ← replace_current e.1.2 async;
              save_handle_if iRet;;
              if negb (iRet =? 0) then black_list;; on_sys e.2 delete_RawData;; mret (inl (-6))
              else
                count 0 ((if dirty x.1.2 then -1 else 0) + (if async then 1 else 0));;
                on_sys e.2 delete_RawData;;
                update_loop async e.1.2.1 n' (affected + 1)
  end.

Definition UpdateData (async setrows : bool) : PM Z :=
  no_count;;
  iRet ← AttachData;
  if negb (iRet =? 0) then mret iRet
  else
    n ← total_rows; t ← get p_task;
    r ← update_loop async (new_RowValue (t_tableDef t)) n 0;
    match r with
    | inl e => mret e
    | inr affected => when_ (async || setrows) (set_affected_rows affected);; touch;; mret 0
    end.

(** The loop of [ReplaceRows]: the first conflicting row is replaced, the
    others are deleted. *)
Fixpoint replace_loop (async : bool) (stNewRow row : CRowValue) (n : nat) (affected : Z) : PM (Z + Z) :=
  match n with
  | O => mret (inr affected)
  | S n' =>
      x ← decode row;
      if negb (x.1.1 =? 0) then mret (inl (-1))
      else
        t ← get p_task;
        c ← (if key_is_uniq (t_tableDef t) then mret 0
             else lift (row_Compare stNewRow x.2 (uniq_fields (t_tableDef t))));
        if negb (c =? 0) then replace_loop async stNewRow x.2 n' affected
        else
          r ← (if affected =? 0 then affect_insert stNewRow async else mret 0);
          if negb (r =? 0) then mret (inl (-2))
          else
            iRet ← (if affected =? 0 then on_raw (ReplaceCurRow stNewRow async buf)
                    else on_raw (DeleteCurRow stNewRow));
            iRet ← (if iRet =? EC_NO_MEM then
                      need ← on_raw (rget m_uiNeedSize);
                      p ← on_pool (TryPurgeSize need);
                      if p =? 0 then on_raw (ReplaceCurRow stNewRow async buf) else mret iRet
                    else mret iRet);
            save_handle_if iRet;;
            if negb (iRet =? 0) then black_list;; mret (inl (-3))
            else
              count 0 ((if dirty x.1.2 then -1 else 0) + (if async then 1 else 0));;
              replace_loop async stNewRow x.2 n' (if affected =? 0 then 2 else affected + 1)
  end.

Definition ReplaceRows (async setrows : bool) : PM Z :=
  no_count;;
  vd ← get p_vd; t ← get p_task;
  iRet ← (if vd =? 0 then
            iRet ← InitData (t_packedKey t);
            if negb (iRet =? 0) then
              vd ← get p_vd;
              when_ (vd =? 0) (on_pool PurgeNode;; mret tt);; mret iRet
            else mret 0
          else AttachData);
  if negb (iRet =? 0) then mret iRet
  else
    n ← total_rows;
    stNewRow ← lift (new_row t);
    r ← replace_loop async stNewRow (new_RowValue (t_tableDef t)) n 0;
    match r with
    | inl e => mret e
    | inr affected =>
        iRet ← (if affected =? 0 then retry (InsertRow stNewRow false async buf) else mret 0);
        when_ (affected =? 0) (save_handle_if iRet);;
        if negb (iRet =? 0) then black_list;; mret (-3)
        else
          when_ (affected =? 0) (count 1 (if async then 1 else 0));;
          when_ (async || setrows) (set_affected_rows (if affected =? 0 then 1 else affected));;
          touch;;
          mret 0
    end.

(** [ReplaceData(pstNode, pstRawData)]: the rows of another object, with its
    content behind [mem] *)
Definition with_object {X} (o : CRawData) (m : RM (A:=A) X) : PM (X * CRawData) := λ s,
  '(x, r) ← m (o, p_mem s); Some ((x, r.1), set_raw (m_stRawData s, r.2) s).
Definition ReplaceData_raw (ref : CRawData) (mem : option ptr) : PM Z :=
  no_count;;
  let init := Init tab_keyIdx (keyFormat m_pstTab) (padd mem (m_uiKeyStart ref))
                (m_uiDataSize ref -u32 m_uiDataStart ref) (-1) now in
  x ← with_object (new_RawData 0 junk) init;
  x ← (if x.1 =? EC_NO_MEM then
         r ← on_pool (TryPurgeSize (m_uiNeedSize x.2));
         if r =? 0 then with_object x.2 init else mret x
       else mret x);
  if negb (x.1 =? 0) then with_object x.2 Destroy;; mret (-2)
  else
    x ← with_object x.2 (CopyAll ref mem);
    if negb (x.1 =? 0) then with_object x.2 Destroy;; mret (-3)
    else
      vd ← get p_vd;
      when_ (negb (vd =? 0)) (DestroyData;; mret tt);;
      put (set_vd (_handle x.2));;
      count (m_uiRowCnt ref) 0;;
      when_ (0 <? m_uiRowCnt x.2) touch;;
      mret 0.
End change.

(** ** Flushing

    [flush] is [pstFlushReq] ([cache_flush.h]), if there is one; [node_dirty]
    the mark of the node.  [Copy] is the result of [CTaskRequest::Copy], which
    may fail to pack the key or run out of memory, for the task of a number. *)

Section flush.
Context (Copy : Z -> CRowValue -> Z).

(** [CFlushRequest::FlushRow]: the row, copied with its strings into a task of
    its own, joins the queue of the helper. *)
Definition FlushRow (row : CRowValue) (q : CFlushRequest) : Z * CFlushRequest :=
  if Copy (numReq q) row <? 0 then (-1, q)
  else (0, MkFlush (s32 (numReq q + 1)) (flushQueue q ++ [row])).
(** [pstFlushReq && pstFlushReq->FlushRow(stRow) != 0] *)
Definition flush_row (row : CRowValue) (flush : option CFlushRequest) : bool * option CFlushRequest :=
  match flush with
  | None => (true, None)
  | Some q => let x := FlushRow row q in (x.1 =? 0, Some x.2)
  end.

(** The return code, [uiFlushRowsCnt] and the flush request *)
Fixpoint flush_loop (flush : option CFlushRequest) (row : CRowValue) (n : nat) (cnt : Z) : PM (Z * Z * option CFlushRequest) :=
  match n with
  | O => mret (0, cnt, flush)
  | S n' =>
      x ← decode row;
      if negb (x.1.1 =? 0) then mret (-1, cnt, flush)
      else if negb (dirty x.1.2) then flush_loop flush x.2 n' cnt
      else
        let f := flush_row x.2 flush in
        if negb f.1 then mret (-2, cnt, f.2)
        else
          on_raw (SetCurRowFlag (Z.land x.1.2 (Z.lnot OPER_DIRTY)));;
          count 0 (-1);;
          flush_loop f.2 x.2 n' (cnt + 1)
  end.

(** [stRow[i] = astKey[i]] *)
Fixpoint put_keys (row : CRowValue) (i : Z) (keys : list CValue) : option CRowValue :=
  match keys with [] => Some row | k :: l => row ← row_put row i k; put_keys row (i + 1) l end.

(** [cnt] is [uiFlushRowsCnt] before the call, [astKey] the uninitialised
    array. *)
Definition FlushData (flush : option CFlushRequest) (node_dirty : bool) (astKey : list CValue) (cnt : Z) : PM (Z * Z * option CFlushRequest) :=
  no_count;;
  iRet ← AttachData_null;
  if negb (iRet =? 0) then mret (iRet, cnt, flush)
  else
    n ← total_rows;
    k ← on_raw key_ptr;
    keys ← lift (UnpackKey m_pstTab k astKey);
    row ← lift (put_keys (new_RowValue m_pstTab) 0 keys);
    if node_dirty then flush_loop flush row n 0 else mret (0, 0, flush).

Definition PurgeData (flush : option CFlushRequest) (node_dirty : bool) (astKey : list CValue) (cnt : Z) : PM (Z * Z * option CFlushRequest) :=
  r ← FlushData flush node_dirty astKey cnt;
  if negb (r.1.1 =? 0) then mret r
  else
    n ← on_raw (rget m_uiRowCnt);
    put (λ s, set_inc (- n) (m_llDirtyRowsInc s) s);;
    mret (0, r.1.2, r.2).
End flush.
End table.
End proc.
