(* ===== verification/ProcSpec.v ===== *)
(** * ProcSpec: what a request does to the rows of a node

    The requests of [RawProc] against the list of rows behind the node's data
    handle: the rows a request selects, and what deleting, flushing, counting,
    updating and adding rows makes of them and of the counters of the request.
    They hold for any allocators that keep the contract of [Mallocator], and
    for a caller that does not ask for the affected rows. *)

From stdpp Require Import list.
From S2P Require Import Prelude State Bitsop Value Protocol Codec Section TableDef Field Result Task Pkey Mallocator RawData RawBuf RawRow RawRep RawSpec RawStore RawCopy RawProc.

#[local] Open Scope cint_scope.

(** The number of rows [f] holds for. *)
Definition rows_where (f : srow -> bool) (rows : list srow) : Z := Zlen (filter f rows).
Definition is_dirty (r : srow) : bool := dirty (sr_flag r).

Lemma rows_where_nil f : rows_where f [] = 0.
Proof. done. Qed.
Lemma rows_where_cons f r rows : rows_where f (r :: rows) = (if f r then 1 else 0) + rows_where f rows.
Proof. unfold rows_where. rewrite filter_cons. destruct (f r); simpl; lia. Qed.

Section procs.
Context {A B : Type} `{MallocatorLaws A} `{Mallocator B} `{CachePool A} `{FloatText}.
Context (d : CTableDefinition) (ids : list Z) (now : Z).
Hypothesis Hcols : stored_columns d (u8 (keyFields d - 1)) = Some ids.
Implicit Types (s : CRawDataProcess A B) (u : list block) (key : list Z) (rows : list srow) (row : CRowValue).

(** ** The node's data *)

(** The object and the allocator of the process *)
Definition raw s : CRawData * A := (m_stRawData s, p_mem s).

(** The chunk behind the node's data handle holds the rows. *)
Definition node_data s u key rows : Prop :=
  Forall (row_ok d ids) rows ∧ key_ok (keyFormat d) key ∧
  ∃ meta slack, length meta = 7%nat ∧
    mal_holds (p_mem s) ((p_vd s, head_bytes (pos key rows) (Zlen rows) meta key ++ rows_bytes rows ++ slack) :: u).

(** The object of the process is attached to it. *)
Definition attached s u key rows : Prop :=
  stored d ids (raw s) u key rows ∧ _handle (m_stRawData s) = p_vd s.

Lemma attached_node s u key rows : key_ok (keyFormat d) key -> attached s u key rows -> node_data s u key rows.
Proof.
  intros Hk [Hs Hh]. split; [apply Hs|]. split; [done|]. destruct (sd_buf _ _ _ _ _ _ Hs) as [slack Hb].
  exists (meta_bytes (m_stRawData s)), slack. split; [done|]. rewrite <- Hh. apply (buf_holds _ _ _ Hb).
Qed.

Lemma on_raw_runs {X} (m : RM X) s (Q : X -> CRawData * A -> Prop) :
  runs m (raw s) Q -> runs (on_raw m) s (λ x s', ∃ r, Q x r ∧ s' = set_raw r s).
Proof. intros (x & r & Hm & HQ). exists x, (set_raw r s). split; [|by exists r]. unfold on_raw. fold (raw s). by rewrite Hm. Qed.
Lemma on_raw_step {X} (m : RM X) s x r : m (raw s) = Some (x, r) -> on_raw m s = Some (x, set_raw r s).
Proof. intros Hm. unfold on_raw. fold (raw s). by rewrite Hm. Qed.
Lemma raw_set r s : raw (set_raw r s) = r.
Proof. by destruct r. Qed.
Lemma set_raw_same s : set_raw (raw s) s = s.
Proof. by destruct s. Qed.

(** Only the object and the allocator changed. *)
Definition raw_step s s' : Prop := s' = set_raw (raw s') s.
#[local] Instance raw_step_preorder : PreOrder raw_step.
Proof.
  split; [by intros []|]. unfold raw_step. intros s1 s2 s3 E1 E2. rewrite E1 in E2. exact E2.
Qed.
Lemma raw_step_set r s : raw_step s (set_raw r s).
Proof. unfold raw_step. by rewrite raw_set. Qed.
Lemma raw_step_fields s s' : raw_step s s' ->
  p_vd s' = p_vd s ∧ p_task s' = p_task s ∧ p_affected s' = p_affected s ∧ p_sys s' = p_sys s ∧
  m_llRowsInc s' = m_llRowsInc s ∧ m_llDirtyRowsInc s' = m_llDirtyRowsInc s.
Proof. unfold raw_step. intros ->. done. Qed.

Lemma attach_raw_run s u key rows :
  node_data s u key rows ->
  runs (attach_raw d (-1)) s (λ c s', c = 0 ∧ raw_step s s' ∧ attached s' u key rows ∧
    m_uiOffset (m_stRawData s') = pos key [] ∧ m_uiRowCnt (m_stRawData s') = Zlen rows).
Proof.
  intros (Hok & Hk & meta & slack & Hm & Ha). unfold attach_raw. eapply runs_step; [done|].
  eapply runs_mono.
  { apply on_raw_runs. by apply (Attach_stored d ids (m_stRawData s) (p_mem s) u (p_vd s) key rows meta slack). }
  intros c s' (r & (-> & Hs & Hh & Ho & _) & ->). split; [done|]. split; [apply raw_step_set|].
  split; [split; [by rewrite raw_set|done]|]. split; [done|]. apply (sd_cnt _ _ _ _ _ _ Hs).
Qed.

Lemma AttachData_null_run s u key rows :
  node_data s u key rows ->
  runs (AttachData_null d) s (λ c s', c = 0 ∧ raw_step s s' ∧ attached s' u key rows ∧
    m_uiOffset (m_stRawData s') = pos key [] ∧ m_uiRowCnt (m_stRawData s') = Zlen rows).
Proof.
  intros Hn. unfold AttachData_null. eapply runs_bind; [by apply (attach_raw_run s u key rows)|].
  intros c s' (-> & ?). by apply runs_ret.
Qed.

Lemma AttachData_run s u key rows :
  node_data s u key rows -> p_affected s = None ->
  runs (AttachData d now) s (λ c s', c = 0 ∧ raw_step s s' ∧ attached s' u key rows ∧
    m_uiOffset (m_stRawData s') = pos key [] ∧ m_uiRowCnt (m_stRawData s') = Zlen rows).
Proof.
  intros Hn Hp. unfold AttachData. eapply runs_bind; [by apply (attach_raw_run s u key rows)|].
  intros c s' (-> & E & ?). cbn [Z.eqb negb]. eapply runs_step with (x := false) (s' := s').
  { destruct (raw_step_fields _ _ E) as (_ & _ & Ha & _). unfold has_aff, get. by rewrite Ha, Hp. }
  by apply runs_ret.
Qed.

Lemma total_rows_eq s n : m_uiRowCnt (m_stRawData s) = Z.of_nat n -> total_rows s = Some (n, s).
Proof.
  intros E. unfold total_rows. rewrite (step_bind _ _ _ _ _ (on_raw_step (rget m_uiRowCnt) s (m_uiRowCnt (m_stRawData s)) (raw s) eq_refl)).
  rewrite set_raw_same. by rewrite E, Nat2Z.id.
Qed.

(** ** Decoding *)

(** A row value that the loops decode into: in the columns that rows do not
    keep it is as [base]. *)
Definition fresh base row : Prop :=
  row_def row = d ∧ (∀ i, i ∈ ids -> is_Some (row_get row i)) ∧
  (∀ i, i ∉ ids -> row_get row i = row_get base i).

Lemma stored_ids_pos : 0 <= u8 (keyFields d - 1).
Proof. apply uwrap_range. lia. Qed.
Lemma new_fresh : fresh (new_RowValue d) (new_RowValue d).
Proof. split; [done|]. split; [|done]. intros i Hi. by apply (new_row_get d _ ids i stored_ids_pos Hcols). Qed.

Lemma reads_fresh base row cells row' : fresh base row -> length cells = length ids -> reads d ids row cells row' ->
  fresh base row' ∧ reads d ids base cells row'.
Proof.
  intros (Hd & Hi & Ho) Hl (Hd' & Hc & Ho'). assert (∀ i, i ∉ ids -> row_get row' i = row_get base i) as Hn.
  { intros i Hn. by rewrite Ho', Ho. }
  split; [|by split_and!]. split_and!; [done| |done]. intros i Hin.
  apply list_elem_of_lookup in Hin as [j Hj]. destruct (lookup_lt_is_Some_2 cells j) as [c Hcj].
  { rewrite Hl. by apply lookup_lt_Some in Hj. }
  destruct (Hc i c) as (v & Hv & _); [|by exists v].
  apply list_elem_of_lookup. exists j. apply lookup_zip_with_Some. by exists i, c.
Qed.

Lemma decode_run s u key pre r post base row :
  attached s u key (pre ++ r :: post) -> m_uiOffset (m_stRawData s) = pos key pre -> fresh base row ->
  runs (decode row) s (λ x s', ∃ row', x = (0, sr_flag r, row') ∧ fresh base row' ∧
    reads d ids base (sr_cells r) row' ∧ raw_step s s' ∧ attached s' u key (pre ++ r :: post) ∧
    m_uiRowOffset (m_stRawData s') = pos key pre ∧ m_uiOffset (m_stRawData s') = pos key (pre ++ [r]) ∧
    _size (m_stRawData s') = _size (m_stRawData s) ∧
    (∀ p i v, ids !! p = Some i -> row_get row' i = Some v ->
       cell_ptr d i (pos key pre + 1 + Zlen (concat (take p (sr_cells r)))) v)).
Proof.
  intros [Hs Hh] Ho Hf. destruct Hf as (Hd & Hi & Hn).
  destruct (DecodeRow_stored d ids (raw s) u key pre r post row 0 0 Hs Ho Hd Hi)
    as (row' & s' & Hrun & Hd' & Hin & Hout & Hs' & [Hh' Hz'] & _ & Hoff & Hptr).
  assert (length (sr_cells r) = length ids) as Hl.
  { pose proof (sd_rows _ _ _ _ _ _ Hs) as Hok. rewrite Forall_app, Forall_cons in Hok. destruct Hok as (_ & [_ Hc] & _).
    symmetry. by eapply Forall2_length. }
  destruct (reads_fresh base row (sr_cells r) row') as [Hf' Hr']; [done|done|by split_and!|]. destruct Hoff as [Ho1 Ho2].
  exists (0, sr_flag r, row'), (set_raw s' s). split; [unfold decode; by apply on_raw_step|].
  exists row'. split_and!; try done.
  split; [by rewrite raw_set|]. unfold set_raw. cbn. rewrite Hh'. exact Hh.
Qed.

(** The rows a request selects: what its condition says of a decoded row
    depends on the stored cells only. *)
Definition selects (t : CTaskRequest) (sel : srow -> bool) rows : Prop :=
  ∀ r row, r ∈ rows -> reads d ids (new_RowValue d) (sr_cells r) row ->
    ∃ c, CompareRow t row = Some c ∧ sel r = negb (c =? 0).

(** ** Counting dirty rows *)

Lemma dirty_loop_run u key pre post base s row k :
  attached s u key (pre ++ post) -> m_uiOffset (m_stRawData s) = pos key pre -> fresh base row ->
  runs (dirty_loop row (length post) k) s (λ c s', c = k + rows_where is_dirty post ∧
    raw_step s s' ∧ attached s' u key (pre ++ post)).
Proof.
  revert pre s row k. induction post as [|r post IH]; intros pre s row k Ha Ho Hf; cbn [length dirty_loop].
  { apply runs_ret. split; [rewrite rows_where_nil; lia|done]. }
  eapply runs_bind; [by apply (decode_run s u key pre r post base row)|].
  intros x s1 (row' & -> & Hf1 & _ & E1 & Ha1 & _ & Ho1 & _). cbn [fst snd Z.eqb negb]. rewrite (cons_middle r pre post), app_assoc in Ha1 |- *.
  eapply runs_mono; [by apply (IH (pre ++ [r]))|]. intros c s2 (-> & E2 & Ha2).
  split; [|split; [by trans s1|done]]. rewrite rows_where_cons. change (is_dirty r) with (dirty (sr_flag r)).
  destruct (dirty (sr_flag r)); lia.
Qed.

(** Counting the dirty rows of a node returns the number of rows whose
    flag has the dirty bit and leaves the node as it is. *)
Theorem DirtyRowsInNode_correct s u key rows :
  node_data s u key rows -> t_tableDef (p_task s) = d ->
  runs (DirtyRowsInNode d) s (λ c s', c = rows_where is_dirty rows ∧ node_data s' u key rows ∧ p_vd s' = p_vd s ∧
    m_llRowsInc s' = m_llRowsInc s ∧ m_llDirtyRowsInc s' = m_llDirtyRowsInc s ∧ p_task s' = p_task s).
Proof.
  intros Hn Ht. pose proof Hn as (_ & Hk & _). unfold DirtyRowsInNode.
  eapply runs_bind; [by apply (AttachData_null_run s u key rows)|].
  intros c s1 (-> & E1 & Ha1 & Ho1 & Hc1). cbn [Z.eqb negb]. eapply runs_step; [by apply total_rows_eq|]. eapply runs_step; [done|].
  destruct (raw_step_fields _ _ E1) as (_ & Et & _).
  eapply runs_mono; [apply (dirty_loop_run u key [] rows (new_RowValue d)); [done..|]; rewrite Et, Ht; apply new_fresh|].
  intros c s2 (-> & E2 & Ha2). split; [done|]. split; [by apply attached_node|].
  assert (raw_step s s2) as E by (by trans s1). apply raw_step_fields in E. tauto.
Qed.

(** ** Deleting *)

(** The request did its work on the rows; the counters went up by [dr] and
    [dd]. *)
Record work s s' (dr dd : Z) : Prop := {
  wk_task : p_task s' = p_task s;
  wk_affected : p_affected s' = p_affected s;
  wk_rows : m_llRowsInc s' = m_llRowsInc s + dr;
  wk_dirty : m_llDirtyRowsInc s' = m_llDirtyRowsInc s + dd
}.

Lemma work_raw s s' : raw_step s s' -> work s s' 0 0.
Proof. intros (_ & ? & ? & _ & ? & ?)%raw_step_fields. split; [done|done|lia|lia]. Qed.
Lemma work_trans s1 s2 s3 a b a' b' : work s1 s2 a b -> work s2 s3 a' b' -> work s1 s3 (a + a') (b + b').
Proof. intros [T1 A1 R1 D1] [T2 A2 R2 D2]. split; [congruence|congruence|lia|lia]. Qed.
Lemma work_eq s s' a b a' b' : work s s' a b -> a = a' -> b = b' -> work s s' a' b'.
Proof. by intros ? <- <-. Qed.

Lemma save_handle_eq s : save_handle s = Some (tt, set_vd (_handle (m_stRawData s)) s).
Proof. by destruct s. Qed.
Lemma save_handle_same s : _handle (m_stRawData s) = p_vd s -> save_handle s = Some (tt, s).
Proof. rewrite save_handle_eq. intros ->. by destruct s. Qed.

Definition others (sel : srow -> bool) rows : list srow := filter (λ r, negb (sel r)) rows.
Definition sel_dirty (sel : srow -> bool) (r : srow) : bool := sel r && is_dirty r.

Lemma others_cons sel r rows : others sel (r :: rows) = if sel r then others sel rows else r :: others sel rows.
Proof. unfold others. rewrite filter_cons. by destruct (sel r). Qed.

Lemma selects_tail t sel r rows : selects t sel (r :: rows) -> selects t sel rows.
Proof. intros Hs r' row' Hr. apply Hs. by right. Qed.

Lemma delete_loop_run u key sel pre post s row k :
  attached s u key (pre ++ post) -> m_uiOffset (m_stRawData s) = pos key pre -> fresh (new_RowValue d) row -> p_affected s = None ->
  selects (p_task s) sel post ->
  runs (delete_loop row (length post) k) s (λ x s', x = inr (k + rows_where sel post) ∧
    attached s' u key (pre ++ others sel post) ∧ work s s' (- rows_where sel post) (- rows_where (sel_dirty sel) post) ∧
    p_sys s' = p_sys s ∧ p_vd s' = p_vd s ∧ _size (m_stRawData s') = _size (m_stRawData s)).
Proof.
  revert pre s row k. induction post as [|r post IH]; intros pre s row k Ha Ho Hf Hp Hsel; cbn [length delete_loop].
  { apply runs_ret. rewrite !rows_where_nil. split_and!; try done; [f_equal; lia|]. by apply work_raw. }
  eapply runs_bind; [by apply (decode_run s u key pre r post (new_RowValue d) row)|].
  intros x s1 (row' & -> & Hf1 & Hr & E1 & Ha1 & Hro1 & Ho1 & Hz1 & _). cbn [fst snd Z.eqb negb].
  pose proof (raw_step_fields _ _ E1) as (Ev1 & Et1 & Ep1 & Es1 & _).
  eapply runs_step; [done|]. rewrite Et1.
  destruct (Hsel r row' ltac:(by left) Hr) as (c & Hc & Hselr). rewrite Hc. eapply runs_step; [done|].
  rewrite !rows_where_cons, others_cons. change (sel_dirty sel r) with (sel r && is_dirty r). rewrite Hselr.
  destruct (Z.eqb_spec c 0); cbn [negb andb].
  - rewrite (cons_middle r pre post), app_assoc in Ha1.
    eapply runs_mono; [apply (IH (pre ++ [r])); try done; [by rewrite Ep1|rewrite Et1; by eapply selects_tail]|].
    intros x s2 (-> & Ha2 & Hw & Hs2 & Hv2 & Hz2). rewrite <- app_assoc in Ha2. split_and!; try done; try congruence.
    eapply work_eq; [by eapply work_trans; [apply work_raw|]|lia|lia].
  - eapply runs_step with (x := tt) (s' := s1).
    { unfold copy_affected, has_aff. unfold mbind, ST_bind, get. cbn. by rewrite Ep1, Hp. }
    destruct Ha1 as [Hst1 Hh1].
    eapply runs_bind; [apply on_raw_runs; by apply (DeleteCurRow_stored d ids (raw s1) u key pre r post row' Hst1 Hro1 (proj1 Hf1))|].
    intros c1 s2 ([o1 a1] & (-> & Hst2 & Ho2 & _ & Hh2 & Hz2) & ->).
    unfold save_handle_if. cbn [Z.eqb EC_NO_MEM].
    eapply runs_step; [apply save_handle_same; etrans; [exact Hh2|exact Hh1]|].
    cbn [negb]. eapply runs_step; [done|].
    eapply runs_mono; [apply (IH pre); try done|].
    + split; [exact Hst2|etrans; [exact Hh2|exact Hh1]].
    + cbn. by rewrite Ep1.
    + cbn. rewrite Et1. by eapply selects_tail.
    + intros x s3 (-> & Ha3 & Hw & Hs3 & Hv3 & Hz3). split_and!; try done; try (cbn in *; congruence).
      * f_equal. lia.
      * destruct Hw as [T3 A3 R3 D3], (work_raw _ _ E1) as [T1 A1 R1 D1]. cbn in *. unfold is_dirty at 1.
        split; [congruence|congruence|lia|]. destruct (dirty (sr_flag r)); lia.
Qed.

Lemma touch_run s u key rows :
  attached s u key rows -> runs (touch now) s (λ _ s', raw_step s s' ∧ attached s' u key rows).
Proof.
  intros [Hs Hh]. unfold touch.
  eapply runs_bind; [apply on_raw_runs; by apply (UpdateLastAccessTimeByHour_stored d ids (raw s) u key rows now)|].
  intros _ s1 ([o1 a1] & [E1 Hs1] & ->). cbn [fst] in E1. subst o1.
  eapply runs_mono.
  { apply on_raw_runs. by apply (UpdateLastUpdateTimeByHour_stored d ids (raw (set_raw (_, a1) s)) u key rows now). }
  intros _ s2 ([o2 a2] & [E2 Hs2] & ->). cbn [fst] in E2. subst o2. split; [done|]. by split.
Qed.

(** The count of deleted rows in the answer: it is set when the answer has no
    count yet or the condition has a time stamp. *)
Definition by_stamp (t : CTaskRequest) : bool :=
  match t_conditionInfo t with Some c => negb (HasTypeTimestamp c =? 0) | None => false end.
Definition reported (t : CTaskRequest) (n : Z) (t' : CTaskRequest) : Prop :=
  ∃ a, AffectedRows (t_resultInfo t) = Some a ∧
    if (0 <? n) && ((a =? 0) || by_stamp t)
    then ∃ r, t' = set_t_resultInfo r t ∧ AffectedRows r = Some n
    else t' = t.

Lemma rows_where_range f rows : 0 <= rows_where f rows <= Zlen rows.
Proof. unfold rows_where. pose proof (length_filter (λ r, f r) rows). lia. Qed.

Lemma others_size sel rows key :
  Forall (row_ok d ids) rows -> ids ≠ [] -> pos key (others sel rows) + 5 * rows_where sel rows <= pos key rows.
Proof.
  intros Hok Hne. induction Hok as [|r rows Hr Hok IH]; [rewrite rows_where_nil; change (others sel []) with (@nil srow); lia|].
  rewrite others_cons, rows_where_cons. pose proof (row_size_min d ids r Hr Hne) as Hmin. unfold pos in *.
  rewrite rows_bytes_cons, length_app. destruct (sel r); [lia|]. rewrite rows_bytes_cons, length_app. lia.
Qed.

Lemma strip_run `{!MallocatorInPlace A} s u key rows :
  attached s u key rows -> pos key rows + 4 <= _size (m_stRawData s) ->
  runs (on_raw StripMem) s (λ _ s', raw_step s s' ∧ attached s' u key rows).
Proof.
  intros [Hs Hh] Hroom. eapply runs_mono; [apply on_raw_runs; by apply (StripMem_in_place d ids (raw s) u key rows)|].
  intros c s' ([o a] & [Hs' Hh'] & ->). split; [done|]. split; [done|]. etrans; [exact Hh'|exact Hh].
Qed.

(** What follows the loop when rows were deleted *)
Lemma delete_report_run `{!MallocatorInPlace A} s u key rows n :
  attached s u key rows -> pos key rows + 4 <= _size (m_stRawData s) -> result_ok (p_task s) -> 0 < n < 2 ^ 64 ->
  runs (t ← get p_task; a ← lift (AffectedRows (t_resultInfo t));
        when_ ((a =? 0) || by_stamp t) (on_task (λ t, t ← Task.SetAffectedRows n t; Some (tt, t)));;
        on_raw StripMem;; mret tt) s
    (λ _ s', attached s' u key rows ∧ p_vd s' = p_vd s ∧ reported (p_task s) n (p_task s') ∧ p_affected s' = p_affected s ∧
      p_sys s' = p_sys s ∧ m_llRowsInc s' = m_llRowsInc s ∧ m_llDirtyRowsInc s' = m_llDirtyRowsInc s).
Proof.
  intros Ha Hroom Hok Hn. eapply runs_step; [done|]. destruct (AffectedRows_total _ Hok) as [a Haff].
  rewrite Haff. eapply runs_step; [done|].
  destruct (SetAffectedRows_total (p_task s) n Hok) as (r & Hset & _ & Hr); [lia|].
  eapply runs_bind with (Q := λ _ s1, s1 = set_task (if (a =? 0) || by_stamp (p_task s) then set_t_resultInfo r (p_task s) else p_task s) s).
  { destruct ((a =? 0) || by_stamp (p_task s)); cbn [when_].
    - eexists tt, _. split; [|done]. unfold on_task. by rewrite Hset.
    - apply runs_ret. by destruct s. }
  intros _ s1 ->. eapply runs_bind; [apply (strip_run _ u key rows); [exact Ha|exact Hroom]|].
  intros _ s2 [E2 Ha2]. apply runs_ret. apply raw_step_fields in E2 as (E & Et & Ep & Es & Er & Ed). cbn in *.
  split_and!; try done. exists a. split; [done|]. rewrite Et. destruct (Z.ltb_spec 0 n); [|lia]. cbn [andb].
  destruct ((a =? 0) || by_stamp (p_task s)); [by exists r|done].
Qed.

(** [C18] A delete request removes exactly the rows its condition selects and
    keeps the others in order; the counters of the request say how many rows
    and how many dirty rows went, the answer gets the count, and the node's
    data handle still leads to the rows that are left. *)
Theorem DeleteData_correct `{!MallocatorInPlace A} s u key rows sel :
  node_data s u key rows -> p_affected s = None -> t_tableDef (p_task s) = d -> result_ok (p_task s) -> ids ≠ [] ->
  selects (p_task s) sel rows ->
  runs (DeleteData d now) s (λ c s', c = 0 ∧ node_data s' u key (others sel rows) ∧ p_vd s' = p_vd s ∧
    m_llRowsInc s' = - rows_where sel rows ∧ m_llDirtyRowsInc s' = - rows_where (sel_dirty sel) rows ∧
    reported (p_task s) (rows_where sel rows) (p_task s')).
Proof.
  intros Hn Hp Ht Hok Hids Hsel. pose proof Hn as (Hrows & Hk & _). unfold DeleteData. eapply runs_step; [done|].
  eapply runs_bind; [by apply (AttachData_run (set_inc 0 0 s) u key rows)|].
  intros c s1 (-> & E1 & Ha1 & Ho1 & Hc1). cbn [Z.eqb negb]. eapply runs_step; [by apply total_rows_eq|].
  apply raw_step_fields in E1 as (Ev1 & Et1 & Ep1 & Es1 & Er1 & Ed1). cbn in Ev1, Et1, Ep1, Es1, Er1, Ed1.
  eapply runs_step; [done|]. rewrite Et1, Ht.
  eapply runs_bind; [apply (delete_loop_run u key sel [] rows); [done|done|apply new_fresh|congruence|by rewrite Et1]|].
  intros x s2 (-> & Ha2 & [Et2 Ep2 Er2 Ed2] & Es2 & Ev2 & Hz2). cbn [app] in Ha2.
  pose proof (rows_where_range sel rows) as Hr. rewrite Z.add_0_l.
  assert (pos key rows <= _size (m_stRawData s1)) as Hsz.
  { destruct (stored_used _ _ _ _ _ _ (proj1 Ha1)) as (slack & _ & _ & Hsz). unfold raw in Hsz. cbn in Hsz. lia. }
  pose proof (stored_bounds _ _ _ _ _ _ (proj1 Ha1)) as [Hb1 Hb2]. pose proof (others_size sel rows key Hrows Hids) as Hroom.
  eapply runs_bind with (Q := λ _ s3, attached s3 u key (others sel rows) ∧ p_vd s3 = p_vd s ∧
    reported (p_task s) (rows_where sel rows) (p_task s3) ∧
    m_llRowsInc s3 = - rows_where sel rows ∧ m_llDirtyRowsInc s3 = - rows_where (sel_dirty sel) rows).
  { destruct (Z.ltb_spec 0 (rows_where sel rows)) as [Hpos|Hz].
    - eapply runs_mono; [apply (delete_report_run s2 u key _ (rows_where sel rows) Ha2); rewrite ?Et2, ?Et1; done || lia|].
      intros _ s3 (Ha3 & Ev3 & Hrep & _ & _ & Er3 & Ed3). rewrite Et2, Et1 in Hrep. split_and!; try done; congruence || lia.
    - apply runs_ret. split_and!; try done; [congruence| |lia|lia]. destruct (AffectedRows_total _ Hok) as [a Haff].
      exists a. split; [done|]. destruct (Z.ltb_spec 0 (rows_where sel rows)); [lia|]. cbn [andb]. congruence. }
  intros _ s3 (Ha3 & Ev3 & Hrep & Er3 & Ed3).
  eapply runs_step; [by apply (on_raw_step (rget m_uiRowCnt) s3 (m_uiRowCnt (m_stRawData s3)) (raw s3))|].
  rewrite set_raw_same.
  eapply runs_bind with (Q := λ _ s4, raw_step s3 s4 ∧ attached s4 u key (others sel rows)).
  { destruct (0 <? _); cbn [when_]; [by apply touch_run|by apply runs_ret]. }
  intros _ s4 [E4 Ha4]. apply runs_ret. apply raw_step_fields in E4 as (Ev4 & Et4 & _ & _ & Er4 & Ed4).
  split; [done|]. split; [by apply attached_node|]. rewrite Ev4, Et4, Er4, Ed4. done.
Qed.

(** ** Flushing *)

(** The key in the chunk *)
Lemma key_ptr_run s u key rows :
  attached s u key rows -> ∃ p, on_raw key_ptr s = Some (p, s) ∧ holds p key.
Proof.
  intros [Hs Hh]. destruct (stored_content d ids (raw s) u key rows Hs) as (slack & bs & Ebs & Hb & Hsz & Hread).
  pose proof (buf_block _ _ _ Hb) as (Hpos & _). exists (Some (Ptr bs 16)). split.
  - assert (runs key_ptr (raw s) (λ p r, p = Some (Ptr bs 16) ∧ r = raw s)) as (p & r & Hrun & -> & ->).
    { unfold key_ptr, content_ptr. eapply runs_bind with (Q := λ k r, k = Some (m_pchContent (raw s).1 + 16) ∧ r = raw s).
      - unfold Key. do 2 (eapply runs_step; [apply rget_ok|]). rewrite (buf_content _ _ _ Hb).
        destruct (Z.eqb_spec (_handle (raw s).1) 0); [lia|]. apply runs_ret. by rewrite (sd_keystart _ _ _ _ _ _ Hs).
      - intros k r [-> ->]. eapply runs_bind with (Q := λ p r, p = Some (Ptr bs 0) ∧ r = raw s).
        + eapply runs_step; [apply rget_ok|]. eapply runs_step; [exact Hread|]. by apply runs_ret.
        + intros p r [-> ->]. eapply runs_step; [apply rget_ok|]. rewrite (sd_keystart _ _ _ _ _ _ Hs). by apply runs_ret. }
    rewrite (on_raw_step _ _ _ _ Hrun). by rewrite set_raw_same.
  - rewrite Ebs. unfold head_bytes. rewrite <- !app_assoc.
    pose proof (holds_block ([DATA_TYPE_RAW] ++ le_bytes 4 (pos key rows) ++ le_bytes 4 (Zlen rows) ++ meta_bytes (raw s).1)
                  key (rows_bytes rows ++ slack)) as Hk.
    rewrite <- !app_assoc in Hk. exact Hk.
Qed.

(** A row after the dirty bit is taken off its flag *)
Definition clean (r : srow) : srow := SRow (Z.land (sr_flag r) (Z.lnot OPER_DIRTY)) (sr_cells r).

Lemma clean_flag f : is_byte f -> is_byte (Z.land f (Z.lnot OPER_DIRTY)) ∧ dirty (Z.land f (Z.lnot OPER_DIRTY)) = false.
Proof.
  intros [Hf1 Hf2]. assert (forallb (λ n, let g := Z.land (Z.of_nat n) (Z.lnot OPER_DIRTY) in
    (0 <=? g) && (g <? 256) && negb (dirty g)) (seq 0 256) = true) as Hall by (vm_compute; reflexivity).
  rewrite forallb_forall in Hall. specialize (Hall (Z.to_nat f)). rewrite Z2Nat.id in Hall by lia.
  specialize (Hall ltac:(apply in_seq; lia)). cbv zeta in Hall. rewrite !andb_true_iff, negb_true_iff, Z.leb_le, Z.ltb_lt in Hall.
  split; [split; lia|tauto].
Qed.

(** The dirty rows are written out in order and become clean, until one fails:
    the rows left, the return code and the rows written.  [ok] says of the task
    of a number whether it can be made of a row. *)
Fixpoint flushed (ok : Z -> srow -> bool) (k : Z) (rows : list srow) : list srow * Z * list srow :=
  match rows with
  | [] => ([], 0, [])
  | r :: rows' =>
      if negb (is_dirty r) then let x := flushed ok k rows' in (r :: x.1.1, x.1.2, x.2)
      else if ok k r then let x := flushed ok (k + 1) rows' in (clean r :: x.1.1, x.1.2, r :: x.2)
      else (r :: rows', -2, [])
  end.

Lemma flushed_clean ok k rows : Forall (λ r, is_byte (sr_flag r)) rows -> (flushed ok k rows).1.2 = 0 ->
  rows_where is_dirty (flushed ok k rows).1.1 = 0 ∧ (flushed ok k rows).2 = filter is_dirty rows.
Proof.
  intros Hfl. revert k. induction Hfl as [|r rows Hr _ IH]; intros k; [done|]. cbn [flushed]. rewrite filter_cons.
  destruct (is_dirty r) eqn:Hd; cbn [negb].
  - destruct (ok k r); [|done]. cbn [fst snd]. intros [E1 E2]%IH. rewrite rows_where_cons, E1, E2.
    change (is_dirty (clean r)) with (dirty (Z.land (sr_flag r) (Z.lnot OPER_DIRTY))).
    rewrite (proj2 (clean_flag _ Hr)). done.
  - cbn [fst snd]. intros [E1 E2]%IH. by rewrite rows_where_cons, Hd, E1, E2.
Qed.

(** Making a task of a decoded row succeeds when [ok] says so of the stored
    row; without a flush request there is nothing to fail. *)
Definition copies (Copy : Z -> CRowValue -> Z) (flush : option CFlushRequest) (ok : Z -> srow -> bool) rows : Prop :=
  ∀ base k r row, r ∈ rows -> reads d ids base (sr_cells r) row ->
    ok k r = match flush with Some _ => negb (Copy k row <? 0) | None => true end.

(** The flush request after the rows [written] went to its queue, each with the
    contents of its cells and the other columns of [base] *)
Definition queued base (written : list srow) (flush flush' : option CFlushRequest) : Prop :=
  match flush, flush' with
  | None, None => True
  | Some q, Some q' => ∃ new, q' = MkFlush (numReq q + Zlen written) (flushQueue q ++ new) ∧
      Forall2 (λ r row, reads d ids base (sr_cells r) row) written new
  | _, _ => False
  end.
Definition numbered (flush : option CFlushRequest) (m : Z) : Prop := ∀ q, flush = Some q -> numReq q = m.

Lemma queued_cons base r row written q flush' :
  reads d ids base (sr_cells r) row -> queued base written (Some (MkFlush (numReq q + 1) (flushQueue q ++ [row]))) flush' ->
  queued base (r :: written) (Some q) flush'.
Proof.
  intros Hr. destruct flush' as [q'|]; [|done]. intros (new & -> & Hn). exists (row :: new). cbn [numReq flushQueue]. split; [|by constructor].
  f_equal; [simpl; lia|by rewrite <- app_assoc].
Qed.

Lemma set_flag_run s u key pre r post f :
  attached s u key (pre ++ r :: post) -> m_uiRowOffset (m_stRawData s) = pos key pre -> is_byte f ->
  runs (on_raw (SetCurRowFlag f)) s (λ _ s', raw_step s s' ∧ attached s' u key (pre ++ SRow f (sr_cells r) :: post) ∧
    m_uiOffset (m_stRawData s') = m_uiOffset (m_stRawData s)).
Proof.
  intros [Hs Hh] Ho Hf.
  eapply runs_mono; [apply on_raw_runs; by apply (SetCurRowFlag_stored d ids (raw s) u key pre r post f)|].
  intros c s' ([o a] & (_ & E & Hs') & ->). cbn in E. subst o. split; [done|]. split; [by split|done].
Qed.

Lemma pos_flag key pre r f : pos key (pre ++ [SRow f (sr_cells r)]) = pos key (pre ++ [r]).
Proof. rewrite !pos_snoc. done. Qed.

Lemma flush_row_run Copy flush ok m r row rows base :
  copies Copy flush ok rows -> r ∈ rows -> reads d ids base (sr_cells r) row -> numbered flush m -> 0 <= m < 2 ^ 31 - 1 ->
  ∃ flush', flush_row Copy row flush = (ok m r, flush') ∧ (is_Some flush' <-> is_Some flush) ∧
    if ok m r then numbered flush' (m + 1) ∧ ∀ written fl, queued base written flush' fl -> queued base (r :: written) flush fl
    else flush' = flush.
Proof.
  intros Hc Hin Hr Hm Hlt. specialize (Hc base m r row Hin Hr). destruct flush as [q|].
  2: { exists None. rewrite Hc. split; [done|]. split; [done|]. split; [done|]. by intros ? []. }
  assert (numReq q = m) as Eq by by apply Hm. unfold flush_row, FlushRow. rewrite Eq, swrap_small by lia.
  destruct (Copy m row <? 0); cbn in Hc; rewrite Hc; cbn.
  - exists (Some q). split; [done|]. by split.
  - eexists. split; [done|]. split; [done|]. split; [by intros ? [= <-]|]. intros written fl. rewrite <- Eq. by apply queued_cons.
Qed.
Lemma queued_nil base flush : queued base [] flush flush.
Proof. destruct flush as [[m l]|]; [|done]. exists []. cbn. split; [f_equal; [lia|by rewrite app_nil_r]|constructor]. Qed.

Lemma flush_loop_run Copy flush ok m u key pre post base s row k :
  attached s u key (pre ++ post) -> m_uiOffset (m_stRawData s) = pos key pre -> fresh base row -> copies Copy flush ok post ->
  numbered flush m -> 0 <= m -> m + Zlen post < 2 ^ 31 ->
  let x := flushed ok m post in
  runs (flush_loop Copy flush row (length post) k) s (λ y s', y.1 = (x.1.2, k + Zlen x.2) ∧ queued base x.2 flush y.2 ∧
    attached s' u key (pre ++ x.1.1) ∧ work s s' 0 (- Zlen x.2) ∧ p_vd s' = p_vd s).
Proof.
  revert pre s row k flush m. induction post as [|r post IH]; intros pre s row k flush m Ha Ho Hf Hw Hq Hq1 Hq2; cbn [length flush_loop].
  { apply runs_ret. cbn. split_and!; [f_equal; lia|apply queued_nil|done|by apply work_raw|done]. }
  cbn [length] in Hq2.
  eapply runs_bind; [by apply (decode_run s u key pre r post base row)|].
  intros x s1 (row' & -> & Hf1 & Hr & E1 & Ha1 & Hro1 & Ho1 & _). cbn [fst snd Z.eqb negb].
  pose proof (raw_step_fields _ _ E1) as (Ev1 & _). change (dirty (sr_flag r)) with (is_dirty r). cbn [flushed].
  assert (∀ fl, (is_Some fl <-> is_Some flush) -> copies Copy fl ok post) as Hw'.
  { intros fl Hfl b k' r' row2 Hin Hr2. rewrite (Hw b k' r' row2); [|by right|done]. destruct Hfl as [Hx1 Hx2], fl, flush; try done; [by destruct (Hx1 ltac:(by eexists))|by destruct (Hx2 ltac:(by eexists))]. }
  destruct (is_dirty r) eqn:Hd; cbn [negb fst snd].
  2: { rewrite (cons_middle r pre post), app_assoc in Ha1.
       eapply runs_mono; [apply (IH (pre ++ [r]) s1 row' k flush m); try done; [by apply Hw'|lia]|]. intros y s2 (Hy & Hqy & Ha2 & Hk2 & Hv2).
       rewrite <- app_assoc in Ha2. split_and!; [done|done|done| |congruence].
       eapply work_eq; [by eapply work_trans; [apply work_raw|]|lia|lia]. }
  destruct (flush_row_run Copy flush ok m r row' (r :: post) base Hw ltac:(by left) Hr Hq ltac:(lia)) as (fl & -> & Hs & Hfl).
  cbn [fst snd]. destruct (ok m r) eqn:Hok; cbn [negb fst snd].
  2: { subst fl. apply runs_ret. split_and!; [cbn; f_equal; lia|apply queued_nil|done|by apply work_raw|done]. }
  destruct Hfl as [Hm' Hqc]. assert (is_byte (sr_flag r)) as Hb.
  { pose proof (sd_rows _ _ _ _ _ _ (proj1 Ha)) as Hok'. rewrite Forall_app, Forall_cons in Hok'. apply Hok'. }
  eapply runs_bind; [apply (set_flag_run s1 u key pre r post _ Ha1 Hro1), clean_flag, Hb|].
  intros _ s2 (E2 & Ha2 & Ho2). fold (clean r) in Ha2. eapply runs_step; [done|].
  rewrite (cons_middle (clean r) pre post), app_assoc in Ha2.
  pose proof (raw_step_fields _ _ E2) as (Ev2 & Et2 & Ep2 & _ & Er2 & Ed2).
  eapply runs_mono.
  { apply (IH (pre ++ [clean r]) (set_inc (m_llRowsInc s2 + 0) (m_llDirtyRowsInc s2 + -1) s2) row' (k + 1) fl (m + 1));
      [exact Ha2| |done|by apply Hw'|done|lia|lia]. cbn. unfold clean. rewrite pos_flag. congruence. }
  intros y s3 (Hy & Hqy & Ha3 & Hk3 & Hv3). rewrite <- app_assoc in Ha3. cbn in Hv3.
  split_and!; [rewrite Hy; f_equal; cbn; lia|by apply Hqc|done| |congruence].
  destruct Hk3 as [T3 A3 R3 D3], (work_raw _ _ E1) as [T1 A1 R1 D1]. cbn in *. split; [congruence|congruence|lia|lia].
Qed.

(** The key of the node can be unpacked into a row. *)
Definition key_unpacks (astKey : list CValue) key : Prop :=
  ∀ p, holds p key -> ∃ keys row, UnpackKey d p astKey = Some keys ∧ put_keys (new_RowValue d) 0 keys = Some row.

Lemma put_keys_shape row i keys row' :
  put_keys row i keys = Some row' -> row_def row' = row_def row ∧ length (row_value row') = length (row_value row).
Proof.
  revert row i. induction keys as [|k keys IH]; intros row i Hp; cbn [put_keys] in Hp; [by simplify_eq|].
  apply bind_Some in Hp as (row1 & Hp1 & Hp). apply IH in Hp as [-> ->].
  unfold row_put in Hp1. apply bind_Some in Hp1 as (l & Hl & [= <-]). cbn. by rewrite (wr_length _ _ _ _ Hl).
Qed.

Lemma put_keys_fresh keys row : put_keys (new_RowValue d) 0 keys = Some row -> fresh row row.
Proof.
  intros [Hd Hl]%put_keys_shape. split; [done|]. split; [|done]. intros i Hi.
  destruct (proj1 (proj2 new_fresh) i Hi) as [v Hv]. unfold row_get, row_FieldValue in *. rewrite Hd.
  change (row_def (new_RowValue d)) with d in *. destruct ((0 <=? i) && (i <=? numFields d)) eqn:Hr; [|done].
  unfold row_at in *. destruct (rd (row_value (new_RowValue d)) i) as [v0|] eqn:Ev; [|done]. apply rd_Some_lt in Ev.
  destruct (rd_is_Some (row_value row) i) as [v' ->]; [lia|]. by eexists.
Qed.

(** [C19] Flushing a dirty node pushes its dirty rows to the helper's queue, in
    order and once each, with the contents of their cells and the key of the
    node, and takes their dirty bits off one by one; the count of rows written,
    also taken from the request's dirty counter, is exact.  When no task can be
    made of a row ([-2]) those before it are queued and clean and the rest
    stays as it was.  When the call succeeds the rows queued are all the dirty
    rows and none is dirty any more. *)
Theorem FlushData_correct Copy flush ok m s u key rows astKey cnt :
  node_data s u key rows -> key_unpacks astKey key -> copies Copy flush ok rows ->
  numbered flush m -> 0 <= m -> m + Zlen rows < 2 ^ 31 ->
  let x := flushed ok m rows in
  runs (FlushData d Copy flush true astKey cnt) s (λ y s', y.1 = (x.1.2, Zlen x.2) ∧
    (∃ p keys base, holds p key ∧ UnpackKey d p astKey = Some keys ∧ put_keys (new_RowValue d) 0 keys = Some base ∧
       queued base x.2 flush y.2) ∧
    node_data s' u key x.1.1 ∧ p_vd s' = p_vd s ∧ m_llRowsInc s' = 0 ∧ m_llDirtyRowsInc s' = - Zlen x.2 ∧
    (x.1.2 = 0 -> rows_where is_dirty x.1.1 = 0 ∧ x.2 = filter is_dirty rows)).
Proof.
  intros Hn Hu Hw Hm Hm1 Hm2 x. pose proof Hn as (Hrows & Hk & _). unfold FlushData. eapply runs_step; [done|].
  eapply runs_bind; [by apply (AttachData_null_run (set_inc 0 0 s) u key rows)|].
  intros c s1 (-> & E1 & Ha1 & Ho1 & Hc1). cbn [Z.eqb negb]. eapply runs_step; [by apply total_rows_eq|].
  destruct (key_ptr_run s1 u key rows Ha1) as (p & Hp & Hh). eapply runs_step; [exact Hp|].
  destruct (Hu p Hh) as (keys & row & Hkeys & Hrow). rewrite Hkeys. eapply runs_step; [done|].
  rewrite Hrow. eapply runs_step; [done|].
  eapply runs_mono; [apply (flush_loop_run Copy flush ok m u key [] rows row s1 row 0); try done; by eapply put_keys_fresh|].
  intros y s2 (Hy & Hq & Ha2 & [Et2 Ep2 Er2 Ed2] & Ev2). apply raw_step_fields in E1 as (Ev1 & _ & _ & _ & Er1 & Ed1). cbn in Ev1, Er1, Ed1.
  fold x in Hq, Ha2, Ed2, Hy |- *. cbn [app] in Ha2. split; [rewrite Hy; f_equal; lia|]. split; [by exists p, keys, row|].
  split; [by apply attached_node|]. split; [congruence|]. split; [lia|]. split; [lia|].
  intros Hz. apply flushed_clean; [|done]. eapply Forall_impl; [exact Hrows|]. by intros r [? _].
Qed.
End procs.

#[export] Existing Instance raw_step_preorder.
