(* ===== verification/ProcAlias.v ===== *)
(** * ProcAlias: updating a row whose strings lie in the chunk

    [CFieldValue::Update] on a row that [DecodeRow] just read
    ([src/cache/raw_data_process2.cc], [UpdateData]): a [SetBits] on a byte
    string writes the chunk itself, so the stored row changes before the new
    row replaces it.  [chunk_cell] says what becomes of a stored cell. *)

From stdpp Require Import list.
From S2P Require Import Prelude State Bitsop Value Protocol Codec Section TableDef Field Result Task Pkey Mallocator RawData RawBuf RawRow RawRep RawSpec RawStore RawProc ProcSpec.

#[local] Open Scope cint_scope.

(** ** SetBits on a byte string in a bigger block *)

Lemma wr_app (x l z : list Z) k v : 0 <= k < Zlen l ->
  ∃ l', wr l k v = Some l' ∧ wr (x ++ l ++ z) (Zlen x + k) v = Some (x ++ l' ++ z).
Proof.
  intros Hk. rewrite (wr_is_Some l) by lia. rewrite wr_is_Some by (rewrite !length_app; lia). eexists. split; [done|].
  rewrite insert_app_r_alt by lia. replace (Z.to_nat (Zlen x + k) - length x)%nat with (Z.to_nat k) by lia.
  by rewrite insert_app_l by lia.
Qed.
Lemma rd_mid (x l z : list Z) k : 0 <= k < Zlen l -> rd (x ++ l ++ z) (Zlen x + k) = rd l k.
Proof. intros Hk. rewrite rd_app_r by lia. rewrite rd_app_l by lia. f_equal. lia. Qed.

(** A byte of [l] is changed, wherever [l] lies. *)
Definition same_effect (l l' : list Z) : Prop := length l' = length l ∧ (bytes l -> bytes l').

Lemma wr_effect (l l' : list Z) k v : wr l k (u8 v) = Some l' -> same_effect l l'.
Proof.
  intros Hw. split; [by eapply wr_length|]. intros Hl. apply wr_Some in Hw as [_ ->]. apply Forall_insert; [done|apply u8_byte].
Qed.

Lemma bit_at (x l z : list Z) (b : bool) off : 0 <= off < 8 * Zlen l ->
  let f := if b then __clr_b else __set_b in
  ∃ l', f l off 0 = Some l' ∧ same_effect l l' ∧ f (x ++ l ++ z) off (Zlen x) = Some (x ++ l' ++ z).
Proof.
  intros Ho. assert (0 <= off / CHAR_BITS < Zlen l) as Hk by (unfold CHAR_BITS; Z.div_mod_to_equations; lia).
  destruct (rd_is_Some l _ Hk) as [v Hv].
  destruct b; cbv zeta; unfold __clr_b, __set_b; rewrite !Z.add_0_l, rd_mid, Hv by done; osimpl;
    (edestruct (wr_app x l z) as (l' & H1 & H2); [exact Hk|]); exists l'; (split; [exact H1|]; split; [|exact H2]);
    by eapply wr_effect.
Qed.

Lemma setbits_loop_at (x z : list Z) n : ∀ l off value, 0 <= off -> off + Z.of_nat n <= 8 * Zlen l ->
  ∃ l', setbits_loop (Some (Ptr l 0)) off value n = Some (Some (Ptr l' 0)) ∧ same_effect l l' ∧
    setbits_loop (Some (Ptr (x ++ l ++ z) (Zlen x))) off value n = Some (Some (Ptr (x ++ l' ++ z) (Zlen x))).
Proof.
  induction n as [|n IH]; intros l off value Ho Hn; [by exists l|]. cbn [setbits_loop]. osimpl. cbn [p_blk p_off].
  destruct (bit_at x l z (Z.land value 1 =? 0) off ltac:(lia)) as (l1 & H1 & [E1 B1] & H2).
  assert (∀ m a, (if Z.land value 1 =? 0 then __clr_b m off a else __set_b m off a) =
    (if Z.land value 1 =? 0 then __clr_b else __set_b) m off a) as Hf by by destruct (_ =? 0).
  rewrite !Hf, H1, H2. osimpl. destruct (IH l1 (off + 1) (Z.shiftr value 1)) as (l' & H3 & [E2 B2] & H4); [lia|lia|].
  exists l'. split; [done|]. split; [split; [lia|auto]|done].
Qed.

(** SetBits with the operand [u] on the bytes of a string *)
Definition setbits_str (u : Z) (l : list Z) : option (list Z) :=
  v ← setbits_bin (MkValue (Zlen l) (Some (Ptr l 0))) u; p ← v_ptr v; Some (p_blk p).

Lemma holds_split bs off l : 0 <= off -> l ≠ [] -> holds (Some (Ptr bs off)) l -> ∃ x z, bs = x ++ l ++ z ∧ off = Zlen x.
Proof.
  intros Ho Hne Hh.
  assert (∀ i c, l !! i = Some c -> bs !! (Z.to_nat off + i)%nat = Some c) as Hl.
  { intros i c Hi. specialize (Hh i c Hi). rewrite deref_in in Hh. rewrite <- rd_nat. rewrite <- Hh. f_equal. lia. }
  assert (Z.to_nat off + length l <= length bs)%nat as Hlen.
  { destruct (lookup_lt_is_Some_2 l (length l - 1)) as [c Hc]; [destruct l; [done|simpl; lia]|].
    apply Hl, lookup_lt_Some in Hc. lia. }
  exists (take (Z.to_nat off) bs), (drop (length l) (drop (Z.to_nat off) bs)). split; [|rewrite length_take; lia].
  rewrite <- (take_drop (Z.to_nat off) bs) at 1. f_equal.
  rewrite <- (take_drop (length l) (drop (Z.to_nat off) bs)) at 1. f_equal.
  apply list_eq. intros i. destruct (decide (i < length l)%nat) as [Hi|Hi].
  - rewrite lookup_take_lt, lookup_drop by done. destruct (lookup_lt_is_Some_2 l i Hi) as [c Hc]. by rewrite (Hl i c Hc).
  - rewrite lookup_take_ge by lia. symmetry. apply lookup_ge_None. lia.
Qed.

Lemma setbits_bin_at v u bs off l :
  v_ptr v = Some (Ptr bs off) -> 0 <= off -> bin_len (v_str v) = Zlen l -> holds (v_ptr v) l ->
  ∃ l' bs', setbits_str u l = Some l' ∧ same_effect l l' ∧
    setbits_bin v u = Some (MkValue (v_word v) (Some (Ptr bs' off))) ∧ holds (Some (Ptr bs' off)) l'.
Proof.
  intros Hp Ho Hlen Hh. pose proof (v_str_len_range v) as Hr. unfold setbits_str, setbits_bin.
  assert (bin_len (v_str (MkValue (Zlen l) (Some (Ptr l 0)))) = Zlen l) as -> by (apply swrap_small; simpl; lia).
  rewrite Hlen. set (o := s32 _). set (n := Z.shiftr o 24). set (b := Z.land o 0xFFFFFF). cbv zeta.
  assert (0 <= b) as Hb by (apply Z.land_nonneg; lia).
  destruct ((8 * Zlen l <=? b) || (n =? 0)) eqn:Hc.
  { exists l, bs. osimpl. split_and!; [done|by split|by destruct v; cbn in *; subst|by rewrite <- Hp]. }
  apply orb_false_elim in Hc as [Hc _]. apply Z.leb_gt in Hc. rewrite Hp in Hh |- *.
  destruct (holds_split bs off l Ho) as (x & z & -> & ->); [by destruct l; [simpl in Hc; lia|]|done|].
  set (n1 := if 32 <? n then 32 else n). set (n2 := if 8 * Zlen l - b <? n1 then _ else n1).
  destruct (setbits_loop_at x z (Z.to_nat n2) l b (Z.land u 0xFFFFFFFF) Hb) as (l' & H1 & H2 & H3).
  { unfold n2. destruct (Z.ltb_spec (8 * Zlen l - b) n1); lia. }
  cbn [v_ptr]. rewrite H1, H3. osimpl. cbn [v_ptr]. osimpl. exists l', (x ++ l' ++ z). split_and!; try done. apply holds_block.
Qed.

(** ** What becomes of a stored cell *)

(** The cell of a string column while the update list runs: bits are set in it
    until the string is replaced by one that lies elsewhere. *)
Fixpoint chunk_cell (d : CTableDefinition) (i : Z) (l : list SFieldValue) (c : list Z) : option (list Z) :=
  match l with
  | [] => Some c
  | s :: l' =>
      if negb (sf_id s =? i) then chunk_cell d i l' c
      else
        ft ← FieldType d i;
        if sets_string ft s then Some c
        else if sets_bits ft s then b ← setbits_str (v_u64 (sf_val s)) (drop 4 c); chunk_cell d i l' (take 4 c ++ b)
        else chunk_cell d i l' c
  end.

Lemma numeric_kinds ft : numeric ft = true -> is_bin ft = false.
Proof.
  unfold numeric, is_bin. intros H. apply orb_prop in H as [[->%Z.eqb_eq| ->%Z.eqb_eq]%orb_prop| ->%Z.eqb_eq]; done.
Qed.
Lemma text_kinds ft : numeric ft = false -> is_int ft = false ∧ ft ≠ DField_Float ∧ ft ≠ DField_Unsigned.
Proof.
  unfold numeric, is_int. intros [H1 H2%Z.eqb_neq]%orb_false_elim. split; [done|]. split; [done|].
  apply orb_false_elim in H1 as [_ H1%Z.eqb_neq]. done.
Qed.

Lemma chunk_cell_numeric d i l c t : FieldType d i = Some t -> numeric t = true -> chunk_cell d i l c = Some c.
Proof.
  intros Ht Hn. pose proof (numeric_kinds t Hn) as Hb. induction l as [|s l IH]; [done|]. cbn [chunk_cell].
  destruct (sf_id s =? i); cbn [negb]; [|done]. rewrite Ht. osimpl. unfold sets_bits. rewrite Hb, andb_false_r. cbn [andb].
  by destruct (sets_string t s).
Qed.

(** A text column keeps its string when the element neither replaces it nor
    writes bits of it. *)
Lemma update_value_text ft size v1 s v2 :
  numeric ft = false -> sets_string ft s = false -> sets_bits ft s = false ->
  update_value ft size v1 (sf_type s) (sf_oper s) v2 = Some v1.
Proof.
  intros Hn Hs Hb. destruct (text_kinds ft Hn) as (Hi & Hf%Z.eqb_neq & Hu%Z.eqb_neq). unfold sets_string, sets_bits in *.
  unfold update_value. rewrite Hi, Hf, Hu. cbn [andb orb].
  destruct (sf_oper s =? DField_Set); cbn [andb] in Hs; [by rewrite Hs|].
  destruct (sf_oper s =? DField_Add); [done|]. destruct (sf_oper s =? DField_OR); [done|].
  destruct (sf_oper s =? DField_SetBits); cbn [andb] in Hb; [by rewrite Hb|done].
Qed.
Lemma update_value_bits ft size v1 s v2 :
  sets_bits ft s = true -> update_value ft size v1 (sf_type s) (sf_oper s) v2 = setbits_bin v1 (v_u64 v2).
Proof.
  unfold sets_bits. intros [[Ho%Z.eqb_eq Hb]%andb_prop Ht]%andb_prop. unfold update_value. rewrite Ho. cbn [Z.eqb].
  assert (is_int ft = false) as ->.
  { unfold is_bin, is_int in *. apply orb_prop in Hb as [->%Z.eqb_eq| ->%Z.eqb_eq]; done. }
  by rewrite Hb, Ht.
Qed.

Lemma row_put_get r i v r' : row_put r i v = Some r' ->
  row_def r' = row_def r ∧ row_at r' i = Some v ∧ ∀ j, row_get r' j = if j =? i then (λ _, v) <$> row_get r j else row_get r j.
Proof.
  unfold row_put. intros (l & Hw & [= <-])%bind_Some. split; [done|].
  assert (∀ j, row_at (MkRow (row_def r) l) j = if j =? i then Some v else row_at r j) as Hat.
  { intros j. unfold row_at. cbn [row_value]. rewrite (rd_wr _ _ j _ _ Hw), (Z.eqb_sym i j). done. }
  split; [by rewrite Hat, Z.eqb_refl|]. intros j. unfold row_get, row_FieldValue. rewrite Hat. cbn [row_def].
  destruct (_ && _); [|by destruct (_ =? _)]. destruct (Z.eqb_spec j i) as [->|]; [|done].
  assert (is_Some (row_at r i)) as [v0 ->]; [|done]. unfold row_at. apply rd_is_Some. apply wr_Some in Hw as [? _]. lia.
Qed.
Lemma row_get_at r i v : row_get r i = Some v -> row_at r i = Some v.
Proof. unfold row_get, row_FieldValue. destruct (_ && _); [|done]. by destruct (row_at r i). Qed.

Lemma update_one_inv r s r' : update_one r s = Some r' ->
  ∃ v1 ft size v, row_at r (sf_id s) = Some v1 ∧ FieldType (row_def r) (sf_id s) = Some ft ∧
    update_value ft size v1 (sf_type s) (sf_oper s) (sf_val s) = Some v ∧ row_put r (sf_id s) v = Some r'.
Proof.
  unfold update_one. intros (v1 & H1 & H)%bind_Some. apply bind_Some in H as (ft & H2 & H).
  apply bind_Some in H as (size & _ & H). apply bind_Some in H as (v & H3 & H4). by exists v1, ft, size, v.
Qed.

Lemma string_columns_spec d j n ids :
  colids d j n = Some ids -> (∀ i, i ∈ ids -> is_Some (FieldType d i)) ->
  ∃ al, string_columns d j n = Some al ∧ ∀ i, i ∈ al <-> i ∈ ids ∧ ∃ t, FieldType d i = Some t ∧ numeric t = false.
Proof.
  revert j ids. induction n as [|n IH]; intros j ids Hi Ht.
  { cbn [colids] in Hi. simplify_eq. exists []. split; [done|]. intros i. split; [by intros ?%elem_of_nil|by intros [?%elem_of_nil _]]. }
  apply colids_step in Hi as (k & l & Hk & Hl & ->). cbn [string_columns]. rewrite Hk. osimpl.
  destruct (k =? 0); cbn [negb]; [|by apply IH].
  destruct (IH (j + 1) l Hl) as (al & -> & Hal); [intros i Hi; apply Ht; by right|].
  destruct (Ht j ltac:(by left)) as [t Hj]. rewrite Hj. osimpl. eexists. split; [done|]. intros i.
  destruct (numeric t) eqn:Hn; rewrite ?elem_of_cons, Hal; split.
  - intros [? ?]. split; [by right|done].
  - intros [[->|?] (t' & Ht' & Hn')]; [congruence|]. split; [done|]. by exists t'.
  - intros [->|[? ?]]; [split; [by left|by exists t]|split; [by right|done]].
  - intros [[->|?] ?]; [by left|by right].
Qed.

Lemma lies_elem x i : lies_in_chunk x i = true <-> i ∈ x.2.
Proof.
  unfold lies_in_chunk. rewrite existsb_exists. split.
  - intros (j & Hj & ->%Z.eqb_eq). by apply list_elem_of_In.
  - intros Hi. exists i. split; [by apply list_elem_of_In|by apply Z.eqb_refl].
Qed.

(** ** Writing through to the chunk *)

Section chunk.
Context {A : Type} `{MallocatorLaws A} (d : CTableDefinition) (ids : list Z).
Context (u : list block) (key : list Z) (pre post : list srow) (f : Z).
Implicit Types (s : CRawData * A) (x : decoded) (cells : list (list Z)) (l : list Z).

Abbreviation chunk_row s cells := (stored d ids s u key (pre ++ SRow f cells :: post)).

(** The offset of the bytes of the string in the [p]-th cell *)
Definition str_pos cells (p : nat) : Z := pos key pre + 1 + Zlen (concat (take p cells)) + 4.

Lemma write_cell s cells p l l' :
  chunk_row s cells -> cells !! p = Some (le_bytes 4 (Zlen l) ++ l) ->
  (∀ i t, ids !! p = Some i -> FieldType d i = Some t -> numeric t = false) -> same_effect l l' ->
  runs (content_write (str_pos cells p) l') s (λ _ s', s'.1 = s.1 ∧
    chunk_row s' (<[p := le_bytes 4 (Zlen l') ++ l']> cells)).
Proof.
  intros Hs Hp Hnum [Hlen Hby]. set (c := le_bytes 4 (Zlen l) ++ l) in *. set (c' := le_bytes 4 (Zlen l') ++ l').
  assert (cells = take p cells ++ c :: drop (S p) cells) as Hsplit by by rewrite take_drop_middle.
  set (cs1 := take p cells) in *. set (cs2 := drop (S p) cells) in *.
  assert (length cs1 = p) as Hl1 by (unfold cs1; rewrite length_take; apply lookup_lt_Some in Hp; lia).
  assert (<[p := c']> cells = cs1 ++ c' :: cs2) as ->.
  { rewrite Hsplit. rewrite insert_app_r_alt by lia. by replace (p - length cs1)%nat with 0%nat by lia. }
  unfold str_pos. fold cs1. rewrite Hsplit in Hs. set (r := SRow f (cs1 ++ c :: cs2)) in *.
  destruct (stored_at _ _ _ _ _ _ _ _ Hs) as (slack & Hb & Hx & [Hf Hc] & _ & _ & Hlt). set (hd := head_bytes _ _ _ _) in *.
  simpl in Hc. apply Forall2_app_inv_r in Hc as (ids1 & ids2 & Hc1 & Hc2 & Hids).
  apply Forall2_cons_inv_r in Hc2 as (i & ids3 & (t & w & Ht & Hw & Hcb & Hcl) & Hc2 & ->).
  assert (numeric t = false) as Hn.
  { apply (Hnum i t); [|done]. rewrite Hids. apply list_lookup_middle. apply Forall2_length in Hc1. lia. }
  rewrite Hn in Hcl. assert (bytes l) as Hbl by (unfold c in Hcb; apply Forall_app in Hcb; apply Hcb).
  assert (Zlen l < 2 ^ 31) as Hl31.
  { destruct Hcl as (l0 & E & Hl0). assert (length c = length (le_bytes 4 (Zlen l0) ++ l0)) as E' by by rewrite E.
    unfold c in E'. rewrite !length_app, !length_le_bytes in E'. lia. }
  assert (row_bytes r = (f :: concat cs1 ++ le_bytes 4 (Zlen l)) ++ l ++ concat cs2) as Hr.
  { unfold row_bytes, r, c. cbn [sr_flag sr_cells]. rewrite concat_app, concat_cons. simpl. by rewrite <- !app_assoc. }
  set (r2 := SRow f (cs1 ++ c' :: cs2)).
  assert (row_bytes r2 = (f :: concat cs1 ++ le_bytes 4 (Zlen l)) ++ l' ++ concat cs2) as Hr2.
  { unfold row_bytes, r2, c'. cbn [sr_flag sr_cells]. rewrite concat_app, concat_cons, Hlen. simpl. by rewrite <- !app_assoc. }
  assert (Zlen (row_bytes r2) = Zlen (row_bytes r)) as Hlr by (rewrite Hr, Hr2, !length_app; lia).
  rewrite Hr in Hb. rewrite <- !app_assoc in Hb. rewrite (app_assoc hd), (app_assoc (hd ++ _)) in Hb.
  eapply runs_mono.
  { apply (content_write_at s u _ l _ _ l' Hb); [|by symmetry|by apply Hby].
    rewrite length_app, Nat2Z.inj_add, Hx. cbn [length]. rewrite length_app, length_le_bytes. lia. }
  intros _ s' [E Hb']. split; [done|]. pose proof (pos_mid key pre r r2 post) as Hp2.
  assert (pos key (pre ++ r2 :: post) = pos key (pre ++ r :: post)) as Hpe by lia.
  assert (Zlen (pre ++ r2 :: post) = Zlen (pre ++ r :: post)) as Hce by (rewrite !length_app; simpl; lia).
  apply (stored_head d ids s _ u key _ _ (meta_bytes s.1) slack Hs); rewrite ?E, ?Hpe, ?Hce; try done; [| |apply Hs..].
  - pose proof (sd_rows _ _ _ _ _ _ Hs) as Hok. rewrite !Forall_app, !Forall_cons in *. destruct Hok as (? & _ & ?).
    split; [done|]. split; [|done]. split; [done|]. rewrite Hids. apply Forall2_app; [done|]. constructor; [|done].
    exists t, w. rewrite Hn. split_and!; try done.
    + apply Forall_app. split; [apply le_bytes_bytes|by apply Hby].
    + exists l'. split; [done|]. rewrite Hlen. done.
  - rewrite (sd_size _ _ _ _ _ _ Hs), (sd_cnt _ _ _ _ _ _ Hs), rows_bytes_app, rows_bytes_cons, Hr2.
    rewrite <- !app_assoc in *. exact Hb'.
Qed.

(** The string of column [i] lies in the chunk, in the [p]-th cell. *)
Definition string_at (row : CRowValue) cells (i : Z) (p : nat) l : Prop :=
  ids !! p = Some i ∧ cells !! p = Some (le_bytes 4 (Zlen l) ++ l) ∧
  (∃ t, FieldType d i = Some t ∧ numeric t = false) ∧
  ∃ v bs, row_get row i = Some v ∧ bin_len (v_str v) = Zlen l ∧ v_ptr v = Some (Ptr bs (str_pos cells p)) ∧ holds (v_ptr v) l.
Definition strings_at x cells : Prop :=
  row_def x.1 = d ∧ ∀ i, i ∈ x.2 -> ∃ p l, string_at x.1 cells i p l.

(** How the cells change from [x] to [y] when [step] is done with them *)
Definition cells_step (before after : Z -> list Z -> option (list Z)) cells cells' : Prop :=
  length cells' = length cells ∧
  ∀ p i c, ids !! p = Some i -> cells !! p = Some c -> ∃ c', cells' !! p = Some c' ∧ before i c = after i c'.
Definition cell_after x (us : list SFieldValue) (i : Z) (c : list Z) : option (list Z) :=
  if lies_in_chunk x i then chunk_cell d i us c else Some c.

Lemma cells_step_same (before after : Z -> list Z -> option (list Z)) cells :
  (∀ p i c, ids !! p = Some i -> cells !! p = Some c -> before i c = after i c) -> cells_step before after cells cells.
Proof. intros Ha. split; [done|]. intros p i c Hi Hc. exists c. split; [done|]. by eapply Ha. Qed.

Lemma string_at_row row row' cells i p l :
  row_get row' i = row_get row i -> string_at row cells i p l -> string_at row' cells i p l.
Proof. intros E (? & ? & ? & v & bs & Hv & ?). split_and!; try done. exists v, bs. by rewrite E. Qed.

Lemma take_concat_insert cells p q c c' :
  cells !! p = Some c -> length c' = length c -> Zlen (concat (take q (<[p:=c']> cells))) = Zlen (concat (take q cells)).
Proof.
  intros Hp Hl. revert p q Hp. induction cells as [|c0 cells IH]; intros [|p] [|q] Hp; try done; simpl in Hp |- *.
  - injection Hp as ->. rewrite !length_app. lia.
  - rewrite !length_app. specialize (IH p q Hp). lia.
Qed.

Lemma update_at_plain s x row us sv cells :
  chunk_row s cells -> strings_at x cells -> update_one x.1 sv = Some row -> sf_id sv ∉ x.2 ->
  strings_at (row, x.2) cells ∧ ∀ i c, cell_after x (sv :: us) i c = cell_after (row, x.2) us i c.
Proof.
  intros Hs [Hd Hx] Hu Hid. apply update_one_inv in Hu as (v1 & ft & size & v & _ & _ & _ & Hput).
  apply row_put_get in Hput as (Hd' & _ & Hget). split.
  - split; [by rewrite <- Hd|]. intros i Hi. destruct (Hx i Hi) as (p & l & Hl). exists p, l.
    eapply string_at_row; [|exact Hl]. cbn [fst]. rewrite Hget. destruct (Z.eqb_spec i (sf_id sv)) as [->|]; done.
  - intros i c. unfold cell_after. change (lies_in_chunk (row, x.2) i) with (lies_in_chunk x i).
    destruct (lies_in_chunk x i) eqn:Hl; [|done]. apply lies_elem in Hl. cbn [chunk_cell].
    destruct (Z.eqb_spec (sf_id sv) i) as [<-|]; done.
Qed.

Lemma lies_filter (row : CRowValue) x id i :
  lies_in_chunk (row, filter (λ i, negb (i =? id)) x.2) i = lies_in_chunk x i && negb (i =? id).
Proof.
  apply eq_true_iff_eq. rewrite andb_true_iff, !lies_elem. cbn [snd]. rewrite list_elem_of_filter.
  destruct (Z.eqb_spec i id); cbn; naive_solver.
Qed.

Lemma update_at_set s x row us sv cells ft :
  strings_at x cells -> update_one x.1 sv = Some row -> FieldType d (sf_id sv) = Some ft -> sets_string ft sv = true ->
  let y := (row, filter (λ i, negb (i =? sf_id sv)) x.2) in
  strings_at y cells ∧ ∀ i c, cell_after x (sv :: us) i c = cell_after y us i c.
Proof.
  intros [Hd Hx] Hu Hft Hset y. apply update_one_inv in Hu as (v1 & ft1 & size & v & _ & _ & _ & Hput).
  apply row_put_get in Hput as (Hd' & _ & Hget). split.
  - split; [by rewrite <- Hd|]. intros i [Hne Hi]%list_elem_of_filter. destruct (Hx i Hi) as (p & l & Hl). exists p, l.
    eapply string_at_row; [|exact Hl]. cbn [fst y]. rewrite Hget. by destruct (i =? sf_id sv).
  - intros i c. unfold cell_after, y. rewrite lies_filter. destruct (lies_in_chunk x i); [|done]. cbn [chunk_cell andb].
    rewrite (Z.eqb_sym i). destruct (Z.eqb_spec (sf_id sv) i) as [<-|]; cbn [negb]; [|done]. rewrite Hft. osimpl. by rewrite Hset.
Qed.

Lemma update_at_other x row us sv cells ft :
  strings_at x cells -> update_one x.1 sv = Some row -> FieldType d (sf_id sv) = Some ft -> numeric ft = false ->
  sets_string ft sv = false -> sets_bits ft sv = false ->
  strings_at (row, x.2) cells ∧ ∀ i c, cell_after x (sv :: us) i c = cell_after (row, x.2) us i c.
Proof.
  intros [Hd Hx] Hu Hft Hn Hset Hbits. apply update_one_inv in Hu as (v1 & ft1 & size & v & Hv1 & Hft1 & Hval & Hput).
  rewrite Hd, Hft in Hft1. injection Hft1 as <-. rewrite update_value_text in Hval by done. injection Hval as <-.
  apply row_put_get in Hput as (Hd' & _ & Hget). split.
  - split; [by rewrite <- Hd|]. intros i Hi. destruct (Hx i Hi) as (p & l & Hl). exists p, l.
    eapply string_at_row; [|exact Hl]. cbn [fst]. rewrite Hget. destruct (Z.eqb_spec i (sf_id sv)) as [->|]; [|done].
    destruct Hl as (_ & _ & _ & v & _ & Hv & _). rewrite Hv. apply row_get_at in Hv. rewrite Hv in Hv1. by injection Hv1 as ->.
  - intros i c. unfold cell_after. change (lies_in_chunk (row, x.2) i) with (lies_in_chunk x i).
    destruct (lies_in_chunk x i); [|done]. cbn [chunk_cell].
    destruct (Z.eqb_spec (sf_id sv) i) as [<-|]; cbn [negb]; [|done]. rewrite Hft. osimpl. by rewrite Hset, Hbits.
Qed.

(** Bits of a string in the chunk are set. *)
Lemma update_at_bits s x row us sv cells ft p l :
  NoDup ids -> chunk_row s cells -> strings_at x cells -> update_one x.1 sv = Some row ->
  FieldType d (sf_id sv) = Some ft -> sets_bits ft sv = true -> sets_string ft sv = false ->
  sf_id sv ∈ x.2 -> string_at x.1 cells (sf_id sv) p l ->
  runs (v ← lift (row_at row (sf_id sv)); write_string (v_str v);; mret (row, x.2)) s (λ y s', y = (row, x.2) ∧ s'.1 = s.1 ∧
    ∃ cells', chunk_row s' cells' ∧ strings_at (row, x.2) cells' ∧
      cells_step (cell_after x (sv :: us)) (cell_after (row, x.2) us) cells cells').
Proof.
  intros Hnd Hs [Hd Hx] Hu Hft Hbits Hset Hin (Hp & Hc & Hty & v & bs & Hv & Hlen & Hptr & Hh).
  apply update_one_inv in Hu as (v1 & ft1 & size & v' & Hv1 & Hft1 & Hval & Hput).
  rewrite (row_get_at _ _ _ Hv) in Hv1. injection Hv1 as <-.
  rewrite Hd, Hft in Hft1. injection Hft1 as <-. rewrite update_value_bits in Hval by done.
  assert (0 <= str_pos cells p) as Hpos by (unfold str_pos, pos; lia).
  destruct (setbits_bin_at v (v_u64 (sf_val sv)) bs _ l Hptr Hpos Hlen Hh) as (l' & bs' & Hl' & Heff & Hset' & Hh').
  rewrite Hset' in Hval. injection Hval as <-. apply row_put_get in Hput as (Hd' & Hat & Hget). pose proof Heff as [Hll _].
  rewrite Hat. eapply runs_step; [done|].
  set (v' := MkValue (v_word v) (Some (Ptr bs' (str_pos cells p)))). assert (bin_len (v_str v') = Zlen l') as Hlen' by (rewrite Hll; exact Hlen).
  set (cells' := <[p := le_bytes 4 (Zlen l') ++ l']> cells).
  eapply runs_bind with (Q := λ _ s', s'.1 = s.1 ∧ chunk_row s' cells').
  { unfold write_string. cbn [bin_ptr v_str v_ptr v']. rewrite Hlen', Nat2Z.id, (read_n_holds _ _ Hh'). eapply runs_step; [done|].
    apply (write_cell s cells p l l' Hs Hc); [|done]. intros i t Hi Ht. rewrite Hp in Hi. injection Hi as <-.
    destruct Hty as (t' & Ht' & ?). congruence. }
  intros _ s1 [E1 Hs1]. apply runs_ret. split; [done|]. split; [done|]. exists cells'. split; [done|].
  assert (length (le_bytes 4 (Zlen l') ++ l') = length (le_bytes 4 (Zlen l) ++ l)) as Hcl by (rewrite !length_app, Hll; done).
  assert (∀ q, str_pos cells' q = str_pos cells q) as Hpq.
  { intros q. unfold str_pos. do 2 f_equal. by eapply take_concat_insert. }
  pose proof (lookup_lt_Some _ _ _ Hc) as Hplt. split.
  - split; [by rewrite <- Hd|]. intros i Hi. destruct (decide (i = sf_id sv)) as [->|Hne].
    + exists p, l'. split; [done|]. split; [by apply list_lookup_insert_eq|]. split; [done|]. exists v', bs'.
      rewrite Hpq. cbn [fst]. rewrite Hget, Z.eqb_refl, Hv. done.
    + destruct (Hx i Hi) as (q & k & Hq). exists q, k. pose proof Hq as (Hqi & Hqc & Hqt & w & b & Hw & Hwl & Hwp & Hwh).
      assert (p ≠ q) as Hpq' by (intros <-; congruence).
      split; [done|]. split; [unfold cells'; by rewrite list_lookup_insert_ne|]. split; [done|]. exists w, b.
      rewrite Hpq. cbn [fst]. rewrite Hget, (proj2 (Z.eqb_neq _ _) Hne). done.
  - split; [unfold cells'; by rewrite length_insert|]. intros q i c Hq Hqc. destruct (decide (q = p)) as [->|Hne].
    + exists (le_bytes 4 (Zlen l') ++ l'). split; [by apply list_lookup_insert_eq|]. rewrite Hp in Hq. injection Hq as <-.
      rewrite Hc in Hqc. injection Hqc as <-. unfold cell_after. change (lies_in_chunk (row, x.2) (sf_id sv)) with (lies_in_chunk x (sf_id sv)).
      rewrite (proj2 (lies_elem _ _) Hin). cbn [chunk_cell]. rewrite Z.eqb_refl, Hft. cbn [negb]. osimpl. rewrite Hset, Hbits.
      change (drop 4 _) with l. change (take 4 _) with (le_bytes 4 (Zlen l)). rewrite Hl'. osimpl. by rewrite Hll.
    + exists c. split; [unfold cells'; by rewrite list_lookup_insert_ne|]. unfold cell_after.
      change (lies_in_chunk (row, x.2) i) with (lies_in_chunk x i). destruct (lies_in_chunk x i); [|done]. cbn [chunk_cell].
      destruct (Z.eqb_spec (sf_id sv) i) as [<-|]; [|done]. destruct Hne. by eapply NoDup_lookup.
Qed.

Lemma cells_step_trans a b e cells1 cells2 cells3 :
  cells_step a b cells1 cells2 -> cells_step b e cells2 cells3 -> cells_step a e cells1 cells3.
Proof.
  intros [L1 H1] [L2 H2]. split; [congruence|]. intros p i c Hi Hc. destruct (H1 p i c Hi Hc) as (c' & Hc' & E1).
  destruct (H2 p i c' Hi Hc') as (c'' & ? & E2). exists c''. split; [done|congruence].
Qed.

Lemma update_at_run s x row us sv cells :
  NoDup ids -> chunk_row s cells -> strings_at x cells -> update_one x.1 sv = Some row ->
  runs (update_at x sv) s (λ y s', y.1 = row ∧ s'.1 = s.1 ∧
    ∃ cells', chunk_row s' cells' ∧ strings_at y cells' ∧ cells_step (cell_after x (sv :: us)) (cell_after y us) cells cells').
Proof.
  intros Hnd Hs Hx Hu. pose proof (update_one_inv _ _ _ Hu) as (v1 & ft & size & v & _ & Hft & _). unfold update_at.
  rewrite Hu, Hft. do 2 (eapply runs_step; [done|]). rewrite (proj1 Hx) in Hft.
  assert (∀ y, y.1 = row -> strings_at y cells ∧ (∀ i c, cell_after x (sv :: us) i c = cell_after y us i c) ->
    runs (mret y) s (λ y s', y.1 = row ∧ s'.1 = s.1 ∧ ∃ cells', chunk_row s' cells' ∧ strings_at y cells' ∧
      cells_step (cell_after x (sv :: us)) (cell_after y us) cells cells')) as Hsame.
  { intros y Hy [H1 H2]. apply runs_ret. split_and!; [done|done|]. exists cells. split_and!; [done|done|].
    apply cells_step_same. intros. apply H2. }
  destruct (lies_in_chunk x (sf_id sv)) eqn:Hl; cbn [negb].
  2: { apply Hsame; [done|]. eapply update_at_plain; try done. by rewrite <- lies_elem, Hl. }
  apply lies_elem in Hl. destruct (proj2 Hx _ Hl) as (p & l & Hp).
  destruct (sets_string ft sv) eqn:Hset; [apply Hsame; [done|]; by eapply update_at_set|].
  destruct (sets_bits ft sv) eqn:Hbits.
  - eapply runs_mono; [by eapply update_at_bits|]. intros y s' (-> & ? & ?). done.
  - apply Hsame; [done|]. eapply update_at_other; try done. destruct Hp as (_ & _ & (t & Ht & Hn) & _). congruence.
Qed.

Lemma update_list_run us : ∀ s x row cells,
  NoDup ids -> chunk_row s cells -> strings_at x cells -> Update_loop us x.1 = Some row ->
  runs (update_list us x) s (λ y s', y.1 = row ∧ s'.1 = s.1 ∧
    ∃ cells', chunk_row s' cells' ∧ cells_step (cell_after x us) (λ _, Some) cells cells').
Proof.
  induction us as [|sv us IH]; intros s x row cells Hnd Hs Hx Hu; cbn [update_list Update_loop] in *.
  { injection Hu as <-. apply runs_ret. split_and!; [done|done|]. exists cells. split; [done|]. apply cells_step_same.
    intros p i c _ _. unfold cell_after. by destruct (lies_in_chunk x i). }
  apply bind_Some in Hu as (row1 & Hu1 & Hu). eapply runs_bind; [by apply (update_at_run s x row1 us sv cells)|].
  intros y s1 (<- & E1 & cells1 & Hs1 & Hy & Hc1).
  eapply runs_mono; [by apply (IH s1 y row cells1)|]. intros z s2 (E & E2 & cells2 & Hs2 & Hc2).
  split; [done|]. split; [congruence|]. exists cells2. split; [done|]. by eapply cells_step_trans.
Qed.
End chunk.

Lemma colids_NoDup d j n ids : colids d j n = Some ids -> NoDup ids.
Proof.
  revert j ids. induction n as [|n IH]; intros j ids H; cbn [colids] in H; [simplify_eq; constructor|].
  apply bind_Some in H as (k & _ & H). apply bind_Some in H as (l & Hl & [= <-]).
  destruct (k =? 0); [|by eapply IH]. constructor; [|by eapply IH]. intros Hin. pose proof (colids_ge _ _ _ _ _ Hl Hin). lia.
Qed.

(** ** The row the request changes *)

(** The time stamps of a table are numbers. *)
Definition stamps_numeric (d : CTableDefinition) : Prop :=
  ∀ i t, i ∈ [hasLastacc d; hasLastmod d; hasLastcmod d] -> 0 < i -> FieldType d i = Some t -> numeric t = true.

(** What [UpdateRow] makes of the cells of the row it works on, before the new
    row is written *)
Definition in_place (d : CTableDefinition) (ids : list Z) (t : CTaskRequest) (cells : list (list Z)) : option (list (list Z)) :=
  us ← match t_updateInfo t with None => Some [] | Some u => fv_list u end;
  mapM (λ p, chunk_cell d p.1 us p.2) (zip ids cells).

Lemma row_stamp_get r id cond now r' i t :
  row_stamp r id cond now = Some r' -> (0 < id -> FieldType (row_def r) id = Some t -> numeric t = true) ->
  FieldType (row_def r) i = Some t -> numeric t = false -> row_def r' = row_def r ∧ row_get r' i = row_get r i.
Proof.
  unfold row_stamp. intros Hr Hn Ht Hf. destruct (Z.ltb_spec 0 id); cbn [andb] in Hr; [|by injection Hr as <-].
  destruct cond; [|by injection Hr as <-]. apply bind_Some in Hr as (v & _ & Hr).
  apply row_put_get in Hr as (Hd & _ & Hg). split; [done|]. rewrite Hg. destruct (Z.eqb_spec i id) as [->|]; [|done].
  rewrite Hn in Hf; done.
Qed.

Lemma stamps_get t row row' d i ft :
  UpdateStamps t row = Some row' -> row_def row = d -> stamps_numeric d -> FieldType d i = Some ft -> numeric ft = false ->
  row_get row' i = row_get row i.
Proof.
  unfold UpdateStamps, UpdateTimestamp. intros H <- Hn Ht Hf. apply bind_Some in H as (r1 & H1 & H). apply bind_Some in H as (r2 & H2 & H3).
  eapply row_stamp_get in H1 as [D1 G1]; [|intros Hp Hft; eapply Hn; [|exact Hp|exact Hft]; by left|exact Ht|done].
  rewrite <- D1 in Ht. eapply row_stamp_get in H2 as [D2 G2]; [|rewrite D1; intros Hp Hft; eapply Hn; [|exact Hp|exact Hft]; right; by left|exact Ht|done].
  rewrite <- D2 in Ht. eapply row_stamp_get in H3 as [D3 G3]; [|rewrite D2, D1; intros Hp Hft; eapply Hn; [|exact Hp|exact Hft]; right; right; by left|exact Ht|done].
  congruence.
Qed.

Lemma stamps_def t row row' : UpdateStamps t row = Some row' -> row_def row' = row_def row.
Proof.
  unfold UpdateStamps, UpdateTimestamp. intros H. apply bind_Some in H as (r1 & H1 & H). apply bind_Some in H as (r2 & H2 & H3).
  assert (∀ r id cond now r', row_stamp r id cond now = Some r' -> row_def r' = row_def r) as Hd.
  { unfold row_stamp. intros r id cond now r' Hr. destruct (_ && _); [|by injection Hr as <-].
    apply bind_Some in Hr as (v & _ & Hr). by apply row_put_get in Hr as (? & _). }
  rewrite (Hd _ _ _ _ _ H3), (Hd _ _ _ _ _ H2). by eapply Hd.
Qed.

Section procs.
Context {A B : Type} `{MallocatorLaws A} `{Mallocator B} `{CachePool A} `{FloatText}.
Context (d : CTableDefinition) (ids : list Z).
Hypothesis Hcols : stored_columns d (u8 (keyFields d - 1)) = Some ids.
Hypothesis Hstamps : stamps_numeric d.
Implicit Types (s : CRawDataProcess A B) (u : list block) (key : list Z) (row : CRowValue).

Lemma decoded_strings base row cells key pre al :
  row_def row = d -> length cells = length ids -> reads d ids base cells row ->
  (∀ p i v, ids !! p = Some i -> row_get row i = Some v -> cell_ptr d i (pos key pre + 1 + Zlen (concat (take p cells))) v) ->
  (∀ i, i ∈ al -> i ∈ ids ∧ ∃ t, FieldType d i = Some t ∧ numeric t = false) ->
  strings_at d ids key pre (row, al) cells.
Proof.
  intros Hd Hlen (_ & Hc & _) Hptr Hal. split; [done|]. intros i Hi. destruct (Hal i Hi) as [Hin (t & Ht & Hn)].
  apply list_elem_of_lookup in Hin as [p Hp]. destruct (lookup_lt_is_Some_2 cells p) as [c Hcp].
  { rewrite Hlen. by eapply lookup_lt_Some. }
  destruct (Hc i c) as (v & Hv & t' & w & Ht' & _ & Hcell).
  { apply list_elem_of_lookup. exists p. apply lookup_zip_with_Some. by exists i, c. }
  rewrite Ht in Ht'. injection Ht' as <-. rewrite Hn in Hcell. destruct Hcell as (l & -> & Hl & Hh).
  destruct (Hptr p i v Hp Hv t Ht Hn) as [bs Hbs]. exists p, l. split_and!; [done|done|by exists t|]. by exists v, bs.
Qed.

(** Changing the row that was just decoded: the new values are those of
    [UpdateRow], and the stored row becomes what the bits that are set in its
    strings make of it. *)
Lemma update_current_run s u key pre r post base row row' :
  attached d ids s u key (pre ++ r :: post) -> row_def row = d -> reads d ids base (sr_cells r) row ->
  (∀ p i v, ids !! p = Some i -> row_get row i = Some v ->
     cell_ptr d i (pos key pre + 1 + Zlen (concat (take p (sr_cells r)))) v) ->
  UpdateRow (p_task s) row = Some row' ->
  runs (update_current (p_task s) row) s (λ y s', y.1 = row' ∧ raw_step s s' ∧ m_stRawData s' = m_stRawData s ∧
    ∃ cells, in_place d ids (p_task s) (sr_cells r) = Some cells ∧
      attached d ids s' u key (pre ++ SRow (sr_flag r) cells :: post)).
Proof.
  intros Ha Hd Hr Hptr Hu. pose proof Ha as [Hs Hh].
  pose proof (sd_rows _ _ _ _ _ _ Hs) as Hok. rewrite Forall_app, Forall_cons in Hok. destruct Hok as (_ & [_ Hcells] & _).
  pose proof (Forall2_length _ _ _ Hcells) as Hlen. pose proof (colids_NoDup _ _ _ _ Hcols) as Hnd.
  unfold update_current.
  eapply runs_step; [by apply (on_raw_step (rget m_uchKeyIdx) s (m_uchKeyIdx (m_stRawData s)) (raw s))|]. rewrite set_raw_same.
  destruct (string_columns_spec d (m_uchKeyIdx (m_stRawData s) + 1) (columns row (m_uchKeyIdx (m_stRawData s))) ids) as (al & Hal & Hspec).
  { unfold columns. rewrite Hd. exact (sd_cols _ _ _ _ _ _ Hs). }
  { intros i [p Hp]%list_elem_of_lookup. destruct (Forall2_lookup_l _ _ _ _ _ Hcells Hp) as (c & _ & t & _ & Ht & _). by exists t. }
  rewrite Hd, Hal. eapply runs_step; [done|]. unfold UpdateRow in Hu. apply bind_Some in Hu as (row1 & Hst & Hu). rewrite Hst.
  eapply runs_step; [done|].
  assert (strings_at d ids key pre (row1, al) (sr_cells r)) as Hx.
  { destruct (decoded_strings base row (sr_cells r) key pre al Hd ltac:(lia) Hr Hptr) as [_ Hx]; [by intros i ?%Hspec|].
    split; [rewrite <- Hd; by eapply stamps_def|]. intros i Hi. destruct (Hx i Hi) as (p & l & Hp). exists p, l.
    destruct Hp as (? & ? & (t & Ht & Hn) & Hv). eapply string_at_row; [|split_and!; [done|done|by exists t|exact Hv]].
    cbn [fst]. by eapply stamps_get. }
  destruct (t_updateInfo (p_task s)) as [up|] eqn:Hup.
  2: { injection Hu as <-. apply runs_ret. split_and!; try done. exists (sr_cells r). unfold in_place. rewrite Hup. osimpl.
       split; [|by destruct r]. apply mapM_Some. apply Forall2_same_length_lookup.
       split; [rewrite length_zip; lia|]. intros p [i c] c' [_ Hc]%lookup_zip_Some E. cbn. congruence. }
  unfold Update in Hu. apply bind_Some in Hu as ([c row2] & Hu & [= <-]). apply bind_Some in Hu as (us & Hus & Hu).
  apply bind_Some in Hu as (row3 & Hu & [= <- <-]). rewrite Hus. eapply runs_step; [done|].
  destruct r as [f cells]. cbn [sr_cells sr_flag] in *. eapply runs_mono.
  { apply on_raw_runs. by apply (update_list_run d ids u key pre post f us (raw s) (row1, al) row3 cells). }
  intros y s' ([o a] & (Ey & E & cells' & Hs' & Hlen' & Hstep) & ->). cbn in E. subst o.
  split_and!; try done. exists cells'. split; [|by split]. unfold in_place. rewrite Hup, Hus. osimpl. apply mapM_Some.
  apply Forall2_same_length_lookup. split; [rewrite length_zip; lia|]. intros p [i c0] c' [Hi Hc]%lookup_zip_Some E.
  destruct (Hstep p i c0 Hi Hc) as (c1 & Hc1 & Hcell). rewrite E in Hc1. injection Hc1 as <-. cbn [fst snd]. rewrite <- Hcell.
  unfold cell_after. destruct (lies_in_chunk (row1, al) i) eqn:Hl; [done|].
  destruct (Forall2_lookup_l _ _ _ _ _ Hcells Hi) as (c2 & _ & t & w & Ht & _).
  eapply chunk_cell_numeric; [exact Ht|]. destruct (numeric t) eqn:Hn; [done|].
  assert (i ∈ al) as Hin by (apply Hspec; split; [by eapply list_elem_of_lookup_2|by exists t]).
  by apply (lies_elem (row1, al)) in Hin; rewrite Hin in Hl.
Qed.
End procs.
