(* ===== verification/ProcChange.v ===== *)
(** * ProcChange: requests that add and change rows

    [AppendData] and [UpdateData] of [RawProc] against the list of rows.  When
    the node's chunk cannot grow, the pool purges other nodes and the operation
    is tried once more; [CachePoolLaws] is what the pool promises for it.  An
    updated row is first copied to the system allocator, because its strings
    may point into the chunk that is about to move; what was written through
    them before ([ProcAlias]) stays when the request then fails. *)

From stdpp Require Import list.
From S2P Require Import Prelude State Bitsop Value Protocol Codec Section TableDef Field Result Task Pkey Mallocator RawData RawBuf RawRow RawRep RawSpec RawStore RawCopy RawFrame RawProc ProcSpec ProcAlias.

#[local] Open Scope cint_scope.

(** Purging to make room keeps the block of the node that needs it. *)
Class CachePoolLaws (A : Type) `{MallocatorLaws A} `{CachePool A} : Prop :=
  pool_keeps a b u n : mal_holds a (b :: u) ->
    runs (TryPurgeSize n) a (λ _ a', ∃ u', mal_holds a' (b :: u')).

Section change.
Context {A B : Type} `{MallocatorLaws A} `{!CachePool A} `{!CachePoolLaws A} `{MallocatorLaws B} `{FloatText}.
Context (d : CTableDefinition) (ids : list Z) (now : Z) (buf : bool) (junk : Z).
Hypothesis Hcols : stored_columns d (u8 (keyFields d - 1)) = Some ids.
Hypothesis Hkeys : 1 <= keyFields d <= 256.
Hypothesis Hstamps : stamps_numeric d.
Implicit Types (s : CRawDataProcess A B) (u us : list block) (key : list Z) (rows : list srow) (row : CRowValue).

Abbreviation attached := (attached d ids).
Abbreviation node_data := (node_data d ids).

(** ** Trying again *)

Lemma pool_stored o a u key rows n :
  stored d ids (o, a) u key rows -> runs (TryPurgeSize n) a (λ _ a', ∃ u', stored d ids (o, a') u' key rows).
Proof.
  intros [? ? [slack Hb] ? ? ? ? ? ? ?]. eapply runs_mono; [eapply pool_keeps, (buf_holds _ _ _ Hb)|].
  intros _ a' [u' Ha]. exists u'. constructor; try done. exists slack. destruct Hb as [E1 E2 E3]. by split.
Qed.

(** [m] leaves [P] and [N] when there was no memory and reaches [Q] otherwise;
    so does the operation that is tried again after a purge. *)
Lemma retry_run (m : RM Z) s u (P : list block -> CRawData * A -> Prop) (N : CRawData -> Prop)
    (Q : Z -> list block -> CRawData * A -> Prop) :
  P u (raw s) ->
  (∀ u r, P u r -> runs m r (λ c r', if c =? EC_NO_MEM then P u r' ∧ N r'.1 else Q c u r')) ->
  (∀ u o a n, P u (o, a) -> runs (TryPurgeSize n) a (λ _ a', ∃ u', P u' (o, a'))) ->
  runs (retry m) s (λ c s', raw_step s s' ∧ ∃ u',
    if c =? EC_NO_MEM then P u' (raw s') ∧ N (m_stRawData s') else Q c u' (raw s')).
Proof.
  intros HP Hm Hpool. unfold retry. eapply runs_bind; [apply on_raw_runs; by apply (Hm u)|].
  intros c s1 ([o a] & Hr & ->). destruct (Z.eqb_spec c EC_NO_MEM) as [->|Hne].
  2: { apply runs_ret. split; [done|]. exists u. by rewrite (proj2 (Z.eqb_neq _ _) Hne). }
  destruct Hr as [HP1 HN1].
  eapply runs_step; [by apply (on_raw_step (rget m_uiNeedSize) _ (m_uiNeedSize o) (o, a))|].
  eapply runs_bind with (Q := λ _ s2, ∃ a' u', s2 = set_raw (o, a') s ∧ P u' (o, a')).
  { destruct (Hpool u o a (m_uiNeedSize o) HP1) as (c2 & a' & Hrun & u' & HP2).
    exists c2, (set_raw (o, a') s). split; [unfold on_pool; cbn; by rewrite Hrun|by exists a', u']. }
  intros c2 s2 (a' & u' & -> & HP2). destruct (Z.eqb_spec c2 0).
  - eapply runs_mono; [apply on_raw_runs; by apply (Hm u')|]. intros c s3 ([o3 a3] & Hr & ->). split; [done|]. by exists u'.
  - apply runs_ret. split; [done|]. by exists u'.
Qed.

Lemma save_handle_if_run s c :
  runs (save_handle_if c) s (λ _ s', s' = if c =? EC_NO_MEM then s else set_vd (_handle (m_stRawData s)) s).
Proof. unfold save_handle_if. destruct (c =? EC_NO_MEM); [by apply runs_ret|]. eexists _, _. by rewrite save_handle_eq. Qed.

(** ** Adding a row *)

Definition inserted_rows (byFirst : bool) (r : srow) rows (c : Z) rows' : Prop :=
  (c = 0 ∧ rows' = front byFirst [r] rows) ∨
  (c = - ENOMEM ∧ byFirst = true ∧ buf = false ∧ rows ≠ [] ∧ rows' = rows ++ [r]).

Lemma insert_retry_run s u key rows stRow cells (byFirst isDirty : bool) :
  attached s u key rows -> encodes d ids stRow cells ->
  let r := SRow (ins_flag isDirty) cells in pos key (rows ++ [r]) < 2 ^ 32 ->
  runs (retry (InsertRow stRow byFirst isDirty buf)) s (λ c s', raw_step s s' ∧ ∃ u',
    if c =? EC_NO_MEM then attached s' u' key rows ∧ m_uiNeedSize (m_stRawData s') = pos key (rows ++ [r])
    else ∃ rows', inserted_rows byFirst r rows c rows' ∧ stored d ids (raw s') u' key rows').
Proof.
  intros [Hs Hh] He r Hlt. eapply runs_mono.
  { apply (retry_run (InsertRow stRow byFirst isDirty buf) s u
      (λ u r, stored d ids r u key rows ∧ _handle r.1 = p_vd s) (λ o, m_uiNeedSize o = pos key (rows ++ [r]))
      (λ c u r', ∃ rows', inserted_rows byFirst r rows c rows' ∧ stored d ids r' u key rows')).
    - by split.
    - intros u1 r1 [Hs1 Hh1]. eapply runs_mono.
      { apply (InsertRowFlag_stored d ids r1 u1 key rows stRow cells byFirst (ins_flag isDirty) buf Hs1 He); [by destruct isDirty|done]. }
      intros c r2 [(-> & H2 & Hn & _ & Hh2)|[(-> & H2)|(-> & -> & E & Hne & _ & H2)]]; cbn [Z.eqb EC_NO_MEM].
      + split; [split; [done|congruence]|done].
      + eexists. split; [by left|done].
      + eexists. split; [by right|done].
    - intros u1 o a n [Hs1 Hh1]. eapply runs_mono; [by eapply pool_stored|]. intros _ a' [u' ?]. by exists u'. }
  intros c s' [E (u' & Hc)]. split; [done|]. exists u'. destruct (c =? EC_NO_MEM); [|done].
  destruct Hc as [[Hs' Hh'] Hn]. split; [|done]. split; [done|]. apply raw_step_fields in E as [-> _]. exact Hh'.
Qed.

(** The row of an insert request, with the id the database gave it *)
Definition insert_row (t : CTaskRequest) : option CRowValue :=
  stRow ← new_row t;
  if keyFields d <=? hasAutoInc d then
    id ← InsertID (t_resultInfo t);
    if id =? 0 then Some stRow else row_set stRow (hasAutoInc d) (λ v, v_set_word v id)
  else Some stRow.

(** Which stored rows have the same unique fields *)
Definition conflicts stRow (conf : srow -> bool) rows : Prop :=
  ∀ r row, r ∈ rows -> reads d ids (new_RowValue d) (sr_cells r) row ->
    ∃ c, row_Compare stRow row (uniq_fields d) = Some c ∧ conf r = (c =? 0).

Lemma unique_loop_run u key stRow conf pre post s row :
  attached s u key (pre ++ post) -> m_uiOffset (m_stRawData s) = pos key pre -> fresh d ids (new_RowValue d) row ->
  t_tableDef (p_task s) = d -> conflicts stRow conf post ->
  runs (unique_loop stRow row (length post)) s (λ c s', c = (if existsb conf post then -1062 else 0) ∧
    raw_step s s' ∧ attached s' u key (pre ++ post)).
Proof.
  revert pre s row. induction post as [|r post IH]; intros pre s row Ha Ho Hf Ht Hc; cbn [length unique_loop existsb].
  { apply runs_ret. by split_and!. }
  eapply runs_bind; [by apply (decode_run d ids s u key pre r post (new_RowValue d) row)|].
  intros x s1 (row' & -> & Hf1 & Hr & E1 & Ha1 & _ & Ho1 & _). cbn [fst snd Z.eqb negb].
  pose proof (raw_step_fields _ _ E1) as (_ & Et1 & _). eapply runs_step; [done|]. rewrite Et1, Ht.
  destruct (Hc r row' ltac:(by left) Hr) as (c & Hcmp & Hconf). rewrite Hcmp, Hconf. eapply runs_step; [done|].
  destruct (c =? 0); cbn [orb]; [by apply runs_ret; split_and!|].
  rewrite (cons_middle r pre post), app_assoc in Ha1 |- *.
  eapply runs_mono; [apply (IH (pre ++ [r])); try done; [congruence|intros r' row2 Hin; apply Hc; by right]|].
  intros c2 s2 (-> & E2 & Ha2). split_and!; [done|by trans s1|done].
Qed.

(** The request is refused because of the rows that are there. *)
Definition duplicate (isDirty setrows : bool) (conf : srow -> bool) rows : bool :=
  (0 <? length rows)%nat &&
  (((isDirty || setrows) && key_is_uniq d) || (setrows && negb (keysAsUniqField d =? 0) && existsb conf rows)).

Lemma duplicate_run s u key stRow conf rows (isDirty setrows : bool) :
  attached s u key rows -> m_uiOffset (m_stRawData s) = pos key [] -> t_tableDef (p_task s) = d -> conflicts stRow conf rows ->
  runs (if (0 <? length rows)%nat then
          if (isDirty || setrows) && key_is_uniq d then mret (-1062)
          else if setrows && negb (keysAsUniqField d =? 0)
          then unique_loop stRow (new_RowValue d) (length rows)
          else mret 0
        else mret 0) s
    (λ c s', c = (if duplicate isDirty setrows conf rows then -1062 else 0) ∧ raw_step s s' ∧ attached s' u key rows).
Proof.
  intros Ha Ho Ht Hc. unfold duplicate. destruct (0 <? length rows)%nat; cbn [andb]; [|by apply runs_ret; split_and!].
  destruct ((isDirty || setrows) && key_is_uniq d); cbn [orb]; [by apply runs_ret; split_and!|].
  destruct (setrows && negb (keysAsUniqField d =? 0)); cbn [andb]; [|by apply runs_ret; split_and!].
  eapply runs_mono; [apply (unique_loop_run u key stRow conf [] rows); try done; by apply (new_fresh d ids Hcols)|].
  done.
Qed.

(** What a successful insert request leaves in the answer *)
Definition counted_one (setrows : bool) (t t' : CTaskRequest) : Prop :=
  ∃ a, AffectedRows (t_resultInfo t) = Some a ∧
    if (a =? 0) || setrows then ∃ r, t' = set_t_resultInfo r t ∧ AffectedRows r = Some 1 else t' = t.

Lemma black_list_run s :
  runs black_list s (λ _ s', s' = set_task (PushBlackListSize (m_uiNeedSize (m_stRawData s)) (p_task s)) s).
Proof.
  unfold black_list. eapply runs_step; [by apply (on_raw_step (rget m_uiNeedSize) _ (m_uiNeedSize (m_stRawData s)) (raw s))|].
  rewrite set_raw_same. by eexists _, _.
Qed.

Lemma set_affected_run s n :
  result_ok (p_task s) -> 0 <= n < 2 ^ 64 ->
  runs (set_affected_rows n) s (λ _ s', ∃ r, s' = set_task (set_t_resultInfo r (p_task s)) s ∧ AffectedRows r = Some n).
Proof.
  intros Hok Hn. destruct (SetAffectedRows_total (p_task s) n Hok Hn) as (r & Hr & _ & Hn').
  eexists tt, _. split; [|by exists r]. unfold set_affected_rows, on_task. by rewrite Hr.
Qed.

Lemma append_done_run s u key rows (isDirty setrows : bool) :
  attached s u key rows -> result_ok (p_task s) ->
  runs (t ← get p_task; a ← lift (AffectedRows (t_resultInfo t));
        when_ ((a =? 0) || setrows) (set_affected_rows 1);;
        count 1 (if isDirty then 1 else 0);; touch now;; mret 0) s
    (λ c s', c = 0 ∧ attached s' u key rows ∧ m_llRowsInc s' = m_llRowsInc s + 1 ∧
      m_llDirtyRowsInc s' = m_llDirtyRowsInc s + (if isDirty then 1 else 0) ∧ counted_one setrows (p_task s) (p_task s')).
Proof.
  intros Ha Hok. eapply runs_step; [done|]. destruct (AffectedRows_total _ Hok) as [a Haff]. rewrite Haff.
  eapply runs_step; [done|].
  eapply runs_bind with (Q := λ _ s1, counted_one setrows (p_task s) (p_task s1) ∧ s1 = set_task (p_task s1) s).
  { unfold counted_one. destruct ((a =? 0) || setrows) eqn:Eb; cbn [when_].
    - eapply runs_mono; [by apply set_affected_run|]. intros _ s1 (r & -> & Hr). split; [|done].
      exists a. split; [done|]. rewrite Eb. by exists r.
    - apply runs_ret. split; [exists a; by rewrite Eb|by destruct s]. }
  intros _ s1 [Hcnt E1]. eapply runs_step; [done|].
  eapply runs_bind; [apply (touch_run d ids now _ u key rows); rewrite E1; exact Ha|].
  intros _ s2 [E2 Ha2]. apply runs_ret. apply raw_step_fields in E2 as (_ & Et & _ & _ & Er & Ed). cbn in Er, Ed, Et.
  split; [done|]. split; [done|]. rewrite Et, Er, Ed, E1. rewrite E1 in Hcnt. done.
Qed.

(** [C17] An insert request: it is refused ([-1062]) exactly when the rows that
    are there forbid it; otherwise the row joins the others in front or behind
    and the counters go up by one, or ([-2]) there was no room even after
    purging other nodes - then the rows, the node's handle and the counters are
    unchanged and the size needed is noted in the request - or no scratch
    buffer, and then the row is stored although it is not counted. *)
Theorem AppendData_correct s u key rows stRow cells conf (insertOrder isDirty setrows : bool) :
  node_data s u key rows -> p_affected s = None -> t_tableDef (p_task s) = d -> result_ok (p_task s) ->
  insert_row (p_task s) = Some stRow -> encodes d ids stRow cells -> conflicts stRow conf rows ->
  let r := SRow (ins_flag isDirty) cells in pos key (rows ++ [r]) < 2 ^ 32 ->
  let dup := duplicate isDirty setrows conf rows in
  runs (AppendData d now buf insertOrder isDirty setrows) s (λ c s', ∃ u',
    (dup = true ∧ c = -1062 ∧ node_data s' u' key rows ∧ m_llRowsInc s' = 0 ∧ m_llDirtyRowsInc s' = 0 ∧ p_task s' = p_task s) ∨
    (dup = false ∧ c = 0 ∧ node_data s' u' key (front insertOrder [r] rows) ∧
       m_llRowsInc s' = 1 ∧ m_llDirtyRowsInc s' = (if isDirty then 1 else 0) ∧ counted_one setrows (p_task s) (p_task s')) ∨
    (dup = false ∧ c = -2 ∧ m_llRowsInc s' = 0 ∧ m_llDirtyRowsInc s' = 0 ∧
       ((node_data s' u' key rows ∧ p_vd s' = p_vd s ∧ t_blacklist_size (p_task s') = pos key (rows ++ [r])) ∨
        (insertOrder = true ∧ buf = false ∧ rows ≠ [] ∧ node_data s' u' key (rows ++ [r]))))).
Proof.
  intros Hn Hp Ht Hok Hrow He Hc r Hlt dup. pose proof Hn as (_ & Hk & _). unfold AppendData.
  eapply runs_step; [done|]. unfold insert_row in Hrow. apply bind_Some in Hrow as (r0 & Hr0 & Hrow).
  rewrite Hr0. do 2 (eapply runs_step; [done|]).
  eapply runs_bind with (Q := λ x s1, x = stRow ∧ s1 = set_inc 0 0 s).
  { destruct (keyFields d <=? hasAutoInc d); [|apply runs_ret; split; [by simplify_eq|done]].
    apply bind_Some in Hrow as (id & -> & Hrow). eapply runs_step; [done|].
    destruct (id =? 0); [apply runs_ret; split; [by simplify_eq|done]|]. rewrite Hrow. eexists _, _. by split. }
  intros x s1 [-> ->]. eapply runs_bind; [by apply (AttachData_run d ids now Hcols (set_inc 0 0 s) u key rows)|].
  intros c s1 (-> & E1 & Ha1 & Ho1 & Hc1). cbn [Z.eqb negb]. eapply runs_step; [by apply total_rows_eq|].
  apply raw_step_fields in E1 as (Ev1 & Et1 & Ep1 & Es1 & Er1 & Ed1). cbn in Ev1, Et1, Ep1, Es1, Er1, Ed1.
  rewrite Ht. rewrite <- Et1 in Ht.
  eapply runs_bind; [by apply (duplicate_run s1 u key stRow conf rows isDirty setrows)|].
  fold dup. intros c s2 (-> & E2 & Ha2). apply raw_step_fields in E2 as (Ev2 & Et2 & Ep2 & Es2 & Er2 & Ed2).
  destruct dup; cbn [Z.eqb negb].
  { apply runs_ret. exists u. left. split_and!; try done; try congruence. by apply attached_node. }
  eapply runs_step with (x := 0) (s' := s2).
  { unfold affect_insert, has_aff, get, mbind, ST_bind. cbn. by rewrite Ep2, Ep1, Hp. }
  cbn [Z.eqb negb].
  eapply runs_bind; [by apply (insert_retry_run s2 u key rows stRow cells insertOrder isDirty)|].
  intros c s3 [E3 (u' & Hins)]. apply raw_step_fields in E3 as (Ev3 & Et3 & Ep3 & Es3 & Er3 & Ed3).
  eapply runs_bind; [apply save_handle_if_run|]. intros _ s4 ->. destruct (Z.eqb_spec c EC_NO_MEM) as [->|Hne].
  { destruct Hins as [Ha3 Hneed]. cbn [Z.eqb EC_NO_MEM negb].
    eapply runs_bind; [apply black_list_run|].
    intros _ s5 ->. apply runs_ret. exists u'. right. right. cbn.
    split_and!; try done; try congruence. left. split_and!; [by apply attached_node|congruence|].
    rewrite Hneed. apply uwrap_small. unfold pos in *. lia. }
  destruct Hins as (rows' & Hins & Hs3). set (s5 := set_vd _ s3).
  assert (attached s5 u' key rows') as Ha5 by by split.
  destruct Hins as [[-> ->]|(-> & -> & Hbuf & Hne' & ->)]; cbn [Z.eqb negb].
  2: { eapply runs_bind; [apply black_list_run|]. intros _ s6 ->. apply runs_ret. exists u'. right. right. cbn.
       split_and!; try done; try congruence. right. split_and!; try done. by apply attached_node. }
  eapply runs_mono; [apply (append_done_run s5 u' key _ isDirty setrows Ha5); cbn; congruence|].
  intros c s6 (-> & Ha6 & Er6 & Ed6 & Hcnt). cbn in Er6, Ed6, Hcnt. exists u'. right. left.
  split_and!; try done; [by apply attached_node|lia|lia|]. by rewrite Et3, Et2, Et1 in Hcnt.
Qed.

(** ** The private copy of a row *)

Lemma on_sys_run {X} (m : RM (A:=B) X) o s (Q : X -> CRawData * B -> Prop) :
  runs m (o, p_sys s) Q ->
  runs (on_sys o m) s (λ y s', s' = set_aff (p_affected s) (p_sys s') s ∧ Q y.1 (y.2, p_sys s')).
Proof.
  intros (x & [o' b] & Hm & HQ). exists (x, o'), (set_aff (p_affected s) b s). unfold on_sys. rewrite Hm. by split.
Qed.

(** The object on the system allocator, to be deleted *)
Definition private us (o : CRawData) (b : B) : Prop :=
  _autodestroy o = 1 ∧ (_handle o = 0 ∧ mal_holds b us ∨ ∃ key rows, stored d ids (o, b) us key rows).

Lemma delete_private_run us o s :
  private us o (p_sys s) ->
  runs (on_sys o delete_RawData) s (λ _ s', s' = set_aff (p_affected s) (p_sys s') s ∧ mal_holds (p_sys s') us).
Proof.
  intros [Had Hor]. eapply runs_mono.
  { apply on_sys_run with (Q := λ _ r, mal_holds r.2 us). unfold delete_RawData. eapply runs_step; [apply rget_ok|].
    cbn [fst]. rewrite Had. cbn [Z.eqb].
    eapply runs_bind with (Q := λ _ r, mal_holds r.2 us).
    - destruct Hor as [[Hh Hb]|(key & rows & Hs)].
      + unfold Destroy. eapply runs_bind; [|intros c r Hr; apply runs_ret; exact Hr]. eapply runs_step; [apply rget_ok|].
        cbn [fst]. rewrite Hh. cbn [Z.eqb]. eapply runs_step; [apply rput_ok|]. by apply runs_ret.
      + eapply runs_bind; [by apply (Destroy_stored d ids (o, p_sys s) us key rows)|].
        intros c r (_ & Hr & _). by apply runs_ret.
    - intros _ r Hr. eexists _, _. split; [apply rput_ok|]. exact Hr. }
  intros y s' [E Hq]. by split.
Qed.

Lemma encodes_get row cells i : encodes d ids row cells -> i ∈ ids -> is_Some (row_get row i).
Proof.
  intros [_ Hm] [j Hj]%list_elem_of_lookup. apply mapM_Some in Hm.
  destruct (Forall2_lookup_l _ _ _ _ _ Hm Hj) as (c & _ & Hc). apply cell_bytes_inv in Hc as (v & _ & _ & Hv & _). by exists v.
Qed.

(** Reading the row back from the new object *)
Lemma private_read_run us o b key row cells flag :
  stored d ids (o, b) us key [SRow OPER_SELECT cells] -> encodes d ids row cells -> Forall (exact_column d) ids ->
  runs (Rewind;; DecodeRow row flag 0) (o, b) (λ x r, x.1.1 = 0 ∧ stored d ids r us key [SRow OPER_SELECT cells] ∧
    encodes d ids x.2 cells ∧ reads d ids row cells x.2).
Proof.
  intros Hs He Hex. pose proof (sd_start _ _ _ _ _ _ Hs) as Hst. unfold Rewind.
  eapply runs_bind with (Q := λ _ r, r = (set_m_uiRowOffset (m_uiDataStart o) (set_m_uiOffset (m_uiDataStart o) o), b)).
  { eapply runs_step; [apply rget_ok|]. by eexists _, _. }
  intros _ r ->. set (o2 := set_m_uiRowOffset _ _).
  assert (stored d ids (o2, b) us key [SRow OPER_SELECT cells]) as Hs2 by by apply (stored_rows_irrel d ids (o, b)).
  destruct (DecodeRow_stored d ids (o2, b) us key [] _ [] row flag 0 Hs2) as (row2 & s2 & Hrun & Hd2 & Hin & Hout & Hs3 & _).
  - exact Hst.
  - apply He.
  - intros i. by eapply encodes_get.
  - exists (0, OPER_SELECT, row2), s2. split; [exact Hrun|]. split; [done|]. split; [done|]. cbn [sr_cells snd] in *.
    split; [|by split_and!]. split; [done|]. apply (reads_encodes d); try done. destruct He as [<- Hm]. by apply mapM_is_cell.
Qed.

Lemma private_run s u key rows us row al cells flag :
  attached s u key rows -> key_ok (keyFormat d) key -> mal_holds (p_sys s) us -> encodes d ids row cells ->
  Forall (exact_column d) ids -> 17 + Zlen key + Zlen (concat cells) < 2 ^ 32 ->
  runs (encode_to_private_area d now buf junk (row, al) flag) s (λ x s', s' = set_aff (p_affected s) (p_sys s') s ∧
    private us x.2 (p_sys s') ∧
    (x.1.1 = 0 -> x.1.2.2 = [] ∧ encodes d ids x.1.2.1 cells ∧ reads d ids row cells x.1.2.1)).
Proof.
  intros Ha Hk Hus He Hex Hlt. unfold encode_to_private_area. cbn [fst snd].
  destruct (key_ptr_run d ids s u key rows Ha) as (p & Hp & Hh). eapply runs_step; [exact Hp|].
  pose proof He as [Hd Hm]. assert (u8 (keyFields d - 1) = keyFields d - 1) as Hu8 by (apply uwrap_small; lia).
  rewrite (CalcRowSize_at row _ ids cells) by (rewrite ?Hd; unfold tab_keyIdx; congruence || done).
  rewrite uwrap_small by lia. eapply runs_step; [done|].
  eapply runs_bind.
  { apply on_sys_run. eapply runs_keeps; [apply Init_keeps|].
    apply (Init_stored d ids (new_RawData 1 junk) (p_sys s) us key (keyFormat d) (tab_keyIdx d) p (1 + Zlen (concat cells)) (-1) now);
      [done|done|by apply read_n_holds|lia|lia|done]. }
  intros [c o] s1 [E1 [Had Hor]]. cbn [fst snd] in *.
  destruct Hor as [(-> & Hs1 & Hh1 & _)|(-> & Hs1 & Ho1 & _ & Hsz1 & _)]; cbn [Z.eqb negb EC_NO_MEM].
  { apply runs_ret. cbn [fst snd]. split; [done|]. split; [|done]. split; [done|]. by left. }
  assert (pos key ([] ++ [SRow OPER_SELECT cells]) = 17 + Zlen key + Zlen (concat cells)) as Hpos.
  { rewrite pos_snoc. unfold pos, row_bytes. cbn. lia. }
  eapply runs_bind.
  { apply on_sys_run. eapply runs_keeps; [apply InsertRow_keeps|].
    apply (InsertRowFlag_stored d ids (o, p_sys s1) us key [] row cells false OPER_SELECT buf Hs1 He); [done|]. rewrite Hpos. lia. }
  intros [c o2] s2 [E2 [Had2 Hor]]. cbn [fst snd] in *.
  destruct Hor as [(_ & _ & _ & Hlt2 & _)|[(-> & Hs2)|(_ & ? & _)]]; [rewrite Hpos in Hlt2; cbn in Hlt2; lia| |done]. cbn [Z.eqb negb].
  eapply runs_bind.
  { apply on_sys_run. eapply runs_keeps; [|by apply (private_read_run us o2 (p_sys s2) key row cells flag)].
    apply keeps_bind; [apply Rewind_keeps|intros; apply DecodeRow_keeps]. }
  intros [[[c f] row2] o3] s3 [E3 [Had3 (-> & Hs3 & He3 & Hr3)]]. cbn [fst snd] in *. apply runs_ret. cbn [fst snd Z.eqb].
  split; [by rewrite E3, E2, E1|]. split; [|done]. split; [etrans; [exact Had3|etrans; [exact Had2|exact Had]]|]. right. by eexists key, _.
Qed.

(** ** Updating rows *)

(** What the update of the request makes of the selected rows: new cells for
    the columns that rows keep, and the other columns as they were. *)
Definition updates (t : CTaskRequest) (sel : srow -> bool) (f : srow -> list (list Z)) rows : Prop :=
  ∀ r row, r ∈ rows -> sel r = true -> reads d ids (new_RowValue d) (sr_cells r) row ->
    ∃ row', UpdateRow t row = Some row' ∧ encodes d ids row' (f r) ∧ ∀ i, i ∉ ids -> row_get row' i = row_get row i.

Definition new_flag (async : bool) (r : srow) : Z := if async then OPER_UPDATE else sr_flag r.
Definition updated (async : bool) (sel : srow -> bool) (f : srow -> list (list Z)) (r : srow) : srow :=
  if sel r then SRow (new_flag async r) (f r) else r.

Lemma replace_retry_run s u key pre r post stRow cells (async : bool) :
  attached s u key (pre ++ r :: post) -> m_uiRowOffset (m_stRawData s) = pos key pre -> encodes d ids stRow cells ->
  let r' := SRow (new_flag async r) cells in pos key (pre ++ r :: post) + Zlen (row_bytes r') < 2 ^ 32 ->
  runs (retry (ReplaceCurRow stRow async buf)) s (λ c s', raw_step s s' ∧ ∃ u',
    if c =? EC_NO_MEM then attached s' u' key (pre ++ r :: post)
    else (c = - ENOMEM ∧ buf = false ∧ stored d ids (raw s') u' key (pre ++ r :: post)) ∨
         (c = 0 ∧ stored d ids (raw s') u' key (pre ++ r' :: post) ∧ m_uiOffset (m_stRawData s') = pos key (pre ++ [r']))).
Proof.
  intros [Hs Hh] Hro He r' Hlt. eapply runs_mono.
  { apply (retry_run (ReplaceCurRow stRow async buf) s u
      (λ u x, stored d ids x u key (pre ++ r :: post) ∧ _handle x.1 = p_vd s ∧ m_uiRowOffset x.1 = pos key pre) (λ _, True)
      (λ c u x, (c = - ENOMEM ∧ buf = false ∧ stored d ids x u key (pre ++ r :: post)) ∨
         (c = 0 ∧ stored d ids x u key (pre ++ r' :: post) ∧ m_uiOffset x.1 = pos key (pre ++ [r'])))).
    - done.
    - intros u1 x1 (Hs1 & Hh1 & Ho1). eapply runs_mono.
      { by apply (ReplaceCurRow_stored d ids x1 u1 key pre r post stRow cells async buf Hs1 Ho1 He). }
      intros c x2 [(-> & H2 & _ & _ & Ho2 & _ & Hh2)|[(-> & H2 & Hb & _)|(-> & H2 & _ & Ho2)]]; cbn [Z.eqb EC_NO_MEM].
      + split; [|done]. split; [done|]. split; congruence.
      + by left.
      + by right.
    - intros u1 o a n (Hs1 & Hh1 & Ho1). eapply runs_mono; [by eapply pool_stored|]. intros _ a' [u' ?]. by exists u'. }
  intros c s' [E (u' & Hc)]. split; [done|]. exists u'. destruct (c =? EC_NO_MEM); [|exact Hc].
  destruct Hc as [(Hs' & Hh' & _) _]. split; [done|]. apply raw_step_fields in E as [-> _]. exact Hh'.
Qed.

(** How far an update came: the rows before [k] are updated, the others are as
    they were, and the dirty counter went with the flags. *)
Definition dirty_change (async : bool) (sel : srow -> bool) rows : Z :=
  (if async then rows_where sel rows else 0) - rows_where (sel_dirty sel) rows.

Lemma dirty_change_nil async sel : dirty_change async sel [] = 0.
Proof. by destruct async. Qed.
Lemma dirty_change_cons async sel r rows :
  dirty_change async sel (r :: rows) =
  (if sel r then (if is_dirty r then -1 else 0) + (if async then 1 else 0) else 0) + dirty_change async sel rows.
Proof.
  unfold dirty_change. rewrite !rows_where_cons. change (sel_dirty sel r) with (sel r && is_dirty r).
  destruct (sel r), (is_dirty r), async; cbn [andb]; lia.
Qed.

Lemma sys_attached s s' u key rows : s' = set_aff (p_affected s) (p_sys s') s -> attached s u key rows -> attached s' u key rows.
Proof. intros -> [Hs Hh]. by split. Qed.

(** What an update request keeps besides the rows: *)
Record sound s us s' : Prop := {
  so_sys : mal_holds (p_sys s') us;
  so_affected : p_affected s' = None;
  so_rows : m_llRowsInc s' = m_llRowsInc s
}.

Lemma change_fail_run s u key rows us o :
  attached s u key rows -> private us o (p_sys s) -> p_affected s = None ->
  runs (black_list;; on_sys o delete_RawData;; mret (inl (-6) : Z + Z)) s (λ x s', x = inl (-6) ∧ attached s' u key rows ∧
    mal_holds (p_sys s') us ∧ p_affected s' = None ∧ m_llRowsInc s' = m_llRowsInc s ∧ m_llDirtyRowsInc s' = m_llDirtyRowsInc s).
Proof.
  intros Ha Hpriv Hp. eapply runs_bind; [apply black_list_run|]. intros _ s1 ->.
  eapply runs_bind; [by apply (delete_private_run us o)|]. intros _ s2 [E Hus]. apply runs_ret.
  split; [done|]. split; [by apply (sys_attached _ _ _ _ _ E)|]. split; [done|]. by rewrite E.
Qed.

(** A selected row after its values changed: the row [r] in the chunk is
    replaced and the loop goes on with [k], or it stays and the request ends. *)
Lemma replace_row_run s u us key pre r post row al cells (async : bool) (k : CRowValue -> PM (Z + Z))
    (Q : Z + Z -> CRawDataProcess A B -> Prop) :
  attached s u key (pre ++ r :: post) -> m_uiRowOffset (m_stRawData s) = pos key pre -> key_ok (keyFormat d) key ->
  sound s us s -> Forall (exact_column d) ids -> encodes d ids row cells ->
  (∀ i, i ∉ ids -> row_get row i = row_get (new_RowValue d) i) ->
  let r' := SRow (new_flag async r) cells in pos key (pre ++ r :: post) + Zlen (row_bytes r') < 2 ^ 32 ->
  (∀ row2 s2 u2, attached s2 u2 key (pre ++ r' :: post) -> m_uiOffset (m_stRawData s2) = pos key (pre ++ [r']) ->
     fresh d ids (new_RowValue d) row2 -> sound s us s2 -> p_task s2 = p_task s ->
     m_llDirtyRowsInc s2 = m_llDirtyRowsInc s + ((if is_dirty r then -1 else 0) + (if async then 1 else 0)) ->
     runs (k row2) s2 Q) ->
  (∀ c s2 u2, c = -3 ∨ c = -6 -> attached s2 u2 key (pre ++ r :: post) -> sound s us s2 ->
     m_llDirtyRowsInc s2 = m_llDirtyRowsInc s -> Q (inl c) s2) ->
  runs (r0 ← affect_insert buf row async;
        if negb (r0 =? 0) then mret (inl (-2))
        else
          e ← encode_to_private_area d now buf junk (row, al) (sr_flag r);
          if negb (e.1.1 =? 0) then on_sys e.2 delete_RawData;; mret (inl (-3))
          else
            iRet ← replace_current buf e.1.2 async;
            save_handle_if iRet;;
            if negb (iRet =? 0) then black_list;; on_sys e.2 delete_RawData;; mret (inl (-6))
            else
              count 0 ((if dirty (sr_flag r) then -1 else 0) + (if async then 1 else 0));;
              on_sys e.2 delete_RawData;;
              k e.1.2.1) s Q.
Proof.
  intros Ha Hro Hk [Hus Hp _] Hex He Hout r' Hlt Hnext Hfail.
  eapply runs_step with (x := 0) (s' := s); [unfold affect_insert, has_aff, get, mbind, ST_bind; cbn; by rewrite Hp|].
  cbn [Z.eqb negb]. assert (16 + Zlen key <= pos key (pre ++ r :: post)) as Hge by (unfold pos; lia).
  assert (Zlen (row_bytes r') = 1 + Zlen (concat cells)) as Hr' by (unfold row_bytes; cbn; lia).
  eapply runs_bind; [apply (private_run s u key _ us row al cells (sr_flag r) Ha Hk Hus He Hex); lia|].
  intros [[c [row2 al2]] o] s1 (E1 & Hpriv & Hread). cbn [fst snd] in *. pose proof (sys_attached _ _ _ _ _ E1 Ha) as Ha1.
  destruct (Z.eqb_spec c 0) as [->|]; cbn [negb].
  2: { eapply runs_bind; [by apply (delete_private_run us o s1)|]. intros _ s2 [E2 Hus2]. apply runs_ret.
       apply (Hfail (-3) s2 u); [by left|by apply (sys_attached s1)| |by rewrite E2, E1].
       split; [done|by rewrite E2, E1|by rewrite E2, E1]. }
  destruct (Hread eq_refl) as (-> & He2 & Hr2). unfold replace_current. cbn [fst snd].
  eapply runs_bind; [apply (replace_retry_run s1 u key pre r post row2 cells async Ha1); [by rewrite E1|done|done]|].
  intros c s2 [E2 (u' & Hc)]. pose proof (raw_step_fields _ _ E2) as (Ev2 & Et2 & Ep2 & Es2 & Er2 & Ed2).
  eapply runs_bind; [apply save_handle_if_run|]. intros _ s3 ->.
  destruct (Z.eqb_spec c EC_NO_MEM) as [->|_]; [|destruct Hc as [(-> & _ & Hs2)|(-> & Hs2 & Ho2)]]; cbn [Z.eqb EC_NO_MEM ENOMEM Z.opp negb].
  - eapply runs_mono; [apply (change_fail_run s2 u' key _ us o Hc); [by rewrite Es2|rewrite Ep2, E1; exact Hp]|].
    intros x s4 (-> & Ha4 & Hus4 & Hp4 & Er4 & Ed4). apply (Hfail _ s4 u'); [by right|done| |rewrite Ed4, Ed2, E1; done].
    split; [done|done|rewrite Er4, Er2, E1; done].
  - eapply runs_mono; [apply (change_fail_run _ u' key (pre ++ r :: post) us o); [by split|cbn; by rewrite Es2|cbn; rewrite Ep2, E1; exact Hp]|].
    intros x s4 (-> & Ha4 & Hus4 & Hp4 & Er4 & Ed4). apply (Hfail _ s4 u'); [by right|done| |rewrite Ed4; cbn; rewrite Ed2, E1; done].
    split; [done|done|rewrite Er4; cbn; rewrite Er2, E1; done].
  - eapply runs_step; [done|]. set (s3 := set_inc _ _ _).
    eapply runs_bind; [apply (delete_private_run us o s3); cbn; by rewrite Es2|]. intros _ s4 [E4 Hus4].
    apply (Hnext row2 s4 u').
    + apply (sys_attached s3 s4 u' key _ E4). by split.
    + rewrite E4. exact Ho2.
    + apply (reads_fresh d ids (new_RowValue d) row cells row2); [|by destruct He as [_ Hm%length_mapM]|done].
      split; [apply He|]. split; [intros i; by eapply encodes_get|done].
    + split; [done|rewrite E4; cbn; rewrite Ep2, E1; done|rewrite E4; cbn; rewrite Er2, E1; cbn; lia].
    + rewrite E4. cbn. by rewrite Et2, E1.
    + rewrite E4. cbn. by rewrite Ed2, E1.
Qed.

(** One selected row: its values change, and with them the strings of the row
    in the chunk. *)
Lemma change_row_run s u us key pre r post row f (async : bool) (k : CRowValue -> PM (Z + Z))
    (Q : Z + Z -> CRawDataProcess A B -> Prop) :
  attached s u key (pre ++ r :: post) -> m_uiRowOffset (m_stRawData s) = pos key pre -> key_ok (keyFormat d) key ->
  sound s us s -> Forall (exact_column d) ids -> fresh d ids (new_RowValue d) row ->
  reads d ids (new_RowValue d) (sr_cells r) row ->
  (∀ p i v, ids !! p = Some i -> row_get row i = Some v ->
     cell_ptr d i (pos key pre + 1 + Zlen (concat (take p (sr_cells r)))) v) ->
  (∃ row', UpdateRow (p_task s) row = Some row' ∧ encodes d ids row' (f r) ∧ ∀ i, i ∉ ids -> row_get row' i = row_get row i) ->
  let r' := SRow (new_flag async r) (f r) in pos key (pre ++ r :: post) + Zlen (row_bytes r') < 2 ^ 32 ->
  (∀ row2 s2 u2, attached s2 u2 key (pre ++ r' :: post) -> m_uiOffset (m_stRawData s2) = pos key (pre ++ [r']) ->
     fresh d ids (new_RowValue d) row2 -> sound s us s2 -> p_task s2 = p_task s ->
     m_llDirtyRowsInc s2 = m_llDirtyRowsInc s + ((if is_dirty r then -1 else 0) + (if async then 1 else 0)) ->
     runs (k row2) s2 Q) ->
  (∀ c s2 u2 cells, c = -3 ∨ c = -6 -> in_place d ids (p_task s) (sr_cells r) = Some cells ->
     attached s2 u2 key (pre ++ SRow (sr_flag r) cells :: post) -> sound s us s2 ->
     m_llDirtyRowsInc s2 = m_llDirtyRowsInc s -> Q (inl c) s2) ->
  runs (row ← update_current (p_task s) row;
        r0 ← affect_insert buf row.1 async;
        if negb (r0 =? 0) then mret (inl (-2))
        else
          e ← encode_to_private_area d now buf junk row (sr_flag r);
          if negb (e.1.1 =? 0) then on_sys e.2 delete_RawData;; mret (inl (-3))
          else
            iRet ← replace_current buf e.1.2 async;
            save_handle_if iRet;;
            if negb (iRet =? 0) then black_list;; on_sys e.2 delete_RawData;; mret (inl (-6))
            else
              count 0 ((if dirty (sr_flag r) then -1 else 0) + (if async then 1 else 0));;
              on_sys e.2 delete_RawData;;
              k e.1.2.1) s Q.
Proof.
  intros Ha Hro Hk [Hus Hp _] Hex Hf Hrd Hptr (row' & Hrow & He & Hout) r' Hlt Hnext Hfail.
  eapply runs_bind; [by apply (update_current_run d ids Hcols Hstamps s u key pre r post (new_RowValue d) row row' Ha (proj1 Hf) Hrd Hptr)|].
  intros [row1 al] s0 (E & E0 & Eo & cells & Hcells & Ha0). cbn [fst] in E. subst row1. cbn [fst snd].
  pose proof (raw_step_fields _ _ E0) as (Ev0 & Et0 & Ep0 & Es0 & Er0 & Ed0).
  assert (pos key (pre ++ SRow (sr_flag r) cells :: post) = pos key (pre ++ r :: post)) as Hpe.
  { rewrite <- (sd_size _ _ _ _ _ _ (proj1 Ha)), <- (sd_size _ _ _ _ _ _ (proj1 Ha0)). cbn. by rewrite Eo. }
  apply (replace_row_run s0 u us key pre (SRow (sr_flag r) cells) post row' al (f r) async k Q); try done.
  - by rewrite Eo.
  - split; congruence.
  - intros i Hi. rewrite Hout by done. by apply Hf.
  - by rewrite Hpe.
  - intros row2 s2 u2 Ha2 Ho2 Hf2 [? ? ?] Et2 Ed2. apply (Hnext row2 s2 u2); [done|done|done|split; congruence|congruence|].
    rewrite Ed2, Ed0. done.
  - intros c s2 u2 Hc Ha2 [? ? ?] Ed2. apply (Hfail c s2 u2 cells); [done|done|done|split; congruence|congruence].
Qed.

(** The outcome of the loop: all rows were gone through, or the [k]-th, a
    selected one, is as the bits that were set in its strings left it. *)
Definition loop_end (async : bool) (sel : srow -> bool) (f : srow -> list (list Z)) s us key pre post n (x : Z + Z) s' : Prop :=
  ∃ u' k, sound s us s' ∧ m_llDirtyRowsInc s' = m_llDirtyRowsInc s + dirty_change async sel (take k post) ∧
    ((x = inr (n + rows_where sel post) ∧ k = length post ∧ p_task s' = p_task s ∧
        attached s' u' key (pre ++ (updated async sel f <$> post))) ∨
     (∃ r cells, post !! k = Some r ∧ sel r = true ∧ (x = inl (-3) ∨ x = inl (-6)) ∧
        in_place d ids (p_task s) (sr_cells r) = Some cells ∧
        attached s' u' key (pre ++ (updated async sel f <$> take k post) ++ SRow (sr_flag r) cells :: drop (S k) post))).

Lemma sound_trans s1 us s2 s3 : sound s1 us s2 -> sound s2 us s3 -> sound s1 us s3.
Proof. intros [? ? E1] [? ? E2]. split; [done|done|congruence]. Qed.

(** A step of the loop in front of the rest of it *)
Lemma loop_end_step (async : bool) (sel : srow -> bool) f s s1 us key pre r post n m x s' :
  sound s us s1 -> p_task s1 = p_task s ->
  m_llDirtyRowsInc s1 = m_llDirtyRowsInc s + (if sel r then (if is_dirty r then -1 else 0) + (if async then 1 else 0) else 0) ->
  m = n + (if sel r then 1 else 0) ->
  loop_end async sel f s1 us key (pre ++ [updated async sel f r]) post m x s' ->
  loop_end async sel f s us key pre (r :: post) n x s'.
Proof.
  intros Hs Ht Hd -> (u' & k & Hs' & Hd' & Hx). exists u', (S k). split; [by apply (sound_trans s us s1)|].
  cbn [take drop lookup]. split; [rewrite dirty_change_cons; lia|]. destruct Hx as [(-> & -> & Ht' & Ha)|(r2 & cells & Hr2 & Hsel & Hx & Hin & Ha)].
  - left. rewrite rows_where_cons, fmap_cons. rewrite <- app_assoc in Ha. split_and!; [f_equal; lia|done|congruence|exact Ha].
  - right. exists r2, cells. rewrite fmap_cons. rewrite <- app_assoc in Ha. rewrite Ht in Hin. by split_and!.
Qed.

Lemma update_loop_run us key sel f (async : bool) pre post s u row n :
  attached s u key (pre ++ post) -> m_uiOffset (m_stRawData s) = pos key pre -> key_ok (keyFormat d) key ->
  sound s us s -> fresh d ids (new_RowValue d) row -> Forall (exact_column d) ids ->
  selects d ids (p_task s) sel post -> updates (p_task s) sel f post ->
  pos key (pre ++ post) + Zlen (rows_bytes (updated async sel f <$> post)) < 2 ^ 32 ->
  runs (update_loop d now buf junk async row (length post) n) s (loop_end async sel f s us key pre post n).
Proof.
  revert pre s u row n. induction post as [|r post IH]; intros pre s u row n Ha Ho Hk Hs Hf Hex Hsel Hupd Hlt; cbn [length update_loop].
  { apply runs_ret. exists u, 0%nat. split; [done|]. cbn [take]. split; [rewrite dirty_change_nil; lia|].
    left. split_and!; [f_equal; rewrite rows_where_nil; lia|done|done|done]. }
  eapply runs_bind; [by apply (decode_run d ids s u key pre r post (new_RowValue d) row)|].
  intros x s1 (row' & -> & Hf1 & Hr & E1 & Ha1 & Hro1 & Ho1 & _ & Hptr). cbn [fst snd Z.eqb negb].
  pose proof (raw_step_fields _ _ E1) as (Ev1 & Et1 & Ep1 & Es1 & Er1 & Ed1).
  assert (sound s us s1) as Hs1 by (destruct Hs; split; congruence).
  eapply runs_step; [done|]. destruct (Hsel r row' ltac:(by left) Hr) as (c & Hc & Hselr). rewrite Et1, Hc.
  eapply runs_step; [done|]. rewrite fmap_cons, rows_bytes_cons, length_app in Hlt.
  pose proof (Zlen_row (updated async sel f r)) as Hlen. pose proof (pos_mid key pre r (updated async sel f r) post) as Hmid.
  pose proof (Zlen_row r) as Hlen0.
  assert (selects d ids (p_task s) sel post) as Hsel2 by (intros r2 row2 Hin; apply Hsel; by right).
  assert (updates (p_task s) sel f post) as Hupd2 by (intros r2 row2 Hin; apply Hupd; by right).
  destruct (Z.eqb_spec c 0) as [->|Hc0]; cbn [negb] in Hselr.
  - assert (updated async sel f r = r) as Hu by (unfold updated; by rewrite Hselr). rewrite Hu in *.
    rewrite (cons_middle r pre post), app_assoc in Ha1.
    eapply runs_mono; [apply (IH (pre ++ [r]) s1 u row' n Ha1 Ho1 Hk); try done; rewrite ?Et1; try done|].
    + by apply (sound_trans s1 us s); destruct Hs, Hs1; split.
    + rewrite <- app_assoc. cbn [app]. lia.
    + intros x s2 Hend. apply (loop_end_step async sel f s s1 us key pre r post n n); rewrite ?Hselr, ?Hu; done || lia.
  - assert (updated async sel f r = SRow (new_flag async r) (f r)) as Hu by (unfold updated; by rewrite Hselr).
    rewrite Hu in *. rewrite <- Et1.
    apply (change_row_run s1 u us key pre r post row' f async (λ row2, update_loop d now buf junk async row2 (length post) (n + 1))); try done.
    + by destruct Hs, Hs1; split.
    + rewrite Et1. by apply Hupd; [left| |].
    + lia.
    + intros row2 s2 u2 Ha2 Ho2 Hf2 Hs2 Et2 Ed2. rewrite Et1 in Et2. rewrite (cons_middle _ pre post), app_assoc in Ha2.
      eapply runs_mono; [apply (IH _ s2 u2 row2 (n + 1) Ha2 Ho2 Hk); try done; rewrite ?Et2; try done|].
      * by destruct Hs2; split.
      * rewrite <- app_assoc. cbn [app]. lia.
      * intros x s3 Hend. apply (loop_end_step async sel f s s2 us key pre r post n (n + 1)); rewrite ?Hselr, ?Hu; try done.
        -- by apply (sound_trans s us s1).
        -- lia.
    + intros c2 s2 u2 cells Hc2 Hin Ha2 Hs2 Ed2. exists u2, 0%nat. cbn [take drop fmap list_fmap app].
      split; [by apply (sound_trans s us s1)|]. split; [rewrite dirty_change_nil; lia|].
      right. exists r, cells. rewrite Et1 in Hin. split_and!; [done|by rewrite Hselr| |done|done]. destruct Hc2 as [-> | ->]; [by left|by right].
Qed.

(** [C16] An update request goes through the rows in order: every row its
    condition selects gets the cells the update makes of it - also when the
    chunk moves while it grows - and the dirty flag when the update is
    asynchronous; the others stay.  When there is no memory the rows up to the
    failing one are updated, the rest is untouched, and the failing row is
    left with the bits that the update set in its strings before the copy
    ([in_place]): they lie in the chunk.  The dirty counter agrees with the
    flags in every case, no row is added or lost, and the private copies are
    freed. *)
Theorem UpdateData_correct s u us key rows sel f (async setrows : bool) :
  node_data s u key rows -> mal_holds (p_sys s) us -> p_affected s = None -> t_tableDef (p_task s) = d ->
  result_ok (p_task s) -> Forall (exact_column d) ids -> selects d ids (p_task s) sel rows -> updates (p_task s) sel f rows ->
  pos key rows + Zlen (rows_bytes (updated async sel f <$> rows)) < 2 ^ 32 ->
  runs (UpdateData d now buf junk async setrows) s (λ c s', ∃ u' k,
    mal_holds (p_sys s') us ∧ m_llRowsInc s' = 0 ∧ m_llDirtyRowsInc s' = dirty_change async sel (take k rows) ∧
    ((c = 0 ∧ k = length rows ∧ node_data s' u' key (updated async sel f <$> rows) ∧
        if async || setrows then ∃ r, p_task s' = set_t_resultInfo r (p_task s) ∧ AffectedRows r = Some (rows_where sel rows)
        else p_task s' = p_task s) ∨
     ((c = -3 ∨ c = -6) ∧ ∃ r cells, rows !! k = Some r ∧ sel r = true ∧
        in_place d ids (p_task s) (sr_cells r) = Some cells ∧
        node_data s' u' key ((updated async sel f <$> take k rows) ++ SRow (sr_flag r) cells :: drop (S k) rows)))).
Proof.
  intros Hn Hus Hp Ht Hok Hex Hsel Hupd Hlt. pose proof Hn as (_ & Hk & _). unfold UpdateData. eapply runs_step; [done|].
  eapply runs_bind; [by apply (AttachData_run d ids now Hcols (set_inc 0 0 s) u key rows)|].
  intros c s1 (-> & E1 & Ha1 & Ho1 & Hc1). cbn [Z.eqb negb]. eapply runs_step; [by apply total_rows_eq|].
  apply raw_step_fields in E1 as (Ev1 & Et1 & Ep1 & Es1 & Er1 & Ed1). cbn in Ev1, Et1, Ep1, Es1, Er1, Ed1.
  eapply runs_step; [done|]. rewrite Et1, Ht.
  eapply runs_bind.
  { apply (update_loop_run us key sel f async [] rows s1 u); rewrite ?Et1; try done; [split; congruence|by apply (new_fresh d ids Hcols)]. }
  intros x s2 (u' & k & [Hus2 Hp2 Er2] & Ed2 & Hx). cbn [app] in Hx.
  assert (m_llRowsInc s2 = 0) as Hr2 by lia. assert (m_llDirtyRowsInc s2 = dirty_change async sel (take k rows)) as Hd2 by lia.
  destruct Hx as [(-> & -> & Et2 & Ha2)|(r & cells & Hr & Hselr & [-> | ->] & Hin & Ha2)].
  2,3: apply runs_ret; exists u', k; rewrite Et1 in Hin; split_and!; try done; right;
    (split; [tauto|]); exists r, cells; (split_and!; [done..|]); by apply attached_node.
  pose proof (rows_where_range sel rows) as Hw. pose proof (stored_bounds _ _ _ _ _ _ (proj1 Ha1)) as [Hb1 Hb2]. rewrite Z.add_0_l.
  eapply runs_bind with (Q := λ _ s3, s3 = set_task (p_task s3) s2 ∧
    if async || setrows then ∃ r, p_task s3 = set_t_resultInfo r (p_task s) ∧ AffectedRows r = Some (rows_where sel rows)
    else p_task s3 = p_task s).
  { destruct (async || setrows); cbn [when_].
    - eapply runs_mono; [apply (set_affected_run s2 (rows_where sel rows)); [by rewrite Et2, Et1|lia]|].
      intros _ s3 (r & -> & Hr). split; [done|]. exists r. cbn. by rewrite Et2, Et1.
    - apply runs_ret. split; [by destruct s2|congruence]. }
  intros _ s3 [E3 Hans]. eapply runs_bind; [apply (touch_run d ids now s3 u' key); rewrite E3; exact Ha2|].
  intros _ s4 [E4 Ha4]. apply runs_ret. apply raw_step_fields in E4 as (_ & Et4 & _ & Es4 & Er4 & Ed4).
  exists u', (length rows). rewrite Es4, Er4, Ed4, Et4. split_and!; [by rewrite E3..|]. left.
  split_and!; [done|done|by apply attached_node|done].
Qed.
End change.
