(* ===== verification/ProcExample.v ===== *)
(** * ProcExample: requests on a node of two rows

    The theorems of [ProcSpec] and [ProcChange] on a concrete node: the two
    rows of [RawExample] on the shared-memory allocator, private copies on a
    second heap, a pool that cannot purge, and requests with conditions,
    updates and values of their own. *)

From stdpp Require Import list.
From S2P Require Import Prelude State Bitsop Value Protocol Codec Section TableDef Field BinMalloc BinHeap BinAlloc BinClient BinSpec Result Task Pkey Mallocator BinBytes RawData RawBuf RawRow RawRep RawSpec RawStore RawCopy RawExample RawProc ProcSpec ProcAlias ProcChange.

#[local] Instance ex_text : FloatText := hex_text.

(** A pool with nothing to purge *)
#[local] Instance ex_pool : CachePool CBinMalloc := {
  TryPurgeSize := λ _, mret (-1);
  PurgeNode := mret 0
}.
#[local] Instance ex_pool_laws : CachePoolLaws CBinMalloc.
Proof. intros a b u n Ha. apply runs_ret. by exists u. Qed.

(** "n = 5" *)
Definition ex_cond : CFieldValue := MkFieldValue [MkSField 1 DField_EQ DField_Signed (MakeInt 5)] 1 (0, 0).
(** "t = xyz" *)
Definition ex_set_text : CFieldValue :=
  MkFieldValue [MkSField 2 DField_Set DField_String (MkValue 3 (Some (Ptr [120; 121; 122] 0)))] 1 (0, 0).
(** "n = 6, t = hi" *)
Definition ex_values : CFieldValue :=
  MkFieldValue [MkSField 1 DField_Set DField_Signed (MakeInt 6);
                MkSField 2 DField_Set DField_String (MkValue 2 (Some (Ptr [104; 105] 0)))] 2 (0, 0).
Definition ex_task (code : Z) (cond upd : option CFieldValue) : CTaskRequest :=
  MkTask ex_tab 0 code 0 1000 None None false None cond upd None (new_section requestInfoDefinition) new_ResultInfo None 0 0.
Definition proc_on (s : CRawData * CBinMalloc) (t : CTaskRequest) : CRawDataProcess CBinMalloc CBinMalloc :=
  MkProc (fst s) (snd s) None ex0 (_handle (fst s)) 0 0 t.
Definition ex_proc (t : CTaskRequest) : CRawDataProcess CBinMalloc CBinMalloc := proc_on ex_two t.

Definition ex_code_Update : Z := DRequest_code DRequest_Update.
Definition ex_code_Insert : Z := DRequest_code DRequest_Insert.

Lemma ex_cols : stored_columns ex_tab (u8 (keyFields ex_tab - 1)) = Some ex_ids.
Proof. by vm_compute. Qed.

Lemma proc_node s t rows : stored ex_tab ex_ids s [] ex_key rows -> node_data ex_tab ex_ids (proc_on s t) [] ex_key rows.
Proof.
  intros Hs. apply attached_node; [change (keyFormat ex_tab) with 4; by split; [repeat constructor|]|].
  split; [|done]. by destruct s.
Qed.
Lemma ex_node t : node_data ex_tab ex_ids (ex_proc t) [] ex_key ex_rows2.
Proof. apply proc_node, ex_two_stored. Qed.

Lemma ex_result_ok c cond upd : result_ok (ex_task c cond upd).
Proof. split; [|done]. apply sec_inv_new. by vm_compute. Qed.

(** A decoded row of the table *)
Lemma row_get_rd d l i v : row_get (MkRow d l) i = Some v -> rd l i = Some v.
Proof.
  unfold row_get, row_FieldValue, row_at. change (row_def (MkRow d l)) with d. change (row_value (MkRow d l)) with l.
  destruct (_ && _); [|done]. by destruct (rd l i).
Qed.

Lemma ex_reads c1 c2 row :
  reads ex_tab ex_ids (new_RowValue ex_tab) [c1; c2] row ->
  ∃ v1 v2 l, row = MkRow ex_tab (CValue_zero :: v1 :: v2 :: l) ∧ cell_value ex_tab 1 c1 v1 ∧ cell_value ex_tab 2 c2 v2.
Proof.
  intros (Hd & Hc & Ho). destruct row as [d l]. change (d = ex_tab) in Hd. subst d.
  destruct (Hc 1 c1 ltac:(by left)) as (v1 & Hg1%row_get_rd & Hv1).
  destruct (Hc 2 c2 ltac:(by right; left)) as (v2 & Hg2%row_get_rd & Hv2).
  assert (0 ∉ ex_ids) as H0 by (unfold ex_ids; rewrite !elem_of_cons, elem_of_nil; lia).
  assert (rd l 0 = Some CValue_zero) as Hg0.
  { apply row_get_rd with ex_tab. rewrite (Ho 0 H0). vm_compute. reflexivity. }
  destruct l as [|v0 [|w1 [|w2 l]]]; try done.
  injection Hg0 as ->. injection Hg1 as ->. injection Hg2 as ->. by exists v1, v2, l.
Qed.

(** The rows with n = 5 *)
Definition ex_sel (r : srow) : bool := match sr_cells r with c :: _ => s32 (le_value c) =? 5 | [] => false end.

Lemma ex_rows_cells r : r ∈ ex_rows2 -> ∃ n txt, sr_cells r = ex_cells n txt ∧ (n = 5 ∨ n = 9).
Proof.
  intros [->|[->|[]%elem_of_nil]%elem_of_cons]%elem_of_cons; [by exists 5, [97; 98]; split; [|left]|by exists 9, [120]; split; [|right]].
Qed.

Lemma ex_word n v : cell_value ex_tab 1 (le_bytes 4 n) v -> n = 5 ∨ n = 9 -> v_s64 v = n.
Proof.
  intros (ty & w & Ht & Hw & Hv) Hn. assert (ty = DField_Signed) as -> by (vm_compute in Ht; by injection Ht as <-).
  assert (w = false) as -> by (vm_compute in Hw; by injection Hw as <-). cbn in Hv. unfold v_s64. rewrite Hv.
  destruct Hn as [-> | ->]; by vm_compute.
Qed.

Lemma ex_compare code upd v0 v1 l :
  CompareRow (ex_task code (Some ex_cond) upd) (MkRow ex_tab (v0 :: v1 :: l)) = Some (if v_s64 v1 =? 5 then 1 else 0).
Proof.
  change (CompareRow _ _) with (Compare_loop [MkSField 1 DField_EQ DField_Signed (MakeInt 5)] (MkRow ex_tab (v0 :: v1 :: l)) 256).
  cbn [Compare_loop sf_id sf_type sf_oper sf_val]. change (keyFields (row_def _)) with 1. change (FieldType (row_def _) 1) with (Some DField_Signed).
  change ((1 <? 1) || (256 - 1 <? 1)) with false. change (row_at _ 1) with (Some v1). osimpl.
  change (compare_value _ _ _ _ _) with (Some (v_s64 v1 =? 5)). osimpl. by destruct (v_s64 v1 =? 5).
Qed.

Lemma ex_selects code upd : selects ex_tab ex_ids (ex_task code (Some ex_cond) upd) ex_sel ex_rows2.
Proof.
  intros r row (n & txt & Er & Hn)%ex_rows_cells Hr. rewrite Er in Hr.
  destruct (ex_reads _ _ _ Hr) as (v1 & v2 & l & -> & H1 & _). apply ex_word in H1; [|done].
  exists (if n =? 5 then 1 else 0). split.
  - rewrite ex_compare, H1. by destruct Hn as [-> | ->].
  - unfold ex_sel. rewrite Er. destruct Hn as [-> | ->]; by vm_compute.
Qed.

Lemma DirtyRowsInNode_correct_witness :
  runs (DirtyRowsInNode ex_tab) (ex_proc (ex_task 0 None None)) (λ c s', c = 1 ∧ node_data ex_tab ex_ids s' [] ex_key ex_rows2).
Proof.
  eapply runs_mono; [by apply (DirtyRowsInNode_correct ex_tab ex_ids ex_cols (ex_proc (ex_task 0 None None)) [] ex_key ex_rows2 (ex_node _))|].
  intros c s' (-> & Hn & _). split; [by vm_compute|exact Hn].
Defined.

Lemma DeleteData_correct_witness :
  runs (DeleteData ex_tab 1001) (ex_proc (ex_task 0 (Some ex_cond) None)) (λ c s', c = 0 ∧
    node_data ex_tab ex_ids s' [] ex_key [SRow OPER_INSERT (ex_cells 9 [120])] ∧ m_llRowsInc s' = -1 ∧ m_llDirtyRowsInc s' = 0).
Proof.
  eapply runs_mono.
  { apply (DeleteData_correct ex_tab ex_ids 1001 ex_cols (ex_proc (ex_task 0 (Some ex_cond) None)) [] ex_key ex_rows2 ex_sel (ex_node _));
      [done|done|apply ex_result_ok|done|apply ex_selects]. }
  intros c s' (-> & Hn & _ & Hr & Hd & _). split; [done|]. split; [exact Hn|]. rewrite Hr, Hd. by vm_compute.
Defined.

Lemma ex_key_unpacks : key_unpacks ex_tab [CValue_zero] ex_key.
Proof.
  intros p Hp. destruct (UnpackKey_spec ex_tab [(DField_Unsigned, 4, 7)] p 0 0 [CValue_zero]) as (keys & Hu & Hl & _).
  - repeat constructor; cbn; lia || by right.
  - by vm_compute.
  - by vm_compute.
  - exact Hp.
  - done.
  - done.
  - destruct keys as [|k [|? ?]]; [discriminate Hl| |discriminate Hl]. exists [k], (MkRow ex_tab [k; CValue_zero; CValue_zero]). split; [exact Hu|done].
Qed.

(** The key that is put into the row *)
Lemma ex_key_base (p : option ptr) keys base :
  Value.holds p ex_key -> UnpackKey ex_tab p [CValue_zero] = Some keys -> put_keys (new_RowValue ex_tab) 0 keys = Some base ->
  v_word <$> row_get base 0 = Some 7.
Proof.
  intros Hp Hk Hb. destruct (UnpackKey_spec ex_tab [(DField_Unsigned, 4, 7)] p 0 0 [CValue_zero]) as (keys' & Hu & Hl & _ & Hv).
  - repeat constructor; cbn; lia || by right.
  - by vm_compute.
  - by vm_compute.
  - exact Hp.
  - done.
  - done.
  - change (UnpackKey ex_tab p [CValue_zero] = Some keys') in Hu. rewrite Hk in Hu. injection Hu as ->.
    destruct keys' as [|k [|? ?]]; [discriminate Hl| |discriminate Hl]. specialize (Hv 0%nat _ eq_refl).
    assert (put_keys (new_RowValue ex_tab) 0 [k] = Some (MkRow ex_tab [k; CValue_zero; CValue_zero])) as E by done.
    rewrite E in Hb. assert (base = MkRow ex_tab [k; CValue_zero; CValue_zero]) as -> by congruence. exact Hv.
Qed.

(** What is computed of a run can be added to what is proved of it. *)
Lemma runs_code {S X} (m : ST S X) s (Q : X -> S -> Prop) (P : X -> Prop) :
  runs m s Q -> (∀ x, fst <$> m s = Some x -> P x) -> runs m s (λ x s', P x ∧ Q x s').
Proof. intros (x & s' & E & HQ) HP. exists x, s'. split; [done|]. split; [|done]. apply HP. by rewrite E. Qed.

Definition ex_flush : option CFlushRequest := Some (MkFlush 0 []).
Definition queue_len (o : option CFlushRequest) : option Z := q ← o; Some (Z.of_nat (length (flushQueue q))).

(** One row is queued with its cells and the node's key and becomes clean; when
    no task can be made of it, it stays dirty and nothing is queued. *)
Lemma FlushData_correct_witness :
  runs (FlushData ex_tab (λ _ _, 0) ex_flush true [CValue_zero] 0) (ex_proc (ex_task 0 None None)) (λ y s',
    y.1 = (0, 1) ∧ queue_len y.2 = Some 1 ∧
    (∃ base, v_word <$> row_get base 0 = Some 7 ∧ queued ex_tab ex_ids base [SRow OPER_INSERT (ex_cells 9 [120])] ex_flush y.2) ∧
    node_data ex_tab ex_ids s' [] ex_key (ex_rows1 ++ [SRow 0x34 (ex_cells 9 [120])]) ∧ m_llDirtyRowsInc s' = -1) ∧
  runs (FlushData ex_tab (λ _ _, -1) ex_flush true [CValue_zero] 0) (ex_proc (ex_task 0 None None)) (λ y s',
    y.1 = (-2, 0) ∧ queue_len y.2 = Some 0 ∧ node_data ex_tab ex_ids s' [] ex_key ex_rows2 ∧ m_llDirtyRowsInc s' = 0).
Proof.
  split.
  - eapply runs_mono.
    { apply runs_code with (P := λ y, queue_len y.2 = Some 1); [|intros x E; vm_compute in E; injection E as <-; by vm_compute].
      apply (FlushData_correct ex_tab ex_ids ex_cols (λ _ _, 0) ex_flush (λ _ _, true) 0 (ex_proc (ex_task 0 None None)) [] ex_key ex_rows2
               [CValue_zero] 0 (ex_node _) ex_key_unpacks); [done|by intros q [= <-]|done|by vm_compute]. }
    intros y s' (Hl & Hy & (p & keys & base & Hp & Hk & Hb & Hq) & Hn & _ & _ & Hd & _).
    split; [exact Hy|]. split; [exact Hl|]. split.
    + exists base. split; [|exact Hq]. by apply (ex_key_base p keys base).
    + split; [exact Hn|]. rewrite Hd. by vm_compute.
  - eapply runs_mono.
    { apply runs_code with (P := λ y, queue_len y.2 = Some 0); [|intros x E; vm_compute in E; injection E as <-; by vm_compute].
      apply (FlushData_correct ex_tab ex_ids ex_cols (λ _ _, -1) ex_flush (λ _ _, false) 0 (ex_proc (ex_task 0 None None)) [] ex_key ex_rows2
               [CValue_zero] 0 (ex_node _) ex_key_unpacks); [done|by intros q [= <-]|done|by vm_compute]. }
    intros y s' (Hl & Hy & _ & Hn & _ & _ & Hd & _). split; [exact Hy|]. split; [exact Hl|]. split; [exact Hn|]. rewrite Hd. by vm_compute.
Defined.

Definition ex_new_row : CRowValue := MkRow ex_tab [CValue_zero; MakeInt 6; MkValue 2 (Some (Ptr [104; 105] 0))].
Lemma ex_insert_row : insert_row ex_tab (ex_task ex_code_Insert None (Some ex_values)) = Some ex_new_row.
Proof. vm_compute. reflexivity. Qed.

Lemma AppendData_correct_witness :
  runs (AppendData ex_tab 1001 true true true false) (ex_proc (ex_task ex_code_Insert None (Some ex_values))) (λ c s',
    (c = 0 ∧ ∃ u', node_data ex_tab ex_ids s' u' ex_key (SRow OPER_INSERT (ex_cells 6 [104; 105]) :: ex_rows2) ∧ m_llDirtyRowsInc s' = 1) ∨ c = -2).
Proof.
  eapply runs_mono.
  { apply (AppendData_correct ex_tab ex_ids 1001 true ex_cols (ex_proc (ex_task ex_code_Insert None (Some ex_values))) [] ex_key ex_rows2
             ex_new_row (ex_cells 6 [104; 105]) (λ _, true) true true false (ex_node _));
      [done|done|apply ex_result_ok|exact ex_insert_row|by split|by exists 0|by vm_compute]. }
  intros c s' (u' & [(Hd & _)|[(_ & -> & Hn & _ & Hd & _)|(_ & -> & _)]]); [by vm_compute in Hd| |by right].
  left. split; [done|]. exists u'. split; [exact Hn|exact Hd].
Defined.

Definition ex_new_text (r : srow) : list (list Z) :=
  match sr_cells r with c :: _ => [c; le_bytes 4 3 ++ [120; 121; 122]] | [] => [] end.

Lemma not_float i t : FieldType ex_tab i = Some t -> t ≠ DField_Float -> exact_column ex_tab i.
Proof. intros Ht Hn w Hw. congruence. Qed.
Lemma ex_exact : Forall (exact_column ex_tab) ex_ids.
Proof.
  constructor; [apply not_float with DField_Signed|constructor; [apply not_float with DField_String|constructor]];
    (vm_compute; reflexivity) || discriminate.
Qed.

Definition ex_xyz : CBinary := MkBinary 3 (Some (Ptr [120; 121; 122] 0)).
Lemma v_str_ex v : v_str (v_set_str v ex_xyz) = ex_xyz.
Proof. apply v_str_set_str. simpl. lia. Qed.

Lemma ex_UpdateRow v0 v1 v2 l :
  UpdateRow (ex_task ex_code_Update (Some ex_cond) (Some ex_set_text)) (MkRow ex_tab (v0 :: v1 :: v2 :: l)) =
  Some (MkRow ex_tab (v0 :: v1 :: v_set_str v2 ex_xyz :: l)).
Proof.
  unfold UpdateRow. change (UpdateStamps _ (MkRow ex_tab (v0 :: v1 :: v2 :: l))) with (Some (MkRow ex_tab (v0 :: v1 :: v2 :: l))).
  osimpl. change (t_updateInfo _) with (Some ex_set_text). cbv iota beta. unfold Update.
  change (fv_list ex_set_text) with (Some [MkSField 2 DField_Set DField_String (MkValue 3 (Some (Ptr [120; 121; 122] 0)))]).
  osimpl. cbn [Update_loop]. unfold update_one. cbn [sf_id sf_type sf_oper sf_val].
  change (row_at _ 2) with (Some v2). osimpl. change (FieldType (row_def _) 2) with (Some DField_String). osimpl.
  change (FieldSize (row_def _) 2) with (Some 100). osimpl.
  change (update_value _ _ _ _ _ _) with (Some (set_str_cut v2 (MkValue 3 (Some (Ptr [120; 121; 122] 0))) 100)). osimpl.
  unfold set_str_cut. change (v_str (MkValue 3 _)) with ex_xyz. rewrite v_str_ex.
  change (100 <? bin_len ex_xyz) with false. cbv iota.
  unfold row_put. rewrite wr_is_Some by (cbn [row_value length]; lia).
  reflexivity.
Qed.

(** The cells of a row whose text became [txt] *)
Lemma ex_encodes n v1 v2 l txt :
  cell_value ex_tab 1 (le_bytes 4 n) v1 -> v_str v2 = MkBinary (Z.of_nat (length txt)) (v_ptr v2) ->
  read_n (v_ptr v2) (length txt) = Some txt -> forallb is_byteb txt = true ->
  encodes ex_tab ex_ids (MkRow ex_tab (CValue_zero :: v1 :: v2 :: l)) (ex_cells n txt).
Proof.
  intros H1 Hs Hr Hb. set (row := MkRow _ _). split; [done|].
  assert (cell_bytes row 1 = Some (le_bytes 4 n)) as E1.
  { apply (cell_reencode ex_tab row _ _ v1); [reflexivity| |exact H1|reflexivity|by apply (Forall_inv ex_exact)].
    exists DField_Signed, false. split_and!; [done|done|apply le_bytes_bytes|done]. }
  assert (cell_bytes row 2 = Some (le_bytes 4 (Z.of_nat (length txt)) ++ txt)) as E2.
  { unfold cell_bytes. change (row_get row 2) with (Some v2). osimpl. change (FieldType (row_def row) 2) with (Some DField_String). osimpl.
    change (wide (row_def row) 2) with (Some true). osimpl. change (numeric DField_String) with false. cbv iota. rewrite Hs. cbn [bin_len bin_ptr].
    destruct (Z.ltb_spec (Z.of_nat (length txt)) 0); [lia|]. rewrite Nat2Z.id, Hr. osimpl. by rewrite Hb. }
  change (mapM (cell_bytes row) ex_ids) with (mapM (cell_bytes row) [1; 2]). cbn [mapM]. by rewrite E1, E2.
Qed.

Lemma ex_other v0 v1 v1' v2 v2' l i : i ∉ ex_ids ->
  v1 = v1' -> row_get (MkRow ex_tab (v0 :: v1 :: v2 :: l)) i = row_get (MkRow ex_tab (v0 :: v1' :: v2' :: l)) i.
Proof.
  intros Hi ->. unfold row_get, row_FieldValue, row_at. cbn [row_def row_value]. change (numFields ex_tab) with 2.
  destruct (Z.eq_dec i 0) as [->|]; [done|]. destruct (Z.eq_dec i 1) as [->|]; [by destruct Hi; left|].
  destruct (Z.eq_dec i 2) as [->|]; [by destruct Hi; right; left|].
  destruct (Z.leb_spec 0 i), (Z.leb_spec i 2); done || lia.
Qed.

Lemma ex_updates : updates ex_tab ex_ids (ex_task ex_code_Update (Some ex_cond) (Some ex_set_text)) ex_sel ex_new_text ex_rows2.
Proof.
  intros r row (n & txt & Er & Hn)%ex_rows_cells _ Hr. rewrite Er in Hr.
  destruct (ex_reads _ _ _ Hr) as (v1 & v2 & l & -> & H1 & _). rewrite ex_UpdateRow.
  eexists. split; [reflexivity|]. split; [|intros i Hi; by apply ex_other].
  unfold ex_new_text. rewrite Er. by apply (ex_encodes n v1 _ l [120; 121; 122] H1 (v_str_ex v2)).
Qed.

(** "t |= bits": bit 1 of the text *)
Definition ex_bits : CFieldValue :=
  MkFieldValue [MkSField 2 DField_SetBits DField_Unsigned (MakeInt (2 ^ 56 + 2 ^ 32 + 1))] 1 (0, 0).

Lemma ex_UpdateRow_bits v0 v1 v2 v2' l :
  setbits_bin v2 (2 ^ 56 + 2 ^ 32 + 1) = Some v2' ->
  UpdateRow (ex_task ex_code_Update (Some ex_cond) (Some ex_bits)) (MkRow ex_tab (v0 :: v1 :: v2 :: l)) =
  Some (MkRow ex_tab (v0 :: v1 :: v2' :: l)).
Proof.
  intros Hset. unfold UpdateRow. change (UpdateStamps _ (MkRow ex_tab (v0 :: v1 :: v2 :: l))) with (Some (MkRow ex_tab (v0 :: v1 :: v2 :: l))).
  osimpl. change (t_updateInfo _) with (Some ex_bits). cbv iota beta. unfold Update.
  change (fv_list ex_bits) with (Some [MkSField 2 DField_SetBits DField_Unsigned (MakeInt (2 ^ 56 + 2 ^ 32 + 1))]).
  osimpl. cbn [Update_loop]. unfold update_one. cbn [sf_id sf_type sf_oper sf_val].
  change (row_at _ 2) with (Some v2). osimpl. change (FieldType (row_def _) 2) with (Some DField_String). osimpl.
  change (FieldSize (row_def _) 2) with (Some 100). osimpl.
  change (update_value _ _ _ _ _ _) with (setbits_bin v2 (2 ^ 56 + 2 ^ 32 + 1)). rewrite Hset. osimpl.
  unfold row_put. rewrite wr_is_Some by (cbn [row_value length]; lia).
  reflexivity.
Qed.

Definition ex_bits_text (r : srow) : list (list Z) :=
  match in_place ex_tab ex_ids (ex_task ex_code_Update (Some ex_cond) (Some ex_bits)) (sr_cells r) with Some c => c | None => [] end.

Lemma ex_updates_bits : updates ex_tab ex_ids (ex_task ex_code_Update (Some ex_cond) (Some ex_bits)) ex_sel ex_bits_text ex_rows2.
Proof.
  intros r row Hin Hsel Hr.
  assert (r = SRow OPER_SELECT (ex_cells 5 [97; 98])) as ->.
  { apply elem_of_cons in Hin as [->|[->|[]%elem_of_nil]%elem_of_cons]; [done|by vm_compute in Hsel]. }
  destruct (ex_reads _ _ _ Hr) as (v1 & v2 & l & -> & H1 & t & w & Ht & _ & H2).
  assert (t = DField_String) as -> by (vm_compute in Ht; by injection Ht as <-).
  destruct H2 as (k & Ek & Hlen & Hh). assert (k = [97; 98]) as -> by (by apply (le_bytes_inj4 k [97; 98])).
  destruct (v_ptr v2) as [[bs off]|] eqn:Hp.
  2: { specialize (Hh 0%nat 97 eq_refl). cbn in Hh. by rewrite Hp in Hh. }
  assert (0 <= off) as Hoff.
  { specialize (Hh 0%nat 97 eq_refl). cbn [bin_ptr v_str] in Hh. rewrite Hp, deref_in in Hh. apply rd_Some_lt in Hh. lia. }
  destruct (setbits_bin_at v2 (2 ^ 56 + 2 ^ 32 + 1) bs off [97; 98] Hp Hoff Hlen Hh) as (l' & bs' & Hl' & _ & Hset & Hh').
  assert (l' = [99; 98]) as -> by (vm_compute in Hl'; by injection Hl' as <-).
  rewrite (ex_UpdateRow_bits _ _ _ _ _ Hset). eexists. split; [reflexivity|]. split; [|intros i Hi; by apply ex_other].
  apply (ex_encodes 5 v1 _ l [99; 98] H1); [|by apply read_n_holds|done].
  unfold v_str in *. cbn [v_word v_ptr bin_len] in *. by rewrite Hlen.
Qed.

Lemma ex_stamps : stamps_numeric ex_tab.
Proof. intros i t Hi Hp. change (i ∈ [-1; -1; -1]) in Hi. rewrite !elem_of_cons, elem_of_nil in Hi. lia. Qed.

(** A text is replaced; and, when there is no scratch buffer, a request that
    sets bits of a text fails but has changed the row. *)
Lemma UpdateData_correct_witness :
  runs (UpdateData ex_tab 1001 true 0 true false) (ex_proc (ex_task ex_code_Update (Some ex_cond) (Some ex_set_text))) (λ c s',
    c = 0 ∧ ∃ u', node_data ex_tab ex_ids s' u' ex_key
       [SRow OPER_UPDATE (ex_cells 5 [120; 121; 122]); SRow OPER_INSERT (ex_cells 9 [120])] ∧ m_llDirtyRowsInc s' = 1) ∧
  runs (UpdateData ex_tab 1001 false 0 true false) (ex_proc (ex_task ex_code_Update (Some ex_cond) (Some ex_bits))) (λ c s',
    c = -6 ∧ ∃ u', node_data ex_tab ex_ids s' u' ex_key
       [SRow OPER_SELECT (ex_cells 5 [99; 98]); SRow OPER_INSERT (ex_cells 9 [120])] ∧ m_llDirtyRowsInc s' = 0).
Proof.
  split.
  - eapply runs_mono.
    { apply runs_code with (P := λ c, c = 0); [|intros x E; vm_compute in E; by injection E as <-].
      apply (UpdateData_correct ex_tab ex_ids 1001 true 0 ex_cols ltac:(by vm_compute) ex_stamps (ex_proc (ex_task ex_code_Update (Some ex_cond) (Some ex_set_text)))
               [] [] ex_key ex_rows2 ex_sel ex_new_text true false (ex_node _));
        [exact ex0_holds|done|done|apply ex_result_ok|apply ex_exact|apply ex_selects|apply ex_updates|by vm_compute]. }
    intros c s' (-> & u' & k & _ & _ & Hd & [(_ & -> & Hn & _)|([|] & _)]); [|done|done].
    split; [done|]. exists u'. split; [exact Hn|]. rewrite Hd. by vm_compute.
  - eapply runs_mono.
    { apply runs_code with (P := λ c, c = -6); [|intros x E; vm_compute in E; by injection E as <-].
      apply (UpdateData_correct ex_tab ex_ids 1001 false 0 ex_cols ltac:(by vm_compute) ex_stamps (ex_proc (ex_task ex_code_Update (Some ex_cond) (Some ex_bits)))
               [] [] ex_key ex_rows2 ex_sel ex_bits_text true false (ex_node _));
        [exact ex0_holds|done|done|apply ex_result_ok|apply ex_exact|apply ex_selects|apply ex_updates_bits|by vm_compute]. }
    intros c s' (-> & u' & k & _ & _ & Hd & [([=] & _)|(_ & r & cells & Hr & Hsel & Hin & Hn)]).
    destruct k as [|[|k]]; [|by vm_compute in Hr; injection Hr as <-; vm_compute in Hsel|done].
    injection Hr as <-. vm_compute in Hin. injection Hin as <-. split; [done|]. exists u'. split; [exact Hn|]. rewrite Hd. by vm_compute.
Defined.
