(* ===== verification/NodeMem.v ===== *)
(** * NodeMem: the cache's objects in shared memory

    The data structures of the node store ([src/cache/node_group.h],
    [node_index.h], [ng_info.h], [hash.h]) and the memory they live in.  A
    handle is an offset into the segment; [objs] holds the object that the
    program maps at a handle, the allocator's own state is an [Allocator]
    (the interface of [bin_malloc], implemented in [NodeSpec]).  An access
    through a null pointer, or to an object that is not there, is undefined
    ([None]).  [M_HANDLE] and [M_POINTER] convert between handles and pointers;
    pointers are kept as handles here, with 0 for NULL. *)

From stdpp Require Import gmap.
From S2P Require Import Prelude State BinMalloc.

(** ** Constants ([src/cache/global.h]) *)

Definition INVALID_NODE_ID : Z := u32 (-1).
Definition SYS_MIN_NODE_ID : Z := 0.
Definition SYS_DIRTY_NODE_INDEX : Z := 0.
Definition SYS_CLEAN_NODE_INDEX : Z := 1.
Definition SYS_EMPTY_NODE_INDEX : Z := 2.
Definition LRU_PREV : Z := 0.
Definition LRU_NEXT : Z := 1.
Definition NODE_GROUP_INCLUDE_NODES : Z := 256.

(** ** The allocator as the cache uses it *)

Class Allocator (A : Type) := {
  a_calloc : Z -> A -> option (Z * A);
  a_free : Z -> A -> option (Z * A)
}.

(** [a_owns a u]: the clients of [a] hold the blocks [u], each with its handle
    and the size asked for. *)
Class AllocatorLaws (A : Type) `{Allocator A} := {
  a_owns : A -> list (Z * Z) -> Prop;
  a_owns_perm a u u' : u ≡ₚ u' -> a_owns a u -> a_owns a u';
  a_owns_block a h r u :
    a_owns a ((h, r) :: u) ->
    INVALID_HANDLE < h ∧ h mod 8 = 0 ∧ h + r <= 2 ^ 32 ∧ ∀ h' r', (h', r') ∈ u -> h + r <= h' ∨ h' + r' <= h;
  a_calloc_law a u n :
    a_owns a u -> 0 <= n ->
    ∃ h a', a_calloc n a = Some (h, a') ∧ a_owns a' (if h =? INVALID_HANDLE then u else (h, n) :: u);
  a_free_law a h n u :
    a_owns a ((h, n) :: u) -> ∃ a', a_free h a = Some (0, a') ∧ a_owns a' u
}.

(** ** Objects *)

Record NG_LIST_T := MkNGList { ng_list_prev : Z; ng_list_next : Z }.

(** [struct node_group].  [ng_data] are the attribute cells behind the header,
    by their byte offset from the group; memory from [M_CALLOC] reads as 0. *)
Record NODE_GROUP_T := MkNG {
  ng_list : NG_LIST_T;
  ng_dele_top : Z;
  ng_dele_count : Z;
  ng_free : Z;
  ng_nid : Z;
  ng_attr_count : Z;
  ng_attr_offset : list Z;
  ng_data : gmap Z Z
}.

Record FIRST_INDEX_T := MkFI { fi_used : Z; fi_h : gmap Z Z }.
Record SECOND_INDEX_T := MkSI { si_used : Z; si_h : gmap Z Z }.

Record NG_INFO_T := MkNI {
  ni_free_head : NG_LIST_T;
  ni_full_head : NG_LIST_T;
  ni_min_id : Z;
  ni_sys_zone : Z;
  ni_used_ng : Z;
  ni_used_node : Z;
  ni_dirty_node : Z;
  ni_used_row : Z;
  ni_dirty_row : Z
}.

Record HASH_T := MkHash {
  hh_size : Z;
  hh_free : Z;
  hh_node : Z;
  hh_fixedsize : Z;
  hh_buckets : gmap Z Z
}.

Inductive obj :=
  | ONodeGroup (g : NODE_GROUP_T)
  | OFirstIndex (f : FIRST_INDEX_T)
  | OSecondIndex (f : SECOND_INDEX_T)
  | ONGInfo (i : NG_INFO_T)
  | OHash (h : HASH_T).

(** ** Sizes *)

Definition sizeof_MEM_HANDLE_T : Z := 8.
Definition sizeof_NODE_ID_T : Z := 4.
Definition NG_ATTR_SIZE : list Z :=
  [NODE_GROUP_INCLUDE_NODES * sizeof_NODE_ID_T;
   NODE_GROUP_INCLUDE_NODES * sizeof_NODE_ID_T * 2;
   NODE_GROUP_INCLUDE_NODES * sizeof_MEM_HANDLE_T;
   NODE_GROUP_INCLUDE_NODES / 8].
Definition AttrCount : Z := Z.of_nat (length NG_ATTR_SIZE).
(** [OFFSETOF(NODE_GROUP_T, ng_attr)] is 28, [OFFSETOF(NG_ATTR_T, offset)] 4. *)
Definition BaseHeaderSize : Z := 28 + 4 + 4 * AttrCount.
Definition AttrSize : Z := foldl Z.add 0 NG_ATTR_SIZE.
Definition NG_Size : Z := BaseHeaderSize + AttrSize.
Definition INDEX_1_SIZE : Z := 2 ^ 8 * sizeof_MEM_HANDLE_T + 8.
Definition INDEX_2_SIZE : Z := 2 ^ 16 * sizeof_MEM_HANDLE_T + 8.
Definition sizeof_NG_INFO_T : Z := 80.
Definition sizeof_HASH_T : Z := 16.

Definition obj_size (o : obj) : Z :=
  match o with
  | ONodeGroup _ => NG_Size
  | OFirstIndex _ => INDEX_1_SIZE
  | OSecondIndex _ => INDEX_2_SIZE
  | ONGInfo _ => sizeof_NG_INFO_T
  | OHash h => sizeof_NODE_ID_T * hh_size h + sizeof_HASH_T
  end.

(** Zeroed memory seen as an object. *)
Definition zero_NG : NODE_GROUP_T := MkNG (MkNGList 0 0) 0 0 0 0 0 (replicate 4 0) ∅.
Definition zero_NI : NG_INFO_T := MkNI (MkNGList 0 0) (MkNGList 0 0) 0 0 0 0 0 0 0.

(** [set_m v o] is the object [o] after the assignment [m = v]. *)

Definition set_ng_list (v : NG_LIST_T) (o : NODE_GROUP_T) : NODE_GROUP_T :=
    MkNG v (ng_dele_top o) (ng_dele_count o) (ng_free o) (ng_nid o) (ng_attr_count o)
    (ng_attr_offset o) (ng_data o).
Definition set_ng_dele_top (v : Z) (o : NODE_GROUP_T) : NODE_GROUP_T :=
    MkNG (ng_list o) v (ng_dele_count o) (ng_free o) (ng_nid o) (ng_attr_count o) (ng_attr_offset
    o) (ng_data o).
Definition set_ng_dele_count (v : Z) (o : NODE_GROUP_T) : NODE_GROUP_T :=
    MkNG (ng_list o) (ng_dele_top o) v (ng_free o) (ng_nid o) (ng_attr_count o) (ng_attr_offset o)
    (ng_data o).
Definition set_ng_free (v : Z) (o : NODE_GROUP_T) : NODE_GROUP_T :=
    MkNG (ng_list o) (ng_dele_top o) (ng_dele_count o) v (ng_nid o) (ng_attr_count o)
    (ng_attr_offset o) (ng_data o).
Definition set_ng_nid (v : Z) (o : NODE_GROUP_T) : NODE_GROUP_T :=
    MkNG (ng_list o) (ng_dele_top o) (ng_dele_count o) (ng_free o) v (ng_attr_count o)
    (ng_attr_offset o) (ng_data o).
Definition set_ng_attr_count (v : Z) (o : NODE_GROUP_T) : NODE_GROUP_T :=
    MkNG (ng_list o) (ng_dele_top o) (ng_dele_count o) (ng_free o) (ng_nid o) v (ng_attr_offset o)
    (ng_data o).
Definition set_ng_attr_offset (v : list Z) (o : NODE_GROUP_T) : NODE_GROUP_T :=
    MkNG (ng_list o) (ng_dele_top o) (ng_dele_count o) (ng_free o) (ng_nid o) (ng_attr_count o) v
    (ng_data o).
Definition set_ng_data (v : gmap Z Z) (o : NODE_GROUP_T) : NODE_GROUP_T :=
    MkNG (ng_list o) (ng_dele_top o) (ng_dele_count o) (ng_free o) (ng_nid o) (ng_attr_count o)
    (ng_attr_offset o) v.
Definition set_ni_free_head (v : NG_LIST_T) (o : NG_INFO_T) : NG_INFO_T :=
    MkNI v (ni_full_head o) (ni_min_id o) (ni_sys_zone o) (ni_used_ng o) (ni_used_node o)
    (ni_dirty_node o) (ni_used_row o) (ni_dirty_row o).
Definition set_ni_full_head (v : NG_LIST_T) (o : NG_INFO_T) : NG_INFO_T :=
    MkNI (ni_free_head o) v (ni_min_id o) (ni_sys_zone o) (ni_used_ng o) (ni_used_node o)
    (ni_dirty_node o) (ni_used_row o) (ni_dirty_row o).
Definition set_ni_min_id (v : Z) (o : NG_INFO_T) : NG_INFO_T :=
    MkNI (ni_free_head o) (ni_full_head o) v (ni_sys_zone o) (ni_used_ng o) (ni_used_node o)
    (ni_dirty_node o) (ni_used_row o) (ni_dirty_row o).
Definition set_ni_sys_zone (v : Z) (o : NG_INFO_T) : NG_INFO_T :=
    MkNI (ni_free_head o) (ni_full_head o) (ni_min_id o) v (ni_used_ng o) (ni_used_node o)
    (ni_dirty_node o) (ni_used_row o) (ni_dirty_row o).
Definition set_ni_used_ng (v : Z) (o : NG_INFO_T) : NG_INFO_T :=
    MkNI (ni_free_head o) (ni_full_head o) (ni_min_id o) (ni_sys_zone o) v (ni_used_node o)
    (ni_dirty_node o) (ni_used_row o) (ni_dirty_row o).
Definition set_ni_used_node (v : Z) (o : NG_INFO_T) : NG_INFO_T :=
    MkNI (ni_free_head o) (ni_full_head o) (ni_min_id o) (ni_sys_zone o) (ni_used_ng o) v
    (ni_dirty_node o) (ni_used_row o) (ni_dirty_row o).
Definition set_ni_dirty_node (v : Z) (o : NG_INFO_T) : NG_INFO_T :=
    MkNI (ni_free_head o) (ni_full_head o) (ni_min_id o) (ni_sys_zone o) (ni_used_ng o)
    (ni_used_node o) v (ni_used_row o) (ni_dirty_row o).
Definition set_ni_used_row (v : Z) (o : NG_INFO_T) : NG_INFO_T :=
    MkNI (ni_free_head o) (ni_full_head o) (ni_min_id o) (ni_sys_zone o) (ni_used_ng o)
    (ni_used_node o) (ni_dirty_node o) v (ni_dirty_row o).
Definition set_ni_dirty_row (v : Z) (o : NG_INFO_T) : NG_INFO_T :=
    MkNI (ni_free_head o) (ni_full_head o) (ni_min_id o) (ni_sys_zone o) (ni_used_ng o)
    (ni_used_node o) (ni_dirty_node o) (ni_used_row o) v.
Definition set_hh_size (v : Z) (o : HASH_T) : HASH_T :=
  MkHash v (hh_free o) (hh_node o) (hh_fixedsize o) (hh_buckets o).
Definition set_hh_free (v : Z) (o : HASH_T) : HASH_T :=
  MkHash (hh_size o) v (hh_node o) (hh_fixedsize o) (hh_buckets o).
Definition set_hh_node (v : Z) (o : HASH_T) : HASH_T :=
  MkHash (hh_size o) (hh_free o) v (hh_fixedsize o) (hh_buckets o).
Definition set_hh_fixedsize (v : Z) (o : HASH_T) : HASH_T :=
  MkHash (hh_size o) (hh_free o) (hh_node o) v (hh_buckets o).
Definition set_hh_buckets (v : gmap Z Z) (o : HASH_T) : HASH_T :=
  MkHash (hh_size o) (hh_free o) (hh_node o) (hh_fixedsize o) v.

(** ** State

    The shared memory and the singletons that work on it: [firstIndex] is the
    pointer of [CNodeIndex], [ngInfo] with the counters that of [CNGInfo]
    ([step] and [fail] are the static variables of its [AllocateNode]), [hash]
    that of [CHash]. *)

Record cmem (A : Type) := MkCM {
  alloc : A;
  objs : gmap Z obj;
  firstIndex : Z;
  ngInfo : Z;
  hash : Z;
  emptyCnt : Z;
  emptyStartupMode : Z;
  step : Z;
  fail : Z;
  statUsedNG : Z;
  statUsedNode : Z;
  statDirtyNode : Z;
  statEmptyNode : Z;
  statUsedRow : Z;
  statDirtyRow : Z
}.
Arguments MkCM {A}.
Arguments alloc {A}.
Arguments objs {A}.
Arguments firstIndex {A}.
Arguments ngInfo {A}.
Arguments hash {A}.
Arguments emptyCnt {A}.
Arguments emptyStartupMode {A}.
Arguments step {A}.
Arguments fail {A}.
Arguments statUsedNG {A}.
Arguments statUsedNode {A}.
Arguments statDirtyNode {A}.
Arguments statEmptyNode {A}.
Arguments statUsedRow {A}.
Arguments statDirtyRow {A}.

Section setters.
Context {A : Type}.
Definition set_alloc (v : A) (o : cmem A) : cmem A :=
    MkCM v (objs o) (firstIndex o) (ngInfo o) (hash o) (emptyCnt o) (emptyStartupMode o) (step o)
    (fail o) (statUsedNG o) (statUsedNode o) (statDirtyNode o) (statEmptyNode o) (statUsedRow o)
    (statDirtyRow o).
Definition set_objs (v : gmap Z obj) (o : cmem A) : cmem A :=
    MkCM (alloc o) v (firstIndex o) (ngInfo o) (hash o) (emptyCnt o) (emptyStartupMode o) (step o)
    (fail o) (statUsedNG o) (statUsedNode o) (statDirtyNode o) (statEmptyNode o) (statUsedRow o)
    (statDirtyRow o).
Definition set_firstIndex (v : Z) (o : cmem A) : cmem A :=
    MkCM (alloc o) (objs o) v (ngInfo o) (hash o) (emptyCnt o) (emptyStartupMode o) (step o) (fail
    o) (statUsedNG o) (statUsedNode o) (statDirtyNode o) (statEmptyNode o) (statUsedRow o)
    (statDirtyRow o).
Definition set_ngInfo (v : Z) (o : cmem A) : cmem A :=
    MkCM (alloc o) (objs o) (firstIndex o) v (hash o) (emptyCnt o) (emptyStartupMode o) (step o)
    (fail o) (statUsedNG o) (statUsedNode o) (statDirtyNode o) (statEmptyNode o) (statUsedRow o)
    (statDirtyRow o).
Definition set_hash (v : Z) (o : cmem A) : cmem A :=
    MkCM (alloc o) (objs o) (firstIndex o) (ngInfo o) v (emptyCnt o) (emptyStartupMode o) (step o)
    (fail o) (statUsedNG o) (statUsedNode o) (statDirtyNode o) (statEmptyNode o) (statUsedRow o)
    (statDirtyRow o).
Definition set_emptyCnt (v : Z) (o : cmem A) : cmem A :=
    MkCM (alloc o) (objs o) (firstIndex o) (ngInfo o) (hash o) v (emptyStartupMode o) (step o)
    (fail o) (statUsedNG o) (statUsedNode o) (statDirtyNode o) (statEmptyNode o) (statUsedRow o)
    (statDirtyRow o).
Definition set_emptyStartupMode (v : Z) (o : cmem A) : cmem A :=
    MkCM (alloc o) (objs o) (firstIndex o) (ngInfo o) (hash o) (emptyCnt o) v (step o) (fail o)
    (statUsedNG o) (statUsedNode o) (statDirtyNode o) (statEmptyNode o) (statUsedRow o)
    (statDirtyRow o).
Definition set_step (v : Z) (o : cmem A) : cmem A :=
    MkCM (alloc o) (objs o) (firstIndex o) (ngInfo o) (hash o) (emptyCnt o) (emptyStartupMode o) v
    (fail o) (statUsedNG o) (statUsedNode o) (statDirtyNode o) (statEmptyNode o) (statUsedRow o)
    (statDirtyRow o).
Definition set_fail (v : Z) (o : cmem A) : cmem A :=
    MkCM (alloc o) (objs o) (firstIndex o) (ngInfo o) (hash o) (emptyCnt o) (emptyStartupMode o)
    (step o) v (statUsedNG o) (statUsedNode o) (statDirtyNode o) (statEmptyNode o) (statUsedRow o)
    (statDirtyRow o).
Definition set_statUsedNG (v : Z) (o : cmem A) : cmem A :=
    MkCM (alloc o) (objs o) (firstIndex o) (ngInfo o) (hash o) (emptyCnt o) (emptyStartupMode o)
    (step o) (fail o) v (statUsedNode o) (statDirtyNode o) (statEmptyNode o) (statUsedRow o)
    (statDirtyRow o).
Definition set_statUsedNode (v : Z) (o : cmem A) : cmem A :=
    MkCM (alloc o) (objs o) (firstIndex o) (ngInfo o) (hash o) (emptyCnt o) (emptyStartupMode o)
    (step o) (fail o) (statUsedNG o) v (statDirtyNode o) (statEmptyNode o) (statUsedRow o)
    (statDirtyRow o).
Definition set_statDirtyNode (v : Z) (o : cmem A) : cmem A :=
    MkCM (alloc o) (objs o) (firstIndex o) (ngInfo o) (hash o) (emptyCnt o) (emptyStartupMode o)
    (step o) (fail o) (statUsedNG o) (statUsedNode o) v (statEmptyNode o) (statUsedRow o)
    (statDirtyRow o).
Definition set_statEmptyNode (v : Z) (o : cmem A) : cmem A :=
    MkCM (alloc o) (objs o) (firstIndex o) (ngInfo o) (hash o) (emptyCnt o) (emptyStartupMode o)
    (step o) (fail o) (statUsedNG o) (statUsedNode o) (statDirtyNode o) v (statUsedRow o)
    (statDirtyRow o).
Definition set_statUsedRow (v : Z) (o : cmem A) : cmem A :=
    MkCM (alloc o) (objs o) (firstIndex o) (ngInfo o) (hash o) (emptyCnt o) (emptyStartupMode o)
    (step o) (fail o) (statUsedNG o) (statUsedNode o) (statDirtyNode o) (statEmptyNode o) v
    (statDirtyRow o).
Definition set_statDirtyRow (v : Z) (o : cmem A) : cmem A :=
    MkCM (alloc o) (objs o) (firstIndex o) (ngInfo o) (hash o) (emptyCnt o) (emptyStartupMode o)
    (step o) (fail o) (statUsedNG o) (statUsedNode o) (statDirtyNode o) (statEmptyNode o)
    (statUsedRow o) v.
End setters.

(** ** Access to objects *)

Section access.
Context {A : Type}.

Definition CM := ST (cmem A).

Definition get_NG (h : Z) (s : cmem A) : option NODE_GROUP_T :=
  match objs s !! h with Some (ONodeGroup g) => Some g | _ => None end.
Definition get_FI (h : Z) (s : cmem A) : option FIRST_INDEX_T :=
  match objs s !! h with Some (OFirstIndex f) => Some f | _ => None end.
Definition get_SI (h : Z) (s : cmem A) : option SECOND_INDEX_T :=
  match objs s !! h with Some (OSecondIndex f) => Some f | _ => None end.
Definition get_NI (h : Z) (s : cmem A) : option NG_INFO_T :=
  match objs s !! h with Some (ONGInfo i) => Some i | _ => None end.
Definition get_HT (h : Z) (s : cmem A) : option HASH_T :=
  match objs s !! h with Some (OHash i) => Some i | _ => None end.

Definition put_obj (h : Z) (o : obj) (s : cmem A) : cmem A := set_objs (<[h := o]> (objs s)) s.

(** [h->...] for a node group, and an assignment to its members. *)
Definition ng_get {B} (h : Z) (f : NODE_GROUP_T -> B) : CM B := λ s, g ← get_NG h s; Some (f g, s).
Definition ng_put (h : Z) (f : NODE_GROUP_T -> NODE_GROUP_T) : CM unit :=
  λ s, g ← get_NG h s; Some (tt, put_obj h (ONodeGroup (f g)) s).
(** [_ngInfo->...] *)
Definition ni_get {B} (f : NG_INFO_T -> B) : CM B := λ s, i ← get_NI (ngInfo s) s; Some (f i, s).
Definition ni_put (f : NG_INFO_T -> NG_INFO_T) : CM unit :=
  λ s, i ← get_NI (ngInfo s) s; Some (tt, put_obj (ngInfo s) (ONGInfo (f i)) s).
(** [_hash->...] *)
Definition hash_get {B} (f : HASH_T -> B) : CM B := λ s, h ← get_HT (hash s) s; Some (f h, s).
Definition hash_put (f : HASH_T -> HASH_T) : CM unit :=
  λ s, h ← get_HT (hash s) s; Some (tt, put_obj (hash s) (OHash (f h)) s).

(** An element of an array of [n] cells in zeroed memory. *)
Definition arr_rd (n : Z) (a : gmap Z Z) (i : Z) : option Z :=
  if (0 <=? i) && (i <? n) then Some (default 0 (a !! i)) else None.
Definition arr_wr (n : Z) (a : gmap Z Z) (i v : Z) : option (gmap Z Z) :=
  if (0 <=? i) && (i <? n) then Some (<[i := v]> a) else None.

(** [M_CALLOC(n)], where the caller maps the object [o]; the allocator's size
    type has 32 bits.  An object that does not fit the block is undefined. *)
Definition M_CALLOC `{Allocator A} (n : Z) (o : obj) : CM Z :=
  λ s, '(h, a) ← a_calloc (u32 n) (alloc s);
       if h =? INVALID_HANDLE then Some (h, set_alloc a s)
       else if obj_size o <=? u32 n then Some (h, put_obj h o (set_alloc a s)) else None.
End access.
Arguments CM : clear implicits.
