(* ===== verification/NodeGroup.v ===== *)
(** * NodeGroup: groups of 256 nodes

    Models [src/cache/node_group.h], [src/cache/node_group.cc] and the class
    [CNode] of [src/cache/node.h].  A node is its group and its index there;
    its attributes (hash successor, LRU links, data handle, dirty bit) are
    cells of the group, addressed through the offsets that [Init] computes.
    [SystemReservedInit] and [SystemReservedCheck] need the node index and are
    in [NgInfo]. *)

From stdpp Require Import gmap.
From S2P Require Import Prelude State BinMalloc NodeMem.

Inductive ATTR_TYPE_T := NEXT_NODE | TIME_LIST | VD_HANDLE | DIRTY_BMP.
Definition ATTR_TYPE_code (t : ATTR_TYPE_T) : Z :=
  match t with NEXT_NODE => 0 | TIME_LIST => 1 | VD_HANDLE => 2 | DIRTY_BMP => 3 end.

(** ** Attribute cells *)

(** [__CAST__<T>(t)[i]] with [sizeof(T) = w]: its offset in the group. *)
Definition __CAST__ (g : NODE_GROUP_T) (t : ATTR_TYPE_T) (w i : Z) : option Z :=
  off ← rd (ng_attr_offset g) (ATTR_TYPE_code t);
  let a := off + w * i in
  if (0 <=? a) && (a + w <=? NG_Size) then Some a else None.

Definition cell_rd (g : NODE_GROUP_T) (t : ATTR_TYPE_T) (w i : Z) : option Z :=
  a ← __CAST__ g t w i; Some (default 0 (ng_data g !! a)).
Definition cell_wr (g : NODE_GROUP_T) (t : ATTR_TYPE_T) (w i v : Z) : option NODE_GROUP_T :=
  a ← __CAST__ g t w i; Some (set_ng_data (<[a := v]> (ng_data g)) g).

Section node_group.
Context {A : Type}.
Implicit Types (h idx : Z).

Definition ng_cell h (t : ATTR_TYPE_T) (w i : Z) : CM A Z :=
  λ s, g ← get_NG h s; v ← cell_rd g t w i; Some (v, s).
Definition set_ng_cell h (t : ATTR_TYPE_T) (w i v : Z) : CM A unit :=
  λ s, g ← get_NG h s; g' ← cell_wr g t w i v; Some (tt, put_obj h (ONodeGroup g') s).

Definition NG_NodeID h idx : CM A Z := nid ← ng_get h ng_nid; mret (u32 (nid + idx)).

Definition NG_NextNodeID h idx : CM A Z := ng_cell h NEXT_NODE 4 idx.
Definition set_NG_NextNodeID h idx v : CM A unit := set_ng_cell h NEXT_NODE 4 idx v.
(** [NodeLru(idx)[k]] *)
Definition NG_NodeLru h idx (k : Z) : CM A Z := ng_cell h TIME_LIST 4 (idx * 2 + k).
Definition set_NG_NodeLru h idx (k v : Z) : CM A unit := set_ng_cell h TIME_LIST 4 (idx * 2 + k) v.
Definition NG_VDHandle h idx : CM A Z := ng_cell h VD_HANDLE 8 idx.
Definition set_NG_VDHandle h idx v : CM A unit := set_ng_cell h VD_HANDLE 8 idx v.

(** [FD_ISSET], [FD_SET] and [FD_CLR] work on 64-bit words. *)
Definition NG_IsDirty h idx : CM A bool :=
  w ← ng_cell h DIRTY_BMP 8 (idx / 64); mret (Z.testbit w (idx mod 64)).
Definition NG_SetDirty h idx : CM A unit :=
  w ← ng_cell h DIRTY_BMP 8 (idx / 64);
  set_ng_cell h DIRTY_BMP 8 (idx / 64) (Z.lor w (Z.shiftl 1 (idx mod 64))).
Definition NG_ClrDirty h idx : CM A unit :=
  w ← ng_cell h DIRTY_BMP 8 (idx / 64);
  set_ng_cell h DIRTY_BMP 8 (idx / 64) (Z.land w (Z.lnot (Z.shiftl 1 (idx mod 64)))).

(** ** Nodes *)

Record CNode := MkNode { c_owner : Z; c_index : Z }.
#[export] Instance CNode_eq_dec : EqDecision CNode.
Proof. solve_decision. Defined.

Definition CNode_NULL : CNode := MkNode 0 0.
(** [operator!] *)
Definition is_null (n : CNode) : bool := (c_owner n =? 0) || (NODE_GROUP_INCLUDE_NODES <=? c_index n).

Implicit Type n : CNode.

Definition NodeID n : CM A Z := NG_NodeID (c_owner n) (c_index n).
Definition LruPrev n : CM A Z := NG_NodeLru (c_owner n) (c_index n) LRU_PREV.
Definition LruNext n : CM A Z := NG_NodeLru (c_owner n) (c_index n) LRU_NEXT.
Definition set_LruPrev n v : CM A unit := set_NG_NodeLru (c_owner n) (c_index n) LRU_PREV v.
Definition set_LruNext n v : CM A unit := set_NG_NodeLru (c_owner n) (c_index n) LRU_NEXT v.
Definition NextNodeID n : CM A Z := NG_NextNodeID (c_owner n) (c_index n).
Definition set_NextNodeID n v : CM A unit := set_NG_NextNodeID (c_owner n) (c_index n) v.
Definition VDHandle n : CM A Z := NG_VDHandle (c_owner n) (c_index n).
Definition set_VDHandle n v : CM A unit := set_NG_VDHandle (c_owner n) (c_index n) v.
Definition IsDirty n : CM A bool := NG_IsDirty (c_owner n) (c_index n).
Definition SetDirty n : CM A unit := NG_SetDirty (c_owner n) (c_index n).
Definition ClrDirty n : CM A unit := NG_ClrDirty (c_owner n) (c_index n).
Definition node_Time n : CM A Z := v ← VDHandle n; mret (u32 v).

Definition NotInLruList n : CM A bool :=
  p ← LruPrev n; id ← NodeID n; nx ← LruNext n;
  mret ((p =? id) || (nx =? id)).

Definition node_Reset n : CM A Z :=
  set_NextNodeID n INVALID_NODE_ID;;
  id ← NodeID n; set_LruPrev n id;;
  id ← NodeID n; set_LruNext n id;;
  ClrDirty n;;
  mret 0.

(** ** Group operations *)

(** The attribute offsets: [for(i = 1; i < ng_attr.count; i++)]. *)
Fixpoint attr_offsets (off : Z) (sizes : list Z) : list Z :=
  match sizes with
  | [] => []
  | sz :: sizes' => off :: attr_offsets (off + sz) sizes'
  end.

Definition init_node h i : CM A unit :=
  set_NG_NextNodeID h i INVALID_NODE_ID;;
  id ← NG_NodeID h i; set_NG_NodeLru h i LRU_PREV id;;
  id ← NG_NodeID h i; set_NG_NodeLru h i LRU_NEXT id;;
  set_NG_VDHandle h i INVALID_HANDLE;;
  NG_ClrDirty h i.

(** [for(i = 0; i < NODE_GROUP_INCLUDE_NODES; ++i)], the last [n] turns. *)
Fixpoint init_nodes (n : nat) h : CM A unit :=
  match n with
  | O => mret tt
  | S n' => init_node h (NODE_GROUP_INCLUDE_NODES - Z.of_nat n);; init_nodes n' h
  end.

Definition NG_Init h (id : Z) : CM A Z :=
  ng_put h (λ g,
    set_ng_attr_offset (attr_offsets BaseHeaderSize NG_ATTR_SIZE) $
    set_ng_attr_count AttrCount $
    set_ng_nid id $ set_ng_free 0 $ set_ng_dele_count 0 $ set_ng_dele_top 0 $
    set_ng_list (MkNGList INVALID_HANDLE INVALID_HANDLE) g);;
  init_nodes (Z.to_nat NODE_GROUP_INCLUDE_NODES) h;;
  mret 0.

Definition NG_IsFull h : CM A bool :=
  ng_get h (λ g, (ng_dele_count g =? 0) && (NODE_GROUP_INCLUDE_NODES <=? ng_free g)).

Definition NG_AllocateNode h : CM A CNode :=
  full ← NG_IsFull h;
  if full : bool then mret CNode_NULL
  else
    count ← ng_get h ng_dele_count;
    if 0 <? count then
      top ← ng_get h ng_dele_top;
      let n := MkNode h top in
      node_Reset n;;
      ng_put h (λ g, set_ng_dele_count (u16 (ng_dele_count g - 1)) g);;
      v ← VDHandle n;
      ng_put h (set_ng_dele_top (u8 v));;
      mret n
    else
      fr ← ng_get h ng_free;
      let n := MkNode h fr in
      node_Reset n;;
      ng_put h (λ g, set_ng_free (u16 (ng_free g + 1)) g);;
      mret n.

Definition NG_ReleaseNode h n : CM A Z :=
  top ← ng_get h ng_dele_top;
  set_VDHandle n top;;
  ng_put h (set_ng_dele_top (u16 (c_index n)));;
  ng_put h (λ g, set_ng_dele_count (u16 (ng_dele_count g + 1)) g);;
  mret 0.

(** [CNode::Release]; the caller's [*this] becomes the null node. *)
Definition node_Release n : CM A Z :=
  NG_ReleaseNode (c_owner n) n;;
  node_Reset n;;
  mret 0.
End node_group.

(** ** Objects after an assignment *)

Section objects.
Context {A : Type}.
Implicit Types (s : cmem A) (h : Z).

Lemma objs_put_obj h o s : objs (put_obj h o s) = <[h := o]> (objs s).
Proof. done. Qed.
Lemma put_obj_twice h o o' s : put_obj h o (put_obj h o' s) = put_obj h o s.
Proof. unfold put_obj, set_objs. simpl. by rewrite insert_insert_eq. Qed.
Lemma put_obj_same h o s : objs s !! h = Some o -> put_obj h o s = s.
Proof. intros Ho. unfold put_obj, set_objs. rewrite insert_id by done. by destruct s. Qed.

Lemma get_NG_objs h g s : get_NG h s = Some g <-> objs s !! h = Some (ONodeGroup g).
Proof. unfold get_NG. destruct (objs s !! h) as [[]|]; naive_solver. Qed.
Lemma get_NG_put h g s : get_NG h (put_obj h (ONodeGroup g) s) = Some g.
Proof. apply get_NG_objs. by rewrite objs_put_obj, lookup_insert_eq. Qed.
Lemma get_NG_put_ne h h' o s : h ≠ h' -> get_NG h' (put_obj h o s) = get_NG h' s.
Proof. intros. unfold get_NG. by rewrite objs_put_obj, lookup_insert_ne. Qed.

Lemma ng_get_run {B} h (f : NODE_GROUP_T -> B) g s : get_NG h s = Some g -> ng_get h f s = Some (f g, s).
Proof. intros Hg. unfold ng_get. by rewrite Hg. Qed.
Lemma ng_put_run h f g s :
  get_NG h s = Some g -> ng_put h f s = Some (tt, put_obj h (ONodeGroup (f g)) s).
Proof. intros Hg. unfold ng_put. by rewrite Hg. Qed.
End objects.

(** ** Layout

    After [Init] the four attribute arrays lie behind the header, one after the
    other, and end at [Size()]. *)

Definition ng_std (g : NODE_GROUP_T) : Prop := ng_attr_offset g = [48; 1072; 3120; 5168].

Definition off_next (i : Z) : Z := 48 + 4 * i.
Definition off_lru (i k : Z) : Z := 1072 + 4 * (i * 2 + k).
Definition off_vd (i : Z) : Z := 3120 + 8 * i.
Definition off_dirty (w : Z) : Z := 5168 + 8 * w.

Lemma attr_offsets_std : attr_offsets BaseHeaderSize NG_ATTR_SIZE = [48; 1072; 3120; 5168].
Proof. done. Qed.

Definition cput (a v : Z) (g : NODE_GROUP_T) : NODE_GROUP_T := set_ng_data (<[a := v]> (ng_data g)) g.
Definition cget (g : NODE_GROUP_T) (a : Z) : Z := default 0 (ng_data g !! a).

Lemma cget_cput a v g b : cget (cput a v g) b = if decide (a = b) then v else cget g b.
Proof.
  unfold cget, cput. simpl. destruct (decide (a = b)) as [->|]; [by rewrite lookup_insert_eq|].
  by rewrite lookup_insert_ne.
Qed.

(** The offset of cell [i] of an array. *)
Definition off_attr (t : ATTR_TYPE_T) (i : Z) : Z :=
  match t with
  | NEXT_NODE => 48 + 4 * i | TIME_LIST => 1072 + 4 * i
  | VD_HANDLE => 3120 + 8 * i | DIRTY_BMP => 5168 + 8 * i
  end.
Definition attr_width (t : ATTR_TYPE_T) : Z := match t with NEXT_NODE | TIME_LIST => 4 | _ => 8 end.
Definition attr_cells (t : ATTR_TYPE_T) : Z :=
  match t with NEXT_NODE => 256 | TIME_LIST => 512 | VD_HANDLE => 256 | DIRTY_BMP => 4 end.

Lemma CAST_std g t i :
  ng_std g -> 0 <= i < attr_cells t -> __CAST__ g t (attr_width t) i = Some (off_attr t i).
Proof.
  intros Hs Hi. unfold __CAST__. rewrite Hs.
  change NG_Size with 5200. destruct t; simpl in *; unfold rd; simpl; zcases; done.
Qed.

Section cells.
Context {A : Type}.
Implicit Types (s : cmem A) (h : Z).

Lemma ng_cell_run h t i g s :
  get_NG h s = Some g -> ng_std g -> 0 <= i < attr_cells t ->
  ng_cell h t (attr_width t) i s = Some (cget g (off_attr t i), s).
Proof. intros Hg Hs Hi. unfold ng_cell, cell_rd. rewrite Hg. simpl. by rewrite CAST_std. Qed.
Lemma set_ng_cell_run h t i v g s :
  get_NG h s = Some g -> ng_std g -> 0 <= i < attr_cells t ->
  set_ng_cell h t (attr_width t) i v s = Some (tt, put_obj h (ONodeGroup (cput (off_attr t i) v g)) s).
Proof. intros Hg Hs Hi. unfold set_ng_cell, cell_wr. rewrite Hg. simpl. by rewrite CAST_std. Qed.
End cells.

(** ** The attributes of a node *)

Record node_attrs := MkAttrs {
  na_next : Z; na_lru_prev : Z; na_lru_next : Z; na_vd : Z; na_dirty : bool
}.

Definition attrs (g : NODE_GROUP_T) (i : Z) : node_attrs :=
  MkAttrs (cget g (off_next i)) (cget g (off_lru i LRU_PREV)) (cget g (off_lru i LRU_NEXT))
    (cget g (off_vd i)) (Z.testbit (cget g (off_dirty (i / 64))) (i mod 64)).



(** Member [i]'s own id. *)
Definition id_of (g : NODE_GROUP_T) (i : Z) : Z := u32 (ng_nid g + i).

Definition with_next (v : Z) (a : node_attrs) : node_attrs :=
  MkAttrs v (na_lru_prev a) (na_lru_next a) (na_vd a) (na_dirty a).
Definition with_prev (v : Z) (a : node_attrs) : node_attrs :=
  MkAttrs (na_next a) v (na_lru_next a) (na_vd a) (na_dirty a).
Definition with_lnext (v : Z) (a : node_attrs) : node_attrs :=
  MkAttrs (na_next a) (na_lru_prev a) v (na_vd a) (na_dirty a).
Definition with_vd (v : Z) (a : node_attrs) : node_attrs :=
  MkAttrs (na_next a) (na_lru_prev a) (na_lru_next a) v (na_dirty a).
Definition with_dirty (v : bool) (a : node_attrs) : node_attrs :=
  MkAttrs (na_next a) (na_lru_prev a) (na_lru_next a) (na_vd a) v.

Ltac attrs_tac :=
  intros; unfold attrs, off_next, off_lru, off_vd, off_dirty, LRU_PREV, LRU_NEXT; rewrite !cget_cput;
  unfold with_next, with_prev, with_lnext, with_vd, with_dirty; simpl;
  repeat case_decide; subst; try done; try (exfalso; Z.div_mod_to_equations; lia).

Lemma attrs_next g i j v : 0 <= i < 256 -> 0 <= j < 256 ->
  attrs (cput (off_next i) v g) j = if decide (j = i) then with_next v (attrs g j) else attrs g j.
Proof. attrs_tac. Qed.
Lemma attrs_prev g i j v : 0 <= i < 256 -> 0 <= j < 256 ->
  attrs (cput (off_lru i LRU_PREV) v g) j = if decide (j = i) then with_prev v (attrs g j) else attrs g j.
Proof. attrs_tac. Qed.
Lemma attrs_lnext g i j v : 0 <= i < 256 -> 0 <= j < 256 ->
  attrs (cput (off_lru i LRU_NEXT) v g) j = if decide (j = i) then with_lnext v (attrs g j) else attrs g j.
Proof. attrs_tac. Qed.
Lemma attrs_vd g i j v : 0 <= i < 256 -> 0 <= j < 256 ->
  attrs (cput (off_vd i) v g) j = if decide (j = i) then with_vd v (attrs g j) else attrs g j.
Proof. attrs_tac. Qed.

(** Writing bit [b] of the word that holds node [i]'s dirty bit. *)
Lemma attrs_dirty g i j w b : 0 <= i < 256 -> 0 <= j < 256 ->
  (∀ k, 0 <= k -> Z.testbit w k = if k =? i mod 64 then b else Z.testbit (cget g (off_dirty (i / 64))) k) ->
  attrs (cput (off_dirty (i / 64)) w g) j = if decide (j = i) then with_dirty b (attrs g j) else attrs g j.
Proof.
  intros Hi Hj Hw. unfold attrs, off_next, off_lru, off_vd, LRU_PREV, LRU_NEXT. rewrite !cget_cput.
  assert (∀ x, 0 <= x <= 5160 -> off_dirty (i / 64) ≠ x) as Hne
    by (unfold off_dirty; intros; Z.div_mod_to_equations; lia).
  rewrite (decide_False (P := _ = 48 + _)), !(decide_False (P := _ = 1072 + _)),
    (decide_False (P := _ = 3120 + _)) by (apply Hne; lia).
  destruct (decide (j = i)) as [->|Hji].
  - rewrite decide_True by done. unfold with_dirty. simpl. f_equal.
    rewrite Hw by (apply Z.mod_pos_bound; lia). by rewrite Z.eqb_refl.
  - case_decide as Hd; [|done]. f_equal. assert (i / 64 = j / 64) as Hq by (unfold off_dirty in Hd; lia).
    rewrite Hw by (apply Z.mod_pos_bound; lia). rewrite Hq.
    destruct (Z.eqb_spec (j mod 64) (i mod 64)); [|done]. exfalso. Z.div_mod_to_equations. lia.
Qed.

Lemma testbit_clr w i k : 0 <= i -> 0 <= k ->
  Z.testbit (Z.land w (Z.lnot (Z.shiftl 1 i))) k = if k =? i then false else Z.testbit w k.
Proof.
  intros Hi Hk. rewrite Z.land_spec, Z.lnot_spec, Z.shiftl_spec by done.
  destruct (Z.eqb_spec k i) as [->|].
  - rewrite Z.sub_diag. apply andb_false_r.
  - destruct (Z.ltb_spec k i).
    + rewrite (Z.testbit_neg_r 1) by lia. apply andb_true_r.
    + rewrite (Z.bits_above_log2 1); [apply andb_true_r|done|change (Z.log2 1) with 0; lia].
Qed.
Lemma testbit_set w i k : 0 <= i -> 0 <= k ->
  Z.testbit (Z.lor w (Z.shiftl 1 i)) k = if k =? i then true else Z.testbit w k.
Proof.
  intros Hi Hk. rewrite Z.lor_spec, Z.shiftl_spec by done.
  destruct (Z.eqb_spec k i) as [->|].
  - rewrite Z.sub_diag. apply orb_true_r.
  - destruct (Z.ltb_spec k i).
    + rewrite (Z.testbit_neg_r 1) by lia. apply orb_false_r.
    + rewrite (Z.bits_above_log2 1); [apply orb_false_r|done|change (Z.log2 1) with 0; lia].
Qed.

(** ** Assignments to attributes *)

(** Everything but the attribute cells. *)
Definition hdr (g : NODE_GROUP_T) : NODE_GROUP_T := set_ng_data ∅ g.

(** [g'] is [g] with [f] applied to the attributes of node [i]. *)
Definition attrs_upd (f : node_attrs -> node_attrs) (i : Z) (g g' : NODE_GROUP_T) : Prop :=
  hdr g' = hdr g ∧ ∀ j, 0 <= j < 256 -> attrs g' j = if decide (j = i) then f (attrs g j) else attrs g j.

Lemma attrs_upd_trans f1 f2 i g1 g2 g3 :
  attrs_upd f1 i g1 g2 -> attrs_upd f2 i g2 g3 -> attrs_upd (f2 ∘ f1) i g1 g3.
Proof.
  intros [H1 Hf1] [H2 Hf2]. split; [congruence|]. intros j Hj. rewrite Hf2, Hf1 by done.
  by case_decide.
Qed.
Lemma attrs_upd_ext f1 f2 i g1 g2 : (∀ a, f1 a = f2 a) -> attrs_upd f1 i g1 g2 -> attrs_upd f2 i g1 g2.
Proof. intros Hf [H1 H2]. split; [done|]. intros j Hj. rewrite H2 by done. case_decide; auto. Qed.

(** The members of the header follow from its equality. *)
Lemma hdr_inv g g' :
  hdr g' = hdr g ->
  ng_list g' = ng_list g ∧ ng_dele_top g' = ng_dele_top g ∧ ng_dele_count g' = ng_dele_count g ∧
  ng_free g' = ng_free g ∧ ng_nid g' = ng_nid g ∧ ng_attr_offset g' = ng_attr_offset g.
Proof. destruct g, g'. unfold hdr, set_ng_data. simpl. intros [= -> -> -> -> -> -> ->]. done. Qed.
Lemma hdr_std g g' : hdr g' = hdr g -> ng_std g -> ng_std g'.
Proof. intros (_ & _ & _ & _ & _ & Ho)%hdr_inv. unfold ng_std. by rewrite Ho. Qed.
Lemma hdr_id g g' i : hdr g' = hdr g -> id_of g' i = id_of g i.
Proof. intros (_ & _ & _ & _ & Hn & _)%hdr_inv. unfold id_of. by rewrite Hn. Qed.

Section setters.
Context {A : Type}.
Implicit Types (s : cmem A) (h i : Z).

(** [m] applies [f] to the attributes of node [i] of [h] and changes nothing
    else. *)
Definition upd_node {B} (m : CM A B) (x : B) h i (f : node_attrs -> node_attrs) g s : Prop :=
  ∃ g', m s = Some (x, put_obj h (ONodeGroup g') s) ∧ attrs_upd f i g g'.

Lemma upd_node_seq {B C} (m : CM A B) (k : B -> CM A C) x y h i f1 f2 g s :
  upd_node m x h i f1 g s ->
  (∀ g', attrs_upd f1 i g g' -> upd_node (k x) y h i f2 g' (put_obj h (ONodeGroup g') s)) ->
  upd_node (m ≫= k) y h i (f2 ∘ f1) g s.
Proof.
  intros (g1 & H1 & U1) Hk. destruct (Hk g1 U1) as (g2 & H2 & U2). exists g2. split.
  - rewrite (step_bind _ _ _ _ _ H1), H2. by rewrite put_obj_twice.
  - by eapply attrs_upd_trans.
Qed.
Lemma upd_node_get {B C} (m : CM A B) (k : B -> CM A C) x y h i f g s :
  m s = Some (x, s) -> upd_node (k x) y h i f g s -> upd_node (m ≫= k) y h i f g s.
Proof. intros Hm (g' & Hk & U). exists g'. split; [|done]. by rewrite (step_bind _ _ _ _ _ Hm). Qed.
Lemma upd_node_ret {B} (x : B) h i g s :
  get_NG h s = Some g -> upd_node (mret x) x h i id g s.
Proof.
  intros Hg. exists g. split; [unfold mret, ST_ret; rewrite put_obj_same; [done|by apply get_NG_objs]|].
  split; [done|]. intros. by case_decide.
Qed.
Lemma upd_node_ext {B} (m : CM A B) x h i f1 f2 g s :
  (∀ a, f1 a = f2 a) -> upd_node m x h i f1 g s -> upd_node m x h i f2 g s.
Proof. intros Hf (g' & Hm & U). exists g'. split; [done|]. by eapply attrs_upd_ext. Qed.

Context h i g s (Hg : get_NG h s = Some g) (Hs : ng_std g) (Hi : 0 <= i < 256).

Lemma upd_cell t j v f :
  0 <= j < attr_cells t ->
  (∀ k, 0 <= k < 256 -> attrs (cput (off_attr t j) v g) k = if decide (k = i) then f (attrs g k) else attrs g k) ->
  upd_node (set_ng_cell h t (attr_width t) j v) tt h i f g s.
Proof using Hg Hs. intros Hj Hf. eexists. split; [by apply set_ng_cell_run|]. split; [done|exact Hf]. Qed.

Lemma NG_NodeID_run : NG_NodeID h i s = Some (id_of g i, s).
Proof using Hg. unfold NG_NodeID. by rewrite (step_bind _ _ _ _ _ (ng_get_run _ _ _ _ Hg)). Qed.

Lemma NG_NextNodeID_run : NG_NextNodeID h i s = Some (na_next (attrs g i), s).
Proof using Hg Hs Hi. by apply (ng_cell_run h NEXT_NODE). Qed.
Lemma NG_NodeLru_prev_run : NG_NodeLru h i LRU_PREV s = Some (na_lru_prev (attrs g i), s).
Proof using Hg Hs Hi. apply (ng_cell_run h TIME_LIST); [done..|]. simpl. unfold LRU_PREV. lia. Qed.
Lemma NG_NodeLru_next_run : NG_NodeLru h i LRU_NEXT s = Some (na_lru_next (attrs g i), s).
Proof using Hg Hs Hi. apply (ng_cell_run h TIME_LIST); [done..|]. simpl. unfold LRU_NEXT. lia. Qed.
Lemma NG_VDHandle_run : NG_VDHandle h i s = Some (na_vd (attrs g i), s).
Proof using Hg Hs Hi. by apply (ng_cell_run h VD_HANDLE). Qed.

Lemma set_NG_NextNodeID_run v : upd_node (set_NG_NextNodeID h i v) tt h i (with_next v) g s.
Proof using Hg Hs Hi. apply (upd_cell NEXT_NODE); [done|]. intros. by apply attrs_next. Qed.
Lemma set_NG_NodeLru_prev_run v : upd_node (set_NG_NodeLru h i LRU_PREV v) tt h i (with_prev v) g s.
Proof using Hg Hs Hi.
  apply (upd_cell TIME_LIST); [unfold LRU_PREV; simpl; lia|]. intros. by apply attrs_prev.
Qed.
Lemma set_NG_NodeLru_next_run v : upd_node (set_NG_NodeLru h i LRU_NEXT v) tt h i (with_lnext v) g s.
Proof using Hg Hs Hi.
  apply (upd_cell TIME_LIST); [unfold LRU_NEXT; simpl; lia|]. intros. by apply attrs_lnext.
Qed.
Lemma set_NG_VDHandle_run v : upd_node (set_NG_VDHandle h i v) tt h i (with_vd v) g s.
Proof using Hg Hs Hi. apply (upd_cell VD_HANDLE); [done|]. intros. by apply attrs_vd. Qed.

Lemma dirty_word_run : ng_cell h DIRTY_BMP 8 (i / 64) s = Some (cget g (off_dirty (i / 64)), s).
Proof using Hg Hs Hi. apply (ng_cell_run h DIRTY_BMP); [done..|]. simpl. Z.div_mod_to_equations; lia. Qed.

Lemma NG_IsDirty_run : NG_IsDirty h i s = Some (na_dirty (attrs g i), s).
Proof using Hg Hs Hi. unfold NG_IsDirty. by rewrite (step_bind _ _ _ _ _ dirty_word_run). Qed.
Lemma NG_ClrDirty_run : upd_node (NG_ClrDirty h i) tt h i (with_dirty false) g s.
Proof using Hg Hs Hi.
  eapply upd_node_get; [apply dirty_word_run|].
  apply (upd_cell DIRTY_BMP); [simpl; Z.div_mod_to_equations; lia|]. intros. apply attrs_dirty; [done..|].
  intros. by apply testbit_clr; [apply Z.mod_pos_bound|].
Qed.
Lemma NG_SetDirty_run : upd_node (NG_SetDirty h i) tt h i (with_dirty true) g s.
Proof using Hg Hs Hi.
  eapply upd_node_get; [apply dirty_word_run|].
  apply (upd_cell DIRTY_BMP); [simpl; Z.div_mod_to_equations; lia|]. intros. apply attrs_dirty; [done..|].
  intros. by apply testbit_set; [apply Z.mod_pos_bound|].
Qed.
End setters.

(** ** Free nodes of a group

    The free nodes are those from [ng_free] on and the released ones, which are
    chained through their data handles from [ng_dele_top]. *)

Fixpoint dele_chain (top : Z) (g : NODE_GROUP_T) (ds : list Z) : Prop :=
  match ds with
  | [] => True
  | d :: ds' => top = d ∧ dele_chain (u8 (na_vd (attrs g d))) g ds'
  end.

(** [g] is a set-up group whose released nodes are [ds]. *)
Record ng_inv (g : NODE_GROUP_T) (ds : list Z) : Prop := {
  ngi_std : ng_std g;
  ngi_free : 0 <= ng_free g <= 256;
  ngi_nid : 0 <= ng_nid g ∧ ng_nid g + 256 <= 2 ^ 32 ∧ ng_nid g mod 256 = 0;
  ngi_count : ng_dele_count g = Z.of_nat (length ds);
  ngi_nodup : NoDup ds;
  ngi_range : Forall (λ d, 0 <= d < ng_free g) ds;
  ngi_chain : dele_chain (ng_dele_top g) g ds
}.

Definition used (g : NODE_GROUP_T) (ds : list Z) (i : Z) : Prop := 0 <= i < ng_free g ∧ i ∉ ds.

Lemma ng_inv_count g ds : ng_inv g ds -> Z.of_nat (length ds) <= ng_free g.
Proof.
  intros [_ Hf _ _ Hnd Hr _].
  assert (ds ⊆ seqZ 0 (ng_free g)) as Hsub.
  { intros d Hd. apply elem_of_seqZ. rewrite Forall_forall in Hr. specialize (Hr d Hd). lia. }
  pose proof (submseteq_length _ _ (NoDup_submseteq _ _ Hnd Hsub)) as Hl. rewrite length_seqZ in Hl. lia.
Qed.

(** The chain depends on the data handles of the released nodes only. *)
Lemma dele_chain_ext top g g' ds :
  (∀ d, d ∈ ds -> na_vd (attrs g' d) = na_vd (attrs g d)) -> dele_chain top g ds -> dele_chain top g' ds.
Proof.
  revert top. induction ds as [|d ds IH]; intros top Hv; [done|]. cbn [dele_chain]. intros [-> Hc]. split; [done|].
  rewrite (Hv d) by by left. apply IH; [|done]. intros e He. apply Hv. by right.
Qed.

(** Clients may write to the attributes of used nodes. *)
Lemma ng_inv_upd g g' ds i f :
  ng_inv g ds -> attrs_upd f i g g' -> i ∉ ds ∨ (∀ a, na_vd (f a) = na_vd a) -> ng_inv g' ds.
Proof.
  intros [H1 H2 H3 H4 H5 H6 H7] [Hh Ha] Hi. destruct (hdr_inv _ _ Hh) as (_ & Ht & Hc & Hf & Hn & _).
  split; rewrite ?Ht, ?Hc, ?Hf, ?Hn; try done; [by eapply hdr_std|].
  eapply dele_chain_ext; [|exact H7]. intros d Hd. rewrite Forall_forall in H6. specialize (H6 d Hd).
  rewrite Ha by lia. case_decide as Hdi; [|done]. subst d. destruct Hi as [Hi|Hi]; [done|apply Hi].
Qed.
Lemma used_hdr g g' ds i : hdr g' = hdr g -> used g' ds i <-> used g ds i.
Proof. intros (_ & _ & _ & Hf & _)%hdr_inv. unfold used. by rewrite Hf. Qed.

Definition reset_attrs (id : Z) (a : node_attrs) : node_attrs :=
  MkAttrs INVALID_NODE_ID id id (na_vd a) false.

Section operations.
Context {A : Type}.
Implicit Types (s : cmem A) (h i : Z).

Lemma node_Reset_run h i g s :
  get_NG h s = Some g -> ng_std g -> 0 <= i < 256 ->
  upd_node (node_Reset (MkNode h i)) 0 h i (reset_attrs (id_of g i)) g s.
Proof.
  intros Hg Hs Hi. unfold node_Reset.
  eapply upd_node_ext; [|eapply upd_node_seq; [by apply set_NG_NextNodeID_run|intros g1 [E1 _]]].
  2: { pose proof (get_NG_put h g1 s) as G1. pose proof (hdr_std _ _ E1 Hs) as S1.
       set (s1 := put_obj h _ s) in *.
       eapply (upd_node_get _ _ (id_of g i)); [rewrite <-(hdr_id _ _ i E1); by apply NG_NodeID_run|].
       eapply upd_node_seq; [by apply set_NG_NodeLru_prev_run|intros g2 [E2 _]].
       pose proof (get_NG_put h g2 s1) as G2. pose proof (hdr_std _ _ E2 S1) as S2.
       set (s2 := put_obj h _ s1) in *.
       eapply (upd_node_get _ _ (id_of g i));
         [rewrite <-(hdr_id _ _ i E1), <-(hdr_id _ _ i E2); by apply NG_NodeID_run|].
       eapply upd_node_seq; [by apply set_NG_NodeLru_next_run|intros g3 [E3 _]].
       pose proof (get_NG_put h g3 s2) as G3. pose proof (hdr_std _ _ E3 S2) as S3.
       eapply upd_node_seq; [by apply NG_ClrDirty_run|intros g4 _]. apply upd_node_ret, get_NG_put. }
  by intros [].
Qed.

Lemma NG_IsFull_run h g ds s :
  get_NG h s = Some g -> ng_inv g ds ->
  NG_IsFull h s = Some (bool_decide (ds = [] ∧ ng_free g = 256), s).
Proof.
  intros Hg [_ Hf _ Hc _ _ _]. unfold NG_IsFull. rewrite (ng_get_run _ _ _ _ Hg), Hc.
  do 2 f_equal. unfold NODE_GROUP_INCLUDE_NODES. destruct ds; simpl.
  - zcases; symmetry; [apply bool_decide_true|apply bool_decide_false]; naive_solver lia.
  - done.
Qed.

(** [g'] is [g] with node [i] taken into use. *)
Record ng_took (i : Z) (g : NODE_GROUP_T) (ds : list Z) (g' : NODE_GROUP_T) (ds' : list Z) : Prop := {
  ngt_inv : ng_inv g' ds';
  ngt_list : ng_list g' = ng_list g;
  ngt_nid : ng_nid g' = ng_nid g;
  ngt_range : 0 <= i < 256;
  ngt_new : ¬ used g ds i;
  ngt_used j : used g' ds' j <-> j = i ∨ used g ds j;
  ngt_attrs j : 0 <= j < 256 ->
    attrs g' j = if decide (j = i) then reset_attrs (id_of g i) (attrs g i) else attrs g j;
  ngt_next : ds = [] -> i = ng_free g ∧ ds' = [] ∧ ng_free g' = ng_free g + 1
}.

(** Header assignments leave the attributes as they are. *)
Lemma attrs_data g g' : ng_data g' = ng_data g -> attrs g' = attrs g.
Proof. intros Hd. unfold attrs, cget. by rewrite Hd. Qed.
Lemma dele_chain_data top g g' ds : ng_data g' = ng_data g -> dele_chain top g ds -> dele_chain top g' ds.
Proof. intros Hd. apply dele_chain_ext. intros d _. by rewrite (attrs_data _ _ Hd). Qed.

Lemma NG_AllocateNode_run h g ds s :
  get_NG h s = Some g -> ng_inv g ds -> ¬ (ds = [] ∧ ng_free g = 256) ->
  ∃ i g' ds', NG_AllocateNode h s = Some (MkNode h i, put_obj h (ONodeGroup g') s) ∧ ng_took i g ds g' ds'.
Proof.
  intros Hg Hinv Hnf. assert (Hinv' := Hinv). destruct Hinv' as [Hs Hf Hn Hc Hnd Hr Hch].
  pose proof (ng_inv_count _ _ Hinv) as Hlen.
  unfold NG_AllocateNode. mstep (NG_IsFull_run _ _ _ _ Hg Hinv). rewrite bool_decide_false by done.
  mstep (ng_get_run h ng_dele_count g s Hg). rewrite Hc.
  destruct ds as [|d ds]; cbn [length] in *; zif.
  - (* a node never used before *)
    mstep (ng_get_run h ng_free g s Hg).
    assert (0 <= ng_free g < 256) as Hi by (assert (ng_free g ≠ 256) by naive_solver; lia).
    destruct (node_Reset_run h (ng_free g) g s Hg Hs Hi) as (g1 & Hrun & [Hh Ha]). mstep Hrun.
    mstep (ng_put_run h (λ g, set_ng_free (u16 (ng_free g + 1)) g) g1 _ (get_NG_put h g1 s)).
    rewrite put_obj_twice. do 3 eexists. split; [done|].
    destruct (hdr_inv _ _ Hh) as (Hl & Ht & Hc1 & Hf1 & Hn1 & Ho). rewrite Hf1.
    rewrite uwrap_small by lia.
    split; simpl; rewrite ?Hl, ?Hn1, ?Hc1; try done.
    + split; simpl; rewrite ?Hn1, ?Hc1; try done; [unfold ng_std; simpl; by rewrite Ho|lia].
    + unfold used. lia.
    + intros j. unfold used. simpl. pose proof (not_elem_of_nil j). split.
      * intros [? _]. destruct (decide (j = ng_free g)); [by left|right; split; [lia|done]].
      * intros [->|[? _]]; split; try done; lia.
    + intros j Hj. rewrite (attrs_data g1) by done. rewrite Ha by done. case_decide; by subst.
  - (* the node released last *)
    destruct Hch as [Htop Hch]. apply NoDup_cons in Hnd as [Hdn Hnd]. apply Forall_cons in Hr as [Hdr Hr].
    mstep (ng_get_run h ng_dele_top g s Hg). rewrite Htop.
    assert (0 <= d < 256) as Hi by lia.
    destruct (node_Reset_run h d g s Hg Hs Hi) as (g1 & Hrun & [Hh Ha]). mstep Hrun.
    destruct (hdr_inv _ _ Hh) as (Hl & Ht & Hc1 & Hf1 & Hn1 & Ho).
    mstep (ng_put_run h (λ g, set_ng_dele_count (u16 (ng_dele_count g - 1)) g) g1 _ (get_NG_put h g1 s)).
    rewrite put_obj_twice, Hc1, Hc.
    replace (u16 (Z.of_nat (S (length ds)) - 1)) with (Z.of_nat (length ds)) by (rewrite uwrap_small; lia).
    set (g2 := set_ng_dele_count _ g1).
    assert (ng_std g2) as Hs2 by (unfold ng_std; simpl; by rewrite Ho).
    assert (attrs g2 = attrs g1) as Ha2 by by apply attrs_data.
    unfold VDHandle. cbn [c_owner c_index].
    mstep (NG_VDHandle_run h d g2 _ (get_NG_put h g2 s) Hs2 Hi).
    mstep (ng_put_run h (set_ng_dele_top (u8 (na_vd (attrs g2 d)))) g2 _ (get_NG_put h g2 s)).
    rewrite put_obj_twice. do 3 eexists. split; [done|].
    assert (∀ j, 0 <= j < 256 -> na_vd (attrs g1 j) = na_vd (attrs g j)) as Hvd.
    { intros j Hj. rewrite Ha by done. case_decide; subst; done. }
    split; simpl; rewrite ?Hl, ?Hn1, ?Hf1; try done.
    + split; simpl; rewrite ?Hn1, ?Hf1; try done.
      change (cget g2 (off_vd d)) with (na_vd (attrs g2 d)). rewrite Ha2, Hvd by done. eapply dele_chain_ext; [|exact Hch].
      intros e He. rewrite Forall_forall in Hr. specialize (Hr e He).
      rewrite (attrs_data g1) by done. apply Hvd. lia.
    + unfold used. intros [_ Hx]. apply Hx. by left.
    + intros j. unfold used. simpl. rewrite Hf1, not_elem_of_cons.
      destruct (decide (j = d)) as [->|]; naive_solver lia.
    + intros j Hj. rewrite (attrs_data g1) by done. rewrite Ha by done. case_decide; by subst.
Qed.

(** [g'] is [g] with node [i] given back. *)
Record ng_gave (i : Z) (g : NODE_GROUP_T) (ds : list Z) (g' : NODE_GROUP_T) (ds' : list Z) : Prop := {
  ngg_inv : ng_inv g' ds';
  ngg_list : ng_list g' = ng_list g;
  ngg_nid : ng_nid g' = ng_nid g;
  ngg_used j : used g' ds' j <-> used g ds j ∧ j ≠ i;
  ngg_free : ds' ≠ [];
  ngg_attrs j : 0 <= j < 256 -> j ≠ i -> attrs g' j = attrs g j
}.

Lemma node_Release_run h i g ds s :
  get_NG h s = Some g -> ng_inv g ds -> used g ds i ->
  ∃ g', node_Release (MkNode h i) s = Some (0, put_obj h (ONodeGroup g') s) ∧ ng_gave i g ds g' (i :: ds).
Proof.
  intros Hg Hinv [Hir Hids]. assert (Hinv' := Hinv). destruct Hinv' as [Hs Hf Hn Hc Hnd Hr Hch].
  assert (0 <= i < 256) as Hi by lia. assert (Z.of_nat (length (i :: ds)) <= ng_free g) as Hlen.
  { assert (i :: ds ⊆ seqZ 0 (ng_free g)) as Hsub.
    { intros d Hd. apply elem_of_seqZ. apply elem_of_cons in Hd as [->|Hd]; [lia|].
      rewrite Forall_forall in Hr. specialize (Hr d Hd). lia. }
    assert (NoDup (i :: ds)) as Hnd' by by apply NoDup_cons.
    pose proof (submseteq_length _ _ (NoDup_submseteq _ _ Hnd' Hsub)) as Hl. rewrite length_seqZ in Hl. lia. }
  unfold node_Release, NG_ReleaseNode. cbn [c_owner c_index].
  assert (∃ g1, (top ← ng_get h ng_dele_top; set_VDHandle (MkNode h i) top;;
    ng_put h (set_ng_dele_top (u16 i));;
    ng_put h (λ g, set_ng_dele_count (u16 (ng_dele_count g + 1)) g);; mret 0) s =
      Some (0, put_obj h (ONodeGroup g1) s) ∧
    ng_std g1 ∧ ng_list g1 = ng_list g ∧ ng_nid g1 = ng_nid g ∧ ng_free g1 = ng_free g ∧
    ng_dele_top g1 = i ∧ ng_dele_count g1 = Z.of_nat (length (i :: ds)) ∧
    ∀ j, 0 <= j < 256 -> attrs g1 j = if decide (j = i) then with_vd (ng_dele_top g) (attrs g j) else attrs g j)
    as (g1 & Hrun & Hs1 & Hl1 & Hn1 & Hf1 & Ht1 & Hc1 & Ha1).
  { mstep (ng_get_run h ng_dele_top g s Hg).
    destruct (set_NG_VDHandle_run h i g s Hg Hs Hi (ng_dele_top g)) as (g1 & Hrun & [Hh Ha]).
    unfold set_VDHandle. cbn [c_owner c_index]. mstep Hrun.
    destruct (hdr_inv _ _ Hh) as (Hl & Ht & Hc1 & Hf1 & Hn1 & Ho).
    mstep (ng_put_run h (set_ng_dele_top (u16 i)) g1 _ (get_NG_put h g1 s)). rewrite put_obj_twice.
    mstep (ng_put_run h (λ g, set_ng_dele_count (u16 (ng_dele_count g + 1)) g) _ _ (get_NG_put h _ s)).
    rewrite put_obj_twice. eexists. split; [done|]. simpl.
    rewrite Hl, Hn1, Hf1, Hc1, Hc. rewrite !uwrap_small by (simpl in Hlen; lia).
    split_and!; try done; [unfold ng_std; simpl; by rewrite Ho|lia]. }
  mstep Hrun. destruct (node_Reset_run h i g1 _ (get_NG_put h g1 s) Hs1 Hi) as (g2 & Hrun2 & [Hh2 Ha2]).
  mstep Hrun2. rewrite put_obj_twice. exists g2. split; [done|].
  destruct (hdr_inv _ _ Hh2) as (Hl2 & Ht2 & Hc2 & Hf2 & Hn2 & Ho2).
  split; rewrite ?Hl2, ?Hn2; try done.
  - split; rewrite ?Hn2, ?Hf2, ?Hc2, ?Ht2, ?Hn1, ?Hf1; try done.
    + by eapply hdr_std.
    + by apply NoDup_cons.
    + by apply Forall_cons.
    + cbn [dele_chain]. split; [done|]. rewrite Ha2, Ha1, !decide_True by done. simpl.
      assert (dele_chain (ng_dele_top g) g2 ds) as Hch2.
      { eapply dele_chain_ext; [|exact Hch]. intros d Hd. rewrite Forall_forall in Hr. specialize (Hr d Hd).
        rewrite Ha2, Ha1, !decide_False by (lia || by intros ->). done. }
      destruct ds as [|d ds]; [done|]. destruct Hch2 as [Htop Hch2]. apply Forall_cons in Hr as [Hdr _].
      split; [|done]. rewrite uwrap_small; lia.
  - intros j. unfold used. rewrite Hf2, Hf1, not_elem_of_cons. naive_solver.
  - intros j Hj Hne. by rewrite Ha2, Ha1, !decide_False.
Qed.

(** *** [Init] *)

Definition fresh_attrs (id : Z) : node_attrs := MkAttrs INVALID_NODE_ID id id INVALID_HANDLE false.

Lemma init_node_run h i g s :
  get_NG h s = Some g -> ng_std g -> 0 <= i < 256 ->
  upd_node (init_node h i) tt h i (λ _, fresh_attrs (id_of g i)) g s.
Proof.
  intros Hg Hs Hi. unfold init_node.
  eapply upd_node_ext; [|eapply upd_node_seq; [by apply set_NG_NextNodeID_run|intros g1 [E1 _]]].
  2: { pose proof (get_NG_put h g1 s) as G1. pose proof (hdr_std _ _ E1 Hs) as S1.
       set (s1 := put_obj h _ s) in *.
       eapply (upd_node_get _ _ (id_of g i)); [rewrite <-(hdr_id _ _ i E1); by apply NG_NodeID_run|].
       eapply upd_node_seq; [by apply set_NG_NodeLru_prev_run|intros g2 [E2 _]].
       pose proof (get_NG_put h g2 s1) as G2. pose proof (hdr_std _ _ E2 S1) as S2.
       set (s2 := put_obj h _ s1) in *.
       eapply (upd_node_get _ _ (id_of g i));
         [rewrite <-(hdr_id _ _ i E1), <-(hdr_id _ _ i E2); by apply NG_NodeID_run|].
       eapply upd_node_seq; [by apply set_NG_NodeLru_next_run|intros g3 [E3 _]].
       pose proof (get_NG_put h g3 s2) as G3. pose proof (hdr_std _ _ E3 S2) as S3.
       set (s3 := put_obj h _ s2) in *.
       eapply upd_node_seq; [by apply set_NG_VDHandle_run|intros g4 [E4 _]].
       pose proof (get_NG_put h g4 s3) as G4. pose proof (hdr_std _ _ E4 S3) as S4.
       by apply NG_ClrDirty_run. }
  by intros [].
Qed.

Lemma init_nodes_run n h g s :
  get_NG h s = Some g -> ng_std g -> Z.of_nat n <= 256 ->
  ∃ g', init_nodes n h s = Some (tt, put_obj h (ONodeGroup g') s) ∧ hdr g' = hdr g ∧
    ∀ j, 0 <= j < 256 -> attrs g' j = if 256 - Z.of_nat n <=? j then fresh_attrs (id_of g j) else attrs g j.
Proof.
  revert g s. induction n as [|n IH]; intros g s Hg Hs Hn.
  - exists g. unfold init_nodes, mret, ST_ret. rewrite put_obj_same by by apply get_NG_objs.
    split_and!; [done..|]. intros j Hj. by zcases.
  - cbn [init_nodes]. unfold NODE_GROUP_INCLUDE_NODES.
    destruct (init_node_run h (256 - Z.of_nat (S n)) g s Hg Hs) as (g1 & H1 & E1 & A1); [lia|].
    mstep H1. destruct (IH g1 _ (get_NG_put h g1 s) (hdr_std _ _ E1 Hs)) as (g2 & H2 & E2 & A2); [lia|].
    rewrite H2, put_obj_twice. exists g2. split; [done|]. split; [congruence|].
    intros j Hj. rewrite A2, A1, (hdr_id _ _ j E1) by done.
    case_decide; subst; zifs; done.
Qed.

Lemma NG_Init_run h id g s :
  get_NG h s = Some g -> 0 <= id -> id + 256 <= 2 ^ 32 -> id mod 256 = 0 ->
  ∃ g', NG_Init h id s = Some (0, put_obj h (ONodeGroup g') s) ∧ ng_inv g' [] ∧ ng_nid g' = id ∧
    ng_free g' = 0 ∧ ∀ j, 0 <= j < 256 -> attrs g' j = fresh_attrs (id + j).
Proof.
  intros Hg H1 H2 H3. unfold NG_Init. mstep (ng_put_run h _ g s Hg). set (g1 := set_ng_attr_offset _ _).
  destruct (init_nodes_run (Z.to_nat NODE_GROUP_INCLUDE_NODES) h g1 _ (get_NG_put h g1 s)) as (g2 & Hr & E & Ha);
    [done..|]. mstep Hr. rewrite put_obj_twice. exists g2. split; [done|].
  destruct (hdr_inv _ _ E) as (_ & _ & Hc & Hf & Hn & _). split_and!; [|done|done|].
  - split; rewrite ?Hc, ?Hf, ?Hn; try done; try constructor; try (unfold g1; simpl; lia).
    eapply hdr_std; [exact E|done].
  - intros j Hj. rewrite Ha by done.
    change (Z.to_nat NODE_GROUP_INCLUDE_NODES) with 256%nat. zif. f_equal. unfold id_of. simpl. rewrite uwrap_small; lia.
Qed.
End operations.

(** ** The nodes in use

    The chain of released nodes is determined by the group, so it need not be
    mentioned. *)

Definition group_ok (g : NODE_GROUP_T) : Prop := ∃ ds, ng_inv g ds.
Definition in_use (g : NODE_GROUP_T) (i : Z) : Prop := ∃ ds, ng_inv g ds ∧ used g ds i.
Definition is_full (g : NODE_GROUP_T) : bool := (ng_dele_count g =? 0) && (NODE_GROUP_INCLUDE_NODES <=? ng_free g).

Lemma dele_chain_unique top g ds ds' :
  length ds = length ds' -> dele_chain top g ds -> dele_chain top g ds' -> ds = ds'.
Proof.
  revert top ds'. induction ds as [|d ds IH]; intros top [|d' ds'] Hl; try done. cbn [dele_chain].
  intros [-> H1] [-> H2]. f_equal. apply (IH (u8 (na_vd (attrs g d')))); [by injection Hl|done..].
Qed.
Lemma ng_inv_unique g ds ds' : ng_inv g ds -> ng_inv g ds' -> ds = ds'.
Proof.
  intros [_ _ _ H1 _ _ H2] [_ _ _ H3 _ _ H4]. eapply dele_chain_unique; [lia|done..].
Qed.
Lemma in_use_used g ds i : ng_inv g ds -> in_use g i <-> used g ds i.
Proof.
  intros H. split; [|by exists ds]. intros (ds' & H' & Hu). by rewrite (ng_inv_unique _ _ _ H H').
Qed.
Lemma in_use_range g i : in_use g i -> 0 <= i < 256.
Proof. intros (ds & [_ Hf _ _ _ _ _] & [Hr _]). lia. Qed.
Lemma group_ok_std g : group_ok g -> ng_std g.
Proof. by intros [ds []]. Qed.
Lemma is_full_spec g ds : ng_inv g ds -> is_full g = bool_decide (ds = [] ∧ ng_free g = 256).
Proof.
  intros [_ Hf _ Hc _ _ _]. unfold is_full. rewrite Hc. unfold NODE_GROUP_INCLUDE_NODES.
  destruct ds; simpl; [|done].
  zcases; symmetry; [apply bool_decide_true|apply bool_decide_false]; naive_solver lia.
Qed.

Record took (i : Z) (g g' : NODE_GROUP_T) : Prop := {
  tk_ok : group_ok g';
  tk_list : ng_list g' = ng_list g;
  tk_nid : ng_nid g' = ng_nid g;
  tk_range : 0 <= i < 256;
  tk_new : ¬ in_use g i;
  tk_used j : in_use g' j <-> j = i ∨ in_use g j;
  tk_attrs j : 0 <= j < 256 ->
    attrs g' j = if decide (j = i) then reset_attrs (id_of g i) (attrs g i) else attrs g j
}.

Record gave (i : Z) (g g' : NODE_GROUP_T) : Prop := {
  gv_ok : group_ok g';
  gv_list : ng_list g' = ng_list g;
  gv_nid : ng_nid g' = ng_nid g;
  gv_used j : in_use g' j <-> in_use g j ∧ j ≠ i;
  gv_full : is_full g' = false;
  gv_attrs j : 0 <= j < 256 -> j ≠ i -> attrs g' j = attrs g j
}.

Section in_use.
Context {A : Type}.
Implicit Types (s : cmem A) (h i : Z).

Lemma IsFull_run h g s : get_NG h s = Some g -> NG_IsFull h s = Some (is_full g, s).
Proof. apply ng_get_run. Qed.

Lemma take_run h g s :
  get_NG h s = Some g -> group_ok g -> is_full g = false ->
  ∃ i g', NG_AllocateNode h s = Some (MkNode h i, put_obj h (ONodeGroup g') s) ∧ took i g g'.
Proof.
  intros Hg [ds Hinv] Hf. rewrite (is_full_spec _ _ Hinv) in Hf. apply bool_decide_eq_false in Hf.
  destruct (NG_AllocateNode_run h g ds s Hg Hinv Hf) as (i & g' & ds' & Hr & [T1 T2 T3 T4 T5 T6 T7 _]).
  exists i, g'. split; [done|]. split; try done; [by exists ds'|by rewrite (in_use_used _ _ _ Hinv)|].
  intros j. rewrite (in_use_used _ _ _ T1), (in_use_used _ _ _ Hinv). apply T6.
Qed.

Lemma give_run h i g s :
  get_NG h s = Some g -> in_use g i ->
  ∃ g', node_Release (MkNode h i) s = Some (0, put_obj h (ONodeGroup g') s) ∧ gave i g g'.
Proof.
  intros Hg (ds & Hinv & Hu). destruct (node_Release_run h i g ds s Hg Hinv Hu) as (g' & Hr & [T1 T2 T3 T4 T5 T6]).
  exists g'. split; [done|]. split; try done; [by exists (i :: ds)| |].
  - intros j. rewrite (in_use_used _ _ _ T1), (in_use_used _ _ _ Hinv). apply T4.
  - rewrite (is_full_spec _ _ T1). by apply bool_decide_false; intros [? _].
Qed.

(** Clients may change the attributes of the nodes in use. *)
Lemma group_ok_upd g g' i f : group_ok g -> attrs_upd f i g g' -> in_use g i -> group_ok g'.
Proof.
  intros _ HU (ds & Hinv & [_ Hn]). exists ds. eapply ng_inv_upd; [exact Hinv|exact HU|by left].
Qed.
Lemma in_use_upd g g' i f j : attrs_upd f i g g' -> in_use g i -> in_use g' j <-> in_use g j.
Proof.
  intros HU (ds & Hinv & Hn). assert (Hinv' := ng_inv_upd _ _ _ _ _ Hinv HU (or_introl (proj2 Hn))).
  rewrite (in_use_used _ _ _ Hinv), (in_use_used _ _ _ Hinv'). apply used_hdr, HU.
Qed.
Lemma is_full_hdr g g' : hdr g' = hdr g -> is_full g' = is_full g.
Proof. intros (_ & _ & Hc & Hf & _)%hdr_inv. unfold is_full. by rewrite Hc, Hf. Qed.
End in_use.
