(* ===== verification/NodeIndex.v ===== *)
(** * NodeIndex: from node ids to nodes

    Models [src/cache/node_index.h] and [src/cache/node_index.cc]: a two-level
    table over the upper 24 bits of a node id, whose leaves are the handles of
    node groups; and the LRU lists of [src/cache/node_list.h], whose links are
    node ids resolved through this index. *)

From stdpp Require Import gmap.
From S2P Require Import Prelude State Ring BinMalloc NodeMem NodeGroup.

Definition OFFSET1 (id : Z) : Z := Z.shiftr id 24.
Definition OFFSET2 (id : Z) : Z := Z.shiftr (Z.land id 0xFFFF00) 8.
Definition OFFSET3 (id : Z) : Z := Z.land id 0xFF.

Section node_index.
Context {A : Type} `{Allocator A}.

(** [_firstIndex->fi_h[i]] *)
Definition fi_rd (i : Z) : CM A Z :=
  λ s, f ← get_FI (firstIndex s) s; v ← arr_rd 256 (fi_h f) i; Some (v, s).
Definition fi_wr (i v : Z) : CM A unit :=
  λ s, f ← get_FI (firstIndex s) s; a ← arr_wr 256 (fi_h f) i v;
       Some (tt, put_obj (firstIndex s) (OFirstIndex (MkFI (fi_used f) a)) s).
(** [p->si_h[i]] *)
Definition si_rd (p i : Z) : CM A Z :=
  λ s, f ← get_SI p s; v ← arr_rd 65536 (si_h f) i; Some (v, s).
(** [p->si_used++; p->si_h[i] = v] *)
Definition si_add (p i v : Z) : CM A unit :=
  λ s, f ← get_SI p s; a ← arr_wr 65536 (si_h f) i v;
       Some (tt, put_obj p (OSecondIndex (MkSI (u32 (si_used f + 1)) a)) s).

(** [for(i = 0; i < n; ++i)], the last [k] turns. *)
Fixpoint PreAllocateIndex2_loop (k : nat) (n : Z) : CM A Z :=
  match k with
  | O => mret 0
  | S k' =>
      let i := n - Z.of_nat k in
      v ← M_CALLOC INDEX_2_SIZE (OSecondIndex (MkSI 0 ∅));
      fi_wr i v;;
      v ← fi_rd i;
      if INVALID_HANDLE =? v then mret (-1)
      else PreAllocateIndex2_loop k' n
  end.

Definition PreAllocateIndex2 (mem_size : Z) : CM A Z :=
  let n := u32 (65536 * 256 * 44) in
  let n := u32 (u64 (mem_size / n + 1)) in
  let n := if 256 <? n then 256 else n in
  PreAllocateIndex2_loop (Z.to_nat n) n.

Definition index_Init (mem_size : Z) : CM A Z :=
  v ← M_CALLOC INDEX_1_SIZE (OFirstIndex (MkFI 0 ∅));
  if INVALID_HANDLE =? v then mret (-1)
  else put (set_firstIndex v);; PreAllocateIndex2 mem_size.

Definition index_Attach (handle : Z) : CM A Z :=
  if INVALID_HANDLE =? handle then mret (-1)
  else put (set_firstIndex handle);; mret 0.

Definition index_Detach : CM A Z := put (set_firstIndex 0);; mret 0.

(** [M_HANDLE(_firstIndex)] *)
Definition index_Handle : CM A Z := get firstIndex.

Definition Insert (node : CNode) : CM A Z :=
  id ← NodeID node;
  v ← fi_rd (OFFSET1 id);
  r ← (if INVALID_HANDLE =? v then
         v ← M_CALLOC INDEX_2_SIZE (OSecondIndex (MkSI 0 ∅));
         fi_wr (OFFSET1 id) v;;
         v ← fi_rd (OFFSET1 id);
         mret (if INVALID_HANDLE =? v then -1 else 0)
       else mret 0);
  if negb (r =? 0) then mret r
  else
    p ← fi_rd (OFFSET1 id);
    si_add p (OFFSET2 id) (c_owner node);;
    mret 0.

(** [I_SEARCH]: a pure look-up in the state. *)
Definition Search (id : Z) (s : cmem A) : option CNode :=
  if INVALID_NODE_ID =? id then Some CNode_NULL
  else
    '(v, s) ← fi_rd (OFFSET1 id) s;
    if INVALID_HANDLE =? v then Some CNode_NULL
    else
      '(h, s) ← si_rd v (OFFSET2 id) s;
      if INVALID_HANDLE =? h then Some CNode_NULL
      else
        g ← get_NG h s;
        let index := s32 (id - ng_nid g) in
        if (index <? 0) || (255 <? index) then Some CNode_NULL
        else Some (MkNode h index).
Definition I_SEARCH (id : Z) : CM A CNode := λ s, n ← Search id s; Some (n, s).

(** [CNode::Next], [Prev] (LRU) and [NextNode] (hash chain). *)
Definition node_Next (n : CNode) : CM A CNode := id ← LruNext n; I_SEARCH id.
Definition node_Prev (n : CNode) : CM A CNode := id ← LruPrev n; I_SEARCH id.
Definition NextNode (n : CNode) : CM A CNode := id ← NextNodeID n; I_SEARCH id.

(** ** LRU lists ([node_list.h])

    The links hold node ids; assigning [p] to a link stores [p.NodeID()]. *)

Definition ex {B} (m : CM A B) (s : cmem A) : option (cmem A) := snd <$> m s.

#[export] Instance node_links : Links CNode (cmem A) := {|
  l_prev n s := fst <$> node_Prev n s;
  l_next n s := fst <$> node_Next n s;
  l_set_prev n p s := ex (id ← NodeID p; set_LruPrev n id) s;
  l_set_next n p s := ex (id ← NodeID p; set_LruNext n id) s
|}.

Definition INIT_NODE_LIST_HEAD (node : CNode) (id : Z) : CM A unit :=
  set_LruPrev node id;; set_LruNext node id.
Definition __NODE_LIST_ADD (p prev next : CNode) : CM A unit := __list_add p prev next.
Definition NODE_LIST_ADD (p head : CNode) : CM A unit := list_add p head.
Definition NODE_LIST_ADD_TAIL (p head : CNode) : CM A unit := list_add_tail p head.
Definition __NODE_LIST_DEL (prev next : CNode) : CM A unit := __list_del prev next.
Definition NODE_LIST_DEL (p : CNode) : CM A unit :=
  list_unlink p;; set_prev p p;; set_next p p.
Definition NODE_LIST_MOVE (p head : CNode) : CM A unit := list_move p head.
Definition NODE_LIST_MOVE_TAIL (p head : CNode) : CM A unit := list_move_tail p head.
Definition NODE_LIST_EMPTY (head : CNode) : CM A bool :=
  nx ← LruNext head; id ← NodeID head; mret (nx =? id).
End node_index.
