(* ===== verification/NgInfo.v ===== *)
(** * NgInfo: the allocation of nodes

    Models [src/cache/ng_info.h] and [src/cache/ng_info.cc] ([CNGInfo]), the
    handle lists of [src/cache/ng_list.h], and the two functions of
    [src/cache/node_group.cc] that need the node index.  Groups with a free
    node are on the list of [ni_free_head], full ones on that of
    [ni_full_head]; the first group holds the heads of the three LRU lists.
    Error texts are not kept. *)

From stdpp Require Import gmap.
From S2P Require Import Prelude State Ring BinMalloc NodeMem NodeGroup NodeIndex.

(** ** Handle lists

    A cell is the [ng_list] at the start of a node group, or one of the heads
    of an [NG_INFO_T]: [ni_free_head] at offset 0, [ni_full_head] at 16. *)

Definition FULL_HEAD : Z := 16.

Definition ng_cell_of {A} (p : Z) (s : cmem A) : option NG_LIST_T :=
  match objs s !! p with
  | Some (ONodeGroup g) => Some (ng_list g)
  | Some (ONGInfo i) => Some (ni_free_head i)
  | _ => match objs s !! (p - FULL_HEAD) with
         | Some (ONGInfo i) => Some (ni_full_head i)
         | _ => None
         end
  end.
Definition ng_cell_upd {A} (p : Z) (f : NG_LIST_T -> NG_LIST_T) (s : cmem A) : option (cmem A) :=
  match objs s !! p with
  | Some (ONodeGroup g) => Some (put_obj p (ONodeGroup (set_ng_list (f (ng_list g)) g)) s)
  | Some (ONGInfo i) => Some (put_obj p (ONGInfo (set_ni_free_head (f (ni_free_head i)) i)) s)
  | _ => match objs s !! (p - FULL_HEAD) with
         | Some (ONGInfo i) =>
             Some (put_obj (p - FULL_HEAD) (ONGInfo (set_ni_full_head (f (ni_full_head i)) i)) s)
         | _ => None
         end
  end.

#[export] Instance ng_links {A} : Links Z (cmem A) := {|
  l_prev p s := ng_list_prev <$> ng_cell_of p s;
  l_next p s := ng_list_next <$> ng_cell_of p s;
  l_set_prev p v := ng_cell_upd p (λ c, MkNGList v (ng_list_next c));
  l_set_next p v := ng_cell_upd p (λ c, MkNGList (ng_list_prev c) v)
|}.

Section ng_list.
Context {A : Type}.
Implicit Types (p ptr head : Z).

Definition INIT_NG_LIST_HEAD ptr : CM A unit := set_prev ptr ptr;; set_next ptr ptr.
Definition __NG_LIST_ADD p prev next : CM A unit := __list_add p prev next.
Definition NG_LIST_ADD p head : CM A unit := list_add p head.
Definition NG_LIST_ADD_TAIL p head : CM A unit := list_add_tail p head.
Definition __NG_LIST_DEL prev next : CM A unit := __list_del prev next.
Definition NG_LIST_DEL p : CM A unit :=
  list_unlink p;; set_next p INVALID_HANDLE;; set_prev p INVALID_HANDLE.
Definition NG_LIST_DEL_INIT p : CM A unit := list_unlink p;; INIT_NG_LIST_HEAD p.
Definition NG_LIST_MOVE p head : CM A unit := list_move p head.
Definition NG_LIST_MOVE_TAIL p head : CM A unit := list_move_tail p head.
Definition NG_LIST_EMPTY head : CM A bool := list_empty head.
End ng_list.

Section ng_info.
Context {A : Type} `{Allocator A}.

(** ** The system's group *)

Definition SystemReservedInit (h : Z) : CM A Z :=
  dirtyNode ← NG_AllocateNode h;
  if is_null dirtyNode then mret (-2)
  else
    cleanNode ← NG_AllocateNode h;
    if is_null cleanNode then mret (-3)
    else
      emptyNode ← NG_AllocateNode h;
      if is_null emptyNode then mret (-3)
      else
        id ← NodeID dirtyNode; INIT_NODE_LIST_HEAD dirtyNode id;;
        id ← NodeID cleanNode; INIT_NODE_LIST_HEAD cleanNode id;;
        id ← NodeID emptyNode; INIT_NODE_LIST_HEAD emptyNode id;;
        Insert dirtyNode;;
        Insert cleanNode;;
        Insert emptyNode;;
        mret 0.

Definition SystemReservedCheck (h : Z) : CM A Z :=
  fr ← ng_get h ng_free;
  if fr <? 2 then mret (-10)
  else if 3 <=? fr then mret 0
  else
    emptyNode ← NG_AllocateNode h;
    if is_null emptyNode then mret (-3)
    else
      id ← NodeID emptyNode; INIT_NODE_LIST_HEAD emptyNode id;;
      Insert emptyNode;;
      mret 1.

(** ** Group lists *)

Definition ListDel (NG : Z) : CM A unit := NG_LIST_DEL NG.
Definition FreeListAdd (NG : Z) : CM A unit := ni ← get ngInfo; NG_LIST_ADD NG ni.
Definition FullListAdd (NG : Z) : CM A unit := ni ← get ngInfo; NG_LIST_ADD NG (ni + FULL_HEAD).
Definition FreeListAddTail (NG : Z) : CM A unit := ni ← get ngInfo; NG_LIST_ADD_TAIL NG ni.
Definition FullListAddTail (NG : Z) : CM A unit := ni ← get ngInfo; NG_LIST_ADD_TAIL NG (ni + FULL_HEAD).

(** The first group of the free list; 0 is NULL. *)
Definition FindFreeNG : CM A Z :=
  ni ← get ngInfo;
  e ← NG_LIST_EMPTY ni;
  if e : bool then mret 0 else ni_get (λ i, ng_list_next (ni_free_head i)).

Definition AllocateNG : CM A Z :=
  v ← M_CALLOC NG_Size (ONodeGroup zero_NG);
  if INVALID_HANDLE =? v then mret 0
  else
    id ← ni_get ni_min_id;
    NG_Init v id;;
    ni_put (λ i, set_ni_min_id (u32 (ni_min_id i + NODE_GROUP_INCLUDE_NODES)) i);;
    ni_put (λ i, set_ni_used_ng (u32 (ni_used_ng i + 1)) i);;
    n ← ni_get ni_used_ng; put (set_statUsedNG n);;
    mret v.

(** ** Nodes *)

(** [for(i = 0; i < step; i++)], turn [i] of [n]; [false] when no group could
    be allocated at all. *)
Fixpoint prealloc (n : nat) (i : Z) : CM A bool :=
  match n with
  | O => mret true
  | S n' =>
      NG ← AllocateNG;
      if NG =? 0 then
        if i =? 0 then mret false
        else put (λ s, set_step 1 (set_fail 1 s));; mret true
      else FreeListAdd NG;; prealloc n' (i + 1)
  end.

(** A group with a free node; 0 is the early return of [AllocateNode]. *)
Definition free_group : CM A Z :=
  NG ← FindFreeNG;
  if negb (NG =? 0) then mret NG
  else
    n ← get step;
    ok ← prealloc (Z.to_nat n) 0;
    if negb ok then mret 0
    else
      NG ← FindFreeNG;
      n ← get step; f ← get fail;
      when_ ((n <? 256) && (f =? 0)) (put (set_step (n * 2)));;
      if NG =? 0 then lift None else mret NG.

Definition AllocateNode : CM A CNode :=
  NG ← free_group;
  if NG =? 0 then mret CNode_NULL
  else
    node ← NG_AllocateNode NG;
    full ← NG_IsFull NG;
    when_ full (ListDel NG;; FullListAdd NG);;
    if is_null node then mret CNode_NULL
    else
      ni_put (λ i, set_ni_used_node (u32 (ni_used_node i + 1)) i);;
      n ← ni_get ni_used_node; put (set_statUsedNode n);;
      Insert node;;
      mret node.

Definition ReleaseNode (node : CNode) : CM A Z :=
  let NG := c_owner node in
  full ← NG_IsFull NG;
  when_ full (ListDel NG;; FreeListAdd NG);;
  ni_put (λ i, set_ni_used_node (u32 (ni_used_node i - 1)) i);;
  n ← ni_get ni_used_node; put (set_statUsedNode n);;
  node_Release node.

(** ** LRU lists *)

Definition node_head (index : Z) : CM A CNode :=
  sysNG ← ni_get ni_sys_zone;
  mret (if sysNG =? 0 then CNode_NULL else MkNode sysNG index).
Definition DirtyNodeHead : CM A CNode := node_head SYS_DIRTY_NODE_INDEX.
Definition CleanNodeHead : CM A CNode := node_head SYS_CLEAN_NODE_INDEX.
Definition EmptyNodeHead : CM A CNode := node_head SYS_EMPTY_NODE_INDEX.

Definition Insert2Lru (index : Z) (node : CNode) : CM A Z :=
  sysNG ← ni_get ni_sys_zone;
  NODE_LIST_ADD node (MkNode sysNG index);;
  mret 0.
Definition Insert2DirtyLru (node : CNode) : CM A Z := Insert2Lru SYS_DIRTY_NODE_INDEX node.
Definition Insert2CleanLru (node : CNode) : CM A Z := Insert2Lru SYS_CLEAN_NODE_INDEX node.
Definition Insert2EmptyLru (node : CNode) : CM A Z := Insert2Lru SYS_EMPTY_NODE_INDEX node.
Definition RemoveFromLru (node : CNode) : CM A Z := NODE_LIST_DEL node;; mret 0.

(** ** Counters *)

Definition IncDirtyNode (v : Z) : CM A unit :=
  ni_put (λ i, set_ni_dirty_node (u32 (ni_dirty_node i + v)) i);;
  n ← ni_get ni_dirty_node; put (set_statDirtyNode n).
Definition IncDirtyRow (v : Z) : CM A unit :=
  ni_put (λ i, set_ni_dirty_row (u64 (ni_dirty_row i + v)) i);;
  n ← ni_get ni_dirty_row; put (set_statDirtyRow (u32 n)).
Definition IncTotalRow (v : Z) : CM A unit :=
  ni_put (λ i, set_ni_used_row (u64 (ni_used_row i + v)) i);;
  n ← ni_get ni_used_row; put (set_statUsedRow (u32 n)).
Definition IncEmptyNode (v : Z) : CM A unit :=
  put (λ s, set_emptyCnt (s32 (emptyCnt s + v)) s);;
  n ← get emptyCnt; put (set_statEmptyNode (u32 n)).
Definition TotalDirtyNode : CM A Z := ni_get ni_dirty_node.
Definition TotalUsedNode : CM A Z := ni_get ni_used_node.
Definition TotalDirtyRow : CM A Z := ni_get ni_dirty_row.
Definition TotalUsedRow : CM A Z := ni_get ni_used_row.
Definition MinValidNodeID : Z := 256.
Definition MaxNodeID : CM A Z := n ← ni_get ni_used_ng; mret (u32 (u32 (n * 256) - 1)).

(** ** Start and stop *)

Definition CREATED : Z := 0.
Definition ATTACHED : Z := 1.
Definition UPGRADED : Z := 2.

Definition InitHeader (ni : Z) : CM A Z :=
  INIT_NG_LIST_HEAD ni;;
  INIT_NG_LIST_HEAD (ni + FULL_HEAD);;
  ni_put (set_ni_min_id SYS_MIN_NODE_ID);;
  sysNG ← AllocateNG;
  if sysNG =? 0 then mret (-1)
  else
    SystemReservedInit sysNG;;
    ni_put (set_ni_sys_zone sysNG);;
    ni_put (λ i, set_ni_dirty_row 0 $ set_ni_used_row 0 $ set_ni_dirty_node 0 $
                 set_ni_used_node 0 $ set_ni_used_ng 1 i);;
    put (λ s, set_statEmptyNode 0 $ set_statUsedRow 0 $ set_statDirtyRow 0 $
              set_statDirtyNode 0 $ set_statUsedNode 0 $ set_statUsedNG 1 s);;
    mret 0.

Definition nginfo_Init : CM A Z :=
  v ← M_CALLOC sizeof_NG_INFO_T (ONGInfo zero_NI);
  if INVALID_HANDLE =? v then mret (-1)
  else put (set_ngInfo v);; InitHeader v.

Definition nginfo_Attach (v : Z) : CM A Z :=
  if INVALID_HANDLE =? v then mret (-1)
  else
    put (set_ngInfo v);;
    sysNG ← ni_get ni_sys_zone;
    if sysNG =? 0 then mret (-1)
    else
      ret ← SystemReservedCheck sysNG;
      if ret <? 0 then mret ret
      else put (set_emptyStartupMode (if 0 <? ret then UPGRADED else ATTACHED));; mret 0.

Definition nginfo_Detach : CM A Z := put (set_ngInfo 0);; mret 0.
End ng_info.
