(* ===== verification/NodeLinks.v ===== *)
(** * NodeLinks: the two kinds of rings in the node store

    The handle lists of node groups ([src/cache/ng_list.h]) and the LRU lists
    of nodes ([src/cache/node_list.h]) satisfy the laws of [Ring]: an
    assignment to a link changes that link and nothing else. *)

From stdpp Require Import gmap.
From S2P Require Import Prelude State Ring BinMalloc NodeMem NodeGroup NodeIndex NgInfo.

(** ** States that agree up to a relation on objects *)

Section objs_rel.
Context {A : Type} (R : obj -> obj -> Prop) `{!PreOrder R}.
Implicit Types s : cmem A.

Definition objs_rel s s' : Prop :=
  set_objs ∅ s' = set_objs ∅ s ∧ ∀ h, option_Forall2 R (objs s !! h) (objs s' !! h).

#[export] Instance objs_rel_po : PreOrder objs_rel.
Proof using PreOrder0.
  split.
  - intros s. split; [done|]. intros h. destruct (objs s !! h); by constructor.
  - intros s1 s2 s3 [H1 H2] [H3 H4]. split; [congruence|]. intros h. specialize (H2 h). specialize (H4 h).
    inversion H2 as [x y Hxy Hx Hy|Hx Hy]; rewrite <-Hy in H4; inversion H4; subst; constructor. by etrans.
Qed.

Lemma objs_rel_put h o o' s : objs s !! h = Some o -> R o o' -> objs_rel s (put_obj h o' s).
Proof using PreOrder0.
  intros Ho Hr. split; [done|]. intros k. rewrite objs_put_obj.
  destruct (decide (h = k)) as [->|]; [rewrite lookup_insert_eq, Ho; by constructor|].
  rewrite lookup_insert_ne by done. destruct (objs s !! k); by constructor.
Qed.

Lemma objs_rel_lookup s s' h o : objs_rel s s' -> objs s !! h = Some o -> ∃ o', objs s' !! h = Some o' ∧ R o o'.
Proof. intros [_ Hr] Ho. specialize (Hr h). rewrite Ho in Hr. inversion Hr; subst. eexists. by split. Qed.
Lemma objs_rel_frame s s' : objs_rel s s' ->
  alloc s' = alloc s ∧ firstIndex s' = firstIndex s ∧ ngInfo s' = ngInfo s ∧ hash s' = hash s ∧
  step s' = step s ∧ fail s' = fail s.
Proof.
  intros [Hr _]. split_and!.
  - exact (f_equal alloc Hr). - exact (f_equal firstIndex Hr). - exact (f_equal ngInfo Hr).
  - exact (f_equal hash Hr). - exact (f_equal step Hr). - exact (f_equal NodeMem.fail Hr).
Qed.
End objs_rel.

(** ** Handle lists *)

Definition ng_obj_same (o o' : obj) : Prop :=
  match o, o' with
  | ONodeGroup g, ONodeGroup g' => set_ng_list (ng_list g) g' = g
  | ONGInfo i, ONGInfo i' => set_ni_free_head (ni_free_head i) (set_ni_full_head (ni_full_head i) i') = i
  | _, _ => o = o'
  end.

#[export] Instance ng_obj_same_po : PreOrder ng_obj_same.
Proof.
  split.
  - intros [[]| | |[]|]; done.
  - intros [[]| | |[]|] [[]| | |[]|] [[]| | |[]|]; simpl; unfold set_ng_list, set_ni_free_head, set_ni_full_head;
      simpl; congruence.
Qed.

Section ng_list_laws.
Context {A : Type}.
Implicit Types s : cmem A.

Lemma ng_cell_upd_law a f s :
  is_Some (ng_cell_of a s) ->
  ∃ s', ng_cell_upd a f s = Some s' ∧ objs_rel ng_obj_same s s' ∧
    ng_cell_of a s' = f <$> ng_cell_of a s ∧ ∀ c, c ≠ a -> ng_cell_of c s' = ng_cell_of c s.
Proof.
  unfold ng_cell_of, ng_cell_upd. intros [x Hx].
  destruct (objs s !! a) as [[g| | |i|]|] eqn:Ha.
  1: { eexists. split; [done|]. split; [eapply (objs_rel_put ng_obj_same); [exact Ha|by destruct g]|].
       split; [by rewrite objs_put_obj, lookup_insert_eq|]. intros c Hc. rewrite objs_put_obj.
       rewrite (lookup_insert_ne _ a c) by done. destruct (decide (a = c - FULL_HEAD)) as [<-|].
       - rewrite lookup_insert_eq, Ha. by destruct (objs s !! c) as [[]|].
       - by rewrite lookup_insert_ne. }
  3: { eexists. split; [done|]. split; [eapply (objs_rel_put ng_obj_same); [exact Ha|by destruct i]|].
       split; [by rewrite objs_put_obj, lookup_insert_eq|]. intros c Hc. rewrite objs_put_obj.
       rewrite (lookup_insert_ne _ a c) by done. destruct (decide (a = c - FULL_HEAD)) as [<-|].
       - rewrite lookup_insert_eq, Ha. by destruct (objs s !! c) as [[]|].
       - by rewrite lookup_insert_ne. }
  all: destruct (objs s !! (a - FULL_HEAD)) as [[g| | |i|]|] eqn:Hf; simplify_eq.
  all: assert (a - FULL_HEAD ≠ a) by (unfold FULL_HEAD; lia).
  all: eexists; split; [done|]; split; [eapply (objs_rel_put ng_obj_same); [exact Hf|by destruct i]|].
  all: rewrite objs_put_obj, lookup_insert_ne by done; rewrite Ha, lookup_insert_eq; split; [done|].
  all: intros c Hc; destruct (decide (c = a - FULL_HEAD)) as [->|Hne];
    [by rewrite lookup_insert_eq, Hf|].
  all: rewrite !lookup_insert_ne by lia; done.
Qed.

Lemma ng_cell_same c s s' : objs_rel ng_obj_same s s' -> is_Some (ng_cell_of c s) -> is_Some (ng_cell_of c s').
Proof.
  intros Hr. unfold ng_cell_of. pose proof (proj2 Hr c) as H1. pose proof (proj2 Hr (c - FULL_HEAD)) as H2.
  inversion H1 as [x y Hxy Hx Hy|Hx Hy]; inversion H2 as [x' y' Hxy' Hx' Hy'|Hx' Hy'];
    repeat match goal with o : obj |- _ => destruct o end; simpl in *; simplify_eq; try done; by eexists.
Qed.

#[export] Program Instance ng_list_laws : LinksLaws Z (cmem A) := {|
  l_cell p s := is_Some (ng_cell_of p s);
  l_target _ _ := True;
  l_same := objs_rel ng_obj_same
|}.
Next Obligation. done. Qed.
Next Obligation. intros c s s' Hs. by apply ng_cell_same. Qed.
Next Obligation. done. Qed.
Next Obligation.
  intros a b s Ha _. destruct (ng_cell_upd_law a (λ c, MkNGList b (ng_list_next c)) s Ha) as (s' & H1 & H2 & H3 & H4).
  exists s'. simpl. rewrite H3. destruct Ha as [x ->]. split_and!; [done..|]. intros c Hc. by rewrite H4.
Qed.
Next Obligation.
  intros a b s Ha _. destruct (ng_cell_upd_law a (λ c, MkNGList (ng_list_prev c) b) s Ha) as (s' & H1 & H2 & H3 & H4).
  exists s'. simpl. rewrite H3. destruct Ha as [x ->]. split_and!; [done..|]. intros c Hc. by rewrite H4.
Qed.
End ng_list_laws.

(** ** LRU lists *)

Definition lru_blank (a : node_attrs) : node_attrs := with_prev 0 (with_lnext 0 a).

Definition lru_obj_same (o o' : obj) : Prop :=
  match o, o' with
  | ONodeGroup g, ONodeGroup g' =>
      hdr g' = hdr g ∧ ∀ j, 0 <= j < 256 -> lru_blank (attrs g' j) = lru_blank (attrs g j)
  | _, _ => o = o'
  end.

#[export] Instance lru_obj_same_po : PreOrder lru_obj_same.
Proof.
  split.
  - intros []; done.
  - intros [] [] []; simpl; try congruence. intros [H1 H2] [H3 H4]. split; [congruence|].
    intros j Hj. by rewrite H4, H2.
Qed.

Section lru_laws.
Context {A : Type} `{Allocator A}.
Implicit Types (s : cmem A) (n : CNode).

(** [Search] depends on the index and the groups' first ids only. *)
Lemma Search_ext id s s' :
  firstIndex s' = firstIndex s -> (∀ h, get_FI h s' = get_FI h s) -> (∀ h, get_SI h s' = get_SI h s) ->
  (∀ h, ng_nid <$> get_NG h s' = ng_nid <$> get_NG h s) -> Search id s' = Search id s.
Proof.
  intros Hfi HFI HSI HNG. unfold Search, fi_rd, si_rd. destruct (INVALID_NODE_ID =? id); [reflexivity|]. rewrite Hfi.
  rewrite HFI. destruct (get_FI _ s) as [f|]; [|reflexivity]. osimpl.
  destruct (arr_rd 256 (fi_h f) (OFFSET1 id)) as [v|]; [|reflexivity]. osimpl.
  destruct (INVALID_HANDLE =? v); [reflexivity|]. rewrite HSI. destruct (get_SI v s) as [f'|]; [|reflexivity]. osimpl.
  destruct (arr_rd 65536 (si_h f') (OFFSET2 id)) as [h|]; [|reflexivity]. osimpl.
  destruct (INVALID_HANDLE =? h); [reflexivity|]. specialize (HNG h). destruct (get_NG h s'), (get_NG h s); simpl in *; simplify_eq; try reflexivity. by rewrite HNG.
Qed.
Lemma Search_same id s s' : objs_rel lru_obj_same s s' -> Search id s' = Search id s.
Proof.
  intros Hr. destruct (objs_rel_frame _ _ _ Hr) as (_ & Hfi & _). destruct Hr as [_ Hr].
  apply Search_ext; [done| | |]; intros h; specialize (Hr h).
  - unfold get_FI. inversion Hr as [[] [] Hxy|]; simpl in *; by simplify_eq.
  - unfold get_SI. inversion Hr as [[] [] Hxy|]; simpl in *; by simplify_eq.
  - unfold get_NG. inversion Hr as [[] [] Hxy|]; simpl in *; simplify_eq; try done.
    destruct Hxy as [(_ & _ & _ & _ & -> & _)%hdr_inv _]. done.
Qed.

(** The ids in the links of a node, and the nodes they stand for. *)
Lemma node_Prev_run n g s :
  get_NG (c_owner n) s = Some g -> ng_std g -> 0 <= c_index n < 256 ->
  fst <$> node_Prev n s = Search (na_lru_prev (attrs g (c_index n))) s.
Proof.
  intros Hg Hs Hi. unfold node_Prev, LruPrev.
  rewrite (step_bind _ _ _ _ _ (NG_NodeLru_prev_run _ _ _ _ Hg Hs Hi)). unfold I_SEARCH. by destruct (Search _ s).
Qed.
Lemma node_Next_run n g s :
  get_NG (c_owner n) s = Some g -> ng_std g -> 0 <= c_index n < 256 ->
  fst <$> node_Next n s = Search (na_lru_next (attrs g (c_index n))) s.
Proof.
  intros Hg Hs Hi. unfold node_Next, LruNext.
  rewrite (step_bind _ _ _ _ _ (NG_NodeLru_next_run _ _ _ _ Hg Hs Hi)). unfold I_SEARCH. by destruct (Search _ s).
Qed.

(** A node that its id leads to. *)
Definition node_cell n s : Prop :=
  ∃ g, get_NG (c_owner n) s = Some g ∧ ng_std g ∧ 0 <= c_index n < 256 ∧
       Search (id_of g (c_index n)) s = Some n.

Lemma lru_same_NG h g s s' :
  objs_rel lru_obj_same s s' -> get_NG h s = Some g ->
  ∃ g', get_NG h s' = Some g' ∧ hdr g' = hdr g ∧
    ∀ j, 0 <= j < 256 -> lru_blank (attrs g' j) = lru_blank (attrs g j).
Proof.
  intros Hr Hg%get_NG_objs. destruct (objs_rel_lookup _ _ _ _ _ Hr Hg) as (o' & Ho & Hs).
  destruct o'; simpl in Hs; try done. exists g0. split; [by apply get_NG_objs|done].
Qed.

Lemma node_cell_same n s s' : objs_rel lru_obj_same s s' -> node_cell n s -> node_cell n s'.
Proof.
  intros Hr (g & Hg & Hs & Hi & Hn). destruct (lru_same_NG _ _ _ _ Hr Hg) as (g' & Hg' & Hh & _).
  exists g'. split; [done|]. split; [by eapply hdr_std|]. split; [done|].
  by rewrite (hdr_id _ _ _ Hh), (Search_same _ _ _ Hr).
Qed.

Definition lru_id n (k : Z) s : option Z := fst <$> ng_cell (c_owner n) TIME_LIST 4 (c_index n * 2 + k) s.

Lemma l_prev_eq n s : l_prev n s = id ← lru_id n LRU_PREV s; Search id s.
Proof.
  unfold l_prev. simpl. unfold node_Prev, LruPrev, NG_NodeLru, mbind, ST_bind, lru_id.
  destruct (ng_cell _ _ _ _ s) as [[id s1]|] eqn:Hc; [|reflexivity]. simpl.
  assert (s1 = s) as ->.
  { unfold ng_cell in Hc. destruct (get_NG _ s); simpl in Hc; [|done].
    destruct (cell_rd _ _ _ _); simpl in Hc; by simplify_eq. }
  unfold I_SEARCH. by destruct (Search id s).
Qed.
Lemma l_next_eq n s : l_next n s = id ← lru_id n LRU_NEXT s; Search id s.
Proof.
  unfold l_next. simpl. unfold node_Next, LruNext, NG_NodeLru, mbind, ST_bind, lru_id.
  destruct (ng_cell _ _ _ _ s) as [[id s1]|] eqn:Hc; [|reflexivity]. simpl.
  assert (s1 = s) as ->.
  { unfold ng_cell in Hc. destruct (get_NG _ s); simpl in Hc; [|done].
    destruct (cell_rd _ _ _ _); simpl in Hc; by simplify_eq. }
  unfold I_SEARCH. by destruct (Search id s).
Qed.

(** An assignment to link [k] of [a] changes that link only. *)
Lemma lru_id_put a k v g s c j :
  get_NG (c_owner a) s = Some g -> ng_std g -> (k = 0 ∨ k = 1) -> (j = 0 ∨ j = 1) -> 0 <= c_index a < 256 ->
  lru_id c j (put_obj (c_owner a) (ONodeGroup (cput (off_lru (c_index a) k) v g)) s) =
  if decide (c = a ∧ j = k) then Some v else lru_id c j s.
Proof.
  intros Hg Hs Hk Hj Hi. unfold lru_id, ng_cell.
  destruct (decide (c_owner a = c_owner c)) as [Ho|Ho].
  - rewrite <-Ho, get_NG_put, Hg. simpl. unfold cell_rd, __CAST__. rewrite Hs. simpl.
    replace (ng_attr_offset (cput (off_lru (c_index a) k) v g)) with (ng_attr_offset g) by done. rewrite Hs.
    unfold rd. simpl. set (x := 1072 + 4 * (c_index c * 2 + j)).
    destruct ((0 <=? x) && (x + 4 <=? NG_Size)) eqn:Hr; osimpl.
    + change (default 0 (<[off_lru (c_index a) k:=v]> (ng_data g) !! x))
        with (cget (cput (off_lru (c_index a) k) v g) x).
      rewrite cget_cput. unfold off_lru, x. destruct (decide (c = a ∧ j = k)) as [[-> ->]|Hne].
      * by rewrite decide_True.
      * rewrite decide_False; [done|]. intros He. apply Hne.
        assert (c_index c = c_index a ∧ j = k) as [? ->] by lia.
        split; [|done]. destruct a as [ho ia], c as [hc ic]; simpl in *; congruence.
    + case_decide as Hd; [|done]. exfalso. destruct Hd as [-> ->]. apply andb_false_iff in Hr.
      change NG_Size with 5200 in Hr. lia.
  - rewrite get_NG_put_ne by done. rewrite decide_False by (by intros [-> _]).
    destruct (get_NG (c_owner c) s) as [g0|]; osimpl; [|done].
    by destruct (cell_rd g0 TIME_LIST 4 (c_index c * 2 + j)).
Qed.

Lemma lru_same_put h i f g g' s :
  get_NG h s = Some g -> attrs_upd f i g g' -> (∀ a, lru_blank (f a) = lru_blank a) ->
  objs_rel lru_obj_same s (put_obj h (ONodeGroup g') s).
Proof.
  intros Hg [Hh Ha] Hf. eapply (objs_rel_put lru_obj_same); [by apply get_NG_objs|]. simpl. split; [done|].
  intros j Hj. rewrite Ha by done. case_decide; [apply Hf|done].
Qed.

Lemma NodeID_run n g s : get_NG (c_owner n) s = Some g -> NodeID n s = Some (id_of g (c_index n), s).
Proof. apply NG_NodeID_run. Qed.

(** Both assignments: link [k] of [a] gets the id of [b]. *)
Lemma set_lru_law a b k s :
  (k = 0 ∨ k = 1) -> node_cell a s -> node_cell b s ->
  ∃ s', ex (id ← NodeID b; set_NG_NodeLru (c_owner a) (c_index a) k id) s = Some s' ∧
    objs_rel lru_obj_same s s' ∧
    ∀ c j, (j = 0 ∨ j = 1) ->
      (id ← lru_id c j s'; Search id s') = if decide (c = a ∧ j = k) then Some b else id ← lru_id c j s; Search id s.
Proof.
  intros Hk (g & Hg & Hs & Hi & Ha) (gb & Hgb & Hsb & Hib & Hb).
  set (g' := cput (off_lru (c_index a) k) (id_of gb (c_index b)) g).
  assert (objs_rel lru_obj_same s (put_obj (c_owner a) (ONodeGroup g') s)) as Hsame.
  { destruct Hk as [-> | ->].
    - eapply (lru_same_put _ (c_index a) (with_prev (id_of gb (c_index b)))); [done| |done].
      split; [done|]. intros. by apply attrs_prev.
    - eapply (lru_same_put _ (c_index a) (with_lnext (id_of gb (c_index b)))); [done| |done].
      split; [done|]. intros. by apply attrs_lnext. }
  exists (put_obj (c_owner a) (ONodeGroup g') s). split_and!; [|done|].
  - unfold ex. rewrite (step_bind _ _ _ _ _ (NodeID_run _ _ _ Hgb)). unfold set_NG_NodeLru.
    rewrite (set_ng_cell_run _ TIME_LIST _ _ g); [done|done|done|simpl; lia].
  - intros c j Hj. unfold g'. rewrite (lru_id_put a k _ g) by done. fold g'. case_decide as Hd; osimpl.
    + by rewrite (Search_same _ _ _ Hsame).
    + destruct (lru_id c j s); [|done]. apply (Search_same _ _ _ Hsame).
Qed.

#[export] Program Instance node_lru_laws : LinksLaws CNode (cmem A) := {|
  l_cell := node_cell;
  l_target := node_cell;
  l_same := objs_rel lru_obj_same
|}.
Next Obligation. done. Qed.
Next Obligation. intros c s s'. apply node_cell_same. Qed.
Next Obligation. intros c s s'. apply node_cell_same. Qed.
Next Obligation.
  intros a b s Ha Hb. destruct (set_lru_law a b LRU_PREV s) as (s' & Hr & Hs & Hl); [by left|done|done|].
  exists s'. split; [exact Hr|]. split; [done|]. split_and!.
  - rewrite l_prev_eq, Hl by by left. by rewrite decide_True.
  - rewrite !l_next_eq, Hl by by right. by rewrite decide_False by by intros [].
  - intros c Hc. by rewrite !l_prev_eq, !l_next_eq, !Hl, !decide_False by solve [by left|by right|naive_solver].
Qed.
Next Obligation.
  intros a b s Ha Hb. destruct (set_lru_law a b LRU_NEXT s) as (s' & Hr & Hs & Hl); [by right|done|done|].
  exists s'. split; [exact Hr|]. split; [done|]. split_and!.
  - rewrite l_next_eq, Hl by by right. by rewrite decide_True.
  - rewrite !l_prev_eq, Hl by by left. by rewrite decide_False by by intros [].
  - intros c Hc. by rewrite !l_prev_eq, !l_next_eq, !Hl, !decide_False by solve [by left|by right|naive_solver].
Qed.
End lru_laws.
