(* ===== verification/NodeStore.v ===== *)
(** * NodeStore: the invariant of the node store

    The state that [CNodeIndex] ([src/cache/node_index.cc]) and [CNGInfo]
    ([src/cache/ng_info.cc]) keep in shared memory, as an invariant, and the
    effect of their operations on it.  [gs] are the node groups in the order of
    their allocation: group [k] holds the nodes with ids 256k to 256k+255. *)

From Stdlib Require Import List.
From stdpp Require Import gmap.
From S2P Require Import Prelude State Ring BinMalloc NodeMem NodeGroup NodeIndex NgInfo NodeLinks.

(** ** Blocks of the allocator *)

Section blocks.
Context {A : Type} `{AllocatorLaws A}.

Lemma owns_apart a u h r h' r' :
  a_owns a u -> (h, r) ∈ u -> (h', r') ∈ u -> (h, r) ≠ (h', r') -> h + r <= h' ∨ h' + r' <= h.
Proof.
  intros Ho (u1 & u2 & ->)%list_elem_of_split Hin Hne.
  assert (u1 ++ (h, r) :: u2 ≡ₚ (h, r) :: u1 ++ u2) as Hp by solve_Permutation.
  apply (a_owns_perm _ _ _ Hp) in Ho. apply (a_owns_block _ _ _ _ Ho). set_solver.
Qed.
Lemma owns_in a u h r : a_owns a u -> (h, r) ∈ u -> 0 < h ∧ h mod 8 = 0 ∧ h + r <= 2 ^ 32.
Proof.
  intros Ho (u1 & u2 & ->)%list_elem_of_split.
  assert (u1 ++ (h, r) :: u2 ≡ₚ (h, r) :: u1 ++ u2) as Hp by solve_Permutation.
  apply (a_owns_perm _ _ _ Hp) in Ho. destruct (a_owns_block _ _ _ _ Ho) as (? & ? & ? & _).
  unfold INVALID_HANDLE in *. done.
Qed.

(** Blocks of one size take no more than the address space. *)
Lemma blocks_total (N r : Z) (hs : list Z) :
  NoDup hs -> 0 < r -> (∀ h, h ∈ hs -> 0 <= h ∧ h + r <= N) ->
  (∀ h h', h ∈ hs -> h' ∈ hs -> h ≠ h' -> h + r <= h' ∨ h' + r <= h) ->
  Z.of_nat (length hs) * r <= N ∨ hs = [].
Proof.
  intros Hnd Hr Hb Hd. destruct hs as [|h0 hs0]; [by right|left]. set (hs := h0 :: hs0) in *.
  assert (0 <= N) as HN by (destruct (Hb h0); [by left|lia]).
  assert (length (hs ≫= λ h, seqZ h r) = (length hs * Z.to_nat r)%nat) as Hl.
  { clear Hnd Hb Hd. induction hs as [|h l IH]; [done|]. cbn [mbind list_bind]. rewrite length_app, length_seqZ, IH.
    simpl. lia. }
  assert (NoDup (hs ≫= λ h, seqZ h r)) as Hnd'.
  { clear Hl Hb. induction hs as [|h l IH]; [constructor|]. cbn [mbind list_bind].
    apply NoDup_cons in Hnd as [Hh Hnd]. apply NoDup_app. split_and!.
    - apply NoDup_seqZ.
    - intros x Hx Hx'. apply elem_of_seqZ in Hx. apply list_elem_of_bind in Hx' as (h' & Hx' & Hin).
      apply elem_of_seqZ in Hx'. assert (h ≠ h') as Hne by by intros ->.
      destruct (Hd h h') as [?|?]; [by left|by right|done|lia|lia].
    - apply IH; [done|]. intros a b Ha Hb. apply Hd; by right. }
  assert ((hs ≫= λ h, seqZ h r) ⊆ seqZ 0 N) as Hsub.
  { intros x Hx. apply list_elem_of_bind in Hx as (h & Hx & Hin). apply elem_of_seqZ in Hx. apply elem_of_seqZ.
    destruct (Hb h Hin). lia. }
  pose proof (submseteq_length _ _ (NoDup_submseteq _ _ Hnd' Hsub)) as Hle.
  rewrite Hl, length_seqZ in Hle. nia.
Qed.
End blocks.

(** ** The invariant *)

Section store.
Context {A : Type} `{AllocatorLaws A}.
Implicit Types (s : cmem A) (gs P F U : list Z) (h : Z).

(** The entry of group [k] in the second-level tables; 0 when there is none. *)
Definition index_entry (k : Z) s : option Z :=
  f ← get_FI (firstIndex s) s;
  let p := default 0 (fi_h f !! (k / 65536)) in
  if p =? INVALID_HANDLE then Some 0
  else f' ← get_SI p s; Some (default 0 (si_h f' !! (k mod 65536))).

(** The second-level table of group [k]; 0 when there is none. *)
Definition index_table (k : Z) s : option Z :=
  f ← get_FI (firstIndex s) s; Some (default 0 (fi_h f !! (k / 65536))).

Record index_ok s gs : Prop := {
  ix_first : ∃ f, get_FI (firstIndex s) s = Some f;
  ix_second f i p : get_FI (firstIndex s) s = Some f -> fi_h f !! i = Some p -> p ≠ 0 ->
    0 <= i < 256 ∧ ∃ f', get_SI p s = Some f';
  ix_apart f i j p : get_FI (firstIndex s) s = Some f -> fi_h f !! i = Some p -> fi_h f !! j = Some p -> p ≠ 0 ->
    i = j;
  ix_sound k h : 0 <= k < 2 ^ 24 -> index_entry k s = Some h -> h ≠ 0 -> gs !! Z.to_nat k = Some h
}.

(** The objects are blocks of the allocator. *)
Definition objs_owned s : Prop :=
  ∃ u, a_owns (alloc s) u ∧ ∀ h o, objs s !! h = Some o -> (h, obj_size o) ∈ u ∧ 0 < obj_size o.

(** [F] and [U] are the groups on the two lists, [P] the others. *)
Record core s gs P F U : Prop := {
  co_own : objs_owned s;
  co_info : ∃ ni, get_NI (ngInfo s) s = Some ni ∧ ni_min_id ni = 256 * Z.of_nat (length gs);
  co_groups k h : gs !! k = Some h ->
    ∃ g, get_NG h s = Some g ∧ group_ok g ∧ ng_nid g = 256 * Z.of_nat k;
  co_split : P ++ F ++ U ≡ₚ gs;
  co_free : ring (ngInfo s) F s;
  co_fulll : ring (ngInfo s + FULL_HEAD) U s;
  co_index : index_ok s gs;
  co_step : 0 < step s
}.

(** *** Consequences *)

Lemma objs_owned_pos s h o : objs_owned s -> objs s !! h = Some o -> 0 < h ∧ h + obj_size o <= 2 ^ 32.
Proof. intros (u & Ho & Hu) Hin. by destruct (owns_in _ _ _ _ Ho (proj1 (Hu _ _ Hin))) as (? & _ & ?). Qed.

(** Two objects do not overlap. *)
Lemma objs_apart s h o h' o' :
  objs_owned s -> objs s !! h = Some o -> objs s !! h' = Some o' -> h ≠ h' ->
  h + obj_size o <= h' ∨ h' + obj_size o' <= h.
Proof. intros (u & Ho & Hu) H1 H2 Hne. eapply owns_apart; [exact Ho|by apply Hu..|]. by intros [= ? ?]. Qed.

Lemma get_NI_objs p i s : get_NI p s = Some i <-> objs s !! p = Some (ONGInfo i).
Proof. unfold get_NI. destruct (objs s !! p) as [[]|]; naive_solver. Qed.
Lemma get_FI_objs p i s : get_FI p s = Some i <-> objs s !! p = Some (OFirstIndex i).
Proof. unfold get_FI. destruct (objs s !! p) as [[]|]; naive_solver. Qed.
Lemma get_SI_objs p i s : get_SI p s = Some i <-> objs s !! p = Some (OSecondIndex i).
Proof. unfold get_SI. destruct (objs s !! p) as [[]|]; naive_solver. Qed.

Lemma core_group s gs P F U h : core s gs P F U -> h ∈ gs -> ∃ g, get_NG h s = Some g ∧ group_ok g.
Proof.
  intros Hc [k Hk]%list_elem_of_lookup. destruct (co_groups _ _ _ _ _ Hc k h Hk) as (g & ? & ? & _). by exists g.
Qed.
Lemma core_nodup s gs P F U : core s gs P F U -> NoDup gs.
Proof.
  intros Hc. apply NoDup_alt. intros i j h Hi Hj.
  destruct (co_groups _ _ _ _ _ Hc i h Hi) as (g & Hg & _ & Hn).
  destruct (co_groups _ _ _ _ _ Hc j h Hj) as (g' & Hg' & _ & Hn'). simplify_eq. lia.
Qed.
Lemma core_in s gs P F U h : core s gs P F U -> h ∈ P ∨ h ∈ F ∨ h ∈ U -> h ∈ gs.
Proof. intros Hc Hin. rewrite <-(co_split _ _ _ _ _ Hc), !elem_of_app. tauto. Qed.

(** There are so few groups that node ids do not wrap around. *)
Lemma core_length s gs P F U : core s gs P F U -> Z.of_nat (length gs) < 2 ^ 20.
Proof.
  intros Hc. pose proof (core_nodup _ _ _ _ _ Hc) as Hnd.
  destruct (blocks_total (2 ^ 32) NG_Size gs Hnd) as [Hl| ->]; [done| | | |done].
  - intros h Hin. destruct (core_group _ _ _ _ _ _ Hc Hin) as (g & Hg%get_NG_objs & _).
    destruct (objs_owned_pos _ _ _ (co_own _ _ _ _ _ Hc) Hg). simpl in *. lia.
  - intros h h' Hin Hin' Hne. destruct (core_group _ _ _ _ _ _ Hc Hin) as (g & Hg%get_NG_objs & _).
    destruct (core_group _ _ _ _ _ _ Hc Hin') as (g' & Hg'%get_NG_objs & _).
    apply (objs_apart _ _ _ _ _ (co_own _ _ _ _ _ Hc) Hg Hg' Hne).
  - change NG_Size with 5200 in Hl. lia.
Qed.

(** The list heads are not groups. *)
Lemma core_heads s gs P F U h :
  core s gs P F U -> h ∈ gs -> h ≠ ngInfo s ∧ h ≠ ngInfo s + FULL_HEAD.
Proof.
  intros Hc Hin. destruct (core_group _ _ _ _ _ _ Hc Hin) as (g & Hg%get_NG_objs & _).
  destruct (co_info _ _ _ _ _ Hc) as (ni & Hni%get_NI_objs & _).
  assert (h ≠ ngInfo s) as Hne by (intros ->; simplify_eq). split; [done|]. intros Heq.
  destruct (objs_apart _ _ _ _ _ (co_own _ _ _ _ _ Hc) Hg Hni Hne) as [Ho|Ho]; simpl in Ho;
    change NG_Size with 5200 in *; unfold sizeof_NG_INFO_T, FULL_HEAD in *; lia.
Qed.

(** *** Changes of the state *)

Lemma objs_owned_put s h o o0 :
  objs_owned s -> objs s !! h = Some o0 -> obj_size o = obj_size o0 -> objs_owned (put_obj h o s).
Proof.
  intros (u & Ho & Hu) Hin Hsz. exists u. split; [done|]. intros h' o'. rewrite objs_put_obj.
  destruct (decide (h = h')) as [<-|]; [rewrite lookup_insert_eq|rewrite lookup_insert_ne by done; apply Hu].
  intros [= <-]. rewrite Hsz. by apply Hu.
Qed.

Lemma M_CALLOC_run n o s :
  objs_owned s -> 0 < n < 2 ^ 32 -> obj_size o = n ->
  ∃ v a, M_CALLOC n o s = Some (v, if v =? INVALID_HANDLE then set_alloc a s else put_obj v o (set_alloc a s)) ∧
    if v =? INVALID_HANDLE then objs_owned (set_alloc a s)
    else 0 < v ∧ objs s !! v = None ∧ objs_owned (put_obj v o (set_alloc a s)) ∧
         ∀ h' o', objs s !! h' = Some o' -> v + n <= h' ∨ h' + obj_size o' <= v.
Proof.
  intros (u & Ho & Hu) Hn Hsz. destruct (a_calloc_law (alloc s) u (u32 n) Ho) as (v & a & Hr & Ho').
  { rewrite uwrap_small; lia. }
  exists v, a. unfold M_CALLOC. rewrite Hr. osimpl. rewrite uwrap_small in Ho' |- * by lia.
  destruct (v =? INVALID_HANDLE) eqn:Hv.
  - split; [done|]. exists u. done.
  - rewrite Hsz. zif. split; [done|]. destruct (owns_in _ _ v n Ho') as (Hpos & _); [by left|].
    assert (∀ h' o', objs s !! h' = Some o' -> v + n <= h' ∨ h' + obj_size o' <= v) as Hap.
    { intros h' o' Hin. destruct (Hu _ _ Hin) as [Hin' _]. by apply (a_owns_block _ _ _ _ Ho'). }
    split_and!; [done| | |done].
    + destruct (objs s !! v) as [o'|] eqn:Hin; [|done]. exfalso. destruct (Hu _ _ Hin) as [_ ?].
      destruct (Hap _ _ Hin); lia.
    + exists ((v, n) :: u). split; [done|]. intros h' o'. rewrite objs_put_obj.
      destruct (decide (v = h')) as [<-|]; [rewrite lookup_insert_eq|rewrite lookup_insert_ne by done].
      * intros [= <-]. rewrite Hsz. split; [by left|lia].
      * intros Hin. destruct (Hu _ _ Hin). split; [by right|done].
Qed.

(** The list cells in an object. *)
Definition list_view (o : option obj) : option (NG_LIST_T * option NG_LIST_T) :=
  match o with
  | Some (ONodeGroup g) => Some (ng_list g, None)
  | Some (ONGInfo i) => Some (ni_free_head i, Some (ni_full_head i))
  | _ => None
  end.
Lemma ng_cell_of_view c s :
  ng_cell_of c s = match list_view (objs s !! c) with
                   | Some (x, _) => Some x
                   | None => match list_view (objs s !! (c - FULL_HEAD)) with Some (_, x) => x | None => None end
                   end.
Proof. unfold ng_cell_of. destruct (objs s !! c) as [[]|], (objs s !! (c - FULL_HEAD)) as [[]|]; done. Qed.

Definition cells_kept s s' : Prop := ∀ c, is_Some (ng_cell_of c s) -> ng_cell_of c s' = ng_cell_of c s.

Lemma cells_kept_put h o s :
  list_view (Some o) = list_view (objs s !! h) -> cells_kept s (put_obj h o s).
Proof.
  intros Hv c _. rewrite !ng_cell_of_view, objs_put_obj.
  destruct (decide (h = c)) as [->|]; [rewrite lookup_insert_eq, Hv|rewrite lookup_insert_ne by done];
    (destruct (list_view (objs s !! c)) as [[]|]; [done|]).
  - rewrite lookup_insert_ne by (unfold FULL_HEAD; lia). done.
  - destruct (decide (h = c - FULL_HEAD)) as [->|]; [by rewrite lookup_insert_eq, Hv|by rewrite lookup_insert_ne].
Qed.
Lemma cells_kept_fresh h o s :
  objs s !! h = None -> (∀ i, objs s !! (h - FULL_HEAD) ≠ Some (ONGInfo i)) -> cells_kept s (put_obj h o s).
Proof.
  intros Hn Hf c Hc. revert Hc. rewrite !ng_cell_of_view, objs_put_obj.
  destruct (decide (h = c)) as [->|Hne].
  - rewrite Hn. simpl. destruct (objs s !! (c - FULL_HEAD)) as [[]|]; simpl; intros [? ?]; try done. by edestruct Hf.
  - rewrite (lookup_insert_ne _ h c) by done. destruct (list_view (objs s !! c)) as [[]|]; [done|].
    destruct (decide (h = c - FULL_HEAD)) as [->|]; [rewrite Hn; by intros []|by rewrite lookup_insert_ne].
Qed.
Lemma ng_ring_kept h L s s' : ring h L s -> cells_kept s s' -> ring h L s'.
Proof.
  intros Hr Hk. eapply ring_ext; [exact Hr|]. intros c _ Hc. simpl in *. rewrite (Hk c Hc). done.
Qed.

Definition tables_kept s s' : Prop :=
  firstIndex s' = firstIndex s ∧ (∀ p, get_FI p s' = get_FI p s) ∧ (∀ p, get_SI p s' = get_SI p s).
Lemma index_entry_kept k s s' : tables_kept s s' -> index_entry k s' = index_entry k s.
Proof.
  intros (H1 & H2 & H3). unfold index_entry. rewrite H1, H2. destruct (get_FI _ s) as [f|]; [|done]. osimpl.
  destruct (_ =? _); [done|]. by rewrite H3.
Qed.
Lemma index_ok_kept s s' gs : tables_kept s s' -> index_ok s gs -> index_ok s' gs.
Proof.
  intros Ht [I1 I2 I3 I4]. assert (Ht' := Ht). destruct Ht' as (H1 & H2 & H3). split.
  - by rewrite H1, H2.
  - intros f i p. rewrite H1, H2, H3. apply I2.
  - intros f i j p. rewrite H1, H2. apply I3.
  - intros k h. rewrite (index_entry_kept _ _ _ Ht). apply I4.
Qed.

Lemma core_kept_ix s s' gs P F U :
  core s gs P F U -> objs_owned s' -> ngInfo s' = ngInfo s -> index_ok s' gs -> cells_kept s s' ->
  0 < step s' ->
  (∀ ni, get_NI (ngInfo s) s = Some ni -> ∃ ni', get_NI (ngInfo s) s' = Some ni' ∧ ni_min_id ni' = ni_min_id ni) ->
  (∀ h g, h ∈ gs -> get_NG h s = Some g -> ∃ g', get_NG h s' = Some g' ∧ group_ok g' ∧ ng_nid g' = ng_nid g) ->
  core s' gs P F U.
Proof.
  intros [C1 (ni & Hni & Hmin) C3 C4 C5 C6 C7 C8] Ho Hi Ht Hk Hst Hni' Hg. split; try done.
  - destruct (Hni' ni Hni) as (ni' & Hn1 & Hn2). exists ni'. rewrite Hi, Hn2. done.
  - intros k h Hkh. destruct (C3 k h Hkh) as (g & Hg1 & _ & Hg2).
    destruct (Hg h g) as (g' & ? & ? & ?); [by eapply list_elem_of_lookup_2|done|]. exists g'. split_and!; [done..|congruence].
  - rewrite Hi. by eapply ng_ring_kept.
  - rewrite Hi. by eapply ng_ring_kept.
Qed.

Lemma core_kept s s' gs P F U :
  core s gs P F U -> objs_owned s' -> ngInfo s' = ngInfo s -> tables_kept s s' -> cells_kept s s' ->
  0 < step s' ->
  (∀ ni, get_NI (ngInfo s) s = Some ni -> ∃ ni', get_NI (ngInfo s) s' = Some ni' ∧ ni_min_id ni' = ni_min_id ni) ->
  (∀ h g, h ∈ gs -> get_NG h s = Some g -> ∃ g', get_NG h s' = Some g' ∧ group_ok g' ∧ ng_nid g' = ng_nid g) ->
  core s' gs P F U.
Proof.
  intros Hc Ho Hi Ht. apply core_kept_ix; [done..|]. eapply index_ok_kept; [exact Ht|apply Hc].
Qed.

(** An object of another kind, or with the same table, does not disturb the
    tables. *)
Lemma tables_kept_put h o o0 s :
  objs s !! h = Some o0 -> (∀ f, o0 ≠ OFirstIndex f ∧ o ≠ OFirstIndex f) -> (∀ f, o0 ≠ OSecondIndex f ∧ o ≠ OSecondIndex f) ->
  tables_kept s (put_obj h o s).
Proof.
  intros Ho Hf Hs. split; [done|]. split; intros p; unfold get_FI, get_SI; rewrite objs_put_obj;
    (destruct (decide (h = p)) as [<-|]; [rewrite lookup_insert_eq, Ho|by rewrite lookup_insert_ne]).
  - destruct o0, o; try done; naive_solver.
  - destruct o0, o; try done; naive_solver.
Qed.

(** The system's group, as the counters' object records it. *)
Definition sys_of s : option Z := ni_sys_zone <$> get_NI (ngInfo s) s.
Lemma sys_of_put h o s :
  list_view (objs s !! h) = None -> list_view (Some o) = None -> sys_of (put_obj h o s) = sys_of s.
Proof.
  intros Hv Hv'. unfold sys_of, get_NI. simpl. destruct (decide (h = ngInfo s)) as [->|].
  - rewrite lookup_insert_eq. by destruct (objs s !! ngInfo s) as [[]|], o.
  - by rewrite lookup_insert_ne.
Qed.
Lemma sys_of_objs s s' : objs s' = objs s -> ngInfo s' = ngInfo s -> sys_of s' = sys_of s.
Proof. intros H1 H2. unfold sys_of, get_NI. by rewrite H1, H2. Qed.
Lemma sys_of_group h g s :
  (∀ i, objs s !! h ≠ Some (ONGInfo i)) -> sys_of (put_obj h (ONodeGroup g) s) = sys_of s.
Proof.
  intros Hi. unfold sys_of, get_NI. simpl. destruct (decide (h = ngInfo s)) as [->|].
  - rewrite lookup_insert_eq. specialize (Hi). destruct (objs s !! ngInfo s) as [[]|]; try done. by edestruct Hi.
  - by rewrite lookup_insert_ne.
Qed.

(** ** Groups and counters *)

(** Every group of [s] is there in [s'], with the same nodes. *)
Definition nodes_kept s s' : Prop :=
  ∀ h g, get_NG h s = Some g -> ∃ g', get_NG h s' = Some g' ∧ set_ng_list (ng_list g) g' = g.
Lemma nodes_kept_refl s : nodes_kept s s.
Proof. intros h g Hg. exists g. split; [done|]. by destruct g. Qed.
Lemma nodes_kept_trans s1 s2 s3 : nodes_kept s1 s2 -> nodes_kept s2 s3 -> nodes_kept s1 s3.
Proof.
  intros H1 H2 h g Hg. destruct (H1 h g Hg) as (g1 & Hg1 & E1). destruct (H2 h g1 Hg1) as (g2 & Hg2 & E2).
  exists g2. split; [done|]. destruct g, g1, g2. unfold set_ng_list in *. simpl in *. congruence.
Qed.
Lemma nodes_kept_put h o s : (∀ g, objs s !! h ≠ Some (ONodeGroup g)) -> nodes_kept s (put_obj h o s).
Proof.
  intros Hn h' g Hg. exists g. split; [|by destruct g]. rewrite get_NG_put_ne; [done|].
  intros <-. apply get_NG_objs in Hg. by eapply Hn.
Qed.
Lemma nodes_kept_objs s s' : objs s' = objs s -> nodes_kept s s'.
Proof. intros Ho h g Hg. exists g. split; [|by destruct g]. unfold get_NG in *. by rewrite Ho. Qed.

Lemma set_list_attrs l g g' : set_ng_list l g' = g -> attrs g' = attrs g ∧ ng_nid g' = ng_nid g ∧ is_full g' = is_full g.
Proof. intros <-. done. Qed.
Lemma ng_inv_set_list l g ds : ng_inv (set_ng_list l g) ds <-> ng_inv g ds.
Proof. split; intros [H1 H2 H3 H4 H5 H6 H7]; split; try done; by eapply dele_chain_data; [|exact H7]. Qed.
Lemma group_ok_set_list l g : group_ok (set_ng_list l g) <-> group_ok g.
Proof. unfold group_ok. by setoid_rewrite ng_inv_set_list. Qed.
Lemma in_use_set_list l g i : in_use (set_ng_list l g) i <-> in_use g i.
Proof. unfold in_use. by setoid_rewrite ng_inv_set_list. Qed.

(** What the clients of the groups see of them. *)
Lemma nodes_kept_group s s' h g :
  nodes_kept s s' -> get_NG h s = Some g ->
  ∃ g', get_NG h s' = Some g' ∧ attrs g' = attrs g ∧ ng_nid g' = ng_nid g ∧ is_full g' = is_full g ∧
        (group_ok g' <-> group_ok g) ∧ ∀ i, in_use g' i <-> in_use g i.
Proof.
  intros Hk Hg. destruct (Hk h g Hg) as (g' & Hg' & E). exists g'. split; [done|].
  destruct (set_list_attrs _ _ _ E) as (? & ? & ?). split_and!; try done.
  - by rewrite <-E, group_ok_set_list.
  - intros i. by rewrite <-E, in_use_set_list.
Qed.

Lemma core_put_group s gs P F U h g g' :
  core s gs P F U -> get_NG h s = Some g -> ng_list g' = ng_list g -> ng_nid g' = ng_nid g -> group_ok g' ->
  core (put_obj h (ONodeGroup g') s) gs P F U.
Proof.
  intros Hc Hg Hl Hn Hok. assert (Hg' := Hg). apply get_NG_objs in Hg'.
  eapply core_kept; [exact Hc|by eapply objs_owned_put; [apply Hc|exact Hg'|]|done| | |apply Hc| |].
  - by eapply tables_kept_put; [exact Hg'| |]; split.
  - apply cells_kept_put. rewrite Hg'. simpl. by rewrite Hl.
  - intros ni Hni. exists ni. split; [|done]. unfold get_NI in *. rewrite objs_put_obj.
    destruct (decide (h = ngInfo s)) as [->|]; [by rewrite Hg' in Hni|by rewrite lookup_insert_ne].
  - intros h' g0 Hin Hg0. destruct (decide (h = h')) as [<-|].
    + exists g'. rewrite get_NG_put. simplify_eq. done.
    + exists g0. rewrite get_NG_put_ne by done. split_and!; [done| |done].
      destruct (core_group _ _ _ _ _ _ Hc Hin) as (g1 & Hg1 & ?). by simplify_eq.
Qed.

Lemma core_put_info s gs P F U ni ni' :
  core s gs P F U -> get_NI (ngInfo s) s = Some ni ->
  ni_free_head ni' = ni_free_head ni -> ni_full_head ni' = ni_full_head ni -> ni_min_id ni' = ni_min_id ni ->
  core (put_obj (ngInfo s) (ONGInfo ni') s) gs P F U ∧ nodes_kept s (put_obj (ngInfo s) (ONGInfo ni') s).
Proof.
  intros Hc Hni Hl1 Hl2 Hm. assert (Hni' := Hni). apply get_NI_objs in Hni'.
  assert (nodes_kept s (put_obj (ngInfo s) (ONGInfo ni') s)) as Hnk by (apply nodes_kept_put; intros g; by rewrite Hni').
  split; [|done].
  eapply core_kept; [exact Hc|by eapply objs_owned_put; [apply Hc|exact Hni'|]|done| | |apply Hc| |].
  - by eapply tables_kept_put; [exact Hni'| |]; split.
  - apply cells_kept_put. rewrite Hni'. simpl. by rewrite Hl1, Hl2.
  - intros ni0 H0'. exists ni'. split; [|congruence]. apply get_NI_objs. by rewrite objs_put_obj, lookup_insert_eq.
  - intros h' g0 Hin Hg0. destruct (nodes_kept_group _ _ _ _ Hnk Hg0) as (g1 & ? & _ & ? & _ & Hok & _).
    exists g1. split_and!; [done| |done]. apply Hok. destruct (core_group _ _ _ _ _ _ Hc Hin) as (g2 & ? & ?).
    by simplify_eq.
Qed.

(** Members outside the shared memory: [step], [fail] and the statistics. *)
Lemma core_put_outer s s' gs P F U :
  core s gs P F U -> alloc s' = alloc s -> objs s' = objs s -> firstIndex s' = firstIndex s -> ngInfo s' = ngInfo s ->
  0 < step s' -> core s' gs P F U.
Proof.
  intros Hc Ha Ho Hf Hn Hst. eapply core_kept; [exact Hc| |done| | |done| |].
  - destruct (co_own _ _ _ _ _ Hc) as (u & ? & ?). exists u. by rewrite Ha, Ho.
  - split; [done|]. unfold get_FI, get_SI. by rewrite Ho.
  - intros c _. by rewrite !ng_cell_of_view, Ho.
  - intros ni Hni. exists ni. split; [|done]. unfold get_NI in *. by rewrite Ho.
  - intros h g Hin Hg. exists g. unfold get_NG in *. rewrite Ho. split_and!; try done.
    destruct (core_group _ _ _ _ _ _ Hc Hin) as (g2 & Hg2 & ?). unfold get_NG in Hg2. by simplify_eq.
Qed.

(** ** List operations *)

Lemma ng_same_sys s s' : objs_rel ng_obj_same s s' -> sys_of s' = sys_of s.
Proof.
  intros Hr. destruct (objs_rel_frame _ _ _ Hr) as (_ & _ & Hi & _). unfold sys_of, get_NI. rewrite Hi.
  pose proof (proj2 Hr (ngInfo s)) as Hrp. inversion Hrp as [x y Hxy Hx Hy|Hx Hy]; [|done].
  destruct x, y; simpl in Hxy |- *; try done. by rewrite <-Hxy.
Qed.

Lemma ng_same_nodes_kept s s' : objs_rel ng_obj_same s s' -> nodes_kept s s'.
Proof.
  intros Hr h g Hg%get_NG_objs. destruct (objs_rel_lookup _ _ _ _ _ Hr Hg) as (o' & Ho & Hs).
  destruct o'; simpl in Hs; try done. eexists. split; [by apply get_NG_objs|done].
Qed.

Lemma ng_same_tables s s' : objs_rel ng_obj_same s s' -> tables_kept s s'.
Proof.
  intros Hr. destruct (objs_rel_frame _ _ _ Hr) as (_ & Hf & _). split; [done|].
  split; intros p; unfold get_FI, get_SI; pose proof (proj2 Hr p) as Hrp;
    inversion Hrp as [x y Hxy Hx Hy|Hx Hy]; try done; destruct x, y; simpl in Hxy; by simplify_eq.
Qed.
Lemma ng_same_owned s s' : objs_rel ng_obj_same s s' -> objs_owned s -> objs_owned s'.
Proof.
  intros Hr (u & Ho & Hu). destruct (objs_rel_frame _ _ _ Hr) as (Ha & _). exists u. rewrite Ha. split; [done|].
  intros h o' Ho'. pose proof (proj2 Hr h) as Hrh. inversion Hrh as [x y Hxy Hx Hy|Hx Hy]; [|by rewrite <-Hy in Ho'].
  rewrite <-Hy in Ho'. simplify_eq. symmetry in Hx. destruct (Hu _ _ Hx).
  assert (obj_size o' = obj_size x) as ->; [|done]. destruct x, o'; simpl in Hxy; try done; by simplify_eq.
Qed.

Lemma core_lists s s' gs P F U P' F' U' :
  core s gs P F U -> objs_rel ng_obj_same s s' -> P' ++ F' ++ U' ≡ₚ P ++ F ++ U ->
  ring (ngInfo s) F' s' -> ring (ngInfo s + FULL_HEAD) U' s' -> core s' gs P' F' U'.
Proof.
  intros Hc Hr Hp HF HU. pose proof (ng_same_nodes_kept _ _ Hr) as Hnk.
  destruct (objs_rel_frame _ _ _ Hr) as (Ha & Hf & Hn & Hh & Hst & _).
  pose proof (ng_same_tables _ _ Hr) as Ht.
  destruct Hc as [C1 (ni & Hni & Hmin) C3 C4 C5 C6 C7 C8]. split; try done.
  - by eapply ng_same_owned.
  - apply get_NI_objs in Hni. destruct (objs_rel_lookup _ _ _ _ _ Hr Hni) as (o' & Ho' & Hs).
    destruct o'; simpl in Hs; try done. eexists. rewrite Hn. split; [by apply get_NI_objs|]. rewrite <-Hmin, <-Hs. done.
  - intros k h Hk. destruct (C3 k h Hk) as (g & Hg & Hok & Hnid).
    destruct (nodes_kept_group _ _ _ _ Hnk Hg) as (g1 & ? & _ & ? & _ & Hok' & _).
    exists g1. split_and!; [done|by apply Hok'|congruence].
  - by rewrite Hp.
  - by rewrite Hn.
  - by rewrite Hn.
  - by eapply index_ok_kept.
  - by rewrite Hst.
Qed.

(** The two rings share no cell. *)
Lemma core_disjoint s gs P F U :
  core s gs P F U ->
  (∀ c, c ∈ ngInfo s :: F -> c ∉ (ngInfo s + FULL_HEAD) :: U) ∧
  (∀ p, p ∈ P -> (p ∉ ngInfo s :: F) ∧ (p ∉ (ngInfo s + FULL_HEAD) :: U)).
Proof.
  intros Hc. pose proof (core_nodup _ _ _ _ _ Hc) as Hnd. rewrite <-(co_split _ _ _ _ _ Hc) in Hnd.
  apply NoDup_app in Hnd as (_ & HPd & (_ & HFU & _)%NoDup_app).
  assert (∀ c, c ∈ P ∨ c ∈ F ∨ c ∈ U -> c ≠ ngInfo s ∧ c ≠ ngInfo s + FULL_HEAD) as Hh.
  { intros c Hin. eapply core_heads; [exact Hc|]. by eapply core_in. }
  assert (ngInfo s ≠ ngInfo s + FULL_HEAD) as Hne by (unfold FULL_HEAD; lia). split.
  - intros c [->|Hc']%elem_of_cons; rewrite not_elem_of_cons; split; try done.
    + intros ?. by destruct (Hh (ngInfo s)); [auto|].
    + apply Hh. auto.
    + by apply HFU.
  - intros p Hp. destruct (Hh p) as [? ?]; [auto|]. rewrite !not_elem_of_cons. split; (split; [done|]).
    + intros ?. apply (HPd p Hp). apply elem_of_app. auto.
    + intros ?. apply (HPd p Hp). apply elem_of_app. auto.
Qed.

Lemma core_cell s gs P F U h : core s gs P F U -> h ∈ gs -> is_Some (ng_cell_of h s).
Proof.
  intros Hc Hin. destruct (core_group _ _ _ _ _ _ Hc Hin) as (g & Hg%get_NG_objs & _).
  unfold ng_cell_of. rewrite Hg. by eexists.
Qed.

Lemma FreeListAdd_run s gs P1 v P2 F U :
  core s gs (P1 ++ v :: P2) F U ->
  runs (FreeListAdd v) s (λ _ s', core s' gs (P1 ++ P2) (v :: F) U ∧ objs_rel ng_obj_same s s').
Proof.
  intros Hc. destruct (core_disjoint _ _ _ _ _ Hc) as [HFU HP].
  assert (v ∈ P1 ++ v :: P2) as Hv by set_solver. destruct (HP v Hv) as [HvF HvU].
  unfold FreeListAdd. eapply runs_step; [done|].
  eapply runs_mono; [apply (list_add_ring v (ngInfo s) F); [apply Hc| |done]|].
  { eapply core_cell; [exact Hc|]. eapply core_in; [exact Hc|auto]. }
  intros _ s' [Hr Hk]. split; [|apply Hk]. eapply core_lists; [exact Hc|apply Hk| |exact Hr|].
  - solve_Permutation.
  - eapply ring_kept; [apply Hc|exact Hk|]. intros c [->|Hc']%elem_of_cons; [done|by apply HFU].
Qed.

Lemma FullListAdd_run s gs P1 v P2 F U :
  core s gs (P1 ++ v :: P2) F U ->
  runs (FullListAdd v) s (λ _ s', core s' gs (P1 ++ P2) F (v :: U) ∧ objs_rel ng_obj_same s s').
Proof.
  intros Hc. destruct (core_disjoint _ _ _ _ _ Hc) as [HFU HP].
  assert (v ∈ P1 ++ v :: P2) as Hv by set_solver. destruct (HP v Hv) as [HvF HvU].
  unfold FullListAdd. eapply runs_step; [done|].
  eapply runs_mono; [apply (list_add_ring v (ngInfo s + FULL_HEAD) U); [apply Hc| |done]|].
  { eapply core_cell; [exact Hc|]. eapply core_in; [exact Hc|auto]. }
  intros _ s' [Hr Hk]. split; [|apply Hk]. eapply core_lists; [exact Hc|apply Hk| | |exact Hr].
  - solve_Permutation.
  - eapply ring_kept; [apply Hc|exact Hk|]. intros c [->|Hc']%elem_of_cons; [done|].
    intros Hin. by apply (HFU c).
Qed.

(** A group taken off its list, its links cleared. *)
Lemma NG_LIST_DEL_run x h u v s :
  ring h (u ++ x :: v) s ->
  runs (NG_LIST_DEL x) s (λ _ s', ring h (u ++ v) s' ∧ links_kept (h :: u ++ x :: v) s s').
Proof.
  intros Hr. eapply runs_mono.
  - eapply (list_unlink_then x h u v s _ (λ s', l_next x s' = Some INVALID_HANDLE ∧ l_prev x s' = Some INVALID_HANDLE));
      [done|]. intros s1 Hx. by apply null_links.
  - naive_solver.
Qed.

Lemma ListDel_free s gs P F1 v F2 U :
  core s gs P (F1 ++ v :: F2) U ->
  runs (ListDel v) s (λ _ s', core s' gs (v :: P) (F1 ++ F2) U ∧ objs_rel ng_obj_same s s').
Proof.
  intros Hc. destruct (core_disjoint _ _ _ _ _ Hc) as [HFU HP].
  eapply runs_mono; [apply NG_LIST_DEL_run, Hc|]. intros _ s' [Hr Hk]. split; [|apply Hk].
  eapply core_lists; [exact Hc|apply Hk| |exact Hr|].
  - solve_Permutation.
  - eapply ring_kept; [apply Hc|exact Hk|]. intros c Hin. by apply HFU.
Qed.
Lemma ListDel_full s gs P F U1 v U2 :
  core s gs P F (U1 ++ v :: U2) ->
  runs (ListDel v) s (λ _ s', core s' gs (v :: P) F (U1 ++ U2) ∧ objs_rel ng_obj_same s s').
Proof.
  intros Hc. destruct (core_disjoint _ _ _ _ _ Hc) as [HFU HP].
  eapply runs_mono; [apply NG_LIST_DEL_run, Hc|]. intros _ s' [Hr Hk]. split; [|apply Hk].
  eapply core_lists; [exact Hc|apply Hk| | |exact Hr].
  - solve_Permutation.
  - eapply ring_kept; [apply Hc|exact Hk|]. intros c Hin Hin'. by apply (HFU c).
Qed.

(** ** A new group *)

Lemma cells_kept_trans s1 s2 s3 : cells_kept s1 s2 -> cells_kept s2 s3 -> cells_kept s1 s3.
Proof. intros H1 H2 c Hc. rewrite H2, H1; [done|done|by rewrite H1]. Qed.
Lemma tables_kept_trans s1 s2 s3 : tables_kept s1 s2 -> tables_kept s2 s3 -> tables_kept s1 s3.
Proof.
  intros (H1 & H2 & H3) (H4 & H5 & H6). split; [congruence|].
  split; intros p; [rewrite H5; apply H2|rewrite H6; apply H3].
Qed.
Lemma tables_kept_refl s : tables_kept s s.
Proof. done. Qed.

Lemma index_ok_prefix s gs gs' : index_ok s gs -> index_ok s (gs ++ gs').
Proof.
  intros [I1 I2 I3 I4]. split; try done. intros k h Hk Hi Hh. by apply lookup_app_l_Some, I4.
Qed.

Lemma ni_get_run {B} (f : NG_INFO_T -> B) ni s : get_NI (ngInfo s) s = Some ni -> ni_get f s = Some (f ni, s).
Proof. intros Hn. unfold ni_get. by rewrite Hn. Qed.
Lemma ni_put_run f ni s :
  get_NI (ngInfo s) s = Some ni -> ni_put f s = Some (tt, put_obj (ngInfo s) (ONGInfo (f ni)) s).
Proof. intros Hn. unfold ni_put. by rewrite Hn. Qed.
Lemma get_NI_put p ni s : get_NI p (put_obj p (ONGInfo ni) s) = Some ni.
Proof. apply get_NI_objs. by rewrite objs_put_obj, lookup_insert_eq. Qed.
Lemma get_NI_put_ne p h o s : h ≠ p -> get_NI p (put_obj h o s) = get_NI p s.
Proof. intros. unfold get_NI. by rewrite objs_put_obj, lookup_insert_ne. Qed.

Lemma core_alloc s gs P F U a : core s gs P F U -> objs_owned (set_alloc a s) -> core (set_alloc a s) gs P F U.
Proof.
  intros Hc Ho. eapply core_kept; [exact Hc|done|done|done|done|apply Hc|by intros ni Hni; exists ni|].
  intros h g Hin Hg. exists g. split; [exact Hg|].
  destruct (core_group _ _ _ _ _ _ Hc Hin) as (g2 & Hg2 & ?). by simplify_eq.
Qed.

(** The state with a set-up group at a fresh block and the counters updated. *)
Lemma core_new_group s gs P F U a v g ni ni' :
  core s gs P F U -> objs s !! v = None -> 0 < v ->
  (∀ h' o', objs s !! h' = Some o' -> v + NG_Size <= h' ∨ h' + obj_size o' <= v) ->
  objs_owned (put_obj v (ONodeGroup g) (set_alloc a s)) ->
  group_ok g -> ng_nid g = 256 * Z.of_nat (length gs) ->
  get_NI (ngInfo s) s = Some ni ->
  ni_free_head ni' = ni_free_head ni -> ni_full_head ni' = ni_full_head ni ->
  ni_min_id ni' = ni_min_id ni + 256 -> ni_sys_zone ni' = ni_sys_zone ni ->
  let s2 := put_obj (ngInfo s) (ONGInfo ni') (put_obj v (ONodeGroup g) (set_alloc a s)) in
  core s2 (gs ++ [v]) (v :: P) F U ∧ nodes_kept s s2 ∧ tables_kept s s2 ∧ get_NG v s2 = Some g ∧ sys_of s2 = sys_of s.
Proof.
  intros Hc Hv Hpos Hap Ho Hok Hn Hni Hf1 Hf2 Hm Hsys s2. set (s1 := put_obj v (ONodeGroup g) (set_alloc a s)) in *.
  assert (Hni' := Hni). apply get_NI_objs in Hni'.
  assert (v ≠ ngInfo s) as Hne by (intros ->; by rewrite Hv in Hni').
  assert (objs s1 !! ngInfo s = Some (ONGInfo ni)) as Hni1 by (unfold s1; by rewrite objs_put_obj, lookup_insert_ne).
  assert (cells_kept s s2) as Hck.
  { eapply cells_kept_trans; [apply (cells_kept_fresh v (ONodeGroup g) (set_alloc a s))|apply cells_kept_put].
    - done.
    - intros i Hi. destruct (Hap _ _ Hi) as [?|?]; unfold FULL_HEAD in *; simpl in *;
        unfold sizeof_NG_INFO_T in *; change NG_Size with 5200 in *; lia.
    - rewrite Hni1. simpl. by rewrite Hf1, Hf2. }
  assert (nodes_kept s s2) as Hnk.
  { eapply nodes_kept_trans; [apply (nodes_kept_put v (ONodeGroup g) (set_alloc a s))|apply nodes_kept_put].
    - intros g0. simpl. by rewrite Hv.
    - intros g0. by rewrite Hni1. }
  assert (tables_kept s s2) as Ht.
  { split; [done|]. split; intros p; unfold get_FI, get_SI, s2; rewrite objs_put_obj;
      (destruct (decide (ngInfo s = p)) as [<-|]; [by rewrite lookup_insert_eq, Hni'|rewrite lookup_insert_ne by done]);
      unfold s1; rewrite objs_put_obj;
      (destruct (decide (v = p)) as [<-|]; [by rewrite lookup_insert_eq, Hv|by rewrite lookup_insert_ne]). }
  assert (get_NG v s2 = Some g) as Hgv by (unfold s2; rewrite get_NG_put_ne by done; apply get_NG_put).
  assert (sys_of s2 = sys_of s) as Hss.
  { unfold sys_of. change (ngInfo s2) with (ngInfo s). unfold s2. rewrite get_NI_put, Hni. simpl. by rewrite Hsys. }
  split_and!; try done. destruct Hc as [C1 (ni0 & Hni0 & Hmin) C3 C4 C5 C6 C7 C8]. simplify_eq. split.
  - eapply objs_owned_put; [exact Ho|exact Hni1|done].
  - exists ni'. split; [apply get_NI_put|]. rewrite Hm, Hmin, length_app. simpl. lia.
  - intros k h [Hk|[Hk Hh]]%lookup_app_Some.
    + destruct (C3 k h Hk) as (g0 & Hg0 & Hok0 & Hn0).
      destruct (nodes_kept_group _ _ _ _ Hnk Hg0) as (g1 & ? & _ & ? & _ & Hok' & _).
      exists g1. split_and!; [done|by apply Hok'|congruence].
    + destruct (k - length gs)%nat eqn:Hkl; [|done]. simplify_eq/=. exists g. split_and!; [done|done|]. rewrite Hn. lia.
  - simpl. rewrite C4. solve_Permutation.
  - by eapply ng_ring_kept.
  - by eapply ng_ring_kept.
  - eapply index_ok_kept; [exact Ht|]. by apply index_ok_prefix.
  - done.
Qed.

(** The effect of [AllocateNG]: no group, or a fresh one on no list. *)
Definition new_group s gs P F U v s' : Prop :=
  core s' (gs ++ [v]) (v :: P) F U ∧ nodes_kept s s' ∧ tables_kept s s' ∧ (v ∉ gs) ∧
  ngInfo s' = ngInfo s ∧ sys_of s' = sys_of s ∧ step s' = step s ∧
  ∃ g, get_NG v s' = Some g ∧ is_full g = false ∧ (∀ i, ¬ in_use g i) ∧ ng_inv g [] ∧ ng_free g = 0.

Lemma AllocateNG_run s gs P F U :
  core s gs P F U ->
  runs AllocateNG s (λ v s',
    (v = 0 ∧ core s' gs P F U ∧ objs s' = objs s ∧ ngInfo s' = ngInfo s ∧ firstIndex s' = firstIndex s ∧ step s' = step s ∧
       (∃ a, a_calloc (u32 NG_Size) (alloc s) = Some (INVALID_HANDLE, a))) ∨
    (v ≠ 0 ∧ new_group s gs P F U v s')).
Proof.
  intros Hc. pose proof (core_length _ _ _ _ _ Hc) as Hlen. unfold AllocateNG.
  destruct (M_CALLOC_run NG_Size (ONodeGroup zero_NG) s) as (v & a & Hr & Hv); [apply Hc|done|done|].
  eapply runs_step; [exact Hr|]. rewrite (Z.eqb_sym INVALID_HANDLE).
  destruct (v =? INVALID_HANDLE) eqn:Hv0.
  { apply Z.eqb_eq in Hv0 as ->. apply runs_ret. left. split_and!; [done|by apply core_alloc|done..|].
    exists a. unfold M_CALLOC in Hr. destruct (a_calloc _ _) as [[v' a']|]; [|done]. simpl in Hr.
    destruct (v' =? INVALID_HANDLE) eqn:Hv'; [by simplify_eq|].
    injection Hr as -> _. by rewrite Z.eqb_refl in Hv'. }
  destruct Hv as (Hpos & Hnone & Ho & Hap). set (s1 := put_obj v _ _) in *.
  destruct (co_info _ _ _ _ _ Hc) as (ni & Hni & Hmin).
  assert (v ≠ ngInfo s) as Hne by (intros ->; apply get_NI_objs in Hni; by rewrite Hnone in Hni).
  assert (get_NI (ngInfo s1) s1 = Some ni) as Hni1 by (unfold s1; by rewrite get_NI_put_ne).
  eapply runs_step; [by apply ni_get_run|]. rewrite Hmin.
  destruct (NG_Init_run v (256 * Z.of_nat (length gs)) zero_NG s1) as (g & Hg & Hinv & Hnid & Hfree & Hattr);
    [apply get_NG_put|lia|lia|Z.div_mod_to_equations; lia|].
  eapply runs_step; [exact Hg|]. unfold s1. rewrite put_obj_twice. unfold s1 in Ho. clear s1 Hni1 Hg Hr.
  set (s2 := put_obj v (ONodeGroup g) (set_alloc a s)).
  assert (get_NI (ngInfo s2) s2 = Some ni) as Hni2 by (unfold s2; by rewrite get_NI_put_ne).
  eapply runs_step; [apply (ni_put_run _ ni s2 Hni2)|]. cbv beta. set (ni2 := set_ni_min_id _ ni).
  eapply runs_step; [apply (ni_put_run _ ni2 (put_obj (ngInfo s2) (ONGInfo ni2) s2)), get_NI_put|].
  change (ngInfo (put_obj (ngInfo s2) (ONGInfo ni2) s2)) with (ngInfo s2). rewrite put_obj_twice.
  cbv beta. set (ni3 := set_ni_used_ng _ ni2).
  eapply runs_step; [apply (ni_get_run _ ni3 (put_obj (ngInfo s2) (ONGInfo ni3) s2)), get_NI_put|].
  eapply runs_step; [done|]. apply runs_ret.
  right. split; [lia|].
  destruct (core_new_group s gs P F U a v g ni ni3) as (Hc' & Hnk & Ht & Hgv & Hss); try done.
  { rewrite <-(put_obj_twice v _ (ONodeGroup zero_NG)).
    eapply objs_owned_put; [exact Ho|by rewrite objs_put_obj, lookup_insert_eq|done]. }
  { by exists []. }
  { unfold ni3, ni2. simpl. unfold NODE_GROUP_INCLUDE_NODES. rewrite Hmin, uwrap_small; lia. }
  change (put_obj (ngInfo s) (ONGInfo ni3) (put_obj v (ONodeGroup g) (set_alloc a s)))
    with (put_obj (ngInfo s2) (ONGInfo ni3) s2) in *.
  split_and!; try done.
  - eapply core_put_outer; [exact Hc'|done..|apply Hc'].
  - intros Hin. destruct (core_group _ _ _ _ _ _ Hc Hin) as (g0 & Hg0%get_NG_objs & _). by rewrite Hnone in Hg0.
  - exists g. split; [done|]. split_and!.
    + rewrite (is_full_spec _ _ Hinv). apply bool_decide_false. rewrite Hfree. by intros [_ ?].
    + intros i Hi. rewrite (in_use_used _ _ _ Hinv) in Hi. destruct Hi as [Hi _]. lia.
    + done.
    + done.
Qed.

(** ** Preallocation *)

Definition not_full s (L : list Z) : Prop := ∀ h g, h ∈ L -> get_NG h s = Some g -> is_full g = false.
Definition all_full s (L : list Z) : Prop := ∀ h g, h ∈ L -> get_NG h s = Some g -> is_full g = true.

(** [s'] has the groups of [s] and, with no node in use yet, the groups [new]. *)
Record grown s gs s' (new : list Z) : Prop := {
  gr_kept : nodes_kept s s';
  gr_tables : tables_kept s s';
  gr_info : ngInfo s' = ngInfo s;
  gr_sys : sys_of s' = sys_of s;
  gr_new v : v ∈ new -> v ∉ gs;
  gr_empty v : v ∈ new -> ∃ g, get_NG v s' = Some g ∧ is_full g = false ∧ ∀ i, ¬ in_use g i
}.

Lemma grown_refl s gs : grown s gs s [].
Proof. split; try done; [apply nodes_kept_refl|set_solver|set_solver]. Qed.

Lemma grown_trans s gs s1 n1 s2 n2 : grown s gs s1 n1 -> grown s1 (gs ++ n1) s2 n2 -> grown s gs s2 (n1 ++ n2).
Proof.
  intros [K1 T1 I1 S1 N1 E1] [K2 T2 I2 S2 N2 E2]. split.
  - by eapply nodes_kept_trans.
  - by eapply tables_kept_trans.
  - congruence.
  - congruence.
  - intros v [Hv|Hv]%elem_of_app; [by apply N1|]. specialize (N2 v Hv). set_solver.
  - intros v [Hv|Hv]%elem_of_app; [|by apply E2]. destruct (E1 v Hv) as (g & Hg & Hf & Hi).
    destruct (nodes_kept_group _ _ _ _ K2 Hg) as (g' & Hg' & _ & _ & Hf' & _ & Hi'). exists g'.
    split_and!; [done|congruence|]. intros i. rewrite Hi'. apply Hi.
Qed.

Lemma not_full_kept s s' gs P F U L :
  core s gs P F U -> (∀ h, h ∈ L -> h ∈ gs) -> nodes_kept s s' -> not_full s L -> not_full s' L.
Proof.
  intros Hc Hin Hk Hn h g' Hh Hg'. destruct (core_group _ _ _ _ _ _ Hc (Hin h Hh)) as (g & Hg & _).
  destruct (nodes_kept_group _ _ _ _ Hk Hg) as (g1 & Hg1 & _ & _ & Hf & _). simplify_eq. rewrite Hf. by eapply Hn.
Qed.
Lemma all_full_kept s s' gs P F U L :
  core s gs P F U -> (∀ h, h ∈ L -> h ∈ gs) -> nodes_kept s s' -> all_full s L -> all_full s' L.
Proof.
  intros Hc Hin Hk Hn h g' Hh Hg'. destruct (core_group _ _ _ _ _ _ Hc (Hin h Hh)) as (g & Hg & _).
  destruct (nodes_kept_group _ _ _ _ Hk Hg) as (g1 & Hg1 & _ & _ & Hf & _). simplify_eq. rewrite Hf. by eapply Hn.
Qed.

Lemma prealloc_run n i s gs P F U :
  core s gs P F U -> 0 <= i ->
  runs (prealloc n i) s (λ ok s', ∃ new, core s' (gs ++ new) P (rev new ++ F) U ∧ grown s gs s' new ∧
    (if ok : bool then n = O ∨ i ≠ 0 ∨ new ≠ []
     else new = [] ∧ i = 0 ∧ ∃ a, a_calloc (u32 NG_Size) (alloc s) = Some (INVALID_HANDLE, a))).
Proof.
  revert i s gs F. induction n as [|n IH]; intros i s gs F Hc Hi0; cbn [prealloc].
  { apply runs_ret. exists []. simpl. rewrite app_nil_r. split_and!; [done|apply grown_refl|by left]. }
  eapply runs_bind; [by apply AllocateNG_run|]. intros v s1 [(-> & Hc1 & Ho & Hi & Hf & Hst & Hfull)|(Hv & Hnew)].
  - rewrite Z.eqb_refl. assert (∀ s2, objs s2 = objs s -> firstIndex s2 = firstIndex s -> ngInfo s2 = ngInfo s ->
      grown s gs s2 []) as Hgr.
    { intros s2 Ho2 Hf2 Hi2. split; try done; [by apply nodes_kept_objs| |by apply sys_of_objs|set_solver|set_solver].
      split; [done|]. unfold get_FI, get_SI. by rewrite Ho2. }
    destruct (Z.eqb_spec i 0) as [->|Hi1].
    + apply runs_ret. exists []. simpl. rewrite app_nil_r. split_and!; try done. by apply Hgr.
    + eapply runs_step; [done|]. apply runs_ret. exists []. simpl. rewrite app_nil_r. split_and!.
      * eapply core_put_outer; [exact Hc1|done..].
      * by apply Hgr.
      * by right; left.
  - zif. destruct Hnew as (Hc1 & Hnk & Ht & Hvn & Hi & Hsys & Hst & g & Hg & Hfull & Huse & _).
    eapply runs_bind; [apply (FreeListAdd_run s1 (gs ++ [v]) [] v P F U Hc1)|]. intros [] s2 [Hc2 Hr2].
    eapply runs_mono; [apply IH; [exact Hc2|lia]|]. intros ok s3 (new & Hc3 & Hg3 & Hok). exists (v :: new).
    simpl. rewrite <-!app_assoc in *. simpl in *. split_and!; [done| |].
    + apply (grown_trans _ _ s2 [v]); [|done]. pose proof (ng_same_nodes_kept _ _ Hr2) as Hnk2. split.
      * by eapply nodes_kept_trans.
      * eapply tables_kept_trans; [exact Ht|by apply ng_same_tables].
      * destruct (objs_rel_frame _ _ _ Hr2) as (_ & _ & -> & _). done.
      * by rewrite (ng_same_sys _ _ Hr2).
      * by intros w ->%list_elem_of_singleton.
      * intros w ->%list_elem_of_singleton. destruct (nodes_kept_group _ _ _ _ Hnk2 Hg) as (g2 & Hg2 & _ & _ & Hf2 & _ & Hu2).
        exists g2. split_and!; [done|congruence|]. intros j. rewrite Hu2. apply Huse.
    + destruct ok; [by right; right|]. lia.
Qed.

Lemma elem_of_rev (x : Z) l : x ∈ rev l <-> x ∈ l.
Proof. by rewrite !list_elem_of_In, <-in_rev. Qed.

Lemma core_group_pos s gs P F U h : core s gs P F U -> h ∈ gs -> 0 < h.
Proof.
  intros Hc Hin. destruct (core_group _ _ _ _ _ _ Hc Hin) as (g & Hg%get_NG_objs & _).
  by destruct (objs_owned_pos _ _ _ (co_own _ _ _ _ _ Hc) Hg).
Qed.

Lemma FindFreeNG_run s gs P F U : core s gs P F U -> FindFreeNG s = Some (default 0 (head F), s).
Proof.
  intros Hc. unfold FindFreeNG, NG_LIST_EMPTY. rewrite (step_bind _ _ _ (ngInfo s) s) by done.
  rewrite (step_bind _ _ _ _ _ (list_empty_run _ _ _ (co_free _ _ _ _ _ Hc))).
  destruct F as [|f F]; [by rewrite bool_decide_true|]. rewrite bool_decide_false by done.
  destruct (co_info _ _ _ _ _ Hc) as (ni & Hni & _). rewrite (ni_get_run _ _ _ Hni).
  destruct (co_free _ _ _ _ _ Hc) as (_ & _ & [Hn _] & _). simpl in Hn. apply get_NI_objs in Hni.
  unfold ng_cell_of in Hn. rewrite Hni in Hn. simpl in Hn. by simplify_eq.
Qed.

(** A group with room, or none when the allocator has no room for one. *)
Lemma free_group_run s gs P F U :
  core s gs P F U -> not_full s F ->
  runs free_group s (λ NG s', ∃ new F', core s' (gs ++ new) P F' U ∧ grown s gs s' new ∧ not_full s' F' ∧
    F' = rev new ++ F ∧ NG = default 0 (head F') ∧
    (NG = 0 -> F' = [] ∧ ∃ a, a_calloc (u32 NG_Size) (alloc s) = Some (INVALID_HANDLE, a))).
Proof.
  intros Hc Hnf. unfold free_group. eapply runs_step; [by eapply FindFreeNG_run|].
  assert (∀ h, h ∈ F -> 0 < h) as Hpos.
  { intros h Hh. eapply core_group_pos; [exact Hc|]. eapply core_in; [exact Hc|auto]. }
  destruct F as [|f F]; simpl.
  2: { specialize (Hpos f ltac:(by left)). zif. apply runs_ret. exists [], (f :: F). simpl. rewrite app_nil_r.
       split_and!; [done|apply grown_refl|done..|lia]. }
  eapply runs_step; [done|].
  eapply runs_bind; [apply (prealloc_run _ 0 s gs P [] U Hc); lia|].
  intros ok s1 (new & Hc1 & Hg1 & Hok).
  assert (not_full s1 (rev new ++ [])) as Hnf1.
  { rewrite app_nil_r. intros h g Hin Hg. rewrite elem_of_rev in Hin.
    destruct (gr_empty _ _ _ _ Hg1 h Hin) as (g0 & Hg0 & ? & _). by simplify_eq. }
  destruct ok; simpl.
  - destruct Hok as [Hn|[?|Hne]]; [exfalso; pose proof (co_step _ _ _ _ _ Hc); lia|done|].
    eapply runs_step; [by eapply FindFreeNG_run|]. eapply runs_step; [done|]. eapply runs_step; [done|].
    set (s2 := if (step s1 <? 256) && (NodeMem.fail s1 =? 0) then set_step (step s1 * 2) s1 else s1).
    assert (when_ ((step s1 <? 256) && (NodeMem.fail s1 =? 0)) (put (set_step (step s1 * 2))) s1 = Some (tt, s2)) as Hw.
    { unfold s2. by destruct (_ && _). }
    eapply runs_step; [exact Hw|].
    assert (0 < default 0 (head (rev new ++ []))) as Hp.
    { rewrite app_nil_r. destruct (rev new) as [|v l] eqn:Hrev.
      - exfalso. apply Hne. by rewrite <-(rev_involutive new), Hrev.
      - simpl. eapply core_group_pos; [exact Hc1|]. eapply core_in; [exact Hc1|]. right; left. by left. }
    zif. apply runs_ret. exists new, (rev new ++ []).
    assert (core s2 (gs ++ new) P (rev new ++ []) U ∧ grown s gs s2 new ∧ not_full s2 (rev new ++ [])) as (? & ? & ?).
    { unfold s2. destruct (_ && _); [|done]. pose proof (co_step _ _ _ _ _ Hc1). split_and!.
      - eapply core_put_outer; [exact Hc1|done..|simpl; lia].
      - destruct Hg1 as [G1 G2 G3 G4 G5 G6]. by split.
      - exact Hnf1. }
    by split_and!.
  - destruct Hok as (-> & _ & Hfull). apply runs_ret. exists [], []. simpl in *. rewrite app_nil_r in *. by split_and!.
Qed.

(** ** The index *)

Lemma OFFSET1_group k i : 0 <= i < 256 -> OFFSET1 (256 * k + i) = k / 65536.
Proof. intros Hi. unfold OFFSET1. rewrite Z.shiftr_div_pow2 by lia. Z.div_mod_to_equations; lia. Qed.
Lemma OFFSET2_group k i : 0 <= i < 256 -> OFFSET2 (256 * k + i) = k mod 65536.
Proof.
  intros Hi. unfold OFFSET2. apply Z.bits_inj'. intros n Hn.
  rewrite Z.shiftr_spec, Z.land_spec by done.
  change 65536 with (2 ^ 16). change 0xFFFF00 with (Z.shiftl (Z.ones 16) 8).
  rewrite Z.shiftl_spec, Z.add_simpl_r by lia.
  replace (256 * k + i) with (i + k * 2 ^ 8) by lia.
  assert (Z.testbit (i + k * 2 ^ 8) (n + 8) = Z.testbit k n) as ->.
  { rewrite <-(Z.shiftr_spec _ 8) by done. rewrite Z.shiftr_div_pow2, Z.div_add by lia.
    rewrite Z.div_small by lia. done. }
  destruct (Z.ltb_spec n 16).
  - rewrite Z.ones_spec_low, andb_true_r, Z.mod_pow2_bits_low by lia. done.
  - rewrite Z.ones_spec_high, andb_false_r, Z.mod_pow2_bits_high by lia. done.
Qed.

Definition index_mono s s' : Prop :=
  ∀ k h, index_entry k s = Some h -> h ≠ 0 -> index_entry k s' = Some h.
Lemma index_mono_trans s1 s2 s3 : index_mono s1 s2 -> index_mono s2 s3 -> index_mono s1 s3.
Proof. intros H1 H2 k h Hk Hh. apply H2; auto. Qed.
Lemma index_mono_kept s s' : tables_kept s s' -> index_mono s s'.
Proof. intros Ht k h Hk _. by rewrite (index_entry_kept _ _ _ Ht). Qed.

Lemma fi_rd_run f i s :
  get_FI (firstIndex s) s = Some f -> 0 <= i < 256 -> fi_rd i s = Some (default 0 (fi_h f !! i), s).
Proof. intros Hf Hi. unfold fi_rd, arr_rd. rewrite Hf. osimpl. zcases. done. Qed.
Lemma fi_wr_run f i v s :
  get_FI (firstIndex s) s = Some f -> 0 <= i < 256 ->
  fi_wr i v s = Some (tt, put_obj (firstIndex s) (OFirstIndex (MkFI (fi_used f) (<[i := v]> (fi_h f)))) s).
Proof. intros Hf Hi. unfold fi_wr, arr_wr. rewrite Hf. osimpl. zcases. done. Qed.
Lemma si_add_run f p j v s :
  get_SI p s = Some f -> 0 <= j < 65536 ->
  si_add p j v s = Some (tt, put_obj p (OSecondIndex (MkSI (u32 (si_used f + 1)) (<[j := v]> (si_h f)))) s).
Proof. intros Hf Hj. unfold si_add, arr_wr. rewrite Hf. osimpl. zcases. done. Qed.

Lemma get_FI_put_ne p h o s : h ≠ p -> get_FI p (put_obj h o s) = get_FI p s.
Proof. intros. unfold get_FI. by rewrite objs_put_obj, lookup_insert_ne. Qed.
Lemma get_SI_put_ne p h o s : h ≠ p -> get_SI p (put_obj h o s) = get_SI p s.
Proof. intros. unfold get_SI. by rewrite objs_put_obj, lookup_insert_ne. Qed.
Lemma get_FI_put p f s : get_FI p (put_obj p (OFirstIndex f) s) = Some f.
Proof. apply get_FI_objs. by rewrite objs_put_obj, lookup_insert_eq. Qed.
Lemma get_SI_put p f s : get_SI p (put_obj p (OSecondIndex f) s) = Some f.
Proof. apply get_SI_objs. by rewrite objs_put_obj, lookup_insert_eq. Qed.

(** Writing an object that holds no list cell and is no group: all but the
    tables is as before. *)
Lemma core_put_table s gs P F U h o :
  core s gs P F U -> objs_owned (put_obj h o s) -> index_ok (put_obj h o s) gs ->
  list_view (objs s !! h) = None -> list_view (Some o) = None ->
  core (put_obj h o s) gs P F U ∧ nodes_kept s (put_obj h o s).
Proof.
  intros Hc Ho Hix Hv Hv'. assert (nodes_kept s (put_obj h o s)) as Hnk.
  { apply nodes_kept_put. intros g Hg. by rewrite Hg in Hv. }
  split; [|done]. eapply core_kept_ix; [exact Hc|done..| |apply Hc| |].
  - apply cells_kept_put. by rewrite Hv, Hv'.
  - intros ni Hni. exists ni. split; [|done]. rewrite get_NI_put_ne; [done|]. intros ->.
    apply get_NI_objs in Hni. by rewrite Hni in Hv.
  - intros h' g Hin Hg. destruct (nodes_kept_group _ _ _ _ Hnk Hg) as (g1 & ? & _ & ? & _ & Hok & _).
    exists g1. split_and!; [done| |done]. apply Hok. destruct (core_group _ _ _ _ _ _ Hc Hin) as (g2 & ? & ?).
    by simplify_eq.
Qed.

(** An entry added to a second-level table. *)
Lemma core_si_add s gs P F U f f' k p h n :
  core s gs P F U -> get_FI (firstIndex s) s = Some f -> 0 <= k < 2 ^ 24 ->
  fi_h f !! (k / 65536) = Some p -> p ≠ 0 -> get_SI p s = Some f' -> gs !! Z.to_nat k = Some h -> h ≠ 0 ->
  let s' := put_obj p (OSecondIndex (MkSI n (<[k mod 65536 := h]> (si_h f')))) s in
  core s' gs P F U ∧ nodes_kept s s' ∧ index_mono s s' ∧ index_entry k s' = Some h.
Proof.
  intros Hc Hf Hk Hp Hp0 Hf' Hh Hh0 s'. assert (Hp' := Hf'). apply get_SI_objs in Hp'.
  destruct (co_index _ _ _ _ _ Hc) as [I1 I2 I3 I4].
  assert (p ≠ firstIndex s) as Hne by (intros ->; apply get_FI_objs in Hf; simplify_eq).
  assert (get_FI (firstIndex s') s' = Some f) as HFI by (unfold s'; by rewrite get_FI_put_ne).
  assert (∀ k', index_entry k' s' = if decide (k' = k) then Some h else index_entry k' s) as Hent.
  { intros k'. unfold index_entry. rewrite HFI, Hf. osimpl. destruct (decide (k' = k)) as [->|Hkk].
    - rewrite Hp. simpl. unfold INVALID_HANDLE. zif. unfold s'. rewrite get_SI_put. osimpl.
      cbn [si_h]. by rewrite lookup_insert_eq.
    - destruct (fi_h f !! (k' / 65536)) as [p'|] eqn:Hp1; simpl; [|done]. unfold INVALID_HANDLE. zif; [done|].
      destruct (decide (p' = p)) as [->|Hpp].
      + unfold s'. rewrite get_SI_put, Hf'. osimpl. cbn [si_h]. rewrite lookup_insert_ne; [done|].
        pose proof (I3 f _ _ p Hf Hp Hp1 Hp0). intros Hm. apply Hkk. Z.div_mod_to_equations; lia.
      + unfold s'. by rewrite get_SI_put_ne. }
  destruct (core_put_table s gs P F U p (OSecondIndex (MkSI n (<[k mod 65536 := h]> (si_h f')))) Hc) as [Hc' Hnk].
  - eapply objs_owned_put; [apply Hc|exact Hp'|done].
  - fold s'. split.
    + by exists f.
    + intros f0 i p0. rewrite HFI. intros [= <-] Hi Hp00. destruct (I2 f i p0 Hf Hi Hp00) as (? & f0 & Hf0).
      split; [done|]. destruct (decide (p0 = p)) as [->|]; [unfold s'; rewrite get_SI_put; by eexists|].
      exists f0. unfold s'. by rewrite get_SI_put_ne.
    + intros f0 i j p0. rewrite HFI. intros [= <-]. by apply I3.
    + intros k' h' Hk'. rewrite Hent. case_decide as Hd; [subst; by intros [= <-]|by apply I4].
  - by rewrite Hp'.
  - done.
  - fold s' in Hc', Hnk. split_and!; [done|done| |].
    + intros k' h' Hk' Hh'. rewrite Hent. case_decide as Hd; [|done]. subst k'.
      pose proof (I4 k h' Hk Hk' Hh'). by simplify_eq.
    + rewrite Hent. by rewrite decide_True.
Qed.

(** An unused entry of the first-level table is filled in: with 0 when the
    allocation of its table failed, else with a fresh table. *)
Lemma core_fi_zero s gs P F U f i :
  core s gs P F U -> get_FI (firstIndex s) s = Some f -> default 0 (fi_h f !! i) = 0 ->
  let s' := put_obj (firstIndex s) (OFirstIndex (MkFI (fi_used f) (<[i := 0]> (fi_h f)))) s in
  core s' gs P F U ∧ nodes_kept s s' ∧ ∀ k, index_entry k s' = index_entry k s.
Proof.
  intros Hc Hf Hi s'. destruct (co_index _ _ _ _ _ Hc) as [I1 I2 I3 I4]. assert (Hf' := Hf). apply get_FI_objs in Hf'.
  assert (get_FI (firstIndex s') s' = Some (MkFI (fi_used f) (<[i := 0]> (fi_h f)))) as HFI by apply get_FI_put.
  assert (∀ q x, get_SI q s = Some x -> get_SI q s' = Some x) as HSI.
  { intros q x Hq. unfold s'. rewrite get_SI_put_ne; [done|]. intros <-. apply get_SI_objs in Hq. by rewrite Hf' in Hq. }
  assert (∀ q, get_SI q s' = get_SI q s) as HSI'.
  { intros q. unfold get_SI, s'. rewrite objs_put_obj. destruct (decide (firstIndex s = q)) as [<-|];
      [by rewrite lookup_insert_eq, Hf'|by rewrite lookup_insert_ne]. }
  assert (∀ j q, <[i := 0]> (fi_h f) !! j = Some q -> q ≠ 0 -> fi_h f !! j = Some q) as Hfi.
  { intros j q. destruct (decide (i = j)) as [<-|]; [rewrite lookup_insert_eq; by intros [= <-]|].
    by rewrite lookup_insert_ne. }
  assert (∀ k, index_entry k s' = index_entry k s) as Hent.
  { intros k. unfold index_entry. rewrite HFI, Hf. osimpl. cbn [fi_h]. destruct (decide (i = k / 65536)) as [->|].
    - rewrite lookup_insert_eq. simpl. by rewrite Hi.
    - rewrite lookup_insert_ne by done. destruct (_ =? _); [done|]. by rewrite HSI'. }
  destruct (core_put_table s gs P F U (firstIndex s) (OFirstIndex (MkFI (fi_used f) (<[i := 0]> (fi_h f)))) Hc) as [Hc' Hnk];
    [by eapply objs_owned_put; [apply Hc|exact Hf'|]| |by rewrite Hf'|done|].
  - fold s'. split; [by eexists|..].
    + intros f0 j q. rewrite HFI. intros [= <-]. cbn [fi_h]. intros Hj Hq.
      destruct (I2 f j q Hf (Hfi j q Hj Hq) Hq) as (? & f0 & Hf0). split; [done|]. exists f0. by apply HSI.
    + intros f0 j j' q. rewrite HFI. intros [= <-]. cbn [fi_h]. intros H1 H2 Hq. apply (I3 f j j' q Hf); auto.
    + intros k h Hk. rewrite Hent. by apply I4.
  - done.
Qed.

Lemma core_new_table s gs P F U f i p a :
  core s gs P F U -> get_FI (firstIndex s) s = Some f -> 0 <= i < 256 -> default 0 (fi_h f !! i) = 0 ->
  0 < p -> objs s !! p = None -> objs_owned (put_obj p (OSecondIndex (MkSI 0 ∅)) (set_alloc a s)) ->
  (∀ h' o', objs s !! h' = Some o' -> p + INDEX_2_SIZE <= h' ∨ h' + obj_size o' <= p) ->
  let f2 := MkFI (fi_used f) (<[i := p]> (fi_h f)) in
  let s2 := put_obj (firstIndex s) (OFirstIndex f2) (put_obj p (OSecondIndex (MkSI 0 ∅)) (set_alloc a s)) in
  core s2 gs P F U ∧ nodes_kept s s2 ∧ index_mono s s2 ∧ get_FI (firstIndex s2) s2 = Some f2 ∧
  get_SI p s2 = Some (MkSI 0 ∅).
Proof.
  intros Hc Hf Hi Hi0 Hp Hnone Ho Hap f2 s2. set (s1 := put_obj p (OSecondIndex (MkSI 0 ∅)) (set_alloc a s)) in *.
  destruct (co_index _ _ _ _ _ Hc) as [I1 I2 I3 I4]. assert (Hf' := Hf). apply get_FI_objs in Hf'.
  assert (p ≠ firstIndex s) as Hne by (intros ->; by rewrite Hnone in Hf').
  assert (objs s1 !! firstIndex s = Some (OFirstIndex f)) as Hf1 by (unfold s1; by rewrite objs_put_obj, lookup_insert_ne).
  assert (get_FI (firstIndex s2) s2 = Some f2) as HFI by apply get_FI_put.
  assert (get_SI p s2 = Some (MkSI 0 ∅)) as HSIp by (unfold s2; rewrite get_SI_put_ne by done; apply get_SI_put).
  assert (∀ q, q ≠ p -> get_SI q s2 = get_SI q s) as HSI.
  { intros q Hq. unfold get_SI, s2, s1. rewrite !objs_put_obj. destruct (decide (firstIndex s = q)) as [<-|];
      [by rewrite lookup_insert_eq, Hf'|by rewrite !lookup_insert_ne]. }
  assert (∀ j q, <[i := p]> (fi_h f) !! j = Some q -> (i = j ∧ q = p) ∨ (i ≠ j ∧ fi_h f !! j = Some q)) as Hfi.
  { intros j q. destruct (decide (i = j)) as [<-|]; [rewrite lookup_insert_eq; intros [= <-]; by left|].
    rewrite lookup_insert_ne by done. by right. }
  assert (∀ j q, fi_h f !! j = Some q -> q ≠ 0 -> q ≠ p) as Hqp.
  { intros j q Hj Hq ->. destruct (I2 f j p Hf Hj Hq) as (_ & f0 & Hf0). apply get_SI_objs in Hf0. by rewrite Hnone in Hf0. }
  assert (∀ k, index_entry k s2 = index_entry k s) as Hent.
  { intros k. unfold index_entry. rewrite HFI, Hf. osimpl. cbn [f2 fi_h]. destruct (decide (i = k / 65536)) as [->|].
    - rewrite lookup_insert_eq. simpl. rewrite Hi0. unfold INVALID_HANDLE. zif. by rewrite HSIp.
    - rewrite lookup_insert_ne by done. destruct (fi_h f !! (k / 65536)) as [q|] eqn:Hq; simpl; [|done].
      unfold INVALID_HANDLE. zif; [done|]. rewrite HSI; [done|]. by eapply Hqp. }
  assert (nodes_kept s s2) as Hnk.
  { eapply nodes_kept_trans; [apply (nodes_kept_put p (OSecondIndex (MkSI 0 ∅)) (set_alloc a s))|apply nodes_kept_put];
      intros g; [simpl; by rewrite Hnone|by rewrite Hf1]. }
  split_and!; try done.
  - eapply core_kept_ix; [exact Hc| |done| | |apply Hc| |].
    + eapply objs_owned_put; [exact Ho|exact Hf1|done].
    + split; [by eexists|..].
      * intros f0 j q. rewrite HFI. intros [= <-]. cbn [f2 fi_h]. intros [[<- ->]|[Hij Hj]]%Hfi Hq0.
        -- split; [done|]. by eexists.
        -- rewrite HSI by by eapply Hqp. by apply (I2 f).
      * intros f0 j j' q. rewrite HFI. intros [= <-]. cbn [f2 fi_h].
        intros [[<- ->]|[Hij Hj]]%Hfi [[<- Hq]|[Hij' Hj']]%Hfi Hq0; try done.
        -- exfalso. by apply (Hqp j' p).
        -- subst q. exfalso. by apply (Hqp j p).
        -- by apply (I3 f j j' q Hf).
      * intros k h Hk. rewrite Hent. by apply I4.
    + eapply cells_kept_trans; [apply (cells_kept_fresh p (OSecondIndex (MkSI 0 ∅)) (set_alloc a s))|apply cells_kept_put].
      * done.
      * intros ni Hni. destruct (Hap _ _ Hni) as [?|?]; simpl in *; unfold FULL_HEAD, sizeof_NG_INFO_T in *;
          change INDEX_2_SIZE with 524296 in *; lia.
      * by rewrite Hf1.
    + intros ni Hni. exists ni. split; [|done]. apply get_NI_objs in Hni. unfold s2, s1.
      rewrite !get_NI_put_ne; [by apply get_NI_objs|intros Heq; by rewrite <-Heq, Hnone in Hni|].
      intros Heq. by rewrite <-Heq, Hf' in Hni.
    + intros h g Hin Hg. destruct (nodes_kept_group _ _ _ _ Hnk Hg) as (g1 & ? & _ & ? & _ & Hok & _).
      exists g1. split_and!; [done| |done]. apply Hok. destruct (core_group _ _ _ _ _ _ Hc Hin) as (g2 & ? & ?). by simplify_eq.
  - intros k h Hk _. by rewrite Hent.
Qed.

(** [Insert]: the node's group gets its entry, unless a table is missing and
    there is no memory for it. *)
Lemma Insert_run s gs P F U k n :
  core s gs P F U -> gs !! k = Some (c_owner n) -> 0 <= c_index n < 256 ->
  runs (Insert n) s (λ r s', core s' gs P F U ∧ nodes_kept s s' ∧ index_mono s s' ∧ ngInfo s' = ngInfo s ∧ sys_of s' = sys_of s ∧
    (r = 0 ∧ index_entry (Z.of_nat k) s' = Some (c_owner n) ∨ r = -1 ∧ index_table (Z.of_nat k) s' = Some 0 ∧ index_table (Z.of_nat k) s = Some 0)).
Proof.
  intros Hc Hk Hi. pose proof (core_length _ _ _ _ _ Hc) as Hlen. apply lookup_lt_Some in Hk as Hkl.
  destruct (co_groups _ _ _ _ _ Hc _ _ Hk) as (g & Hg & Hok & Hnid). unfold Insert.
  eapply runs_step; [by apply NodeID_run|].
  assert (id_of g (c_index n) = 256 * Z.of_nat k + c_index n) as -> by (unfold id_of; rewrite Hnid, uwrap_small; lia).
  rewrite OFFSET1_group, OFFSET2_group by done. set (i := Z.of_nat k / 65536).
  assert (0 <= i < 256) as Hi1 by (unfold i; Z.div_mod_to_equations; lia).
  assert (0 <= Z.of_nat k mod 65536 < 65536) as Hj by (apply Z.mod_pos_bound; lia).
  assert (0 < c_owner n) as Hpos by (eapply core_group_pos; [exact Hc|by eapply list_elem_of_lookup_2]).
  destruct (ix_first _ _ (co_index _ _ _ _ _ Hc)) as (f & Hf).
  eapply runs_step; [by apply fi_rd_run|].
  assert (∀ s1 f1 p, core s1 gs P F U -> nodes_kept s s1 -> index_mono s s1 -> ngInfo s1 = ngInfo s -> sys_of s1 = sys_of s ->
    get_FI (firstIndex s1) s1 = Some f1 -> fi_h f1 !! i = Some p -> p ≠ 0 ->
    runs (p ← fi_rd i; si_add p (Z.of_nat k mod 65536) (c_owner n);; mret 0) s1 (λ r s',
      core s' gs P F U ∧ nodes_kept s s' ∧ index_mono s s' ∧ ngInfo s' = ngInfo s ∧ sys_of s' = sys_of s ∧
      (r = 0 ∧ index_entry (Z.of_nat k) s' = Some (c_owner n) ∨ r = -1 ∧ index_table (Z.of_nat k) s' = Some 0 ∧ index_table (Z.of_nat k) s = Some 0))) as Hadd.
  { intros s1 f1 p Hc1 Hn1 Hm1 He1 Hy1 Hf1 Hp Hp0. eapply runs_step; [by apply fi_rd_run|]. rewrite Hp. cbn [from_option default id].
    destruct (ix_second _ _ (co_index _ _ _ _ _ Hc1) f1 i p Hf1 Hp Hp0) as (_ & f' & Hf').
    eapply runs_step; [by apply si_add_run|]. apply runs_ret.
    destruct (core_si_add s1 gs P F U f1 f' (Z.of_nat k) p (c_owner n) (u32 (si_used f' + 1)) Hc1 Hf1)
      as (H1 & H2 & H3 & H4); [lia|done|done|done|by rewrite Nat2Z.id|lia|].
    split_and!; [done|by eapply nodes_kept_trans|by eapply index_mono_trans|done| |by left].
    rewrite sys_of_put; [done| |done]. apply get_SI_objs in Hf'. by rewrite Hf'. }
  destruct (Z.eqb_spec INVALID_HANDLE (default 0 (fi_h f !! i))) as [Hq|Hq]; unfold INVALID_HANDLE in Hq.
  - destruct (M_CALLOC_run INDEX_2_SIZE (OSecondIndex (MkSI 0 ∅)) s) as (p & a & Hr & Hp); [apply Hc|done|done|].
    destruct (Z.eqb_spec p INVALID_HANDLE) as [->|Hp0].
    + pose proof (core_alloc _ _ _ _ _ a Hc Hp) as Hc1. set (s1 := set_alloc a s) in *.
      destruct (core_fi_zero s1 gs P F U f i Hc1 Hf (eq_sym Hq)) as (Hc2 & Hn2 & Hm2).
      apply get_FI_objs in Hf as Hfo.
      assert (sys_of (put_obj (firstIndex s1) (OFirstIndex (MkFI (fi_used f) (<[i := 0]> (fi_h f)))) s1) = sys_of s)
        as Hy2 by (rewrite sys_of_put; [done|simpl; by rewrite Hfo|done]).
      eapply (runs_step _ _ s (-1)); [|apply runs_ret; split_and!;
        [exact Hc2|exact Hn2|by intros k' h' Hk' _; rewrite Hm2|done|exact Hy2|right]].
      2: { split; [done|]. split; [|unfold index_table; rewrite Hf; osimpl; fold i; by rewrite <-Hq].
           unfold index_table. change (firstIndex (put_obj _ _ s1)) with (firstIndex s1).
           rewrite get_FI_put. osimpl. cbn [fi_h]. fold i. by rewrite lookup_insert_eq. }
      mstep Hr. mstep (fi_wr_run f i INVALID_HANDLE s1 Hf Hi1).
      rewrite (step_bind _ _ _ _ _ (fi_rd_run _ i _ (get_FI_put _ _ _) Hi1)). cbn [fi_h].
      by rewrite lookup_insert_eq.
    + destruct Hp as (Hpos' & Hnone & Ho & Hap).
      assert (p ≠ firstIndex s) as Hne by (intros ->; apply get_FI_objs in Hf; by rewrite Hnone in Hf).
      set (s1 := put_obj p _ _) in *.
      destruct (core_new_table s gs P F U f i p a Hc Hf Hi1 (eq_sym Hq) Hpos' Hnone Ho Hap)
        as (Hc2 & Hn2 & Hm2 & Hf2 & _).
      apply get_FI_objs in Hf as Hfo.
      assert (objs s1 !! firstIndex s = Some (OFirstIndex f)) as Hfo1
        by (unfold s1; by rewrite objs_put_obj, lookup_insert_ne).
      assert (sys_of (put_obj (firstIndex s) (OFirstIndex (MkFI (fi_used f) (<[i := p]> (fi_h f)))) s1) = sys_of s) as Hy2.
      { rewrite sys_of_put; [|by rewrite Hfo1|done]. transitivity (sys_of (set_alloc a s)); [|done]. apply sys_of_put; [simpl; by rewrite Hnone|done]. }
      eapply (runs_step _ _ s 0); [|eapply (Hadd _ _ p Hc2 Hn2 Hm2 eq_refl Hy2 Hf2); [cbn [fi_h]; apply lookup_insert_eq|lia]].
      mstep Hr. mstep (fi_wr_run f i p s1 ltac:(unfold s1; by rewrite get_FI_put_ne) Hi1).
      rewrite (step_bind _ _ _ _ _ (fi_rd_run _ i _ (get_FI_put _ _ _) Hi1)). cbn [fi_h].
      rewrite lookup_insert_eq. cbn [from_option default id]. unfold INVALID_HANDLE. by zif.
  - eapply runs_step; [done|]. destruct (fi_h f !! i) as [p|] eqn:Hp; [|done].
    eapply (Hadd s f p); try done; [apply nodes_kept_refl|by intros ???].
Qed.

(** [Search]: the group of the id, if the index knows it. *)
Lemma Search_run s gs P F U k i h :
  core s gs P F U -> 0 <= i < 256 -> index_entry (Z.of_nat k) s = Some h -> (k < length gs)%nat ->
  Search (256 * Z.of_nat k + i) s = Some (if h =? 0 then CNode_NULL else MkNode h i).
Proof.
  intros Hc Hi He Hk. pose proof (core_length _ _ _ _ _ Hc) as Hlen. unfold Search.
  destruct (Z.eqb_spec INVALID_NODE_ID (256 * Z.of_nat k + i)) as [Heq|_].
  { change INVALID_NODE_ID with 4294967295 in Heq. lia. }
  rewrite OFFSET1_group, OFFSET2_group by done. pose proof (ix_sound _ _ (co_index _ _ _ _ _ Hc) (Z.of_nat k) h) as Hs.
  destruct (ix_first _ _ (co_index _ _ _ _ _ Hc)) as (f & Hf). unfold index_entry in He, Hs. rewrite Hf in He, Hs.
  cbn [mbind option_bind] in He, Hs. rewrite (fi_rd_run f) by (done || (Z.div_mod_to_equations; lia)).
  set (p := default 0 (fi_h f !! (Z.of_nat k / 65536))) in *. cbn [mbind option_bind].
  rewrite (Z.eqb_sym INVALID_HANDLE). destruct (p =? INVALID_HANDLE); [by simplify_eq|].
  unfold si_rd. destruct (get_SI p s) as [f'|]; [|done]. cbn [mbind option_bind] in *. unfold arr_rd.
  assert (0 <= Z.of_nat k mod 65536 < 65536) as Hj by (apply Z.mod_pos_bound; lia).
  rewrite (proj2 (Z.leb_le _ _)), (proj2 (Z.ltb_lt _ _)) by lia. cbn [mbind option_bind andb].
  injection He as He. rewrite He in *. rewrite (Z.eqb_sym INVALID_HANDLE). unfold INVALID_HANDLE.
  destruct (Z.eqb_spec h 0) as [|Hh]; [done|].
  assert (gs !! k = Some h) as Hkh by (rewrite <-(Nat2Z.id k); apply Hs; [lia|done|done]).
  destruct (co_groups _ _ _ _ _ Hc k h Hkh) as (g & Hg & _ & Hn). rewrite Hg. simpl. rewrite Hn.
  replace (256 * Z.of_nat k + i - 256 * Z.of_nat k) with i by lia. rewrite swrap_small by lia.
  rewrite (proj2 (Z.ltb_ge _ _)), (proj2 (Z.ltb_ge _ _)) by lia. done.
Qed.

(** ** Nodes *)

Definition node_attr s (n : CNode) : option node_attrs := g ← get_NG (c_owner n) s; Some (attrs g (c_index n)).
Definition node_id s (n : CNode) : option Z := g ← get_NG (c_owner n) s; Some (id_of g (c_index n)).
(** The nodes in use, among the groups [gs]. *)
Definition node_used s gs (n : CNode) : Prop :=
  c_owner n ∈ gs ∧ ∃ g, get_NG (c_owner n) s = Some g ∧ in_use g (c_index n).
(** [n] keeps its attributes. *)
Definition attr_kept s s' (n : CNode) : Prop := ∀ a, node_attr s n = Some a -> node_attr s' n = Some a.

Lemma kept_attr s s' n : nodes_kept s s' -> attr_kept s s' n.
Proof.
  intros Hk a. unfold node_attr. destruct (get_NG (c_owner n) s) as [g|] eqn:Hg; simpl; [|done].
  destruct (nodes_kept_group _ _ _ _ Hk Hg) as (g' & -> & Ha & _). simpl. by rewrite Ha.
Qed.
Lemma attr_kept_trans s1 s2 s3 n : attr_kept s1 s2 n -> attr_kept s2 s3 n -> attr_kept s1 s3 n.
Proof. intros H1 H2 a Ha. by apply H2, H1. Qed.
Lemma kept_id s s' n id : nodes_kept s s' -> node_id s n = Some id -> node_id s' n = Some id.
Proof.
  intros Hk. unfold node_id. destruct (get_NG (c_owner n) s) as [g|] eqn:Hg; simpl; [|done].
  destruct (nodes_kept_group _ _ _ _ Hk Hg) as (g' & -> & _ & Hn & _). simpl. unfold id_of. by rewrite Hn.
Qed.
Lemma kept_used s s' gs P F U n : core s gs P F U -> nodes_kept s s' -> node_used s' gs n <-> node_used s gs n.
Proof.
  intros Hc Hk. unfold node_used. split; intros (Hin & g & Hg & Hu); (split; [done|]);
    destruct (core_group _ _ _ _ _ _ Hc Hin) as (g0 & Hg0 & _);
    destruct (nodes_kept_group _ _ _ _ Hk Hg0) as (g1 & Hg1 & _ & _ & _ & _ & Hu1); simplify_eq.
  - exists g0. split; [done|]. by apply Hu1.
  - exists g1. split; [done|]. by apply Hu1.
Qed.

(** New groups have no node in use. *)
Lemma grown_used s s' gs P F U new n :
  core s gs P F U -> grown s gs s' new -> node_used s' (gs ++ new) n <-> node_used s gs n.
Proof.
  intros Hc Hg. rewrite <-(kept_used s s' gs P F U n Hc (gr_kept _ _ _ _ Hg)). unfold node_used.
  rewrite elem_of_app. split; [|tauto]. intros ([Hin|Hin] & g & Hgn & Hu); [by split; [|exists g]|].
  destruct (gr_empty _ _ _ _ Hg _ Hin) as (g0 & Hg0 & _ & Hnu). simplify_eq. by destruct (Hnu (c_index n)).
Qed.

(** The system's group and the state of the lists. *)
Definition store s gs F U : Prop :=
  ∃ sys, core s gs [sys] F U ∧ gs !! 0%nat = Some sys ∧ sys_of s = Some sys ∧ not_full s F ∧ all_full s U.
End store.
