(* ===== verification/NodeAlloc.v ===== *)
(** * NodeAlloc: allocation and release of nodes

    [AllocateNode] and [ReleaseNode] of [src/cache/ng_info.cc] keep the
    invariant of [NodeStore]; a node is handed out once, every other node keeps
    its attributes and is found under its id as before. *)

From Stdlib Require Import List.
From stdpp Require Import gmap.
From S2P Require Import Prelude State Ring BinMalloc NodeMem NodeGroup NodeIndex NgInfo NodeLinks NodeStore.

Section alloc.
Context {A : Type} `{AllocatorLaws A}.
Implicit Types (s : cmem A) (gs P F U : list Z) (h i : Z) (n m : CNode).

(** ** One group *)

Lemma put_group_tables h g g' s : get_NG h s = Some g -> tables_kept s (put_obj h (ONodeGroup g') s).
Proof. intros Hg%get_NG_objs. eapply tables_kept_put; [exact Hg|done|done]. Qed.
Lemma put_group_sys h g g' s : get_NG h s = Some g -> sys_of (put_obj h (ONodeGroup g') s) = sys_of s.
Proof. intros Hg%get_NG_objs. apply sys_of_group. intros i. by rewrite Hg. Qed.

(** Node [i] of group [h] goes into use. *)
Lemma took_nodes s gs h i g g' :
  h ∈ gs -> get_NG h s = Some g -> took i g g' ->
  let s' := put_obj h (ONodeGroup g') s in
  ¬ node_used s gs (MkNode h i) ∧
  (∀ m, node_used s' gs m <-> m = MkNode h i ∨ node_used s gs m) ∧
  (∀ m, node_used s gs m -> attr_kept s s' m).
Proof.
  intros Hh Hg Ht s'. destruct Ht as [T1 T2 T3 T4 T5 T6 T7]. split_and!.
  - intros (_ & g0 & Hg0 & Hu). simpl in *. by simplify_eq.
  - intros [o j]. unfold node_used, s'. simpl. destruct (decide (h = o)) as [<-|Hne].
    + rewrite get_NG_put, Hg. split.
      * intros (_ & g0 & [= <-] & [->|Hu]%T6); [by left|right]. by split; [|exists g].
      * intros [[= ->]|(_ & g0 & [= <-] & Hu)]; (split; [done|]; exists g'; split; [done|]; apply T6); auto.
    + rewrite get_NG_put_ne by done. split; [by right|]. by intros [[= <- _]|].
  - intros [o j] (_ & g0 & Hg0 & Hu) a. unfold node_attr, s'. simpl in *. destruct (decide (h = o)) as [<-|Hne].
    + rewrite get_NG_put, Hg. simplify_eq. osimpl. intros [= <-]. rewrite T7 by by eapply in_use_range.
      rewrite decide_False; [done|]. by intros ->.
    + by rewrite get_NG_put_ne.
Qed.

(** Node [i] of group [h] goes out of use. *)
Lemma gave_nodes s gs h i g g' :
  h ∈ gs -> get_NG h s = Some g -> gave i g g' ->
  let s' := put_obj h (ONodeGroup g') s in
  (∀ m, node_used s' gs m <-> node_used s gs m ∧ m ≠ MkNode h i) ∧
  (∀ m, node_used s gs m -> m ≠ MkNode h i -> attr_kept s s' m).
Proof.
  intros Hh Hg Ht s'. destruct Ht as [T1 T2 T3 T4 T5 T6]. split_and!.
  - intros [o j]. unfold node_used, s'. simpl. destruct (decide (h = o)) as [<-|Hne].
    + rewrite get_NG_put, Hg. split.
      * intros (_ & g0 & [= <-] & [Hu Hj]%T4). split; [by split; [|exists g]|]. by intros [= ->].
      * intros [(_ & g0 & [= <-] & Hu) Hj]. split; [done|]. exists g'. split; [done|]. apply T4. split; [done|].
        by intros ->.
    + rewrite get_NG_put_ne by done. split; [|by intros []]. intros ?. split; [done|]. by intros [= <- _].
  - intros [o j] (_ & g0 & Hg0 & Hu) Hj a. unfold node_attr, s'. simpl in *. destruct (decide (h = o)) as [<-|Hne].
    + rewrite get_NG_put, Hg. simplify_eq. osimpl. intros [= <-]. rewrite T6; [done|by eapply in_use_range|].
      by intros ->.
    + by rewrite get_NG_put_ne.
Qed.

(** ** What the rest of the store keeps *)

(** [s'] has the tables, the list heads' object and the system's group of [s]. *)
Record frame s s' : Prop := {
  fr_tables : index_mono s s';
  fr_info : ngInfo s' = ngInfo s;
  fr_sys : sys_of s' = sys_of s
}.
Lemma frame_refl s : frame s s.
Proof. split; try done. by intros ???. Qed.
Lemma frame_trans s1 s2 s3 : frame s1 s2 -> frame s2 s3 -> frame s1 s3.
Proof. intros [A1 A2 A3] [B1 B2 B3]. split; [by eapply index_mono_trans|congruence..]. Qed.
Lemma frame_put_group h g g' s : get_NG h s = Some g -> frame s (put_obj h (ONodeGroup g') s).
Proof. intros Hg. split; [by eapply index_mono_kept, put_group_tables|done|by eapply put_group_sys]. Qed.
Lemma frame_same s s' : objs_rel ng_obj_same s s' -> frame s s'.
Proof.
  intros Hr. split; [by apply index_mono_kept, ng_same_tables|by apply (objs_rel_frame _ _ _ Hr)|by apply ng_same_sys].
Qed.
Lemma frame_grown s gs s' new : grown s gs s' new -> frame s s'.
Proof. intros []. split; [by apply index_mono_kept|done|done]. Qed.

(** Between the two states the nodes of the groups are the same. *)
Record quiet s s' : Prop := { qt_nodes : nodes_kept s s'; qt_frame : frame s s' }.
Lemma quiet_refl s : quiet s s.
Proof. split; [apply nodes_kept_refl|apply frame_refl]. Qed.
Lemma quiet_trans s1 s2 s3 : quiet s1 s2 -> quiet s2 s3 -> quiet s1 s3.
Proof. intros [A1 A2] [B1 B2]. split; [by eapply nodes_kept_trans|by eapply frame_trans]. Qed.
Lemma quiet_same s s' : objs_rel ng_obj_same s s' -> quiet s s'.
Proof. intros Hr. split; [by apply ng_same_nodes_kept|by apply frame_same]. Qed.

(** A counter of [_ngInfo] and its copy outside are written. *)
Lemma counter_run {B} (f : NG_INFO_T -> NG_INFO_T) (c : NG_INFO_T -> B) (st : B -> cmem A -> cmem A) s gs P F U :
  core s gs P F U ->
  (∀ ni, ni_free_head (f ni) = ni_free_head ni ∧ ni_full_head (f ni) = ni_full_head ni ∧
         ni_min_id (f ni) = ni_min_id ni ∧ ni_sys_zone (f ni) = ni_sys_zone ni) ->
  (∀ v s1, alloc (st v s1) = alloc s1 ∧ objs (st v s1) = objs s1 ∧ firstIndex (st v s1) = firstIndex s1 ∧
           ngInfo (st v s1) = ngInfo s1 ∧ step (st v s1) = step s1) ->
  ∀ {C} (k : CM A C) R, (∀ s', core s' gs P F U -> quiet s s' -> runs k s' R) ->
  runs (ni_put f;; n ← ni_get c; put (st n);; k) s R.
Proof.
  intros Hc Hf Hst C k R Hk. destruct (co_info _ _ _ _ _ Hc) as (ni & Hni & _). destruct (Hf ni) as (F1 & F2 & F3 & F4).
  destruct (core_put_info s gs P F U ni (f ni) Hc Hni F1 F2 F3) as [Hc1 Hn1].
  set (s1 := put_obj (ngInfo s) (ONGInfo (f ni)) s) in *.
  assert (get_NI (ngInfo s1) s1 = Some (f ni)) as Hni1 by apply get_NI_put.
  eapply runs_step; [by apply ni_put_run|]. fold s1. eapply runs_step; [by apply ni_get_run|]. eapply runs_step; [done|].
  destruct (Hst (c (f ni)) s1) as (S1 & S2 & S3 & S4 & S5). set (s2 := st _ s1) in *.
  assert (sys_of s1 = sys_of s) as Hs1.
  { unfold sys_of. rewrite Hni1, Hni. simpl. by rewrite F4. }
  assert (tables_kept s s2) as Ht.
  { split; [done|]. assert (objs s2 = objs s1) as Ho by done. unfold get_FI, get_SI. rewrite Ho. simpl.
    apply get_NI_objs in Hni. split; intros p; (destruct (decide (ngInfo s = p)) as [<-|];
      [by rewrite lookup_insert_eq, Hni|by rewrite lookup_insert_ne]). }
  apply Hk.
  - eapply core_put_outer; [exact Hc1|done..|]. rewrite S5. apply Hc1.
  - split; [eapply nodes_kept_trans; [exact Hn1|by apply nodes_kept_objs]|].
    split; [by apply index_mono_kept|done|]. rewrite <-Hs1. by apply sys_of_objs.
Qed.

(** [if(NG->IsFull()) { ListDel(NG); FullListAdd(NG); }] *)
Lemma settle_run s gs h F U sys {C} (k : CM A C) R :
  core s gs [sys] (h :: F) U -> not_full s F -> all_full s U ->
  (∀ s' F' U', core s' gs [sys] F' U' -> not_full s' F' -> all_full s' U' -> quiet s s' -> runs k s' R) ->
  runs (full ← NG_IsFull h; when_ full (ListDel h;; FullListAdd h);; k) s R.
Proof.
  intros Hc HF HU Hk. destruct (core_group _ _ _ _ _ h Hc) as (g & Hg & Hok).
  { eapply core_in; [exact Hc|]. right; left. by left. }
  eapply runs_step; [by apply IsFull_run|]. destruct (is_full g) eqn:Hfull; simpl.
  - eapply (runs_bind _ _ _ (λ _ s2, core s2 gs [sys] F (h :: U) ∧ quiet s s2)).
    { eapply runs_bind; [apply (ListDel_free s gs [sys] [] h F U Hc)|]. intros [] s1 [Hc1 Hr1].
      eapply runs_mono; [apply (FullListAdd_run s1 gs [] h [sys] F U Hc1)|]. intros [] s2 [Hc2 Hr2].
      exact (conj Hc2 (quiet_trans _ _ _ (quiet_same _ _ Hr1) (quiet_same _ _ Hr2))). }
    intros [] s2 [Hc2 Hq]. apply (Hk s2 F (h :: U)); [done| | |done].
    + eapply not_full_kept; [exact Hc| |apply Hq|done]. intros x Hx. eapply core_in; [exact Hc|]. right; left. by right.
    + eapply all_full_kept; [exact Hc| |apply Hq|].
      * intros x [->|Hx]%elem_of_cons; (eapply core_in; [exact Hc|]); [right; left; by left|auto].
      * intros x gx [->|Hx]%elem_of_cons Hgx; [congruence|by eapply HU].
  - eapply runs_step; [done|]. apply (Hk s (h :: F) U); [done| |done|apply quiet_refl].
    intros x gx [->|Hx]%elem_of_cons Hgx; [congruence|by eapply HF].
Qed.

(** [if(NG->IsFull()) { ListDel(NG); FreeListAdd(NG); }], before a release *)
Lemma unsettle_run s gs sys h F U {C} (k : CM A C) R :
  core s gs [sys] F U -> h ∈ F ++ U -> not_full s F -> all_full s U ->
  (∀ s' F' U', core s' gs [sys] F' U' -> h ∈ F' -> (∀ x gx, x ∈ F' -> x ≠ h -> get_NG x s' = Some gx -> is_full gx = false) ->
     all_full s' U' -> quiet s s' -> runs k s' R) ->
  runs (full ← NG_IsFull h; when_ full (ListDel h;; FreeListAdd h);; k) s R.
Proof.
  intros Hc Hin HF HU Hk. destruct (core_group _ _ _ _ _ h Hc) as (g & Hg & Hok).
  { eapply core_in; [exact Hc|]. rewrite <-elem_of_app. auto. }
  eapply runs_step; [by apply IsFull_run|]. destruct (is_full g) eqn:Hfull; simpl.
  - apply elem_of_app in Hin as [Hin|Hin]; [pose proof (HF _ _ Hin Hg); congruence|].
    apply list_elem_of_split in Hin as (U1 & U2 & ->).
    eapply (runs_bind _ _ _ (λ _ s2, core s2 gs [sys] (h :: F) (U1 ++ U2) ∧ quiet s s2)).
    { eapply runs_bind; [apply (ListDel_full s gs [sys] F U1 h U2 Hc)|]. intros [] s1 [Hc1 Hr1].
      eapply runs_mono; [apply (FreeListAdd_run s1 gs [] h [sys] F (U1 ++ U2) Hc1)|]. intros [] s2 [Hc2 Hr2].
      exact (conj Hc2 (quiet_trans _ _ _ (quiet_same _ _ Hr1) (quiet_same _ _ Hr2))). }
    intros [] s2 [Hc2 Hq]. apply (Hk s2 (h :: F) (U1 ++ U2)); [done|by left| | |done].
    + intros x gx [->|Hx]%elem_of_cons Hne; [done|]. clear Hne. revert x gx Hx.
      eapply not_full_kept; [exact Hc| |apply Hq|done]. intros x Hx. eapply core_in; [exact Hc|auto].
    + assert (∀ x, x ∈ U1 ++ U2 -> x ∈ U1 ++ h :: U2) as Hsub by set_solver.
      eapply all_full_kept; [exact Hc| |apply Hq|].
      * intros x Hx. eapply core_in; [exact Hc|auto].
      * intros x gx Hx Hgx. eapply HU; [by apply Hsub|done].
  - eapply runs_step; [done|].
    assert (h ∈ F) as HhF.
    { apply elem_of_app in Hin as [Hin|Hin]; [done|]. pose proof (HU _ _ Hin Hg). congruence. }
    apply (Hk s F U); [done..| |done|apply quiet_refl]. intros x gx Hx _. by apply HF.
Qed.

(** ** Look-up *)

Lemma Search_sound s gs P F U id n :
  core s gs P F U -> Search id s = Some n -> n ≠ CNode_NULL ->
  ∃ k i, id = 256 * Z.of_nat k + i ∧ 0 <= i < 256 ∧ gs !! k = Some (c_owner n) ∧ c_index n = i ∧
    index_entry (Z.of_nat k) s = Some (c_owner n).
Proof.
  intros Hc Hs Hn. unfold Search in Hs. destruct (INVALID_NODE_ID =? id); [by simplify_eq|].
  assert (id = 256 * (id / 256) + id mod 256) as Hid by (apply Z.div_mod; done).
  assert (0 <= id mod 256 < 256) as Hi by (apply Z.mod_pos_bound; lia).
  rewrite Hid, OFFSET1_group, OFFSET2_group, <-Hid in Hs by done. set (k := id / 256) in *.
  pose proof (ix_sound _ _ (co_index _ _ _ _ _ Hc) k) as Hsound. unfold index_entry in *.
  unfold fi_rd at 1 in Hs. destruct (get_FI _ s) as [f|]; [|done]. cbn [mbind option_bind] in Hs, Hsound.
  unfold arr_rd in Hs. destruct ((0 <=? k / 65536) && (k / 65536 <? 256)) eqn:Hr; [|done].
  cbn [mbind option_bind] in Hs. assert (0 <= k < 2 ^ 24) as Hk by (Z.div_mod_to_equations; lia).
  rewrite (Z.eqb_sym INVALID_HANDLE) in Hs. set (p := default 0 (fi_h f !! (k / 65536))) in *.
  destruct (p =? INVALID_HANDLE) eqn:Hp; [by simplify_eq|].
  unfold si_rd in Hs. destruct (get_SI p s) as [f'|] eqn:Hf'; [|done]. cbn [mbind option_bind] in Hs, Hsound.
  assert (0 <= k mod 65536 < 65536) as Hj by (apply Z.mod_pos_bound; lia).
  unfold arr_rd in Hs. rewrite (proj2 (Z.leb_le _ _)), (proj2 (Z.ltb_lt _ _)) in Hs by lia. cbn [mbind option_bind andb] in Hs.
  set (h := default 0 (si_h f' !! (k mod 65536))) in *.
  destruct (Z.eqb_spec INVALID_HANDLE h) as [|Hh]; [by simplify_eq|].
  destruct (get_NG h s) as [g|] eqn:Hg; [|done]. cbn [mbind option_bind] in Hs.
  assert (gs !! Z.to_nat k = Some h) as Hkh by (apply Hsound; [done|done|by unfold INVALID_HANDLE in Hh]).
  destruct (co_groups _ _ _ _ _ Hc _ _ Hkh) as (g0 & Hg0 & _ & Hnid). simplify_eq.
  rewrite Hnid, Z2Nat.id, Hid in Hs by lia.
  replace (256 * k + id mod 256 - 256 * k) with (id mod 256) in Hs by lia. rewrite swrap_small in Hs by lia.
  rewrite (proj2 (Z.ltb_ge _ _)), (proj2 (Z.ltb_ge _ _)) in Hs by lia. injection Hs as <-. exists (Z.to_nat k), (id mod 256). simpl.
  rewrite Z2Nat.id by lia. split_and!; try done; [lia..|]. fold p. by rewrite Hp, Hf'.
Qed.

(** Found nodes stay found. *)
Lemma Search_mono s s' gs new P F U P' F' U' id n :
  core s gs P F U -> core s' (gs ++ new) P' F' U' -> index_mono s s' ->
  Search id s = Some n -> n ≠ CNode_NULL -> Search id s' = Some n.
Proof.
  intros Hc Hc' Hm Hs Hn. destruct (Search_sound _ _ _ _ _ _ _ Hc Hs Hn) as (k & i & -> & Hi & Hk & Hin & He).
  assert (0 < c_owner n) as Hpos by (eapply core_group_pos; [exact Hc|by eapply list_elem_of_lookup_2]).
  rewrite (Search_run s' (gs ++ new) P' F' U' k i (c_owner n)); [|done|done|apply Hm; [done|lia]|].
  - zif. destruct n. simpl in *. by subst.
  - rewrite length_app. apply lookup_lt_Some in Hk. lia.
Qed.

Lemma node_cell_found s gs P F U n k :
  core s gs P F U -> gs !! k = Some (c_owner n) -> index_entry (Z.of_nat k) s = Some (c_owner n) ->
  0 <= c_index n < 256 -> node_cell n s.
Proof.
  intros Hc Hk He Hi. destruct (co_groups _ _ _ _ _ Hc _ _ Hk) as (g & Hg & Hok & Hn).
  pose proof (core_length _ _ _ _ _ Hc) as Hlen. apply lookup_lt_Some in Hk as Hkl.
  assert (0 < c_owner n) as Hpos by (eapply core_group_pos; [exact Hc|by eapply list_elem_of_lookup_2]).
  exists g. split; [done|]. split; [by apply group_ok_std|]. split; [done|].
  replace (id_of g (c_index n)) with (256 * Z.of_nat k + c_index n) by (unfold id_of; rewrite Hn, uwrap_small; lia).
  rewrite (Search_run s gs P F U k _ (c_owner n)) by done. zif. by destruct n.
Qed.

Lemma node_cell_sound s gs P F U n :
  core s gs P F U -> node_cell n s -> n ≠ CNode_NULL ->
  ∃ k, gs !! k = Some (c_owner n) ∧ index_entry (Z.of_nat k) s = Some (c_owner n) ∧ 0 <= c_index n < 256.
Proof.
  intros Hc (g & Hg & Hs & Hi & Hn) Hn0.
  destruct (Search_sound _ _ _ _ _ _ _ Hc Hn Hn0) as (k & i & _ & _ & Hk & _ & He). by exists k.
Qed.
Lemma node_cell_null s gs P F U n : core s gs P F U -> node_cell n s -> n ≠ CNode_NULL.
Proof.
  intros Hc (g & Hg%get_NG_objs & _) ->. simpl in Hg.
  destruct (objs_owned_pos _ _ _ (co_own _ _ _ _ _ Hc) Hg). lia.
Qed.
Lemma node_cell_mono s s' gs new P F U P' F' U' n :
  core s gs P F U -> core s' (gs ++ new) P' F' U' -> index_mono s s' -> node_cell n s -> node_cell n s'.
Proof.
  intros Hc Hc' Hm Hn. pose proof (node_cell_null _ _ _ _ _ _ Hc Hn) as Hn0.
  destruct (node_cell_sound _ _ _ _ _ _ Hc Hn Hn0) as (k & Hk & He & Hi).
  assert (0 < c_owner n) as Hpos by (eapply core_group_pos; [exact Hc|by eapply list_elem_of_lookup_2]).
  eapply (node_cell_found _ _ _ _ _ _ k Hc'); [by apply lookup_app_l_Some|apply Hm; [done|lia]|done].
Qed.

(** ** [AllocateNode] *)

Definition fresh_node n s : Prop :=
  ∃ id vd, node_id s n = Some id ∧ node_attr s n = Some (MkAttrs INVALID_NODE_ID id id vd false).

(** [n] is new in [s']; the index knows it unless there was no memory for a
    second-level table. *)
Record allocated s gs n s' gs' : Prop := {
  al_in : c_owner n ∈ gs';
  al_sys : sys_of s' ≠ Some (c_owner n);
  al_sys_kept : sys_of s' = sys_of s;
  al_new : ¬ node_used s gs n;
  al_used m : node_used s' gs' m <-> m = n ∨ node_used s gs m;
  al_fresh : fresh_node n s';
  al_kept m : node_used s gs m -> attr_kept s s' m;
  al_index : index_mono s s';
  al_cells m : node_cell m s -> node_cell m s';
  al_found : node_cell n s' ∨ ∃ k, gs' !! k = Some (c_owner n) ∧ index_table (Z.of_nat k) s' = Some 0
}.

Lemma quiet_used s s' gs P F U n : core s gs P F U -> quiet s s' -> node_used s' gs n <-> node_used s gs n.
Proof. intros Hc [Hk _]. by eapply kept_used. Qed.
Lemma quiet_fresh s s' n : quiet s s' -> fresh_node n s -> fresh_node n s'.
Proof.
  intros [Hk _] (id & vd & H1 & H2). exists id, vd. split; [by eapply kept_id|by eapply kept_attr].
Qed.

Lemma took_fresh s gs P F U h i g g' :
  core s gs P F U -> get_NG h s = Some g -> took i g g' ->
  fresh_node (MkNode h i) (put_obj h (ONodeGroup g') s).
Proof.
  intros Hc Hg [T1 T2 T3 T4 T5 T6 T7]. unfold fresh_node, node_id, node_attr. cbn [c_owner c_index].
  rewrite get_NG_put. osimpl. rewrite T7, decide_True by done. unfold reset_attrs.
  assert (id_of g' i = id_of g i) as -> by (unfold id_of; by rewrite T3). by eexists _, _.
Qed.

Lemma not_full_put s h g g' F :
  get_NG h s = Some g -> (h ∉ F) -> not_full s F -> not_full (put_obj h (ONodeGroup g') s) F.
Proof. intros Hg Hh HF x gx Hx. rewrite get_NG_put_ne; [by apply HF|]. by intros ->. Qed.
Lemma all_full_put s h g g' U :
  get_NG h s = Some g -> (h ∉ U) -> all_full s U -> all_full (put_obj h (ONodeGroup g') s) U.
Proof. intros Hg Hh HF x gx Hx. rewrite get_NG_put_ne; [by apply HF|]. by intros ->. Qed.

(** The part of [AllocateNode] behind [free_group]. *)
Lemma take_node_run s gs h F U sys :
  core s gs [sys] (h :: F) U -> not_full s (h :: F) -> all_full s U -> gs !! 0%nat = Some sys -> sys_of s = Some sys ->
  runs (node ← NG_AllocateNode h;
        full ← NG_IsFull h;
        when_ full (ListDel h;; FullListAdd h);;
        if is_null node then mret CNode_NULL
        else
          ni_put (λ ni, set_ni_used_node (u32 (ni_used_node ni + 1)) ni);;
          n ← ni_get ni_used_node; put (set_statUsedNode n);;
          Insert node;;
          mret node) s (λ n s', ∃ F' U', n ≠ CNode_NULL ∧ store s' gs F' U' ∧ allocated s gs n s' gs).
Proof.
  intros Hc HF HU H0g Hsys. pose proof (core_nodup _ _ _ _ _ Hc) as Hnd. rewrite <-(co_split _ _ _ _ _ Hc) in Hnd.
  apply NoDup_app in Hnd as (_ & HsF & ([HhF HhU]%not_elem_of_app & _)%NoDup_cons).
  assert (sys ≠ h) as Hsh by (intros ->; apply (HsF h); by left).
  assert (h ∈ gs) as Hh by (eapply core_in; [exact Hc|]; right; left; by left).
  destruct (core_group _ _ _ _ _ h Hc Hh) as (g & Hg & Hok).
  destruct (take_run h g s Hg Hok) as (i & g' & Hrun & Ht); [apply (HF h); [by left|done]|].
  pose proof (tk_range _ _ _ Ht) as Hi. eapply runs_step; [exact Hrun|].
  set (n := MkNode h i) in *. set (s1 := put_obj h (ONodeGroup g') s) in *.
  assert (core s1 gs [sys] (h :: F) U) as Hc1 by (apply (core_put_group s gs _ _ _ h g g' Hc Hg); apply Ht).
  apply settle_run with (F := F) (U := U) (gs := gs) (sys := sys); [done| | |].
  { eapply not_full_put; [exact Hg|done|]. intros x gx Hx. apply HF. by right. }
  { by eapply all_full_put. }
  intros s2 F' U' Hc2 HF2 HU2 Hq2. assert (0 < h) as Hpos by (eapply core_group_pos; [exact Hc|done]).
  assert (is_null n = false) as -> by (unfold is_null, NODE_GROUP_INCLUDE_NODES, n; simpl; zcases).
  eapply counter_run; [exact Hc2|done|done|]. intros s3 Hc3 Hq3.
  apply list_elem_of_lookup in Hh as [k Hk]. assert (Hk' := Hk). apply (co_groups _ _ _ _ _ Hc3) in Hk' as (g3 & Hg3 & Hok3 & _).
  eapply runs_bind; [apply (Insert_run s3 gs [sys] F' U' k n Hc3); [done|exact Hi]|].
  intros r s4 (Hc4 & Hn4 & Hm4 & Hi4 & Hy4 & Hr). apply runs_ret. exists F', U'.
  assert (quiet s1 s4) as Hq by (do 2 (eapply quiet_trans; [done|]); by split).
  destruct (took_nodes s gs h i g g' (list_elem_of_lookup_2 _ _ _ Hk) Hg Ht) as (N1 & N2 & N3). fold s1 n in N1, N2, N3.
  pose proof (frame_put_group h g g' s Hg) as Hf1. fold s1 in Hf1.
  assert (frame s s4) as Hf by (eapply frame_trans; [done|apply Hq]).
  split_and!; [intros Hn0; injection Hn0; lia| |].
  - exists sys. split_and!; [done|done|by rewrite (fr_sys _ _ Hf)| |].
    + eapply not_full_kept; [exact Hc3| |exact Hn4|]; [intros x Hx; eapply core_in; [exact Hc3|auto]|].
      eapply not_full_kept; [exact Hc2| |apply Hq3|done]; intros x Hx; eapply core_in; [exact Hc2|auto].
    + eapply all_full_kept; [exact Hc3| |exact Hn4|]; [intros x Hx; eapply core_in; [exact Hc3|auto]|].
      eapply all_full_kept; [exact Hc2| |apply Hq3|done]; intros x Hx; eapply core_in; [exact Hc2|auto].
  - split.
    + by eapply list_elem_of_lookup_2.
    + rewrite (fr_sys _ _ Hf), Hsys. intros [= ?]. by apply Hsh.
    + apply Hf.
    + done.
    + intros m. rewrite (quiet_used _ _ _ _ _ _ _ Hc1 Hq). apply N2.
    + eapply quiet_fresh; [exact Hq|]. by eapply took_fresh.
    + intros m Hm. eapply attr_kept_trans; [by apply N3|]. apply kept_attr, Hq.
    + apply Hf.
    + intros m Hm. eapply (node_cell_mono s s4 gs []); [exact Hc|rewrite app_nil_r; exact Hc4|apply Hf|done].
    + destruct Hr as [[_ Hr]|(_ & Hr & _)]; [left|right; by exists k]. by eapply node_cell_found.
Qed.

(** [AllocateNode] gives a node that was not in use, or none when no group has
    room and the allocator has no room for another group. *)
Lemma AllocateNode_run s gs F U :
  store s gs F U ->
  runs AllocateNode s (λ n s', ∃ new F' U', store s' (gs ++ new) F' U' ∧
    (n ≠ CNode_NULL ∧ allocated s gs n s' (gs ++ new) ∨
     n = CNode_NULL ∧ F = [] ∧ new = [] ∧ quiet s s' ∧
     ∃ a, a_calloc (u32 NG_Size) (alloc s) = Some (INVALID_HANDLE, a))).
Proof.
  intros (sys & Hc & H0g & Hsys & HF & HU). unfold AllocateNode.
  eapply runs_bind; [by apply (free_group_run s gs [sys] F U)|].
  intros NG s1 (new & F1 & Hc1 & Hg1 & HF1 & -> & -> & Hnull).
  assert (all_full s1 U) as HU1.
  { eapply all_full_kept; [exact Hc| |apply Hg1|done]. intros x Hx. eapply core_in; [exact Hc|auto]. }
  assert (sys_of s1 = Some sys) as Hsys1 by by rewrite (gr_sys _ _ _ _ Hg1).
  assert ((gs ++ new) !! 0%nat = Some sys) as H0g1 by by apply lookup_app_l_Some.
  destruct (Z.eqb_spec (default 0 (head (rev new ++ F))) 0) as [Hz|Hz].
  - destruct (Hnull Hz) as [[Hnew ->]%app_eq_nil Hfull].
    assert (new = []) as -> by by rewrite <-(rev_involutive new), Hnew.
    apply runs_ret. exists [], [], U. split; [by exists sys|]. right. split_and!; try done.
    split; [apply Hg1|by eapply frame_grown].
  - destruct (rev new ++ F) as [|h F1] eqn:Hl; [done|]. simpl.
    eapply runs_mono; [by apply (take_node_run s1 (gs ++ new) h F1 U sys)|].
    intros n s2 (F' & U' & Hn & Hst & [A1 A9 A10 A2 A3 A4 A5 A8 A6 A7]). exists new, F', U'. split; [done|]. left. split; [done|].
    assert (∀ m, node_used s1 (gs ++ new) m <-> node_used s gs m) as Hu by (intros m; by eapply grown_used).
    split; try done.
    + by rewrite A10, (gr_sys _ _ _ _ Hg1).
    + by rewrite <-Hu.
    + intros m. by rewrite A3, Hu.
    + intros m Hm. eapply attr_kept_trans; [apply kept_attr, Hg1|]. apply A5. by apply Hu.
    + eapply index_mono_trans; [by eapply index_mono_kept, Hg1|done].
    + intros m Hm. apply A6. eapply node_cell_mono; [exact Hc|exact Hc1|by apply index_mono_kept, Hg1|done].
Qed.

(** ** [ReleaseNode] *)

Record released s gs n s' : Prop := {
  rl_sys : sys_of s' = sys_of s;
  rl_used m : node_used s' gs m <-> node_used s gs m ∧ m ≠ n;
  rl_kept m : node_used s gs m -> m ≠ n -> attr_kept s s' m;
  rl_index : index_mono s s';
  rl_cells m : node_cell m s -> node_cell m s'
}.

(** [ReleaseNode] of a used node outside the system's group. *)
Lemma ReleaseNode_run s gs F U n :
  store s gs F U -> node_used s gs n -> sys_of s ≠ Some (c_owner n) ->
  runs (ReleaseNode n) s (λ r s', r = 0 ∧ ∃ F' U', store s' gs F' U' ∧ c_owner n ∈ F' ∧ released s gs n s').
Proof.
  intros (sys & Hc & H0g & Hsys & HF & HU) (Hh & g & Hg & Hu) Hns. destruct n as [h i]. simpl in *. unfold ReleaseNode. simpl.
  assert (h ∈ F ++ U) as Hin.
  { rewrite <-(co_split _ _ _ _ _ Hc) in Hh. apply elem_of_cons in Hh as [->|]; [congruence|done]. }
  eapply unsettle_run; [exact Hc|done..|]. intros s1 F1 U1 Hc1 HhF1 HF1 HU1 Hq1.
  eapply counter_run; [exact Hc1|done|done|]. intros s2 Hc2 Hq2.
  assert (quiet s s2) as Hq by by eapply quiet_trans.
  destruct (nodes_kept_group _ _ _ _ (qt_nodes _ _ Hq) Hg) as (g2 & Hg2 & _ & _ & _ & _ & Hu2).
  destruct (give_run h i g2 s2 Hg2) as (g3 & Hrun & Hgv); [by apply Hu2|].
  eapply runs_eq; [exact Hrun|]. split; [done|]. set (s3 := put_obj h (ONodeGroup g3) s2) in *.
  assert (core s3 gs [sys] F1 U1) as Hc3 by (apply (core_put_group s2 gs _ _ _ h g2 g3 Hc2 Hg2); apply Hgv).
  pose proof (frame_put_group h g2 g3 s2 Hg2) as Hf3. fold s3 in Hf3.
  assert (frame s s3) as Hf by (eapply frame_trans; [apply Hq|done]).
  destruct (gave_nodes s2 gs h i g2 g3 Hh Hg2 Hgv) as [N1 N2]. fold s3 in N1, N2.
  exists F1, U1. split_and!; [|done|].
  - exists sys. split_and!; [done|done|by rewrite (fr_sys _ _ Hf)| |].
    + intros x gx Hx. unfold s3. destruct (decide (h = x)) as [<-|Hne].
      * rewrite get_NG_put. intros [= <-]. apply Hgv.
      * rewrite get_NG_put_ne by done. intros Hgx.
        destruct (core_group s1 _ _ _ _ x Hc1) as (g1 & Hg1 & _); [eapply core_in; [exact Hc1|auto]|].
        destruct (nodes_kept_group _ _ _ _ (qt_nodes _ _ Hq2) Hg1) as (g4 & Hg4 & _ & _ & Hfu & _). simplify_eq.
        rewrite Hfu. by apply (HF1 x).
    + assert (h ∉ U1) as HhU1.
      { pose proof (core_nodup _ _ _ _ _ Hc1) as Hnd. rewrite <-(co_split _ _ _ _ _ Hc1) in Hnd.
        apply NoDup_app in Hnd as (_ & _ & (_ & Hd & _)%NoDup_app). by apply Hd. }
      eapply all_full_put; [exact Hg2|done|].
      eapply all_full_kept; [exact Hc1| |apply Hq2|done]; intros x Hx; eapply core_in; [exact Hc1|auto].
  - split.
    + apply Hf.
    + intros m. by rewrite N1, (quiet_used _ _ _ _ _ _ _ Hc Hq).
    + intros m Hm Hne. eapply attr_kept_trans; [apply kept_attr, Hq|]. apply N2; [|done].
      by rewrite (quiet_used _ _ _ _ _ _ _ Hc Hq).
    + apply Hf.
    + intros m Hm. eapply (node_cell_mono s s3 gs []); [exact Hc|rewrite app_nil_r; exact Hc3|apply Hf|done].
Qed.
End alloc.
