(* ===== verification/NodeLru.v ===== *)
(** * NodeLru: the LRU lists of the node store

    [Insert2DirtyLru], [Insert2CleanLru], [Insert2EmptyLru] and
    [RemoveFromLru] of [src/cache/ng_info.cc]: each list is a ring of nodes
    through its head in the system's group, and the operations on it change
    LRU links only.  [AllocateNode] leaves the lists of used nodes alone. *)

From stdpp Require Import gmap.
From S2P Require Import Prelude State Ring BinMalloc NodeMem NodeGroup NodeIndex NgInfo NodeLinks NodeStore NodeAlloc.

Section lru.
Context {A : Type} `{AllocatorLaws A}.
Implicit Types (s : cmem A) (gs P F U : list Z) (h i : Z) (n m : CNode) (L : list CNode).

(** ** Changes of the attributes of used nodes

    Everything but the attributes of used nodes and the buckets of the hash
    table is as it was. *)

Definition attrs_only g g' : Prop := hdr g' = hdr g ∧ ∀ ds, ng_inv g' ds <-> ng_inv g ds.

Lemma attrs_only_ok g g' : attrs_only g g' -> group_ok g -> group_ok g'.
Proof. intros [_ Hl] [ds Hi]. exists ds. by apply Hl. Qed.
Lemma attrs_only_use g g' i : attrs_only g g' -> in_use g' i <-> in_use g i.
Proof.
  intros [Hh Hl]. unfold in_use. split; intros (ds & Hi & Hu); exists ds; (split; [by apply Hl|]);
    by apply (used_hdr g g').
Qed.

Definition node_obj_same (o o' : obj) : Prop :=
  match o, o' with
  | ONodeGroup g, ONodeGroup g' => attrs_only g g'
  | OHash t, OHash t' => hh_size t' = hh_size t
  | _, _ => o = o'
  end.
#[export] Instance node_obj_same_po : PreOrder node_obj_same.
Proof.
  split.
  - intros []; done.
  - intros [] [] []; simpl; try congruence. intros [H1 H2] [H3 H4]. split; [congruence|]. intros ds. by rewrite H4.
Qed.

(** What is released stays released when its data handles stay. *)
Lemma vd_kept_inv g g' ds :
  hdr g' = hdr g -> (∀ j, j ∈ ds -> na_vd (attrs g' j) = na_vd (attrs g j)) -> ng_inv g ds -> ng_inv g' ds.
Proof.
  intros Hh Ha [I1 I2 I3 I4 I5 I6 I7]. destruct (hdr_inv _ _ Hh) as (_ & Ht & Hc & Hf & Hn & _).
  split; rewrite ?Ht, ?Hc, ?Hf, ?Hn; try done; [by eapply hdr_std|]. by eapply dele_chain_ext.
Qed.
Lemma vd_kept_only g g' :
  hdr g' = hdr g -> (∀ j, 0 <= j < 256 -> na_vd (attrs g' j) = na_vd (attrs g j)) -> attrs_only g g'.
Proof.
  intros Hh Ha. split; [done|]. intros ds.
  assert (∀ g1 g2, hdr g2 = hdr g1 -> (∀ j, 0 <= j < 256 -> na_vd (attrs g2 j) = na_vd (attrs g1 j)) -> ng_inv g1 ds -> ng_inv g2 ds) as Hd.
  { intros g1 g2 Hh1 Ha1 Hi. eapply vd_kept_inv; [done| |done]. intros j Hj. apply Ha1.
    pose proof (ngi_range _ _ Hi) as Hr. rewrite Forall_forall in Hr. pose proof (ngi_free _ _ Hi). specialize (Hr j Hj). lia. }
  split; apply Hd; [done| |done|done]. intros j Hj. symmetry. by apply Ha.
Qed.
Lemma lru_obj_node o o' : lru_obj_same o o' -> node_obj_same o o'.
Proof.
  destruct o, o'; simpl; try done; [|by intros [= ->]]. intros [Hh Ha]. apply vd_kept_only; [done|]. intros j Hj.
  apply (f_equal na_vd (Ha j Hj)).
Qed.
Lemma lru_node s s' : objs_rel lru_obj_same s s' -> objs_rel node_obj_same s s'.
Proof.
  intros [H1 H2]. split; [done|]. intros h. specialize (H2 h). inversion H2; constructor. by apply lru_obj_node.
Qed.

Lemma node_same_group s s' h g :
  objs_rel node_obj_same s s' -> get_NG h s = Some g -> ∃ g', get_NG h s' = Some g' ∧ attrs_only g g'.
Proof.
  intros Hr Hg%get_NG_objs. destruct (objs_rel_lookup _ _ _ _ _ Hr Hg) as (o' & Ho & Hs).
  destruct o'; simpl in Hs; try done. exists g0. split; [by apply get_NG_objs|done].
Qed.
Lemma node_same_group_inv s s' h g' :
  objs_rel node_obj_same s s' -> get_NG h s' = Some g' -> ∃ g, get_NG h s = Some g ∧ attrs_only g g'.
Proof.
  intros [_ Hr] Hg%get_NG_objs. specialize (Hr h). inversion Hr as [x y Hxy Hx Hy|Hx Hy]; [|congruence].
  rewrite Hg in Hy. simplify_eq. destruct x; simpl in Hxy; try done. exists g. split; [by apply get_NG_objs|done].
Qed.

Lemma node_same_other s s' h o :
  objs_rel node_obj_same s s' -> (∀ g, o ≠ ONodeGroup g) -> (∀ t, o ≠ OHash t) -> objs s !! h = Some o <-> objs s' !! h = Some o.
Proof.
  intros [_ Hr] Ho Ht. specialize (Hr h). inversion Hr as [x y Hxy Hx Hy|]; [|done].
  destruct x, y; simpl in Hxy; simplify_eq; split; intros [= <-]; try done; (by edestruct Ho) || (by edestruct Ht).
Qed.

Lemma node_same_tables s s' : objs_rel node_obj_same s s' -> tables_kept s s'.
Proof.
  intros Hr. destruct (objs_rel_frame _ _ _ Hr) as (_ & Hf & _). split; [done|]. destruct Hr as [_ Hr].
  split; intros p; unfold get_FI, get_SI; specialize (Hr p);
    inversion Hr as [x y Hxy Hx Hy|]; try done; destruct x, y; simpl in Hxy; by simplify_eq.
Qed.
Lemma node_same_cells s s' : objs_rel node_obj_same s s' -> cells_kept s s'.
Proof.
  intros [_ Hr] c _. rewrite !ng_cell_of_view.
  assert (∀ p, list_view (objs s' !! p) = list_view (objs s !! p)) as Hv; [|by rewrite !Hv].
  intros p. specialize (Hr p). inversion Hr as [x y Hxy Hx Hy|]; [|done].
  destruct x, y; simpl in Hxy; simplify_eq; try done. destruct Hxy as [(Hl & _)%hdr_inv _]. simpl. by rewrite Hl.
Qed.
Lemma node_same_owned s s' : objs_rel node_obj_same s s' -> objs_owned s -> objs_owned s'.
Proof.
  intros Hr (u & Ho & Hu). destruct (objs_rel_frame _ _ _ Hr) as (Ha & _). exists u. rewrite Ha. split; [done|].
  intros h o' Ho'. destruct Hr as [_ Hr]. specialize (Hr h). inversion Hr as [x y Hxy Hx Hy|]; [|congruence].
  rewrite Ho' in Hy. simplify_eq. symmetry in Hx. destruct (Hu _ _ Hx).
  assert (obj_size o' = obj_size x) as ->; [|done]. destruct x, o'; simpl in *; simplify_eq; try done. by rewrite Hxy.
Qed.
Lemma node_same_sys s s' : objs_rel node_obj_same s s' -> sys_of s' = sys_of s.
Proof.
  intros Hr. destruct (objs_rel_frame _ _ _ Hr) as (_ & _ & Hi & _). destruct Hr as [_ Hr].
  unfold sys_of, get_NI. rewrite Hi. specialize (Hr (ngInfo s)).
  inversion Hr as [x y Hxy Hx Hy|]; [|done]. destruct x, y; simpl in Hxy; by simplify_eq.
Qed.

Lemma node_same_core s s' gs P F U : objs_rel node_obj_same s s' -> core s gs P F U -> core s' gs P F U.
Proof.
  intros Hr Hc. destruct (objs_rel_frame _ _ _ Hr) as (_ & _ & Hi & _ & Hst & _).
  eapply core_kept; [exact Hc| |done| | | | |].
  - by eapply node_same_owned, Hc.
  - by apply node_same_tables.
  - by apply node_same_cells.
  - rewrite Hst. apply Hc.
  - intros ni Hni. exists ni. split; [|done]. apply get_NI_objs in Hni. apply get_NI_objs.
    by apply (node_same_other s s' (ngInfo s) (ONGInfo ni) Hr).
  - intros h g Hin Hg. destruct (node_same_group _ _ _ _ Hr Hg) as (g' & Hg' & Hl).
    destruct (core_group _ _ _ _ _ _ Hc Hin) as (g0 & Hg0 & Hok). simplify_eq. exists g'. split_and!; [done| |].
    + by eapply attrs_only_ok.
    + by apply (hdr_inv _ _ (proj1 Hl)).
Qed.

Lemma node_same_store s s' gs F U : objs_rel node_obj_same s s' -> store s gs F U -> store s' gs F U.
Proof.
  intros Hr (sys & Hc & H0g & Hsys & HF & HU). exists sys. split_and!; [by eapply node_same_core|done| | |].
  - by rewrite (node_same_sys _ _ Hr).
  - intros h g' Hh Hg'. destruct (node_same_group_inv _ _ _ _ Hr Hg') as (g & Hg & [Hl _]).
    rewrite (is_full_hdr _ _ Hl). by eapply HF.
  - intros h g' Hh Hg'. destruct (node_same_group_inv _ _ _ _ Hr Hg') as (g & Hg & [Hl _]).
    rewrite (is_full_hdr _ _ Hl). by eapply HU.
Qed.
Lemma node_same_used s s' gs n : objs_rel node_obj_same s s' -> node_used s' gs n <-> node_used s gs n.
Proof.
  intros Hr. unfold node_used. split; intros (Hin & g & Hg & Hu); (split; [done|]).
  - destruct (node_same_group_inv _ _ _ _ Hr Hg) as (g0 & Hg0 & Hl). exists g0. split; [done|].
    by apply (attrs_only_use _ _ (c_index n) Hl).
  - destruct (node_same_group _ _ _ _ Hr Hg) as (g0 & Hg0 & Hl). exists g0. split; [done|].
    by apply (attrs_only_use _ _ (c_index n) Hl).
Qed.

Lemma node_same_Search id s s' : objs_rel node_obj_same s s' -> Search id s' = Search id s.
Proof.
  intros Hr. destruct (node_same_tables _ _ Hr) as (H1 & H2 & H3). apply Search_ext; [done..|]. intros h.
  destruct (get_NG h s) as [g|] eqn:Hg.
  - destruct (node_same_group _ _ _ _ Hr Hg) as (g' & -> & (_ & _ & _ & _ & Hn & _)%hdr_inv & _). simpl. by rewrite Hn.
  - destruct (get_NG h s') as [g'|] eqn:Hg'; [|done]. destruct (node_same_group_inv _ _ _ _ Hr Hg') as (g & ? & _). congruence.
Qed.
Lemma node_same_id s s' n : objs_rel node_obj_same s s' -> node_id s' n = node_id s n.
Proof.
  intros Hr. unfold node_id. destruct (get_NG (c_owner n) s) as [g|] eqn:Hg.
  - destruct (node_same_group _ _ _ _ Hr Hg) as (g' & -> & Hh & _). simpl. by rewrite (hdr_id _ _ _ Hh).
  - destruct (get_NG (c_owner n) s') as [g'|] eqn:Hg'; [|done].
    destruct (node_same_group_inv _ _ _ _ Hr Hg') as (g & ? & _). congruence.
Qed.
Lemma node_same_cell s s' n : objs_rel node_obj_same s s' -> node_cell n s -> node_cell n s'.
Proof.
  intros Hr (g & Hg & Hs & Hi & Hn). destruct (node_same_group _ _ _ _ Hr Hg) as (g' & Hg' & Hh & _).
  exists g'. split; [done|]. split; [by eapply hdr_std|]. split; [done|].
  by rewrite (hdr_id _ _ _ Hh), (node_same_Search _ _ _ Hr).
Qed.

(** ** The operations *)

(** [s'] differs from [s] in the LRU links of the nodes [X]. *)
Definition lru_changed (X : list CNode) s s' : Prop := links_kept X s s'.

Lemma sysNG_run s sys : sys_of s = Some sys -> ni_get ni_sys_zone s = Some (sys, s).
Proof.
  unfold sys_of. destruct (get_NI (ngInfo s) s) as [ni|] eqn:Hni; [|done]. intros [= <-]. by apply ni_get_run.
Qed.

Lemma Insert2Lru_run s k sys n L :
  sys_of s = Some sys -> ring (MkNode sys k) L s -> node_cell n s -> n ∉ MkNode sys k :: L ->
  runs (Insert2Lru k n) s (λ r s', r = 0 ∧ ring (MkNode sys k) (n :: L) s' ∧ lru_changed (n :: MkNode sys k :: L) s s').
Proof.
  intros Hsys Hr Hn Hnin. unfold Insert2Lru. eapply runs_step; [by apply sysNG_run|].
  eapply runs_bind; [by apply (list_add_ring n (MkNode sys k) L)|]. intros [] s1 [H1 H2]. by apply runs_ret.
Qed.

Lemma RemoveFromLru_run s (h : CNode) u n v :
  ring h (u ++ n :: v) s ->
  runs (RemoveFromLru n) s (λ r s', r = 0 ∧ ring h (u ++ v) s' ∧ ring n [] s' ∧ lru_changed (h :: u ++ n :: v) s s').
Proof.
  intros Hr. unfold RemoveFromLru, NODE_LIST_DEL.
  eapply runs_bind; [apply (list_unlink_then n h u v s _ (ring n []) Hr)|].
  - intros s1 Hn. eapply runs_mono; [by apply self_links_ring|naive_solver].
  - intros [] s1 (H1 & H2 & H3). by apply runs_ret.
Qed.

(** ** Frame: allocation *)

Lemma lru_id_attr s n k g :
  get_NG (c_owner n) s = Some g -> ng_std g -> 0 <= c_index n < 256 ->
  lru_id n LRU_PREV s = Some (na_lru_prev (attrs g (c_index n))) ∧
  (k = LRU_NEXT -> lru_id n k s = Some (na_lru_next (attrs g (c_index n)))).
Proof.
  intros Hg Hs Hi. unfold lru_id. split; [|intros ->].
  - pose proof (NG_NodeLru_prev_run _ _ _ _ Hg Hs Hi) as Hr. unfold NG_NodeLru in Hr. by rewrite Hr.
  - pose proof (NG_NodeLru_next_run _ _ _ _ Hg Hs Hi) as Hr. unfold NG_NodeLru in Hr. by rewrite Hr.
Qed.

(** Rings of nodes that keep their attributes stay, when found nodes stay
    found. *)
Lemma lru_ring_kept s s' (h : CNode) L :
  ring h L s ->
  (∀ n, n ∈ h :: L -> attr_kept s s' n ∧ node_cell n s') ->
  (∀ id n, Search id s = Some n -> n ∈ h :: L -> Search id s' = Some n) ->
  ring h L s'.
Proof.
  intros Hr Hk Hs.
  assert (∀ n, n ∈ h :: L -> ∀ m, m ∈ h :: L ->
    (l_prev n s = Some m -> l_prev n s' = Some m) ∧ (l_next n s = Some m -> l_next n s' = Some m)) as Hl.
  { intros n Hn m Hm. destruct (Hk n Hn) as [Ha (g' & Hg' & Hs' & Hi & _)].
    pose proof (ring_perm _ _ _ _ Hr Hn) as (g & Hg & Hsg & _).
    assert (attrs g' (c_index n) = attrs g (c_index n)) as Haa.
    { specialize (Ha (attrs g (c_index n))). unfold node_attr in Ha. rewrite Hg, Hg' in Ha. specialize (Ha eq_refl).
      exact (Some_inj _ _ Ha). }
    destruct (lru_id_attr s n LRU_NEXT g Hg Hsg Hi) as [P1 N1], (lru_id_attr s' n LRU_NEXT g' Hg' Hs' Hi) as [P2 N2].
    rewrite !l_prev_eq, !l_next_eq, P1, P2, N1, N2, Haa by done. osimpl. split; intros Hq; by apply Hs. }
  destruct Hr as (Hnd & Hc & Hp). split_and!; [done| |].
  - apply Forall_forall. intros n Hn. by apply Hk.
  - assert (∀ x, x ∈ h :: L ++ [h] -> x ∈ h :: L) as Hsub by set_solver.
    revert Hp Hsub. generalize (h :: L ++ [h]). intros l. induction l as [|a [|b l] IH]; intros Hp Hsub; try done.
    destruct Hp as [[Hn Hv] Hp]. split.
    + split; eapply Hl; try done; apply Hsub; set_solver.
    + apply IH; [done|]. intros x Hx. apply Hsub. by right.
Qed.

Lemma AllocateNode_lru s gs F U (h : CNode) L n s' gs' F' U' :
  store s gs F U -> ring h L s -> (∀ m, m ∈ h :: L -> node_used s gs m) ->
  store s' (gs ++ gs') F' U' -> allocated s gs n s' (gs ++ gs') -> ring h L s' ∧ n ∉ h :: L.
Proof.
  intros (sys & Hc & _) Hr Hu (sys' & Hc' & _) Ha. split.
  - apply (lru_ring_kept s s' h L Hr).
    + intros m Hin. split; [by apply (al_kept _ _ _ _ _ Ha), Hu|].
      apply (al_cells _ _ _ _ _ Ha). apply (ring_perm h L s m Hr Hin).
    + intros id m Hs Hin. eapply (Search_mono s s' gs gs'); [exact Hc|exact Hc'|apply Ha|done|].
      eapply node_cell_null; [exact Hc|]. apply (ring_perm h L s m Hr Hin).
  - intros Hin. by apply (al_new _ _ _ _ _ Ha), Hu.
Qed.

Lemma ReleaseNode_lru s gs F U (h : CNode) L n s' F' U' :
  store s gs F U -> ring h L s -> (∀ m, m ∈ h :: L -> node_used s gs m ∧ m ≠ n) ->
  store s' gs F' U' -> released s gs n s' -> ring h L s'.
Proof.
  intros (sys & Hc & _) Hr Hu (sys' & Hc' & _) Ha. apply (lru_ring_kept s s' h L Hr).
  - intros m Hin. destruct (Hu m Hin). split; [by apply (rl_kept _ _ _ _ Ha)|].
    apply (rl_cells _ _ _ _ Ha). apply (ring_perm h L s m Hr Hin).
  - intros id m Hs Hin. eapply (Search_mono s s' gs []); [exact Hc|by rewrite app_nil_r|apply Ha|done|].
    eapply node_cell_null; [exact Hc|]. apply (ring_perm h L s m Hr Hin).
Qed.
End lru.
