(* ===== verification/NodeInit.v ===== *)
(** * NodeInit: start of the node store

    [CNodeIndex::Init] ([src/cache/node_index.cc]) and [CNGInfo::Init]
    ([src/cache/ng_info.cc]) on an allocator in a legal state establish the
    invariant of [NodeStore], with the heads of the three LRU lists in the
    system's group and the lists empty. *)

From stdpp Require Import gmap.
From S2P Require Import Prelude State Ring BinMalloc NodeMem NodeGroup NodeIndex NgInfo NodeLinks NodeStore NodeAlloc NodeLru.

Section init.
Context {A : Type} `{AllocatorLaws A}.
Implicit Types (s : cmem A) (gs P F U : list Z) (h i k : Z) (n m : CNode).

(** ** The index *)

(** A first-level table whose first [k] second-level tables are there, all
    empty. *)
Definition fresh_index s k : Prop :=
  objs_owned s ∧ ∃ f, get_FI (firstIndex s) s = Some f ∧
    (∀ i p, fi_h f !! i = Some p -> p ≠ 0 -> 0 <= i < 256 ∧ get_SI p s = Some (MkSI 0 ∅)) ∧
    (∀ i j p, fi_h f !! i = Some p -> fi_h f !! j = Some p -> p ≠ 0 -> i = j) ∧
    (∀ i, 0 <= i < k -> default 0 (fi_h f !! i) ≠ 0).

(** Objects of [s] other than the first-level table are those of [s']. *)
Definition index_frame s s' : Prop :=
  firstIndex s' = firstIndex s ∧ step s' = step s ∧
  ∀ h o, objs s !! h = Some o -> h ≠ firstIndex s -> objs s' !! h = Some o.

Lemma PreAllocateIndex2_step s k :
  fresh_index s k -> 0 <= k < 256 ->
  ∃ v s', (v ← M_CALLOC INDEX_2_SIZE (OSecondIndex (MkSI 0 ∅)); fi_wr k v;; fi_rd k) s = Some (v, s') ∧
    index_frame s s' ∧ if v =? 0 then fresh_index s' 0 else fresh_index s' (k + 1).
Proof.
  intros (Ho & f & Hf & Hsec & Hap & Hk) Hk256. assert (Hfo := Hf). apply get_FI_objs in Hfo.
  destruct (M_CALLOC_run INDEX_2_SIZE (OSecondIndex (MkSI 0 ∅)) s Ho) as (p & a & Hr & Hp); [done|done|].
  exists p. rewrite (step_bind _ _ _ _ _ Hr). destruct (Z.eqb_spec p INVALID_HANDLE) as [->|Hp0].
  - set (s1 := set_alloc a s) in *.
    eexists. rewrite (step_bind _ _ _ _ _ (fi_wr_run f k 0 s1 Hf Hk256)).
    rewrite (fi_rd_run _ k _ (get_FI_put _ _ _) Hk256). cbn [fi_h]. rewrite lookup_insert_eq.
    split; [done|]. split.
    { split; [done|]. split; [done|]. intros h o Hin Hne. simpl. by rewrite lookup_insert_ne. }
    rewrite Z.eqb_refl. split; [by eapply objs_owned_put|]. eexists. split; [apply get_FI_put|]. cbn [fi_h].
    assert (∀ i q, <[k:=0]> (fi_h f) !! i = Some q -> q ≠ 0 -> fi_h f !! i = Some q) as Hold.
    { intros i q [[_ <-]|[_ ?]]%lookup_insert_Some Hq; done. }
    split_and!; [| |lia].
    + intros i q Hi Hq. destruct (Hsec i q (Hold i q Hi Hq) Hq) as [? Hs]. split; [done|].
      apply get_SI_objs in Hs. apply get_SI_objs. simpl. rewrite lookup_insert_ne; [done|]. intros Heq.
      rewrite Heq in Hfo. congruence.
    + intros i j q Hi Hj Hq. by apply (Hap i j q); [apply Hold..|].
  - destruct Hp as (Hpos & Hnone & Ho1 & _). set (s1 := put_obj p _ _) in *.
    assert (firstIndex s ≠ p) as Hne by congruence.
    assert (get_FI (firstIndex s1) s1 = Some f) as Hf1 by (apply get_FI_objs; simpl; by rewrite lookup_insert_ne).
    eexists. rewrite (step_bind _ _ _ _ _ (fi_wr_run f k p s1 Hf1 Hk256)).
    rewrite (fi_rd_run _ k _ (get_FI_put _ _ _) Hk256). cbn [fi_h]. rewrite lookup_insert_eq.
    split; [done|].
    split.
    { split; [done|]. split; [done|]. intros h o Hin Hn. simpl. rewrite lookup_insert_ne by done.
      rewrite lookup_insert_ne; [done|]. intros ->. congruence. }
    zif. split; [eapply objs_owned_put; [exact Ho1|by apply get_FI_objs|done]|].
    eexists. split; [apply get_FI_put|]. cbn [fi_h].
    assert (∀ i q, fi_h f !! i = Some q -> q ≠ 0 -> q ≠ p) as Hnp.
    { intros i q Hi Hq ->. destruct (Hsec i p Hi Hq) as [_ Hs%get_SI_objs]. congruence. }
    split_and!.
    + intros i q [[<- <-]|[Hik Hi]]%lookup_insert_Some Hq.
      * split; [lia|]. apply get_SI_objs. simpl. by rewrite lookup_insert_ne, lookup_insert_eq.
      * destruct (Hsec i q Hi Hq) as [? Hs%get_SI_objs]. split; [done|]. apply get_SI_objs. simpl.
        rewrite !lookup_insert_ne; [done|by apply not_eq_sym, (Hnp i)|congruence].
    + intros i j q [[<- <-]|[Hik Hi]]%lookup_insert_Some [[<- Hpq]|[Hjk Hj]]%lookup_insert_Some Hq; try done.
      * by edestruct Hnp.
      * subst q. by edestruct Hnp.
      * by apply (Hap i j q).
    + intros i Hi. destruct (decide (i = k)) as [->|]; [by rewrite lookup_insert_eq|].
      rewrite lookup_insert_ne by done. apply Hk. lia.
Qed.

Lemma fresh_index_weaken s k k' : fresh_index s k -> k' <= k -> fresh_index s k'.
Proof. intros (Ho & f & Hf & H1 & H2 & H3) Hk. split; [done|]. exists f. split_and!; try done. intros i Hi. apply H3. lia. Qed.
Lemma index_frame_trans s1 s2 s3 : index_frame s1 s2 -> index_frame s2 s3 -> index_frame s1 s3.
Proof.
  intros (F1 & S1 & O1) (F2 & S2 & O2). split_and!; [congruence..|]. intros h o Hh Hne.
  apply O2; [by apply O1|congruence].
Qed.

Lemma PreAllocateIndex2_loop_run c (n : Z) s :
  fresh_index s (n - Z.of_nat c) -> Z.of_nat c <= n <= 256 ->
  runs (PreAllocateIndex2_loop c n) s (λ r s', index_frame s s' ∧
    (r = 0 ∧ fresh_index s' n ∨ r = -1 ∧ fresh_index s' 0)).
Proof.
  revert s. induction c as [|c IH]; intros s Hs Hc; cbn [PreAllocateIndex2_loop].
  { apply runs_ret. split; [done|]. left. split; [done|]. eapply fresh_index_weaken; [exact Hs|lia]. }
  destruct (PreAllocateIndex2_step s (n - Z.of_nat (S c)) Hs) as (v & s1 & Hr & Hfr & Hv); [lia|].
  assert (∀ (c0 : Z -> CM A Z) R, runs (c0 v) s1 R ->
    runs (v ← M_CALLOC INDEX_2_SIZE (OSecondIndex (MkSI 0 ∅)); fi_wr (n - Z.of_nat (S c)) v;;
          v ← fi_rd (n - Z.of_nat (S c)); c0 v) s R) as Hb.
  { intros c0 R (x & s2 & H1 & H2). exists x, s2. split; [|done]. revert Hr. unfold mbind, ST_bind.
    destruct (M_CALLOC _ _ s) as [[v1 s3]|]; [|done]. cbn [mbind option_bind].
    destruct (fi_wr _ v1 s3) as [[[] s4]|]; [|done]. cbn [mbind option_bind]. intros ->. exact H1. }
  apply Hb. rewrite (Z.eqb_sym INVALID_HANDLE). unfold INVALID_HANDLE. destruct (v =? 0).
  - apply runs_ret. split; [done|]. by right.
  - eapply runs_mono; [apply IH; [|lia]|].
    + by replace (n - Z.of_nat c) with (n - Z.of_nat (S c) + 1) by lia.
    + intros r s2 [Hfr2 Hr2]. split; [by eapply index_frame_trans|done].
Qed.

Lemma index_Init_run s mem_size :
  objs_owned s -> 0 <= mem_size < 2 ^ 40 ->
  runs (index_Init mem_size) s (λ r s', (r = 0 ∧ fresh_index s' 1 ∧ step s' = step s) ∨ r = -1).
Proof.
  intros Ho Hm. unfold index_Init.
  destruct (M_CALLOC_run INDEX_1_SIZE (OFirstIndex (MkFI 0 ∅)) s Ho) as (p & a & Hr & Hp); [done|done|].
  eapply runs_step; [exact Hr|]. rewrite (Z.eqb_sym INVALID_HANDLE).
  destruct (p =? INVALID_HANDLE); [apply runs_ret; by right|].
  destruct Hp as (Hpos & Hnone & Ho1 & _). eapply runs_step; [done|]. unfold PreAllocateIndex2.
  set (n := if 256 <? u32 _ then _ else _).
  assert (1 <= n <= 256) as Hn.
  { unfold n. change (u32 (65536 * 256 * 44)) with 738197504.
    rewrite (uwrap_small 64) by (try lia; Z.div_mod_to_equations; lia).
    rewrite uwrap_small by (try lia; Z.div_mod_to_equations; lia).
    assert (0 <= mem_size / 738197504) by (apply Z.div_pos; lia). zcases. }
  eapply runs_mono; [apply PreAllocateIndex2_loop_run; [|lia]|].
  - rewrite Z2Nat.id by lia. split; [done|]. eexists. split; [apply get_FI_objs; simpl; apply lookup_insert_eq|].
    cbn [fi_h]. split_and!; [| |lia]; intros; by rewrite lookup_empty in *.
  - intros r s1 [(_ & Hst & _) [[-> Hf]|[-> _]]]; [left|by right]. split_and!; [done| |done].
    eapply fresh_index_weaken; [exact Hf|lia].
Qed.

Lemma fresh_index_ok s k : fresh_index s k -> index_ok s [].
Proof.
  intros (_ & f & Hf & Hsec & Hap & _). split.
  - by exists f.
  - intros f0 i p Hf0 Hi Hp. rewrite Hf in Hf0. injection Hf0 as <-. destruct (Hsec i p Hi Hp) as [? ?].
    split; [done|]. by eexists.
  - intros f0 i j p Hf0 Hi Hj Hp. rewrite Hf in Hf0. injection Hf0 as <-. by eapply Hap.
  - intros j h _ He Hh. exfalso. unfold index_entry in He. rewrite Hf in He. cbn [mbind option_bind] in He.
    destruct (fi_h f !! (j / 65536)) as [p|] eqn:Hj; simpl in He; [|by simplify_eq].
    destruct (Z.eqb_spec p INVALID_HANDLE); [by simplify_eq|]. destruct (Hsec _ _ Hj) as [_ Hs]; [done|].
    rewrite Hs in He. simpl in He. by rewrite lookup_empty in He; simplify_eq.
Qed.
Lemma fresh_index_table s k : fresh_index s 1 -> 0 <= k < 65536 -> index_table k s ≠ Some 0.
Proof.
  intros (_ & f & Hf & _ & _ & Ht) Hk. unfold index_table. rewrite Hf. cbn [mbind option_bind]. intros [= Heq].
  rewrite Z.div_small in Heq by done. apply (Ht 0); [lia|done].
Qed.

(** ** The system's group *)

(** [h] is the only group; its first [k] nodes are fresh, the others not used. *)
Definition sys_group h k s : Prop :=
  core s [h] [h] [] [] ∧ (∃ g, get_NG h s = Some g ∧ ng_inv g [] ∧ ng_free g = k) ∧
  ∀ i, 0 <= i < k -> fresh_node (MkNode h i) s ∧ node_used s [h] (MkNode h i).

Lemma sys_group_used h k s i : sys_group h k s -> 0 <= i < k -> node_used s [h] (MkNode h i).
Proof. intros (_ & _ & Hf) Hi. by apply Hf. Qed.

Lemma sys_group_quiet h k s s' : sys_group h k s -> core s' [h] [h] [] [] -> nodes_kept s s' -> sys_group h k s'.
Proof.
  intros (Hc & (g & Hg & Hi & Hf) & Hn) Hc' Hk. split; [done|]. split.
  - destruct (Hk h g Hg) as (g' & Hg' & E). exists g'. split; [done|]. rewrite <-E in Hi, Hf.
    split; [exact (proj1 (ng_inv_set_list _ _ _) Hi)|done].
  - intros i Hi'. destruct (Hn i Hi') as [(id & vd & H1 & H2) Hu]. split.
    + exists id, vd. split; [by eapply kept_id|by eapply kept_attr].
    + by apply (kept_used _ _ _ _ _ _ _ Hc Hk).
Qed.

Lemma sys_alloc_run h k s :
  sys_group h k s -> 0 <= k < 256 ->
  ∃ s', NG_AllocateNode h s = Some (MkNode h k, s') ∧ sys_group h (k + 1) s' ∧ tables_kept s s' ∧
    ngInfo s' = ngInfo s ∧ get_NI (ngInfo s) s' = get_NI (ngInfo s) s ∧ step s' = step s.
Proof.
  intros (Hc & (g & Hg & Hinv & Hfree) & Hn) Hk.
  destruct (NG_AllocateNode_run h g [] s Hg Hinv) as (i & g' & ds' & Hrun & Ht); [intros [_ ?]; lia|].
  destruct (ngt_next _ _ _ _ _ Ht eq_refl) as (-> & -> & Hf').
  assert (took (ng_free g) g g') as Htk.
  { destruct Ht as [T1 T2 T3 T4 T5 T6 T7 _]. split; try done; [by exists []|by rewrite (in_use_used _ _ _ Hinv)|].
    intros j. rewrite (in_use_used _ _ _ T1), (in_use_used _ _ _ Hinv). apply T6. }
  destruct (took_nodes s [h] h _ g g' ltac:(by left) Hg Htk) as (_ & N2 & N3). rewrite Hfree in *.
  eexists. split; [exact Hrun|].
  assert (core (put_obj h (ONodeGroup g') s) [h] [h] [] []) as Hc1.
  { apply (core_put_group s [h] _ _ _ h g g' Hc Hg); apply Htk. }
  split_and!; try done.
  - split; [done|]. split; [exists g'; split; [apply get_NG_put|split; [apply Ht|done]]|].
    intros j Hj. destruct (decide (j = k)) as [->|].
    + split; [by eapply took_fresh|]. apply N2. by left.
    + destruct (Hn j) as [(id & vd & H1 & H2) Hu]; [lia|]. split; [|apply N2; by right].
      exists id, vd. split; [|by apply N3]. unfold node_id in *. cbn [c_owner c_index] in *. rewrite get_NG_put.
      rewrite Hg in H1. simpl in *. rewrite <-H1. unfold id_of. by rewrite (ngt_nid _ _ _ _ _ Ht).
  - by eapply put_group_tables.
  - unfold get_NI. simpl. apply get_NG_objs in Hg. destruct (co_info _ _ _ _ _ Hc) as (ni & Hni%get_NI_objs & _).
    rewrite lookup_insert_ne; [done|]. intros ->. congruence.
Qed.

(** [INIT_NODE_LIST_HEAD(node, node.NodeID())] *)
Lemma sys_head_run h k s i :
  sys_group h k s -> 0 <= i < k ->
  ∃ s', (id ← NodeID (MkNode h i); INIT_NODE_LIST_HEAD (MkNode h i) id) s = Some (tt, s') ∧ sys_group h k s' ∧
    tables_kept s s' ∧ ngInfo s' = ngInfo s ∧ get_NI (ngInfo s) s' = get_NI (ngInfo s) s ∧ step s' = step s.
Proof.
  intros (Hc & (g & Hg & Hinv & Hfree) & Hn) Hi.
  assert (0 <= i < 256) as Hi256 by (destruct Hinv; lia). pose proof (ngi_std _ _ Hinv) as Hstd.
  set (id := id_of g i).
  assert (upd_node (INIT_NODE_LIST_HEAD (MkNode h i) id) tt h i (with_lnext id ∘ with_prev id) g s)
    as (g' & Hrun & HU).
  { unfold INIT_NODE_LIST_HEAD, set_LruPrev, set_LruNext. cbn [c_owner c_index].
    eapply upd_node_seq; [by apply set_NG_NodeLru_prev_run|]. intros g1 [E1 _].
    apply set_NG_NodeLru_next_run; [apply get_NG_put|by eapply hdr_std|done]. }
  exists (put_obj h (ONodeGroup g') s). split; [by rewrite (step_bind _ _ _ _ _ (NodeID_run (MkNode h i) _ _ Hg))|].
  assert (objs_rel lru_obj_same s (put_obj h (ONodeGroup g') s)) as Hsame by by eapply lru_same_put.
  pose proof (lru_node _ _ Hsame) as Hnode.
  split_and!; [|by apply node_same_tables|done| |done].
  - split; [by eapply node_same_core|]. split.
    + exists g'. split; [apply get_NG_put|]. split; [|by rewrite <-Hfree; apply (hdr_inv _ _ (proj1 HU))].
      eapply ng_inv_upd; [exact Hinv|exact HU|left; apply not_elem_of_nil].
    + intros j Hj. destruct (Hn j Hj) as [(idj & vd & H1 & H2) Hu]. split; [|by eapply node_same_used].
      exists idj, vd. destruct HU as [Hh Ha]. unfold node_id, node_attr in *. cbn [c_owner c_index] in *.
      rewrite get_NG_put. rewrite Hg in H1, H2. cbn [mbind option_bind] in *. apply Some_inj in H1, H2.
      rewrite (hdr_id _ _ j Hh), H1. split; [done|]. rewrite Ha by (destruct Hinv; lia).
      case_decide as Hji; [subst j|by rewrite H2]. unfold id. by rewrite H2, H1.
  - unfold get_NI. simpl. apply get_NG_objs in Hg. destruct (co_info _ _ _ _ _ Hc) as (ni & Hni%get_NI_objs & _).
    rewrite lookup_insert_ne; [done|]. intros ->. congruence.
Qed.

Lemma index_entry_table k h s : index_entry k s = Some h -> h ≠ 0 -> index_table k s ≠ Some 0.
Proof.
  unfold index_entry, index_table. destruct (get_FI _ s) as [f|]; [|done]. cbn [mbind option_bind].
  destruct (Z.eqb_spec (default 0 (fi_h f !! (k / 65536))) INVALID_HANDLE) as [_|Hne]; [by intros [= <-]|].
  by intros _ _ [= ?].
Qed.
Lemma index_table_kept k s s' : tables_kept s s' -> index_table k s' = index_table k s.
Proof. intros (H1 & H2 & _). unfold index_table. by rewrite H1, H2. Qed.

Lemma sys_insert_run h k s i :
  sys_group h k s -> 0 <= i < k -> index_table 0 s ≠ Some 0 ->
  runs (Insert (MkNode h i)) s (λ _ s', sys_group h k s' ∧ index_entry 0 s' = Some h ∧ ngInfo s' = ngInfo s ∧
    sys_of s' = sys_of s).
Proof.
  intros Hs Hi Ht. assert (Hs' := Hs). destruct Hs' as (Hc & (g & Hg & Hinv & Hfree) & Hn).
  eapply runs_mono; [apply (Insert_run s [h] [h] [] [] 0%nat (MkNode h i) Hc); [done|simpl; destruct Hinv; lia]|].
  intros r s' (Hc' & Hk & _ & Hni & Hsy & [[_ He]|(_ & _ & He)]); [|done].
  split_and!; [by eapply sys_group_quiet|done..].
Qed.

Lemma SystemReservedInit_run h s :
  sys_group h 0 s -> index_table 0 s ≠ Some 0 ->
  runs (SystemReservedInit h) s (λ r s', r = 0 ∧ sys_group h 3 s' ∧ index_entry 0 s' = Some h ∧ ngInfo s' = ngInfo s).
Proof.
  intros H0s Ht. assert (0 < h) as Hpos.
  { destruct H0s as (Hc & _). eapply core_group_pos; [exact Hc|by left]. }
  assert (∀ k, 0 <= k < 256 -> is_null (MkNode h k) = false) as Hnn.
  { intros k Hk. unfold is_null, NODE_GROUP_INCLUDE_NODES. simpl. zcases. }
  unfold SystemReservedInit.
  destruct (sys_alloc_run h 0 s H0s) as (s1 & R1 & G1 & T1 & I1 & _); [lia|].
  eapply runs_step; [exact R1|]. rewrite Hnn by lia.
  destruct (sys_alloc_run h 1 s1 G1) as (s2 & R2 & G2 & T2 & I2 & _); [lia|].
  eapply runs_step; [exact R2|]. rewrite Hnn by lia.
  destruct (sys_alloc_run h 2 s2 G2) as (s3 & R3 & G3 & T3 & I3 & _); [lia|].
  eapply runs_step; [exact R3|]. rewrite Hnn by lia.
  assert (∀ (i : Z) s0 (c : CM A Z) R, 0 <= i < 3 -> sys_group h 3 s0 ->
    (∀ s', sys_group h 3 s' -> tables_kept s0 s' -> ngInfo s' = ngInfo s0 -> runs c s' R) ->
    runs (id ← NodeID (MkNode h i); INIT_NODE_LIST_HEAD (MkNode h i) id;; c) s0 R) as Hhead.
  { intros i s0 c R Hi HG Hc. destruct (sys_head_run h 3 s0 i HG Hi) as (s' & Hr & G & T & I & _).
    destruct (Hc s' G T I) as (x & s4 & Hx & HR). exists x, s4. split; [|done]. revert Hr. unfold mbind, ST_bind.
    destruct (NodeID _ s0) as [[id s5]|]; [|done]. cbn [mbind option_bind]. intros ->. exact Hx. }
  apply Hhead; [lia|exact G3|]. intros s4 G4 T4 I4. apply Hhead; [lia|exact G4|]. intros s5 G5 T5 I5.
  apply Hhead; [lia|exact G5|]. intros s6 G6 T6 I6.
  assert (index_table 0 s6 ≠ Some 0) as Ht6.
  { rewrite !(index_table_kept 0 _ _ T6), (index_table_kept 0 _ _ T5), (index_table_kept 0 _ _ T4),
      (index_table_kept 0 _ _ T3), (index_table_kept 0 _ _ T2), (index_table_kept 0 _ _ T1). done. }
  eapply runs_bind; [by apply (sys_insert_run h 3 s6 0)|]. intros _ s7 (G7 & E7 & I7 & _).
  eapply runs_bind; [apply (sys_insert_run h 3 s7 1 G7); [lia|eapply index_entry_table; [exact E7|lia]]|].
  intros _ s8 (G8 & E8 & I8 & _).
  eapply runs_bind; [apply (sys_insert_run h 3 s8 2 G8); [lia|eapply index_entry_table; [exact E8|lia]]|].
  intros _ s9 (G9 & E9 & I9 & _). apply runs_ret. split_and!; [done..|congruence].
Qed.

(** ** [CNGInfo::Init] *)

(** The two list heads of a new [NG_INFO_T]. *)
Lemma list_heads_run v s :
  get_NI v s = Some zero_NI ->
  runs (INIT_NG_LIST_HEAD v;; INIT_NG_LIST_HEAD (v + FULL_HEAD)) s (λ _ s',
    objs_rel ng_obj_same s s' ∧ ring v [] s' ∧ ring (v + FULL_HEAD) [] s').
Proof.
  intros Hv%get_NI_objs. assert (v ≠ v + FULL_HEAD) as Hne by (unfold FULL_HEAD; lia).
  eapply runs_bind.
  { apply self_links_ring. simpl. unfold ng_cell_of. rewrite Hv. by eexists. }
  intros [] s1 [Hk1 H1]. pose proof (proj1 Hk1) as Hs1. simpl in Hs1. eapply runs_mono.
  { apply self_links_ring. simpl. apply (ng_cell_same _ _ _ Hs1). unfold ng_cell_of.
    replace (v + FULL_HEAD - FULL_HEAD) with v by lia. rewrite Hv.
    destruct (objs s !! (v + FULL_HEAD)) as [[]|]; by eexists. }
  intros [] s2 [Hk2 H2]. split_and!; [|eapply ring_kept; [exact H1|exact Hk2|]|done].
  - etrans; [exact Hs1|exact (proj1 Hk2)].
  - intros c Hc Hc'. apply list_elem_of_singleton in Hc, Hc'. congruence.
Qed.

Lemma core_start s s' v :
  fresh_index s 1 -> 0 < step s -> get_NI v s = Some zero_NI -> ngInfo s = v -> objs_rel ng_obj_same s s' ->
  ring v [] s' -> ring (v + FULL_HEAD) [] s' -> core s' [] [] [] [].
Proof.
  intros Hf Hst Hv <- Hr H1 H2. destruct (objs_rel_frame _ _ _ Hr) as (_ & _ & Hi & _ & Hst' & _). split; try done.
  - eapply ng_same_owned; [exact Hr|apply Hf].
  - apply get_NI_objs in Hv. destruct (objs_rel_lookup _ _ _ _ _ Hr Hv) as (o' & Ho' & Hs).
    destruct o'; simpl in Hs; try done. eexists. rewrite Hi. split; [by apply get_NI_objs|].
    exact (f_equal ni_min_id Hs).
  - by rewrite Hi.
  - by rewrite Hi.
  - eapply index_ok_kept; [by apply ng_same_tables|]. by eapply fresh_index_ok.
  - by rewrite Hst'.
Qed.

(** A fresh node that is found under its id is a list of its own. *)
Lemma fresh_ring n s : fresh_node n s -> node_cell n s -> ring n [] s.
Proof.
  intros (id & vd & H1 & H2) Hn. assert (Hn' := Hn). destruct Hn' as (g & Hg & Hs & Hi & Hf).
  unfold node_id, node_attr in H1, H2. rewrite Hg in H1, H2. cbn [mbind option_bind] in H1, H2.
  apply Some_inj in H1, H2. rewrite H1 in Hf.
  destruct (lru_id_attr s n LRU_NEXT g Hg Hs Hi) as [P1 N1]. rewrite H2 in P1, N1.
  split_and!; [by repeat constructor; apply not_elem_of_nil|by repeat constructor|]. simpl. split; [|done]. split.
  - rewrite l_next_eq, N1 by done. osimpl. exact Hf.
  - rewrite l_prev_eq, P1. osimpl. exact Hf.
Qed.

(** The node store as [Init] leaves it: the system's group alone, its first
    three nodes the heads of empty lists. *)
Definition store_start s sys : Prop :=
  store s [sys] [] [] ∧
  (∀ n, node_used s [sys] n <-> c_owner n = sys ∧ 0 <= c_index n < 3) ∧
  ∀ i, 0 <= i < 3 -> ring (MkNode sys i) [] s.

Lemma sys_group_start s sys :
  sys_group sys 3 s -> index_entry 0 s = Some sys -> sys_of s = Some sys -> store_start s sys.
Proof.
  intros (Hc & (g & Hg & Hinv & Hfree) & Hn) He Hsys. split_and!.
  - exists sys. split_and!; try done; intros h g' Hh; by apply elem_of_nil in Hh.
  - intros [h i]. simpl. split.
    + intros (Hh%list_elem_of_singleton & g0 & Hg0 & Hu). simpl in *. subst h. rewrite Hg in Hg0. injection Hg0 as <-.
      apply (in_use_used _ _ _ Hinv) in Hu as [Hr _]. split; [done|lia].
    + intros [-> Hi]. by apply Hn.
  - intros i Hi. apply fresh_ring; [by apply Hn|].
    eapply (node_cell_found s [sys] [sys] [] [] _ 0%nat Hc); [done|done|simpl; lia].
Qed.

Lemma InitHeader_run v s :
  fresh_index s 1 -> 0 < step s -> get_NI v s = Some zero_NI -> ngInfo s = v ->
  runs (InitHeader v) s (λ r s', (r = 0 ∧ ∃ sys, store_start s' sys) ∨ r = -1).
Proof.
  intros Hf Hst Hv Hni.
  assert (index_table 0 s ≠ Some 0) as Ht by (by apply fresh_index_table).
  unfold InitHeader. destruct (list_heads_run v s Hv) as ([] & s1 & Hrun & Hr1 & R1 & R2).
  assert (∀ (c : CM A Z) R, runs c s1 R -> runs (INIT_NG_LIST_HEAD v;; INIT_NG_LIST_HEAD (v + FULL_HEAD);; c) s R) as Hb.
  { intros c R (x & s2 & H1 & H2). exists x, s2. split; [|done]. revert Hrun. unfold mbind, ST_bind.
    destruct (INIT_NG_LIST_HEAD v s) as [[[] s3]|]; [|done]. cbn [mbind option_bind]. intros ->. exact H1. }
  apply Hb. pose proof (core_start s s1 v Hf Hst Hv Hni Hr1 R1 R2) as Hc1.
  destruct (co_info _ _ _ _ _ Hc1) as (ni & Hni1 & Hmin).
  destruct (core_put_info s1 [] [] [] [] ni (set_ni_min_id SYS_MIN_NODE_ID ni) Hc1 Hni1) as [Hc2 Hk2]; [done..|].
  assert (tables_kept s1 (put_obj (ngInfo s1) (ONGInfo (set_ni_min_id SYS_MIN_NODE_ID ni)) s1)) as Ht2.
  { apply get_NI_objs in Hni1. by eapply tables_kept_put; [exact Hni1| |]. }
  eapply runs_step; [by apply ni_put_run|]. set (s2 := put_obj _ _ s1) in *.
  eapply runs_bind; [by apply AllocateNG_run|].
  intros sys s3 [(-> & _)|(Hz & Hc3 & Hk3 & Ht3 & _ & Hi3 & _ & _ & g & Hg & _ & _ & Hinv & Hfree)];
    [rewrite Z.eqb_refl; apply runs_ret; by right|]. zif.
  eapply runs_bind.
  { apply (SystemReservedInit_run sys s3).
    - split; [exact Hc3|]. split; [by exists g|]. intros; lia.
    - rewrite (index_table_kept 0 _ _ Ht3), (index_table_kept 0 _ _ Ht2), (index_table_kept 0 _ _ (ng_same_tables _ _ Hr1)).
      done. }
  intros _ s4 (_ & Hs4 & He4 & Hi4). assert (Hc4 := proj1 Hs4).
  destruct (co_info _ _ _ _ _ Hc4) as (ni4 & Hni4 & Hmin4).
  eapply runs_step; [by apply ni_put_run|]. set (s5 := put_obj _ _ s4) in *.
  assert (get_NI (ngInfo s5) s5 = Some (set_ni_sys_zone sys ni4)) as Hni5 by apply get_NI_put.
  eapply runs_step; [by apply ni_put_run|]. unfold s5. rewrite put_obj_twice.
  change (ngInfo (put_obj (ngInfo s4) (ONGInfo (set_ni_sys_zone sys ni4)) s4)) with (ngInfo s4).
  set (ni6 := set_ni_dirty_row 0 _). set (s6 := put_obj _ (ONGInfo ni6) s4).
  destruct (core_put_info s4 [sys] [sys] [] [] ni4 ni6 Hc4 Hni4) as [Hc6 Hk6]; [done..|]. fold s6 in Hc6, Hk6.
  eapply runs_step; [done|]. apply runs_ret. left. split; [done|]. exists sys. set (s7 := set_statEmptyNode _ _).
  assert (core s7 [sys] [sys] [] []) as Hc7 by (eapply core_put_outer; [exact Hc6|done..|apply Hc6]).
  apply sys_group_start.
  - eapply sys_group_quiet; [exact Hs4|exact Hc7|]. exact Hk6.
  - rewrite (index_entry_kept 0 s4); [done|]. apply get_NI_objs in Hni4.
    destruct (tables_kept_put (ngInfo s4) (ONGInfo ni6) _ s4 Hni4) as (T1 & T2 & T3); [done|done|]. by split.
  - unfold sys_of. change (get_NI (ngInfo s7) s7) with (get_NI (ngInfo s6) s6). unfold s6. by rewrite get_NI_put.
Qed.

Lemma nginfo_Init_run s :
  fresh_index s 1 -> 0 < step s ->
  runs nginfo_Init s (λ r s', (r = 0 ∧ ∃ sys, store_start s' sys) ∨ r = -1).
Proof.
  intros (Ho & f & Hf & Hsec & Hap & Htab) Hst. unfold nginfo_Init.
  destruct (M_CALLOC_run sizeof_NG_INFO_T (ONGInfo zero_NI) s Ho) as (v & a & Hr & Hv); [done|done|].
  eapply runs_step; [exact Hr|]. rewrite (Z.eqb_sym INVALID_HANDLE).
  destruct (v =? INVALID_HANDLE); [apply runs_ret; by right|].
  destruct Hv as (Hpos & Hnone & Ho1 & _). eapply runs_step; [done|].
  apply InitHeader_run; [|done|apply get_NI_objs; simpl; apply lookup_insert_eq|done].
  assert (∀ p o, objs s !! p = Some o -> <[v := ONGInfo zero_NI]> (objs s) !! p = Some o) as Hkeep.
  { intros p o Hp. rewrite lookup_insert_ne; [done|]. intros ->. congruence. }
  split; [exact Ho1|]. exists f. split_and!; [|intros i p Hi Hp|done|done].
  - apply get_FI_objs. apply Hkeep. by apply get_FI_objs.
  - destruct (Hsec i p Hi Hp) as [? Hs]. split; [done|]. apply get_SI_objs, Hkeep. by apply get_SI_objs.
Qed.
End init.
