(* ===== verification/NodeSession.v ===== *)
(** * NodeSession: sequences of operations on the node store

    The states that the cache's calls lead to: start on a legal allocator, then
    allocations, releases and LRU moves in any order.  The only demands on the
    caller are those of its code: a node enters at most one LRU list, and only
    when the index finds it; a node is released once and not from a list. *)

From Stdlib Require Import List.
From stdpp Require Import gmap.
From S2P Require Import Prelude State Ring BinMalloc NodeMem NodeGroup NodeIndex NgInfo NodeLinks NodeStore NodeAlloc NodeLru NodeInit.

Section session.
Context {A : Type} `{AllocatorLaws A}.
Implicit Types (s : cmem A) (gs F U : list Z) (k j : Z) (n m : CNode) (ns : list CNode) (L : Z -> list CNode).

Definition upd_list k (l : list CNode) L : Z -> list CNode := λ j, if decide (j = k) then l else L j.

(** [session s ns L]: in [s] the clients hold the nodes [ns], and the LRU list
    of head [k] (dirty, clean, empty) is [L k], the latest node first. *)
Inductive session : cmem A -> list CNode -> (Z -> list CNode) -> Prop :=
  | ses_start s0 mem_size s1 s2 :
      a_owns (alloc s0) [] -> objs s0 = ∅ -> 0 < step s0 -> 0 <= mem_size < 2 ^ 40 ->
      index_Init mem_size s0 = Some (0, s1) -> nginfo_Init s1 = Some (0, s2) ->
      session s2 [] (λ _, [])
  | ses_alloc s ns L n s' :
      session s ns L -> AllocateNode s = Some (n, s') -> n ≠ CNode_NULL -> session s' (n :: ns) L
  | ses_no_node s ns L s' :
      session s ns L -> AllocateNode s = Some (CNode_NULL, s') -> session s' ns L
  | ses_insert s ns L k n id r s' :
      session s ns L -> 0 <= k < 3 -> n ∈ ns -> (∀ j, n ∉ L j) -> node_id s n = Some id -> Search id s = Some n ->
      Insert2Lru k n s = Some (r, s') -> session s' ns (upd_list k (n :: L k) L)
  | ses_remove s ns L k u n v r s' :
      session s ns L -> L k = u ++ n :: v -> RemoveFromLru n s = Some (r, s') ->
      session s' ns (upd_list k (u ++ v) L)
  | ses_release s ns1 n ns2 L r s' :
      session s (ns1 ++ n :: ns2) L -> (∀ j, n ∉ L j) -> ReleaseNode n s = Some (r, s') ->
      session s' (ns1 ++ ns2) L.

(** ** The invariant *)

Record lists_ok ns L sys s : Prop := {
  ls_nodup : NoDup ns;
  ls_rings k : 0 <= k < 3 -> ring (MkNode sys k) (L k) s;
  ls_held k n : n ∈ L k -> n ∈ ns;
  ls_apart k j n : n ∈ L k -> n ∈ L j -> k = j;
  ls_heads k : L k ≠ [] -> 0 <= k < 3
}.
Record session_inv s ns L gs F U sys : Prop := {
  si_store : store s gs F U;
  si_sys : sys_of s = Some sys;
  si_used n : node_used s gs n <-> n ∈ ns ∨ c_owner n = sys ∧ 0 <= c_index n < 3;
  si_own n : n ∈ ns -> c_owner n ≠ sys;
  si_lists : lists_ok ns L sys s
}.

Lemma si_ring_used s ns L gs F U sys k m :
  session_inv s ns L gs F U sys -> 0 <= k < 3 -> m ∈ MkNode sys k :: L k -> node_used s gs m.
Proof.
  intros [I1 I2 I3 I4 I5] Hk Hm. apply I3. apply elem_of_cons in Hm as [->|Hm]; [by right|left].
  by eapply (ls_held _ _ _ _ I5).
Qed.

(** A node that its id leads to. *)
Lemma si_cell s ns L gs F U sys n id :
  session_inv s ns L gs F U sys -> n ∈ ns -> node_id s n = Some id -> Search id s = Some n -> node_cell n s.
Proof.
  intros [(sy & Hc & _) _ I3 _ _] Hn Hid Hs. destruct (proj2 (I3 n) (or_introl Hn)) as (Hin & g & Hg & Hu).
  destruct (core_group _ _ _ _ _ _ Hc Hin) as (g0 & Hg0 & Hok). simplify_eq. exists g.
  unfold node_id in Hid. rewrite Hg in Hid. simpl in Hid. injection Hid as ->.
  split_and!; [done|by apply group_ok_std|by eapply in_use_range..|done].
Qed.

(** A list operation on ring [k] leaves the others. *)
Lemma lists_kept ns L sys s s' k X l :
  lists_ok ns L sys s -> links_kept X s s' -> 0 <= k < 3 ->
  (∀ n, n ∈ X -> n ∈ MkNode sys k :: L k ∨ n ∈ ns ∧ ∀ j, n ∉ L j) -> (∀ n, n ∈ ns -> c_owner n ≠ sys) ->
  ring (MkNode sys k) l s' -> (∀ n, n ∈ l -> n ∈ ns ∧ ∀ j, n ∈ L j -> j = k) ->
  lists_ok ns (upd_list k l L) sys s'.
Proof.
  intros [K1 K2 K3 K4 K5] HX Hk Hin Hown Hr Hl. unfold upd_list. split.
  - done.
  - intros j Hj. destruct (decide (j = k)) as [->|Hne]; [done|].
    eapply ring_kept; [by apply K2|exact HX|]. intros c HcX Hc.
    destruct (Hin c HcX) as [[->|Hck]%elem_of_cons|[Hcn Hcj]].
    + apply elem_of_cons in Hc as [[= ->]|Hc]; [done|]. by apply (Hown _ (K3 _ _ Hc)).
    + apply elem_of_cons in Hc as [->|Hc]; [by apply (Hown _ (K3 _ _ Hck))|]. apply Hne. by eapply K4.
    + apply elem_of_cons in Hc as [->|Hc]; [by apply (Hown _ Hcn)|]. by apply (Hcj j).
  - intros j n. case_decide; [intros ?; by apply Hl|apply K3].
  - intros i j n. repeat case_decide; subst; try done.
    + intros Hi Hj. symmetry. by apply (Hl n).
    + intros Hi Hj. by apply (Hl n).
    + apply K4.
  - intros j. case_decide; [by subst|apply K5].
Qed.

Lemma session_start s sys : store_start s sys -> session_inv s [] (λ _, []) [sys] [] [] sys.
Proof.
  intros (Hst & Hu & Hr). assert (sys_of s = Some sys) as Hs.
  { destruct Hst as (x & _ & [= <-] & Hx & _). done. }
  split; try done.
  - intros n. rewrite Hu. split; [by right|]. by intros [?%elem_of_nil|].
  - intros n ?%elem_of_nil. done.
  - split; [constructor|done|..].
    + by intros k n ?%elem_of_nil.
    + by intros k j n ?%elem_of_nil.
    + done.
Qed.

Lemma session_alloc s ns L gs F U sys n s' new F' U' :
  session_inv s ns L gs F U sys -> store s' (gs ++ new) F' U' -> allocated s gs n s' (gs ++ new) ->
  session_inv s' (n :: ns) L (gs ++ new) F' U' sys.
Proof.
  intros HI Hst' Ha. assert (HI' := HI). destruct HI' as [I1 I2 I3 I4 I5]. split.
  - done.
  - by rewrite (al_sys_kept _ _ _ _ _ Ha).
  - intros m. rewrite (al_used _ _ _ _ _ Ha), I3, elem_of_cons. tauto.
  - intros m [->|Hm]%elem_of_cons; [|by apply I4]. intros Heq. apply (al_sys _ _ _ _ _ Ha).
    by rewrite (al_sys_kept _ _ _ _ _ Ha), I2, Heq.
  - destruct I5 as [K1 K2 K3 K4 K5]. split; try done.
    + apply NoDup_cons. split; [|done]. intros Hn. apply (al_new _ _ _ _ _ Ha), I3. by left.
    + intros k Hk. eapply (AllocateNode_lru s gs F U (MkNode sys k) (L k) n s' new F' U'); [done|by apply K2| |done|done].
      intros m Hm. eapply si_ring_used; [exact HI|exact Hk|done].
    + intros k m Hm. right. by eapply K3.
Qed.

Lemma quiet_ring s s' gs F U F' U' (h : CNode) l :
  store s gs F U -> store s' gs F' U' -> quiet s s' -> ring h l s -> ring h l s'.
Proof.
  intros (sys & Hc & _) (sys' & Hc' & _) Hq Hr. apply (lru_ring_kept s s' h l Hr).
  - intros m Hin. split; [apply kept_attr, Hq|].
    eapply (node_cell_mono s s' gs []); [exact Hc|by rewrite app_nil_r|apply Hq|]. apply (ring_perm h l s m Hr Hin).
  - intros id m Hs Hin. eapply (Search_mono s s' gs []); [exact Hc|by rewrite app_nil_r|apply Hq|done|].
    eapply node_cell_null; [exact Hc|]. apply (ring_perm h l s m Hr Hin).
Qed.
Lemma session_quiet s ns L gs F U sys s' F' U' :
  session_inv s ns L gs F U sys -> store s' gs F' U' -> quiet s s' -> session_inv s' ns L gs F' U' sys.
Proof.
  intros [I1 I2 I3 I4 I5] Hst' Hq. split.
  - done.
  - rewrite <-I2. apply Hq.
  - intros m. rewrite <-I3. destruct I1 as (x & Hc & _). by eapply quiet_used.
  - done.
  - destruct I5 as [K1 K2 K3 K4 K5]. split; try done. intros k Hk. by eapply quiet_ring; [..|by apply K2].
Qed.

Lemma session_lru s ns L gs F U sys s' k X l :
  session_inv s ns L gs F U sys -> links_kept X s s' -> 0 <= k < 3 ->
  (∀ n, n ∈ X -> n ∈ MkNode sys k :: L k ∨ n ∈ ns ∧ ∀ j, n ∉ L j) ->
  ring (MkNode sys k) l s' -> (∀ n, n ∈ l -> n ∈ ns ∧ ∀ j, n ∈ L j -> j = k) ->
  session_inv s' ns (upd_list k l L) gs F U sys.
Proof.
  intros [I1 I2 I3 I4 I5] HX Hk Hin Hr Hl. pose proof (lru_node _ _ (proj1 HX)) as Hs. split.
  - by eapply node_same_store.
  - by rewrite (node_same_sys _ _ Hs).
  - intros m. by rewrite (node_same_used _ _ _ _ Hs).
  - done.
  - by eapply lists_kept.
Qed.

Lemma session_release s ns1 n ns2 L gs F U sys s' F' U' :
  session_inv s (ns1 ++ n :: ns2) L gs F U sys -> (∀ j, n ∉ L j) -> store s' gs F' U' -> released s gs n s' ->
  session_inv s' (ns1 ++ ns2) L gs F' U' sys.
Proof.
  intros HI Hn Hst' Ha. assert (HI' := HI). destruct HI' as [I1 I2 I3 I4 I5].
  assert (ns1 ++ n :: ns2 ≡ₚ n :: ns1 ++ ns2) as Hp by solve_Permutation.
  assert (NoDup (n :: ns1 ++ ns2)) as [Hnn Hnd]%NoDup_cons by (rewrite <-Hp; apply I5).
  assert (n ∈ ns1 ++ n :: ns2) as Hin by (rewrite Hp; by left).
  split.
  - done.
  - by rewrite (rl_sys _ _ _ _ Ha).
  - intros m. rewrite (rl_used _ _ _ _ Ha), I3, Hp, elem_of_cons. split.
    + intros [[[->|?]|?] ?]; [done|by left|by right].
    + intros [Hm|Hm]; [split; [by left; right|by intros ->]|]. split; [by right|]. intros ->.
      destruct Hm as [Hm _]. by apply (I4 n Hin).
  - intros m Hm. apply I4. rewrite Hp. by right.
  - destruct I5 as [K1 K2 K3 K4 K5]. split; try done.
    + intros k Hk. eapply (ReleaseNode_lru s gs F U (MkNode sys k) (L k) n s' F' U'); [done|by apply K2| |done|done].
      intros m Hm. split; [eapply si_ring_used; [exact HI|exact Hk|done]|].
      intros ->. apply elem_of_cons in Hm as [Hm|Hm]; [|by apply (Hn k)]. apply (I4 n Hin). by rewrite Hm.
    + intros k m Hm. assert (m ∈ n :: ns1 ++ ns2) as [->|?]%elem_of_cons by (rewrite <-Hp; by eapply K3); [|done].
      by edestruct (Hn k).
Qed.

(** The moves between the LRU lists *)
Lemma Insert2Lru_session s ns L gs F U sys k n :
  session_inv s ns L gs F U sys -> 0 <= k < 3 -> n ∈ ns -> (∀ j, n ∉ L j) -> node_cell n s ->
  runs (Insert2Lru k n) s (λ r s', r = 0 ∧ session_inv s' ns (upd_list k (n :: L k) L) gs F U sys ∧ objs_rel lru_obj_same s s').
Proof.
  intros HI Hk Hin Hnl Hcell. pose proof (si_lists _ _ _ _ _ _ _ HI) as HL. pose proof (ls_rings _ _ _ _ HL k Hk) as Hring.
  assert (n ∉ MkNode sys k :: L k) as Hnin.
  { intros [->|Hm]%elem_of_cons; [|by apply (Hnl k)]. by apply (si_own _ _ _ _ _ _ _ HI _ Hin). }
  eapply runs_mono; [exact (Insert2Lru_run s k sys n (L k) (si_sys _ _ _ _ _ _ _ HI) Hring Hcell Hnin)|].
  intros r s' (-> & Hring' & HX). split; [done|]. split; [|exact (proj1 HX)].
  eapply session_lru; [exact HI|exact HX|done| |done|].
  - intros m [->|Hm]%elem_of_cons; [by right|by left].
  - intros m [->|Hm]%elem_of_cons; [split; [done|]; intros j Hj; by edestruct (Hnl j)|].
    split; [by eapply (ls_held _ _ _ _ HL)|]. intros j Hj. by eapply (ls_apart _ _ _ _ HL).
Qed.
Lemma RemoveFromLru_session s ns L gs F U sys k u n v :
  session_inv s ns L gs F U sys -> L k = u ++ n :: v ->
  runs (RemoveFromLru n) s (λ r s', r = 0 ∧ session_inv s' ns (upd_list k (u ++ v) L) gs F U sys ∧ objs_rel lru_obj_same s s').
Proof.
  intros HI Hl. pose proof (si_lists _ _ _ _ _ _ _ HI) as HL.
  assert (0 <= k < 3) as Hk by (apply (ls_heads _ _ _ _ HL); rewrite Hl; by destruct u).
  pose proof (ls_rings _ _ _ _ HL k Hk) as Hring. rewrite Hl in Hring.
  eapply runs_mono; [exact (RemoveFromLru_run s _ u n v Hring)|]. intros r s' (-> & Hring' & _ & HX).
  split; [done|]. split; [|exact (proj1 HX)].
  eapply session_lru; [exact HI|exact HX|done| |done|].
  - intros m Hm. left. by rewrite Hl.
  - intros m Hm. assert (m ∈ L k) as Hmk by (rewrite Hl; set_solver).
    split; [by eapply (ls_held _ _ _ _ HL)|]. intros j Hj. by eapply (ls_apart _ _ _ _ HL).
Qed.

Theorem session_sound s ns L : session s ns L -> ∃ gs F U sys, session_inv s ns L gs F U sys.
Proof.
  induction 1 as [s0 ms s1 s2 Ho Hob Hst Hms H1 H2|s ns L n s' _ IH Hr Hn|s ns L s' _ IH Hr
    |s ns L k n id r s' _ IH Hk Hin Hnl Hid Hs Hr|s ns L k u n v r s' _ IH Hl Hr|s ns1 n ns2 L r s' _ IH Hnl Hr].
  - assert (objs_owned s0) as Hown by (exists []; split; [done|]; intros h o; by rewrite Hob, lookup_empty).
    destruct (runs_inv _ _ _ _ _ (index_Init_run s0 ms Hown Hms) H1) as [(_ & Hf & Hs1)|?]; [|done].
    destruct (runs_inv _ _ _ _ _ (nginfo_Init_run s1 Hf ltac:(lia)) H2) as [(_ & sys & Hss)|?]; [|done].
    exists [sys], [], [], sys. by apply session_start.
  - destruct IH as (gs & F & U & sys & HI).
    destruct (runs_inv _ _ _ _ _ (AllocateNode_run s gs F U (si_store _ _ _ _ _ _ _ HI)) Hr)
      as (new & F' & U' & Hst' & [[_ Ha]|(-> & _)]); [|done].
    exists (gs ++ new), F', U', sys. by eapply session_alloc.
  - destruct IH as (gs & F & U & sys & HI).
    destruct (runs_inv _ _ _ _ _ (AllocateNode_run s gs F U (si_store _ _ _ _ _ _ _ HI)) Hr)
      as (new & F' & U' & Hst' & [[? _]|(_ & -> & -> & Hq & _)]); [done|]. rewrite app_nil_r in Hst'.
    exists gs, F', U', sys. by eapply session_quiet.
  - destruct IH as (gs & F & U & sys & HI). exists gs, F, U, sys.
    pose proof (si_cell _ _ _ _ _ _ _ _ _ HI Hin Hid Hs) as Hcell.
    by destruct (runs_inv _ _ _ _ _ (Insert2Lru_session s ns L gs F U sys k n HI Hk Hin Hnl Hcell) Hr) as (_ & HI' & _).
  - destruct IH as (gs & F & U & sys & HI). exists gs, F, U, sys.
    by destruct (runs_inv _ _ _ _ _ (RemoveFromLru_session s ns L gs F U sys k u n v HI Hl) Hr) as (_ & HI' & _).
  - destruct IH as (gs & F & U & sys & HI).
    assert (n ∈ ns1 ++ n :: ns2) as Hin by set_solver.
    destruct (runs_inv _ _ _ _ _ (ReleaseNode_run s gs F U n (si_store _ _ _ _ _ _ _ HI)
      (proj2 (si_used _ _ _ _ _ _ _ HI n) (or_introl Hin))
      ltac:(rewrite (si_sys _ _ _ _ _ _ _ HI); intros [= Heq]; by apply (si_own _ _ _ _ _ _ _ HI n Hin))) Hr)
      as (_ & F' & U' & Hst' & _ & Ha).
    exists gs, F', U', sys. by eapply session_release.
Qed.

(** ** Ids *)

Lemma node_id_at s gs P F U (k : nat) n :
  core s gs P F U -> gs !! k = Some (c_owner n) -> 0 <= c_index n < 256 ->
  node_id s n = Some (256 * Z.of_nat k + c_index n).
Proof.
  intros Hc Hk Hi. destruct (co_groups _ _ _ _ _ Hc _ _ Hk) as (g & Hg & _ & Hn).
  pose proof (core_length _ _ _ _ _ Hc) as Hlen. apply lookup_lt_Some in Hk.
  unfold node_id. rewrite Hg. osimpl. unfold id_of. rewrite Hn, uwrap_small by lia. done.
Qed.
Lemma node_used_at s gs n :
  node_used s gs n -> ∃ k : nat, gs !! k = Some (c_owner n) ∧ 0 <= c_index n < 256.
Proof. intros ([k Hk]%list_elem_of_lookup & g & _ & Hu%in_use_range). by exists k. Qed.

Lemma node_id_inj s gs P F U n m id :
  core s gs P F U -> node_used s gs n -> node_used s gs m ->
  node_id s n = Some id -> node_id s m = Some id -> n = m.
Proof.
  intros Hc (k & Hk & Hi)%node_used_at (l & Hl & Hj)%node_used_at.
  rewrite (node_id_at _ _ _ _ _ _ _ Hc Hk Hi), (node_id_at _ _ _ _ _ _ _ Hc Hl Hj). intros [= <-] [= Heq].
  assert (k = l) as -> by lia. destruct n, m. simpl in *. f_equal; [congruence|lia].
Qed.

Lemma Search_no_table s gs P F U (k : nat) i :
  core s gs P F U -> 0 <= i < 256 -> (k < length gs)%nat -> index_table (Z.of_nat k) s = Some 0 ->
  Search (256 * Z.of_nat k + i) s = Some CNode_NULL.
Proof.
  intros Hc Hi Hk Ht. apply (Search_run s gs P F U k i 0); [done|done| |done].
  unfold index_table, index_entry in *. destruct (get_FI _ s) as [f|]; [|done]. cbn [mbind option_bind] in *.
  injection Ht as ->. by rewrite Z.eqb_refl.
Qed.

(** The outcome of the search for a node just allocated. *)
Lemma allocated_found s gs n s' gs' P F U :
  core s' gs' P F U -> allocated s gs n s' gs' ->
  ∃ id, node_id s' n = Some id ∧ (Search id s' = Some n ∨ Search id s' = Some CNode_NULL ∧ index_table (id / 256) s' = Some 0).
Proof.
  intros Hc Ha. destruct (node_used_at s' gs' n) as (k & Hk & Hi); [apply (al_used _ _ _ _ _ Ha); by left|].
  exists (256 * Z.of_nat k + c_index n). split; [by eapply node_id_at|].
  destruct (al_found _ _ _ _ _ Ha) as [(g & Hg & _ & _ & Hs)|(l & Hl & Ht)].
  - left. assert (node_id s' n = Some (id_of g (c_index n))) as Hid by (unfold node_id; by rewrite Hg).
    rewrite (node_id_at _ _ _ _ _ _ _ Hc Hk Hi) in Hid. injection Hid as ->. done.
  - right. assert (k = l) as <-.
    { pose proof (core_nodup _ _ _ _ _ Hc) as Hnd. by eapply NoDup_lookup. }
    split; [eapply Search_no_table; [exact Hc|done|by eapply lookup_lt_Some|done]|].
    assert ((256 * Z.of_nat k + c_index n) / 256 = Z.of_nat k) as ->; [Z.div_mod_to_equations; lia|done].
Qed.

(** ** Progress *)

Lemma session_inv_complete s ns L gs F U sys :
  session_inv s ns L gs F U sys ->
  (∃ n s', AllocateNode s = Some (n, s')) ∧
  (∀ k n id, 0 <= k < 3 -> n ∈ ns -> (∀ j, n ∉ L j) -> node_id s n = Some id -> Search id s = Some n ->
     ∃ s', Insert2Lru k n s = Some (0, s')) ∧
  (∀ k n, n ∈ L k -> ∃ s', RemoveFromLru n s = Some (0, s')) ∧
  (∀ n, n ∈ ns -> ∃ s', ReleaseNode n s = Some (0, s')).
Proof.
  intros HI. pose proof (si_store _ _ _ _ _ _ _ HI) as Hst. pose proof (si_lists _ _ _ _ _ _ _ HI) as HL.
  split_and!.
  - destruct (AllocateNode_run s gs F U Hst) as (n & s' & Hr & _). by exists n, s'.
  - intros k n id Hk Hin Hnl Hid Hs. pose proof (si_cell _ _ _ _ _ _ _ _ _ HI Hin Hid Hs) as Hcell.
    destruct (Insert2Lru_session s ns L gs F U sys k n HI Hk Hin Hnl Hcell) as (r & s' & Hr & -> & _). by exists s'.
  - intros k n Hn. apply list_elem_of_split in Hn as (u & v & Hl).
    destruct (RemoveFromLru_session s ns L gs F U sys k u n v HI Hl) as (r & s' & Hr & -> & _). by exists s'.
  - intros n Hn. destruct (ReleaseNode_run s gs F U n Hst) as (r & s' & Hr & -> & _); [| |by exists s'].
    + apply (si_used _ _ _ _ _ _ _ HI). by left.
    + rewrite (si_sys _ _ _ _ _ _ _ HI). intros [= Heq]. by apply (si_own _ _ _ _ _ _ _ HI n Hn).
Qed.
End session.
