(* ===== verification/NodeSpec.v ===== *)
(** * NodeSpec: what the node store promises

    The theorems about [CNodeIndex] and [CNGInfo] ([src/cache/node_index.cc],
    [src/cache/ng_info.cc]) on top of [CBinMalloc] ([src/cache/bin_malloc.cc]),
    whose theorems give the laws the store asks of its allocator. *)

From Stdlib Require Import List.
From stdpp Require Import gmap.
From S2P Require Import Prelude State Ring BinMalloc BinHeap BinClient BinSpec NodeMem NodeGroup NodeIndex NgInfo NodeLinks NodeStore NodeAlloc NodeLru NodeInit NodeSession.

(** ** The allocator *)

#[export] Instance bin_allocator : Allocator CBinMalloc := {|
  a_calloc n := Calloc 1 n;
  a_free h := Free h
|}.

#[export] Program Instance bin_allocator_laws : AllocatorLaws CBinMalloc := {| a_owns := owns |}.
Next Obligation. apply owns_perm. Qed.
Next Obligation. intros a h r u. apply owns_block. Qed.
Next Obligation. intros a u n Ho Hn. by apply Calloc_owns. Qed.
Next Obligation. intros a h n u. apply Free_owns. Qed.

(** ** A session for the witnesses *)

Definition ex_mem : cmem CBinMalloc := MkCM (after (Init 600000) ex_new) ∅ 0 0 0 0 0 1 0 0 0 0 0 0 0.
Definition then_ {B} (m : CM CBinMalloc B) (s : cmem CBinMalloc) : cmem CBinMalloc := from_option snd s (m s).
Definition ex_index : cmem CBinMalloc := then_ (index_Init 600000) ex_mem.
Definition ex_store : cmem CBinMalloc := then_ nginfo_Init ex_index.


(** The state of a session is not computed: the value of the call is enough. *)
Lemma then_run {B} (m : CM CBinMalloc B) s x : fst <$> m s = Some x -> m s = Some (x, then_ m s).
Proof. unfold then_. destruct (m s) as [[y s']|]; [|done]. cbn. by intros [= ->]. Qed.

Lemma ex_mem_owns : a_owns (alloc ex_mem) [].
Proof. apply live_owns. apply (live_init 0 0 0 0 ∅ 600000); [by vm_compute|]. by vm_compute. Qed.
Lemma ex_index_run : index_Init 600000 ex_mem = Some (0, ex_index).
Proof. unfold ex_index. refine (then_run (index_Init 600000) ex_mem 0 _). vm_compute. reflexivity. Qed.
Lemma ex_store_run : nginfo_Init ex_index = Some (0, ex_store).
Proof. unfold ex_store. refine (then_run nginfo_Init ex_index 0 _). vm_compute. reflexivity. Qed.
Lemma ex_store_session : session ex_store [] (λ _, []).
Proof.
  exact (ses_start ex_mem 600000 ex_index ex_store ex_mem_owns eq_refl eq_refl ltac:(lia) ex_index_run ex_store_run).
Qed.

Definition ex_node : CNode := MkNode 539880 0.
Definition ex_one : cmem CBinMalloc := then_ AllocateNode ex_store.
Lemma ex_one_run : AllocateNode ex_store = Some (ex_node, ex_one).
Proof. unfold ex_one. refine (then_run AllocateNode ex_store ex_node _). vm_compute. reflexivity. Qed.
Lemma ex_one_session : session ex_one [ex_node] (λ _, []).
Proof. exact (ses_alloc ex_store [] (λ _, []) _ ex_one ex_store_session ex_one_run ltac:(done)). Qed.

Definition ex_lru : cmem CBinMalloc := then_ (Insert2Lru 1 ex_node) ex_one.
Lemma ex_lru_run : Insert2Lru 1 ex_node ex_one = Some (0, ex_lru).
Proof. unfold ex_lru. refine (then_run (Insert2Lru 1 ex_node) ex_one 0 _). vm_compute. reflexivity. Qed.
Lemma ex_one_id : node_id ex_one ex_node = Some 256.
Proof. vm_compute. reflexivity. Qed.
Lemma ex_one_found : Search 256 ex_one = Some ex_node.
Proof. vm_compute. reflexivity. Qed.
Lemma ex_lru_session : session ex_lru [ex_node] (upd_list 1 [ex_node] (λ _, [])).
Proof.
  exact (ses_insert ex_one [ex_node] (λ _, []) 1 ex_node 256 0 ex_lru ex_one_session ltac:(lia) ltac:(by left)
    (λ _, not_elem_of_nil _) ex_one_id ex_one_found ex_lru_run).
Qed.




(** ** The theorems *)

(** [C6] In every state of a session there is a system's group whose nodes 0, 1
    and 2 are the heads that [DirtyNodeHead], [CleanNodeHead] and
    [EmptyNodeHead] give; each is the head of a doubly linked ring of node ids
    that runs through exactly its list, in both directions.  The nodes held by
    the clients are pairwise different, and no node is on two lists. *)
Theorem session_lists (s : cmem CBinMalloc) (ns : list CNode) (L : Z -> list CNode) :
  session s ns L ->
  ∃ sys, (∀ k, 0 <= k < 3 -> node_head k s = Some (MkNode sys k, s) ∧ ring (MkNode sys k) (L k) s) ∧
    NoDup ns ∧ (∀ n, n ∈ ns -> c_owner n ≠ sys) ∧
    ∀ k n, n ∈ L k -> 0 <= k < 3 ∧ n ∈ ns ∧ ∀ j, n ∈ L j -> j = k.
Proof.
  intros (gs & F & U & sys & [I1 I2 I3 I4 [K1 K2 K3 K4 K5]])%session_sound. exists sys. split_and!; try done.
  - intros k Hk. split; [|by apply K2]. unfold node_head.
    rewrite (step_bind _ _ _ _ _ (sysNG_run _ _ I2)). destruct I1 as (sy & Hc & H0g & Hsy & _).
    assert (0 < sys) as Hpos.
    { assert (sy = sys) as -> by congruence. eapply core_group_pos; [exact Hc|by eapply list_elem_of_lookup_2]. }
    by zif.
  - intros k n Hn. split_and!; [| |by eapply K3|].
    1-2: apply (K5 k); intros Heq; rewrite Heq in Hn; by apply elem_of_nil in Hn.
    intros j Hj. by eapply K4.
Qed.

Lemma session_lists_witness : ∃ sys, ring (MkNode sys 1) [ex_node] ex_lru.
Proof.
  destruct (session_lists ex_lru _ _ ex_lru_session) as (sys & Hr & _). exists sys. exact (proj2 (Hr 1 ltac:(lia))).
Defined.

(** [C7] [AllocateNode] gives a node that no client holds and that is no list
    head, with an id of its own, marked clean, with no successor in a hash
    chain, and alone in its LRU ring; the nodes in the clients' hands keep all
    their attributes. *)
Theorem AllocateNode_fresh (s : cmem CBinMalloc) (ns : list CNode) (L : Z -> list CNode) (n : CNode) (s' : cmem CBinMalloc) :
  session s ns L -> AllocateNode s = Some (n, s') -> n ≠ CNode_NULL ->
  (n ∉ ns) ∧ (∀ k, 0 <= k < 3 -> node_head k s ≠ Some (n, s)) ∧
  (∃ id vd, node_id s' n = Some id ∧ node_attr s' n = Some (MkAttrs INVALID_NODE_ID id id vd false) ∧
            ∀ m, m ∈ ns -> node_id s' m ≠ Some id) ∧
  ∀ m, m ∈ ns -> attr_kept s s' m.
Proof.
  intros (gs & F & U & sys & HI)%session_sound Hr Hn. assert (HI' := HI). destruct HI' as [I1 I2 I3 I4 I5].
  destruct (runs_inv _ _ _ _ _ (AllocateNode_run s gs F U I1) Hr) as (new & F' & U' & Hst' & [[_ Ha]|(-> & _)]); [|done].
  assert (n ∉ ns) as Hnew by (intros Hin; apply (al_new _ _ _ _ _ Ha), I3; by left).
  split_and!; [done| | |].
  - intros k Hk. unfold node_head. rewrite (step_bind _ _ _ _ _ (sysNG_run _ _ I2)).
    destruct (sys =? 0); intros [= <-]; [done|]. apply (al_new _ _ _ _ _ Ha), I3. by right.
  - destruct (al_fresh _ _ _ _ _ Ha) as (id & vd & H1 & H2). exists id, vd. split_and!; [done..|]. intros m Hm Hid.
    apply Hnew. destruct Hst' as (sy & Hc' & _). rewrite (node_id_inj s' (gs ++ new) [sy] F' U' n m id); [done|done|..|done|done].
    + apply (al_used _ _ _ _ _ Ha). by left.
    + apply (al_used _ _ _ _ _ Ha). right. apply I3. by left.
  - intros m Hm. apply (al_kept _ _ _ _ _ Ha), I3. by left.
Qed.

Lemma AllocateNode_fresh_witness : ∃ id vd, node_id ex_one ex_node = Some id ∧
  node_attr ex_one ex_node = Some (MkAttrs INVALID_NODE_ID id id vd false).
Proof.
  destruct (AllocateNode_fresh ex_store [] _ ex_node ex_one ex_store_session ex_one_run ltac:(done))
    as (_ & _ & (id & vd & H1 & H2 & _) & _). exact (ex_intro _ id (ex_intro _ vd (conj H1 H2))).
Defined.

(** [C37] The search for an id that led to a node before leads to it after any
    [AllocateNode]; the search for the new node's id gives the new node, or
    null when there is no second-level table for the id, for want of memory:
    [AllocateNode] ignores the failure of the index. *)
Theorem AllocateNode_found (s : cmem CBinMalloc) (ns : list CNode) (L : Z -> list CNode) (n : CNode) (s' : cmem CBinMalloc) :
  session s ns L -> AllocateNode s = Some (n, s') -> n ≠ CNode_NULL ->
  (∃ id, node_id s' n = Some id ∧ (Search id s' = Some n ∨ Search id s' = Some CNode_NULL ∧ index_table (id / 256) s' = Some 0)) ∧
  ∀ id m, m ∈ ns -> Search id s = Some m -> Search id s' = Some m.
Proof.
  intros (gs & F & U & sys & HI)%session_sound Hr Hn. assert (HI' := HI). destruct HI' as [I1 I2 I3 I4 I5].
  destruct (runs_inv _ _ _ _ _ (AllocateNode_run s gs F U I1) Hr) as (new & F' & U' & Hst' & [[_ Ha]|(-> & _)]); [|done].
  destruct I1 as (sy & Hc & _), Hst' as (sy' & Hc' & _). split; [by eapply allocated_found|].
  intros id m Hm Hs. eapply (Search_mono s s' gs new); [exact Hc|exact Hc'|apply Ha|done|].
  intros ->. destruct (node_used_at s gs CNode_NULL) as (k & Hk & _); [apply I3; by left|].
  assert (0 < 0) as Hlt; [|lia]. apply (core_group_pos _ _ _ _ _ _ Hc). by eapply list_elem_of_lookup_2.
Qed.

Lemma AllocateNode_found_witness : ∃ id, node_id ex_one ex_node = Some id ∧ Search id ex_one = Some ex_node.
Proof.
  destruct (AllocateNode_found ex_store [] _ ex_node ex_one ex_store_session ex_one_run ltac:(done)) as [(id & Hid & Hor) _].
  exists id. split; [exact Hid|]. destruct Hor as [Hs|[Hs _]]; [exact Hs|].
  assert (Search 256 ex_one = Some ex_node) as Hf by (vm_compute; reflexivity).
  assert (node_id ex_one ex_node = Some 256) as Hi by (vm_compute; reflexivity). rewrite Hi in Hid. apply Some_inj in Hid as <-. exact Hf.
Defined.





(** [ReleaseNode] of a node that is on no list returns 0 and takes exactly
    this node away: it is not in use any more, so a later [AllocateNode] may
    give it again, and the other nodes keep their attributes and their ids. *)
Theorem ReleaseNode_correct (s : cmem CBinMalloc) (ns1 : list CNode) (n : CNode) (ns2 : list CNode) (L : Z -> list CNode) :
  session s (ns1 ++ n :: ns2) L -> (∀ j, n ∉ L j) ->
  ∃ s', ReleaseNode n s = Some (0, s') ∧ session s' (ns1 ++ ns2) L ∧
    (∃ gs, ∀ m, node_used s' gs m <-> node_used s gs m ∧ m ≠ n) ∧
    ∀ m, m ∈ ns1 ++ ns2 -> attr_kept s s' m ∧ node_id s' m = node_id s m.
Proof.
  intros Hse Hn. destruct (session_sound _ _ _ Hse) as (gs & F & U & sys & HI).
  assert (HI' := HI). destruct HI' as [I1 I2 I3 I4 I5].
  assert (n ∈ ns1 ++ n :: ns2) as Hin by set_solver.
  assert (ns1 ++ n :: ns2 ≡ₚ n :: ns1 ++ ns2) as Hp by solve_Permutation.
  assert (NoDup (n :: ns1 ++ ns2)) as [Hnn _]%NoDup_cons by (rewrite <-Hp; apply I5).
  destruct (ReleaseNode_run s gs F U n I1) as (r & s' & Hr & -> & F' & U' & Hst' & _ & Ha).
  { apply I3. by left. } { rewrite I2. intros [= Heq]. by apply (I4 n Hin). }
  exists s'. split; [exact Hr|]. split; [by eapply ses_release|]. split; [exists gs; apply Ha|].
  intros m Hm. assert (node_used s gs m ∧ m ≠ n) as [Hu Hne].
  { split; [|by intros ->]. apply I3. left. rewrite Hp. by right. }
  split; [by apply (rl_kept _ _ _ _ Ha)|]. destruct I1 as (sy & Hc & _), Hst' as (sy' & Hc' & _).
  destruct (node_used_at _ _ _ Hu) as (k & Hk & Hi).
  by rewrite (node_id_at _ _ _ _ _ _ _ Hc Hk Hi), (node_id_at _ _ _ _ _ _ _ Hc' Hk Hi).
Qed.

Lemma ReleaseNode_correct_witness : ∃ s', ReleaseNode ex_node ex_one = Some (0, s') ∧ session s' [] (λ _, []).
Proof.
  destruct (ReleaseNode_correct ex_one [] ex_node [] (λ _, []) ex_one_session (λ _, not_elem_of_nil _))
    as (s' & H1 & H2 & _). exact (ex_intro _ s' (conj H1 H2)).
Defined.

(** [C39] No call of a session gets stuck: [AllocateNode] completes (the loop
    over [step] groups ends, every list is walked and changed through cells
    that are there), and so do [Insert2*Lru] of a held node that its id leads
    to and that is on no list, [RemoveFromLru] of a node on a list and
    [ReleaseNode] of a held node, which return 0. *)
Theorem session_complete (s : cmem CBinMalloc) (ns : list CNode) (L : Z -> list CNode) :
  session s ns L ->
  (∃ n s', AllocateNode s = Some (n, s')) ∧
  (∀ k n id, 0 <= k < 3 -> n ∈ ns -> (∀ j, n ∉ L j) -> node_id s n = Some id -> Search id s = Some n ->
     ∃ s', Insert2Lru k n s = Some (0, s')) ∧
  (∀ k n, n ∈ L k -> ∃ s', RemoveFromLru n s = Some (0, s')) ∧
  (∀ n, n ∈ ns -> ∃ s', ReleaseNode n s = Some (0, s')).
Proof. intros (gs & F & U & sys & HI)%session_sound. by eapply session_inv_complete. Qed.

Lemma session_complete_witness : ∃ s', RemoveFromLru ex_node ex_lru = Some (0, s').
Proof.
  destruct (session_complete ex_lru _ _ ex_lru_session) as (_ & _ & H & _). apply (H 1). by left.
Defined.

(** On an allocator in a legal state, [CNodeIndex::Init] completes with 0 or
    -1; when it returned 0, [CNGInfo::Init] completes with 0 or -1, and on 0
    the store has the system's group alone, in which exactly the nodes 0, 1
    and 2 are in use, the heads of three empty LRU lists. *)
Theorem node_store_start (s0 : cmem CBinMalloc) (u : list (Z * Z)) (mem_size : Z) :
  owns (alloc s0) u -> objs s0 = ∅ -> 0 < step s0 -> 0 <= mem_size < 2 ^ 40 ->
  ∃ r1 s1, index_Init mem_size s0 = Some (r1, s1) ∧ (r1 = 0 ∨ r1 = -1) ∧
    (r1 = 0 -> ∃ r2 s2, nginfo_Init s1 = Some (r2, s2) ∧ (r2 = 0 ∨ r2 = -1) ∧
       (r2 = 0 -> ∃ sys, sys_of s2 = Some sys ∧
          (∀ n, node_used s2 [sys] n <-> c_owner n = sys ∧ 0 <= c_index n < 3) ∧
          ∀ k, 0 <= k < 3 -> ring (MkNode sys k) [] s2)).
Proof.
  intros Ho Hob Hst Hm. assert (objs_owned s0) as Hown.
  { exists u. split; [done|]. intros h o. by rewrite Hob, lookup_empty. }
  destruct (index_Init_run s0 mem_size Hown Hm) as (r1 & s1 & H1 & [(-> & Hf & Hs1)| ->]);
    [|exists (-1), s1; split_and!; [done|by right|done]].
  exists 0, s1. split_and!; [done|by left|]. intros _.
  destruct (nginfo_Init_run s1 Hf ltac:(lia)) as (r2 & s2 & H2 & [(-> & sys & Hss & Hu & Hr)| ->]);
    [|exists (-1), s2; split_and!; [done|by right|done]].
  exists 0, s2. split_and!; [done|by left|]. intros _. exists sys. split_and!; [|done..].
  by destruct Hss as (x & _ & [= <-] & Hx & _).
Qed.

Lemma node_store_start_witness : ∃ r1 s1, index_Init 600000 ex_mem = Some (r1, s1) ∧ (r1 = 0 ∨ r1 = -1).
Proof.
  destruct (node_store_start ex_mem [] 600000 ex_mem_owns eq_refl eq_refl ltac:(lia)) as (r1 & s1 & H1 & H2 & _).
  exact (ex_intro _ r1 (ex_intro _ s1 (conj H1 H2))).
Defined.
