(* ===== verification/PoolMem.v ===== *)
(** * PoolMem: the cache's memory while nodes come and go

    The pool keeps its objects and the chunks of its nodes in one allocator.
    [PoolMemory] says that the two views of it, [AllocatorLaws] (blocks by
    handle and size) and [MallocatorLaws] (blocks with their bytes), are of the
    same memory: what a client does through one view keeps the other.
    [preserves] is closed under the constructs of [NgInfo]: no operation on the
    node store gives away or writes a chunk, or touches the hash table;
    [AllocateNode] and [ReleaseNode] ([src/cache/ng_info.cc]) go through it.
    [alloc_kept] is the same for operations that leave the allocator alone. *)

From stdpp Require Import gmap.
From S2P Require Import Prelude State Ring BinMalloc Mallocator NodeMem NodeGroup NodeIndex NgInfo NodeLinks NodeStore.

Class PoolMemory (A : Type) `{AllocatorLaws A} `{MallocatorLaws A} : Prop := {
  pm_free h (a : A) : mal_Free h a = a_free h a;
  pm_calloc (a : A) us n h a' :
    mal_holds a us -> 0 <= n < 2 ^ 32 -> a_calloc n a = Some (h, a') -> ∃ ex, mal_holds a' (us ++ ex);
  pm_malloc (a : A) u n h a' :
    a_owns a u -> 0 <= n -> mal_Malloc n a = Some (h, a') -> a_owns a' (if h =? INVALID_HANDLE then u else (h, n) :: u);
  pm_store (a : A) u h bs us k v bs' x a' :
    a_owns a u -> mal_holds a ((h, bs) :: us) -> is_byte v -> wr bs k v = Some bs' ->
    mal_store (h + k) v a = Some (x, a') -> a_owns a' u
}.

Create HintDb preserves.

Section mem.
Context {A : Type} `{PoolMemory A}.
Implicit Types (s : cmem A) (D : list (Z * Z)) (us : list block).

(** The pool holds the blocks [D] besides its objects; [us] are among the
    blocks in use, with their bytes. *)
Definition mem_ok D us s : Prop :=
  (∃ u, a_owns (alloc s) (D ++ u) ∧ ∀ h o, objs s !! h = Some o -> (h, obj_size o) ∈ u ∧ 0 < obj_size o) ∧
  ∃ ex, mal_holds (alloc s) (us ++ ex).

Definition hash_kept s s' : Prop :=
  hash s' = hash s ∧ ∀ h t, objs s !! h = Some (OHash t) -> objs s' !! h = Some (OHash t).
#[export] Instance hash_kept_po : PreOrder hash_kept.
Proof. split; [done|]. intros s1 s2 s3 [E1 E2] [E3 E4]. split; [congruence|auto]. Qed.

Definition preserves {X} (m : CM A X) : Prop :=
  ∀ D us s x s', mem_ok D us s -> m s = Some (x, s') -> mem_ok D us s' ∧ hash_kept s s'.

Lemma mem_ok_owned D us s : mem_ok D us s -> objs_owned s.
Proof. intros [(u & Ho & Hu) _]. exists (D ++ u). split; [done|]. intros h o Ho'. destruct (Hu _ _ Ho'). split; [set_solver|done]. Qed.

Lemma preserves_id {X} (m : CM A X) : (∀ s x s', m s = Some (x, s') -> s' = s) -> preserves m.
Proof. intros Hm D us s x s' Hok Hr. rewrite (Hm _ _ _ Hr). split; [done|reflexivity]. Qed.
Lemma preserves_ret {X} (x : X) : preserves (mret x).
Proof. apply preserves_id. by intros s y s' [= <- <-]. Qed.
Lemma preserves_get {X} (f : cmem A -> X) : preserves (get f).
Proof. apply preserves_id. by intros s y s' [= <- <-]. Qed.
Lemma preserves_lift {X} (o : option X) : preserves (lift o).
Proof. apply preserves_id. intros s y s' Hs. unfold lift in Hs. by apply bind_Some in Hs as (x & _ & [= <- <-]). Qed.
Lemma preserves_bind {X Y} (m : CM A X) (f : X -> CM A Y) :
  preserves m -> (∀ x, preserves (f x)) -> preserves (m ≫= f).
Proof.
  intros Hm Hf D us s y s' Hok (x & s1 & H1' & H2')%bind_inv. destruct (Hm _ _ _ _ _ Hok H1') as [Hok1 Hk1].
  destruct (Hf _ _ _ _ _ _ Hok1 H2') as [Hok2 Hk2]. split; [done|]. by etrans.
Qed.
Lemma preserves_when b (m : CM A unit) : preserves m -> preserves (when_ b m).
Proof. intros Hm. destruct b; [done|apply preserves_ret]. Qed.
Lemma preserves_put f :
  (∀ s, alloc (f s) = alloc s ∧ objs (f s) = objs s ∧ hash (f s) = hash s) -> preserves (put f).
Proof.
  intros Hf D us s x s' Hok [= _ <-]. destruct (Hf s) as (E1 & E2 & E3). unfold mem_ok, hash_kept. rewrite E1, E2, E3.
  split; [exact Hok|done].
Qed.

(** An assignment to an object that is no hash table *)
Lemma mem_ok_put D us s h o o' :
  mem_ok D us s -> objs s !! h = Some o -> obj_size o' = obj_size o -> (∀ t, o ≠ OHash t) ->
  mem_ok D us (put_obj h o' s) ∧ hash_kept s (put_obj h o' s).
Proof.
  intros [(u & Ho & Hu) Hex] Hh Hsz Ht. split; [split; [|exact Hex]|split; [done|]].
  - exists u. split; [exact Ho|]. intros k x. rewrite objs_put_obj, lookup_insert_Some.
    intros [[-> ->]|[_ Hx]]; [|by apply Hu]. rewrite Hsz. by apply Hu.
  - intros k t Hk. rewrite objs_put_obj, lookup_insert_ne; [done|]. intros ->. rewrite Hh in Hk. by edestruct Ht; injection Hk.
Qed.

Lemma preserves_ng_put h f : preserves (ng_put h f).
Proof.
  intros D us s x s' Hok Hr. unfold ng_put in Hr. apply bind_Some in Hr as (g & Hg%get_NG_objs & [= _ <-]).
  by eapply mem_ok_put.
Qed.
Lemma preserves_ng_get {X} h (f : NODE_GROUP_T -> X) : preserves (ng_get h f).
Proof. apply preserves_id. intros s y s' Hr. unfold ng_get in Hr. by apply bind_Some in Hr as (? & _ & [= _ <-]). Qed.
Lemma preserves_ni_get {X} (f : NG_INFO_T -> X) : preserves (ni_get f).
Proof. apply preserves_id. intros s y s' Hr. unfold ni_get in Hr. by apply bind_Some in Hr as (? & _ & [= _ <-]). Qed.
Lemma preserves_ni_put f : preserves (ni_put f).
Proof.
  intros D us s x s' Hok Hr. unfold ni_put in Hr. apply bind_Some in Hr as (g & Hg%get_NI_objs & [= _ <-]).
  by eapply mem_ok_put.
Qed.
Lemma preserves_ng_cell h t w i : preserves (ng_cell h t w i).
Proof.
  apply preserves_id. intros s y s' Hr. unfold ng_cell in Hr. apply bind_Some in Hr as (? & _ & Hr).
  by apply bind_Some in Hr as (? & _ & [= _ <-]).
Qed.
Lemma preserves_set_ng_cell h t w i v : preserves (set_ng_cell h t w i v).
Proof.
  intros D us s x s' Hok Hr. unfold set_ng_cell in Hr. apply bind_Some in Hr as (g & Hg%get_NG_objs & Hr).
  apply bind_Some in Hr as (g' & _ & [= _ <-]). by eapply mem_ok_put.
Qed.
Lemma preserves_fi_rd i : preserves (fi_rd i).
Proof.
  apply preserves_id. intros s y s' Hr. unfold fi_rd in Hr. apply bind_Some in Hr as (? & _ & Hr).
  by apply bind_Some in Hr as (? & _ & [= _ <-]).
Qed.
Lemma preserves_si_rd p i : preserves (si_rd p i).
Proof.
  apply preserves_id. intros s y s' Hr. unfold si_rd in Hr. apply bind_Some in Hr as (? & _ & Hr).
  by apply bind_Some in Hr as (? & _ & [= _ <-]).
Qed.
Lemma preserves_fi_wr i v : preserves (fi_wr i v).
Proof.
  intros D us s x s' Hok Hr. unfold fi_wr in Hr. apply bind_Some in Hr as (g & Hg%get_FI_objs & Hr).
  apply bind_Some in Hr as (g' & _ & [= _ <-]). by eapply mem_ok_put.
Qed.
Lemma preserves_si_add p i v : preserves (si_add p i v).
Proof.
  intros D us s x s' Hok Hr. unfold si_add in Hr. apply bind_Some in Hr as (g & Hg%get_SI_objs & Hr).
  apply bind_Some in Hr as (g' & _ & [= _ <-]). by eapply mem_ok_put.
Qed.

Lemma preserves_ng_upd p f : preserves (upd (ng_cell_upd p f)).
Proof.
  intros D us s x s' Hok Hr. unfold upd in Hr. apply bind_Some in Hr as (s1 & Hu & [= _ <-]). unfold ng_cell_upd in Hu.
  destruct (objs s !! p) as [o|] eqn:Hp; [destruct o|]; simplify_eq;
    try (destruct (objs s !! (p - FULL_HEAD)) as [o'|] eqn:Hp'; [destruct o'|]; simplify_eq); by eapply mem_ok_put.
Qed.

(** A new object: its block is new, so it is no object of before. *)
Lemma preserves_calloc n o : obj_size o = u32 n -> 0 < u32 n -> preserves (M_CALLOC n o).
Proof.
  intros Hsz Hn D us s x s' [(u & Ho & Hu) (ex & Hex)] Hr. unfold M_CALLOC in Hr.
  pose proof (uwrap_range 32 n ltac:(lia)) as Hrg.
  destruct (a_calloc_law (alloc s) (D ++ u) (u32 n) Ho) as (h & a & Hc & Ho'); [lia|].
  destruct (pm_calloc _ _ _ _ _ Hex Hrg Hc) as (ex' & Hex'). rewrite <- app_assoc in Hex'.
  rewrite Hc in Hr. cbn [mbind option_bind] in Hr. destruct (h =? INVALID_HANDLE) eqn:Hh.
  - injection Hr as <- <-. split; [|done]. split; [by exists u|]. by exists (ex ++ ex').
  - rewrite Hsz, Z.leb_refl in Hr. injection Hr as <- <-.
    assert (objs s !! h = None) as Hnew.
    { destruct (objs s !! h) as [o'|] eqn:Ho1; [|done]. destruct (Hu _ _ Ho1) as [Hin ?].
      destruct (a_owns_block _ _ _ _ Ho') as (_ & _ & _ & Hap). destruct (Hap h (obj_size o')) as [?|?]; [set_solver|lia..]. }
    split; [split|].
    + exists ((h, u32 n) :: u). split.
      * eapply a_owns_perm; [|exact Ho']. by rewrite Permutation_middle.
      * intros k y. simpl. rewrite lookup_insert_Some. intros [[<- <-]|[_ Hk]]; [rewrite Hsz; split; [by left|lia]|].
        destruct (Hu _ _ Hk). split; [by right|done].
    + by exists (ex ++ ex').
    + split; [done|]. intros k t Hk. simpl. rewrite lookup_insert_ne; [done|]. intros <-. congruence.
Qed.
End mem.

#[export] Hint Resolve preserves_ret preserves_get preserves_lift preserves_ng_put preserves_ng_get preserves_ni_get
  preserves_ni_put preserves_ng_cell preserves_set_ng_cell preserves_fi_rd preserves_si_rd preserves_fi_wr preserves_si_add
  preserves_ng_upd : preserves.
#[export] Hint Extern 1 (preserves (put _)) => apply preserves_put; intros; split_and!; reflexivity : preserves.
#[export] Hint Extern 1 (preserves (M_CALLOC _ _)) => apply preserves_calloc; reflexivity : preserves.

(** Go through a body. *)
Ltac preserves_step :=
  first
    [ solve [auto 2 with preserves nocore]
    | apply preserves_when
    | apply preserves_bind; [|intros ?]
    | match goal with |- preserves (match ?x with _ => _ end) => destruct x end ].
Ltac preserves_body := repeat preserves_step.

Section ops.
Context {A : Type} `{PoolMemory A}.
Implicit Types (s : cmem A) (h i : Z) (n : CNode).

(** *** Nodes *)

Lemma preserves_node_Reset n : preserves (A:=A) (node_Reset n).
Proof.
  unfold node_Reset, set_NextNodeID, set_NG_NextNodeID, NodeID, NG_NodeID, set_LruPrev, set_LruNext, set_NG_NodeLru, ClrDirty, NG_ClrDirty.
  preserves_body.
Qed.
Lemma preserves_init_nodes k h : preserves (A:=A) (init_nodes k h).
Proof.
  induction k as [|k IH]; simpl; [apply preserves_ret|]. apply preserves_bind; [|done].
  unfold init_node, set_NG_NextNodeID, NG_NodeID, set_NG_NodeLru, set_NG_VDHandle, NG_ClrDirty. preserves_body.
Qed.
Lemma preserves_NG_IsFull h : preserves (A:=A) (NG_IsFull h).
Proof. apply preserves_ng_get. Qed.
#[local] Hint Resolve preserves_node_Reset preserves_init_nodes preserves_NG_IsFull : preserves.
Lemma preserves_NG_AllocateNode h : preserves (A:=A) (NG_AllocateNode h).
Proof. unfold NG_AllocateNode, VDHandle, NG_VDHandle. preserves_body. Qed.
Lemma preserves_node_Release n : preserves (A:=A) (node_Release n).
Proof. unfold node_Release, NG_ReleaseNode, set_VDHandle, set_NG_VDHandle. preserves_body. Qed.
Lemma preserves_NG_Init h i : preserves (A:=A) (NG_Init h i).
Proof. unfold NG_Init. preserves_body. Qed.

(** *** Lists *)

Lemma preserves_Next h : preserves (A:=A) (Next h).
Proof. apply preserves_id. intros s x s' Hr. unfold Next in Hr. by apply bind_Some in Hr as (? & _ & [= _ <-]). Qed.
Lemma preserves_Prev h : preserves (A:=A) (Prev h).
Proof. apply preserves_id. intros s x s' Hr. unfold Prev in Hr. by apply bind_Some in Hr as (? & _ & [= _ <-]). Qed.
Lemma preserves_set_prev h i : preserves (A:=A) (set_prev h i).
Proof. apply preserves_ng_upd. Qed.
Lemma preserves_set_next h i : preserves (A:=A) (set_next h i).
Proof. apply preserves_ng_upd. Qed.
#[local] Hint Resolve preserves_Next preserves_Prev preserves_set_prev preserves_set_next : preserves.
Lemma preserves_list_add h i : preserves (A:=A) (list_add h i).
Proof. unfold list_add, __list_add. preserves_body. Qed.
Lemma preserves_ListDel h : preserves (A:=A) (ListDel h).
Proof. unfold ListDel, NG_LIST_DEL, list_unlink, __list_del. preserves_body. Qed.
#[local] Hint Resolve preserves_list_add preserves_ListDel : preserves.
Lemma preserves_FreeListAdd h : preserves (A:=A) (FreeListAdd h).
Proof. unfold FreeListAdd, NG_LIST_ADD. preserves_body. Qed.
Lemma preserves_FullListAdd h : preserves (A:=A) (FullListAdd h).
Proof. unfold FullListAdd, NG_LIST_ADD. preserves_body. Qed.
#[local] Hint Resolve preserves_FreeListAdd preserves_FullListAdd preserves_NG_AllocateNode preserves_node_Release preserves_NG_Init : preserves.

(** *** Allocation *)

Lemma preserves_FindFreeNG : preserves (A:=A) FindFreeNG.
Proof. unfold FindFreeNG, NG_LIST_EMPTY, list_empty. preserves_body. Qed.
Lemma preserves_AllocateNG : preserves (A:=A) AllocateNG.
Proof. unfold AllocateNG. preserves_body. Qed.
#[local] Hint Resolve preserves_FindFreeNG preserves_AllocateNG : preserves.
Lemma preserves_prealloc k i : preserves (A:=A) (prealloc k i).
Proof. revert i. induction k as [|k IH]; intros i; simpl; preserves_body. Qed.
#[local] Hint Resolve preserves_prealloc : preserves.
Lemma preserves_free_group : preserves (A:=A) free_group.
Proof. unfold free_group. preserves_body. Qed.
Lemma preserves_Insert n : preserves (A:=A) (Insert n).
Proof. unfold Insert, NodeID, NG_NodeID. preserves_body. Qed.
#[local] Hint Resolve preserves_free_group preserves_Insert : preserves.
Lemma preserves_AllocateNode : preserves (A:=A) AllocateNode.
Proof. unfold AllocateNode. preserves_body. Qed.
Lemma preserves_ReleaseNode n : preserves (A:=A) (ReleaseNode n).
Proof. unfold ReleaseNode. preserves_body. Qed.
End ops.

(** ** The allocator is left alone

    [alloc_kept] is closed under the same constructs; [ReleaseNode] neither
    takes memory nor returns any. *)

Create HintDb alloc_kept.

Section alloc_kept.
Context {A : Type}.
Implicit Types (s : cmem A) (h i : Z) (n : CNode).

Definition alloc_kept {X} (m : CM A X) : Prop := ∀ s x s', m s = Some (x, s') -> alloc s' = alloc s.

Lemma alloc_kept_ret {X} (x : X) : alloc_kept (mret x).
Proof. by intros s y s' [= <- <-]. Qed.
Lemma alloc_kept_bind {X Y} (m : CM A X) (f : X -> CM A Y) :
  alloc_kept m -> (∀ x, alloc_kept (f x)) -> alloc_kept (m ≫= f).
Proof. intros Hm Hf s y s' (x & s1 & H1 & H2)%bind_inv. by rewrite (Hf _ _ _ _ H2), (Hm _ _ _ H1). Qed.
Lemma alloc_kept_when b (m : CM A unit) : alloc_kept m -> alloc_kept (when_ b m).
Proof. intros Hm. destruct b; [done|apply alloc_kept_ret]. Qed.
Lemma alloc_kept_put f : (∀ s, alloc (f s) = alloc s) -> alloc_kept (put f).
Proof. intros Hf s x s' [= _ <-]. apply Hf. Qed.
Lemma alloc_kept_ng_get {X} h (f : NODE_GROUP_T -> X) : alloc_kept (ng_get h f).
Proof. intros s x s' Hr. unfold ng_get in Hr. by apply bind_Some in Hr as (g & _ & [= _ <-]). Qed.
Lemma alloc_kept_ng_put h f : alloc_kept (ng_put h f).
Proof. intros s x s' Hr. unfold ng_put in Hr. by apply bind_Some in Hr as (g & _ & [= _ <-]). Qed.
Lemma alloc_kept_ni_get {X} (f : NG_INFO_T -> X) : alloc_kept (ni_get f).
Proof. intros s x s' Hr. unfold ni_get in Hr. by apply bind_Some in Hr as (g & _ & [= _ <-]). Qed.
Lemma alloc_kept_ni_put f : alloc_kept (ni_put f).
Proof. intros s x s' Hr. unfold ni_put in Hr. by apply bind_Some in Hr as (g & _ & [= _ <-]). Qed.
Lemma alloc_kept_ng_cell h t w i : alloc_kept (ng_cell h t w i).
Proof. intros s x s' Hr. unfold ng_cell in Hr. apply bind_Some in Hr as (g & _ & Hr). by apply bind_Some in Hr as (y & _ & [= _ <-]). Qed.
Lemma alloc_kept_set_ng_cell h t w i v : alloc_kept (set_ng_cell h t w i v).
Proof. intros s x s' Hr. unfold set_ng_cell in Hr. apply bind_Some in Hr as (g & _ & Hr). by apply bind_Some in Hr as (y & _ & [= _ <-]). Qed.
Lemma alloc_kept_get {X} (f : cmem A -> X) : alloc_kept (get f).
Proof. by intros s y s' [= <- <-]. Qed.
Lemma alloc_kept_Next h : alloc_kept (Next h).
Proof. intros s x s' Hr. unfold Next in Hr. by apply bind_Some in Hr as (? & _ & [= _ <-]). Qed.
Lemma alloc_kept_Prev h : alloc_kept (Prev h).
Proof. intros s x s' Hr. unfold Prev in Hr. by apply bind_Some in Hr as (? & _ & [= _ <-]). Qed.
Lemma alloc_kept_ng_upd p f : alloc_kept (upd (ng_cell_upd p f)).
Proof.
  intros s x s' Hr. unfold upd in Hr. apply bind_Some in Hr as (s1 & Hu & [= _ <-]). unfold ng_cell_upd in Hu.
  destruct (objs s !! p) as [o|]; [destruct o|]; simplify_eq;
    try (destruct (objs s !! (p - FULL_HEAD)) as [o'|]; [destruct o'|]; simplify_eq); done.
Qed.
Lemma alloc_kept_set_prev p x : alloc_kept (set_prev p x).
Proof. apply alloc_kept_ng_upd. Qed.
Lemma alloc_kept_set_next p x : alloc_kept (set_next p x).
Proof. apply alloc_kept_ng_upd. Qed.
End alloc_kept.
#[export] Hint Resolve alloc_kept_ret alloc_kept_ng_get alloc_kept_ng_put alloc_kept_ni_get alloc_kept_ni_put alloc_kept_ng_cell alloc_kept_set_ng_cell
  alloc_kept_get alloc_kept_Next alloc_kept_Prev alloc_kept_set_prev alloc_kept_set_next : alloc_kept.
#[export] Hint Extern 1 (alloc_kept (put _)) => apply alloc_kept_put; intros; reflexivity : alloc_kept.
Ltac alloc_kept_body :=
  repeat first
    [ solve [auto 2 with alloc_kept nocore]
    | apply alloc_kept_when
    | apply alloc_kept_bind; [|intros ?]
    | match goal with |- alloc_kept (match ?x with _ => _ end) => destruct x end ].

Lemma alloc_kept_ReleaseNode {A} (n : CNode) : alloc_kept (A:=A) (ReleaseNode n).
Proof.
  unfold ReleaseNode, NG_IsFull, ListDel, NG_LIST_DEL, list_unlink, __list_del, FreeListAdd, NG_LIST_ADD, list_add, __list_add,
    node_Release, NG_ReleaseNode, set_VDHandle, set_NG_VDHandle, node_Reset, set_NextNodeID,
    set_NG_NextNodeID, NodeID, NG_NodeID, set_LruPrev, set_LruNext, set_NG_NodeLru, ClrDirty, NG_ClrDirty.
  alloc_kept_body.
Qed.
