(* ===== verification/PoolBin.v ===== *)
(** * PoolBin: the shared-memory allocator under the pool

    [CBinMalloc] ([src/cache/bin_malloc.cc]) gives the cache both its objects
    and the chunks of its nodes.  The headers in the segment determine the
    blocks in use, so the two ways to name them, by the size asked for and by
    their bytes, agree: [PoolMemory] holds. *)

From stdpp Require Import gmap.
From S2P Require Import Prelude State Ring BinMalloc BinHeap BinAlloc BinResize BinClient BinSpec Mallocator BinBytes NodeMem NodeGroup NodeIndex NgInfo NodeLinks NodeStore NodeSpec PoolMem.

(** Two readings of the same headers agree. *)
Lemma hdr_unique m a top cs cs' pz pu pz' pu' :
  0 < a -> top < 2 ^ 32 - 8 -> contig a cs top -> contig a cs' top ->
  BinHeap.hdr_ok (K:=0) m pz pu cs top -> BinHeap.hdr_ok (K:=0) m pz' pu' cs' top -> pu = pu' ∧ cs = cs'.
Proof.
  assert (∀ c z z' p p' w w', 0 < c -> 0 <= z < 2 ^ 32 - 8 -> 0 <= z' < 2 ^ 32 - 8 -> z mod 8 = 0 -> z' mod 8 = 0 ->
    BinHeap.hdr_is (K:=0) m c w p z -> BinHeap.hdr_is (K:=0) m c w' p' z' -> p = p' ∧ z = z') as Hw.
  { intros c z z' p p' w w' Hc Hz Hz' H8 H8' H1 H2. destruct (H1 ltac:(lia)) as (x & Hx & Hxr & _), (H2 ltac:(lia)) as (y & Hy & Hyr & _).
    rewrite Hx in Hy. unfold hdr_word, mk_word in Hy. assert (z + b2z p = z' + b2z p') as E by lia.
    destruct p, p'; simpl in E; split; try done; Z.div_mod_to_equations; lia. }
  revert a cs' pz pu pz' pu'. induction cs as [|[[c z] u] cs IH]; intros a cs' pz pu pz' pu' Ha Ht Hc Hc' H1 H2.
  - simpl in Hc. subst a. destruct cs' as [|[[c' z'] u'] cs'].
    + split; [|done]. by destruct (Hw top 0 0 pu pu' pz pz').
    + destruct Hc' as (-> & ? & ? & Hc'). apply contig_le in Hc'. mlia.
  - destruct Hc as (-> & Hz & Hz8 & Hc). destruct cs' as [|[[c' z'] u'] cs'].
    + simpl in Hc'. subst a. apply contig_le in Hc. mlia.
    + destruct Hc' as (-> & Hz' & Hz8' & Hc'). destruct H1 as [H1 R1], H2 as [H2 R2].
      pose proof (contig_le _ _ _ Hc). pose proof (contig_le _ _ _ Hc').
      destruct (Hw a z z' pu pu' pz pz') as [-> ->]; [mlia..|done|done|done|done|]. split; [done|].
      destruct (IH (a + z') cs' z' u z' u') as [-> ->]; [mlia|done..].
Qed.

Lemma holds_unique s L L' : holds s L -> holds s L' -> L = L'.
Proof.
  intros (cs & B & H & _ & <- & _) (cs' & B' & H' & _ & <- & _).
  pose proof (hp_bottom _ _ _ _ H) as [Hb _]. pose proof (hp_top _ _ _ _ H) as Ht.
  assert (m_hTop (m_pstHead s) < 2 ^ 32 - 8) as Ht' by (unfold MINSIZE, MAX_ALLOC_SIZE in Ht; lia).
  by destruct (hdr_unique (mem s) _ _ cs cs' _ _ _ _ Hb Ht' (hp_contig _ _ _ _ H) (hp_contig _ _ _ _ H') (hp_hdr _ _ _ _ H) (hp_hdr _ _ _ _ H'))
    as [_ ->].
Qed.

(** ** The laws *)

Lemma bin_Calloc_holds s us n h s' :
  bin_holds s us -> 0 <= n < 2 ^ 32 -> Calloc 1 n s = Some (h, s') -> ∃ ex, bin_holds s' (us ++ ex).
Proof.
  intros (L & b2 & Hs & Hp & Hf) [Hn _] Hr.
  destruct (runs_inv _ _ _ _ _ (Calloc_run s L 0 n Hs Hn) Hr) as (Hk & Hor).
  assert (Forall2 (bin_block s') us b2) as Hf'.
  { eapply (bin_block_keep s s' us b2 L); [|done..]. intros b Hb. by exists L. }
  destruct Hor as [(-> & Hs')|(p & z & L1 & L2 & -> & _ & -> & Hz & Hs' & _)].
  - exists []. rewrite app_nil_r. by exists L, b2.
  - pose proof (holds_in _ _ p z Hs' (mid_in _ _ _)) as Hr'. exists [(chunk2mem p, contents (mem s') (chunk2mem p) (z - 4))].
    eapply bin_holds_perm; [apply Permutation_cons_append|]. apply bin_holds_split. exists p, z, L1, L2, b2.
    split_and!; try done; [apply length_contents; mlia|apply contents_at].
Qed.

Lemma bin_Malloc_owns s u n h s' :
  owns s u -> 0 <= n -> Malloc 1 n s = Some (h, s') -> owns s' (if h =? INVALID_HANDLE then u else (h, n) :: u).
Proof.
  intros (bs & bs' & Hs & Hp & Hf) Hn Hr. destruct (runs_inv _ _ _ _ _ (Malloc_run s bs 0 n Hs Hn) Hr)
    as (_ & [(-> & Hs' & _)|(p & z & L1 & L2 & Hh & _ & Hbs & Hz & Hs')]); [by exists bs, bs'|].
  eapply owns_new; [exact Hh|exact Hbs|exact Hn|exact Hz|exact Hs'|by exists bs'].
Qed.

Lemma bin_store_owns s u h bs us k v bs' x s' :
  owns s u -> bin_holds s ((h, bs) :: us) -> is_byte v -> wr bs k v = Some bs' ->
  bin_store (h + k) v s = Some (x, s') -> owns s' u.
Proof.
  intros (L & L' & Hs & Hp & Hf) Hb Hv Hw Hr.
  pose proof Hb as (p & z & L1 & L2 & b2 & Hs2 & -> & Hl & _)%bin_holds_split.
  pose proof (wr_Some _ _ _ _ Hw) as [Hk _]. exists L, L'. split; [|done]. rewrite (holds_unique _ _ _ Hs Hs2).
  destruct (bin_word _ _ _ _ _ k Hs2 ltac:(lia)) as (Hseg & Ha & Hlow). set (a := chunk2mem p + k) in *.
  unfold bin_store in Hr. rewrite (step_bind _ _ _ _ _ (ld_ok s _ Hseg)), (st_ok s _ _ Hseg) in Hr. injection Hr as _ <-.
  apply holds_tail; [done| |].
  - intros y Hy. destruct (decide (y = a / 8 * 8)) as [->|]; [done|]. by rewrite word_at_insert_ne in Hy.
  - destruct (decide (p + z = a / 8 * 8)) as [He|]; [|by rewrite word_at_insert_ne].
    rewrite He, word_at_insert_eq. apply w_size_set_byte; [done|]. symmetry in He. apply Hlow in He.
    pose proof (Z.mod_pos_bound a 8). lia.
Qed.

#[export] Instance CBinMalloc_PoolMemory : PoolMemory CBinMalloc.
Proof.
  split.
  - done.
  - intros a us n h a'. apply bin_Calloc_holds.
  - intros a u n h a'. apply bin_Malloc_owns.
  - intros a u h bs us k v bs' x a'. apply bin_store_owns.
Qed.
