(* ===== verification/Hash.v ===== *)
(** * Hash: the hash buckets

    Models [src/cache/hash.h], [src/cache/hash.cc] ([CHash]) and
    [src/common/new_hash.cc].  A key is the memory at its address, as bytes; a
    read behind it is undefined.  [char] is signed. *)

From stdpp Require Import gmap.
From S2P Require Import Prelude State BinMalloc NodeMem.

(** ** [new_hash] *)

Definition sub3 (x y z : Z) : Z := u32 (u32 (x - y) - z).

(** The macro [mix]. *)
Definition mix (abc : Z * Z * Z) : Z * Z * Z :=
  let '(a, b, c) := abc in
  let a := Z.lxor (sub3 a b c) (Z.shiftr c 13) in
  let b := Z.lxor (sub3 b c a) (u32 (Z.shiftl a 8)) in
  let c := Z.lxor (sub3 c a b) (Z.shiftr b 13) in
  let a := Z.lxor (sub3 a b c) (Z.shiftr c 12) in
  let b := Z.lxor (sub3 b c a) (u32 (Z.shiftl a 16)) in
  let c := Z.lxor (sub3 c a b) (Z.shiftr b 5) in
  let a := Z.lxor (sub3 a b c) (Z.shiftr c 3) in
  let b := Z.lxor (sub3 b c a) (u32 (Z.shiftl a 10)) in
  let c := Z.lxor (sub3 c a b) (Z.shiftr b 15) in
  (a, b, c).

(** [(u4)k[i] << s] *)
Definition kch (k : list Z) (i s : Z) : option Z := x ← rd k i; Some (u32 (Z.shiftl (u32 (s8 x)) s)).

(** Four bytes from [k[i]]. *)
Definition kword (k : list Z) (i : Z) : option Z :=
  x0 ← kch k i 0; x1 ← kch k (i + 1) 8; x2 ← kch k (i + 2) 16; x3 ← kch k (i + 3) 24;
  Some (u32 (x0 + x1 + x2 + x3)).

(** [while (len >= 12)]; [fuel] bounds the turns. *)
Fixpoint new_hash_blocks (fuel : nat) (k : list Z) (len : Z) (abc : Z * Z * Z) : option (list Z * Z * (Z * Z * Z)) :=
  if 12 <=? len then
    match fuel with
    | O => None
    | S fuel' =>
        let '(a, b, c) := abc in
        x ← kword k 0; y ← kword k 4; z ← kword k 8;
        new_hash_blocks fuel' (drop 12 k) (len - 12) (mix (u32 (a + x), u32 (b + y), u32 (c + z)))
    end
  else Some (k, len, abc).

(** [case n:], taken when [n <= len]: add byte [k[i]] shifted by [s]. *)
Definition tail_case (k : list Z) (len n i s acc : Z) : option Z :=
  if n <=? len then x ← kch k i s; Some (u32 (acc + x)) else Some acc.

Definition new_hash_tail (k : list Z) (len length : Z) (abc : Z * Z * Z) : option (Z * Z * Z) :=
  let '(a, b, c) := abc in
  let c := u32 (c + length) in
  c ← tail_case k len 11 10 24 c;
  c ← tail_case k len 10 9 16 c;
  c ← tail_case k len 9 8 8 c;
  b ← tail_case k len 8 7 24 b;
  b ← tail_case k len 7 6 16 b;
  b ← tail_case k len 6 5 8 b;
  b ← tail_case k len 5 4 0 b;
  a ← tail_case k len 4 3 24 a;
  a ← tail_case k len 3 2 16 a;
  a ← tail_case k len 2 1 8 a;
  a ← tail_case k len 1 0 0 a;
  Some (mix (a, b, c)).

Definition new_hash (k : list Z) (length : Z) : option Z :=
  let len := u32 length in
  '(k, len, abc) ← new_hash_blocks (Z.to_nat (len / 12)) k len (0x9e3779b9, 0x9e3779b9, 0x48545443);
  '(_, _, c) ← new_hash_tail k len length abc;
  Some c.

(** ** [CHash] *)

(** [x % hh_size]; dividing by 0 is undefined. *)
Definition umod (x n : Z) : option Z := if n =? 0 then None else Some (x mod n).

(** The size of a key and its bytes: a key of variable size carries its size in
    front. *)
Definition key_bytes (fixedsize : Z) (key : list Z) : option (Z * list Z) :=
  if negb (fixedsize =? 0) then Some (fixedsize, key)
  else size ← rd key 0; Some (size, drop 1 key).

(** The [n] bytes at the key as an unsigned integer. *)
Fixpoint le_bytes (n : nat) (k : list Z) : option Z :=
  match n with
  | O => Some 0
  | S n' => x ← rd k 0; r ← le_bytes n' (drop 1 k); Some (x + 256 * r)
  end.

(** The loop of [HashSlot] over the bytes up to [arEnd]. *)
Fixpoint elf_hash (n : nat) (k : list Z) (h : Z) : option Z :=
  match n with
  | O => Some h
  | S n' =>
      x ← rd k 0;
      let h := u32 (u32 (Z.shiftl h 4) + s8 x) in
      let g := Z.land h 0xF0000000 in
      let h := if negb (g =? 0) then Z.lxor (Z.lxor h (Z.shiftr g 24)) g else h in
      elf_hash n' (drop 1 k) h
  end.

Definition hash_slot (long : list Z -> Z -> option Z) (h : HASH_T) (key : list Z) : option Z :=
  '(size, k) ← key_bytes (hh_fixedsize h) key;
  x ← (if size =? 1 then le_bytes 1 k
       else if size =? 2 then le_bytes 2 k
       else if size =? 4 then le_bytes 4 k
       else long k size);
  umod x (hh_size h).
Definition NewHashSlot : HASH_T -> list Z -> option Z := hash_slot new_hash.
Definition HashSlot : HASH_T -> list Z -> option Z :=
  hash_slot (λ k size, elf_hash (Z.to_nat size) k 0).

Section hash.
Context {A : Type} `{Allocator A}.

Definition Hash2Node (v : Z) : CM A Z :=
  λ s, h ← get_HT (hash s) s; x ← arr_rd (hh_size h) (hh_buckets h) v; Some (x, s).
Definition set_Hash2Node (v x : Z) : CM A unit :=
  λ s, h ← get_HT (hash s) s; b ← arr_wr (hh_size h) (hh_buckets h) v x;
       Some (tt, put_obj (hash s) (OHash (set_hh_buckets b h)) s).

(** [for(i = 0; i < hsize; i++) hh_buckets[i] = INVALID_NODE_ID], the last [n]
    turns. *)
Fixpoint init_buckets (n : nat) (hsize : Z) (b : gmap Z Z) : gmap Z Z :=
  match n with
  | O => b
  | S n' => init_buckets n' hsize (<[hsize - Z.of_nat n := INVALID_NODE_ID]> b)
  end.

Definition hash_Init (hsize fixedsize : Z) : CM A Z :=
  let size := u64 (sizeof_NODE_ID_T * hsize + sizeof_HASH_T) in
  v ← M_CALLOC size (OHash (MkHash hsize 0 0 0 ∅));
  if INVALID_HANDLE =? v then mret (-1)
  else
    put (set_hash v);;
    hash_put (λ h, set_hh_fixedsize fixedsize $ set_hh_node 0 $ set_hh_free hsize $ set_hh_size hsize h);;
    hash_put (λ h, set_hh_buckets (init_buckets (Z.to_nat hsize) hsize (hh_buckets h)) h);;
    mret 0.

Definition hash_Attach (handle : Z) : CM A Z :=
  if INVALID_HANDLE =? handle then mret (-1)
  else put (set_hash handle);; mret 0.
Definition hash_Detach : CM A Z := put (set_hash 0);; mret 0.

Definition HashSize : CM A Z := hash_get hh_size.
Definition FreeBucket : CM A Z := hash_get hh_free.
Definition IncFreeBucket (v : Z) : CM A unit := hash_put (λ h, set_hh_free (u32 (hh_free h + v)) h).
Definition IncNodeCnt (v : Z) : CM A unit := hash_put (λ h, set_hh_node (u32 (hh_node h + v)) h).
End hash.

(** ** Keys and slots

    A computation on a key that reads only the first [size] bytes: what stands
    behind them in memory does not matter. *)

Definition reads_only {B} (f : list Z -> option B) (k : list Z) : Prop := ∃ x, ∀ j, f (k ++ j) = Some x.

Lemma reads_bind {B C} (f : list Z -> option B) (g : B -> list Z -> option C) k :
  reads_only f k -> (∀ x, reads_only (g x) k) -> reads_only (λ k, x ← f k; g x k) k.
Proof. intros [x Hx] Hg. destruct (Hg x) as [y Hy]. exists y. intros j. rewrite Hx. apply Hy. Qed.
Lemma reads_ret {B} (x : B) k : reads_only (λ _, Some x) k.
Proof. by exists x. Qed.
Lemma reads_rd k i : 0 <= i < Z.of_nat (length k) -> reads_only (λ k, rd k i) k.
Proof.
  intros Hi. destruct (lookup_lt_is_Some_2 k (Z.to_nat i)) as [x Hx]; [lia|]. exists x. intros j. unfold rd.
  zif. by apply lookup_app_l_Some.
Qed.

Lemma reads_kch k i s : 0 <= i < Z.of_nat (length k) -> reads_only (λ k, kch k i s) k.
Proof. intros Hi. apply reads_bind; [by apply reads_rd|]. intros x. apply reads_ret. Qed.
Lemma reads_kword k i : 0 <= i -> i + 4 <= Z.of_nat (length k) -> reads_only (λ k, kword k i) k.
Proof.
  intros H1 H2. unfold kword. repeat (apply reads_bind; [apply reads_kch; lia|intros ?]). apply reads_ret.
Qed.
Lemma reads_tail_case k len n i s acc :
  i = n - 1 -> 0 <= i -> len <= Z.of_nat (length k) -> reads_only (λ k, tail_case k len n i s acc) k.
Proof.
  intros -> Hi Hl. unfold tail_case. destruct (Z.leb_spec n len); [|apply reads_ret].
  apply reads_bind; [apply reads_kch; lia|]. intros x. apply reads_ret.
Qed.
Lemma reads_hash_tail k len length' abc :
  len <= Z.of_nat (length k) -> reads_only (λ k, new_hash_tail k len length' abc) k.
Proof.
  intros Hl. destruct abc as [[a b] c]. unfold new_hash_tail.
  repeat (apply reads_bind; [apply reads_tail_case; lia|intros ?]). apply reads_ret.
Qed.

(** Enough fuel: one turn per block of 12 bytes. *)
Lemma new_hash_blocks_run fuel k len abc :
  0 <= len <= Z.of_nat (length k) -> len / 12 <= Z.of_nat fuel ->
  ∃ k' len' abc', len' <= Z.of_nat (length k') ∧
    ∀ j, new_hash_blocks fuel (k ++ j) len abc = Some (k' ++ j, len', abc').
Proof.
  revert k len abc. induction fuel as [|fuel IH]; intros k len abc Hl Hf; cbn [new_hash_blocks].
  - exists k, len, abc. split; [lia|]. intros j. destruct (Z.leb_spec 12 len); [|done]. Z.div_mod_to_equations; lia.
  - destruct (Z.leb_spec 12 len) as [H12|]; [|exists k, len, abc; split; [lia|done]].
    destruct abc as [[a b] c].
    destruct (reads_kword k 0) as [x Hx]; [lia..|]. destruct (reads_kword k 4) as [y Hy]; [lia..|].
    destruct (reads_kword k 8) as [z Hz]; [lia..|].
    destruct (IH (drop 12 k) (len - 12) (mix (u32 (a + x), u32 (b + y), u32 (c + z)))) as (k' & len' & abc' & H1 & H2);
      [rewrite length_drop; lia|Z.div_mod_to_equations; lia|].
    exists k', len', abc'. split; [done|]. intros j. rewrite Hx, Hy, Hz. cbn [mbind option_bind].
    rewrite drop_app_le by lia. apply H2.
Qed.

Lemma new_hash_reads k size :
  0 <= size <= Z.of_nat (length k) -> size < 2 ^ 32 -> reads_only (λ k, new_hash k size) k.
Proof.
  intros Hs Hu. unfold new_hash. rewrite uwrap_small by lia.
  destruct (new_hash_blocks_run (Z.to_nat (size / 12)) k size (0x9e3779b9, 0x9e3779b9, 0x48545443))
    as (k' & len' & abc' & Hl & Hr); [lia|Z.div_mod_to_equations; lia|].
  destruct (reads_hash_tail k' len' size abc' Hl) as [[[a b] c] Hc]. exists c. intros j. rewrite Hr. cbn [mbind option_bind].
  rewrite Hc. done.
Qed.
Lemma elf_hash_reads n k h : (n <= length k)%nat -> reads_only (λ k, elf_hash n k h) k.
Proof.
  revert k h. induction n as [|n IH]; intros k h Hn; cbn [elf_hash]; [apply reads_ret|].
  destruct k as [|b k]; [simpl in Hn; lia|]. simpl in Hn.
  destruct (IH k (let h := u32 (u32 (Z.shiftl h 4) + s8 b) in let g := Z.land h 0xF0000000 in
    if negb (g =? 0) then Z.lxor (Z.lxor h (Z.shiftr g 24)) g else h)) as [x Hx]; [lia|].
  exists x. intros j. apply Hx.
Qed.
Lemma le_bytes_reads n k : (n <= length k)%nat -> reads_only (λ k, le_bytes n k) k.
Proof.
  revert k. induction n as [|n IH]; intros k Hn; cbn [le_bytes]; [apply reads_ret|].
  destruct k as [|b k]; [simpl in Hn; lia|]. simpl in Hn. destruct (IH k) as [x Hx]; [lia|].
  exists (b + 256 * x). intros j. change (rd ((b :: k) ++ j) 0) with (Some b). cbn [mbind option_bind].
  change (drop 1 ((b :: k) ++ j)) with (k ++ j). by rewrite Hx.
Qed.

(** A whole key is there: as many bytes as the table's key size, or as its
    first byte says. *)
Definition key_there (h : HASH_T) (key : list Z) : Prop :=
  ∃ size k, key_bytes (hh_fixedsize h) key = Some (size, k) ∧ 0 <= size < 2 ^ 32 ∧ size <= Z.of_nat (length k).

Lemma hash_slot_total long h key :
  (∀ k size, 0 <= size <= Z.of_nat (length k) -> size < 2 ^ 32 -> reads_only (λ k, long k size) k) ->
  key_there h key -> 0 < hh_size h ->
  ∃ v, 0 <= v < hh_size h ∧ ∀ j, hash_slot long h (key ++ j) = Some v.
Proof.
  intros Hlong (size & k & Hk & Hs & Hl) Hh.
  assert (∀ j, key_bytes (hh_fixedsize h) (key ++ j) = Some (size, k ++ j)) as Hkj.
  { intros j. unfold key_bytes in *. destruct (negb _); [by simplify_eq|].
    destruct key as [|b key]; [done|]. simpl in *. by simplify_eq. }
  assert (reads_only (λ k, if size =? 1 then le_bytes 1 k else if size =? 2 then le_bytes 2 k
    else if size =? 4 then le_bytes 4 k else long k size) k) as [x Hx].
  { destruct (Z.eqb_spec size 1), (Z.eqb_spec size 2), (Z.eqb_spec size 4);
      first [apply le_bytes_reads; lia|apply Hlong; lia]. }
  exists (x mod hh_size h). split; [by apply Z.mod_pos_bound|]. intros j. unfold hash_slot. rewrite Hkj. cbn [mbind option_bind].
  rewrite Hx. cbn [mbind option_bind]. unfold umod. by zif.
Qed.

(** For a table with buckets and a key that is there as a whole, both hash
    functions give a slot of the table; it depends on the key alone, not on
    what stands behind it in memory. *)
Theorem hash_slots_total (h : HASH_T) (key : list Z) :
  key_there h key -> 0 < hh_size h ->
  (∃ v, 0 <= v < hh_size h ∧ ∀ j, NewHashSlot h (key ++ j) = Some v) ∧
  (∃ v, 0 <= v < hh_size h ∧ ∀ j, HashSlot h (key ++ j) = Some v).
Proof.
  intros Hk Hh. split; apply hash_slot_total; try done.
  - intros k size. apply new_hash_reads.
  - intros k size Hs _. apply elf_hash_reads. lia.
Qed.

Lemma hash_slots_total_witness :
  ∃ v, 0 <= v < hh_size (MkHash 1000 0 0 0 ∅) ∧
       ∀ j, NewHashSlot (MkHash 1000 0 0 0 ∅) ([5; 104; 101; 108; 108; 111] ++ j) = Some v.
Proof.
  refine (proj1 (hash_slots_total (MkHash 1000 0 0 0 ∅) [5; 104; 101; 108; 108; 111] _ _)); [|done].
  exists 5, [104; 101; 108; 108; 111]. split; [done|]. split; [lia|]. simpl. lia.
Defined.
