(* ===== verification/Pool.v ===== *)
(** * Pool: the nodes of the cache by key

    Models [CCachePool] ([src/cache/cache_pool.h], [src/cache/cache_pool.cc]):
    the hash chains that lead from a key to its node, and finding, allocating
    and purging nodes by key.  The store is [cmem]; chunks are read through
    [DataChunk] on the same allocator.

    [keySize] is that of [_cacheInfo]; [hashChanging] and [targetNewHash] are
    the globals of that name, [notify] is [_purge_notifier] ([None] is NULL).
    [fuel] bounds walks over a hash chain; running out of it is undefined, as
    is an endless loop.  Statistics, among them the hours a purged node lived,
    and error texts are not kept. *)

From stdpp Require Import gmap.
From S2P Require Import Prelude State Ring BinMalloc Value Mallocator DataChunk NodeMem NodeGroup NodeIndex NgInfo Hash.

Definition TIME_MARKER_NEXT_NODE_ID : Z := u32 (INVALID_NODE_ID - 1).

(** The number of buckets, about one hundredth of the memory: the cast is to 32
    bits, the division by [sizeof] unsigned, the rest on [int]. *)
Definition HashBucketNum (size : Z) : Z :=
  let h := s32 (u32 (u64 (size / 100 - 16)) / sizeof_NODE_ID_T) in
  let h := Z.quot h 9 * 9 in
  u32 h.

Section pool.
Context {A : Type} `{Allocator A} `{Mallocator A} `{DestroySize A}.
Context (keySize : Z) (hashChanging targetNewHash : bool) (pre_purge_nodes : Z)
  (notify : option (list Z -> CNode -> CM A unit)) (fuel : nat).
Implicit Types (key : list Z) (node : CNode).

(** A call on the allocator, where the chunks are *)
Definition on_mem {X} (m : ST A X) : CM A X := λ s, '(x, a) ← m (alloc s); Some (x, set_alloc a s).

(** ** Keys and slots *)

(** [_hash->NewHashSlot(key)] or [HashSlot(key)] *)
Definition hash_slot_of (newhash : bool) key : CM A Z :=
  λ s, h ← get_HT (hash s) s; v ← (if newhash then NewHashSlot else HashSlot) h key; Some (v, s).

(** [memcmp] of the key with memory, up to the first difference *)
Fixpoint memcmp (n : nat) (key : list Z) (other : Z) : ST A Z :=
  match n with
  | O => mret 0
  | S n' =>
      x ← lift (rd key 0); y ← mal_load other;
      if x =? y then memcmp n' (drop 1 key) (other + 1) else mret (x - y)
  end.
Definition KeyCmp key (other : Z) : CM A Z :=
  len ← lift (if keySize =? 0 then n ← rd key 0; Some (n + 1) else Some keySize);
  on_mem (memcmp (Z.to_nat len) key other).

(** ** Hash chains *)

Definition Insert2Hash key node : CM A Z :=
  hashslot ← hash_slot_of targetNewHash key;
  id ← Hash2Node hashslot;
  when_ (id =? INVALID_NODE_ID) (IncFreeBucket (-1));;
  IncNodeCnt 1;;
  id ← Hash2Node hashslot; set_NextNodeID node id;;
  id ← NodeID node; set_Hash2Node hashslot id;;
  mret 0.

(** [while(!(!next) && next.NodeID() != remove_node.NodeID())] *)
Fixpoint hash_walk (n : nat) (prev next remove_node : CNode) : CM A (CNode * CNode) :=
  if is_null next then mret (prev, next)
  else
    a ← NodeID next; b ← NodeID remove_node;
    if a =? b then mret (prev, next)
    else
      match n with
      | O => lift None
      | S n' => id ← NextNodeID next; next' ← I_SEARCH id; hash_walk n' next next' remove_node
      end.

Definition RemoveFromHashBase key (remove_node : CNode) (newhash : bool) : CM A Z :=
  hash_slot ← hash_slot_of newhash key;
  node_id ← Hash2Node hash_slot;
  if node_id =? INVALID_NODE_ID then mret 0
  else
    rid ← NodeID remove_node;
    if node_id =? rid then
      nx ← NextNodeID remove_node; set_Hash2Node hash_slot nx;;
      id ← Hash2Node hash_slot;
      when_ (id =? INVALID_NODE_ID) (IncFreeBucket 1);;
      IncNodeCnt (-1);;
      mret 0
    else
      prev ← I_SEARCH node_id;
      id ← NextNodeID prev; next ← I_SEARCH id;
      pn ← hash_walk fuel prev next remove_node;
      if negb (is_null pn.2) then
        id ← NextNodeID pn.2; set_NextNodeID pn.1 id;;
        IncNodeCnt (-1);;
        mret 0
      else mret (-1).

Definition RemoveFromHash key (remove_node : CNode) : CM A Z :=
  (if hashChanging then
     RemoveFromHashBase key remove_node true;; RemoveFromHashBase key remove_node false
   else RemoveFromHashBase key remove_node targetNewHash);;
  mret 0.

Definition MoveToNewHash key node : CM A Z := RemoveFromHash key node;; Insert2Hash key node;; mret 0.

(** ** Purging a node *)

Definition PurgeNode key (purge_node : CNode) : CM A Z :=
  (match notify with Some f => f key purge_node | None => mret tt end);;
  RemoveFromHash key purge_node;;
  RemoveFromLru purge_node;;
  ReleaseNode purge_node;;
  mret 0.

(** The key copied out of the chunk into [char key[256] = {0}] *)
Definition chunk_key (k : Z) : CM A (list Z) :=
  n ← (if 0 <? keySize then mret keySize else c ← on_mem (mal_load k); mret (c + 1));
  if 256 <? n then lift None
  else l ← on_mem (peeks k (Z.to_nat n)); mret (l ++ replicate (256 - Z.to_nat n) 0).

Definition PurgeNodeEverything (purge_node : CNode) : CM A Z :=
  if is_null purge_node then mret 0
  else
    vd ← VDHandle purge_node;
    if vd =? INVALID_HANDLE then mret 0
    else
      k ← on_mem (chunk_Key vd);
      if k =? 0 then mret (-1)
      else
        key ← chunk_key k;
        on_mem (chunk_Destroy vd);;
        PurgeNode key purge_node.

(** [PurgeNodeEverything(const char *key, CNode purge_node)] *)
Definition PurgeNodeEverything_key key (purge_node : CNode) : CM A Z :=
  if is_null purge_node then mret 0
  else
    vd ← VDHandle purge_node;
    (if vd =? INVALID_HANDLE then mret tt else on_mem (chunk_Destroy vd);; mret tt);;
    PurgeNode key purge_node.

Definition NodeRowsCount node : CM A Z :=
  if is_null node then mret 0
  else
    vd ← VDHandle node;
    if vd =? INVALID_HANDLE then mret 0 else n ← on_mem (chunk_TotalRows vd); mret (s32 n).

(** ** Finding and making nodes *)

(** [while(!(!iter))]: a node without data is purged on the way. *)
Fixpoint find_loop (n : nat) key (iter : CNode) : CM A CNode :=
  if is_null iter then mret CNode_NULL
  else
    match n with
    | O => lift None
    | S n' =>
        let skip :=
          id ← NextNodeID iter; nx ← I_SEARCH id; PurgeNode key iter;; find_loop n' key nx in
        vd ← VDHandle iter;
        if vd =? INVALID_HANDLE then skip
        else
          k ← on_mem (chunk_Key vd);
          if k =? 0 then skip
          else
            c ← KeyCmp key k;
            if c =? 0 then mret iter
            else id ← NextNodeID iter; nx ← I_SEARCH id; find_loop n' key nx
    end.

Definition CacheFind key (newhash : bool) : CM A CNode :=
  hash_slot ← hash_slot_of newhash key;
  node_id ← Hash2Node hash_slot;
  if node_id =? INVALID_NODE_ID then mret CNode_NULL
  else iter ← I_SEARCH node_id; find_loop fuel key iter.

Definition CacheFindAutoChoseHash key : CM A CNode :=
  if hashChanging then
    stNode ← CacheFind key (negb targetNewHash);
    if is_null stNode then CacheFind key targetNewHash
    else MoveToNewHash key stNode;; mret stNode
  else CacheFind key targetNewHash.

Definition CacheAllocate key : CM A CNode :=
  allocate_node ← AllocateNode;
  if is_null allocate_node then mret allocate_node
  else
    Insert2Hash key allocate_node;;
    Insert2CleanLru allocate_node;;
    mret allocate_node.

Definition CachePurge key : CM A Z :=
  let purge n := r ← PurgeNodeEverything_key key n; mret (if r <? 0 then -1 else 0) in
  if hashChanging then
    purge_node ← CacheFind key false;
    if is_null purge_node then
      purge_node ← CacheFind key true;
      if is_null purge_node then mret 0 else purge purge_node
    else purge purge_node
  else
    purge_node ← CacheFind key targetNewHash;
    if is_null purge_node then mret 0 else purge purge_node.

(** [check_cross_linked_lru] *)
Definition cross_linked node : CM A bool := v ← node_Prev node; mret (bool_decide (v = node)).
End pool.
