(* ===== verification/PoolChain.v ===== *)
(** * PoolChain: hash chains

    Each bucket of the hash table ([src/cache/hash.h]) starts a list of nodes
    that [NextNodeID] links by node ids.  [chain] says which nodes a list
    holds; [PoolStep] adds that every bucket has one ([hashed]), [PoolHash] and
    [PoolFind] what the operations of [src/cache/cache_pool.cc] do to them. *)

From stdpp Require Import gmap.
From S2P Require Import Prelude State Ring BinMalloc Value Mallocator DataChunk NodeMem NodeGroup NodeIndex NgInfo NodeLinks NodeStore NodeAlloc NodeLru NodeSession PoolMem Hash Pool.

Section chain.
Context {A : Type} `{PoolMemory A}.
Implicit Types (s : cmem A) (n m : CNode) (l u v : list CNode) (id : Z) (ch : Z -> list CNode).

Definition next_of s n : option Z := na_next <$> node_attr s n.
Definition vd_of s n : option Z := na_vd <$> node_attr s n.

(** A node whose id leads to it *)
Definition live_node s n : Prop := is_null n = false ∧ node_cell n s.

Fixpoint chain s (id : Z) (l : list CNode) : Prop :=
  match l with
  | [] => id = INVALID_NODE_ID
  | n :: l => live_node s n ∧ node_id s n = Some id ∧ ∃ nx, next_of s n = Some nx ∧ chain s nx l
  end.

(** *** Reading *)

Lemma live_id s n : live_node s n -> ∃ id, node_id s n = Some id ∧ Search id s = Some n.
Proof. intros (_ & g & Hg & _ & _ & Hs). exists (id_of g (c_index n)). unfold node_id. rewrite Hg. by split. Qed.
Lemma live_inj s n m id : live_node s n -> live_node s m -> node_id s n = Some id -> node_id s m = Some id -> n = m.
Proof. intros (i & Hi & Hs)%live_id (j & Hj & Hs')%live_id ? ?. congruence. Qed.
Lemma NodeID_eq s n id : node_id s n = Some id -> NodeID n s = Some (id, s).
Proof.
  unfold node_id. destruct (get_NG (c_owner n) s) as [g|] eqn:Hg; [|done]. intros [= <-]. by apply NodeID_run.
Qed.
Lemma NextNodeID_eq s n x : live_node s n -> next_of s n = Some x -> NextNodeID n s = Some (x, s).
Proof.
  intros (_ & g & Hg & Hs & Hi & _) Hx. unfold next_of, node_attr in Hx. rewrite Hg in Hx. injection Hx as <-.
  by apply NG_NextNodeID_run.
Qed.
Lemma VDHandle_eq s n x : live_node s n -> vd_of s n = Some x -> VDHandle n s = Some (x, s).
Proof.
  intros (_ & g & Hg & Hs & Hi & _) Hx. unfold vd_of, node_attr in Hx. rewrite Hg in Hx. injection Hx as <-.
  by apply NG_VDHandle_run.
Qed.
Lemma live_attr s n : live_node s n -> ∃ a, node_attr s n = Some a.
Proof. intros (_ & g & Hg & _). exists (attrs g (c_index n)). unfold node_attr. by rewrite Hg. Qed.

(** [I_SEARCH] of the id at the head of a list gives its first node. *)
Definition first_node l : CNode := default CNode_NULL (head l).
Lemma chain_first s id l : chain s id l -> I_SEARCH id s = Some (first_node l, s).
Proof.
  unfold I_SEARCH. destruct l as [|n l]; simpl.
  - intros ->. unfold Search. by rewrite Z.eqb_refl.
  - intros (Hl & Hid & _). destruct (live_id s n Hl) as (id' & ? & Hs). assert (id' = id) as -> by congruence. by rewrite Hs.
Qed.
Lemma chain_empty s id l : chain s id l -> (id =? INVALID_NODE_ID) = bool_decide (l = []).
Proof.
  destruct l as [|n l]; simpl; [intros ->; by rewrite Z.eqb_refl|]. intros (Hl & Hid & _).
  apply Z.eqb_neq. intros ->. destruct (live_id s n Hl) as (id' & ? & Hs). assert (id' = INVALID_NODE_ID) as -> by congruence.
  unfold Search in Hs. rewrite Z.eqb_refl in Hs. injection Hs as <-. by destruct Hl as [Hl _].
Qed.
Lemma chain_live s id l n : chain s id l -> n ∈ l -> live_node s n.
Proof.
  revert id. induction l as [|m l IH]; intros id Hc; [by intros ?%elem_of_nil|]. destruct Hc as (Hm & _ & nx & _ & Hc).
  intros [->|Hn]%elem_of_cons; [done|by eapply IH].
Qed.
Lemma first_null s id l : chain s id l -> is_null (first_node l) = bool_decide (l = []).
Proof. destruct l as [|n l]; [done|]. intros ((Hl & _) & _). done. Qed.

Lemma chain_app s id u v : chain s id (u ++ v) -> ∃ id', chain s id' v ∧
  (∀ n, last u = Some n -> next_of s n = Some id') ∧ (u = [] -> id' = id).
Proof.
  revert id. induction u as [|m u IH]; intros id Hc; [by exists id|]. destruct Hc as (_ & _ & nx & Hnx & Hc).
  destruct (IH nx Hc) as (id' & Hv & Hl & He). exists id'. split_and!; [done| |done]. intros n Hn. destruct u as [|x u].
  - injection Hn as <-. by rewrite He.
  - by apply Hl.
Qed.

(** *** Change *)

Definition node_kept s s' n : Prop :=
  live_node s n -> live_node s' n ∧ node_id s' n = node_id s n ∧ next_of s' n = next_of s n.

Lemma chain_kept s s' id l : chain s id l -> (∀ n, n ∈ l -> node_kept s s' n) -> chain s' id l.
Proof.
  revert id. induction l as [|n l IH]; intros id Hc Hk; [done|]. destruct Hc as (Hl & Hid & nx & Hnx & Hc).
  destruct (Hk n) as (H1' & H2' & H3'); [by left|done|]. split; [done|]. split; [congruence|]. exists nx. split; [congruence|].
  apply IH; [done|]. intros m Hm. apply Hk. by right.
Qed.

(** The link of [n] now leads to [v], as that of the node before. *)
Lemma chain_cut s s' id u n v p nx :
  chain s id (u ++ [p; n] ++ v) -> (∀ m, m ∈ u ++ v -> node_kept s s' m) -> next_of s n = Some nx ->
  live_node s' p ∧ node_id s' p = node_id s p -> next_of s' p = Some nx -> chain s' id (u ++ p :: v).
Proof.
  revert id. induction u as [|m u IH]; intros id Hc Hk Hnx [Hp1 Hp2] Hp3.
  - destruct Hc as (_ & Hid & x & Hx & _ & _ & y & Hy & Hc). assert (y = nx) as -> by congruence. simpl.
    split; [done|]. split; [congruence|]. exists nx. split; [done|]. by eapply chain_kept.
  - destruct Hc as (Hl & Hid & x & Hx & Hc). destruct (Hk m) as (K1 & K2 & K3); [by left|done|]. simpl.
    split; [done|]. split; [congruence|]. exists x. split; [congruence|]. apply IH; try done. intros y Hy. apply Hk. by right.
Qed.
End chain.
