(* ===== verification/PoolStep.v ===== *)
(** * PoolStep: assignments to nodes in use and to the hash table

    [NextNodeID], [VDHandle], the dirty bit and the buckets are written by the
    pool itself ([src/cache/cache_pool.cc]).  Such a write is an [astep]: the
    groups, the index, the LRU lists and the nodes in use are as before, so the
    invariant of [NodeSession] holds again. *)

From stdpp Require Import gmap.
From S2P Require Import Prelude State Ring BinMalloc Mallocator NodeMem NodeGroup NodeIndex NgInfo NodeLinks NodeStore NodeAlloc NodeLru NodeSession PoolMem Hash Pool PoolChain.

Section steps.
Context {A : Type} `{PoolMemory A}.
Implicit Types (s : cmem A) (n m : CNode) (gs F U : list Z) (L : Z -> list CNode).

Record astep s s' : Prop := {
  as_same : objs_rel node_obj_same s s';
  as_lru n : node_cell n s -> lru_id n LRU_PREV s' = lru_id n LRU_PREV s ∧ lru_id n LRU_NEXT s' = lru_id n LRU_NEXT s
}.
#[export] Instance astep_po : PreOrder astep.
Proof.
  split.
  - intros s. split; [reflexivity|done].
  - intros s1 s2 s3 [E1 E2] [E3 E4]. split; [by etrans|]. intros n Hn. destruct (E2 n Hn) as [<- <-].
    apply E4. by eapply node_same_cell.
Qed.

Lemma astep_ring s s' n l : astep s s' -> ring n l s -> ring n l s'.
Proof.
  intros [Hs Hl] Hr. eapply ring_ext; [exact Hr|]. intros c _ Hc. split; [by eapply node_same_cell|].
  rewrite !l_prev_eq, !l_next_eq. destruct (Hl c Hc) as [-> ->]. split.
  - destruct (lru_id c LRU_PREV s) as [id|]; [|done]. apply (node_same_Search id _ _ Hs).
  - destruct (lru_id c LRU_NEXT s) as [id|]; [|done]. apply (node_same_Search id _ _ Hs).
Qed.
Lemma astep_session s s' ns L gs F U sys :
  astep s s' -> session_inv s ns L gs F U sys -> session_inv s' ns L gs F U sys.
Proof.
  intros Ha [I1 I2 I3 I4 [K1 K2 K3 K4 K5]]. pose proof (as_same _ _ Ha) as Hs. split.
  - by eapply node_same_store.
  - by rewrite (node_same_sys _ _ Hs).
  - intros n. by rewrite (node_same_used _ _ _ _ Hs).
  - done.
  - split; try done. intros k Hk. by eapply astep_ring, K2.
Qed.
Lemma astep_live s s' n : astep s s' -> live_node s n -> live_node s' n.
Proof. intros [Hs _] [Hn Hc]. split; [done|]. by eapply node_same_cell. Qed.
Lemma astep_kept s s' n : astep s s' -> next_of s' n = next_of s n -> node_kept s s' n.
Proof. intros Ha Hx Hl. split; [by eapply astep_live|]. split; [apply (node_same_id _ _ _ (as_same _ _ Ha))|done]. Qed.

(** *** Attributes *)

Lemma attr_group s n g : get_NG (c_owner n) s = Some g -> node_attr s n = Some (attrs g (c_index n)).
Proof. intros Hg. unfold node_attr. by rewrite Hg. Qed.

(** Applying [f] to the attributes of a node *)
Definition attr_step n (f : node_attrs -> node_attrs) s s' : Prop :=
  astep s s' ∧ node_attr s' n = f <$> node_attr s n ∧
  (∀ m, live_node s m -> m ≠ n -> node_attr s' m = node_attr s m) ∧
  (∀ h, get_HT h s' = get_HT h s).

Lemma attr_write s n g g' (f : node_attrs -> node_attrs) :
  get_NG (c_owner n) s = Some g -> 0 <= c_index n < 256 -> attrs_upd f (c_index n) g g' -> attrs_only g g' ->
  (∀ a, na_lru_prev (f a) = na_lru_prev a ∧ na_lru_next (f a) = na_lru_next a) ->
  attr_step n f s (put_obj (c_owner n) (ONodeGroup g') s).
Proof.
  intros Hg Hi [Hh Ha] Ho Hf. set (s' := put_obj _ _ s).
  assert (∀ m gm, get_NG (c_owner m) s = Some gm -> 0 <= c_index m < 256 ->
    ∃ gm', get_NG (c_owner m) s' = Some gm' ∧ hdr gm' = hdr gm ∧
      attrs gm' (c_index m) = if decide (m = n) then f (attrs gm (c_index m)) else attrs gm (c_index m)) as Hm.
  { intros m gm Hgm Him. destruct (decide (c_owner n = c_owner m)) as [He|Hne].
    - exists g'. rewrite <- He in *. assert (gm = g) as -> by congruence. split; [apply get_NG_put|]. split; [done|].
      rewrite Ha by done. repeat case_decide; subst; try done. destruct m, n; simpl in *; subst; done.
    - exists gm. unfold s'. rewrite get_NG_put_ne by done. split_and!; [done..|]. by rewrite decide_False by congruence. }
  split_and!.
  - split; [by eapply (objs_rel_put node_obj_same); [apply get_NG_objs|]|]. intros m (gm & Hgm & Hs & Him & _).
    destruct (Hm m gm Hgm Him) as (gm' & Hgm' & Hh' & Ha').
    destruct (lru_id_attr s m LRU_NEXT gm Hgm Hs Him) as [-> ->]; [|done].
    destruct (lru_id_attr s' m LRU_NEXT gm' Hgm' (hdr_std _ _ Hh' Hs) Him) as [-> ->]; [|done].
    rewrite Ha'. case_decide; [|done]. by destruct (Hf (attrs gm (c_index m))) as [-> ->].
  - destruct (Hm n g Hg Hi) as (gn & Hgn & _ & Hn). rewrite (attr_group _ _ _ Hg), (attr_group _ _ _ Hgn), Hn. by rewrite decide_True.
  - intros m (_ & gm & Hgm & _ & Him & _) Hne. destruct (Hm m gm Hgm Him) as (gm' & Hgm' & _ & Hn).
    rewrite (attr_group _ _ _ Hgm), (attr_group _ _ _ Hgm'), Hn. by rewrite decide_False.
  - intros h. unfold get_HT, s'. rewrite objs_put_obj. apply get_NG_objs in Hg.
    destruct (decide (c_owner n = h)) as [<-|]; [by rewrite lookup_insert_eq, Hg|by rewrite lookup_insert_ne].
Qed.

Lemma set_NextNodeID_step s n x :
  live_node s n -> runs (set_NextNodeID n x) s (λ _ s', attr_step n (with_next x) s s').
Proof.
  intros (_ & g & Hg & Hs & Hi & _). destruct (set_NG_NextNodeID_run (c_owner n) (c_index n) g s Hg Hs Hi x) as (g' & Hr & Hu).
  eapply runs_eq; [exact Hr|]. apply (attr_write s n g g'); [done..| |done].
  apply vd_kept_only; [apply Hu|]. intros j Hj. rewrite (proj2 Hu) by done. by case_decide.
Qed.

(** The data handle of a node in use; the chain of released nodes goes through
    the handles of the others. *)
Lemma used_only g g' i f : attrs_upd f i g g' -> in_use g i -> attrs_only g g'.
Proof.
  intros [Hh Ha] (ds0 & Hi & _ & Hni).
  assert (∀ j, j ∈ ds0 -> na_vd (attrs g' j) = na_vd (attrs g j)) as Hj.
  { intros j Hj. pose proof (ngi_range _ _ Hi) as Hr. rewrite Forall_forall in Hr. pose proof (ngi_free _ _ Hi). specialize (Hr j Hj).
    rewrite Ha by lia. rewrite decide_False; [done|]. by intros ->. }
  pose proof (vd_kept_inv g g' ds0 Hh Hj Hi) as Hi'. split; [done|]. intros ds. split; intros Hd.
  - by rewrite (ng_inv_unique _ _ _ Hd Hi').
  - by rewrite (ng_inv_unique _ _ _ Hd Hi).
Qed.
Lemma set_VDHandle_step s gs n x :
  live_node s n -> node_used s gs n -> runs (set_VDHandle n x) s (λ _ s', attr_step n (with_vd x) s s').
Proof.
  intros (_ & g & Hg & Hs & Hi & _) (_ & g2 & Hg2 & Hu). assert (g2 = g) as -> by congruence.
  destruct (set_NG_VDHandle_run (c_owner n) (c_index n) g s Hg Hs Hi x) as (g' & Hr & Hup).
  eapply runs_eq; [exact Hr|]. apply (attr_write s n g g'); [done..| |done]. by eapply used_only.
Qed.

(** *** The hash table *)

(** Only the table's contents change. *)
Definition table_step (t' : HASH_T) s s' : Prop :=
  astep s s' ∧ (∀ m, node_attr s' m = node_attr s m) ∧ hash s' = hash s ∧ get_HT (hash s) s' = Some t'.

Lemma get_HT_objs h t s : get_HT h s = Some t <-> objs s !! h = Some (OHash t).
Proof. unfold get_HT. destruct (objs s !! h) as [[]|]; naive_solver. Qed.

Lemma table_write s t t' :
  get_HT (hash s) s = Some t -> hh_size t' = hh_size t -> table_step t' s (put_obj (hash s) (OHash t') s).
Proof.
  intros Ht%get_HT_objs Hsz.
  assert (∀ h, get_NG h (put_obj (hash s) (OHash t') s) = get_NG h s) as Hg.
  { intros h. destruct (decide (hash s = h)) as [<-|]; [|by apply get_NG_put_ne].
    unfold get_NG. by rewrite objs_put_obj, lookup_insert_eq, Ht. }
  split_and!.
  - split; [by eapply (objs_rel_put node_obj_same)|]. intros m (g & Hgm & _). unfold lru_id, ng_cell. rewrite Hg, Hgm.
    osimpl. by split; destruct (cell_rd _ _ _ _).
  - intros m. unfold node_attr. by rewrite Hg.
  - done.
  - apply get_HT_objs. by rewrite objs_put_obj, lookup_insert_eq.
Qed.

(** *** Both

    Links of the nodes [X] and the table change; the table is [t'] then. *)
Definition hstep (X : list CNode) (t' : HASH_T) s s' : Prop :=
  astep s s' ∧ hash s' = hash s ∧ get_HT (hash s) s' = Some t' ∧
  ∀ m, live_node s m -> (m ∉ X -> next_of s' m = next_of s m) ∧ vd_of s' m = vd_of s m.

Lemma hstep_trans X Y t1 t2 s s1 s2 : hstep X t1 s s1 -> hstep Y t2 s1 s2 -> hstep (X ++ Y) t2 s s2.
Proof.
  intros (A1 & B1 & C1 & D1) (A2 & B2 & C2 & D2). split; [by etrans|]. split; [congruence|]. split; [congruence|].
  intros m Hm. destruct (D1 m Hm) as [E1 F1], (D2 m (astep_live _ _ _ A1 Hm)) as [E2 F2]. split; [|congruence].
  intros [? ?]%not_elem_of_app. rewrite E2, E1; done.
Qed.
Lemma hstep_weaken X Y t s s' : X ⊆ Y -> hstep X t s s' -> hstep Y t s s'.
Proof.
  intros Hs (A1 & B1 & C1 & D1). split; [done|]. split; [done|]. split; [done|]. intros m Hm.
  destruct (D1 m Hm). split; [set_solver|done].
Qed.
Lemma hstep_kept X t s s' m : hstep X t s s' -> m ∉ X -> node_kept s s' m.
Proof. intros (Ha & _ & _ & Hm) Hx Hl. by apply astep_kept; [|apply Hm|]. Qed.

Lemma hash_put_step s t f :
  get_HT (hash s) s = Some t -> hh_size (f t) = hh_size t -> runs (hash_put f) s (λ _ s', hstep [] (f t) s s').
Proof.
  intros Ht Hsz. destruct (table_write s t (f t) Ht Hsz) as (Ha & Hn & Hh & Ht'). eexists tt, _. split.
  - unfold hash_put. rewrite Ht. reflexivity.
  - split_and!; [done..|]. intros m _. unfold next_of, vd_of. by rewrite Hn.
Qed.

Definition bucket (t : HASH_T) (v : Z) : Z := default 0 (hh_buckets t !! v).
Lemma Hash2Node_run s t v : get_HT (hash s) s = Some t -> 0 <= v < hh_size t -> Hash2Node v s = Some (bucket t v, s).
Proof. intros Ht Hv. unfold Hash2Node. rewrite Ht. osimpl. unfold arr_rd. zifs. done. Qed.
Lemma set_Hash2Node_step s t v x :
  get_HT (hash s) s = Some t -> 0 <= v < hh_size t ->
  runs (set_Hash2Node v x) s (λ _ s', hstep [] (set_hh_buckets (<[v := x]> (hh_buckets t)) t) s s').
Proof.
  intros Ht Hv. destruct (table_write s t (set_hh_buckets (<[v := x]> (hh_buckets t)) t) Ht eq_refl) as (Ha & Hn & Hh & Ht').
  eexists tt, _. split.
  - unfold set_Hash2Node. rewrite Ht. osimpl. unfold arr_wr. zifs. reflexivity.
  - split_and!; [done..|]. intros m _. unfold next_of, vd_of. by rewrite Hn.
Qed.
Lemma set_next_step s t n x :
  get_HT (hash s) s = Some t -> live_node s n ->
  runs (set_NextNodeID n x) s (λ _ s', hstep [n] t s s' ∧ next_of s' n = Some x).
Proof.
  intros Ht Hl. destruct (live_attr s n Hl) as [a Ha].
  eapply runs_mono; [by apply set_NextNodeID_step|]. intros _ s' (H1' & H2' & H3' & H4').
  assert (hash s' = hash s) as Hh by by apply (objs_rel_frame _ _ _ (as_same _ _ H1')).
  split; [|unfold next_of; by rewrite H2', Ha]. split_and!; [done..|by rewrite H4'|].
  intros m Hm. unfold next_of, vd_of. destruct (decide (m = n)) as [->|Hne].
  - rewrite H2', Ha. split; [|done]. intros []. by left.
  - by rewrite H3'.
Qed.

(** ** All chains *)

Definition all_nodes (N : Z) (ch : Z -> list CNode) : list CNode := seqZ 0 N ≫= ch.
Definition empty_buckets (N : Z) (ch : Z -> list CNode) : nat := length (filter (λ v, ch v = []) (seqZ 0 N)).

(** The bucket [v] leads to the nodes [ch v]; no node is there twice; the
    counters are right. *)
Record hashed s (ch : Z -> list CNode) (t : HASH_T) : Prop := {
  hd_table : get_HT (hash s) s = Some t;
  hd_chain v : 0 <= v < hh_size t -> chain s (bucket t v) (ch v);
  hd_nodup : NoDup (all_nodes (hh_size t) ch);
  hd_free : hh_free t = u32 (Z.of_nat (empty_buckets (hh_size t) ch));
  hd_node : hh_node t = u32 (Z.of_nat (length (all_nodes (hh_size t) ch)))
}.

Lemma slots_split N v : 0 <= v < N -> ∃ a b, seqZ 0 N = a ++ v :: b ∧ v ∉ a ∧ v ∉ b.
Proof.
  intros Hv. assert (v ∈ seqZ 0 N) as (a & b & E)%list_elem_of_split by (apply elem_of_seqZ; lia).
  exists a, b. split; [done|]. pose proof (NoDup_seqZ 0 N) as Hn. rewrite E in Hn.
  apply NoDup_app in Hn as (_ & Hd & [Hb _]%NoDup_cons). split; [|done]. intros Hin. apply (Hd v Hin). by left.
Qed.
Lemma upd_list_same {X} k (l : list CNode) L (f : list CNode -> X) : f (upd_list k l L k) = f l.
Proof. unfold upd_list. by rewrite decide_True. Qed.
Lemma bind_upd v l ch (a : list Z) : v ∉ a -> a ≫= upd_list v l ch = a ≫= ch.
Proof.
  induction a as [|x a IH]; [done|]. intros [Hx Ha]%not_elem_of_cons. cbn [mbind list_bind]. f_equal; [|by apply IH].
  unfold upd_list. by rewrite decide_False.
Qed.
Lemma filter_upd v l ch (a : list Z) : v ∉ a ->
  filter (λ w, upd_list v l ch w = []) a = filter (λ w, ch w = []) a.
Proof.
  induction a as [|x a IH]; [done|]. intros [Hx Ha]%not_elem_of_cons. rewrite !filter_cons, (IH Ha).
  assert (upd_list v l ch x = ch x) as E by (unfold upd_list; by rewrite decide_False).
  repeat case_decide; congruence.
Qed.
Lemma all_nodes_split N v ch : 0 <= v < N -> ∃ x y, ∀ l,
  all_nodes N (upd_list v l ch) = x ++ l ++ y ∧ all_nodes N ch = x ++ ch v ++ y.
Proof.
  intros (a & b & E & Ha & Hb)%slots_split. exists (a ≫= ch), (b ≫= ch). intros l. unfold all_nodes. rewrite E, !bind_app.
  cbn [mbind list_bind]. rewrite bind_upd, bind_upd by done. unfold upd_list at 1. by rewrite decide_True.
Qed.
Lemma empty_buckets_upd N v ch l : 0 <= v < N ->
  (empty_buckets N (upd_list v l ch) + (if decide (ch v = []) then 1 else 0) =
   empty_buckets N ch + (if decide (l = []) then 1 else 0))%nat.
Proof.
  intros (a & b & E & Ha & Hb)%slots_split. unfold empty_buckets. rewrite E, !filter_app, !filter_cons, !filter_upd by done.
  assert (upd_list v l ch v = l) as -> by (unfold upd_list; by rewrite decide_True).
  rewrite !length_app. repeat case_decide; try congruence; simpl; lia.
Qed.
Lemma all_nodes_in N ch v m : 0 <= v < N -> m ∈ ch v -> m ∈ all_nodes N ch.
Proof. intros Hv Hm. apply list_elem_of_bind. exists v. split; [done|]. apply elem_of_seqZ. lia. Qed.
Lemma all_nodes_apart N ch v k m :
  NoDup (all_nodes N ch) -> 0 <= v < N -> 0 <= k < N -> m ∈ ch v -> m ∈ ch k -> v = k.
Proof.
  intros Hnd Hv Hk Hmv Hmk. destruct (decide (v = k)) as [|Hne]; [done|]. exfalso.
  destruct (slots_split N v Hv) as (a & b & E & _ & _). unfold all_nodes in Hnd. rewrite E, bind_app in Hnd. cbn [mbind list_bind] in Hnd.
  assert (k ∈ a ++ v :: b) as Hin by (rewrite <- E; apply elem_of_seqZ; lia).
  apply NoDup_app in Hnd as (_ & Hd & Hnd). apply NoDup_app in Hnd as (_ & Hd' & _).
  apply elem_of_app in Hin as [Hin|[->|Hin]%elem_of_cons]; [|done|].
  - apply (Hd m); [|apply elem_of_app; by left]. apply list_elem_of_bind. by exists k.
  - apply (Hd' m Hmv). apply list_elem_of_bind. by exists k.
Qed.
Lemma chain_nodup N ch v : NoDup (all_nodes N ch) -> 0 <= v < N -> NoDup (ch v).
Proof.
  intros Hnd Hv. destruct (all_nodes_split N v ch Hv) as (x & y & Hxy). destruct (Hxy []) as [_ E]. rewrite E in Hnd.
  by apply NoDup_app in Hnd as (_ & _ & (? & _)%NoDup_app).
Qed.
End steps.
