(* ===== verification/PoolHash.v ===== *)
(** * PoolHash: the operations on hash chains

    [Insert2Hash], [RemoveFromHash], [CacheFind] and [MoveToNewHash] of
    [src/cache/cache_pool.cc] against the lists of nodes of [PoolChain]. *)

From stdpp Require Import gmap.
From S2P Require Import Prelude State Ring BinMalloc Value Mallocator DataChunk NodeMem NodeGroup NodeIndex NgInfo NodeLinks NodeStore NodeAlloc NodeLru NodeSession PoolMem Hash Pool PoolChain PoolStep.

Section hash.
Context {A : Type} `{PoolMemory A} `{DestroySize A}.
Context (keySize : Z) (hashChanging targetNewHash : bool) (fuel : nat).
Implicit Types (s : cmem A) (n m : CNode) (l u : list CNode) (id : Z) (ch : Z -> list CNode) (t : HASH_T) (key : list Z).

(** ** Slots *)

Definition slot_of t (newhash : bool) key : option Z := (if newhash then NewHashSlot else HashSlot) t key.
Definition shape t t' : Prop := hh_size t' = hh_size t ∧ hh_fixedsize t' = hh_fixedsize t.
Lemma shape_trans t1 t2 t3 : shape t1 t2 -> shape t2 t3 -> shape t1 t3.
Proof. intros [E1 E2] [E3 E4]. split; congruence. Qed.

Lemma slot_shape t t' nh key : shape t t' -> slot_of t' nh key = slot_of t nh key.
Proof. intros [E1 E2]. unfold slot_of, NewHashSlot, HashSlot, hash_slot. destruct nh; by rewrite E1, E2. Qed.
Lemma slot_range t nh key v : 0 < hh_size t -> slot_of t nh key = Some v -> 0 <= v < hh_size t.
Proof.
  intros Hs Hv. unfold slot_of, NewHashSlot, HashSlot, hash_slot in Hv.
  assert (∀ x, umod x (hh_size t) = Some v -> 0 <= v < hh_size t) as Hm.
  { intros x. unfold umod. zif. intros [= <-]. by apply Z.mod_pos_bound. }
  destruct nh; apply bind_Some in Hv as ([sz k] & _ & Hv); apply bind_Some in Hv as (x & _ & Hv); by eapply Hm.
Qed.
Lemma hash_slot_of_run s t nh key v :
  get_HT (hash s) s = Some t -> slot_of t nh key = Some v -> hash_slot_of nh key s = Some (v, s).
Proof. intros Ht Hv. unfold hash_slot_of. rewrite Ht. osimpl. unfold slot_of in Hv. by rewrite Hv. Qed.

Lemma hashed_ext s ch ch' t : (∀ v, ch v = ch' v) -> hashed s ch t -> hashed s ch' t.
Proof.
  intros E [H1' H2' H3' H4' H5'].
  assert (all_nodes (hh_size t) ch' = all_nodes (hh_size t) ch) as Ea.
  { unfold all_nodes. induction (seqZ 0 (hh_size t)) as [|x xs IH]; [done|]. cbn [mbind list_bind]. by rewrite E, IH. }
  assert (empty_buckets (hh_size t) ch' = empty_buckets (hh_size t) ch) as Ee.
  { unfold empty_buckets. f_equal. apply list_filter_iff. intros x. by rewrite E. }
  split; rewrite ?Ea, ?Ee; try done. intros w Hw. rewrite <- E. by apply H2'.
Qed.

(** ** [Insert2Hash] *)

Lemma u32_step x (c : Z) (k k' : nat) : x = u32 (Z.of_nat k) -> Z.of_nat k' = Z.of_nat k + c -> u32 (x + c) = u32 (Z.of_nat k').
Proof. intros -> ->. unfold uwrap. by rewrite Zplus_mod_idemp_l. Qed.

(** The table after one bucket and the counters have been written *)
Definition table_with t (v x free node : Z) : HASH_T :=
  MkHash (hh_size t) free node (hh_fixedsize t) (<[v := x]> (hh_buckets t)).
Definition retabled t (v x free node : Z) t' : Prop :=
  shape t t' ∧ hh_free t' = free ∧ hh_node t' = node ∧ bucket t' v = x ∧ ∀ w, w ≠ v -> bucket t' w = bucket t w.

Lemma table_with_retabled t v x free node : retabled t v x free node (table_with t v x free node).
Proof.
  split_and!; [done..| |].
  - unfold bucket. simpl. by rewrite lookup_insert_eq.
  - intros w Hw. unfold bucket. simpl. by rewrite lookup_insert_ne.
Qed.

Lemma hashed_upd s s' t t' ch v l x free node (X : list CNode) :
  hashed s ch t -> 0 <= v < hh_size t -> retabled t v x free node t' -> hstep X t' s s' ->
  (∀ w n, 0 <= w < hh_size t -> w ≠ v -> n ∈ ch w -> n ∉ X) -> chain s' x l ->
  NoDup (all_nodes (hh_size t) (upd_list v l ch)) ->
  free = u32 (Z.of_nat (empty_buckets (hh_size t) (upd_list v l ch))) ->
  node = u32 (Z.of_nat (length (all_nodes (hh_size t) (upd_list v l ch)))) ->
  hashed s' (upd_list v l ch) t'.
Proof.
  intros [E1 E2 E3 E4 E5] Hv ([Es _] & R2 & R3 & R4 & R5) Hst HX Hc Hnd -> ->. pose proof Hst as (Ha & Hh & Ht & _).
  split; rewrite ?Es; try done.
  - by rewrite Hh.
  - intros w Hw. unfold upd_list. case_decide as Hwv.
    + subst w. by rewrite R4.
    + rewrite R5 by done. eapply chain_kept; [by apply E2|]. intros n Hn. eapply hstep_kept; [exact Hst|by eapply HX].
Qed.

Lemma Insert2Hash_run s ch t n key v :
  hashed s ch t -> live_node s n -> n ∉ all_nodes (hh_size t) ch -> 0 < hh_size t ->
  slot_of t targetNewHash key = Some v ->
  runs (Insert2Hash targetNewHash key n) s (λ r s', r = 0 ∧ ∃ t', shape t t' ∧ hstep [n] t' s s' ∧
    hashed s' (upd_list v (n :: ch v) ch) t').
Proof.
  intros Hd Hl Hn Hsz Hv. pose proof (slot_range _ _ _ _ Hsz Hv) as Hr. pose proof Hd as [E1 E2 E3 E4 E5].
  pose proof (chain_empty _ _ _ (E2 v Hr)) as Hemp. destruct (live_id s n Hl) as (id & Hid & _).
  unfold Insert2Hash. eapply runs_step; [by eapply hash_slot_of_run|]. eapply runs_step; [by apply Hash2Node_run|]. rewrite Hemp.
  set (c := if bool_decide (ch v = []) then -1 else 0).
  eapply runs_bind with (Q := λ _ s1, hstep [] (set_hh_free (u32 (hh_free t + c)) t) s s1).
  { unfold c. destruct (bool_decide (ch v = [])); [by apply (hash_put_step s t (λ h, set_hh_free (u32 (hh_free h + -1)) h))|].
    apply runs_ret. rewrite Z.add_0_r. assert (set_hh_free (u32 (hh_free t)) t = t) as ->.
    { rewrite E4, uwrap_idem, <- E4. by destruct t. }
    split; [reflexivity|done]. }
  intros [] s1 S1. cbv beta in S1. set (t1 := set_hh_free _ t) in *. pose proof S1 as (A1 & B1 & C1 & _).
  eapply runs_bind; [by apply (hash_put_step s1 t1 (λ h, set_hh_node (u32 (hh_node h + 1)) h)); rewrite ?B1|].
  intros [] s2 S2. cbv beta in S2. set (t2 := set_hh_node _ t1) in *. pose proof S2 as (A2 & B2 & C2 & _). rewrite <- B2 in C2.
  eapply runs_step; [by apply Hash2Node_run|]. eapply runs_bind; [apply set_next_step; [done|by do 2 (eapply astep_live; [done|])]|].
  intros [] s3 [S3 N3]. pose proof S3 as (A3 & B3 & C3 & _). rewrite <- B3 in C3.
  assert (astep s s3) as A13 by (etrans; [exact A1|]; by etrans).
  eapply runs_step; [apply NodeID_eq; by rewrite (node_same_id _ _ _ (as_same _ _ A13))|].
  eapply runs_bind; [by apply (set_Hash2Node_step s3 t2 v id)|]. intros [] s4 S4. cbv beta in S4. apply runs_ret. split; [done|].
  assert (hstep [n] (table_with t v id (u32 (hh_free t + c)) (u32 (hh_node t + 1))) s s4) as S.
  { eapply hstep_weaken; [|eapply hstep_trans; [exact S1|eapply hstep_trans; [exact S2|eapply hstep_trans; [exact S3|exact S4]]]]. done. }
  exists (table_with t v id (u32 (hh_free t + c)) (u32 (hh_node t + 1))). split; [done|]. split; [exact S|].
  destruct (all_nodes_split (hh_size t) v ch Hr) as (x & y & Hxy). destruct (Hxy (n :: ch v)) as [N1 N2].
  pose proof (empty_buckets_upd (hh_size t) v ch (n :: ch v) Hr) as He. rewrite (decide_False (P := n :: ch v = [])) in He by done.
  assert (Permutation (all_nodes (hh_size t) (upd_list v (n :: ch v) ch)) (n :: all_nodes (hh_size t) ch)) as Hp.
  { rewrite N1, N2. solve_Permutation. }
  eapply hashed_upd; [exact Hd|exact Hr|apply table_with_retabled|exact S| | | | |].
  - intros w m Hw _ Hm ->%list_elem_of_singleton. apply Hn. apply list_elem_of_bind. exists w.
    split; [done|]. apply elem_of_seqZ. lia.
  - destruct S as (A4 & _ & _ & K4). split; [by eapply astep_live|]. split; [by rewrite (node_same_id _ _ _ (as_same _ _ A4))|].
    exists (bucket t v). split.
    + destruct S4 as (_ & _ & _ & K). destruct (K n) as [K1 _]; [by eapply astep_live|]. rewrite K1 by apply not_elem_of_nil. exact N3.
    + eapply chain_kept; [by apply E2|]. intros m Hm. apply astep_kept; [done|]. apply K4; [by eapply chain_live; [apply E2|]|].
      intros ->%list_elem_of_singleton. apply Hn, list_elem_of_bind. exists v. split; [done|]. apply elem_of_seqZ. lia.
  - rewrite Hp. by constructor.
  - eapply u32_step; [exact E4|]. unfold c. destruct (decide (ch v = [])); [rewrite bool_decide_true by done|rewrite bool_decide_false by done]; lia.
  - eapply u32_step; [exact E5|]. rewrite Hp. simpl. lia.
Qed.

(** ** [RemoveFromHash] *)

Lemma hash_walk_run k s id l prev n :
  chain s id l -> live_node s n -> (length l <= k)%nat ->
  ∃ p, hash_walk k prev (first_node l) n s = Some ((p, if decide (n ∈ l) then n else CNode_NULL), s) ∧
    ∀ u w, l = u ++ n :: w -> n ∉ u -> p = default prev (last u).
Proof.
  intros Hc Hn. revert k id prev Hc. induction l as [|m l IH]; intros k id prev Hc Hk.
  - exists prev. rewrite decide_False by apply not_elem_of_nil. split; [by destruct k|]. by intros [|??] ?.
  - pose proof Hc as (Hm & Hid & nx & Hnx & Hc'). destruct (live_id s n Hn) as (idn & Hidn & _).
    assert (is_null (first_node (m :: l)) = false) as Hnull by apply Hm. cbn [length] in Hk. destruct k as [|k]; [lia|].
    cbn [hash_walk]. rewrite Hnull. change (first_node (m :: l)) with m. mstep (NodeID_eq s m id Hid). mstep (NodeID_eq s n idn Hidn).
    destruct (Z.eqb_spec id idn) as [->|Hne].
    + assert (m = n) as -> by by eapply live_inj. exists prev. rewrite decide_True by by left. split; [done|].
      intros [|x u] w E Hu; [done|]. injection E as <- _. destruct Hu. by left.
    + assert (m ≠ n) as Hmn by congruence. mstep (NextNodeID_eq s m nx Hm Hnx). mstep (chain_first s nx l Hc').
      destruct (IH k nx m Hc') as (p & Hw & Hp); [lia|]. exists p. split.
      * rewrite Hw. do 2 f_equal. f_equal. destruct (decide (n ∈ l)); [by rewrite decide_True by by right|].
        rewrite decide_False; [done|]. by intros [?|?]%elem_of_cons.
      * intros [|x u] w E Hu; [by injection E as -> _|]. injection E as <- E. apply not_elem_of_cons in Hu as [_ Hu].
        rewrite (Hp u w E Hu). destruct u as [|y u]; [done|].
        change (last (m :: y :: u)) with (last (y :: u)). destruct (last (y :: u)) eqn:El; [done|]. by apply last_None in El.
Qed.

Definition removed s t ch (v : Z) n s' : Prop :=
  ∃ u w, ch v = u ++ n :: w ∧ ∃ t', shape t t' ∧ hstep (ch v) t' s s' ∧ hashed s' (upd_list v (u ++ w) ch) t'.

(** The counters after a node is gone, and the bucket perhaps empty *)
Lemma removed_end s s' t t' ch v n u w x free :
  hashed s ch t -> 0 <= v < hh_size t -> ch v = u ++ n :: w ->
  retabled t v x free (u32 (hh_node t + -1)) t' -> hstep (ch v) t' s s' -> chain s' x (u ++ w) ->
  free = u32 (hh_free t + if decide (u ++ w = []) then 1 else 0) -> removed s t ch v n s'.
Proof.
  intros Hd Hv E Hrt Hst Hc ->. pose proof Hd as [E1 E2 E3 E4 E5]. exists u, w. split; [done|].
  exists t'. split; [apply Hrt|]. split; [exact Hst|].
  destruct (all_nodes_split (hh_size t) v ch Hv) as (x1 & y1 & Hxy). destruct (Hxy (u ++ w)) as [N1 N2].
  assert (Permutation (all_nodes (hh_size t) ch) (n :: all_nodes (hh_size t) (upd_list v (u ++ w) ch))) as Hp.
  { rewrite N1, N2, E. solve_Permutation. }
  pose proof (empty_buckets_upd (hh_size t) v ch (u ++ w) Hv) as He.
  rewrite (decide_False (P := ch v = [])) in He by (rewrite E; by destruct u).
  eapply hashed_upd; [exact Hd|exact Hv|exact Hrt|exact Hst| |exact Hc| | |].
  - intros k m Hk Hkv Hm Hmv. apply Hkv. by eapply all_nodes_apart.
  - rewrite Hp in E3. by apply NoDup_cons in E3 as [_ ?].
  - eapply u32_step; [exact E4|]. destruct (decide (u ++ w = [])); lia.
  - eapply u32_step; [exact E5|]. rewrite Hp. simpl. lia.
Qed.

Lemma RemoveFromHashBase_run s ch t n key nh v :
  hashed s ch t -> live_node s n -> 0 < hh_size t -> slot_of t nh key = Some v -> (length (ch v) <= fuel)%nat ->
  runs (RemoveFromHashBase fuel key n nh) s (λ _ s', if decide (n ∈ ch v) then removed s t ch v n s' else s' = s).
Proof.
  intros Hd Hn Hsz Hv Hf. pose proof (slot_range _ _ _ _ Hsz Hv) as Hr. pose proof Hd as [E1 E2 E3 E4 E5].
  pose proof (E2 v Hr) as Hc. pose proof (chain_nodup _ _ _ E3 Hr) as Hnd. destruct (live_id s n Hn) as (idn & Hidn & _).
  eapply runs_mono with (Q := λ (_ : Z) s1, ((n ∈ ch v ∧ removed s t ch v n s1) ∨ (s1 = s ∧ n ∉ ch v))%type).
  2: { intros _ s' [[? ?]|[-> ?]]; [by rewrite decide_True|by rewrite decide_False]. }
  unfold RemoveFromHashBase. eapply runs_step; [by eapply hash_slot_of_run|]. eapply runs_step; [by apply Hash2Node_run|].
  rewrite (chain_empty _ _ _ Hc). destruct (ch v) as [|m l] eqn:El.
  { apply runs_ret. right. split; [done|apply not_elem_of_nil]. }
  cbn [length] in Hf.
  change (bool_decide (m :: l = [])) with false. cbv iota. eapply runs_step; [by apply NodeID_eq|].
  destruct Hc as (Hm & Hid & nx & Hnx & Hc). apply NoDup_cons in Hnd as [Hml Hnd]. destruct (Z.eqb_spec (bucket t v) idn) as [Heq|Hne].
  - assert (m = n) as -> by (eapply live_inj; try done; congruence).
    eapply runs_step; [by apply NextNodeID_eq|]. eapply runs_bind; [by apply (set_Hash2Node_step s t v nx)|].
    intros [] s1 S1. cbv beta in S1. pose proof S1 as (A1 & B1 & C1 & _). rewrite <- B1 in C1.
    eapply runs_step; [by apply Hash2Node_run|]. 
    assert (bucket (set_hh_buckets (<[v:=nx]> (hh_buckets t)) t) v = nx) as -> by (unfold bucket; simpl; by rewrite lookup_insert_eq).
    rewrite (chain_empty _ _ _ Hc). set (t1 := set_hh_buckets _ t) in *. set (c := if bool_decide (l = []) then 1 else 0).
    eapply runs_bind with (Q := λ _ s2, hstep [] (set_hh_free (u32 (hh_free t + c)) t1) s1 s2).
    { unfold c. destruct (bool_decide (l = [])); [by apply (hash_put_step s1 t1 (λ h, set_hh_free (u32 (hh_free h + 1)) h))|].
      apply runs_ret. rewrite Z.add_0_r. assert (set_hh_free (u32 (hh_free t)) t1 = t1) as ->.
      { rewrite E4, uwrap_idem, <- E4. by destruct t. }
      split; [reflexivity|done]. }
    intros [] s2 S2. cbv beta in S2. pose proof S2 as (A2 & B2 & C2 & _). rewrite <- B2 in C2.
    eapply runs_bind; [by apply (hash_put_step s2 (set_hh_free (u32 (hh_free t + c)) t1) (λ h, set_hh_node (u32 (hh_node h + -1)) h))|].
    intros [] s3 S3. cbv beta in S3. apply runs_ret. left. split; [by left|].
    assert (hstep [] (table_with t v nx (u32 (hh_free t + c)) (u32 (hh_node t + -1))) s s3) as S.
    { eapply (hstep_trans [] []); [exact S1|]. eapply (hstep_trans [] []); [exact S2|exact S3]. }
    eapply removed_end with (u := []) (w := l); [exact Hd|exact Hr|exact El|apply (table_with_retabled t v nx)| | |].
    + rewrite El. eapply hstep_weaken; [|exact S]. by intros ? ?%elem_of_nil.
    + eapply chain_kept; [exact Hc|]. intros k _. eapply hstep_kept; [exact S|]. apply not_elem_of_nil.
    + unfold c. simpl. destruct (decide (l = [])); [by rewrite bool_decide_true|by rewrite bool_decide_false].
  - assert (m ≠ n) as Hmn by congruence.
    eapply runs_step; [apply (chain_first s _ (m :: l)); split_and!; [done..|by exists nx]|]. change (first_node (m :: l)) with m.
    eapply runs_step; [by apply NextNodeID_eq|]. eapply runs_step; [by eapply chain_first|].
    destruct (hash_walk_run fuel s nx l m n Hc Hn ltac:(lia)) as (p & Hw & Hp). eapply runs_step; [exact Hw|]. cbn [fst snd].
    destruct (decide (n ∈ l)) as [Hin|Hnin].
    + assert (is_null n = false) as -> by apply Hn. cbn [negb].
      apply list_elem_of_split in Hin as (u & w & ->). assert (n ∉ u) as Hu.
      { apply NoDup_app in Hnd as (_ & Hd' & _). intros Hin. apply (Hd' n Hin). by left. }
      specialize (Hp u w eq_refl Hu). destruct (exists_last (l := m :: u)) as (u0 & p' & Eu); [done|].
      assert (p' = p) as ->.
      { rewrite Hp. assert (last (m :: u) = Some p') as Hl by (rewrite Eu; apply last_snoc). destruct u as [|y u]; [by injection Hl as ->|].
        change (last (m :: y :: u)) with (last (y :: u)) in Hl. by rewrite Hl. }
      assert (ch v = u0 ++ [p; n] ++ w) as Ech.
      { rewrite El. change (m :: u ++ n :: w) with ((m :: u) ++ n :: w). rewrite Eu, <- app_assoc. done. }
      assert (is_Some (next_of s n)) as [nn Hnn].
      { unfold next_of. destruct (live_attr s n Hn) as [a ->]. by eexists. }
      assert (live_node s p) as Hpl by (eapply chain_live; [by apply E2|]; rewrite Ech; set_solver).
      assert (NoDup (u0 ++ [p; n] ++ w)) as Hnd2 by (rewrite <- Ech; by eapply chain_nodup).
      eapply runs_step; [by apply NextNodeID_eq|]. eapply runs_bind; [by apply set_next_step|].
      intros [] s1 [S1 N1]. pose proof S1 as (A1 & B1 & C1 & _). rewrite <- B1 in C1.
      eapply runs_bind; [by apply (hash_put_step s1 t (λ h, set_hh_node (u32 (hh_node h + -1)) h))|].
      intros [] s2 S2. cbv beta in S2. apply runs_ret. left. split; [right; set_solver|].
      pose proof (hstep_trans _ _ _ _ _ _ _ S1 S2) as S. rewrite app_nil_r in S. pose proof S as (A3 & _).
      eapply removed_end with (t' := set_hh_node (u32 (hh_node t + -1)) t) (u := u0 ++ [p]) (w := w) (x := bucket t v) (free := hh_free t); [exact Hd|exact Hr| | | | |].
      * by rewrite Ech, <- app_assoc.
      * split; [by split|]. by split_and!.
      * eapply hstep_weaken; [|exact S]. rewrite Ech. set_solver.
      * rewrite <- app_assoc. eapply (chain_cut s); [rewrite <- Ech; by apply E2| |exact Hnn| |].
        -- intros k Hk. eapply hstep_kept; [exact S|]. intros ->%list_elem_of_singleton. 
           apply NoDup_app in Hnd2 as (_ & D1 & [D2 _]%NoDup_cons). apply elem_of_app in Hk as [Hk|Hk]; [apply (D1 p Hk); by left|].
           apply D2. by right.
        -- split; [by eapply astep_live|apply (node_same_id _ _ _ (as_same _ _ A3))].
        -- destruct S2 as (_ & _ & _ & K). destruct (K p) as [K1 _]; [by eapply astep_live|]. rewrite K1 by apply not_elem_of_nil. exact N1.
      * rewrite decide_False by (by destruct u0). by rewrite Z.add_0_r, E4, uwrap_idem.
    + cbn [negb is_null CNode_NULL]. apply runs_ret. right. split; [done|by intros [?|?]%elem_of_cons].
Qed.
End hash.
