(* ===== verification/PoolFind.v ===== *)
(** * PoolFind: looking a key up in the hash chains

    [KeyCmp], [CacheFind], [RemoveFromHash] and [MoveToNewHash] of
    [src/cache/cache_pool.cc] when the nodes of the chains have raw chunks. *)

From stdpp Require Import gmap.
From S2P Require Import Prelude State Ring BinMalloc Value Mallocator RawData RawBuf RawRow RawRep DataChunk NodeMem NodeGroup NodeIndex NgInfo NodeLinks NodeStore NodeAlloc NodeLru NodeSession PoolMem Hash Pool PoolChain PoolStep PoolHash.

Section find.
Context {A : Type} `{PoolMemory A} `{DestroySize A}.
Context (keySize : Z) (hashChanging targetNewHash : bool) (notify : option (list Z -> CNode -> CM A unit)) (fuel : nat).
Implicit Types (s : cmem A) (n m : CNode) (l u : list CNode) (id : Z) (ch : Z -> list CNode) (t : HASH_T) (key k : list Z).

(** ** Keys *)

(** A packed key: of the table's size, or with its own size in front *)
Definition wf_key k : Prop :=
  bytes k ∧ if keySize =? 0 then ∃ c r, k = c :: r ∧ Zlen r = c else Zlen k = keySize ∧ keySize < 2 ^ 32.

Lemma wf_key_there t k : hh_fixedsize t = keySize -> wf_key k -> key_there t k.
Proof.
  intros Ht [Hb Hk]. unfold key_there, key_bytes. rewrite Ht. destruct (Z.eqb_spec keySize 0) as [->|Hne].
  - destruct Hk as (c & r & -> & Hc). exists c, r. apply Forall_cons in Hb as [Hb _]. unfold is_byte in Hb. split_and!; [done|lia..].
  - destruct Hk as [Hk Hs]. exists keySize, k.
    split; [done|]. lia.
Qed.

(** The slot depends on the key alone. *)
Lemma slot_total t nh k :
  hh_fixedsize t = keySize -> 0 < hh_size t -> wf_key k ->
  ∃ v, 0 <= v < hh_size t ∧ ∀ j, slot_of t nh (k ++ j) = Some v.
Proof.
  intros Ht Hs Hk. destruct nh; apply hash_slot_total; try done; try by apply wf_key_there.
  - intros x size. apply new_hash_reads.
  - intros x size Hx _. apply elf_hash_reads. lia.
Qed.

Lemma memcmp_run (a : A) h x w z us key (n : nat) :
  mal_holds a ((h, x ++ w ++ z) :: us) -> (n <= length key)%nat -> (n <= length w)%nat ->
  ∃ c, memcmp n key (h + Zlen x) a = Some (c, a) ∧ (c = 0 <-> take n key = take n w).
Proof.
  intros Hh. revert x w key Hh. induction n as [|n IH]; intros x w key Hh Hk Hm; [by exists 0|].
  destruct key as [|b key]; [simpl in Hk; lia|]. destruct w as [|y w]; [simpl in Hm; lia|]. simpl in Hk, Hm.
  cbn [memcmp]. mstep (eq_refl : lift (rd (b :: key) 0) a = Some (b, a)).
  pose proof (mal_load_law a h (x ++ (y :: w) ++ z) us (Zlen x) y Hh) as Hl.
  rewrite rd_nat, lookup_app_r, Nat.sub_diag in Hl by done. specialize (Hl eq_refl). mstep Hl.
  destruct (Z.eqb_spec b y) as [->|Hne].
  - destruct (IH (x ++ [y]) w key) as (c & Hc & Hi); [by rewrite <- app_assoc|lia|lia|].
    exists c. cbn [drop take]. replace (h + Zlen x + 1) with (h + Zlen (x ++ [y])) by (rewrite length_app; simpl; lia).
    split; [exact Hc|]. rewrite Hi. split; [by intros ->|by intros [= ?]].
  - exists (b - y). split; [done|]. cbn [take]. split; [lia|congruence].
Qed.

Lemma KeyCmp_run s k j k' h us sz cnt meta z :
  wf_key k -> wf_key k' -> length meta = 7%nat -> mal_holds (alloc s) ((h, head_bytes sz cnt meta k' ++ z) :: us) ->
  ∃ c, KeyCmp keySize (k ++ j) (h + 16) s = Some (c, s) ∧ (c = 0 <-> k = k').
Proof.
  intros [_ Hk] [_ Hk'] Hm Hh. unfold KeyCmp.
  assert (∃ x, length x = 16%nat ∧ ∀ b1 b2, k' ++ z = b1 ++ b2 -> mal_holds (alloc s) ((h, x ++ b1 ++ b2) :: us)) as (x & Hx & Hh').
  { exists ([DATA_TYPE_RAW] ++ Value.le_bytes 4 sz ++ Value.le_bytes 4 cnt ++ meta). split; [by rewrite !length_app, Hm|]. intros b1 b2 <-.
    revert Hh. unfold head_bytes. by rewrite <- !app_assoc. }
  assert (∀ n : nat, n = length k -> (length k = length k' ∨ (n <= length k')%nat ∧ k ≠ k' ∧ take n k ≠ take n k') ->
    ∃ c, on_mem (memcmp n (k ++ j) (h + 16)) s = Some (c, s) ∧ (c = 0 <-> k = k')) as Hc.
  { intros n -> Hl. destruct (memcmp_run (alloc s) h x k' z us (k ++ j) (length k)) as (c & Hc & Hi); [by apply Hh'|rewrite length_app; lia|lia|].
    rewrite Hx in Hc. change (Z.of_nat 16) with 16 in Hc. exists c. split; [unfold on_mem; rewrite Hc; by destruct s|].
    rewrite Hi, take_app_length. destruct Hl as [Hl|(_ & Hl & Hl')]; [by rewrite Hl, firstn_all|].
    rewrite firstn_all in Hl'. naive_solver. }
  destruct (Z.eqb_spec keySize 0) as [->|Hne].
  - destruct Hk as (c & r & -> & Hr), Hk' as (c' & r' & -> & Hr').
    cbv iota.
    assert (lift (n ← rd ((c :: r) ++ j) 0; Some (n + 1)) s = Some (c + 1, s)) as Hlen by reflexivity. mstep Hlen.
    destruct (decide (c = c')) as [->|Hcc].
    + apply Hc; [simpl; lia|left; simpl; lia].
    + destruct (Z.to_nat (c + 1)) as [|n'] eqn:En; [lia|]. unfold on_mem. cbn [memcmp].
      assert (lift (rd ((c :: r) ++ j) 0) (alloc s) = Some (c, alloc s)) as Hrd by reflexivity. mstep Hrd.
      pose proof (mal_load_law (alloc s) h _ us 16 c' (Hh' (c' :: r') z eq_refl)) as Hl.
      change 16 with (Z.of_nat 16) in Hl. rewrite rd_nat, lookup_app_r, Hx in Hl by lia. specialize (Hl eq_refl). mstep Hl.
      assert ((c =? c') = false) as -> by by apply Z.eqb_neq. exists (c - c'). split; [by destruct s|]. split; [lia|congruence].
  - destruct Hk as [Hk _], Hk' as [Hk' _]. cbv iota. mstep (eq_refl : lift (Some keySize) s = Some (keySize, s)).
    apply Hc; [lia|left; lia].
Qed.

(** ** Finding *)

(** The node has a raw chunk with this key. *)
Definition has_key s n k : Prop :=
  ∃ h bs (us : list block) cnt, vd_of s n = Some h ∧ mal_holds (alloc s) ((h, bs) :: us) ∧ raw_chunk k cnt bs.

Definition first_key (kf : CNode -> list Z) k l : CNode := default CNode_NULL (head (filter (λ n, kf n = k) l)).

Lemma find_loop_run i s id l kf k j :
  chain s id l -> (∀ n, n ∈ l -> wf_key (kf n) ∧ has_key s n (kf n)) -> wf_key k -> (length l <= i)%nat ->
  find_loop keySize hashChanging targetNewHash notify fuel i (k ++ j) (first_node l) s = Some (first_key kf k l, s).
Proof.
  intros Hc Hl Hk. revert id i Hc Hl. induction l as [|n l IH]; intros id i Hc Hl Hi.
  - by destruct i.
  - destruct Hc as (Hn & _ & nx & Hnx & Hc). destruct (Hl n) as [Hkn (h & bs & us & cnt & Hvd & Hh & sz & meta & z & Hm & ->)]; [by left|].
    simpl in Hi. destruct i as [|i]; [lia|]. cbn [find_loop]. change (first_node (n :: l)) with n.
    assert (is_null n = false) as -> by apply Hn. mstep (VDHandle_eq s n h Hn Hvd).
    pose proof (mal_block _ _ _ _ Hh) as (Hpos & _ & _). assert ((h =? INVALID_HANDLE) = false) as -> by (apply Z.eqb_neq; unfold INVALID_HANDLE; lia).
    assert (on_mem (chunk_Key h) s = Some (h + 16, s)) as Hck.
    { unfold on_mem. rewrite (chunk_Key_run (alloc s) us h sz cnt meta (kf n) z Hm Hh). by destruct s. }
    mstep Hck. assert ((h + 16 =? 0) = false) as -> by (apply Z.eqb_neq; lia).
    destruct (KeyCmp_run s k j (kf n) h us sz cnt meta z Hk Hkn Hm Hh) as (c & Hcmp & Hz). mstep Hcmp.
    unfold first_key. rewrite filter_cons. destruct (Z.eqb_spec c 0) as [->|Hne].
    + rewrite decide_True by (symmetry; by apply Hz). done.
    + rewrite decide_False by (intros E; apply Hne, Hz; done).
      mstep (NextNodeID_eq s n nx Hn Hnx). mstep (chain_first s nx l Hc). apply (IH nx); [done| |lia]. intros m Hm'. apply Hl. by right.
Qed.

Lemma CacheFind_run s ch t kf k j nh v :
  hashed s ch t -> 0 <= v < hh_size t -> slot_of t nh (k ++ j) = Some v -> wf_key k ->
  (∀ n, n ∈ ch v -> wf_key (kf n) ∧ has_key s n (kf n)) -> (length (ch v) <= fuel)%nat ->
  CacheFind keySize hashChanging targetNewHash notify fuel (k ++ j) nh s = Some (first_key kf k (ch v), s).
Proof.
  intros [E1 E2 _ _ _] Hv Hs Hk Hch Hf. unfold CacheFind. mstep (hash_slot_of_run s t nh (k ++ j) v E1 Hs).
  mstep (Hash2Node_run s t v E1 Hv). rewrite (chain_empty _ _ _ (E2 v Hv)). destruct (ch v) as [|n l] eqn:E; [done|].
  rewrite bool_decide_false by done. mstep (chain_first s _ _ (E2 v Hv)). rewrite E. eapply find_loop_run; try done. rewrite <- E. by apply E2.
Qed.

(** ** Removing *)

(** The slots where the node of a key may be *)
Definition home t key (v : Z) : Prop := ∃ nh, (hashChanging = true ∨ nh = targetNewHash) ∧ slot_of t nh key = Some v.

(** Both chains in which a key may be are within reach of the fuel. *)
Definition short_chains t ch : Prop := ∀ v, 0 <= v < hh_size t -> (length (ch v) <= fuel)%nat.

Lemma RemoveFromHash_run s ch t n key v :
  hashed s ch t -> live_node s n -> 0 < hh_size t -> 0 <= v < hh_size t -> n ∈ ch v -> home t key v ->
  (∀ nh, is_Some (slot_of t nh key)) -> short_chains t ch ->
  runs (RemoveFromHash hashChanging targetNewHash fuel key n) s (λ r s', r = 0 ∧ removed s t ch v n s').
Proof.
  intros Hd Hn Hsz Hv Hin (nh & Hnh & Hs) Htot Hf. unfold RemoveFromHash.
  pose proof Hd as [E1 E2 E3 E4 E5]. eapply runs_bind with (Q := λ _ s1, removed s t ch v n s1); [|by intros r s1 Hr; apply runs_ret].
  assert (∀ b w, slot_of t b key = Some w -> n ∈ ch w -> w = v) as Hap.
  { intros b w Hw Hnw. eapply all_nodes_apart; [exact E3|by eapply slot_range|exact Hv|done..]. }
  destruct hashChanging.
  - destruct (Htot true) as [w1 W1], (Htot false) as [w2 W2].
    pose proof (slot_range _ _ _ _ Hsz W1) as R1. pose proof (slot_range _ _ _ _ Hsz W2) as R2.
    eapply runs_bind; [eapply (RemoveFromHashBase_run fuel s ch t n key true w1); [done..|by apply Hf]|].
    intros r1 s1 S1. cbv beta in S1. destruct (decide (n ∈ ch w1)) as [Hi1|Hi1].
    + assert (w1 = v) as -> by by eapply Hap. pose proof S1 as (u & w & Ech & t' & [Hsh1 Hsh2] & Hst & Hd').
      pose proof (chain_nodup _ _ _ E3 Hv) as Hnd. rewrite Ech in Hnd.
      assert (n ∉ upd_list v (u ++ w) ch w2) as Hno.
      { unfold upd_list. case_decide as Hw; [|intros Hi2; apply Hw; by eapply Hap].
        apply NoDup_app in Hnd as (_ & D1 & [D2 _]%NoDup_cons). intros [Hi|Hi]%elem_of_app; [apply (D1 n Hi); by left|done]. }
      eapply runs_mono; [eapply (RemoveFromHashBase_run fuel s1 _ t' n key false w2 Hd')|].
      * destruct Hst as [Ha _]. by eapply astep_live.
      * by rewrite Hsh1.
      * by rewrite (slot_shape t t').
      * pose proof (Hf w2 R2). unfold upd_list. case_decide as Hw; [|done]. subst w2. rewrite Ech, !length_app in *. simpl in *. lia.
      * intros r s2. cbv beta. rewrite decide_False by done. by intros ->.
    + rewrite S1. clear s1 S1. assert (w2 = v) as ->.
      { destruct nh; [rewrite Hs in W1; injection W1 as ->; done|congruence]. }
      eapply runs_mono; [eapply (RemoveFromHashBase_run fuel s ch t n key false v); [done..|by apply Hf]|].
      intros r s2. cbv beta. by rewrite decide_True.
  - destruct Hnh as [Hnh| ->]; [discriminate|]. eapply runs_mono; [eapply (RemoveFromHashBase_run fuel s ch t n key targetNewHash v); [done..|by apply Hf]|].
    intros r s2. cbv beta. by rewrite decide_True.
Qed.
End find.
