(* ===== verification/PoolInv.v ===== *)
(** * PoolInv: the invariant of the pool

    What the pool ([src/cache/cache_pool.cc]) keeps true of its nodes: each is
    in one hash chain, where its key may be, on one LRU list, and has the
    block of its data.  [pool] is a predicate on the state: it has the chains
    that buckets and links make ([hashed]), the rings of the list heads
    ([session_inv]) and the allocator's blocks ([mem_ok]).  Then what the steps
    of the pool's operations keep of it. *)

From stdpp Require Import gmap.
From S2P Require Import Prelude State Ring BinMalloc Value Mallocator RawData RawBuf RawRow RawRep DataChunk NodeMem NodeGroup NodeIndex NgInfo NodeLinks NodeStore NodeAlloc NodeLru NodeSession PoolMem Hash Pool PoolChain PoolStep PoolHash PoolFind.

(** A node of the pool, its key, and its data: the block and the number of rows
    in it.  A new node has none until its client sets the handle. *)
Record entry := MkEntry { e_node : CNode; e_key : list Z; e_data : option (block * Z) }.
Definition chunks (es : list entry) : list block := omap (λ e, fst <$> e_data e) es.

Section kept.
Context {A : Type} `{PoolMemory A}.
Implicit Types (s : cmem A) (n m : CNode) (ch : Z -> list CNode) (t : HASH_T) (us : list block).

(** ** Changes that leave chains alone *)

Lemma hashed_kept s s' ch t :
  hashed s ch t -> hash_kept s s' -> (∀ n, n ∈ all_nodes (hh_size t) ch -> node_kept s s' n) -> hashed s' ch t.
Proof.
  intros [E1 E2 E3 E4 E5] [Hh Hk] Hn. split; try done.
  - rewrite Hh. apply get_HT_objs, Hk. by apply get_HT_objs.
  - intros v Hv. eapply chain_kept; [by apply E2|]. intros n Hin. apply Hn. by eapply all_nodes_in.
Qed.

Lemma lru_same_attr s s' n :
  objs_rel lru_obj_same s s' -> live_node s n -> next_of s' n = next_of s n ∧ vd_of s' n = vd_of s n.
Proof.
  intros Hr (_ & g & Hg & _ & Hi & _). destruct (lru_same_NG _ _ _ _ Hr Hg) as (g' & Hg' & _ & Ha).
  unfold next_of, vd_of, node_attr. rewrite Hg, Hg'. osimpl. pose proof (Ha _ Hi) as E. split; f_equal.
  - apply (f_equal na_next E).
  - apply (f_equal na_vd E).
Qed.
Lemma lru_same_hash s s' : objs_rel lru_obj_same s s' -> hash_kept s s'.
Proof.
  intros Hr. split; [by apply (objs_rel_frame _ _ _ Hr)|]. intros h t Ht.
  destruct (objs_rel_lookup _ _ _ _ _ Hr Ht) as (o & Ho & Hs). simpl in Hs. by subst.
Qed.
Lemma same_mem D us s s' : objs_rel node_obj_same s s' -> mem_ok D us s -> mem_ok D us s'.
Proof.
  intros Hr [(u & Ho & Hu) Hex]. destruct (objs_rel_frame _ _ _ Hr) as (Ha & _). unfold mem_ok. rewrite Ha.
  split; [|done]. exists u. split; [done|]. intros h o' Ho'. destruct Hr as [_ Hr]. specialize (Hr h).
  inversion Hr as [x y Hxy Hx Hy|]; [|congruence]. rewrite Ho' in Hy. simplify_eq. symmetry in Hx. destruct (Hu _ _ Hx).
  assert (obj_size o' = obj_size x) as ->; [|done]. destruct x, o'; simpl in *; simplify_eq; try done. by rewrite Hxy.
Qed.

(** The links and the data of [n] as before *)
Definition node_same s s' n : Prop := node_kept s s' n ∧ (live_node s n -> vd_of s' n = vd_of s n).

Lemma lru_same_node s s' n : objs_rel lru_obj_same s s' -> node_same s s' n.
Proof.
  intros Hr. split; intros Hl; destruct (lru_same_attr s s' n Hr Hl) as [E1 E2]; [|done]. split; [|split; [|done]].
  - split; [apply Hl|]. eapply node_same_cell; [by apply lru_node|apply Hl].
  - by apply node_same_id, lru_node.
Qed.
Lemma attr_kept_node s s' n :
  attr_kept s s' n -> (node_cell n s -> node_cell n s') -> node_id s' n = node_id s n -> node_same s s' n.
Proof.
  intros Ha Hc Hi. split; intros Hl; destruct (live_attr s n Hl) as [a E]; pose proof (Ha a E) as E';
    unfold next_of, vd_of; rewrite E, E'; [|done]. split; [|done]. split; [apply Hl|apply Hc, Hl].
Qed.
End kept.

Section pool.
Context {A : Type} `{PoolMemory A} `{DestroySize A}.
Context (keySize : Z) (hashChanging targetNewHash : bool) (fuel : nat).
Implicit Types (s : cmem A) (n m : CNode) (ch L : Z -> list CNode) (t : HASH_T) (us : list block) (e : entry) (es : list entry).

(** The entry's key is right, and its data is a raw chunk under this key. *)
Definition entry_ok e : Prop :=
  wf_key keySize (e_key e) ∧ ∀ b cnt, e_data e = Some (b, cnt) -> raw_chunk (e_key e) cnt b.2 ∧ 0 <= cnt < 2 ^ 32.

(** Where the node of an entry is *)
Definition placed s ch t e : Prop :=
  (∀ b cnt, e_data e = Some (b, cnt) -> vd_of s (e_node e) = Some b.1) ∧
  ∃ v, 0 <= v < hh_size t ∧ home hashChanging targetNewHash t (e_key e) v ∧ e_node e ∈ ch v.

(** In [s] the pool has the entries [es] and the LRU lists [L]; its clients
    hold the blocks [us] besides. *)
Record pool_with s es L ch t us : Prop := {
  pl_session : ∃ gs F U sys, session_inv s (e_node <$> es) L gs F U sys;
  pl_hashed : hashed s ch t;
  pl_table : 0 < hh_size t ∧ hh_fixedsize t = keySize;
  pl_nodes : all_nodes (hh_size t) ch ≡ₚ e_node <$> es;
  pl_lru e : e ∈ es -> ∃ k, e_node e ∈ L k;
  pl_keys : NoDup (e_key <$> es);
  pl_ok e : e ∈ es -> entry_ok e;
  pl_placed e : e ∈ es -> placed s ch t e;
  pl_mem : ∃ D, D.*1 ≡ₚ (chunks es ++ us).*1 ∧ mem_ok D (chunks es ++ us) s
}.
Definition pool s es L us : Prop := ∃ ch t, pool_with s es L ch t us.

(** *** Consequences *)

Lemma pl_nodup s es L ch t us : pool_with s es L ch t us -> NoDup (e_node <$> es).
Proof. intros Hp. destruct (pl_session _ _ _ _ _ _ Hp) as (gs & F & U & sys & HI). apply HI. Qed.
Lemma pl_node_inj s es L ch t us e e' : pool_with s es L ch t us -> e ∈ es -> e' ∈ es -> e_node e = e_node e' -> e = e'.
Proof.
  intros Hp [i Hi]%list_elem_of_lookup [j Hj]%list_elem_of_lookup E.
  assert (i = j) as ->; [|congruence]. eapply (NoDup_lookup (e_node <$> es)); [by eapply pl_nodup|..]; rewrite list_lookup_fmap; [by rewrite Hi|rewrite Hj; simpl; by rewrite <- E].
Qed.
Lemma pl_key_inj s es L ch t us e e' : pool_with s es L ch t us -> e ∈ es -> e' ∈ es -> e_key e = e_key e' -> e = e'.
Proof.
  intros Hp [i Hi]%list_elem_of_lookup [j Hj]%list_elem_of_lookup E.
  assert (i = j) as ->; [|congruence]. eapply (NoDup_lookup (e_key <$> es)); [by apply Hp|..]; rewrite list_lookup_fmap; [by rewrite Hi|rewrite Hj; simpl; by rewrite <- E].
Qed.
Lemma pl_in s es L ch t us v n : pool_with s es L ch t us -> 0 <= v < hh_size t -> n ∈ ch v -> ∃ e, e ∈ es ∧ n = e_node e.
Proof.
  intros Hp Hv Hn. assert (n ∈ e_node <$> es) as Hi by (rewrite <- (pl_nodes _ _ _ _ _ _ Hp); by eapply all_nodes_in).
  apply list_elem_of_fmap in Hi as (e & -> & He). by exists e.
Qed.
Lemma pl_live s es L ch t us e : pool_with s es L ch t us -> e ∈ es -> live_node s (e_node e).
Proof.
  intros Hp He. destruct (pl_placed _ _ _ _ _ _ Hp e He) as (_ & v & Hv & _ & Hn).
  eapply chain_live; [by apply (hd_chain _ _ _ (pl_hashed _ _ _ _ _ _ Hp))|done].
Qed.
Lemma pl_short s es L ch t us : pool_with s es L ch t us -> (length es <= fuel)%nat -> short_chains fuel t ch.
Proof.
  intros Hp Hf v Hv. pose proof (Permutation_length (pl_nodes _ _ _ _ _ _ Hp)) as Hl. rewrite length_fmap in Hl.
  destruct (all_nodes_split (hh_size t) v ch Hv) as (x & y & Hxy). destruct (Hxy []) as [_ E]. rewrite E, !length_app in Hl. lia.
Qed.
Lemma chunks_split es1 e es2 b cnt : e_data e = Some (b, cnt) -> chunks (es1 ++ e :: es2) ≡ₚ b :: chunks (es1 ++ es2).
Proof. intros E. unfold chunks. rewrite !omap_app. cbn [omap list_omap]. rewrite E. cbn. solve_Permutation. Qed.
Lemma mem_chunk s es us D e b cnt :
  mem_ok D (chunks es ++ us) s -> e ∈ es -> e_data e = Some (b, cnt) -> ∃ v, mal_holds (alloc s) (b :: v).
Proof.
  intros [_ (ex & Hex)] (es1 & es2 & ->)%list_elem_of_split E. exists ((chunks (es1 ++ es2) ++ us) ++ ex).
  eapply mal_perm; [|exact Hex]. by rewrite (chunks_split es1 e es2 b cnt E).
Qed.
Lemma pl_has_key s es L ch t us e :
  pool_with s es L ch t us -> e ∈ es -> e_data e ≠ None -> has_key s (e_node e) (e_key e).
Proof.
  intros Hp He Hd. destruct (e_data e) as [[[h bs] cnt]|] eqn:E; [|done]. destruct (pl_mem _ _ _ _ _ _ Hp) as (D & _ & Hm).
  destruct (mem_chunk s es us D e _ cnt Hm He E) as (v & Hh). destruct (pl_placed _ _ _ _ _ _ Hp e He) as [Hvd _].
  exists h, bs, v, cnt. split; [exact (Hvd (h, bs) cnt E)|]. split; [exact Hh|].
  destruct (proj2 (pl_ok _ _ _ _ _ _ Hp e He) (h, bs) cnt E) as [(sz & meta & z & Hm1 & Hm2) _]. by exists sz, meta, z.
Qed.
End pool.

(** ** What is in memory *)

Section memory.
Context {A : Type} `{PoolMemory A} `{DestroySize A}.
Implicit Types (s : cmem A) (n : CNode) (ch L : Z -> list CNode) (t : HASH_T).

(** The chain of bucket [v], read from the bucket and the nodes' links *)
Definition bucket_chain s (v : Z) (l : list CNode) : Prop := ∃ id, Hash2Node v s = Some (id, s) ∧ chain s id l.
Lemma hashed_bucket s ch t v : hashed s ch t -> 0 <= v < hh_size t -> bucket_chain s v (ch v).
Proof. intros Hd Hv. exists (bucket t v). split; [by eapply Hash2Node_run, Hv; apply Hd|by apply Hd]. Qed.

(** The ring of each list head is the list. *)
Definition lru_lists s L : Prop :=
  ∃ sys, ∀ k, 0 <= k < 3 -> node_head k s = Some (MkNode sys k, s) ∧ ring (MkNode sys k) (L k) s.
Lemma session_rings s ns L gs F U sys : session_inv s ns L gs F U sys -> lru_lists s L.
Proof.
  intros [I1 I2 I3 I4 [K1 K2 K3 K4 K5]]. exists sys. intros k Hk. split; [|by apply K2]. unfold node_head.
  rewrite (step_bind _ _ _ _ _ (sysNG_run _ _ I2)). destruct I1 as (sy & Hc & H0g & Hsy & _).
  assert (sy = sys) as -> by congruence. assert (0 < sys) by (eapply core_group_pos; [exact Hc|by eapply list_elem_of_lookup_2]).
  by zif.
Qed.

(** [n] comes to the front of the chain of [key], or leaves the chain where a
    node of [key] may be. *)
Definition linked (targetNewHash : bool) (key : list Z) n s s' : Prop :=
  ∃ v l, hash_slot_of targetNewHash key s = Some (v, s) ∧ bucket_chain s v l ∧ bucket_chain s' v (n :: l).
Definition unlinked (hashChanging targetNewHash : bool) (key : list Z) n s s' : Prop :=
  ∃ newhash v l l', (hashChanging = true ∨ newhash = targetNewHash) ∧ hash_slot_of newhash key s = Some (v, s) ∧
    bucket_chain s v (l ++ n :: l') ∧ bucket_chain s' v (l ++ l').
(** [n] is in a chain where a node of [key] may be. *)
Definition in_chain (hashChanging targetNewHash : bool) (key : list Z) n s : Prop :=
  ∃ newhash v l, (hashChanging = true ∨ newhash = targetNewHash) ∧ hash_slot_of newhash key s = Some (v, s) ∧
    bucket_chain s v l ∧ n ∈ l.
End memory.

(** ** Moving nodes between chains *)

Section chains.
Implicit Types (n m : CNode) (ch : Z -> list CNode).
Lemma all_nodes_remove N v ch u n w :
  0 <= v < N -> ch v = u ++ n :: w -> all_nodes N ch ≡ₚ n :: all_nodes N (upd_list v (u ++ w) ch).
Proof.
  intros Hv E. destruct (all_nodes_split N v ch Hv) as (x & y & Hxy). destruct (Hxy (u ++ w)) as [-> ->]. rewrite E.
  solve_Permutation.
Qed.
Lemma all_nodes_insert N v ch n : 0 <= v < N -> all_nodes N (upd_list v (n :: ch v) ch) ≡ₚ n :: all_nodes N ch.
Proof.
  intros Hv. destruct (all_nodes_split N v ch Hv) as (x & y & Hxy). destruct (Hxy (n :: ch v)) as [-> ->]. solve_Permutation.
Qed.
Lemma upd_in v ch u n w x m : ch v = u ++ n :: w -> m ∈ ch x -> m ≠ n -> m ∈ upd_list v (u ++ w) ch x.
Proof. intros E Hm Hne. unfold upd_list. case_decide; [|done]. subst x. rewrite E in Hm. set_solver. Qed.
Lemma ins_in v ch n x m : m ∈ ch x -> m ∈ upd_list v (n :: ch v) ch x.
Proof. intros Hm. unfold upd_list. case_decide; [|done]. subst x. by right. Qed.
End chains.

Section pool.
Context {A : Type} `{PoolMemory A} `{DestroySize A}.
Context (keySize : Z) (hashChanging targetNewHash : bool) (fuel : nat).
Implicit Types (s : cmem A) (n m : CNode) (ch L : Z -> list CNode) (t : HASH_T) (us : list block) (e : entry) (es : list entry).
Abbreviation pool_with := (pool_with keySize hashChanging targetNewHash).
Abbreviation pool := (pool keySize hashChanging targetNewHash).
Abbreviation home := (home hashChanging targetNewHash).

Lemma home_shape t t' key v : shape t t' -> home t key v -> home t' key v.
Proof. intros Hs (nh & Hnh & Hv). exists nh. split; [done|]. by rewrite (slot_shape t t'). Qed.

Lemma pool_hstep s s' es L ch t us ch' t' X :
  pool_with s es L ch t us -> hstep X t' s s' -> hashed s' ch' t' -> shape t t' ->
  all_nodes (hh_size t) ch' ≡ₚ e_node <$> es ->
  (∀ e, e ∈ es -> ∃ v, 0 <= v < hh_size t ∧ home t (e_key e) v ∧ e_node e ∈ ch' v) -> pool_with s' es L ch' t' us.
Proof.
  intros Hp (Ha & _ & _ & Hk) Hd Hsh Hn Hpl. pose proof Hp as [P1 P2 P3 P4 P5 P6 P7 P8 (D & P9 & P10)]. pose proof Hsh as [S1 S2]. split; try done.
  - destruct P1 as (gs & F & U & sys & HI). exists gs, F, U, sys. by eapply astep_session.
  - by rewrite S1, S2.
  - by rewrite S1.
  - intros e He. split.
    + destruct (Hk (e_node e)) as [_ ->]; [by eapply pl_live|]. by apply P8.
    + destruct (Hpl e He) as (v & Hv & Hh & Hin). exists v. rewrite S1. split; [done|]. split; [by eapply home_shape|done].
  - exists D. split; [done|]. eapply same_mem; [apply Ha|done].
Qed.

Lemma key_slot s es L ch t us nh k j :
  pool_with s es L ch t us -> wf_key keySize k -> ∃ v, 0 <= v < hh_size t ∧ slot_of t nh (k ++ j) = Some v ∧ slot_of t nh k = Some v.
Proof.
  intros Hp Hk. destruct (pl_table _ _ _ _ _ _ _ _ _ Hp) as [T1 T2]. destruct (slot_total keySize t nh k T2 T1 Hk) as (v & Hv & Hs).
  exists v. split_and!; [apply Hv..|apply Hs|]. specialize (Hs []). by rewrite app_nil_r in Hs.
Qed.

(** The entry's node leaves its chain; its data may be gone by then. *)
Lemma remove_run s0 s es L ch t us e j :
  pool_with s0 es L ch t us -> e ∈ es -> (length es <= fuel)%nat -> hashed s ch t -> live_node s (e_node e) ->
  ∃ v, 0 <= v < hh_size t ∧ home t (e_key e ++ j) v ∧
  runs (RemoveFromHash hashChanging targetNewHash fuel (e_key e ++ j) (e_node e)) s (λ r s', r = 0 ∧ removed s t ch v (e_node e) s').
Proof.
  intros Hp He Hf Hd Hl. destruct (pl_placed _ _ _ _ _ _ _ _ _ Hp e He) as (_ & v & Hv & (nh & Hnh & Hs) & Hin).
  destruct (pl_ok _ _ _ _ _ _ _ _ _ Hp e He) as [Hk _]. exists v. split; [done|].
  assert (home t (e_key e ++ j) v) as Hhome.
  { exists nh. split; [done|]. destruct (key_slot _ _ _ _ _ _ nh (e_key e) j Hp Hk) as (x & _ & E1 & E2). congruence. }
  split; [exact Hhome|]. apply RemoveFromHash_run; [done|done|apply Hp|done|done|exact Hhome| |by eapply pl_short].
  - intros b. destruct (key_slot _ _ _ _ _ _ b (e_key e) j Hp Hk) as (x & _ & -> & _). by eexists.
Qed.

Lemma MoveToNewHash_run s es L ch t us e j :
  pool_with s es L ch t us -> e ∈ es -> (length es <= fuel)%nat ->
  runs (MoveToNewHash hashChanging targetNewHash fuel (e_key e ++ j) (e_node e)) s (λ r s', r = 0 ∧
    ∃ ch' t' v, pool_with s' es L ch' t' us ∧ slot_of t' targetNewHash (e_key e) = Some v ∧ e_node e ∈ ch' v).
Proof.
  intros Hp He Hf.
  destruct (remove_run s s es L ch t us e j Hp He Hf) as (v & Hv & _ & Hrun); [apply Hp|by eapply pl_live|].
  pose proof (pl_hashed _ _ _ _ _ _ _ _ _ Hp) as Hd. pose proof (pl_nodes _ _ _ _ _ _ _ _ _ Hp) as Hnd.
  destruct (pl_table _ _ _ _ _ _ _ _ _ Hp) as [T1 T2]. destruct (pl_ok _ _ _ _ _ _ _ _ _ Hp e He) as [Hk _].
  destruct (key_slot _ _ _ _ _ _ targetNewHash (e_key e) j Hp Hk) as (v' & Hv' & Hs & Hs').
  unfold MoveToNewHash. eapply runs_bind; [exact Hrun|]. intros r s1 (_ & u & w & Ech & t1 & Hsh & Hst & Hd1).
  pose proof (all_nodes_remove _ _ _ _ _ _ Hv Ech) as Hp1. pose proof Hsh as [S1 S2]. rewrite <- S1 in Hp1.
  assert (NoDup (e_node e :: all_nodes (hh_size t1) (upd_list v (u ++ w) ch))) as [Hno _]%NoDup_cons.
  { rewrite <- Hp1, S1. apply Hd. }
  eapply runs_bind; [eapply (Insert2Hash_run targetNewHash s1 _ t1 (e_node e) (e_key e ++ j) v' Hd1)|].
  - destruct Hst as [Ha _]. eapply astep_live; [exact Ha|by eapply pl_live].
  - exact Hno.
  - by rewrite S1.
  - by rewrite (slot_shape t t1).
  - intros r2 s2 (_ & t2 & Hsh2 & Hst2 & Hd2). apply runs_ret. split; [done|].
    exists (upd_list v' (e_node e :: upd_list v (u ++ w) ch v') (upd_list v (u ++ w) ch)), t2, v'. split; [|split; [by rewrite (slot_shape t t2) by by eapply shape_trans|unfold upd_list at 1; rewrite decide_True by done; by left]].
    eapply pool_hstep; [exact Hp|eapply hstep_trans; [exact Hst|exact Hst2]|exact Hd2|by eapply shape_trans| |].
    + rewrite <- S1 in Hv' |- *. rewrite (all_nodes_insert _ _ _ _ Hv'), <- Hp1, S1. done.
    + intros e' He'. destruct (decide (e_node e' = e_node e)) as [En|En].
      * exists v'. assert (e' = e) as -> by by eapply pl_node_inj. split; [done|]. split.
        -- exists targetNewHash. by split; [right|].
        -- unfold upd_list at 1. rewrite decide_True by done. by left.
      * destruct (pl_placed _ _ _ _ _ _ _ _ _ Hp e' He') as (_ & x & Hx & Hh & Hin). exists x. split; [done|]. split; [done|].
        apply ins_in. by eapply upd_in.
Qed.
End pool.
