(* ===== verification/PoolOps.v ===== *)
(** * PoolOps: the steps of [CacheAllocate] and [CachePurge]

    [parts] is the invariant of the pool with the store, the chains and the
    memory apart; each of the calls that make up an operation of
    [src/cache/cache_pool.cc] changes one of them. *)

From stdpp Require Import gmap.
From S2P Require Import Prelude State Ring BinMalloc Value Mallocator RawData RawBuf RawRow RawRep DataChunk NodeMem NodeGroup NodeIndex NgInfo NodeLinks NodeStore NodeAlloc NodeLru NodeSession PoolMem Hash Pool PoolChain PoolStep PoolHash PoolFind PoolInv.

Section parts.
Context {A : Type} `{PoolMemory A}.
Implicit Types (s : cmem A) (n m : CNode) (ns : list CNode) (ch L : Z -> list CNode) (t : HASH_T) (D : list (Z * Z)) (bs : list block) (vd : CNode -> option Z).

Record parts s ns L ch t D bs vd : Prop := {
  pt_session : ∃ gs F U sys, session_inv s ns L gs F U sys;
  pt_hashed : hashed s ch t;
  pt_mem : mem_ok D bs s;
  pt_nodes n : n ∈ all_nodes (hh_size t) ch -> n ∈ ns;
  pt_live n : n ∈ ns -> live_node s n ∧ vd_of s n = vd n
}.

Lemma parts_hstep s s' ns L ch t D bs vd X ch' t' :
  parts s ns L ch t D bs vd -> hstep X t' s s' -> hashed s' ch' t' ->
  (∀ n, n ∈ all_nodes (hh_size t') ch' -> n ∈ ns) -> parts s' ns L ch' t' D bs vd.
Proof.
  intros [(gs & F & U & sys & P1) P2 P3 P4 P5] (Ha & _ & _ & Hk) Hd Hn. split; try done.
  - exists gs, F, U, sys. by eapply astep_session.
  - eapply same_mem; [apply Ha|done].
  - intros n Hin. destruct (P5 n Hin) as [Hl <-]. split; [by eapply astep_live|by apply Hk].
Qed.

(** Only the allocator and counters have changed. *)
Definition objs_same s s' : Prop :=
  objs s' = objs s ∧ firstIndex s' = firstIndex s ∧ ngInfo s' = ngInfo s ∧ hash s' = hash s ∧ step s' = step s.

(** A notifier of purges that touches the log and counters only *)
Definition quiet_notifier (notify : option (list Z -> CNode -> CM A unit)) : Prop :=
  ∀ f key n s, notify = Some f -> ∃ s', f key n s = Some (tt, s') ∧ objs_same s s' ∧ alloc s' = alloc s.

Lemma get_NG_same s s' h : objs_same s s' -> get_NG h s' = get_NG h s.
Proof. intros (E & _). unfold get_NG. by rewrite E. Qed.
Lemma objs_same_live s s' n : objs_same s s' -> live_node s n -> live_node s' n ∧ vd_of s' n = vd_of s n ∧ node_kept s s' n.
Proof.
  intros Hs Hl. pose proof Hs as (E1 & E2 & E3 & E4 & E5).
  assert (live_node s' n) as Hl'.
  { destruct Hl as (Hn & g & Hg & Hg'). split; [done|]. exists g. rewrite (get_NG_same _ _ _ Hs). split_and!; try apply Hg'; [done|].
    rewrite <- (proj2 (proj2 Hg')). apply Search_ext; [done|..]; intros h; unfold get_FI, get_SI, get_NG; by rewrite E1. }
  assert (node_attr s' n = node_attr s n) as Ha by (unfold node_attr; by rewrite (get_NG_same _ _ _ Hs)).
  split; [done|]. unfold vd_of, next_of, node_id. rewrite Ha. split; [done|]. intros _. split; [done|].
  unfold node_id, next_of. by rewrite Ha, (get_NG_same _ _ _ Hs).
Qed.
Lemma objs_same_store s s' gs F U : objs_same s s' -> objs_owned s' -> store s gs F U -> store s' gs F U ∧ quiet s s'.
Proof.
  intros Hs Ho (sys & Hc & Hg & Hsys & HF & HU). pose proof Hs as (E1 & E2 & E3 & E4 & E5).
  assert (tables_kept s s') as Ht by (split; [done|split; intros p; unfold get_FI, get_SI; by rewrite E1]).
  assert (sys_of s' = sys_of s) as Hsy by by apply sys_of_objs.
  split; [exists sys; split_and!|].
  - eapply core_kept; [exact Hc|done|done|exact Ht| |rewrite E5; apply Hc| |].
    + intros c _. rewrite !ng_cell_of_view, E1. done.
    + intros ni Hni. exists ni. split; [|done]. unfold get_NI in *. by rewrite E1.
    + intros h g Hin Hgh. exists g. rewrite (get_NG_same _ _ _ Hs). split; [exact Hgh|].
      destruct (core_group _ _ _ _ _ _ Hc Hin) as (g2 & Hg2 & ?). by simplify_eq.
  - done.
  - by rewrite Hsy.
  - intros h g Hh. rewrite (get_NG_same _ _ _ Hs). by apply HF.
  - intros h g Hh. rewrite (get_NG_same _ _ _ Hs). by apply HU.
  - split; [by apply nodes_kept_objs|]. split; [by apply index_mono_kept|done|done].
Qed.

Lemma parts_objs s s' ns L ch t D bs vd D' bs' :
  parts s ns L ch t D bs vd -> objs_same s s' -> mem_ok D' bs' s' -> parts s' ns L ch t D' bs' vd.
Proof.
  intros [(gs & F & U & sys & P1) P2 P3 P4 P5] Hs Hm. split; try done.
  - destruct (objs_same_store s s' gs F U Hs) as [S1 S2]; [by eapply mem_ok_owned|apply P1|].
    exists gs, F, U, sys. by eapply session_quiet.
  - eapply hashed_kept; [exact P2| |].
    + destruct Hs as (E1 & _ & _ & E4 & _). split; [done|]. intros h t'. by rewrite E1.
    + intros n Hn. eapply objs_same_live; [done|]. by apply P5, P4.
  - intros n Hn. destruct (P5 n Hn) as [Hl <-]. destruct (objs_same_live s s' n Hs Hl) as (Hl' & -> & _). done.
Qed.

Lemma parts_node_same s s' ns L ch t D bs vd ns' L' D' :
  parts s ns L ch t D bs vd -> (∃ gs F U sys, session_inv s' ns' L' gs F U sys) -> mem_ok D' bs s' -> hash_kept s s' ->
  (∀ n, n ∈ all_nodes (hh_size t) ch -> n ∈ ns') -> (∀ n, n ∈ ns' -> n ∈ ns ∧ node_same s s' n) -> parts s' ns' L' ch t D' bs vd.
Proof.
  intros [P1 P2 P3 P4 P5] Hse Hm Hh Hn Hk. split; try done.
  - eapply hashed_kept; [done..|]. intros n Hin. by apply Hk, Hn.
  - intros n Hin. destruct (Hk n Hin) as [Hin' [K1 K2]]. destruct (P5 n Hin') as [Hl <-]. split; [by apply K1|by apply K2].
Qed.

(** ** The calls *)

Lemma parts_RemoveFromLru s ns L ch t D bs vd k u n v :
  parts s ns L ch t D bs vd -> L k = u ++ n :: v ->
  runs (RemoveFromLru n) s (λ r s', r = 0 ∧ alloc s' = alloc s ∧ parts s' ns (upd_list k (u ++ v) L) ch t D bs vd).
Proof.
  intros Hp Hl. pose proof Hp as [(gs & F & U & sys & HI) P2 P3 P4 P5].
  eapply runs_mono; [exact (RemoveFromLru_session s ns L gs F U sys k u n v HI Hl)|]. intros r s' (-> & HI' & Hsame).
  split; [done|]. split; [by apply (objs_rel_frame _ _ _ Hsame)|]. eapply parts_node_same; [exact Hp| | | |done|].
  - by exists gs, F, U, sys.
  - eapply same_mem; [apply lru_node; exact Hsame|exact P3].
  - by apply lru_same_hash.
  - intros m Hm. split; [done|]. by apply lru_same_node.
Qed.

Lemma parts_Insert2Lru s ns L ch t D bs vd k n :
  parts s ns L ch t D bs vd -> 0 <= k < 3 -> n ∈ ns -> (∀ j, n ∉ L j) ->
  runs (Insert2Lru k n) s (λ r s', r = 0 ∧ parts s' ns (upd_list k (n :: L k) L) ch t D bs vd).
Proof.
  intros Hp Hk Hin Hnl. pose proof Hp as [(gs & F & U & sys & HI) P2 P3 P4 P5]. destruct (P5 n Hin) as [[_ Hcell] _].
  eapply runs_mono; [exact (Insert2Lru_session s ns L gs F U sys k n HI Hk Hin Hnl Hcell)|]. intros r s' (-> & HI' & Hsame).
  split; [done|]. eapply parts_node_same; [exact Hp| | | |done|].
  - by exists gs, F, U, sys.
  - eapply same_mem; [apply lru_node; exact Hsame|exact P3].
  - by apply lru_same_hash.
  - intros m Hm. split; [done|]. by apply lru_same_node.
Qed.

(** The group of the node counts it among its free nodes. *)
Definition node_given_back s n : Prop :=
  ∃ g, get_NG (c_owner n) s = Some g ∧ group_ok g ∧ ¬ in_use g (c_index n).
Lemma released_given_back s s' gs F U n :
  store s' gs F U -> node_used s gs n -> released s gs n s' -> node_given_back s' n.
Proof.
  intros (sys & Hc & _) [Hin _] Hr. destruct (core_group _ _ _ _ _ _ Hc Hin) as (g & Hg & Hok). exists g.
  split_and!; [done..|]. intros Hu. destruct (proj1 (rl_used _ _ _ _ Hr n)) as [_ []]; [|done]. split; [done|]. by exists g.
Qed.

Lemma parts_ReleaseNode s ns1 n ns2 L ch t D bs vd :
  parts s (ns1 ++ n :: ns2) L ch t D bs vd -> (∀ j, n ∉ L j) -> n ∉ all_nodes (hh_size t) ch ->
  runs (ReleaseNode n) s (λ r s', r = 0 ∧ alloc s' = alloc s ∧ node_given_back s' n ∧ parts s' (ns1 ++ ns2) L ch t D bs vd).
Proof.
  intros Hp Hnl Hnc. pose proof Hp as [(gs & F & U & sys & HI) P2 P3 P4 P5].
  assert (n ∈ ns1 ++ n :: ns2) as Hin by set_solver.
  assert (NoDup (n :: ns1 ++ ns2)) as [Hnn _]%NoDup_cons.
  { assert (n :: ns1 ++ ns2 ≡ₚ ns1 ++ n :: ns2) as -> by solve_Permutation. apply HI. }
  destruct (ReleaseNode_run s gs F U n (si_store _ _ _ _ _ _ _ HI) (proj2 (si_used _ _ _ _ _ _ _ HI n) (or_introl Hin))
    ltac:(rewrite (si_sys _ _ _ _ _ _ _ HI); intros [= Heq]; by apply (si_own _ _ _ _ _ _ _ HI n Hin)))
    as (r & s' & Hrun & -> & F' & U' & Hst' & _ & Ha).
  destruct (preserves_ReleaseNode n D bs s 0 s' P3 Hrun) as [Hm Hh]. eapply runs_eq; [exact Hrun|]. split; [done|].
  split; [exact (alloc_kept_ReleaseNode n _ _ _ Hrun)|]. split.
  { eapply released_given_back; [exact Hst'|by apply (si_used _ _ _ _ _ _ _ HI); left|exact Ha]. }
  eapply parts_node_same; [exact Hp| |exact Hm|exact Hh| |].
  - exists gs, F', U', sys. by eapply session_release.
  - intros m Hm'. specialize (P4 m Hm'). assert (m ≠ n) by congruence. set_solver.
  - intros m Hm'. assert (m ∈ ns1 ++ n :: ns2) as Hmi by set_solver. split; [done|].
    assert (m ≠ n) as Hne by congruence.
    assert (node_used s gs m) as Hu by (apply (si_used _ _ _ _ _ _ _ HI); by left).
    apply attr_kept_node; [by apply (rl_kept _ _ _ _ Ha)|apply (rl_cells _ _ _ _ Ha)|].
    destruct (si_store _ _ _ _ _ _ _ HI) as (sy & Hc & _), Hst' as (sy' & Hc' & _).
    destruct (node_used_at _ _ _ Hu) as (k & Hk & Hi).
    by rewrite (node_id_at _ _ _ _ _ _ _ Hc Hk Hi), (node_id_at _ _ _ _ _ _ _ Hc' Hk Hi).
Qed.

Lemma allocated_live s gs n s' gs' F U :
  store s' gs' F U -> allocated s gs n s' gs' -> (∀ id, node_id s' n = Some id -> Search id s' ≠ Some CNode_NULL) -> live_node s' n.
Proof.
  intros (sy & Hc & _) Ha Hf. destruct (node_used_at s' gs' n) as (k & Hk & Hi); [apply (al_used _ _ _ _ _ Ha); by left|].
  destruct (al_found _ _ _ _ _ Ha) as [Hcell|(l & Hl & Ht)].
  - split; [|done]. assert (0 < c_owner n) by (eapply core_group_pos; [exact Hc|by eapply list_elem_of_lookup_2]).
    unfold is_null. apply orb_false_intro; [apply Z.eqb_neq; lia|]. apply Z.leb_gt. exact (proj2 Hi).
  - exfalso. assert (k = l) as <- by (pose proof (core_nodup _ _ _ _ _ Hc); by eapply NoDup_lookup).
    eapply Hf; [by eapply node_id_at|]. eapply Search_no_table; [exact Hc|done|by eapply lookup_lt_Some|done].
Qed.

(** A new node; the index finds it unless it got no memory. *)
Lemma parts_AllocateNode s ns L ch t D bs vd :
  parts s ns L ch t D bs vd ->
  runs AllocateNode s (λ n s',
    (n = CNode_NULL ∧ parts s' ns L ch t D bs vd ∧ ∃ a, a_calloc (u32 NG_Size) (alloc s) = Some (INVALID_HANDLE, a)) ∨
    (n ≠ CNode_NULL ∧ (n ∉ ns) ∧ ((∀ id, node_id s' n = Some id -> Search id s' ≠ Some CNode_NULL) ->
       parts s' (n :: ns) L ch t D bs (λ m, if decide (m = n) then vd_of s' n else vd m)))).
Proof.
  intros Hp. pose proof Hp as [(gs & F & U & sys & HI) P2 P3 P4 P5]. pose proof (si_store _ _ _ _ _ _ _ HI) as Hst.
  destruct (AllocateNode_run s gs F U Hst) as (n & s' & Hrun & new & F' & U' & Hst' & Hq).
  destruct (preserves_AllocateNode D bs s n s' P3 Hrun) as [Hm Hh]. eapply runs_eq; [exact Hrun|].
  destruct Hst as (sy & Hc & _). destruct Hq as [[Hn Ha]|(-> & -> & -> & Hq & Hno)].
  - right. assert (n ∉ ns) as Hnew.
    { intros Hin. apply (al_new _ _ _ _ _ Ha), (si_used _ _ _ _ _ _ _ HI). by left. }
    split; [done|]. split; [done|]. intros Hfound.
    assert (live_node s' n) as Hlive by by eapply allocated_live.
    assert (∀ m, m ∈ ns -> node_same s s' m) as Hsame.
    { intros m Hmi. assert (node_used s gs m) as Hu by (apply (si_used _ _ _ _ _ _ _ HI); by left).
      apply attr_kept_node; [by apply (al_kept _ _ _ _ _ Ha)|apply (al_cells _ _ _ _ _ Ha)|].
      destruct Hst' as (sy' & Hc' & _). destruct (node_used_at _ _ _ Hu) as (k & Hk & Hi).
      rewrite (node_id_at _ _ _ _ _ _ _ Hc Hk Hi). eapply node_id_at; [exact Hc'|by apply lookup_app_l_Some|done]. }
    split.
    + exists (gs ++ new), F', U', sys. by eapply session_alloc.
    + eapply hashed_kept; [done..|]. intros m Hmi. by apply Hsame, P4.
    + done.
    + intros m Hmi. right. by apply P4.
    + intros m [->|Hmi]%elem_of_cons; [by rewrite decide_True|]. rewrite decide_False by congruence.
      destruct (P5 m Hmi) as [Hl <-], (Hsame m Hmi) as [K1 K2]. split; [by apply K1|by apply K2].
  - left. split; [done|]. split; [|exact Hno]. rewrite app_nil_r in Hst'. eapply parts_node_same; [exact Hp| |exact Hm|exact Hh|done|].
    + exists gs, F', U', sys. by eapply session_quiet.
    + intros m Hmi. split; [done|]. assert (node_used s gs m) as Hu by (apply (si_used _ _ _ _ _ _ _ HI); by left).
      destruct Hst' as (sy' & Hc' & _). apply attr_kept_node; [by apply kept_attr, Hq| |].
      * intros Hcm. eapply (node_cell_mono s s' gs []); [exact Hc|by rewrite app_nil_r|apply Hq|done].
      * destruct (node_used_at _ _ _ Hu) as (k & Hk & Hi).
        by rewrite (node_id_at _ _ _ _ _ _ _ Hc Hk Hi), (node_id_at _ _ _ _ _ _ _ Hc' Hk Hi).
Qed.

(** The block of a chunk goes back to the allocator. *)
Lemma mem_ok_perm D D' bs bs' s : D ≡ₚ D' -> bs ≡ₚ bs' -> mem_ok D bs s -> mem_ok D' bs' s.
Proof.
  intros HD Hb [(u & Ho & Hu) (ex & Hex)]. split.
  - exists u. split; [|done]. eapply a_owns_perm; [|exact Ho]. by rewrite HD.
  - exists ex. eapply mal_perm; [|exact Hex]. by rewrite Hb.
Qed.

Lemma mem_Free s D bs h c rest :
  D.*1 ≡ₚ bs.*1 -> bs ≡ₚ (h, c) :: rest -> mem_ok D bs s ->
  ∃ a D', mal_Free h (alloc s) = Some (0, a) ∧ D'.*1 ≡ₚ rest.*1 ∧ mem_ok D' rest (set_alloc a s).
Proof.
  intros HD Hb Hm. rewrite Hb in HD. cbn [fmap list_fmap fst] in HD. symmetry in HD.
  destruct (Permutation_map_inv fst D HD) as (D1 & E & HD1). destruct D1 as [|[h' sz] D1]; [done|].
  injection E as <- E. destruct (mem_ok_perm _ _ _ _ s HD1 Hb Hm) as [(u & Ho & Hu) (ex & Hex)]. simpl in Ho, Hex.
  destruct (a_free_law _ _ _ _ Ho) as (a' & Hf & Ho'). destruct (mal_Free_law _ _ _ _ Hex) as (r & a2 & Hf2 & -> & Hh).
  pose proof Hf2 as Hf3. rewrite pm_free, Hf in Hf3. injection Hf3 as <-. exists a', D1. split; [done|].
  split; [change (D1.*1) with (map fst D1); by rewrite <- E|]. split; [by exists u|by exists ex].
Qed.
Lemma parts_Destroy s ns L ch t D bs vd b rest cnt key :
  parts s ns L ch t D bs vd -> D.*1 ≡ₚ bs.*1 -> bs ≡ₚ b :: rest -> raw_chunk key cnt b.2 ->
  runs (on_mem (chunk_Destroy b.1)) s (λ r s', r = 0 ∧ mal_Free b.1 (alloc s) = Some (0, alloc s') ∧ ∃ D', D'.*1 ≡ₚ rest.*1 ∧ parts s' ns L ch t D' rest vd).
Proof.
  intros Hp HD Hb Hraw. destruct b as [h c]. simpl in *. pose proof (pt_mem _ _ _ _ _ _ _ _ Hp) as Hm.
  destruct (mem_Free s D bs h c rest HD Hb Hm) as (a & D' & Hf & HD' & Hm').
  destruct (mem_ok_perm _ _ _ _ s (reflexivity D) Hb Hm) as [_ (ex & Hex)].
  assert (on_mem (chunk_Destroy h) s = Some (0, set_alloc a s)) as Hrun.
  { unfold on_mem, chunk_Destroy. destruct Hraw as (z1 & meta & z & Hml & ->).
    mstep (is_raw_run (alloc s) _ h z1 cnt meta key z Hml Hex). by rewrite Hf. }
  eapply runs_eq; [exact Hrun|]. split; [done|]. split; [exact Hf|]. exists D'. split; [done|]. by eapply parts_objs.
Qed.
End parts.
