(* ===== verification/PoolRun.v ===== *)
(** * PoolRun: the operations of the pool

    [CacheFindAutoChoseHash], [CacheAllocate] and [CachePurge] of
    [src/cache/cache_pool.cc] against the invariant [pool], for any allocator
    with the laws of [PoolMemory] and in both modes: while the table is being
    rehashed ([hashChanging]) and otherwise. *)

From stdpp Require Import gmap.
From S2P Require Import Prelude State Ring BinMalloc Value Mallocator RawData RawBuf RawRow RawRep DataChunk NodeMem NodeGroup NodeIndex NgInfo NodeLinks NodeStore NodeAlloc NodeLru NodeSession PoolMem Hash Pool PoolChain PoolStep PoolHash PoolFind PoolInv PoolOps.

Section pool.
Context {A : Type} `{PoolMemory A} `{DestroySize A}.
Context (keySize : Z) (hashChanging targetNewHash : bool) (notify : option (list Z -> CNode -> CM A unit)) (fuel : nat).
Implicit Types (s : cmem A) (n m : CNode) (ch L : Z -> list CNode) (t : HASH_T) (us bs : list block) (D : list (Z * Z)) (e : entry) (es : list entry).
Abbreviation pool_with := (pool_with keySize hashChanging targetNewHash).
Abbreviation pool := (pool keySize hashChanging targetNewHash).
Abbreviation home := (home hashChanging targetNewHash).
Abbreviation CacheFind := (CacheFind keySize hashChanging targetNewHash notify fuel).

(** ** Looking up *)

(** The abstract table: the node under a key *)
Definition node_of es k : CNode := from_option e_node CNode_NULL (head (filter (λ e, e_key e = k) es)).

Lemma head_filter {X} (P : X -> Prop) `{∀ x, Decision (P x)} (l : list X) (x : X) :
  x ∈ l -> P x -> (∀ y, y ∈ l -> P y -> y = x) -> head (filter P l) = Some x.
Proof.
  intros Hx HP Hu. destruct (filter P l) as [|y r] eqn:E.
  - assert (x ∈ filter P l) as Hin by by apply list_elem_of_filter. rewrite E in Hin. by apply elem_of_nil in Hin.
  - assert (y ∈ filter P l) as [? ?]%list_elem_of_filter by (rewrite E; by left). simpl. f_equal. by apply Hu.
Qed.
Lemma head_filter_none {X} (P : X -> Prop) `{∀ x, Decision (P x)} (l : list X) :
  (∀ y, y ∈ l -> ¬ P y) -> head (filter P l) = None.
Proof.
  intros Hu. destruct (filter P l) as [|y r] eqn:E; [done|].
  assert (y ∈ filter P l) as [Hp Hi]%list_elem_of_filter by (rewrite E; by left). by destruct (Hu y Hi).
Qed.

Lemma node_of_in s es L ch t us e : pool_with s es L ch t us -> e ∈ es -> node_of es (e_key e) = e_node e.
Proof.
  intros Hp He. unfold node_of. rewrite (head_filter (λ e', e_key e' = e_key e) es e He eq_refl); [done|]. intros y Hy E.
  eapply (pl_key_inj _ _ _ _ _ _ _ _ _ _ _ Hp); done.
Qed.
Lemma node_of_none es k : (∀ e, e ∈ es -> e_key e ≠ k) -> node_of es k = CNode_NULL.
Proof. intros Hn. unfold node_of. by rewrite head_filter_none. Qed.

(** The key of a node of the pool *)
Definition key_of es n : list Z := from_option e_key [] (head (filter (λ e, e_node e = n) es)).
Lemma key_of_in s es L ch t us e : pool_with s es L ch t us -> e ∈ es -> key_of es (e_node e) = e_key e.
Proof.
  intros Hp He. unfold key_of. rewrite (head_filter (λ e', e_node e' = e_node e) es e He eq_refl); [done|]. intros y Hy E.
  eapply (pl_node_inj _ _ _ _ _ _ _ _ _ _ _ Hp); done.
Qed.

(** One search finds the entry when its node is in the searched chain. *)
Lemma CacheFind_pool s es L ch t us k j nh :
  pool_with s es L ch t us -> (length es <= fuel)%nat -> wf_key keySize k -> (∀ e, e ∈ es -> e_data e ≠ None) ->
  ∃ v r, 0 <= v < hh_size t ∧ slot_of t nh k = Some v ∧ CacheFind (k ++ j) nh s = Some (r, s) ∧
    (∀ e, e ∈ es -> e_key e = k -> e_node e ∈ ch v -> r = e_node e) ∧
    ((∀ e, e ∈ es -> e_key e = k -> e_node e ∉ ch v) -> r = CNode_NULL).
Proof.
  intros Hp Hf Hk Hdata. destruct (key_slot _ _ _ _ _ _ _ _ _ nh k j Hp Hk) as (v & Hv & Hs & Hs').
  exists v, (first_key (key_of es) k (ch v)).
  assert (∀ n, n ∈ ch v -> ∃ e, e ∈ es ∧ n = e_node e ∧ key_of es n = e_key e) as Hin.
  { intros n Hn. destruct (pl_in _ _ _ _ _ _ _ _ _ _ _ Hp Hv Hn) as (e & He & ->). exists e. split_and!; [done..|].
    by eapply key_of_in. }
  split; [done|]. split; [done|]. split; [|split].
  - eapply CacheFind_run; [apply Hp|done..| |by eapply pl_short]. intros n Hn. destruct (Hin n Hn) as (e & He & -> & ->).
    split; [by apply (pl_ok _ _ _ _ _ _ _ _ _ Hp e He)|]. eapply pl_has_key; [exact Hp|done|by apply Hdata].
  - intros e He <- Hn. unfold first_key. rewrite (head_filter (λ n, key_of es n = e_key e) (ch v) (e_node e) Hn); [done|by eapply key_of_in|].
    intros y Hy E. destruct (Hin y Hy) as (e' & He' & -> & E'). f_equal. eapply (pl_key_inj _ _ _ _ _ _ _ _ _ _ _ Hp); congruence.
  - intros Hno. unfold first_key. rewrite head_filter_none; [done|]. intros y Hy E.
    destruct (Hin y Hy) as (e' & He' & -> & E'). apply (Hno e' He'); congruence.
Qed.

Lemma entry_dec es k : (∃ e, e ∈ es ∧ e_key e = k) ∨ (∀ e, e ∈ es -> e_key e ≠ k).
Proof.
  destruct (decide (k ∈ e_key <$> es)) as [(e & -> & He)%list_elem_of_fmap|Hn]; [left; by exists e|right].
  intros e He E. apply Hn. rewrite <- E. by apply list_elem_of_fmap_2.
Qed.
Lemma pl_not_null s es L ch t us e : pool_with s es L ch t us -> e ∈ es -> is_null (e_node e) = false.
Proof. intros Hp He. by apply (pl_live _ _ _ _ _ _ _ _ _ _ Hp He). Qed.

Lemma CacheFind_ok s es L us k j :
  pool s es L us -> (length es <= fuel)%nat -> wf_key keySize k -> (∀ e, e ∈ es -> e_data e ≠ None) ->
  ∃ s', CacheFindAutoChoseHash keySize hashChanging targetNewHash notify fuel (k ++ j) s = Some (node_of es k, s') ∧
    pool s' es L us ∧ (hashChanging = false -> s' = s) ∧ CacheFind (k ++ j) targetNewHash s' = Some (node_of es k, s').
Proof.
  intros (ch & t & Hp) Hf Hk Hd. unfold CacheFindAutoChoseHash.
  destruct (CacheFind_pool s es L ch t us k j targetNewHash Hp Hf Hk Hd) as (v & r & Hv & Hs & Hr & R1 & R2).
  destruct (CacheFind_pool s es L ch t us k j (negb targetNewHash) Hp Hf Hk Hd) as (v' & r' & Hv' & Hs' & Hr' & R1' & R2').
  destruct (entry_dec es k) as [(e & He & <-)|Hno].
  2: { rewrite (node_of_none es k Hno). rewrite R2 in Hr by (intros e He Ek; by destruct (Hno e He)).
       rewrite R2' in Hr' by (intros e He Ek; by destruct (Hno e He)). exists s.
       split; [|split; [by exists ch, t|done]]. destruct hashChanging; [|exact Hr]. by mstep Hr'. }
  rewrite (node_of_in _ _ _ _ _ _ _ Hp He).
  destruct (pl_placed _ _ _ _ _ _ _ _ _ Hp e He) as (_ & x & Hx & (nh & Hnh & Hsx) & Hin).
  assert (∀ y, slot_of t nh (e_key e) = Some y -> e_node e ∈ ch y) as Hy by (intros y Ey; congruence).
  assert (e_node e ∈ ch v -> r = e_node e) as Rv by (intros; by apply R1).
  assert (hashChanging = true -> (e_node e ∈ ch v' -> r' = e_node e) ∧ (e_node e ∉ ch v' -> r' = CNode_NULL ∧ e_node e ∈ ch v)) as Rv'.
  { intros _. split; [intros; by apply R1'|]. intros Hn. split.
    - apply R2'. intros e' He' Ek. assert (e' = e) as -> by by eapply (pl_key_inj _ _ _ _ _ _ _ _ _ _ _ Hp). done.
    - destruct (decide (nh = targetNewHash)) as [->|Hne]; [by apply Hy|]. assert (nh = negb targetNewHash) as -> by (by destruct nh, targetNewHash).
      destruct Hn. by apply Hy. }
  pose proof (pl_not_null _ _ _ _ _ _ _ Hp He) as Hnull. pose proof CacheFind_pool as CacheFind_at. destruct hashChanging.
  - mstep Hr'. destruct (Rv' eq_refl) as [Ry Rn]. destruct (decide (e_node e ∈ ch v')) as [Hn|Hn].
    + rewrite (Ry Hn), Hnull.
      destruct (MoveToNewHash_run keySize true targetNewHash fuel s es L ch t us e j Hp He Hf) as (r0 & s' & Hm & _ & ch1 & t1 & v1 & Hp1 & Hs1 & Hi1).
      exists s'. mstep Hm. split; [done|]. split; [by exists ch1, t1|]. split; [done|].
      destruct (CacheFind_at s' es L ch1 t1 us (e_key e) j targetNewHash Hp1 Hf Hk Hd) as (v2 & r2 & _ & Hs2 & Hr2 & A2 & _).
      rewrite Hr2. rewrite (A2 e He eq_refl); [done|]. congruence.
    + destruct (Rn Hn) as [-> Hn']. change (is_null CNode_NULL) with true. cbv iota. exists s. rewrite (Rv Hn') in Hr. split; [exact Hr|]. by split; [exists ch, t|].
  - destruct Hnh as [?| ->]; [done|]. exists s. rewrite Rv in Hr by by apply Hy. split; [exact Hr|]. by split; [exists ch, t|].
Qed.

(** ** Parts and whole *)

Lemma pool_parts s es L ch t us :
  pool_with s es L ch t us ->
  ∃ D, D.*1 ≡ₚ (chunks es ++ us).*1 ∧ parts s (e_node <$> es) L ch t D (chunks es ++ us) (vd_of s).
Proof.
  intros Hp. pose proof Hp as [P1 P2 P3 P4 P5 P6 P7 P8 (D & P9 & P10)]. exists D. split; [done|]. split; try done.
  - intros n. by rewrite P4.
  - intros n (e & -> & He)%list_elem_of_fmap. split; [by eapply pl_live|done].
Qed.

(** What [parts] leaves open *)
Record fitting es L ch t (vd : CNode -> option Z) : Prop := {
  ft_table : 0 < hh_size t ∧ hh_fixedsize t = keySize;
  ft_nodes : all_nodes (hh_size t) ch ≡ₚ e_node <$> es;
  ft_lru e : e ∈ es -> ∃ k, e_node e ∈ L k;
  ft_keys : NoDup (e_key <$> es);
  ft_entry e : e ∈ es -> entry_ok keySize e;
  ft_vd e b cnt : e ∈ es -> e_data e = Some (b, cnt) -> vd (e_node e) = Some b.1;
  ft_home e : e ∈ es -> ∃ v, 0 <= v < hh_size t ∧ home t (e_key e) v ∧ e_node e ∈ ch v
}.
Lemma pool_fitting s es L ch t us : pool_with s es L ch t us -> fitting es L ch t (vd_of s).
Proof.
  intros [P1 P2 P3 P4 P5 P6 P7 P8 P9]. split; try done.
  - intros e b cnt He. by apply P8.
  - intros e He. by apply P8.
Qed.
Lemma parts_pool s es L ch t D us vd :
  parts s (e_node <$> es) L ch t D (chunks es ++ us) vd -> D.*1 ≡ₚ (chunks es ++ us).*1 -> fitting es L ch t vd ->
  pool_with s es L ch t us.
Proof.
  intros [P1 P2 P3 P4 P5] HD [F1 F2 F3 F4 F5 F6 F7]. split; try done; [|by exists D].
  intros e He. split; [|by apply F7]. intros b cnt Hd. rewrite <- (F6 e b cnt He Hd). apply P5. by apply list_elem_of_fmap_2.
Qed.

(** The entry [e] is no more. *)
Lemma fitting_remove es1 e es2 L ch t t' vd k u v x a b :
  fitting (es1 ++ e :: es2) L ch t vd -> NoDup (e_node <$> es1 ++ e :: es2) -> L k = u ++ e_node e :: v ->
  0 <= x < hh_size t -> ch x = a ++ e_node e :: b -> shape t t' ->
  fitting (es1 ++ es2) (upd_list k (u ++ v) L) (upd_list x (a ++ b) ch) t' vd.
Proof.
  intros [F1 F2 F3 F4 F5 F6 F7] Hnd HL Hx Ech Hsh. pose proof Hsh as [S1 S2].
  assert (∀ e', e' ∈ es1 ++ es2 -> e' ∈ es1 ++ e :: es2 ∧ e_node e' ≠ e_node e) as Hin.
  { intros e' He'. split; [set_solver|]. intros E. rewrite fmap_app, fmap_cons in Hnd.
    apply NoDup_app in Hnd as (_ & D1 & [D2 _]%NoDup_cons). apply elem_of_app in He' as [He'|He'].
    - apply (D1 (e_node e)); [|by left]. rewrite <- E. by apply list_elem_of_fmap_2.
    - apply D2. rewrite <- E. by apply list_elem_of_fmap_2. }
  split.
  - by rewrite S1, S2.
  - rewrite S1. pose proof (all_nodes_remove _ _ _ _ _ _ Hx Ech) as Hp. rewrite F2 in Hp.
    apply (Permutation_cons_inv (a := e_node e)). rewrite <- Hp, !fmap_app, fmap_cons. solve_Permutation.
  - intros e' [He' Hne]%Hin. destruct (F3 e' He') as [k' Hk']. exists k'. by eapply upd_in.
  - rewrite fmap_app in F4 |- *. rewrite fmap_cons in F4. apply NoDup_app in F4 as (N1 & N2 & [N3 N4]%NoDup_cons).
    apply NoDup_app. split_and!; [done| |done]. intros y Hy Hy'. apply (N2 y Hy). by right.
  - intros e' [He' _]%Hin. by apply F5.
  - intros e' b' cnt [He' _]%Hin. by apply F6.
  - intros e' [He' Hne]%Hin. destruct (F7 e' He') as (y & Hy & Hh & Hiny). exists y. rewrite S1. split; [done|].
    split; [by eapply home_shape|by eapply upd_in].
Qed.

Lemma off_lists s ns L gs F U sys k u n v :
  session_inv s ns L gs F U sys -> L k = u ++ n :: v -> ∀ j, n ∉ upd_list k (u ++ v) L j.
Proof.
  intros HI Hl j. pose proof (si_lists _ _ _ _ _ _ _ HI) as HL.
  assert (0 <= k < 3) as Hk by (apply (ls_heads _ _ _ _ HL); rewrite Hl; by destruct u).
  destruct (ls_rings _ _ _ _ HL k Hk) as ([_ Hnd]%NoDup_cons & _). rewrite Hl in Hnd.
  unfold upd_list. case_decide as Hj.
  - apply NoDup_app in Hnd as (_ & D1 & [D2 _]%NoDup_cons). intros [Hi|Hi]%elem_of_app; [apply (D1 n Hi); by left|done].
  - intros Hi. apply Hj. eapply (ls_apart _ _ _ _ HL); [exact Hi|]. rewrite Hl. set_solver.
Qed.

(** ** New entries *)

(** A node just allocated is found by its id: the index got memory for it. *)
Definition index_finds s : Prop :=
  ∀ n s' id, AllocateNode s = Some (n, s') -> n ≠ CNode_NULL -> node_id s' n = Some id -> Search id s' ≠ Some CNode_NULL.

(** A new node, first in its chain and on its list *)
Lemma fitting_insert es L ch t t' vd vd' k n v nh :
  fitting es L ch t vd -> (∀ e, e ∈ es -> vd' (e_node e) = vd (e_node e)) -> wf_key keySize k -> (k ∉ e_key <$> es) ->
  0 <= v < hh_size t -> slot_of t targetNewHash k = Some v -> shape t t' ->
  fitting (MkEntry n k None :: es) (upd_list nh (n :: L nh) L) (upd_list v (n :: ch v) ch) t' vd'.
Proof.
  intros [F1 F2 F3 F4 F5 F6 F7] Hvd Hk Hnk Hv Hs Hsh. pose proof Hsh as [S1 S2]. split.
  - by rewrite S1, S2.
  - rewrite S1, all_nodes_insert, F2 by done. done.
  - intros e [->|He]%elem_of_cons.
    + exists nh. unfold upd_list. rewrite decide_True by done. by left.
    + destruct (F3 e He) as [i Hi]. exists i. by apply ins_in.
  - simpl. by apply NoDup_cons.
  - intros e [->|He]%elem_of_cons; [by split|by apply F5].
  - intros e b cnt [->|He]%elem_of_cons; [done|]. rewrite Hvd by done. by apply F6.
  - intros e [->|He]%elem_of_cons.
    + exists v. rewrite S1. split; [done|]. split.
      * exists targetNewHash. split; [by right|]. by rewrite (slot_shape t t').
      * simpl. unfold upd_list. rewrite decide_True by done. by left.
    + destruct (F7 e He) as (x & Hx & Hh & Hin). exists x. rewrite S1. split; [done|]. split; [by eapply home_shape|by apply ins_in].
Qed.

Lemma CacheAllocate_ok s es L us k j :
  pool s es L us -> wf_key keySize k -> (k ∉ e_key <$> es) -> index_finds s ->
  runs (CacheAllocate targetNewHash (k ++ j)) s (λ n s',
    (n = CNode_NULL ∧ pool s' es L us ∧ ∃ a, a_calloc (u32 NG_Size) (alloc s) = Some (INVALID_HANDLE, a)) ∨
    ((n ∉ e_node <$> es) ∧ linked targetNewHash (k ++ j) n s s' ∧
     pool s' (MkEntry n k None :: es) (upd_list SYS_CLEAN_NODE_INDEX (n :: L SYS_CLEAN_NODE_INDEX) L) us)).
Proof.
  intros (ch & t & Hp) Hk Hnk Hix. destruct (pool_parts _ _ _ _ _ _ Hp) as (D & HD & P). pose proof (pool_fitting _ _ _ _ _ _ Hp) as F.
  unfold CacheAllocate. destruct (parts_AllocateNode _ _ _ _ _ _ _ _ P) as (n & s1 & Hrun & Hq).
  eapply runs_step; [exact Hrun|]. destruct Hq as [(-> & P1 & Hno)|(Hn & Hnew & P1)].
  { apply runs_ret. left. split; [done|]. split; [|exact Hno]. exists ch, t. by eapply parts_pool. }
  specialize (P1 ltac:(intros id; by eapply Hix)). set (vd := λ m, _) in P1.
  destruct (pt_live _ _ _ _ _ _ _ _ P1 n) as [Hlive _]; [by left|]. assert (is_null n = false) as -> by apply Hlive.
  pose proof (ft_nodes _ _ _ _ _ F) as Hnd. destruct (ft_table _ _ _ _ _ F) as [T1 T2].
  assert (n ∉ all_nodes (hh_size t) ch) as Hnc by by rewrite Hnd.
  destruct (slot_total keySize t targetNewHash k T2 T1 Hk) as (v & Hv & Hs).
  eapply runs_bind; [by apply (Insert2Hash_run targetNewHash s1 ch t n (k ++ j) v (pt_hashed _ _ _ _ _ _ _ _ P1))|].
  intros r s2 (_ & t' & Hsh & Hst & Hd2). pose proof Hsh as [E1 _].
  assert (parts s2 (n :: (e_node <$> es)) L (upd_list v (n :: ch v) ch) t' D (chunks es ++ us) vd) as P2.
  { eapply parts_hstep; [exact P1|exact Hst|exact Hd2|]. intros m. rewrite E1, all_nodes_insert by done. rewrite Hnd. done. }
  eapply runs_bind; [apply (parts_Insert2Lru _ _ _ _ _ _ _ _ SYS_CLEAN_NODE_INDEX n P2); [done|by left|]|].
  { intros i Hi. apply Hnew. destruct (pt_session _ _ _ _ _ _ _ _ P) as (gs & G & U & sys & HI).
    by eapply (ls_held _ _ _ _ (si_lists _ _ _ _ _ _ _ HI)). }
  intros r2 s3 [_ P3]. apply runs_ret. right. split; [done|]. split.
  { exists v, (ch v). split; [eapply hash_slot_of_run; [by apply (pl_hashed _ _ _ _ _ _ _ _ _ Hp)|by apply Hs]|].
    split; [by eapply hashed_bucket; [apply (pl_hashed _ _ _ _ _ _ _ _ _ Hp)|]|].
    assert (upd_list v (n :: ch v) ch v = n :: ch v) as <- by apply (upd_list_same v _ ch (λ l, l)). eapply hashed_bucket; [apply (pt_hashed _ _ _ _ _ _ _ _ P3)|by rewrite E1]. }
  exists (upd_list v (n :: ch v) ch), t'.
  eapply parts_pool; [exact P3|exact HD|]. eapply fitting_insert; [exact F| |done..| |done].
  - intros e He. unfold vd. rewrite decide_False; [done|]. intros E. apply Hnew. rewrite <- E. by apply list_elem_of_fmap_2.
  - specialize (Hs []). by rewrite app_nil_r in Hs.
Qed.
(** *** Data

    The client stores the rows and sets the handle. *)

Lemma chunks_attach es1 e es2 b cnt us : e_data e = None ->
  chunks (es1 ++ e :: es2) ++ b :: us ≡ₚ chunks (es1 ++ MkEntry (e_node e) (e_key e) (Some (b, cnt)) :: es2) ++ us.
Proof. intros E. unfold chunks. rewrite !omap_app. cbn [omap list_omap e_data]. rewrite E. cbn. solve_Permutation. Qed.

Lemma set_VDHandle_ok s es1 e es2 L us h x cnt :
  pool s (es1 ++ e :: es2) L ((h, x) :: us) -> e_data e = None -> raw_chunk (e_key e) cnt x -> 0 <= cnt < 2 ^ 32 ->
  runs (set_VDHandle (e_node e) h) s (λ _ s',
    pool s' (es1 ++ MkEntry (e_node e) (e_key e) (Some ((h, x), cnt)) :: es2) L us).
Proof.
  intros (ch & t & Hp) Hd Hraw Hcnt. set (e' := MkEntry _ _ _). destruct (pool_parts _ _ _ _ _ _ Hp) as (D & HD & P).
  pose proof (pool_fitting _ _ _ _ _ _ Hp) as F. assert (e ∈ es1 ++ e :: es2) as He by set_solver.
  assert (e_node e ∈ e_node <$> es1 ++ e :: es2) as Hin by by apply list_elem_of_fmap_2.
  pose proof P as [(gs & G & U & sys & HI) P2 P3 P4 P5]. destruct (P5 _ Hin) as [Hl _]. destruct (live_attr s _ Hl) as [a Ea].
  eapply runs_mono; [apply (set_VDHandle_step s gs _ h Hl), (si_used _ _ _ _ _ _ _ HI); by left|].
  intros _ s' (Ha & Hn & Ho & Ht). cbv beta.
  assert (e_node <$> es1 ++ e' :: es2 = e_node <$> es1 ++ e :: es2) as En by by rewrite !fmap_app.
  assert (e_key <$> es1 ++ e' :: es2 = e_key <$> es1 ++ e :: es2) as Ek by by rewrite !fmap_app.
  assert (∀ y, y ∈ es1 ++ e' :: es2 -> y = e' ∨ (y ∈ es1 ++ e :: es2 ∧ (e_node y ≠ e_node e))) as Hx.
  { intros y Hx. destruct (decide (e_node y = e_node e)) as [E|E]; [left|right; split; [set_solver|done]].
    pose proof (pl_nodup _ _ _ _ _ _ _ _ _ Hp) as Hnd. rewrite fmap_app, fmap_cons in Hnd.
    apply NoDup_app in Hnd as (_ & D1 & [D2 _]%NoDup_cons). apply elem_of_app in Hx as [Hx|[->|Hx]%elem_of_cons]; [|done|].
    - destruct (D1 (e_node e)); [rewrite <- E; by apply list_elem_of_fmap_2|by left].
    - destruct D2. rewrite <- E. by apply list_elem_of_fmap_2. }
  exists ch, t. apply (parts_pool s' _ L ch t D us (λ m, if decide (m = e_node e) then Some h else vd_of s m)).
  - rewrite En. split.
    + exists gs, G, U, sys. by eapply astep_session.
    + eapply hashed_kept; [done| |].
      * split; [by apply (objs_rel_frame _ _ _ (as_same _ _ Ha))|]. intros k t' Hk%get_HT_objs. apply get_HT_objs. by rewrite Ht.
      * intros m Hm. apply astep_kept; [done|]. destruct (decide (m = e_node e)) as [->|Hne]; unfold next_of; [by rewrite Hn, Ea|].
        rewrite Ho; [done| |done]. by apply P5, P4.
    + eapply mem_ok_perm; [reflexivity|by apply chunks_attach|]. eapply same_mem; [apply Ha|exact P3].
    + done.
    + intros m Hm. destruct (P5 m Hm) as [Hlm _]. split; [by eapply astep_live|]. unfold vd_of. case_decide as Hme.
      * subst m. by rewrite Hn, Ea.
      * by rewrite Ho.
  - rewrite HD. by rewrite (chunks_attach es1 e es2 (h, x) cnt us Hd).
  - destruct F as [F1 F2 F3 F4 F5 F6 F7]. split; rewrite ?En, ?Ek; try done.
    + intros y [->|[Hxe _]]%Hx; [by apply (F3 e)|by apply F3].
    + intros y [->|[Hxe _]]%Hx; [|by apply F5]. destruct (F5 e He) as [Hk _]. split; [done|]. by intros b c [= <- <-].
    + intros y b c [->|[Hxe Hne]]%Hx; [intros [= <- <-]; by rewrite decide_True|]. intros Hc. rewrite decide_False by done. by eapply F6.
    + intros y [->|[Hxe _]]%Hx; [by apply (F7 e)|by apply F7].
Qed.

(** ** Purging *)

Context (notify_quiet : quiet_notifier notify).

Lemma notify_run s ns L ch t D bs vd key n :
  parts s ns L ch t D bs vd ->
  runs (match notify with Some f => f key n | None => mret tt end) s (λ _ s', alloc s' = alloc s ∧ parts s' ns L ch t D bs vd).
Proof.
  intros Hp. destruct notify as [f|]; [|by apply runs_ret]. destruct (notify_quiet f key n s eq_refl) as (s' & Hr & Hs & Ha).
  eapply runs_eq; [exact Hr|]. split; [exact Ha|]. eapply parts_objs; [exact Hp|exact Hs|]. pose proof (pt_mem _ _ _ _ _ _ _ _ Hp) as [Hu Hex].
  unfold mem_ok. rewrite Ha. by rewrite (proj1 Hs).
Qed.

(** [s0] is the state when the purge began; since then the data may be gone. *)
Lemma PurgeNode_run s0 s es1 e es2 L ch t us D bs j k u v :
  pool_with s0 (es1 ++ e :: es2) L ch t us -> (length (es1 ++ e :: es2) <= fuel)%nat ->
  parts s (e_node <$> es1 ++ e :: es2) L ch t D bs (vd_of s0) -> L k = u ++ e_node e :: v ->
  runs (PurgeNode hashChanging targetNewHash notify fuel (e_key e ++ j) (e_node e)) s (λ r s', r = 0 ∧
    alloc s' = alloc s ∧ node_given_back s' (e_node e) ∧ ∃ x l l' ch' t',
    0 <= x < hh_size t ∧ home t (e_key e ++ j) x ∧ ch x = l ++ e_node e :: l' ∧ ch' x = l ++ l' ∧ shape t t' ∧
    parts s' (e_node <$> es1 ++ es2) (upd_list k (u ++ v) L) ch' t' D bs (vd_of s0) ∧
    fitting (es1 ++ es2) (upd_list k (u ++ v) L) ch' t' (vd_of s0)).
Proof.
  intros Hp0 Hf Hp HL. assert (e ∈ es1 ++ e :: es2) as He by set_solver. unfold PurgeNode.
  eapply runs_bind; [by apply (notify_run s)|]. intros [] s1 [Ha1 P1].
  destruct (pt_live _ _ _ _ _ _ _ _ P1 (e_node e)) as [Hlive _]; [by apply list_elem_of_fmap_2|].
  destruct (remove_run keySize hashChanging targetNewHash fuel s0 s1 _ L ch t us e j Hp0 He Hf (pt_hashed _ _ _ _ _ _ _ _ P1) Hlive) as (x & Hx & Hhome & Hrm).
  eapply runs_bind; [exact Hrm|]. intros r s2 (_ & a & b & Ech & t' & Hsh & Hst & Hd2).
  pose proof (fitting_remove es1 e es2 L ch t t' _ k u v x a b (pool_fitting _ _ _ _ _ _ Hp0) (pl_nodup _ _ _ _ _ _ _ _ _ Hp0) HL Hx Ech Hsh) as Hfit.
  pose proof (ft_nodes _ _ _ _ _ Hfit) as Hnd.
  assert (parts s2 (e_node <$> es1 ++ e :: es2) L (upd_list x (a ++ b) ch) t' D bs (vd_of s0)) as P2.
  { eapply parts_hstep; [exact P1|exact Hst|exact Hd2|]. intros n. rewrite Hnd, !fmap_app, fmap_cons. set_solver. }
  eapply runs_bind; [by eapply parts_RemoveFromLru|]. intros r2 s3 (_ & Ha3 & P3).
  destruct (pt_session _ _ _ _ _ _ _ _ P2) as (gs & F & U & sys & HI). rewrite fmap_app, fmap_cons in P3.
  eapply runs_bind; [apply (parts_ReleaseNode _ _ _ _ _ _ _ _ _ _ P3); [by eapply off_lists|]|].
  - intros Hin. rewrite Hnd, fmap_app in Hin. pose proof (pl_nodup _ _ _ _ _ _ _ _ _ Hp0) as Hnn. rewrite fmap_app, fmap_cons in Hnn.
    apply NoDup_app in Hnn as (_ & D1 & [D2 _]%NoDup_cons). apply elem_of_app in Hin as [Hin|Hin]; [apply (D1 _ Hin); by left|done].
  - intros r3 s4 (_ & Ha4 & Hgb & P4). apply runs_ret. split; [done|]. split.
    { pose proof (proj1 (objs_rel_frame _ _ _ (as_same _ _ (proj1 Hst)))). congruence. }
    split; [exact Hgb|]. exists x, a, b, (upd_list x (a ++ b) ch), t'. rewrite fmap_app.
    split_and!; try done; try lia. apply (upd_list_same x _ ch (λ l, l)).
Qed.

(** The entry's node has left its chain, the store has it back, and the block of
    its data is returned to the allocator. *)
Definition taken_out (j : list Z) s e s' : Prop :=
  unlinked hashChanging targetNewHash (e_key e ++ j) (e_node e) s s' ∧ node_given_back s' (e_node e) ∧
  ∃ b cnt, e_data e = Some (b, cnt) ∧ mal_Free b.1 (alloc s) = Some (0, alloc s').

Lemma PurgeNodeEverything_key_run s es1 e es2 L us j :
  pool s (es1 ++ e :: es2) L us -> (length (es1 ++ e :: es2) <= fuel)%nat -> e_data e ≠ None ->
  ∃ k u v, L k = u ++ e_node e :: v ∧
  runs (PurgeNodeEverything_key hashChanging targetNewHash notify fuel (e_key e ++ j) (e_node e)) s (λ r s', r = 0 ∧
    taken_out j s e s' ∧ pool s' (es1 ++ es2) (upd_list k (u ++ v) L) us).
Proof.
  intros (ch & t & Hp) Hf Hd. assert (e ∈ es1 ++ e :: es2) as He by set_solver.
  destruct (pl_lru _ _ _ _ _ _ _ _ _ Hp e He) as (k & (u & v & HL)%list_elem_of_split). exists k, u, v. split; [done|].
  destruct (e_data e) as [[b cnt]|] eqn:Ed; [|done]. destruct (pool_parts _ _ _ _ _ _ Hp) as (D & HD & P).
  unfold PurgeNodeEverything_key. rewrite (pl_not_null _ _ _ _ _ _ _ Hp He).
  destruct (pl_placed _ _ _ _ _ _ _ _ _ Hp e He) as [Hvd _].
  eapply runs_step; [apply VDHandle_eq; [by eapply pl_live|by eapply Hvd]|].
  destruct (mem_chunk _ _ _ _ _ _ _ (pt_mem _ _ _ _ _ _ _ _ P) He Ed) as (w & Hh). destruct b as [h c].
  pose proof (mal_block _ _ _ _ Hh) as (Hpos & _). cbn [fst]. assert ((h =? INVALID_HANDLE) = false) as -> by (apply Z.eqb_neq; unfold INVALID_HANDLE; lia).
  destruct (proj2 (pl_ok _ _ _ _ _ _ _ _ _ Hp e He) _ _ Ed) as [Hraw _].
  assert (chunks (es1 ++ e :: es2) ++ us ≡ₚ (h, c) :: chunks (es1 ++ es2) ++ us) as Hc by by rewrite (chunks_split es1 e es2 _ _ Ed).
  eapply runs_bind with (Q := λ _ s1, mal_Free h (alloc s) = Some (0, alloc s1) ∧ ∃ D', D'.*1 ≡ₚ (chunks (es1 ++ es2) ++ us).*1 ∧
    parts s1 (e_node <$> es1 ++ e :: es2) L ch t D' (chunks (es1 ++ es2) ++ us) (vd_of s)).
  { eapply runs_bind; [exact (parts_Destroy _ _ _ _ _ _ _ _ (h, c) _ _ _ P HD Hc Hraw)|]. intros r s1 [_ Hr]. by apply runs_ret. }
  intros [] s1 (Hfree & D' & HD' & P1). cbv beta in *. eapply runs_mono; [by eapply PurgeNode_run|].
  intros r s2 (-> & Ha2 & Hgb & x & l & l' & ch' & t' & Hx & (nh & Hnh & Hs) & Ech & Ech' & [Hsz _] & P2 & Hfit).
  pose proof (pl_hashed _ _ _ _ _ _ _ _ _ Hp) as Hd1. split; [done|]. split; [|exists ch', t'; by eapply parts_pool].
  split; [|split; [exact Hgb|exists (h, c), cnt; split; [exact Ed|by rewrite Ha2]]]. exists nh, x, l, l'. split; [exact Hnh|].
  split; [by eapply hash_slot_of_run; [apply Hd1|]|]. rewrite <- Ech, <- Ech'.
  split; eapply hashed_bucket; [exact Hd1|exact Hx|exact (pt_hashed _ _ _ _ _ _ _ _ P2)|by rewrite Hsz].
Qed.

Lemma CachePurge_ok s es L us k j :
  pool s es L us -> (length es <= fuel)%nat -> wf_key keySize k -> (∀ e, e ∈ es -> e_data e ≠ None) ->
  runs (CachePurge keySize hashChanging targetNewHash notify fuel (k ++ j)) s (λ r s', r = 0 ∧
    ((∀ e, e ∈ es -> e_key e ≠ k) ∧ s' = s ∨
     ∃ es1 e es2 i u v, es = es1 ++ e :: es2 ∧ e_key e = k ∧ L i = u ++ e_node e :: v ∧ taken_out j s e s' ∧
       pool s' (es1 ++ es2) (upd_list i (u ++ v) L) us)).
Proof.
  intros (ch & t & Hp) Hf Hk Hd. unfold CachePurge.
  destruct (CacheFind_pool s es L ch t us k j false Hp Hf Hk Hd) as (v0 & r0 & _ & S0 & Hr0 & A0 & B0).
  destruct (CacheFind_pool s es L ch t us k j true Hp Hf Hk Hd) as (v1 & r1 & _ & S1 & Hr1 & A1 & B1).
  destruct (entry_dec es k) as [(e & He & <-)|Hno].
  2: { rewrite B0 in Hr0 by (intros e He Ek; by destruct (Hno e He)). rewrite B1 in Hr1 by (intros e He Ek; by destruct (Hno e He)).
       destruct hashChanging; [|destruct targetNewHash].
       - eapply runs_step; [exact Hr0|]. eapply runs_step; [exact Hr1|]. apply runs_ret. split; [done|]. by left.
       - eapply runs_step; [exact Hr1|]. apply runs_ret. split; [done|]. by left.
       - eapply runs_step; [exact Hr0|]. apply runs_ret. split; [done|]. by left. }
  pose proof (pl_not_null _ _ _ _ _ _ _ Hp He) as Hnull.
  destruct (pl_placed _ _ _ _ _ _ _ _ _ Hp e He) as (_ & x & Hx & (nh & Hnh & Hsx) & Hin).
  assert (r0 = e_node e ∨ e_node e ∉ ch v0 ∧ r0 = CNode_NULL) as C0'.
  { destruct (decide (e_node e ∈ ch v0)) as [Hn|Hn]; [left; by apply A0|right]. split; [done|]. apply B0. intros e' He' Ek.
    by assert (e' = e) as -> by by eapply (pl_key_inj _ _ _ _ _ _ _ _ _ _ _ Hp). }
  assert (nh = false -> r0 = e_node e) as N0 by (intros ->; apply A0; [done..|congruence]).
  assert (nh = true -> r1 = e_node e) as N1 by (intros ->; apply A1; [done..|congruence]).
  assert (runs (r ← PurgeNodeEverything_key hashChanging targetNewHash notify fuel (e_key e ++ j) (e_node e); mret (if r <? 0 then -1 else 0)) s
    (λ r s', r = 0 ∧ ((∀ e', e' ∈ es -> e_key e' ≠ e_key e) ∧ s' = s ∨
      ∃ es1 e0 es2 i u v, es = es1 ++ e0 :: es2 ∧ e_key e0 = e_key e ∧ L i = u ++ e_node e0 :: v ∧ taken_out j s e0 s' ∧
       pool s' (es1 ++ es2) (upd_list i (u ++ v) L) us))) as Hpurge.
  { pose proof He as (es1 & es2 & E)%list_elem_of_split. rewrite E in Hp, Hf.
    destruct (PurgeNodeEverything_key_run s es1 e es2 L us j) as (i & u & v & HL & Hrun); [by exists ch, t|done|by apply Hd|].
    eapply runs_bind; [exact Hrun|]. intros r s' (-> & Hout & Hp'). apply runs_ret. split; [done|]. right.
    exists es1, e, es2, i, u, v. done. }
  destruct hashChanging.
  - eapply runs_step; [exact Hr0|]. destruct C0' as [-> |[Hn ->]]; [rewrite Hnull; exact Hpurge|].
    assert (nh = true) as -> by (destruct nh; [done|]; destruct Hn; congruence).
    change (is_null CNode_NULL) with true. cbv iota. eapply runs_step; [exact Hr1|]. rewrite N1, Hnull by done. exact Hpurge.
  - destruct Hnh as [?| ->]; [done|]. destruct targetNewHash.
    + eapply runs_step; [exact Hr1|]. rewrite N1, Hnull by done. exact Hpurge.
    + eapply runs_step; [exact Hr0|]. rewrite N0, Hnull by done. exact Hpurge.
Qed.
End pool.
