(* ===== verification/PoolStart.v ===== *)
(** * PoolStart: the stores when the pool is formatted

    [CCachePool::TTCMemInit] ([src/cache/cache_pool.cc]) makes the node index,
    the hash table and the node store in this order.  Each is a block of its
    own, so the memory of the others stays; then every chain is empty. *)

From stdpp Require Import gmap.
From S2P Require Import Prelude State Ring BinMalloc Value Mallocator NodeMem NodeGroup NodeIndex NgInfo NodeLinks NodeStore NodeAlloc NodeLru NodeInit NodeSession PoolMem Hash Pool PoolChain PoolStep PoolHash PoolFind PoolInv PoolOps PoolRun.

Section start.
Context {A : Type} `{PoolMemory A}.
Implicit Types (s : cmem A) (n m : CNode).

(** ** The memory *)

#[local] Hint Resolve preserves_NG_AllocateNode preserves_NG_Init preserves_FreeListAdd preserves_FullListAdd preserves_Insert
  preserves_AllocateNG preserves_set_prev preserves_set_next : preserves.
Lemma preserves_fi_wr_loop k i : preserves (A:=A) (PreAllocateIndex2_loop k i).
Proof. revert i. induction k as [|k IH]; intros i; cbn [PreAllocateIndex2_loop]; preserves_body. Qed.
#[local] Hint Resolve preserves_fi_wr_loop : preserves.
Lemma preserves_index_Init ms : preserves (A:=A) (index_Init ms).
Proof. unfold index_Init, PreAllocateIndex2. preserves_body. Qed.
Lemma preserves_nginfo_Init : preserves (A:=A) nginfo_Init.
Proof.
  unfold nginfo_Init, InitHeader, SystemReservedInit, INIT_NG_LIST_HEAD, INIT_NODE_LIST_HEAD, set_LruPrev, set_LruNext, set_NG_NodeLru, NodeID, NG_NodeID. preserves_body.
Qed.

(** ** The hash table *)

Lemma HashBucketNum_range size : 5200 <= size < 2 ^ 38 -> 0 < HashBucketNum size < 2 ^ 30 - 4.
Proof.
  intros Hs. unfold HashBucketNum. assert (0 <= size / 100 - 16 < 2 ^ 32) by (split; [|apply Z.lt_sub_lt_add_r]; Z.to_euclidean_division_equations; lia).
  cbv zeta. rewrite (uwrap_small 64 (size / 100 - 16)), (uwrap_small 32 (size / 100 - 16)) by lia. set (q := (size / 100 - 16) / sizeof_NODE_ID_T).
  assert (9 <= q < 2 ^ 30 - 4) by (subst q; unfold sizeof_NODE_ID_T; Z.to_euclidean_division_equations; lia).
  rewrite swrap_small by lia. rewrite uwrap_small by (Z.to_euclidean_division_equations; lia). Z.to_euclidean_division_equations; lia.
Qed.

Lemma init_buckets_lookup k hs b v :
  0 <= v < hs -> Z.of_nat k <= hs -> (hs - Z.of_nat k <= v ∨ b !! v = Some INVALID_NODE_ID) -> init_buckets k hs b !! v = Some INVALID_NODE_ID.
Proof.
  revert b. induction k as [|k IH]; intros b Hv Hk Hb; [by destruct Hb; [lia|]|]. cbn [init_buckets]. apply IH; [done|lia|].
  destruct (decide (v = hs - Z.of_nat (S k))) as [->|]; [right; by rewrite lookup_insert_eq|].
  destruct Hb; [left; lia|right; by rewrite lookup_insert_ne].
Qed.

(** Everything that was there, and the table *)
Definition table_made (hs ks : Z) s s' : Prop :=
  (∃ t, get_HT (hash s') s' = Some t ∧ hh_size t = hs ∧ hh_free t = hs ∧ hh_node t = 0 ∧ hh_fixedsize t = ks ∧
    ∀ v, 0 <= v < hs -> hh_buckets t !! v = Some INVALID_NODE_ID) ∧
  (∀ h o, objs s !! h = Some o -> objs s' !! h = Some o) ∧ firstIndex s' = firstIndex s ∧ step s' = step s.

Lemma hash_Init_run s hs ks D us :
  0 < hs < 2 ^ 30 - 4 -> mem_ok D us s ->
  runs (hash_Init hs ks) s (λ r s', mem_ok D us s' ∧ (r = -1 ∨ r = 0 ∧ table_made hs ks s s')).
Proof.
  intros Hs Hm. unfold hash_Init. set (o := OHash _). set (n := u64 _).
  assert (n = sizeof_NODE_ID_T * hs + sizeof_HASH_T) as En by (subst n; unfold sizeof_NODE_ID_T, sizeof_HASH_T; rewrite uwrap_small; lia).
  assert (0 < n < 2 ^ 32) as Hn by (rewrite En; unfold sizeof_NODE_ID_T, sizeof_HASH_T; lia).
  destruct (M_CALLOC_run n o s (mem_ok_owned _ _ _ Hm) Hn ltac:(by rewrite En)) as (v & a & Hr & Hv).
  destruct (preserves_calloc n o ltac:(rewrite uwrap_small by lia; by rewrite En) ltac:(rewrite uwrap_small; lia) D us s v _ Hm Hr) as [Hm1 _].
  eapply runs_step; [exact Hr|]. rewrite (Z.eqb_sym INVALID_HANDLE). destruct (v =? INVALID_HANDLE); [apply runs_ret; by split; [|left]|].
  destruct Hv as (Hpos & Hnone & _). set (s1 := put_obj v o _) in *. eapply runs_step; [done|]. set (s2 := _ : cmem A).
  assert (get_HT (hash s2) s2 = Some (MkHash hs 0 0 0 ∅)) as Ht by (apply get_HT_objs; simpl; by rewrite lookup_insert_eq).
  set (f1 := λ h, set_hh_fixedsize ks $ set_hh_node 0 $ set_hh_free hs $ set_hh_size hs h).
  set (f2 := λ h, set_hh_buckets (init_buckets (Z.to_nat hs) hs (hh_buckets h)) h).
  assert (∀ f t s, get_HT (hash s) s = Some t -> hash_put f s = Some (tt, put_obj (hash s) (OHash (f t)) s)) as Hput.
  { intros f t s0 E. unfold hash_put. by rewrite E. }
  eapply runs_step; [exact (Hput f1 _ s2 Ht)|]. destruct (table_write s2 _ (f1 (MkHash hs 0 0 0 ∅)) Ht eq_refl) as (A3 & _ & _ & T3). set (s3 := put_obj _ _ s2) in *.
  eapply runs_step; [exact (Hput f2 _ s3 T3)|]. destruct (table_write s3 _ (f2 (f1 (MkHash hs 0 0 0 ∅))) T3 eq_refl) as (A4 & _ & _ & T4). set (s4 := put_obj _ _ s3) in *.
  apply runs_ret. split; [|right; split; [done|]].
  - eapply same_mem; [apply A4|]. eapply same_mem; [apply A3|]. exact Hm1.
  - split; [|split; [|done]].
    + eexists. split; [exact T4|]. split_and!; [done..|]. intros w Hw. apply init_buckets_lookup; [done|lia|left; lia].
    + intros h x Hx. assert (h ≠ v) as Hne by congruence. simpl. by rewrite !lookup_insert_ne.
Qed.

(** ** The start *)

Lemma fresh_index_kept hs ks D us s s' k : mem_ok D us s' -> table_made hs ks s s' -> fresh_index s k -> fresh_index s' k.
Proof.
  intros Hm (_ & Hk & Hfi & _) (_ & f & Hf & H1' & H2' & H3'). split; [by eapply mem_ok_owned|]. exists f.
  split; [apply get_FI_objs; rewrite Hfi; apply Hk; by apply get_FI_objs|]. split; [|done]. intros i p Hi Hp.
  destruct (H1' i p Hi Hp) as [? Hs]. split; [done|]. apply get_SI_objs, Hk. by apply get_SI_objs.
Qed.

Lemma no_nodes N : all_nodes N (λ _, []) = [] ∧ (0 <= N -> Z.of_nat (empty_buckets N (λ _, [])) = N).
Proof.
  split.
  - unfold all_nodes. by induction (seqZ 0 N).
  - intros HN. unfold empty_buckets. assert (filter (λ _ : Z, @nil CNode = []) (seqZ 0 N) = seqZ 0 N) as ->.
    { induction (seqZ 0 N) as [|x l IH]; [done|]. rewrite filter_cons, decide_True by done. by rewrite IH. }
    rewrite length_seqZ. lia.
Qed.

Lemma pool_start_ok (hashChanging targetNewHash : bool) s0 ms ks r1 s1 r2 s2 r3 s3 :
  mem_ok [] [] s0 -> objs s0 = ∅ -> 0 < step s0 -> 5200 <= ms < 2 ^ 38 ->
  index_Init ms s0 = Some (r1, s1) -> r1 = 0 ->
  hash_Init (HashBucketNum ms) ks s1 = Some (r2, s2) -> r2 = 0 ->
  nginfo_Init s2 = Some (r3, s3) -> r3 = 0 ->
  pool ks hashChanging targetNewHash s3 [] (λ _, []) [].
Proof.
  intros Hm Hob Hst Hms R1 -> R2 -> R3 ->. pose proof (HashBucketNum_range ms ltac:(lia)) as Hhs. set (hs := HashBucketNum ms) in *.
  destruct (preserves_index_Init ms _ _ _ _ _ Hm R1) as [Hm1 _].
  destruct (runs_inv _ _ _ _ _ (index_Init_run s0 ms (mem_ok_owned _ _ _ Hm) ltac:(lia)) R1) as [(_ & Hf & Hs1)|?]; [|done].
  destruct (runs_inv _ _ _ _ _ (hash_Init_run s1 hs ks _ _ ltac:(subst hs; lia) Hm1) R2) as (Hm2 & [?|(_ & Hmade)]); [done|].
  pose proof Hmade as ((t & Ht & Ht1 & Ht2 & Ht3 & Ht4 & Ht5) & _ & _ & Hs2).
  destruct (runs_inv _ _ _ _ _ (nginfo_Init_run s2 (fresh_index_kept _ _ _ _ _ _ _ Hm2 Hmade Hf) ltac:(lia)) R3) as [(_ & sys & Hss)|?]; [|done].
  destruct (preserves_nginfo_Init _ _ _ _ _ Hm2 R3) as [Hm3 [Hh Hk]].
  destruct (no_nodes hs) as [N1 N2]. specialize (N2 ltac:(lia)).
  exists (λ _, []), t. split; rewrite ?Ht1; try done.
  - exists [sys], [], [], sys. by apply session_start.
  - split; rewrite ?Ht1, ?N1, ?N2.
    + rewrite Hh. apply get_HT_objs, Hk. by apply get_HT_objs.
    + intros v Hv. simpl. unfold bucket. by rewrite Ht5.
    + constructor.
    + rewrite Ht2. symmetry. apply uwrap_small. lia.
    + by rewrite Ht3.
  - split; [lia|done].
  - by rewrite N1.
  - by intros e ?%elem_of_nil.
  - constructor.
  - by intros e ?%elem_of_nil.
  - by intros e ?%elem_of_nil.
  - exists []. split; [done|]. exact Hm3.
Qed.
End start.
