(* ===== verification/PoolSession.v ===== *)
(** * PoolSession: sequences of operations on the pool

    The states that calls on the pool ([src/cache/cache_pool.cc]) and on its
    allocator lead to, from a pool just formatted: allocating a node, storing
    its rows in a block and setting its handle, finding, purging, and a restart
    that begins to rehash.  The demands on the caller are those of
    [cache_process.cc]: it looks a key up before it allocates a node for it, and
    gives the node its data before the next search. *)

From stdpp Require Import gmap.
From S2P Require Import Prelude State Ring BinMalloc Value Mallocator RawData RawBuf RawRow RawRep DataChunk NodeMem NodeGroup NodeIndex NgInfo NodeLinks NodeStore NodeAlloc NodeLru NodeInit NodeSession PoolMem Hash Pool PoolChain PoolStep PoolHash PoolFind PoolInv PoolOps PoolRun PoolStart.

Section session.
Context {A : Type} `{PoolMemory A} `{DestroySize A}.
Context (keySize : Z) (notify : option (list Z -> CNode -> CM A unit)) (fuel : nat).
Context (notify_quiet : quiet_notifier notify).
Implicit Types (s : cmem A) (n : CNode) (L : Z -> list CNode) (us : list block) (e : entry) (es : list entry) (b hc tn : bool).
Abbreviation pool := (pool keySize).

(** ** The clients' blocks *)

Lemma pool_client hc tn s s' es L us us' :
  pool hc tn s es L us -> objs_same s s' ->
  (∀ D, D.*1 ≡ₚ (chunks es ++ us).*1 -> mem_ok D (chunks es ++ us) s ->
     ∃ D', D'.*1 ≡ₚ (chunks es ++ us').*1 ∧ mem_ok D' (chunks es ++ us') s') -> pool hc tn s' es L us'.
Proof.
  intros (ch & t & Hp) Hs Hm. destruct (pool_parts _ _ _ _ _ _ _ _ _ Hp) as (D & HD & P).
  destruct (Hm D HD (pt_mem _ _ _ _ _ _ _ _ P)) as (D' & HD' & Hm'). exists ch, t.
  eapply parts_pool; [eapply parts_objs; [exact P|exact Hs|exact Hm']|exact HD'|]. by eapply pool_fitting.
Qed.

Lemma on_mem_inv {X} (m : ST A X) s x s' : on_mem m s = Some (x, s') -> ∃ a, m (alloc s) = Some (x, a) ∧ s' = set_alloc a s.
Proof. unfold on_mem. destruct (m (alloc s)) as [[y a]|]; [|done]. intros [= <- <-]. by exists a. Qed.

Lemma pool_Malloc hc tn s es L us sz h s' bs :
  pool hc tn s es L us -> 0 <= sz < 2 ^ 32 -> on_mem (mal_Malloc sz) s = Some (h, s') -> h ≠ 0 ->
  fst <$> mal_ChunkSize h (alloc s') = Some (Zlen bs) -> fst <$> peeks h (length bs) (alloc s') = Some bs ->
  pool hc tn s' es L ((h, bs) :: us).
Proof.
  intros Hp Hn (a & Hr & ->)%on_mem_inv Hh Hsz Hbs. simpl in *. eapply pool_client; [exact Hp|done|].
  intros D HD [(u & Ho & Hu) (ex & Hex)].
  destruct (runs_inv _ _ _ _ _ (mal_Malloc_law _ _ _ Hex Hn) Hr) as [[? _]|(bs' & _ & Hex')]; [done|].
  assert (bs' = bs) as ->.
  { rewrite (mal_ChunkSize_law _ _ _ _ Hex') in Hsz. cbn in Hsz. injection Hsz as Hl.
    pose proof (peeks_at a h [] bs' [] _ 0 (length bs) ltac:(rewrite app_nil_r; exact Hex') eq_refl ltac:(lia)) as Hq.
    rewrite Z.add_0_r in Hq. rewrite Hq in Hbs. cbn in Hbs. by injection Hbs as ->. }
  pose proof (pm_malloc _ _ _ _ _ Ho (proj1 Hn) Hr) as Ho'. assert ((h =? INVALID_HANDLE) = false) as Hq by by apply Z.eqb_neq.
  rewrite Hq in Ho'. exists ((h, sz) :: D). split.
  - rewrite fmap_cons, HD, !fmap_app. cbn [fmap list_fmap]. solve_Permutation.
  - split; [by exists u|]. exists ex. eapply mal_perm; [|exact Hex']. solve_Permutation.
Qed.

Lemma pool_store hc tn s es L h bs us k v bs' x s' :
  pool hc tn s es L ((h, bs) :: us) -> is_byte v -> wr bs k v = Some bs' -> on_mem (mal_store (h + k) v) s = Some (x, s') ->
  pool hc tn s' es L ((h, bs') :: us).
Proof.
  intros Hp Hv Hw (a & Hr & ->)%on_mem_inv. eapply pool_client; [exact Hp|done|].
  intros D HD [(u & Ho & Hu) (ex & Hex)]. exists D. split; [rewrite HD, !fmap_app; done|].
  assert (mal_holds (alloc s) ((h, bs) :: chunks es ++ us ++ ex)) as Hb.
  { eapply mal_perm; [|exact Hex]. solve_Permutation. }
  split.
  - exists u. split; [|done]. by eapply pm_store.
  - exists ex. pose proof (runs_inv _ _ _ _ _ (mal_store_law _ _ _ _ _ _ _ Hb Hv Hw) Hr) as Hq. cbv beta in Hq.
    eapply mal_perm; [|exact Hq]. solve_Permutation.
Qed.

Lemma pool_Free hc tn s es L h bs us x s' :
  pool hc tn s es L ((h, bs) :: us) -> on_mem (mal_Free h) s = Some (x, s') -> pool hc tn s' es L us.
Proof.
  intros Hp (a & Hr & ->)%on_mem_inv. eapply pool_client; [exact Hp|done|]. intros D HD Hm.
  assert (chunks es ++ (h, bs) :: us ≡ₚ (h, bs) :: chunks es ++ us) as Hc by by rewrite Permutation_middle.
  destruct (mem_Free s D _ h bs _ HD Hc Hm) as (a' & D' & Hf & HD' & Hm'). rewrite Hf in Hr. injection Hr as _ <-. by exists D'.
Qed.

(** A restart that begins to rehash: every node is still where it was. *)
Lemma pool_rehash tn tn' s es L us : pool false tn s es L us -> pool true tn' s es L us.
Proof.
  intros (ch & t & [P1 P2 P3 P4 P5 P6 P7 P8 P9]). exists ch, t. split; try done.
  intros e He. destruct (P8 e He) as (Hv & v & Hr & (nh & _ & Hs) & Hin). split; [done|]. exists v. split; [done|]. split; [|done].
  exists nh. split; [by left|done].
Qed.

(** ** Sessions

    [pool_session hc tn s es L us]: calls with [hashChanging] [hc] and
    [targetNewHash] [tn] have led to the state [s].  [es], [L] and [us] are the
    account a caller keeps of them: the entries it has made and not purged, the
    order in which it listed their nodes, the blocks it holds.  That the state
    agrees with the account is not part of the definition: it is what
    [pool_session_sound] proves, since [pool] reads chains, rings and blocks
    from the state. *)

Definition all_data es : Prop := ∀ e, e ∈ es -> e_data e ≠ None.

Inductive pool_session : bool -> bool -> cmem A -> list entry -> (Z -> list CNode) -> list block -> Prop :=
  | pses_start hc tn s0 ms s1 s2 s3 :
      mem_ok [] [] s0 -> objs s0 = ∅ -> 0 < step s0 -> 5200 <= ms < 2 ^ 38 -> index_Init ms s0 = Some (0, s1) ->
      hash_Init (HashBucketNum ms) keySize s1 = Some (0, s2) -> nginfo_Init s2 = Some (0, s3) ->
      pool_session hc tn s3 [] (λ _, []) []
  | pses_allocate hc tn s es L us k j n s' :
      pool_session hc tn s es L us -> wf_key keySize k -> (k ∉ e_key <$> es) -> index_finds s ->
      CacheAllocate tn (k ++ j) s = Some (n, s') -> n ≠ CNode_NULL ->
      pool_session hc tn s' (MkEntry n k None :: es) (upd_list SYS_CLEAN_NODE_INDEX (n :: L SYS_CLEAN_NODE_INDEX) L) us
  | pses_no_node hc tn s es L us k j s' :
      pool_session hc tn s es L us -> wf_key keySize k -> (k ∉ e_key <$> es) -> index_finds s ->
      CacheAllocate tn (k ++ j) s = Some (CNode_NULL, s') -> pool_session hc tn s' es L us
  | pses_data hc tn s es1 e es2 L us h x cnt r s' :
      pool_session hc tn s (es1 ++ e :: es2) L ((h, x) :: us) -> e_data e = None -> raw_chunk (e_key e) cnt x -> 0 <= cnt < 2 ^ 32 ->
      set_VDHandle (e_node e) h s = Some (r, s') ->
      pool_session hc tn s' (es1 ++ MkEntry (e_node e) (e_key e) (Some ((h, x), cnt)) :: es2) L us
  | pses_find hc tn s es L us k j n s' :
      pool_session hc tn s es L us -> (length es <= fuel)%nat -> wf_key keySize k -> all_data es ->
      CacheFindAutoChoseHash keySize hc tn notify fuel (k ++ j) s = Some (n, s') -> pool_session hc tn s' es L us
  | pses_purge hc tn s es1 e es2 L us k u v j r s' :
      pool_session hc tn s (es1 ++ e :: es2) L us -> (length (es1 ++ e :: es2) <= fuel)%nat -> all_data (es1 ++ e :: es2) ->
      L k = u ++ e_node e :: v -> CachePurge keySize hc tn notify fuel (e_key e ++ j) s = Some (r, s') ->
      pool_session hc tn s' (es1 ++ es2) (upd_list k (u ++ v) L) us
  | pses_rehash tn tn' s es L us : pool_session false tn s es L us -> pool_session true tn' s es L us
  | pses_malloc hc tn s es L us sz h s' bs :
      pool_session hc tn s es L us -> 0 <= sz < 2 ^ 32 -> on_mem (mal_Malloc sz) s = Some (h, s') -> h ≠ 0 ->
      fst <$> mal_ChunkSize h (alloc s') = Some (Zlen bs) -> fst <$> peeks h (length bs) (alloc s') = Some bs ->
      pool_session hc tn s' es L ((h, bs) :: us)
  | pses_store hc tn s es L h bs us k v bs' x s' :
      pool_session hc tn s es L ((h, bs) :: us) -> is_byte v -> wr bs k v = Some bs' ->
      on_mem (mal_store (h + k) v) s = Some (x, s') -> pool_session hc tn s' es L ((h, bs') :: us)
  | pses_free hc tn s es L h bs us x s' :
      pool_session hc tn s es L ((h, bs) :: us) -> on_mem (mal_Free h) s = Some (x, s') -> pool_session hc tn s' es L us.

(** Storing several bytes *)
Lemma pses_pokes hc tn s es L us h x y z l s' :
  pool_session hc tn s es L ((h, x ++ y ++ z) :: us) -> length y = length l -> bytes l ->
  on_mem (pokes (h + Zlen x) l) s = Some (tt, s') -> pool_session hc tn s' es L ((h, x ++ l ++ z) :: us).
Proof.
  revert s x y. induction l as [|c l IH]; intros s x y Hs Hl Hb (a & Hr & ->)%on_mem_inv.
  - destruct y; [|done]. injection Hr as <-. by destruct s.
  - destruct y as [|d y]; [done|]. injection Hl as Hl. apply Forall_cons in Hb as [Hc Hb]. cbn [pokes] in Hr.
    apply bind_inv in Hr as ([] & a1 & Hst & Hr).
    assert (pool_session hc tn (set_alloc a1 s) es L ((h, (x ++ [c]) ++ y ++ z) :: us)) as Hs1.
    { eapply (pses_store hc tn s es L h _ us (Zlen x) c); [exact Hs|exact Hc| |unfold on_mem; by rewrite Hst].
      rewrite wr_is_Some by (rewrite length_app; simpl; lia). rewrite Nat2Z.id, insert_app_r_alt, Nat.sub_diag by lia. by rewrite <- app_assoc. }
    specialize (IH (set_alloc a1 s) (x ++ [c]) y Hs1 Hl Hb). rewrite <- app_assoc in IH. apply IH. unfold on_mem. simpl.
    rewrite length_app. simpl. replace (h + Z.of_nat (length x + 1)) with (h + Zlen x + 1) by lia. by rewrite Hr.
Qed.

Lemma split_unique {X} (x : X) u v u' v' : NoDup (u ++ x :: v) -> u ++ x :: v = u' ++ x :: v' -> u = u' ∧ v = v'.
Proof.
  revert u'. induction u as [|y u IH]; intros [|z u'] Hnd E; simpl in *.
  - by injection E as ->.
  - injection E as <- ->. apply NoDup_cons in Hnd as [Hn _]. destruct Hn. set_solver.
  - injection E as -> <-. apply NoDup_cons in Hnd as [Hn _]. destruct Hn. set_solver.
  - injection E as <- E. apply NoDup_cons in Hnd as [_ Hnd]. by destruct (IH u' Hnd E) as [-> ->].
Qed.

(** The list that holds a node is the only one that does. *)
Lemma pool_list_unique hc tn s es L us k u n v k' u' v' :
  pool hc tn s es L us -> L k = u ++ n :: v -> L k' = u' ++ n :: v' -> k = k' ∧ u = u' ∧ v = v'.
Proof.
  intros (ch & t & Hp) E E'. destruct (pl_session _ _ _ _ _ _ _ _ _ Hp) as (gs & F & U & sys & HI).
  pose proof (si_lists _ _ _ _ _ _ _ HI) as HL.
  assert (k = k') as <- by (eapply (ls_apart _ _ _ _ HL _ _ n); [rewrite E|rewrite E']; set_solver). split; [done|].
  assert (0 <= k < 3) as Hk by (apply (ls_heads _ _ _ _ HL); rewrite E; by destruct u).
  destruct (ls_rings _ _ _ _ HL k Hk) as ([_ Hnd]%NoDup_cons & _). rewrite E in E'. rewrite E in Hnd. by eapply split_unique.
Qed.
(** An entry is in one place of the pool. *)
Lemma pool_entry_unique hc tn s es1 e es2 L us es1' e' es2' :
  pool hc tn s (es1 ++ e :: es2) L us -> es1 ++ e :: es2 = es1' ++ e' :: es2' -> e_key e = e_key e' ->
  es1 = es1' ∧ e = e' ∧ es2 = es2'.
Proof.
  intros (ch & t & Hp) E Ek. assert (e = e') as <-.
  { eapply (pl_key_inj _ _ _ _ _ _ _ _ _ _ _ Hp); [|rewrite E|done]; set_solver. }
  pose proof (pl_keys _ _ _ _ _ _ _ _ _ Hp) as Hnd%NoDup_fmap_1.
  by destruct (split_unique _ _ _ _ _ Hnd E) as [-> ->].
Qed.

(** *** What the invariant says of the state *)

Lemma pool_lru hc tn s es L us : pool hc tn s es L us -> lru_lists s L.
Proof.
  intros (ch & t & Hp). destruct (pl_session _ _ _ _ _ _ _ _ _ Hp) as (gs & F & U & sys & HI). by eapply session_rings.
Qed.
Lemma pool_count hc tn s es L us : pool hc tn s es L us -> hash_get hh_node s = Some (u32 (Zlen es), s).
Proof.
  intros (ch & t & Hp). destruct (pl_hashed _ _ _ _ _ _ _ _ _ Hp) as [Ht _ _ _ Hn]. unfold hash_get. rewrite Ht.
  cbn [mbind option_bind]. rewrite Hn, (Permutation_length (pl_nodes _ _ _ _ _ _ _ _ _ Hp)). by rewrite length_fmap.
Qed.
Lemma pool_id hc tn s es L us e :
  pool hc tn s es L us -> e ∈ es -> ∃ id, node_id s (e_node e) = Some id ∧ Search id s = Some (e_node e).
Proof. intros (ch & t & Hp) He. apply live_id. by eapply pl_live. Qed.
Lemma pool_on_list hc tn s es L us e :
  pool hc tn s es L us -> e ∈ es -> ∃ i, 0 <= i < 3 ∧ e_node e ∈ L i ∧ ∀ i', e_node e ∈ L i' -> i' = i.
Proof.
  intros (ch & t & Hp) He. destruct (pl_lru _ _ _ _ _ _ _ _ _ Hp e He) as [i Hi].
  destruct (pl_session _ _ _ _ _ _ _ _ _ Hp) as (gs & F & U & sys & HI). pose proof (si_lists _ _ _ _ _ _ _ HI) as HL.
  exists i. split; [|split; [done|]].
  - apply (ls_heads _ _ _ _ HL). intros E. rewrite E in Hi. by apply elem_of_nil in Hi.
  - intros i' Hi'. by eapply (ls_apart _ _ _ _ HL).
Qed.
Lemma pool_in_chain hc tn s es L us e : pool hc tn s es L us -> e ∈ es -> in_chain hc tn (e_key e) (e_node e) s.
Proof.
  intros (ch & t & Hp) He. destruct (pl_placed _ _ _ _ _ _ _ _ _ Hp e He) as (_ & v & Hv & (nh & Hnh & Hs) & Hin).
  pose proof (pl_hashed _ _ _ _ _ _ _ _ _ Hp) as Hd. exists nh, v, (ch v). split; [done|].
  split; [by eapply hash_slot_of_run; [apply Hd|]|]. split; [by eapply hashed_bucket|done].
Qed.
Lemma pool_data hc tn s es L us e h bs cnt :
  pool hc tn s es L us -> e ∈ es -> e_data e = Some ((h, bs), cnt) ->
  VDHandle (e_node e) s = Some (h, s) ∧ on_mem (chunk_Key h) s = Some (h + 16, s) ∧
  on_mem (peeks (h + 16) (length (e_key e))) s = Some (e_key e, s) ∧
  NodeRowsCount (e_node e) s = Some (s32 cnt, s).
Proof.
  intros (ch & t & Hp) He Hd. pose proof (pl_live _ _ _ _ _ _ _ _ _ _ Hp He) as Hl.
  destruct (pl_mem _ _ _ _ _ _ _ _ _ Hp) as (D & _ & Hm). destruct (mem_chunk _ _ _ _ _ _ _ Hm He Hd) as (v & Hh).
  destruct (proj2 (pl_ok _ _ _ _ _ _ _ _ _ Hp e He) _ _ Hd) as [(sz & meta & z & Hml & Hbs) Hc]. simpl in Hbs. subst bs.
  pose proof (VDHandle_eq s _ h Hl (proj1 (pl_placed _ _ _ _ _ _ _ _ _ Hp e He) _ _ Hd)) as Hvd. split; [done|].
  unfold on_mem. rewrite (chunk_Key_run _ _ _ _ _ _ _ _ Hml Hh), (key_bytes_run _ _ _ _ _ _ _ _ Hml Hh). split; [by destruct s|].
  split; [by destruct s|]. unfold NodeRowsCount. assert (is_null (e_node e) = false) as -> by apply Hl. mstep Hvd.
  pose proof (mal_block _ _ _ _ Hh) as (Hpos & _). assert ((h =? INVALID_HANDLE) = false) as -> by (apply Z.eqb_neq; unfold INVALID_HANDLE; lia).
  assert (on_mem (chunk_TotalRows h) s = Some (cnt, s)) as Hrows.
  { unfold on_mem. rewrite (chunk_TotalRows_run _ _ _ _ _ _ _ _ Hml Hh), uwrap_small by lia. by destruct s. }
  by mstep Hrows.
Qed.
Lemma pool_keys hc tn s es L us : pool hc tn s es L us -> NoDup (e_key <$> es) ∧ NoDup (e_node <$> es).
Proof. intros (ch & t & Hp). split; [apply Hp|by eapply pl_nodup]. Qed.
(** A key that the pool does not have is not found. *)
Lemma pool_gone hc tn s es L us k j nh :
  pool hc tn s es L us -> (length es <= fuel)%nat -> wf_key keySize k -> all_data es -> (k ∉ e_key <$> es) ->
  CacheFind keySize hc tn notify fuel (k ++ j) nh s = Some (CNode_NULL, s).
Proof.
  intros (ch & t & Hp) Hf Hk Hd Hno.
  destruct (CacheFind_pool keySize hc tn notify fuel s es L ch t us k j nh Hp Hf Hk Hd) as (v & r & _ & _ & Hr & _ & R).
  rewrite R in Hr; [done|]. intros e He E. destruct Hno. rewrite <- E. by apply list_elem_of_fmap_2.
Qed.

(** In every state of a session the memory is as the account says. *)
Theorem pool_session_sound hc tn s es L us : pool_session hc tn s es L us -> pool hc tn s es L us.
Proof.
  induction 1 as [hc tn s0 ms s1 s2 s3 Hm Hob Hst Hms R1 R2 R3|hc tn s es L us k j n s' _ IH Hk Hnk Hix Hr Hn
    |hc tn s es L us k j s' _ IH Hk Hnk Hix Hr|hc tn s es1 e es2 L us h x cnt r s' _ IH Hd Hraw Hc Hr
    |hc tn s es L us k j n s' _ IH Hf Hk Hd Hr|hc tn s es1 e es2 L us k u v j r s' _ IH Hf Hd HL Hr
    |tn tn' s es L us _ IH|hc tn s es L us sz h s' bs _ IH Hsz Hr Hh Hcs Hpk|hc tn s es L h bs us k v bs' x s' _ IH Hv Hw Hr
    |hc tn s es L h bs us x s' _ IH Hr].
  - by eapply pool_start_ok.
  - destruct (runs_inv _ _ _ _ _ (CacheAllocate_ok keySize hc tn s es L us k j IH Hk Hnk Hix) Hr) as [(? & _)|(_ & _ & ?)]; [done|assumption].
  - destruct (runs_inv _ _ _ _ _ (CacheAllocate_ok keySize hc tn s es L us k j IH Hk Hnk Hix) Hr) as [(_ & ? & _)|(_ & _ & Hp)]; [assumption|].
    destruct Hp as (ch & t & Hp). pose proof (pl_not_null _ _ _ _ _ _ _ _ _ _ Hp ltac:(by left)). done.
  - exact (runs_inv _ _ _ _ _ (set_VDHandle_ok keySize hc tn s es1 e es2 L us h x cnt IH Hd Hraw Hc) Hr).
  - destruct (CacheFind_ok keySize hc tn notify fuel s es L us k j IH Hf Hk Hd) as (s2 & Hr2 & Hp & _).
    rewrite Hr2 in Hr. by injection Hr as _ <-.
  - assert (wf_key keySize (e_key e)) as Hk.
    { destruct IH as (ch & t & Hp). apply (pl_ok _ _ _ _ _ _ _ _ _ Hp e). set_solver. }
    destruct (runs_inv _ _ _ _ _ (CachePurge_ok keySize hc tn notify fuel notify_quiet s _ L us (e_key e) j IH Hf Hk Hd) Hr)
      as (_ & [[Hno _]|(es1' & e' & es2' & k' & u' & v' & E & Ek & HL' & _ & Hp')]); [by destruct (Hno e ltac:(set_solver))|].
    destruct (pool_entry_unique _ _ _ _ _ _ _ _ _ _ _ IH E (eq_sym Ek)) as (<- & <- & <-).
    destruct (pool_list_unique _ _ _ _ _ _ _ _ _ _ _ _ _ IH HL HL') as (<- & <- & <-). done.
  - by eapply pool_rehash.
  - by eapply pool_Malloc.
  - by eapply pool_store.
  - by eapply pool_Free.
Qed.
End session.
