(* ===== verification/PoolSpec.v ===== *)
(** * PoolSpec: what the cache pool promises

    The theorems about [CCachePool] ([src/cache/cache_pool.cc]) on top of
    [CBinMalloc] ([src/cache/bin_malloc.cc]).  [pool] ([PoolInv]) says what is
    in memory: entries, chains, rings and blocks.  Every state of a session
    ([PoolSession]) is such a state; [CacheAllocate] and [CachePurge] are
    described from one such state to the next.  [node_of] is the table from
    keys to nodes that the hash chains implement. *)

From stdpp Require Import gmap.
From S2P Require Import Prelude State Ring BinMalloc BinHeap BinClient BinSpec BinBytes Value Mallocator RawData RawBuf RawRow RawRep DataChunk NodeMem NodeGroup NodeIndex NgInfo NodeLinks NodeStore NodeAlloc NodeLru NodeInit NodeSession NodeSpec PoolMem PoolBin Hash Pool PoolChain PoolStep PoolHash PoolFind PoolInv PoolOps PoolRun PoolStart PoolSession.

Section spec.
Context (keySize : Z) (notify : option (list Z -> CNode -> CM CBinMalloc unit)) (fuel : nat).
Implicit Types (s : cmem CBinMalloc) (L : Z -> list CNode) (us : list block) (es : list entry) (k j : list Z) (hc tn : bool).

(** [C9] In every state of a session the pool's memory is as the calls made it.
    Keys are pairwise different and so are nodes, and the hash table counts the
    nodes.  The three LRU rings in memory are the lists [L].  Each entry's node
    is found by its id, is in a hash chain that its key leads to, and is on
    exactly one of the rings; once its handle is set it leads to a chunk from
    which the pool reads the key and the number of rows. *)
Theorem pool_consistent hc tn s es L us :
  quiet_notifier notify -> pool_session keySize notify fuel hc tn s es L us ->
  (NoDup (e_key <$> es) ∧ NoDup (e_node <$> es) ∧ hash_get hh_node s = Some (u32 (Zlen es), s)) ∧
  lru_lists s L ∧
  ∀ e, e ∈ es ->
    (∃ id, node_id s (e_node e) = Some id ∧ Search id s = Some (e_node e)) ∧
    in_chain hc tn (e_key e) (e_node e) s ∧
    (∃ i, 0 <= i < 3 ∧ e_node e ∈ L i ∧ ∀ i', e_node e ∈ L i' -> i' = i) ∧
    ∀ h bs cnt, e_data e = Some ((h, bs), cnt) ->
      VDHandle (e_node e) s = Some (h, s) ∧ on_mem (chunk_Key h) s = Some (h + 16, s) ∧
      on_mem (peeks (h + 16) (length (e_key e))) s = Some (e_key e, s) ∧
      NodeRowsCount (e_node e) s = Some (s32 cnt, s).
Proof.
  intros Hq Hp%pool_session_sound; [|exact Hq]. destruct (pool_keys _ _ _ _ _ _ _ Hp) as [Hk Hn].
  split; [split_and!; [done..|by eapply pool_count]|]. split; [by eapply pool_lru|]. intros e He.
  split; [by eapply pool_id|]. split; [by eapply pool_in_chain|]. split; [by eapply pool_on_list|].
  intros h bs cnt Hd. by eapply pool_data.
Qed.

(** [C10] Looking a key up gives its node, or null when the key is not in the
    pool.  While the table is rehashed the node is moved on the way, so that
    afterwards the new chain alone leads to it; otherwise nothing changes. *)
Theorem CacheFind_correct hc tn s es L us k j :
  quiet_notifier notify -> pool_session keySize notify fuel hc tn s es L us -> (length es <= fuel)%nat ->
  wf_key keySize k -> all_data es ->
  ∃ s', CacheFindAutoChoseHash keySize hc tn notify fuel (k ++ j) s = Some (node_of es k, s') ∧
    pool_session keySize notify fuel hc tn s' es L us ∧ (hc = false -> s' = s) ∧
    CacheFind keySize hc tn notify fuel (k ++ j) tn s' = Some (node_of es k, s').
Proof.
  intros Hq Hs Hf Hk Hd. pose proof (pool_session_sound _ _ _ Hq _ _ _ _ _ _ Hs) as Hp.
  destruct (CacheFind_ok keySize hc tn notify fuel s es L us k j Hp Hf Hk Hd) as (s' & Hr & _ & H1 & H2).
  exists s'. split; [exact Hr|]. split; [|done]. by eapply pses_find.
Qed.


(** [C12] [CachePurge] of a key the pool has: in memory the node of the key is
    taken out of the chain it was in and out of the ring it was in, its group
    has it back, and the block of its data is returned to the allocator; the
    pool then consists of the other entries, with their blocks and those of its
    clients, and a search for the key finds nothing.  The purge of a key that
    is not in the pool changes nothing.  Both return 0. *)
Theorem CachePurge_correct hc tn s es L us k j :
  quiet_notifier notify -> pool keySize hc tn s es L us -> (length es <= fuel)%nat ->
  wf_key keySize k -> all_data es ->
  ∃ s', CachePurge keySize hc tn notify fuel (k ++ j) s = Some (0, s') ∧
    ((k ∉ e_key <$> es) ∧ s' = s ∨
     ∃ es1 e es2 i u v h bs cnt, es = es1 ++ e :: es2 ∧ e_key e = k ∧ L i = u ++ e_node e :: v ∧
       e_data e = Some ((h, bs), cnt) ∧
       unlinked hc tn (k ++ j) (e_node e) s s' ∧ lru_lists s' (upd_list i (u ++ v) L) ∧
       node_given_back s' (e_node e) ∧ Free h (alloc s) = Some (0, alloc s') ∧
       pool keySize hc tn s' (es1 ++ es2) (upd_list i (u ++ v) L) us ∧
       ∀ newhash j', CacheFind keySize hc tn notify fuel (k ++ j') newhash s' = Some (CNode_NULL, s')).
Proof.
  intros Hq Hp Hf Hk Hd. destruct (CachePurge_ok keySize hc tn notify fuel Hq s es L us k j Hp Hf Hk Hd) as (r & s' & Hr & -> & Hor).
  exists s'. split; [exact Hr|]. destruct Hor as [[Hno ->]|(es1 & e & es2 & i & u & v & -> & <- & HL & (Hun & Hgb & [h bs] & cnt & He & Hfr) & Hp')].
  - left. split; [|done]. intros (e & -> & He)%list_elem_of_fmap. by destruct (Hno e He).
  - right. exists es1, e, es2, i, u, v, h, bs, cnt. assert (e ∈ es1 ++ e :: es2) as Hin by set_solver.
    split_and!; try done; [by eapply pool_lru|]. intros nh j'. eapply pool_gone; [exact Hp'| |done| |].
    + rewrite length_app in *. simpl in Hf. lia.
    + intros e' He'. apply Hd. set_solver.
    + destruct (pool_keys _ _ _ _ _ _ _ Hp) as [Hnd _]. rewrite fmap_app, fmap_cons in Hnd.
      apply NoDup_app in Hnd as (_ & D1 & [D2 _]%NoDup_cons). rewrite fmap_app. intros [Hi|Hi]%elem_of_app; [|done].
      apply (D1 _ Hi). by left.
Qed.
End spec.
