(* ===== verification/PoolExample.v ===== *)
(** * PoolExample: a pool with one entry

    A pool in a segment of 600000 bytes with keys of four bytes: formatted,
    then a node allocated for a key, a chunk stored, the handle set. *)

From stdpp Require Import gmap.
From S2P Require Import Prelude State Ring BinMalloc BinHeap BinClient BinSpec BinBytes Value Mallocator RawData RawBuf RawRow RawRep DataChunk NodeMem NodeGroup NodeIndex NgInfo NodeLinks NodeStore NodeAlloc NodeLru NodeInit NodeSession NodeSpec PoolMem PoolBin Hash Pool PoolChain PoolStep PoolHash PoolFind PoolInv PoolOps PoolRun PoolStart PoolSession PoolSpec.

Definition ex_notify : option (list Z -> CNode -> CM CBinMalloc unit) := Some (λ _ _, IncEmptyNode (-1)).
Lemma ex_notify_quiet : quiet_notifier ex_notify.
Proof. intros f key n s [= <-]. eexists. split; [reflexivity|]. by repeat split. Qed.

Abbreviation ex_session := (pool_session 4 ex_notify 8).

Definition ex_hashed : cmem CBinMalloc := then_ (hash_Init (HashBucketNum 600000) 4) ex_index.
Definition ex_pool : cmem CBinMalloc := then_ nginfo_Init ex_hashed.
Lemma ex_hashed_run : hash_Init (HashBucketNum 600000) 4 ex_index = Some (0, ex_hashed).
Proof. unfold ex_hashed. refine (then_run (hash_Init (HashBucketNum 600000) 4) ex_index 0 _). vm_compute. reflexivity. Qed.
Lemma ex_pool_run : nginfo_Init ex_hashed = Some (0, ex_pool).
Proof. unfold ex_pool. refine (then_run nginfo_Init ex_hashed 0 _). vm_compute. reflexivity. Qed.
Lemma ex_mem_ok : mem_ok [] [] ex_mem.
Proof.
  pose proof ex_mem_owns as Ho. split.
  - exists []. split; [exact Ho|]. intros h o Ho'. change (objs ex_mem) with (∅ : gmap Z obj) in Ho'. by rewrite lookup_empty in Ho'.
  - exists []. destruct Ho as (bs & bs' & Hs & Hp & Hf). apply Forall2_nil_inv_l in Hf as ->. exists bs, []. by split_and!.
Qed.
Lemma ex_pool_session hc tn : ex_session hc tn ex_pool [] (λ _, []) [].
Proof. exact (pses_start 4 ex_notify 8 hc tn ex_mem 600000 ex_index ex_hashed ex_pool ex_mem_ok eq_refl eq_refl ltac:(lia) ex_index_run ex_hashed_run ex_pool_run). Qed.

(** *** A node *)

Definition ex_key : list Z := [1; 2; 3; 4].
Lemma ex_key_wf : wf_key 4 ex_key.
Proof. split; [|done]. repeat (constructor; [unfold is_byte; lia|]). constructor. Qed.
Definition ex_slotted : cmem CBinMalloc := then_ (CacheAllocate false ex_key) ex_pool.
Definition ex_pnode : CNode := MkNode 545880 0.
Lemma ex_slotted_run : CacheAllocate false ex_key ex_pool = Some (ex_pnode, ex_slotted).
Proof. unfold ex_slotted. refine (then_run (CacheAllocate false ex_key) ex_pool ex_pnode _). vm_compute. reflexivity. Qed.
Lemma Some_pair {X Y} (x x' : X) (y y' : Y) : Some (x, y) = Some (x', y') -> x = x' ∧ y = y'.
Proof. by intros [= -> ->]. Qed.
Lemma ex_finds : index_finds ex_pool.
Proof.
  intros n s id Hr Hn Hid.
  assert (AllocateNode ex_pool = Some (ex_pnode, then_ AllocateNode ex_pool)) as Ha by (apply then_run; vm_compute; reflexivity).
  rewrite Ha in Hr. apply Some_pair in Hr as [<- <-].
  assert (node_id (then_ AllocateNode ex_pool) ex_pnode = Some 256) as Hi by (vm_compute; reflexivity). rewrite Hi in Hid. apply Some_inj in Hid as <-.
  assert (Search 256 (then_ AllocateNode ex_pool) = Some ex_pnode) as -> by (vm_compute; reflexivity). by intros [=].
Qed.
Lemma ex_slotted_session : ex_session false false ex_slotted [MkEntry ex_pnode ex_key None] (upd_list 1 [ex_pnode] (λ _, [])) [].
Proof.
  refine (pses_allocate 4 ex_notify 8 false false ex_pool [] (λ _, []) [] ex_key [] ex_pnode ex_slotted
    (ex_pool_session false false) ex_key_wf (not_elem_of_nil _) ex_finds _ _); [exact ex_slotted_run|done].
Qed.

(** *** Its data *)

Definition ex_blocked : cmem CBinMalloc := then_ (on_mem (mal_Malloc 20)) ex_slotted.
(** The end of a new block is that of its chunk. *)
Definition ex_rest : list Z := [0; 0; 0; 0; 32; 0; 0; 0].
Definition ex_block : list Z := replicate 20 0 ++ ex_rest.
Definition ex_bytes : list Z := head_bytes 20 1 (replicate 7 0) ex_key.
Lemma ex_blocked_run : on_mem (mal_Malloc 20) ex_slotted = Some (551088, ex_blocked).
Proof. unfold ex_blocked. refine (then_run (on_mem (mal_Malloc 20)) ex_slotted 551088 _). vm_compute. reflexivity. Qed.
Lemma ex_blocked_session :
  ex_session false false ex_blocked [MkEntry ex_pnode ex_key None] (upd_list 1 [ex_pnode] (λ _, [])) [(551088, ex_block)].
Proof.
  refine (pses_malloc 4 ex_notify 8 false false ex_slotted _ _ [] 20 551088 ex_blocked ex_block ex_slotted_session
    _ ex_blocked_run _ _ _); [lia|lia| |]; vm_compute; reflexivity.
Qed.

Definition ex_stored : cmem CBinMalloc := then_ (on_mem (pokes 551088 ex_bytes)) ex_blocked.
Lemma ex_stored_run : on_mem (pokes 551088 ex_bytes) ex_blocked = Some (tt, ex_stored).
Proof. unfold ex_stored. refine (then_run (on_mem (pokes 551088 ex_bytes)) ex_blocked tt _). vm_compute. reflexivity. Qed.
Lemma ex_stored_session :
  ex_session false false ex_stored [MkEntry ex_pnode ex_key None] (upd_list 1 [ex_pnode] (λ _, [])) [(551088, ex_bytes ++ ex_rest)].
Proof.
  refine (pses_pokes 4 ex_notify 8 false false ex_blocked _ _ [] 551088 [] (replicate 20 0) ex_rest ex_bytes ex_stored
    ex_blocked_session _ _ ex_stored_run); [done|].
  let l := eval vm_compute in ex_bytes in change ex_bytes with l. repeat (constructor; [unfold is_byte; lia|]). constructor.
Qed.

Definition ex_entry : entry := MkEntry ex_pnode ex_key (Some ((551088, ex_bytes ++ ex_rest), 1)).
Definition ex_full : cmem CBinMalloc := then_ (set_VDHandle ex_pnode 551088) ex_stored.
Lemma ex_full_run : set_VDHandle ex_pnode 551088 ex_stored = Some (tt, ex_full).
Proof. unfold ex_full. refine (then_run (set_VDHandle ex_pnode 551088) ex_stored tt _). vm_compute. reflexivity. Qed.
Lemma ex_full_session : ex_session false false ex_full [ex_entry] (upd_list 1 [ex_pnode] (λ _, [])) [].
Proof.
  refine (pses_data 4 ex_notify 8 false false ex_stored [] (MkEntry ex_pnode ex_key None) [] _ [] 551088 (ex_bytes ++ ex_rest) 1 tt ex_full
    ex_stored_session eq_refl _ _ ex_full_run); [|lia]. by exists 20, (replicate 7 0), ex_rest.
Qed.
Lemma ex_full_data : all_data [ex_entry].
Proof. by intros e ->%list_elem_of_singleton. Qed.

(** ** The witnesses *)

Lemma pool_consistent_witness :
  hash_get hh_node ex_full = Some (1, ex_full) ∧ NodeRowsCount ex_pnode ex_full = Some (1, ex_full) ∧
  in_chain false false ex_key ex_pnode ex_full ∧ ∃ sys, ring (MkNode sys 1) [ex_pnode] ex_full.
Proof.
  destruct (pool_consistent 4 ex_notify 8 false false ex_full [ex_entry] _ [] ex_notify_quiet ex_full_session) as ((_ & _ & H1) & (sys & Hr) & H2).
  destruct (H2 ex_entry ltac:(by left)) as (_ & Hc & _ & H3). split; [exact H1|].
  split; [by destruct (H3 551088 _ 1 eq_refl) as (_ & _ & _ & H4)|]. split; [exact Hc|]. exists sys. exact (proj2 (Hr 1 ltac:(lia))).
Defined.

(** A restart that begins to rehash: the look-up moves the node. *)
Lemma CacheFind_correct_witness :
  ∃ s', CacheFindAutoChoseHash 4 true true ex_notify 8 ex_key ex_full = Some (ex_pnode, s') ∧
    CacheFind 4 true true ex_notify 8 ex_key true s' = Some (ex_pnode, s').
Proof.
  destruct (CacheFind_correct 4 ex_notify 8 true true ex_full [ex_entry] _ [] ex_key [] ex_notify_quiet
    (pses_rehash 4 ex_notify 8 false true _ _ _ _ ex_full_session) ltac:(simpl; lia) ex_key_wf ex_full_data) as (s' & H1 & _ & _ & H2).
  exists s'. split; [exact H1|exact H2].
Defined.


Lemma ex_full_is : pool 4 false false ex_full [ex_entry] (upd_list 1 [ex_pnode] (λ _, [])) [].
Proof. exact (pool_session_sound 4 ex_notify 8 ex_notify_quiet _ _ _ _ _ _ ex_full_session). Qed.
Lemma ex_list_split i u n v : upd_list 1 [ex_pnode] (λ _, []) i = u ++ n :: v -> i = 1 ∧ u = [] ∧ n = ex_pnode ∧ v = [].
Proof.
  unfold upd_list. case_decide as Hi; intros E; [|by destruct u]. split; [done|].
  destruct u as [|x u]; [by injection E as -> ->|]. injection E as _ E. by destruct u.
Qed.
Lemma CachePurge_correct_witness :
  ∃ s', CachePurge 4 false false ex_notify 8 ex_key ex_full = Some (0, s') ∧
    unlinked false false ex_key ex_pnode ex_full s' ∧ node_given_back s' ex_pnode ∧
    Free 551088 (alloc ex_full) = Some (0, alloc s') ∧ (∃ sys, ring (MkNode sys 1) [] s') ∧
    CacheFind 4 false false ex_notify 8 ex_key false s' = Some (CNode_NULL, s').
Proof.
  destruct (CachePurge_correct 4 ex_notify 8 false false ex_full [ex_entry] _ [] ex_key [] ex_notify_quiet ex_full_is
    ltac:(simpl; lia) ex_key_wf ex_full_data) as (s' & H1 & [[Hno _]|H2]); [by destruct Hno; left|].
  destruct H2 as (es1 & e & es2 & i & u & v & h & bs & cnt & E & _ & HL & Hd & Hun & (sys & Hr) & Hgb & Hfr & _ & Hgone).
  destruct (ex_list_split _ _ _ _ HL) as (-> & -> & En & ->). destruct es1 as [|x es1]; [|injection E as _ E; by destruct es1].
  injection E as <- _. assert (551088 = h) as <- by exact (f_equal (λ x, fst (fst x)) (Some_inj _ _ Hd)).
  exists s'. split; [exact H1|]. split; [exact Hun|]. split; [exact Hgb|]. split; [exact Hfr|].
  split; [exists sys; exact (proj2 (Hr 1 ltac:(lia)))|exact (Hgone false [])].
Defined.
